(* ===== verification/_CoqProject ===== *)
-Q . S2P
Prelude.v
Bitmap.v
Interrupt.v
DList.v
Paging.v
Pages.v
Memory.v
Kernel.v
View.v
Sched.v
Resume.v
Timer.v
Tss.v
Sync.v
Mutex.v
Ioqueue.v
Keyboard.v
Heap.v
Thread.v
Wait.v
Process.v
Boot.v
HeapSpec.v
CString.v
Stdio.v
Console.v
Paths.v
Shell.v
Disk.v
Screen.v
Exceptions.v
Ide.v
Fsys.v
IdeSpec.v
Inode.v
Dir.v
File.v
FileSpec.v
DirSpec.v
DeleteSpec.v
Fs.v
FsSpec.v
Volumes.v
World.v
Pipe.v
Fork.v
ForkSpec.v
Exec.v
ExecSpec.v
Program.v
Builtin.v
CommandLine.v
Command.v
ProgramSpec.v
BuiltinSpec.v
Machine.v
CommandSpec.v
ShellSpec.v
PathSpec.v
Session.v
Ps.v
Exit.v
Syscall.v
SyscallSpec.v
