(* ===== verification/Prelude.v ===== *)
(** * Verification of the Gardos kernel

    Gardos is a small operating system kernel for the i386: it boots, builds
    page tables, schedules threads and processes with a round-robin scheduler,
    and offers a file system on an IDE disk and a shell.  This library models
    the C code under src/ as executable Rocq functions and proves what the
    parts promise to each other.

    ** How C is modelled

    Integers are [Z]; wherever the code converts to or stores into a type of a
    certain width, one of [u8] ... [i32] of this file stands.  Code without task
    switches is a function in the error-and-state monad [st] over the state of
    its component, or in [res] when it has no state; an ASSERT that fails is the
    error [EPanic], an access outside the memory the model gives the code is
    [EFault].  Code of the scheduler and of what calls it is in the monad [proc]
    over the record [Kernel.kernel]: its outcome is a result, an error, or
    [Switch s rest], which says that the processor went to another task in state
    [s] and [rest] is what the task that was switched out does when it runs
    again.  A suspended call is thus a value: interleavings are sequences of
    runs of such values.

    Loops whose end depends on data take fuel and end in [EFuel] when it is
    used up.  Loops over fields of fixed size are given their number of rounds.
    Where a theorem concludes with [Ok] or [Ret], the fuel it names is enough:
    one more than the length of the text for CString, Stdio, Paths and Shell,
    the length of the list for DList, the number of tests of a semaphore that
    may fail for Sync (one where nobody competes).

    ** The parts

    Base.  Bitmap (lib/kernel/bitmap.c), DList (lib/kernel/list.c on pointers;
    [SeqList] is the abstract view that the other files use), Interrupt
    (kernel/interrupt.c: the flag, the gates, the table of handlers), CString
    (lib/string.c on byte memory with aliasing), Stdio (lib/stdio.c).

    Memory, kernel/memory.c.  Paging has physical memory, the translation of
    the processor, the self map and [page_table_add]; Pages has [malloc_page],
    [mfree_page] and [mem_pool_init] over Bitmap and Paging; Memory adds lemmas
    on reading and writing mapped pages; Heap has the functions that take the
    pool locks, [sys_malloc] and [sys_free]; HeapSpec is their specification.

    Tasks.  Kernel is the state of the kernel; View runs the memory code of
    Paging and Pages in the address space of the running task.  Sched
    (thread/thread.c, the task switch of userprog/process.c and tss.c, the
    timer interrupt), Sync (thread/sync.c) and Mutex (its interleavings under
    preemption), Timer (device/timer.c), Tss (userprog/tss.c), Ioqueue
    (device/ioqueue.c), Keyboard (device/keyboard.c), Console (device/console.c
    and printk), Thread (pids, creation and end of threads), Process
    (userprog/process.c), Wait and Exit (userprog/wait_exit.c; Exit closes the
    files), Fork and Exec (userprog/fork.c and exec.c) with ForkSpec and
    ExecSpec, Ps (sys_ps).  Resume is about suspended code: it runs kernel code
    on a part of a larger state ([zoom]) and states total correctness across
    task switches ([settles]).  Boot has [mem_init] and [thread_init].

    Devices.  Ide is the driver of device/ide.c over a controller that is a
    parameter (the class [Ports]); IdeSpec states what an ATA controller
    promises for PIO transfers (the class [Ata]: a handshake and an interrupt for
    every sector) and proves that the driver, called for one sector, implements
    the operation the file system is modelled with.  Screen is print.S,
    Exceptions the reports of kernel/interrupt.c and kernel/debug.c on it.

    Files, fs/.  Disk has sectors and the encodings of the structures on the
    disk, Fsys the mounted partition, the objects in memory and the two block
    allocators; Inode, Dir, File and Fs follow the files of the same name.
    FileSpec, DirSpec, DeleteSpec, FsSpec and PathSpec specify them: a file is a
    sequence of bytes, a directory a finite map with insertion and deletion, a
    formatted partition a well-formed volume, a path a walk through directories.
    Volumes has [filesys_init] over all disks.  Paths treats path names on bytes, and shell/buildin_cmd.c that
    normalises them.

    System calls.  World puts the kernel and the file system together: each runs
    on its part, the descriptors of the running task are shared.  Pipe
    (shell/pipe.c, and [sys_read] and [sys_write] of fs/fs.c that choose between
    files, pipes and the keyboard), Syscall (lib/user/syscall.h and syscall.c,
    userprog/syscall-init.c, the handler in kernel/kernel.S) and SyscallSpec:
    arguments and buffers in the memory of a process.

    Programs.  Program makes a user program a function on its byte memory whose
    result is an interaction tree over the system calls; Shell (the line editor
    as a function of the keys, and [cmd_parse] of shell/shell.c), Builtin
    (shell/buildin_cmd.c), CommandLine (the loop of shell/shell.c and the
    process init of kernel/main.c), Command (command/).  ProgramSpec, BuiltinSpec,
    CommandSpec and ShellSpec specify them over any handler of the calls; Machine
    is the handler that the file system gives, and Session a run of the shell
    from the formatting of the disk to the text on the screen.

    A definition keeps the name of its C function; a loop of a function is a
    Fixpoint named after it.  Fields of structs keep their names.

    ** What the theorems show

    Memory: the bitmap scans find the lowest free bits, and stop the kernel when
    one bit is asked of a full bitmap; [page_table_add] maps one page and nothing
    else, [page_table_pte_remove] undoes it; [malloc_page] maps fresh frames at
    consecutive pages and [mfree_page] undoes it; the pools of [mem_pool_init]
    are disjoint; [sys_malloc] refines an allocator of disjoint zeroed blocks and
    [sys_free] gives back exactly the block it gets.

    Tasks: the scheduler keeps the state well formed, every ready task runs after
    its turn, a time slice has the promised length, [mtime_sleep] sleeps at least
    as long as asked; a lock excludes all others under every interleaving, and is
    handed to the task that waited longest; no statement of lock_acquire and
    lock_release fails an ASSERT, theirs or those of what they call; ring buffers and pipes are bounded FIFO queues whose
    reader is woken; keys become the text they type; pids are unique; a new page
    directory shares the kernel's half and nothing else; fork copies every page
    of the parent and leaves the parent alone; the loading of a segment puts the
    bytes of the file at its addresses; [sys_wait] collects a child and
    [sys_exit] wakes it; the boot of 32 megabytes is computed to its end.

    Devices: reading and writing one sector through the driver, across the task
    switches in which it waits, is reading and writing of that sector, and the
    interrupt wakes the task that waits; an exception is reported on the screen by its name.

    Files: [inode_sync] and [inode_open] are inverse, one object stands for an
    inode, release frees exactly its blocks; [file_write] appends to the content,
    [file_read] returns pieces of it; [sync_dir_entry], [search_dir_entry] and
    [delete_dir_entry] are insertion, lookup and deletion of a finite map;
    [search_file] follows the tree of directories and leaves only the last one
    open; a formatted partition mounts to a well-formed volume, and
    [filesys_init] brings a disk there; [sys_lseek] stays in the file.

    Text and programs: [vsprintf] prints what its format means, the path functions
    agree with the list of components, [readline] and [cmd_parse] edit and split
    lines; what a process writes to a pipe reaches the memory of the process
    that reads; the commands of the shell call the kernel with the absolute path
    an argument stands for, "cd" keeps the shell's working directory equal to the
    kernel's, "cat" prints the blocks of a file as strings, and a line runs the command its first word
    names.

    Some theorems state where the code fails: the one-bit scan of a full bitmap,
    inode numbers above 255, the inode that lies in two sectors, the loop of
    [delete_dir_entry] that never ends, a pipe that blocks when it computes that
    it does not, full blocks without a NUL that cat cannot print, disks that are never looked
    at for a file system.

    ** What is not modelled

    Transfers of several sectors are one step of the file system's model; that
    the driver performs them is shown for one sector only, since for more it
    does not follow the handshake of the ATA specification.
    The boot loader, the switch of stacks in thread/switch.S and the entry code
    of interrupts other than 0x80; what a switch does is the outcome [Switch].
    Messages of the kernel on the screen are left out where nothing depends on
    them.  kernel/init.c only calls the initialisations in order; each is a
    definition, they are not run one after the other on one state (Boot,
    Volumes and the initialisations of the devices have their own).  The
    programs of the shell run against handlers of the calls; that the kernel of
    Syscall is such a handler for the memory of a process is shown for reading
    and writing pipes only.  The TLB and caches are left out: a translation
    always reads the tables.  Nodes of the scheduler's lists and of the free
    lists are named by the object they lie in, not by their own address. *)
From stdpp Require Export base gmap list strings sorting.
From Stdlib Require Export ZArith Lia.

#[global] Open Scope Z_scope.

(** [lia] also decides goals with division and modulo by constants. *)
Ltac Zify.zify_post_hook ::= Z.div_mod_to_equations.

(** Arithmetic is left to [lia]: [simpl] does not unfold it. *)
#[global] Arguments Z.eqb : simpl never.
#[global] Arguments Z.ltb : simpl never.
#[global] Arguments Z.leb : simpl never.
#[global] Arguments Z.add : simpl never.
#[global] Arguments Z.sub : simpl never.
#[global] Arguments Z.mul : simpl never.
#[global] Arguments Z.div : simpl never.
#[global] Arguments Z.modulo : simpl never.
#[global] Arguments Z.land : simpl never.
#[global] Arguments Z.lor : simpl never.
#[global] Arguments Z.shiftl : simpl never.
#[global] Arguments Z.shiftr : simpl never.
#[global] Arguments Z.testbit : simpl never.

(** ** Machine integers of lib/stdint.h

    An integer of width [w] is a [Z]; every place where the C code converts or
    stores into a narrower type applies one of these functions. *)

Definition u8 (x : Z) : Z := x mod 2 ^ 8.

Definition u16 (x : Z) : Z := x mod 2 ^ 16.

Definition u32 (x : Z) : Z := x mod 2 ^ 32.

Definition i8 (x : Z) : Z := (x + 2 ^ 7) mod 2 ^ 8 - 2 ^ 7.

Definition i16 (x : Z) : Z := (x + 2 ^ 15) mod 2 ^ 16 - 2 ^ 15.

Definition i32 (x : Z) : Z := (x + 2 ^ 31) mod 2 ^ 32 - 2 ^ 31.

(** [DIV_ROUND_UP(X, STEP)] of kernel/global.h, at unsigned 32-bit width. *)
Definition DIV_ROUND_UP (x step : Z) : Z := u32 (x + step - 1) / step.

Definition PG_SIZE : Z := 4096.

(** ** Errors

    [EPanic]: an [ASSERT] failed or [PANIC] was called ([panic_spin] never
    returns).  [EFault]: an access outside the object (or the mapped memory)
    the model gives the code.  [EFuel]: the fuel given to a loop ran out. *)
Inductive error : Type :=
| EPanic
| EFault
| EFuel.

#[export] Instance error_eq_dec : EqDecision error.
Proof. solve_decision. Defined.

Inductive res (A : Type) : Type :=
| Ok (a : A)
| Bad (e : error).
Arguments Ok {A} a.
Arguments Bad {A} e.

#[export] Instance res_ret : MRet res := fun A a => Ok a.

#[export] Instance res_bind : MBind res := fun A B f m =>
  match m with Ok a => f a | Bad e => Bad e end.

#[export] Instance res_fmap : FMap res := fun A B f m =>
  match m with Ok a => Ok (f a) | Bad e => Bad e end.

(** [ASSERT(c)] of kernel/debug.h in the build of the makefile (no NDEBUG). *)
Definition ASSERT (c : bool) : res unit := if c then Ok tt else Bad EPanic.

Lemma bind_Ok {A B} (a : A) (f : A -> res B) : (Ok a ≫= f) = f a.
Proof. done. Qed.

Lemma bind_Bad {A B} e (f : A -> res B) : (Bad e ≫= f) = Bad e.
Proof. done. Qed.

Lemma bind_ASSERT {B} (c : bool) (f : unit -> res B) :
  (ASSERT c ≫= f) = if c then f tt else Bad EPanic.
Proof. by destruct c. Qed.

(** Reading and writing cell [i] of an array; outside the cells is [EFault]. *)
Definition rd {A} (l : list A) (i : Z) : res A :=
  if bool_decide (0 <= i) then
    match l !! Z.to_nat i with Some v => Ok v | None => Bad EFault end
  else Bad EFault.

Definition wr {A} (l : list A) (i : Z) (v : A) : res (list A) :=
  if bool_decide (0 <= i < Z.of_nat (length l)) then Ok (<[Z.to_nat i := v]> l)
  else Bad EFault.

(** ** Resumptions

    The outcome of kernel code that may give up the processor: it returns, it
    stops with an error, or [schedule] has switched to another task, leaving
    state [s]; [k] is the rest of the code, to be run in the state in which the
    calling task is resumed. *)
Inductive outcome (S A : Type) : Type :=
| Ret (a : A) (s : S)
| Err (e : error)
| Switch (s : S) (k : S -> outcome S A).
Arguments Ret {S A} a s.
Arguments Err {S A} e.
Arguments Switch {S A} s k.

Definition proc (S A : Type) : Type := S -> outcome S A.

Fixpoint outcome_bind {S A B} (f : A -> proc S B) (m : outcome S A) : outcome S B :=
  match m with
  | Ret a s => f a s
  | Err e => Err e
  | Switch s k => Switch s (fun s' => outcome_bind f (k s'))
  end.

#[export] Instance proc_ret {S} : MRet (proc S) := fun A a s => Ret a s.

#[export] Instance proc_bind {S} : MBind (proc S) := fun A B f m s =>
  outcome_bind f (m s).

Definition get {S} : proc S S := fun s => Ret s s.

Definition put {S} (s : S) : proc S unit := fun _ => Ret tt s.

Definition modify {S} (f : S -> S) : proc S unit := fun s => Ret tt (f s).

Definition fail {S A} (e : error) : proc S A := fun _ => Err e.

(** Running code that cannot switch tasks and does not change the state. *)
Definition lift {S A} (m : res A) : proc S A := fun s =>
  match m with Ok a => Ret a s | Bad e => Err e end.

Definition assert {S} (c : bool) : proc S unit := lift (ASSERT c).

(** Composition runs the first part, then the rest on its result. *)
Lemma run_bind {S A B} (m : proc S A) (f : A -> proc S B) s :
  (m ≫= f) s = outcome_bind f (m s).
Proof. done. Qed.

Lemma bind_Ret {S A B} (m : proc S A) (f : A -> proc S B) s a s' :
  m s = Ret a s' -> (m ≫= f) s = f a s'.
Proof. intros H. by rewrite run_bind, H. Qed.

Lemma bind_Err {S A B} (m : proc S A) (f : A -> proc S B) s e :
  m s = Err e -> (m ≫= f) s = Err e.
Proof. intros H. by rewrite run_bind, H. Qed.

Lemma bind_Switch {S A B} (m : proc S A) (f : A -> proc S B) s s' k :
  m s = Switch s' k -> (m ≫= f) s = Switch s' (fun s2 => outcome_bind f (k s2)).
Proof. intros H. by rewrite run_bind, H. Qed.

(** ** State without task switches

    Code of one component that runs to its end without giving up the processor:
    a function from the component's state to a result and the new state. *)
Definition st (S A : Type) : Type := S -> res (A * S).

#[export] Instance st_ret {S} : MRet (st S) := fun A a s => Ok (a, s).

#[export] Instance st_bind {S} : MBind (st S) := fun A B f m s =>
  match m s with Ok (a, s') => f a s' | Bad e => Bad e end.

Definition sget {S} : st S S := fun s => Ok (s, s).

Definition sput {S} (s : S) : st S unit := fun _ => Ok (tt, s).

Definition sres {S A} (m : res A) : st S A := fun s =>
  match m with Ok a => Ok (a, s) | Bad e => Bad e end.

Definition sassert {S} (c : bool) : st S unit := sres (ASSERT c).

Lemma sbind_Ok {S A B} (m : st S A) (f : A -> st S B) s a s' :
  m s = Ok (a, s') -> (m ≫= f) s = f a s'.
Proof. intros H. unfold mbind, st_bind. by rewrite H. Qed.

Lemma sbind_Bad {S A B} (m : st S A) (f : A -> st S B) s e :
  m s = Bad e -> (m ≫= f) s = Bad e.
Proof. intros H. unfold mbind, st_bind. by rewrite H. Qed.

Lemma sbind_assoc {S A B C} (m : st S A) (f : A -> st S B) (g : B -> st S C) s :
  ((m ≫= f) ≫= g) s = (m ≫= fun a => f a ≫= g) s.
Proof. unfold mbind, st_bind. by destruct (m s) as [[]|]. Qed.

(** [run H] performs the first step of a sequence, whose outcome [H] states. *)
Ltac run H := first [ rewrite (sbind_Ok _ _ _ _ _ H) | rewrite (bind_Ret _ _ _ _ _ H) ].

(** ** Integer lemmas *)

Lemma u8_id x : 0 <= x < 2 ^ 8 -> u8 x = x.
Proof. apply Z.mod_small. Qed.

Lemma u16_id x : 0 <= x < 2 ^ 16 -> u16 x = x.
Proof. apply Z.mod_small. Qed.

Lemma u32_id x : 0 <= x < 2 ^ 32 -> u32 x = x.
Proof. apply Z.mod_small. Qed.

Lemma i8_id x : - 2 ^ 7 <= x < 2 ^ 7 -> i8 x = x.
Proof. intros. unfold i8. rewrite Z.mod_small; lia. Qed.

Lemma i16_id x : - 2 ^ 15 <= x < 2 ^ 15 -> i16 x = x.
Proof. intros. unfold i16. rewrite Z.mod_small; lia. Qed.

Lemma i32_id x : - 2 ^ 31 <= x < 2 ^ 31 -> i32 x = x.
Proof. intros. unfold i32. rewrite Z.mod_small; lia. Qed.

Lemma u8_range x : 0 <= u8 x < 2 ^ 8.
Proof. apply Z.mod_pos_bound; lia. Qed.

Lemma u16_range x : 0 <= u16 x < 2 ^ 16.
Proof. apply Z.mod_pos_bound; lia. Qed.

Lemma u32_range x : 0 <= u32 x < 2 ^ 32.
Proof. apply Z.mod_pos_bound; lia. Qed.

(** Drops the wrap-arounds whose argument [lia] shows to be in range. *)
Ltac unwrap :=
  repeat match goal with
  | |- context [u32 ?x] => rewrite (u32_id x) by lia
  | |- context [i32 ?x] => rewrite (i32_id x) by lia
  | |- context [u16 ?x] => rewrite (u16_id x) by lia
  | |- context [i16 ?x] => rewrite (i16_id x) by lia
  | |- context [u8 ?x] => rewrite (u8_id x) by lia
  | |- context [i8 ?x] => rewrite (i8_id x) by lia
  end.

Ltac unwrap_in H :=
  repeat match type of H with
  | context [u32 ?x] => rewrite (u32_id x) in H by lia
  | context [i32 ?x] => rewrite (i32_id x) in H by lia
  | context [u16 ?x] => rewrite (u16_id x) in H by lia
  | context [i16 ?x] => rewrite (i16_id x) in H by lia
  | context [u8 ?x] => rewrite (u8_id x) in H by lia
  | context [i8 ?x] => rewrite (i8_id x) in H by lia
  end.

(** ** Array lemmas *)

Lemma rd_Ok {A} (l : list A) i v :
  rd l i = Ok v <-> 0 <= i /\ l !! Z.to_nat i = Some v.
Proof.
  unfold rd. case_bool_decide as Hi; [|naive_solver].
  destruct (l !! Z.to_nat i); naive_solver.
Qed.

Lemma rd_in {A} (l : list A) i :
  0 <= i < Z.of_nat (length l) -> exists v, rd l i = Ok v.
Proof.
  intros Hi. destruct (lookup_lt_is_Some_2 l (Z.to_nat i)) as [v Hv]; [lia|].
  exists v. apply rd_Ok. split; [lia|done].
Qed.

Lemma rd_out {A} (l : list A) i :
  ~ (0 <= i < Z.of_nat (length l)) -> rd l i = Bad EFault.
Proof.
  intros Hi. unfold rd. case_bool_decide; [|done].
  by rewrite lookup_ge_None_2 by lia.
Qed.

Lemma wr_in {A} (l : list A) i v :
  0 <= i < Z.of_nat (length l) -> wr l i v = Ok (<[Z.to_nat i := v]> l).
Proof. intros. unfold wr. by rewrite bool_decide_true. Qed.

Lemma rd_wr_eq {A} (l l' : list A) i v : wr l i v = Ok l' -> rd l' i = Ok v.
Proof.
  unfold wr. case_bool_decide; [|done]. intros [= <-]. apply rd_Ok.
  rewrite list_lookup_insert_eq by lia. split; [lia|done].
Qed.

Lemma rd_wr_ne {A} (l l' : list A) i j v :
  wr l i v = Ok l' -> i <> j -> rd l' j = rd l j.
Proof.
  unfold wr. case_bool_decide; [|done]. intros [= <-] Hne. unfold rd.
  case_bool_decide; [|done]. rewrite list_lookup_insert_ne by lia. done.
Qed.

Lemma wr_length {A} (l l' : list A) i v : wr l i v = Ok l' -> length l' = length l.
Proof.
  unfold wr. case_bool_decide; [|done]. intros [= <-]. apply length_insert.
Qed.

(** ** List lemmas *)

Lemma filter_all {A} (P : A -> Prop) `{forall x, Decision (P x)} (l : list A) :
  (forall x, x ∈ l -> P x) -> filter P l = l.
Proof.
  induction l as [|a l IH]; intros Hall; [done|].
  rewrite filter_cons_True by (apply Hall; set_solver).
  f_equal. apply IH. intros x Hx. apply Hall. set_solver.
Qed.

Create HintDb gardos.
Create Rewrite HintDb gardos.
#[export] Hint Rewrite @bind_Ok @bind_Bad @bind_ASSERT : gardos.
#[export] Hint Rewrite @length_insert @length_app @length_replicate : gardos.
