(* ===== verification/Bitmap.v ===== *)
(** * Bitmap: lib/kernel/bitmap.c and struct bitmap of lib/kernel/bitmap.h

    The state is the struct itself: the length in bytes and the memory cells
    the [bits] pointer designates.  The cells may extend past the
    [btmp_bytes_len] bytes of the bitmap, since [bitmap_scan] looks at the byte
    behind the last one.  [bm_bit] is the abstract view (a predicate on bit
    indices) in which the operations are specified. *)
From S2P Require Import Prelude.

(** ** Data and operations *)

Definition BITMAP_MASK : Z := 1.

Record bitmap : Type := Bitmap {
  btmp_bytes_len : Z;
  bits : list Z
}.

(** [bitmap_init]: [memset(btmp->bits, 0, btmp->btmp_bytes_len)]. *)
Definition bitmap_init (b : bitmap) : res bitmap :=
  if bool_decide (btmp_bytes_len b <= Z.of_nat (length (bits b))) then
    Ok (Bitmap (btmp_bytes_len b)
          (replicate (Z.to_nat (btmp_bytes_len b)) 0
             ++ drop (Z.to_nat (btmp_bytes_len b)) (bits b)))
  else Bad EFault.

(** [bitmap_scan_test] returns the masked byte, an int used as a truth value. *)
Definition bitmap_scan_test (b : bitmap) (bit_idx : Z) : res Z :=
  let byte_idx := bit_idx / 8 in
  let bit_odd := bit_idx mod 8 in
  byte ← rd (bits b) byte_idx;
  mret (Z.land byte (Z.shiftl BITMAP_MASK bit_odd)).

(** The first loop of [bitmap_scan]: skip the bytes equal to 0xff.  The byte is
    read before the index is compared with the length. *)
Fixpoint scan_bytes (fuel : nat) (b : bitmap) (idx_byte : Z) : res Z :=
  match fuel with
  | O => Bad EFuel
  | S fuel' =>
    v ← rd (bits b) idx_byte;
    if (255 =? v) && (idx_byte <? btmp_bytes_len b)
    then scan_bytes fuel' b (u32 (idx_byte + 1))
    else mret idx_byte
  end.

(** The second loop: the first clear bit of the byte. *)
Fixpoint scan_bits (fuel : nat) (byte idx_bit : Z) : res Z :=
  match fuel with
  | O => Bad EFuel
  | S fuel' =>
    if Z.land (u8 (Z.shiftl BITMAP_MASK idx_bit)) byte =? 0 then mret idx_bit
    else scan_bits fuel' byte (idx_bit + 1)
  end.

(** The third loop, [while (bit_left-- > 0)]: [bit_left] is the recursion
    argument; the result is [bit_idx_start], -1 when no run was found. *)
Fixpoint scan_run (bit_left : nat) (b : bitmap) (cnt next_bit count : Z) : res Z :=
  match bit_left with
  | O => mret (-1)
  | S bit_left' =>
    t ← bitmap_scan_test b next_bit;
    let count := if t =? 0 then u32 (count + 1) else 0 in
    if count =? cnt then mret (i32 (next_bit - cnt + 1))
    else scan_run bit_left' b cnt (u32 (next_bit + 1)) count
  end.

Definition bitmap_scan (b : bitmap) (cnt : Z) : res Z :=
  idx_byte ← scan_bytes (S (Z.to_nat (btmp_bytes_len b))) b 0;
  _ ← ASSERT (idx_byte <? btmp_bytes_len b);
  if idx_byte =? btmp_bytes_len b then mret (-1)
  else
    byte ← rd (bits b) idx_byte;
    idx_bit ← scan_bits 9 byte 0;
    let bit_idx_start := i32 (u32 (idx_byte * 8) + idx_bit) in
    if cnt =? 1 then mret bit_idx_start
    else
      let bit_left := u32 (u32 (btmp_bytes_len b * 8) - bit_idx_start) in
      let next_bit := u32 (bit_idx_start + 1) in
      scan_run (Z.to_nat bit_left) b cnt next_bit 1.

Definition bitmap_set (b : bitmap) (bit_idx value : Z) : res bitmap :=
  _ ← ASSERT ((value =? 0) || (value =? 1));
  let byte_idx := bit_idx / 8 in
  let bit_odd := bit_idx mod 8 in
  byte ← rd (bits b) byte_idx;
  let byte' :=
    if negb (value =? 0) then u8 (Z.lor byte (Z.shiftl BITMAP_MASK bit_odd))
    else u8 (Z.land byte (Z.lnot (Z.shiftl BITMAP_MASK bit_odd))) in
  cells ← wr (bits b) byte_idx byte';
  mret (Bitmap (btmp_bytes_len b) cells).

(** ** Abstract view and well-formedness *)

Definition bm_bit (b : bitmap) (i : Z) : bool :=
  match bits b !! Z.to_nat (i / 8) with
  | Some v => Z.testbit v (i mod 8)
  | None => true
  end.

Definition bm_bits (b : bitmap) : Z := 8 * btmp_bytes_len b.

(** A bitmap the kernel works on: cells are bytes, at least one cell is mapped
    behind the bitmap, and bit indices fit an [int]. *)
Record bitmap_ok (b : bitmap) : Prop := {
  bo_len : 0 <= btmp_bytes_len b < Z.of_nat (length (bits b));
  bo_int : bm_bits b + 8 < 2 ^ 31;
  bo_bytes : Forall (fun v => 0 <= v < 256) (bits b)
}.

Definition clear_run (b : bitmap) (s cnt : Z) : Prop :=
  forall j, s <= j < s + cnt -> bm_bit b j = false.

(** ** Bits of a byte *)

Lemma land_mask_zero v i :
  0 <= i -> (Z.land v (Z.shiftl 1 i) =? 0) = negb (Z.testbit v i).
Proof.
  intros Hi. destruct (Z.testbit v i) eqn:E; simpl.
  - apply Z.eqb_neq. intros H0.
    assert (Z.testbit (Z.land v (Z.shiftl 1 i)) i = true) as H1.
    { rewrite Z.land_spec, E, Z.shiftl_spec by lia.
      by replace (i - i) with 0 by lia. }
    by rewrite H0, Z.bits_0 in H1.
  - apply Z.eqb_eq. apply Z.bits_inj'. intros n Hn.
    rewrite Z.bits_0, Z.land_spec.
    destruct (decide (n = i)) as [->|Hne]; [by rewrite E|].
    rewrite Z.shiftl_1_l, Z.pow2_bits_false by lia. apply andb_false_r.
Qed.

Lemma set_mask_testbit v i n :
  0 <= i -> 0 <= n ->
  Z.testbit (Z.lor v (Z.shiftl 1 i)) n = if decide (n = i) then true else Z.testbit v n.
Proof.
  intros Hi Hn. rewrite Z.lor_spec, Z.shiftl_1_l. case_decide; subst.
  - rewrite Z.pow2_bits_true by lia. apply orb_true_r.
  - rewrite Z.pow2_bits_false by lia. apply orb_false_r.
Qed.

Lemma clear_mask_testbit v i n :
  0 <= i -> 0 <= n ->
  Z.testbit (Z.land v (Z.lnot (Z.shiftl 1 i))) n
  = if decide (n = i) then false else Z.testbit v n.
Proof.
  intros Hi Hn. rewrite Z.land_spec, Z.lnot_spec, Z.shiftl_1_l by lia.
  case_decide; subst.
  - rewrite Z.pow2_bits_true by lia. apply andb_false_r.
  - rewrite Z.pow2_bits_false by lia. apply andb_true_r.
Qed.

Lemma u8_testbit v n : 0 <= n < 8 -> Z.testbit (u8 v) n = Z.testbit v n.
Proof. intros. unfold u8. apply Z.mod_pow2_bits_low. lia. Qed.

Lemma byte_full v :
  0 <= v < 256 -> (forall n, 0 <= n < 8 -> Z.testbit v n = true) -> v = 255.
Proof.
  intros Hv H. apply Z.bits_inj'. intros n Hn.
  destruct (decide (n < 8)) as [Hl|Hl].
  - rewrite H by lia.
    assert (n = 0 \/ n = 1 \/ n = 2 \/ n = 3 \/ n = 4 \/ n = 5 \/ n = 6 \/ n = 7) as Hc by lia.
    by repeat destruct Hc as [->|Hc]; [..|subst].
  - rewrite <- (Z.mod_small v (2 ^ 8)), <- (Z.mod_small 255 (2 ^ 8)) by lia.
    by rewrite !Z.mod_pow2_bits_high by lia.
Qed.

Lemma byte_full_bit n : 0 <= n < 8 -> Z.testbit 255 n = true.
Proof.
  intros.
  assert (n = 0 \/ n = 1 \/ n = 2 \/ n = 3 \/ n = 4 \/ n = 5 \/ n = 6 \/ n = 7) as Hc by lia.
  by repeat destruct Hc as [->|Hc]; [..|subst].
Qed.

(** ** The loops of bitmap_scan *)

Lemma bm_cell b i :
  bitmap_ok b -> 0 <= i < 8 * Z.of_nat (length (bits b)) ->
  exists v, rd (bits b) (i / 8) = Ok v /\ 0 <= v < 256
            /\ bm_bit b i = Z.testbit v (i mod 8).
Proof.
  intros [_ _ Hb] Hi. destruct (rd_in (bits b) (i / 8)) as [v Hv]; [lia|].
  exists v. split; [done|]. apply rd_Ok in Hv as [_ Hv].
  split; [by eapply (Forall_lookup_1 _ _ _ _ Hb)|]. unfold bm_bit. by rewrite Hv.
Qed.

Lemma scan_test_spec b i :
  bitmap_ok b -> 0 <= i < 8 * Z.of_nat (length (bits b)) ->
  exists t, bitmap_scan_test b i = Ok t /\ (t =? 0) = negb (bm_bit b i).
Proof.
  intros Hb Hi. destruct (bm_cell b i Hb Hi) as (v & Hv & _ & Hbit).
  exists (Z.land v (Z.shiftl 1 (i mod 8))). unfold bitmap_scan_test.
  rewrite Hv, Hbit. split; [done|]. apply land_mask_zero. lia.
Qed.

Lemma scan_bytes_spec b fuel idx :
  bitmap_ok b -> 0 <= idx <= btmp_bytes_len b ->
  btmp_bytes_len b - idx < Z.of_nat fuel ->
  exists r, scan_bytes fuel b idx = Ok r /\ idx <= r <= btmp_bytes_len b
    /\ (forall j, 8 * idx <= j < 8 * r -> bm_bit b j = true)
    /\ (r < btmp_bytes_len b -> exists v, rd (bits b) r = Ok v /\ 0 <= v < 256 /\ v <> 255).
Proof.
  intros Hb. pose proof Hb as [Hlen Hint _]. unfold bm_bits in Hint.
  revert idx. induction fuel as [|fuel IH]; intros idx Hidx Hfuel; [lia|].
  destruct (bm_cell b (8 * idx)) as (v & Hv & Hvr & _); [done|lia|].
  replace (8 * idx / 8) with idx in Hv by lia.
  simpl. rewrite Hv. simpl.
  destruct ((255 =? v) && (idx <? btmp_bytes_len b)) eqn:E.
  - apply andb_true_iff in E as [E1 E2].
    apply Z.eqb_eq in E1. apply Z.ltb_lt in E2. unwrap.
    destruct (IH (idx + 1)) as (r & Hr & Hrange & Hfull & Hlast); [lia|lia|].
    exists r. split; [done|]. split; [lia|]. split; [|done].
    intros j Hj. destruct (decide (j < 8 * (idx + 1))); [|apply Hfull; lia].
    destruct (bm_cell b j) as (v' & Hv' & _ & ->); [done|lia|].
    replace (j / 8) with idx in Hv' by lia.
    rewrite Hv in Hv'. injection Hv' as <-. subst v. apply byte_full_bit. lia.
  - exists idx. split; [done|]. split; [lia|]. split; [lia|].
    intros Hlt. exists v. split; [done|]. split; [done|].
    intros ->. rewrite Z.eqb_refl in E. simpl in E. apply Z.ltb_ge in E. lia.
Qed.

Lemma scan_bits_spec fuel v i :
  0 <= v < 256 -> v <> 255 -> 0 <= i <= 8 -> 8 - i < Z.of_nat fuel ->
  (forall n, 0 <= n < i -> Z.testbit v n = true) ->
  exists r, scan_bits fuel v i = Ok r /\ i <= r < 8 /\ Z.testbit v r = false
    /\ (forall n, 0 <= n < r -> Z.testbit v n = true).
Proof.
  intros Hv Hne. revert i. induction fuel as [|fuel IH]; intros i Hi Hf Hset; [lia|].
  assert (i < 8) as Hi8.
  { destruct (decide (i < 8)); [done|]. exfalso. apply Hne.
    apply byte_full; [done|]. intros. apply Hset. lia. }
  assert (0 <= Z.shiftl 1 i < 2 ^ 8) as Hsh.
  { rewrite Z.shiftl_1_l. split; [lia|]. apply Z.pow_lt_mono_r; lia. }
  simpl. change BITMAP_MASK with 1. unwrap. rewrite Z.land_comm.
  rewrite land_mask_zero by lia. destruct (Z.testbit v i) eqn:E; simpl.
  - destruct (IH (i + 1)) as (r & Hr & ? & ? & ?); [lia|lia| |].
    { intros n Hn. destruct (decide (n = i)) as [->|]; [done|]. apply Hset. lia. }
    exists r. split_and!; done || lia.
  - exists i. split_and!; done || lia.
Qed.

(** What [bitmap_scan] promises for a run of [cnt] bits: the lowest run, where a
    run may reach one bit past the bitmap, or -1 when there is none. *)
Definition lowest_run (b : bitmap) (cnt r : Z) : Prop :=
  (r = -1 /\ forall s, 0 <= s -> s + cnt <= bm_bits b + 1 -> ~ clear_run b s cnt)
  \/ (0 <= r /\ r + cnt <= bm_bits b + 1 /\ clear_run b r cnt
      /\ forall s, 0 <= s < r -> ~ clear_run b s cnt).

Lemma scan_run_spec b cnt k n c :
  bitmap_ok b -> 1 <= cnt < 2 ^ 31 -> 0 <= c < cnt -> c <= n ->
  n + Z.of_nat k = bm_bits b + 1 ->
  clear_run b (n - c) c ->
  (n - c = 0 \/ bm_bit b (n - c - 1) = true) ->
  (forall s, 0 <= s -> s + cnt <= n -> ~ clear_run b s cnt) ->
  exists r, scan_run k b cnt n c = Ok r /\ lowest_run b cnt r.
Proof.
  intros Hb Hcnt. pose proof Hb as [Hlen Hint _]. unfold bm_bits in *.
  revert n c. induction k as [|k IH]; intros n c Hc Hcn Hk Hrun Hmax Hno.
  { exists (-1). split; [done|]. left. split; [done|].
    intros s Hs Hs2. apply Hno; [done|]. unfold bm_bits in Hs2. lia. }
  destruct (scan_test_spec b n) as (t & Ht & Hz); [done|lia|].
  simpl. rewrite Ht. simpl. rewrite Hz. destruct (bm_bit b n) eqn:En; simpl.
  - replace (0 =? cnt) with false by (symmetry; apply Z.eqb_neq; lia).
    unwrap. apply IH; [lia|lia|lia| | |].
    + intros j Hj. lia.
    + right. by replace (n + 1 - 0 - 1) with n by lia.
    + intros s Hs Hs2 Hr. destruct (decide (s + cnt <= n)); [by apply (Hno s)|].
      rewrite Hr in En by lia. done.
  - unwrap.
    assert (forall s, 0 <= s -> s + cnt <= n + 1 -> clear_run b s cnt -> s = n - c /\ cnt = c + 1)
      as Honly.
    { intros s Hs Hs2 Hr. destruct (decide (s + cnt <= n)); [by destruct (Hno s)|].
      assert (n - c <= s).
      { destruct Hmax as [|Hm]; [lia|]. destruct (decide (n - c <= s)); [done|].
        rewrite Hr in Hm by lia. done. }
      lia. }
    assert (clear_run b (n - c) (c + 1)) as Hrun'.
    { intros j Hj. destruct (decide (j = n)) as [->|]; [done|]. apply Hrun. lia. }
    destruct (c + 1 =? cnt) eqn:Ec.
    + apply Z.eqb_eq in Ec. exists (n - c). replace (n - cnt + 1) with (n - c) by lia.
      unwrap. split; [done|]. right. unfold bm_bits. split_and!; [lia|lia|by rewrite <- Ec|].
      intros s Hs Hr. destruct (Honly s) as [? _]; [lia|lia|done|lia].
    + apply Z.eqb_neq in Ec. apply IH; [lia|lia|lia| | |].
      * by replace (n + 1 - (c + 1)) with (n - c) by lia.
      * by replace (n + 1 - (c + 1)) with (n - c) by lia.
      * intros s Hs Hs2 Hr. destruct (Honly s) as [_ ?]; [done|done|done|lia].
Qed.

(** ** bitmap_scan *)

(** The part of [bitmap_scan] before the run is counted: either every bit is
    set and the [ASSERT] stops the kernel, or the scan goes on from the lowest
    clear bit. *)
Lemma scan_start b :
  bitmap_ok b ->
  ((forall j, 0 <= j < bm_bits b -> bm_bit b j = true)
    /\ forall cnt, bitmap_scan b cnt = Bad EPanic)
  \/ exists st, 0 <= st < bm_bits b /\ bm_bit b st = false
    /\ (forall j, 0 <= j < st -> bm_bit b j = true)
    /\ forall cnt, bitmap_scan b cnt
       = if cnt =? 1 then Ok st
         else scan_run (Z.to_nat (bm_bits b - st)) b cnt (st + 1) 1.
Proof.
  intros Hb. pose proof Hb as [Hlen Hint _]. unfold bm_bits in *.
  destruct (scan_bytes_spec b (S (Z.to_nat (btmp_bytes_len b))) 0)
    as (r & Hr & Hrange & Hfull & Hlast); [done|lia|lia|].
  destruct (decide (r = btmp_bytes_len b)) as [->|Hne].
  { left. split; [intros; apply Hfull; lia|]. intros cnt.
    unfold bitmap_scan. by rewrite Hr, bind_Ok, bind_ASSERT, Z.ltb_irrefl. }
  right. destruct Hlast as (v & Hv & Hvr & Hv255); [lia|].
  destruct (scan_bits_spec 9 v 0) as (k & Hk & Hkr & Hclear & Hset); [done|done|lia|lia|lia|].
  assert (forall n, 0 <= n < 8 -> bm_bit b (8 * r + n) = Z.testbit v n) as Hcell.
  { intros n Hn. destruct (bm_cell b (8 * r + n)) as (w & Hw & _ & ->); [done|lia|].
    replace ((8 * r + n) / 8) with r in Hw by lia.
    replace ((8 * r + n) mod 8) with n by lia. congruence. }
  exists (8 * r + k). split_and!; [lia|lia|by rewrite Hcell by lia| |].
  { intros j Hj. destruct (decide (j < 8 * r)); [apply Hfull; lia|].
    replace j with (8 * r + (j - 8 * r)) by lia. rewrite Hcell by lia. apply Hset. lia. }
  intros cnt. unfold bitmap_scan. rewrite Hr, bind_Ok.
  replace (r <? btmp_bytes_len b) with true by lia.
  replace (r =? btmp_bytes_len b) with false by lia.
  rewrite bind_ASSERT, Hv, bind_Ok, Hk, bind_Ok. unwrap.
  replace (r * 8 + k) with (8 * r + k) by lia.
  destruct (cnt =? 1); [done|].
  by replace (btmp_bytes_len b * 8 - (8 * r + k)) with (8 * btmp_bytes_len b - (8 * r + k)) by lia.
Qed.

Lemma scan_one b :
  bitmap_ok b ->
  (exists i, bitmap_scan b 1 = Ok i /\ 0 <= i < bm_bits b /\ bm_bit b i = false
     /\ forall j, 0 <= j < i -> bm_bit b j = true)
  \/ (bitmap_scan b 1 = Bad EPanic /\ forall j, 0 <= j < bm_bits b -> bm_bit b j = true).
Proof.
  intros Hb. destruct (scan_start b Hb) as [[Hall Hp]|(st & Hst & Hc & Hs & Heq)].
  - right. by rewrite Hp.
  - left. exists st. by rewrite Heq.
Qed.

Lemma scan_many b cnt :
  bitmap_ok b -> 2 <= cnt < 2 ^ 31 ->
  (exists i, 0 <= i < bm_bits b /\ bm_bit b i = false) ->
  exists r, bitmap_scan b cnt = Ok r /\ lowest_run b cnt r.
Proof.
  intros Hb Hcnt (i & Hi & Hci). pose proof Hb as [Hlen Hint _].
  destruct (scan_start b Hb) as [[Hall _]|(st & Hst & Hc & Hs & Heq)].
  { rewrite Hall in Hci by done. done. }
  rewrite Heq. replace (cnt =? 1) with false by lia.
  apply scan_run_spec; [done|lia|lia|lia|lia| | |].
  - intros j Hj. by replace j with st by lia.
  - destruct (decide (st = 0)); [lia|]. right. apply Hs. lia.
  - intros s Hs0 Hs1 Hr. destruct (decide (s = st)); [lia|].
    destruct (decide (s < st)); [|lia]. pose proof (Hs s ltac:(lia)) as H1.
    rewrite Hr in H1 by lia. done.
Qed.

(** ** bitmap_set and bitmap_init *)

Lemma set_bit b i v :
  bitmap_ok b -> 0 <= i < 8 * Z.of_nat (length (bits b)) -> v = 0 \/ v = 1 ->
  exists b', bitmap_set b i v = Ok b' /\ bitmap_ok b'
    /\ btmp_bytes_len b' = btmp_bytes_len b /\ length (bits b') = length (bits b)
    /\ forall j, 0 <= j -> bm_bit b' j = if decide (j = i) then v =? 1 else bm_bit b j.
Proof.
  intros Hb Hi Hv. destruct (bm_cell b i Hb Hi) as (w & Hw & Hwr & Hbit).
  pose proof Hb as [Hlen Hint Hbytes]. unfold bitmap_set.
  rewrite bind_ASSERT. replace ((v =? 0) || (v =? 1)) with true by lia.
  rewrite Hw, bind_Ok, wr_in, bind_Ok by lia.
  set (w' := if negb (v =? 0) then _ else _).
  assert (0 <= w' < 256) as Hw' by (subst w'; case_match; apply u8_range).
  assert (forall n, 0 <= n < 8 ->
    Z.testbit w' n = if decide (n = i mod 8) then v =? 1 else Z.testbit w n) as Hbits.
  { intros n Hn. subst w'. destruct Hv as [-> | ->]; simpl; rewrite u8_testbit by lia.
    - by rewrite clear_mask_testbit by lia.
    - by rewrite set_mask_testbit by lia. }
  eexists. split; [done|]. split_and!; simpl.
  - constructor; simpl; [by rewrite length_insert|done|]. by apply Forall_insert.
  - done.
  - by rewrite length_insert.
  - intros j Hj. unfold bm_bit; simpl.
    destruct (decide (j / 8 = i / 8)) as [Hq|Hq].
    + rewrite Hq, list_lookup_insert_eq, Hbits by lia.
      apply rd_Ok in Hw as [_ ->]. repeat case_decide; done || (exfalso; lia).
    + rewrite list_lookup_insert_ne by lia.
      rewrite decide_False; [done|]. intros ->. done.
Qed.

Lemma set_bad_value b i v :
  v <> 0 -> v <> 1 -> bitmap_set b i v = Bad EPanic.
Proof.
  intros. unfold bitmap_set. rewrite bind_ASSERT.
  by replace ((v =? 0) || (v =? 1)) with false by lia.
Qed.

Lemma init_clear b :
  0 <= btmp_bytes_len b < Z.of_nat (length (bits b)) -> bm_bits b + 8 < 2 ^ 31 ->
  Forall (fun v => 0 <= v < 256) (bits b) ->
  exists b', bitmap_init b = Ok b' /\ bitmap_ok b'
    /\ btmp_bytes_len b' = btmp_bytes_len b /\ length (bits b') = length (bits b)
    /\ forall j, 0 <= j < bm_bits b -> bm_bit b' j = false.
Proof.
  intros Hlen Hint Hbytes. unfold bitmap_init. rewrite bool_decide_true by lia.
  eexists. split; [done|]. split_and!; simpl; [constructor; simpl| | |].
  - rewrite length_app, length_replicate, length_drop. lia.
  - done.
  - apply Forall_app. split; [apply Forall_replicate; lia|by apply Forall_drop].
  - done.
  - rewrite length_app, length_replicate, length_drop. lia.
  - intros j Hj. unfold bm_bits in Hj. unfold bm_bit; simpl.
    rewrite lookup_app_l, lookup_replicate_2 by (rewrite ?length_replicate; lia).
    apply Z.bits_0.
Qed.

(** Scanning for one bit and taking it, the allocation step shared by the page
    pools, the pid pool and the inode and block bitmaps. *)
Definition take_bit (b : bitmap) : res (Z * bitmap) :=
  i ← bitmap_scan b 1;
  b' ← bitmap_set b i 1;
  mret (i, b').

Lemma take_bit_spec b :
  bitmap_ok b ->
  (exists i b', bitmap_scan b 1 = Ok i /\ bitmap_set b i 1 = Ok b'
     /\ take_bit b = Ok (i, b')
     /\ 0 <= i < bm_bits b /\ bm_bit b i = false /\ bitmap_ok b'
     /\ btmp_bytes_len b' = btmp_bytes_len b /\ length (bits b') = length (bits b)
     /\ (forall j, 0 <= j -> bm_bit b' j = bm_bit b j || bool_decide (j = i)))
  \/ (bitmap_scan b 1 = Bad EPanic /\ take_bit b = Bad EPanic
      /\ forall j, 0 <= j < bm_bits b -> bm_bit b j = true).
Proof.
  intros Hb. pose proof (bo_len b Hb). unfold take_bit.
  destruct (scan_one b Hb) as [(i & Hi & Hir & Hc & _)|[Hp Hall]].
  - left. destruct (set_bit b i 1) as (b' & Hs & Hok & Hl & Hl2 & Hbits);
      [done|unfold bm_bits in *; lia|lia|].
    exists i, b'. rewrite Hi, bind_Ok, Hs. split_and!; try done; try lia.
    intros j Hj. rewrite Hbits by done. case_decide; subst.
    + by rewrite bool_decide_true, orb_true_r.
    + by rewrite bool_decide_false, orb_false_r.
  - right. by rewrite Hp.
Qed.

(** ** Properties *)

Definition demo_bitmap : bitmap := Bitmap 2 [255; 11; 0].

Lemma demo_bitmap_ok : bitmap_ok demo_bitmap.
Proof. constructor; [vm_compute; done|vm_compute; done|]. repeat constructor; lia. Qed.

(** A request for one bit returns the lowest clear bit of the bitmap when
    there is one; when every bit is set the ASSERT before the [return -1] stops
    the kernel, so the failure value is never returned. *)
Theorem bitmap_scan_one_lowest (b : bitmap) :
  bitmap_ok b ->
  (exists i, bitmap_scan b 1 = Ok i /\ 0 <= i < bm_bits b /\ bm_bit b i = false
     /\ forall j, 0 <= j < i -> bm_bit b j = true)
  \/ (bitmap_scan b 1 = Bad EPanic /\ forall j, 0 <= j < bm_bits b -> bm_bit b j = true).
Proof. apply scan_one. Qed.

Lemma bitmap_scan_one_lowest_witness :
  bitmap_scan demo_bitmap 1 = Ok 10
  /\ ((exists i, bitmap_scan demo_bitmap 1 = Ok i /\ 0 <= i < bm_bits demo_bitmap
         /\ bm_bit demo_bitmap i = false
         /\ forall j, 0 <= j < i -> bm_bit demo_bitmap j = true)
      \/ (bitmap_scan demo_bitmap 1 = Bad EPanic
          /\ forall j, 0 <= j < bm_bits demo_bitmap -> bm_bit demo_bitmap j = true)).
Proof. split; [reflexivity|]. apply bitmap_scan_one_lowest, demo_bitmap_ok. Defined.

(** A request for [cnt >= 2] bits on a bitmap with a clear bit returns the
    lowest run of [cnt] clear bits, and -1 exactly when there is no such run;
    the run may extend one bit past the end of the bitmap, because the loop
    tests [bit_left] bits starting after the first clear one. *)
Theorem bitmap_scan_run_lowest (b : bitmap) (cnt : Z) :
  bitmap_ok b -> 2 <= cnt < 2 ^ 31 ->
  (exists i, 0 <= i < bm_bits b /\ bm_bit b i = false) ->
  exists r, bitmap_scan b cnt = Ok r /\ lowest_run b cnt r.
Proof. apply scan_many. Qed.

Lemma bitmap_scan_run_lowest_witness :
  bitmap_scan demo_bitmap 5 = Ok 12
  /\ exists r, bitmap_scan demo_bitmap 5 = Ok r /\ lowest_run demo_bitmap 5 r.
Proof.
  split; [reflexivity|]. apply bitmap_scan_run_lowest; [apply demo_bitmap_ok|lia|].
  exists 10. split; [vm_compute; done|reflexivity].
Defined.

(** [bitmap_set] makes the addressed bit equal to [value], leaves every
    other bit and the length alone, and keeps the bitmap well formed; a value
    other than 0 and 1 fails its ASSERT. *)
Theorem bitmap_set_only_bit (b : bitmap) (i v : Z) :
  bitmap_ok b -> 0 <= i < bm_bits b ->
  (v = 0 \/ v = 1 ->
   exists b', bitmap_set b i v = Ok b' /\ bitmap_ok b' /\ bm_bits b' = bm_bits b
     /\ forall j, 0 <= j -> bm_bit b' j = if decide (j = i) then v =? 1 else bm_bit b j)
  /\ (v <> 0 -> v <> 1 -> bitmap_set b i v = Bad EPanic).
Proof.
  intros Hb Hi. pose proof (bo_len b Hb). unfold bm_bits in *. split; [intros Hv|].
  - destruct (set_bit b i v) as (b' & ? & ? & Hl & _ & ?); [done|lia|done|].
    exists b'. rewrite Hl. done.
  - apply set_bad_value.
Qed.

Lemma bitmap_set_only_bit_witness :
  exists b', bitmap_set demo_bitmap 10 1 = Ok b' /\ bitmap_ok b'
    /\ bm_bits b' = bm_bits demo_bitmap
    /\ forall j, 0 <= j -> bm_bit b' j = if decide (j = 10) then 1 =? 1 else bm_bit demo_bitmap j.
Proof.
  apply (bitmap_set_only_bit demo_bitmap 10 1); [apply demo_bitmap_ok| |by right].
  vm_compute; done.
Defined.
