(* ===== verification/Interrupt.v ===== *)
(** * Interrupt: kernel/interrupt.c and kernel/interrupt.h

    The interrupt flag of the EFLAGS register and the functions that save and
    restore it, the interrupt descriptor table with its gates, the table of
    handlers, and the bytes [pic_init] writes to the two 8259A controllers. *)
From S2P Require Import Prelude.

(** ** The interrupt flag *)

Inductive intr_status : Type := INTR_OFF | INTR_ON.

#[export] Instance intr_status_eq_dec : EqDecision intr_status.
Proof. solve_decision. Defined.

Definition EFLAGS_IF : Z := 512.

(** The instructions [sti] and [cli] on the EFLAGS register. *)
Definition sti (eflags : Z) : Z := Z.lor eflags EFLAGS_IF.

Definition cli (eflags : Z) : Z := Z.land eflags (Z.lnot EFLAGS_IF).

Definition intr_get_status (eflags : Z) : intr_status :=
  if negb (Z.land EFLAGS_IF eflags =? 0) then INTR_ON else INTR_OFF.

(** Each function returns the old status and the new EFLAGS. *)
Definition intr_enable (eflags : Z) : intr_status * Z :=
  match intr_get_status eflags with
  | INTR_ON => (INTR_ON, eflags)
  | INTR_OFF => (INTR_OFF, sti eflags)
  end.

Definition intr_disable (eflags : Z) : intr_status * Z :=
  match intr_get_status eflags with
  | INTR_ON => (INTR_ON, cli eflags)
  | INTR_OFF => (INTR_OFF, eflags)
  end.

Definition intr_set_status (status : intr_status) (eflags : Z) : intr_status * Z :=
  match status with
  | INTR_ON => intr_enable eflags
  | INTR_OFF => intr_disable eflags
  end.

Lemma get_status_testbit eflags :
  intr_get_status eflags = if Z.testbit eflags 9 then INTR_ON else INTR_OFF.
Proof.
  unfold intr_get_status, EFLAGS_IF. change 512 with (2 ^ 9).
  rewrite Z.land_comm. destruct (Z.testbit eflags 9) eqn:E.
  - destruct (Z.land eflags (2 ^ 9) =? 0) eqn:E0; [|done].
    apply Z.eqb_eq in E0. apply (f_equal (fun z => Z.testbit z 9)) in E0.
    by rewrite Z.land_spec, E in E0.
  - replace (Z.land eflags (2 ^ 9)) with 0; [done|].
    symmetry. apply Z.bits_inj'. intros n Hn. rewrite Z.land_spec, Z.bits_0.
    destruct (decide (n = 9)) as [->|]; [by rewrite E|].
    rewrite Z.pow2_bits_false by lia. apply andb_false_r.
Qed.

Lemma cli_off eflags : intr_get_status (cli eflags) = INTR_OFF.
Proof.
  rewrite get_status_testbit. unfold cli. rewrite Z.land_spec, Z.lnot_spec by lia.
  change (Z.testbit EFLAGS_IF 9) with true. by rewrite andb_false_r.
Qed.

Lemma sti_cli eflags : intr_get_status eflags = INTR_ON -> sti (cli eflags) = eflags.
Proof.
  rewrite get_status_testbit. destruct (Z.testbit eflags 9) eqn:E; [intros _|done].
  apply Z.bits_inj'. intros n Hn. unfold sti, cli.
  rewrite Z.lor_spec, Z.land_spec, Z.lnot_spec by done.
  change EFLAGS_IF with (2 ^ 9). destruct (decide (n = 9)) as [->|].
  - by rewrite E.
  - rewrite Z.pow2_bits_false by lia. by rewrite andb_true_r, orb_false_r.
Qed.

Lemma disable_off eflags : intr_get_status (intr_disable eflags).2 = INTR_OFF.
Proof.
  unfold intr_disable. destruct (intr_get_status eflags) eqn:E; [done|apply cli_off].
Qed.

(** The bracket [old = intr_disable(); ...; intr_set_status(old)] restores
    EFLAGS. *)
Lemma disable_restore eflags :
  (intr_set_status (intr_disable eflags).1 (intr_disable eflags).2).2 = eflags.
Proof.
  unfold intr_disable. destruct (intr_get_status eflags) eqn:E; simpl.
  - unfold intr_disable. by rewrite E.
  - unfold intr_enable. rewrite cli_off. by apply sti_cli.
Qed.

(** ** Gates of the interrupt descriptor table *)

Definition IDT_DESC_CNT : Z := 129.

(** [SELECTOR_K_CODE], [IDT_DESC_ATTR_DPL0] and [IDT_DESC_ATTR_DPL3] of
    kernel/global.h. *)
Definition SELECTOR_K_CODE : Z := Z.shiftl 1 3 + Z.shiftl 0 2 + 0.

Definition IDT_DESC_ATTR_DPL0 : Z := Z.shiftl 1 7 + Z.shiftl 0 5 + 14.

Definition IDT_DESC_ATTR_DPL3 : Z := Z.shiftl 1 7 + Z.shiftl 3 5 + 14.

Record gate_desc : Type := GateDesc {
  func_offset_low_word : Z;
  selector : Z;
  dcount : Z;
  attribute : Z;
  func_offset_high_word : Z
}.

Definition make_idt_desc (attr function : Z) : gate_desc :=
  {| func_offset_low_word := u16 (Z.land function 65535);
     selector := u16 SELECTOR_K_CODE;
     dcount := 0;
     attribute := u8 attr;
     func_offset_high_word := u16 (Z.shiftr (Z.land function 4294901760) 16) |}.

(** [idt_desc_init]: one gate per entry of [intr_entry_table] (the entry points
    of kernel.S), then the last gate is replaced by the system call gate. *)
Definition idt_desc_init (intr_entry_table : list Z) (syscall_handler : Z) : res (list gate_desc) :=
  let idt := (fun f => make_idt_desc IDT_DESC_ATTR_DPL0 f) <$> take (Z.to_nat IDT_DESC_CNT) intr_entry_table in
  wr idt (IDT_DESC_CNT - 1) (make_idt_desc IDT_DESC_ATTR_DPL3 syscall_handler).

(** [register_handler] writes one slot of [idt_table]. *)
Definition register_handler (idt_table : list Z) (vector_no function : Z) : res (list Z) :=
  wr idt_table (u8 vector_no) function.

(** The [outb(port, data)] writes of [pic_init], in order. *)
Definition pic_init : list (Z * Z) :=
  [ (32, 17); (33, 32); (33, 4); (33, 1);
    (160, 17); (161, 40); (161, 2); (161, 1);
    (33, 248); (161, 191) ].

(** The entry point the processor jumps to through a gate. *)
Definition gate_target (g : gate_desc) : Z :=
  func_offset_low_word g + Z.shiftl (func_offset_high_word g) 16.

Lemma gate_target_make attr f : 0 <= f < 2 ^ 32 -> gate_target (make_idt_desc attr f) = f.
Proof.
  intros Hf. unfold gate_target, make_idt_desc; simpl.
  change 65535 with (Z.ones 16). rewrite Z.land_ones by lia.
  change 4294901760 with (Z.shiftl (Z.ones 16) 16).
  assert (Z.shiftr (Z.land f (Z.shiftl (Z.ones 16) 16)) 16 = f / 2 ^ 16) as ->.
  { rewrite Z.shiftr_land, Z.shiftr_shiftl_l by lia.
    change (16 - 16) with 0. rewrite Z.shiftl_0_r, Z.land_ones, Z.shiftr_div_pow2 by lia.
    apply Z.mod_small. lia. }
  rewrite Z.shiftl_mul_pow2 by lia. unfold u16. lia.
Qed.

(** The privilege level required to raise the interrupt by [int n]. *)
Definition gate_dpl (g : gate_desc) : Z := Z.land (Z.shiftr (attribute g) 5) 3.

(** After [idt_desc_init] the gate of vector [i] leads to entry [i] of
    [intr_entry_table] and needs privilege level 0, except the last one (0x80),
    which leads to [syscall_handler] and is open to level 3. *)
Theorem idt_desc_init_gates (entries : list Z) (syscall_handler : Z) :
  Z.of_nat (length entries) = IDT_DESC_CNT ->
  Forall (fun f => 0 <= f < 2 ^ 32) entries -> 0 <= syscall_handler < 2 ^ 32 ->
  exists idt, idt_desc_init entries syscall_handler = Ok idt
    /\ Z.of_nat (length idt) = IDT_DESC_CNT
    /\ (forall i f, 0 <= i < IDT_DESC_CNT - 1 -> rd entries i = Ok f ->
          exists g, rd idt i = Ok g /\ gate_target g = f /\ gate_dpl g = 0)
    /\ exists g, rd idt 128 = Ok g /\ gate_target g = syscall_handler /\ gate_dpl g = 3.
Proof.
  intros Hlen Hent Hsys. unfold idt_desc_init.
  assert (take (Z.to_nat IDT_DESC_CNT) entries = entries) as ->.
  { apply take_ge. lia. }
  rewrite wr_in by (rewrite length_fmap; unfold IDT_DESC_CNT in *; lia).
  eexists. split; [done|]. rewrite length_insert, length_fmap. split; [done|].
  unfold IDT_DESC_CNT in *. split.
  - intros i f Hi Hf. apply rd_Ok in Hf as [_ Hf]. eexists. split; [apply rd_Ok; split; [lia|]|].
    + rewrite list_lookup_insert_ne by lia. by rewrite list_lookup_fmap, Hf.
    + split; [|done]. apply gate_target_make. by eapply (Forall_lookup_1 _ _ _ _ Hent).
  - eexists. split; [apply rd_Ok; split; [lia|]|].
    + apply list_lookup_insert_eq. rewrite length_fmap. lia.
    + split; [|done]. by apply gate_target_make.
Qed.

Lemma idt_desc_init_gates_witness :
  exists idt, idt_desc_init (replicate 129 3221231872) 3221232000 = Ok idt
    /\ Z.of_nat (length idt) = IDT_DESC_CNT
    /\ (forall i f, 0 <= i < IDT_DESC_CNT - 1 -> rd (replicate 129 3221231872) i = Ok f ->
          exists g, rd idt i = Ok g /\ gate_target g = f /\ gate_dpl g = 0)
    /\ exists g, rd idt 128 = Ok g /\ gate_target g = 3221232000 /\ gate_dpl g = 3.
Proof.
  apply idt_desc_init_gates; [reflexivity|apply Forall_replicate; lia|lia].
Defined.
