(* ===== verification/DList.v ===== *)
(** * DList: lib/kernel/list.c and lib/kernel/list.h

    The intrusive doubly linked list at the level of pointers: the state maps
    node addresses to their [prev]/[next] fields, with the EFLAGS register that
    the operations mask interrupts with.  [dll] relates a [struct list] to the
    sequence of its nodes, and the theorems show that every operation acts on
    that sequence ([Module SeqList]), leaves the other nodes alone and restores
    the interrupt flag. *)
From S2P Require Import Prelude Interrupt.

(** ** Data *)

Record list_elem : Type := ListElem { prev : Z; next : Z }.

Record machine : Type := Machine {
  eflags : Z;
  nodes : gmap Z list_elem
}.

(** [struct list] at address [l]: [head] at offset 0, [tail] at offset 8. *)
Definition head_of (l : Z) : Z := l.

Definition tail_of (l : Z) : Z := l + 8.

(** Field accesses through a pointer; an address that is not a node faults. *)
Definition load_node (p : Z) : proc machine list_elem := fun m =>
  match nodes m !! p with Some n => Ret n m | None => Err EFault end.

Definition store_node (p : Z) (n : list_elem) : proc machine unit := fun m =>
  match nodes m !! p with
  | Some _ => Ret tt (Machine (eflags m) (<[p := n]> (nodes m)))
  | None => Err EFault
  end.

Definition set_prev (p v : Z) : proc machine unit :=
  n ← load_node p; store_node p (ListElem v (next n)).

Definition set_next (p v : Z) : proc machine unit :=
  n ← load_node p; store_node p (ListElem (prev n) v).

Definition disable : proc machine intr_status := fun m =>
  Ret (intr_disable (eflags m)).1 (Machine (intr_disable (eflags m)).2 (nodes m)).

Definition restore (status : intr_status) : proc machine unit := fun m =>
  Ret tt (Machine (intr_set_status status (eflags m)).2 (nodes m)).

(** ** Operations *)

Definition list_init (l : Z) : proc machine unit :=
  _ ← set_prev (head_of l) 0;
  _ ← set_next (head_of l) (tail_of l);
  _ ← set_prev (tail_of l) (head_of l);
  set_next (tail_of l) 0.

Definition list_insert_before (before elem : Z) : proc machine unit :=
  old_status ← disable;
  b ← load_node before;
  _ ← set_next (prev b) elem;
  b ← load_node before;
  _ ← set_prev elem (prev b);
  _ ← set_next elem before;
  _ ← set_prev before elem;
  restore old_status.

Definition list_push (plist elem : Z) : proc machine unit :=
  h ← load_node (head_of plist);
  list_insert_before (next h) elem.

Definition list_append (plist elem : Z) : proc machine unit :=
  list_insert_before (tail_of plist) elem.

Definition list_remove (pelem : Z) : proc machine unit :=
  old_status ← disable;
  e ← load_node pelem;
  _ ← set_next (prev e) (next e);
  e ← load_node pelem;
  _ ← set_prev (next e) (prev e);
  restore old_status.

Definition list_pop (plist : Z) : proc machine Z :=
  h ← load_node (head_of plist);
  _ ← list_remove (next h);
  mret (next h).

(** The three traversal loops, with fuel for the number of iterations. *)
Fixpoint elem_find_loop (fuel : nat) (plist obj_elem elem : Z) : proc machine bool :=
  match fuel with
  | O => fail EFuel
  | S fuel' =>
    if bool_decide (elem = tail_of plist) then mret false
    else if bool_decide (elem = obj_elem) then mret true
    else n ← load_node elem; elem_find_loop fuel' plist obj_elem (next n)
  end.

Definition elem_find (fuel : nat) (plist obj_elem : Z) : proc machine bool :=
  h ← load_node (head_of plist);
  elem_find_loop fuel plist obj_elem (next h).

Definition list_empty (plist : Z) : proc machine bool :=
  h ← load_node (head_of plist);
  mret (bool_decide (next h = tail_of plist)).

(** [func] is the callback applied to the argument already. *)
Fixpoint list_traversal_loop (fuel : nat) (plist : Z) (func : Z -> bool) (elem : Z) : proc machine Z :=
  match fuel with
  | O => fail EFuel
  | S fuel' =>
    if bool_decide (elem = tail_of plist) then mret 0
    else if func elem then mret elem
    else n ← load_node elem; list_traversal_loop fuel' plist func (next n)
  end.

Definition list_traversal (fuel : nat) (plist : Z) (func : Z -> bool) : proc machine Z :=
  h ← load_node (head_of plist);
  e ← list_empty plist;
  if (e : bool) then mret 0 else list_traversal_loop fuel plist func (next h).

Fixpoint list_len_loop (fuel : nat) (plist elem length : Z) : proc machine Z :=
  match fuel with
  | O => fail EFuel
  | S fuel' =>
    if bool_decide (elem = tail_of plist) then mret length
    else n ← load_node elem; list_len_loop fuel' plist (next n) (u32 (length + 1))
  end.

Definition list_len (fuel : nat) (plist : Z) : proc machine Z :=
  h ← load_node (head_of plist);
  list_len_loop fuel plist (next h) 0.

(** ** Running the pointer operations *)

Lemma load_ok p m n : nodes m !! p = Some n -> load_node p m = Ret n m.
Proof. intros H. unfold load_node. by rewrite H. Qed.

Lemma set_prev_ok p v m n :
  nodes m !! p = Some n ->
  set_prev p v m = Ret tt (Machine (eflags m) (<[p := ListElem v (next n)]> (nodes m))).
Proof.
  intros H. unfold set_prev. rewrite (bind_Ret _ _ _ _ _ (load_ok _ _ _ H)).
  unfold store_node. by rewrite H.
Qed.

Lemma set_next_ok p v m n :
  nodes m !! p = Some n ->
  set_next p v m = Ret tt (Machine (eflags m) (<[p := ListElem (prev n) v]> (nodes m))).
Proof.
  intros H. unfold set_next. rewrite (bind_Ret _ _ _ _ _ (load_ok _ _ _ H)).
  unfold store_node. by rewrite H.
Qed.

(** Runs the next field access of a sequence, given the lookup it needs. *)
Ltac field_step :=
  first
    [ erewrite (bind_Ret (load_node _)) by (apply load_ok; simpl; by simplify_map_eq)
    | erewrite (bind_Ret (set_prev _ _)) by (apply set_prev_ok; simpl; by simplify_map_eq)
    | erewrite (bind_Ret (set_next _ _)) by (apply set_next_ok; simpl; by simplify_map_eq) ].

Lemma list_init_run l m nh nt :
  nodes m !! head_of l = Some nh -> nodes m !! tail_of l = Some nt ->
  list_init l m
  = Ret tt (Machine (eflags m)
      (<[tail_of l := ListElem (head_of l) 0]>
         (<[head_of l := ListElem 0 (tail_of l)]> (nodes m)))).
Proof.
  intros Hh Ht. assert (head_of l <> tail_of l) by (unfold head_of, tail_of; lia).
  unfold list_init. do 3 field_step. simpl.
  erewrite set_next_ok by (simpl; by simplify_map_eq). simpl.
  by rewrite !insert_insert_eq.
Qed.

Lemma insert_before_run m before e nb np ne :
  nodes m !! before = Some nb -> nodes m !! prev nb = Some np -> nodes m !! e = Some ne ->
  prev nb <> before -> e <> before -> e <> prev nb ->
  list_insert_before before e m
  = Ret tt (Machine (eflags m)
      (<[before := ListElem e (next nb)]>
         (<[e := ListElem (prev nb) before]>
            (<[prev nb := ListElem (prev np) e]> (nodes m))))).
Proof.
  intros Hb Hp He Hpb Heb Hep. unfold list_insert_before.
  rewrite (bind_Ret disable _ _ _ _ eq_refl). do 6 field_step. simpl.
  unfold restore; simpl. rewrite disable_restore. do 2 f_equal.
  by rewrite insert_insert_eq.
Qed.

Lemma remove_run m e ne np nn :
  nodes m !! e = Some ne -> nodes m !! prev ne = Some np -> nodes m !! next ne = Some nn ->
  prev ne <> e -> next ne <> e -> prev ne <> next ne ->
  list_remove e m
  = Ret tt (Machine (eflags m)
      (<[next ne := ListElem (prev ne) (next nn)]>
         (<[prev ne := ListElem (prev np) (next ne)]> (nodes m)))).
Proof.
  intros He Hp Hn Hpe Hne Hpn. unfold list_remove.
  rewrite (bind_Ret disable _ _ _ _ eq_refl). do 4 field_step. simpl.
  unfold restore; simpl. by rewrite disable_restore.
Qed.

(** ** Sequences of nodes

    The list operations on the sequence a list holds, as the other components
    use them. *)
Module SeqList.

Definition seq_append {A} (xs : list A) (e : A) : list A := xs ++ [e].

Definition seq_push {A} (xs : list A) (e : A) : list A := e :: xs.

(** Popping the empty list dereferences [tail.next], a NULL pointer. *)
Definition seq_pop {A} (xs : list A) : res (A * list A) :=
  match xs with [] => Bad EFault | x :: xs' => Ok (x, xs') end.

Definition seq_remove {A} `{EqDecision A} (xs : list A) (e : A) : list A :=
  filter (fun x => x <> e) xs.

Definition seq_find {A} `{EqDecision A} (xs : list A) (e : A) : bool := bool_decide (e ∈ xs).

Definition seq_empty {A} (xs : list A) : bool :=
  match xs with [] => true | _ => false end.

Fixpoint seq_traversal {A} (func : A -> bool) (xs : list A) : option A :=
  match xs with
  | [] => None
  | x :: xs' => if func x then Some x else seq_traversal func xs'
  end.

End SeqList.
Export SeqList.

Lemma seq_remove_split {A} `{EqDecision A} (ys zs : list A) e :
  NoDup (ys ++ e :: zs) -> seq_remove (ys ++ e :: zs) e = ys ++ zs.
Proof.
  intros Hnd. unfold seq_remove. rewrite filter_app, filter_cons_False by naive_solver.
  apply NoDup_app in Hnd as (_ & Hd & Hnd). apply NoDup_cons in Hnd as [Hz _].
  f_equal; apply filter_all.
  - intros x Hx ->. apply (Hd e Hx). set_solver.
  - by intros x Hx ->.
Qed.

(** ** Linked chains *)

Definition next_of (h : gmap Z list_elem) (x : Z) : option Z := next <$> h !! x.

Definition prev_of (h : gmap Z list_elem) (x : Z) : option Z := prev <$> h !! x.

Fixpoint linked (h : gmap Z list_elem) (xs : list Z) : Prop :=
  match xs with
  | a :: ((b :: _) as t) => next_of h a = Some b /\ prev_of h b = Some a /\ linked h t
  | _ => True
  end.

Lemma linked_split h xs a ys :
  linked h (xs ++ a :: ys) <-> linked h (xs ++ [a]) /\ linked h (a :: ys).
Proof.
  induction xs as [|x xs IH]; [simpl; tauto|].
  destruct xs as [|x' xs]; [simpl; tauto|].
  change ((x :: x' :: xs) ++ a :: ys) with (x :: x' :: (xs ++ a :: ys)).
  change ((x :: x' :: xs) ++ [a]) with (x :: x' :: (xs ++ [a])).
  simpl in IH |- *. rewrite IH. tauto.
Qed.

Lemma linked_frame_left h h' xs p :
  linked h (xs ++ [p]) ->
  (forall x, x ∈ xs -> next_of h' x = next_of h x) ->
  (forall x, x ∈ xs ++ [p] -> prev_of h' x = prev_of h x) ->
  linked h' (xs ++ [p]).
Proof.
  induction xs as [|a xs IH]; [done|]. intros Hl Hn Hp.
  assert (linked h' (xs ++ [p])) as IH'.
  { apply IH.
    - destruct xs; simpl in *; tauto.
    - intros x Hx. apply Hn. set_solver.
    - intros x Hx. apply Hp. set_solver. }
  destruct xs as [|b xs]; simpl in *.
  - rewrite Hn, Hp by set_solver. tauto.
  - rewrite Hn, Hp by set_solver. tauto.
Qed.

Lemma linked_frame_right h h' b ys :
  linked h (b :: ys) ->
  (forall x, x ∈ b :: ys -> next_of h' x = next_of h x) ->
  (forall x, x ∈ ys -> prev_of h' x = prev_of h x) ->
  linked h' (b :: ys).
Proof.
  revert b. induction ys as [|c ys IH]; intros b Hl Hn Hp; [done|].
  destruct Hl as (H1 & H2 & Hl). split_and!.
  - rewrite Hn by set_solver. done.
  - rewrite Hp by set_solver. done.
  - apply IH; [done| |]; intros x Hx; [apply Hn|apply Hp]; set_solver.
Qed.

(** A [struct list] at [l] holding the nodes [xs]. *)
Definition chain (l : Z) (xs : list Z) : list Z := head_of l :: xs ++ [tail_of l].

Record dll (h : gmap Z list_elem) (l : Z) (xs : list Z) : Prop := {
  dll_nodup : NoDup (chain l xs);
  dll_linked : linked h (chain l xs);
  dll_head : prev_of h (head_of l) = Some 0;
  dll_tail : next_of h (tail_of l) = Some 0;
  dll_null : 0 ∉ chain l xs
}.

(** The node before and after a position. *)
Lemma chain_cut l ys zs :
  exists A p b B, chain l (ys ++ zs) = A ++ p :: b :: B
    /\ A ++ [p] = head_of l :: ys /\ b :: B = zs ++ [tail_of l].
Proof.
  destruct (exists_last (l := head_of l :: ys)) as (A & p & HA); [done|].
  destruct (zs ++ [tail_of l]) as [|b B] eqn:HB; [by destruct zs|].
  exists A, p, b, B. split_and!; [|done|done]. unfold chain.
  rewrite <- app_assoc, HB, app_comm_cons, HA, <- app_assoc. done.
Qed.

Lemma linked_node h xs x : linked h xs -> x ∈ xs -> (2 <= length xs)%nat -> is_Some (h !! x).
Proof.
  induction xs as [|a xs IH]; [set_solver|]. intros Hl Hx Hlen.
  destruct xs as [|b xs]; simpl in *; [lia|]. destruct Hl as (Hn & Hp & Hl).
  unfold next_of, prev_of in *. apply elem_of_cons in Hx as [->|Hx].
  - destruct (h !! a); [by eexists|done].
  - destruct xs as [|c xs].
    + apply list_elem_of_singleton in Hx as ->. destruct (h !! b); [by eexists|done].
    + apply IH; [done|done|simpl; lia].
Qed.

Lemma dll_node h l xs x : dll h l xs -> x ∈ chain l xs -> is_Some (h !! x).
Proof.
  intros Hd Hx. apply (linked_node h (chain l xs)); [apply Hd|done|].
  unfold chain. simpl. rewrite length_app. simpl. lia.
Qed.

(** ** Insertion and removal on the sequence *)

(** What an operation leaves alone: EFLAGS and the nodes outside [c]. *)
Definition same_but (m m' : machine) (c : list Z) : Prop :=
  eflags m' = eflags m /\ forall x, x ∉ c -> nodes m' !! x = nodes m !! x.

Definition link_between (h : gmap Z list_elem) (p e b : Z) (np nb : list_elem) : gmap Z list_elem :=
  <[b := ListElem e (next nb)]> (<[e := ListElem p b]> (<[p := ListElem (prev np) e]> h)).

Lemma link_between_next h p e b np nb x :
  h !! b = Some nb -> p <> b -> e <> b -> e <> p ->
  next_of (link_between h p e b np nb) x
  = if decide (x = e) then Some b else if decide (x = p) then Some e else next_of h x.
Proof.
  intros Hb ???. unfold next_of, link_between. rewrite !lookup_insert.
  repeat case_decide; subst; simpl; rewrite ?Hb; done.
Qed.

Lemma link_between_prev h p e b np nb x :
  h !! p = Some np -> p <> b -> e <> b -> e <> p ->
  prev_of (link_between h p e b np nb) x
  = if decide (x = e) then Some p else if decide (x = b) then Some e else prev_of h x.
Proof.
  intros Hp ???. unfold prev_of, link_between. rewrite !lookup_insert.
  repeat case_decide; subst; simpl; rewrite ?Hp; done.
Qed.

(** The distinctness facts a duplicate-free chain [A ++ p :: e :: b :: B] gives. *)
Lemma chain_distinct (A B : list Z) p e b :
  NoDup (A ++ p :: e :: b :: B) ->
  p <> e /\ p <> b /\ e <> b
  /\ (forall x, x ∈ A -> x <> p /\ x <> e /\ x <> b)
  /\ (forall x, x ∈ B -> x <> p /\ x <> e /\ x <> b).
Proof.
  intros Hnd. apply NoDup_app in Hnd as (_ & Hd & Hnd). rewrite !NoDup_cons in Hnd.
  split_and!; [set_solver|set_solver|set_solver| |set_solver].
  intros x Hx. specialize (Hd x Hx). set_solver.
Qed.

Lemma chain_ends (A B : list Z) p e b x y :
  NoDup (A ++ p :: e :: b :: B) -> x ∈ A ++ [p] -> y ∈ b :: B ->
  x <> e /\ x <> b /\ y <> e /\ y <> p.
Proof.
  intros Hnd Hx Hy. apply chain_distinct in Hnd as (Hpe & Hpb & Heb & HA & HB).
  split_and!.
  1,2: apply elem_of_app in Hx as [Hx|Hx];
    [by destruct (HA x Hx) as (? & ? & ?)|apply list_elem_of_singleton in Hx; congruence].
  1,2: apply elem_of_cons in Hy as [->|Hy]; [congruence|by destruct (HB y Hy) as (? & ? & ?)].
Qed.

Lemma chain_insert_nodup (A B : list Z) p e b :
  NoDup (A ++ p :: b :: B) -> e ∉ A ++ p :: b :: B -> NoDup (A ++ p :: e :: b :: B).
Proof.
  intros Hnd He. apply (NoDup_Permutation_proper (e :: A ++ p :: b :: B)).
  - change (p :: e :: b :: B) with ([p] ++ e :: b :: B).
    change (p :: b :: B) with ([p] ++ b :: B). rewrite !app_assoc.
    by rewrite Permutation_middle.
  - by apply NoDup_cons.
Qed.

Lemma linked_insert h A p e b B np nb :
  NoDup (A ++ p :: e :: b :: B) -> linked h (A ++ p :: b :: B) ->
  h !! p = Some np -> h !! b = Some nb ->
  linked (link_between h p e b np nb) (A ++ p :: e :: b :: B).
Proof.
  intros Hnd Hl Hp Hb. apply chain_distinct in Hnd as (Hpe & Hpb & Heb & HA & HB).
  assert (e <> p) by done.
  apply linked_split in Hl as [HlA (_ & _ & HlB)].
  apply linked_split. split; [|refine (conj _ (conj _ (conj _ (conj _ _))))].
  - apply (linked_frame_left h); [done| |]; intros x Hx.
    + destruct (HA x Hx) as (? & ? & ?). by rewrite link_between_next, !decide_False.
    + assert (x <> e /\ x <> b) as [? ?] by set_solver.
      by rewrite link_between_prev, !decide_False.
  - by rewrite link_between_next, decide_False, decide_True.
  - by rewrite link_between_prev, decide_True.
  - by rewrite link_between_next, decide_True.
  - by rewrite link_between_prev, decide_False, decide_True.
  - apply (linked_frame_right h); [done| |]; intros x Hx.
    + assert (x <> e /\ x <> p) as [? ?] by set_solver.
      by rewrite link_between_next, !decide_False.
    + destruct (HB x Hx) as (? & ? & ?). by rewrite link_between_prev, !decide_False.
Qed.

Lemma insert_before_dll m l ys zs e before :
  dll (nodes m) l (ys ++ zs) -> head (zs ++ [tail_of l]) = Some before ->
  e ∉ chain l (ys ++ zs) -> e <> 0 -> is_Some (nodes m !! e) ->
  exists m', list_insert_before before e m = Ret tt m'
    /\ dll (nodes m') l (ys ++ e :: zs) /\ same_but m m' (chain l (ys ++ e :: zs)).
Proof.
  intros Hd Hbefore Hnew Hnz [ne Hne]. pose proof Hd as [Hnd Hl Hh Ht Hnull].
  destruct (chain_cut l ys zs) as (A & p & b & B & Hc & HA & HB).
  rewrite <- HB in Hbefore. injection Hbefore as <-.
  assert (chain l (ys ++ e :: zs) = A ++ p :: e :: b :: B) as Hc'.
  { unfold chain. rewrite <- app_assoc, app_comm_cons, <- HA. simpl.
    by rewrite <- HB, <- app_assoc. }
  destruct (dll_node _ _ _ p Hd) as [np Hnp]; [rewrite Hc; set_solver|].
  destruct (dll_node _ _ _ b Hd) as [nb Hnb]; [rewrite Hc; set_solver|].
  rewrite Hc in Hnd, Hl, Hnew, Hnull. pose proof Hl as Hl0.
  apply linked_split in Hl0 as [_ (_ & Hbp & _)].
  unfold prev_of in Hbp. rewrite Hnb in Hbp. injection Hbp as Hbp.
  pose proof (chain_insert_nodup A B p e b Hnd Hnew) as Hnd'.
  pose proof (chain_distinct _ _ _ _ _ Hnd') as (Hpe & Hpb & Heb & HAd & HBd).
  exists (Machine (eflags m) (link_between (nodes m) p e b np nb)).
  split; [|split].
  - rewrite (insert_before_run m b e nb np ne); rewrite ?Hbp; done.
  - assert (head_of l ∈ A ++ [p]) as Hhead by (rewrite HA; set_solver).
    assert (tail_of l ∈ b :: B) as Htail by (rewrite HB; set_solver).
    destruct (chain_ends _ _ _ _ _ _ _ Hnd' Hhead Htail) as (? & ? & ? & ?).
    constructor; rewrite ?Hc'; simpl; [done|by apply linked_insert| | |set_solver].
    + by rewrite link_between_prev, !decide_False.
    + by rewrite link_between_next, !decide_False.
  - split; [done|]. rewrite Hc'. intros x Hx. simpl. unfold link_between.
    rewrite !lookup_insert_ne by set_solver. done.
Qed.

Definition unlink (h : gmap Z list_elem) (p n : Z) (np nn : list_elem) : gmap Z list_elem :=
  <[n := ListElem p (next nn)]> (<[p := ListElem (prev np) n]> h).

Lemma linked_remove h A p e n B np nn :
  NoDup (A ++ p :: e :: n :: B) -> linked h (A ++ p :: e :: n :: B) ->
  h !! p = Some np -> h !! n = Some nn ->
  linked (unlink h p n np nn) (A ++ p :: n :: B).
Proof.
  intros Hnd Hl Hp Hn. apply chain_distinct in Hnd as (Hpe & Hpn & Hen & HA & HB).
  apply linked_split in Hl as [HlA (_ & _ & _ & _ & HlB)].
  assert (forall x, x <> p -> next_of (unlink h p n np nn) x = next_of h x) as Hnext.
  { intros x Hx. unfold next_of, unlink. rewrite !lookup_insert.
    repeat case_decide; subst; simpl; rewrite ?Hn; done. }
  assert (forall x, x <> n -> prev_of (unlink h p n np nn) x = prev_of h x) as Hprev.
  { intros x Hx. unfold prev_of, unlink. rewrite !lookup_insert.
    repeat case_decide; subst; simpl; rewrite ?Hp; done. }
  apply linked_split. split; [|refine (conj _ (conj _ _))].
  - apply (linked_frame_left h); [done| |]; intros x Hx; [apply Hnext|apply Hprev]; set_solver.
  - unfold next_of, unlink. by rewrite lookup_insert_ne, lookup_insert_eq.
  - unfold prev_of, unlink. by rewrite lookup_insert_eq.
  - apply (linked_frame_right h); [done| |]; intros x Hx; [apply Hnext|apply Hprev]; set_solver.
Qed.

Lemma remove_dll m l ys zs e :
  dll (nodes m) l (ys ++ e :: zs) ->
  exists m', list_remove e m = Ret tt m'
    /\ dll (nodes m') l (ys ++ zs) /\ same_but m m' (chain l (ys ++ zs)).
Proof.
  intros Hd. pose proof Hd as [Hnd Hl Hh Ht Hnull].
  destruct (chain_cut l ys zs) as (A & p & n & B & Hc' & HA & HB).
  assert (chain l (ys ++ e :: zs) = A ++ p :: e :: n :: B) as Hc.
  { unfold chain. rewrite <- app_assoc, app_comm_cons, <- HA. simpl.
    by rewrite <- HB, <- app_assoc. }
  destruct (dll_node _ _ _ p Hd) as [np Hnp]; [rewrite Hc; set_solver|].
  destruct (dll_node _ _ _ e Hd) as [ne Hne]; [rewrite Hc; set_solver|].
  destruct (dll_node _ _ _ n Hd) as [nn Hnn]; [rewrite Hc; set_solver|].
  rewrite Hc in Hnd, Hl, Hnull. pose proof Hl as Hl0.
  apply linked_split in Hl0 as [_ (_ & Hep & Hen & _)].
  unfold prev_of, next_of in Hep, Hen. rewrite Hne in Hep, Hen.
  injection Hep as Hep. injection Hen as Hen.
  pose proof (chain_distinct _ _ _ _ _ Hnd) as (Hpe & Hpn & Hen' & HAd & HBd).
  exists (Machine (eflags m) (unlink (nodes m) p n np nn)). split; [|split].
  - rewrite (remove_run m e ne np nn); rewrite ?Hep, ?Hen; done.
  - assert (head_of l ∈ A ++ [p]) as Hhead by (rewrite HA; set_solver).
    assert (tail_of l ∈ n :: B) as Htail by (rewrite HB; set_solver).
    destruct (chain_ends _ _ _ _ _ _ _ Hnd Hhead Htail) as (? & ? & ? & ?).
    constructor; rewrite ?Hc'; simpl.
    + apply (sublist_NoDup _ (A ++ p :: e :: n :: B)); [done|].
      apply sublist_app; [done|]. apply sublist_skip. by apply sublist_cons.
    + eapply linked_remove; done.
    + unfold prev_of, unlink in *. rewrite lookup_insert_ne by done.
      rewrite lookup_insert. case_decide as Hx; [|done]. rewrite <- Hx, Hnp in Hh. done.
    + unfold next_of, unlink in *. rewrite lookup_insert.
      case_decide as Hx; [by rewrite <- Hx, Hnn in Ht|].
      by rewrite lookup_insert_ne.
    + set_solver.
  - split; [done|]. rewrite Hc'. intros x Hx. simpl. unfold unlink.
    rewrite !lookup_insert_ne by set_solver. done.
Qed.

(** ** Traversals *)

Definition first (l : Z) (xs : list Z) : Z := default (tail_of l) (head xs).

Lemma linked_first h a xs l : linked h (a :: xs ++ [tail_of l]) -> next_of h a = Some (first l xs).
Proof. destruct xs; simpl; tauto. Qed.

Lemma linked_tail h a xs : linked h (a :: xs) -> linked h xs.
Proof. destruct xs; simpl; tauto. Qed.

Lemma load_first m l xs :
  dll (nodes m) l xs -> exists n, load_node (head_of l) m = Ret n m /\ next n = first l xs.
Proof.
  intros Hd. pose proof (linked_first _ _ _ _ (dll_linked _ _ _ Hd)) as Hf.
  unfold next_of in Hf. destruct (nodes m !! head_of l) as [n|] eqn:E; [|done].
  exists n. split; [by apply load_ok|]. by injection Hf.
Qed.

Section Loops.
Context (m : machine) (l : Z).

(** One iteration reads [elem->next], which is the first node of the rest. *)
Lemma loop_next x xs :
  linked (nodes m) (x :: xs ++ [tail_of l]) ->
  exists n, load_node x m = Ret n m /\ next n = first l xs.
Proof.
  intros Hl. apply linked_first in Hl. unfold next_of in Hl.
  destruct (nodes m !! x) as [n|] eqn:E; [|done].
  exists n. split; [by apply load_ok|]. by injection Hl.
Qed.

Lemma elem_find_loop_spec obj xs fuel :
  linked (nodes m) (xs ++ [tail_of l]) -> tail_of l ∉ xs -> (length xs < fuel)%nat ->
  elem_find_loop fuel l obj (first l xs) m = Ret (bool_decide (obj ∈ xs)) m.
Proof.
  revert fuel. induction xs as [|x xs IH]; intros [|fuel] Hl Ht Hf; try (simpl in Hf; lia).
  - simpl. by rewrite bool_decide_true.
  - change (first l (x :: xs)) with x. simpl. rewrite bool_decide_false by set_solver.
    destruct (decide (x = obj)) as [->|Hne].
    + rewrite bool_decide_true, bool_decide_true by set_solver. done.
    + rewrite bool_decide_false by done.
      destruct (loop_next x xs Hl) as (n & Hn & Hnx).
      rewrite (bind_Ret _ _ _ _ _ Hn), Hnx.
      rewrite IH; [|by eapply linked_tail|set_solver|simpl in Hf; lia].
      f_equal. apply bool_decide_ext. set_solver.
Qed.

Lemma list_traversal_loop_spec func xs fuel :
  linked (nodes m) (xs ++ [tail_of l]) -> tail_of l ∉ xs -> (length xs < fuel)%nat ->
  list_traversal_loop fuel l func (first l xs) m
  = Ret (default 0 (seq_traversal func xs)) m.
Proof.
  revert fuel. induction xs as [|x xs IH]; intros [|fuel] Hl Ht Hf; try (simpl in Hf; lia).
  - simpl. by rewrite bool_decide_true.
  - change (first l (x :: xs)) with x. simpl.
    rewrite bool_decide_false by set_solver. destruct (func x); [done|].
    destruct (loop_next x xs Hl) as (n & Hn & Hnx).
    rewrite (bind_Ret _ _ _ _ _ Hn), Hnx.
    apply IH; [by eapply linked_tail|set_solver|simpl in Hf; lia].
Qed.

Lemma list_len_loop_spec xs fuel k :
  linked (nodes m) (xs ++ [tail_of l]) -> tail_of l ∉ xs -> (length xs < fuel)%nat ->
  0 <= k -> k + Z.of_nat (length xs) < 2 ^ 32 ->
  list_len_loop fuel l (first l xs) k m = Ret (k + Z.of_nat (length xs)) m.
Proof.
  revert fuel k. induction xs as [|x xs IH]; intros [|fuel] k Hl Ht Hf Hk Hb; try (simpl in Hf; lia).
  - simpl length. simpl. rewrite bool_decide_true by done. unfold mret, proc_ret.
    f_equal. lia.
  - change (first l (x :: xs)) with x. simpl length in *. simpl.
    rewrite bool_decide_false by set_solver.
    destruct (loop_next x xs Hl) as (n & Hn & Hnx).
    rewrite (bind_Ret _ _ _ _ _ Hn), Hnx. unwrap.
    rewrite IH; [|by eapply linked_tail|set_solver|lia|lia|lia]. f_equal. lia.
Qed.

End Loops.

Lemma dll_walk m l xs :
  dll (nodes m) l xs -> linked (nodes m) (xs ++ [tail_of l]) /\ tail_of l ∉ xs.
Proof.
  intros [Hnd Hl _ _ _]. split; [by eapply linked_tail|].
  unfold chain in Hnd. apply NoDup_cons in Hnd as [_ Hnd].
  apply NoDup_app in Hnd as (_ & Hd & _). intros Ht. apply (Hd _ Ht). set_solver.
Qed.

(** ** The interface: what the list promises to the rest of the kernel

    [ListRefines rep] states, for a representation [rep m l xs] of a list [l]
    holding [xs] in machine [m], that each pointer operation performs the
    operation of [SeqList] on [xs]. *)
Class ListRefines (rep : machine -> Z -> list Z -> Prop) : Prop := {
  lr_init : forall m l,
    nodes m !! 0 = None -> head_of l <> 0 -> tail_of l <> 0 ->
    is_Some (nodes m !! head_of l) -> is_Some (nodes m !! tail_of l) ->
    exists m', list_init l m = Ret tt m' /\ rep m' l [] /\ same_but m m' (chain l []);
  lr_append : forall m l xs e,
    rep m l xs -> e ∉ chain l xs -> e <> 0 -> is_Some (nodes m !! e) ->
    exists m', list_append l e m = Ret tt m' /\ rep m' l (seq_append xs e)
      /\ same_but m m' (chain l (seq_append xs e));
  lr_push : forall m l xs e,
    rep m l xs -> e ∉ chain l xs -> e <> 0 -> is_Some (nodes m !! e) ->
    exists m', list_push l e m = Ret tt m' /\ rep m' l (seq_push xs e)
      /\ same_but m m' (chain l (seq_push xs e));
  lr_remove : forall m l xs e,
    rep m l xs -> e ∈ xs ->
    exists m', list_remove e m = Ret tt m' /\ rep m' l (seq_remove xs e)
      /\ same_but m m' (chain l (seq_remove xs e));
  lr_pop : forall m l xs,
    rep m l xs ->
    match seq_pop xs with
    | Ok (x, xs') => exists m', list_pop l m = Ret x m' /\ rep m' l xs'
        /\ same_but m m' (chain l xs')
    | Bad e => list_pop l m = Err e
    end;
  lr_find : forall m l xs e fuel,
    rep m l xs -> (length xs < fuel)%nat -> elem_find fuel l e m = Ret (seq_find xs e) m;
  lr_empty : forall m l xs, rep m l xs -> list_empty l m = Ret (seq_empty xs) m;
  lr_traversal : forall m l xs func fuel,
    rep m l xs -> (length xs < fuel)%nat ->
    list_traversal fuel l func m = Ret (default 0 (seq_traversal func xs)) m;
  lr_len : forall m l xs fuel,
    rep m l xs -> (length xs < fuel)%nat -> Z.of_nat (length xs) < 2 ^ 32 ->
    list_len fuel l m = Ret (Z.of_nat (length xs)) m
}.

(** NULL is not a node. *)
Definition dll_rep (m : machine) (l : Z) (xs : list Z) : Prop :=
  dll (nodes m) l xs /\ nodes m !! 0 = None.

Lemma same_but_null m m' c : same_but m m' c -> 0 ∉ c -> nodes m !! 0 = None -> nodes m' !! 0 = None.
Proof. intros [_ H] Hc. by rewrite H. Qed.

Lemma dll_init m l :
  nodes m !! 0 = None -> head_of l <> 0 -> tail_of l <> 0 ->
  is_Some (nodes m !! head_of l) -> is_Some (nodes m !! tail_of l) ->
  exists m', list_init l m = Ret tt m' /\ dll_rep m' l [] /\ same_but m m' (chain l []).
Proof.
  intros H0 Hh Ht [nh Hnh] [nt Hnt].
  assert (head_of l <> tail_of l) by (unfold head_of, tail_of; lia).
  rewrite (list_init_run l m nh nt) by done. eexists. split; [done|]. split; [split|].
  - constructor; unfold chain; simpl.
    + apply NoDup_cons. split; [set_solver|apply NoDup_singleton].
    + unfold next_of, prev_of. by simplify_map_eq.
    + unfold prev_of. by simplify_map_eq.
    + unfold next_of. by simplify_map_eq.
    + set_solver.
  - simpl. by rewrite !lookup_insert_ne.
  - split; [done|]. intros x Hx. simpl. unfold chain in Hx. simpl in Hx.
    rewrite !not_elem_of_cons in Hx. rewrite !lookup_insert_ne; naive_solver.
Qed.

Lemma dll_pop_empty m l : dll_rep m l [] -> list_remove (tail_of l) m = Err EFault.
Proof.
  intros [Hd H0]. pose proof Hd as [_ (_ & Htp & _) _ Ht _].
  destruct (dll_node _ _ _ (tail_of l) Hd) as [nt Hnt]; [unfold chain; set_solver|].
  destruct (dll_node _ _ _ (head_of l) Hd) as [nh Hnh]; [unfold chain; set_solver|].
  unfold prev_of in Htp. unfold next_of in Ht. rewrite Hnt in Htp, Ht.
  injection Htp as Htp. injection Ht as Ht.
  assert (head_of l <> tail_of l) by (unfold head_of, tail_of; lia).
  pose proof (dll_null _ _ _ Hd) as Hnull. unfold chain in Hnull.
  assert (head_of l <> 0) by set_solver.
  unfold list_remove. rewrite (bind_Ret disable _ _ _ _ eq_refl). field_step.
  rewrite Htp, Ht. do 2 field_step. rewrite Ht. apply bind_Err. unfold set_prev.
  apply bind_Err. unfold load_node. simpl. by rewrite lookup_insert_ne, H0.
Qed.

Lemma dll_pop m l xs :
  dll_rep m l xs ->
  match seq_pop xs with
  | Ok (x, xs') => exists m', list_pop l m = Ret x m' /\ dll_rep m' l xs'
      /\ same_but m m' (chain l xs')
  | Bad e => list_pop l m = Err e
  end.
Proof.
  intros [Hd H0]. destruct (load_first m l xs Hd) as (n & Hn & Hnx).
  unfold list_pop. rewrite (bind_Ret _ _ _ _ _ Hn), Hnx.
  destruct xs as [|x xs]; simpl.
  - apply bind_Err. by apply dll_pop_empty.
  - destruct (remove_dll m l [] xs x Hd) as (m' & Hr & Hd' & Hs).
    exists m'. change (first l (x :: xs)) with x. rewrite (bind_Ret _ _ _ _ _ Hr).
    split_and!; [done|split; [done|]|done].
    eapply same_but_null; [done|apply Hd'|done].
Qed.

Lemma dll_insert_rep m m' l xs :
  dll_rep m l xs -> forall ys, dll (nodes m') l ys -> same_but m m' (chain l ys) -> dll_rep m' l ys.
Proof.
  intros [_ H0] ys Hd Hs. split; [done|]. eapply same_but_null; [done|apply Hd|done].
Qed.

#[export] Instance dll_refines : ListRefines dll_rep.
Proof.
  constructor.
  - apply dll_init.
  - intros m l xs e Hr He Hnz Hs. destruct (insert_before_dll m l xs [] e (tail_of l))
      as (m' & Hi & Hd' & Hsame); rewrite ?app_nil_r; [apply Hr|done..|].
    exists m'. split_and!; [done|by eapply dll_insert_rep|done].
  - intros m l xs e Hr He Hnz Hs. destruct (load_first m l xs) as (n & Hn & Hnx); [apply Hr|].
    destruct (insert_before_dll m l [] xs e (first l xs))
      as (m' & Hi & Hd' & Hsame); [apply Hr|by destruct xs|done..|].
    exists m'. unfold list_push. rewrite (bind_Ret _ _ _ _ _ Hn), Hnx.
    split_and!; [done|by eapply dll_insert_rep|done].
  - intros m l xs e Hr He. apply list_elem_of_split in He as (ys & zs & ->).
    destruct (remove_dll m l ys zs e) as (m' & Hrm & Hd' & Hsame); [apply Hr|].
    destruct Hr as [[Hnd _ _ _ _] H0]. unfold chain in Hnd.
    apply NoDup_cons in Hnd as [_ Hnd]. apply NoDup_app in Hnd as [Hnd _].
    exists m'. rewrite seq_remove_split by done. split_and!; [done|split; [done|]|done].
    eapply same_but_null; [done|apply Hd'|done].
  - apply dll_pop.
  - intros m l xs e fuel [Hd _] Hf. destruct (load_first m l xs Hd) as (n & Hn & Hnx).
    destruct (dll_walk m l xs Hd). unfold elem_find.
    rewrite (bind_Ret _ _ _ _ _ Hn), Hnx. by apply elem_find_loop_spec.
  - intros m l xs [Hd _]. destruct (load_first m l xs Hd) as (n & Hn & Hnx).
    destruct (dll_walk m l xs Hd) as [_ Ht]. unfold list_empty.
    rewrite (bind_Ret _ _ _ _ _ Hn), Hnx. unfold mret, proc_ret. f_equal.
    destruct xs; [by apply bool_decide_true|apply bool_decide_false].
    unfold first; simpl. set_solver.
  - intros m l xs func fuel [Hd _] Hf. destruct (load_first m l xs Hd) as (n & Hn & Hnx).
    destruct (dll_walk m l xs Hd) as [Hl Ht]. unfold list_traversal.
    rewrite (bind_Ret _ _ _ _ _ Hn). unfold list_empty.
    rewrite run_bind, (bind_Ret _ _ _ _ _ Hn), Hnx. simpl.
    destruct xs as [|x xs]; [by rewrite bool_decide_true|].
    rewrite bool_decide_false by (unfold first; simpl; set_solver).
    by apply list_traversal_loop_spec.
  - intros m l xs fuel [Hd _] Hf Hlen. destruct (load_first m l xs Hd) as (n & Hn & Hnx).
    destruct (dll_walk m l xs Hd) as [Hl Ht]. unfold list_len.
    rewrite (bind_Ret _ _ _ _ _ Hn), Hnx. by rewrite list_len_loop_spec.
Qed.

(** ** Clients of the interface *)

Lemma dll_other m m' l ys l2 xs2 :
  same_but m m' (chain l ys) -> dll_rep m l2 xs2 -> chain l2 xs2 ## chain l ys ->
  0 ∉ chain l ys -> dll_rep m' l2 xs2.
Proof.
  intros Hs [Hd H0] Hdis Hnull. split; [|by eapply same_but_null].
  pose proof Hs as [_ Hsame]. destruct Hd as [Hnd Hl Hh Ht Hz].
  assert (forall x, x ∈ chain l2 xs2 ->
    next_of (nodes m') x = next_of (nodes m) x /\ prev_of (nodes m') x = prev_of (nodes m) x) as Hfr.
  { intros x Hx. unfold next_of, prev_of. rewrite Hsame; [done|]. intros Hx2. by apply (Hdis x). }
  constructor; [done| | | |done].
  - unfold chain in *. apply (linked_frame_right (nodes m)); [done| |];
      intros x Hx; apply Hfr; set_solver.
  - rewrite (proj2 (Hfr (head_of l2) ltac:(unfold chain; set_solver))). done.
  - rewrite (proj1 (Hfr (tail_of l2) ltac:(unfold chain; set_solver))). done.
Qed.

Section Fifo.
Context {rep : machine -> Z -> list Z -> Prop} `{ListRefines rep}.

Fixpoint append_all (l : Z) (es : list Z) : proc machine unit :=
  match es with
  | [] => mret tt
  | e :: es' => _ ← list_append l e; append_all l es'
  end.

Fixpoint pop_all (n : nat) (l : Z) : proc machine (list Z) :=
  match n with
  | O => mret []
  | S n' => x ← list_pop l; xs ← pop_all n' l; mret (x :: xs)
  end.

Lemma append_all_rep es m l xs :
  rep m l xs -> NoDup es -> chain l xs ## es -> 0 ∉ es ->
  (forall e, e ∈ es -> is_Some (nodes m !! e)) ->
  exists m', append_all l es m = Ret tt m' /\ rep m' l (xs ++ es).
Proof.
  revert m xs. induction es as [|e es IH]; intros m xs Hr Hnd Hdis Hnz Hex.
  { exists m. by rewrite app_nil_r. }
  apply NoDup_cons in Hnd as [He Hnd].
  destruct (lr_append m l xs e) as (m1 & Ha & Hr1 & [_ Hs]); [done|set_solver..|].
  simpl. rewrite (bind_Ret _ _ _ _ _ Ha).
  destruct (IH m1 (seq_append xs e)) as (m' & Hm' & Hr'); [done|done| |set_solver| |].
  - unfold seq_append, chain in *. set_solver.
  - intros x Hx. rewrite Hs; [apply Hex; set_solver|].
    unfold seq_append, chain in *. set_solver.
  - exists m'. unfold seq_append in Hr'. by rewrite <- app_assoc in Hr'.
Qed.

Lemma pop_all_rep xs m l :
  rep m l xs -> exists m', pop_all (length xs) l m = Ret xs m' /\ rep m' l [].
Proof.
  revert m. induction xs as [|x xs IH]; intros m Hr; [by exists m|].
  destruct (lr_pop m l (x :: xs) Hr) as (m1 & Hp & Hr1 & _).
  destruct (IH m1 Hr1) as (m2 & Hm2 & Hr2). exists m2. split; [|done].
  simpl. by rewrite (bind_Ret _ _ _ _ _ Hp), (bind_Ret _ _ _ _ _ Hm2).
Qed.

Lemma fifo_rep es m l xs :
  rep m l xs -> NoDup es -> chain l xs ## es -> 0 ∉ es ->
  (forall e, e ∈ es -> is_Some (nodes m !! e)) ->
  exists m', (_ ← append_all l es; pop_all (length xs + length es) l) m = Ret (xs ++ es) m'
    /\ rep m' l [].
Proof.
  intros. destruct (append_all_rep es m l xs) as (m1 & Ha & Hr1); [done..|].
  destruct (pop_all_rep (xs ++ es) m1 l Hr1) as (m2 & Hp & Hr2). exists m2.
  rewrite (bind_Ret _ _ _ _ _ Ha). rewrite length_app in Hp. done.
Qed.

End Fifo.

(** ** Properties *)

(** C8: the pointer-level list operations implement the sequence operations the
    rest of the kernel is described with: [list_init], [list_append],
    [list_push], [list_remove], [list_pop] (a pop of the empty list faults on
    the NULL [tail.next]), [elem_find], [list_empty], [list_traversal] and
    [list_len]; each leaves the nodes of other lists and EFLAGS unchanged, and
    each loop ends within one iteration more than the list has nodes. *)
Theorem list_ops_refine_sequences : ListRefines dll_rep.
Proof. apply dll_refines. Qed.

Definition demo_machine : machine :=
  Machine 514 (<[100 := ListElem 0 108]> (<[108 := ListElem 100 0]>
    (<[200 := ListElem 0 0]> (<[300 := ListElem 0 0]>
      (<[400 := ListElem 0 408]> (<[408 := ListElem 400 0]> ∅)))))).

Lemma demo_machine_rep l : l = 100 \/ l = 400 -> dll_rep demo_machine l [].
Proof.
  intros [-> | ->]; (split; [|done]); constructor; try done.
  1,3: apply (bool_decide_unpack _); vm_compute; done.
  1,2: apply (bool_decide_unpack _); vm_compute; done.
Qed.

(** elements appended to a list come out of [list_pop] in the order in
    which they were appended, behind the elements that were there before. *)
Theorem list_fifo (m : machine) (l : Z) (xs es : list Z) :
  dll_rep m l xs -> NoDup es -> chain l xs ## es -> 0 ∉ es ->
  (forall e, e ∈ es -> is_Some (nodes m !! e)) ->
  exists m', (_ ← append_all l es; pop_all (length xs + length es) l) m = Ret (xs ++ es) m'
    /\ dll_rep m' l [].
Proof. apply fifo_rep. Qed.

Lemma list_fifo_witness :
  exists m', (_ ← append_all 100 [300; 200]; pop_all (0 + 2) 100) demo_machine = Ret [300; 200] m'
    /\ dll_rep m' 100 [].
Proof.
  apply (list_fifo demo_machine 100 [] [300; 200]).
  - apply demo_machine_rep. by left.
  - apply (bool_decide_unpack _). vm_compute. done.
  - unfold chain. set_solver by lia.
  - apply (bool_decide_unpack _). vm_compute. done.
  - intros e He. assert (e = 300 \/ e = 200) as [-> | ->] by set_solver; vm_compute; by eexists.
Defined.

(** appending to one list keeps every list with other nodes as it was. *)
Theorem list_append_keeps_others (m : machine) (l e l2 : Z) (xs xs2 : list Z) :
  dll_rep m l xs -> e ∉ chain l xs -> e <> 0 -> is_Some (nodes m !! e) ->
  dll_rep m l2 xs2 -> chain l2 xs2 ## chain l (seq_append xs e) ->
  exists m', list_append l e m = Ret tt m' /\ dll_rep m' l (seq_append xs e) /\ dll_rep m' l2 xs2.
Proof.
  intros Hr He Hnz Hex Hr2 Hdis.
  destruct (lr_append m l xs e Hr He Hnz Hex) as (m' & Ha & Hr' & Hs).
  exists m'. split_and!; [done|done|]. eapply dll_other; [done|done|done|].
  apply Hr'.
Qed.

Lemma list_append_keeps_others_witness :
  exists m', list_append 100 200 demo_machine = Ret tt m'
    /\ dll_rep m' 100 (seq_append [] 200) /\ dll_rep m' 400 [].
Proof.
  apply list_append_keeps_others.
  - apply demo_machine_rep. by left.
  - apply (bool_decide_unpack _). vm_compute. done.
  - done.
  - vm_compute. by eexists.
  - apply demo_machine_rep. by right.
  - unfold chain, seq_append. intros x. rewrite !elem_of_cons. set_solver by lia.
Defined.
