(* ===== verification/Paging.v ===== *)
(** * Paging: the page tables of kernel/memory.c

    Physical memory as 32-bit words, the two-level translation of the i386 MMU,
    and the functions of kernel/memory.c that reach the page tables through the
    self-map (entry 1023 of every page directory designates the directory
    itself): [pte_ptr], [pde_ptr], [addr_v2p], [palloc], [page_table_add] and
    [page_table_pte_remove].  Translation always consults the tables in memory:
    the TLB, which the code keeps coherent with [invlpg], is not modelled. *)
From S2P Require Import Prelude Bitmap.

(** ** Data *)

Definition PG_P_1 : Z := 1.
Definition PG_RW_W : Z := 2.
Definition PG_US_U : Z := 4.

(** struct pool; its lock belongs to the layer above. *)
Record pool : Type := Pool {
  pool_bitmap : bitmap;
  phy_addr_start : Z;
  pool_size : Z
}.

(** struct virtual_addr. *)
Record virtual_addr : Type := VirtualAddr {
  vaddr_bitmap : bitmap;
  vaddr_start : Z
}.

(** Physical memory, the page directory register, and the globals
    [kernel_pool], [user_pool], [kernel_vaddr]; [cur_vaddr] is the
    [userprog_vaddr] of the running task. *)
Record mem : Type := Mem {
  phys : gmap Z Z;
  cr3 : Z;
  kernel_pool : pool;
  user_pool : pool;
  kernel_vaddr : virtual_addr;
  cur_vaddr : virtual_addr
}.

Definition with_phys (m : mem) (p : gmap Z Z) : mem :=
  Mem p (cr3 m) (kernel_pool m) (user_pool m) (kernel_vaddr m) (cur_vaddr m).

Definition with_cr3 (m : mem) (c : Z) : mem :=
  Mem (phys m) c (kernel_pool m) (user_pool m) (kernel_vaddr m) (cur_vaddr m).

Definition with_kernel_pool (m : mem) (p : pool) : mem :=
  Mem (phys m) (cr3 m) p (user_pool m) (kernel_vaddr m) (cur_vaddr m).

Definition with_user_pool (m : mem) (p : pool) : mem :=
  Mem (phys m) (cr3 m) (kernel_pool m) p (kernel_vaddr m) (cur_vaddr m).

Definition with_kernel_vaddr (m : mem) (v : virtual_addr) : mem :=
  Mem (phys m) (cr3 m) (kernel_pool m) (user_pool m) v (cur_vaddr m).

Definition with_cur_vaddr (m : mem) (v : virtual_addr) : mem :=
  Mem (phys m) (cr3 m) (kernel_pool m) (user_pool m) (kernel_vaddr m) v.

(** ** Addresses *)

Definition PDE_IDX (addr : Z) : Z := Z.shiftr (Z.land addr 0xffc00000) 22.

Definition PTE_IDX (addr : Z) : Z := Z.shiftr (Z.land addr 0x003ff000) 12.

Definition pte_ptr (vaddr : Z) : Z :=
  u32 (0xffc00000 + Z.shiftr (Z.land vaddr 0xffc00000) 10 + PTE_IDX vaddr * 4).

Definition pde_ptr (vaddr : Z) : Z := u32 (0xfffff000 + PDE_IDX vaddr * 4).

(** ** The MMU *)

Definition word (p : gmap Z Z) (a : Z) : Z := default 0 (p !! a).

Definition frame (entry : Z) : Z := Z.land entry 0xfffff000.

Definition present (entry : Z) : bool := negb (Z.land entry 1 =? 0).

(** The directory entry and, if it is present, the table entry of an address. *)
Definition pde_of (m : mem) (v : Z) : Z := word (phys m) (cr3 m + 4 * PDE_IDX v).

Definition pte_of (m : mem) (v : Z) : Z :=
  word (phys m) (frame (pde_of m v) + 4 * PTE_IDX v).

Definition translate (m : mem) (v : Z) : option Z :=
  if present (pde_of m v) && present (pte_of m v)
  then Some (frame (pte_of m v) + Z.land v 0xfff) else None.

Definition load32 (v : Z) : st mem Z := fun m =>
  match translate m v with Some pa => Ok (word (phys m) pa, m) | None => Bad EFault end.

Definition store32 (v x : Z) : st mem unit := fun m =>
  match translate m v with
  | Some pa => Ok (tt, with_phys m (<[pa := x]> (phys m)))
  | None => Bad EFault
  end.

(** [memset(v, 0, 4 * n)] on words. *)
Fixpoint memset0 (n : nat) (v : Z) : st mem unit :=
  match n with
  | O => mret tt
  | S n' => _ ← store32 v 0; memset0 n' (v + 4)
  end.

(** ** Operations of kernel/memory.c *)

Definition addr_v2p (vaddr : Z) : st mem Z :=
  pte ← load32 (pte_ptr vaddr);
  mret (u32 (Z.land pte 0xfffff000 + Z.land vaddr 0x00000fff)).

(** [palloc]: the pool is passed and returned. *)
Definition palloc (m_pool : pool) : res (Z * pool) :=
  bit_idx ← bitmap_scan (pool_bitmap m_pool) 1;
  if bit_idx =? -1 then mret (0, m_pool)
  else
    bm ← bitmap_set (pool_bitmap m_pool) bit_idx 1;
    mret (u32 (bit_idx * PG_SIZE + phy_addr_start m_pool),
          Pool bm (phy_addr_start m_pool) (pool_size m_pool)).

Definition palloc_kernel : st mem Z := fun m =>
  '(a, p) ← palloc (kernel_pool m); mret (a, with_kernel_pool m p).

Definition palloc_user : st mem Z := fun m =>
  '(a, p) ← palloc (user_pool m); mret (a, with_user_pool m p).

Definition page_table_add (vaddr page_phyaddr : Z) : st mem unit :=
  let pde := pde_ptr vaddr in
  let pte := pte_ptr vaddr in
  let entry := Z.lor (Z.lor (Z.lor page_phyaddr PG_US_U) PG_RW_W) PG_P_1 in
  pde_val ← load32 pde;
  if negb (Z.land pde_val 1 =? 0) then
    pte_val ← load32 pte;
    _ ← sassert (Z.land pte_val 1 =? 0);
    pte_val ← load32 pte;
    if Z.land pte_val 1 =? 0 then store32 pte entry else sres (Bad EPanic)
  else
    pde_phyaddr ← palloc_kernel;
    _ ← store32 pde (Z.lor (Z.lor (Z.lor pde_phyaddr PG_US_U) PG_RW_W) PG_P_1);
    _ ← memset0 1024 (Z.land pte 0xfffff000);
    pte_val ← load32 pte;
    _ ← sassert (Z.land pte_val 1 =? 0);
    store32 pte entry.

Definition page_table_pte_remove (vaddr : Z) : st mem unit :=
  let pte := pte_ptr vaddr in
  pte_val ← load32 pte;
  store32 pte (Z.land pte_val (Z.lnot PG_P_1)).

(** ** Address arithmetic *)

(** [land] with a mask of [w] ones shifted by [k] cuts bits [k, k + w) out. *)
Lemma land_field x k w :
  0 <= k -> 0 <= w ->
  Z.land x (Z.shiftl (Z.ones w) k) = ((x / 2 ^ k) mod 2 ^ w) * 2 ^ k.
Proof.
  intros. rewrite <- Z.land_ones, <- Z.shiftr_div_pow2, <- Z.shiftl_mul_pow2 by lia.
  apply Z.bits_inj'. intros n Hn. rewrite Z.land_spec, !Z.shiftl_spec by lia.
  destruct (decide (n < k)).
  - by rewrite (Z.testbit_neg_r _ (n - k)), (Z.testbit_neg_r _ (n - k)), andb_false_r by lia.
  - rewrite Z.land_spec, Z.shiftr_spec by lia. by replace (n - k + k) with n by lia.
Qed.

Lemma frame_eq x : frame x = ((x / 4096) mod 2 ^ 20) * 4096.
Proof.
  unfold frame. change 0xfffff000 with (Z.shiftl (Z.ones 20) 12).
  by rewrite land_field by lia.
Qed.

Lemma PDE_IDX_eq v : 0 <= v < 2 ^ 32 -> PDE_IDX v = v / 2 ^ 22.
Proof.
  intros. unfold PDE_IDX. change 0xffc00000 with (Z.shiftl (Z.ones 10) 22).
  rewrite land_field, Z.shiftr_div_pow2 by lia. lia.
Qed.

Lemma PTE_IDX_eq v : PTE_IDX v = (v / 4096) mod 1024.
Proof.
  intros. unfold PTE_IDX. change 0x003ff000 with (Z.shiftl (Z.ones 10) 12).
  rewrite land_field, Z.shiftr_div_pow2 by lia. lia.
Qed.

Lemma offset_eq v : Z.land v 0xfff = v mod 4096.
Proof. change 0xfff with (Z.ones 12). by rewrite Z.land_ones by lia. Qed.

Lemma PDE_IDX_range v : 0 <= v < 2 ^ 32 -> 0 <= PDE_IDX v < 1024.
Proof. intros. rewrite PDE_IDX_eq by done. lia. Qed.

Lemma PTE_IDX_range v : 0 <= PTE_IDX v < 1024.
Proof. rewrite PTE_IDX_eq. lia. Qed.

Lemma frame_range x : 0 <= frame x < 2 ^ 32.
Proof. rewrite frame_eq. lia. Qed.

Lemma frame_aligned x : frame x mod 4096 = 0.
Proof. rewrite frame_eq. lia. Qed.

(** An aligned address: what frames, directories and pages are. *)
Definition aligned (a : Z) : Prop := 0 <= a < 2 ^ 32 /\ a mod 4096 = 0.

Lemma aligned_frame x : aligned (frame x).
Proof. split; [apply frame_range|apply frame_aligned]. Qed.

Lemma frame_id a : aligned a -> frame a = a.
Proof. intros [? ?]. rewrite frame_eq. lia. Qed.

(** The entry [a | PG_US_U | PG_RW_W | PG_P_1]. *)
Definition entry_for (a : Z) : Z := Z.lor (Z.lor (Z.lor a PG_US_U) PG_RW_W) PG_P_1.

Lemma entry_for_eq a : aligned a -> entry_for a = a + 7.
Proof.
  intros [Ha Hm]. unfold entry_for, PG_US_U, PG_RW_W, PG_P_1.
  rewrite <- !Z.lor_assoc. change (Z.lor 4 (Z.lor 2 1)) with 7.
  replace a with (Z.shiftl (a / 4096) 12) at 1
    by (rewrite Z.shiftl_mul_pow2 by lia; lia).
  assert (Z.land (Z.shiftl (a / 4096) 12) 7 = 0) as Hdis.
  { apply Z.bits_inj'. intros n Hn. rewrite Z.land_spec, Z.bits_0, Z.shiftl_spec by lia.
    destruct (decide (n < 12)).
    - by rewrite Z.testbit_neg_r by lia.
    - rewrite (Z.bits_above_log2 7) by (simpl; lia). apply andb_false_r. }
  rewrite <- Z.lxor_lor, <- Z.add_nocarry_lxor by done.
  rewrite Z.shiftl_mul_pow2 by lia. lia.
Qed.

Lemma entry_present a : aligned a -> present (entry_for a) = true.
Proof.
  intros Ha. rewrite entry_for_eq by done. destruct Ha. unfold present.
  change 1 with (Z.ones 1). rewrite Z.land_ones by lia. lia.
Qed.

Lemma entry_frame a : aligned a -> frame (entry_for a) = a.
Proof. intros Ha. rewrite entry_for_eq by done. destruct Ha. rewrite frame_eq. lia. Qed.

(** ** The self-map *)

(** The directory is page aligned and its last entry designates itself. *)
Definition self_map (m : mem) : Prop :=
  aligned (cr3 m)
  /\ present (word (phys m) (cr3 m + 4 * 1023)) = true
  /\ frame (word (phys m) (cr3 m + 4 * 1023)) = cr3 m.

Lemma pde_ptr_eq v : 0 <= v < 2 ^ 32 -> pde_ptr v = 0xfffff000 + 4 * PDE_IDX v.
Proof.
  intros Hv. pose proof (PDE_IDX_range v Hv). unfold pde_ptr. unwrap. lia.
Qed.

Lemma pte_ptr_eq v :
  0 <= v < 2 ^ 32 -> pte_ptr v = 0xffc00000 + 4096 * PDE_IDX v + 4 * PTE_IDX v.
Proof.
  intros Hv. pose proof (PDE_IDX_range v Hv). pose proof (PTE_IDX_range v).
  unfold pte_ptr. rewrite (PDE_IDX_eq v) in * by done.
  change 0xffc00000 with (Z.shiftl (Z.ones 10) 22) at 2.
  rewrite land_field, Z.shiftr_div_pow2 by lia.
  replace (v / 2 ^ 22 mod 2 ^ 10 * 2 ^ 22 / 2 ^ 10) with (4096 * (v / 2 ^ 22)) by lia.
  unwrap. lia.
Qed.

Lemma translate_window m i off :
  self_map m -> 0 <= i < 1024 -> 0 <= off < 4096 ->
  translate m (0xffc00000 + 4096 * i + off)
  = (if present (word (phys m) (cr3 m + 4 * i))
     then Some (frame (word (phys m) (cr3 m + 4 * i)) + off) else None).
Proof.
  intros (Ha & Hp & Hf) Hi Hoff. set (v := 0xffc00000 + 4096 * i + off).
  assert (PDE_IDX v = 1023) as Hd by (rewrite PDE_IDX_eq; subst v; lia).
  assert (PTE_IDX v = i) as Ht by (rewrite PTE_IDX_eq; subst v; lia).
  assert (Z.land v 0xfff = off) as Ho by (rewrite offset_eq; subst v; lia).
  unfold translate, pte_of, pde_of. rewrite Hd, Ht, Ho, Hp, Hf. done.
Qed.

Lemma translate_pde m v :
  self_map m -> 0 <= v < 2 ^ 32 -> translate m (pde_ptr v) = Some (cr3 m + 4 * PDE_IDX v).
Proof.
  intros Hs Hv. pose proof (PDE_IDX_range v Hv). pose proof Hs as (_ & Hp & Hf).
  rewrite pde_ptr_eq by done.
  replace (0xfffff000 + 4 * PDE_IDX v) with (0xffc00000 + 4096 * 1023 + 4 * PDE_IDX v) by lia.
  rewrite translate_window, Hp, Hf by (done || lia). done.
Qed.

Lemma translate_pte m v :
  self_map m -> 0 <= v < 2 ^ 32 ->
  translate m (pte_ptr v)
  = if present (pde_of m v) then Some (frame (pde_of m v) + 4 * PTE_IDX v) else None.
Proof.
  intros Hs Hv. pose proof (PDE_IDX_range v Hv). pose proof (PTE_IDX_range v).
  rewrite pte_ptr_eq, translate_window by (done || lia). done.
Qed.

(** ** Pools of frames *)

Definition pool_frame (p : pool) (i : Z) : Z := phy_addr_start p + i * 4096.

Record pool_ok (p : pool) : Prop := {
  po_bitmap : bitmap_ok (pool_bitmap p);
  po_aligned : phy_addr_start p mod 4096 = 0;
  po_start : 0 < phy_addr_start p;
  po_range : pool_frame p (bm_bits (pool_bitmap p)) <= 2 ^ 32
}.

Definition pool_used (p : pool) (i : Z) : bool := bm_bit (pool_bitmap p) i.

Definition pool_cap (p : pool) : Z := bm_bits (pool_bitmap p).

(** [p'] is [p] with frame [i] taken. *)
Definition pool_takes (p p' : pool) (i : Z) : Prop :=
  phy_addr_start p' = phy_addr_start p /\ pool_size p' = pool_size p
  /\ pool_cap p' = pool_cap p /\ length (bits (pool_bitmap p')) = length (bits (pool_bitmap p))
  /\ forall j, 0 <= j -> pool_used p' j = pool_used p j || bool_decide (j = i).

Lemma pool_frame_aligned p i : pool_ok p -> 0 <= i < pool_cap p -> aligned (pool_frame p i).
Proof.
  intros [_ Ha Hs Hr] Hi. unfold pool_cap, pool_frame in *. split; [nia|].
  rewrite Z.add_mod, Ha, Z_mod_mult by lia. done.
Qed.

Lemma palloc_spec p :
  pool_ok p ->
  (exists i p', palloc p = Ok (pool_frame p i, p') /\ 0 <= i < pool_cap p
     /\ pool_used p i = false /\ pool_takes p p' i /\ pool_ok p')
  \/ (palloc p = Bad EPanic /\ forall j, 0 <= j < pool_cap p -> pool_used p j = true).
Proof.
  intros Hp. pose proof Hp as [Hb Ha Hs Hr]. unfold pool_cap, pool_used, palloc in *.
  destruct (take_bit_spec (pool_bitmap p) Hb)
    as [(i & b' & Hsc & Hse & _ & Hi & Hc & Hok & Hl & Hl2 & Hbits)|(Hsc & _ & Hall)].
  - left. pose proof (bo_int _ Hb). exists i, (Pool b' (phy_addr_start p) (pool_size p)).
    rewrite Hsc, bind_Ok. replace (i =? -1) with false by lia. rewrite Hse, bind_Ok.
    destruct (pool_frame_aligned p i Hp Hi) as [Hf _]. unfold pool_frame, PG_SIZE in *.
    rewrite u32_id by lia. split; [by rewrite Z.add_comm|].
    split; [done|]. split; [done|]. split.
    + unfold pool_takes, pool_cap, pool_used, bm_bits; simpl. rewrite Hl, Hl2. done.
    + constructor; simpl; try done. unfold pool_frame, bm_bits in *; simpl. by rewrite Hl.
  - right. by rewrite Hsc.
Qed.

(** ** The page-table invariant

    The self-map holds, no table shares the directory's frame, no two entries
    above entry 0 (which duplicates entry 768) share a table, and a frame that is
    free in the kernel pool is neither the directory nor a page table. *)
Definition dir_entry_at (m : mem) (i : Z) : Z := word (phys m) (cr3 m + 4 * i).

Record pt_ok (m : mem) : Prop := {
  pt_self : self_map m;
  pt_pool : pool_ok (kernel_pool m);
  pt_tables : forall i, 0 <= i < 1023 -> present (dir_entry_at m i) = true ->
    frame (dir_entry_at m i) <> cr3 m;
  pt_distinct : forall i j, 0 < i < 1023 -> 0 < j < 1023 ->
    present (dir_entry_at m i) = true -> present (dir_entry_at m j) = true ->
    frame (dir_entry_at m i) = frame (dir_entry_at m j) -> i = j;
  pt_fresh : forall k, 0 <= k < pool_cap (kernel_pool m) -> pool_used (kernel_pool m) k = false ->
    pool_frame (kernel_pool m) k <> cr3 m
    /\ forall i, 0 <= i < 1024 -> present (dir_entry_at m i) = true ->
         frame (dir_entry_at m i) <> pool_frame (kernel_pool m) k
}.

(** Two addresses whose page-table entry is the same word of memory. *)
Definition same_slot (m : mem) (v v' : Z) : Prop :=
  PTE_IDX v = PTE_IDX v'
  /\ (PDE_IDX v = PDE_IDX v'
      \/ (present (pde_of m v) = true /\ present (pde_of m v') = true
          /\ frame (pde_of m v) = frame (pde_of m v'))).

(** The top 4 MiB, where the tables themselves appear. *)
Definition window : Z := 0xffc00000.

(** The effect of adding the mapping of [v] to [pa]. *)
Record mapped (m m' : mem) (v pa : Z) : Prop := {
  md_maps : translate m' v = Some (pa + v mod 4096);
  md_others : forall v', 0 <= v' < window -> ~ same_slot m v v' -> translate m' v' = translate m v';
  md_ok : pt_ok m';
  md_cr3 : cr3 m' = cr3 m;
  md_user : user_pool m' = user_pool m;
  md_kvaddr : kernel_vaddr m' = kernel_vaddr m;
  md_uvaddr : cur_vaddr m' = cur_vaddr m;
  md_dir : (kernel_pool m' = kernel_pool m
            /\ forall i, 0 <= i < 1024 -> dir_entry_at m' i = dir_entry_at m i)
    \/ exists k, 0 <= k < pool_cap (kernel_pool m) /\ pool_used (kernel_pool m) k = false
         /\ pool_takes (kernel_pool m) (kernel_pool m') k
         /\ forall i, 0 <= i < 1024 -> dir_entry_at m' i
              = if decide (PDE_IDX v = i) then entry_for (pool_frame (kernel_pool m) k)
                else dir_entry_at m i;
  md_keep : forall g i, aligned g -> 0 <= i < 1024 -> g <> cr3 m -> g <> frame (pde_of m' v) ->
    word (phys m') (g + 4 * i) = word (phys m) (g + 4 * i)
}.

Lemma word_insert p a x b : word (<[a := x]> p) b = if decide (a = b) then x else word p b.
Proof. unfold word. rewrite lookup_insert. by case_decide. Qed.

(** Words of distinct frames are distinct. *)
Lemma frames_apart f g i j :
  aligned f -> aligned g -> 0 <= i < 1024 -> 0 <= j < 1024 ->
  f + 4 * i = g + 4 * j -> f = g /\ i = j.
Proof. intros [? ?] [? ?] ? ? ?. lia. Qed.

Lemma memset0_table n m i F k :
  self_map m -> aligned F -> F <> cr3 m -> 0 <= i < 1024 ->
  present (dir_entry_at m i) = true -> frame (dir_entry_at m i) = F ->
  0 <= k -> k + Z.of_nat n = 1024 ->
  exists p, memset0 n (window + 4096 * i + 4 * k) m = Ok (tt, with_phys m p)
    /\ (forall j, k <= j < 1024 -> word p (F + 4 * j) = 0)
    /\ (forall a, (forall j, k <= j < 1024 -> a <> F + 4 * j) -> word p a = word (phys m) a).
Proof.
  intros Hs HF Hne Hi Hpr Hfr. revert m k Hs Hne Hpr Hfr.
  induction n as [|n IH]; intros m k Hs Hne Hpr Hfr Hk Hn.
  { exists (phys m). split; [by destruct m|]. split; [lia|done]. }
  assert (translate m (window + 4096 * i + 4 * k) = Some (F + 4 * k)) as Ht.
  { unfold window. rewrite translate_window by (done || lia). fold (dir_entry_at m i).
    by rewrite Hpr, Hfr. }
  set (m1 := with_phys m (<[F + 4 * k := 0]> (phys m))).
  assert (forall j, 0 <= j < 1024 -> dir_entry_at m1 j = dir_entry_at m j) as Hdir.
  { intros j Hj. unfold dir_entry_at; simpl. rewrite word_insert, decide_False; [done|].
    intros Heq. destruct (frames_apart F (cr3 m) k j) as [? _]; [done|apply Hs|lia|lia|lia|done]. }
  pose proof Hs as (Hca & Hcp & Hcf).
  destruct (IH m1 (k + 1)) as (p & Hp & Hz & Ho).
  - split; [done|]. fold (dir_entry_at m1 1023). rewrite Hdir by lia. done.
  - done.
  - by rewrite Hdir.
  - by rewrite Hdir.
  - lia.
  - lia.
  - exists p. simpl. rewrite (sbind_Ok _ _ _ tt m1) by (unfold store32; by rewrite Ht).
    replace (window + 4096 * i + 4 * k + 4) with (window + 4096 * i + 4 * (k + 1)) by lia.
    split; [done|]. split.
    + intros j Hj. destruct (decide (j = k)) as [->|]; [|apply Hz; lia].
      rewrite Ho by lia. simpl. by rewrite word_insert, decide_True.
    + intros a Hout. rewrite Ho by (intros j Hj; apply Hout; lia). simpl.
      rewrite word_insert, decide_False; [done|]. specialize (Hout k). lia.
Qed.

(** ** Adding a mapping *)

Lemma pde_of_dir m v : pde_of m v = dir_entry_at m (PDE_IDX v).
Proof. done. Qed.

Lemma present_land x : (Z.land x 1 =? 0) = negb (present x).
Proof. unfold present. by rewrite negb_involutive. Qed.

Lemma load32_pte m v :
  self_map m -> 0 <= v < 2 ^ 32 -> present (pde_of m v) = true ->
  load32 (pte_ptr v) m = Ok (pte_of m v, m).
Proof. intros Hs Hv Hp. unfold load32. by rewrite translate_pte, Hp. Qed.

Lemma load32_pde m v :
  self_map m -> 0 <= v < 2 ^ 32 -> load32 (pde_ptr v) m = Ok (pde_of m v, m).
Proof. intros Hs Hv. unfold load32. by rewrite translate_pde. Qed.

Lemma PDE_IDX_window v : 0 <= v < window -> 0 <= PDE_IDX v < 1023.
Proof. unfold window. intros. rewrite PDE_IDX_eq; lia. Qed.

(** A memory whose directory is that of [m]. *)
Lemma pt_ok_same_dir m m' :
  pt_ok m -> cr3 m' = cr3 m -> kernel_pool m' = kernel_pool m ->
  (forall i, 0 <= i < 1024 -> dir_entry_at m' i = dir_entry_at m i) -> pt_ok m'.
Proof.
  intros [(Ha & Hp & Hf) Hk Ht Hds Hfr] Hc Hkp Hdir. constructor.
  - unfold self_map. fold (dir_entry_at m' 1023). rewrite Hdir, Hc by lia. done.
  - by rewrite Hkp.
  - intros i Hi. rewrite Hdir, Hc by lia. apply Ht, Hi.
  - intros i j Hi Hj. rewrite !Hdir by lia. by apply Hds.
  - intros k. rewrite Hkp, Hc. intros Hk1 Hk2. destruct (Hfr k Hk1 Hk2) as [? Hfr2].
    split; [done|]. intros i Hi. rewrite Hdir by done. apply Hfr2, Hi.
Qed.

(** Writing the table entry of [v]: only addresses of that entry change. *)
Lemma store_pte m v x :
  pt_ok m -> 0 <= v < window -> present (pde_of m v) = true ->
  exists m', store32 (pte_ptr v) x m = Ok (tt, m')
    /\ m' = with_phys m (<[frame (pde_of m v) + 4 * PTE_IDX v := x]> (phys m))
    /\ pt_ok m' /\ (forall i, 0 <= i < 1024 -> dir_entry_at m' i = dir_entry_at m i)
    /\ (forall v', 0 <= v' < 2 ^ 32 -> pde_of m' v' = pde_of m v') /\ pte_of m' v = x
    /\ (forall v', 0 <= v' < window -> present (pde_of m v') = true ->
          ~ same_slot m v v' -> pte_of m' v' = pte_of m v').
Proof.
  intros Hok Hv Hp. pose proof (pt_self _ Hok) as Hs. pose proof (PDE_IDX_window v Hv).
  pose proof (PTE_IDX_range v). set (a := frame (pde_of m v) + 4 * PTE_IDX v).
  set (m' := with_phys m (<[a := x]> (phys m))).
  assert (forall i, 0 <= i < 1024 -> dir_entry_at m' i = dir_entry_at m i) as Hdir.
  { intros i Hi. unfold dir_entry_at; simpl. rewrite word_insert, decide_False; [done|].
    intros Heq. destruct (frames_apart (frame (pde_of m v)) (cr3 m) (PTE_IDX v) i) as [Hc _];
      [apply aligned_frame|apply Hs|done|done|done|]. by eapply (pt_tables _ Hok (PDE_IDX v)). }
  assert (forall v', 0 <= v' < 2 ^ 32 -> pde_of m' v' = pde_of m v') as Hpde.
  { intros v' Hv'. apply Hdir, PDE_IDX_range, Hv'. }
  exists m'. split.
  { unfold store32. rewrite translate_pte, Hp by (done || unfold window in *; lia). done. }
  split; [done|]. split; [by apply (pt_ok_same_dir m)|]. do 2 (split; [done|]). split.
  - unfold pte_of. rewrite Hpde by (unfold window in *; lia). simpl.
    by rewrite word_insert, decide_True.
  - intros v' Hv' Hp' Hns. unfold pte_of. rewrite Hpde by (unfold window in *; lia). simpl.
    rewrite word_insert, decide_False; [done|]. intros Heq. apply Hns.
    destruct (frames_apart (frame (pde_of m v)) (frame (pde_of m v')) (PTE_IDX v) (PTE_IDX v'))
      as [Hf Ht]; try apply aligned_frame; try apply PTE_IDX_range; [done|].
    split; [done|]. by right.
Qed.

(** Installing the entry of a page in a table that exists. *)
Lemma install_pte m v pa :
  pt_ok m -> 0 <= v < window -> aligned pa -> present (pde_of m v) = true ->
  exists m', store32 (pte_ptr v) (entry_for pa) m = Ok (tt, m') /\ mapped m m' v pa.
Proof.
  intros Hok Hv Hpa Hp. destruct (store_pte m v (entry_for pa) Hok Hv Hp)
    as (m' & Hst & -> & Hok' & Hdir & Hpde & Hpte & Hoth).
  eexists. split; [exact Hst|]. constructor; try done; [| |by left|].
  - unfold translate. rewrite Hpte, Hpde, Hp, entry_present, entry_frame, offset_eq
      by (done || unfold window in *; lia). done.
  - intros v' Hv' Hns. unfold translate. rewrite Hpde by (unfold window in *; lia).
    destruct (present (pde_of m v')) eqn:Hp'; [|done]. by rewrite Hoth.
  - intros g i Hg Hi _ Hne. rewrite Hpde in Hne by (unfold window in *; lia). cbn [phys with_phys]. rewrite word_insert, decide_False; [done|].
    intros Heq. destruct (frames_apart _ g _ i (aligned_frame (pde_of m v)) Hg (PTE_IDX_range v) Hi Heq) as [? _]. by apply Hne.
Qed.

(** Taking a frame of the kernel pool as the table of directory entry [i]. *)
Definition with_table (m : mem) (p : pool) (i F : Z) : mem :=
  with_phys (with_kernel_pool m p) (<[cr3 m + 4 * i := entry_for F]> (phys m)).

Lemma with_table_dir m p i F j :
  self_map m -> 0 <= i < 1024 -> 0 <= j < 1024 ->
  dir_entry_at (with_table m p i F) j = if decide (i = j) then entry_for F else dir_entry_at m j.
Proof.
  intros Hs Hi Hj. unfold dir_entry_at; simpl. rewrite word_insert.
  repeat case_decide; done || lia.
Qed.

Lemma pool_frame_inj p j k : pool_frame p j = pool_frame p k -> j = k.
Proof. unfold pool_frame. lia. Qed.

Lemma pool_takes_frame p p' k j : pool_takes p p' k -> pool_frame p' j = pool_frame p j.
Proof. intros (Hs & _). unfold pool_frame. by rewrite Hs. Qed.

Lemma with_table_ok m p i k :
  pt_ok m -> pool_ok p -> 0 <= i < 1023 -> 0 <= k < pool_cap (kernel_pool m) ->
  pool_used (kernel_pool m) k = false -> pool_takes (kernel_pool m) p k ->
  pt_ok (with_table m p i (pool_frame (kernel_pool m) k)).
Proof.
  intros Hok Hp Hi Hk Hfree Htk. set (F := pool_frame (kernel_pool m) k).
  pose proof (pt_self _ Hok) as Hs. pose proof Hs as (Ha & Hpr & Hfr).
  assert (aligned F) as HF by (apply pool_frame_aligned; [apply Hok|done]).
  destruct (pt_fresh _ Hok k Hk Hfree) as [HFd HFt]. fold F in HFd, HFt.
  constructor.
  - split; [done|]. fold (dir_entry_at (with_table m p i F) 1023).
    rewrite with_table_dir, decide_False by (done || lia). done.
  - done.
  - intros j Hj. rewrite with_table_dir by (done || lia). case_decide.
    + intros _. by rewrite entry_frame.
    + apply (pt_tables _ Hok j Hj).
  - intros j1 j2 Hj1 Hj2. rewrite !with_table_dir by (done || lia). repeat case_decide; try lia.
    + intros _ Hp2. rewrite entry_frame by done. intros Heq. by destruct (HFt j2); [lia|..].
    + intros Hp1 _. rewrite entry_frame by done. intros Heq. by destruct (HFt j1); [lia|..].
    + by apply (pt_distinct _ Hok).
  - intros k' Hk' Hf'. simpl in *. rewrite (pool_takes_frame _ _ _ _ Htk).
    pose proof Htk as (_ & _ & Hcap & _ & Hused). rewrite Hcap in Hk'.
    rewrite Hused in Hf' by lia. apply orb_false_iff in Hf' as [Hf' Hne].
    apply bool_decide_eq_false in Hne. destruct (pt_fresh _ Hok k' Hk' Hf') as [Hd Ht].
    split; [done|]. intros j Hj. rewrite with_table_dir by (done || lia). case_decide.
    + intros _. rewrite entry_frame by done. intros Heq. apply Hne. symmetry.
      by apply pool_frame_inj in Heq.
    + apply Ht, Hj.
Qed.

(** The new table after [memset]: it maps nothing, everything else is as before. *)
Lemma new_table m v :
  pt_ok m -> 0 <= v < window -> present (pde_of m v) = false ->
  forall k p, 0 <= k < pool_cap (kernel_pool m) -> pool_used (kernel_pool m) k = false ->
  pool_takes (kernel_pool m) p k -> pool_ok p ->
  let F := pool_frame (kernel_pool m) k in
  exists ph, memset0 1024 (Z.land (pte_ptr v) 0xfffff000) (with_table m p (PDE_IDX v) F)
      = Ok (tt, with_phys (with_table m p (PDE_IDX v) F) ph)
    /\ let m3 := with_phys (with_table m p (PDE_IDX v) F) ph in
       pt_ok m3 /\ pde_of m3 v = entry_for F /\ pte_of m3 v = 0
       /\ (forall v', 0 <= v' < window -> translate m3 v' = translate m v')
       /\ (forall i, 0 <= i < 1024 ->
             dir_entry_at m3 i = if decide (PDE_IDX v = i) then entry_for F else dir_entry_at m i)
       /\ (forall g i, aligned g -> 0 <= i < 1024 -> g <> cr3 m -> g <> F -> word ph (g + 4 * i) = word (phys m) (g + 4 * i)).
Proof.
  intros Hok Hv Habs k p Hk Hfree Htk Hp F. pose proof (PDE_IDX_window v Hv) as Hd.
  pose proof (PTE_IDX_range v) as Ht. pose proof (pt_self _ Hok) as Hs.
  assert (aligned F) as HF by (apply pool_frame_aligned; [apply Hok|done]).
  destruct (pt_fresh _ Hok k Hk Hfree) as [HFd HFt]. fold F in HFd, HFt.
  set (m2 := with_table m p (PDE_IDX v) F).
  assert (pt_ok m2) as Hok2 by (by apply with_table_ok).
  assert (forall j, 0 <= j < 1024 -> dir_entry_at m2 j
      = if decide (PDE_IDX v = j) then entry_for F else dir_entry_at m j) as Hdir2.
  { intros j Hj. apply with_table_dir; done || lia. }
  assert (Z.land (pte_ptr v) 0xfffff000 = window + 4096 * PDE_IDX v + 4 * 0) as Haddr.
  { fold (frame (pte_ptr v)). rewrite pte_ptr_eq, frame_eq by (unfold window in *; lia).
    unfold window. lia. }
  rewrite Haddr. destruct (memset0_table 1024 m2 (PDE_IDX v) F 0) as (ph & Hms & Hz & Hkeep).
  - apply Hok2.
  - done.
  - done.
  - lia.
  - rewrite Hdir2, decide_True by (done || lia). by apply entry_present.
  - rewrite Hdir2, decide_True by (done || lia). by apply entry_frame.
  - lia.
  - lia.
  - exists ph. split; [done|]. set (m3 := with_phys m2 ph). cbv zeta.
    assert (forall j, 0 <= j < 1024 -> dir_entry_at m3 j = dir_entry_at m2 j) as Hdir3.
    { intros j Hj. unfold dir_entry_at; simpl. apply Hkeep. intros i Hi Heq.
      destruct (frames_apart (cr3 m) F j i) as [? _]; try done. apply Hs. }
    assert (pde_of m3 v = entry_for F) as HvF.
    { rewrite pde_of_dir, Hdir3, Hdir2, decide_True by (done || lia). done. }
    assert (forall v', 0 <= v' < window -> PDE_IDX v' <> PDE_IDX v -> pde_of m3 v' = pde_of m v')
      as Hoth.
    { intros v' Hv' Hne. pose proof (PDE_IDX_window v' Hv').
      rewrite pde_of_dir, Hdir3, Hdir2, decide_False by (done || lia). done. }
    assert (forall v', PDE_IDX v' = PDE_IDX v -> pte_of m3 v' = 0) as Hzero.
    { intros v' Heq. unfold pte_of. rewrite pde_of_dir, Heq, <- pde_of_dir, HvF, entry_frame by done.
      apply Hz, PTE_IDX_range. }
    split; [by apply (pt_ok_same_dir m2)|]. split; [done|]. split; [by apply Hzero|].
    split; [|split; [by intros i Hi; rewrite Hdir3, Hdir2|]].
    2: { intros g i Hg Hi Hnc HnF. rewrite Hkeep.
         - simpl. rewrite word_insert, decide_False; [done|]. intros Heq.
           by destruct (frames_apart (cr3 m) g (PDE_IDX v) i) as [? _]; [apply Hs|..]; try done; try lia.
         - intros j Hj Heq. by destruct (frames_apart g F i j) as [? _]. }
    intros v' Hv'. unfold translate.
    destruct (decide (PDE_IDX v' = PDE_IDX v)) as [Heq|Hne].
    + rewrite Hzero by done. rewrite andb_false_r, (pde_of_dir m), Heq, <- pde_of_dir, Habs. done.
    + rewrite Hoth by done. destruct (present (pde_of m v')) eqn:Hp'; [|done].
      replace (pte_of m3 v') with (pte_of m v'); [done|].
      unfold pte_of. rewrite Hoth by done. simpl. rewrite Hkeep.
      * simpl. rewrite word_insert, decide_False; [done|]. intros Heq.
        destruct (frames_apart (cr3 m) (frame (pde_of m v')) (PDE_IDX v) (PTE_IDX v'))
          as [? _]; [apply Hs|apply aligned_frame|lia|apply PTE_IDX_range|done|].
        pose proof (PDE_IDX_window v' Hv'). by eapply (pt_tables _ Hok (PDE_IDX v')).
      * intros j Hj Heq.
        destruct (frames_apart (frame (pde_of m v')) F (PTE_IDX v') j) as [? _];
          [apply aligned_frame|done|apply PTE_IDX_range|lia|done|].
        pose proof (PDE_IDX_window v' Hv'). by eapply (HFt (PDE_IDX v')); [lia|..].
Qed.

Lemma fill_table m m3 v pa :
  pt_ok m3 -> 0 <= v < window -> aligned pa ->
  present (pde_of m v) = false -> present (pde_of m3 v) = true ->
  (forall v', 0 <= v' < window -> translate m3 v' = translate m v') ->
  (forall v', 0 <= v' < window -> PDE_IDX v' <> PDE_IDX v ->
     pde_of m3 v' = pde_of m v' /\
     (present (pde_of m v') = true -> frame (pde_of m v') <> frame (pde_of m3 v))) ->
  exists m', store32 (pte_ptr v) (entry_for pa) m3 = Ok (tt, m') /\ mapped m3 m' v pa
    /\ forall v', 0 <= v' < window -> ~ same_slot m v v' -> translate m' v' = translate m v'.
Proof.
  intros Hok Hv Hpa Habs Hp Htr Hoth.
  destruct (install_pte m3 v pa Hok Hv Hpa Hp) as (m' & Hst & Hmap).
  exists m'. split; [done|]. split; [done|]. intros v' Hv' Hns.
  rewrite (md_others _ _ _ _ Hmap), Htr; [done|done|done|].
  intros [Ht Hd]. apply Hns. split; [done|]. destruct (decide (PDE_IDX v' = PDE_IDX v)) as [|Hne].
  { by left. }
  destruct Hd as [|(_ & Hp' & Hf)]; [by left|]. destruct (Hoth v' Hv' Hne) as [He Hfr].
  rewrite He in *. by destruct Hfr.
Qed.

(** What [page_table_add] does, on every branch. *)
Lemma page_table_add_spec m v pa :
  pt_ok m -> 0 <= v < window -> aligned pa ->
  (translate m v = None ->
     (exists m', page_table_add v pa m = Ok (tt, m') /\ mapped m m' v pa)
     \/ (page_table_add v pa m = Bad EPanic /\ present (pde_of m v) = false
         /\ forall j, 0 <= j < pool_cap (kernel_pool m) -> pool_used (kernel_pool m) j = true))
  /\ (is_Some (translate m v) -> page_table_add v pa m = Bad EPanic).
Proof.
  intros Hok Hv Hpa. assert (0 <= v < 2 ^ 32) as Hv32 by (unfold window in *; lia).
  pose proof (pt_self _ Hok) as Hs. unfold page_table_add. fold (entry_for pa).
  run (load32_pde m v Hs Hv32). rewrite present_land, negb_involutive.
  destruct (present (pde_of m v)) eqn:Hpd.
  - run (load32_pte m v Hs Hv32 Hpd). rewrite present_land.
    unfold translate. rewrite Hpd. simpl. destruct (present (pte_of m v)) eqn:Hpt.
    + split; [done|]. intros _. done.
    + split; [|by intros [? ?]]. intros _. left.
      assert (sassert (negb false) m = Ok (tt, m)) as Has by done. run Has.
      run (load32_pte m v Hs Hv32 Hpd). rewrite present_land, Hpt. simpl.
      by apply install_pte.
  - split; [|unfold translate; rewrite Hpd; by intros [? ?]]. intros _.
    destruct (palloc_spec (kernel_pool m) (pt_pool _ Hok))
      as [(k & p & Hpal & Hk & Hfree & Htk & Hp)|(Hpal & Hall)].
    + left. set (F := pool_frame (kernel_pool m) k) in *.
      assert (aligned F) as HF by (apply pool_frame_aligned; [apply Hok|done]).
      assert (palloc_kernel m = Ok (F, with_kernel_pool m p)) as Hpk.
      { unfold palloc_kernel. by rewrite Hpal. }
      run Hpk. fold (entry_for F).
      assert (store32 (pde_ptr v) (entry_for F) (with_kernel_pool m p)
          = Ok (tt, with_table m p (PDE_IDX v) F)) as Hst.
      { unfold store32. rewrite translate_pde; done. }
      run Hst. destruct (new_table m v Hok Hv Hpd k p Hk Hfree Htk Hp)
        as (ph & Hms & Hok3 & Hpde & Hpte & Htr & Hdir & Hkeep). fold F in Hms, Hok3, Hpde, Hpte, Htr, Hdir, Hkeep.
      run Hms. set (m3 := with_phys (with_table m p (PDE_IDX v) F) ph) in *.
      assert (present (pde_of m3 v) = true) as Hp3 by (rewrite Hpde; by apply entry_present).
      run (load32_pte m3 v (pt_self _ Hok3) Hv32 Hp3). rewrite Hpte.
      assert (sassert (Z.land 0 1 =? 0) m3 = Ok (tt, m3)) as Has by done. run Has.
      destruct (fill_table m m3 v pa) as (m' & Hst' & Hmap & Hfar); try done.
      * intros v' Hv' Hne. pose proof (PDE_IDX_window v' Hv').
        split; [by rewrite pde_of_dir, Hdir, decide_False by (done || lia)|].
        intros Hpr. rewrite Hpde, entry_frame by done.
        destruct (pt_fresh _ Hok k Hk Hfree) as [_ Hfr]. apply (Hfr (PDE_IDX v')); [lia|done].
      * exists m'. split; [done|]. destruct Hmap as [Hm1 Hm2 Hm3 Hm4 Hm5 Hm6 Hm7 Hm8 Hm9].
        assert (kernel_pool m' = p /\ forall i, 0 <= i < 1024 -> dir_entry_at m' i = dir_entry_at m3 i) as [Hkp Hdir'].
        { destruct (store_pte m3 v (entry_for pa) Hok3 Hv Hp3) as (m'' & Hst2 & Heq & _ & Hdir' & _).
          assert (m'' = m') as -> by congruence. by rewrite Heq in *. }
        assert (frame (pde_of m' v) = F) as HpF.
        { pose proof (PDE_IDX_window v Hv). by rewrite pde_of_dir, Hdir', Hdir, decide_True, entry_frame by (done || lia). }
        constructor; try done.
        { right. exists k. rewrite Hkp. split_and!; try done; try lia. intros i Hi. by rewrite Hdir', Hdir. }
        intros g i Hg Hi Hnc HnF. rewrite Hm9 by done. apply Hkeep; try done. by rewrite <- HpF.
    + right. split; [|done]. apply sbind_Bad. unfold palloc_kernel. by rewrite Hpal.
Qed.

(** ** Reading and removing a mapping *)

Lemma addr_v2p_spec m v pa :
  self_map m -> 0 <= v < 2 ^ 32 -> translate m v = Some pa -> addr_v2p v m = Ok (pa, m).
Proof.
  unfold translate. intros Hs Hv. destruct (present (pde_of m v)) eqn:Hd; [|done].
  destruct (present (pte_of m v)); [|done]. intros [= <-].
  unfold addr_v2p. run (load32_pte m v Hs Hv Hd). unfold mret, st_ret.
  fold (frame (pte_of m v)). rewrite u32_id; [done|].
  pose proof (frame_range (pte_of m v)). pose proof (frame_aligned (pte_of m v)).
  rewrite offset_eq. lia.
Qed.

Lemma clear_present x : present (Z.land x (Z.lnot PG_P_1)) = false.
Proof.
  unfold present. rewrite <- Z.land_assoc. change (Z.land (Z.lnot PG_P_1) 1) with 0.
  by rewrite Z.land_0_r.
Qed.

(** [m'] is [m] without the mapping of [v]. *)
Record unmapped (m m' : mem) (v : Z) : Prop := {
  um_gone : translate m' v = None;
  um_others : forall v', 0 <= v' < window -> ~ same_slot m v v' -> translate m' v' = translate m v';
  um_ok : pt_ok m';
  um_dir : forall i, 0 <= i < 1024 -> dir_entry_at m' i = dir_entry_at m i;
  um_rest : exists p, m' = with_phys m p
}.

Lemma page_table_pte_remove_spec m v :
  pt_ok m -> 0 <= v < window -> is_Some (translate m v) ->
  exists m', page_table_pte_remove v m = Ok (tt, m') /\ unmapped m m' v.
Proof.
  intros Hok Hv [pa Htr]. assert (0 <= v < 2 ^ 32) as Hv32 by (unfold window in *; lia).
  unfold translate in Htr. destruct (present (pde_of m v)) eqn:Hd; [|done]. clear Htr.
  unfold page_table_pte_remove. run (load32_pte m v (pt_self _ Hok) Hv32 Hd).
  destruct (store_pte m v (Z.land (pte_of m v) (Z.lnot PG_P_1)) Hok Hv Hd)
    as (m' & Hst & Heq & Hok' & Hdir & Hpde & Hpte & Hoth).
  exists m'. split; [done|]. constructor; [| |done|done|by eexists].
  - unfold translate. rewrite Hpte, clear_present, andb_false_r. done.
  - intros v' Hv' Hns. unfold translate. rewrite Hpde by (unfold window in *; lia).
    destruct (present (pde_of m v')) eqn:Hp'; [|done]. by rewrite Hoth.
Qed.

(** ** Properties *)

(** A booted memory: directory at 1 MiB, its entries 0 and 768 share the table
    behind it, entry 1023 is the self-map. *)
Definition demo_pool (start : Z) : pool := Pool (Bitmap 2 [0; 0; 0]) start 0x10000.

Definition demo_mem : mem :=
  Mem (<[0x100000 := 0x101007]> (<[0x100000 + 4 * 768 := 0x101007]>
        (<[0x100000 + 4 * 1023 := 0x100007]> (<[0x101000 := 7]> ∅))))
    0x100000 (demo_pool 0x200000) (demo_pool 0x210000)
    (VirtualAddr (Bitmap 2 [0; 0; 0]) 0xc0100000) (VirtualAddr (Bitmap 2 [0; 0; 0]) 0x8048000).

Lemma demo_pool_ok start :
  0 < start -> start mod 4096 = 0 -> start <= 2 ^ 31 -> pool_ok (demo_pool start).
Proof.
  intros. constructor; simpl; [|done|done|].
  - constructor; [done|done|]. repeat constructor; done.
  - unfold pool_frame, bm_bits; simpl. lia.
Qed.

Lemma demo_dir i :
  0 <= i < 1024 -> present (dir_entry_at demo_mem i) = true ->
  frame (dir_entry_at demo_mem i) = if decide (i = 1023) then 0x100000 else 0x101000.
Proof.
  intros Hi. unfold dir_entry_at, demo_mem; simpl. rewrite !word_insert.
  repeat case_decide; subst; try lia; intros Hp; try done; by vm_compute in Hp.
Qed.

Lemma demo_mem_ok : pt_ok demo_mem.
Proof.
  constructor.
  - vm_compute. done.
  - by apply demo_pool_ok.
  - intros i Hi Hp. rewrite demo_dir, decide_False by (done || lia). done.
  - assert (forall i, 0 < i < 1023 -> present (dir_entry_at demo_mem i) = true -> i = 768) as H768.
    { intros i Hi. unfold dir_entry_at, demo_mem; simpl. rewrite !word_insert.
      repeat case_decide; subst; try lia; intros Hp; done. }
    intros i j Hi Hj Hpi Hpj _. by rewrite (H768 i), (H768 j).
  - intros k Hk _. unfold pool_frame; simpl. split; [lia|]. intros i Hi Hp.
    rewrite demo_dir by done. case_decide; lia.
Qed.

(** The addresses [pde_ptr] and [pte_ptr] compute reach the directory entry
    and, when its table exists, the table entry of any address; dereferencing
    the latter without a table faults. *)
Theorem self_map_exposes_entries (m : mem) (v : Z) :
  self_map m -> 0 <= v < 2 ^ 32 ->
  load32 (pde_ptr v) m = Ok (word (phys m) (cr3 m + 4 * (v / 2 ^ 22)), m)
  /\ load32 (pte_ptr v) m =
       (if present (pde_of m v)
        then Ok (word (phys m) (frame (pde_of m v) + 4 * (v / 2 ^ 12 mod 1024)), m)
        else Bad EFault).
Proof.
  intros Hs Hv. rewrite load32_pde by done. unfold pde_of at 1. rewrite PDE_IDX_eq by done.
  split; [done|]. destruct (present (pde_of m v)) eqn:Hp.
  - rewrite load32_pte by done. unfold pte_of. by rewrite PTE_IDX_eq.
  - unfold load32. by rewrite translate_pte, Hp.
Qed.

Lemma self_map_exposes_entries_witness :
  load32 (pde_ptr 0xc0000000) demo_mem = Ok (0x101007, demo_mem)
  /\ load32 (pte_ptr 0x8048000) demo_mem = Bad EFault.
Proof.
  split.
  - apply (self_map_exposes_entries demo_mem 0xc0000000); [apply demo_mem_ok|lia].
  - apply (self_map_exposes_entries demo_mem 0x8048000); [apply demo_mem_ok|lia].
Defined.

(** C9: [page_table_add] maps an unmapped page to the given frame, creating and
    clearing the page table if there is none, and changes the translation of no
    address that has another table entry; it panics when a table is needed and
    the kernel pool is exhausted, and when the page is mapped already. *)
Theorem page_table_add_maps (m : mem) (v pa : Z) :
  pt_ok m -> 0 <= v < window -> aligned pa ->
  (translate m v = None ->
     (exists m', page_table_add v pa m = Ok (tt, m') /\ mapped m m' v pa)
     \/ (page_table_add v pa m = Bad EPanic /\ present (pde_of m v) = false
         /\ forall j, 0 <= j < pool_cap (kernel_pool m) -> pool_used (kernel_pool m) j = true))
  /\ (is_Some (translate m v) -> page_table_add v pa m = Bad EPanic).
Proof. apply page_table_add_spec. Qed.

Lemma page_table_add_maps_witness :
  (exists m', page_table_add 0x8048000 0x210000 demo_mem = Ok (tt, m')
     /\ mapped demo_mem m' 0x8048000 0x210000)
  /\ page_table_add 0xc0000000 0x210000 demo_mem = Bad EPanic.
Proof.
  assert (aligned 0x210000) as Ha by (split; [lia|done]).
  split.
  - destruct (page_table_add_maps demo_mem 0x8048000 0x210000) as [[H|(_ & _ & Hf)] _];
      [apply demo_mem_ok|unfold window; lia|done|done|done|].
    exfalso. assert (0 <= 0 < pool_cap (kernel_pool demo_mem)) as H0 by (vm_compute; done).
    specialize (Hf 0 H0). by vm_compute in Hf.
  - apply (page_table_add_maps demo_mem 0xc0000000 0x210000);
      [apply demo_mem_ok|unfold window; lia|done|vm_compute; by eexists].
Defined.

(** After [page_table_add], [addr_v2p] gives the frame back at every offset
    of the page, and [page_table_pte_remove] takes the mapping out again and
    leaves the translations of all other entries as they were before. *)
Theorem page_table_add_remove (m m1 : mem) (v pa : Z) :
  pt_ok m -> 0 <= v < window -> aligned pa -> translate m v = None ->
  page_table_add v pa m = Ok (tt, m1) ->
  addr_v2p v m1 = Ok (pa + v mod 4096, m1)
  /\ exists m2, page_table_pte_remove v m1 = Ok (tt, m2)
       /\ translate m2 v = None
       /\ (forall v', 0 <= v' < window -> ~ same_slot m v v' -> ~ same_slot m1 v v' ->
             translate m2 v' = translate m v').
Proof.
  intros Hok Hv Hpa Hnone Hadd. destruct (page_table_add_spec m v pa Hok Hv Hpa) as [Hs _].
  destruct (Hs Hnone) as [(m1' & Hadd' & Hmap)|(Hbad & _)]; [|congruence].
  assert (m1' = m1) as -> by congruence. split.
  - apply addr_v2p_spec; [apply (md_ok _ _ _ _ Hmap)|unfold window in *; lia|apply (md_maps _ _ _ _ Hmap)].
  - destruct (page_table_pte_remove_spec m1 v) as (m2 & Hrm & Hun).
    { apply (md_ok _ _ _ _ Hmap). } { done. } { rewrite (md_maps _ _ _ _ Hmap). by eexists. }
    exists m2. split; [done|]. split; [apply (um_gone _ _ _ Hun)|].
    intros v' Hv' Hn Hn1. rewrite (um_others _ _ _ Hun), (md_others _ _ _ _ Hmap); done.
Qed.

Lemma page_table_add_remove_witness :
  match page_table_add 0xc0100000 0x200000 demo_mem with
  | Ok (_, m1) => addr_v2p 0xc0100000 m1 = Ok (0x200000 + 0xc0100000 mod 4096, m1)
  | Bad _ => False
  end.
Proof.
  destruct (page_table_add 0xc0100000 0x200000 demo_mem) as [[[] m1]|e] eqn:Hadd.
  - apply (page_table_add_remove demo_mem m1 0xc0100000 0x200000);
      [apply demo_mem_ok|unfold window; lia|split; [lia|done]|done|done].
  - by vm_compute in Hadd.
Defined.
