(* ===== verification/Pages.v ===== *)
(** * Pages: page allocation of kernel/memory.c

    [vaddr_get], [malloc_page], [pfree], [free_a_phy_page], [vaddr_remove],
    [mfree_page] and the initialisation of the pools, [mem_pool_init].  These
    functions run with the pool's lock held (the callers take it), so they are
    code without task switches over the memory of [Paging]. *)
From S2P Require Import Prelude Bitmap Paging.

(** ** Operations *)

Inductive pool_flags : Type := PF_KERNEL | PF_USER.

#[export] Instance pool_flags_eq_dec : EqDecision pool_flags.
Proof. solve_decision. Defined.

Definition K_HEAP_START : Z := 0xc0100000.

Definition MEM_BITMAP_BASE : Z := 0xc009a000.

(** [while (cnt < pg_cnt) bitmap_set(btmp, bit_idx_start + cnt++, value)]. *)
Fixpoint set_run (n : nat) (b : bitmap) (bit_idx value : Z) : res bitmap :=
  match n with
  | O => mret b
  | S n' => b' ← bitmap_set b (u32 bit_idx) value; set_run n' b' (bit_idx + 1) value
  end.

Definition vaddr_get (pf : pool_flags) (pg_cnt : Z) : st mem Z := fun m =>
  match pf with
  | PF_KERNEL =>
    let va := kernel_vaddr m in
    bit_idx_start ← bitmap_scan (vaddr_bitmap va) pg_cnt;
    if bit_idx_start =? -1 then mret (0, m)
    else
      b ← set_run (Z.to_nat pg_cnt) (vaddr_bitmap va) bit_idx_start 1;
      mret (u32 (vaddr_start va + bit_idx_start * PG_SIZE),
            with_kernel_vaddr m (VirtualAddr b (vaddr_start va)))
  | PF_USER =>
    let va := cur_vaddr m in
    bit_idx_start ← bitmap_scan (vaddr_bitmap va) pg_cnt;
    if bit_idx_start =? -1 then mret (0, m)
    else
      b ← set_run (Z.to_nat pg_cnt) (vaddr_bitmap va) bit_idx_start 1;
      let r := u32 (vaddr_start va + bit_idx_start * PG_SIZE) in
      _ ← ASSERT (r <? 0xc0000000 - PG_SIZE);
      mret (r, with_cur_vaddr m (VirtualAddr b (vaddr_start va)))
  end.

Definition palloc_from (pf : pool_flags) : st mem Z :=
  match pf with PF_KERNEL => palloc_kernel | PF_USER => palloc_user end.

(** The loop of [malloc_page]; [false] when [palloc] returned NULL. *)
Fixpoint map_pages (cnt : nat) (pf : pool_flags) (vaddr : Z) : st mem bool :=
  match cnt with
  | O => mret true
  | S cnt' =>
    page_phyaddr ← palloc_from pf;
    if page_phyaddr =? 0 then mret false
    else
      _ ← page_table_add vaddr page_phyaddr;
      map_pages cnt' pf (u32 (vaddr + PG_SIZE))
  end.

Definition malloc_page (pf : pool_flags) (pg_cnt : Z) : st mem Z :=
  _ ← sassert ((0 <? pg_cnt) && (pg_cnt <? 3840));
  vaddr_start ← vaddr_get pf pg_cnt;
  if vaddr_start =? 0 then mret 0
  else
    ok ← map_pages (Z.to_nat pg_cnt) pf vaddr_start;
    mret (if ok : bool then vaddr_start else 0).

Definition pfree (pg_phy_addr : Z) : st mem unit := fun m =>
  if phy_addr_start (user_pool m) <=? pg_phy_addr then
    let p := user_pool m in
    let bit_idx := u32 (pg_phy_addr - phy_addr_start p) / PG_SIZE in
    b ← bitmap_set (pool_bitmap p) bit_idx 0;
    mret (tt, with_user_pool m (Pool b (phy_addr_start p) (pool_size p)))
  else
    let p := kernel_pool m in
    let bit_idx := u32 (pg_phy_addr - phy_addr_start p) / PG_SIZE in
    b ← bitmap_set (pool_bitmap p) bit_idx 0;
    mret (tt, with_kernel_pool m (Pool b (phy_addr_start p) (pool_size p))).

(** [free_a_phy_page] has the body of [pfree]. *)
Definition free_a_phy_page (pg_phy_addr : Z) : st mem unit := fun m =>
  if phy_addr_start (user_pool m) <=? pg_phy_addr then
    let p := user_pool m in
    let bit_idx := u32 (pg_phy_addr - phy_addr_start p) / PG_SIZE in
    b ← bitmap_set (pool_bitmap p) bit_idx 0;
    mret (tt, with_user_pool m (Pool b (phy_addr_start p) (pool_size p)))
  else
    let p := kernel_pool m in
    let bit_idx := u32 (pg_phy_addr - phy_addr_start p) / PG_SIZE in
    b ← bitmap_set (pool_bitmap p) bit_idx 0;
    mret (tt, with_kernel_pool m (Pool b (phy_addr_start p) (pool_size p))).

Definition vaddr_remove (pf : pool_flags) (vaddr pg_cnt : Z) : st mem unit := fun m =>
  match pf with
  | PF_KERNEL =>
    let va := kernel_vaddr m in
    let bit_idx_start := u32 (vaddr - vaddr_start va) / PG_SIZE in
    b ← set_run (Z.to_nat pg_cnt) (vaddr_bitmap va) bit_idx_start 0;
    mret (tt, with_kernel_vaddr m (VirtualAddr b (vaddr_start va)))
  | PF_USER =>
    let va := cur_vaddr m in
    let bit_idx_start := u32 (vaddr - vaddr_start va) / PG_SIZE in
    b ← set_run (Z.to_nat pg_cnt) (vaddr_bitmap va) bit_idx_start 0;
    mret (tt, with_cur_vaddr m (VirtualAddr b (vaddr_start va)))
  end.

(** The two loops of [mfree_page]: [user] tells which pool the first frame was
    found in, and so which ASSERT the frames have to pass. *)
Fixpoint unmap_pages (cnt : nat) (user : bool) (vaddr : Z) : st mem unit :=
  match cnt with
  | O => mret tt
  | S cnt' =>
    let vaddr := u32 (vaddr + PG_SIZE) in
    pg_phy_addr ← addr_v2p vaddr;
    m ← sget;
    _ ← sassert ((pg_phy_addr mod PG_SIZE =? 0)
          && (if user then phy_addr_start (user_pool m) <=? pg_phy_addr
              else (phy_addr_start (kernel_pool m) <=? pg_phy_addr)
                   && (pg_phy_addr <? phy_addr_start (user_pool m))));
    _ ← pfree pg_phy_addr;
    _ ← page_table_pte_remove vaddr;
    unmap_pages cnt' user vaddr
  end.

Definition mfree_page (pf : pool_flags) (vaddr pg_cnt : Z) : st mem unit :=
  _ ← sassert ((1 <=? pg_cnt) && (vaddr mod PG_SIZE =? 0));
  pg_phy_addr ← addr_v2p vaddr;
  _ ← sassert ((pg_phy_addr mod PG_SIZE =? 0) && (0x102000 <=? pg_phy_addr));
  m ← sget;
  if phy_addr_start (user_pool m) <=? pg_phy_addr then
    _ ← unmap_pages (Z.to_nat pg_cnt) true (u32 (vaddr - PG_SIZE));
    vaddr_remove pf vaddr pg_cnt
  else
    _ ← unmap_pages (Z.to_nat pg_cnt) false (u32 (vaddr - PG_SIZE));
    vaddr_remove pf vaddr pg_cnt.

(** [bitmap_init] of the bitmap of [len] bytes at offset [off] of the memory at
    [MEM_BITMAP_BASE]. *)
Definition init_bitmap_at (region : list Z) (off len : Z) : res (list Z) :=
  b ← bitmap_init (Bitmap len (drop (Z.to_nat off) region));
  mret (take (Z.to_nat off) region ++ bits b).

(** The three bitmaps lie one behind the other at [MEM_BITMAP_BASE]; [region] is
    the memory there.  A bitmap of the resulting state has the cells of its
    bytes and the cell behind them. *)
Definition bitmap_at (region : list Z) (off len : Z) : bitmap :=
  Bitmap len (take (Z.to_nat (len + 1)) (drop (Z.to_nat off) region)).

Definition mem_pool_init (all_mem : Z) (region : list Z) : st mem unit := fun m =>
  let page_table_size := PG_SIZE * 256 in
  let used_mem := page_table_size + 0x100000 in
  let free_mem := u32 (all_mem - used_mem) in
  let all_free_pages := u16 (free_mem / PG_SIZE) in
  let kernel_free_pages := u16 (all_free_pages / 2) in
  let user_free_pages := u16 (all_free_pages - kernel_free_pages) in
  let kbm_length := kernel_free_pages / 8 in
  let ubm_length := user_free_pages / 8 in
  let kp_start := used_mem in
  let up_start := u32 (kp_start + kernel_free_pages * PG_SIZE) in
  region ← init_bitmap_at region 0 kbm_length;
  region ← init_bitmap_at region kbm_length ubm_length;
  region ← init_bitmap_at region (kbm_length + ubm_length) kbm_length;
  let kernel_pool := Pool (bitmap_at region 0 kbm_length) kp_start (kernel_free_pages * PG_SIZE) in
  let user_pool := Pool (bitmap_at region kbm_length ubm_length) up_start (user_free_pages * PG_SIZE) in
  let kernel_vaddr :=
    VirtualAddr (bitmap_at region (kbm_length + ubm_length) kbm_length) K_HEAP_START in
  mret (tt, with_kernel_vaddr (with_user_pool (with_kernel_pool m kernel_pool) user_pool) kernel_vaddr).

(** ** Address spaces

    What page allocation relies on and keeps: a free frame is not a page table,
    a page of the space (from 4 MiB, since directory entry 0 repeats entry 768,
    up to the window of the tables) is mapped to a frame that is neither free
    nor a page table, and no two pages are mapped to one frame. *)
Definition pool_of (pf : pool_flags) (m : mem) : pool :=
  match pf with PF_KERNEL => kernel_pool m | PF_USER => user_pool m end.

Definition with_pool (pf : pool_flags) (m : mem) (p : pool) : mem :=
  match pf with PF_KERNEL => with_kernel_pool m p | PF_USER => with_user_pool m p end.

Definition free_in (p : pool) (f : Z) : Prop :=
  exists k, 0 <= k < pool_cap p /\ pool_used p k = false /\ f = pool_frame p k.

Definition free_frame (m : mem) (f : Z) : Prop := exists pf, free_in (pool_of pf m) f.

Definition table_frame (m : mem) (f : Z) : Prop :=
  f = cr3 m \/ exists i, 0 <= i < 1024 /\ present (dir_entry_at m i) = true
                         /\ f = frame (dir_entry_at m i).

Definition page (v : Z) : Prop := 0x400000 <= v < window /\ v mod 4096 = 0.

Record space_ok (m : mem) : Prop := {
  so_pt : pt_ok m;
  so_user : pool_ok (user_pool m);
  so_disjoint : pool_frame (kernel_pool m) (pool_cap (kernel_pool m))
                <= phy_addr_start (user_pool m);
  so_fresh : forall f, free_frame m f -> ~ table_frame m f;
  so_mapped : forall v f, page v -> translate m v = Some f -> ~ free_frame m f
    /\ (table_frame m f -> f = cr3 m /\ vaddr_start (kernel_vaddr m) <= v);
  so_inj : forall v v' f, page v -> page v' -> translate m v = Some f -> translate m v' = Some f -> v = v'
}.

Lemma so_pool m pf : space_ok m -> pool_ok (pool_of pf m).
Proof. intros Hs. destruct pf; [apply Hs|apply Hs]. Qed.

Lemma pool_cap_nonneg p : pool_ok p -> 0 <= pool_cap p.
Proof. intros [[? _ _] _ _ _]. unfold pool_cap, bm_bits. lia. Qed.

Lemma pool_takes_free p p' k f :
  pool_takes p p' k -> pool_ok p ->
  free_in p' f <-> free_in p f /\ f <> pool_frame p k.
Proof.
  intros Htk Hp. pose proof Htk as (Hs & _ & Hc & _ & Hu). split.
  - intros (j & Hj & Hf & ->). rewrite Hc in Hj. rewrite Hu in Hf by lia.
    apply orb_false_iff in Hf as [Hf Hne]. apply bool_decide_eq_false in Hne.
    rewrite (pool_takes_frame _ _ _ _ Htk). split; [by exists j|].
    intros Heq. by apply pool_frame_inj in Heq.
  - intros [(j & Hj & Hf & ->) Hne]. exists j. rewrite Hc, (pool_takes_frame _ _ _ _ Htk), Hu by lia.
    split; [done|]. rewrite Hf. split; [|done]. simpl. apply bool_decide_eq_false. by intros ->.
Qed.

(** Frames of the two pools are distinct. *)
Lemma pools_apart m i j :
  space_ok m -> 0 <= i < pool_cap (kernel_pool m) -> 0 <= j ->
  pool_frame (kernel_pool m) i <> pool_frame (user_pool m) j.
Proof. intros Hs Hi Hj. pose proof (so_disjoint _ Hs). unfold pool_frame in *. lia. Qed.

(** Fewer free frames keep an address space well formed. *)
Lemma space_ok_fewer m m' :
  space_ok m -> phys m' = phys m -> cr3 m' = cr3 m -> vaddr_start (kernel_vaddr m') = vaddr_start (kernel_vaddr m) ->
  pool_ok (kernel_pool m') -> pool_ok (user_pool m') ->
  pool_frame (kernel_pool m') (pool_cap (kernel_pool m')) <= phy_addr_start (user_pool m') ->
  (forall f, free_frame m' f -> free_frame m f) -> space_ok m'.
Proof.
  intros Hs Hp Hc Hkv Hk Hu Hd Hfree.
  assert (forall i, dir_entry_at m' i = dir_entry_at m i) as Hdir.
  { intros i. unfold dir_entry_at. by rewrite Hp, Hc. }
  assert (forall v, translate m' v = translate m v) as Htr.
  { intros v. unfold translate, pte_of, pde_of. by rewrite Hp, Hc. }
  assert (forall f, table_frame m' f -> table_frame m f) as Htab.
  { intros f [->|(i & Hi & Hpr & ->)]; [left; done|right]. exists i. by rewrite <- Hdir. }
  constructor; try done.
  - destruct (so_pt _ Hs) as [(Ha & Hpr & Hf) Hpool Ht Hds Hfr]. constructor.
    + unfold self_map. by rewrite Hp, Hc.
    + done.
    + intros i. rewrite Hdir, Hc. apply Ht.
    + intros i j. rewrite !Hdir. apply Hds.
    + intros k Hk1 Hk2.
      assert (~ table_frame m (pool_frame (kernel_pool m') k)) as Hn.
      { apply (so_fresh _ Hs), Hfree. exists PF_KERNEL, k. done. }
      rewrite Hc. split; [intros Heq; apply Hn; by left|]. intros i Hi. rewrite Hdir.
      intros Hpi Heq. apply Hn. right. by exists i.
  - intros f Hf Ht. by apply (so_fresh _ Hs f); [apply Hfree|apply Htab].
  - intros v f Hv. rewrite Htr. intros Hf. rewrite Hc, Hkv. destruct (so_mapped _ Hs v f Hv Hf). naive_solver.
  - intros v v' f Hv Hv'. rewrite !Htr. by apply (so_inj _ Hs).
Qed.

(** ** Taking a frame *)

(** [m'] is [m] with the free frame [f] of pool [pf] taken. *)
Record took (pf : pool_flags) (m m' : mem) (f : Z) : Prop := {
  tk_eq : exists p, m' = with_pool pf m p;
  tk_was_free : free_in (pool_of pf m) f;
  tk_pool : exists k, 0 <= k < pool_cap (pool_of pf m) /\ pool_used (pool_of pf m) k = false
    /\ pool_takes (pool_of pf m) (pool_of pf m') k;
  tk_free : forall g, free_frame m' g <-> free_frame m g /\ g <> f;
  tk_ok : space_ok m'
}.

Lemma free_in_aligned p f : pool_ok p -> free_in p f -> aligned f /\ 0 < f.
Proof.
  intros Hp (k & Hk & _ & ->). split; [by apply pool_frame_aligned|].
  pose proof (po_start _ Hp). unfold pool_frame. lia.
Qed.

Lemma free_split m f : free_frame m f <-> free_in (kernel_pool m) f \/ free_in (user_pool m) f.
Proof.
  split.
  - intros [[] H]; [by left|by right].
  - intros [H|H]; [by exists PF_KERNEL|by exists PF_USER].
Qed.

Lemma free_apart m f : space_ok m -> free_in (kernel_pool m) f -> ~ free_in (user_pool m) f.
Proof.
  intros Hs (i & Hi & _ & ->) (j & Hj & _ & Heq). by apply (pools_apart m i j Hs Hi) in Heq; [|lia].
Qed.

Lemma palloc_from_spec pf m :
  space_ok m ->
  (exists f m', palloc_from pf m = Ok (f, m') /\ took pf m m' f)
  \/ (palloc_from pf m = Bad EPanic /\ forall f, ~ free_in (pool_of pf m) f).
Proof.
  intros Hs. pose proof (so_pool m pf Hs) as Hp. pose proof (so_disjoint _ Hs) as Hd.
  destruct (palloc_spec _ Hp) as [(k & p & Hpal & Hk & Hfr & Htk & Hp')|(Hpal & Hall)].
  - left. exists (pool_frame (pool_of pf m) k), (with_pool pf m p).
    split; [by destruct pf; simpl in *; unfold palloc_kernel, palloc_user; rewrite Hpal|].
    assert (free_in (pool_of pf m) (pool_frame (pool_of pf m) k)) as Hwas by (by exists k).
    assert (forall g, free_frame (with_pool pf m p) g
              <-> free_frame m g /\ g <> pool_frame (pool_of pf m) k) as Hfree.
    { intros g. rewrite !free_split. pose proof (pool_takes_free _ _ _ g Htk Hp) as Hiff.
      pose proof (free_apart m (pool_frame (pool_of pf m) k) Hs) as Hap.
      destruct pf; simpl in *; rewrite Hiff; split; intros Hx; naive_solver. }
    constructor; [by exists p|done|exists k; by destruct pf|done|].
    destruct Htk as (Hst & _ & Hcap & _).
    apply (space_ok_fewer m); try done; try (by destruct pf).
    + destruct pf; [done|apply Hs].
    + destruct pf; [apply Hs|done].
    + destruct pf; unfold pool_frame in *; simpl in *; rewrite ?Hst, ?Hcap; done.
    + intros f Hf. by apply Hfree in Hf as [? _].
  - right. split; [by destruct pf; simpl in *; unfold palloc_kernel, palloc_user; rewrite Hpal|].
    intros f (k & Hk & Hu & _). by rewrite Hall in Hu.
Qed.

(** ** Mapping a page *)

Lemma page_range v : page v -> 0 <= v < window.
Proof. intros [? _]. lia. Qed.

Lemma page_pde v : page v -> 0 < PDE_IDX v < 1023.
Proof. unfold page, window. intros [? _]. rewrite PDE_IDX_eq; lia. Qed.

(** Pages have table entries of their own. *)
Lemma page_slot m v v' : pt_ok m -> page v -> page v' -> same_slot m v v' -> v = v'.
Proof.
  intros Hok Hv Hv' [Ht Hd]. pose proof (page_pde v Hv). pose proof (page_pde v' Hv').
  assert (PDE_IDX v = PDE_IDX v') as Hpd.
  { destruct Hd as [|(Hp & Hp' & Hf)]; [done|]. by apply (pt_distinct _ Hok). }
  destruct Hv as [Hr Ha], Hv' as [Hr' Ha']. unfold window in *.
  rewrite !PDE_IDX_eq in Hpd by lia. rewrite !PTE_IDX_eq in Ht. lia.
Qed.

(** [m'] is [m] with page [v] mapped to [f], and perhaps one frame of the kernel
    pool taken for a new page table. *)
Record page_mapped (m m' : mem) (v f : Z) : Prop := {
  pm_maps : translate m' v = Some f;
  pm_others : forall v', page v' -> v' <> v -> translate m' v' = translate m v';
  pm_ok : space_ok m';
  pm_free : forall g, free_frame m' g -> free_frame m g;
  pm_kernel : kernel_pool m' = kernel_pool m
    \/ exists k, 0 <= k < pool_cap (kernel_pool m) /\ pool_used (kernel_pool m) k = false
         /\ pool_takes (kernel_pool m) (kernel_pool m') k;
  pm_cr3 : cr3 m' = cr3 m;
  pm_user : user_pool m' = user_pool m;
  pm_kvaddr : kernel_vaddr m' = kernel_vaddr m;
  pm_uvaddr : cur_vaddr m' = cur_vaddr m;
  pm_raw : mapped m m' v f
}.

(** The tables after adding a mapping: the old ones and at most a frame that was
    free and is not any more. *)
Lemma mapped_tables m m' v f g :
  space_ok m -> mapped m m' v f -> table_frame m' g ->
  table_frame m g \/ (free_in (kernel_pool m) g /\ ~ free_frame m' g).
Proof.
  intros Hs Hmap Hg. pose proof (so_pool m PF_KERNEL Hs) as Hkp.
  destruct Hg as [->|(i & Hi & Hpr & ->)].
  { left. left. apply (md_cr3 _ _ _ _ Hmap). }
  destruct (md_dir _ _ _ _ Hmap) as [[_ Hdir]|(k & Hk & Hfr & Htk & Hdir)].
  { left. right. exists i. rewrite Hdir in * by done. done. }
  rewrite Hdir in * by done. destruct (decide (PDE_IDX v = i)).
  - right. rewrite entry_frame by (by apply pool_frame_aligned). split; [by exists k|].
    rewrite free_split, (md_user _ _ _ _ Hmap), (pool_takes_free _ _ _ _ Htk Hkp).
    intros [[_ Hne]|Hu]; [done|]. revert Hu. apply free_apart; [done|by exists k].
  - left. right. by exists i.
Qed.

Lemma mapped_free m m' v f g :
  space_ok m -> mapped m m' v f -> free_frame m' g -> free_frame m g.
Proof.
  intros Hs Hmap. rewrite !free_split, (md_user _ _ _ _ Hmap).
  destruct (md_dir _ _ _ _ Hmap) as [[-> _]|(k & _ & _ & Htk & _)]; [done|].
  rewrite (pool_takes_free _ _ _ g Htk (so_pool m PF_KERNEL Hs)). naive_solver.
Qed.

Lemma map_page m v f :
  space_ok m -> page v -> translate m v = None -> aligned f ->
  ~ free_frame m f -> ~ table_frame m f -> (forall v', page v' -> translate m v' <> Some f) ->
  (exists m', page_table_add v f m = Ok (tt, m') /\ page_mapped m m' v f)
  \/ (page_table_add v f m = Bad EPanic /\ forall g, ~ free_in (kernel_pool m) g).
Proof.
  intros Hs Hv Hnone Hf Hnf Hnt Hnm. pose proof (page_range v Hv) as Hvw.
  destruct (page_table_add_spec m v f (so_pt _ Hs) Hvw Hf) as [Hsp _].
  destruct (Hsp Hnone) as [(m' & Hadd & Hmap)|(Hbad & _ & Hall)].
  2: { right. split; [done|]. intros g (k & Hk & Hu & _). by rewrite Hall in Hu. }
  left. exists m'. split; [done|].
  assert (translate m' v = Some f) as Hmv.
  { rewrite (md_maps _ _ _ _ Hmap). destruct Hv as [_ ->]. by replace (f + 0) with f by lia. }
  assert (forall v', page v' -> v' <> v -> translate m' v' = translate m v') as Hoth.
  { intros v' Hv' Hne. apply (md_others _ _ _ _ Hmap); [by apply page_range|]. intros Hsl.
    by apply Hne, eq_sym, (page_slot m v v' (so_pt _ Hs)). }
  assert (forall g, free_frame m' g -> free_frame m g) as Hfree by (intros g; by apply (mapped_free m m' v f)).
  pose proof Hmap as [_ _ _ Hc1 Hc2 Hc3 Hc4 _]. constructor; try done.
  - assert (forall g, free_frame m' g -> ~ table_frame m' g) as Hfresh.
    { intros g Hg Ht. destruct (mapped_tables m m' v f g Hs Hmap Ht) as [Ht'|[_ Hn]]; [|done].
      by apply (so_fresh _ Hs g); [apply Hfree|]. }
    constructor; [apply Hmap|rewrite (md_user _ _ _ _ Hmap); apply Hs| |done| |].
    + rewrite (md_user _ _ _ _ Hmap). pose proof (so_disjoint _ Hs).
      destruct (md_dir _ _ _ _ Hmap) as [[-> _]|(k & _ & _ & Htk & _)]; [done|].
      rewrite (pool_takes_frame _ _ _ _ Htk). by destruct Htk as (_ & _ & -> & _).
    + intros v' g Hv' Hg. destruct (decide (v' = v)) as [->|Hne].
      * assert (g = f) as -> by congruence. split; [by intros ?%Hfree|]. intros Ht.
        exfalso. destruct (mapped_tables m m' v f f Hs Hmap Ht) as [?|[Hin _]]; [done|].
        apply Hnf, free_split. by left.
      * rewrite Hoth in Hg by done. destruct (so_mapped _ Hs v' g Hv' Hg) as [H1 H2].
        split; [by intros ?%Hfree|]. rewrite Hc1, Hc3. intros Ht.
        destruct (mapped_tables m m' v f g Hs Hmap Ht) as [?|[Hin _]]; [by apply H2|]. exfalso.
        apply H1, free_split. by left.
    + intros v1 v2 g Hv1 Hv2. destruct (decide (v1 = v)) as [->|H1], (decide (v2 = v)) as [->|H2];
        rewrite ?Hmv, ?Hoth by done; intros Hg1 Hg2; simplify_eq; try done.
      * by apply Hnm in Hg2.
      * by apply Hnm in Hg1.
      * by apply (so_inj _ Hs v1 v2 g).
  - destruct (md_dir _ _ _ _ Hmap) as [[? _]|(k & ? & ? & ? & _)]; [by left|right]. by exists k.
Qed.

(** ** Counting free frames *)

Definition free_idxs (p : pool) : list Z :=
  filter (fun k => pool_used p k = false) (seqZ 0 (pool_cap p)).

Definition free_count (p : pool) : Z := Z.of_nat (length (free_idxs p)).

Lemma elem_of_free_idxs p k :
  k ∈ free_idxs p <-> pool_used p k = false /\ 0 <= k < pool_cap p.
Proof. unfold free_idxs. rewrite list_elem_of_filter, elem_of_seqZ. by rewrite Z.add_0_l. Qed.

Lemma free_count_none p : (forall f, ~ free_in p f) -> free_count p = 0.
Proof.
  intros Hno. unfold free_count. destruct (free_idxs p) as [|k l] eqn:E; [done|].
  destruct (elem_of_free_idxs p k) as [Hk _]. rewrite E in Hk.
  destruct Hk as [Hu Hr]; [set_solver|]. destruct (Hno (pool_frame p k)). by exists k.
Qed.

Lemma free_count_takes p p' k :
  pool_takes p p' k -> 0 <= k < pool_cap p -> pool_used p k = false ->
  free_count p = free_count p' + 1.
Proof.
  intros (_ & _ & Hc & _ & Hu) Hk Hf. unfold free_count.
  assert (NoDup (free_idxs p)) as Hn by (apply NoDup_filter, NoDup_seqZ).
  assert (NoDup (k :: free_idxs p')) as Hn'.
  { constructor; [|apply NoDup_filter, NoDup_seqZ]. rewrite elem_of_free_idxs, Hu by lia.
    rewrite bool_decide_true, orb_true_r by done. by intros [? _]. }
  assert (free_idxs p ≡ₚ k :: free_idxs p') as Hp.
  { apply NoDup_Permutation; [done|done|]. intros j. rewrite elem_of_cons, !elem_of_free_idxs, Hc.
    split.
    - intros [Hj Hr]. destruct (decide (j = k)); [by left|right]. rewrite Hu, Hj by lia.
      by rewrite bool_decide_false.
    - intros [->|[Hj Hr]]; [done|]. rewrite Hu in Hj by lia.
      by apply orb_false_iff in Hj as [? _]. }
  rewrite Hp. simpl. lia.
Qed.

(** [p'] is [p] with some frames taken. *)
Definition shrinks (p p' : pool) : Prop :=
  phy_addr_start p' = phy_addr_start p /\ pool_cap p' = pool_cap p
  /\ forall j, 0 <= j -> pool_used p j = true -> pool_used p' j = true.

#[export] Instance shrinks_preorder : PreOrder shrinks.
Proof.
  split; [done|]. intros p q r (H1 & H2 & H3) (G1 & G2 & G3).
  split_and!; [congruence|congruence|]. auto.
Qed.

Lemma takes_shrinks p p' k : pool_takes p p' k -> shrinks p p'.
Proof.
  intros (Hs & _ & Hc & _ & Hu). split_and!; [done|done|]. intros j Hj Hju. by rewrite Hu, Hju.
Qed.

Lemma shrinks_free p p' f : shrinks p p' -> free_in p' f -> free_in p f.
Proof.
  intros (Hs & Hc & Hu) (k & Hk & Hf & ->). exists k. rewrite Hc in Hk. split; [done|]. split.
  - destruct (pool_used p k) eqn:E; [|done]. rewrite Hu in Hf; [done|lia|done].
  - unfold pool_frame. by rewrite Hs.
Qed.

(** ** Mapping consecutive pages *)

(** Frames that surely suffice for [n] pages: a frame and perhaps a page table
    for each. *)
Definition enough (n : Z) (pf : pool_flags) (m : mem) : Prop :=
  match pf with
  | PF_KERNEL => 2 * n <= free_count (kernel_pool m)
  | PF_USER => n <= free_count (user_pool m) /\ n <= free_count (kernel_pool m)
  end.

Record pages_mapped (n : Z) (pf : pool_flags) (m m' : mem) (v : Z) : Prop := {
  ps_maps : forall i, 0 <= i < n ->
    exists f, translate m' (v + 4096 * i) = Some f /\ free_in (pool_of pf m) f;
  ps_others : forall v', page v' -> ~ (v <= v' < v + 4096 * n) -> translate m' v' = translate m v';
  ps_ok : space_ok m';
  ps_kernel : shrinks (kernel_pool m) (kernel_pool m');
  ps_user : shrinks (user_pool m) (user_pool m');
  ps_cr3 : cr3 m' = cr3 m;
  ps_kvaddr : kernel_vaddr m' = kernel_vaddr m;
  ps_uvaddr : cur_vaddr m' = cur_vaddr m
}.

(** One round of the loop: a frame is taken and mapped. *)
Lemma map_one pf m v :
  space_ok m -> page v -> translate m v = None ->
  (exists f m1 m2, palloc_from pf m = Ok (f, m1) /\ page_table_add v f m1 = Ok (tt, m2)
     /\ f <> 0 /\ took pf m m1 f /\ page_mapped m1 m2 v f)
  \/ ((palloc_from pf m = Bad EPanic
       \/ exists f m1, palloc_from pf m = Ok (f, m1) /\ f <> 0 /\ page_table_add v f m1 = Bad EPanic)
      /\ ~ enough 1 pf m).
Proof.
  intros Hs Hv Hnone.
  destruct (palloc_from_spec pf m Hs) as [(f & m1 & Hpal & Htk)|(Hpal & Hno)].
  2: { right. split; [by left|]. apply free_count_none in Hno.
       destruct pf; simpl in *; rewrite Hno; lia. }
  pose proof Htk as [[p ->] Hwas (k & Hk & Hu & Htp) Hfree Hok1].
  destruct (free_in_aligned _ _ (so_pool m pf Hs) Hwas) as [Hal Hpos].
  assert (free_frame m f) as Hff by (by exists pf).
  assert (forall w, translate (with_pool pf m p) w = translate m w) as Htr by (by destruct pf).
  destruct (map_page (with_pool pf m p) v f) as [(m2 & Hadd & Hpm)|(Hbad & Hno)]; try done.
  - by rewrite Htr.
  - rewrite Hfree. by intros [_ ?].
  - intros Ht. apply (so_fresh _ Hs f Hff). by destruct pf.
  - intros w Hw. rewrite Htr. intros Hm. by destruct (so_mapped _ Hs w f Hw Hm) as [[] _].
  - left. exists f, (with_pool pf m p), m2. split_and!; done || lia.
  - right. split; [right; exists f, (with_pool pf m p); split_and!; done || lia|].
    apply free_count_none in Hno. pose proof (free_count_takes _ _ _ Htp Hk Hu) as Hc.
    destruct pf; simpl in *; lia.
Qed.

(** One round leaves enough frames for the remaining pages. *)
Lemma enough_step n pf m m1 m2 v f :
  0 <= n -> took pf m m1 f -> page_mapped m1 m2 v f -> enough (n + 1) pf m -> enough n pf m2.
Proof.
  intros Hn [[p ->] _ (k & Hk & Hu & Htp) _ _] [_ _ _ _ Hker _ Hus _ _ _] Hen.
  pose proof (free_count_takes _ _ _ Htp Hk Hu) as Hc.
  assert (free_count (kernel_pool (with_pool pf m p)) - 1 <= free_count (kernel_pool m2)) as Hc2.
  { destruct Hker as [->|(k2 & Hk2 & Hu2 & Htp2)]; [lia|].
    pose proof (free_count_takes _ _ _ Htp2 Hk2 Hu2). lia. }
  destruct pf; simpl in *; rewrite ?Hus in *; simpl in *; lia.
Qed.

Lemma round_shrinks pf m m1 m2 v f :
  took pf m m1 f -> page_mapped m1 m2 v f ->
  shrinks (kernel_pool m) (kernel_pool m2) /\ shrinks (user_pool m) (user_pool m2).
Proof.
  intros [[p ->] _ (k & Hk & Hu & Htp) _ _] [_ _ _ _ Hker _ Hus _ _ _].
  apply takes_shrinks in Htp. assert (shrinks (kernel_pool (with_pool pf m p)) (kernel_pool m2)) as Hsh.
  { destruct Hker as [->|(k2 & _ & _ & Htp2)]; [done|]. by eapply takes_shrinks. }
  rewrite Hus. destruct pf; simpl in *; (split; [|done || by etrans]); done || by etrans.
Qed.

Lemma map_pages_spec n pf v m :
  space_ok m ->
  (forall i, 0 <= i < Z.of_nat n -> page (v + 4096 * i) /\ translate m (v + 4096 * i) = None) ->
  (exists m', map_pages n pf v m = Ok (true, m') /\ pages_mapped (Z.of_nat n) pf m m' v)
  \/ (map_pages n pf v m = Bad EPanic /\ ~ enough (Z.of_nat n) pf m).
Proof.
  revert v m. induction n as [|n IH]; intros v m Hs Hpg.
  { left. exists m. split; [done|]. constructor; done || lia. }
  destruct (Hpg 0) as [Hv Hnone]; [lia|]. rewrite Z.mul_0_r, Z.add_0_r in Hv, Hnone.
  cbn [map_pages].
  destruct (map_one pf m v Hs Hv Hnone)
    as [(f & m1 & m2 & Hpal & Hadd & Hf & Htk & Hpm)|[Hbad Hen]].
  2: { right. split.
       - destruct Hbad as [Hbad|(f & m1 & Hpal & Hf & Hbad)]; [by apply sbind_Bad|].
         run Hpal. replace (f =? 0) with false by lia. by apply sbind_Bad.
       - destruct pf; simpl in *; lia. }
  run Hpal. replace (f =? 0) with false by lia. run Hadd.
  pose proof (page_range v Hv) as Hvw. unfold PG_SIZE.
  destruct (round_shrinks pf m m1 m2 v f Htk Hpm) as [Hk12 Hu12].
  assert (forall w, translate m1 w = translate m w) as Htr1.
  { destruct Htk as [[p ->] _ _ _ _]. by destruct pf. }
  rewrite u32_id by (unfold window in *; lia).
  destruct (IH (v + 4096) m2) as [(m' & Hmp & Hps)|(Hbad & Hen)].
  - apply Hpm.
  - intros i Hi. destruct (Hpg (i + 1)) as [Hp Hn]; [lia|].
    replace (v + 4096 + 4096 * i) with (v + 4096 * (i + 1)) by lia. split; [done|].
    rewrite (pm_others _ _ _ _ Hpm), Htr1; [done|done|lia].
  - left. exists m'. split; [done|]. destruct Hps as [Hm Ho Hok Hk Hu Hc Hkv Huv].
    assert (translate m' v = Some f) as Hmv.
    { rewrite Ho by (done || lia). apply Hpm. }
    destruct Htk as [[p ->] Hwas _ _ _], Hpm as [_ Ho2 _ _ _ Hc2 _ Hkv2 Huv2 _].
    constructor; [| |done|by etrans|by etrans| | |].
    + intros i Hi. destruct (decide (i = 0)) as [->|]; [|destruct (Hm (i - 1)) as (g & Hg & Hin); [lia|]].
      { exists f. rewrite Z.mul_0_r, Z.add_0_r. done. }
      exists g. replace (v + 4096 * i) with (v + 4096 + 4096 * (i - 1)) by lia. split; [done|].
      destruct pf; [by apply (shrinks_free _ _ _ Hk12)|by apply (shrinks_free _ _ _ Hu12)].
    + intros v' Hv' Hout. rewrite Ho, Ho2, Htr1 by (done || lia). done.
    + rewrite Hc, Hc2. by destruct pf.
    + rewrite Hkv, Hkv2. by destruct pf.
    + rewrite Huv, Huv2. by destruct pf.
  - right. split; [done|]. intros He. apply Hen. eapply (enough_step (Z.of_nat n)); [lia|done|done|].
    by replace (Z.of_nat n + 1) with (Z.of_nat (S n)) by lia.
Qed.

(** A run whose last page is mapped stops the kernel. *)
Lemma map_pages_blocked n pf v m :
  space_ok m -> (forall i, 0 <= i <= Z.of_nat n -> page (v + 4096 * i)) ->
  (forall i, 0 <= i < Z.of_nat n -> translate m (v + 4096 * i) = None) ->
  is_Some (translate m (v + 4096 * Z.of_nat n)) -> map_pages (S n) pf v m = Bad EPanic.
Proof.
  revert v m. induction n as [|n IH]; intros v m Hs Hpg Hnone Hlast;
    pose proof (Hpg 0 ltac:(lia)) as Hv; rewrite Z.mul_0_r, Z.add_0_r in Hv; pose proof (page_range v Hv) as Hvw.
  - replace (v + 4096 * Z.of_nat 0) with v in Hlast by lia. cbn [map_pages].
    destruct (palloc_from_spec pf m Hs) as [(f & m1 & Hpal & Htk)|[Hpal _]]; [|by apply sbind_Bad].
    run Hpal. destruct (free_in_aligned _ _ (so_pool m pf Hs) (tk_was_free _ _ _ _ Htk)) as [Hal Hpos].
    replace (f =? 0) with false by lia. apply sbind_Bad.
    apply (page_table_add_spec m1 v f (so_pt _ (tk_ok _ _ _ _ Htk)) Hvw Hal).
    destruct Htk as [[p ->] _ _ _ _]. by destruct pf.
  - pose proof (Hnone 0 ltac:(lia)) as H0. replace (v + 4096 * 0) with v in H0 by lia.
    change (map_pages (S (S n)) pf v) with (page_phyaddr ← palloc_from pf;
      if page_phyaddr =? 0 then mret false else _ ← page_table_add v page_phyaddr; map_pages (S n) pf (u32 (v + PG_SIZE))).
    destruct (map_one pf m v Hs Hv H0) as [(f & m1 & m2 & Hpal & Hadd & Hf & Htk & Hpm)|[[Hbad|(f & m1 & Hpal & Hf & Hbad)] _]].
    + run Hpal. replace (f =? 0) with false by lia. run Hadd. unfold PG_SIZE. rewrite u32_id by (unfold window in *; lia).
      assert (forall w, page w -> w <> v -> translate m2 w = translate m w) as Htr.
      { intros w Hw Hne. rewrite (pm_others _ _ _ _ Hpm) by done. destruct Htk as [[p ->] _ _ _ _]. by destruct pf. }
      apply IH; [apply Hpm| | |].
      * intros i Hi. replace (v + 4096 + 4096 * i) with (v + 4096 * (i + 1)) by lia. apply Hpg. lia.
      * intros i Hi. replace (v + 4096 + 4096 * i) with (v + 4096 * (i + 1)) by lia. rewrite Htr by (lia || (apply Hpg; lia)). apply Hnone. lia.
      * replace (v + 4096 + 4096 * Z.of_nat n) with (v + 4096 * Z.of_nat (S n)) by lia. by rewrite Htr by (lia || (apply Hpg; lia)).
    + by apply sbind_Bad.
    + run Hpal. replace (f =? 0) with false by lia. by apply sbind_Bad.
Qed.

(** ** Virtual address pools *)

Definition va_of (pf : pool_flags) (m : mem) : virtual_addr :=
  match pf with PF_KERNEL => kernel_vaddr m | PF_USER => cur_vaddr m end.

Definition with_va (pf : pool_flags) (m : mem) (va : virtual_addr) : mem :=
  match pf with PF_KERNEL => with_kernel_vaddr m va | PF_USER => with_cur_vaddr m va end.

Definition va_page (va : virtual_addr) (j : Z) : Z := vaddr_start va + 4096 * j.

Definition va_bits (va : virtual_addr) : Z := bm_bits (vaddr_bitmap va).

Definition va_used (va : virtual_addr) (j : Z) : bool := bm_bit (vaddr_bitmap va) j.

Record va_ok (va : virtual_addr) : Prop := {
  vo_bitmap : bitmap_ok (vaddr_bitmap va);
  vo_start : 0x400000 <= vaddr_start va /\ vaddr_start va mod 4096 = 0;
  vo_end : va_page va (va_bits va + 1) <= window
}.

(** [va'] is [va] with the bits [r, r + n) equal to [x]. *)
Definition va_sets (va va' : virtual_addr) (r n : Z) (x : bool) : Prop :=
  vaddr_start va' = vaddr_start va /\ va_bits va' = va_bits va
  /\ forall j, 0 <= j -> va_used va' j = if decide (r <= j < r + n) then x else va_used va j.

Lemma set_run_spec n b i v :
  bitmap_ok b -> 0 <= i -> i + Z.of_nat n <= 8 * Z.of_nat (length (bits b)) ->
  i + Z.of_nat n < 2 ^ 32 -> v = 0 \/ v = 1 ->
  exists b', set_run n b i v = Ok b' /\ bitmap_ok b'
    /\ btmp_bytes_len b' = btmp_bytes_len b
    /\ forall j, 0 <= j -> bm_bit b' j
         = if decide (i <= j < i + Z.of_nat n) then v =? 1 else bm_bit b j.
Proof.
  revert b i. induction n as [|n IH]; intros b i Hb Hi Hn H32 Hv.
  { exists b. split_and!; try done. intros j Hj. rewrite decide_False by lia. done. }
  cbn [set_run]. unwrap.
  destruct (set_bit b i v) as (b1 & Hset & Hb1 & Hl1 & Hlb1 & Hbits1); [done|lia|done|].
  rewrite Hset, bind_Ok.
  destruct (IH b1 (i + 1)) as (b' & Hrun & Hb' & Hl' & Hbits'); [done|lia|rewrite Hlb1; lia|lia|done|].
  exists b'. split_and!; [done|done|congruence|].
  intros j Hj. rewrite Hbits', Hbits1 by done. repeat case_decide; done || lia.
Qed.

(** [bitmap_scan] for any number of bits. *)
Lemma scan_any b cnt :
  bitmap_ok b -> 1 <= cnt < 2 ^ 31 ->
  (bitmap_scan b cnt = Bad EPanic /\ forall j, 0 <= j < bm_bits b -> bm_bit b j = true)
  \/ (bitmap_scan b cnt = Ok (-1)
      /\ forall s, 0 <= s -> s + cnt <= bm_bits b + 1 -> ~ clear_run b s cnt)
  \/ (exists r, bitmap_scan b cnt = Ok r /\ 0 <= r /\ r + cnt <= bm_bits b + 1 /\ clear_run b r cnt).
Proof.
  intros Hb Hc. destruct (decide (cnt = 1)) as [->|].
  - destruct (scan_one b Hb) as [(i & Hi & Hr & Hcl & _)|[Hp Hall]]; [|by left].
    right; right. exists i. split_and!; [done|lia|lia|]. intros j Hj. by replace j with i by lia.
  - destruct (scan_start b Hb) as [[Hall Hp]|(s & Hs & Hcl & _)]; [by left|].
    right. destruct (scan_many b cnt) as (r & Hr & [[-> Hno]|(H1 & H2 & H3 & _)]);
      [done|lia|by exists s|by left|right]. by exists r.
Qed.

Lemma vaddr_get_spec pf n m :
  va_ok (va_of pf m) -> 1 <= n < 3840 ->
  let va := va_of pf m in
  (exists r va', vaddr_get pf n m = Ok (va_page va r, with_va pf m va')
     /\ 0 <= r /\ r + n <= va_bits va + 1
     /\ (forall j, r <= j < r + n -> va_used va j = false)
     /\ va_sets va va' r n true /\ va_ok va'
     /\ (pf = PF_USER -> va_page va r < 0xc0000000 - 4096))
  \/ (vaddr_get pf n m = Ok (0, m)
      /\ forall s, 0 <= s -> s + n <= va_bits va + 1 -> exists j, s <= j < s + n /\ va_used va j = true)
  \/ (vaddr_get pf n m = Bad EPanic
      /\ ((forall j, 0 <= j < va_bits va -> va_used va j = true)
          \/ (pf = PF_USER /\ 0xc0000000 - 4096 <= va_page va (va_bits va)))).
Proof.
  intros Hva Hn va. pose proof Hva as [Hb [Hs1 Hs2] He]. fold va in Hb, Hs1, Hs2, He.
  unfold va_bits, va_used, va_page in *. pose proof Hb as [Hlen Hint _].
  unfold bm_bits, window in *.
  destruct (scan_any (vaddr_bitmap va) n Hb) as [[Hp Hall]|[[Hno Hnone]|(r & Hr & H0 & H1 & Hcl)]]; [lia| | |].
  - right; right. split; [|by left]. destruct pf; subst va; simpl in *; by rewrite Hp.
  - right; left. split; [destruct pf; subst va; simpl in *; by rewrite Hno|].
    intros s H0 H1. destruct (decide (Forall (fun j => bm_bit (vaddr_bitmap va) j = false) (seqZ s n)))
      as [Hall|Hex].
    + destruct (Hnone s H0 H1). intros j Hj. rewrite Forall_forall in Hall. apply Hall, elem_of_seqZ. lia.
    + apply not_Forall_Exists, Exists_exists in Hex as (j & Hj & Hu); [|apply _].
      apply elem_of_seqZ in Hj. exists j. split; [lia|]. by apply not_false_is_true.
  - unfold bm_bits in *.
    destruct (set_run_spec (Z.to_nat n) (vaddr_bitmap va) r 1) as (b' & Hset & Hb' & Hl' & Hbits);
      [done|done|lia|lia|by right|].
    rewrite Z2Nat.id in Hbits by lia.
    assert (va_ok (VirtualAddr b' (vaddr_start va))) as Hok'.
    { constructor; simpl; [done|done|]. unfold va_page, va_bits, bm_bits, window; simpl. rewrite Hl'. lia. }
    assert (va_sets va (VirtualAddr b' (vaddr_start va)) r n true) as Hsets.
    { split_and!; [done| |done]. unfold va_bits, bm_bits; simpl. by rewrite Hl'. }
    assert (u32 (vaddr_start va + r * 4096) = vaddr_start va + 4096 * r) as Hu by (unwrap; lia).
    destruct pf; subst va; simpl in *; rewrite Hr, bind_Ok; replace (r =? -1) with false by lia;
      rewrite Hset, bind_Ok; unfold PG_SIZE; rewrite Hu.
    + left. by exists r, (VirtualAddr b' (vaddr_start (kernel_vaddr m))).
    + rewrite bind_ASSERT. destruct (Z.ltb_spec (vaddr_start (cur_vaddr m) + 4096 * r) (0xc0000000 - 4096)).
      * left. by exists r, (VirtualAddr b' (vaddr_start (cur_vaddr m))).
      * right; right. split; [done|]. right. split; [done|]. simpl in *. lia.
Qed.

(** ** Allocation *)

(** The searches may return the bit behind the bitmap; for the pool of a process
    that reaches to the kernel's addresses this is a page of the kernel. *)
Definition kernel_low_page (pf : pool_flags) (va : virtual_addr) (j : Z) : Prop :=
  pf = PF_USER /\ j = va_bits va /\ 0xc0000000 <= va_page va j.

(** The invariant of page allocation: a virtual page whose bit is clear is not
    mapped. *)
Record heap_ok (m : mem) : Prop := {
  ho_space : space_ok m;
  ho_low : 0x102000 <= phy_addr_start (kernel_pool m);
  ho_va : forall pf, va_ok (va_of pf m);
  ho_free : forall pf j, 0 <= j <= va_bits (va_of pf m) -> va_used (va_of pf m) j = false ->
    translate m (va_page (va_of pf m) j) = None \/ kernel_low_page pf (va_of pf m) j;
  ho_apart : va_page (cur_vaddr m) (va_bits (cur_vaddr m) + 1) <= vaddr_start (kernel_vaddr m)
}.

(** [m'] is [m] with the [n] pages from [v] allocated. *)
Record allocated (pf : pool_flags) (n : Z) (m m' : mem) (v : Z) : Prop := {
  al_pages : forall i, 0 <= i < n ->
    page (v + 4096 * i) /\ translate m (v + 4096 * i) = None
    /\ exists f, translate m' (v + 4096 * i) = Some f /\ free_in (pool_of pf m) f
                 /\ ~ free_frame m' f;
  al_distinct : forall i j, 0 <= i < n -> 0 <= j < n -> i <> j ->
    translate m' (v + 4096 * i) <> translate m' (v + 4096 * j);
  al_others : forall v', page v' -> ~ (v <= v' < v + 4096 * n) -> translate m' v' = translate m v';
  al_ok : heap_ok m';
  al_kernel : shrinks (kernel_pool m) (kernel_pool m');
  al_user : shrinks (user_pool m) (user_pool m');
  al_bits : exists r, v = va_page (va_of pf m) r /\ 0 <= r /\ r + n <= va_bits (va_of pf m) + 1
    /\ (forall j, r <= j < r + n -> va_used (va_of pf m) j = false)
    /\ va_sets (va_of pf m) (va_of pf m') r n true;
  al_other_va : forall pf', pf' <> pf -> va_of pf' m' = va_of pf' m;
  al_cr3 : cr3 m' = cr3 m
}.

Lemma va_page_ok va j : va_ok va -> 0 <= j <= va_bits va -> page (va_page va j).
Proof.
  intros [_ [H1 H2] H3] Hj. unfold va_page, page in *. split; [lia|].
  rewrite Z.mul_comm, Z.mod_add by lia. done.
Qed.

(** Pages of the two virtual pools are distinct. *)
Lemma va_apart m i j :
  heap_ok m -> 0 <= i <= va_bits (cur_vaddr m) -> 0 <= j ->
  va_page (cur_vaddr m) i < va_page (kernel_vaddr m) j.
Proof. intros Hh Hi Hj. pose proof (ho_apart _ Hh). unfold va_page in *. lia. Qed.

(** The invariant of page allocation after a change of mappings in a range of
    pages that the virtual pool [pf] records. *)
Lemma heap_ok_after pf n (x : bool) m m' r :
  heap_ok m -> space_ok m' ->
  phy_addr_start (kernel_pool m') = phy_addr_start (kernel_pool m) ->
  (forall pf', va_ok (va_of pf' m')) -> 0 <= r -> r + n <= va_bits (va_of pf m) + 1 ->
  va_sets (va_of pf m) (va_of pf m') r n x ->
  (forall pf', pf' <> pf -> va_of pf' m' = va_of pf' m) ->
  (forall v', page v' -> ~ (va_page (va_of pf m) r <= v' < va_page (va_of pf m) r + 4096 * n) ->
     translate m' v' = translate m v') ->
  (x = false -> forall i, 0 <= i < n -> translate m' (va_page (va_of pf m) r + 4096 * i) = None) ->
  heap_ok m'.
Proof.
  intros Hh Hs' Hlow Hva' Hr Hn (Hst & Hbi & Hu) Hother Hout Hin.
  assert (forall pf', vaddr_start (va_of pf' m') = vaddr_start (va_of pf' m)
            /\ va_bits (va_of pf' m') = va_bits (va_of pf' m)) as Hsame.
  { intros pf'. destruct (decide (pf' = pf)) as [->|Hne]; [done|]. by rewrite Hother. }
  constructor; [done|rewrite Hlow; apply Hh|done| |].
  2: { pose proof (ho_apart _ Hh). destruct (Hsame PF_USER) as [H1 H2], (Hsame PF_KERNEL) as [H3 _].
       simpl in *. unfold va_page in *. by rewrite H1, H2, H3. }
  intros pf' j Hj Hf. destruct (Hsame pf') as [Hs Hb]. rewrite Hb in Hj.
  assert (va_page (va_of pf' m') j = va_page (va_of pf' m) j) as Hvp by (unfold va_page; by rewrite Hs).
  unfold kernel_low_page. rewrite Hvp, Hb. fold (kernel_low_page pf' (va_of pf' m) j).
  pose proof (va_page_ok _ j (ho_va _ Hh pf') Hj) as Hpg.
  destruct (decide (pf' = pf)) as [->|Hne].
  - rewrite Hu in Hf by lia. case_decide as Hcase.
    + unfold va_page. replace (vaddr_start (va_of pf m) + 4096 * j)
        with (va_page (va_of pf m) r + 4096 * (j - r)) by (unfold va_page; lia).
      left. apply Hin; [by destruct x|lia].
    + rewrite Hout; [by apply Hh|done|]. unfold va_page. lia.
  - rewrite Hother in Hf by done. rewrite Hout; [by apply Hh|done|].
    pose proof (va_apart m) as Hap. destruct pf, pf'; simpl in *; try done.
    + pose proof (Hap j r Hh Hj Hr). lia.
    + pose proof (ho_apart _ Hh). unfold va_page in *. lia.
Qed.

Lemma space_ok_va pf m va : space_ok m -> vaddr_start va = vaddr_start (va_of pf m) -> space_ok (with_va pf m va).
Proof.
  intros Hs Hst. apply (space_ok_fewer m); try done; try (by destruct pf); try (destruct pf; apply Hs).
Qed.

Lemma malloc_page_spec pf n m :
  heap_ok m -> 1 <= n < 3840 ->
  let va := va_of pf m in
  (exists v m', malloc_page pf n m = Ok (v, m') /\ v <> 0 /\ allocated pf n m m' v)
  \/ (malloc_page pf n m = Ok (0, m)
      /\ forall s, 0 <= s -> s + n <= va_bits va + 1 -> exists j, s <= j < s + n /\ va_used va j = true)
  \/ (malloc_page pf n m = Bad EPanic
      /\ ((forall j, 0 <= j < va_bits va -> va_used va j = true)
          \/ (pf = PF_USER /\ 0xc0000000 - 4096 <= va_page va (va_bits va))
          \/ ~ enough n pf m)).
Proof.
  intros Hh Hn va. pose proof (ho_space _ Hh) as Hs. unfold malloc_page.
  assert (sassert ((0 <? n) && (n <? 3840)) m = Ok (tt, m)) as Has.
  { replace (0 <? n) with true by lia. by replace (n <? 3840) with true by lia. }
  run Has.
  destruct (vaddr_get_spec pf n m (ho_va _ Hh pf) Hn)
    as [(r & va' & Hget & H0 & H1 & Hcl & Hsets & Hok' & _)|[[Hget Hno]|[Hget Hwhy]]].
  2: { right; left. run Hget. done. }
  2: { right; right. split; [by apply sbind_Bad|]. destruct Hwhy as [?|[? ?]]; naive_solver. }
  run Hget. fold va in H0, H1, Hcl, Hsets |- *. set (m1 := with_va pf m va') in *.
  set (v := va_page va r) in *.
  assert (0x400000 <= v) as Hv.
  { pose proof (vo_start _ (ho_va _ Hh pf)). subst v va. unfold va_page. lia. }
  replace (v =? 0) with false by lia.
  assert (forall w, translate m1 w = translate m w) as Htr by (by destruct pf).
  assert (forall i, 0 <= i < n -> page (v + 4096 * i)
    /\ (translate m (v + 4096 * i) = None \/ (i = n - 1 /\ pf = PF_USER /\ 0xc0000000 - 4096 <= va_page va (va_bits va)))) as Hpg0.
  { intros i Hi. replace (v + 4096 * i) with (va_page va (r + i)) by (subst v; unfold va_page; lia).
    split; [apply va_page_ok; [apply Hh|lia]|].
    destruct (ho_free _ Hh pf (r + i) ltac:(fold va; lia) ltac:(apply Hcl; lia)) as [?|(-> & Hlast & Hbig)]; [by left|right].
    fold va in Hlast, Hbig. rewrite Hlast in Hbig. split; [lia|]. split; [done|lia]. }
  assert (space_ok m1) as Hs1 by (apply space_ok_va; [done|apply Hsets]).
  destruct (translate m (v + 4096 * (n - 1))) as [g|] eqn:Hlast.
  { right; right. destruct (Hpg0 (n - 1)) as [_ [?|(_ & Hpf & Hbig)]]; [lia|congruence|]. split; [|right; by left].
    apply sbind_Bad. replace (Z.to_nat n) with (S (Z.to_nat (n - 1))) by lia. apply map_pages_blocked; [done|..].
    - intros i Hi. apply Hpg0. lia.
    - intros i Hi. rewrite Htr. destruct (Hpg0 i) as [_ [?|[? _]]]; [lia|done|lia].
    - rewrite Htr, Z2Nat.id by lia. by eexists. }
  assert (forall i, 0 <= i < n -> page (v + 4096 * i) /\ translate m (v + 4096 * i) = None) as Hpg.
  { intros i Hi. destruct (Hpg0 i Hi) as [Hp [?|[-> _]]]; split; try done. }
  destruct (map_pages_spec (Z.to_nat n) pf v m1) as [(m' & Hmp & Hps)|[Hbad Hen]].
  - exact Hs1.
  - rewrite Z2Nat.id by lia. intros i Hi. rewrite Htr. by apply Hpg.
  - left. exists v, m'. run Hmp. split; [done|]. split; [lia|]. rewrite Z2Nat.id in Hps by lia.
    destruct Hps as [Hm Ho Hok Hk Hu Hc Hkv Huv].
    assert (forall w, page w -> ~ (v <= w < v + 4096 * n) -> translate m' w = translate m w) as Hout.
    { intros w Hw Hw2. by rewrite Ho, Htr. }
    assert (forall pf', va_of pf' m' = if decide (pf' = pf) then va' else va_of pf' m) as Hvas.
    { intros []; simpl; rewrite ?Hkv, ?Huv; by destruct pf. }
    assert (va_sets va (va_of pf m') r n true) as Hsets' by (by rewrite Hvas, decide_True).
    constructor; [|  |done| |by destruct pf|by destruct pf|by exists r| |by destruct pf].
    + intros i Hi. destruct (Hpg i Hi) as [Hp Hn2], (Hm i Hi) as (f & Hf & Hfr).
      split; [done|]. split; [done|]. exists f. split; [done|]. split; [by destruct pf|].
      by destruct (so_mapped _ Hok _ f Hp Hf).
    + intros i j Hi Hj Hne Heq. destruct (Hpg i Hi) as [Hpi _], (Hpg j Hj) as [Hpj _].
      destruct (Hm i Hi) as (f & Hf & _). pose proof (so_inj _ Hok _ _ f Hpi Hpj Hf) as Hinj.
      rewrite <- Heq in Hinj. specialize (Hinj Hf). lia.
    + apply (heap_ok_after pf n true m m' r); try done.
      * destruct Hk as [-> _]. by destruct pf.
      * intros pf'. rewrite Hvas. case_decide; [done|apply Hh].
      * intros pf' Hne. by rewrite Hvas, decide_False.
    + intros pf' Hne. by rewrite Hvas, decide_False.
  - right; right. split; [by apply sbind_Bad|]. do 2 right. rewrite Z2Nat.id in Hen by lia.
    intros He. apply Hen. by destruct pf.
Qed.

(** ** Release *)

(** A frame of the pool, free or not. *)
Definition owned (p : pool) (f : Z) : Prop := exists k, 0 <= k < pool_cap p /\ f = pool_frame p k.

(** [p'] is [p] with frame [f] given back. *)
Definition gives_back (p p' : pool) (f : Z) : Prop :=
  phy_addr_start p' = phy_addr_start p /\ pool_cap p' = pool_cap p /\ pool_ok p'
  /\ forall g, free_in p' g <-> free_in p g \/ g = f.

Lemma set_frame_free p k :
  pool_ok p -> 0 <= k < pool_cap p ->
  exists b, bitmap_set (pool_bitmap p) k 0 = Ok b
    /\ gives_back p (Pool b (phy_addr_start p) (pool_size p)) (pool_frame p k).
Proof.
  intros Hp Hk. pose proof Hp as [Hb Ha Hs Hr]. pose proof (bo_len _ Hb) as Hl.
  unfold pool_cap, bm_bits in Hk.
  destruct (set_bit (pool_bitmap p) k 0) as (b & Hset & Hb' & Hl' & _ & Hbits); [done|lia|by left|].
  exists b. split; [done|].
  assert (bm_bits b = bm_bits (pool_bitmap p)) as Hbb by (unfold bm_bits; by rewrite Hl').
  split_and!; [done|done| |].
  - constructor; simpl; [done|done|done|]. by rewrite Hbb.
  - intros g. unfold free_in, pool_used, pool_cap; simpl. rewrite Hbb. split.
    + intros (j & Hj & Hu & ->). rewrite Hbits in Hu by lia. case_decide; [right; by subst|left].
      by exists j.
    + intros [(j & Hj & Hu & ->)| ->].
      * exists j. rewrite Hbits by lia. case_decide; done.
      * exists k. unfold bm_bits. rewrite Hbits, decide_True by lia. done.
Qed.

(** [pfree] finds the pool of a frame by comparing addresses. *)
Lemma pfree_spec pf m f :
  space_ok m -> owned (pool_of pf m) f ->
  exists p, pfree f m = Ok (tt, with_pool pf m p) /\ gives_back (pool_of pf m) p f.
Proof.
  intros Hs (k & Hk & ->). pose proof (so_pool m pf Hs) as Hp.
  pose proof (pool_frame_aligned _ k Hp Hk) as [Hal _]. pose proof (so_disjoint _ Hs) as Hd.
  destruct (set_frame_free _ k Hp Hk) as (b & Hset & Hg).
  pose proof (po_start _ Hp).
  assert (u32 (pool_frame (pool_of pf m) k - phy_addr_start (pool_of pf m)) / 4096 = k) as Hidx.
  { unfold pool_frame in *. unwrap. lia. }
  exists (Pool b (phy_addr_start (pool_of pf m)) (pool_size (pool_of pf m))).
  split; [|done]. unfold pfree, PG_SIZE. destruct pf; simpl in *.
  - replace (phy_addr_start (user_pool m) <=? pool_frame (kernel_pool m) k) with false
      by (unfold pool_frame in *; lia). by rewrite Hidx, Hset.
  - replace (phy_addr_start (user_pool m) <=? pool_frame (user_pool m) k) with true
      by (unfold pool_frame in *; lia). by rewrite Hidx, Hset.
Qed.

(** [m'] is [m] with page [v] unmapped and its frame [f] free again. *)
Record page_released (m m' : mem) (v f : Z) : Prop := {
  pr_gone : translate m' v = None;
  pr_others : forall v', page v' -> v' <> v -> translate m' v' = translate m v';
  pr_free : forall g, free_frame m' g <-> free_frame m g \/ g = f;
  pr_ok : space_ok m';
  pr_caps : forall pf', phy_addr_start (pool_of pf' m') = phy_addr_start (pool_of pf' m)
                        /\ pool_cap (pool_of pf' m') = pool_cap (pool_of pf' m);
  pr_va : forall pf', va_of pf' m' = va_of pf' m;
  pr_cr3 : cr3 m' = cr3 m
}.

Lemma gives_back_free pf m p f g :
  gives_back (pool_of pf m) p f -> free_frame (with_pool pf m p) g <-> free_frame m g \/ g = f.
Proof.
  intros (_ & _ & _ & Hg). rewrite !free_split. destruct pf; simpl in *; rewrite Hg; naive_solver.
Qed.

(** A frame that a page is mapped to can be given back when it is not the page
    directory in use: it is not a page table. *)
Lemma give_back_pt pf m p v f :
  space_ok m -> page v -> translate m v = Some f -> f <> cr3 m -> gives_back (pool_of pf m) p f ->
  pt_ok (with_pool pf m p)
  /\ forall g, free_frame (with_pool pf m p) g -> ~ table_frame m g.
Proof.
  intros Hs Hv Hf Hcr Hgb. assert (~ table_frame m f) as Hnt by (intros Ht; by destruct (so_mapped _ Hs v f Hv Hf) as [_ [? _]]).
  set (m1 := with_pool pf m p).
  assert (forall g, free_frame m1 g -> ~ table_frame m g) as Hfresh1.
  { intros g [Hg| ->]%(gives_back_free pf m p f g Hgb); [by apply (so_fresh _ Hs)|done]. }
  split; [|done]. destruct (so_pt _ Hs) as [(Ha & Hpr & Hfr) Hkp Ht Hds _].
  constructor; [by destruct pf|destruct pf; [apply Hgb|done]| | |].
  - by destruct pf.
  - by destruct pf.
  - intros k Hk Hu. assert (~ table_frame m (pool_frame (kernel_pool m1) k)) as Hn.
    { apply Hfresh1. by exists PF_KERNEL, k. }
    split; [intros Heq; apply Hn; left; by destruct pf|].
    intros i Hi Hp Heq. apply Hn. right. exists i. by destruct pf.
Qed.

Lemma release_one pf m v f :
  space_ok m -> page v -> translate m v = Some f -> owned (pool_of pf m) f -> f <> cr3 m ->
  exists m', (_ ← pfree f; page_table_pte_remove v) m = Ok (tt, m') /\ page_released m m' v f.
Proof.
  intros Hs Hv Hf Hown Hcr. destruct (pfree_spec pf m f Hs Hown) as (p & Hpf & Hgb).
  destruct (give_back_pt pf m p v f Hs Hv Hf Hcr Hgb) as [Hpt1 Hfresh1].
  run Hpf. set (m1 := with_pool pf m p) in *.
  assert (forall w, translate m1 w = translate m w) as Htr1 by (by destruct pf).
  destruct (page_table_pte_remove_spec m1 v Hpt1) as (m' & Hrm & [Hgone Hoth Hok Hdir (ph & Heq)]);
    [by apply page_range|rewrite Htr1, Hf; by eexists|].
  exists m'. split; [done|].
  assert (forall v', page v' -> v' <> v -> translate m' v' = translate m v') as Hoth'.
  { intros v' Hv' Hne. rewrite Hoth, Htr1; [done|by apply page_range|]. intros Hsl.
    by apply Hne, eq_sym, (page_slot m1 v v' Hpt1). }
  assert (forall g, free_frame m' g <-> free_frame m1 g) as Hfree1 by (by rewrite Heq).
  assert (forall g, table_frame m' g -> table_frame m g) as Htab.
  { intros g [->|(i & Hi & Hp & ->)]; [left; rewrite Heq; by destruct pf|right].
    exists i. rewrite Hdir in * by done. by destruct pf. }
  pose proof Hgb as (Hst & Hcap & Hpok & _). pose proof (so_disjoint _ Hs) as Hd.
  constructor; [done|done| | | | |rewrite Heq; by destruct pf].
  - intros g. rewrite Hfree1. by apply gives_back_free.
  - constructor; [done| | | | |].
    + rewrite Heq. destruct pf; [apply Hs|done].
    + rewrite Heq. unfold pool_frame in *. destruct pf; simpl in *; by rewrite ?Hst, ?Hcap.
    + intros g Hg%Hfree1 Ht%Htab. by apply (Hfresh1 g).
    + intros v' g Hv' Hg. destruct (decide (v' = v)) as [->|Hne]; [congruence|].
      rewrite Hoth' in Hg by done. destruct (so_mapped _ Hs v' g Hv' Hg) as [H1 H2].
      split; [|intros ?%Htab; rewrite Heq; destruct pf; by apply H2]. intros Hx%Hfree1.
      apply (gives_back_free pf m p f g Hgb) in Hx as [?| ->]; [done|]. by apply Hne, (so_inj _ Hs v' v f).
    + intros v1 v2 g Hv1 Hv2. destruct (decide (v1 = v)) as [->|H1]; [congruence|].
      destruct (decide (v2 = v)) as [->|H2]; [congruence|]. rewrite !Hoth' by done.
      by apply (so_inj _ Hs).
  - intros pf'. rewrite Heq. by destruct pf, pf'.
  - intros pf'. rewrite Heq. by destruct pf, pf'.
Qed.

Record pages_released (n : Z) (m m' : mem) (v : Z) : Prop := {
  pl_gone : forall i, 0 <= i < n -> translate m' (v + 4096 * i) = None;
  pl_others : forall v', page v' -> ~ (v <= v' < v + 4096 * n) -> translate m' v' = translate m v';
  pl_free : forall g, free_frame m' g
    <-> free_frame m g \/ exists i, 0 <= i < n /\ translate m (v + 4096 * i) = Some g;
  pl_ok : space_ok m';
  pl_caps : forall pf', phy_addr_start (pool_of pf' m') = phy_addr_start (pool_of pf' m)
                        /\ pool_cap (pool_of pf' m') = pool_cap (pool_of pf' m);
  pl_va : forall pf', va_of pf' m' = va_of pf' m;
  pl_cr3 : cr3 m' = cr3 m
}.

(** The checks of the loops pass for a frame of the pool. *)
Lemma owned_checks pf m f :
  space_ok m -> owned (pool_of pf m) f ->
  (f mod PG_SIZE =? 0) = true
  /\ (phy_addr_start (user_pool m) <=? f) = bool_decide (pf = PF_USER)
  /\ phy_addr_start (kernel_pool m) <= f.
Proof.
  intros Hs (k & Hk & ->). pose proof (so_pool m pf Hs) as Hp.
  pose proof (pool_frame_aligned _ k Hp Hk) as [_ Hal]. pose proof (so_disjoint _ Hs) as Hd.
  pose proof (pool_cap_nonneg _ (so_pool m PF_KERNEL Hs)).
  unfold PG_SIZE. split; [lia|]. destruct pf; simpl in *; unfold pool_frame in *; lia.
Qed.

Lemma unmap_pages_spec n pf v m :
  space_ok m ->
  (forall i, 0 <= i < Z.of_nat n -> page (v + 4096 * i)
     /\ exists f, translate m (v + 4096 * i) = Some f /\ owned (pool_of pf m) f /\ f <> cr3 m) ->
  exists m', unmap_pages n (bool_decide (pf = PF_USER)) (u32 (v - 4096)) m = Ok (tt, m')
    /\ pages_released (Z.of_nat n) m m' v.
Proof.
  revert v m. induction n as [|n IH]; intros v m Hs Hpg.
  { exists m. split; [done|]. constructor; try done; [lia|].
    intros g. split; [by left|]. intros [?|(i & ? & _)]; [done|lia]. }
  destruct (Hpg 0) as [Hv (f & Hf & Hown & Hcr)]; [lia|]. rewrite Z.mul_0_r, Z.add_0_r in Hv, Hf.
  pose proof (page_range v Hv) as Hvw. pose proof Hv as [Hv4 _].
  destruct (owned_checks pf m f Hs Hown) as (Hc1 & Hc2 & Hc3).
  cbn [unmap_pages]. cbv zeta.
  replace (u32 (u32 (v - 4096) + PG_SIZE)) with v by (unfold window, PG_SIZE in *; unwrap; lia).
  assert (addr_v2p v m = Ok (f, m)) as Hv2p.
  { apply addr_v2p_spec; [apply Hs|unfold window in *; lia|done]. }
  run Hv2p. assert (sget m = Ok (m, m)) as Hget by done. run Hget.
  set (chk := (f mod PG_SIZE =? 0) && _).
  assert (chk = true) as Hchk.
  { subst chk. rewrite Hc1. case_bool_decide; simpl; [done|].
    replace (phy_addr_start (kernel_pool m) <=? f) with true by lia.
    rewrite Z.ltb_antisym, Hc2. done. }
  assert (sassert chk m = Ok (tt, m)) as Has by (by rewrite Hchk). run Has.
  destruct (release_one pf m v f Hs Hv Hf Hown Hcr) as (m1 & Hrel & [Hgone Ho Hfr Hok Hcaps Hva Hcr1]).
  destruct (pfree_spec pf m f Hs Hown) as (p & Hpf & _).
  run Hpf. rewrite (sbind_Ok _ _ _ _ _ Hpf) in Hrel. run Hrel.
  destruct (IH (v + 4096) m1) as (m' & Hrun & [Hgone' Ho' Hfr' Hok' Hcaps' Hva' Hcr']).
  - done.
  - intros i Hi. destruct (Hpg (i + 1)) as [Hp (g & Hg & (k & Hk & ->) & Hcg)]; [lia|].
    replace (v + 4096 + 4096 * i) with (v + 4096 * (i + 1)) by lia. split; [done|].
    eexists. rewrite Ho by (done || lia). split; [done|]. split; [|congruence]. exists k.
    destruct (Hcaps pf) as [Hst ->]. split; [done|]. unfold pool_frame. by rewrite Hst.
  - exists m'. replace (u32 (v + 4096 - 4096)) with v in Hrun by (unfold window in *; unwrap; lia).
    split; [done|]. constructor; [| | |done| | |congruence].
    + intros i Hi. destruct (decide (i = 0)) as [->|].
      * rewrite Z.mul_0_r, Z.add_0_r. rewrite Ho' by (done || lia). done.
      * replace (v + 4096 * i) with (v + 4096 + 4096 * (i - 1)) by lia. apply Hgone'. lia.
    + intros v' Hv' Hout. rewrite Ho', Ho by (done || lia). done.
    + intros g. rewrite Hfr', Hfr. split.
      * intros [[?| ->]|(i & Hi & Hg)]; [by left| |].
        { right. exists 0. rewrite Z.mul_0_r, Z.add_0_r. split; [lia|done]. }
        right. exists (i + 1). destruct (Hpg (i + 1)) as [Hp _]; [lia|].
        replace (v + 4096 + 4096 * i) with (v + 4096 * (i + 1)) in Hg by lia.
        rewrite Ho in Hg by (done || lia). split; [lia|done].
      * intros [?|(i & Hi & Hg)]; [by left; left|]. destruct (decide (i = 0)) as [->|].
        { rewrite Z.mul_0_r, Z.add_0_r in Hg. left; right. congruence. }
        right. exists (i - 1). destruct (Hpg i) as [Hp _]; [lia|].
        replace (v + 4096 + 4096 * (i - 1)) with (v + 4096 * i) by lia.
        rewrite Ho by (done || lia). split; [lia|done].
    + intros pf'. destruct (Hcaps' pf') as [-> ->]. apply Hcaps.
    + intros pf'. by rewrite Hva'.
Qed.

(** [m'] is [m] with the [n] pages from bit [r] of the virtual pool released. *)
Record freed (pf : pool_flags) (n : Z) (m m' : mem) (r : Z) : Prop := {
  fr_pages : forall i, 0 <= i < n -> translate m' (va_page (va_of pf m) (r + i)) = None;
  fr_others : forall v', page v' -> ~ (va_page (va_of pf m) r <= v' < va_page (va_of pf m) (r + n)) ->
    translate m' v' = translate m v';
  fr_free : forall g, free_frame m' g <-> free_frame m g
    \/ exists i, 0 <= i < n /\ translate m (va_page (va_of pf m) (r + i)) = Some g;
  fr_ok : heap_ok m';
  fr_bits : va_sets (va_of pf m) (va_of pf m') r n false;
  fr_other_va : forall pf', pf' <> pf -> va_of pf' m' = va_of pf' m;
  fr_caps : forall pf', phy_addr_start (pool_of pf' m') = phy_addr_start (pool_of pf' m)
                        /\ pool_cap (pool_of pf' m') = pool_cap (pool_of pf' m);
  fr_cr3 : cr3 m' = cr3 m
}.

Lemma vaddr_remove_spec pf n m r :
  va_ok (va_of pf m) -> 0 <= n -> 0 <= r -> r + n <= va_bits (va_of pf m) + 1 ->
  exists va', vaddr_remove pf (va_page (va_of pf m) r) n m = Ok (tt, with_va pf m va')
    /\ va_sets (va_of pf m) va' r n false /\ va_ok va'.
Proof.
  intros Hva Hn H0 H1. pose proof Hva as [Hb [Hs1 Hs2] He]. pose proof Hb as [Hlen Hint _].
  set (va := va_of pf m) in *. unfold va_bits, va_page, bm_bits, window in *.
  destruct (set_run_spec (Z.to_nat n) (vaddr_bitmap va) r 0) as (b' & Hset & Hb' & Hl' & Hbits);
    [done|done|lia|lia|by left|]. rewrite Z2Nat.id in Hbits by lia.
  assert (u32 (vaddr_start va + 4096 * r - vaddr_start va) / 4096 = r) as Hidx by (unwrap; lia).
  exists (VirtualAddr b' (vaddr_start va)). split_and!.
  - unfold vaddr_remove, PG_SIZE. destruct pf; subst va; simpl in *; by rewrite Hidx, Hset.
  - split_and!; [done| |done]. unfold va_bits, bm_bits; simpl. by rewrite Hl'.
  - constructor; simpl; [done|done|]. unfold va_page, va_bits, bm_bits, window; simpl. rewrite Hl'. lia.
Qed.

Lemma mfree_page_spec pf n m r :
  heap_ok m -> 1 <= n -> 0 <= r -> r + n <= va_bits (va_of pf m) + 1 ->
  (forall i, 0 <= i < n -> exists f, translate m (va_page (va_of pf m) (r + i)) = Some f
                                     /\ owned (pool_of pf m) f /\ f <> cr3 m) ->
  exists m', mfree_page pf (va_page (va_of pf m) r) n m = Ok (tt, m') /\ freed pf n m m' r.
Proof.
  intros Hh Hn Hr Hrn Hmap. pose proof (ho_space _ Hh) as Hs. pose proof (ho_va _ Hh pf) as Hva.
  set (va := va_of pf m) in *. set (v := va_page va r).
  assert (forall i, va_page va (r + i) = v + 4096 * i) as Hvi by (intros i; subst v; unfold va_page; lia).
  assert (page v) as Hv by (apply va_page_ok; [done|lia]).
  destruct (Hmap 0) as (f & Hf & Hown & _); [lia|]. rewrite Hvi, Z.mul_0_r, Z.add_0_r in Hf.
  destruct (owned_checks pf m f Hs Hown) as (Hc1 & Hc2 & Hc3). pose proof (ho_low _ Hh).
  unfold mfree_page.
  assert (sassert ((1 <=? n) && (v mod PG_SIZE =? 0)) m = Ok (tt, m)) as Has.
  { destruct Hv as [_ Hv]. unfold PG_SIZE. rewrite Hv. by replace (1 <=? n) with true by lia. }
  run Has. assert (addr_v2p v m = Ok (f, m)) as Hv2p.
  { pose proof (page_range v Hv). apply addr_v2p_spec; [apply Hs|unfold window in *; lia|done]. }
  run Hv2p.
  assert (sassert ((f mod PG_SIZE =? 0) && (0x102000 <=? f)) m = Ok (tt, m)) as Has2.
  { rewrite Hc1. by replace (0x102000 <=? f) with true by lia. }
  run Has2. assert (sget m = Ok (m, m)) as Hget by done. run Hget. rewrite Hc2.
  destruct (unmap_pages_spec (Z.to_nat n) pf v m Hs) as (m1 & Hun & Hpl).
  { rewrite Z2Nat.id by lia. intros i Hi. rewrite <- Hvi.
    split; [apply va_page_ok; [done|lia]|by apply Hmap]. }
  rewrite Z2Nat.id in Hpl by lia. destruct Hpl as [Hgone Ho Hfr Hok Hcaps Hvas Hcr].
  destruct (vaddr_remove_spec pf n m1 r) as (va' & Hrem & Hsets & Hva'); rewrite ?Hvas; [done|lia|done|done|].
  rewrite Hvas in Hrem, Hsets. fold va v in Hrem, Hsets.
  exists (with_va pf m1 va'). split.
  { destruct (bool_decide (pf = PF_USER)) eqn:Eb; run Hun; done. }
  assert (forall w, translate (with_va pf m1 va') w = translate m1 w) as Htr by (by destruct pf).
  assert (forall pf', va_of pf' (with_va pf m1 va') = if decide (pf' = pf) then va' else va_of pf' m) as Hv2.
  { intros pf'. rewrite <- Hvas. by destruct pf, pf'. }
  assert (forall w, page w -> ~ (v <= w < v + 4096 * n) -> translate (with_va pf m1 va') w = translate m w)
    as Hout by (intros w Hw Hw2; by rewrite Htr, Ho).
  constructor; fold va.
  - intros i Hi. rewrite Htr, Hvi. by apply Hgone.
  - intros w Hw. rewrite Hvi. by apply Hout.
  - intros g. replace (free_frame (with_va pf m1 va') g) with (free_frame m1 g) by (by destruct pf).
    rewrite Hfr. setoid_rewrite Hvi. done.
  - apply (heap_ok_after pf n false m _ r); try done.
    + apply space_ok_va; [done|]. rewrite Hvas. apply Hsets.
    + destruct (Hcaps PF_KERNEL) as [Hst _]. simpl in Hst. rewrite <- Hst. by destruct pf.
    + intros pf'. rewrite Hv2. destruct (decide (pf' = pf)); [done|apply Hh].
    + by rewrite Hv2, decide_True.
    + intros pf' Hne. by rewrite Hv2, decide_False.
    + intros _ i Hi. rewrite Htr. by apply Hgone.
  - by rewrite Hv2, decide_True.
  - intros pf' Hne. by rewrite Hv2, decide_False.
  - intros pf'. destruct (Hcaps pf') as [<- <-]. by destruct pf, pf'.
  - rewrite <- Hcr. by destruct pf.
Qed.

(** ** Initialisation *)

Definition is_byte (v : Z) : Prop := 0 <= v < 256.

Lemma init_bitmap_at_spec region off len :
  0 <= off -> 0 <= len -> off + len <= Z.of_nat (length region) -> Forall is_byte region ->
  exists region', init_bitmap_at region off len = Ok region'
    /\ length region' = length region /\ Forall is_byte region'
    /\ (forall i, (Z.to_nat off <= i < Z.to_nat (off + len))%nat -> region' !! i = Some 0)
    /\ (forall i, (i < Z.to_nat off)%nat -> region' !! i = region !! i).
Proof.
  intros Ho Hl Hlen Hb. unfold init_bitmap_at, bitmap_init; simpl.
  rewrite length_drop, bool_decide_true by lia. rewrite bind_Ok; simpl. eexists. split; [done|].
  split_and!.
  - rewrite !length_app, length_take, length_replicate, !length_drop. lia.
  - apply Forall_app. split; [by apply Forall_take|]. apply Forall_app. split.
    + apply Forall_replicate. unfold is_byte. lia.
    + by do 2 apply Forall_drop.
  - intros i Hi. rewrite lookup_app_r by (rewrite length_take; lia).
    rewrite length_take, lookup_app_l by (rewrite length_replicate; lia).
    apply lookup_replicate. split; [done|lia].
  - intros i Hi. rewrite lookup_app_l by (rewrite length_take; lia). by apply lookup_take_lt.
Qed.

Lemma bitmap_at_ok region off len :
  0 <= off -> 0 <= len -> off + len < Z.of_nat (length region) -> 8 * len + 8 < 2 ^ 31 ->
  Forall is_byte region ->
  (forall i, (Z.to_nat off <= i < Z.to_nat (off + len))%nat -> region !! i = Some 0) ->
  bitmap_ok (bitmap_at region off len)
  /\ bm_bits (bitmap_at region off len) = 8 * len
  /\ forall j, 0 <= j < 8 * len -> bm_bit (bitmap_at region off len) j = false.
Proof.
  intros Ho Hl Hlen Hint Hb Hz. split_and!; [|done|].
  - constructor; simpl; [rewrite length_take, length_drop; lia|unfold bm_bits; simpl; lia|].
    by apply Forall_take, Forall_drop.
  - intros j Hj. unfold bm_bit, bitmap_at; simpl. rewrite lookup_take_lt, lookup_drop by lia.
    rewrite Hz by lia. apply Z.bits_0.
Qed.

Lemma mem_pool_init_spec all_mem region m :
  0x200000 <= all_mem < 2 ^ 32 -> Forall is_byte region -> 12289 <= Z.of_nat (length region) ->
  let pages := ((all_mem - 0x200000) / 4096) mod 65536 in
  exists m', mem_pool_init all_mem region m = Ok (tt, m')
    /\ phy_addr_start (kernel_pool m') = 0x200000
    /\ phy_addr_start (user_pool m') = 0x200000 + pages / 2 * 4096
    /\ pool_cap (kernel_pool m') = pages / 2 / 8 * 8
    /\ pool_cap (user_pool m') = (pages - pages / 2) / 8 * 8
    /\ (forall pf, pool_ok (pool_of pf m')
          /\ forall j, 0 <= j < pool_cap (pool_of pf m') -> pool_used (pool_of pf m') j = false)
    /\ va_ok (kernel_vaddr m') /\ vaddr_start (kernel_vaddr m') = K_HEAP_START
    /\ (forall j, 0 <= j < va_bits (kernel_vaddr m') -> va_used (kernel_vaddr m') j = false)
    /\ cur_vaddr m' = cur_vaddr m /\ phys m' = phys m /\ cr3 m' = cr3 m.
Proof.
  intros Hall Hby Hlen pages. unfold mem_pool_init. change (PG_SIZE * 256 + 0x100000) with 0x200000.
  unfold PG_SIZE. cbv zeta. rewrite (u32_id (all_mem - 0x200000)) by lia.
  change (u16 ((all_mem - 0x200000) / 4096)) with pages.
  assert (0 <= pages < 65536) as Hp by (apply Z.mod_pos_bound; lia).
  assert (pages <= (all_mem - 0x200000) / 4096) as Hp2 by (apply Z.mod_le; lia).
  clearbody pages. unwrap.
  remember (pages / 2 / 8) as kb eqn:Hkb. remember ((pages - pages / 2) / 8) as ub eqn:Hub.
  assert (0 <= kb <= 4096) as Hk0 by lia. assert (0 <= ub <= 4096) as Hu0 by lia.
  destruct (init_bitmap_at_spec region 0 kb) as (r1 & -> & Hl1 & Hb1 & Hz1 & _); [lia|lia|lia|done|].
  rewrite bind_Ok.
  destruct (init_bitmap_at_spec r1 kb ub) as (r2 & -> & Hl2 & Hb2 & Hz2 & Hk2); [lia|lia|lia|done|].
  rewrite bind_Ok.
  destruct (init_bitmap_at_spec r2 (kb + ub) kb) as (r3 & -> & Hl3 & Hb3 & Hz3 & Hk3); [lia|lia|lia|done|].
  rewrite bind_Ok. eexists. split; [done|].
  destruct (bitmap_at_ok r3 0 kb) as (Hok1 & Hbits1 & Hf1); [lia|lia|lia|lia|done| |].
  { intros i Hi. rewrite Hk3, Hk2 by lia. apply Hz1. lia. }
  destruct (bitmap_at_ok r3 kb ub) as (Hok2 & Hbits2 & Hf2); [lia|lia|lia|lia|done| |].
  { intros i Hi. rewrite Hk3 by lia. apply Hz2. lia. }
  destruct (bitmap_at_ok r3 (kb + ub) kb) as (Hok3 & Hbits3 & Hf3); [lia|lia|lia|lia|done|done|].
  simpl. unfold pool_cap, va_bits; simpl. rewrite Hbits1, Hbits2, Hbits3.
  split_and!; try done; try lia.
  - intros [].
    + split; [|unfold pool_cap, pool_used; simpl; by rewrite Hbits1].
      constructor; simpl; [done|done|lia|]. unfold pool_frame; simpl. rewrite Hbits1. lia.
    + split; [|unfold pool_cap, pool_used; simpl; by rewrite Hbits2].
      constructor; simpl; [done|lia|lia|]. unfold pool_frame; simpl. rewrite Hbits2. lia.
  - constructor; simpl; [done|done|]. unfold va_page, va_bits, window, K_HEAP_START; simpl.
    rewrite Hbits3. lia.
Qed.

(** ** Properties *)

Lemma demo_words i :
  (0 < i < 1023 -> word (phys demo_mem) (0x100000 + 4 * i) = if decide (i = 768) then 0x101007 else 0)
  /\ (0 <= i -> word (phys demo_mem) (0x101000 + 4 * i) = if decide (i = 0) then 7 else 0).
Proof.
  unfold demo_mem. cbn [phys]. rewrite !word_insert.
  split; intros Hi; repeat case_decide; subst; done || lia.
Qed.

Lemma demo_translate v :
  page v -> translate demo_mem v = if decide (v = 0xc0000000) then Some 0 else None.
Proof.
  intros Hv. pose proof (page_pde v Hv) as Hd. pose proof (PTE_IDX_range v) as Ht.
  pose proof (proj1 (demo_words (PDE_IDX v)) Hd) as Hpde.
  change (word (phys demo_mem) (0x100000 + 4 * PDE_IDX v)) with (pde_of demo_mem v) in Hpde.
  pose proof (proj2 (demo_words (PTE_IDX v)) (proj1 Ht)) as Hpte.
  unfold translate, pte_of. rewrite Hpde. destruct (decide (PDE_IDX v = 768)) as [H768|Hne].
  - change (frame 0x101007) with 0x101000. rewrite Hpte. destruct (decide (PTE_IDX v = 0)) as [H0|Hn0].
    + assert (v = 0xc0000000) as ->; [|done]. destruct Hv as [Hr Ha]. unfold window in *.
      rewrite PDE_IDX_eq in H768 by lia. rewrite PTE_IDX_eq in H0. lia.
    + rewrite decide_False; [done|]. intros ->. by apply Hn0.
  - rewrite decide_False; [done|]. intros ->. by apply Hne.
Qed.

Lemma demo_heap_ok : heap_ok demo_mem.
Proof.
  assert (forall f, free_frame demo_mem f -> 0x200000 <= f) as Hfree.
  { intros f [[] (k & Hk & _ & ->)]; simpl in *; unfold pool_frame, pool_cap, bm_bits in *; simpl in *; lia. }
  assert (forall f, table_frame demo_mem f -> f = 0x100000 \/ f = 0x101000) as Htab.
  { intros f [->|(i & Hi & Hp & ->)]; [by left|]. rewrite demo_dir by done. case_decide; auto. }
  assert (forall start, 0x400000 <= start <= 0xc0100000 -> start mod 4096 = 0 ->
            va_ok (VirtualAddr (Bitmap 2 [0; 0; 0]) start)) as Hva.
  { intros start Hs Ha. constructor; simpl; [apply (demo_pool_ok 4096); done|lia|].
    unfold va_page, va_bits, bm_bits, window; simpl. lia. }
  constructor; [constructor| | | |].
  - apply demo_mem_ok.
  - by apply demo_pool_ok.
  - done.
  - intros f Hf Ht. apply Hfree in Hf. apply Htab in Ht. lia.
  - intros v f Hv. rewrite demo_translate by done. case_decide; [|done]. intros [= <-].
    split; [intros ?%Hfree; lia|intros ?%Htab; lia].
  - intros v v' f Hv Hv'. rewrite !demo_translate by done. repeat case_decide; congruence.
  - done.
  - intros []; by apply Hva.
  - intros pf j Hj _. left. rewrite demo_translate; [|destruct pf; (apply va_page_ok; [by apply Hva|done])].
    rewrite decide_False; [done|].
    destruct pf; unfold va_page, va_bits, bm_bits in *; simpl in *; lia.
  - done.
Qed.

(** [malloc_page] maps [n] consecutive virtual pages that were free to [n]
    distinct frames that were free in the pool, changes the mapping of no other
    page and keeps the invariant of the allocator.  It returns NULL exactly when
    the virtual pool has free pages but no run of [n] of them, and stops the
    kernel only when the virtual pool is full, ends above the user stack, or
    the frame pools do not surely suffice. *)
Theorem malloc_page_allocates (pf : pool_flags) (n : Z) (m : mem) :
  heap_ok m -> 1 <= n < 3840 ->
  let va := va_of pf m in
  (exists v m', malloc_page pf n m = Ok (v, m') /\ v <> 0 /\ allocated pf n m m' v)
  \/ (malloc_page pf n m = Ok (0, m)
      /\ forall s, 0 <= s -> s + n <= va_bits va + 1 -> exists j, s <= j < s + n /\ va_used va j = true)
  \/ (malloc_page pf n m = Bad EPanic
      /\ ((forall j, 0 <= j < va_bits va -> va_used va j = true)
          \/ (pf = PF_USER /\ 0xc0000000 - 4096 <= va_page va (va_bits va))
          \/ ~ enough n pf m)).
Proof. apply malloc_page_spec. Qed.

Lemma malloc_page_allocates_witness :
  exists v m', malloc_page PF_KERNEL 3 demo_mem = Ok (v, m') /\ v <> 0
    /\ allocated PF_KERNEL 3 demo_mem m' v.
Proof.
  destruct (malloc_page_allocates PF_KERNEL 3 demo_mem demo_heap_ok) as [H|[[_ Hno]|[_ Hwhy]]];
    [lia|exact H| |].
  - exfalso. destruct (Hno 0) as (j & Hj & Hu); [lia|vm_compute; done|].
    assert (j = 0 \/ j = 1 \/ j = 2) as [-> |[-> | ->]] by lia; by vm_compute in Hu.
  - exfalso. destruct Hwhy as [Hall|[[? _]|Hen]]; [|done|].
    + specialize (Hall 0). by vm_compute in Hall; assert (true = false) by (symmetry; by apply Hall).
    + apply Hen. vm_compute. done.
Defined.

(** C2: [mfree_page] of the pages that [malloc_page] returned succeeds; it
    unmaps them, so that every page is mapped as before the allocation, clears
    exactly the bits of the virtual pool that were set, makes the frames free
    again and keeps the invariant of the allocator. *)
Theorem malloc_mfree_roundtrip (pf : pool_flags) (n v : Z) (m m1 : mem) :
  heap_ok m -> 1 <= n < 3840 -> malloc_page pf n m = Ok (v, m1) -> v <> 0 ->
  exists m2, mfree_page pf v n m1 = Ok (tt, m2) /\ heap_ok m2
    /\ (forall w, page w -> translate m2 w = translate m w)
    /\ (forall j, 0 <= j -> va_used (va_of pf m2) j = va_used (va_of pf m) j)
    /\ (forall i f, 0 <= i < n -> translate m1 (v + 4096 * i) = Some f -> free_frame m2 f).
Proof.
  intros Hh Hn Hmal Hv.
  destruct (malloc_page_spec pf n m Hh Hn) as [(v' & m' & Heq & _ & Hal)|[[Heq _]|[Heq _]]];
    [|congruence|congruence].
  assert (v' = v /\ m' = m1) as [-> ->] by (by simplify_eq/=; rewrite Heq in Hmal; simplify_eq).
  destruct Hal as [Hpg Hdis Ho Hok Hk Hu (r & Hvr & H0 & H1 & Hcl & Hst & Hbi & Hus) _ Hcr].
  assert (forall j, va_page (va_of pf m1) j = va_page (va_of pf m) j) as Hvp
    by (intros j; unfold va_page; by rewrite Hst).
  assert (forall i, va_page (va_of pf m1) (r + i) = v + 4096 * i) as Hvi
    by (intros i; rewrite Hvp, Hvr; unfold va_page; lia).
  destruct (mfree_page_spec pf n m1 r Hok) as (m2 & Hfree & [Hgone Ho2 Hfr Hok2 (_ & _ & Hus2) _ _ _]);
    [lia|done|by rewrite Hbi| |].
  { intros i Hi. rewrite Hvi. destruct (Hpg i Hi) as (_ & _ & f & Hf & Hfree & _).
    exists f. split; [done|]. split; [|rewrite Hcr; intros ->; apply (so_fresh _ (ho_space _ Hh) (cr3 m)); [by exists pf|by left]].
    destruct Hfree as (k & Hk2 & _ & Hfk). exists k. destruct Hk as (Hk1 & Hk3 & _), Hu as (Hu1 & Hu3 & _).
    unfold pool_frame in *. by destruct pf; simpl in *; rewrite ?Hk1, ?Hk3, ?Hu1, ?Hu3. }
  rewrite Hvp, <- Hvr in Hfree. exists m2. split_and!; [done|done| | |].
  - intros w Hw. destruct (decide (v <= w < v + 4096 * n)) as [Hin|Hout].
    + assert (w = v + 4096 * ((w - v) / 4096)) as Hw2.
      { destruct (Hpg 0) as [[_ Hal] _]; [lia|]. destruct Hw as [_ Hw]. lia. }
      assert (0 <= (w - v) / 4096 < n) as Hi by lia. destruct (Hpg _ Hi) as (_ & Hnone & _).
      rewrite Hw2, Hnone, <- Hvi. by apply Hgone.
    + rewrite Ho2, Ho; [done|done|done|done|]. rewrite Hvi, Hvp, <- Hvr. done.
  - intros j Hj. rewrite Hus2, Hus by done. case_decide; [|done]. symmetry. by apply Hcl.
  - intros i f Hi Hf. apply Hfr. right. exists i. by rewrite Hvi.
Qed.

Lemma malloc_mfree_roundtrip_witness :
  match malloc_page PF_USER 2 demo_mem with
  | Ok (v, m1) => exists m2, mfree_page PF_USER v 2 m1 = Ok (tt, m2) /\ heap_ok m2
  | Bad _ => False
  end.
Proof.
  assert (match malloc_page PF_USER 2 demo_mem with Ok (v, _) => negb (v =? 0) | Bad _ => false end = true)
    as Hok by (vm_compute; reflexivity).
  destruct (malloc_page PF_USER 2 demo_mem) as [[v m1]|e] eqn:E; [|discriminate Hok].
  destruct (malloc_mfree_roundtrip PF_USER 2 v demo_mem m1) as (m2 & ? & ? & _).
  - apply demo_heap_ok.
  - lia.
  - exact E.
  - lia.
  - exists m2. split; assumption.
Defined.

(** [mem_pool_init] divides the whole frames above 2 MiB, counted modulo
    2^16 because the counters are 16 bits wide, between a kernel pool and a user
    pool behind it; both start with every frame free and the kernel's virtual
    pool has a page for each kernel frame. *)
Theorem mem_pool_init_pools (all_mem : Z) (region : list Z) (m : mem) :
  0x200000 <= all_mem < 2 ^ 32 -> Forall is_byte region -> 12289 <= Z.of_nat (length region) ->
  let pages := ((all_mem - 0x200000) / 4096) mod 65536 in
  exists m', mem_pool_init all_mem region m = Ok (tt, m')
    /\ phy_addr_start (kernel_pool m') = 0x200000
    /\ phy_addr_start (user_pool m') = 0x200000 + pages / 2 * 4096
    /\ pool_cap (kernel_pool m') = pages / 2 / 8 * 8
    /\ pool_cap (user_pool m') = (pages - pages / 2) / 8 * 8
    /\ (forall pf, pool_ok (pool_of pf m')
          /\ forall j, 0 <= j < pool_cap (pool_of pf m') -> pool_used (pool_of pf m') j = false)
    /\ va_ok (kernel_vaddr m') /\ vaddr_start (kernel_vaddr m') = K_HEAP_START
    /\ (forall j, 0 <= j < va_bits (kernel_vaddr m') -> va_used (kernel_vaddr m') j = false)
    /\ cur_vaddr m' = cur_vaddr m /\ phys m' = phys m /\ cr3 m' = cr3 m.
Proof. apply mem_pool_init_spec. Qed.

(** With 512 MiB the pools together have 65024 frames, 254 MiB. *)
Lemma mem_pool_init_pools_witness :
  exists m', mem_pool_init 0x20000000 (replicate 13000 0) demo_mem = Ok (tt, m')
    /\ pool_cap (kernel_pool m') + pool_cap (user_pool m') = 65024.
Proof.
  destruct (mem_pool_init_pools 0x20000000 (replicate 13000 0) demo_mem)
    as (m' & H & _ & _ & Hk & Hu & _).
  - lia.
  - apply Forall_replicate. unfold is_byte. lia.
  - rewrite length_replicate. vm_compute. done.
  - exists m'. split; [done|]. rewrite Hk, Hu. done.
Defined.
