(* ===== verification/Memory.v ===== *)
(** * Memory: writing to mapped pages

    Stores to pages that the allocator has mapped reach memory outside the page
    directory and the page tables, so that no translation changes and the
    invariant of the allocator is kept; [memset] of whole pages is such a
    sequence of stores. *)
From S2P Require Import Prelude Bitmap Paging Pages.

(** [m'] is [m] with other words outside the directory and the tables. *)
Record same_tables (m m' : mem) : Prop := {
  sm_cr3 : cr3 m' = cr3 m;
  sm_kpool : kernel_pool m' = kernel_pool m;
  sm_upool : user_pool m' = user_pool m;
  sm_kva : kernel_vaddr m' = kernel_vaddr m;
  sm_uva : cur_vaddr m' = cur_vaddr m;
  sm_words : forall g i, table_frame m g -> 0 <= i < 1024 -> word (phys m') (g + 4 * i) = word (phys m) (g + 4 * i)
}.

Lemma same_dir m m' i : same_tables m m' -> 0 <= i < 1024 -> dir_entry_at m' i = dir_entry_at m i.
Proof. intros [Hc _ _ _ _ Hw] Hi. unfold dir_entry_at. rewrite Hc. apply Hw; [by left|done]. Qed.

Lemma same_translate m m' v : same_tables m m' -> 0 <= v < 2 ^ 32 -> translate m' v = translate m v.
Proof.
  intros Hs Hv. pose proof (PDE_IDX_range v Hv) as Hd. pose proof (PTE_IDX_range v) as Ht.
  assert (pde_of m' v = pde_of m v) as Hp by exact (same_dir m m' _ Hs Hd).
  unfold translate. rewrite Hp. destruct (present (pde_of m v)) eqn:Hpr; [|done].
  assert (pte_of m' v = pte_of m v) as ->; [|done].
  unfold pte_of. rewrite Hp. apply (sm_words _ _ Hs); [|done]. right. exists (PDE_IDX v). done.
Qed.

Lemma same_table_frame m m' g : same_tables m m' -> table_frame m' g <-> table_frame m g.
Proof.
  intros Hs. unfold table_frame. rewrite (sm_cr3 _ _ Hs).
  split; (intros [->|(i & Hi & Hp & ->)]; [by left|right; exists i]).
  - by rewrite <- (same_dir m m').
  - by rewrite !(same_dir m m').
Qed.

#[export] Instance same_tables_preorder : PreOrder same_tables.
Proof.
  split; [done|]. intros m1 m2 m3 H12 H23. pose proof H12 as [? ? ? ? ? Hw]. pose proof H23 as [? ? ? ? ? Hw'].
  constructor; try congruence. intros g i Hg Hi. rewrite Hw', Hw by (by rewrite ?(same_table_frame m1 m2)). done.
Qed.

Lemma same_free m m' f : same_tables m m' -> free_frame m' f <-> free_frame m f.
Proof. intros [_ Hk Hu _ _ _]. rewrite !free_split. by rewrite Hk, Hu. Qed.

Lemma same_page m m' v : same_tables m m' -> page v -> translate m' v = translate m v.
Proof. intros Hs Hv. pose proof (page_range v Hv). unfold window in *. apply same_translate; [done|lia]. Qed.

Lemma space_ok_same m m' : space_ok m -> same_tables m m' -> space_ok m'.
Proof.
  intros [[(Hsa & Hsp1 & Hsf) Hpp Htb Hds Hfr] Hup Hdj Hfresh Hmap Hinj] Hs. pose proof Hs as [Hc Hk Hu Hkv Huv Hw].
  constructor; rewrite ?Hk, ?Hu; try done.
  - constructor; rewrite ?Hk; try done.
    + split; [by rewrite Hc|]. pose proof (same_dir m m' 1023 Hs ltac:(lia)) as He. unfold dir_entry_at in He. by rewrite He, Hc.
    + intros i Hi. rewrite (same_dir m m'), Hc by (done || lia). apply Htb. done.
    + intros i j Hi Hj. rewrite !(same_dir m m') by (done || lia). by apply Hds.
    + intros k Hk1 Hk2. rewrite Hc. destruct (Hfr k Hk1 Hk2) as [Hf1 Hf2]. split; [done|].
      intros i Hi. rewrite (same_dir m m') by done. by apply Hf2.
  - intros f. rewrite (same_free m m'), (same_table_frame m m') by done. apply Hfresh.
  - intros v f Hv. rewrite (same_page m m'), (same_free m m'), (same_table_frame m m'), Hc, Hkv by done. by apply Hmap.
  - intros v v' f Hv Hv'. rewrite !(same_page m m') by done. by apply Hinj.
Qed.

(** [m'] is [m] with other words outside the directory and the tables, and some
    free frames taken. *)
Record beside (m m' : mem) : Prop := {
  bs_cr3 : cr3 m' = cr3 m;
  bs_kva : kernel_vaddr m' = kernel_vaddr m;
  bs_uva : cur_vaddr m' = cur_vaddr m;
  bs_words : forall g i, table_frame m g -> 0 <= i < 1024 -> word (phys m') (g + 4 * i) = word (phys m) (g + 4 * i);
  bs_kernel : shrinks (kernel_pool m) (kernel_pool m') /\ pool_ok (kernel_pool m');
  bs_user : shrinks (user_pool m) (user_pool m') /\ pool_ok (user_pool m')
}.

(** The first half of such a change. *)
Lemma beside_same m m' : beside m m' -> same_tables m (with_phys m (phys m')).
Proof. intros [Hc Hkv Huv Hw _ _]. by constructor. Qed.

Lemma beside_phys m m' v : beside m m' -> translate m' v = translate (with_phys m (phys m')) v.
Proof. intros Hb. unfold translate, pte_of, pde_of. by rewrite (bs_cr3 _ _ Hb). Qed.

Lemma beside_page m m' v : beside m m' -> page v -> translate m' v = translate m v.
Proof. intros Hb Hv. rewrite (beside_phys m m' v Hb). apply same_page; [by apply beside_same|done]. Qed.

Lemma beside_dir m m' i : beside m m' -> 0 <= i < 1024 -> dir_entry_at m' i = dir_entry_at m i.
Proof. intros Hb Hi. unfold dir_entry_at. rewrite (bs_cr3 _ _ Hb). apply (bs_words _ _ Hb); [by left|done]. Qed.

Lemma beside_table m m' g : beside m m' -> table_frame m' g <-> table_frame m g.
Proof.
  intros Hb. unfold table_frame. rewrite (bs_cr3 _ _ Hb).
  split; (intros [->|(i & Hi & Hp & ->)]; [by left|right; exists i]).
  - by rewrite <- (beside_dir m m').
  - by rewrite !(beside_dir m m').
Qed.

Lemma beside_free m m' f : beside m m' -> free_frame m' f -> free_frame m f.
Proof.
  intros [_ _ _ _ [Hk _] [Hu _]]. rewrite !free_split. intros [H|H]; [left; by apply (shrinks_free _ _ f Hk)|right; by apply (shrinks_free _ _ f Hu)].
Qed.

#[export] Instance beside_transitive : Transitive beside.
Proof.
  intros m1 m2 m3 H12 H23. pose proof H12 as [? ? ? Hw [Hk _] [Hu _]]. pose proof H23 as [? ? ? Hw' [Hk' Hko] [Hu' Huo]].
  constructor; try congruence; [|split; [by etrans|done]..].
  intros g i Hg Hi. rewrite Hw', Hw; [done|done|done| |done]. by apply (beside_table m1 m2).
Qed.

Lemma space_ok_beside m m' : space_ok m -> beside m m' -> space_ok m'.
Proof.
  intros Hs Hb. pose proof (space_ok_same _ _ Hs (beside_same m m' Hb)) as Hs1. pose proof Hb as [Hc Hkv Huv _ [Hk Hko] [Hu Huo]].
  apply (space_ok_fewer (with_phys m (phys m'))); try done.
  - cbn. by rewrite Hkv.
  - pose proof (so_disjoint _ Hs) as Hd. destruct Hk as (Hk1 & Hk2 & _), Hu as (Hu1 & _ & _). unfold pool_frame in *. by rewrite Hk1, Hk2, Hu1.
  - intros f Hf. by apply (beside_free m m').
Qed.

Lemma heap_ok_beside m m' : heap_ok m -> beside m m' -> heap_ok m'.
Proof.
  intros [Hsp Hlow Hva Hfree Hap] Hb. pose proof Hb as [_ Hkv Huv _ [(Hk & _) _] _].
  assert (forall pf, va_of pf m' = va_of pf m) as Hvas by (intros []; done).
  constructor; [by apply (space_ok_beside m)|by rewrite Hk|intros pf; rewrite Hvas; apply Hva| |by rewrite Huv, Hkv].
  intros pf j. rewrite Hvas. intros Hj Hf. rewrite (beside_page m m') by (done || by apply va_page_ok). by apply Hfree.
Qed.

Lemma same_beside m m' : space_ok m -> same_tables m m' -> beside m m'.
Proof. intros Hs [Hc Hk Hu Hkv Huv Hw]. constructor; try done; [rewrite Hk|rewrite Hu]; split; (reflexivity || apply Hs). Qed.

Lemma heap_ok_same m m' : heap_ok m -> same_tables m m' -> heap_ok m'.
Proof. intros Hh Hs. apply (heap_ok_beside m); [done|]. apply same_beside; [apply Hh|done]. Qed.

(** A page and an offset in it. *)
Lemma translate_offset m v off :
  page v -> 0 <= off < 4096 -> translate m (v + off) = (fun f => f + off) <$> translate m v.
Proof.
  intros Hv Hoff. pose proof (page_range v Hv) as Hr. unfold window in Hr. destruct Hv as [_ Ha].
  unfold translate, pte_of, pde_of. rewrite !PDE_IDX_eq, !PTE_IDX_eq, !offset_eq by lia.
  assert ((v + off) / 2 ^ 22 = v / 2 ^ 22) as -> by lia. assert ((v + off) / 4096 = v / 4096) as -> by lia.
  rewrite Ha. replace ((v + off) mod 4096) with off by lia. destruct (_ && _); [|done]. cbn. f_equal. lia.
Qed.

Lemma page_frame_aligned m v f : page v -> translate m v = Some f -> aligned f.
Proof.
  intros [_ Ha] Hf. unfold translate in Hf. destruct (_ && _); [|done]. injection Hf as <-.
  rewrite offset_eq, Ha, Z.add_0_r. apply aligned_frame.
Qed.

Lemma table_frame_aligned m g : space_ok m -> table_frame m g -> aligned g.
Proof. intros Hs [->|(j & Hj & _ & ->)]; [apply (pt_self _ (so_pt _ Hs))|apply aligned_frame]. Qed.

(** A store of a word into a mapped page. *)
Lemma store_page_run m v off f x :
  heap_ok m -> page v -> translate m v = Some f -> f <> cr3 m -> 0 <= off < 4096 ->
  store32 (v + off) x m = Ok (tt, with_phys m (<[f + off := x]> (phys m)))
  /\ same_tables m (with_phys m (<[f + off := x]> (phys m))).
Proof.
  intros Hh Hv Hf Hcr Hoff. unfold store32. rewrite translate_offset, Hf by done. cbn. split; [done|].
  constructor; try done. intros g i Hg Hi. cbn [phys with_phys]. rewrite word_insert, decide_False; [done|]. intros He.
  pose proof (ho_space _ Hh) as Hs. destruct (so_mapped _ Hs v f Hv Hf) as [_ Hnt]. apply Hcr, Hnt.
  pose proof (page_frame_aligned m v f Hv Hf) as [Hfr Hfa]. pose proof (table_frame_aligned m g Hs Hg) as [Hgr Hga].
  assert (f = g) as -> by lia. done.
Qed.

(** An address in a mapped page that is not the page directory in use. *)
Definition mapped_addr (m : mem) (v : Z) : Prop :=
  exists p f, page p /\ p <= v < p + 4096 /\ translate m p = Some f /\ f <> cr3 m.

Lemma mapped_addr_range m v : mapped_addr m v -> 0 <= v < 2 ^ 32.
Proof. intros (p & f & Hp & Hv & _). pose proof (page_range p Hp) as Hr. destruct Hp as [_ Ha]. unfold window in *. lia. Qed.

Lemma mapped_addr_translate m v : mapped_addr m v -> is_Some (translate m v).
Proof.
  intros (p & f & Hp & Hv & Hf & _). replace v with (p + (v - p)) by lia. rewrite translate_offset, Hf by (done || lia). by eexists.
Qed.

Lemma mapped_addr_same m m' v : same_tables m m' -> mapped_addr m v -> mapped_addr m' v.
Proof.
  intros Hs (p & f & Hp & Hv & Hf). exists p, f. pose proof (page_range p Hp). unfold window in *.
  rewrite (same_translate m m'), (sm_cr3 _ _ Hs) by (done || lia). done.
Qed.

Lemma store_run m v x :
  heap_ok m -> mapped_addr m v ->
  exists a, translate m v = Some a /\ store32 v x m = Ok (tt, with_phys m (<[a := x]> (phys m)))
    /\ same_tables m (with_phys m (<[a := x]> (phys m))).
Proof.
  intros Hh (p & f & Hp & Hv & Hf & Hcr). exists (f + (v - p)).
  destruct (store_page_run m p (v - p) f x Hh Hp Hf Hcr ltac:(lia)) as [Hst Hs]. replace (p + (v - p)) with v in Hst by lia.
  split; [|done]. replace v with (p + (v - p)) at 1 by lia. by rewrite translate_offset, Hf by (done || lia).
Qed.

Lemma memset0_run n v m :
  heap_ok m -> (forall j, 0 <= j < Z.of_nat n -> mapped_addr m (v + 4 * j)) ->
  exists ph, memset0 n v m = Ok (tt, with_phys m ph) /\ same_tables m (with_phys m ph)
    /\ (forall j a, 0 <= j < Z.of_nat n -> translate m (v + 4 * j) = Some a -> word ph a = 0)
    /\ (forall a, word ph a = 0 \/ word ph a = word (phys m) a)
    /\ (forall a, (forall j, 0 <= j < Z.of_nat n -> translate m (v + 4 * j) <> Some a) -> word ph a = word (phys m) a).
Proof.
  revert v m. induction n as [|n IH]; intros v m Hh Hm.
  { exists (phys m). split; [by destruct m|]. split; [by destruct m|]. split; [lia|]. split; [by right|done]. }
  pose proof (Hm 0 ltac:(lia)) as H0. replace (v + 4 * 0) with v in H0 by lia.
  destruct (store_run m v 0 Hh H0) as (a0 & Ha0 & Hst & Hs). set (m1 := with_phys m _) in *.
  assert (forall j, 0 <= j < Z.of_nat n -> translate m1 (v + 4 + 4 * j) = translate m (v + 4 * (j + 1))) as Htr.
  { intros j Hj. replace (v + 4 + 4 * j) with (v + 4 * (j + 1)) by lia. apply same_translate; [done|].
    apply (mapped_addr_range m), Hm. lia. }
  destruct (IH (v + 4) m1) as (ph & Hrun & Hs2 & Hz & Hor & Ho); [by apply (heap_ok_same m)| |].
  { intros j Hj. apply (mapped_addr_same m); [done|]. replace (v + 4 + 4 * j) with (v + 4 * (j + 1)) by lia. apply Hm. lia. }
  exists ph. cbn [memset0]. run Hst. split; [exact Hrun|]. split; [by transitivity m1|]. split; [|split].
  - intros j a Hj Ha. destruct (decide (j = 0)) as [->|Hne].
    + replace (v + 4 * 0) with v in Ha by lia. assert (a = a0) as -> by congruence.
      destruct (Hor a0) as [?|E]; [done|]. rewrite E. cbn [m1 phys with_phys]. by rewrite word_insert, decide_True.
    + apply (Hz (j - 1)); [lia|]. rewrite Htr by lia. by replace (j - 1 + 1) with j by lia.
  - intros a. destruct (Hor a) as [?|E]; [by left|]. rewrite E. cbn [m1 phys with_phys]. rewrite word_insert. case_decide; [by left|by right].
  - intros a Ha. rewrite Ho.
    + cbn [m1 phys with_phys]. rewrite word_insert, decide_False; [done|]. intros ->. apply (Ha 0 ltac:(lia)).
      by replace (v + 4 * 0) with v by lia.
    + intros j Hj. rewrite Htr by done. apply Ha. lia.
Qed.

(** ** Pages that are not the page directory in use *)

Lemma low_page_frame m v f :
  heap_ok m -> page v -> v < vaddr_start (kernel_vaddr m) -> translate m v = Some f -> f <> cr3 m.
Proof.
  intros Hh Hv Hlt Hf ->. destruct (so_mapped _ (ho_space _ Hh) v _ Hv Hf) as [_ Hn].
  destruct (Hn ltac:(by left)) as [_ Hle]. lia.
Qed.

Lemma allocated_frame pf n m m' v i f :
  space_ok m -> allocated pf n m m' v -> 0 <= i < n -> translate m' (v + 4096 * i) = Some f ->
  free_in (pool_of pf m) f /\ f <> cr3 m'.
Proof.
  intros Hs Ha Hi Hf. destruct (al_pages _ _ _ _ _ Ha i Hi) as (_ & _ & g & Hg & Hfree & _).
  assert (g = f) as -> by congruence. split; [done|]. rewrite (al_cr3 _ _ _ _ _ Ha).
  intros ->. apply (so_fresh _ Hs (cr3 m)); [by exists pf|by left].
Qed.
