(* ===== verification/Kernel.v ===== *)
(** * Kernel: the global state of the kernel

    One record holds the processor state the kernel code reads and writes, the
    process control blocks and the globals of the components: thread/thread.c,
    thread/sync.c, device/timer.c, device/ioqueue.c, kernel/memory.c and
    userprog/tss.c.  A pcb, semaphore, lock or queue is named by its address.

    The lists of the scheduler are given by their sequences of elements
    ([Module SeqList] of DList, which shows that the pointer operations of
    lib/kernel/list.c implement these sequences); an element
    [&pcb->general_tag] or [&pcb->all_list_tag] is named by the pcb's address. *)
From S2P Require Import Prelude Bitmap Interrupt DList Paging.

(** ** Data *)

Inductive task_status : Type :=
| TASK_RUNNING
| TASK_READY
| TASK_BLOCKED
| TASK_WAITING
| TASK_HANGING
| TASK_DIED.

#[export] Instance task_status_eq_dec : EqDecision task_status.
Proof. solve_decision. Defined.

(** struct mem_block_desc of kernel/memory.h; a block is named by its address. *)
Record mem_block_desc : Type := MemBlockDesc {
  block_size : Z;
  blocks_per_arena : Z;
  free_list : list Z
}.

(** struct arena of kernel/memory.c, the header of a page of blocks.  [desc] is
    the pointer to a descriptor: the pcb whose array [u_block_desc] it points
    into (0 for the kernel's array) and the index there; [None] is NULL. *)
Record arena : Type := Arena {
  desc : option (Z * Z);
  cnt : Z;
  large : bool
}.

(** struct task_struct of thread/thread.h, without its list nodes.  [vaddr_bits]
    is the pointer [userprog_vaddr.vaddr_bitmap.bits]; the bytes there are in
    [userprog_vaddr]. *)
Record task_struct : Type := TaskStruct {
  self_kstack : Z;
  pid : Z;
  status : task_status;
  name : list Z;
  priority : Z;
  ticks : Z;
  elapsed_ticks : Z;
  pgdir : Z;
  userprog_vaddr : virtual_addr;
  vaddr_bits : Z;
  u_block_desc : list mem_block_desc;
  fd_table : list Z;
  cwd_inode_nr : Z;
  parent_pid : Z;
  exit_status : Z;
  stack_magic : Z
}.

(** struct semaphore and struct lock of thread/sync.h; the semaphore of the lock
    at [l] is the one at address [l + 4]. *)
Record semaphore : Type := Semaphore {
  value : Z;
  waiters : list Z
}.

Record lock : Type := Lock {
  holder : Z;
  holder_repeat_nr : Z
}.

Definition lock_sema (plock : Z) : Z := plock + 4.

(** struct ioqueue of device/ioqueue.h; its lock is at the queue's address. *)
Record ioqueue : Type := Ioqueue {
  producer : Z;
  consumer : Z;
  buf : list Z;
  head : Z;
  tail : Z
}.

Record kernel : Type := Kernel {
  eflags : Z;
  running : Z;
  tasks : gmap Z task_struct;
  thread_ready_list : list Z;
  thread_all_list : list Z;
  main_thread : Z;
  idle_thread : Z;
  pid_bitmap : bitmap;
  semas : gmap Z semaphore;
  locks : gmap Z lock;
  kmem : mem;
  esp0 : Z;
  ticks_total : Z;
  ioqueues : gmap Z ioqueue;
  k_block_descs : list mem_block_desc;
  arenas : gmap Z arena
}.

(** ** Field updates *)

Definition set_self_kstack (x : Z) (t : task_struct) : task_struct :=
  TaskStruct x (pid t) (status t) (name t) (priority t) (ticks t) (elapsed_ticks t) (pgdir t) (userprog_vaddr t) (vaddr_bits t) (u_block_desc t) (fd_table t) (cwd_inode_nr t) (parent_pid t) (exit_status t) (stack_magic t).

Definition set_pid (x : Z) (t : task_struct) : task_struct :=
  TaskStruct (self_kstack t) x (status t) (name t) (priority t) (ticks t) (elapsed_ticks t) (pgdir t) (userprog_vaddr t) (vaddr_bits t) (u_block_desc t) (fd_table t) (cwd_inode_nr t) (parent_pid t) (exit_status t) (stack_magic t).

Definition set_status (x : task_status) (t : task_struct) : task_struct :=
  TaskStruct (self_kstack t) (pid t) x (name t) (priority t) (ticks t) (elapsed_ticks t) (pgdir t) (userprog_vaddr t) (vaddr_bits t) (u_block_desc t) (fd_table t) (cwd_inode_nr t) (parent_pid t) (exit_status t) (stack_magic t).

Definition set_ticks (x : Z) (t : task_struct) : task_struct :=
  TaskStruct (self_kstack t) (pid t) (status t) (name t) (priority t) x (elapsed_ticks t) (pgdir t) (userprog_vaddr t) (vaddr_bits t) (u_block_desc t) (fd_table t) (cwd_inode_nr t) (parent_pid t) (exit_status t) (stack_magic t).

Definition set_elapsed_ticks (x : Z) (t : task_struct) : task_struct :=
  TaskStruct (self_kstack t) (pid t) (status t) (name t) (priority t) (ticks t) x (pgdir t) (userprog_vaddr t) (vaddr_bits t) (u_block_desc t) (fd_table t) (cwd_inode_nr t) (parent_pid t) (exit_status t) (stack_magic t).

Definition set_pgdir (x : Z) (t : task_struct) : task_struct :=
  TaskStruct (self_kstack t) (pid t) (status t) (name t) (priority t) (ticks t) (elapsed_ticks t) x (userprog_vaddr t) (vaddr_bits t) (u_block_desc t) (fd_table t) (cwd_inode_nr t) (parent_pid t) (exit_status t) (stack_magic t).

Definition set_userprog_vaddr (x : virtual_addr) (t : task_struct) : task_struct :=
  TaskStruct (self_kstack t) (pid t) (status t) (name t) (priority t) (ticks t) (elapsed_ticks t) (pgdir t) x (vaddr_bits t) (u_block_desc t) (fd_table t) (cwd_inode_nr t) (parent_pid t) (exit_status t) (stack_magic t).

Definition set_vaddr_bits (x : Z) (t : task_struct) : task_struct :=
  TaskStruct (self_kstack t) (pid t) (status t) (name t) (priority t) (ticks t) (elapsed_ticks t) (pgdir t) (userprog_vaddr t) x (u_block_desc t) (fd_table t) (cwd_inode_nr t) (parent_pid t) (exit_status t) (stack_magic t).

Definition set_u_block_desc (x : list mem_block_desc) (t : task_struct) : task_struct :=
  TaskStruct (self_kstack t) (pid t) (status t) (name t) (priority t) (ticks t) (elapsed_ticks t) (pgdir t) (userprog_vaddr t) (vaddr_bits t) x (fd_table t) (cwd_inode_nr t) (parent_pid t) (exit_status t) (stack_magic t).

Definition set_fd_table (x : list Z) (t : task_struct) : task_struct :=
  TaskStruct (self_kstack t) (pid t) (status t) (name t) (priority t) (ticks t) (elapsed_ticks t) (pgdir t) (userprog_vaddr t) (vaddr_bits t) (u_block_desc t) x (cwd_inode_nr t) (parent_pid t) (exit_status t) (stack_magic t).

Definition set_cwd_inode_nr (x : Z) (t : task_struct) : task_struct :=
  TaskStruct (self_kstack t) (pid t) (status t) (name t) (priority t) (ticks t) (elapsed_ticks t) (pgdir t) (userprog_vaddr t) (vaddr_bits t) (u_block_desc t) (fd_table t) x (parent_pid t) (exit_status t) (stack_magic t).

Definition set_name (x : list Z) (t : task_struct) : task_struct :=
  TaskStruct (self_kstack t) (pid t) (status t) x (priority t) (ticks t) (elapsed_ticks t) (pgdir t) (userprog_vaddr t) (vaddr_bits t) (u_block_desc t) (fd_table t) (cwd_inode_nr t) (parent_pid t) (exit_status t) (stack_magic t).

Definition set_parent_pid (x : Z) (t : task_struct) : task_struct :=
  TaskStruct (self_kstack t) (pid t) (status t) (name t) (priority t) (ticks t) (elapsed_ticks t) (pgdir t) (userprog_vaddr t) (vaddr_bits t) (u_block_desc t) (fd_table t) (cwd_inode_nr t) x (exit_status t) (stack_magic t).

Definition set_exit_status (x : Z) (t : task_struct) : task_struct :=
  TaskStruct (self_kstack t) (pid t) (status t) (name t) (priority t) (ticks t) (elapsed_ticks t) (pgdir t) (userprog_vaddr t) (vaddr_bits t) (u_block_desc t) (fd_table t) (cwd_inode_nr t) (parent_pid t) x (stack_magic t).

Definition set_eflags (x : Z) (k : kernel) : kernel :=
  Kernel x (running k) (tasks k) (thread_ready_list k) (thread_all_list k) (main_thread k) (idle_thread k) (pid_bitmap k) (semas k) (locks k) (kmem k) (esp0 k) (ticks_total k) (ioqueues k) (k_block_descs k) (arenas k).

Definition set_running (x : Z) (k : kernel) : kernel :=
  Kernel (eflags k) x (tasks k) (thread_ready_list k) (thread_all_list k) (main_thread k) (idle_thread k) (pid_bitmap k) (semas k) (locks k) (kmem k) (esp0 k) (ticks_total k) (ioqueues k) (k_block_descs k) (arenas k).

Definition set_tasks (x : gmap Z task_struct) (k : kernel) : kernel :=
  Kernel (eflags k) (running k) x (thread_ready_list k) (thread_all_list k) (main_thread k) (idle_thread k) (pid_bitmap k) (semas k) (locks k) (kmem k) (esp0 k) (ticks_total k) (ioqueues k) (k_block_descs k) (arenas k).

Definition set_thread_ready_list (x : list Z) (k : kernel) : kernel :=
  Kernel (eflags k) (running k) (tasks k) x (thread_all_list k) (main_thread k) (idle_thread k) (pid_bitmap k) (semas k) (locks k) (kmem k) (esp0 k) (ticks_total k) (ioqueues k) (k_block_descs k) (arenas k).

Definition set_thread_all_list (x : list Z) (k : kernel) : kernel :=
  Kernel (eflags k) (running k) (tasks k) (thread_ready_list k) x (main_thread k) (idle_thread k) (pid_bitmap k) (semas k) (locks k) (kmem k) (esp0 k) (ticks_total k) (ioqueues k) (k_block_descs k) (arenas k).

Definition set_main_thread (x : Z) (k : kernel) : kernel :=
  Kernel (eflags k) (running k) (tasks k) (thread_ready_list k) (thread_all_list k) x (idle_thread k) (pid_bitmap k) (semas k) (locks k) (kmem k) (esp0 k) (ticks_total k) (ioqueues k) (k_block_descs k) (arenas k).

Definition set_idle_thread (x : Z) (k : kernel) : kernel :=
  Kernel (eflags k) (running k) (tasks k) (thread_ready_list k) (thread_all_list k) (main_thread k) x (pid_bitmap k) (semas k) (locks k) (kmem k) (esp0 k) (ticks_total k) (ioqueues k) (k_block_descs k) (arenas k).

Definition set_pid_bitmap (x : bitmap) (k : kernel) : kernel :=
  Kernel (eflags k) (running k) (tasks k) (thread_ready_list k) (thread_all_list k) (main_thread k) (idle_thread k) x (semas k) (locks k) (kmem k) (esp0 k) (ticks_total k) (ioqueues k) (k_block_descs k) (arenas k).

Definition set_semas (x : gmap Z semaphore) (k : kernel) : kernel :=
  Kernel (eflags k) (running k) (tasks k) (thread_ready_list k) (thread_all_list k) (main_thread k) (idle_thread k) (pid_bitmap k) x (locks k) (kmem k) (esp0 k) (ticks_total k) (ioqueues k) (k_block_descs k) (arenas k).

Definition set_locks (x : gmap Z lock) (k : kernel) : kernel :=
  Kernel (eflags k) (running k) (tasks k) (thread_ready_list k) (thread_all_list k) (main_thread k) (idle_thread k) (pid_bitmap k) (semas k) x (kmem k) (esp0 k) (ticks_total k) (ioqueues k) (k_block_descs k) (arenas k).

Definition set_kmem (x : mem) (k : kernel) : kernel :=
  Kernel (eflags k) (running k) (tasks k) (thread_ready_list k) (thread_all_list k) (main_thread k) (idle_thread k) (pid_bitmap k) (semas k) (locks k) x (esp0 k) (ticks_total k) (ioqueues k) (k_block_descs k) (arenas k).

Definition set_esp0 (x : Z) (k : kernel) : kernel :=
  Kernel (eflags k) (running k) (tasks k) (thread_ready_list k) (thread_all_list k) (main_thread k) (idle_thread k) (pid_bitmap k) (semas k) (locks k) (kmem k) x (ticks_total k) (ioqueues k) (k_block_descs k) (arenas k).

Definition set_ticks_total (x : Z) (k : kernel) : kernel :=
  Kernel (eflags k) (running k) (tasks k) (thread_ready_list k) (thread_all_list k) (main_thread k) (idle_thread k) (pid_bitmap k) (semas k) (locks k) (kmem k) (esp0 k) x (ioqueues k) (k_block_descs k) (arenas k).

Definition set_ioqueues (x : gmap Z ioqueue) (k : kernel) : kernel :=
  Kernel (eflags k) (running k) (tasks k) (thread_ready_list k) (thread_all_list k) (main_thread k) (idle_thread k) (pid_bitmap k) (semas k) (locks k) (kmem k) (esp0 k) (ticks_total k) x (k_block_descs k) (arenas k).

Definition set_k_block_descs (x : list mem_block_desc) (k : kernel) : kernel :=
  Kernel (eflags k) (running k) (tasks k) (thread_ready_list k) (thread_all_list k) (main_thread k) (idle_thread k) (pid_bitmap k) (semas k) (locks k) (kmem k) (esp0 k) (ticks_total k) (ioqueues k) x (arenas k).

Definition set_arenas (x : gmap Z arena) (k : kernel) : kernel :=
  Kernel (eflags k) (running k) (tasks k) (thread_ready_list k) (thread_all_list k) (main_thread k) (idle_thread k) (pid_bitmap k) (semas k) (locks k) (kmem k) (esp0 k) (ticks_total k) (ioqueues k) (k_block_descs k) x.

(** ** Accesses through a pointer *)

(** Reading and writing an object; an address where there is none faults. *)
Definition load {A} (field : kernel -> gmap Z A) (p : Z) : proc kernel A := fun k =>
  match field k !! p with Some a => Ret a k | None => Err EFault end.

Definition task (p : Z) : proc kernel task_struct := load tasks p.

(** [p->field = ...] on a pcb. *)
Definition update_task (p : Z) (f : task_struct -> task_struct) : proc kernel unit :=
  t ← task p; modify (fun k => set_tasks (<[p := f t]> (tasks k)) k).

(** ** Interrupts *)

Definition k_intr_disable : proc kernel intr_status := fun k =>
  Ret (intr_disable (eflags k)).1 (set_eflags (intr_disable (eflags k)).2 k).

Definition k_intr_set_status (status : intr_status) : proc kernel unit := fun k =>
  Ret tt (set_eflags (intr_set_status status (eflags k)).2 k).

(** ** Memory

    Code of the memory components, which runs on the page tables and on the
    virtual address pool of the running task (the field [cur_vaddr] of [kmem k]
    itself is not used). *)
Definition in_mem {A} (c : st mem A) : proc kernel A := fun k =>
  match tasks k !! running k with
  | None => Err EFault
  | Some t =>
    match c (with_cur_vaddr (kmem k) (userprog_vaddr t)) with
    | Bad e => Err e
    | Ok (a, m) =>
      Ret a (set_kmem (with_cur_vaddr m (cur_vaddr (kmem k)))
              (set_tasks (<[running k := set_userprog_vaddr (cur_vaddr m) t]> (tasks k)) k))
    end
  end.

(** A computation on memory that only reads leaves the kernel as it was. *)
Lemma in_mem_read {A} (c : st mem A) k t a :
  tasks k !! running k = Some t ->
  c (with_cur_vaddr (kmem k) (userprog_vaddr t)) = Ok (a, with_cur_vaddr (kmem k) (userprog_vaddr t)) ->
  in_mem c k = Ret a k.
Proof.
  intros Ht Hc. unfold in_mem. rewrite Ht, Hc. simpl. f_equal.
  destruct k as [? ? ts ? ? ? ? ? ? ? m ? ? ? ? ?], m; unfold set_kmem, set_tasks; simpl in *.
  f_equal. apply insert_id. rewrite Ht. by destruct t.
Qed.

(** Rewriting with one access at a time. *)
Lemma run_load {A} (field : kernel -> gmap Z A) k p a :
  field k !! p = Some a -> load field p k = Ret a k.
Proof. unfold load. by intros ->. Qed.

Lemma run_update k p f t :
  tasks k !! p = Some t -> update_task p f k = Ret tt (set_tasks (<[p := f t]> (tasks k)) k).
Proof. intros H. unfold update_task, task. by rewrite (bind_Ret _ _ _ _ _ (run_load _ _ _ _ H)). Qed.

Lemma bind_assert {B} (c : bool) (f : unit -> proc kernel B) k :
  c = true -> (assert c ≫= f) k = f tt k.
Proof. by intros ->. Qed.

Lemma run_get (k : kernel) : get k = Ret k k.
Proof. done. Qed.

Lemma run_put (k k' : kernel) : put k' k = Ret tt k'.
Proof. done. Qed.

Lemma run_modify (f : kernel -> kernel) k : modify f k = Ret tt (f k).
Proof. done. Qed.

Lemma run_mret {A} (a : A) (k : kernel) : (mret a : proc kernel A) k = Ret a k.
Proof. done. Qed.

(** [prun H] performs the first action, whose outcome is [H]; [pget] and the
    like perform actions that need no fact. *)
Ltac prun H := rewrite (bind_Ret _ _ _ _ _ H).
Ltac pget := rewrite (bind_Ret _ _ _ _ _ (run_get _)).
Ltac pput := rewrite (bind_Ret _ _ _ _ _ (run_put _ _)).
Ltac pmodify := rewrite (bind_Ret _ _ _ _ _ (run_modify _ _)).
Ltac pret := rewrite (bind_Ret _ _ _ _ _ (run_mret _ _)).
Ltac passert := rewrite bind_assert.
