(* ===== verification/View.v ===== *)
(** * View: kernel code on the memory of the running task

    [in_mem] runs memory code on the address space of the running task.  [view]
    is the memory as that code sees it, [put_view] and [with_view] put a changed
    memory back into the kernel's state. *)
From S2P Require Import Prelude Bitmap Interrupt DList Paging Pages Memory Kernel.

(** The memory as code of the running task sees it. *)
Definition view (k : kernel) : mem :=
  with_cur_vaddr (kmem k) (default (VirtualAddr (Bitmap 0 []) 0) (userprog_vaddr <$> tasks k !! running k)).

(** The state with memory [m], the task's virtual pool included. *)
Definition put_view (m : mem) (k : kernel) : kernel :=
  set_kmem (with_cur_vaddr m (cur_vaddr (kmem k)))
    (set_tasks (alter (set_userprog_vaddr (cur_vaddr m)) (running k) (tasks k)) k).

(** The same when the task's virtual pool has not changed. *)
Definition with_view (m : mem) (k : kernel) : kernel := set_kmem (with_cur_vaddr m (cur_vaddr (kmem k))) k.

Lemma cur_vaddr_view k t : tasks k !! running k = Some t -> cur_vaddr (view k) = userprog_vaddr t.
Proof. intros Ht. unfold view. by rewrite Ht. Qed.

Lemma in_mem_put {A} (c : st mem A) k t a m :
  tasks k !! running k = Some t -> c (view k) = Ok (a, m) -> in_mem c k = Ret a (put_view m k).
Proof.
  intros Ht Hc. unfold in_mem, view in *. rewrite Ht in Hc |- *. simpl in Hc. rewrite Hc. f_equal.
  unfold put_view, set_kmem, set_tasks; simpl. f_equal. apply map_eq. intros p. rewrite lookup_insert, lookup_alter.
  case_decide; [subst p; by rewrite Ht|done].
Qed.

Lemma in_mem_bad {A} (c : st mem A) k t e :
  tasks k !! running k = Some t -> c (view k) = Bad e -> in_mem c k = Err e.
Proof. intros Ht Hc. unfold in_mem, view in *. rewrite Ht in Hc |- *. simpl in Hc. by rewrite Hc. Qed.

Lemma put_view_same m k t : tasks k !! running k = Some t -> cur_vaddr m = userprog_vaddr t -> put_view m k = with_view m k.
Proof.
  intros Ht Hv. unfold put_view, with_view, set_kmem, set_tasks; simpl. f_equal. apply map_eq. intros p. rewrite lookup_alter.
  case_decide; [subst p; rewrite Ht, Hv; by destruct t|done].
Qed.

Lemma in_mem_run {A} (c : st mem A) k t a m :
  tasks k !! running k = Some t -> c (view k) = Ok (a, m) -> cur_vaddr m = userprog_vaddr t ->
  in_mem c k = Ret a (with_view m k).
Proof. intros Ht Hc Hv. rewrite (in_mem_put c k t a m Ht Hc). f_equal. by apply (put_view_same m k t). Qed.

Lemma view_put m k t : tasks k !! running k = Some t -> view (put_view m k) = m.
Proof. intros Ht. unfold view, put_view. cbn. rewrite lookup_alter_eq, Ht. cbn. by destruct m. Qed.

Lemma view_with_view m k t :
  tasks k !! running k = Some t -> cur_vaddr m = userprog_vaddr t -> view (with_view m k) = m.
Proof. intros Ht Hv. rewrite <- (put_view_same m k t Ht Hv). by apply (view_put m k t). Qed.

Lemma put_view_twice m1 m2 k : put_view m2 (put_view m1 k) = put_view m2 k.
Proof.
  unfold put_view, set_kmem, set_tasks; cbn. f_equal. apply map_eq. intros p. rewrite !lookup_alter.
  destruct (decide (running k = p)) as [<-|]; [|done]. rewrite decide_True by done.
  destruct (tasks k !! running k) as [t|]; [|done]. done.
Qed.

(** Code on memory run in two steps. *)
Lemma in_mem_bind {A B} (c : st mem A) (g : A -> st mem B) k : in_mem (c ≫= g) k = (in_mem c ≫= fun a => in_mem (g a)) k.
Proof.
  rewrite run_bind. unfold in_mem at 1 3. destruct (tasks k !! running k) as [t|] eqn:Ht; [|done].
  unfold mbind, st_bind. destruct (c _) as [[a m]|e]; [|done]. cbn. unfold in_mem. cbn. rewrite lookup_insert_eq. cbn.
  replace (with_cur_vaddr _ _) with m by (by destruct m). destruct (g a m) as [[b m2]|e]; [|done].
  unfold set_kmem, set_tasks. cbn. do 2 f_equal. by rewrite insert_insert_eq.
Qed.

(** The running task after its virtual pool changed. *)
Lemma task_put m k t :
  tasks k !! running k = Some t -> tasks (put_view m k) !! running (put_view m k) = Some (set_userprog_vaddr (cur_vaddr m) t).
Proof. intros Ht. cbn. by rewrite lookup_alter_eq, Ht. Qed.

Lemma task_put_ne m k p : p <> running k -> tasks (put_view m k) !! p = tasks k !! p.
Proof. intros Hp. cbn. apply lookup_alter_ne. congruence. Qed.

(** ** Pages of a virtual pool *)

(** Page [v] is page [r] of a virtual pool, mapped to a frame of the pool of
    frames that goes with it, and not the page directory in use. *)
Definition pool_page (pf : pool_flags) (m : mem) (v r : Z) : Prop :=
  0 <= r <= va_bits (va_of pf m) /\ v = va_page (va_of pf m) r
  /\ exists f, translate m v = Some f /\ owned (pool_of pf m) f /\ f <> cr3 m.

Definition kernel_page (m : mem) (v r : Z) : Prop := pool_page PF_KERNEL m v r.

Lemma pool_page_page pf m v r : heap_ok m -> pool_page pf m v r -> page v.
Proof. intros Hh (Hr & -> & _). apply va_page_ok; [apply (ho_va _ Hh)|done]. Qed.

(** Freeing one page. *)
Lemma free_page_spec pf m v r :
  heap_ok m -> pool_page pf m v r -> exists m', mfree_page pf v 1 m = Ok (tt, m') /\ freed pf 1 m m' r.
Proof.
  intros Hh (Hr & -> & f & Hf & Hown & Hcr). apply mfree_page_spec; [done|lia|lia|lia|].
  intros i Hi. replace (r + i) with r by lia. by exists f.
Qed.

Lemma freed_gone pf m m' r v : freed pf 1 m m' r -> pool_page pf m v r -> translate m' v = None.
Proof. intros Hf (_ & -> & _). rewrite <- (fr_pages _ _ _ _ _ Hf 0 ltac:(lia)). by rewrite Z.add_0_r. Qed.

Lemma freed_others pf m m' r v w :
  freed pf 1 m m' r -> pool_page pf m v r -> page w -> w <> v -> translate m' w = translate m w.
Proof.
  intros Hf (_ & -> & _) Hw Hne. apply (fr_others _ _ _ _ _ Hf); [done|]. intros Hin. apply Hne.
  destruct Hw as [_ Hw]. pose proof (vo_start _ (ho_va _ (fr_ok _ _ _ _ _ Hf) pf)) as Hst.
  pose proof (fr_bits _ _ _ _ _ Hf) as (Hs & _). rewrite Hs in Hst. unfold va_page in *. lia.
Qed.

Lemma freed_frames pf m m' r v g :
  freed pf 1 m m' r -> pool_page pf m v r -> free_frame m' g <-> free_frame m g \/ translate m v = Some g.
Proof.
  intros Hf (_ & -> & _). rewrite (fr_free _ _ _ _ _ Hf). split; (intros [?|H]; [by left|right]).
  - destruct H as (i & Hi & H). by replace (r + i) with r in H by lia.
  - exists 0. split; [lia|]. by rewrite Z.add_0_r.
Qed.

(** Another page stays what it was. *)
Lemma pool_page_freed pf m m' r v v' r' :
  heap_ok m -> freed pf 1 m m' r -> pool_page pf m v r -> pool_page pf m v' r' -> r' <> r -> pool_page pf m' v' r'.
Proof.
  intros Hh Hf Hp Hp' Hne. pose proof (pool_page_page _ _ _ _ Hh Hp') as Hpg. pose proof Hp' as (Hr' & Hv' & f & Hft & (j & Hj & Hfj) & Hcr).
  destruct (fr_bits _ _ _ _ _ Hf) as (Hs & Hl & _). destruct (fr_caps _ _ _ _ _ Hf pf) as [Hst Hc].
  split; [by rewrite Hl|]. split; [rewrite Hv'; unfold va_page; by rewrite Hs|]. exists f. split.
  - rewrite (freed_others pf m m' r v v' Hf Hp Hpg); [done|]. rewrite Hv'. destruct Hp as (_ & -> & _). unfold va_page. lia.
  - split; [|by rewrite (fr_cr3 _ _ _ _ _ Hf)]. exists j. rewrite Hc. unfold pool_frame in *. by rewrite Hst.
Qed.
