(* ===== verification/Sched.v ===== *)
(** * Sched: the scheduler

    thread/thread.c (scheduling, pid allocation, thread exit), the parts of
    userprog/process.c and userprog/tss.c that a task switch runs, and the timer
    interrupt of device/timer.c.  [schedule] ends in [switch_to]: the outcome is
    [Switch], carrying the rest of the code of the task that was switched out. *)
From S2P Require Import Prelude Bitmap Interrupt DList Paging Pages Kernel.

(** ** Activating a task *)

Definition update_tss_esp (pthread : Z) : proc kernel unit :=
  modify (set_esp0 (u32 (pthread + PG_SIZE))).

Definition page_dir_activate (p_thread : Z) : proc kernel unit :=
  t ← task p_thread;
  pagedir_phy_addr ← (if negb (pgdir t =? 0) then in_mem (addr_v2p (pgdir t))
                      else mret 0x100000 : proc kernel Z);
  modify (fun k => set_kmem (with_cr3 (kmem k) pagedir_phy_addr) k).

Definition process_activate (p_thread : Z) : proc kernel unit :=
  _ ← assert (negb (p_thread =? 0));
  _ ← page_dir_activate p_thread;
  t ← task p_thread;
  if negb (pgdir t =? 0) then update_tss_esp p_thread else mret tt.

(** [switch_to] saves the registers of [cur] on its stack and continues where
    [next] was switched out; switching a task to itself just returns. *)
Definition switch_to (cur next : Z) : proc kernel unit := fun k =>
  if cur =? next then Ret tt k
  else Switch (set_running next k) (fun k' => Ret tt k').

(** ** Scheduling *)

Definition thread_unblock (pthread : Z) : proc kernel unit :=
  old_status ← k_intr_disable;
  t ← task pthread;
  _ ← assert (bool_decide (status t = TASK_BLOCKED) || bool_decide (status t = TASK_WAITING)
              || bool_decide (status t = TASK_HANGING));
  _ ← (if negb (bool_decide (status t = TASK_READY)) then
         k ← get;
         _ ← assert (negb (seq_find (thread_ready_list k) pthread));
         if seq_find (thread_ready_list k) pthread then fail EPanic
         else
           _ ← put (set_thread_ready_list (seq_push (thread_ready_list k) pthread) k);
           update_task pthread (set_status TASK_READY)
       else mret tt);
  k_intr_set_status old_status.

Definition schedule : proc kernel unit :=
  k ← get;
  _ ← assert (bool_decide (intr_get_status (eflags k) = INTR_OFF));
  let cur := running k in
  t ← task cur;
  _ ← (if bool_decide (status t = TASK_RUNNING) then
         _ ← assert (negb (seq_find (thread_ready_list k) cur));
         _ ← put (set_thread_ready_list (seq_append (thread_ready_list k) cur) k);
         update_task cur (fun t => set_status TASK_READY (set_ticks (priority t) t))
       else mret tt);
  k ← get;
  _ ← (if seq_empty (thread_ready_list k) then thread_unblock (idle_thread k) else mret tt);
  k ← get;
  _ ← assert (negb (seq_empty (thread_ready_list k)));
  '(next, ready) ← lift (seq_pop (thread_ready_list k));
  _ ← put (set_thread_ready_list ready k);
  _ ← update_task next (set_status TASK_RUNNING);
  _ ← process_activate next;
  switch_to cur next.

Definition thread_block (stat : task_status) : proc kernel unit :=
  _ ← assert (bool_decide (stat = TASK_BLOCKED) || bool_decide (stat = TASK_WAITING)
              || bool_decide (stat = TASK_HANGING));
  old_status ← k_intr_disable;
  k ← get;
  _ ← update_task (running k) (set_status stat);
  _ ← schedule;
  k_intr_set_status old_status.

Definition thread_yield : proc kernel unit :=
  k ← get;
  let cur := running k in
  old_status ← k_intr_disable;
  k ← get;
  _ ← assert (negb (seq_find (thread_ready_list k) cur));
  _ ← put (set_thread_ready_list (seq_append (thread_ready_list k) cur) k);
  _ ← update_task cur (set_status TASK_READY);
  _ ← schedule;
  k_intr_set_status old_status.

(** ** The timer interrupt *)

Definition STACK_MAGIC : Z := 0x19870916.

Definition intr_timer_handler : proc kernel unit :=
  k ← get;
  let cur_thread := running k in
  t ← task cur_thread;
  _ ← assert (stack_magic t =? STACK_MAGIC);
  _ ← update_task cur_thread (fun t => set_elapsed_ticks (u32 (elapsed_ticks t + 1)) t);
  _ ← modify (fun k => set_ticks_total (u32 (ticks_total k + 1)) k);
  t ← task cur_thread;
  if ticks t =? 0 then schedule
  else update_task cur_thread (fun t => set_ticks (u8 (ticks t - 1)) t).

(** ** The invariant *)

(** The page directories: every directory has its self-map and shows the other
    directories at their addresses; [D] gives their physical addresses. *)
Definition dirs_ok (k : kernel) : Prop :=
  exists D : Z -> Z, cr3 (kmem k) = D (running k)
    /\ forall x t, tasks k !! x = Some t ->
       (pgdir t = 0 -> D x = 0x100000)
       /\ (pgdir t <> 0 -> 0 <= pgdir t < 2 ^ 32
            /\ forall y, is_Some (tasks k !! y) ->
                 self_map (with_cr3 (kmem k) (D y))
                 /\ translate (with_cr3 (kmem k) (D y)) (pgdir t) = Some (D x)).

Definition st_of (k : kernel) (p : Z) : option task_status := status <$> tasks k !! p.

Definition slice_of (k : kernel) (p : Z) : option Z := ticks <$> tasks k !! p.

(** What [schedule] finds: the ready list holds exactly the tasks that are ready,
    each once, and no task but the current one may be running. *)
Record sched_pre (k : kernel) : Prop := {
  sp_nodup : NoDup (thread_ready_list k);
  sp_ready : forall p, p ∈ thread_ready_list k <-> st_of k p = Some TASK_READY;
  sp_one : forall p, st_of k p = Some TASK_RUNNING -> p = running k;
  sp_cur : is_Some (tasks k !! running k);
  sp_idle : exists s, st_of k (idle_thread k) = Some s /\ s <> TASK_DIED;
  sp_null : tasks k !! 0 = None;
  sp_dirs : dirs_ok k
}.

(** The invariant: the current task is the running one. *)
Definition sched_ok (k : kernel) : Prop :=
  sched_pre k /\ st_of k (running k) = Some TASK_RUNNING.

(** [k'] differs from [k] in the scheduling state only: statuses and time slices
    of tasks, the ready list, the running task, the page directory and esp0. *)
Record sched_frame (k k' : kernel) : Prop := {
  sf_tasks : forall p, (tasks k' !! p = None <-> tasks k !! p = None)
    /\ forall t t', tasks k !! p = Some t -> tasks k' !! p = Some t' ->
         exists s n, t' = set_status s (set_ticks n t);
  sf_eflags : eflags k' = eflags k;
  sf_all : thread_all_list k' = thread_all_list k;
  sf_main : main_thread k' = main_thread k;
  sf_idle : idle_thread k' = idle_thread k;
  sf_pids : pid_bitmap k' = pid_bitmap k;
  sf_semas : semas k' = semas k;
  sf_locks : locks k' = locks k;
  sf_kmem : exists c, kmem k' = with_cr3 (kmem k) c;
  sf_total : ticks_total k' = ticks_total k;
  sf_ioq : ioqueues k' = ioqueues k;
  sf_descs : k_block_descs k' = k_block_descs k;
  sf_arenas : arenas k' = arenas k
}.

Definition task_frame (t t' : task_struct) : Prop := exists s n, t' = set_status s (set_ticks n t).

#[export] Instance task_frame_preorder : PreOrder task_frame.
Proof.
  split.
  - intros t. exists (status t), (ticks t). by destruct t.
  - intros t1 t2 t3 (s & n & ->) (s' & n' & ->). by exists s', n'.
Qed.

Lemma same_tasks_frame (ts ts' : gmap Z task_struct) :
  ts' = ts -> forall p, (ts' !! p = None <-> ts !! p = None)
    /\ forall t t', ts !! p = Some t -> ts' !! p = Some t' -> task_frame t t'.
Proof. intros -> p. split; [done|]. intros t t' H1 H2. by simplify_eq. Qed.

#[export] Instance sched_frame_preorder : PreOrder sched_frame.
Proof.
  split.
  - intros k. constructor; try done.
    + by apply same_tasks_frame.
    + exists (cr3 (kmem k)). by destruct (kmem k).
  - intros k1 k2 k3 [H1 ? ? ? ? ? ? ? [c Hc] ? ? ? ?] [G1 ? ? ? ? ? ? ? [d Hd] ? ? ? ?].
    constructor; try congruence.
    + intros p. destruct (H1 p) as [H1a H1b], (G1 p) as [G1a G1b].
      split; [tauto|]. intros t t' Ht Ht'. destruct (tasks k2 !! p) as [t2|] eqn:E; [|naive_solver].
      exact (transitivity (R := task_frame) (H1b _ _ Ht eq_refl) (G1b _ _ eq_refl Ht')).
    + exists d. by rewrite Hd, Hc.
Qed.

(** ** Activation *)

Lemma read_dir k x t D :
  tasks k !! x = Some t -> pgdir t <> 0 -> is_Some (tasks k !! running k) ->
  0 <= pgdir t < 2 ^ 32 -> self_map (kmem k) -> translate (kmem k) (pgdir t) = Some D ->
  in_mem (addr_v2p (pgdir t)) k = Ret D k.
Proof.
  intros Ht Hp [tc Hc] Hr Hs Htr. eapply in_mem_read; [done|]. by apply addr_v2p_spec.
Qed.

Lemma process_activate_spec k next t :
  dirs_ok k -> tasks k !! next = Some t -> next <> 0 -> is_Some (tasks k !! running k) ->
  exists k', process_activate next k = Ret tt k' /\ sched_frame k k'
    /\ tasks k' = tasks k /\ thread_ready_list k' = thread_ready_list k /\ running k' = running k
    /\ dirs_ok (set_running next k').
Proof.
  intros (D & Hcr & HD) Ht Hnz Hrun. destruct (HD next t Ht) as [Hz Hnz'].
  set (k1 := set_kmem (with_cr3 (kmem k) (D next)) k).
  assert (page_dir_activate next k = Ret tt k1) as Hact.
  { unfold page_dir_activate, task. prun (run_load tasks k next t Ht).
    destruct (Z.eqb_spec (pgdir t) 0) as [He|Hne]; simpl.
    - pret. unfold k1. by rewrite Hz.
    - destruct (Hnz' Hne) as [Hr Hy]. destruct (Hy (running k) Hrun) as [Hs Htr].
      rewrite <- Hcr in Hs, Htr. replace (with_cr3 (kmem k) (cr3 (kmem k))) with (kmem k) in Hs, Htr
        by (by destruct (kmem k)).
      prun (read_dir k next t (D next) Ht Hne Hrun Hr Hs Htr). done. }
  assert (forall j, dirs_ok (set_running next (set_esp0 j k1)) /\ dirs_ok (set_running next k1)) as Hd.
  { intros j. split; exists D; (split; [done|exact HD]). }
  unfold process_activate. passert; [|by rewrite (proj2 (Z.eqb_neq next 0) Hnz)].
  prun Hact. unfold task. prun (run_load tasks k1 next t Ht).
  assert (sched_frame k k1) as Hf.
  { constructor; try done; [by apply same_tasks_frame|by exists (D next)]. }
  destruct (pgdir t =? 0); simpl.
  - exists k1. split; [done|]. split_and!; try done. apply (Hd 0).
  - eexists. split; [unfold update_tss_esp; by rewrite run_modify|].
    split_and!; try done; [|apply (proj1 (Hd _))]. etrans; [exact Hf|].
    constructor; try done; [by apply same_tasks_frame|by exists (D next)].
Qed.

(** ** The steps of schedule *)

Lemma run_disable k :
  k_intr_disable k = Ret (intr_disable (eflags k)).1 (set_eflags (intr_disable (eflags k)).2 k).
Proof. done. Qed.

(** Restoring the flag that [intr_disable] returned undoes it. *)
Lemma restore_flags k k' :
  eflags k' = (intr_disable (eflags k)).2 ->
  k_intr_set_status (intr_disable (eflags k)).1 k' = Ret tt (set_eflags (eflags k) k').
Proof. intros He. unfold k_intr_set_status. by rewrite He, disable_restore. Qed.

Definition blocked (s : task_status) : Prop :=
  s = TASK_BLOCKED \/ s = TASK_WAITING \/ s = TASK_HANGING.

Definition unblocked (k : kernel) (p : Z) (t : task_struct) : kernel :=
  set_tasks (<[p := set_status TASK_READY t]> (tasks k))
    (set_thread_ready_list (p :: thread_ready_list k) k).

Lemma thread_unblock_spec k p t :
  tasks k !! p = Some t -> blocked (status t) -> p ∉ thread_ready_list k ->
  thread_unblock p k = Ret tt (unblocked k p t).
Proof.
  intros Ht Hb Hn. unfold thread_unblock. prun (run_disable k).
  set (k1 := set_eflags _ k). unfold task. prun (run_load tasks k1 p t Ht).
  passert; [|destruct Hb as [->|[->| ->]]; done].
  rewrite (bool_decide_false (status t = TASK_READY)) by (destruct Hb as [->|[->| ->]]; done). simpl.
  set (blk := get ≫= _).
  set (k2 := set_tasks (<[p := set_status TASK_READY t]> (tasks k))
               (set_thread_ready_list (p :: thread_ready_list k) k1)).
  assert (blk k1 = Ret tt k2) as Hblk.
  { subst blk. pget. unfold seq_find. change (thread_ready_list k1) with (thread_ready_list k).
    rewrite (bool_decide_false (p ∈ thread_ready_list k)) by done. passert; [|done].
    pput. rewrite (run_update (set_thread_ready_list _ k1) p _ t Ht). done. }
  prun Hblk. rewrite restore_flags by done. subst k2 k1. by destruct k.
Qed.

(** No task is running: the state between the two halves of [schedule]. *)
Record parked (k : kernel) : Prop := {
  pk_nodup : NoDup (thread_ready_list k);
  pk_ready : forall p, p ∈ thread_ready_list k <-> st_of k p = Some TASK_READY;
  pk_none : forall p, st_of k p <> Some TASK_RUNNING;
  pk_cur : is_Some (tasks k !! running k);
  pk_idle : exists s, st_of k (idle_thread k) = Some s /\ s <> TASK_DIED;
  pk_null : tasks k !! 0 = None;
  pk_dirs : dirs_ok k
}.

(** Changing the status or slice of a task keeps the directories. *)
Lemma dirs_ok_update k k' p t s n :
  dirs_ok k -> tasks k !! p = Some t ->
  tasks k' = <[p := set_status s (set_ticks n t)]> (tasks k) ->
  kmem k' = kmem k -> running k' = running k -> dirs_ok k'.
Proof.
  intros (D & Hcr & HD) Ht Htk Hm Hr. exists D. rewrite Hm, Hr, Htk. split; [done|].
  intros x tx. rewrite lookup_insert. intros Hx.
  assert (exists t0, tasks k !! x = Some t0 /\ pgdir tx = pgdir t0) as (t0 & Hx0 & Hpg).
  { case_decide; [subst x; simplify_eq; by eexists|by eexists]. }
  rewrite Hpg. destruct (HD x t0 Hx0) as [H1 H2]. split; [done|]. intros Hnz.
  destruct (H2 Hnz) as [H3 H4]. split; [done|]. intros y Hy. apply H4.
  rewrite lookup_insert in Hy. case_decide; [subst y; by eexists|done].
Qed.

(** Such a change stays within the frame. *)
Lemma frame_update k p t s n l :
  tasks k !! p = Some t ->
  sched_frame k (set_tasks (<[p := set_status s (set_ticks n t)]> (tasks k)) (set_thread_ready_list l k)).
Proof.
  intros Ht. constructor; try done.
  - intros q. simpl. rewrite lookup_insert. case_decide; [subst q|].
    + split; [by rewrite Ht|]. intros t1 t2 H1 H2. simplify_eq. by exists s, n.
    + split; [done|]. intros t1 t2 H1 H2. simplify_eq. apply (reflexivity (R := task_frame)).
  - exists (cr3 (kmem k)). simpl. by destruct (kmem k).
Qed.

Lemma set_status_ticks s t : set_status s t = set_status s (set_ticks (ticks t) t).
Proof. by destruct t. Qed.

Lemma st_of_insert k k' p t q :
  tasks k' = <[p := t]> (tasks k) -> st_of k' q = if decide (p = q) then Some (status t) else st_of k q.
Proof. intros H. unfold st_of. rewrite H, lookup_insert. by case_decide. Qed.

(** The first half: a running task goes to the end of the ready list. *)
Definition requeued (k : kernel) (t : task_struct) : kernel :=
  if bool_decide (status t = TASK_RUNNING) then
    set_tasks (<[running k := set_status TASK_READY (set_ticks (priority t) t)]> (tasks k))
      (set_thread_ready_list (thread_ready_list k ++ [running k]) k)
  else k.

Lemma requeue_spec k t :
  sched_pre k -> tasks k !! running k = Some t ->
  (if bool_decide (status t = TASK_RUNNING) then
     _ ← assert (negb (seq_find (thread_ready_list k) (running k)));
     _ ← put (set_thread_ready_list (seq_append (thread_ready_list k) (running k)) k);
     update_task (running k) (fun t => set_status TASK_READY (set_ticks (priority t) t))
   else mret tt) k = Ret tt (requeued k t)
  /\ parked (requeued k t) /\ sched_frame k (requeued k t).
Proof.
  intros Hs Ht. pose proof Hs as [Hnd Hr Hone Hc Hid Hnull Hd]. unfold requeued.
  assert (st_of k (running k) = Some (status t)) as Hstc by (unfold st_of; by rewrite Ht).
  case_bool_decide as Hst.
  - assert (running k ∉ thread_ready_list k) as Hnin by (rewrite Hr, Hstc, Hst; done).
    split.
    { unfold seq_find. rewrite bool_decide_false by done. passert; [|done]. pput.
      rewrite (run_update (set_thread_ready_list _ k) (running k) _ t Ht). done. }
    split; [|by apply frame_update]. set (k1 := set_tasks _ _).
    assert (forall q, st_of k1 q = if decide (running k = q) then Some TASK_READY else st_of k q) as Hsto.
    { intros q. by rewrite (st_of_insert k k1 (running k) _ q eq_refl). }
    constructor; simpl.
    + apply NoDup_app. split_and!; [done| |apply NoDup_singleton]. set_solver.
    + intros q. rewrite elem_of_app, list_elem_of_singleton, Hsto, Hr. case_decide; naive_solver.
    + intros q. rewrite Hsto. case_decide; [done|]. intros Hq. by apply Hone in Hq.
    + rewrite lookup_insert, decide_True by done. by eexists.
    + rewrite Hsto. case_decide; [by eexists|done].
    + rewrite lookup_insert_ne; [done|]. intros He. rewrite He in Ht. congruence.
    + by eapply (dirs_ok_update k _ (running k) t).
  - split; [done|]. split; [|done]. constructor; try done.
    intros q Hq. pose proof (Hone q Hq). subst q. congruence.
Qed.

(** With nobody ready, the idle thread is made ready. *)
Lemma wake_idle_spec k :
  parked k ->
  exists k', (if seq_empty (thread_ready_list k) then thread_unblock (idle_thread k) else mret tt) k
      = Ret tt k'
    /\ parked k' /\ sched_frame k k' /\ running k' = running k
    /\ thread_ready_list k' = match thread_ready_list k with [] => [idle_thread k] | l => l end
    /\ (forall q, st_of k' q = if decide (q ∈ thread_ready_list k') then Some TASK_READY else st_of k q)
    /\ (forall q, slice_of k' q = slice_of k q).
Proof.
  intros Hp. pose proof Hp as [Hnd Hr Hn Hc (s & Hs & Hd) Hnull Hdirs].
  destruct (thread_ready_list k) as [|x l] eqn:El; simpl.
  2: { exists k. split; [done|]. split_and!; try done. intros q. rewrite El.
       case_decide as Hq; [|done]. by apply Hr. }
  pose proof (Hn (idle_thread k)) as Hn1. pose proof (Hr (idle_thread k)) as [_ Hr1].
  rewrite Hs in Hn1, Hr1. unfold st_of in Hs. apply fmap_Some in Hs as (ti & Hti & Hsi).
  assert (blocked (status ti)) as Hb.
  { rewrite <- Hsi. unfold blocked. destruct s; try tauto; try done.
    exfalso. by apply (not_elem_of_nil (idle_thread k)), Hr1. }
  assert (idle_thread k ∉ thread_ready_list k) as Hnin by (rewrite El; apply not_elem_of_nil).
  rewrite (thread_unblock_spec k _ ti Hti Hb Hnin). set (k' := unblocked k (idle_thread k) ti).
  assert (thread_ready_list k' = [idle_thread k]) as Hrl by (subst k'; unfold unblocked; simpl; by rewrite El).
  assert (forall q, st_of k' q = if decide (idle_thread k = q) then Some TASK_READY else st_of k q) as Hsto.
  { intros q. by rewrite (st_of_insert k k' (idle_thread k) _ q eq_refl). }
  exists k'. split; [done|]. split; [|split; [|split; [done|split; [done|split]]]].
  - constructor.
    + rewrite Hrl. apply NoDup_singleton.
    + intros q. rewrite Hrl, list_elem_of_singleton, Hsto. case_decide as Hq; [naive_solver|].
      rewrite <- Hr. split; [congruence|]. intros Hx. by apply not_elem_of_nil in Hx.
    + intros q. rewrite Hsto. case_decide; [done|apply Hn].
    + simpl. rewrite lookup_insert. case_decide; [by eexists|done].
    + rewrite Hsto. simpl. rewrite decide_True by done. by eexists.
    + simpl. rewrite lookup_insert_ne; [done|]. intros He. rewrite He in Hti. congruence.
    + apply (dirs_ok_update k k' (idle_thread k) ti TASK_READY (ticks ti)); done.
  - subst k'. unfold unblocked. rewrite (set_status_ticks TASK_READY ti). by apply frame_update.
  - intros q. rewrite Hsto, Hrl. destruct (decide (idle_thread k = q)) as [->|Hne].
    + by rewrite decide_True by (by apply list_elem_of_singleton).
    + by rewrite decide_False by (rewrite list_elem_of_singleton; congruence).
  - intros q. unfold slice_of. simpl. rewrite lookup_insert. case_decide; [subst q|done].
    by rewrite Hti.
Qed.

(** The second half: the first ready task is made the running one. *)
Lemma dispatch_spec k nxt rest :
  parked k -> thread_ready_list k = nxt :: rest ->
  exists k', (_ ← put (set_thread_ready_list rest k);
              _ ← update_task nxt (set_status TASK_RUNNING);
              _ ← process_activate nxt;
              switch_to (running k) nxt) k
      = (if running k =? nxt then Ret tt k' else Switch k' (fun s => Ret tt s))
    /\ sched_ok k' /\ sched_frame k k' /\ running k' = nxt /\ thread_ready_list k' = rest
    /\ (forall q, st_of k' q = if decide (nxt = q) then Some TASK_RUNNING else st_of k q)
    /\ (forall q, slice_of k' q = slice_of k q).
Proof.
  intros Hp Hl. pose proof Hp as [Hnd Hr Hn Hc (s & Hs & Hd) Hnull Hdirs].
  assert (st_of k nxt = Some TASK_READY) as Hst by (apply Hr; rewrite Hl; apply list_elem_of_here).
  unfold st_of in Hst. apply fmap_Some in Hst as (tn & Htn & Hsn).
  assert (nxt <> 0) as Hnz by (intros ->; congruence).
  pput. set (k0 := set_thread_ready_list rest k).
  prun (run_update k0 nxt (set_status TASK_RUNNING) tn Htn).
  set (k1 := set_tasks (<[nxt := set_status TASK_RUNNING tn]> (tasks k0)) k0).
  assert (tasks k1 !! nxt = Some (set_status TASK_RUNNING tn)) as Ht1
    by (simpl; by rewrite lookup_insert, decide_True).
  assert (dirs_ok k1) as Hd1.
  { apply (dirs_ok_update k k1 nxt tn TASK_RUNNING (ticks tn)); done. }
  assert (is_Some (tasks k1 !! running k1)) as Hc1.
  { simpl. rewrite lookup_insert. case_decide; [by eexists|done]. }
  assert (sched_frame k k1) as Hf1.
  { exact (frame_update k nxt tn TASK_RUNNING (ticks tn) rest Htn). }
  destruct (process_activate_spec k1 nxt _ Hd1 Ht1 Hnz Hc1) as (k2 & Hact & Hf2 & Htk2 & Hr2 & Hrun2 & Hd2).
  prun Hact. set (k3 := set_running nxt k2).
  assert (forall q, st_of k3 q = if decide (nxt = q) then Some TASK_RUNNING else st_of k q) as Hsto.
  { intros q. by rewrite (st_of_insert k k3 nxt _ q Htk2). }
  rewrite Hl in Hnd. apply NoDup_cons in Hnd as [Hnin Hnd].
  assert (sched_frame k k3) as Hf3.
  { etrans; [exact Hf1|]. etrans; [exact Hf2|]. constructor; try done; [by apply same_tasks_frame|].
    exists (cr3 (kmem k2)). simpl. by destruct (kmem k2). }
  exists k3. split; [|split; [|split; [done|split; [done|split; [done|split; [done|]]]]]].
  - unfold switch_to. destruct (Z.eqb_spec (running k) nxt) as [He|]; [|done].
    f_equal. subst k3. simpl in Hrun2. rewrite He in Hrun2. rewrite <- Hrun2. by destruct k2.
  - split; [|by rewrite Hsto, decide_True]. constructor.
    + simpl. by rewrite Hr2.
    + intros q. simpl. rewrite Hr2, Hsto. simpl. case_decide as Hq; [by subst q|].
      rewrite <- Hr, Hl, elem_of_cons. naive_solver.
    + intros q. rewrite Hsto. case_decide as Hq; [by subst q|]. by intros ?%Hn.
    + simpl. rewrite Htk2, Ht1. by eexists.
    + rewrite Hsto, (sf_idle _ _ Hf3). case_decide; by eexists.
    + simpl. rewrite Htk2. simpl. by rewrite lookup_insert_ne.
    + done.
  - intros q. unfold slice_of. simpl. rewrite Htk2. simpl. rewrite lookup_insert.
    case_decide; [subst q|done]. by rewrite Htn.
Qed.

(** The queue [schedule] takes the next task from. *)
Definition queue_of (k : kernel) (t : task_struct) : list Z :=
  let ready := if bool_decide (status t = TASK_RUNNING) then thread_ready_list k ++ [running k]
               else thread_ready_list k in
  match ready with [] => [idle_thread k] | l => l end.

(** What [schedule] does: it runs the first task of the queue. *)
Record scheduled (k : kernel) (t : task_struct) (nxt : Z) (rest : list Z) (k' : kernel) : Prop := {
  sd_queue : queue_of k t = nxt :: rest;
  sd_ok : sched_ok k';
  sd_frame : sched_frame k k';
  sd_running : running k' = nxt;
  sd_ready : thread_ready_list k' = rest;
  sd_status : forall q, st_of k' q =
    if decide (nxt = q) then Some TASK_RUNNING
    else if decide (running k = q /\ status t = TASK_RUNNING) then Some TASK_READY else st_of k q;
  sd_slice : forall q, slice_of k' q =
    if decide (running k = q /\ status t = TASK_RUNNING) then Some (priority t) else slice_of k q
}.

(** Returning to the task itself, or leaving the processor. *)
Definition resumes (cur nxt : Z) (k' : kernel) : outcome kernel unit :=
  if cur =? nxt then Ret tt k' else Switch k' (fun s => Ret tt s).

Lemma requeued_st k t q :
  tasks k !! running k = Some t ->
  st_of (requeued k t) q =
    (if decide (running k = q /\ status t = TASK_RUNNING) then Some TASK_READY else st_of k q)
  /\ slice_of (requeued k t) q =
    (if decide (running k = q /\ status t = TASK_RUNNING) then Some (priority t) else slice_of k q).
Proof.
  intros Ht. unfold requeued, st_of, slice_of. case_bool_decide as Hs; simpl.
  - rewrite lookup_insert. destruct (decide (running k = q)) as [<-|Hne].
    + by rewrite !decide_True by done.
    + by rewrite !decide_False by naive_solver.
  - by rewrite !decide_False by naive_solver.
Qed.

Lemma schedule_spec k t :
  sched_pre k -> intr_get_status (eflags k) = INTR_OFF -> tasks k !! running k = Some t ->
  exists nxt rest k', schedule k = resumes (running k) nxt k' /\ scheduled k t nxt rest k'.
Proof.
  intros Hs Hif Ht. unfold schedule. pget. passert; [|by apply bool_decide_true].
  unfold task. prun (run_load tasks k _ t Ht).
  destruct (requeue_spec k t Hs Ht) as (Hrq & Hp1 & Hf1). prun Hrq.
  set (k1 := requeued k t) in *.
  assert (running k1 = running k /\ idle_thread k1 = idle_thread k
          /\ thread_ready_list k1 = if bool_decide (status t = TASK_RUNNING)
               then thread_ready_list k ++ [running k] else thread_ready_list k) as (Hr1 & Hi1 & Hq1).
  { subst k1. unfold requeued. by destruct (bool_decide (status t = TASK_RUNNING)). }
  pget. destruct (wake_idle_spec k1 Hp1) as (k2 & Hwk & Hp2 & Hf2 & Hr2 & Hq2 & Hst2 & Hsl2).
  prun Hwk. pget.
  assert (thread_ready_list k2 = queue_of k t) as Hq 
    by (unfold queue_of; rewrite Hq2, <- Hq1, Hi1; by destruct (thread_ready_list k1)).
  destruct (thread_ready_list k2) as [|nxt rest] eqn:El.
  { exfalso. revert Hq2. by destruct (thread_ready_list k1). }
  passert; [|done].
  assert (lift (seq_pop (nxt :: rest)) k2 = Ret (nxt, rest) k2) as Hpop by done. prun Hpop.
  destruct (dispatch_spec k2 nxt rest Hp2 El) as (k3 & Hd & Hok & Hf3 & Hrun & Hrdy & Hst3 & Hsl3).
  rewrite Hr2, Hr1 in Hd. exists nxt, rest, k3. split; [exact Hd|].
  constructor; try done.
  - etrans; [exact Hf1|]. by etrans.
  - intros q. rewrite Hst3, Hst2. destruct (requeued_st k t q Ht) as [<- _]. fold k1.
    destruct (decide (nxt = q)) as [|Hne]; [done|].
    destruct (decide (q ∈ nxt :: rest)) as [Hin|]; [|done].
    destruct (thread_ready_list k1) as [|x l] eqn:E1.
    + injection Hq2 as -> ->. apply list_elem_of_singleton in Hin. congruence.
    + symmetry. apply (pk_ready _ Hp1). rewrite E1. by rewrite <- Hq2.
  - intros q. rewrite Hsl3, Hsl2. by apply requeued_st.
Qed.

(** ** Blocking and yielding *)

(** The status of the current task is changed, and perhaps the ready list. *)
Definition with_status (k : kernel) (s : task_status) (t : task_struct) (l : list Z) : kernel :=
  set_tasks (<[running k := set_status s t]> (tasks k)) (set_thread_ready_list l k).

Lemma with_status_pre k s t l :
  sched_pre k -> tasks k !! running k = Some t -> s <> TASK_DIED -> s <> TASK_RUNNING ->
  NoDup l ->
  (forall q, q ∈ l <-> if decide (running k = q) then s = TASK_READY else q ∈ thread_ready_list k) ->
  sched_pre (with_status k s t l).
Proof.
  intros [Hnd Hr Hone Hc (si & Hsi & Hdi) Hnull Hd] Ht Hs1 Hs2 Hl Hin. set (k' := with_status k s t l).
  assert (forall q, st_of k' q = if decide (running k = q) then Some s else st_of k q) as Hsto.
  { intros q. by rewrite (st_of_insert k k' (running k) _ q eq_refl). }
  constructor.
  - done.
  - intros q. simpl. rewrite Hin, Hsto. case_decide; [naive_solver|apply Hr].
  - intros q. rewrite Hsto. case_decide; [congruence|]. intros Hq. by apply Hone in Hq.
  - simpl. rewrite lookup_insert, decide_True by done. by eexists.
  - rewrite Hsto. simpl. case_decide; [by exists s|by exists si].
  - simpl. rewrite lookup_insert_ne; [done|]. intros He. rewrite He in Ht. congruence.
  - by apply (dirs_ok_update k k' (running k) t s (ticks t)).
Qed.

Lemma set_eflags_pre k e : sched_pre k -> sched_pre (set_eflags e k).
Proof. by intros [? ? ? ? ? ? ?]. Qed.

Lemma set_eflags_ok k e : sched_ok k -> sched_ok (set_eflags e k).
Proof. intros [Hp Hr]. split; [by apply set_eflags_pre|done]. Qed.

(** The current task as [schedule] finds it when the task has blocked itself. *)
Definition blocking (k : kernel) (stat : task_status) (t : task_struct) : kernel :=
  with_status (set_eflags (intr_disable (eflags k)).2 k) stat t (thread_ready_list k).

(** The outcome of a call of [schedule] followed by restoring the flag. *)
Definition suspends (k : kernel) (nxt : Z) (k' : kernel) : outcome kernel unit :=
  if running k =? nxt then Ret tt (set_eflags (eflags k) k')
  else Switch k' (k_intr_set_status (intr_disable (eflags k)).1).

Lemma schedule_restore k k1 t1 :
  sched_pre k1 -> tasks k1 !! running k1 = Some t1 -> running k1 = running k ->
  eflags k1 = (intr_disable (eflags k)).2 ->
  exists nxt rest k', (_ ← schedule; k_intr_set_status (intr_disable (eflags k)).1) k1
      = suspends k nxt k'
    /\ scheduled k1 t1 nxt rest k'.
Proof.
  intros Hp Ht Hr He. assert (intr_get_status (eflags k1) = INTR_OFF) as Hoff by (rewrite He; apply disable_off).
  destruct (schedule_spec k1 t1 Hp Hoff Ht) as (nxt & rest & k' & Hs & Hsd).
  exists nxt, rest, k'. split; [|done]. unfold suspends, resumes in *. rewrite Hr in Hs.
  destruct (running k =? nxt).
  - prun Hs. apply restore_flags. by rewrite (sf_eflags _ _ (sd_frame _ _ _ _ _ Hsd)).
  - by rewrite (bind_Switch _ _ _ _ _ Hs).
Qed.

Lemma blocking_pre k stat t :
  sched_ok k -> tasks k !! running k = Some t -> blocked stat -> sched_pre (blocking k stat t).
Proof.
  intros [Hp Hrun] Ht Hb. pose proof Hp as [Hnd Hr _ _ _ _ _].
  apply with_status_pre; [by apply set_eflags_pre|done| | |done|].
  1,2: destruct Hb as [->|[->| ->]]; done.
  intros q. simpl. case_decide as Hq; [|done]. subst q. rewrite Hr, Hrun.
  split; [done|]. destruct Hb as [->|[->| ->]]; done.
Qed.

Lemma thread_block_spec k stat t :
  sched_ok k -> tasks k !! running k = Some t -> blocked stat ->
  exists nxt rest k', thread_block stat k = suspends k nxt k'
    /\ scheduled (blocking k stat t) (set_status stat t) nxt rest k'.
Proof.
  intros Hok Ht Hb. unfold thread_block.
  passert; [|destruct Hb as [->|[->| ->]]; done].
  prun (run_disable k). pget.
  prun (run_update (set_eflags (intr_disable (eflags k)).2 k) (running k) (set_status stat) t Ht).
  replace (set_tasks _ _) with (blocking k stat t) by (by destruct k).
  apply schedule_restore; [by apply blocking_pre|simpl; by rewrite lookup_insert, decide_True|done|done].
Qed.

(** The state in which [thread_yield] calls [schedule]. *)
Definition yielding (k : kernel) (t : task_struct) : kernel :=
  with_status (set_eflags (intr_disable (eflags k)).2 k) TASK_READY t
    (thread_ready_list k ++ [running k]).

Lemma thread_yield_spec k t :
  sched_ok k -> tasks k !! running k = Some t ->
  exists nxt rest k', thread_yield k = suspends k nxt k'
    /\ scheduled (yielding k t) (set_status TASK_READY t) nxt rest k'.
Proof.
  intros [Hp Hrun] Ht. pose proof Hp as [Hnd Hr _ _ _ _ _].
  assert (running k ∉ thread_ready_list k) as Hnin by (rewrite Hr, Hrun; done).
  unfold thread_yield. pget. prun (run_disable k). pget.
  unfold seq_find. rewrite bool_decide_false by done. passert; [|done]. pput.
  prun (run_update (set_thread_ready_list (thread_ready_list k ++ [running k])
          (set_eflags (intr_disable (eflags k)).2 k)) (running k) (set_status TASK_READY) t Ht).
  replace (set_tasks _ _) with (yielding k t) by (by destruct k).
  apply schedule_restore; [|simpl; by rewrite lookup_insert, decide_True|done|done].
  apply with_status_pre; [by apply set_eflags_pre|done|done|done| |].
  - apply NoDup_app. split_and!; [done| |apply NoDup_singleton]. intros x Hx Hx2.
    apply list_elem_of_singleton in Hx2. by subst x.
  - intros q. simpl. rewrite elem_of_app, list_elem_of_singleton. case_decide; naive_solver.
Qed.

(** Unblocking puts the task at the front of the ready list. *)
Lemma thread_unblock_ok k p t :
  sched_ok k -> tasks k !! p = Some t -> blocked (status t) ->
  thread_unblock p k = Ret tt (unblocked k p t) /\ sched_ok (unblocked k p t).
Proof.
  intros [Hp Hrun] Ht Hb. pose proof Hp as [Hnd Hr Hone Hc (si & Hsi & Hdi) Hnull Hd].
  assert (st_of k p = Some (status t)) as Hst by (unfold st_of; by rewrite Ht).
  assert (p ∉ thread_ready_list k) as Hnin.
  { rewrite Hr, Hst. destruct Hb as [->|[->| ->]]; done. }
  assert (p <> running k) as Hne.
  { intros ->. rewrite Hrun in Hst. destruct Hb as [He|[He|He]]; rewrite He in Hst; done. }
  split; [by apply thread_unblock_spec|]. set (k' := unblocked k p t).
  assert (forall q, st_of k' q = if decide (p = q) then Some TASK_READY else st_of k q) as Hsto.
  { intros q. by rewrite (st_of_insert k k' p _ q eq_refl). }
  split; [|by rewrite Hsto, decide_False]. constructor.
  - by apply NoDup_cons.
  - intros q. simpl. rewrite elem_of_cons, Hsto, Hr. case_decide; naive_solver.
  - intros q. rewrite Hsto. case_decide; [done|apply Hone].
  - simpl. by rewrite lookup_insert_ne.
  - rewrite Hsto. simpl. case_decide; [by eexists|by exists si].
  - simpl. rewrite lookup_insert_ne; [done|]. intros ->. congruence.
  - by apply (dirs_ok_update k k' p t TASK_READY (ticks t)).
Qed.

(** ** Turns and slices *)

(** The state after a piece of kernel code, whichever task it leaves running. *)
Definition after {A} (o : outcome kernel A) : option kernel :=
  match o with Ret _ k => Some k | Switch k _ => Some k | Err _ => None end.

Fixpoint repeat_run (n : nat) (c : proc kernel unit) (k : kernel) : option kernel :=
  match n with O => Some k | S n' => k' ← after (c k); repeat_run n' c k' end.

Lemma after_resumes cur nxt k : after (resumes cur nxt k) = Some k.
Proof. unfold resumes. by destruct (cur =? nxt). Qed.

Lemma after_suspends k nxt k' : exists e, after (suspends k nxt k') = Some (set_eflags e k').
Proof.
  unfold suspends. destruct (running k =? nxt); [by eexists|]. exists (eflags k').
  simpl. f_equal. by destruct k'.
Qed.

(** When the running task is preempted, the tasks rotate. *)
Lemma preempt_rotates k :
  sched_ok k -> intr_get_status (eflags k) = INTR_OFF ->
  exists k', after (schedule k) = Some k' /\ sched_ok k'
    /\ intr_get_status (eflags k') = INTR_OFF
    /\ running k' :: thread_ready_list k' = thread_ready_list k ++ [running k].
Proof.
  intros [Hp Hrun] Hoff. unfold st_of in Hrun. apply fmap_Some in Hrun as (t & Ht & Hst).
  destruct (schedule_spec k t Hp Hoff Ht) as (nxt & rest & k' & Hs & [Hq Hok Hf Hr Hrd _ _]).
  exists k'. rewrite Hs, after_resumes, (sf_eflags _ _ Hf). split_and!; try done.
  rewrite Hr, Hrd, <- Hq. unfold queue_of. rewrite bool_decide_true by done.
  by destruct (thread_ready_list k).
Qed.

Lemma turns_reach k r1 x r2 :
  sched_ok k -> intr_get_status (eflags k) = INTR_OFF ->
  thread_ready_list k = r1 ++ x :: r2 ->
  exists k', repeat_run (S (length r1)) schedule k = Some k' /\ sched_ok k'
    /\ intr_get_status (eflags k') = INTR_OFF /\ running k' = x
    /\ thread_ready_list k' = r2 ++ running k :: r1.
Proof.
  revert k r2. induction r1 as [|y r1 IH]; intros k r2 Hok Hoff Hl.
  - destruct (preempt_rotates k Hok Hoff) as (k' & Ha & Hok' & Hoff' & Hrot).
    rewrite Hl in Hrot. injection Hrot as Hr Hrd. exists k'. simpl. rewrite Ha. done.
  - destruct (preempt_rotates k Hok Hoff) as (k' & Ha & Hok' & Hoff' & Hrot).
    rewrite Hl in Hrot. injection Hrot as Hr Hrd. rewrite <- app_assoc in Hrd.
    destruct (IH k' (r2 ++ [running k]) Hok' Hoff') as (k2 & Hrr & Hok2 & Hoff2 & Hx & Hrd2).
    { by rewrite Hrd. }
    exists k2. split; [|split_and!; try done; rewrite Hrd2, Hr, <- app_assoc; done].
    rewrite <- Hrr. simpl. rewrite Ha. done.
Qed.

(** One timer interrupt with the time slice not used up. *)
Definition ticked (k : kernel) (t : task_struct) : kernel :=
  set_ticks_total (u32 (ticks_total k + 1))
    (set_tasks (<[running k := set_elapsed_ticks (u32 (elapsed_ticks t + 1)) t]> (tasks k)) k).

Lemma ticked_pre k t :
  sched_pre k -> tasks k !! running k = Some t -> sched_pre (ticked k t).
Proof.
  intros [Hnd Hr Hone Hc Hid Hnull (D & Hcr & HD)] Ht. set (k' := ticked k t).
  assert (forall q, st_of k' q = st_of k q) as Hsto.
  { intros q. unfold st_of. simpl. rewrite lookup_insert. case_decide; [subst q|done]. by rewrite Ht. }
  constructor; try (setoid_rewrite Hsto); try done.
  - simpl. rewrite lookup_insert, decide_True by done. by eexists.
  - simpl. rewrite lookup_insert_ne; [done|]. intros He. rewrite He in Ht. congruence.
  - exists D. split; [done|]. intros x tx. simpl. rewrite lookup_insert. intros Hx.
    assert (exists t0, tasks k !! x = Some t0 /\ pgdir tx = pgdir t0) as (t0 & Hx0 & ->).
    { case_decide; [subst x; simplify_eq; by eexists|by eexists]. }
    destruct (HD x t0 Hx0) as [H1 H2]. split; [done|]. intros Hnz. destruct (H2 Hnz) as [H3 H4].
    split; [done|]. intros y Hy. apply H4. rewrite lookup_insert in Hy.
    case_decide; [subst y; by eexists|done].
Qed.

(** The handler on both branches. *)
Lemma timer_spec k t :
  tasks k !! running k = Some t -> stack_magic t = STACK_MAGIC ->
  intr_timer_handler k =
    (if ticks t =? 0 then schedule (ticked k t)
     else let t' := set_elapsed_ticks (u32 (elapsed_ticks t + 1)) t in
          Ret tt (set_tasks (<[running k := set_ticks (u8 (ticks t - 1)) t']> (tasks (ticked k t)))
                    (ticked k t))).
Proof.
  intros Ht Hm. unfold intr_timer_handler. pget. unfold task. prun (run_load tasks k _ t Ht).
  passert; [|by apply Z.eqb_eq].
  prun (run_update k (running k) (fun t => set_elapsed_ticks (u32 (elapsed_ticks t + 1)) t) t Ht).
  pmodify. set (k1 := set_ticks_total _ _).
  assert (tasks k1 !! running k = Some (set_elapsed_ticks (u32 (elapsed_ticks t + 1)) t)) as H1
    by (simpl; by rewrite lookup_insert, decide_True).
  prun (run_load tasks k1 _ _ H1). change (ticks (set_elapsed_ticks (u32 (elapsed_ticks t + 1)) t)) with (ticks t).
  replace k1 with (ticked k t) in * by (by destruct k).
  destruct (ticks t =? 0); [done|]. by rewrite (run_update (ticked k t) (running k) _ _ H1).
Qed.

(** The state after an interrupt that uses up one tick of the slice. *)
Definition counted (k : kernel) (t : task_struct) : kernel :=
  set_tasks (<[running k := set_ticks (u8 (ticks t - 1)) (set_elapsed_ticks (u32 (elapsed_ticks t + 1)) t)]>
               (tasks (ticked k t))) (ticked k t).

Lemma counted_st k t q : tasks k !! running k = Some t -> st_of (counted k t) q = st_of k q.
Proof.
  intros Ht. unfold st_of. simpl. rewrite !lookup_insert. case_decide; [subst q|done]. by rewrite Ht.
Qed.

Lemma counted_ok k t : sched_ok k -> tasks k !! running k = Some t -> sched_ok (counted k t).
Proof.
  intros [Hp Hrun] Ht. pose proof (ticked_pre k t Hp Ht) as [Hnd Hr Hone Hc Hid Hnull Hd].
  assert (tasks (ticked k t) !! running k = Some (set_elapsed_ticks (u32 (elapsed_ticks t + 1)) t)) as H1
    by (simpl; by rewrite lookup_insert, decide_True).
  assert (forall q, st_of (counted k t) q = st_of (ticked k t) q) as Hsto.
  { intros q. rewrite (st_of_insert (ticked k t) (counted k t) (running k) _ q eq_refl).
    case_decide; [subst q|done]. unfold st_of. by rewrite H1. }
  split; [|by rewrite counted_st]. constructor; try (setoid_rewrite Hsto); try done.
  - simpl. rewrite lookup_insert, decide_True by done. by eexists.
  - unfold counted. cbn [tasks set_tasks]. rewrite lookup_insert_ne; [exact Hnull|].
    intros He. rewrite He in Ht. pose proof (sp_null _ Hp). congruence.
  - by apply (dirs_ok_update (ticked k t) (counted k t) (running k) _ (status t) (u8 (ticks t - 1)) Hd H1);
      [simpl; f_equal; by destruct t|..].
Qed.

Lemma u32_add a b : u32 (u32 a + b) = u32 (a + b).
Proof. unfold u32. by rewrite Zplus_mod_idemp_l. Qed.

Lemma ticks_run n k t :
  sched_ok k -> tasks k !! running k = Some t -> stack_magic t = STACK_MAGIC ->
  ticks t = Z.of_nat n -> Z.of_nat n < 256 ->
  exists k' t', repeat_run n intr_timer_handler k = Some k' /\ sched_ok k'
    /\ running k' = running k /\ thread_ready_list k' = thread_ready_list k
    /\ tasks k' !! running k = Some t' /\ ticks t' = 0 /\ stack_magic t' = STACK_MAGIC
    /\ priority t' = priority t /\ eflags k' = eflags k
    /\ u32 (elapsed_ticks t') = u32 (elapsed_ticks t + Z.of_nat n)
    /\ u32 (ticks_total k') = u32 (ticks_total k + Z.of_nat n).
Proof.
  revert k t. induction n as [|n IH]; intros k t Hok Ht Hm Hn Hlt.
  { exists k, t. rewrite !Z.add_0_r. done. }
  pose proof (timer_spec k t Ht Hm) as Hstep. rewrite (proj2 (Z.eqb_neq (ticks t) 0)) in Hstep by lia.
  cbv zeta in Hstep. set (t1 := set_ticks (u8 (ticks t - 1)) _) in Hstep.
  set (k1 := set_tasks (<[running k := t1]> (tasks (ticked k t))) (ticked k t)) in Hstep.
  assert (tasks k1 !! running k1 = Some t1) as Ht1 by (simpl; by rewrite lookup_insert, decide_True).
  assert (sched_ok k1) as Hok1 by (by apply counted_ok).
  destruct (IH k1 t1 Hok1 Ht1) as (k' & t' & Hrr & Hok' & Hrun & Hrd & Ht' & H0 & Hm' & Hpr & He & Hel & Htot);
    [done| |lia|].
  { subst t1. simpl. unwrap. lia. }
  exists k', t'. split; [|split_and!; try done].
  - cbn [repeat_run]. rewrite Hstep. exact Hrr.
  - rewrite Hel. simpl. rewrite u32_add. f_equal. lia.
  - rewrite Htot. simpl. rewrite u32_add. f_equal. lia.
Qed.

(** ** Properties *)

Definition demo_task (s : task_status) (prio n : Z) : task_struct :=
  TaskStruct 0 1 s [] prio n 0 0 (VirtualAddr (Bitmap 0 []) 0) 0 [] [] 0 (-1) 0 STACK_MAGIC.

(** The main thread runs, one thread is ready, the idle thread is blocked. *)
Definition demo_kernel : kernel :=
  Kernel 2 0xc009e000
    (<[0xc009e000 := demo_task TASK_RUNNING 31 3]> (<[0xc0101000 := demo_task TASK_READY 20 20]>
      (<[0xc0100000 := demo_task TASK_BLOCKED 10 10]> ∅)))
    [0xc0101000] [0xc009e000; 0xc0101000; 0xc0100000] 0xc009e000 0xc0100000
    (Bitmap 0 []) ∅ ∅ demo_mem 0 0 ∅ [] ∅.

Lemma demo_kernel_tasks p t :
  tasks demo_kernel !! p = Some t ->
  (p = 0xc009e000 /\ t = demo_task TASK_RUNNING 31 3)
  \/ (p = 0xc0101000 /\ t = demo_task TASK_READY 20 20)
  \/ (p = 0xc0100000 /\ t = demo_task TASK_BLOCKED 10 10).
Proof.
  unfold demo_kernel. cbn [tasks]. rewrite !lookup_insert, lookup_empty.
  repeat case_decide; naive_solver.
Qed.

Lemma demo_kernel_ok : sched_ok demo_kernel.
Proof.
  split; [|vm_compute; done]. constructor.
  - apply NoDup_singleton.
  - intros p. unfold st_of. rewrite fmap_Some. split.
    + intros ->%list_elem_of_singleton. by eexists.
    + intros (t & Ht & Hs). apply demo_kernel_tasks in Ht.
      destruct Ht as [[-> ->]|[[-> ->]|[-> ->]]]; try done. by apply list_elem_of_singleton.
  - intros p. unfold st_of. rewrite fmap_Some. intros (t & Ht & Hs). apply demo_kernel_tasks in Ht.
    destruct Ht as [[-> ->]|[[-> ->]|[-> ->]]]; done.
  - by eexists.
  - by eexists.
  - done.
  - exists (fun _ => 0x100000). split; [done|]. intros x t Ht. apply demo_kernel_tasks in Ht.
    destruct Ht as [[-> ->]|[[-> ->]|[-> ->]]]; done.
Qed.

(** C3: the scheduler never panics on a well-formed state and keeps it well
    formed: [thread_block] runs the first ready task, or the idle thread when
    there is none, [thread_yield] moves the current task behind the ready ones,
    and [thread_unblock] puts a blocked task in front of them. *)
Theorem sched_ops_preserve (k : kernel) :
  sched_ok k ->
  (forall stat, blocked stat -> exists k', after (thread_block stat k) = Some k' /\ sched_ok k'
     /\ running k' :: thread_ready_list k'
        = match thread_ready_list k with [] => [idle_thread k] | l => l end
     /\ (running k <> running k' -> st_of k' (running k) = Some stat))
  /\ (exists k', after (thread_yield k) = Some k' /\ sched_ok k'
        /\ running k' :: thread_ready_list k' = thread_ready_list k ++ [running k])
  /\ (forall p t, tasks k !! p = Some t -> blocked (status t) ->
        exists k', thread_unblock p k = Ret tt k' /\ sched_ok k'
          /\ thread_ready_list k' = p :: thread_ready_list k /\ running k' = running k).
Proof.
  intros Hok. pose proof Hok as [Hp Hrun]. unfold st_of in Hrun. apply fmap_Some in Hrun as (t & Ht & Hst).
  split; [|split].
  - intros stat Hb. destruct (thread_block_spec k stat t Hok Ht Hb) as (nxt & rest & k' & -> & Hsd).
    destruct (after_suspends k nxt k') as [e ->]. destruct Hsd as [Hq Hok' _ Hr Hrd Hsts _].
    exists (set_eflags e k'). split; [done|]. split; [by apply set_eflags_ok|]. split.
    + simpl. rewrite Hr, Hrd, <- Hq. unfold queue_of. simpl.
      rewrite bool_decide_false by (destruct Hb as [->|[->| ->]]; done). by destruct (thread_ready_list k).
    + simpl. intros Hne. rewrite Hr in Hne. unfold st_of at 1. simpl. fold (st_of k' (running k)).
      rewrite Hsts, decide_False, decide_False; [|destruct Hb as [->|[->| ->]]; naive_solver|congruence].
      unfold st_of. simpl. by rewrite lookup_insert, decide_True.
  - destruct (thread_yield_spec k t Hok Ht) as (nxt & rest & k' & -> & [Hq Hok' _ Hr Hrd _ _]).
    destruct (after_suspends k nxt k') as [e ->]. exists (set_eflags e k').
    split; [done|]. split; [by apply set_eflags_ok|]. simpl. rewrite Hr, Hrd, <- Hq.
    unfold queue_of. simpl. by destruct (thread_ready_list k).
  - intros p tp Htp Hb. destruct (thread_unblock_ok k p tp Hok Htp Hb) as [-> Hok']. by eexists.
Qed.

Lemma sched_ops_preserve_witness :
  exists k', after (thread_block TASK_WAITING demo_kernel) = Some k' /\ sched_ok k'
    /\ running k' :: thread_ready_list k' = [0xc0101000].
Proof.
  destruct (sched_ops_preserve demo_kernel demo_kernel_ok) as (Hb & _ & _).
  destruct (Hb TASK_WAITING) as (k' & Ha & Hok & Hq & _); [right; left; reflexivity|].
  exists k'. split; [exact Ha|]. split; [exact Hok|exact Hq].
Defined.

(** C27: round robin.  When tasks leave the processor only because their time is
    up, a task with [n] tasks before it in the ready list runs after exactly
    [n + 1] calls of [schedule], and then the tasks that ran wait behind the
    others in the order in which they ran. *)
Theorem round_robin (k : kernel) (r1 r2 : list Z) (x : Z) :
  sched_ok k -> intr_get_status (eflags k) = INTR_OFF ->
  thread_ready_list k = r1 ++ x :: r2 ->
  exists k', repeat_run (S (length r1)) schedule k = Some k' /\ sched_ok k'
    /\ intr_get_status (eflags k') = INTR_OFF /\ running k' = x
    /\ thread_ready_list k' = r2 ++ running k :: r1.
Proof. apply turns_reach. Qed.

Lemma round_robin_witness :
  exists k', repeat_run 1 schedule demo_kernel = Some k' /\ running k' = 0xc0101000
    /\ thread_ready_list k' = [0xc009e000].
Proof.
  destruct (round_robin demo_kernel [] [] 0xc0101000) as (k' & H1 & _ & _ & H2 & H3).
  - apply demo_kernel_ok.
  - reflexivity.
  - reflexivity.
  - exists k'. split; [exact H1|]. split; [exact H2|exact H3].
Defined.

(** A task whose [ticks] field is [n] keeps the processor for [n] timer
    interrupts, each of which is counted; the next one hands it to the first
    ready task, and the preempted task waits last with a slice of [priority]. *)
Theorem timer_slice (k : kernel) (t : task_struct) (n : nat) :
  sched_ok k -> intr_get_status (eflags k) = INTR_OFF ->
  tasks k !! running k = Some t -> stack_magic t = STACK_MAGIC ->
  ticks t = Z.of_nat n -> Z.of_nat n < 256 ->
  exists k1 k2, repeat_run n intr_timer_handler k = Some k1 /\ sched_ok k1
    /\ running k1 = running k /\ thread_ready_list k1 = thread_ready_list k
    /\ u32 (ticks_total k1) = u32 (ticks_total k + Z.of_nat n)
    /\ after (intr_timer_handler k1) = Some k2 /\ sched_ok k2
    /\ running k2 :: thread_ready_list k2 = thread_ready_list k ++ [running k]
    /\ slice_of k2 (running k) = Some (priority t).
Proof.
  intros Hok Hoff Ht Hm Hn Hlt.
  destruct (ticks_run n k t Hok Ht Hm Hn Hlt)
    as (k1 & t1 & Hrr & Hok1 & Hrun & Hrd & Ht1 & H0 & Hm1 & Hpr & He & _ & Htot).
  rewrite <- Hrun in Ht1. pose proof (timer_spec k1 t1 Ht1 Hm1) as Hstep.
  rewrite H0 in Hstep. change (0 =? 0) with true in Hstep. cbv iota in Hstep.
  destruct Hok1 as [Hp1 Hr1]. pose proof Hr1 as Hst1. unfold st_of in Hst1. rewrite Ht1 in Hst1.
  injection Hst1 as Hst1. set (t2 := set_elapsed_ticks (u32 (elapsed_ticks t1 + 1)) t1).
  destruct (schedule_spec (ticked k1 t1) t2) as (nxt & rest & k2 & Hs & [Hq Hok2 _ Hr2 Hrd2 _ Hsl]).
  - by apply ticked_pre.
  - simpl. by rewrite He.
  - simpl. by rewrite lookup_insert, decide_True.
  - exists k1, k2. split_and!; try done.
    + by rewrite Hstep, Hs, after_resumes.
    + rewrite Hr2, Hrd2, <- Hq. unfold queue_of. rewrite bool_decide_true by done. simpl.
      rewrite Hrd, Hrun. by destruct (thread_ready_list k).
    + rewrite Hsl. simpl. rewrite decide_True by (by rewrite Hrun). by rewrite <- Hpr.
Qed.

Lemma timer_slice_witness :
  exists k1 k2, repeat_run 3 intr_timer_handler demo_kernel = Some k1
    /\ after (intr_timer_handler k1) = Some k2
    /\ running k2 = 0xc0101000 /\ slice_of k2 0xc009e000 = Some 31.
Proof.
  destruct (timer_slice demo_kernel (demo_task TASK_RUNNING 31 3) 3)
    as (k1 & k2 & H1 & _ & _ & _ & _ & H2 & _ & H3 & H4).
  - apply demo_kernel_ok.
  - reflexivity.
  - reflexivity.
  - reflexivity.
  - reflexivity.
  - lia.
  - exists k1, k2. split; [exact H1|]. split; [exact H2|]. injection H3 as H3 _. split; [exact H3|exact H4].
Defined.
