(* ===== verification/Resume.v ===== *)
(** * Resume: code on a part of the state, and runs of suspended code

    A component whose state contains the kernel's runs kernel code on that part
    ([zoom]).  [settles] is total correctness of code that is suspended: whoever
    resumes it, and in whichever state [wake] allows, it comes to its end
    without an error, and the result satisfies the postcondition. *)
From S2P Require Import Prelude.

(** ** A part of the state *)

Class Part (S T : Type) := { part : S -> T; with_part : T -> S -> S }.

Class PartLaws (S T : Type) `{Part S T} := {
  part_with : forall (t : T) (s : S), part (with_part t s) = t;
  with_part_same : forall s : S, with_part (part s) s = s;
  with_part_twice : forall (t u : T) (s : S), with_part t (with_part u s) = with_part t s
}.

Fixpoint zoom_out {S T : Type} `{Part S T} {A} (o : outcome T A) (s : S) : outcome S A :=
  match o with
  | Ret a t => Ret a (with_part t s)
  | Err e => Err e
  | Switch t k => Switch (with_part t s) (fun s' => zoom_out (k (part s')) s')
  end.

(** Code of the part, run on the whole. *)
Definition zoom {S T : Type} `{Part S T} {A} (m : proc T A) : proc S A := fun s => zoom_out (m (part s)) s.

Section Zoom.
Context {S T : Type} `{PartLaws S T}.

Lemma zoom_Ret {A} (m : proc T A) (s : S) a t : m (part s) = Ret a t -> zoom m s = Ret a (with_part t s).
Proof. intros Hm. unfold zoom. by rewrite Hm. Qed.

Lemma zoom_Err {A} (m : proc T A) (s : S) e : m (part s) = Err e -> zoom m s = Err e.
Proof. intros Hm. unfold zoom. by rewrite Hm. Qed.

Lemma zoom_Switch {A} (m : proc T A) (s : S) t k :
  m (part s) = Switch t k -> zoom m s = Switch (with_part t s) (zoom k).
Proof. intros Hm. unfold zoom. by rewrite Hm. Qed.

(** An action that leaves the part as it is. *)
Lemma zoom_read {A} (m : proc T A) (s : S) a : m (part s) = Ret a (part s) -> zoom m s = Ret a s.
Proof. intros Hm. by rewrite (zoom_Ret m s a _ Hm), with_part_same. Qed.
End Zoom.

(** ** Runs *)

Inductive settles {S A : Type} (wake : S -> S -> Prop) (P : A -> S -> Prop) : outcome S A -> Prop :=
| settles_ret a s : P a s -> settles wake P (Ret a s)
| settles_switch s k : (forall s', wake s s' -> settles wake P (k s')) -> settles wake P (Switch s k).

Section Settles.
Context {S : Type} (wake : S -> S -> Prop).

Lemma settles_mono {A} (P Q : A -> S -> Prop) o : settles wake P o -> (forall a s, P a s -> Q a s) -> settles wake Q o.
Proof. intros Ho HPQ. induction Ho as [a s HP|s k _ IH]; constructor; auto. Qed.

(** One call after the other. *)
Lemma settles_bind {A B} (P : A -> S -> Prop) (Q : B -> S -> Prop) (f : A -> proc S B) o :
  settles wake P o -> (forall a s, P a s -> settles wake Q (f a s)) -> settles wake Q (outcome_bind f o).
Proof.
  intros Ho Hf. induction Ho as [a s HP|s k _ IH]; cbn [outcome_bind]; [by apply Hf|].
  constructor. exact IH.
Qed.

(** A run of settling code that returns at once. *)
Lemma settles_Ret {A} (P : A -> S -> Prop) a s : settles wake P (Ret a s) -> P a s.
Proof. by inversion 1. Qed.

Lemma settles_no_error {A} (P : A -> S -> Prop) e : ~ settles wake P (Err e).
Proof. by inversion 1. Qed.
End Settles.

(** Running on in the state a suspended call is resumed in. *)
Definition resume {S A : Type} (s : S) (o : outcome S A) : option (outcome S A) :=
  match o with Switch _ k => Some (k s) | _ => None end.

Lemma settles_resume {S A : Type} (wake : S -> S -> Prop) (P : A -> S -> Prop) s s' k :
  settles wake P (Switch s k) -> wake s s' -> settles wake P (k s').
Proof. inversion 1; subst; auto. Qed.
