(* ===== verification/Timer.v ===== *)
(** * Timer: device/timer.c

    Programming the counter of the 8253, sleeping, and initialisation.  The
    handler of the timer interrupt is in Sched.  A port write is a pair of port
    and byte. *)
From S2P Require Import Prelude Interrupt DList Paging Pages Kernel Sched Resume.

(** ** Definitions *)

Definition IRQ0_FREQUENCY : Z := 100.

Definition INPUT_FREQUENCY : Z := 1193180.

Definition COUNTER0_VALUE : Z := INPUT_FREQUENCY / IRQ0_FREQUENCY.

Definition CONTRER0_PORT : Z := 0x40.

Definition COUNTER0_NO : Z := 0.

Definition COUNTER_MODE : Z := 2.

Definition READ_WRITE_LATCH : Z := 3.

Definition PIT_CONTROL_PORT : Z := 0x43.

Definition mil_seconds_per_intr : Z := 1000 / IRQ0_FREQUENCY.

(** The cast comes before the shift. *)
Definition frequency_set (counter_port counter_no rwl counter_mode counter_value : Z) : list (Z * Z) :=
  [ (PIT_CONTROL_PORT, u8 (Z.lor (Z.lor (Z.shiftl counter_no 6) (Z.shiftl rwl 4)) (Z.shiftl counter_mode 1)));
    (counter_port, u8 counter_value);
    (counter_port, u8 (Z.shiftr (u8 counter_value) 8)) ].

(** The port writes and the table of handlers after [timer_init]; [handler] is
    the address of [intr_timer_handler]. *)
Definition timer_init (idt_table : list Z) (handler : Z) : res (list (Z * Z) * list Z) :=
  t ← register_handler idt_table 0x20 handler;
  mret (frequency_set CONTRER0_PORT COUNTER0_NO READ_WRITE_LATCH COUNTER_MODE (u16 COUNTER0_VALUE), t).

(** The loop of [ticks_to_sleep]; the fuel bounds how often the task yields. *)
Fixpoint ticks_to_sleep_loop (fuel : nat) (start_tick sleep_ticks : Z) : proc kernel unit :=
  k ← get;
  if u32 (ticks_total k - start_tick) <? sleep_ticks then
    match fuel with
    | O => fail EFuel
    | S fuel' => _ ← thread_yield; ticks_to_sleep_loop fuel' start_tick sleep_ticks
    end
  else mret tt.

Definition ticks_to_sleep (fuel : nat) (sleep_ticks : Z) : proc kernel unit :=
  k ← get;
  let start_tick := ticks_total k in
  ticks_to_sleep_loop fuel start_tick sleep_ticks.

Definition mtime_sleep (fuel : nat) (m_seconds : Z) : proc kernel unit :=
  let sleep_ticks := DIV_ROUND_UP m_seconds mil_seconds_per_intr in
  _ ← assert (0 <? sleep_ticks);
  ticks_to_sleep fuel sleep_ticks.

(** ** The counter *)

(** What the counter is loaded with by two writes to its port, low byte first. *)
Definition counter_loaded (writes : list (Z * Z)) (port : Z) : option Z :=
  match filter (fun w => w.1 = port) writes with
  | [(_, lo); (_, hi)] => Some (lo + 256 * hi)
  | _ => None
  end.

(** ** Sleeping *)

(** How a task that sleeps is resumed, [d] ticks after it gave up the processor:
    it runs, and another task is ready. *)
Record tick_wake (p d : Z) (k k' : kernel) : Prop := {
  tw_ok : sched_ok k';
  tw_run : running k' = p;
  tw_ready : exists q, q ∈ thread_ready_list k';
  tw_off : intr_get_status (eflags k') = INTR_OFF;
  tw_range : 1 <= d < 2 ^ 31;
  tw_ticks : ticks_total k' = u32 (ticks_total k + d)
}.

(** A run with its time: [timed wake P Q e o] is the rest [o] of a run that
    [e] ticks have passed in.  It leaves the processor only at times in [P], and
    ends with a result, a time and a state in [Q].  The time is the sum of the
    ticks the task was away for; it is not a counter of the program. *)
Inductive timed {A : Type} (wake : Z -> kernel -> kernel -> Prop) (P : Z -> Prop) (Q : A -> Z -> kernel -> Prop) :
    Z -> outcome kernel A -> Prop :=
| timed_ret e a k : Q a e k -> timed wake P Q e (Ret a k)
| timed_switch e k r : P e -> (forall d k', wake d k k' -> timed wake P Q (e + d) (r k')) -> timed wake P Q e (Switch k r).

(** [k'] is [n] ticks later than [k]. *)
Definition later (k k' : kernel) (n : Z) : Prop := ticks_total k' = u32 (ticks_total k + n).

Lemma u32_sub_add x n : 0 <= n < 2 ^ 32 -> u32 (u32 (x + n) - x) = n.
Proof. intros. unfold u32. lia. Qed.

Lemma u32_shift x a b : u32 (u32 (x + a) + b) = u32 (x + (a + b)).
Proof. unfold u32. lia. Qed.

(** Giving up the processor while another task is ready. *)
Lemma yield_leaves k q :
  sched_ok k -> q ∈ thread_ready_list k ->
  exists k' st, thread_yield k = Switch k' (k_intr_set_status st) /\ ticks_total k' = ticks_total k
    /\ st_of k' (running k) = Some TASK_READY.
Proof.
  intros Hok Hq. destruct (sp_cur _ (proj1 Hok)) as [t Ht].
  destruct (thread_yield_spec k t Hok Ht) as (nxt & rest & k' & Hy & Hs). exists k', (intr_disable (eflags k)).1.
  assert (running k <> nxt) as Hne.
  { intros He. pose proof (sd_queue _ _ _ _ _ Hs) as Hqu. unfold queue_of in Hqu. cbn in Hqu.
    destruct (thread_ready_list k) as [|x l] eqn:El; [by apply not_elem_of_nil in Hq|]. injection Hqu as Hx _.
    assert (st_of k (running k) = Some TASK_READY) as Hst; [|destruct Hok as [_ Hr]; congruence].
    apply (sp_ready _ (proj1 Hok)). rewrite El, He, <- Hx. apply list_elem_of_here. }
  unfold suspends in Hy. rewrite (proj2 (Z.eqb_neq _ _) Hne) in Hy. split; [exact Hy|].
  split; [by rewrite (sf_total _ _ (sd_frame _ _ _ _ _ Hs))|].
  rewrite (sd_status _ _ _ _ _ Hs), !decide_False by (congruence || (intros [_ H]; discriminate H)).
  unfold st_of. cbn. by rewrite lookup_insert_eq.
Qed.

Lemma sleep_loop_timed n p start sleep k e :
  sched_ok k -> running k = p -> (exists q, q ∈ thread_ready_list k) ->
  0 <= e < 2 ^ 31 + sleep -> 0 < sleep <= 2 ^ 31 -> ticks_total k = u32 (start + e) -> sleep <= e + Z.of_nat n ->
  timed (tick_wake p) (fun e => e < sleep)
    (fun _ e k' => sleep <= e /\ ticks_total k' = u32 (start + e) /\ running k' = p /\ sched_ok k') e
    (ticks_to_sleep_loop n start sleep k).
Proof.
  revert k e. induction n as [|n IH]; intros k e Hok Hrun [q Hq] He Hs Ht Hn.
  all: cbn [ticks_to_sleep_loop]; pget; rewrite Ht, u32_sub_add by lia.
  - replace (e <? sleep) with false by lia. constructor. split; [lia|done].
  - destruct (Z.ltb_spec e sleep) as [Hlt|Hge]; [|constructor; done].
    destruct (yield_leaves k q Hok Hq) as (k' & st & Hy & Htk & _). rewrite (bind_Switch _ _ _ _ _ Hy).
    constructor; [done|]. intros d s' [Hok' Hrun' (q' & Hq') _ Hd Htd]. cbn [outcome_bind k_intr_set_status].
    apply IH; [by apply set_eflags_ok|done|by exists q'|lia|done| |lia].
    cbn. by rewrite Htd, Htk, Ht, u32_shift.
Qed.

(** A whole time slice of the task that runs meanwhile wakes the sleeper that is
    first in the ready list. *)
Lemma slice_wakes k t p l :
  sched_ok k -> intr_get_status (eflags k) = INTR_OFF -> tasks k !! running k = Some t ->
  stack_magic t = STACK_MAGIC -> 0 <= ticks t < 256 -> thread_ready_list k = p :: l ->
  exists k1 k2 rest, repeat_run (Z.to_nat (ticks t)) intr_timer_handler k = Some k1
    /\ intr_timer_handler k1 = Switch k2 rest /\ tick_wake p (ticks t + 1) k k2.
Proof.
  intros Hok Hoff Ht Hm Hr Hl.
  destruct (ticks_run (Z.to_nat (ticks t)) k t Hok Ht Hm) as (k1 & t1 & Hrun & Hok1 & Hr1 & Hl1 & Ht1 & Hz & Hm1 & _ & He1 & _ & Htot); [lia|lia|].
  rewrite <- Hr1 in Ht1. pose proof (timer_spec k1 t1 Ht1 Hm1) as Hstep. rewrite (proj2 (Z.eqb_eq (ticks t1) 0) Hz) in Hstep.
  set (k1' := ticked k1 t1) in *. pose proof (ticked_pre k1 t1 (proj1 Hok1) Ht1) as Hpre.
  assert (tasks k1' !! running k1' = Some (set_elapsed_ticks (u32 (elapsed_ticks t1 + 1)) t1)) as Ht1' by (cbn; by rewrite lookup_insert_eq).
  assert (status t1 = TASK_RUNNING) as Hst by (destruct Hok1 as [_ H]; unfold st_of in H; rewrite Ht1 in H; by injection H).
  destruct (schedule_spec k1' _ Hpre (eq_trans (f_equal _ He1) Hoff) Ht1') as (nxt & rest & k2 & Hsch & Hs).
  pose proof (sd_queue _ _ _ _ _ Hs) as Hq. unfold queue_of in Hq. change (status (set_elapsed_ticks _ t1)) with (status t1) in Hq.
  rewrite Hst in Hq. cbn in Hq. rewrite Hl1, Hl in Hq. injection Hq as <- Hrest.
  assert (running k1 <> p) as Hne.
  { intros He. assert (st_of k1 (running k1) = Some TASK_READY) as Hrd; [|destruct Hok1; congruence].
    apply (sp_ready _ (proj1 Hok1)). rewrite Hl1, Hl, He. apply list_elem_of_here. }
  exists k1, k2, (fun s => Ret tt s). split; [done|]. split.
  { rewrite Hstep, Hsch. unfold resumes. change (running k1') with (running k1). by rewrite (proj2 (Z.eqb_neq _ _) Hne). }
  constructor; [apply Hs|apply Hs| |by rewrite (sf_eflags _ _ (sd_frame _ _ _ _ _ Hs)), <- Hoff; cbn; rewrite He1|lia|].
  - exists (running k1). rewrite (sd_ready _ _ _ _ _ Hs), <- Hrest. apply elem_of_app. right. by apply list_elem_of_singleton.
  - rewrite (sf_total _ _ (sd_frame _ _ _ _ _ Hs)). cbn. rewrite <- u32_add, Htot.
    rewrite u32_shift. f_equal. lia.
Qed.

(** ** Properties *)

(** The counter never gets the high byte of its value: [frequency_set] writes
    0 for it, so [timer_init] loads 155 instead of 11931, which makes 7697
    interrupts a second instead of 100. *)
Theorem frequency_low_byte (port no rwl mode value : Z) :
  port <> PIT_CONTROL_PORT ->
  counter_loaded (frequency_set port no rwl mode value) port = Some (value mod 256).
Proof.
  intros Hp. unfold counter_loaded, frequency_set. rewrite filter_cons_False by (cbn; congruence).
  rewrite !filter_cons_True by done. rewrite filter_nil. f_equal.
  assert (0 <= u8 value < 256) by (unfold u8; lia).
  rewrite Z.shiftr_div_pow2, (Z.div_small (u8 value)) by lia. change (u8 0) with 0. unfold u8. lia.
Qed.

Lemma frequency_low_byte_witness :
  COUNTER0_VALUE = 11931
  /\ counter_loaded (frequency_set CONTRER0_PORT COUNTER0_NO READ_WRITE_LATCH COUNTER_MODE COUNTER0_VALUE) CONTRER0_PORT = Some 155.
Proof. split; [reflexivity|]. rewrite frequency_low_byte by discriminate. reflexivity. Defined.

(** C37: a task that calls [mtime_sleep] with up to [2 ^ 31] milliseconds gets on
    exactly when as many timer ticks have passed as its milliseconds make up,
    rounded up.  While fewer have passed it gives up the processor, and it
    returns only when the ticks it was away for add up to that number, also when
    the counter of ticks wraps around.  It does return: when another task is
    ready and at least one tick passes until it is resumed, it yields at most
    that many times. *)
Theorem mtime_sleep_sleeps (fuel : nat) (m : Z) (k : kernel) :
  let n := DIV_ROUND_UP m mil_seconds_per_intr in
  sched_ok k -> (exists q, q ∈ thread_ready_list k) -> 0 < m <= 2 ^ 31 -> n <= Z.of_nat fuel ->
  0 <= ticks_total k < 2 ^ 32 ->
  timed (tick_wake (running k)) (fun e => e < n)
    (fun _ e k' => n <= e /\ later k k' e /\ running k' = running k /\ sched_ok k') 0 (mtime_sleep fuel m k).
Proof.
  intros n Hok Hq Hm Hn Ht. unfold mtime_sleep. fold n.
  assert (0 < n <= 2 ^ 31) as Hnn.
  { unfold n, DIV_ROUND_UP, mil_seconds_per_intr, IRQ0_FREQUENCY. change (1000 / 100) with 10. rewrite u32_id by lia. lia. }
  passert; [|lia]. unfold ticks_to_sleep. pget. apply (sleep_loop_timed fuel (running k) _ n k 0); try done; try lia.
  rewrite Z.add_0_r, u32_id; [done|lia].
Qed.

(** The demo kernel sleeps for 15 milliseconds: it yields, and is resumed when
    the other thread has used up its slice, 21 ticks later. *)
Lemma mtime_sleep_sleeps_witness :
  timed (tick_wake 0xc009e000) (fun e => e < 2)
    (fun _ e k' => 2 <= e /\ later demo_kernel k' e /\ running k' = 0xc009e000 /\ sched_ok k') 0 (mtime_sleep 2 15 demo_kernel)
  /\ exists k1 rest s', mtime_sleep 2 15 demo_kernel = Switch k1 rest /\ tick_wake 0xc009e000 21 k1 s'.
Proof.
  assert (exists q, q ∈ thread_ready_list demo_kernel) as Hq by (exists 0xc0101000; apply list_elem_of_here).
  split; [apply (mtime_sleep_sleeps 2 15 demo_kernel demo_kernel_ok Hq); [lia|vm_compute; discriminate|cbn; lia]|].
  destruct (thread_yield_spec demo_kernel _ demo_kernel_ok eq_refl) as (nxt & rest & k1 & Hy & Hs).
  pose proof (sd_queue _ _ _ _ _ Hs) as Hqu. cbn in Hqu. injection Hqu as <- <-.
  destruct (tasks k1 !! running k1) as [t1|] eqn:Et1; [|destruct (sp_cur _ (proj1 (sd_ok _ _ _ _ _ Hs))) as [? ?]; congruence].
  pose proof (sd_running _ _ _ _ _ Hs) as Hr1. rewrite Hr1 in Et1.
  destruct (sf_tasks _ _ (sd_frame _ _ _ _ _ Hs) 0xc0101000) as [_ Hf].
  destruct (Hf _ _ eq_refl Et1) as (s & n & Het). pose proof (sd_slice _ _ _ _ _ Hs 0xc0101000) as Hsl.
  unfold slice_of in Hsl. rewrite Et1, Het in Hsl. change (Some n = Some 20) in Hsl. injection Hsl as ->.
  destruct (slice_wakes k1 t1 0xc009e000 []) as (k2 & k3 & r3 & _ & _ & Hw);
    [apply Hs|by rewrite (sf_eflags _ _ (sd_frame _ _ _ _ _ Hs))|by rewrite Hr1|by rewrite Het|rewrite Het; cbn; lia|apply Hs|].
  rewrite Het in Hw. exists k1. eexists. exists k3. split; [|exact Hw].
  assert (thread_yield demo_kernel = Switch k1 (k_intr_set_status INTR_OFF)) as Hy'; [exact Hy|].
  unfold mtime_sleep. passert; [|done]. unfold ticks_to_sleep. pget. cbn [ticks_to_sleep_loop]. pget.
  exact (bind_Switch _ _ _ _ _ Hy').
Defined.
