(* ===== verification/Tss.v ===== *)
(** * Tss: userprog/tss.c

    The segment descriptors [tss_init] puts into the descriptor table of the
    boot loader, and the task state segment.  [update_tss_esp] is in Sched. *)
From S2P Require Import Prelude.

(** ** Definitions *)

(** struct gdt_desc of kernel/global.h *)
Record gdt_desc : Type := GdtDesc {
  limit_low_word : Z;
  base_low_word : Z;
  base_mid_byte : Z;
  attr_low_byte : Z;
  limit_high_attr_high : Z;
  base_high_byte : Z
}.

(** Attributes and selectors of kernel/global.h. *)
Definition GDT_ATTR_HIGH : Z := Z.shiftl 1 7 + Z.shiftl 1 6 + Z.shiftl 0 5 + Z.shiftl 0 4.

Definition GDT_CODE_ATTR_LOW_DPL3 : Z := Z.shiftl 1 7 + Z.shiftl 3 5 + Z.shiftl 1 4 + 8.

Definition GDT_DATA_ATTR_LOW_DPL3 : Z := Z.shiftl 1 7 + Z.shiftl 3 5 + Z.shiftl 1 4 + 2.

Definition TSS_ATTR_HIGH : Z := Z.shiftl 1 7 + Z.shiftl 0 6 + Z.shiftl 0 5 + Z.shiftl 0 4 + 0.

Definition TSS_ATTR_LOW : Z := Z.shiftl 1 7 + Z.shiftl 0 5 + Z.shiftl 0 4 + 9.

Definition SELECTOR_K_DATA : Z := Z.shiftl 2 3 + Z.shiftl 0 2 + 0.

Definition SELECTOR_K_STACK : Z := SELECTOR_K_DATA.

Definition SELECTOR_TSS : Z := Z.shiftl 4 3 + Z.shiftl 0 2 + 0.

Definition SELECTOR_U_CODE : Z := Z.shiftl 5 3 + Z.shiftl 0 2 + 3.

Definition SELECTOR_U_DATA : Z := Z.shiftl 6 3 + Z.shiftl 0 2 + 3.

Definition make_gdt_desc (desc_addr limit attr_low attr_high : Z) : gdt_desc :=
  let desc_base := u32 desc_addr in
  {| limit_low_word := u16 (Z.land limit 0x0000ffff);
     base_low_word := u16 (Z.land desc_base 0x0000ffff);
     base_mid_byte := u8 (Z.shiftr (Z.land desc_base 0x00ff0000) 16);
     attr_low_byte := u8 attr_low;
     limit_high_attr_high := u8 (Z.shiftr (Z.land limit 0x000f0000) 16 + u8 attr_high);
     base_high_byte := u8 (Z.shiftr desc_base 24) |}.

(** struct tss is 27 words; the words that [tss_init] sets. *)
Definition TSS_WORDS : Z := 27.

Definition tss_size : Z := 4 * TSS_WORDS.

Definition SS0_WORD : Z := 2.

Definition IO_BASE_WORD : Z := 26.

(** What [tss_init] leaves: the words of [tss], the descriptors it stores by
    address, the operand of [lgdt] and the selector given to [ltr]. *)
Record tss_setup : Type := TssSetup {
  tss_words : list Z;
  gdt_stores : list (Z * gdt_desc);
  gdt_operand : Z;
  task_register : Z
}.

(** [tss] is the address of the variable. *)
Definition tss_init (tss : Z) : res tss_setup :=
  t ← wr (replicate (Z.to_nat TSS_WORDS) 0) SS0_WORD SELECTOR_K_STACK;
  t ← wr t IO_BASE_WORD tss_size;
  mret {|
    tss_words := t;
    gdt_stores :=
      [ (0xc0000920, make_gdt_desc tss (tss_size - 1) TSS_ATTR_LOW TSS_ATTR_HIGH);
        (0xc0000928, make_gdt_desc 0 0xfffff GDT_CODE_ATTR_LOW_DPL3 GDT_ATTR_HIGH);
        (0xc0000930, make_gdt_desc 0 0xfffff GDT_DATA_ATTR_LOW_DPL3 GDT_ATTR_HIGH) ];
    gdt_operand := Z.lor (8 * 7 - 1) (Z.shiftl (u32 0xc0000900) 16);
    task_register := SELECTOR_TSS |}.

(** ** What the processor reads *)

Definition seg_base (d : gdt_desc) : Z := base_low_word d + 2 ^ 16 * base_mid_byte d + 2 ^ 24 * base_high_byte d.

Definition seg_limit (d : gdt_desc) : Z := limit_low_word d + 2 ^ 16 * (limit_high_attr_high d mod 16).

(** The number of bytes of the segment: the granularity bit counts pages. *)
Definition seg_bytes (d : gdt_desc) : Z :=
  if Z.testbit (limit_high_attr_high d) 7 then (seg_limit d + 1) * 4096 else seg_limit d + 1.

Definition seg_present (d : gdt_desc) : bool := Z.testbit (attr_low_byte d) 7.

Definition seg_dpl (d : gdt_desc) : Z := attr_low_byte d / 32 mod 4.

(** The system bit and the type. *)
Definition seg_type (d : gdt_desc) : Z := attr_low_byte d mod 32.

(** The table register after [lgdt]: limit and base. *)
Definition gdtr_limit (op : Z) : Z := op mod 2 ^ 16.

Definition gdtr_base (op : Z) : Z := op / 2 ^ 16 mod 2 ^ 32.

(** The descriptor a selector designates: inside the table, found at its place. *)
Definition selects (s : tss_setup) (sel : Z) (d : gdt_desc) : Prop :=
  8 * (sel / 8) + 7 <= gdtr_limit (gdt_operand s) /\ (gdtr_base (gdt_operand s) + 8 * (sel / 8), d) ∈ gdt_stores s.

(** The offset of the port permission map: the upper half of word 25. *)
Definition io_map_base (words : list Z) : Z := default 0 (words !! 25%nat) / 2 ^ 16.

(** Whether code of privilege level 3 may use a port: the byte that holds the
    port's bit and the next one lie in the segment, and the bit is clear. *)
Definition port_allowed (words : list Z) (bytes port : Z) : bool :=
  let off := io_map_base words + port / 8 in
  (off + 1 <? bytes) && negb (Z.testbit (default 0 (words !! Z.to_nat (off / 4))) (8 * (off mod 4) + port mod 8)).

(** ** Lemmas *)

Lemma land_slice x i n : 0 <= i -> 0 <= n -> Z.shiftr (Z.land x (Z.shiftl (Z.ones n) i)) i = x / 2 ^ i mod 2 ^ n.
Proof.
  intros Hi Hn. rewrite Z.shiftr_land, Z.shiftr_shiftl_l, Z.sub_diag, Z.shiftl_0_r by lia.
  by rewrite Z.land_ones, Z.shiftr_div_pow2 by lia.
Qed.

(** A descriptor gives back the address, the limit and the attributes. *)
Lemma make_gdt_desc_fields a l lo hi :
  0 <= a < 2 ^ 32 -> 0 <= l < 2 ^ 20 -> 0 <= lo < 256 -> 0 <= hi < 256 -> hi mod 16 = 0 ->
  let d := make_gdt_desc a l lo hi in
  seg_base d = a /\ seg_limit d = l /\ attr_low_byte d = lo /\ limit_high_attr_high d = l / 2 ^ 16 + hi.
Proof.
  intros Ha Hl Hlo Hhi H16. cbn zeta. unfold seg_base, seg_limit, make_gdt_desc. cbn.
  rewrite (u32_id a Ha). change 0xffff with (Z.ones 16). rewrite !Z.land_ones by lia.
  change 0xff0000 with (Z.shiftl (Z.ones 8) 16). change 0xf0000 with (Z.shiftl (Z.ones 4) 16).
  rewrite !land_slice by lia. rewrite Z.shiftr_div_pow2 by lia. unfold u8, u16. split_and!; lia.
Qed.

(** ** Properties *)

(** After [tss_init] the task register designates a present descriptor of
    level 0 with the address of [tss] and the limit of the struct; the selectors
    of user code and user data designate level 3 segments of the whole 4 GiB,
    one executable, one writable. *)
Theorem tss_init_segments (tss : Z) :
  0 <= tss < 2 ^ 32 ->
  exists s dt dc dd, tss_init tss = Ok s
    /\ selects s (task_register s) dt /\ selects s SELECTOR_U_CODE dc /\ selects s SELECTOR_U_DATA dd
    /\ seg_base dt = tss /\ seg_limit dt = tss_size - 1 /\ seg_present dt = true /\ seg_dpl dt = 0 /\ seg_type dt = 9
    /\ Forall (fun d => seg_base d = 0 /\ seg_bytes d = 2 ^ 32 /\ seg_present d = true /\ seg_dpl d = 3) [dc; dd]
    /\ seg_type dc = 16 + 8 /\ seg_type dd = 16 + 2
    /\ tss_words s !! Z.to_nat SS0_WORD = Some SELECTOR_K_DATA.
Proof.
  intros Ht. do 4 eexists. split; [reflexivity|]. unfold selects.
  split; [split; [by vm_compute|by left]|]. split; [split; [by vm_compute|right; by left]|].
  split; [split; [by vm_compute|right; right; by left]|].
  destruct (make_gdt_desc_fields tss (tss_size - 1) TSS_ATTR_LOW TSS_ATTR_HIGH Ht) as (Hb & Hl & Ha & _);
    [by vm_compute|by vm_compute|by vm_compute|done|].
  unfold seg_present, seg_dpl, seg_type. rewrite Hb, Hl, Ha.
  repeat split; try (vm_compute; reflexivity). repeat constructor; vm_compute; reflexivity.
Qed.

Lemma tss_init_segments_witness :
  exists s dt, tss_init 0xc0018000 = Ok s /\ selects s (task_register s) dt /\ seg_base dt = 0xc0018000.
Proof.
  destruct (tss_init_segments 0xc0018000) as (s & dt & _ & _ & H & Hs & _ & _ & Hb & _); [lia|].
  exists s, dt. split; [exact H|]. split; [exact Hs|exact Hb].
Defined.

(** [tss_init] does not close the ports to user code.  The struct has one word
    more than the processor's, so [io_base] is not the offset of the permission
    map; that offset stays 0 and the map is the beginning of the segment itself,
    whose granularity bit makes it 432 KiB long.  Ports 0x40 to 0x43 of the timer
    and 0x1f0 to 0x1f7 of the disk, for instance, are open to level 3. *)
Theorem tss_leaves_ports_open (tss : Z) :
  0 <= tss < 2 ^ 32 ->
  exists s dt, tss_init tss = Ok s /\ selects s (task_register s) dt
    /\ tss_words s !! Z.to_nat IO_BASE_WORD = Some tss_size
    /\ io_map_base (tss_words s) = 0 /\ seg_bytes dt = tss_size * 4096
    /\ Forall (fun port => port_allowed (tss_words s) (seg_bytes dt) port = true)
         (seqZ 0x40 4 ++ seqZ 0x1f0 8).
Proof.
  intros Ht. destruct (make_gdt_desc_fields tss (tss_size - 1) TSS_ATTR_LOW TSS_ATTR_HIGH Ht) as (_ & Hl & _ & Hh);
    [by vm_compute|by vm_compute|by vm_compute|done|].
  do 2 eexists. split; [reflexivity|]. split; [split; [by vm_compute|by left]|].
  split; [reflexivity|]. split; [reflexivity|].
  assert (seg_bytes (make_gdt_desc tss (tss_size - 1) TSS_ATTR_LOW TSS_ATTR_HIGH) = tss_size * 4096) as ->.
  { unfold seg_bytes. rewrite Hl, Hh. vm_compute. reflexivity. }
  split; [reflexivity|]. repeat constructor; vm_compute; reflexivity.
Qed.

Lemma tss_leaves_ports_open_witness :
  exists s dt, tss_init 0xc0018000 = Ok s /\ selects s (task_register s) dt
    /\ port_allowed (tss_words s) (seg_bytes dt) 0x1f7 = true.
Proof.
  destruct (tss_leaves_ports_open 0xc0018000) as (s & dt & H & Hs & _ & _ & _ & Hp); [lia|].
  exists s, dt. split; [exact H|]. split; [exact Hs|]. rewrite Forall_forall in Hp. apply Hp.
  vm_compute. repeat constructor.
Defined.
