(* ===== verification/Sync.v ===== *)
(** * Sync: semaphores and locks of thread/sync.c

    [sema_down] may switch to another task inside its loop; [fuel] bounds the
    number of times the caller is woken and finds the semaphore taken again,
    which the code does not bound. *)
From S2P Require Import Prelude Bitmap Interrupt DList Paging Pages Kernel Sched.

(** ** Operations *)

Definition sema (psema : Z) : proc kernel semaphore := load semas psema.

Definition store_sema (psema : Z) (s : semaphore) : proc kernel unit :=
  modify (fun k => set_semas (<[psema := s]> (semas k)) k).

Definition lock_at (plock : Z) : proc kernel lock := load locks plock.

Definition store_lock (plock : Z) (l : lock) : proc kernel unit :=
  modify (fun k => set_locks (<[plock := l]> (locks k)) k).

Definition sema_init (psema value : Z) : proc kernel unit :=
  store_sema psema (Semaphore (u8 value) []).

Definition lock_init (plock : Z) : proc kernel unit :=
  _ ← store_lock plock (Lock 0 0);
  sema_init (lock_sema plock) 1.

(** The loop of [sema_down]. *)
Fixpoint sema_wait (fuel : nat) (psema : Z) : proc kernel unit :=
  match fuel with
  | O => fail EFuel
  | S fuel' =>
    s ← sema psema;
    if value s =? 0 then
      k ← get;
      _ ← assert (negb (seq_find (waiters s) (running k)));
      if seq_find (waiters s) (running k) then fail EPanic
      else
        _ ← store_sema psema (Semaphore (value s) (seq_append (waiters s) (running k)));
        _ ← thread_block TASK_BLOCKED;
        sema_wait fuel' psema
    else mret tt
  end.

(** What follows the loop. *)
Definition sema_take (psema : Z) (old_status : intr_status) : proc kernel unit :=
  s ← sema psema;
  _ ← store_sema psema (Semaphore (u8 (value s - 1)) (waiters s));
  s ← sema psema;
  _ ← assert (value s =? 0);
  k_intr_set_status old_status.

Definition sema_down (fuel : nat) (psema : Z) : proc kernel unit :=
  old_status ← k_intr_disable;
  _ ← sema_wait fuel psema;
  sema_take psema old_status.

Definition sema_up (psema : Z) : proc kernel unit :=
  old_status ← k_intr_disable;
  s ← sema psema;
  _ ← assert (value s =? 0);
  _ ← (if negb (seq_empty (waiters s)) then
         '(thread_blocked, rest) ← lift (seq_pop (waiters s));
         _ ← store_sema psema (Semaphore (value s) rest);
         thread_unblock thread_blocked
       else mret tt);
  s ← sema psema;
  _ ← store_sema psema (Semaphore (u8 (value s + 1)) (waiters s));
  s ← sema psema;
  _ ← assert (value s =? 1);
  k_intr_set_status old_status.

(** What follows [sema_down] in [lock_acquire]. *)
Definition lock_take (plock : Z) : proc kernel unit :=
  k ← get;
  l ← lock_at plock;
  _ ← store_lock plock (Lock (running k) (holder_repeat_nr l));
  l ← lock_at plock;
  _ ← assert (holder_repeat_nr l =? 0);
  store_lock plock (Lock (holder l) 1).

Definition lock_acquire (fuel : nat) (plock : Z) : proc kernel unit :=
  k ← get;
  l ← lock_at plock;
  if negb (holder l =? running k) then
    _ ← sema_down fuel (lock_sema plock);
    lock_take plock
  else store_lock plock (Lock (holder l) (u32 (holder_repeat_nr l + 1))).

(** [lock_release] up to its [sema_up]: whether that is called. *)
Definition lock_drop (plock : Z) : proc kernel bool :=
  k ← get;
  l ← lock_at plock;
  _ ← assert (holder l =? running k);
  if 1 <? holder_repeat_nr l then
    _ ← store_lock plock (Lock (holder l) (u32 (holder_repeat_nr l - 1)));
    mret false
  else
    _ ← assert (holder_repeat_nr l =? 1);
    _ ← store_lock plock (Lock 0 0);
    mret true.

Definition lock_release (plock : Z) : proc kernel unit :=
  last ← lock_drop plock;
  if last : bool then sema_up (lock_sema plock) else mret tt.

(** ** Semaphores *)

Definition with_sema (k : kernel) (p : Z) (s : semaphore) : kernel := set_semas (<[p := s]> (semas k)) k.

Lemma run_sema k p s : semas k !! p = Some s -> sema p k = Ret s k.
Proof. apply (run_load semas). Qed.

Lemma run_lock k p l : locks k !! p = Some l -> lock_at p k = Ret l k.
Proof. apply (run_load locks). Qed.

Lemma run_store_sema k p s : store_sema p s k = Ret tt (with_sema k p s).
Proof. done. Qed.

Lemma sema_get_set k p s : semas (with_sema k p s) !! p = Some s.
Proof. simpl. by rewrite lookup_insert, decide_True. Qed.

Lemma with_sema_twice k p s s' : with_sema (with_sema k p s) p s' = with_sema k p s'.
Proof. unfold with_sema, set_semas. simpl. by rewrite insert_insert_eq. Qed.

Lemma with_sema_same k p s : semas k !! p = Some s -> with_sema k p s = k.
Proof. intros H. unfold with_sema. rewrite insert_id by done. by destruct k. Qed.

Lemma set_eflags_sema k e p s : set_eflags e (with_sema k p s) = with_sema (set_eflags e k) p s.
Proof. done. Qed.

(** The scheduler does not look at semaphores and locks. *)
Lemma with_sema_ok k p s : sched_ok k -> sched_ok (with_sema k p s).
Proof. intros [[? ? ? ? ? ? ?] ?]. by split. Qed.

Lemma set_locks_ok k x : sched_ok k -> sched_ok (set_locks x k).
Proof. intros [[? ? ? ? ? ? ?] ?]. by split. Qed.

(** Taking a semaphore of value 1. *)
Lemma sema_take_spec k p ws st :
  semas k !! p = Some (Semaphore 1 ws) ->
  sema_take p st k = k_intr_set_status st (with_sema k p (Semaphore 0 ws)).
Proof.
  intros Hs. unfold sema_take. prun (run_sema k p _ Hs). prun (run_store_sema k p (Semaphore (u8 (1 - 1)) ws)).
  prun (run_sema _ p _ (sema_get_set k p (Semaphore (u8 (1 - 1)) ws))). passert; done.
Qed.

Lemma sema_wait_free f k p s :
  semas k !! p = Some s -> value s <> 0 -> sema_wait (S f) p k = Ret tt k.
Proof.
  intros Hs Hv. cbn [sema_wait]. prun (run_sema k p s Hs).
  by rewrite (proj2 (Z.eqb_neq (value s) 0) Hv).
Qed.

Lemma sema_down_free f k p ws :
  semas k !! p = Some (Semaphore 1 ws) ->
  sema_down (S f) p k = Ret tt (with_sema k p (Semaphore 0 ws)).
Proof.
  intros Hs. unfold sema_down. prun (run_disable k). set (k1 := set_eflags _ k).
  assert (semas k1 !! p = Some (Semaphore 1 ws)) as Hs1 by done.
  prun (sema_wait_free f k1 p _ Hs1 ltac:(done)). rewrite (sema_take_spec k1 p ws _ Hs1).
  rewrite restore_flags by done. by destruct k.
Qed.

(** Giving a semaphore up: the first waiter becomes ready. *)
Lemma sema_up_none k p :
  semas k !! p = Some (Semaphore 0 []) ->
  sema_up p k = Ret tt (with_sema k p (Semaphore 1 [])).
Proof.
  intros Hs. unfold sema_up. prun (run_disable k). set (k1 := set_eflags _ k).
  prun (run_sema k1 p _ Hs). passert; [|done]. cbn [waiters seq_empty negb]. pret.
  prun (run_sema k1 p _ Hs). prun (run_store_sema k1 p (Semaphore (u8 (0 + 1)) [])).
  prun (run_sema _ p _ (sema_get_set k1 p (Semaphore (u8 (0 + 1)) []))). passert; [|done].
  rewrite restore_flags by done. by destruct k.
Qed.

Lemma sema_up_wakes k p w ws t :
  semas k !! p = Some (Semaphore 0 (w :: ws)) ->
  sched_ok k -> tasks k !! w = Some t -> blocked (status t) ->
  sema_up p k = Ret tt (with_sema (unblocked k w t) p (Semaphore 1 ws))
  /\ sched_ok (unblocked k w t).
Proof.
  intros Hs Hok Ht Hb. split; [|by apply thread_unblock_ok].
  unfold sema_up. prun (run_disable k). set (k1 := set_eflags _ k).
  prun (run_sema k1 p _ Hs). passert; [|done]. cbn [waiters value seq_empty negb].
  set (k2 := with_sema k1 p (Semaphore 0 ws)).
  assert (sched_ok k2) as Hok2 by (by apply with_sema_ok, set_eflags_ok).
  destruct (thread_unblock_ok k2 w t Hok2 Ht Hb) as [Hun _].
  assert (('(b, rest) ← lift (seq_pop (w :: ws)); _ ← store_sema p (Semaphore 0 rest);
           thread_unblock b) k1 = Ret tt (unblocked k2 w t)) as Hblk.
  { assert (lift (seq_pop (w :: ws)) k1 = Ret (w, ws) k1) as Hpop by done. prun Hpop.
    prun (run_store_sema k1 p (Semaphore 0 ws)). exact Hun. }
  prun Hblk. set (k3 := unblocked k2 w t) in *.
  assert (semas k3 !! p = Some (Semaphore 0 ws)) as Hs3 by (simpl; by rewrite lookup_insert, decide_True).
  prun (run_sema k3 p _ Hs3). prun (run_store_sema k3 p (Semaphore (u8 (0 + 1)) ws)).
  prun (run_sema _ p _ (sema_get_set k3 p (Semaphore (u8 (0 + 1)) ws))). passert; [|done].
  rewrite restore_flags by done. f_equal. unfold with_sema. simpl.
  rewrite insert_insert_eq. by destruct k.
Qed.

(** ** Waiting *)

(** The rest of a contended [sema_down], run when the caller is resumed. *)
Definition down_tail (fuel : nat) (psema : Z) (old_status : intr_status) : proc kernel unit := fun s =>
  outcome_bind (fun _ => sema_take psema old_status)
    (outcome_bind (fun _ => sema_wait fuel psema) (k_intr_set_status INTR_OFF s)).

(** The rest of a contended [lock_acquire]. *)
Definition acquire_tail (fuel : nat) (plock : Z) (old_status : intr_status) : proc kernel unit := fun s =>
  outcome_bind (fun _ => lock_take plock) (down_tail fuel (lock_sema plock) old_status s).

Lemma set_off_off k :
  intr_get_status (eflags k) = INTR_OFF -> k_intr_set_status INTR_OFF k = Ret tt k.
Proof.
  intros Hoff. unfold k_intr_set_status. simpl. unfold intr_disable. rewrite Hoff. simpl. by destruct k.
Qed.

(** A task that blocks, and is not the idle thread, leaves the processor. *)
Lemma blocks_away k t stat nxt rest k' :
  sched_ok k -> running k <> idle_thread k -> blocked stat ->
  scheduled (blocking k stat t) (set_status stat t) nxt rest k' -> running k <> nxt.
Proof.
  intros [Hp Hrun] Hid Hb [Hq _ _ _ _ _ _] <-. unfold queue_of in Hq. simpl in Hq.
  rewrite bool_decide_false in Hq by (destruct Hb as [->|[->| ->]]; done).
  destruct (thread_ready_list k) as [|x l] eqn:El; [congruence|]. injection Hq as Hx _.
  assert (st_of k (running k) = Some TASK_READY) as Hst; [|congruence].
  apply (sp_ready _ Hp). rewrite El, Hx. apply list_elem_of_here.
Qed.

(** The state in which a task blocks on a semaphore. *)
Definition waiting (k : kernel) (p : Z) (ws : list Z) (t : task_struct) : kernel :=
  blocking (with_sema k p (Semaphore 0 (ws ++ [running k]))) TASK_BLOCKED t.

(** The loop on a taken semaphore, with interrupts off. *)
Lemma sema_wait_waits f k p ws t :
  sched_ok k -> intr_get_status (eflags k) = INTR_OFF ->
  running k <> idle_thread k -> tasks k !! running k = Some t ->
  semas k !! p = Some (Semaphore 0 ws) -> running k ∉ ws ->
  exists nxt rest k', sema_wait (S f) p k
      = Switch k' (fun s => outcome_bind (fun _ => sema_wait f p) (k_intr_set_status INTR_OFF s))
    /\ scheduled (waiting k p ws t) (set_status TASK_BLOCKED t) nxt rest k' /\ running k <> nxt.
Proof.
  intros Hok Hoff Hid Ht Hs Hnin. set (k2 := with_sema k p (Semaphore 0 (ws ++ [running k]))).
  assert (sched_ok k2) as Hok2 by (by apply with_sema_ok).
  assert (blocked TASK_BLOCKED) as Hb by (by left).
  destruct (thread_block_spec k2 TASK_BLOCKED t Hok2 Ht Hb) as (nxt & rest & k' & Hblk & Hsd).
  pose proof (blocks_away k2 t _ nxt rest k' Hok2 Hid Hb Hsd) as Hne. change (running k2) with (running k) in Hne.
  unfold suspends in Hblk. change (running k2) with (running k) in Hblk.
  rewrite (proj2 (Z.eqb_neq (running k) nxt) Hne) in Hblk.
  assert ((intr_disable (eflags k2)).1 = INTR_OFF) as He.
  { change (eflags k2) with (eflags k). unfold intr_disable. by rewrite Hoff. }
  rewrite He in Hblk. exists nxt, rest, k'. split; [|done].
  cbn [sema_wait]. prun (run_sema k p _ Hs). change (value (Semaphore 0 ws) =? 0) with true. cbv iota.
  pget. unfold seq_find. cbn [waiters].
  rewrite (bool_decide_false (running k ∈ ws)) by done. passert; [|done].
  prun (run_store_sema k p (Semaphore 0 (seq_append ws (running k)))).
  exact (bind_Switch _ _ _ _ _ Hblk).
Qed.

Lemma sema_down_waits f k p ws t :
  sched_ok k -> running k <> idle_thread k -> tasks k !! running k = Some t ->
  semas k !! p = Some (Semaphore 0 ws) -> running k ∉ ws ->
  exists nxt rest k', sema_down (S f) p k = Switch k' (down_tail f p (intr_disable (eflags k)).1)
    /\ scheduled (waiting (set_eflags (intr_disable (eflags k)).2 k) p ws t)
         (set_status TASK_BLOCKED t) nxt rest k'
    /\ running k <> nxt.
Proof.
  intros Hok Hid Ht Hs Hnin. set (k1 := set_eflags (intr_disable (eflags k)).2 k).
  destruct (sema_wait_waits f k1 p ws t) as (nxt & rest & k' & Hw & Hsd & Hne);
    [by apply set_eflags_ok|apply disable_off|done|done|done|done|].
  exists nxt, rest, k'. split; [|done]. unfold sema_down. prun (run_disable k).
  exact (bind_Switch _ _ _ _ _ Hw).
Qed.

(** A task resumed with the semaphore taken waits again. *)
Lemma down_tail_waits f k p ws t st :
  sched_ok k -> intr_get_status (eflags k) = INTR_OFF ->
  running k <> idle_thread k -> tasks k !! running k = Some t ->
  semas k !! p = Some (Semaphore 0 ws) -> running k ∉ ws ->
  exists nxt rest k', down_tail (S f) p st k = Switch k' (down_tail f p st)
    /\ scheduled (waiting k p ws t) (set_status TASK_BLOCKED t) nxt rest k' /\ running k <> nxt.
Proof.
  intros Hok Hoff Hid Ht Hs Hnin.
  destruct (sema_wait_waits f k p ws t Hok Hoff Hid Ht Hs Hnin) as (nxt & rest & k' & Hw & Hsd & Hne).
  exists nxt, rest, k'. split; [|done]. unfold down_tail. rewrite set_off_off by done.
  cbn [outcome_bind]. by rewrite Hw.
Qed.

(** A task resumed with the semaphore free takes it. *)
Lemma down_tail_takes f k p ws st :
  intr_get_status (eflags k) = INTR_OFF -> semas k !! p = Some (Semaphore 1 ws) ->
  down_tail (S f) p st k = k_intr_set_status st (with_sema k p (Semaphore 0 ws)).
Proof.
  intros Hoff Hs. unfold down_tail.
  rewrite set_off_off by done.
  cbn [outcome_bind]. rewrite (sema_wait_free f k p _ Hs) by done. cbn [outcome_bind].
  by apply sema_take_spec.
Qed.

(** ** Locks *)

Definition with_lock (k : kernel) (p : Z) (l : lock) : kernel := set_locks (<[p := l]> (locks k)) k.

Lemma run_store_lock k p l : store_lock p l k = Ret tt (with_lock k p l).
Proof. done. Qed.

Lemma lock_get_set k p l : locks (with_lock k p l) !! p = Some l.
Proof. simpl. by rewrite lookup_insert, decide_True. Qed.

Lemma lock_take_spec k p h :
  locks k !! p = Some (Lock h 0) -> lock_take p k = Ret tt (with_lock k p (Lock (running k) 1)).
Proof.
  intros Hl. unfold lock_take. pget. prun (run_lock k p _ Hl).
  prun (run_store_lock k p (Lock (running k) 0)).
  prun (run_lock _ p _ (lock_get_set k p (Lock (running k) 0))). passert; [|done].
  rewrite run_store_lock. unfold with_lock. simpl. by rewrite insert_insert_eq.
Qed.

Lemma lock_acquire_free f k p h ws :
  locks k !! p = Some (Lock h 0) -> h <> running k ->
  semas k !! lock_sema p = Some (Semaphore 1 ws) ->
  lock_acquire (S f) p k
  = Ret tt (with_lock (with_sema k (lock_sema p) (Semaphore 0 ws)) p (Lock (running k) 1)).
Proof.
  intros Hl Hh Hs. unfold lock_acquire. pget. prun (run_lock k p _ Hl). cbn [holder].
  rewrite (proj2 (Z.eqb_neq h (running k)) Hh). cbn [negb].
  prun (sema_down_free f k (lock_sema p) ws Hs). by rewrite (lock_take_spec _ p h).
Qed.

Lemma lock_acquire_again f k p n :
  locks k !! p = Some (Lock (running k) n) ->
  lock_acquire f p k = Ret tt (with_lock k p (Lock (running k) (u32 (n + 1)))).
Proof.
  intros Hl. unfold lock_acquire. pget. prun (run_lock k p _ Hl). cbn [holder].
  by rewrite (proj2 (Z.eqb_eq (running k) (running k)) eq_refl).
Qed.

Lemma lock_acquire_waits f k p h n ws t :
  sched_ok k -> running k <> idle_thread k -> tasks k !! running k = Some t ->
  locks k !! p = Some (Lock h n) -> h <> running k ->
  semas k !! lock_sema p = Some (Semaphore 0 ws) -> running k ∉ ws ->
  exists nxt rest k', lock_acquire (S f) p k = Switch k' (acquire_tail f p (intr_disable (eflags k)).1)
    /\ scheduled (waiting (set_eflags (intr_disable (eflags k)).2 k) (lock_sema p) ws t)
         (set_status TASK_BLOCKED t) nxt rest k'.
Proof.
  intros Hok Hid Ht Hl Hh Hs Hnin.
  destruct (sema_down_waits f k (lock_sema p) ws t Hok Hid Ht Hs Hnin) as (nxt & rest & k' & Hd & Hsd & _).
  exists nxt, rest, k'. split; [|done]. unfold lock_acquire. pget. prun (run_lock k p _ Hl). cbn [holder].
  rewrite (proj2 (Z.eqb_neq h (running k)) Hh). cbn [negb].
  exact (bind_Switch _ _ _ _ _ Hd).
Qed.

Lemma lock_drop_again k p n :
  locks k !! p = Some (Lock (running k) n) -> 1 < n < 2 ^ 32 ->
  lock_drop p k = Ret false (with_lock k p (Lock (running k) (n - 1))).
Proof.
  intros Hl Hn. unfold lock_drop. pget. prun (run_lock k p _ Hl). passert; [|by apply Z.eqb_eq].
  cbn [holder_repeat_nr holder]. rewrite (proj2 (Z.ltb_lt 1 n)) by lia.
  rewrite (u32_id (n - 1)) by lia. by prun (run_store_lock k p (Lock (running k) (n - 1))).
Qed.

Lemma lock_drop_last k p :
  locks k !! p = Some (Lock (running k) 1) -> lock_drop p k = Ret true (with_lock k p (Lock 0 0)).
Proof.
  intros Hl. unfold lock_drop. pget. prun (run_lock k p _ Hl). passert; [|by apply Z.eqb_eq].
  cbn [holder_repeat_nr]. change (1 <? 1) with false. cbv iota. passert; [|done]. done.
Qed.

(** [lock_drop] gets past its ASSERTs for the holder only. *)
Lemma lock_drop_inv k p b k' :
  lock_drop p k = Ret b k' ->
  exists n, locks k !! p = Some (Lock (running k) n) /\ b = negb (1 <? n) /\ (b = true -> n = 1).
Proof.
  unfold lock_drop. pget. destruct (locks k !! p) as [[h n]|] eqn:Hl.
  2: { unfold lock_at, load, mbind, proc_bind. by rewrite Hl. }
  prun (run_lock k p _ Hl). cbn [holder holder_repeat_nr]. destruct (Z.eqb_spec h (running k)) as [->|]; [|by intros].
  passert; [|done]. destruct (1 <? n) eqn:E.
  - intros [= <- _]. exists n. rewrite E. split; [done|]. by split.
  - destruct (Z.eqb_spec n 1) as [->|]; [|by intros]. passert; [|done]. intros [= <- _]. by exists 1.
Qed.

Lemma lock_release_again k p n :
  locks k !! p = Some (Lock (running k) n) -> 1 < n < 2 ^ 32 ->
  lock_release p k = Ret tt (with_lock k p (Lock (running k) (n - 1))).
Proof. intros Hl Hn. unfold lock_release. by prun (lock_drop_again k p n Hl Hn). Qed.

(** Releasing the last hold runs [sema_up] on the lock without holder. *)
Lemma lock_release_last k p :
  locks k !! p = Some (Lock (running k) 1) ->
  lock_release p k = sema_up (lock_sema p) (with_lock k p (Lock 0 0)).
Proof. intros Hl. unfold lock_release. by prun (lock_drop_last k p Hl). Qed.

Lemma acquire_tail_takes f k p st ws :
  intr_get_status (eflags k) = INTR_OFF -> locks k !! p = Some (Lock 0 0) ->
  semas k !! lock_sema p = Some (Semaphore 1 ws) ->
  acquire_tail (S f) p st k
  = Ret tt (set_eflags (intr_set_status st (eflags k)).2
      (with_lock (with_sema k (lock_sema p) (Semaphore 0 ws)) p (Lock (running k) 1))).
Proof.
  intros Hoff Hl Hs. unfold acquire_tail. rewrite (down_tail_takes f k _ ws st Hoff Hs).
  cbn [outcome_bind k_intr_set_status]. by rewrite (lock_take_spec _ p 0).
Qed.

(** ** Properties *)

Definition demo_lock : Z := 0x2000.

(** The demo kernel with the lock of [demo_lock], held by the main thread. *)
Definition demo_held (ws : list Z) : kernel :=
  with_lock (with_sema demo_kernel (lock_sema demo_lock) (Semaphore 0 ws)) demo_lock (Lock 0xc009e000 1).

(** Nested holds: acquire [n] times, release [n] times. *)
Fixpoint nest (n fuel : nat) (plock : Z) : proc kernel unit :=
  match n with
  | O => mret tt
  | S n' => _ ← lock_acquire fuel plock; _ ← nest n' fuel plock; lock_release plock
  end.

Lemma nest_again n f p k d :
  locks k !! p = Some (Lock (running k) d) -> 1 <= d -> d + Z.of_nat n < 2 ^ 32 ->
  nest n f p k = Ret tt k.
Proof.
  revert k d. induction n as [|n IH]; intros k d Hl Hd Hn; [done|]. cbn [nest].
  prun (lock_acquire_again f k p d Hl). rewrite u32_id by lia.
  set (k1 := with_lock k p (Lock (running k) (d + 1))).
  assert (locks k1 !! p = Some (Lock (running k1) (d + 1))) as Hl1 by apply lock_get_set.
  prun (IH k1 (d + 1) Hl1 ltac:(lia) ltac:(lia)).
  rewrite (lock_release_again k1 p (d + 1) Hl1) by lia. f_equal. subst k1. unfold with_lock. simpl.
  rewrite insert_insert_eq. replace (d + 1 - 1) with d by lia. rewrite insert_id by done. by destruct k.
Qed.

(** Locks are reentrant: a task that acquires a free lock any number of
    times and releases it as often holds it in between and leaves the kernel
    exactly as it was. *)
Theorem lock_nest_restores (n f : nat) (p : Z) (k : kernel) :
  running k <> 0 -> locks k !! p = Some (Lock 0 0) ->
  semas k !! lock_sema p = Some (Semaphore 1 []) -> Z.of_nat n < 2 ^ 32 - 1 ->
  nest n (S f) p k = Ret tt k
  /\ lock_acquire (S f) p k = Ret tt (with_lock (with_sema k (lock_sema p) (Semaphore 0 [])) p (Lock (running k) 1)).
Proof.
  intros Hr Hl Hs Hn. pose proof (lock_acquire_free f k p 0 [] Hl ltac:(congruence) Hs) as Hacq.
  split; [|done]. destruct n as [|n]; [done|]. cbn [nest]. prun Hacq.
  set (k1 := with_lock _ p _). assert (locks k1 !! p = Some (Lock (running k1) 1)) as Hl1 by apply lock_get_set.
  prun (nest_again n (S f) p k1 1 Hl1 ltac:(lia) ltac:(lia)). rewrite (lock_release_last k1 p Hl1).
  rewrite sema_up_none by (simpl; by rewrite lookup_insert, decide_True). f_equal.
  subst k1. unfold with_lock, with_sema. simpl. rewrite !insert_insert_eq, !insert_id by done. by destruct k.
Qed.

Lemma lock_nest_restores_witness :
  let k := with_lock (with_sema demo_kernel (lock_sema demo_lock) (Semaphore 1 [])) demo_lock (Lock 0 0) in
  nest 3 1 demo_lock k = Ret tt k.
Proof.
  intros k. apply (lock_nest_restores 3 0 demo_lock k).
  - vm_compute. discriminate.
  - vm_compute. reflexivity.
  - vm_compute. reflexivity.
  - vm_compute. reflexivity.
Defined.

(** C28: hand-over.  When the holder releases a lock and gives up the processor,
    the task that has waited longest runs next; the rest of its [lock_acquire]
    finds the semaphore free and makes it the holder. *)
Theorem lock_handoff (k : kernel) (p w : Z) (ws : list Z) (t tw : task_struct) (st : intr_status) (f : nat) :
  sched_ok k -> tasks k !! running k = Some t ->
  locks k !! p = Some (Lock (running k) 1) ->
  semas k !! lock_sema p = Some (Semaphore 0 (w :: ws)) ->
  tasks k !! w = Some tw -> status tw = TASK_BLOCKED ->
  exists k1 k2 k3, lock_release p k = Ret tt k1
    /\ after (thread_yield k1) = Some k2 /\ running k2 = w
    /\ acquire_tail (S f) p st k2 = Ret tt k3
    /\ locks k3 !! p = Some (Lock w 1) /\ semas k3 !! lock_sema p = Some (Semaphore 0 ws).
Proof.
  intros Hok Ht Hl Hs Htw Hst. set (k0 := with_lock k p (Lock 0 0)).
  assert (sched_ok k0) as Hok0 by (by apply set_locks_ok).
  assert (blocked (status tw)) as Hb by (by left).
  destruct (sema_up_wakes k0 (lock_sema p) w ws tw Hs Hok0 Htw Hb) as [Hup Hok1].
  set (k1 := with_sema (unblocked k0 w tw) (lock_sema p) (Semaphore 1 ws)) in *.
  assert (sched_ok k1) as Hok1' by (by apply with_sema_ok).
  assert (w <> running k) as Hne.
  { intros ->. destruct Hok as [_ Hr]. unfold st_of in Hr. rewrite Htw in Hr. simpl in Hr. congruence. }
  assert (tasks k1 !! running k1 = Some t) as Ht1 by (simpl; by rewrite lookup_insert_ne).
  destruct (thread_yield_spec k1 t Hok1' Ht1) as (nxt & rest & k2 & Hy & [Hq _ Hf Hr _ _ _]).
  unfold queue_of in Hq. simpl in Hq. injection Hq as Hn _. subst nxt.
  assert (running k <> w) as Hne' by congruence.
  assert (after (thread_yield k1) = Some k2) as Hy2.
  { rewrite Hy. unfold suspends. change (running k1) with (running k).
    by rewrite (proj2 (Z.eqb_neq (running k) w) Hne'). }
  exists k1, k2. eexists. split; [by rewrite (lock_release_last k p Hl)|].
  split; [done|]. split; [done|].
  assert (locks k2 !! p = Some (Lock 0 0)) as Hl2.
  { rewrite (sf_locks _ _ Hf). simpl. by rewrite lookup_insert, decide_True. }
  assert (semas k2 !! lock_sema p = Some (Semaphore 1 ws)) as Hs2.
  { rewrite (sf_semas _ _ Hf). simpl. by rewrite lookup_insert, decide_True. }
  split; [apply acquire_tail_takes; [|exact Hl2|exact Hs2]|].
  - rewrite (sf_eflags _ _ Hf). apply disable_off.
  - simpl. rewrite Hr, !lookup_insert, !decide_True by done. done.
Qed.

Lemma lock_handoff_witness :
  exists k1 k2 k3,
    lock_release demo_lock (demo_held [0xc0100000]) = Ret tt k1
    /\ after (thread_yield k1) = Some k2
    /\ acquire_tail 1 demo_lock INTR_ON k2 = Ret tt k3
    /\ locks k3 !! demo_lock = Some (Lock 0xc0100000 1).
Proof.
  destruct (lock_handoff (demo_held [0xc0100000]) demo_lock 0xc0100000 []
      (demo_task TASK_RUNNING 31 3) (demo_task TASK_BLOCKED 10 10) INTR_ON 0)
    as (k1 & k2 & k3 & H1 & H2 & _ & H3 & H4 & _).
  - apply set_locks_ok, with_sema_ok, demo_kernel_ok.
  - reflexivity.
  - reflexivity.
  - reflexivity.
  - reflexivity.
  - reflexivity.
  - exists k1, k2, k3. split; [exact H1|]. split; [exact H2|]. split; [exact H3|exact H4].
Defined.
