(* ===== verification/Mutex.v ===== *)
(** * Mutex: mutual exclusion of thread/sync.c under preemption

    [lock_acquire] and [lock_release] are not atomic: only [sema_down] and
    [sema_up] run with interrupts off, so a timer interrupt can switch tasks
    between their statements.  Here a task's call is divided at these points
    ([phase]), suspended tasks are resumed where they were switched out
    ([susp]), and the timer may interrupt the running task at every point with
    interrupts on.  The steps run the definitions of Sync and Sched. *)
From S2P Require Import Prelude Bitmap Interrupt DList Paging Pages Kernel Sched Sync.

(** ** The system *)

(** Where a task is in a call on lock [l]: it has found that it is not the
    holder and calls [sema_down]; it has the semaphore but is not yet the
    holder; it has given up the lock but not yet called [sema_up]. *)
Inductive phase : Type :=
| PDown (l : Z)
| PGot (l : Z)
| PUp (l : Z).

(** How a task left the processor: by a timer interrupt, with the flags to
    restore, or waiting in [sema_down]. *)
Inductive suspension : Type :=
| STick (flags : Z)
| SDown (fuel : nat) (l : Z) (old_status : intr_status).

(** [depth p l] counts the calls of [lock_acquire] on [l] that have returned to
    [p] and that [p] has not begun to release. *)
Record system : Type := System {
  sk : kernel;
  phases : gmap Z phase;
  susp : gmap Z suspension;
  depth : Z -> Z -> Z
}.

Definition add_depth (d : Z -> Z -> Z) (p l n : Z) : Z -> Z -> Z := fun q m =>
  if decide (q = p /\ m = l) then d q m + n else d q m.

Definition free_to_run (s : system) : Prop := susp s !! running (sk s) = None.

Inductive sys_step : system -> system -> Prop :=
| step_tick_ret k ph su d k' :
    su !! running k = None -> intr_get_status (eflags k) = INTR_ON ->
    intr_timer_handler (set_eflags (cli (eflags k)) k) = Ret tt k' ->
    sys_step (System k ph su d) (System (set_eflags (eflags k) k') ph su d)
| step_tick_switch k ph su d k' c :
    su !! running k = None -> intr_get_status (eflags k) = INTR_ON ->
    intr_timer_handler (set_eflags (cli (eflags k)) k) = Switch k' c ->
    sys_step (System k ph su d) (System k' ph (<[running k := STick (eflags k)]> su) d)
| step_resume_tick k ph su d e :
    su !! running k = Some (STick e) ->
    sys_step (System k ph su d) (System (set_eflags e k) ph (delete (running k) su) d)
| step_acquire_test k ph su d l lk :
    su !! running k = None -> ph !! running k = None -> running k <> idle_thread k ->
    locks k !! l = Some lk -> holder lk <> running k ->
    sys_step (System k ph su d) (System k (<[running k := PDown l]> ph) su d)
| step_acquire_again k ph su d l lk k' :
    su !! running k = None -> ph !! running k = None ->
    locks k !! l = Some lk -> holder lk = running k -> holder_repeat_nr lk < 2 ^ 32 - 1 ->
    lock_acquire 0 l k = Ret tt k' ->
    sys_step (System k ph su d) (System k' ph su (add_depth d (running k) l 1))
| step_down_ret k ph su d l f k' :
    su !! running k = None -> ph !! running k = Some (PDown l) ->
    sema_down f (lock_sema l) k = Ret tt k' ->
    sys_step (System k ph su d) (System k' (<[running k := PGot l]> ph) su d)
| step_down_switch k ph su d l f f' st k' :
    su !! running k = None -> ph !! running k = Some (PDown l) ->
    sema_down f (lock_sema l) k = Switch k' (down_tail f' (lock_sema l) st) ->
    sys_step (System k ph su d) (System k' ph (<[running k := SDown f' l st]> su) d)
| step_resume_ret k ph su d l f st k' :
    su !! running k = Some (SDown f l st) ->
    down_tail f (lock_sema l) st k = Ret tt k' ->
    sys_step (System k ph su d) (System k' (<[running k := PGot l]> ph) (delete (running k) su) d)
| step_resume_switch k ph su d l f f' st k' :
    su !! running k = Some (SDown f l st) ->
    down_tail f (lock_sema l) st k = Switch k' (down_tail f' (lock_sema l) st) ->
    sys_step (System k ph su d) (System k' ph (<[running k := SDown f' l st]> su) d)
| step_take k ph su d l k' :
    su !! running k = None -> ph !! running k = Some (PGot l) ->
    lock_take l k = Ret tt k' ->
    sys_step (System k ph su d) (System k' (delete (running k) ph) su (add_depth d (running k) l 1))
| step_release_again k ph su d l k' :
    su !! running k = None -> ph !! running k = None ->
    lock_drop l k = Ret false k' ->
    sys_step (System k ph su d) (System k' ph su (add_depth d (running k) l (-1)))
| step_release_last k ph su d l k' :
    su !! running k = None -> ph !! running k = None -> running k <> idle_thread k ->
    lock_drop l k = Ret true k' ->
    sys_step (System k ph su d) (System k' (<[running k := PUp l]> ph) su (add_depth d (running k) l (-1)))
| step_up k ph su d l k' :
    su !! running k = None -> ph !! running k = Some (PUp l) ->
    sema_up (lock_sema l) k = Ret tt k' ->
    sys_step (System k ph su d) (System k' (delete (running k) ph) su d).

(** ** The invariant *)

(** [p] has the semaphore of [l] without being its holder. *)
Definition transit (s : system) (p l : Z) : Prop :=
  phases s !! p = Some (PGot l) \/ phases s !! p = Some (PUp l).

Inductive lock_state (s : system) (l : Z) (lk : lock) (sm : semaphore) : Prop :=
| ls_free :
    value sm = 1 -> lk = Lock 0 0 -> (forall p, ~ transit s p l) -> (forall p, depth s p l = 0) ->
    lock_state s l lk sm
| ls_held :
    value sm = 0 -> holder lk <> 0 -> 1 <= holder_repeat_nr lk < 2 ^ 32 -> (forall p, ~ transit s p l) ->
    (forall p, depth s p l = if decide (p = holder lk) then holder_repeat_nr lk else 0) ->
    lock_state s l lk sm
| ls_transit p :
    value sm = 0 -> lk = Lock 0 0 -> transit s p l -> (forall q, transit s q l -> q = p) ->
    (forall q, depth s q l = 0) -> lock_state s l lk sm.

Record sys_ok (s : system) : Prop := {
  sy_sched : sched_ok (sk s);
  sy_off : is_Some (susp s !! running (sk s)) -> intr_get_status (eflags (sk s)) = INTR_OFF;
  sy_susp : forall p, is_Some (tasks (sk s) !! p) -> p <> running (sk s) -> is_Some (susp s !! p);
  sy_lock : forall l lk, locks (sk s) !! l = Some lk ->
    exists sm, semas (sk s) !! lock_sema l = Some sm /\ lock_state s l lk sm
      /\ NoDup (waiters sm)
      /\ forall w, w ∈ waiters sm -> st_of (sk s) w = Some TASK_BLOCKED
           /\ exists f st, susp s !! w = Some (SDown f l st);
  sy_down : forall p f l st, susp s !! p = Some (SDown f l st) -> phases s !! p = Some (PDown l);
  sy_phase : forall p ph, phases s !! p = Some ph ->
    p <> idle_thread (sk s)
    /\ is_Some (locks (sk s) !! match ph with PDown l => l | PGot l => l | PUp l => l end)
}.

(** ** What the scheduler keeps *)

(** A blocked task other than the idle thread stays blocked. *)
Lemma scheduled_keeps_blocked k t nxt rest k' q :
  sched_pre k -> tasks k !! running k = Some t -> scheduled k t nxt rest k' ->
  st_of k q = Some TASK_BLOCKED -> q <> idle_thread k -> st_of k' q = Some TASK_BLOCKED.
Proof.
  intros Hp Ht [Hq _ _ _ _ Hst _] Hb Hid. rewrite Hst.
  assert (st_of k (running k) = Some (status t)) as Hc by (unfold st_of; by rewrite Ht).
  rewrite decide_False, decide_False; [done|intros [<- ?]; congruence|]. intros ->.
  unfold queue_of in Hq. case_bool_decide as Hr.
  - assert (q ∈ thread_ready_list k ++ [running k]) as Hin.
    { destruct (thread_ready_list k); simplify_eq/=; set_solver. }
    rewrite elem_of_app, list_elem_of_singleton in Hin.
    destruct Hin as [Hin| ->]; [apply (sp_ready _ Hp) in Hin|]; congruence.
  - destruct (thread_ready_list k) as [|x l] eqn:El; [congruence|]. injection Hq as -> _.
    assert (q ∈ thread_ready_list k) as Hin by (rewrite El; apply list_elem_of_here).
    apply (sp_ready _ Hp) in Hin. congruence.
Qed.

(** What a timer interrupt may change. *)
Record quiet (k k' : kernel) : Prop := {
  qt_sched : sched_ok k';
  qt_semas : semas k' = semas k;
  qt_locks : locks k' = locks k;
  qt_idle : idle_thread k' = idle_thread k;
  qt_tasks : forall p, is_Some (tasks k' !! p) <-> is_Some (tasks k !! p);
  qt_blocked : forall w, st_of k w = Some TASK_BLOCKED -> w <> idle_thread k ->
    st_of k' w = Some TASK_BLOCKED;
  qt_eflags : eflags k' = eflags k
}.

Lemma frame_tasks k k' p : sched_frame k k' -> is_Some (tasks k' !! p) <-> is_Some (tasks k !! p).
Proof. intros Hf. destruct (sf_tasks _ _ Hf p) as [H _]. by rewrite <- !not_eq_None_Some, H. Qed.

Lemma timer_quiet k o :
  sched_ok k -> intr_get_status (eflags k) = INTR_OFF -> intr_timer_handler k = o ->
  match o with
  | Ret _ k' => quiet k k' /\ running k' = running k
  | Switch k' _ => quiet k k' /\ running k' <> running k
  | Err _ => True
  end.
Proof.
  intros Hok Hoff Ho. pose proof Hok as [Hp Hrun]. pose proof Hrun as Hr2. unfold st_of in Hr2.
  apply fmap_Some in Hr2 as (t & Ht & Hst).
  destruct (decide (stack_magic t = STACK_MAGIC)) as [Hm|Hm].
  2: { revert Ho. unfold intr_timer_handler. pget. unfold task. prun (run_load tasks k _ t Ht).
       rewrite (proj2 (Z.eqb_neq _ _) Hm). by intros <-. }
  assert (forall q, st_of (ticked k t) q = st_of k q) as Hsto.
  { intros q. unfold st_of. simpl. rewrite lookup_insert. case_decide; [subst q|done]. by rewrite Ht. }
  assert (forall q, is_Some (tasks (ticked k t) !! q) <-> is_Some (tasks k !! q)) as Hdom.
  { intros q. simpl. rewrite lookup_insert. case_decide; [subst q|done].
    split; intros _; [by eexists|by eexists]. }
  pose proof (timer_spec k t Ht Hm) as Hstep. destruct (Z.eqb_spec (ticks t) 0) as [H0|H0].
  - set (t1 := set_elapsed_ticks (u32 (elapsed_ticks t + 1)) t).
    assert (tasks (ticked k t) !! running (ticked k t) = Some t1) as Ht1
      by (simpl; by rewrite lookup_insert, decide_True).
    pose proof (ticked_pre k t Hp Ht) as Hp1.
    destruct (schedule_spec (ticked k t) t1 Hp1 Hoff Ht1) as (nxt & rest & k' & Hs & Hsd).
    assert (quiet k k') as Hq.
    { pose proof Hsd as [_ Hok' Hf _ _ _ _]. constructor; [done|apply Hf|apply Hf|apply Hf| | |apply Hf].
      - intros p. by rewrite (frame_tasks _ _ _ Hf), Hdom.
      - intros w Hw Hid. rewrite <- Hsto in Hw. by apply (scheduled_keeps_blocked _ t1 nxt rest _ w Hp1 Ht1 Hsd). }
    rewrite Hstep, Hs in Ho. unfold resumes in Ho. change (running (ticked k t)) with (running k) in Ho.
    pose proof (sd_running _ _ _ _ _ Hsd) as Hrn.
    destruct (Z.eqb_spec (running k) nxt); subst o; (split; [done|congruence]).
  - rewrite Hstep in Ho. cbv zeta in Ho. fold (counted k t) in Ho. subst o. split; [|done].
    constructor; try done; [by apply counted_ok| |].
    + intros p. simpl. rewrite !lookup_insert. case_decide; [subst p|done].
      split; intros _; by eexists.
    + intros w Hw _. by rewrite counted_st.
Qed.

(** ** Preservation *)

Lemma quiet_flags k e k' : quiet (set_eflags e k) k' -> quiet k (set_eflags (eflags k) k').
Proof. intros [? ? ? ? ? ? ?]. constructor; try done. by apply set_eflags_ok. Qed.

(** A step that changes neither locks nor phases. *)
Lemma sys_ok_quiet k ph su d k' su' :
  sys_ok (System k ph su d) ->
  sched_ok k' -> semas k' = semas k -> locks k' = locks k -> idle_thread k' = idle_thread k ->
  (forall p, is_Some (tasks k' !! p) -> is_Some (tasks k !! p)) ->
  (forall w, st_of k w = Some TASK_BLOCKED -> w <> idle_thread k -> st_of k' w = Some TASK_BLOCKED) ->
  (is_Some (su' !! running k') -> intr_get_status (eflags k') = INTR_OFF) ->
  (forall p, is_Some (tasks k !! p) -> p <> running k' -> is_Some (su' !! p)) ->
  (forall p f l st, su' !! p = Some (SDown f l st) -> su !! p = Some (SDown f l st)) ->
  (forall w, w <> running k -> su' !! w = su !! w) ->
  sys_ok (System k' ph su' d).
Proof.
  intros Hs Hok Hse Hlo Hid Hta Hbl Hoff Hsu Hdown Hkeep.
  pose proof Hs as [[Hp Hrun] _ _ Hlock Hdn Hph]. constructor; cbn [sk phases susp depth] in *.
  - done.
  - done.
  - intros p Hpt. apply Hsu. by apply Hta.
  - intros l lk Hl. rewrite Hlo in Hl. rewrite Hse.
    destruct (Hlock l lk Hl) as (sm & Hsm & Hst & Hnd & Hw). exists sm.
    split; [done|]. split; [by destruct Hst; econstructor|]. split; [done|].
    intros w Hin. destruct (Hw w Hin) as (Hb & f & st & Hf).
    assert (w <> running k) as Hne by (intros ->; congruence).
    split; [|exists f, st; by rewrite Hkeep]. apply Hbl; [done|].
    by apply (Hph w (PDown l)), (Hdn w f l st).
  - intros p f l st Hf. by apply (Hdn p f l st), Hdown.
  - intros p q Hq. rewrite Hid, Hlo. by apply Hph.
Qed.

Lemma ok_tick_ret k ph su d k' :
  sys_ok (System k ph su d) -> su !! running k = None ->
  intr_timer_handler (set_eflags (cli (eflags k)) k) = Ret tt k' ->
  sys_ok (System (set_eflags (eflags k) k') ph su d).
Proof.
  intros Hs Hno Ht. pose proof (sy_sched _ Hs) as Hok. cbn [sk] in Hok.
  destruct (timer_quiet _ _ (set_eflags_ok k (cli (eflags k)) Hok) (cli_off (eflags k)) Ht) as [Hq Hr].
  apply quiet_flags in Hq as [? ? ? ? Hta ? ?]. apply (sys_ok_quiet k ph su d); try done.
  - intros p. apply Hta.
  - simpl. rewrite Hr. simpl. rewrite Hno. by intros [? ?].
  - intros p Hp Hne. apply (sy_susp _ Hs p Hp). simpl in *. by rewrite Hr in Hne.
Qed.

Lemma ok_tick_switch k ph su d k' c :
  sys_ok (System k ph su d) -> su !! running k = None ->
  intr_timer_handler (set_eflags (cli (eflags k)) k) = Switch k' c ->
  sys_ok (System k' ph (<[running k := STick (eflags k)]> su) d).
Proof.
  intros Hs Hno Ht. pose proof (sy_sched _ Hs) as Hok. cbn [sk] in Hok.
  destruct (timer_quiet _ _ (set_eflags_ok k (cli (eflags k)) Hok) (cli_off (eflags k)) Ht) as [Hq Hr].
  destruct Hq as [? ? ? ? Hta ? He]. apply (sys_ok_quiet k ph su d); try done.
  - intros p. apply Hta.
  - intros _. rewrite He. apply cli_off.
  - intros p Hp Hne. rewrite lookup_insert. case_decide; [by eexists|]. by apply (sy_susp _ Hs p Hp).
  - intros p f l st. rewrite lookup_insert. by case_decide.
  - intros w Hw. by rewrite lookup_insert_ne.
Qed.

Lemma ok_resume_tick k ph su d e :
  sys_ok (System k ph su d) -> su !! running k = Some (STick e) ->
  sys_ok (System (set_eflags e k) ph (delete (running k) su) d).
Proof.
  intros Hs Hsu. apply (sys_ok_quiet k ph su d); try done.
  - apply set_eflags_ok, (sy_sched _ Hs).
  - simpl. rewrite lookup_delete_eq. by intros [? ?].
  - simpl. intros p Hp Hne. rewrite lookup_delete_ne by done. by apply (sy_susp _ Hs p Hp).
  - intros p f l st. destruct (decide (p = running k)) as [->|]; [by rewrite lookup_delete_eq|].
    by rewrite lookup_delete_ne.
  - intros w Hw. by rewrite lookup_delete_ne.
Qed.

(** The running task is in no list of waiters. *)
Lemma running_not_waiting s l lk sm :
  sys_ok s -> locks (sk s) !! l = Some lk -> semas (sk s) !! lock_sema l = Some sm ->
  running (sk s) ∉ waiters sm.
Proof.
  intros Hs Hl Hsm Hin. destruct (sy_sched _ Hs) as [_ Hrun].
  destruct (sy_lock _ Hs l lk Hl) as (sm' & Hsm' & _ & _ & Hw). assert (sm' = sm) as -> by congruence.
  destruct (Hw _ Hin) as [Hb _]. congruence.
Qed.

(** Waiting for the semaphore of [l]: the task is queued and suspended.  [k0] is
    the kernel in which the loop of [sema_down] blocks: [k] up to the flags. *)
Lemma ok_waits k e ph su d l lk ws t nxt rest k' f st :
  let k0 := set_eflags e k in
  sys_ok (System k ph su d) -> locks k !! l = Some lk ->
  semas k !! lock_sema l = Some (Semaphore 0 ws) -> tasks k !! running k = Some t ->
  intr_get_status e = INTR_OFF -> ph !! running k = Some (PDown l) ->
  scheduled (waiting k0 (lock_sema l) ws t) (set_status TASK_BLOCKED t) nxt rest k' ->
  running k <> nxt ->
  sys_ok (System k' ph (<[running k := SDown f l st]> su) d).
Proof.
  intros k0 Hs Hl Hsm Ht Hoff Hph Hsd Hne.
  pose proof Hs as [Hok _ Hsusp Hlock Hdn Hphs]. cbn [sk phases susp depth] in *.
  destruct (Hphs _ _ Hph) as [Hid _]. pose proof Hok as [Hp Hrun].
  pose proof (running_not_waiting (System k ph su d) l lk _ Hs Hl Hsm) as Hnin. cbn [sk waiters] in Hnin.
  set (k1 := waiting k0 (lock_sema l) ws t) in *.
  pose proof Hsd as [_ Hok' Hf Hr' _ Hst _].
  assert (semas k' = <[lock_sema l := Semaphore 0 (ws ++ [running k])]> (semas k)) as Hse by apply Hf.
  assert (locks k' = locks k) as Hlo by apply Hf.
  assert (forall q, st_of k1 q = if decide (running k = q) then Some TASK_BLOCKED else st_of k q) as Hst1.
  { intros q. by rewrite (st_of_insert k k1 (running k) _ q eq_refl). }
  assert (sched_pre k1 /\ tasks k1 !! running k1 = Some (set_status TASK_BLOCKED t)) as [Hp1 Ht1].
  { split; [|simpl; by rewrite lookup_insert, decide_True].
    apply with_status_pre; try done; [by apply set_eflags_pre, (with_sema_ok k0), set_eflags_ok|apply Hp|].
    intros q. simpl. destruct (decide (running k = q)) as [<-|]; [|done]. rewrite (sp_ready _ Hp), Hrun. by split. }
  assert (forall w, st_of k1 w = Some TASK_BLOCKED -> w <> idle_thread k -> st_of k' w = Some TASK_BLOCKED)
    as Hbl by (intros w Hw Hwi; by apply (scheduled_keeps_blocked k1 _ nxt rest k' w Hp1 Ht1 Hsd)).
  constructor; cbn [sk phases susp depth].
  - done.
  - intros _. rewrite (sf_eflags _ _ Hf). simpl. unfold intr_disable. by rewrite Hoff.
  - intros p Hpt Hnr. rewrite lookup_insert. destruct (decide (running k = p)); [by eexists|].
    apply Hsusp; [|congruence]. rewrite (frame_tasks _ _ _ Hf) in Hpt. simpl in Hpt.
    rewrite lookup_insert_ne in Hpt by done. done.
  - intros l' lk' Hl'. rewrite Hlo in Hl'. destruct (Hlock l' lk' Hl') as (sm & Hsm' & Hls & Hnd & Hw).
    rewrite Hse. destruct (decide (l' = l)) as [->|Hnl].
    + assert (sm = Semaphore 0 ws) as -> by congruence. eexists. rewrite lookup_insert, decide_True by done.
      split; [done|]. split; [by destruct Hls; econstructor|]. cbn [waiters] in *. split.
      { apply NoDup_app. split_and!; [done| |apply NoDup_singleton]. intros x Hx Hx2.
        apply list_elem_of_singleton in Hx2. by subst x. }
      intros w Hin. rewrite elem_of_app, list_elem_of_singleton in Hin.
      destruct (decide (w = running k)) as [->|Hwr].
      * split; [apply Hbl; [by rewrite Hst1, decide_True|done]|].
        exists f, st. by rewrite lookup_insert, decide_True.
      * destruct Hin as [Hin|]; [|done]. destruct (Hw w Hin) as (Hb & f' & st' & Hf').
        split; [|exists f', st'; by rewrite lookup_insert_ne].
        apply Hbl; [by rewrite Hst1, decide_False|]. by apply (Hphs w (PDown l)), (Hdn w f' l st').
    + exists sm. rewrite lookup_insert_ne by (unfold lock_sema; lia). split; [done|].
      split; [by destruct Hls; econstructor|]. split; [done|].
      intros w Hin. destruct (Hw w Hin) as (Hb & f' & st' & Hf').
      assert (w <> running k) as Hwr by (intros ->; congruence).
      split; [|exists f', st'; by rewrite lookup_insert_ne].
      apply Hbl; [by rewrite Hst1, decide_False|]. by apply (Hphs w (PDown l')), (Hdn w f' l' st').
  - intros p f' l' st'. rewrite lookup_insert.
    destruct (decide (running k = p)) as [<-|]; [|apply Hdn]. by intros [= <- <- <-].
  - intros p q Hq. destruct (Hphs p q Hq) as [Hpi Hpl]. rewrite Hlo, (sf_idle _ _ Hf). done.
Qed.

(** A step of the running task on one lock [l]. *)
Definition about (o : option phase) (l : Z) : Prop :=
  match o with None => True | Some (PDown m) | Some (PGot m) | Some (PUp m) => m = l end.

Lemma lock_state_ext s s' l lk sm :
  (forall p, transit s' p l <-> transit s p l) -> (forall p, depth s' p l = depth s p l) ->
  lock_state s l lk sm -> lock_state s' l lk sm.
Proof.
  intros Ht Hd [Hv Hl Hn Hz|Hv Hh Hr Hn Hz|p Hv Hl Hp Hu Hz].
  - apply ls_free; try done; intros p; [by rewrite Ht|by rewrite Hd].
  - apply ls_held; try done; intros p; [by rewrite Ht|by rewrite Hd].
  - apply (ls_transit _ _ _ _ p); try done; [by apply Ht|intros q; rewrite Ht; apply Hu|].
    intros q. by rewrite Hd.
Qed.

Lemma ok_lock_step k ph su d k' o d' l lk sm lk' sm' :
  sys_ok (System k ph su d) ->
  locks k !! l = Some lk -> semas k !! lock_sema l = Some sm ->
  sched_ok k' -> running k' = running k -> idle_thread k' = idle_thread k ->
  (forall p, is_Some (tasks k' !! p) -> is_Some (tasks k !! p)) ->
  semas k' = <[lock_sema l := sm']> (semas k) -> locks k' = <[l := lk']> (locks k) ->
  about (ph !! running k) l -> about o l -> (o <> None -> running k <> idle_thread k) ->
  (forall q m, m <> l -> d' q m = d q m) ->
  NoDup (waiters sm') -> (forall w, w ∈ waiters sm' -> w ∈ waiters sm) ->
  (forall w f m st, st_of k w = Some TASK_BLOCKED -> su !! w = Some (SDown f m st) ->
     m <> l \/ w ∈ waiters sm' -> st_of k' w = Some TASK_BLOCKED) ->
  lock_state (System k' (partial_alter (fun _ => o) (running k) ph) (delete (running k) su) d') l lk' sm' ->
  sys_ok (System k' (partial_alter (fun _ => o) (running k) ph) (delete (running k) su) d').
Proof.
  intros Hs Hl Hsm Hok Hr Hid Hta Hse Hlo Hab Hab' Hnid Hd Hnd Hsub Hbl Hls.
  pose proof Hs as [[Hp Hrun] _ Hsusp Hlock Hdn Hph]. cbn [sk phases susp depth] in *.
  set (ph' := partial_alter (fun _ => o) (running k) ph) in *.
  assert (ph' !! running k = o) as Hpr by apply lookup_partial_alter_eq.
  assert (forall q, q <> running k -> ph' !! q = ph !! q) as Hpo
    by (intros q Hq; by apply lookup_partial_alter_ne).
  assert (forall w f m st, w <> running k -> su !! w = Some (SDown f m st) ->
            delete (running k) su !! w = Some (SDown f m st)) as Hdel.
  { intros w f m st Hw Hf. by rewrite lookup_delete_ne. }
  constructor; cbn [sk phases susp depth].
  - done.
  - rewrite Hr, lookup_delete_eq. by intros [? ?].
  - intros p Hpt Hne. rewrite Hr in Hne. rewrite lookup_delete_ne by done. by apply Hsusp; [apply Hta|].
  - intros m lm Hm. rewrite Hse. destruct (decide (m = l)) as [->|Hml].
    + rewrite Hlo, lookup_insert, decide_True in Hm by done. injection Hm as <-.
      exists sm'. rewrite lookup_insert, decide_True by done. split; [done|]. split; [done|]. split; [done|].
      destruct (Hlock l lk Hl) as (sm0 & Hsm0 & _ & _ & Hw). assert (sm0 = sm) as -> by congruence.
      intros w Hin. destruct (Hw w (Hsub w Hin)) as (Hb & f & st & Hf).
      assert (w <> running k) as Hwr by (intros ->; congruence).
      split; [apply (Hbl w f l st); auto|]. exists f, st. by apply Hdel.
    + rewrite Hlo, lookup_insert_ne in Hm by done. destruct (Hlock m lm Hm) as (sm0 & Hsm0 & Hls0 & Hnd0 & Hw).
      exists sm0. rewrite lookup_insert_ne by (unfold lock_sema; lia). split; [done|]. split.
      { revert Hls0. apply lock_state_ext; cbn [depth]; [|intros q; by apply Hd].
        intros q. unfold transit; cbn [phases]. destruct (decide (q = running k)) as [->|Hq]; [|by rewrite Hpo].
        rewrite Hpr. destruct (ph !! running k) as [[]|], o as [[]|]; simpl in *; naive_solver. }
      split; [done|]. intros w Hin. destruct (Hw w Hin) as (Hb & f & st & Hf).
      assert (w <> running k) as Hwr by (intros ->; congruence).
      split; [apply (Hbl w f m st); auto|]. exists f, st. by apply Hdel.
  - intros p f m st Hf. destruct (decide (p = running k)) as [->|Hq]; [by rewrite lookup_delete_eq in Hf|].
    rewrite lookup_delete_ne in Hf by done. rewrite Hpo by done. by apply (Hdn p f m st).
  - intros p q Hq. rewrite Hid, Hlo. destruct (decide (p = running k)) as [->|Hne].
    + rewrite Hpr in Hq. split; [apply Hnid; by rewrite Hq|]. rewrite Hq in Hab'.
      assert (match q with PDown m | PGot m | PUp m => m end = l) as -> by (by destruct q).
      rewrite lookup_insert, decide_True by done. by eexists.
    + rewrite Hpo in Hq by done. destruct (Hph p q Hq) as [Hpi Hpl]. split; [done|].
      rewrite lookup_insert. case_decide; [by eexists|done].
Qed.

Lemma sys_running s : sys_ok s -> running (sk s) <> 0 /\ exists t, tasks (sk s) !! running (sk s) = Some t.
Proof.
  intros Hs. destruct (sy_sched _ Hs) as [Hp Hr]. destruct (sp_cur _ Hp) as [t Ht].
  split; [|by exists t]. intros He. rewrite He, (sp_null _ Hp) in Ht. done.
Qed.

(** [sema_down] and its rest, from the invariant. *)
Lemma take_sema k ph su d l lk ws e :
  sys_ok (System k ph su d) -> locks k !! l = Some lk ->
  semas k !! lock_sema l = Some (Semaphore 1 ws) -> ph !! running k = Some (PDown l) ->
  sys_ok (System (set_eflags e (with_sema k (lock_sema l) (Semaphore 0 ws)))
            (<[running k := PGot l]> ph) (delete (running k) su) d).
Proof.
  intros Hs Hl Hsm Hph. destruct (sy_phase _ Hs _ _ Hph) as [Hid _].
  destruct (sy_lock _ Hs l lk Hl) as (sm & Hsm' & Hls & Hnd & _). cbn [sk] in *.
  assert (sm = Semaphore 1 ws) as -> by congruence.
  apply (ok_lock_step k ph su d _ (Some (PGot l)) d l lk (Semaphore 1 ws) lk (Semaphore 0 ws)); try done.
  - apply set_eflags_ok, with_sema_ok, (sy_sched _ Hs).
  - simpl. by rewrite insert_id.
  - by rewrite Hph.
  - set (ph' := partial_alter _ _ _). destruct Hls as [_ -> Hn Hz|Hv|p Hv]; [|done|done].
    apply (ls_transit _ _ _ _ (running k)); try done.
    + left. apply lookup_partial_alter_eq.
    + intros q [Hq|Hq]; cbn [phases] in Hq; destruct (decide (q = running k)) as [|Hne]; try done;
        unfold ph' in Hq; rewrite lookup_partial_alter_ne in Hq by done; destruct (Hn q); (by left) || (by right).
Qed.

Lemma ok_down k ph su d l f :
  sys_ok (System k ph su d) -> ph !! running k = Some (PDown l) -> su !! running k = None ->
  match sema_down f (lock_sema l) k with
  | Ret _ k' => sys_ok (System k' (<[running k := PGot l]> ph) su d)
  | Switch k' c => forall f' st, sys_ok (System k' ph (<[running k := SDown f' l st]> su) d)
  | Err e => e = EFuel
  end.
Proof.
  intros Hs Hph Hsu. destruct (sy_phase _ Hs _ _ Hph) as [Hid [lk Hl]].
  destruct (sys_running _ Hs) as [_ [t Ht]].
  destruct (sy_lock _ Hs l lk Hl) as ([v ws] & Hsm & Hls & _ & _). cbn [sk] in *.
  destruct f as [|f]; [done|].
  assert (v = 1 \/ v = 0) as [-> | ->] by (destruct Hls; auto).
  - rewrite (sema_down_free f k _ ws Hsm).
    pose proof (take_sema k ph su d l lk ws (eflags k) Hs Hl Hsm Hph) as H.
    rewrite delete_id in H by done. exact H.
  - destruct (sema_down_waits f k (lock_sema l) ws t) as (nxt & rest & k' & -> & Hsd & Hne); try done.
    { apply (sy_sched _ Hs). }
    { by apply (running_not_waiting (System k ph su d) l lk (Semaphore 0 ws)). }
    intros f' st. by apply (ok_waits k _ ph su d l lk ws t nxt rest k' f' st Hs Hl Hsm Ht (disable_off (eflags k)) Hph Hsd).
Qed.

Lemma ok_resume k ph su d l f st :
  sys_ok (System k ph su d) -> su !! running k = Some (SDown f l st) ->
  match down_tail f (lock_sema l) st k with
  | Ret _ k' => sys_ok (System k' (<[running k := PGot l]> ph) (delete (running k) su) d)
  | Switch k' c => forall f' st', sys_ok (System k' ph (<[running k := SDown f' l st']> su) d)
  | Err e => e = EFuel
  end.
Proof.
  intros Hs Hsu. pose proof (sy_down _ Hs _ _ _ _ Hsu) as Hph. cbn [phases] in Hph.
  assert (intr_get_status (eflags k) = INTR_OFF) as Hoff by (apply (sy_off _ Hs); cbn [susp sk]; by eexists).
  destruct (sy_phase _ Hs _ _ Hph) as [Hid [lk Hl]]. destruct (sys_running _ Hs) as [_ [t Ht]].
  destruct (sy_lock _ Hs l lk Hl) as ([v ws] & Hsm & Hls & _ & _). cbn [sk] in *.
  destruct f as [|f].
  { unfold down_tail. by rewrite set_off_off. }
  assert (v = 1 \/ v = 0) as [-> | ->] by (destruct Hls; auto).
  - rewrite (down_tail_takes f k _ ws st Hoff Hsm). by apply (take_sema k ph su d l lk ws).
  - destruct (down_tail_waits f k (lock_sema l) ws t st) as (nxt & rest & k' & -> & Hsd & Hne); try done.
    { apply (sy_sched _ Hs). }
    { by apply (running_not_waiting (System k ph su d) l lk (Semaphore 0 ws)). }
    intros f' st'.
    assert (set_eflags (eflags k) k = k) as Hk by (by destruct k).
    eapply (ok_waits k (eflags k) ph su d l lk ws t nxt rest k' f' st' Hs Hl Hsm Ht Hoff Hph); [|done].
    by rewrite Hk.
Qed.

(** Which state a lock is in, seen from the running task. *)
Lemma transit_state s p l lk sm :
  lock_state s l lk sm -> transit s p l ->
  value sm = 0 /\ lk = Lock 0 0 /\ (forall q, transit s q l -> q = p) /\ forall q, depth s q l = 0.
Proof.
  intros [_ _ Hn _|_ _ _ Hn _|q Hv Hl Hq Hu Hz] Hp; [by destruct (Hn p)|by destruct (Hn p)|].
  assert (q = p) as -> by (symmetry; by apply Hu). done.
Qed.

Lemma held_state s p l lk sm :
  lock_state s l lk sm -> holder lk = p -> p <> 0 ->
  value sm = 0 /\ 1 <= holder_repeat_nr lk < 2 ^ 32 /\ (forall q, ~ transit s q l)
  /\ forall q, depth s q l = if decide (q = p) then holder_repeat_nr lk else 0.
Proof. intros [_ -> _ _|Hv Hh Hr Hn Hz|q _ -> _ _ _] Hp Hnz; [done| |done]. by subst p. Qed.

(** Removing or adding a phase that is not in transit. *)
Lemma transit_alter k k' ph su su' d d' p o l q :
  ~ transit (System k ph su d) p l -> o <> Some (PGot l) -> o <> Some (PUp l) ->
  transit (System k' (partial_alter (fun _ => o) p ph) su' d') q l <-> transit (System k ph su d) q l.
Proof.
  intros Hn H1 H2. unfold transit in *; cbn [phases] in *. destruct (decide (q = p)) as [->|Hne].
  - rewrite lookup_partial_alter_eq. naive_solver.
  - by rewrite lookup_partial_alter_ne.
Qed.

Lemma no_phase_no_transit k ph su d p l : ph !! p = None -> ~ transit (System k ph su d) p l.
Proof. intros H [Ht|Ht]; cbn [phases] in Ht; congruence. Qed.

Lemma add_depth_same d p l n : add_depth d p l n p l = d p l + n.
Proof. unfold add_depth. by rewrite decide_True. Qed.

Lemma add_depth_other d p l n q m : ~ (q = p /\ m = l) -> add_depth d p l n q m = d q m.
Proof. intros H. unfold add_depth. by rewrite decide_False. Qed.

Lemma ok_acquire_test k ph su d l lk :
  sys_ok (System k ph su d) -> su !! running k = None -> ph !! running k = None ->
  running k <> idle_thread k -> locks k !! l = Some lk ->
  sys_ok (System k (<[running k := PDown l]> ph) su d).
Proof.
  intros Hs Hsu Hph Hid Hl. destruct (sy_lock _ Hs l lk Hl) as (sm & Hsm & Hls & Hnd & _). cbn [sk] in *.
  assert (sys_ok (System k (partial_alter (fun _ => Some (PDown l)) (running k) ph) (delete (running k) su) d))
    as H; [|by rewrite delete_id in H].
  apply (ok_lock_step k ph su d k (Some (PDown l)) d l lk sm lk sm); try done.
  - apply (sy_sched _ Hs).
  - by rewrite insert_id.
  - by rewrite insert_id.
  - by rewrite Hph.
  - revert Hls. apply lock_state_ext; [|done]. intros q. apply transit_alter; [|done|done].
    by apply no_phase_no_transit.
Qed.

(** The holder acquires or gives up one of several holds: its count changes by [n]. *)
Lemma ok_rehold k ph su d l lk n :
  sys_ok (System k ph su d) -> su !! running k = None -> ph !! running k = None ->
  locks k !! l = Some lk -> holder lk = running k -> 1 <= holder_repeat_nr lk + n < 2 ^ 32 ->
  sys_ok (System (with_lock k l (Lock (running k) (holder_repeat_nr lk + n))) ph su
            (add_depth d (running k) l n)).
Proof.
  intros Hs Hsu Hph Hl Hh Hn. destruct (sys_running _ Hs) as [Hnz _].
  destruct (sy_lock _ Hs l lk Hl) as (sm & Hsm & Hls & Hnd & _). cbn [sk] in *.
  destruct (held_state _ _ _ _ _ Hls Hh Hnz) as (Hv & Hr & Hnt & Hz).
  set (k' := with_lock k l (Lock (running k) (holder_repeat_nr lk + n))).
  assert (sys_ok (System k' (partial_alter (fun _ => None) (running k) ph) (delete (running k) su)
             (add_depth d (running k) l n))) as H.
  2: { change (partial_alter (fun _ => None) (running k) ph) with (delete (running k) ph) in H.
       by rewrite !delete_id in H by done. }
  apply (ok_lock_step k ph su d k' None _ l lk sm (Lock (running k) (holder_repeat_nr lk + n)) sm); try done.
  - apply set_locks_ok, (sy_sched _ Hs).
  - simpl. by rewrite insert_id.
  - by rewrite Hph.
  - intros q m Hm. apply add_depth_other. naive_solver.
  - apply ls_held; try done.
    + intros q. rewrite transit_alter; [apply Hnt|by apply no_phase_no_transit|done|done].
    + intros q. cbn [depth holder holder_repeat_nr]. destruct (decide (q = running k)) as [->|Hq].
      * rewrite add_depth_same. specialize (Hz (running k)). cbn [depth] in Hz.
        rewrite decide_True in Hz by done. lia.
      * rewrite add_depth_other by naive_solver. specialize (Hz q). cbn [depth] in Hz.
        by rewrite decide_False in Hz.
Qed.

Lemma ok_take k ph su d l :
  sys_ok (System k ph su d) -> su !! running k = None -> ph !! running k = Some (PGot l) ->
  exists k', lock_take l k = Ret tt k'
    /\ sys_ok (System k' (delete (running k) ph) su (add_depth d (running k) l 1)).
Proof.
  intros Hs Hsu Hph. destruct (sys_running _ Hs) as [Hnz _]. destruct (sy_phase _ Hs _ _ Hph) as [_ [lk Hl]].
  destruct (sy_lock _ Hs l lk Hl) as (sm & Hsm & Hls & Hnd & _). cbn [sk] in *.
  assert (transit (System k ph su d) (running k) l) as Htr by (by left).
  destruct (transit_state _ _ _ _ _ Hls Htr) as (Hv & -> & Hu & Hz).
  set (k' := with_lock k l (Lock (running k) 1)). exists k'. split; [by apply (lock_take_spec k l 0)|].
  rewrite <- (delete_id su (running k)) by done.
  apply (ok_lock_step k ph su d k' None _ l (Lock 0 0) sm (Lock (running k) 1) sm); try done.
  - apply set_locks_ok, (sy_sched _ Hs).
  - simpl. by rewrite insert_id.
  - by rewrite Hph.
  - intros q m Hm. apply add_depth_other. naive_solver.
  - apply ls_held; try done.
    + intros q Hq. destruct (decide (q = running k)) as [->|Hne].
      * destruct Hq as [Hq|Hq]; cbn [phases] in Hq; by rewrite lookup_partial_alter_eq in Hq.
      * apply Hne, Hu. destruct Hq as [Hq|Hq]; cbn [phases] in Hq;
          rewrite lookup_partial_alter_ne in Hq by done; (by left) || (by right).
    + intros q. cbn [depth holder holder_repeat_nr]. pose proof (Hz q) as Hzq. cbn [depth] in Hzq.
      destruct (decide (q = running k)) as [->|Hq].
      * rewrite add_depth_same, Hzq. done.
      * rewrite add_depth_other by naive_solver. done.
Qed.

Lemma ok_release_last k ph su d l :
  sys_ok (System k ph su d) -> su !! running k = None -> ph !! running k = None ->
  locks k !! l = Some (Lock (running k) 1) -> running k <> idle_thread k ->
  sys_ok (System (with_lock k l (Lock 0 0)) (<[running k := PUp l]> ph) su (add_depth d (running k) l (-1))).
Proof.
  intros Hs Hsu Hph Hl Hid. destruct (sys_running _ Hs) as [Hnz _].
  destruct (sy_lock _ Hs l _ Hl) as (sm & Hsm & Hls & Hnd & _). cbn [sk] in *.
  destruct (held_state _ (running k) _ _ _ Hls eq_refl Hnz) as (Hv & _ & Hnt & Hz).
  rewrite <- (delete_id su (running k)) by done.
  apply (ok_lock_step k ph su d _ (Some (PUp l)) _ l (Lock (running k) 1) sm (Lock 0 0) sm); try done.
  - apply set_locks_ok, (sy_sched _ Hs).
  - simpl. by rewrite insert_id.
  - by rewrite Hph.
  - intros q m Hm. apply add_depth_other. naive_solver.
  - apply (ls_transit _ _ _ _ (running k)); try done.
    + right. apply lookup_partial_alter_eq.
    + intros q Hq. destruct (decide (q = running k)) as [|Hne]; [done|].
      destruct (Hnt q). destruct Hq as [Hq|Hq]; cbn [phases] in Hq;
          rewrite lookup_partial_alter_ne in Hq by done; (by left) || (by right).
    + intros q. cbn [depth]. pose proof (Hz q) as Hzq. cbn [depth holder_repeat_nr] in Hzq.
      destruct (decide (q = running k)) as [->|Hq].
      * rewrite add_depth_same, Hzq. done.
      * rewrite add_depth_other by naive_solver. done.
Qed.

Lemma ok_up k ph su d l :
  sys_ok (System k ph su d) -> su !! running k = None -> ph !! running k = Some (PUp l) ->
  exists k', sema_up (lock_sema l) k = Ret tt k' /\ sys_ok (System k' (delete (running k) ph) su d).
Proof.
  intros Hs Hsu Hph. destruct (sy_phase _ Hs _ _ Hph) as [Hid [lk Hl]].
  destruct (sy_lock _ Hs l lk Hl) as ([v ws] & Hsm & Hls & Hnd & Hw). cbn [sk] in *.
  assert (transit (System k ph su d) (running k) l) as Htr by (by right).
  destruct (transit_state _ _ _ _ _ Hls Htr) as (Hv & -> & Hu & Hz). cbn [value] in Hv. subst v.
  pose proof (sy_sched _ Hs) as Hok. cbn [sk waiters] in *.
  assert (forall k' ws', lock_state (System k' (partial_alter (fun _ => None) (running k) ph)
             (delete (running k) su) d) l (Lock 0 0) (Semaphore 1 ws')) as Hfree.
  { intros k' ws'. apply ls_free; try done. intros q Hq. destruct (decide (q = running k)) as [->|Hne].
    - destruct Hq as [Hq|Hq]; cbn [phases] in Hq; by rewrite lookup_partial_alter_eq in Hq.
    - apply Hne, Hu. destruct Hq as [Hq|Hq]; cbn [phases] in Hq;
        rewrite lookup_partial_alter_ne in Hq by done; (by left) || (by right). }
  rewrite <- (delete_id su (running k)) by done. destruct ws as [|w ws].
  - eexists. split; [by apply sema_up_none|].
    apply (ok_lock_step k ph su d _ None d l (Lock 0 0) (Semaphore 0 []) (Lock 0 0) (Semaphore 1 [])); try done.
    + by apply with_sema_ok.
    + simpl. by rewrite insert_id.
    + by rewrite Hph.
  - destruct (Hw w (list_elem_of_here w ws)) as (Hb & fw & stw & Hfw).
    pose proof Hb as Hb'. unfold st_of in Hb'. apply fmap_Some in Hb' as (tw & Htw & Hstw).
    assert (blocked (status tw)) as Hbl by (left; done).
    destruct (sema_up_wakes k (lock_sema l) w ws tw Hsm Hok Htw Hbl) as [Hup Hok1].
    eexists. split; [exact Hup|]. apply NoDup_cons in Hnd as [Hnin Hnd].
    apply (ok_lock_step k ph su d _ None d l (Lock 0 0) (Semaphore 0 (w :: ws)) (Lock 0 0) (Semaphore 1 ws)); try done.
    + by apply with_sema_ok.
    + intros p. simpl. rewrite lookup_insert. destruct (decide (w = p)) as [<-|]; [by eexists|done].
    + simpl. by rewrite insert_id.
    + by rewrite Hph.
    + intros x Hx. by apply list_elem_of_further.
    + intros x f m st Hbx Hfx Hor.
      assert (x <> w) as Hxw.
      { intros ->. cbn [susp] in Hfw. rewrite Hfw in Hfx. injection Hfx as _ <- _. by destruct Hor. }
      rewrite (st_of_insert k (with_sema (unblocked k w tw) (lock_sema l) (Semaphore 1 ws)) w
                 (set_status TASK_READY tw) x eq_refl), decide_False by done. done.
Qed.

Lemma sys_step_ok s s' : sys_ok s -> sys_step s s' -> sys_ok s'.
Proof.
  intros Hs Hstep. destruct Hstep.
  - by apply (ok_tick_ret k ph su d k').
  - by apply (ok_tick_switch k ph su d k' c).
  - by apply ok_resume_tick.
  - by apply (ok_acquire_test k ph su d l lk).
  - destruct lk as [h n]. cbn [holder holder_repeat_nr] in *. subst h.
    assert (k' = with_lock k l (Lock (running k) (n + 1))) as ->.
    { rewrite (lock_acquire_again 0 k l n H1) in H4. injection H4 as <-.
      destruct (sys_running _ Hs) as [Hnz _].
      destruct (sy_lock _ Hs l _ H1) as (sm & _ & Hls & _).
      destruct (held_state _ (running k) _ _ _ Hls eq_refl Hnz) as (_ & Hr & _). cbn [holder_repeat_nr] in Hr.
      by rewrite u32_id by lia. }
    destruct (sys_running _ Hs) as [Hnz _].
    destruct (sy_lock _ Hs l _ H1) as (sm & _ & Hls & _).
    destruct (held_state _ (running k) _ _ _ Hls eq_refl Hnz) as (_ & Hr & _). cbn [holder_repeat_nr] in Hr.
    apply (ok_rehold k ph su d l (Lock (running k) n) 1); try done. simpl. lia.
  - pose proof (ok_down k ph su d l f Hs H0 H) as Hd. by rewrite H1 in Hd.
  - pose proof (ok_down k ph su d l f Hs H0 H) as Hd. rewrite H1 in Hd. apply Hd.
  - pose proof (ok_resume k ph su d l f st Hs H) as Hd. by rewrite H0 in Hd.
  - pose proof (ok_resume k ph su d l f st Hs H) as Hd. rewrite H0 in Hd. apply Hd.
  - destruct (ok_take k ph su d l Hs H H0) as (k2 & Hk2 & Hok). congruence.
  - destruct (lock_drop_inv _ _ _ _ H1) as (n & Hl & Hb & _). destruct (sys_running _ Hs) as [Hnz _].
    destruct (sy_lock _ Hs l _ Hl) as (sm & _ & Hls & _).
    destruct (held_state _ (running k) _ _ _ Hls eq_refl Hnz) as (_ & Hr & _). cbn [holder_repeat_nr] in Hr.
    rewrite (lock_drop_again k l n Hl) in H1 by lia. injection H1 as <-.
    apply (ok_rehold k ph su d l (Lock (running k) n) (-1)); try done. simpl. lia.
  - destruct (lock_drop_inv _ _ _ _ H2) as (n & Hl & _ & Hn1). specialize (Hn1 eq_refl). subst n.
    rewrite (lock_drop_last k l Hl) in H2. injection H2 as <-. by apply ok_release_last.
  - destruct (ok_up k ph su d l Hs H H0) as (k2 & Hk2 & Hok). congruence.
Qed.

(** ** Properties *)

(** Reachable from [s]. *)
Definition reaches (s s' : system) : Prop := rtc sys_step s s'.

Lemma reaches_ok s s' : sys_ok s -> reaches s s' -> sys_ok s'.
Proof. intros Hs Hr. induction Hr; [done|]. apply IHHr. by eapply sys_step_ok. Qed.

(** Releasing a lock one has. *)
Lemma holder_drops k ph su d l lk :
  sys_ok (System k ph su d) -> locks k !! l = Some lk -> 0 < d (running k) l ->
  exists k', lock_drop l k = Ret (d (running k) l =? 1) k'.
Proof.
  intros Hs Hl Hd. destruct (sy_lock _ Hs l lk Hl) as (sm & _ & Hls & _). cbn [sk] in Hl.
  destruct Hls as [_ _ _ Hz|_ _ Hn _ Hz|? _ _ _ _ Hz]; cbn [depth] in Hz; [rewrite Hz in Hd; lia| |rewrite Hz in Hd; lia].
  rewrite Hz in Hd |- *. case_decide as E; [|lia]. destruct lk as [h n]. cbn [holder holder_repeat_nr] in *. subst h.
  destruct (Z.eqb_spec n 1) as [->|].
  - eexists. by apply lock_drop_last.
  - eexists. apply (lock_drop_again k l n Hl). lia.
Qed.

(** C1: mutual exclusion.  However timer interrupts and blocking interleave the
    tasks, at no reachable moment do two tasks have a lock, that is, have
    returned from [lock_acquire] more often than they have begun to release. *)
Theorem mutual_exclusion (s s' : system) (l p q : Z) (lk : lock) :
  sys_ok s -> reaches s s' -> locks (sk s') !! l = Some lk ->
  0 < depth s' p l -> 0 < depth s' q l -> p = q.
Proof.
  intros Hs Hr Hl Hp Hq. pose proof (reaches_ok s s' Hs Hr) as Hs'.
  destruct (sy_lock _ Hs' l lk Hl) as (sm & _ & Hls & _).
  destruct Hls as [_ _ _ Hz|_ _ _ _ Hz|? _ _ _ _ Hz]; rewrite Hz in Hp, Hq; try lia.
  by repeat case_decide; subst; try lia.
Qed.

(** The demo system: the main thread holds the demo lock, the others are where a
    timer interrupt took the processor from them. *)
Definition demo_system : system :=
  System (demo_held [])
    ∅ (<[0xc0101000 := STick 514]> (<[0xc0100000 := STick 514]> ∅))
    (fun p l => if decide (p = 0xc009e000 /\ l = demo_lock) then 1 else 0).

Lemma demo_system_ok : sys_ok demo_system.
Proof.
  constructor; cbn [demo_system sk phases susp depth].
  - apply set_locks_ok, with_sema_ok, demo_kernel_ok.
  - by intros [x Hx].
  - intros p [t Ht] Hne. apply demo_kernel_tasks in Ht.
    destruct Ht as [[-> _]|[[-> _]|[-> _]]]; [done|by eexists|by eexists].
  - intros l lk Hl. assert (l = demo_lock /\ lk = Lock 0xc009e000 1) as [-> ->].
    { revert Hl. unfold demo_held, with_lock. cbn [locks set_locks with_sema set_semas demo_kernel].
      rewrite lookup_insert, lookup_empty. case_decide; naive_solver. }
    exists (Semaphore 0 []). split; [done|]. split; [|split; [apply NoDup_nil_2|]].
    + apply ls_held; try done; [intros p [H|H]; done|].
      intros p. unfold demo_system. cbn [depth holder holder_repeat_nr].
      destruct (decide (p = 0xc009e000)) as [->|Hn]; [done|]. rewrite decide_False; [done|]. by intros [? _].
    + intros w Hw. by apply not_elem_of_nil in Hw.
  - intros p f l st. rewrite !lookup_insert, lookup_empty. by repeat case_decide.
  - intros p ph Hp. by rewrite lookup_empty in Hp.
Qed.

Lemma mutual_exclusion_witness : 0xc009e000 = running (sk demo_system).
Proof.
  apply (mutual_exclusion demo_system demo_system demo_lock 0xc009e000 (running (sk demo_system))
           (Lock 0xc009e000 1)).
  - apply demo_system_ok.
  - apply rtc_refl.
  - reflexivity.
  - reflexivity.
  - reflexivity.
Defined.

(** C10: from a well-formed state [lock_acquire] and [lock_release] never fail an
    ASSERT, wherever the calls are interrupted, when a task releases only locks
    it has.  In every reachable state: the [sema_down] of the running task's
    [lock_acquire], or the rest of it, returns or blocks, unless the bound on its
    wake-ups is used up; what follows it finds the lock without holds; the
    ASSERTs of [lock_release] on the holder and the number of holds succeed for
    a task that has returned from [lock_acquire] more often than it has begun
    to release, and exactly its last release goes on to [sema_up]; and that
    [sema_up] succeeds. *)
Theorem lock_steps_never_panic (s s' : system) (l : Z) (f : nat) :
  sys_ok s -> reaches s s' ->
  let k := sk s' in
  (susp s' !! running k = None -> phases s' !! running k = Some (PDown l) ->
     forall e, sema_down f (lock_sema l) k = Err e -> e = EFuel)
  /\ (forall st, susp s' !! running k = Some (SDown f l st) ->
        forall e, down_tail f (lock_sema l) st k = Err e -> e = EFuel)
  /\ (susp s' !! running k = None -> phases s' !! running k = Some (PGot l) ->
        exists k', lock_take l k = Ret tt k')
  /\ (susp s' !! running k = None -> phases s' !! running k = None -> is_Some (locks k !! l) ->
        0 < depth s' (running k) l ->
        exists k', lock_drop l k = Ret (depth s' (running k) l =? 1) k')
  /\ (susp s' !! running k = None -> phases s' !! running k = Some (PUp l) ->
        exists k', sema_up (lock_sema l) k = Ret tt k').
Proof.
  intros Hs Hr. pose proof (reaches_ok s s' Hs Hr) as Hs'. destruct s' as [k ph su d]. cbn [sk phases susp depth].
  split_and!.
  - intros Hsu Hph e He. pose proof (ok_down k ph su d l f Hs' Hph Hsu) as H. by rewrite He in H.
  - intros st Hsu e He. pose proof (ok_resume k ph su d l f st Hs' Hsu) as H. by rewrite He in H.
  - intros Hsu Hph. destruct (ok_take k ph su d l Hs' Hsu Hph) as (k' & H & _). by exists k'.
  - intros _ _ [lk Hl] Hd. by apply (holder_drops k ph su d l lk).
  - intros Hsu Hph. destruct (ok_up k ph su d l Hs' Hsu Hph) as (k' & H & _). by exists k'.
Qed.

(** On the demo system: the main thread's release gets past its ASSERTs, and so
    does its [sema_up]. *)
Lemma lock_steps_never_panic_witness :
  let s := System (with_lock (demo_held []) demo_lock (Lock 0 0)) (<[0xc009e000 := PUp demo_lock]> ∅)
             (susp demo_system) (add_depth (depth demo_system) 0xc009e000 demo_lock (-1)) in
  (exists k', lock_drop demo_lock (sk demo_system) = Ret true k')
  /\ exists k', sema_up (lock_sema demo_lock) (sk s) = Ret tt k'.
Proof.
  intros s. split.
  - destruct (lock_steps_never_panic demo_system demo_system demo_lock 0 demo_system_ok (rtc_refl _ _)) as (_ & _ & _ & H & _).
    apply H; [reflexivity|reflexivity|by eexists|reflexivity].
  - apply (lock_steps_never_panic demo_system s demo_lock 0).
    + apply demo_system_ok.
    + apply rtc_once. by apply step_release_last.
    + reflexivity.
    + reflexivity.
Defined.
