(* ===== verification/Ioqueue.v ===== *)
(** * Ioqueue: the ring buffer of device/ioqueue.c

    A queue is named by its address; its lock is at offset 0 of the struct, so
    it has the same address.  Abstractly a queue is the sequence of characters
    that were put and not yet taken. *)
From S2P Require Import Prelude Bitmap Interrupt DList Paging Pages Kernel Sched Sync.

(** ** Operations *)

Definition bufsize : Z := 2048.

Definition ioq_at (ioq : Z) : proc kernel ioqueue := load ioqueues ioq.

Definition store_ioq (ioq : Z) (q : ioqueue) : proc kernel unit :=
  modify (fun k => set_ioqueues (<[ioq := q]> (ioqueues k)) k).

Definition ioqueue_init (ioq : Z) : proc kernel unit :=
  _ ← lock_init ioq;
  q ← ioq_at ioq;
  store_ioq ioq (Ioqueue 0 0 (buf q) 0 0).

(** [%] of C truncates towards zero. *)
Definition next_pos (pos : Z) : Z := Z.rem (i32 (pos + 1)) bufsize.

Definition intr_is_off : proc kernel unit :=
  k ← get; assert (bool_decide (intr_get_status (eflags k) = INTR_OFF)).

Definition ioq_full (ioq : Z) : proc kernel bool :=
  _ ← intr_is_off;
  q ← ioq_at ioq;
  mret (next_pos (head q) =? tail q).

Definition ioq_empty (ioq : Z) : proc kernel bool :=
  _ ← intr_is_off;
  q ← ioq_at ioq;
  mret (head q =? tail q).

(** The field a [struct task_struct**] argument points to. *)
Inductive waiter_field : Type := PRODUCER | CONSUMER.

Definition get_waiter (w : waiter_field) (q : ioqueue) : Z :=
  match w with PRODUCER => producer q | CONSUMER => consumer q end.

Definition put_waiter (w : waiter_field) (x : Z) (q : ioqueue) : ioqueue :=
  match w with
  | PRODUCER => Ioqueue x (consumer q) (buf q) (head q) (tail q)
  | CONSUMER => Ioqueue (producer q) x (buf q) (head q) (tail q)
  end.

Definition ioq_wait (ioq : Z) (w : waiter_field) : proc kernel unit :=
  q ← ioq_at ioq;
  _ ← assert (get_waiter w q =? 0);
  k ← get;
  _ ← store_ioq ioq (put_waiter w (running k) q);
  thread_block TASK_BLOCKED.

Definition wakeup (ioq : Z) (w : waiter_field) : proc kernel unit :=
  q ← ioq_at ioq;
  _ ← assert (negb (get_waiter w q =? 0));
  _ ← thread_unblock (get_waiter w q);
  q ← ioq_at ioq;
  store_ioq ioq (put_waiter w 0 q).

(** The loops [while (ioq_empty(ioq))] and [while (ioq_full(ioq))]. *)
Fixpoint ioq_block (fuel : nat) (full : proc kernel bool) (ioq : Z) (w : waiter_field) : proc kernel unit :=
  match fuel with
  | O => fail EFuel
  | S fuel' =>
    b ← full;
    if b : bool then
      _ ← lock_acquire fuel' ioq;
      _ ← ioq_wait ioq w;
      _ ← lock_release ioq;
      ioq_block fuel' full ioq w
    else mret tt
  end.

Definition ioq_getchar (fuel : nat) (ioq : Z) : proc kernel Z :=
  _ ← intr_is_off;
  _ ← ioq_block fuel (ioq_empty ioq) ioq CONSUMER;
  q ← ioq_at ioq;
  byte ← lift (rd (buf q) (tail q));
  _ ← store_ioq ioq (Ioqueue (producer q) (consumer q) (buf q) (head q) (next_pos (tail q)));
  _ ← (if negb (producer q =? 0) then wakeup ioq PRODUCER else mret tt);
  mret byte.

Definition ioq_putchar (fuel : nat) (ioq byte : Z) : proc kernel unit :=
  _ ← intr_is_off;
  _ ← ioq_block fuel (ioq_full ioq) ioq PRODUCER;
  q ← ioq_at ioq;
  cells ← lift (wr (buf q) (head q) byte);
  _ ← store_ioq ioq (Ioqueue (producer q) (consumer q) cells (next_pos (head q)) (tail q));
  if negb (consumer q =? 0) then wakeup ioq CONSUMER else mret tt.

Definition ioq_length (q : ioqueue) : Z :=
  if tail q <=? head q then u32 (head q - tail q)
  else u32 (bufsize - (tail q - head q)).

(** ** The sequence a queue holds *)

(** The character at distance [i] behind the tail. *)
Definition slot (q : ioqueue) (i : Z) : Z := (tail q + i) mod bufsize.

Record ioq_rep (q : ioqueue) (cs : list Z) : Prop := {
  ir_buf : Z.of_nat (length (buf q)) = bufsize;
  ir_tail : 0 <= tail q < bufsize;
  ir_head : head q = slot q (Z.of_nat (length cs));
  ir_size : Z.of_nat (length cs) < bufsize;
  ir_chars : forall i c, cs !! i = Some c -> rd (buf q) (slot q (Z.of_nat i)) = Ok c
}.

Lemma next_pos_eq pos : 0 <= pos < bufsize -> next_pos pos = (pos + 1) mod bufsize.
Proof. unfold next_pos, bufsize. intros. unwrap. by rewrite Z.rem_mod_nonneg by lia. Qed.

Lemma slot_range q i : 0 <= slot q i < bufsize.
Proof. unfold slot, bufsize. lia. Qed.

Lemma head_range q cs : ioq_rep q cs -> 0 <= head q < bufsize.
Proof. intros Hr. rewrite (ir_head _ _ Hr). apply slot_range. Qed.

Lemma slot_inj q i j :
  0 <= i < bufsize -> 0 <= j < bufsize -> slot q i = slot q j -> i = j.
Proof. unfold slot, bufsize. lia. Qed.

Lemma next_slot q i : 0 <= i -> next_pos (slot q i) = slot q (i + 1).
Proof. intros Hi. rewrite next_pos_eq by apply slot_range. unfold slot, bufsize. lia. Qed.

Lemma rep_empty q cs : ioq_rep q cs -> (head q =? tail q) = bool_decide (cs = []).
Proof.
  intros [_ Ht Hh Hs _]. rewrite Hh. unfold slot, bufsize in *. case_bool_decide as Hc.
  - subst cs. apply Z.eqb_eq. cbn [length]. lia.
  - destruct cs; [done|]. apply Z.eqb_neq. cbn [length] in *. lia.
Qed.

Lemma rep_full q cs :
  ioq_rep q cs -> (next_pos (head q) =? tail q) = bool_decide (Z.of_nat (length cs) = bufsize - 1).
Proof.
  intros [_ Ht Hh Hs _]. rewrite Hh, next_slot by lia. unfold slot, bufsize in *.
  case_bool_decide; [apply Z.eqb_eq|apply Z.eqb_neq]; lia.
Qed.

Lemma rep_length q cs : ioq_rep q cs -> ioq_length q = Z.of_nat (length cs).
Proof.
  intros [_ Ht Hh Hs _]. unfold ioq_length, u32. rewrite Hh. unfold slot, bufsize in *.
  destruct (Z.leb_spec (tail q) ((tail q + Z.of_nat (length cs)) mod 2048)); lia.
Qed.

(** Taking the first character. *)
Lemma rep_take q c cs pr co :
  ioq_rep q (c :: cs) ->
  rd (buf q) (tail q) = Ok c
  /\ ioq_rep (Ioqueue pr co (buf q) (head q) (next_pos (tail q))) cs.
Proof.
  intros [Hb Ht Hh Hs Hc]. split.
  - specialize (Hc 0%nat c eq_refl). unfold slot in Hc. rewrite Z.add_0_r, Z.mod_small in Hc by done. done.
  - cbn [length] in *. constructor; cbn [buf tail head]; [done| | |lia|].
    + rewrite next_pos_eq by done. unfold bufsize. lia.
    + rewrite Hh. unfold slot; cbn [tail]. rewrite next_pos_eq by done. unfold bufsize in *. lia.
    + intros i x Hi. rewrite <- (Hc (S i) x Hi). f_equal. unfold slot; cbn [tail].
      rewrite next_pos_eq by done. unfold bufsize in *. lia.
Qed.

(** Adding a character behind the last one. *)
Lemma rep_put q c cs pr co :
  ioq_rep q cs -> Z.of_nat (length cs) < bufsize - 1 ->
  exists cells, wr (buf q) (head q) c = Ok cells
    /\ ioq_rep (Ioqueue pr co cells (next_pos (head q)) (tail q)) (cs ++ [c]).
Proof.
  intros Hr Hn. pose proof (head_range q cs Hr) as Hhr. destruct Hr as [Hb Ht Hh Hs Hc].
  destruct (wr (buf q) (head q) c) as [cells|e] eqn:Hw; [|unfold wr in Hw; by rewrite bool_decide_true in Hw by lia].
  exists cells. split; [done|]. constructor; cbn [buf tail head].
  - by rewrite (wr_length _ _ _ _ Hw).
  - done.
  - rewrite Hh, next_slot, length_app by lia. unfold slot; cbn [tail length]. f_equal. lia.
  - rewrite length_app. cbn [length]. lia.
  - intros i x Hi. change (slot _ (Z.of_nat i)) with (slot q (Z.of_nat i)).
    apply lookup_app_Some in Hi as [Hi|[Hle Hi]].
    + pose proof (lookup_lt_Some _ _ _ Hi) as Hlt. rewrite (rd_wr_ne _ _ _ _ _ Hw); [by apply Hc|].
      rewrite Hh. intros He. apply slot_inj in He; lia.
    + apply list_lookup_singleton_Some in Hi as [Hi <-].
      replace (Z.of_nat i) with (Z.of_nat (length cs)) by lia. rewrite <- Hh. by apply (rd_wr_eq (buf q)).
Qed.

(** ** The operations on the sequence *)

Definition with_ioq (k : kernel) (p : Z) (q : ioqueue) : kernel :=
  set_ioqueues (<[p := q]> (ioqueues k)) k.

Lemma run_ioq k p q : ioqueues k !! p = Some q -> ioq_at p k = Ret q k.
Proof. apply (run_load ioqueues). Qed.

Lemma run_store_ioq k p q : store_ioq p q k = Ret tt (with_ioq k p q).
Proof. done. Qed.

Lemma ioq_get_set k p q : ioqueues (with_ioq k p q) !! p = Some q.
Proof. simpl. by rewrite lookup_insert, decide_True. Qed.

Lemma with_ioq_ok k p q : sched_ok k -> sched_ok (with_ioq k p q).
Proof. intros [[? ? ? ? ? ? ?] ?]. by split. Qed.

Lemma with_ioq_twice k p q q' : with_ioq (with_ioq k p q) p q' = with_ioq k p q'.
Proof. unfold with_ioq, set_ioqueues. simpl. by rewrite insert_insert_eq. Qed.

Lemma run_intr_off k : intr_get_status (eflags k) = INTR_OFF -> intr_is_off k = Ret tt k.
Proof. intros Hoff. unfold intr_is_off. pget. by rewrite Hoff. Qed.

Lemma run_empty k p q cs :
  intr_get_status (eflags k) = INTR_OFF -> ioqueues k !! p = Some q -> ioq_rep q cs ->
  ioq_empty p k = Ret (bool_decide (cs = [])) k.
Proof.
  intros Hoff Hq Hr. unfold ioq_empty. prun (run_intr_off k Hoff). prun (run_ioq k p q Hq).
  by rewrite (rep_empty q cs Hr).
Qed.

Lemma run_full k p q cs :
  intr_get_status (eflags k) = INTR_OFF -> ioqueues k !! p = Some q -> ioq_rep q cs ->
  ioq_full p k = Ret (bool_decide (Z.of_nat (length cs) = bufsize - 1)) k.
Proof.
  intros Hoff Hq Hr. unfold ioq_full. prun (run_intr_off k Hoff). prun (run_ioq k p q Hq).
  by rewrite (rep_full q cs Hr).
Qed.

(** The loops are passed at once when the condition is false. *)
Lemma ioq_block_pass f (full : proc kernel bool) p w k :
  full k = Ret false k -> ioq_block (S f) full p w k = Ret tt k.
Proof. intros H. cbn [ioq_block]. by prun H. Qed.

(** Waking the task recorded in a field of the queue. *)
Lemma wakeup_spec k p w q t :
  sched_ok k -> ioqueues k !! p = Some q -> get_waiter w q <> 0 ->
  tasks k !! get_waiter w q = Some t -> blocked (status t) ->
  wakeup p w k = Ret tt (with_ioq (unblocked k (get_waiter w q) t) p (put_waiter w 0 q)).
Proof.
  intros Hok Hq Hnz Ht Hb. unfold wakeup. prun (run_ioq k p q Hq).
  passert; [|by rewrite (proj2 (Z.eqb_neq _ _) Hnz)].
  destruct (thread_unblock_ok k _ t Hok Ht Hb) as [Hun _]. prun Hun.
  by prun (run_ioq (unblocked k (get_waiter w q) t) p q Hq).
Qed.

(** What follows the loops: the transfer of one character. *)
Definition woken (k : kernel) (w : Z) : kernel :=
  match tasks k !! w with
  | Some t => if w =? 0 then k else unblocked k w t
  | None => k
  end.

(** A waiter is 0 or a blocked task. *)
Definition waiter_ok (k : kernel) (w : Z) : Prop :=
  w = 0 \/ exists t, tasks k !! w = Some t /\ blocked (status t).

Lemma wake_if k p w q :
  sched_ok k -> ioqueues k !! p = Some q -> waiter_ok k (get_waiter w q) ->
  (if negb (get_waiter w q =? 0) then wakeup p w else mret tt) k
  = Ret tt (with_ioq (woken k (get_waiter w q)) p (put_waiter w 0 q)).
Proof.
  intros Hok Hq [Hz|(t & Ht & Hb)].
  - rewrite Hz. change (negb (0 =? 0)) with false. cbv iota. unfold woken. destruct Hok as [Hp _]. rewrite (sp_null _ Hp).
    rewrite run_mret. f_equal. unfold with_ioq. rewrite insert_id; [by destruct k|].
    rewrite Hq. f_equal. destruct w, q; simpl in *; by subst.
  - assert (get_waiter w q <> 0) as Hnz.
    { intros He. rewrite He in Ht. destruct Hok as [Hp _]. rewrite (sp_null _ Hp) in Ht. done. }
    rewrite (proj2 (Z.eqb_neq _ _) Hnz). cbn [negb]. rewrite (wakeup_spec k p w q t) by done.
    unfold woken. by rewrite Ht, (proj2 (Z.eqb_neq _ _) Hnz).
Qed.

Lemma woken_ok k w : sched_ok k -> waiter_ok k w -> sched_ok (woken k w).
Proof.
  intros Hok [->|(t & Ht & Hb)]; unfold woken.
  - destruct Hok as [Hp Hrun]. rewrite (sp_null _ Hp). by split.
  - rewrite Ht. case_match; [done|]. by apply (thread_unblock_ok k w t).
Qed.

Lemma getchar_spec f k p q c cs :
  sched_ok k -> intr_get_status (eflags k) = INTR_OFF ->
  ioqueues k !! p = Some q -> ioq_rep q (c :: cs) -> waiter_ok k (producer q) ->
  exists q', ioq_getchar (S f) p k = Ret c (with_ioq (woken k (producer q)) p q')
    /\ ioq_rep q' cs /\ producer q' = 0 /\ consumer q' = consumer q.
Proof.
  intros Hok Hoff Hq Hr Hw. unfold ioq_getchar. prun (run_intr_off k Hoff).
  assert (ioq_empty p k = Ret false k) as He by (by rewrite (run_empty k p q (c :: cs) Hoff Hq Hr)).
  prun (ioq_block_pass f _ p CONSUMER k He). prun (run_ioq k p q Hq).
  destruct (rep_take q c cs 0 (consumer q) Hr) as [Hrd Hr'].
  assert (lift (rd (buf q) (tail q)) k = Ret c k) as Hl by (by rewrite Hrd). prun Hl.
  set (q1 := Ioqueue (producer q) (consumer q) (buf q) (head q) (next_pos (tail q))).
  prun (run_store_ioq k p q1). set (k1 := with_ioq k p q1).
  assert (sched_ok k1) as Hok1 by (by apply with_ioq_ok).
  pose proof (wake_if k1 p PRODUCER q1 Hok1 (ioq_get_set k p q1) Hw) as Hwk.
  change (producer q) with (get_waiter PRODUCER q1). prun Hwk.
  eexists. split; [|split; [exact Hr'|done]]. rewrite run_mret. f_equal.
  unfold woken. change (tasks k1) with (tasks k). cbn [get_waiter producer q1].
  destruct (tasks k !! producer q); [destruct (producer q =? 0)|];
    unfold with_ioq; simpl; by rewrite insert_insert_eq.
Qed.

Lemma putchar_spec f k p q c cs :
  sched_ok k -> intr_get_status (eflags k) = INTR_OFF ->
  ioqueues k !! p = Some q -> ioq_rep q cs -> Z.of_nat (length cs) < bufsize - 1 ->
  waiter_ok k (consumer q) ->
  exists q', ioq_putchar (S f) p c k = Ret tt (with_ioq (woken k (consumer q)) p q')
    /\ ioq_rep q' (cs ++ [c]) /\ consumer q' = 0 /\ producer q' = producer q.
Proof.
  intros Hok Hoff Hq Hr Hn Hw. unfold ioq_putchar. prun (run_intr_off k Hoff).
  assert (ioq_full p k = Ret false k) as He
    by (rewrite (run_full k p q cs Hoff Hq Hr), bool_decide_false; [done|lia]).
  prun (ioq_block_pass f _ p PRODUCER k He). prun (run_ioq k p q Hq).
  destruct (rep_put q c cs (producer q) 0 Hr Hn) as (cells & Hwr & Hr').
  assert (lift (wr (buf q) (head q) c) k = Ret cells k) as Hl by (by rewrite Hwr). prun Hl.
  set (q1 := Ioqueue (producer q) (consumer q) cells (next_pos (head q)) (tail q)).
  prun (run_store_ioq k p q1). set (k1 := with_ioq k p q1).
  assert (sched_ok k1) as Hok1 by (by apply with_ioq_ok).
  pose proof (wake_if k1 p CONSUMER q1 Hok1 (ioq_get_set k p q1) Hw) as Hwk.
  change (consumer q) with (get_waiter CONSUMER q1). rewrite Hwk.
  eexists. split; [|split; [exact Hr'|done]]. f_equal.
  unfold woken. change (tasks k1) with (tasks k). cbn [get_waiter consumer q1].
  destruct (tasks k !! consumer q); [destruct (consumer q =? 0)|];
    unfold with_ioq; simpl; by rewrite insert_insert_eq.
Qed.

(** ** Tasks that wait *)

(** The rest of [ioq_getchar] when the consumer is resumed after waiting. *)
Definition getchar_tail (fuel : nat) (ioq : Z) : proc kernel Z := fun s =>
  outcome_bind (fun _ =>
      q ← ioq_at ioq;
      byte ← lift (rd (buf q) (tail q));
      _ ← store_ioq ioq (Ioqueue (producer q) (consumer q) (buf q) (head q) (next_pos (tail q)));
      _ ← (if negb (producer q =? 0) then wakeup ioq PRODUCER else mret tt);
      mret byte)
    (outcome_bind (fun _ => _ ← lock_release ioq; ioq_block fuel (ioq_empty ioq) ioq CONSUMER)
       (k_intr_set_status INTR_OFF s)).

(** The state in which a task blocks as the waiter [w]. *)
Definition waits (k : kernel) (p : Z) (w : waiter_field) (q : ioqueue) : kernel :=
  with_ioq (with_lock (with_sema k (lock_sema p) (Semaphore 0 [])) p (Lock (running k) 1)) p
    (put_waiter w (running k) q).

(** The loops, when the condition holds and nobody waits: the task takes the
    lock, records itself and leaves the processor. *)
Lemma block_waits f (full : proc kernel bool) w k p q t :
  sched_ok k -> intr_get_status (eflags k) = INTR_OFF ->
  tasks k !! running k = Some t -> running k <> idle_thread k ->
  ioqueues k !! p = Some q -> full k = Ret true k -> get_waiter w q = 0 ->
  locks k !! p = Some (Lock 0 0) -> semas k !! lock_sema p = Some (Semaphore 1 []) ->
  exists nxt rest k', ioq_block (S (S f)) full p w k = Switch k' (fun s =>
      outcome_bind (fun _ => _ ← lock_release p; ioq_block (S f) full p w) (k_intr_set_status INTR_OFF s))
    /\ scheduled (blocking (waits k p w q) TASK_BLOCKED t) (set_status TASK_BLOCKED t) nxt rest k'
    /\ running k <> nxt.
Proof.
  intros Hok Hoff Ht Hid Hq Hr Hc Hl Hs. set (k1 := waits k p w q).
  assert (running k <> 0) as Hnz.
  { intros He. rewrite He in Ht. destruct Hok as [Hp _]. rewrite (sp_null _ Hp) in Ht. done. }
  assert (sched_ok k1) as Hok1 by (by apply with_ioq_ok, set_locks_ok, with_sema_ok).
  assert (blocked TASK_BLOCKED) as Hb by (by left).
  destruct (thread_block_spec k1 TASK_BLOCKED t Hok1 Ht Hb) as (nxt & rest & k' & Hblk & Hsd).
  pose proof (blocks_away k1 t _ nxt rest k' Hok1 Hid Hb Hsd) as Hne. change (running k1) with (running k) in Hne.
  unfold suspends in Hblk. change (running k1) with (running k) in Hblk.
  rewrite (proj2 (Z.eqb_neq (running k) nxt) Hne) in Hblk.
  assert ((intr_disable (eflags k1)).1 = INTR_OFF) as He.
  { change (eflags k1) with (eflags k). unfold intr_disable. by rewrite Hoff. }
  rewrite He in Hblk. exists nxt, rest, k'. split; [|done].
  assert (lock_acquire (S f) p k = Ret tt (with_lock (with_sema k (lock_sema p) (Semaphore 0 [])) p (Lock (running k) 1)))
    as Hacq by (apply (lock_acquire_free f k p 0 [] Hl); congruence || done).
  set (k0 := with_lock _ p _) in Hacq.
  assert (ioq_wait p w k0 = Switch k' (k_intr_set_status INTR_OFF)) as Hwait.
  { unfold ioq_wait. prun (run_ioq k0 p q Hq). passert; [|by apply Z.eqb_eq]. pget.
    by prun (run_store_ioq k0 p (put_waiter w (running k0) q)). }
  change (ioq_block (S (S f)) full p w) with (b ← full; if b : bool then
      _ ← lock_acquire (S f) p; _ ← ioq_wait p w; _ ← lock_release p; ioq_block (S f) full p w else mret tt).
  prun Hr. cbv iota. prun Hacq. exact (bind_Switch _ _ _ _ _ Hwait).
Qed.

Lemma getchar_waits f k p q t :
  sched_ok k -> intr_get_status (eflags k) = INTR_OFF ->
  tasks k !! running k = Some t -> running k <> idle_thread k ->
  ioqueues k !! p = Some q -> ioq_rep q [] -> consumer q = 0 ->
  locks k !! p = Some (Lock 0 0) -> semas k !! lock_sema p = Some (Semaphore 1 []) ->
  exists nxt rest k', ioq_getchar (S (S f)) p k = Switch k' (getchar_tail (S f) p)
    /\ scheduled (blocking (waits k p CONSUMER q) TASK_BLOCKED t) (set_status TASK_BLOCKED t) nxt rest k'
    /\ running k <> nxt.
Proof.
  intros Hok Hoff Ht Hid Hq Hr Hc Hl Hs.
  assert (ioq_empty p k = Ret true k) as He by exact (run_empty k p q [] Hoff Hq Hr).
  destruct (block_waits f _ CONSUMER k p q t Hok Hoff Ht Hid Hq He Hc Hl Hs) as (nxt & rest & k' & Hb & H).
  exists nxt, rest, k'. split; [|exact H]. unfold ioq_getchar. prun (run_intr_off k Hoff). exact (bind_Switch _ _ _ _ _ Hb).
Qed.

(** A producer waits when the queue is full. *)
Lemma putchar_waits f k p q c cs t :
  sched_ok k -> intr_get_status (eflags k) = INTR_OFF ->
  tasks k !! running k = Some t -> running k <> idle_thread k ->
  ioqueues k !! p = Some q -> ioq_rep q cs -> Z.of_nat (length cs) = bufsize - 1 -> producer q = 0 ->
  locks k !! p = Some (Lock 0 0) -> semas k !! lock_sema p = Some (Semaphore 1 []) ->
  exists nxt tail rest k', ioq_putchar (S (S f)) p c k = Switch k' tail
    /\ scheduled (blocking (waits k p PRODUCER q) TASK_BLOCKED t) (set_status TASK_BLOCKED t) nxt rest k'
    /\ running k <> nxt.
Proof.
  intros Hok Hoff Ht Hid Hq Hr Hn Hc Hl Hs.
  assert (ioq_full p k = Ret true k) as He by (by rewrite (run_full k p q cs Hoff Hq Hr), bool_decide_true).
  destruct (block_waits f _ PRODUCER k p q t Hok Hoff Ht Hid Hq He Hc Hl Hs) as (nxt & rest & k' & Hb & H).
  unfold ioq_putchar. do 4 eexists. split; [|exact H]. prun (run_intr_off k Hoff). exact (bind_Switch _ _ _ _ _ Hb).
Qed.

(** Resumed with a character in the queue, the consumer releases the lock and
    takes the character. *)
Lemma getchar_tail_takes f k p q c cs :
  sched_ok k -> intr_get_status (eflags k) = INTR_OFF ->
  locks k !! p = Some (Lock (running k) 1) -> semas k !! lock_sema p = Some (Semaphore 0 []) ->
  ioqueues k !! p = Some q -> ioq_rep q (c :: cs) -> producer q = 0 ->
  exists k' q', getchar_tail (S f) p k = Ret c k' /\ ioqueues k' !! p = Some q' /\ ioq_rep q' cs
    /\ locks k' !! p = Some (Lock 0 0) /\ semas k' !! lock_sema p = Some (Semaphore 1 []).
Proof.
  intros Hok Hoff Hl Hs Hq Hr Hp. unfold getchar_tail. rewrite set_off_off by done. cbn [outcome_bind].
  set (k0 := with_lock k p (Lock 0 0)). set (k1 := with_sema k0 (lock_sema p) (Semaphore 1 [])).
  assert (lock_release p k = Ret tt k1) as Hrel.
  { rewrite (lock_release_last k p Hl). by apply sema_up_none. }
  prun Hrel.
  assert (ioq_empty p k1 = Ret false k1) as He by (by rewrite (run_empty k1 p q (c :: cs) Hoff Hq Hr)).
  rewrite (ioq_block_pass f _ p CONSUMER k1 He). cbn [outcome_bind]. prun (run_ioq k1 p q Hq).
  destruct (rep_take q c cs (producer q) (consumer q) Hr) as [Hrd Hr'].
  assert (lift (rd (buf q) (tail q)) k1 = Ret c k1) as Hlf by (by rewrite Hrd). prun Hlf.
  set (q1 := Ioqueue (producer q) (consumer q) (buf q) (head q) (next_pos (tail q))) in *.
  prun (run_store_ioq k1 p q1). rewrite Hp. change (negb (0 =? 0)) with false. cbv iota. pret.
  exists (with_ioq k1 p q1), q1. split; [done|]. split; [apply ioq_get_set|]. split; [done|].
  simpl. by rewrite !lookup_insert, !decide_True.
Qed.

(** ** Properties *)

Definition demo_queue : ioqueue := Ioqueue 0 0 (replicate 2048 0) 5 5.

Lemma demo_queue_rep : ioq_rep demo_queue [].
Proof. constructor; [done|done|done|done|]. intros i c Hi. done. Qed.

Definition demo_io : kernel :=
  with_ioq (with_lock (with_sema demo_kernel (lock_sema 0x3000) (Semaphore 1 [])) 0x3000 (Lock 0 0))
    0x3000 demo_queue.

Lemma demo_io_ok : sched_ok demo_io.
Proof. apply with_ioq_ok, set_locks_ok, with_sema_ok, demo_kernel_ok. Qed.

(** C29: the ring buffer implements a FIFO of 2047 characters: while it is not
    full [ioq_putchar] adds behind the last character, while it is not empty
    [ioq_getchar] returns the first; a task recorded as waiting for the change
    becomes ready, and [ioq_length] is the number of characters. *)
Theorem ioqueue_is_fifo (f : nat) (k : kernel) (p c : Z) (q : ioqueue) (cs : list Z) :
  sched_ok k -> intr_get_status (eflags k) = INTR_OFF ->
  ioqueues k !! p = Some q -> ioq_rep q cs ->
  waiter_ok k (producer q) -> waiter_ok k (consumer q) ->
  ioq_length q = Z.of_nat (length cs)
  /\ ioq_full p k = Ret (bool_decide (Z.of_nat (length cs) = bufsize - 1)) k
  /\ (Z.of_nat (length cs) < bufsize - 1 ->
        exists q', ioq_putchar (S f) p c k = Ret tt (with_ioq (woken k (consumer q)) p q')
          /\ ioq_rep q' (cs ++ [c]) /\ consumer q' = 0 /\ producer q' = producer q)
  /\ (forall c0 cs0, cs = c0 :: cs0 ->
        exists q', ioq_getchar (S f) p k = Ret c0 (with_ioq (woken k (producer q)) p q')
          /\ ioq_rep q' cs0 /\ producer q' = 0 /\ consumer q' = consumer q).
Proof.
  intros Hok Hoff Hq Hr Hp Hc. split; [by apply rep_length|]. split; [by apply (run_full k p q)|]. split.
  - intros Hn. by apply putchar_spec.
  - intros c0 cs0 ->. by apply getchar_spec.
Qed.

Lemma ioqueue_is_fifo_witness :
  exists q', ioq_putchar 1 0x3000 65 demo_io = Ret tt (with_ioq (woken demo_io 0) 0x3000 q')
    /\ ioq_rep q' [65].
Proof.
  destruct (ioqueue_is_fifo 0 demo_io 0x3000 65 demo_queue []) as (_ & _ & Hput & _).
  - apply demo_io_ok.
  - reflexivity.
  - reflexivity.
  - apply demo_queue_rep.
  - left; reflexivity.
  - left; reflexivity.
  - destruct Hput as (q' & H & Hr & _); [reflexivity|]. exists q'. split; [exact H|exact Hr].
Defined.

(** Producer and consumer.  A task that reads from an empty queue leaves
    the processor; a character that is put then (by whichever task runs, with
    interrupts off) makes it ready first, and when it runs again its
    [ioq_getchar] returns that character and leaves the queue empty and its lock
    free. *)
Theorem ioqueue_handshake (f : nat) (k : kernel) (p c : Z) (q : ioqueue) (t : task_struct) :
  sched_ok k -> intr_get_status (eflags k) = INTR_OFF ->
  tasks k !! running k = Some t -> running k <> idle_thread k ->
  ioqueues k !! p = Some q -> ioq_rep q [] -> consumer q = 0 -> producer q = 0 ->
  locks k !! p = Some (Lock 0 0) -> semas k !! lock_sema p = Some (Semaphore 1 []) ->
  exists k1 rest, ioq_getchar (S (S f)) p k = Switch k1 rest /\ sched_ok k1
    /\ running k1 <> running k
    /\ exists k2, ioq_putchar (S f) p c k1 = Ret tt k2
    /\ exists k3, after (thread_yield k2) = Some k3 /\ running k3 = running k
    /\ exists k4 q4, rest k3 = Ret c k4 /\ ioqueues k4 !! p = Some q4 /\ ioq_rep q4 []
         /\ locks k4 !! p = Some (Lock 0 0).
Proof.
  intros Hok Hoff Ht Hid Hq Hr Hc Hp Hl Hs.
  destruct (getchar_waits f k p q t Hok Hoff Ht Hid Hq Hr Hc Hl Hs) as (nxt & rs & k1 & Hget & Hsd & Hne).
  pose proof Hsd as [_ Hok1 Hf1 Hr1 _ Hst1 _].
  assert (running k <> 0) as Hnz.
  { intros He. rewrite He in Ht. destruct Hok as [Hp0 _]. rewrite (sp_null _ Hp0) in Ht. done. }
  exists k1, (getchar_tail (S f) p). split; [done|]. split; [done|]. split; [congruence|].
  assert (intr_get_status (eflags k1) = INTR_OFF) as Hoff1.
  { rewrite (sf_eflags _ _ Hf1). simpl. unfold intr_disable. by rewrite Hoff. }
  set (q1 := put_waiter CONSUMER (running k) q).
  assert (ioqueues k1 !! p = Some q1) as Hq1.
  { rewrite (sf_ioq _ _ Hf1). simpl. by rewrite lookup_insert, decide_True. }
  assert (exists t1, tasks k1 !! running k = Some t1 /\ status t1 = TASK_BLOCKED) as (t1 & Ht1 & Hb1).
  { specialize (Hst1 (running k)). rewrite decide_False in Hst1 by congruence.
    rewrite decide_False in Hst1 by (intros [_ ?]; done). unfold st_of in Hst1. simpl in Hst1.
    rewrite lookup_insert, decide_True in Hst1 by done.
    apply fmap_Some in Hst1 as (t1 & H1 & H2). exists t1. done. }
  destruct (putchar_spec f k1 p q1 c []) as (q2 & Hput & Hr2 & _ & Hp2); try done.
  { by destruct Hr. }
  { right. exists t1. split; [done|by left]. }
  assert (woken k1 (consumer q1) = unblocked k1 (running k) t1) as Hwk.
  { unfold woken. simpl. by rewrite Ht1, (proj2 (Z.eqb_neq _ _) Hnz). }
  rewrite Hwk in Hput. eexists. split; [exact Hput|]. set (k2 := with_ioq _ p q2).
  assert (sched_ok k2) as Hok2.
  { apply with_ioq_ok, thread_unblock_ok; [done|done|by left]. }
  destruct (sp_cur _ (proj1 Hok2)) as [t2 Ht2].
  destruct (thread_yield_spec k2 t2 Hok2 Ht2) as (nx & rs2 & k3 & Hy & Hsd3).
  pose proof Hsd3 as [Hqu Hok3 Hf3 Hr3 _ _ _]. unfold queue_of in Hqu. simpl in Hqu. injection Hqu as Hnx _.
  exists k3. split; [|split; [congruence|]].
  { rewrite Hy. unfold suspends. change (running k2) with (running k1). rewrite Hr1, <- Hnx.
    by rewrite (proj2 (Z.eqb_neq _ _) (not_eq_sym Hne)). }
  destruct (getchar_tail_takes f k3 p q2 c []) as (k4 & q4 & Htl & Hq4 & Hr4 & Hl4 & _).
  - done.
  - rewrite (sf_eflags _ _ Hf3). apply disable_off.
  - rewrite (sf_locks _ _ Hf3). simpl. rewrite (sf_locks _ _ Hf1), Hr3, <- Hnx. simpl.
    by rewrite lookup_insert, decide_True.
  - rewrite (sf_semas _ _ Hf3). simpl. rewrite (sf_semas _ _ Hf1). simpl. by rewrite lookup_insert, decide_True.
  - rewrite (sf_ioq _ _ Hf3). simpl. by rewrite lookup_insert, decide_True.
  - exact Hr2.
  - by rewrite Hp2.
  - exists k4, q4. done.
Qed.

Lemma ioqueue_handshake_witness :
  exists k1 rest, ioq_getchar 2 0x3000 demo_io = Switch k1 rest /\ sched_ok k1.
Proof.
  destruct (ioqueue_handshake 0 demo_io 0x3000 65 demo_queue (demo_task TASK_RUNNING 31 3))
    as (k1 & rest & H & Hok & _).
  - apply demo_io_ok.
  - reflexivity.
  - reflexivity.
  - vm_compute. discriminate.
  - reflexivity.
  - apply demo_queue_rep.
  - reflexivity.
  - reflexivity.
  - reflexivity.
  - reflexivity.
  - exists k1, rest. split; [exact H|exact Hok].
Defined.
