(* ===== verification/Keyboard.v ===== *)
(** * Keyboard: the scan code decoder of device/keyboard.c

    The handler is a state machine over the modifier flags; the characters it
    produces go into the ring buffer [kbd_buf] (Ioqueue).  Abstractly the
    keyboard is a sequence of key presses and releases, and the buffer receives
    the text these stand for. *)
From S2P Require Import Prelude Bitmap Interrupt DList Paging Pages Kernel Sched Sync Ioqueue.

(** ** Data and operations *)

(** The static flags. *)
Record kbd : Type := Kbd {
  ctrl_status : bool;
  shift_status : bool;
  alt_status : bool;
  caps_lock_status : bool;
  ext_scancode : bool
}.

#[export] Instance kbd_eq_dec : EqDecision kbd.
Proof. solve_decision. Defined.

Definition set_ctrl (x : bool) (s : kbd) : kbd :=
  Kbd x (shift_status s) (alt_status s) (caps_lock_status s) (ext_scancode s).

Definition set_shift (x : bool) (s : kbd) : kbd :=
  Kbd (ctrl_status s) x (alt_status s) (caps_lock_status s) (ext_scancode s).

Definition set_alt (x : bool) (s : kbd) : kbd :=
  Kbd (ctrl_status s) (shift_status s) x (caps_lock_status s) (ext_scancode s).

Definition set_caps (x : bool) (s : kbd) : kbd :=
  Kbd (ctrl_status s) (shift_status s) (alt_status s) x (ext_scancode s).

Definition set_ext (x : bool) (s : kbd) : kbd :=
  Kbd (ctrl_status s) (shift_status s) (alt_status s) (caps_lock_status s) x.

Definition shift_l_make : Z := 0x2a.
Definition shift_r_make : Z := 0x36.
Definition alt_l_make : Z := 0x38.
Definition alt_r_make : Z := 0xe038.
Definition ctrl_l_make : Z := 0x1d.
Definition ctrl_r_make : Z := 0xe01d.
Definition caps_lock_make : Z := 0x3a.

(** The characters of a make code, without and with shift (character codes). *)
Definition keymap : list (Z * Z) :=
  [ (0, 0); (27, 27); (49, 33); (50, 64); (51, 35); (52, 36); (53, 37); (54, 94);
    (55, 38); (56, 42); (57, 40); (48, 41); (45, 95); (61, 43); (8, 8); (9, 9);
    (113, 81); (119, 87); (101, 69); (114, 82); (116, 84); (121, 89); (117, 85); (105, 73);
    (111, 79); (112, 80); (91, 123); (93, 125); (13, 13); (0, 0); (97, 65); (115, 83);
    (100, 68); (102, 70); (103, 71); (104, 72); (106, 74); (107, 75); (108, 76); (59, 58);
    (39, 34); (96, 126); (0, 0); (92, 124); (122, 90); (120, 88); (99, 67); (118, 86);
    (98, 66); (110, 78); (109, 77); (44, 60); (46, 62); (47, 63); (0, 0); (42, 42);
    (0, 0); (32, 32); (0, 0) ].

(** The keys with two different characters. *)
Definition two_chars (scancode : Z) : bool :=
  (scancode <? 0x0e) || (scancode =? 0x29) || (scancode =? 0x1a) || (scancode =? 0x1b)
  || (scancode =? 0x2b) || (scancode =? 0x27) || (scancode =? 0x28) || (scancode =? 0x33)
  || (scancode =? 0x34) || (scancode =? 0x35).

(** The local variable [shift]. *)
Definition shift_of (scancode : Z) (shift_down_last caps_lock_last : bool) : bool :=
  if two_chars scancode then (if shift_down_last then true else false)
  else if shift_down_last && caps_lock_last then false
  else if shift_down_last || caps_lock_last then true
  else false.

(** [intr_keyboard_handler] on the byte read from the port; the result is the
    new value of the flags.  The message for unknown keys is not modelled. *)
Definition intr_keyboard_handler (fuel : nat) (kbd_buf : Z) (s : kbd) (byte : Z) : proc kernel kbd :=
  let ctrl_down_last := ctrl_status s in
  let shift_down_last := shift_status s in
  let caps_lock_last := caps_lock_status s in
  if byte =? 0xe0 then mret (set_ext true s)
  else
    let scancode := if ext_scancode s then Z.lor 0xe000 byte else byte in
    let s := if ext_scancode s then set_ext false s else s in
    let break_code := negb (Z.land scancode 0x0080 =? 0) in
    if break_code then
      let make_code := Z.land scancode 0xff7f in
      if (make_code =? ctrl_l_make) || (make_code =? ctrl_r_make) then mret (set_ctrl false s)
      else if (make_code =? shift_l_make) || (make_code =? shift_r_make) then mret (set_shift false s)
      else if (make_code =? alt_l_make) || (make_code =? alt_r_make) then mret (set_alt false s)
      else mret s
    else if ((0 <? scancode) && (scancode <? 0x3b)) || (scancode =? alt_r_make) || (scancode =? ctrl_r_make) then
      let shift := shift_of scancode shift_down_last caps_lock_last in
      let scancode := Z.land scancode 0x00ff in
      entry ← lift (rd keymap scancode);
      let cur_char := if shift then entry.2 else entry.1 in
      if negb (cur_char =? 0) then
        let cur_char :=
          if (ctrl_down_last && (cur_char =? 108)) || (ctrl_down_last && (cur_char =? 117))
          then i8 (cur_char - 97) else cur_char in
        full ← ioq_full kbd_buf;
        _ ← (if negb full then ioq_putchar fuel kbd_buf cur_char else mret tt);
        mret s
      else if (scancode =? ctrl_l_make) || (scancode =? ctrl_r_make) then mret (set_ctrl true s)
      else if (scancode =? shift_l_make) || (scancode =? shift_r_make) then mret (set_shift true s)
      else if (scancode =? alt_l_make) || (scancode =? alt_r_make) then mret (set_alt true s)
      else if scancode =? caps_lock_make then mret (set_caps (negb (caps_lock_status s)) s)
      else mret s
    else mret s.

(** [keyboard_init]; [handler] is the address of the handler. *)
Definition keyboard_init (kbd_buf : Z) (idt_table : list Z) (handler : Z) : proc kernel (list Z) :=
  _ ← ioqueue_init kbd_buf;
  lift (register_handler idt_table 0x21 handler).

(** The handler on a sequence of interrupts, one byte each. *)
Fixpoint keyboard_bytes (fuel : nat) (kbd_buf : Z) (s : kbd) (bytes : list Z) : proc kernel kbd :=
  match bytes with
  | [] => mret s
  | b :: rest =>
    s' ← intr_keyboard_handler fuel kbd_buf s b;
    keyboard_bytes fuel kbd_buf s' rest
  end.

(** ** Keys and the text they stand for *)

(** A key is its make code and whether it is sent with the prefix 0xe0. *)
Record key : Type := Key {
  extended : bool;
  code : Z
}.

(** A release code of 0x60 would be the prefix itself: no key has it. *)
Definition key_ok (k : key) : Prop := 0 <= code k < 128 /\ code k <> 0x60.

Inductive event : Type :=
| Press (k : key)
| Release (k : key).

Definition event_key (e : event) : key := match e with Press k => k | Release k => k end.

(** The bytes the keyboard sends. *)
Definition scan_bytes_of (e : event) : list Z :=
  match e with
  | Press k => (if extended k then [0xe0] else []) ++ [code k]
  | Release k => (if extended k then [0xe0] else []) ++ [code k + 128]
  end.

Inductive modifier : Type := MCtrl | MShift | MAlt | MCaps.

(** Left and right control and alt differ in the prefix only. *)
Definition modifier_of (k : key) : option modifier :=
  if code k =? 0x1d then Some MCtrl
  else if code k =? 0x38 then Some MAlt
  else if extended k then None
  else if (code k =? 0x2a) || (code k =? 0x36) then Some MShift
  else if code k =? 0x3a then Some MCaps
  else None.

Definition modify_by (m : modifier) (down : bool) (s : kbd) : kbd :=
  match m with
  | MCtrl => set_ctrl down s
  | MShift => set_shift down s
  | MAlt => set_alt down s
  | MCaps => if down then set_caps (negb (caps_lock_status s)) s else s
  end.

Definition letter (c : Z) : bool := (97 <=? c) && (c <=? 122).

(** The character a key types: letters are upper case when exactly one of shift
    and caps lock is on, the other keys follow shift alone; with control, [l]
    and [u] are the shell's short cuts. *)
Definition types (s : kbd) (k : key) : option Z :=
  if extended k then None else
  match keymap !! Z.to_nat (code k) with
  | None => None
  | Some (lower, upper) =>
    let up := if letter lower then xorb (shift_status s) (caps_lock_status s) else shift_status s in
    let c := if up then upper else lower in
    if c =? 0 then None
    else if ctrl_status s && ((c =? 108) || (c =? 117)) then Some (c - 97)
    else Some c
  end.

Definition event_state (s : kbd) (e : event) : kbd :=
  match e with
  | Press k => match modifier_of k with Some m => modify_by m true s | None => s end
  | Release k => match modifier_of k with Some m => modify_by m false s | None => s end
  end.

Definition event_text (s : kbd) (e : event) : list Z :=
  match e with
  | Press k => match types s k with Some c => [c] | None => [] end
  | Release _ => []
  end.

Fixpoint state_after (s : kbd) (es : list event) : kbd :=
  match es with [] => s | e :: rest => state_after (event_state s e) rest end.

Fixpoint text_of (s : kbd) (es : list event) : list Z :=
  match es with [] => [] | e :: rest => event_text s e ++ text_of (event_state s e) rest end.

(** ** The handler as a decoder *)

(** What one byte does: the new flags and the character for the buffer. *)
Definition decode (s : kbd) (byte : Z) : res (kbd * option Z) :=
  if byte =? 0xe0 then Ok (set_ext true s, None)
  else
    let scancode := if ext_scancode s then Z.lor 0xe000 byte else byte in
    let s' := if ext_scancode s then set_ext false s else s in
    if negb (Z.land scancode 0x0080 =? 0) then
      let make_code := Z.land scancode 0xff7f in
      if (make_code =? ctrl_l_make) || (make_code =? ctrl_r_make) then Ok (set_ctrl false s', None)
      else if (make_code =? shift_l_make) || (make_code =? shift_r_make) then Ok (set_shift false s', None)
      else if (make_code =? alt_l_make) || (make_code =? alt_r_make) then Ok (set_alt false s', None)
      else Ok (s', None)
    else if ((0 <? scancode) && (scancode <? 0x3b)) || (scancode =? alt_r_make) || (scancode =? ctrl_r_make) then
      let low := Z.land scancode 0x00ff in
      match rd keymap low with
      | Bad e => Bad e
      | Ok entry =>
        let c := if shift_of scancode (shift_status s) (caps_lock_status s) then entry.2 else entry.1 in
        if negb (c =? 0) then
          Ok (s', Some (if (ctrl_status s && (c =? 108)) || (ctrl_status s && (c =? 117)) then i8 (c - 97) else c))
        else if (low =? ctrl_l_make) || (low =? ctrl_r_make) then Ok (set_ctrl true s', None)
        else if (low =? shift_l_make) || (low =? shift_r_make) then Ok (set_shift true s', None)
        else if (low =? alt_l_make) || (low =? alt_r_make) then Ok (set_alt true s', None)
        else if low =? caps_lock_make then Ok (set_caps (negb (caps_lock_status s')) s', None)
        else Ok (s', None)
      end
    else Ok (s', None).

(** Storing a character that is dropped when the buffer is full. *)
Definition offer (fuel : nat) (kbd_buf : Z) (c : option Z) : proc kernel unit :=
  match c with
  | None => mret tt
  | Some c =>
    full ← ioq_full kbd_buf;
    if negb full then ioq_putchar fuel kbd_buf c else mret tt
  end.

(** Testing for a full buffer does not switch tasks. *)
Lemma ioq_full_runs p k : (exists b, ioq_full p k = Ret b k) \/ (exists e, ioq_full p k = Err e).
Proof.
  unfold ioq_full, intr_is_off. rewrite run_bind. pget. unfold assert, lift, ASSERT. case_bool_decide; simpl.
  - rewrite run_bind. unfold ioq_at, load. destruct (ioqueues k !! p); simpl; eauto.
  - eauto.
Qed.

Lemma offer_then f p c s k :
  (full ← ioq_full p; _ ← (if negb full then ioq_putchar f p c else mret tt); mret s) k
  = (_ ← offer f p (Some c); mret (M:=proc kernel) (A:=kbd) s) k.
Proof.
  unfold offer. rewrite (run_bind (ioq_full p)), (run_bind (_ ≫= _)), (run_bind (ioq_full p)).
  destruct (ioq_full_runs p k) as [[b ->]|[e ->]]; [|done]. simpl. by rewrite run_bind.
Qed.

Lemma handler_decodes f p s b s' c k :
  decode s b = Ok (s', c) ->
  intr_keyboard_handler f p s b k = (_ ← offer f p c; mret s') k.
Proof.
  unfold decode, intr_keyboard_handler. destruct (b =? 0xe0); [by intros [= <- <-]|].
  set (sc := if ext_scancode s then _ else b). set (s1 := if ext_scancode s then _ else s). cbv zeta.
  destruct (negb (Z.land sc 128 =? 0)).
  { repeat case_match; by intros [= <- <-]. }
  destruct (_ || _ || (sc =? ctrl_r_make)); [|by intros [= <- <-]].
  destruct (rd keymap (Z.land sc 255)) as [entry|] eqn:Hrd; [|done].
  rewrite (run_bind (lift _)). cbn [lift outcome_bind].
  set (cc := if shift_of _ _ _ then _ else _). destruct (negb (cc =? 0)).
  - intros [= <- <-]. apply offer_then.
  - repeat case_match; by intros [= <- <-].
Qed.

(** All keys and flags are few enough to be tried out. *)
Definition codes : list Z := seqZ 0 128.

Definition flags : list kbd :=
  c ← [true; false]; sh ← [true; false]; a ← [true; false]; cl ← [true; false]; mret (Kbd c sh a cl false).

#[local] Instance res_eq_dec {A} `{EqDecision A} : EqDecision (res A).
Proof. solve_decision. Defined.

Definition decodes_to (s : kbd) (e : event) : bool :=
  match scan_bytes_of e with
  | [b] => bool_decide (decode s b = Ok (event_state s e, hd_error (event_text s e)))
  | [b0; b] =>
    bool_decide (decode s b0 = Ok (set_ext true s, None))
    && bool_decide (decode (set_ext true s) b = Ok (event_state s e, hd_error (event_text s e)))
  | _ => false
  end.

Definition decodes_all : bool :=
  forallb (fun s => forallb (fun c =>
    if c =? 0x60 then true
    else forallb (fun x => decodes_to s (Press (Key x c)) && decodes_to s (Release (Key x c))) [true; false])
    codes) flags.

Lemma decodes_all_true : decodes_all = true.
Proof. by vm_compute. Qed.

Lemma flags_all s : ext_scancode s = false -> s ∈ flags.
Proof.
  destruct s as [c sh a cl x]. simpl. intros ->. unfold flags.
  destruct c, sh, a, cl; apply (bool_decide_unpack _); by vm_compute.
Qed.

Lemma event_decodes s e : ext_scancode s = false -> key_ok (event_key e) -> decodes_to s e = true.
Proof.
  intros Hs [Hc Hne]. pose proof decodes_all_true as H. unfold decodes_all in H.
  rewrite forallb_forall in H. specialize (H s). rewrite <- list_elem_of_In in H.
  specialize (H (flags_all s Hs)). rewrite forallb_forall in H. specialize (H (code (event_key e))).
  rewrite <- list_elem_of_In in H. assert (code (event_key e) ∈ codes) as Hin by (apply elem_of_seqZ; lia). specialize (H Hin). clear Hin.
  rewrite (proj2 (Z.eqb_neq _ _) Hne) in H. rewrite forallb_forall in H.
  specialize (H (extended (event_key e)) ltac:(destruct (extended _); simpl; auto)).
  apply andb_prop in H as [Hp Hr]. destruct e as [[x c]|[x c]]; done.
Qed.

(** ** The buffer behind the decoder *)

(** The buffer holds the text [cs] and the kernel can take an interrupt. *)
Record listening (p : Z) (cs : list Z) (k : kernel) : Prop := {
  ls_sched : sched_ok k;
  ls_off : intr_get_status (eflags k) = INTR_OFF;
  ls_fits : Z.of_nat (length cs) <= bufsize - 1;
  ls_queue : exists q, ioqueues k !! p = Some q /\ ioq_rep q cs /\ waiter_ok k (consumer q)
}.

(** What a buffer of 2047 characters keeps of a text. *)
Definition kept (cs : list Z) : list Z := take 2047 cs.

Lemma offer_keeps f p cs k c :
  listening p cs k ->
  exists k', offer (S f) p c k = Ret tt k' /\ listening p (kept (cs ++ option_list c)) k'.
Proof.
  intros [Hok Hoff Hfit (q & Hq & Hr & Hw)]. unfold kept.
  destruct c as [c|]; simpl.
  - rewrite (bind_Ret _ _ _ _ _ (run_full k p q cs Hoff Hq Hr)). case_bool_decide as Hfull; simpl.
    + exists k. split; [done|]. rewrite take_app_le by (unfold bufsize in *; lia).
      rewrite take_ge by (unfold bufsize in *; lia). split; eauto.
    + destruct (putchar_spec f k p q c cs) as (q' & Hrun & Hr' & Hc' & _); [done..|lia|done|].
      exists (with_ioq (woken k (consumer q)) p q'). split; [done|].
      rewrite take_ge by (rewrite length_app; simpl; unfold bufsize in *; lia).
      split.
      * apply with_ioq_ok. by apply woken_ok.
      * rewrite <- Hoff. simpl. unfold woken. by repeat case_match.
      * rewrite length_app. simpl. lia.
      * exists q'. split; [apply ioq_get_set|]. split; [done|]. by left.
  - exists k. split; [done|]. rewrite app_nil_r, take_ge by (unfold bufsize in *; lia). split; eauto.
Qed.

Lemma kept_kept a b : kept (kept a ++ b) = kept (a ++ b).
Proof.
  unfold kept. rewrite !take_app, take_take, Nat.min_id, length_take.
  destruct (Nat.le_gt_cases (length a) 2047).
  - by rewrite Nat.min_r by lia.
  - rewrite Nat.min_l by lia. by replace (2047 - 2047)%nat with 0%nat by lia;
      replace (2047 - length a)%nat with 0%nat by lia.
Qed.

Lemma keyboard_app f p s bs1 bs2 s1 k k1 :
  keyboard_bytes f p s bs1 k = Ret s1 k1 ->
  keyboard_bytes f p s (bs1 ++ bs2) k = keyboard_bytes f p s1 bs2 k1.
Proof.
  revert s k. induction bs1 as [|b bs1 IH]; intros s k; simpl.
  - by intros [= <- <-].
  - rewrite !run_bind. destruct (intr_keyboard_handler f p s b k) as [s' k'| |]; simpl; try done. apply IH.
Qed.

(** One byte, in a kernel that can take the interrupt. *)
Lemma handler_listens f p s b s' c cs k :
  decode s b = Ok (s', c) -> listening p cs k ->
  exists k', intr_keyboard_handler (S f) p s b k = Ret s' k' /\ listening p (kept (cs ++ option_list c)) k'.
Proof.
  intros Hd Hl. rewrite (handler_decodes _ _ _ _ _ _ _ Hd).
  destruct (offer_keeps f p cs k c Hl) as (k' & Ho & Hl'). exists k'. split; [|done]. by prun Ho.
Qed.

Lemma event_state_ext s e : ext_scancode (event_state s e) = ext_scancode s.
Proof. destruct e as [q|q]; simpl; destruct (modifier_of q) as [[]|]; done. Qed.

Lemma event_text_hd s e : option_list (hd_error (event_text s e)) = event_text s e.
Proof. destruct e as [q|q]; simpl; [|done]. by destruct (types s q). Qed.

Lemma event_listens f p s e cs k :
  ext_scancode s = false -> key_ok (event_key e) -> listening p cs k ->
  exists k', keyboard_bytes (S f) p s (scan_bytes_of e) k = Ret (event_state s e) k'
    /\ listening p (kept (cs ++ event_text s e)) k'.
Proof.
  intros Hs Hk Hl. pose proof (event_decodes s e Hs Hk) as Hd. unfold decodes_to in Hd.
  destruct (scan_bytes_of e) as [|b [|b' [|]]]; [done|..|done].
  - apply bool_decide_eq_true in Hd.
    destruct (handler_listens f p s b _ _ cs k Hd Hl) as (k' & Hrun & Hl').
    exists k'. split; [|by rewrite event_text_hd in Hl']. simpl. by prun Hrun.
  - apply andb_prop in Hd as [H1 H2]. apply bool_decide_eq_true in H1, H2.
    destruct (handler_listens f p s b _ _ cs k H1 Hl) as (k1 & Hrun1 & Hl1).
    destruct (handler_listens f p _ b' _ _ _ k1 H2 Hl1) as (k2 & Hrun2 & Hl2).
    simpl in Hl2. rewrite app_nil_r, kept_kept, event_text_hd in Hl2.
    exists k2. split; [|done]. cbn [keyboard_bytes]. prun Hrun1. by prun Hrun2.
Qed.

Lemma events_listen f p es : forall s cs k,
  ext_scancode s = false -> Forall (fun e => key_ok (event_key e)) es -> listening p cs k ->
  exists k', keyboard_bytes (S f) p s (concat (map scan_bytes_of es)) k = Ret (state_after s es) k'
    /\ listening p (kept (cs ++ text_of s es)) k'.
Proof.
  induction es as [|e es IH]; intros s cs k Hs Hk Hl; simpl.
  - exists k. split; [done|]. destruct Hl as [? ? Hf ?]. unfold kept.
    rewrite app_nil_r, take_ge by (unfold bufsize in *; lia). by split.
  - apply Forall_cons_1 in Hk as [Hke Hk].
    destruct (event_listens f p s e cs k Hs Hke Hl) as (k1 & Hrun1 & Hl1).
    destruct (IH (event_state s e) (kept (cs ++ event_text s e)) k1) as (k2 & Hrun2 & Hl2); [by rewrite event_state_ext|done|exact Hl1|].
    exists k2. split.
    + by rewrite (keyboard_app _ _ _ _ _ _ _ _ Hrun1).
    + by rewrite kept_kept, <- app_assoc in Hl2.
Qed.

(** ** Properties *)

Lemma demo_io_listening : listening 0x3000 [] demo_io.
Proof.
  split; [apply demo_io_ok|done|by vm_compute|].
  exists demo_queue. split; [done|]. split; [apply demo_queue_rep|by left].
Qed.

(** C36: however keys are pressed and released, the handler follows the
    modifier keys and puts into the keyboard buffer the text they type: letters
    in upper case when exactly one of shift and caps lock is on, other keys by
    shift alone, control-l and control-u as codes 11 and 20; what does not fit
    the buffer of 2047 characters is dropped, and the handler never blocks. *)
Theorem keyboard_types_text (f : nat) (p : Z) (s : kbd) (es : list event) (cs : list Z) (k : kernel) :
  ext_scancode s = false -> Forall (fun e => key_ok (event_key e)) es -> listening p cs k ->
  exists k', keyboard_bytes (S f) p s (concat (map scan_bytes_of es)) k = Ret (state_after s es) k'
    /\ listening p (take 2047 (cs ++ text_of s es)) k'.
Proof. apply events_listen. Qed.

(** Shift down, [a], shift up, right control down, [l]: the text is "A" and the
    code of the short cut. *)
Lemma keyboard_types_text_witness :
  exists k', keyboard_bytes 1 0x3000 (Kbd false false false false false) [0x2a; 0x1e; 0xaa; 0xe0; 0x1d; 0x26] demo_io
      = Ret (Kbd true false false false false) k'
    /\ listening 0x3000 [65; 11] k'.
Proof.
  apply (keyboard_types_text 0 0x3000 (Kbd false false false false false)
    [Press (Key false 0x2a); Press (Key false 0x1e); Release (Key false 0x2a); Press (Key true 0x1d); Press (Key false 0x26)] []).
  - reflexivity.
  - repeat constructor; simpl; lia.
  - apply demo_io_listening.
Defined.
