(* ===== verification/Heap.v ===== *)
(** * Heap: pages with locks and the block allocator of kernel/memory.c

    [get_kernel_pages], [get_user_pages], [get_a_page],
    [get_a_page_without_opvaddrbitmap], [block_desc_init], [sys_malloc] and
    [sys_free].  The header of an arena lies at the beginning of a page; it is
    kept in the map [arenas], whose key is the physical frame of the page, so
    that every address space sees the headers of the frames it maps.  The nodes
    of a free list lie in the blocks; the lists are sequences of block addresses
    as in Kernel. *)
From S2P Require Import Prelude Bitmap Interrupt DList Paging Pages Kernel Sched Sync.

(** ** Operations *)

(** The addresses of [kernel_pool.lock] and [user_pool.lock]: the pools are at
    the addresses of build/kernel.map, the lock behind four words. *)
Definition kernel_pool_lock : Z := 0xc0017260 + 16.
Definition user_pool_lock : Z := 0xc0017160 + 16.

Definition pool_lock (pf : pool_flags) : Z :=
  match pf with PF_KERNEL => kernel_pool_lock | PF_USER => user_pool_lock end.

(** [memset(v, 0, n)] for a multiple of four bytes, through the page tables. *)
Definition clear (v n : Z) : proc kernel unit := in_mem (memset0 (Z.to_nat (n / 4)) v).

Definition get_kernel_pages (fuel : nat) (pg_cnt : Z) : proc kernel Z :=
  _ ← lock_acquire fuel kernel_pool_lock;
  vaddr ← in_mem (malloc_page PF_KERNEL pg_cnt);
  _ ← (if negb (vaddr =? 0) then clear vaddr (u32 (pg_cnt * PG_SIZE)) else mret tt);
  _ ← lock_release kernel_pool_lock;
  mret vaddr.

Definition get_user_pages (fuel : nat) (pg_cnt : Z) : proc kernel Z :=
  _ ← lock_acquire fuel user_pool_lock;
  vaddr ← in_mem (malloc_page PF_USER pg_cnt);
  _ ← (if negb (vaddr =? 0) then clear vaddr (u32 (pg_cnt * PG_SIZE)) else mret tt);
  _ ← lock_release user_pool_lock;
  mret vaddr.

(** What [get_a_page] and its variant do after the bitmap: map one page. *)
Definition attach_page (pf : pool_flags) (vaddr : Z) : proc kernel Z :=
  page_phyaddr ← in_mem (palloc_from pf);
  if page_phyaddr =? 0 then
    _ ← lock_release (pool_lock pf); mret 0
  else
    _ ← in_mem (page_table_add vaddr page_phyaddr);
    _ ← lock_release (pool_lock pf);
    mret vaddr.

(** Setting the bit of [vaddr] in a virtual pool. *)
Definition claim_user (vaddr : Z) : st mem unit := fun m =>
  let va := cur_vaddr m in
  let bit_idx := i32 (u32 (vaddr - vaddr_start va) / PG_SIZE) in
  _ ← ASSERT (0 <=? bit_idx);
  b ← bitmap_set (vaddr_bitmap va) bit_idx 1;
  mret (tt, with_cur_vaddr m (VirtualAddr b (vaddr_start va))).

Definition claim_kernel (vaddr : Z) : st mem unit := fun m =>
  let va := kernel_vaddr m in
  let bit_idx := i32 (u32 (vaddr - vaddr_start va) / PG_SIZE) in
  _ ← ASSERT (0 <? bit_idx);
  b ← bitmap_set (vaddr_bitmap va) bit_idx 1;
  mret (tt, with_kernel_vaddr m (VirtualAddr b (vaddr_start va))).

Definition get_a_page (fuel : nat) (pf : pool_flags) (vaddr : Z) : proc kernel Z :=
  _ ← lock_acquire fuel (pool_lock pf);
  k ← get;
  cur ← task (running k);
  _ ← (match pgdir cur =? 0, pf with
       | false, PF_USER => in_mem (claim_user vaddr)
       | true, PF_KERNEL => in_mem (claim_kernel vaddr)
       | _, _ => fail EPanic
       end);
  attach_page pf vaddr.

Definition get_a_page_without_opvaddrbitmap (fuel : nat) (pf : pool_flags) (vaddr : Z) : proc kernel Z :=
  _ ← lock_acquire fuel (pool_lock pf);
  attach_page pf vaddr.

(** ** Blocks *)

Definition DESC_CNT : Z := 7.

(** [sizeof(struct arena)] *)
Definition ARENA_SIZE : Z := 12.

Fixpoint block_desc_loop (n : nat) (block_size : Z) : list mem_block_desc :=
  match n with
  | O => []
  | S n' => MemBlockDesc block_size ((PG_SIZE - ARENA_SIZE) / block_size) [] :: block_desc_loop n' (u16 (block_size * 2))
  end.

Definition block_desc_init : list mem_block_desc := block_desc_loop (Z.to_nat DESC_CNT) 16.

(** Descriptors through a pointer. *)
Definition get_desc (p : Z * Z) : proc kernel mem_block_desc :=
  k ← get;
  if p.1 =? 0 then lift (rd (k_block_descs k) p.2)
  else t ← task p.1; lift (rd (u_block_desc t) p.2).

Definition set_desc (p : Z * Z) (d : mem_block_desc) : proc kernel unit :=
  k ← get;
  if p.1 =? 0 then
    ds ← lift (wr (k_block_descs k) p.2 d); modify (set_k_block_descs ds)
  else
    t ← task p.1;
    ds ← lift (wr (u_block_desc t) p.2 d); update_task p.1 (set_u_block_desc ds).

(** The header at the page [a]. *)
Definition arena_frame (a : Z) : proc kernel Z := fun k =>
  match translate (kmem k) a with Some f => Ret f k | None => Err EFault end.

Definition get_arena (a : Z) : proc kernel arena :=
  f ← arena_frame a; load arenas f.

Definition set_arena (a : Z) (x : arena) : proc kernel unit :=
  f ← arena_frame a; modify (fun k => set_arenas (<[f := x]> (arenas k)) k).

Definition arena2block (a block_size idx : Z) : Z := u32 (a + ARENA_SIZE + idx * block_size).

Definition block2arena (b : Z) : Z := Z.land b 0xfffff000.

(** The search for the smallest block size that is large enough. *)
Fixpoint find_desc (n : nat) (owner size desc_idx : Z) : proc kernel Z :=
  match n with
  | O => mret desc_idx
  | S n' =>
    d ← get_desc (owner, desc_idx);
    if size <=? block_size d then mret desc_idx else find_desc n' owner size (desc_idx + 1)
  end.

(** The loop that divides an arena into blocks. *)
Fixpoint carve (n : nat) (p : Z * Z) (a block_idx : Z) : proc kernel unit :=
  match n with
  | O => mret tt
  | S n' =>
    d ← get_desc p;
    let b := arena2block a (block_size d) block_idx in
    _ ← assert (negb (seq_find (free_list d) b));
    _ ← set_desc p (MemBlockDesc (block_size d) (blocks_per_arena d) (seq_append (free_list d) b));
    carve n' p a (block_idx + 1)
  end.

(** The end of [sys_malloc]: take the first free block of descriptor [p]. *)
Definition take_block (pf : pool_flags) (p : Z * Z) : proc kernel Z :=
  d ← get_desc p;
  '(b, rest) ← lift (seq_pop (free_list d));
  _ ← set_desc p (MemBlockDesc (block_size d) (blocks_per_arena d) rest);
  _ ← clear b (block_size d);
  let a := block2arena b in
  ar ← get_arena a;
  _ ← set_arena a (Arena (desc ar) (u32 (cnt ar - 1)) (large ar));
  _ ← lock_release (pool_lock pf);
  mret b.

Definition sys_malloc (fuel : nat) (size : Z) : proc kernel Z :=
  k ← get;
  cur_thread ← task (running k);
  let PF := if pgdir cur_thread =? 0 then PF_KERNEL else PF_USER in
  let owner := if pgdir cur_thread =? 0 then 0 else running k in
  if negb ((0 <? size) && (size <? pool_size (pool_of PF (kmem k)))) then mret 0
  else
    _ ← lock_acquire fuel (pool_lock PF);
    if 1024 <? size then
      let page_cnt := DIV_ROUND_UP (u32 (size + ARENA_SIZE)) PG_SIZE in
      a ← in_mem (malloc_page PF page_cnt);
      if negb (a =? 0) then
        _ ← clear a (u32 (page_cnt * PG_SIZE));
        _ ← set_arena a (Arena None page_cnt true);
        _ ← lock_release (pool_lock PF);
        mret (u32 (a + ARENA_SIZE))
      else
        _ ← lock_release (pool_lock PF); mret 0
    else
      desc_idx ← find_desc (Z.to_nat DESC_CNT) owner size 0;
      d ← get_desc (owner, desc_idx);
      if seq_empty (free_list d) then
        a ← in_mem (malloc_page PF 1);
        if a =? 0 then
          _ ← lock_release (pool_lock PF); mret 0
        else
          _ ← clear a PG_SIZE;
          _ ← set_arena a (Arena (Some (owner, desc_idx)) (blocks_per_arena d) false);
          old_status ← k_intr_disable;
          _ ← carve (Z.to_nat (blocks_per_arena d)) (owner, desc_idx) a 0;
          _ ← k_intr_set_status old_status;
          take_block PF (owner, desc_idx)
      else take_block PF (owner, desc_idx).

(** The loop that takes the blocks of an arena out of the free list. *)
Fixpoint uncarve (n : nat) (p : Z * Z) (a block_idx : Z) : proc kernel unit :=
  match n with
  | O => mret tt
  | S n' =>
    d ← get_desc p;
    let b := arena2block a (block_size d) block_idx in
    _ ← assert (seq_find (free_list d) b);
    _ ← set_desc p (MemBlockDesc (block_size d) (blocks_per_arena d) (seq_remove (free_list d) b));
    uncarve n' p a (block_idx + 1)
  end.

Definition sys_free (fuel : nat) (ptr : Z) : proc kernel unit :=
  _ ← assert (negb (ptr =? 0));
  k ← get;
  cur ← task (running k);
  _ ← (if pgdir cur =? 0 then assert (K_HEAP_START <=? ptr) else mret tt);
  let PF := if pgdir cur =? 0 then PF_KERNEL else PF_USER in
  _ ← lock_acquire fuel (pool_lock PF);
  let a := block2arena ptr in
  ar ← get_arena a;
  _ ← (match desc ar, large ar with
       | None, true => in_mem (mfree_page PF a (cnt ar))
       | None, false => fail EFault
       | Some p, _ =>
         d ← get_desc p;
         _ ← set_desc p (MemBlockDesc (block_size d) (blocks_per_arena d) (seq_append (free_list d) ptr));
         _ ← set_arena a (Arena (desc ar) (u32 (cnt ar + 1)) (large ar));
         if u32 (cnt ar + 1) =? blocks_per_arena d then
           _ ← uncarve (Z.to_nat (blocks_per_arena d)) p a 0;
           in_mem (mfree_page PF a 1)
         else mret tt
       end);
  lock_release (pool_lock PF).
