(* ===== verification/Thread.v ===== *)
(** * Thread: creating, ending and finding tasks, thread/thread.c

    Pids, the pcb of a new thread with the stack it starts on, [thread_start],
    [thread_exit] and the search by pid.  The addresses of code
    ([kernel_thread], the thread functions) are numbers the linker chooses. *)
From S2P Require Import Prelude Bitmap Interrupt DList Paging Pages Memory Kernel View Sched Sync Heap.

(** ** Pids *)

(** [pid_pool.pid_start], which [pid_pool_init] sets, and the address of
    [pid_pool.pid_lock]: the pool is at the address of build/kernel.map, the
    lock behind a bitmap of two words and the number. *)
Definition pid_start : Z := 1.

Definition pid_lock : Z := 0xc00172a0 + 12.

Definition pid_pool_init : proc kernel unit :=
  k ← get;
  b ← lift (bitmap_init (Bitmap 128 (bits (pid_bitmap k))));
  _ ← modify (set_pid_bitmap b);
  lock_init pid_lock.

Definition allocate_pid (fuel : nat) : proc kernel Z :=
  _ ← lock_acquire fuel pid_lock;
  k ← get;
  bit_idx ← lift (bitmap_scan (pid_bitmap k) 1);
  b ← lift (bitmap_set (pid_bitmap k) (u32 bit_idx) 1);
  _ ← modify (set_pid_bitmap b);
  _ ← lock_release pid_lock;
  mret (i16 (bit_idx + pid_start)).

Definition release_pid (fuel : nat) (pid : Z) : proc kernel unit :=
  _ ← lock_acquire fuel pid_lock;
  let bit_idx := i32 (u32 (pid - pid_start)) in
  k ← get;
  b ← lift (bitmap_set (pid_bitmap k) (u32 bit_idx) 0);
  _ ← modify (set_pid_bitmap b);
  lock_release pid_lock.

Definition fork_pid (fuel : nat) : proc kernel Z := allocate_pid fuel.

(** ** A new thread *)

Definition TASK_NAME_LEN : Z := 16.

(** [sizeof(struct intr_stack)] and [sizeof(struct thread_stack)]. *)
Definition intr_stack_size : Z := 19 * 4.

Definition thread_stack_size : Z := 8 * 4.

(** A word of a stack, which lies in the page of the pcb. *)
Definition store_word (a x : Z) : proc kernel unit := in_mem (store32 a x).

(** [self_kstack] points to words, so [-=] moves it by four times the number of
    bytes of the structs. *)
Definition thread_create (kernel_thread pthread function func_arg : Z) : proc kernel unit :=
  _ ← update_task pthread (fun t => set_self_kstack (u32 (self_kstack t - 4 * intr_stack_size)) t);
  _ ← update_task pthread (fun t => set_self_kstack (u32 (self_kstack t - 4 * thread_stack_size)) t);
  t ← task pthread;
  let kthread_stack := self_kstack t in
  _ ← store_word (u32 (kthread_stack + 16)) kernel_thread;
  _ ← store_word (u32 (kthread_stack + 24)) function;
  _ ← store_word (u32 (kthread_stack + 28)) func_arg;
  _ ← store_word (u32 (kthread_stack + 12)) 0;
  _ ← store_word (u32 (kthread_stack + 8)) 0;
  _ ← store_word (u32 (kthread_stack + 4)) 0;
  store_word kthread_stack 0.

(** The fields after [memset(pthread, 0, sizeof *pthread)]. *)
Definition zero_task : task_struct :=
  TaskStruct 0 0 TASK_RUNNING [] 0 0 0 0 (VirtualAddr (Bitmap 0 []) 0) 0
    (replicate 7 (MemBlockDesc 0 0 [])) (replicate 8 0) 0 0 0 0.

(** The pcb lies at the beginning of a page that has to be mapped. *)
Definition clear_pcb (pthread : Z) : proc kernel unit :=
  _ ← arena_frame pthread;
  modify (fun k => set_tasks (<[pthread := zero_task]> (tasks k)) k).

(** A name of 16 bytes or more does not fit the array. *)
Definition init_thread (fuel : nat) (pthread : Z) (nm : list Z) (prio : Z) : proc kernel unit :=
  _ ← clear_pcb pthread;
  pid ← allocate_pid fuel;
  _ ← update_task pthread (set_pid pid);
  _ ← (if Z.of_nat (length nm) <? TASK_NAME_LEN then mret tt else fail EFault);
  k ← get;
  let stat := if pthread =? main_thread k then TASK_RUNNING else TASK_READY in
  update_task pthread (fun t =>
    TaskStruct (u32 (pthread + PG_SIZE)) (Kernel.pid t) stat nm (u8 prio) (u8 prio) 0 0 (userprog_vaddr t) (vaddr_bits t)
      (u_block_desc t) ([0; 1; 2] ++ replicate 5 (-1)) 0 (-1) (exit_status t) STACK_MAGIC).

(** [ASSERT(!elem_find(...)); list_append(...)] for the two lists of tasks. *)
Definition enlist_ready (thread : Z) : proc kernel unit :=
  k ← get;
  _ ← assert (negb (seq_find (thread_ready_list k) thread));
  put (set_thread_ready_list (seq_append (thread_ready_list k) thread) k).

Definition enlist_all (thread : Z) : proc kernel unit :=
  k ← get;
  _ ← assert (negb (seq_find (thread_all_list k) thread));
  put (set_thread_all_list (seq_append (thread_all_list k) thread) k).

Definition thread_start (fuel : nat) (kernel_thread : Z) (nm : list Z) (prio function func_arg : Z) : proc kernel Z :=
  thread ← get_kernel_pages fuel 1;
  _ ← init_thread fuel thread nm prio;
  _ ← thread_create kernel_thread thread function func_arg;
  _ ← enlist_ready thread;
  _ ← enlist_all thread;
  mret thread.

Definition make_main_thread (fuel : nat) : proc kernel unit :=
  k ← get;
  let main := running k in
  _ ← put (set_main_thread main k);
  _ ← init_thread fuel main [109; 97; 105; 110] 31;
  enlist_all main.

(** One round of the loop of [idle]: up to the [hlt]. *)
Definition idle_round : proc kernel unit :=
  _ ← thread_block TASK_BLOCKED;
  modify (fun k => set_eflags (intr_enable (eflags k)).2 k).

(** ** The end of a task *)

(** [thread_over->pid] is read after the pcb's page was freed: the pcb in
    [tasks] stands until that read, which sees what the freed frame still holds
    (on the machine only as long as the page's translation is cached). *)
Definition thread_exit (fuel : nat) (thread_over : Z) (need_schedule : bool) : proc kernel unit :=
  _ ← k_intr_disable;
  _ ← update_task thread_over (set_status TASK_DIED);
  k ← get;
  _ ← (if seq_find (thread_ready_list k) thread_over
       then put (set_thread_ready_list (seq_remove (thread_ready_list k) thread_over) k) else mret tt);
  t ← task thread_over;
  _ ← (if negb (pgdir t =? 0) then in_mem (mfree_page PF_KERNEL (pgdir t) 1) else mret tt);
  _ ← modify (fun k => set_thread_all_list (seq_remove (thread_all_list k) thread_over) k);
  k ← get;
  _ ← (if negb (thread_over =? main_thread k) then in_mem (mfree_page PF_KERNEL thread_over 1) else mret tt);
  freed ← task thread_over;
  _ ← (if negb (thread_over =? main_thread k) then modify (fun k => set_tasks (delete thread_over (tasks k)) k) else mret tt);
  _ ← release_pid fuel (Kernel.pid freed);
  if need_schedule then _ ← schedule; fail EPanic else mret tt.

(** [list_traversal(&thread_all_list, f, arg)]: the first pcb that passes the
    test, or 0. *)
Fixpoint first_task (f : task_struct -> bool) (l : list Z) : proc kernel Z :=
  match l with
  | [] => mret 0
  | p :: r => t ← task p; if f t then mret p else first_task f r
  end.

Definition pid_check (pid : Z) (t : task_struct) : bool := Kernel.pid t =? pid.

Definition pid2thread (pid : Z) : proc kernel Z :=
  k ← get; first_task (pid_check pid) (thread_all_list k).

(** ** Taking and releasing a lock nobody waits for *)

Definition lock_free (k : kernel) (p : Z) : Prop :=
  locks k !! p = Some (Lock 0 0) /\ semas k !! lock_sema p = Some (Semaphore 1 []).

Definition held (p : Z) (k : kernel) : kernel :=
  with_lock (with_sema k (lock_sema p) (Semaphore 0 [])) p (Lock (running k) 1).

Lemma acquire_run f k p :
  lock_free k p -> running k <> 0 -> lock_acquire (S f) p k = Ret tt (held p k).
Proof. intros [Hl Hs] Hr. by apply (lock_acquire_free f k p 0 []). Qed.

(** After a critical section that leaves the locks alone, releasing gives the
    state in which the section ran without the lock. *)
Lemma unlock_run k k' p :
  lock_free k p -> running k' = running k ->
  locks k' = locks (held p k) -> semas k' = semas (held p k) ->
  lock_release p k' = Ret tt (set_semas (semas k) (set_locks (locks k) k')).
Proof.
  intros [Hl Hs] Hr Hlk Hsm.
  assert (locks k' !! p = Some (Lock (running k') 1)) as Hl' by (rewrite Hlk, Hr; apply lock_get_set).
  rewrite lock_release_last by done.
  rewrite sema_up_none by (change (semas k' !! lock_sema p = Some (Semaphore 0 [])); rewrite Hsm; apply sema_get_set).
  f_equal. unfold with_lock, with_sema, set_locks, set_semas. simpl. rewrite Hlk, Hsm. simpl.
  rewrite !insert_insert_eq. rewrite (insert_id (locks k)), (insert_id (semas k)) by done. done.
Qed.

(** ** Pids *)

(** [k'] is [k] with the bit of pid [q] set or cleared. *)
Definition pid_marked (k k' : kernel) (q : Z) (v : bool) : Prop :=
  exists b, k' = set_pid_bitmap b k /\ bitmap_ok b /\ bm_bits b = bm_bits (pid_bitmap k)
    /\ forall j, 0 <= j -> bm_bit b j = if decide (j = q - 1) then v else bm_bit (pid_bitmap k) j.

Definition pid_used (k : kernel) (q : Z) : bool := bm_bit (pid_bitmap k) (q - 1).

Record pids_ok (k : kernel) : Prop := {
  pi_lock : lock_free k pid_lock;
  pi_bits : bitmap_ok (pid_bitmap k);
  pi_len : bm_bits (pid_bitmap k) = 1024;
  pi_run : running k <> 0
}.

Lemma allocate_pid_run f k :
  pids_ok k ->
  (exists q k', allocate_pid (S f) k = Ret q k' /\ 1 <= q <= 1024 /\ pid_used k q = false
     /\ (forall p, 1 <= p < q -> pid_used k p = true) /\ pid_marked k k' q true)
  \/ (allocate_pid (S f) k = Err EPanic /\ forall p, 1 <= p <= 1024 -> pid_used k p = true).
Proof.
  intros [Hlk Hb Hlen Hr]. unfold allocate_pid. prun (acquire_run f k pid_lock Hlk Hr). pget.
  change (pid_bitmap (held pid_lock k)) with (pid_bitmap k).
  destruct (scan_one _ Hb) as [(i & Hs & Hi & Hc & Hlow)|[Hs Hall]]; rewrite Hs.
  - left. rewrite Hlen in Hi. pose proof (bo_len _ Hb). unfold bm_bits in Hlen.
    destruct (set_bit (pid_bitmap k) i 1 Hb) as (b & Hset & Hbok & Hbl & _ & Hbits); [lia|by right|].
    exists (i + 1), (set_pid_bitmap b k).
    split; [|split; [lia|split; [unfold pid_used; by replace (i + 1 - 1) with i by lia|split]]].
    + prun (eq_refl : lift (Ok i) (held pid_lock k) = Ret i (held pid_lock k)). rewrite (u32_id i), Hset by lia.
      prun (eq_refl : lift (Ok b) (held pid_lock k) = Ret b (held pid_lock k)). pmodify.
      prun (unlock_run k (set_pid_bitmap b (held pid_lock k)) pid_lock Hlk eq_refl eq_refl eq_refl).
      rewrite run_mret. unfold pid_start. rewrite i16_id by lia. by destruct k.
    + intros p Hp. apply Hlow. lia.
    + exists b. split; [done|]. split; [done|]. split; [unfold bm_bits; by rewrite Hbl|]. intros j Hj. rewrite Hbits by done.
      replace (i + 1 - 1) with i by lia. by case_decide.
  - right. split; [done|]. intros p Hp. apply Hall. lia.
Qed.

Lemma release_pid_run f k q :
  pids_ok k -> 1 <= q <= 1024 -> exists k', release_pid (S f) q k = Ret tt k' /\ pid_marked k k' q false.
Proof.
  intros [Hlk Hb Hlen Hr] Hq. unfold release_pid. prun (acquire_run f k pid_lock Hlk Hr). pget.
  change (pid_bitmap (held pid_lock k)) with (pid_bitmap k). pose proof (bo_len _ Hb).
  unfold pid_start. rewrite (u32_id (q - 1)), (i32_id (q - 1)), (u32_id (q - 1)) by lia.
  unfold bm_bits in Hlen.
  destruct (set_bit (pid_bitmap k) (q - 1) 0 Hb) as (b & Hset & Hbok & Hbl & _ & Hbits); [lia|by left|].
  exists (set_pid_bitmap b k). split.
  - rewrite Hset. prun (eq_refl : lift (Ok b) (held pid_lock k) = Ret b (held pid_lock k)). pmodify.
    rewrite (unlock_run k (set_pid_bitmap b (held pid_lock k)) pid_lock Hlk eq_refl eq_refl eq_refl). by destruct k.
  - exists b. split; [done|]. split; [done|]. split; [unfold bm_bits; by rewrite Hbl|].
    intros j Hj. rewrite Hbits by done. by case_decide.
Qed.

Lemma pid_marked_ok k k' q v : pids_ok k -> pid_marked k k' q v -> pids_ok k'.
Proof. intros [H1 H2 H3 H4] (b & -> & Hb & Hl & _). constructor; try done. by rewrite <- H3. Qed.

(** ** Freeing the pages of a task *)

(** What [thread_exit] of a process other than the running one leaves. *)
Record collected (k k' : kernel) (c : Z) (t : task_struct) : Prop := {
  cl_tasks : tasks k' = delete c (tasks k);
  cl_ready : thread_ready_list k' = seq_remove (thread_ready_list k) c;
  cl_all : thread_all_list k' = seq_remove (thread_all_list k) c;
  cl_running : running k' = running k;
  cl_flags : intr_get_status (eflags k') = INTR_OFF;
  cl_pids : forall q, 1 <= q -> pid_used k' q = if decide (q = Kernel.pid t) then false else pid_used k q;
  cl_locks : locks k' = locks k /\ semas k' = semas k;
  cl_frames : forall g, free_frame (view k') g <-> free_frame (view k) g
    \/ translate (view k) (pgdir t) = Some g \/ translate (view k) c = Some g;
  cl_unmapped : translate (view k') (pgdir t) = None /\ translate (view k') c = None;
  cl_heap : heap_ok (view k')
}.

Lemma seq_remove_absent {A} `{EqDecision A} (l : list A) e : e ∉ l -> seq_remove l e = l.
Proof. intros H. unfold seq_remove. apply filter_all. intros x Hx ->. done. Qed.

(** The two pages of a process: its page directory and its pcb. *)
Lemma free_two_spec m v1 r1 v2 r2 :
  heap_ok m -> kernel_page m v1 r1 -> kernel_page m v2 r2 -> r1 <> r2 ->
  exists m1 m2, mfree_page PF_KERNEL v1 1 m = Ok (tt, m1) /\ cur_vaddr m1 = cur_vaddr m
    /\ mfree_page PF_KERNEL v2 1 m1 = Ok (tt, m2) /\ cur_vaddr m2 = cur_vaddr m /\ heap_ok m2
    /\ (forall g, free_frame m2 g <-> free_frame m g \/ translate m v1 = Some g \/ translate m v2 = Some g)
    /\ translate m2 v1 = None /\ translate m2 v2 = None.
Proof.
  intros Hh H1 H2 Hne. pose proof (pool_page_page _ _ _ _ Hh H1) as Hp1. pose proof (pool_page_page _ _ _ _ Hh H2) as Hp2.
  destruct (free_page_spec PF_KERNEL m v1 r1 Hh H1) as (m1 & Hm1 & Hf1).
  pose proof (pool_page_freed PF_KERNEL m m1 r1 v1 v2 r2 Hh Hf1 H1 H2 ltac:(done)) as H2'.
  destruct (free_page_spec PF_KERNEL m1 v2 r2 (fr_ok _ _ _ _ _ Hf1) H2') as (m2 & Hm2 & Hf2).
  pose proof (fr_other_va _ _ _ _ _ Hf1 PF_USER ltac:(done)) as Hc1. pose proof (fr_other_va _ _ _ _ _ Hf2 PF_USER ltac:(done)) as Hc2.
  cbn [va_of] in Hc1, Hc2. exists m1, m2. split; [done|]. split; [done|]. split; [done|]. split; [congruence|]. split; [apply Hf2|].
  assert (v1 <> v2) as Hne'. { destruct H1 as (_ & -> & _), H2 as (_ & -> & _). unfold va_page. lia. }
  split; [|split].
  - intros g. rewrite (freed_frames _ _ _ _ _ _ Hf2 H2'), (freed_frames _ _ _ _ _ _ Hf1 H1).
    rewrite (freed_others _ _ _ _ _ _ Hf1 H1 Hp2 (not_eq_sym Hne')). tauto.
  - rewrite (freed_others _ _ _ _ _ _ Hf2 H2' Hp1 Hne'). by apply (freed_gone _ _ _ _ _ Hf1).
  - by apply (freed_gone _ _ _ _ _ Hf2).
Qed.

(** The pages [thread_exit] frees can be freed. *)
Definition collectable (k : kernel) (c : Z) (t : task_struct) : Prop :=
  exists r1 r2, r1 <> r2 /\ heap_ok (view k) /\ kernel_page (view k) (pgdir t) r1 /\ kernel_page (view k) c r2.

Lemma thread_exit_run f k c t :
  pids_ok k -> is_Some (tasks k !! running k) -> tasks k !! c = Some t -> c <> running k -> c <> main_thread k ->
  pgdir t <> 0 -> 1 <= Kernel.pid t <= 1024 -> collectable k c t ->
  exists k', thread_exit (S f) c false k = Ret tt k' /\ collected k k' c t.
Proof.
  intros Hpid [tr Htr] Ht Hcr Hcm Hpg Hq (r1 & r2 & Hne & Hh & H1 & H2).
  destruct (free_two_spec (view k) _ _ _ _ Hh H1 H2 Hne) as (m1 & m2 & Hm1 & Hc1 & Hm2 & Hc2 & Hh2 & Hfr & Hn1 & Hn2).
  rewrite (cur_vaddr_view k tr Htr) in Hc1, Hc2.
  unfold thread_exit. prun (run_disable k). set (k1 := set_eflags _ k).
  prun (run_update k1 c (set_status TASK_DIED) t Ht). set (k2 := set_tasks _ k1). pget.
  set (k3 := set_thread_ready_list (seq_remove (thread_ready_list k) c) k2).
  assert ((if seq_find (thread_ready_list k2) c
           then put (set_thread_ready_list (seq_remove (thread_ready_list k2) c) k2) else mret tt) k2 = Ret tt k3) as Hrd.
  { unfold seq_find. case_bool_decide as Hin; [done|]. rewrite run_mret. f_equal. unfold k3.
    rewrite seq_remove_absent by done. by destruct k. }
  prun Hrd. unfold task.
  assert (tasks k3 !! c = Some (set_status TASK_DIED t)) as Ht3 by (simpl; by rewrite lookup_insert, decide_True).
  assert (tasks k3 !! running k3 = Some tr) as Htr3 by (simpl; by rewrite lookup_insert_ne).
  assert (view k3 = view k) as Hv3 by (unfold view; rewrite Htr3, Htr; done).
  prun (run_load tasks k3 c _ Ht3). change (pgdir (set_status TASK_DIED t)) with (pgdir t).
  rewrite (proj2 (Z.eqb_neq (pgdir t) 0) Hpg). cbn [negb].
  assert (mfree_page PF_KERNEL (pgdir t) 1 (view k3) = Ok (tt, m1)) as Hm1' by (by rewrite Hv3).
  prun (in_mem_run _ k3 tr tt m1 Htr3 Hm1' Hc1). set (k4 := with_view m1 k3). pmodify. set (k5 := set_thread_all_list _ k4). pget.
  change (main_thread k5) with (main_thread k). rewrite (proj2 (Z.eqb_neq c (main_thread k)) Hcm). cbn [negb].
  assert (view k5 = m1) as Hv5 by (by apply (view_with_view m1 k3 tr)).
  assert (tasks k5 !! running k5 = Some tr) as Htr5 by done.
  assert (mfree_page PF_KERNEL c 1 (view k5) = Ok (tt, m2)) as Hm2' by (by rewrite Hv5).
  prun (in_mem_run _ k5 tr tt m2 Htr5 Hm2' Hc2). unfold task.
  assert (tasks (with_view m2 k5) !! c = Some (set_status TASK_DIED t)) as Htd by done.
  prun (run_load tasks (with_view m2 k5) c _ Htd). set (k6 := set_tasks (delete c (tasks k5)) (with_view m2 k5)).
  prun (eq_refl : modify (fun k => set_tasks (delete c (tasks k)) k) (with_view m2 k5) = Ret tt k6).
  assert (tasks k6 !! running k6 = Some tr) as Htr6 by (change (delete c (tasks k5) !! running k = Some tr); rewrite lookup_delete_ne by done; exact Htr5).
  assert (pids_ok k6) as Hpid6 by (by destruct Hpid).
  destruct (release_pid_run f k6 (Kernel.pid t) Hpid6 Hq) as (k' & Hrel & b & -> & Hb & Hbl & Hbits).
  change (Kernel.pid (set_status TASK_DIED t)) with (Kernel.pid t). prun Hrel. exists (set_pid_bitmap b k6). split; [done|].
  assert (view (set_pid_bitmap b k6) = m2) as Hv6.
  { unfold view. change (tasks (set_pid_bitmap b k6) !! running (set_pid_bitmap b k6)) with (tasks k6 !! running k6). rewrite Htr6.
    cbn. rewrite <- Hc2. by destruct m2. }
  constructor; rewrite ?Hv6; try done.
  - change (delete c (<[c:=set_status TASK_DIED t]> (tasks k)) = delete c (tasks k)). by rewrite delete_insert_eq.
  - apply disable_off.
  - intros q Hq1. unfold pid_used. cbn [pid_bitmap set_pid_bitmap]. rewrite Hbits by lia. repeat case_decide; try done; lia.
Qed.

(** ** Searching *)

Definition passes (f : task_struct -> bool) (k : kernel) (p : Z) : bool :=
  match tasks k !! p with Some t => f t | None => false end.

Lemma first_task_run f l k :
  (forall p, p ∈ l -> is_Some (tasks k !! p)) ->
  first_task f l k = Ret (default 0 (seq_traversal (passes f k) l)) k.
Proof.
  induction l as [|p l IH]; intros Hl; [done|]. destruct (Hl p (list_elem_of_here p l)) as [t Ht].
  cbn [first_task seq_traversal]. unfold task. prun (run_load tasks k p t Ht). unfold passes at 1. rewrite Ht.
  destruct (f t); [done|]. apply IH. intros q Hq. apply Hl. by apply list_elem_of_further.
Qed.

Lemma seq_traversal_Some {A} (f : A -> bool) l x : seq_traversal f l = Some x -> x ∈ l /\ f x = true.
Proof.
  induction l as [|a l IH]; [done|]. cbn. destruct (f a) eqn:E.
  - intros [= ->]. split; [apply list_elem_of_here|done].
  - intros H. destruct (IH H). split; [by apply list_elem_of_further|done].
Qed.

Lemma seq_traversal_None {A} (f : A -> bool) l : seq_traversal f l = None <-> forall x, x ∈ l -> f x = false.
Proof.
  induction l as [|a l IH]; cbn.
  - split; [|done]. intros _ x Hx. by apply not_elem_of_nil in Hx.
  - destruct (f a) eqn:E; split; try done.
    + intros H. rewrite (H a (list_elem_of_here a l)) in E. done.
    + intros H x Hx. apply elem_of_cons in Hx as [->|Hx]; [done|]. by apply IH.
    + intros H. apply IH. intros x Hx. apply H. by apply list_elem_of_further.
Qed.

Lemma seq_traversal_ext {A} (f g : A -> bool) l : (forall x, x ∈ l -> f x = g x) -> seq_traversal f l = seq_traversal g l.
Proof.
  induction l as [|a l IH]; intros H; [done|]. cbn. rewrite (H a (list_elem_of_here a l)).
  rewrite IH; [done|]. intros x Hx. apply H. by apply list_elem_of_further.
Qed.

(** ** Properties *)

(** [allocate_pid] gives the lowest of the pids 1 to 1024 that is not in use
    and marks it, or stops the kernel when all are in use; [release_pid] makes
    exactly its pid free again, so that after both the same pids are in use as
    before. *)
Theorem pid_alloc_release (k : kernel) (f : nat) :
  pids_ok k ->
  (exists q k1 k2, allocate_pid (S f) k = Ret q k1 /\ 1 <= q <= 1024 /\ pid_used k q = false
     /\ (forall p, 1 <= p < q -> pid_used k p = true)
     /\ (forall p, 1 <= p -> pid_used k1 p = pid_used k p || (p =? q)) /\ pids_ok k1
     /\ release_pid (S f) q k1 = Ret tt k2 /\ (forall p, 1 <= p -> pid_used k2 p = pid_used k p))
  \/ (allocate_pid (S f) k = Err EPanic /\ forall p, 1 <= p <= 1024 -> pid_used k p = true).
Proof.
  intros Hok. destruct (allocate_pid_run f k Hok) as [(q & k1 & Ha & Hq & Hu & Hlow & Hm)|?]; [left|by right].
  pose proof (pid_marked_ok _ _ _ _ Hok Hm) as Hok1. destruct (release_pid_run f k1 q Hok1 Hq) as (k2 & Hr & Hm2).
  assert (forall k k' v p, pid_marked k k' q v -> 1 <= p -> pid_used k' p = if decide (p = q) then v else pid_used k p) as Hmk.
  { intros ? ? v p (b & -> & _ & _ & Hb) Hp. unfold pid_used. cbn [pid_bitmap set_pid_bitmap]. rewrite Hb by lia.
    repeat case_decide; try done; lia. }
  exists q, k1, k2. split_and!; try done; try lia.
  - intros p Hp. rewrite (Hmk k k1 true) by done. case_decide as E.
    + subst. by rewrite Z.eqb_refl, orb_true_r.
    + rewrite (proj2 (Z.eqb_neq p q) E). by rewrite orb_false_r.
  - intros p Hp. rewrite (Hmk k1 k2 false), (Hmk k k1 true) by done. case_decide; [by subst|done].
Qed.

(** The kernel of Sched with the pool of pids; three pids are in use. *)
Definition demo_pids : kernel :=
  set_pid_bitmap (Bitmap 128 (7 :: replicate 128 0))
    (set_locks (<[pid_lock := Lock 0 0]> ∅) (set_semas (<[lock_sema pid_lock := Semaphore 1 []]> ∅) demo_kernel)).

Lemma demo_pids_ok : pids_ok demo_pids.
Proof.
  constructor; [done| |done|done]. constructor; [done|done|]. constructor; [lia|]. apply Forall_replicate. lia.
Qed.

Lemma pid_alloc_release_witness :
  exists q k1 k2, allocate_pid 1 demo_pids = Ret q k1 /\ 1 <= q <= 1024 /\ pid_used demo_pids q = false
     /\ (forall p, 1 <= p < q -> pid_used demo_pids p = true)
     /\ (forall p, 1 <= p -> pid_used k1 p = pid_used demo_pids p || (p =? q)) /\ pids_ok k1
     /\ release_pid 1 q k1 = Ret tt k2 /\ (forall p, 1 <= p -> pid_used k2 p = pid_used demo_pids p).
Proof.
  destruct (pid_alloc_release demo_pids 0 demo_pids_ok) as [H|[H _]]; [exact H|]. exfalso. vm_compute in H. discriminate H.
Defined.
