(* ===== verification/Wait.v ===== *)
(** * Wait: the kernel's side of userprog/wait_exit.c

    [sys_wait], and what [sys_exit] does to pcbs and memory.  The files of a
    process that exits are closed in Exit, where the two sides meet. *)
From S2P Require Import Prelude Bitmap Interrupt DList Paging Pages Memory Kernel View Sched Sync Heap Thread.

(** ** Waiting *)

Definition find_child (ppid : Z) (t : task_struct) : bool := parent_pid t =? ppid.

Definition find_hanging_child (ppid : Z) (t : task_struct) : bool :=
  (parent_pid t =? ppid) && bool_decide (status t = TASK_HANGING).

(** The pid returned and what is stored at [status]; the fuel bounds how often
    the parent is woken, [lf] the waiting for the lock of the pids. *)
Fixpoint sys_wait (fuel lf : nat) : proc kernel (Z * option Z) :=
  match fuel with
  | O => fail EFuel
  | S fuel' =>
    k ← get;
    parent ← task (running k);
    child_thread ← first_task (find_hanging_child (pid parent)) (thread_all_list k);
    if negb (child_thread =? 0) then
      c ← task child_thread;
      let child_pid := u16 (pid c) in
      _ ← thread_exit lf child_thread false;
      mret (i16 child_pid, Some (exit_status c))
    else
      child ← first_task (find_child (pid parent)) (thread_all_list k);
      if child =? 0 then mret (-1, None)
      else
        _ ← thread_block TASK_WAITING;
        sys_wait fuel' lf
  end.

(** ** Ending *)

(** [init_adopt_a_child] for every task. *)
Fixpoint adopt (pid : Z) (l : list Z) : proc kernel unit :=
  match l with
  | [] => mret tt
  | p :: r =>
    t ← task p;
    _ ← (if parent_pid t =? pid then update_task p (set_parent_pid 1) else mret tt);
    adopt pid r
  end.

(** The loop over the entries of the page table at the address [first]. *)
Fixpoint release_table (n : nat) (first pte_idx : Z) : st mem unit :=
  match n with
  | O => mret tt
  | S n' =>
    pte ← load32 (u32 (first + 4 * pte_idx));
    _ ← (if negb (Z.land pte 1 =? 0) then free_a_phy_page (Z.land pte 0xfffff000) else mret tt);
    release_table n' first (pte_idx + 1)
  end.

Fixpoint release_dir (n : nat) (pgdir_vaddr pde_idx : Z) : st mem unit :=
  match n with
  | O => mret tt
  | S n' =>
    pde ← load32 (u32 (pgdir_vaddr + 4 * pde_idx));
    _ ← (if negb (Z.land pde 1 =? 0) then
           _ ← release_table 1024 (pte_ptr (u32 (pde_idx * 0x400000))) 0;
           free_a_phy_page (Z.land pde 0xfffff000)
         else mret tt);
    release_dir n' pgdir_vaddr (pde_idx + 1)
  end.

(** The first two parts of [release_prog_resource]: the user pages and page
    tables, and the pages of the bitmap of the user's addresses. *)
Definition release_memory (release_thread : Z) : proc kernel unit :=
  t ← task release_thread;
  _ ← in_mem (release_dir 768 (pgdir t) 0);
  t ← task release_thread;
  let bitmap_pg_cnt := btmp_bytes_len (vaddr_bitmap (userprog_vaddr t)) / PG_SIZE in
  in_mem (mfree_page PF_KERNEL (vaddr_bits t) bitmap_pg_cnt).

(** The beginning of [sys_exit]. *)
Definition exit_begin (st : Z) : proc kernel unit :=
  k ← get;
  let child_thread := running k in
  _ ← update_task child_thread (set_exit_status (i8 st));
  t ← task child_thread;
  _ ← assert (negb (parent_pid t =? -1));
  adopt (pid t) (thread_all_list k).

(** Its end: wake the parent and hang until the parent collects the pcb.  A
    parent that does not exist is a NULL pointer. *)
Definition exit_end : proc kernel unit :=
  k ← get;
  t ← task (running k);
  parent_thread ← pid2thread (parent_pid t);
  p ← task parent_thread;
  _ ← (if bool_decide (status p = TASK_WAITING) then thread_unblock parent_thread else mret tt);
  thread_block TASK_HANGING.

(** ** Waiting, case by case *)

(** The tasks in the list of all tasks exist. *)
Definition listed (k : kernel) : Prop := forall p, p ∈ thread_all_list k -> p <> 0 /\ is_Some (tasks k !! p).

(** The task [sys_wait] finds for the parent pid. *)
Definition hanging_child (k : kernel) (ppid : Z) : option Z := seq_traversal (passes (find_hanging_child ppid) k) (thread_all_list k).

Definition some_child (k : kernel) (ppid : Z) : option Z := seq_traversal (passes (find_child ppid) k) (thread_all_list k).

(** What remains of [sys_wait] when the parent is resumed. *)
Definition wait_tail (n lf : nat) (st : intr_status) : kernel -> outcome kernel (Z * option Z) := fun s =>
  outcome_bind (fun _ => sys_wait n lf) (k_intr_set_status st s).

Lemma find_run f k : listed k -> first_task f (thread_all_list k) k = Ret (default 0 (seq_traversal (passes f k) (thread_all_list k))) k.
Proof. intros Hl. apply first_task_run. intros p Hp. by apply Hl. Qed.

Lemma hanging_child_spec k ppid c :
  listed k -> hanging_child k ppid = Some c ->
  c <> 0 /\ exists t, tasks k !! c = Some t /\ parent_pid t = ppid /\ status t = TASK_HANGING.
Proof.
  intros Hl Hc. apply seq_traversal_Some in Hc as [Hin Hp]. destruct (Hl c Hin) as [Hn [t Ht]]. split; [done|].
  exists t. unfold passes in Hp. rewrite Ht in Hp. unfold find_hanging_child in Hp.
  apply andb_true_iff in Hp as [H1%Z.eqb_eq H2%bool_decide_eq_true]. done.
Qed.

Lemma sys_wait_collects n f k tp c t :
  listed k -> tasks k !! running k = Some tp -> status tp <> TASK_HANGING ->
  hanging_child k (pid tp) = Some c -> tasks k !! c = Some t ->
  pids_ok k -> c <> main_thread k -> pgdir t <> 0 -> 1 <= pid t <= 1024 -> collectable k c t ->
  exists k', sys_wait (S n) (S f) k = Ret (pid t, Some (exit_status t)) k' /\ collected k k' c t.
Proof.
  intros Hl Htp Hst Hc Ht Hp Hm Hpg Hq Hcol. cbn [sys_wait]. pget. unfold task at 1. prun (run_load tasks k _ tp Htp).
  prun (find_run (find_hanging_child (pid tp)) k Hl). fold (hanging_child k (pid tp)). rewrite Hc. cbn [from_option id].
  destruct (hanging_child_spec k _ c Hl Hc) as (Hn & t' & Ht' & Hpar & Hhang). assert (t' = t) as -> by congruence.
  rewrite (proj2 (Z.eqb_neq c 0) Hn). cbn [negb]. prun (run_load tasks k c t Ht).
  destruct (thread_exit_run f k c t) as (k' & He & Hcd); try done; [congruence|].
  exists k'. split; [|done]. prun He. rewrite run_mret. rewrite (u16_id (pid t)), (i16_id (pid t)) by lia. done.
Qed.

Lemma sys_wait_no_child n f k tp :
  listed k -> tasks k !! running k = Some tp -> some_child k (pid tp) = None ->
  sys_wait (S n) f k = Ret (-1, None) k.
Proof.
  intros Hl Htp Hno. cbn [sys_wait]. pget. unfold task at 1. prun (run_load tasks k _ tp Htp).
  prun (find_run (find_hanging_child (pid tp)) k Hl). fold (hanging_child k (pid tp)).
  assert (hanging_child k (pid tp) = None) as ->.
  { apply seq_traversal_None. intros x Hx. unfold some_child in Hno. rewrite seq_traversal_None in Hno. specialize (Hno x Hx).
    unfold passes in *. destruct (tasks k !! x) as [tx|]; [|done]. unfold find_child, find_hanging_child in *. by rewrite Hno. }
  cbn [from_option id]. change (negb (0 =? 0)) with false. cbv iota.
  prun (find_run (find_child (pid tp)) k Hl). fold (some_child k (pid tp)). rewrite Hno. done.
Qed.

Lemma sys_wait_blocks n f k tp c :
  sched_ok k -> running k <> idle_thread k ->
  listed k -> tasks k !! running k = Some tp -> hanging_child k (pid tp) = None -> some_child k (pid tp) = Some c ->
  exists nxt rest k', sys_wait (S n) f k = Switch k' (wait_tail n f (intr_disable (eflags k)).1)
    /\ scheduled (blocking k TASK_WAITING tp) (set_status TASK_WAITING tp) nxt rest k' /\ nxt <> running k.
Proof.
  intros Hok Hid Hl Htp Hno Hc. assert (blocked TASK_WAITING) as Hb by (right; by left).
  destruct (thread_block_spec k TASK_WAITING tp Hok Htp Hb) as (nxt & rest & k' & Hblk & Hsd).
  pose proof (blocks_away k tp _ nxt rest k' Hok Hid Hb Hsd) as Hne. unfold suspends in Hblk.
  rewrite (proj2 (Z.eqb_neq (running k) nxt) Hne) in Hblk.
  exists nxt, rest, k'. split; [|split; [done|congruence]].
  cbn [sys_wait]. pget. unfold task at 1. prun (run_load tasks k _ tp Htp).
  prun (find_run (find_hanging_child (pid tp)) k Hl). fold (hanging_child k (pid tp)). rewrite Hno.
  cbn [from_option id]. change (negb (0 =? 0)) with false. cbv iota.
  prun (find_run (find_child (pid tp)) k Hl). fold (some_child k (pid tp)). rewrite Hc. cbn [from_option id].
  apply seq_traversal_Some in Hc as [Hin _]. destruct (Hl c Hin) as [Hcn _]. rewrite (proj2 (Z.eqb_neq c 0) Hcn).
  exact (bind_Switch _ _ _ _ _ Hblk).
Qed.

(** ** Ending and being waited for *)

(** The processor after the running task hung itself and woke parent [p]. *)
Record hung_up (k k' : kernel) (p : Z) : Prop := {
  hu_ok : sched_ok k';
  hu_running : running k' = p;
  hu_ready : thread_ready_list k' = thread_ready_list k;
  hu_all : thread_all_list k' = thread_all_list k;
  hu_main : main_thread k' = main_thread k;
  hu_pids : pid_bitmap k' = pid_bitmap k;
  hu_locks : locks k' = locks k /\ semas k' = semas k;
  hu_kmem : exists c, kmem k' = with_cr3 (kmem k) c;
  hu_flags : intr_get_status (eflags k') = INTR_OFF;
  hu_tasks : forall q tq, tasks k !! q = Some tq -> exists s n, tasks k' !! q = Some (set_status s (set_ticks n tq));
  hu_status : forall q, st_of k' q =
    if decide (p = q) then Some TASK_RUNNING else if decide (running k = q) then Some TASK_HANGING else st_of k q
}.

Lemma frame_task k k' q t :
  sched_frame k k' -> tasks k !! q = Some t -> exists s n, tasks k' !! q = Some (set_status s (set_ticks n t)).
Proof.
  intros Hf Ht. destruct (sf_tasks _ _ Hf q) as [Hn Hs]. destruct (tasks k' !! q) as [t'|] eqn:E.
  - destruct (Hs t t' Ht eq_refl) as (s & n & ->). by exists s, n.
  - by rewrite (proj1 Hn eq_refl) in Ht.
Qed.

Lemma exit_end_run k t p tp :
  sched_ok k -> running k <> idle_thread k -> listed k -> tasks k !! running k = Some t ->
  seq_traversal (passes (pid_check (parent_pid t)) k) (thread_all_list k) = Some p ->
  tasks k !! p = Some tp -> status tp = TASK_WAITING ->
  exists k', exit_end k = Switch k' (k_intr_set_status (intr_disable (eflags k)).1) /\ hung_up k k' p.
Proof.
  intros Hok Hid Hl Ht Hfind Htp Hst.
  assert (blocked (status tp)) as Hb by (right; by left). assert (blocked TASK_HANGING) as Hb2 by (right; by right).
  destruct (thread_unblock_ok k p tp Hok Htp Hb) as [Hun Hok1]. set (k1 := unblocked k p tp) in *.
  assert (p <> running k) as Hne.
  { intros ->. destruct Hok as [_ Hr]. unfold st_of in Hr. rewrite Htp in Hr. simpl in Hr. congruence. }
  assert (tasks k1 !! running k1 = Some t) as Ht1 by (simpl; by rewrite lookup_insert_ne).
  destruct (thread_block_spec k1 TASK_HANGING t Hok1 Ht1 Hb2) as (nxt & rest & k' & Hblk & Hsd).
  pose proof (sd_queue _ _ _ _ _ Hsd) as Hq. unfold queue_of in Hq. simpl in Hq. injection Hq as Hnx Hrest.
  unfold suspends in Hblk. change (running k1) with (running k) in Hblk. rewrite <- Hnx in Hblk.
  rewrite (proj2 (Z.eqb_neq (running k) p) (not_eq_sym Hne)) in Hblk. change (eflags k1) with (eflags k) in Hblk.
  exists k'. split.
  - unfold exit_end. pget. unfold task at 1. prun (run_load tasks k _ t Ht). unfold pid2thread.
    set (search := get ≫= _). assert (search k = Ret p k) as Hs.
    { unfold search. pget. rewrite (find_run (pid_check (parent_pid t)) k Hl). by rewrite Hfind. }
    prun Hs. prun (run_load tasks k p tp Htp). rewrite bool_decide_true by done. prun Hun. exact Hblk.
  - pose proof (sd_frame _ _ _ _ _ Hsd) as Hf.
    constructor; try by (rewrite ?(sf_all _ _ Hf), ?(sf_main _ _ Hf), ?(sf_pids _ _ Hf)).
    + apply Hsd.
    + by rewrite (sd_running _ _ _ _ _ Hsd).
    + by rewrite (sd_ready _ _ _ _ _ Hsd).
    + split; [by rewrite (sf_locks _ _ Hf)|by rewrite (sf_semas _ _ Hf)].
    + apply (sf_kmem _ _ Hf).
    + rewrite (sf_eflags _ _ Hf). apply disable_off.
    + intros q tq Hq. set (kb := blocking k1 TASK_HANGING t) in *.
      assert (exists s, tasks kb !! q = Some (set_status s tq)) as [s Hqb].
      { unfold kb. cbn. rewrite !lookup_insert. destruct (decide (running k = q)) as [<-|]; [exists TASK_HANGING; congruence|].
        destruct (decide (p = q)) as [<-|]; [exists TASK_READY; congruence|]. exists (status tq). rewrite Hq. by destruct tq. }
      destruct (frame_task kb k' q _ Hf Hqb) as (s' & n & ->). by exists s', n.
    + intros q. rewrite (sd_status _ _ _ _ _ Hsd). rewrite <- Hnx. case_decide; [done|].
      rewrite decide_False by (intros [_ ?]; done). unfold st_of, blocking, with_status, k1, unblocked. cbn.
      rewrite !lookup_insert. case_decide; [done|]. by rewrite decide_False by done.
Qed.

Lemma hung_up_pids k k' p : pids_ok k -> p <> 0 -> hung_up k k' p -> pids_ok k'.
Proof.
  intros [[H1 H2] H3 H4 H5] Hp Hu. destruct (hu_locks _ _ _ Hu) as [E1 E2].
  constructor; [split; [by rewrite E1|by rewrite E2]| | |by rewrite (hu_running _ _ _ Hu)]; by rewrite (hu_pids _ _ _ Hu).
Qed.

(** The parent's next look at its children finds the task that hung up. *)
Lemma hung_up_found k k' p tp t :
  hung_up k k' p -> listed k -> tasks k !! p = Some tp -> p <> running k -> tasks k !! running k = Some t ->
  parent_pid t = pid tp -> running k ∈ thread_all_list k -> hanging_child k (pid tp) = None ->
  listed k' /\ hanging_child k' (pid tp) = Some (running k).
Proof.
  intros Hu Hl Htp Hne Ht Hpar Hin Hno. split.
  - intros q. rewrite (hu_all _ _ _ Hu). intros Hq. destruct (Hl q Hq) as [Hz [tq Htq]]. split; [done|].
    destruct (hu_tasks _ _ _ Hu q tq Htq) as (s & n & ->). by eexists.
  - unfold hanging_child. rewrite (hu_all _ _ _ Hu).
    rewrite (seq_traversal_ext _ (fun q => bool_decide (q = running k)) (thread_all_list k)).
    + clear - Hin. induction (thread_all_list k) as [|a l IH]; [by apply not_elem_of_nil in Hin|]. cbn.
      case_bool_decide as Ea; [by rewrite Ea|]. apply IH. apply elem_of_cons in Hin as [?|?]; [congruence|done].
    + intros q Hq. destruct (Hl q Hq) as [Hz [tq Htq]]. destruct (hu_tasks _ _ _ Hu q tq Htq) as (s & n & Hq').
      pose proof (hu_status _ _ _ Hu q) as Hst. unfold st_of in Hst at 1. rewrite Hq' in Hst. cbn in Hst.
      unfold passes. rewrite Hq'. unfold find_hanging_child. cbn.
      unfold hanging_child in Hno. rewrite seq_traversal_None in Hno. specialize (Hno q Hq). unfold passes, find_hanging_child in Hno. rewrite Htq in Hno.
      destruct (decide (p = q)) as [->|Hpq].
      { injection Hst as ->. rewrite (bool_decide_false (q = running k)) by done. by rewrite andb_false_r. }
      destruct (decide (running k = q)) as [<-|Hrq].
      { injection Hst as ->. rewrite !bool_decide_true by done. assert (tq = t) as -> by congruence. rewrite Hpar. by rewrite Z.eqb_refl. }
      unfold st_of in Hst. rewrite Htq in Hst. injection Hst as ->. rewrite (bool_decide_false (q = running k)) by done. exact Hno.
Qed.

Lemma wait_tail_run n f st k tp c t :
  listed k -> tasks k !! running k = Some tp -> status tp <> TASK_HANGING ->
  hanging_child k (pid tp) = Some c -> tasks k !! c = Some t ->
  pids_ok k -> c <> main_thread k -> pgdir t <> 0 -> 1 <= pid t <= 1024 -> collectable k c t ->
  exists k', wait_tail (S n) (S f) st k = Ret (pid t, Some (exit_status t)) k' /\ collected k k' c t.
Proof.
  intros Hl Htp Hs Hh Ht [? ? ? ?] Hm Hpg Hq Hc. unfold wait_tail, k_intr_set_status. cbn [outcome_bind].
  set (k1 := set_eflags _ k).
  destruct (sys_wait_collects n f k1 tp c t) as (k' & Hw & [? ? ? ? ? ? ? ? ? ?]); try done.
  exists k'. split; [exact Hw|]. by constructor.
Qed.

(** ** Properties *)

(** A process with its page directory at 0xc0100000 (frame 0x200000) and its pcb
    at 0xc0101000; the directory shares the kernel's table. *)
Definition demo_two_pages : mem :=
  match malloc_page PF_KERNEL 2 demo_mem with Ok (_, m) => m | Bad _ => demo_mem end.

Definition demo_proc_mem : mem :=
  with_phys demo_two_pages (<[0x200000 + 4092 := 0x200007]> (<[0x200000 + 3072 := 0x101007]> (phys demo_two_pages))).

Lemma demo_two_pages_ok :
  malloc_page PF_KERNEL 2 demo_mem = Ok (0xc0100000, demo_two_pages) /\ heap_ok demo_two_pages.
Proof.
  destruct (malloc_page_spec PF_KERNEL 2 demo_mem demo_heap_ok ltac:(lia)) as [(v & m' & Hm & _ & Ha)|[[H _]|[H _]]];
    [|vm_compute in H; discriminate H|vm_compute in H; discriminate H].
  unfold demo_two_pages. rewrite Hm. split; [|apply Ha]. do 2 f_equal.
  assert (match malloc_page PF_KERNEL 2 demo_mem with Ok (v, _) => v =? 0xc0100000 | Bad _ => false end = true) as He by (vm_compute; reflexivity).
  rewrite Hm in He. by apply Z.eqb_eq.
Qed.

Lemma demo_proc_mem_ok : heap_ok demo_proc_mem.
Proof.
  destruct demo_two_pages_ok as [_ Hh]. assert (page 0xc0100000) as Hp by (split; [unfold window; lia|done]).
  assert (translate demo_two_pages 0xc0100000 = Some 0x200000) as Ht by (vm_compute; reflexivity).
  assert (0x200000 <> cr3 demo_two_pages) as Hcr by (vm_compute; discriminate).
  destruct (store_page_run demo_two_pages 0xc0100000 3072 0x200000 0x101007 Hh Hp Ht Hcr ltac:(lia)) as [_ Hs1].
  set (m1 := with_phys demo_two_pages _) in *. pose proof (heap_ok_same _ _ Hh Hs1) as Hh1.
  assert (translate m1 0xc0100000 = Some 0x200000) as Ht1 by (rewrite (same_translate _ _ _ Hs1) by lia; exact Ht).
  destruct (store_page_run m1 0xc0100000 4092 0x200000 0x200007 Hh1 Hp Ht1 Hcr ltac:(lia)) as [_ Hs2].
  exact (heap_ok_same _ _ Hh1 Hs2).
Qed.

Definition demo_child (s : task_status) : task_struct := set_exit_status 42 (set_parent_pid 1 (set_pid 3 (set_pgdir 0xc0100000 (demo_task s 31 5)))).

Definition demo_parent (s : task_status) : task_struct := set_userprog_vaddr (cur_vaddr demo_mem) (demo_task s 31 3).

(** The process runs or hangs, its parent, the main thread, waits or runs. *)
Definition demo_family (cur : Z) (c : Z) (sc sp : task_status) : kernel :=
  set_running cur (set_kmem (with_cr3 demo_proc_mem c)
    (set_tasks (<[0xc009e000 := demo_parent sp]> (<[0xc0101000 := demo_child sc]> (<[0xc009d000 := demo_task TASK_BLOCKED 10 10]> ∅)))
    (set_thread_ready_list [] (set_thread_all_list [0xc009e000; 0xc0101000; 0xc009d000] (set_idle_thread 0xc009d000
      (set_main_thread 0xc009e000 demo_pids)))))).

Lemma demo_family_tasks cur c sc sp p t :
  tasks (demo_family cur c sc sp) !! p = Some t ->
  (p = 0xc009e000 /\ t = demo_parent sp) \/ (p = 0xc0101000 /\ t = demo_child sc)
  \/ (p = 0xc009d000 /\ t = demo_task TASK_BLOCKED 10 10).
Proof. unfold demo_family. cbn. rewrite !lookup_insert, lookup_empty. repeat case_decide; naive_solver. Qed.

Lemma demo_family_dirs cur c sc sp :
  (cur = 0xc0101000 /\ c = 0x200000) \/ (cur = 0xc009e000 /\ c = 0x100000) -> dirs_ok (demo_family cur c sc sp).
Proof.
  intros Hc. exists (fun x => if x =? 0xc0101000 then 0x200000 else 0x100000). split.
  { destruct Hc as [[-> ->]|[-> ->]]; reflexivity. }
  intros x t Ht. apply demo_family_tasks in Ht as [[-> ->]|[[-> ->]|[-> ->]]]; (split; [try (intros Hz; vm_compute in Hz; discriminate Hz); reflexivity|]);
    intros Hz; try (by exfalso; apply Hz).
  split; [cbn; lia|]. intros y _. cbn [kmem demo_family set_running set_kmem].
  destruct (y =? 0xc0101000); split; try (vm_compute; reflexivity); (split; [split; [cbn; lia|reflexivity]|split; vm_compute; reflexivity]).
Qed.

Lemma demo_family_ok cur c sc sp :
  (cur = 0xc0101000 /\ c = 0x200000 /\ sc = TASK_RUNNING /\ sp = TASK_WAITING)
  \/ (cur = 0xc009e000 /\ c = 0x100000 /\ sc = TASK_HANGING /\ sp = TASK_RUNNING) ->
  sched_ok (demo_family cur c sc sp).
Proof.
  intros Hc. split; [constructor|].
  - apply NoDup_nil_2.
  - intros p. split; [intros Hp; by apply not_elem_of_nil in Hp|]. unfold st_of. rewrite fmap_Some. intros (t & Ht & Hs).
    apply demo_family_tasks in Ht. destruct Hc as [(_ & _ & -> & ->)|(_ & _ & -> & ->)], Ht as [[_ ->]|[[_ ->]|[_ ->]]]; discriminate Hs.
  - intros p. unfold st_of. rewrite fmap_Some. intros (t & Ht & Hs). apply demo_family_tasks in Ht.
    destruct Hc as [(-> & _ & -> & ->)|(-> & _ & -> & ->)], Ht as [[-> ->]|[[-> ->]|[_ ->]]]; try discriminate Hs; reflexivity.
  - destruct Hc as [(-> & _)|(-> & _)]; by eexists.
  - exists TASK_BLOCKED. done.
  - done.
  - apply demo_family_dirs. naive_solver.
  - by destruct Hc as [(-> & _ & -> & _)|(-> & _ & _ & ->)].
Qed.

Lemma demo_family_listed cur c sc sp : listed (demo_family cur c sc sp).
Proof.
  intros p Hp. change (p ∈ [0xc009e000; 0xc0101000; 0xc009d000]) in Hp.
  rewrite !elem_of_cons in Hp. destruct Hp as [->|[->|[->|Hp]]]; [..|by apply not_elem_of_nil in Hp]; (split; [done|by eexists]).
Qed.

Lemma demo_family_pids cur c sc sp : cur <> 0 -> pids_ok (demo_family cur c sc sp).
Proof. intros Hc. destruct demo_pids_ok as [H1 H2 H3 _]. by constructor. Qed.

(** In the address space of the parent the two pages of the process are pages
    of the kernel's heap. *)
Lemma demo_collectable k t :
  view k = demo_proc_mem -> pgdir t = 0xc0100000 -> collectable k 0xc0101000 t.
Proof.
  intros Hv Ht. exists 0, 1. rewrite Hv, Ht. split; [done|]. split; [apply demo_proc_mem_ok|].
  split; (split; [split; [lia|vm_compute; discriminate]|split; [vm_compute; reflexivity|]]).
  - exists 0x200000. split; [vm_compute; reflexivity|]. split; [|vm_compute; discriminate].
    exists 0. split; [split; [lia|vm_compute; reflexivity]|vm_compute; reflexivity].
  - exists 0x201000. split; [vm_compute; reflexivity|]. split; [|vm_compute; discriminate].
    exists 1. split; [split; [lia|vm_compute; reflexivity]|vm_compute; reflexivity].
Qed.

(** C16: [sys_wait] returns the pid and the exit status of the first child that
    hangs and collects it: the child is out of both lists, its pid is free and
    the frames of its page directory and pcb are free again.  Without children
    it returns -1 and changes nothing; when no child hangs it blocks the caller
    and looks again when it is woken. *)
Theorem sys_wait_spec (k : kernel) (n f : nat) (tp : task_struct) :
  sched_ok k -> running k <> idle_thread k -> listed k -> tasks k !! running k = Some tp ->
  match hanging_child k (pid tp), some_child k (pid tp) with
  | Some c, _ => forall t, tasks k !! c = Some t -> pids_ok k -> c <> main_thread k -> pgdir t <> 0 -> 1 <= pid t <= 1024 ->
      collectable k c t -> exists k', sys_wait (S n) (S f) k = Ret (pid t, Some (exit_status t)) k' /\ collected k k' c t
  | None, None => sys_wait (S n) (S f) k = Ret (-1, None) k
  | None, Some _ => exists nxt rest k', sys_wait (S n) (S f) k = Switch k' (wait_tail n (S f) (intr_disable (eflags k)).1)
      /\ scheduled (blocking k TASK_WAITING tp) (set_status TASK_WAITING tp) nxt rest k' /\ nxt <> running k
  end.
Proof.
  intros Hok Hid Hl Htp. destruct (hanging_child k (pid tp)) as [c|] eqn:Eh.
  - intros t Ht Hp Hm Hpg Hq Hc. apply (sys_wait_collects n f k tp c t); try done.
    destruct Hok as [_ Hr]. unfold st_of in Hr. rewrite Htp in Hr. simpl in Hr. congruence.
  - destruct (some_child k (pid tp)) as [c|] eqn:Ec; [by apply (sys_wait_blocks n (S f) k tp c)|by apply (sys_wait_no_child n (S f) k tp)].
Qed.

Lemma sys_wait_spec_witness :
  let k := demo_family 0xc009e000 0x100000 TASK_HANGING TASK_RUNNING in
  exists k', sys_wait 1 1 k = Ret (3, Some 42) k' /\ collected k k' 0xc0101000 (demo_child TASK_HANGING).
Proof.
  intros k. assert (view k = demo_proc_mem) as Hv by (vm_compute; reflexivity).
  assert (sched_ok k) as Hok by (exact (demo_family_ok _ _ _ _ (or_intror (conj eq_refl (conj eq_refl (conj eq_refl eq_refl)))))).
  assert (tasks k !! running k = Some (demo_parent TASK_RUNNING)) as Ht by (vm_compute; reflexivity).
  assert (hanging_child k (pid (demo_parent TASK_RUNNING)) = Some 0xc0101000) as Hh by (vm_compute; reflexivity).
  assert (tasks k !! 0xc0101000 = Some (demo_child TASK_HANGING)) as Hc by (vm_compute; reflexivity).
  pose proof (sys_wait_spec k 0 0 _ Hok ltac:(done) (demo_family_listed _ _ _ _) Ht) as H. rewrite Hh in H.
  apply (H _ Hc); [by apply demo_family_pids|done|done|cbn; lia|by apply demo_collectable].
Defined.

(** C15: exiting and waiting meet.  A process that reaches the end of [sys_exit]
    while its parent sleeps in [sys_wait] hands the processor to the parent, and
    the parent's call then returns the pid and the exit status of that process
    and collects it. *)
Theorem exit_wakes_wait (k : kernel) (n f : nat) (st : intr_status) (p : Z) (t tp : task_struct) :
  sched_ok k -> running k <> idle_thread k -> running k <> main_thread k -> listed k -> pids_ok k ->
  tasks k !! running k = Some t -> running k ∈ thread_all_list k -> pgdir t <> 0 -> 1 <= pid t <= 1024 ->
  seq_traversal (passes (pid_check (parent_pid t)) k) (thread_all_list k) = Some p ->
  tasks k !! p = Some tp -> status tp = TASK_WAITING -> hanging_child k (pid tp) = None ->
  (forall k', hung_up k k' p -> collectable k' (running k) t) ->
  exists k' k2, exit_end k = Switch k' (k_intr_set_status (intr_disable (eflags k)).1) /\ hung_up k k' p
    /\ wait_tail (S n) (S f) st k' = Ret (pid t, Some (exit_status t)) k2 /\ collected k' k2 (running k) t.
Proof.
  intros Hok Hid Hm Hl Hp Ht Hin Hpg Hq Hfind Htp Hst Hno Hcol.
  destruct (exit_end_run k t p tp Hok Hid Hl Ht Hfind Htp Hst) as (k' & He & Hu).
  assert (p <> running k) as Hne.
  { intros ->. destruct Hok as [_ Hr]. unfold st_of in Hr. rewrite Htp in Hr. simpl in Hr. congruence. }
  pose proof (seq_traversal_Some _ _ _ Hfind) as [Hpin Hpass]. destruct (Hl p Hpin) as [Hp0 _].
  unfold passes, pid_check in Hpass. rewrite Htp in Hpass. apply Z.eqb_eq in Hpass.
  destruct (hung_up_found k k' p tp t Hu Hl Htp Hne Ht (eq_sym Hpass) Hin Hno) as [Hl' Hh'].
  destruct (hu_tasks _ _ _ Hu p tp Htp) as (s1 & n1 & Htp'). destruct (hu_tasks _ _ _ Hu _ t Ht) as (s2 & n2 & Ht').
  pose proof (hu_status _ _ _ Hu p) as Hsp. rewrite decide_True in Hsp by done. unfold st_of in Hsp. rewrite Htp' in Hsp. injection Hsp as ->.
  rewrite <- (hu_running _ _ _ Hu) in Htp' at 1.
  destruct (wait_tail_run n f st k' (set_status TASK_RUNNING (set_ticks n1 tp)) (running k) (set_status s2 (set_ticks n2 t)))
    as (k2 & Hw & [? ? ? ? ? ? ? ? ? ?]); try done.
  - by apply (hung_up_pids k k' p).
  - by rewrite (hu_main _ _ _ Hu).
  - by apply Hcol.
  - exists k', k2. split; [done|]. split; [done|]. split; [exact Hw|]. by constructor.
Qed.

Lemma exit_wakes_wait_witness :
  let k := demo_family 0xc0101000 0x200000 TASK_RUNNING TASK_WAITING in
  exists k' k2, exit_end k = Switch k' (k_intr_set_status (intr_disable (eflags k)).1) /\ hung_up k k' 0xc009e000
    /\ wait_tail 1 1 INTR_ON k' = Ret (3, Some 42) k2 /\ collected k' k2 0xc0101000 (demo_child TASK_RUNNING).
Proof.
  intros k. apply (exit_wakes_wait k 0 0 INTR_ON 0xc009e000 (demo_child TASK_RUNNING) (demo_parent TASK_WAITING)); try done.
  - exact (demo_family_ok _ _ _ _ (or_introl (conj eq_refl (conj eq_refl (conj eq_refl eq_refl))))).
  - apply demo_family_listed.
  - by apply demo_family_pids.
  - change (0xc0101000 ∈ [0xc009e000; 0xc0101000; 0xc009d000]). set_solver.
  - intros k' Hu. apply demo_collectable; [|done].
    destruct (hu_kmem _ _ _ Hu) as [c Hc]. destruct (hu_tasks _ _ _ Hu 0xc009e000 (demo_parent TASK_WAITING) eq_refl) as (s & n & Ht).
    destruct (hu_ok _ _ _ Hu) as [[_ _ _ _ _ _ (D & HD & Hd)] _]. rewrite (hu_running _ _ _ Hu), Hc in HD.
    destruct (Hd _ _ Ht) as [H0 _]. rewrite (H0 eq_refl) in HD. cbn in HD. rewrite HD in Hc.
    unfold view. rewrite Hc, (hu_running _ _ _ Hu), Ht. vm_compute. reflexivity.
Defined.
