(* ===== verification/Process.v ===== *)
(** * Process: creating user processes, userprog/process.c

    The page directory of a process, its pool of virtual addresses, its first
    stack and [process_execute].  [page_dir_activate] and [process_activate] are
    in Sched. *)
From S2P Require Import Prelude Bitmap Interrupt DList Paging Pages Memory Kernel View Sched Sync Heap Thread Tss Wait.

(** ** Definitions *)

Definition default_prio : Z := 31.

Definition USER_STACK3_VADDR : Z := 0xc0000000 - 0x1000.

Definition USER_VADDR_START : Z := 0x8048000.

Definition EFLAGS_MBS : Z := Z.shiftl 1 1.

Definition EFLAGS_IF_1 : Z := Z.shiftl 1 9.

Definition EFLAGS_IOPL_0 : Z := Z.shiftl 0 12.

(** [memcpy(dst, src, 4 * n)] of words. *)
Fixpoint copy_words (n : nat) (dst src : Z) : st mem unit :=
  match n with
  | O => mret tt
  | S n' => x ← load32 src; _ ← store32 dst x; copy_words n' (dst + 4) (src + 4)
  end.

(** The message on failure is not modelled; the result is NULL then. *)
Definition create_page_dir (fuel : nat) : proc kernel Z :=
  page_dir_vaddr ← get_kernel_pages fuel 1;
  if page_dir_vaddr =? 0 then mret 0
  else
    _ ← in_mem (copy_words 256 (u32 (page_dir_vaddr + 0x300 * 4)) (0xfffff000 + 0x300 * 4));
    new_page_dir_phy_addr ← in_mem (addr_v2p page_dir_vaddr);
    _ ← in_mem (store32 (u32 (page_dir_vaddr + 4 * 1023)) (Z.lor (Z.lor (Z.lor new_page_dir_phy_addr PG_US_U) PG_RW_W) PG_P_1));
    mret page_dir_vaddr.

(** The length of the bitmap of user addresses, and its pages. *)
Definition user_bitmap_bytes : Z := (0xc0000000 - USER_VADDR_START) / PG_SIZE / 8.

Definition user_bitmap_pages : Z := DIV_ROUND_UP user_bitmap_bytes PG_SIZE.

(** The pages at [bits] have been cleared; the page behind a NULL pointer is not
    mapped. *)
Definition create_user_vaddr_bitmap (fuel : nat) (user_prog : Z) : proc kernel unit :=
  bits ← get_kernel_pages fuel user_bitmap_pages;
  if bits =? 0 then fail EFault
  else
    b ← lift (bitmap_init (Bitmap user_bitmap_bytes (replicate (Z.to_nat (user_bitmap_pages * PG_SIZE)) 0)));
    update_task user_prog (fun t => set_vaddr_bits bits (set_userprog_vaddr (VirtualAddr b USER_VADDR_START) t)).

(** [kernel_thread] and [start_process_addr] are addresses of code. *)
Definition process_execute (fuel : nat) (kernel_thread start_process_addr filename : Z) (nm : list Z) : proc kernel unit :=
  thread ← get_kernel_pages fuel 1;
  _ ← init_thread fuel thread nm default_prio;
  _ ← create_user_vaddr_bitmap fuel thread;
  _ ← thread_create kernel_thread thread start_process_addr filename;
  dir ← create_page_dir fuel;
  _ ← update_task thread (set_pgdir dir);
  _ ← update_task thread (set_u_block_desc block_desc_init);
  old_status ← k_intr_disable;
  _ ← enlist_ready thread;
  _ ← enlist_all thread;
  k_intr_set_status old_status.

(** Storing the words of a list from an address on. *)
Fixpoint store_words (a : Z) (ws : list Z) : st mem unit :=
  match ws with [] => mret tt | w :: r => _ ← store32 (u32 a) w; store_words (a + 4) r end.

(** The stack frame [start_process] leaves to [intr_exit]; the result is its
    address.  The words of struct intr_stack from [edi] to [ds], then from [eip]
    on: [vec_no] and [err_code] are not set. *)
Definition start_process (fuel : nat) (filename_ : Z) : proc kernel Z :=
  k ← get;
  let cur := running k in
  _ ← update_task cur (fun t => set_self_kstack (u32 (self_kstack t + 4 * thread_stack_size)) t);
  t ← task cur;
  let proc_stack := self_kstack t in
  _ ← in_mem (store_words (proc_stack + 4) [0; 0; 0; 0; 0; 0; 0; 0; 0; SELECTOR_U_DATA; SELECTOR_U_DATA; SELECTOR_U_DATA]);
  _ ← in_mem (store_words (proc_stack + 56) [filename_; SELECTOR_U_CODE; Z.lor (Z.lor EFLAGS_IOPL_0 EFLAGS_MBS) EFLAGS_IF_1]);
  esp ← get_a_page fuel PF_USER USER_STACK3_VADDR;
  _ ← in_mem (store_words (proc_stack + 68) [u32 (esp + PG_SIZE); SELECTOR_U_DATA]);
  mret proc_stack.

(** ** Kernel pages *)

Lemma bind_Ret_inv {S A B} (m : proc S A) (f : A -> proc S B) s b s' :
  (m ≫= f) s = Ret b s' -> exists a s1, m s = Ret a s1 /\ f a s1 = Ret b s'.
Proof. rewrite run_bind. destruct (m s) as [a s1| |]; [by exists a, s1|done|done]. Qed.

(** [m'] is [m] with [n] new zeroed kernel pages from [v] on. *)
Record new_pages (n : Z) (m m' : mem) (v : Z) : Prop := {
  np_mid : exists m1, allocated PF_KERNEL n m m1 v /\ same_tables m1 m';
  np_zero : forall j, 0 <= j < n * 1024 -> load32 (v + 4 * j) m' = Ok (0, m')
}.

(** Why there may be no pages. *)
Definition kernel_pages_refused (n : Z) (m : mem) : Prop :=
  forall s, 0 <= s -> s + n <= va_bits (kernel_vaddr m) + 1 -> exists j, s <= j < s + n /\ va_used (kernel_vaddr m) j = true.

Definition kernel_memory_out (n : Z) (m : mem) : Prop :=
  (forall j, 0 <= j < va_bits (kernel_vaddr m) -> va_used (kernel_vaddr m) j = true) \/ ~ enough n PF_KERNEL m.

Lemma view_held p k : view (held p k) = view k.
Proof. done. Qed.

Lemma with_view_twice m1 m2 k : with_view m2 (with_view m1 k) = with_view m2 k.
Proof. reflexivity. Qed.

Lemma with_view_same k t : tasks k !! running k = Some t -> with_view (view k) k = k.
Proof. intros Ht. unfold with_view, view. rewrite Ht. cbn. destruct k as [? ? ? ? ? ? ? ? ? ? m ? ? ? ? ?], m. done. Qed.

Lemma allocated_user_va n m m' v : allocated PF_KERNEL n m m' v -> cur_vaddr m' = cur_vaddr m.
Proof. intros Ha. exact (al_other_va _ _ _ _ _ Ha PF_USER ltac:(done)). Qed.

(** An address in the pages. *)
Lemma allocated_addr n m m' v j :
  space_ok m -> allocated PF_KERNEL n m m' v -> 0 <= j < n * 1024 -> mapped_addr m' (v + 4 * j).
Proof.
  intros Hs Ha Hj. destruct (al_pages _ _ _ _ _ Ha (j / 1024)) as (Hp & _ & fr & Hf & _); [lia|].
  exists (v + 4096 * (j / 1024)), fr. split; [done|]. split; [lia|]. split; [done|].
  by apply (allocated_frame _ _ _ _ _ (j / 1024) fr Hs Ha); [lia|].
Qed.

Lemma get_kernel_pages_run n f k t :
  tasks k !! running k = Some t -> running k <> 0 -> lock_free k kernel_pool_lock -> heap_ok (view k) -> 1 <= n < 3840 ->
  (exists v m', get_kernel_pages (S f) n k = Ret v (with_view m' k) /\ v <> 0 /\ new_pages n (view k) m' v)
  \/ (get_kernel_pages (S f) n k = Ret 0 k /\ kernel_pages_refused n (view k))
  \/ (get_kernel_pages (S f) n k = Err EPanic /\ kernel_memory_out n (view k)).
Proof.
  intros Ht Hr Hlk Hh Hn. unfold get_kernel_pages. set (kh := held kernel_pool_lock k).
  assert (tasks kh !! running kh = Some t) as Hth by done.
  assert (forall m x, lock_release kernel_pool_lock (with_view m (with_view x kh)) = Ret tt (with_view m k)) as Hrel.
  { intros m x. rewrite (unlock_run k _ _ Hlk) by done. unfold with_view, set_semas, set_locks, set_kmem, kh, held, with_lock, with_sema. cbn.
    reflexivity. }
  assert (cur_vaddr (view k) = userprog_vaddr t) as Hcv by by apply cur_vaddr_view.
  destruct (malloc_page_spec PF_KERNEL n (view k) Hh Hn) as [(v & m1 & Hm & Hv & Hal)|[[Hm Hno]|[Hm Hwhy]]].
  - left. pose proof (allocated_user_va _ _ _ _ Hal) as Hcv1.
    destruct (memset0_run (Z.to_nat (n * PG_SIZE / 4)) v m1) as (ph & Hms & Hs & Hz & _); [apply Hal| |].
    { intros j Hj. apply (allocated_addr n (view k)); [apply Hh|done|]. unfold PG_SIZE in Hj. lia. }
    set (m2 := with_phys m1 ph) in *. exists v, m2. split; [|split; [done|]].
    + prun (acquire_run f k kernel_pool_lock Hlk Hr). fold kh.
      prun (in_mem_run (malloc_page PF_KERNEL n) kh t v m1 Hth Hm (eq_trans Hcv1 Hcv)). rewrite (proj2 (Z.eqb_neq v 0) Hv). cbn [negb].
      unfold clear. rewrite (u32_id (n * PG_SIZE)) by (unfold PG_SIZE; lia).
      assert (view (with_view m1 kh) = m1) as Hvw by (apply (view_with_view m1 kh t Hth); congruence).
      assert (memset0 (Z.to_nat (n * PG_SIZE / 4)) v (view (with_view m1 kh)) = Ok (tt, m2)) as Hms' by (by rewrite Hvw).
      prun (in_mem_run _ (with_view m1 kh) t tt m2 Hth Hms' (eq_trans Hcv1 Hcv)). prun (Hrel m2 m1). done.
    + constructor; [by exists m1|]. intros j Hj. pose proof (allocated_addr n (view k) m1 v j (ho_space _ Hh) Hal Hj) as Hma. unfold load32.
      rewrite (same_translate m1 m2 _ Hs) by (by apply (mapped_addr_range m1)). destruct (mapped_addr_translate m1 _ Hma) as [a Ha]. rewrite Ha.
      do 2 f_equal. apply (Hz j a); [unfold PG_SIZE; lia|done].
  - right; left. split; [|exact Hno]. prun (acquire_run f k kernel_pool_lock Hlk Hr). fold kh.
    prun (in_mem_run (malloc_page PF_KERNEL n) kh t 0 (view k) Hth Hm Hcv). change (negb (0 =? 0)) with false. cbv iota. pret.
    prun (Hrel (view k) (view k)). by rewrite (with_view_same k t Ht).
  - right; right. split.
    + prun (acquire_run f k kernel_pool_lock Hlk Hr). fold kh. by rewrite (bind_Err _ _ _ _ (in_mem_bad (malloc_page PF_KERNEL n) kh t EPanic Hth Hm)).
    + destruct Hwhy as [Hall|[[? _]|Hno]]; [by left|done|by right].
Qed.

(** ** The page directory of a process *)

(** Copying words into the page [v] at frame [f] from the words of frame [g]. *)
Lemma copy_words_run n v f s g i m :
  heap_ok m -> page v -> translate m v = Some f -> f <> cr3 m -> f <> g -> aligned g -> 0 <= i -> i + Z.of_nat n <= 1024 ->
  (forall j, i <= j < i + Z.of_nat n -> 0 <= s + 4 * j < 2 ^ 32 /\ translate m (s + 4 * j) = Some (g + 4 * j)) ->
  exists ph, copy_words n (v + 4 * i) (s + 4 * i) m = Ok (tt, with_phys m ph) /\ same_tables m (with_phys m ph)
    /\ (forall j, i <= j < i + Z.of_nat n -> word ph (f + 4 * j) = word (phys m) (g + 4 * j))
    /\ (forall a, (forall j, i <= j < i + Z.of_nat n -> a <> f + 4 * j) -> word ph a = word (phys m) a).
Proof.
  revert i m. induction n as [|n IH]; intros i m Hh Hv Hf Hcr Hne Hg Hi Hn Hsrc.
  { exists (phys m). split; [by destruct m|]. split; [by destruct m|]. split; [lia|done]. }
  destruct (Hsrc i ltac:(lia)) as [_ Ht]. pose proof (page_frame_aligned m v f Hv Hf) as Haf.
  destruct (store_page_run m v (4 * i) f (word (phys m) (g + 4 * i)) Hh Hv Hf Hcr ltac:(lia)) as [Hst Hs].
  set (m1 := with_phys m _) in *.
  assert (load32 (s + 4 * i) m = Ok (word (phys m) (g + 4 * i), m)) as Hl by (unfold load32; by rewrite Ht).
  assert (forall j, 0 <= j < 1024 -> word (phys m1) (g + 4 * j) = word (phys m) (g + 4 * j)) as Hkeep.
  { intros j Hj. unfold m1. cbn [phys with_phys]. rewrite word_insert, decide_False; [done|].
    intros Heq. by destruct (frames_apart f g i j Haf Hg) as [? _]; [lia|lia|done|]. }
  destruct (IH (i + 1) m1 (heap_ok_same _ _ Hh Hs) Hv) as (ph & Hrun & Hs2 & Hw & Hout); try done; try lia.
  { by rewrite (same_page m m1). }
  { intros j Hj. destruct (Hsrc j ltac:(lia)) as [Hr Htj]. split; [done|]. by rewrite (same_translate m m1). }
  exists ph. cbn [copy_words]. run Hl. run Hst. replace (v + 4 * i + 4) with (v + 4 * (i + 1)) by lia.
  replace (s + 4 * i + 4) with (s + 4 * (i + 1)) by lia. split; [exact Hrun|]. split; [by transitivity m1|]. split.
  - intros j Hj. destruct (decide (i = j)) as [<-|Hij].
    + rewrite Hout by lia. unfold m1. cbn [phys with_phys]. by rewrite word_insert, decide_True.
    + rewrite Hw by lia. apply Hkeep. lia.
  - intros a Ha. rewrite Hout by (intros j Hj; apply Ha; lia). unfold m1. cbn [phys with_phys].
    rewrite word_insert, decide_False; [done|]. specialize (Ha i). lia.
Qed.

(** The directory at frame [f] has the entries [i .. i + n) of the current one. *)
Lemma copy_dir_run n v f i m :
  heap_ok m -> page v -> translate m v = Some f -> f <> cr3 m -> 0 <= i -> i + Z.of_nat n <= 1024 ->
  exists ph, copy_words n (v + 4 * i) (0xfffff000 + 4 * i) m = Ok (tt, with_phys m ph) /\ same_tables m (with_phys m ph)
    /\ (forall j, i <= j < i + Z.of_nat n -> word ph (f + 4 * j) = dir_entry_at m j)
    /\ (forall a, (forall j, i <= j < i + Z.of_nat n -> a <> f + 4 * j) -> word ph a = word (phys m) a).
Proof.
  intros Hh Hv Hf Hcr Hi Hn. pose proof (pt_self _ (so_pt _ (ho_space _ Hh))) as Hself. pose proof Hself as (Ha & Hp & Hfr).
  apply (copy_words_run n v f 0xfffff000 (cr3 m) i m); try done.
  intros j Hj. split; [lia|]. replace (0xfffff000 + 4 * j) with (0xffc00000 + 4096 * 1023 + 4 * j) by lia.
  rewrite translate_window, Hp, Hfr by (done || lia). done.
Qed.

(** [f] is a page directory that has the kernel's half of the current one, and
    nothing else. *)
Record process_dir (m : mem) (f : Z) : Prop := {
  pd_self : self_map (with_cr3 m f);
  pd_entries : forall i, 0 <= i < 1023 -> word (phys m) (f + 4 * i) = if decide (i < 768) then 0 else dir_entry_at m i;
  pd_kernel : forall a, 0xc0000000 <= a < window -> translate (with_cr3 m f) a = translate m a;
  pd_user : forall a, 0 <= a < 0xc0000000 -> translate (with_cr3 m f) a = None
}.

Lemma process_dir_intro m f :
  aligned f -> word (phys m) (f + 4 * 1023) = entry_for f ->
  (forall i, 0 <= i < 1023 -> word (phys m) (f + 4 * i) = if decide (i < 768) then 0 else dir_entry_at m i) -> process_dir m f.
Proof.
  intros Ha Hlast He.
  assert (forall i, 768 <= i < 1023 -> word (phys m) (f + 4 * i) = dir_entry_at m i) as Hk by (intros i Hi; by rewrite He, decide_False by lia).
  assert (forall i, 0 <= i < 768 -> word (phys m) (f + 4 * i) = 0) as Hu by (intros i Hi; by rewrite He, decide_True by lia).
  constructor; [|done| |].
  - unfold self_map. cbn. rewrite Hlast, entry_present, entry_frame by done. done.
  - intros a Hr. unfold window in Hr. assert (pde_of (with_cr3 m f) a = pde_of m a) as Hpe.
    { unfold pde_of. cbn. rewrite Hk by (rewrite PDE_IDX_eq by lia; lia). done. }
    unfold translate. assert (pte_of (with_cr3 m f) a = pte_of m a) as -> by (unfold pte_of; by rewrite Hpe). by rewrite Hpe.
  - intros a Hr. unfold translate. assert (pde_of (with_cr3 m f) a = 0) as ->; [|done].
    unfold pde_of. cbn. apply Hu. rewrite PDE_IDX_eq by lia. lia.
Qed.

(** Filling in the directory at the new page [v]. *)
Definition fill_dir (v : Z) : st mem unit :=
  _ ← copy_words 256 (u32 (v + 0x300 * 4)) (0xfffff000 + 0x300 * 4);
  p ← addr_v2p v;
  store32 (u32 (v + 4 * 1023)) (Z.lor (Z.lor (Z.lor p PG_US_U) PG_RW_W) PG_P_1).

Lemma fill_dir_run m v f :
  heap_ok m -> page v -> translate m v = Some f -> f <> cr3 m -> aligned f -> (forall j, 0 <= j < 1024 -> word (phys m) (f + 4 * j) = 0) ->
  exists m', fill_dir v m = Ok (tt, m') /\ same_tables m m' /\ process_dir m' f.
Proof.
  intros Hh Hv Hf Hcr Ha Hz. pose proof (page_range v Hv) as Hr. unfold window in Hr. destruct Ha as [Hfr Hfa]. pose proof Hv as [_ Hva].
  pose proof (u32_id (v + 0x300 * 4) ltac:(lia)) as Hu1. pose proof (u32_id (v + 4 * 1023) ltac:(lia)) as Hu2.
  destruct (copy_dir_run 256 v f 768 m Hh Hv Hf Hcr ltac:(lia) ltac:(lia)) as (ph & Hcp & Hs1 & Hw & Hout).
  set (m1 := with_phys m ph) in *. pose proof (heap_ok_same _ _ Hh Hs1) as Hh1.
  assert (translate m1 v = Some f) as Hf1 by (rewrite (same_translate m m1) by (done || lia); exact Hf).
  destruct (store_page_run m1 v (4 * 1023) f (entry_for f) Hh1 Hv Hf1 Hcr ltac:(lia)) as [Hst Hs2].
  set (m2 := with_phys m1 _) in *. exists m2. split; [|split; [by transitivity m1|]].
  - unfold fill_dir. rewrite Hu1, Hu2. replace (v + 0x300 * 4) with (v + 4 * 768) by lia. run Hcp.
    run (addr_v2p_spec m1 v f (pt_self _ (so_pt _ (ho_space _ Hh1))) ltac:(lia) Hf1). exact Hst.
  - assert (forall j, 0 <= j < 1023 -> word (phys m2) (f + 4 * j) = word ph (f + 4 * j)) as Hlow.
    { intros j Hj. unfold m2. cbn [phys with_phys]. by rewrite word_insert, decide_False by lia. }
    apply process_dir_intro; [done| |].
    + unfold m2. cbn [phys with_phys]. by rewrite word_insert, decide_True by done.
    + intros j Hj. rewrite Hlow by lia. destruct (decide (j < 768)).
      * rewrite Hout by lia. apply Hz. lia.
      * rewrite Hw by lia. symmetry. apply same_dir; [by transitivity m1|lia].
Qed.

(** The new page of the directory, as [fill_dir] needs it. *)
Lemma new_page_frame m m' v :
  space_ok m -> new_pages 1 m m' v -> exists m1 f, allocated PF_KERNEL 1 m m1 v /\ same_tables m1 m' /\ heap_ok m' /\ page v
    /\ translate m' v = Some f /\ f <> cr3 m' /\ aligned f /\ (forall j, 0 <= j < 1024 -> word (phys m') (f + 4 * j) = 0).
Proof.
  intros Hsp [(m1 & Hal & Hs) Hz]. destruct (al_pages _ _ _ _ _ Hal 0 ltac:(lia)) as (Hv & _ & f & Hf & Hfree & _).
  replace (v + 4096 * 0) with v in Hv, Hf by lia. pose proof (page_range v Hv) as Hr. unfold window in Hr.
  pose proof (heap_ok_same _ _ (al_ok _ _ _ _ _ Hal) Hs) as Hh.
  assert (translate m' v = Some f) as Hf' by (rewrite (same_translate m1 m') by (done || lia); exact Hf).
  pose proof (page_frame_aligned m1 v f Hv Hf) as Haf.
  pose proof (allocated_frame _ _ _ _ _ 0 f Hsp Hal ltac:(lia)) as Hcr. replace (v + 4096 * 0) with v in Hcr by lia.
  exists m1, f. do 5 (split; [done|]). split; [rewrite (sm_cr3 _ _ Hs); by apply Hcr|]. split; [done|].
  intros j Hj. specialize (Hz j ltac:(lia)). unfold load32 in Hz. rewrite (translate_offset m' v (4 * j)), Hf' in Hz by (done || lia).
  cbn in Hz. congruence.
Qed.

Lemma create_page_dir_run f k t :
  tasks k !! running k = Some t -> running k <> 0 -> lock_free k kernel_pool_lock -> heap_ok (view k) ->
  (exists v m1 m' fr, create_page_dir (S f) k = Ret v (with_view m' k) /\ v <> 0
     /\ allocated PF_KERNEL 1 (view k) m1 v /\ same_tables m1 m' /\ translate m' v = Some fr /\ process_dir m' fr)
  \/ (create_page_dir (S f) k = Ret 0 k /\ kernel_pages_refused 1 (view k))
  \/ (create_page_dir (S f) k = Err EPanic /\ kernel_memory_out 1 (view k)).
Proof.
  intros Ht Hr Hlk Hh. unfold create_page_dir.
  destruct (get_kernel_pages_run 1 f k t Ht Hr Hlk Hh ltac:(lia)) as [(v & m2 & Hg & Hv & Hn)|[[Hg Hno]|[Hg Hwhy]]].
  - left. destruct (new_page_frame _ _ _ (ho_space _ Hh) Hn) as (m1 & fr & Hal & Hs & Hh2 & Hp & Hf & Hcr & Ha & Hz).
    destruct (fill_dir_run m2 v fr Hh2 Hp Hf Hcr Ha Hz) as (m3 & Hfill & Hs3 & Hd). exists v, m1, m3, fr.
    pose proof (page_range v Hp) as Hpr. unfold window in Hpr.
    split; [|split; [done|]; split; [done|]; split; [by transitivity m2|]; split; [|done]].
    + prun Hg. rewrite (proj2 (Z.eqb_neq v 0) Hv).
      assert (cur_vaddr m2 = userprog_vaddr t) as Hcv.
      { rewrite (sm_uva _ _ Hs), (allocated_user_va _ _ _ _ Hal). by apply cur_vaddr_view. }
      rewrite <- (view_with_view m2 k t Ht Hcv) in Hfill.
      pose proof (in_mem_run (fill_dir v) (with_view m2 k) t tt m3 Ht Hfill (eq_trans (sm_uva _ _ Hs3) Hcv)) as Hrun.
      unfold fill_dir in Hrun. rewrite in_mem_bind in Hrun. apply bind_Ret_inv in Hrun as ([] & k1 & H1 & Hrun).
      rewrite in_mem_bind in Hrun. apply bind_Ret_inv in Hrun as (p & k2 & H2 & H3). prun H1. prun H2. by prun H3.
    + rewrite (same_translate m2 m3) by (done || lia). exact Hf.
  - right; left. split; [|done]. by prun Hg.
  - right; right. split; [|done]. by rewrite (bind_Err _ _ _ _ Hg).
Qed.

(** ** The address space of the new process *)

Section Space.
Context (m : mem) (v f : Z) (va : virtual_addr).
Hypothesis Hh : heap_ok m.
Hypothesis Hv : page v /\ vaddr_start (kernel_vaddr m) <= v.
Hypothesis Hf : translate m v = Some f /\ f <> cr3 m.
Hypothesis Hd : process_dir m f.

Lemma process_entry i : 0 <= i < 1023 ->
  dir_entry_at (with_cr3 m f) i = if decide (i < 768) then 0 else dir_entry_at m i.
Proof. intros Hi. by apply (pd_entries _ _ Hd). Qed.

Lemma process_present i : 0 <= i < 1023 -> present (dir_entry_at (with_cr3 m f) i) = true ->
  768 <= i /\ dir_entry_at (with_cr3 m f) i = dir_entry_at m i /\ present (dir_entry_at m i) = true.
Proof. intros Hi. rewrite process_entry by done. destruct (decide (i < 768)); [done|]. split; [lia|done]. Qed.

Lemma process_self : dir_entry_at (with_cr3 m f) 1023 = word (phys m) (f + 4 * 1023) /\ frame (dir_entry_at (with_cr3 m f) 1023) = f.
Proof. split; [done|]. apply (pd_self _ _ Hd). Qed.

Lemma process_frame_no_table : ~ table_frame m f.
Proof. destruct Hf as [Ht Hn]. intros Hx. apply Hn. by apply (so_mapped _ (ho_space _ Hh) v f (proj1 Hv) Ht). Qed.

Lemma process_tables g : table_frame (with_cr3 m f) g ->
  g = f \/ exists i, 768 <= i < 1023 /\ present (dir_entry_at m i) = true /\ g = frame (dir_entry_at m i).
Proof.
  intros [->|(i & Hi & Hp & ->)]; [by left|]. destruct (decide (i = 1023)) as [->|Hne]; [left; apply process_self|right].
  destruct (process_present i ltac:(lia) Hp) as (Hlo & He & Hp'). exists i. rewrite He. split; [lia|done].
Qed.

Lemma process_fresh g : free_frame m g -> ~ table_frame (with_cr3 m f) g.
Proof.
  intros Hg [->|(i & Hi & Hp & ->)]%process_tables.
  - by destruct (so_mapped _ (ho_space _ Hh) v f (proj1 Hv) (proj1 Hf)).
  - apply (so_fresh _ (ho_space _ Hh) _ Hg). right. exists i. split; [lia|done].
Qed.

Lemma process_pt : pt_ok (with_cr3 m f).
Proof.
  pose proof (so_pt _ (ho_space _ Hh)) as [Hself Hp Ht Hds Hfr]. constructor; [apply Hd|done| | |].
  - intros i Hi Hpr. destruct (process_present i Hi Hpr) as (_ & -> & Hpr'). cbn [cr3 with_cr3]. intros He.
    apply process_frame_no_table. right. exists i. split; [lia|]. by rewrite He.
  - intros i j Hi Hj Hpi Hpj. destruct (process_present i ltac:(lia) Hpi) as (_ & -> & Hpi'), (process_present j ltac:(lia) Hpj) as (_ & -> & Hpj').
    by apply Hds.
  - intros k Hk Hu. assert (free_frame m (pool_frame (kernel_pool m) k)) as Hg by (exists PF_KERNEL, k; done).
    split; [intros He; apply (process_fresh _ Hg); by left|]. intros i Hi Hpr He. apply (process_fresh _ Hg). right. by exists i.
Qed.

Lemma process_space : space_ok (with_cr3 m f).
Proof.
  pose proof (ho_space _ Hh) as [Hpt Hu Hdj Hfresh Hmap Hinj].
  assert (forall w g, page w -> translate (with_cr3 m f) w = Some g -> 0xc0000000 <= w /\ translate m w = Some g) as Htr.
  { intros w g Hw Hg. pose proof (page_range w Hw). destruct (decide (w < 0xc0000000)).
    - rewrite (pd_user _ _ Hd) in Hg by lia. done.
    - split; [lia|]. by rewrite <- (pd_kernel _ _ Hd) by lia. }
  constructor; [apply process_pt|done|done|exact process_fresh| |].
  - intros w g Hw Hg. destruct (Htr w g Hw Hg) as [_ Hg']. destruct (Hmap w g Hw Hg') as [Hn Hx]. split; [done|].
    intros [->|(i & Hi & Hp & ->)]%process_tables.
    + cbn. split; [done|]. rewrite (Hinj w v f Hw (proj1 Hv) Hg' (proj1 Hf)). apply Hv.
    + destruct Hx as [Hc _]; [right; exists i; split; [lia|done]|]. by destruct (pt_tables _ Hpt i ltac:(lia) Hp).
  - intros w w' g Hw Hw' Hg Hg'. apply (Hinj w w' g); [done|done| |]; by apply Htr.
Qed.

(** With a pool of virtual addresses below the kernel's, page allocation works in
    the new address space. *)
Lemma process_heap : K_HEAP_START <= vaddr_start (kernel_vaddr m) -> va_ok va -> va_page va (va_bits va) <= 0xc0000000 ->
  heap_ok (with_cur_vaddr (with_cr3 m f) va).
Proof.
  unfold K_HEAP_START. intros Hk Hva Hend. pose proof process_space as Hs. pose proof Hs as [_ Hpu Hdj _ _ _].
  constructor; [|apply Hh| | |].
  - apply (space_ok_fewer (with_cr3 m f)); done || apply process_pt.
  - intros []; [apply (ho_va _ Hh PF_KERNEL)|done].
  - intros pf j Hj Hu. pose proof (vo_start _ Hva) as [Hst _].
    assert (translate (with_cur_vaddr (with_cr3 m f) va) (va_page (va_of pf (with_cur_vaddr (with_cr3 m f) va)) j)
      = translate (with_cr3 m f) (va_page (va_of pf (with_cur_vaddr (with_cr3 m f) va)) j)) as -> by done.
    destruct pf; cbn [va_of with_cur_vaddr with_cr3 kernel_vaddr cur_vaddr] in *.
    + left. pose proof (page_range _ (va_page_ok _ j (ho_va _ Hh PF_KERNEL) Hj)) as Hr. rewrite (pd_kernel _ _ Hd) by (cbn [va_of] in Hr; unfold va_page in *; lia).
      destruct (ho_free _ Hh PF_KERNEL j Hj Hu) as [?|(? & _)]; done.
    + destruct (decide (va_page va j < 0xc0000000)); [left; apply (pd_user _ _ Hd); unfold va_page in *; lia|].
      right. split; [done|]. unfold va_page in *. lia.
  - cbn. unfold va_page in *. lia.
Qed.
End Space.

(** The pool that [create_user_vaddr_bitmap] makes. *)
Definition process_pool : virtual_addr :=
  VirtualAddr (Bitmap user_bitmap_bytes (replicate (Z.to_nat (user_bitmap_pages * PG_SIZE)) 0)) USER_VADDR_START.

Lemma process_pool_sizes : user_bitmap_bytes = 94199 /\ user_bitmap_pages = 23 /\ USER_VADDR_START = 0x8048000.
Proof. done. Qed.

Lemma process_pool_ok : va_ok process_pool /\ va_page process_pool (va_bits process_pool) <= 0xc0000000.
Proof.
  destruct process_pool_sizes as (H1 & H2 & H3). unfold process_pool, va_page, va_bits, bm_bits. cbn [vaddr_start vaddr_bitmap btmp_bytes_len].
  rewrite H1, H2, H3. split; [|lia]. constructor.
  - constructor; unfold bm_bits; cbn [bits btmp_bytes_len vaddr_bitmap]; [rewrite length_replicate; unfold PG_SIZE; lia|lia|].
    apply Forall_replicate. lia.
  - cbn. lia.
  - unfold va_page, va_bits, bm_bits, window. cbn [vaddr_start vaddr_bitmap btmp_bytes_len]. lia.
Qed.

(** ** A kernel that makes a process *)

Definition demo_maker : kernel :=
  set_locks (<[kernel_pool_lock := Lock 0 0]> ∅) (set_semas (<[lock_sema kernel_pool_lock := Semaphore 1 []]> ∅)
    (set_tasks {[0xc009e000 := demo_parent TASK_RUNNING]} demo_kernel)).

Lemma demo_maker_view : view demo_maker = demo_mem.
Proof. reflexivity. Qed.

Lemma demo_maker_lock : lock_free demo_maker kernel_pool_lock.
Proof. split; reflexivity. Qed.

Lemma demo_maker_gets_page :
  match create_page_dir 1 demo_maker with Ret v _ => negb (v =? 0) | _ => false end = true.
Proof. vm_compute. reflexivity. Qed.

(** ** Properties *)

(** C25: [create_page_dir] makes a page directory of its own for a process.  The
    new page is one free page of the kernel pool; loaded into cr3 it maps itself
    into the last four megabytes, translates every kernel address as the
    directory in use does, and maps no user address.  With the pool of addresses
    of a new process the invariant of the allocator holds in the new address
    space, so that pages can be allocated there.  Nothing else changes: no
    other page is moved and the invariant holds in the old address space.
    NULL means that no free run of one virtual page exists, a panic that the
    virtual bitmap is full or that there is no frame left. *)
Theorem create_page_dir_shares_kernel (f : nat) (k : kernel) (t : task_struct) :
  tasks k !! running k = Some t -> running k <> 0 -> lock_free k kernel_pool_lock -> heap_ok (view k) ->
  K_HEAP_START <= vaddr_start (kernel_vaddr (kmem k)) ->
  (exists v m fr, create_page_dir (S f) k = Ret v (with_view m k) /\ page v /\ translate (view k) v = None
     /\ translate m v = Some fr /\ process_dir m fr /\ heap_ok m
     /\ heap_ok (with_cur_vaddr (with_cr3 m fr) process_pool)
     /\ forall v', page v' -> v' <> v -> translate m v' = translate (view k) v')
  \/ (create_page_dir (S f) k = Ret 0 k /\ kernel_pages_refused 1 (view k))
  \/ (create_page_dir (S f) k = Err EPanic /\ kernel_memory_out 1 (view k)).
Proof.
  intros Ht Hr Hlk Hh Hks. destruct (create_page_dir_run f k t Ht Hr Hlk Hh) as [(v & m1 & m & fr & Hc & Hv & Hal & Hs & Hf & Hd)|H]; [left|by right].
  destruct (al_pages _ _ _ _ _ Hal 0 ltac:(lia)) as (Hp & Hn & _). replace (v + 4096 * 0) with v in Hp, Hn by lia.
  pose proof (heap_ok_same _ _ (al_ok _ _ _ _ _ Hal) Hs) as Hhm. pose proof (page_range v Hp) as Hrg. unfold window in Hrg.
  destruct (al_bits _ _ _ _ _ Hal) as (rb & Hvr & Hr0 & _ & _ & Hst & _). cbn [va_of] in Hvr, Hst.
  assert (vaddr_start (kernel_vaddr m) = vaddr_start (kernel_vaddr (view k))) as Hkv by (by rewrite (sm_kva _ _ Hs)).
  assert (translate m1 (v + 4096 * 0) = Some fr) as Hf1 by (replace (v + 4096 * 0) with v by lia; rewrite <- (same_translate m1 m) by (done || lia); exact Hf).
  pose proof (allocated_frame _ _ _ _ _ 0 fr (ho_space _ Hh) Hal ltac:(lia) Hf1) as [_ Hcr]. rewrite <- (sm_cr3 _ _ Hs) in Hcr.
  destruct process_pool_ok as [Hpo Hpe]. exists v, m, fr. do 6 (split; [done|]). split; [|].
  - apply (process_heap m v fr process_pool); try done; [|by rewrite Hkv]. split; [done|]. rewrite Hkv, Hvr. unfold va_page. lia.
  - intros v' Hv' Hne. pose proof (page_range v' Hv') as Hrg'. unfold window in Hrg'. rewrite (same_translate m1 m) by (done || lia).
    apply (al_others _ _ _ _ _ Hal); [done|]. destruct Hp as [_ Ha], Hv' as [_ Ha']. lia.
Qed.

Lemma create_page_dir_shares_kernel_witness :
  exists v m fr, create_page_dir 1 demo_maker = Ret v (with_view m demo_maker) /\ page v /\ translate demo_mem v = None
     /\ translate m v = Some fr /\ process_dir m fr /\ heap_ok m
     /\ heap_ok (with_cur_vaddr (with_cr3 m fr) process_pool)
     /\ forall v', page v' -> v' <> v -> translate m v' = translate demo_mem v'.
Proof.
  pose proof demo_maker_gets_page as He.
  destruct (create_page_dir_shares_kernel 0 demo_maker (demo_parent TASK_RUNNING)) as [H|[[H _]|[H _]]].
  - reflexivity.
  - intros Hz. discriminate Hz.
  - exact demo_maker_lock.
  - rewrite demo_maker_view. exact demo_heap_ok.
  - vm_compute. discriminate.
  - exact H.
  - rewrite H in He. discriminate He.
  - rewrite H in He. discriminate He.
Defined.
