(* ===== verification/Boot.v ===== *)
(** * Boot: the first memory, processes and threads

    [mem_init] of kernel/memory.c and [thread_init] of thread/thread.c: how the
    allocator, the first process and the first threads come to be. *)
From S2P Require Import Prelude Bitmap Interrupt DList Paging Pages Memory Kernel View Sched Sync Heap Thread Tss Wait Process.

(** ** Definitions *)

(** [mem_bytes_total] is the word the loader left at 0xb00, [region] the memory
    at [MEM_BITMAP_BASE]. *)
Definition mem_init (mem_bytes_total : Z) (region : list Z) : proc kernel unit :=
  _ ← in_mem (mem_pool_init mem_bytes_total region);
  _ ← lock_init kernel_pool_lock;
  _ ← lock_init user_pool_lock;
  modify (set_k_block_descs block_desc_init).

(** The addresses of code that a new thread is given: [init], [idle],
    [kernel_thread] and [start_process]. *)
Definition thread_init (fuel : nat) (kernel_thread start_process init idle : Z) : proc kernel unit :=
  _ ← modify (set_thread_ready_list []);
  _ ← modify (set_thread_all_list []);
  _ ← pid_pool_init;
  _ ← process_execute fuel kernel_thread start_process init [105; 110; 105; 116];
  _ ← make_main_thread fuel;
  thread ← thread_start fuel kernel_thread [105; 100; 108; 101] 10 idle 0;
  modify (set_idle_thread thread).

(** The pcb of the running task is at the start of the page of its stack. *)
Definition running_thread (esp : Z) : Z := Z.land esp 0xfffff000.

Definition kernel_thread {A} (function : Z -> proc kernel A) (func_arg : Z) : proc kernel A :=
  _ ← modify (fun k => set_eflags (intr_enable (eflags k)).2 k);
  function func_arg.

(** Wherever the stack pointer is on the page of a pcb, [running_thread] is the
    pcb: the field [running] of the state stands for it. *)
Lemma running_thread_page p esp : 0 <= p < 2 ^ 32 -> p mod 4096 = 0 -> p <= esp < p + 4096 -> running_thread esp = p.
Proof.
  intros Hp Ha He. unfold running_thread. change (Z.land esp 0xfffff000) with (frame esp). rewrite frame_eq. lia.
Qed.

(** ** A machine of 32 megabytes *)

(** The page tables of the loader: the first megabyte at 0 and at 0xc0000000,
    and the tables of the kernel's half, still empty. *)
Definition loader_tables : mem :=
  let tables := foldr (fun i ph => <[0x100000 + 4 * i := 0x101007 + 4096 * (i - 768)]> ph)
    (<[0x100000 := 0x101007]> (<[0x100000 + 4 * 1023 := 0x100007]> ∅)) (seqZ 768 255) in
  Mem (foldr (fun i ph => <[0x101000 + 4 * i := 4096 * i + 7]> ph) tables (seqZ 0 256))
    0x100000 (Pool (Bitmap 0 []) 0 0) (Pool (Bitmap 0 []) 0 0) (VirtualAddr (Bitmap 0 []) 0) (VirtualAddr (Bitmap 0 []) 0).

(** The pcb of the main thread is whatever the loader left on its stack page. *)
Definition loaded : kernel :=
  Kernel 2 0xc009e000 {[0xc009e000 := zero_task]} [] [] 0 0 (Bitmap 0 (replicate 129 0)) ∅ ∅ loader_tables 0 0 ∅ [] ∅.

Definition boot : proc kernel unit :=
  _ ← mem_init 0x2000000 (replicate 13000 0);
  thread_init 2 0xc0001000 0xc0002000 0xc0003000 0xc0004000.

Definition kernel_after (o : outcome kernel unit) (k : kernel) : kernel := match o with Ret _ k' => k' | _ => k end.

Definition booted_kernel : kernel := kernel_after (boot loaded) loaded.

(** What [sys_ps] would say of a task. *)
Definition summary (k : kernel) (p : Z) : Z * option (Z * list Z * task_status * Z * Z) :=
  (p, (fun t => (pid t, name t, status t, priority t, parent_pid t)) <$> tasks k !! p).

(** After [thread_init] the process [init] has pid 1, which orphans rely on, the
    main thread has pid 2 and runs, and [idle] has pid 3 and waits in the ready
    list behind [init]; interrupts are still off, no pool lock is held, and the
    pages taken from the kernel pool are those of two pcbs, a page directory
    and the 23 pages of the bitmap of user addresses. *)
Example boot_transcript :
  let k := booted_kernel in
  (summary k <$> thread_all_list k)
    = [ (0xc0100000, Some (1, [105; 110; 105; 116], TASK_READY, 31, -1));
        (0xc009e000, Some (2, [109; 97; 105; 110], TASK_RUNNING, 31, -1));
        (0xc0119000, Some (3, [105; 100; 108; 101], TASK_READY, 10, -1)) ]
  /\ thread_ready_list k = [0xc0100000; 0xc0119000]
  /\ main_thread k = running k /\ idle_thread k = 0xc0119000 /\ intr_get_status (eflags k) = INTR_OFF
  /\ locks k !! kernel_pool_lock = Some (Lock 0 0)
  /\ forallb (fun j => Bool.eqb (pool_used (kernel_pool (kmem k)) j) (j <? 26)) (seqZ 0 100) = true.
Proof. vm_compute. repeat split. Qed.
