(* ===== verification/HeapSpec.v ===== *)
(** * HeapSpec: what sys_malloc and sys_free promise

    The heap of a task is abstractly a set of arenas, pages cut into blocks of
    one size, and a set of blocks in use.  [sys_malloc] takes a block that was
    not in use, [sys_free] gives one back, and no other block changes. *)
From S2P Require Import Prelude Bitmap Interrupt DList Paging Pages Memory Kernel View Sched Sync Heap Thread.

(** ** The part of the state the heap changes *)

Section state.
Context (o : Z).

(** [k] with memory [m], the descriptors [ds] of owner [o] and the arena headers
    [ar]. *)
Definition heap_state (k : kernel) (m : mem) (ds : list mem_block_desc) (ar : gmap Z arena) : kernel :=
  Kernel (eflags k) (running k)
    (alter (fun t => set_userprog_vaddr (cur_vaddr m) (if o =? 0 then t else set_u_block_desc ds t)) (running k) (tasks k))
    (thread_ready_list k) (thread_all_list k) (main_thread k) (idle_thread k) (pid_bitmap k) (semas k) (locks k)
    (with_cur_vaddr m (cur_vaddr (kmem k))) (esp0 k) (ticks_total k) (ioqueues k)
    (if o =? 0 then ds else k_block_descs k) ar.

Definition descs_of (k : kernel) : option (list mem_block_desc) :=
  if o =? 0 then Some (k_block_descs k) else u_block_desc <$> tasks k !! running k.

Context (k : kernel) (t : task_struct) (Ht : tasks k !! running k = Some t) (Ho : o = 0 \/ o = running k).

Lemma heap_state_self ds : descs_of k = Some ds -> heap_state k (view k) ds (arenas k) = k.
Proof.
  unfold descs_of, heap_state, view. rewrite Ht. intros Hd. destruct k as [? r ts ? ? ? ? ? ? ? km ? ? ? ? ?]. cbn in *.
  assert (with_cur_vaddr (with_cur_vaddr km (userprog_vaddr t)) (cur_vaddr km) = km) as -> by (by destruct km).
  assert (forall f : task_struct -> task_struct, f t = t -> alter f r ts = ts) as Ha.
  { intros f Hf. apply map_eq. intros p. rewrite lookup_alter. case_decide; [subst p; by rewrite Ht; cbn; rewrite Hf|done]. }
  destruct (o =? 0); [injection Hd as <-; f_equal; apply Ha; by destruct t|]. injection Hd as <-. f_equal.
  apply Ha. by destruct t.
Qed.

Lemma heap_state_task m ds ar :
  tasks (heap_state k m ds ar) !! running k = Some (set_userprog_vaddr (cur_vaddr m) (if o =? 0 then t else set_u_block_desc ds t)).
Proof. cbn. by rewrite lookup_alter_eq, Ht. Qed.

Lemma heap_state_view m ds ar : view (heap_state k m ds ar) = m.
Proof. unfold view. change (running (heap_state k m ds ar)) with (running k). rewrite heap_state_task. cbn. by destruct m. Qed.

Lemma heap_state_descs m ds ar : descs_of (heap_state k m ds ar) = Some ds.
Proof.
  unfold descs_of. change (running (heap_state k m ds ar)) with (running k). rewrite heap_state_task. cbn. by destruct (o =? 0).
Qed.

Lemma heap_in_mem {A} (c : st mem A) m ds ar a m' :
  c m = Ok (a, m') -> in_mem c (heap_state k m ds ar) = Ret a (heap_state k m' ds ar).
Proof.
  intros Hc. rewrite (in_mem_put c _ _ a m' (heap_state_task m ds ar)) by (by rewrite heap_state_view).
  f_equal. unfold put_view, heap_state, set_kmem, set_tasks. cbn. f_equal. apply map_eq. intros p. rewrite !lookup_alter.
  destruct (decide (running k = p)) as [<-|]; [|done]. rewrite decide_True by done. rewrite Ht. cbn. by destruct (o =? 0).
Qed.

Lemma heap_in_mem_bad {A} (c : st mem A) m ds ar e :
  c m = Bad e -> in_mem c (heap_state k m ds ar) = Err e.
Proof. intros Hc. apply (in_mem_bad c _ _ e (heap_state_task m ds ar)). by rewrite heap_state_view. Qed.

Lemma heap_get_desc m ds ar i d :
  ds !! Z.to_nat i = Some d -> 0 <= i -> get_desc (o, i) (heap_state k m ds ar) = Ret d (heap_state k m ds ar).
Proof.
  intros Hd Hi. assert (rd ds i = Ok d) as Hrd by (by apply rd_Ok). unfold get_desc. pget. cbn [fst snd].
  destruct (o =? 0) eqn:E.
  - cbn [heap_state k_block_descs]. rewrite E. by rewrite Hrd.
  - destruct Ho as [Hz|Hor]; [by rewrite Hz in E|]. rewrite Hor at 1. unfold task.
    prun (run_load tasks _ _ _ (heap_state_task m ds ar)). rewrite E. cbn [u_block_desc set_userprog_vaddr set_u_block_desc]. by rewrite Hrd.
Qed.

Lemma heap_set_desc m ds ar i d :
  0 <= i < Z.of_nat (length ds) ->
  set_desc (o, i) d (heap_state k m ds ar) = Ret tt (heap_state k m (<[Z.to_nat i := d]> ds) ar).
Proof.
  intros Hi. assert (wr ds i d = Ok (<[Z.to_nat i := d]> ds)) as Hw by (by apply wr_in). unfold set_desc. pget. cbn [fst snd].
  destruct (o =? 0) eqn:E.
  - cbn [heap_state k_block_descs]. rewrite E, Hw. unfold heap_state. rewrite E. done.
  - destruct Ho as [Hz|Hor]; [by rewrite Hz in E|]. rewrite Hor at 1. unfold task. prun (run_load tasks _ _ _ (heap_state_task m ds ar)). rewrite E.
    cbn [u_block_desc set_userprog_vaddr set_u_block_desc]. rewrite Hw. 
    prun (eq_refl : lift (Ok (<[Z.to_nat i := d]> ds)) (heap_state k m ds ar) = Ret _ (heap_state k m ds ar)). rewrite Hor.
    rewrite (run_update _ _ _ _ (heap_state_task m ds ar)). f_equal. unfold heap_state, set_tasks. cbn. rewrite E. f_equal.
    apply map_eq. intros p. rewrite lookup_insert, !lookup_alter. destruct (decide (running k = p)) as [<-|]; [|done]. by rewrite Ht.
Qed.

Lemma heap_get_arena m ds ar a f x :
  translate m a = Some f -> ar !! f = Some x -> get_arena a (heap_state k m ds ar) = Ret x (heap_state k m ds ar).
Proof.
  intros Hf Hx. unfold get_arena, arena_frame.
  assert (translate (kmem (heap_state k m ds ar)) a = Some f) as Hf' by (cbn; by destruct m).
  assert ((fun k0 => match translate (kmem k0) a with Some f => Ret f k0 | None => Err EFault end) (heap_state k m ds ar) = Ret f (heap_state k m ds ar)) as Hg
    by (cbn beta; by rewrite Hf').
  prun Hg. by apply run_load.
Qed.

Lemma heap_set_arena m ds ar a f x :
  translate m a = Some f -> set_arena a x (heap_state k m ds ar) = Ret tt (heap_state k m ds (<[f := x]> ar)).
Proof.
  intros Hf. unfold set_arena, arena_frame.
  assert (translate (kmem (heap_state k m ds ar)) a = Some f) as Hf' by (cbn; by destruct m).
  assert ((fun k0 => match translate (kmem k0) a with Some f => Ret f k0 | None => Err EFault end) (heap_state k m ds ar) = Ret f (heap_state k m ds ar)) as Hg
    by (cbn beta; by rewrite Hf').
  prun Hg. done.
Qed.

Lemma heap_flags m ds ar e : set_eflags e (heap_state k m ds ar) = heap_state (set_eflags e k) m ds ar.
Proof. done. Qed.

Lemma heap_release p m ds ar :
  lock_free k p -> lock_release p (heap_state (held p k) m ds ar) = Ret tt (heap_state k m ds ar).
Proof. intros Hl. by rewrite (unlock_run k (heap_state (held p k) m ds ar) p Hl eq_refl eq_refl eq_refl). Qed.

End state.

(** ** Blocks *)

(** The size of the blocks of class [i] and their number in a page. *)
Definition bsize (i : Z) : Z := 16 * 2 ^ i.

Definition bcount (i : Z) : Z := 4084 / bsize i.

Definition block_at (a i idx : Z) : Z := a + 12 + idx * bsize i.

Definition blocks (a i : Z) : list Z := block_at a i <$> seqZ 0 (bcount i).

Lemma bsize_pos i : 0 <= i -> 16 <= bsize i.
Proof. intros Hi. unfold bsize. pose proof (Z.pow_pos_nonneg 2 i). lia. Qed.

(** The seven classes. *)
Lemma class_cases (P : Z -> Prop) : P 0 -> P 1 -> P 2 -> P 3 -> P 4 -> P 5 -> P 6 -> forall i, 0 <= i < 7 -> P i.
Proof.
  intros. assert (i = 0 \/ i = 1 \/ i = 2 \/ i = 3 \/ i = 4 \/ i = 5 \/ i = 6) as Hc by lia.
  by repeat (destruct Hc as [->|Hc]; [done|]); subst.
Qed.

Lemma bcount_range i : 0 <= i < 7 -> 1 <= bcount i <= 255 /\ bsize i <= 1024 /\ bsize i mod 4 = 0 /\ bcount i * bsize i <= 4084.
Proof. revert i. apply class_cases; (split_and!; vm_compute; done || discriminate). Qed.

Lemma elem_of_blocks a i b : b ∈ blocks a i <-> exists idx, 0 <= idx < bcount i /\ b = block_at a i idx.
Proof.
  unfold blocks. rewrite list_elem_of_fmap. split; intros (idx & H1 & H2); exists idx.
  - apply elem_of_seqZ in H2. split; [lia|done].
  - split; [done|]. apply elem_of_seqZ. lia.
Qed.

Lemma blocks_length a i : 0 <= i < 7 -> Z.of_nat (length (blocks a i)) = bcount i.
Proof. intros Hi. pose proof (bcount_range i Hi). unfold blocks. rewrite length_fmap, length_seqZ. lia. Qed.

Lemma block_at_inj a i j k : 0 <= i -> block_at a i j = block_at a i k -> j = k.
Proof. intros Hi. pose proof (bsize_pos i Hi). unfold block_at. nia. Qed.

Lemma NoDup_blocks a i : 0 <= i -> NoDup (blocks a i).
Proof.
  intros Hi. unfold blocks. apply NoDup_fmap_2_strong; [|apply NoDup_seqZ]. intros x y _ _. by apply block_at_inj.
Qed.

(** A block lies behind the header in its page. *)
Lemma block_range a i b : 0 <= i < 7 -> b ∈ blocks a i -> a + 12 <= b /\ b + bsize i <= a + 4096.
Proof.
  intros Hi (idx & Hidx & ->)%elem_of_blocks. pose proof (bcount_range i Hi) as (H1 & _ & _ & H2). pose proof (bsize_pos i).
  unfold block_at. nia.
Qed.

Lemma block2arena_in a b : page a -> a <= b < a + 4096 -> block2arena b = a.
Proof.
  intros Ha Hb. pose proof (page_range a Ha). destruct Ha as [_ Hm]. unfold window in *. unfold block2arena.
  change (Z.land b 0xfffff000) with (frame b). rewrite frame_eq. lia.
Qed.

Lemma block2arena_block a i b : page a -> 0 <= i < 7 -> b ∈ blocks a i -> block2arena b = a.
Proof. intros Ha Hi Hb. pose proof (block_range a i b Hi Hb). pose proof (bsize_pos i). apply block2arena_in; [done|lia]. Qed.

(** Blocks are words, and do not overlap. *)
Lemma blocks_disjoint a i b a' i' b' :
  page a -> page a' -> 0 <= i < 7 -> 0 <= i' < 7 -> b ∈ blocks a i -> b' ∈ blocks a' i' -> (a = a' -> i = i') -> b <> b' ->
  b + bsize i <= b' \/ b' + bsize i' <= b.
Proof.
  intros [_ Ha] [_ Ha'] Hi Hi' Hb Hb' Hsame Hne. pose proof (block_range _ _ _ Hi Hb). pose proof (block_range _ _ _ Hi' Hb').
  destruct (decide (a = a')) as [<-|]; [|lia]. rewrite <- (Hsame eq_refl) in *.
  apply elem_of_blocks in Hb as (j & Hj & ->). apply elem_of_blocks in Hb' as (j' & Hj' & ->).
  assert (j <> j') by congruence. pose proof (bsize_pos i). unfold block_at in *. nia.
Qed.

(** ** The abstract heap *)

Definition descs_ok (ds : list mem_block_desc) : Prop :=
  length ds = 7%nat /\ forall i d, 0 <= i -> ds !! Z.to_nat i = Some d -> block_size d = bsize i /\ blocks_per_arena d = bcount i.

Definition free_of (ds : list mem_block_desc) (i : Z) : list Z := default [] (free_list <$> ds !! Z.to_nat i).

(** The number of free blocks of the arena at [a]. *)
Definition free_in_arena (ds : list mem_block_desc) (i a : Z) : list Z := filter (fun b => block2arena b = a) (free_of ds i).

(** The arenas [A] of owner [o]: a page and the class of its blocks.  The headers
    count the free blocks; the free lists hold blocks of arenas only. *)
Record heap_rep (o : Z) (pf : pool_flags) (m : mem) (ds : list mem_block_desc) (ar : gmap Z arena) (A : gmap Z Z) : Prop := {
  hp_heap : heap_ok m;
  hp_start : K_HEAP_START <= vaddr_start (kernel_vaddr m);
  hp_descs : descs_ok ds;
  hp_nodup : forall i, 0 <= i < 7 -> NoDup (free_of ds i);
  hp_free : forall i b, 0 <= i < 7 -> b ∈ free_of ds i -> exists a, A !! a = Some i /\ b ∈ blocks a i;
  hp_arena : forall a i, A !! a = Some i -> 0 <= i < 7 /\ (exists r, pool_page pf m a r)
    /\ exists f, translate m a = Some f /\ ar !! f = Some (Arena (Some (o, i)) (Z.of_nat (length (free_in_arena ds i a))) false)
}.

(** The blocks in use. *)
Definition in_use (ds : list mem_block_desc) (A : gmap Z Z) (b : Z) : Prop :=
  exists a i, A !! a = Some i /\ b ∈ blocks a i /\ b ∉ free_of ds i.

Definition with_free (l : list Z) (d : mem_block_desc) : mem_block_desc := MemBlockDesc (block_size d) (blocks_per_arena d) l.

Definition set_free (ds : list mem_block_desc) (i : Z) (l : list Z) : list mem_block_desc := alter (with_free l) (Z.to_nat i) ds.

Lemma descs_lookup ds i : descs_ok ds -> 0 <= i < 7 ->
  exists d, ds !! Z.to_nat i = Some d /\ block_size d = bsize i /\ blocks_per_arena d = bcount i /\ free_list d = free_of ds i.
Proof.
  intros [Hl Hd] Hi. destruct (lookup_lt_is_Some_2 ds (Z.to_nat i) ltac:(lia)) as [d Hd']. exists d.
  destruct (Hd i d ltac:(lia) Hd') as [H1 H2]. unfold free_of. by rewrite Hd'.
Qed.

Lemma set_free_insert ds i d l : ds !! Z.to_nat i = Some d -> <[Z.to_nat i := with_free l d]> ds = set_free ds i l.
Proof.
  intros Hd. unfold set_free. apply list_eq. intros j. destruct (decide (Z.to_nat i = j)) as [<-|Hne].
  - rewrite list_lookup_alter_eq, Hd. rewrite list_lookup_insert_eq; [done|]. by apply lookup_lt_Some in Hd.
  - by rewrite list_lookup_insert_ne, list_lookup_alter_ne by done.
Qed.

Lemma set_free_ok ds i l : descs_ok ds -> descs_ok (set_free ds i l).
Proof.
  intros [Hl Hd]. unfold set_free. split; [by rewrite length_alter|]. intros j d Hj Hjd.
  destruct (decide (Z.to_nat i = Z.to_nat j)) as [E|Hne].
  - rewrite <- E, list_lookup_alter_eq in Hjd. destruct (ds !! Z.to_nat i) as [d0|] eqn:E0; [|done]. injection Hjd as <-. rewrite E in E0. exact (Hd j d0 Hj E0).
  - rewrite list_lookup_alter_ne in Hjd by done. by apply (Hd j).
Qed.

Lemma free_of_set ds i l j : descs_ok ds -> 0 <= i < 7 -> 0 <= j -> free_of (set_free ds i l) j = if decide (i = j) then l else free_of ds j.
Proof.
  intros Hd Hi Hj. unfold set_free, free_of. case_decide as E.
  - subst j. rewrite list_lookup_alter_eq. destruct (descs_lookup ds i Hd Hi) as (d & -> & _). done.
  - by rewrite list_lookup_alter_ne by lia.
Qed.

Lemma arena_page o pf m ds ar A a i : heap_rep o pf m ds ar A -> A !! a = Some i -> page a /\ 0 <= i < 7.
Proof.
  intros Hr Ha. destruct (hp_arena _ _ _ _ _ _ Hr a i Ha) as (Hi & (r & Hp) & _). split; [|done].
  by apply (pool_page_page pf m a r); [apply Hr|].
Qed.

(** Headers of distinct arenas lie in distinct frames. *)
Lemma arena_frames o pf m ds ar A a i f a' i' f' :
  heap_rep o pf m ds ar A -> A !! a = Some i -> A !! a' = Some i' -> translate m a = Some f -> translate m a' = Some f' ->
  a' <> a -> f <> f'.
Proof.
  intros Hr Ha Ha' Hf Hf' Hne ->. apply Hne. destruct (arena_page _ _ _ _ _ _ _ _ Hr Ha) as [Hp _], (arena_page _ _ _ _ _ _ _ _ Hr Ha') as [Hp' _].
  exact (so_inj _ (ho_space _ (hp_heap _ _ _ _ _ _ Hr)) a' a f' Hp' Hp Hf' Hf).
Qed.

(** A free list changes at the blocks of one arena. *)
Lemma heap_rep_change o pf m ds ar A i a f l :
  heap_rep o pf m ds ar A -> A !! a = Some i -> translate m a = Some f -> NoDup l ->
  (forall b, b ∈ l -> exists a', A !! a' = Some i /\ b ∈ blocks a' i) ->
  (forall a', a' <> a -> filter (fun b => block2arena b = a') l = free_in_arena ds i a') ->
  heap_rep o pf m (set_free ds i l)
    (<[f := Arena (Some (o, i)) (Z.of_nat (length (filter (fun b => block2arena b = a) l))) false]> ar) A.
Proof.
  intros Hr Ha Hf Hnd Hl Hother. destruct (arena_page _ _ _ _ _ _ _ _ Hr Ha) as [Hp Hi]. pose proof Hr as [Hh Hks Hd Hn Hfr Har].
  assert (forall j, 0 <= j < 7 -> free_of (set_free ds i l) j = if decide (i = j) then l else free_of ds j) as Hfo
    by (intros; apply free_of_set; done || lia).
  constructor; [done|done|by apply set_free_ok| | |].
  - intros j Hj. rewrite Hfo by done. case_decide; [done|by apply Hn].
  - intros j b Hj. rewrite Hfo by done. case_decide; [subst j; apply Hl|by apply Hfr].
  - intros a' i' Ha'. destruct (Har a' i' Ha') as (Hi' & Hpp & f' & Hf' & Har'). split; [done|]. split; [done|]. exists f'. split; [done|].
    unfold free_in_arena. rewrite Hfo by done. destruct (decide (a' = a)) as [->|Hne].
    + assert (i' = i) as -> by congruence. assert (f' = f) as -> by congruence. by rewrite lookup_insert_eq, decide_True.
    + rewrite lookup_insert_ne by (by apply (arena_frames _ _ _ _ _ _ a i f a' i' f' Hr)). case_decide; [subst i'; by rewrite Hother|done].
Qed.

(** The memory changes outside the arenas' mappings. *)
Lemma heap_rep_mem o pf m m' ds ar A :
  heap_rep o pf m ds ar A -> heap_ok m' -> vaddr_start (kernel_vaddr m') = vaddr_start (kernel_vaddr m) ->
  (forall a i, A !! a = Some i -> (exists r, pool_page pf m' a r) /\ translate m' a = translate m a) -> heap_rep o pf m' ds ar A.
Proof.
  intros [Hh Hks Hd Hn Hfr Har] Hh' Hk' Hm. constructor; try done; [by rewrite Hk'|]. intros a i Ha. destruct (Har a i Ha) as (Hi & _ & Hf). destruct (Hm a i Ha) as [Hp Ht].
  split; [done|]. split; [done|]. by rewrite Ht.
Qed.

Lemma pool_page_same pf m m' v r : heap_ok m -> same_tables m m' -> pool_page pf m v r -> pool_page pf m' v r.
Proof.
  intros Hh Hs Hp. pose proof (page_range v (pool_page_page pf m v r Hh Hp)) as Hrg. unfold window in Hrg. destruct Hp as (Hr & Hv & f & Hf & Ho & Hcr). rewrite <- (sm_cr3 _ _ Hs) in Hcr.
  assert (va_of pf m' = va_of pf m) as Hva by (destruct pf; apply Hs). assert (pool_of pf m' = pool_of pf m) as Hpo by (destruct pf; apply Hs).
  split; [by rewrite Hva|]. split; [by rewrite Hva|]. exists f. rewrite Hpo, (same_translate m m') by (done || lia). done.
Qed.

Lemma heap_rep_same o pf m m' ds ar A : heap_rep o pf m ds ar A -> same_tables m m' -> heap_rep o pf m' ds ar A.
Proof.
  intros Hr Hs. pose proof (hp_heap _ _ _ _ _ _ Hr) as Hh. apply (heap_rep_mem o pf m); [done|by apply (heap_ok_same m)|by rewrite (sm_kva _ _ Hs)|].
  intros a i Ha. destruct (hp_arena _ _ _ _ _ _ Hr a i Ha) as (_ & (r & Hp) & _). split; [exists r; by apply (pool_page_same pf m)|].
  pose proof (page_range a (pool_page_page pf m a r Hh Hp)) as Hrg. unfold window in Hrg. apply same_translate; [done|lia].
Qed.

(** A new arena, all of whose blocks are free. *)
Lemma heap_rep_add o pf m ds ar A i a f :
  heap_rep o pf m ds ar A -> 0 <= i < 7 -> A !! a = None -> (exists r, pool_page pf m a r) -> translate m a = Some f -> free_of ds i = [] ->
  heap_rep o pf m (set_free ds i (blocks a i)) (<[f := Arena (Some (o, i)) (bcount i) false]> ar) (<[a := i]> A).
Proof.
  intros Hr Hi Ha Hpp Hf He. pose proof Hr as [Hh Hks Hd Hn Hfr Har].
  assert (page a) as Hpa by (destruct Hpp as [r Hp]; by apply (pool_page_page pf m a r)).
  assert (forall j, 0 <= j < 7 -> free_of (set_free ds i (blocks a i)) j = if decide (i = j) then blocks a i else free_of ds j) as Hfo
    by (intros; apply free_of_set; done || lia).
  constructor; [done|done|by apply set_free_ok| | |].
  - intros j Hj. rewrite Hfo by done. case_decide; [apply NoDup_blocks; lia|by apply Hn].
  - intros j b Hj. rewrite Hfo by done. case_decide as E.
    + subst j. intros Hb. exists a. by rewrite lookup_insert_eq.
    + intros Hb. destruct (Hfr j b Hj Hb) as (a' & Ha' & Hb'). exists a'. rewrite lookup_insert_ne by congruence. done.
  - intros a' i'. destruct (decide (a' = a)) as [->|Hne].
    + rewrite lookup_insert_eq. intros [= <-]. split; [done|]. split; [done|]. exists f. split; [done|]. rewrite lookup_insert_eq.
      unfold free_in_arena. rewrite Hfo, decide_True by done. rewrite filter_all; [by rewrite blocks_length|].
      intros b Hb. by apply (block2arena_block a i).
    + rewrite lookup_insert_ne by congruence. intros Ha'. destruct (Har a' i' Ha') as (Hi' & Hpp' & f' & Hf' & Har').
      split; [done|]. split; [done|]. exists f'. split; [done|].
      destruct Hpp' as [r' Hp']. pose proof (pool_page_page pf m a' r' Hh Hp') as Hpa'.
      assert (f <> f') as Hff. { intros <-. apply Hne. exact (so_inj _ (ho_space _ Hh) a' a f Hpa' Hpa Hf' Hf). }
      rewrite lookup_insert_ne by done. rewrite Har'. do 3 f_equal. unfold free_in_arena. rewrite Hfo by done. case_decide as E; [|done].
      subst i'. rewrite He. cbn [filter list_filter]. assert (filter (fun b => block2arena b = a') (blocks a i) = []) as ->; [|done].
      apply elem_of_nil_inv. intros b [Hb Hin]%list_elem_of_filter. rewrite (block2arena_block a i b) in Hb by done. congruence.
Qed.

(** An arena leaves, all of whose blocks are free. *)
Lemma heap_rep_remove o pf m m' ds ar A i a :
  heap_rep o pf m ds ar A -> A !! a = Some i -> heap_ok m' -> vaddr_start (kernel_vaddr m') = vaddr_start (kernel_vaddr m) ->
  (forall a' i', a' <> a -> A !! a' = Some i' -> (exists r, pool_page pf m' a' r) /\ translate m' a' = translate m a') ->
  heap_rep o pf m' (set_free ds i (filter (fun b => block2arena b <> a) (free_of ds i))) ar (delete a A).
Proof.
  intros Hr Ha Hh' Hk' Hm. destruct (arena_page _ _ _ _ _ _ _ _ Hr Ha) as [Hp Hi]. pose proof Hr as [Hh Hks Hd Hn Hfr Har].
  set (l := filter _ _). rewrite <- Hk' in Hks.
  assert (forall j, 0 <= j < 7 -> free_of (set_free ds i l) j = if decide (i = j) then l else free_of ds j) as Hfo
    by (intros; apply free_of_set; done || lia).
  constructor; [done|done|by apply set_free_ok| | |].
  - intros j Hj. rewrite Hfo by done. case_decide; [apply NoDup_filter|]; by apply Hn.
  - intros j b Hj. rewrite Hfo by done.
    assert (b ∈ free_of ds j -> (i = j -> block2arena b <> a) -> exists a', delete a A !! a' = Some j /\ b ∈ blocks a' j) as Hgo.
    { intros Hb Hne. destruct (Hfr j b Hj Hb) as (a' & Ha' & Hb'). exists a'. split; [|done]. rewrite lookup_delete_ne; [done|]. intros <-.
      assert (i = j) as Hij by congruence. apply (Hne Hij). by apply (block2arena_block a j). }
    case_decide as E; [|intros Hb; apply Hgo; [done|by intros ?]]. subst j. unfold l. rewrite list_elem_of_filter. intros [H1 H2]. by apply Hgo.
  - intros a' i' Ha'. destruct (decide (a' = a)) as [->|Hne]; [by rewrite lookup_delete_eq in Ha'|]. rewrite lookup_delete_ne in Ha' by congruence.
    destruct (Har a' i' Ha') as (Hi' & _ & f' & Hf' & Har'). destruct (Hm a' i' Hne Ha') as [Hpp' Ht']. split; [done|]. split; [done|].
    exists f'. split; [by rewrite Ht'|]. rewrite Har'. do 3 f_equal. unfold free_in_arena. rewrite Hfo by done. case_decide as E; [|done]. subst i'.
    unfold l. rewrite list_filter_filter. f_equal. apply list_filter_iff. intros b. naive_solver.
Qed.

(** ** The loops *)

Section loops.
Context (o : Z) (k : kernel) (t : task_struct) (Ht : tasks k !! running k = Some t) (Ho : o = 0 \/ o = running k).

Notation HS := (heap_state o k).

Lemma get_desc_rep m ds ar i :
  descs_ok ds -> 0 <= i < 7 -> get_desc (o, i) (HS m ds ar) = Ret (MemBlockDesc (bsize i) (bcount i) (free_of ds i)) (HS m ds ar).
Proof.
  intros Hd Hi. destruct (descs_lookup ds i Hd Hi) as (d & Hl & H1 & H2 & H3).
  rewrite (heap_get_desc o k t Ht Ho m ds ar i d Hl) by lia. by rewrite <- H1, <- H2, <- H3; destruct d.
Qed.

Lemma set_desc_rep m ds ar i l :
  descs_ok ds -> 0 <= i < 7 -> set_desc (o, i) (MemBlockDesc (bsize i) (bcount i) l) (HS m ds ar) = Ret tt (HS m (set_free ds i l) ar).
Proof.
  intros Hd Hi. destruct (descs_lookup ds i Hd Hi) as (d & Hl & H1 & H2 & H3). pose proof Hd as [Hlen _].
  rewrite (heap_set_desc o k t Ht Ho m ds ar i) by lia. do 2 f_equal. rewrite <- (set_free_insert ds i d l Hl). unfold with_free. by rewrite H1, H2.
Qed.

Lemma find_desc_run n i m ds ar size :
  descs_ok ds -> 0 <= i -> i + Z.of_nat n = 7 -> (0 < n)%nat -> size <= 1024 ->
  exists j, find_desc n o size i (HS m ds ar) = Ret j (HS m ds ar) /\ i <= j < 7 /\ size <= bsize j
    /\ forall j', i <= j' < j -> bsize j' < size.
Proof.
  intros Hd. revert i. induction n as [|n IH]; intros i Hi Hn Hp Hs; [lia|]. cbn [find_desc].
  prun (get_desc_rep m ds ar i Hd ltac:(lia)). cbn [block_size]. destruct (size <=? bsize i) eqn:E.
  - exists i. split; [done|]. split; [lia|]. split; [lia|]. lia.
  - destruct n as [|n].
    + assert (i = 6) as -> by lia. change (bsize 6) with 1024 in E. lia.
    + destruct (IH (i + 1)) as (j & Hf & Hj & Hsz & Hlow); [lia|lia|lia|done|]. exists j. split; [exact Hf|]. split; [lia|]. split; [done|].
      intros j' Hj'. destruct (decide (j' = i)) as [->|]; [lia|]. apply Hlow. lia.
Qed.

Lemma u32_block a i idx : page a -> 0 <= i < 7 -> 0 <= idx < bcount i -> arena2block a (bsize i) idx = block_at a i idx.
Proof.
  intros Ha Hi Hidx. unfold arena2block, ARENA_SIZE, block_at. rewrite u32_id; [done|].
  assert (block_at a i idx ∈ blocks a i) as Hb by (apply elem_of_blocks; by exists idx). pose proof (block_range a i _ Hi Hb) as Hr.
  pose proof (page_range a Ha). pose proof (bsize_pos i). unfold window, block_at in *. destruct Ha. lia.
Qed.

Lemma set_free_twice ds i l l' : set_free (set_free ds i l) i l' = set_free ds i l'.
Proof.
  unfold set_free. apply list_eq. intros j. destruct (decide (Z.to_nat i = j)) as [<-|Hne].
  - rewrite !list_lookup_alter_eq. by destruct (ds !! Z.to_nat i).
  - by rewrite !list_lookup_alter_ne by done.
Qed.

Lemma set_free_same ds i : descs_ok ds -> 0 <= i < 7 -> set_free ds i (free_of ds i) = ds.
Proof.
  intros Hd Hi. destruct (descs_lookup ds i Hd Hi) as (d & Hl & _ & _ & H3). rewrite <- (set_free_insert ds i d) by done.
  rewrite <- H3. apply list_insert_id. rewrite Hl. by destruct d.
Qed.

(** Dividing a page into blocks. *)
Lemma carve_run n a i idx m ds ar :
  descs_ok ds -> 0 <= i < 7 -> page a -> 0 <= idx -> idx + Z.of_nat n <= bcount i ->
  (forall j, idx <= j < idx + Z.of_nat n -> block_at a i j ∉ free_of ds i) ->
  carve n (o, i) a idx (HS m ds ar) = Ret tt (HS m (set_free ds i (free_of ds i ++ (block_at a i <$> seqZ idx (Z.of_nat n)))) ar).
Proof.
  intros Hd Hi Ha. revert idx ds Hd. induction n as [|n IH]; intros idx ds Hd H0 Hle Hnew.
  - cbn [carve]. rewrite run_mret. change (Z.of_nat 0) with 0. rewrite seqZ_nil by lia. cbn [fmap list_fmap]. by rewrite app_nil_r, set_free_same.
  - cbn [carve]. prun (get_desc_rep m ds ar i Hd Hi). cbn [block_size blocks_per_arena free_list].
    rewrite u32_block by (done || lia). unfold seq_find. rewrite (bool_decide_false (_ ∈ _)) by (apply Hnew; lia). passert; [|done].
    prun (set_desc_rep m ds ar i (seq_append (free_of ds i) (block_at a i idx)) Hd Hi).
    pose proof (set_free_ok ds i (seq_append (free_of ds i) (block_at a i idx)) Hd) as Hd'.
    assert (forall j, idx + 1 <= j < idx + 1 + Z.of_nat n -> block_at a i j ∉ free_of (set_free ds i (seq_append (free_of ds i) (block_at a i idx))) i) as Hnew'.
    { intros j Hj. rewrite free_of_set, decide_True by (done || lia). unfold seq_append. rewrite elem_of_app, list_elem_of_singleton.
      intros [Hin|Heq]; [by apply (Hnew j ltac:(lia))|apply block_at_inj in Heq; lia]. }
    rewrite (IH (idx + 1) _ Hd' ltac:(lia) ltac:(lia) Hnew').
    rewrite free_of_set, decide_True by (done || lia). rewrite set_free_twice. do 2 f_equal. f_equal.
    unfold seq_append. rewrite <- app_assoc. f_equal. rewrite (seqZ_cons idx) by lia. cbn [app fmap list_fmap]. f_equal.
    replace (Z.succ idx) with (idx + 1) by lia. replace (Z.pred (Z.of_nat (S n))) with (Z.of_nat n) by lia. done.
Qed.

(** Taking the blocks of a page out of the free list. *)
Lemma uncarve_run n a i idx m ds ar :
  descs_ok ds -> 0 <= i < 7 -> page a -> 0 <= idx -> idx + Z.of_nat n <= bcount i ->
  (forall j, idx <= j < idx + Z.of_nat n -> block_at a i j ∈ free_of ds i) ->
  uncarve n (o, i) a idx (HS m ds ar)
  = Ret tt (HS m (set_free ds i (filter (fun b => b ∉ (block_at a i <$> seqZ idx (Z.of_nat n))) (free_of ds i))) ar).
Proof.
  intros Hd Hi Ha. revert idx ds Hd. induction n as [|n IH]; intros idx ds Hd H0 Hle Hin.
  - cbn [uncarve]. rewrite run_mret. change (Z.of_nat 0) with 0. rewrite seqZ_nil by lia. cbn [fmap list_fmap].
    rewrite filter_all; [by rewrite set_free_same|]. intros x _. apply not_elem_of_nil.
  - cbn [uncarve]. prun (get_desc_rep m ds ar i Hd Hi). cbn [block_size blocks_per_arena free_list].
    rewrite u32_block by (done || lia). unfold seq_find. rewrite (bool_decide_true (_ ∈ _)) by (apply Hin; lia). passert; [|done].
    prun (set_desc_rep m ds ar i (seq_remove (free_of ds i) (block_at a i idx)) Hd Hi).
    pose proof (set_free_ok ds i (seq_remove (free_of ds i) (block_at a i idx)) Hd) as Hd'.
    assert (forall j, idx + 1 <= j < idx + 1 + Z.of_nat n -> block_at a i j ∈ free_of (set_free ds i (seq_remove (free_of ds i) (block_at a i idx))) i) as Hin'.
    { intros j Hj. rewrite free_of_set, decide_True by (done || lia). unfold seq_remove. rewrite list_elem_of_filter.
      split; [intros Heq; apply block_at_inj in Heq; lia|apply Hin; lia]. }
    rewrite (IH (idx + 1) _ Hd' ltac:(lia) ltac:(lia) Hin').
    rewrite free_of_set, decide_True by (done || lia). rewrite set_free_twice. do 2 f_equal. f_equal.
    unfold seq_remove. rewrite list_filter_filter. apply list_filter_iff. intros b. rewrite (seqZ_cons idx) by lia. cbn [app fmap list_fmap].
    replace (Z.succ idx) with (idx + 1) by lia. replace (Z.pred (Z.of_nat (S n))) with (Z.of_nat n) by lia. rewrite elem_of_cons. naive_solver.
Qed.

End loops.

(** ** Pages for the heap *)

Lemma allocated_keeps pf m m' v a r :
  heap_ok m -> allocated pf 1 m m' v -> pool_page pf m a r -> pool_page pf m' a r /\ translate m' a = translate m a.
Proof.
  intros Hh [Hpg _ Ho _ Hk Hu (r0 & _ & _ & _ & _ & Hs & Hl & _) Hother Hc3] Hp. pose proof (pool_page_page _ _ _ _ Hh Hp) as Hpa.
  destruct (Hpg 0 ltac:(lia)) as (_ & Hnone & _). replace (v + 4096 * 0) with v in Hnone by lia.
  pose proof Hp as (Hr & Hv & f & Hf & (j & Hj & Hfj) & Hcr).
  assert (a <> v) as Hne by congruence.
  assert (translate m' a = translate m a) as Ht.
  { apply Ho; [done|]. intros Hin. destruct (Hpg 0 ltac:(lia)) as ([_ Hal] & _). destruct Hpa as [_ Hpa].
    replace (v + 4096 * 0) with v in Hal by lia. lia. }
  split; [|done]. split; [by rewrite Hl|]. split; [rewrite Hv; unfold va_page; by rewrite Hs|]. exists f. split; [by rewrite Ht|]. split; [|by rewrite Hc3].
  exists j. assert (pool_cap (pool_of pf m') = pool_cap (pool_of pf m) /\ phy_addr_start (pool_of pf m') = phy_addr_start (pool_of pf m)) as [-> Hst].
  { destruct pf; [destruct Hk as (? & ? & _)|destruct Hu as (? & ? & _)]; done. }
  split; [done|]. rewrite Hfj. unfold pool_frame. by rewrite Hst.
Qed.

Lemma allocated_new pf m m' v : space_ok m -> allocated pf 1 m m' v -> translate m v = None /\ exists r, pool_page pf m' v r.
Proof.
  intros Hsp Hal. pose proof Hal as [Hpg _ _ _ Hk Hu (r & Hv & Hr0 & Hr1 & _ & Hs & Hl & _) _ _].
  destruct (Hpg 0 ltac:(lia)) as (_ & Hnone & f & Hf & (j & Hj & _ & Hfj) & _).
  destruct (allocated_frame _ _ _ _ _ 0 f Hsp Hal ltac:(lia) Hf) as [_ Hcr]. replace (v + 4096 * 0) with v in * by lia.
  split; [done|]. exists r. split; [rewrite Hl; lia|]. split; [rewrite Hv; unfold va_page; by rewrite Hs|]. exists f. split; [done|]. split; [|done].
  exists j. assert (pool_cap (pool_of pf m') = pool_cap (pool_of pf m) /\ phy_addr_start (pool_of pf m') = phy_addr_start (pool_of pf m)) as [-> Hst].
  { destruct pf; [destruct Hk as (? & ? & _)|destruct Hu as (? & ? & _)]; done. }
  split; [done|]. rewrite Hfj. unfold pool_frame. by rewrite Hst.
Qed.

Lemma allocated_kva pf m m' v : allocated pf 1 m m' v -> vaddr_start (kernel_vaddr m') = vaddr_start (kernel_vaddr m).
Proof.
  intros Hal. destruct pf.
  - destruct (al_bits _ _ _ _ _ Hal) as (r & _ & _ & _ & _ & Hs & _). exact Hs.
  - pose proof (al_other_va _ _ _ _ _ Hal PF_KERNEL ltac:(done)) as He. cbn [va_of] in He. by rewrite He.
Qed.

Lemma heap_rep_allocated o pf m m' ds ar A v :
  heap_rep o pf m ds ar A -> allocated pf 1 m m' v -> heap_rep o pf m' ds ar A /\ A !! v = None.
Proof.
  intros Hr Hal. pose proof (hp_heap _ _ _ _ _ _ Hr) as Hh. split.
  - apply (heap_rep_mem o pf m); [done|apply Hal|by apply (allocated_kva pf m m' v)|]. intros a i Ha. destruct (hp_arena _ _ _ _ _ _ Hr a i Ha) as (_ & (r & Hp) & _).
    destruct (allocated_keeps pf m m' v a r Hh Hal Hp) as [H1 H2]. split; [by exists r|done].
  - destruct (A !! v) as [i|] eqn:E; [|done]. destruct (hp_arena _ _ _ _ _ _ Hr v i E) as (_ & _ & f & Hf & _).
    destruct (allocated_new pf m m' v (ho_space _ Hh) Hal) as [Hn _]. congruence.
Qed.

Lemma pool_page_addr pf m v r off : heap_ok m -> pool_page pf m v r -> 0 <= off < 4096 -> mapped_addr m (v + off).
Proof.
  intros Hh Hp Hoff. pose proof (pool_page_page _ _ _ _ Hh Hp) as Hpg. destruct Hp as (_ & _ & f & Hf & _ & Hcr). exists v, f. split; [done|]. split; [lia|done].
Qed.

(** Words from [v] on that read zero. *)
Definition zero_words (m : mem) (v n : Z) : Prop := forall j, 0 <= j < n / 4 -> load32 (v + 4 * j) m = Ok (0, m).

Lemma heap_clear o k t v n m ds ar :
  tasks k !! running k = Some t -> heap_ok m -> (forall j, 0 <= j < n / 4 -> mapped_addr m (v + 4 * j)) ->
  exists ph, clear v n (heap_state o k m ds ar) = Ret tt (heap_state o k (with_phys m ph) ds ar) /\ same_tables m (with_phys m ph)
    /\ zero_words (with_phys m ph) v n.
Proof.
  intros Ht Hh Hm. destruct (memset0_run (Z.to_nat (n / 4)) v m Hh) as (ph & Hrun & Hs & Hz & _ & _); [intros j Hj; apply Hm; lia|].
  exists ph. split; [unfold clear; by apply heap_in_mem with t|]. split; [done|]. intros j Hj. unfold load32.
  pose proof (mapped_addr_range m _ (Hm j Hj)) as Hrg. rewrite (same_translate m _ _ Hs) by done.
  destruct (mapped_addr_translate m _ (Hm j Hj)) as [a Ha]. rewrite Ha. do 2 f_equal. apply (Hz j a); [lia|done].
Qed.

(** The free blocks of an arena. *)
Lemma arena_free o pf m ds ar A a i :
  heap_rep o pf m ds ar A -> A !! a = Some i ->
  NoDup (free_in_arena ds i a) /\ (forall b, b ∈ free_in_arena ds i a <-> b ∈ free_of ds i /\ b ∈ blocks a i)
  /\ Z.of_nat (length (free_in_arena ds i a)) <= bcount i.
Proof.
  intros Hr Ha. destruct (arena_page _ _ _ _ _ _ _ _ Hr Ha) as [Hp Hi].
  assert (NoDup (free_in_arena ds i a)) as Hnd by (apply NoDup_filter; by apply Hr).
  assert (forall b, b ∈ free_in_arena ds i a <-> b ∈ free_of ds i /\ b ∈ blocks a i) as Hin.
  { intros b. unfold free_in_arena. rewrite list_elem_of_filter. split; intros [H1 H2].
    - split; [done|]. destruct (hp_free _ _ _ _ _ _ Hr i b Hi H2) as (a' & Ha' & Hb). destruct (arena_page _ _ _ _ _ _ _ _ Hr Ha') as [Hp' _].
      rewrite (block2arena_block a' i b Hp' Hi Hb) in H1. by subst a'.
    - split; [by apply (block2arena_block a i)|done]. }
  split; [done|]. split; [done|]. rewrite <- (blocks_length a i Hi). apply Nat2Z.inj_le. apply submseteq_length, NoDup_submseteq; [done|].
  intros b Hb. by apply Hin in Hb as [_ ?].
Qed.

(** ** Taking a block *)

(** The heap after block [b] of class [i] was taken. *)
Record taken (o : Z) (pf : pool_flags) (m : mem) (ds : list mem_block_desc) (ar : gmap Z arena) (A : gmap Z Z) (i b : Z)
    (m' : mem) (ds' : list mem_block_desc) (ar' : gmap Z arena) : Prop := {
  tk_rep : heap_rep o pf m' ds' ar' A;
  tk_same : same_tables m m';
  tk_block : exists a, A !! a = Some i /\ b ∈ blocks a i;
  tk_was : b ∈ free_of ds i;
  tk_now : forall j x, 0 <= j < 7 -> x ∈ free_of ds' j <-> x ∈ free_of ds j /\ ~ (j = i /\ x = b);
  tk_zero : zero_words m' b (bsize i)
}.

Lemma take_block_run o pf k t m ds ar A i b rest :
  tasks k !! running k = Some t -> (o = 0 \/ o = running k) -> lock_free k (pool_lock pf) ->
  heap_rep o pf m ds ar A -> 0 <= i < 7 -> free_of ds i = b :: rest ->
  exists m' ds' ar', take_block pf (o, i) (heap_state o (held (pool_lock pf) k) m ds ar) = Ret b (heap_state o k m' ds' ar')
    /\ taken o pf m ds ar A i b m' ds' ar'.
Proof.
  intros Ht Ho Hlk Hr Hi Hfr. set (kh := held (pool_lock pf) k). assert (tasks kh !! running kh = Some t) as Hth by done.
  assert (b ∈ free_of ds i) as Hin by (rewrite Hfr; apply list_elem_of_here).
  destruct (hp_free _ _ _ _ _ _ Hr i b Hi Hin) as (a & Ha & Hb). destruct (arena_page _ _ _ _ _ _ _ _ Hr Ha) as [Hpa _].
  pose proof (block2arena_block a i b Hpa Hi Hb) as Hba. destruct (hp_arena _ _ _ _ _ _ Hr a i Ha) as (_ & (r & Hpp) & f & Hf & Harf).
  destruct (arena_free _ _ _ _ _ _ _ _ Hr Ha) as (_ & _ & Hcl). pose proof (bcount_range i Hi) as (Hbc & _ & Hb4 & _).
  pose proof (hp_nodup _ _ _ _ _ _ Hr i Hi) as Hnd. rewrite Hfr in Hnd. apply NoDup_cons in Hnd as [Hnb Hnd].
  assert (free_in_arena ds i a = b :: filter (fun x => block2arena x = a) rest) as Hfa
    by (unfold free_in_arena; rewrite Hfr, filter_cons_True; done).
  pose proof (hp_descs _ _ _ _ _ _ Hr) as Hd. pose proof (hp_heap _ _ _ _ _ _ Hr) as Hh. pose proof (block_range a i b Hi Hb) as Hrg. pose proof (bsize_pos i).
  destruct (heap_clear o kh t b (bsize i) m (set_free ds i rest) ar Hth Hh) as (ph & Hclr & Hs & Hz).
  { intros j Hj. replace (b + 4 * j) with (a + (b + 4 * j - a)) by lia. apply (pool_page_addr pf m a r); [done|done|lia]. }
  set (m' := with_phys m ph) in *. set (cn := Z.of_nat (length (filter (fun x => block2arena x = a) rest))).
  assert (translate m' a = Some f) as Hf'.
  { rewrite (same_translate m m' a Hs); [done|]. pose proof (page_range a Hpa). unfold window in *. lia. }
  exists m', (set_free ds i rest), (<[f := Arena (Some (o, i)) cn false]> ar). split.
  - unfold take_block. prun (get_desc_rep o kh t Hth Ho m ds ar i Hd Hi). cbn [free_list block_size blocks_per_arena]. rewrite Hfr.
    prun (eq_refl : lift (seq_pop (b :: rest)) (heap_state o kh m ds ar) = Ret (b, rest) (heap_state o kh m ds ar)).
    prun (set_desc_rep o kh t Hth Ho m ds ar i rest Hd Hi). prun Hclr. rewrite Hba.
    prun (heap_get_arena o kh m' (set_free ds i rest) ar a f _ Hf' Harf). cbn [desc cnt large].
    assert (u32 (Z.of_nat (length (free_in_arena ds i a)) - 1) = cn) as ->.
    { rewrite Hfa. cbn [length]. subst cn. rewrite Hfa in Hcl. cbn [length] in Hcl. rewrite u32_id; lia. }
    prun (heap_set_arena o kh m' (set_free ds i rest) ar a f (Arena (Some (o, i)) cn false) Hf').
    by prun (heap_release o k (pool_lock pf) m' (set_free ds i rest) (<[f := Arena (Some (o, i)) cn false]> ar) Hlk).
  - constructor; [|done|by exists a|done| |done].
    + apply (heap_rep_same o pf m); [|done]. apply heap_rep_change; [done|done|done|done| |].
      * intros x Hx. apply (hp_free _ _ _ _ _ _ Hr i x Hi). rewrite Hfr. by apply list_elem_of_further.
      * intros a' Hne. unfold free_in_arena. rewrite Hfr, filter_cons_False by congruence. done.
    + intros j x Hj. rewrite free_of_set by (done || lia). case_decide as E; [subst j|naive_solver].
      rewrite Hfr, elem_of_cons. split; [|naive_solver]. intros Hx. split; [by right|]. intros [_ ->]. done.
Qed.

(** A page becomes an arena of free blocks; then a block is taken. *)
Lemma new_arena_run o pf kh t m m1 ds ar A i a :
  tasks kh !! running kh = Some t -> (o = 0 \/ o = running kh) ->
  heap_rep o pf m ds ar A -> 0 <= i < 7 -> free_of ds i = [] -> allocated pf 1 m m1 a ->
  exists m2 ar2, heap_rep o pf m2 (set_free ds i (blocks a i)) ar2 (<[a := i]> A) /\ A !! a = None /\
    (_ ← clear a PG_SIZE;
     _ ← set_arena a (Arena (Some (o, i)) (bcount i) false);
     old_status ← k_intr_disable;
     _ ← carve (Z.to_nat (bcount i)) (o, i) a 0;
     _ ← k_intr_set_status old_status;
     take_block pf (o, i)) (heap_state o kh m1 ds ar)
    = take_block pf (o, i) (heap_state o kh m2 (set_free ds i (blocks a i)) ar2).
Proof.
  intros Ht Ho Hr Hi Hfr Hal. destruct (heap_rep_allocated o pf m m1 ds ar A a Hr Hal) as [Hr1 Hna].
  destruct (allocated_new pf m m1 a (ho_space _ (hp_heap _ _ _ _ _ _ Hr)) Hal) as (_ & r & Hpp). pose proof (hp_heap _ _ _ _ _ _ Hr1) as Hh1. pose proof (hp_descs _ _ _ _ _ _ Hr1) as Hd.
  pose proof (pool_page_page pf m1 a r Hh1 Hpp) as Hpa.
  destruct (heap_clear o kh t a PG_SIZE m1 ds ar Ht Hh1) as (ph & Hclr & Hs & _).
  { intros j Hj. apply (pool_page_addr pf m1 a r); [done|done|]. unfold PG_SIZE in Hj. lia. }
  set (m2 := with_phys m1 ph) in *. pose proof (pool_page_same pf m1 m2 a r Hh1 Hs Hpp) as Hpp2.
  pose proof Hpp2 as (_ & _ & f & Hf & _). pose proof (heap_rep_same o pf m1 m2 ds ar A Hr1 Hs) as Hr2.
  exists m2, (<[f := Arena (Some (o, i)) (bcount i) false]> ar). split; [apply heap_rep_add; [done|done|done|by exists r|done|done]|]. split; [done|].
  prun Hclr. prun (heap_set_arena o kh m2 ds ar a f (Arena (Some (o, i)) (bcount i) false) Hf).
  set (ar2 := <[f := _]> ar). prun (run_disable (heap_state o kh m2 ds ar2)). rewrite heap_flags.
  set (kd := set_eflags _ kh). pose proof (bcount_range i Hi) as (Hbc & _).
  assert (carve (Z.to_nat (bcount i)) (o, i) a 0 (heap_state o kd m2 ds ar2) = Ret tt (heap_state o kd m2 (set_free ds i (blocks a i)) ar2)) as Hcv.
  { rewrite (carve_run o kd t Ht Ho (Z.to_nat (bcount i)) a i 0 m2 ds ar2 Hd Hi Hpa) by (try lia; intros; rewrite Hfr; apply not_elem_of_nil).
    rewrite Hfr. cbn [app]. unfold blocks. by rewrite Z2Nat.id by lia. }
  prun Hcv.
  assert (k_intr_set_status (intr_disable (eflags (heap_state o kh m2 ds ar2))).1 (heap_state o kd m2 (set_free ds i (blocks a i)) ar2)
    = Ret tt (heap_state o kh m2 (set_free ds i (blocks a i)) ar2)) as Hst.
  { rewrite (restore_flags kh) by done. rewrite heap_flags. unfold kd. by destruct kh. }
  by prun Hst.
Qed.

(** ** sys_malloc *)

Definition owner_of (k : kernel) (t : task_struct) : Z := if pgdir t =? 0 then 0 else running k.

Definition pool_flag (t : task_struct) : pool_flags := if pgdir t =? 0 then PF_KERNEL else PF_USER.

(** The heap of the running task [t] has the arenas [A]. *)
Definition heap_of (k : kernel) (t : task_struct) (A : gmap Z Z) : Prop :=
  tasks k !! running k = Some t /\ running k <> 0
  /\ exists ds, descs_of (owner_of k t) k = Some ds /\ heap_rep (owner_of k t) (pool_flag t) (view k) ds (arenas k) A.

(** The class [sys_malloc] serves a request from. *)
Definition class_of (size i : Z) : Prop := 0 <= i < 7 /\ size <= bsize i /\ forall j, 0 <= j < i -> bsize j < size.

(** What [sys_malloc] runs for a request of at most 1024 bytes, lock held. *)
Definition small (pf : pool_flags) (o desc_idx : Z) : proc kernel Z :=
  d ← get_desc (o, desc_idx);
  if seq_empty (free_list d) then
    a ← in_mem (malloc_page pf 1);
    if a =? 0 then
      _ ← lock_release (pool_lock pf); mret 0
    else
      _ ← clear a PG_SIZE;
      _ ← set_arena a (Arena (Some (o, desc_idx)) (blocks_per_arena d) false);
      old_status ← k_intr_disable;
      _ ← carve (Z.to_nat (blocks_per_arena d)) (o, desc_idx) a 0;
      _ ← k_intr_set_status old_status;
      take_block pf (o, desc_idx)
  else take_block pf (o, desc_idx).

(** The reasons for which a page is refused. *)
Definition no_page (pf : pool_flags) (m : mem) : Prop :=
  (forall j, 0 <= j < va_bits (va_of pf m) -> va_used (va_of pf m) j = true)
  \/ (pf = PF_USER /\ 0xc0000000 - 4096 <= va_page (va_of pf m) (va_bits (va_of pf m))) \/ ~ enough 1 pf m.

Lemma small_run o pf k t m ds ar A i :
  tasks k !! running k = Some t -> (o = 0 \/ o = running k) -> lock_free k (pool_lock pf) -> heap_rep o pf m ds ar A -> 0 <= i < 7 ->
  let k0 := heap_state o (held (pool_lock pf) k) m ds ar in
  (exists b m1 ds1 ar1 A1 m' ds' ar', small pf o i k0 = Ret b (heap_state o k m' ds' ar')
     /\ taken o pf m1 ds1 ar1 A1 i b m' ds' ar' /\ heap_rep o pf m1 ds1 ar1 A1
     /\ ((m1 = m /\ ds1 = ds /\ A1 = A) \/ exists a, A !! a = None /\ A1 = <[a := i]> A /\ free_of ds i = [] /\ descs_ok ds /\ ds1 = set_free ds i (blocks a i)))
  \/ (free_of ds i = [] /\ small pf o i k0 = Ret 0 (heap_state o k m ds ar)
      /\ forall s, 0 <= s <= va_bits (va_of pf m) -> va_used (va_of pf m) s = true)
  \/ (free_of ds i = [] /\ small pf o i k0 = Err EPanic /\ no_page pf m).
Proof.
  intros Ht Ho Hlk Hr Hi k0. set (kh := held (pool_lock pf) k) in *. assert (tasks kh !! running kh = Some t) as Hth by done.
  pose proof (hp_descs _ _ _ _ _ _ Hr) as Hd. pose proof (hp_heap _ _ _ _ _ _ Hr) as Hh.
  unfold small, k0. prun (get_desc_rep o kh t Hth Ho m ds ar i Hd Hi). cbn [free_list blocks_per_arena block_size].
  destruct (free_of ds i) as [|b rest] eqn:Hfr.
  - cbn [seq_empty]. destruct (malloc_page_spec pf 1 m Hh ltac:(lia)) as [(a & m1 & Hm & Hn & Hal)|[[Hm Hno]|[Hm Hwhy]]].
    + left. prun (heap_in_mem o kh t Hth _ m ds ar a m1 Hm). rewrite (proj2 (Z.eqb_neq a 0) Hn).
      destruct (new_arena_run o pf kh t m m1 ds ar A i a Hth Ho Hr Hi Hfr Hal) as (m2 & ar2 & Hr2 & Hna & ->).
      pose proof (blocks_length a i Hi) as Hbl. pose proof (bcount_range i Hi) as (Hbc & _).
      destruct (blocks a i) as [|b rest] eqn:Hbs; [cbn in Hbl; lia|].
      assert (free_of (set_free ds i (b :: rest)) i = b :: rest) as Hfr2 by (by rewrite free_of_set, decide_True by (done || lia)).
      destruct (take_block_run o pf k t m2 (set_free ds i (b :: rest)) ar2 (<[a := i]> A) i b rest Ht Ho Hlk Hr2 Hi Hfr2) as (m' & ds' & ar' & Htk & Htaken).
      exists b, m2, (set_free ds i (b :: rest)), ar2, (<[a := i]> A), m', ds', ar'. split; [exact Htk|]. split; [done|]. split; [done|]. right. exists a. by rewrite Hbs.
    + right; left. prun (heap_in_mem o kh t Hth _ m ds ar 0 m Hm). change (0 =? 0) with true. cbv iota.
      prun (heap_release o k (pool_lock pf) m ds ar Hlk). split; [done|]. split; [done|]. intros s Hs.
      destruct (Hno s) as (j & Hj & Hu); [lia|lia|]. by replace s with j by lia.
    + right; right. split; [done|]. split; [|exact Hwhy]. by rewrite (bind_Err _ _ _ _ (heap_in_mem_bad o kh t Hth _ m ds ar EPanic Hm)).
  - left. cbn [seq_empty]. destruct (take_block_run o pf k t m ds ar A i b rest Ht Ho Hlk Hr Hi Hfr) as (m' & ds' & ar' & Htk & Htaken).
    exists b, m, ds, ar, A, m', ds', ar'. split; [exact Htk|]. split; [done|]. split; [done|]. by left.
Qed.

(** A block belongs to one arena. *)
Lemma block_arena o pf m ds ar A a i a' i' b :
  heap_rep o pf m ds ar A -> A !! a = Some i -> A !! a' = Some i' -> b ∈ blocks a i -> b ∈ blocks a' i' -> a = a' /\ i = i'.
Proof.
  intros Hr Ha Ha' Hb Hb'. destruct (arena_page _ _ _ _ _ _ _ _ Hr Ha) as [Hp Hi], (arena_page _ _ _ _ _ _ _ _ Hr Ha') as [Hp' Hi'].
  assert (a = a') as <- by (rewrite <- (block2arena_block a i b), (block2arena_block a' i' b) by done; done). split; congruence.
Qed.

Lemma taken_in_use o pf m ds ar A i b m' ds' ar' :
  heap_rep o pf m ds ar A -> 0 <= i < 7 -> taken o pf m ds ar A i b m' ds' ar' ->
  ~ in_use ds A b /\ forall x, in_use ds' A x <-> in_use ds A x \/ x = b.
Proof.
  intros Hr Hi [_ _ (a & Ha & Hb) Hwas Hnow _]. split.
  - intros (a' & i' & Ha' & Hb' & Hn). destruct (block_arena _ _ _ _ _ _ _ _ _ _ _ Hr Ha Ha' Hb Hb') as [<- <-]. done.
  - intros x. split.
    + intros (a' & i' & Ha' & Hb' & Hn). destruct (decide (x = b)) as [->|Hne]; [by right|left]. exists a', i'. split; [done|]. split; [done|].
      destruct (arena_page _ _ _ _ _ _ _ _ Hr Ha') as [_ Hi']. rewrite Hnow in Hn by done. naive_solver.
    + intros [(a' & i' & Ha' & Hb' & Hn)| ->].
      * exists a', i'. split; [done|]. split; [done|]. destruct (arena_page _ _ _ _ _ _ _ _ Hr Ha') as [_ Hi']. rewrite Hnow by done. naive_solver.
      * exists a, i. split; [done|]. split; [done|]. rewrite Hnow by done. naive_solver.
Qed.

Lemma add_in_use o pf m ds ar A i a :
  heap_rep o pf m ds ar A -> 0 <= i < 7 -> A !! a = None -> page a -> free_of ds i = [] ->
  forall x, in_use (set_free ds i (blocks a i)) (<[a := i]> A) x <-> in_use ds A x.
Proof.
  intros Hr Hi Hna Hpa Hfr x. pose proof (hp_descs _ _ _ _ _ _ Hr) as Hd. split.
  - intros (a' & i' & Ha' & Hb' & Hn). destruct (decide (a' = a)) as [->|Hn'].
    + rewrite lookup_insert_eq in Ha'. injection Ha' as <-. rewrite free_of_set, decide_True in Hn by (done || lia). done.
    + rewrite lookup_insert_ne in Ha' by congruence. exists a', i'. split; [done|]. split; [done|].
      destruct (arena_page _ _ _ _ _ _ _ _ Hr Ha') as [_ Hi']. rewrite free_of_set in Hn by (done || lia). case_decide as E; [|done].
      subst i'. rewrite Hfr. apply not_elem_of_nil.
  - intros (a' & i' & Ha' & Hb' & Hn). assert (a' <> a) as Hn' by congruence. exists a', i'. rewrite lookup_insert_ne by congruence.
    split; [done|]. split; [done|]. destruct (arena_page _ _ _ _ _ _ _ _ Hr Ha') as [Hpa' Hi']. rewrite free_of_set by (done || lia).
    case_decide as E; [|done]. subst i'. intros Hin. apply Hn'.
    by rewrite <- (block2arena_block a' i x), (block2arena_block a i x).
Qed.

(** [used k t A b]: block [b] of the running task's heap is in use. *)
Definition used (k : kernel) (t : task_struct) (A : gmap Z Z) (b : Z) : Prop :=
  exists ds, descs_of (owner_of k t) k = Some ds /\ in_use ds A b.

(** The running task after heap operations: its pcb may have other descriptors
    and another virtual pool. *)
Lemma heap_of_state k t m ds ar A :
  tasks k !! running k = Some t -> running k <> 0 ->
  heap_rep (owner_of k t) (pool_flag t) m ds ar A ->
  let k' := heap_state (owner_of k t) k m ds ar in
  exists t', heap_of k' t' A /\ owner_of k' t' = owner_of k t /\ pool_flag t' = pool_flag t /\ (forall b, used k' t' A b <-> in_use ds A b).
Proof.
  intros Ht Hn Hr k'. set (o := owner_of k t) in *. set (t' := set_userprog_vaddr (cur_vaddr m) (if o =? 0 then t else set_u_block_desc ds t)).
  assert (tasks k' !! running k' = Some t') as Ht' by (exact (heap_state_task o k t Ht m ds ar)).
  assert (owner_of k' t' = o) as Ho' by (unfold owner_of, t', o; change (running k') with (running k); by destruct (owner_of k t =? 0)).
  assert (pool_flag t' = pool_flag t) as Hp' by (unfold pool_flag, t'; by destruct (o =? 0)).
  assert (descs_of o k' = Some ds) as Hd' by (by apply (heap_state_descs o k t)).
  exists t'. split; [|split; [done|split; [done|]]].
  - split; [done|]. split; [done|]. exists ds. rewrite Ho', Hp'. split; [done|].
    replace (view k') with m by (symmetry; by apply (heap_state_view o k t)). done.
  - intros b. unfold used. rewrite Ho', Hd'. split; [by intros (? & [= <-] & ?)|by exists ds].
Qed.

(** The class that serves the request has no free block. *)
Definition class_empty (k : kernel) (t : task_struct) (size : Z) : Prop :=
  exists i ds, class_of size i /\ descs_of (owner_of k t) k = Some ds /\ free_of ds i = [].

(** What a successful small [sys_malloc] gives. *)
Record got_block (k : kernel) (t : task_struct) (A : gmap Z Z) (size b : Z) (k' : kernel) (t' : task_struct) (A' : gmap Z Z) : Prop := {
  gb_heap : heap_of k' t' A';
  gb_lock : lock_free k' (pool_lock (pool_flag t'));
  gb_fresh : ~ used k t A b;
  gb_used : forall x, used k' t' A' x <-> used k t A x \/ x = b;
  gb_block : exists a i, A' !! a = Some i /\ b ∈ blocks a i /\ class_of size i /\ zero_words (view k') b (bsize i)
    /\ forall a' i' x, A' !! a' = Some i' -> x ∈ blocks a' i' -> b <> x -> b + bsize i <= x \/ x + bsize i' <= b;
  gb_arenas : A' = A \/ (class_empty k t size /\ exists a i, A !! a = None /\ class_of size i /\ A' = <[a := i]> A);
  gb_task : running k' = running k /\ owner_of k' t' = owner_of k t /\ pool_flag t' = pool_flag t
}.

Lemma malloc_small f k t size :
  tasks k !! running k = Some t -> running k <> 0 -> lock_free k (pool_lock (pool_flag t)) ->
  0 < size <= 1024 -> size < pool_size (pool_of (pool_flag t) (kmem k)) ->
  (exists ds, descs_of (owner_of k t) k = Some ds /\ descs_ok ds) ->
  exists i, class_of size i /\ sys_malloc (S f) size k = small (pool_flag t) (owner_of k t) i (held (pool_lock (pool_flag t)) k).
Proof.
  intros Ht Hn Hlk Hs Hps (ds & Hds & Hd). set (o := owner_of k t). set (pf := pool_flag t).
  assert (o = 0 \/ o = running k) as Ho by (unfold o, owner_of; destruct (pgdir t =? 0); [by left|by right]).
  set (kh := held (pool_lock pf) k). assert (tasks kh !! running kh = Some t) as Hth by done.
  assert (descs_of o kh = Some ds) as Hdh by done. pose proof (heap_state_self o kh t Hth Ho ds Hdh) as Hself.
  destruct (find_desc_run o kh t Hth Ho 7 0 (view kh) ds (arenas kh) size Hd) as (i & Hfd & Hi & Hsz & Hlow); [lia|lia|lia|lia|].
  rewrite Hself in Hfd. exists i. split; [split; [lia|split; [done|exact Hlow]]|].
  unfold sys_malloc. pget. unfold task at 1. prun (run_load tasks k _ t Ht). fold (pool_flag t). fold pf. fold (owner_of k t). fold o.
  replace ((0 <? size) && (size <? pool_size (pool_of pf (kmem k)))) with true by (unfold pf; lia). cbn [negb].
  prun (acquire_run f k (pool_lock pf) Hlk Hn). replace (1024 <? size) with false by lia.
  prun Hfd. reflexivity.
Qed.

Lemma sys_malloc_small_run f k t A size :
  heap_of k t A -> lock_free k (pool_lock (pool_flag t)) -> 0 < size <= 1024 -> size < pool_size (pool_of (pool_flag t) (kmem k)) ->
  (exists b k' t' A', sys_malloc (S f) size k = Ret b k' /\ got_block k t A size b k' t' A')
  \/ (sys_malloc (S f) size k = Ret 0 k /\ class_empty k t size
      /\ forall s, 0 <= s <= va_bits (va_of (pool_flag t) (view k)) -> va_used (va_of (pool_flag t) (view k)) s = true)
  \/ (sys_malloc (S f) size k = Err EPanic /\ class_empty k t size /\ no_page (pool_flag t) (view k)).
Proof.
  intros (Ht & Hn & ds & Hds & Hr) Hlk Hs Hps. set (o := owner_of k t) in *. set (pf := pool_flag t) in *.
  assert (o = 0 \/ o = running k) as Ho by (unfold o, owner_of; destruct (pgdir t =? 0); [by left|by right]).
  pose proof (hp_descs _ _ _ _ _ _ Hr) as Hd.
  destruct (malloc_small f k t size Ht Hn Hlk Hs Hps (ex_intro _ ds (conj Hds Hd))) as (i & Hcl & ->). pose proof Hcl as [Hi _]. fold o. fold pf.
  assert (held (pool_lock pf) k = heap_state o (held (pool_lock pf) k) (view k) ds (arenas k)) as Hself
    by (symmetry; exact (heap_state_self o (held (pool_lock pf) k) t Ht Ho ds Hds)).
  assert (heap_state o k (view k) ds (arenas k) = k) as Hself2 by exact (heap_state_self o k t Ht Ho ds Hds).
  rewrite Hself. destruct (small_run o pf k t (view k) ds (arenas k) A i Ht Ho Hlk Hr Hi)
    as [(b & m1 & ds1 & ar1 & A1 & m' & ds' & ar' & Hrun & Htk & Hr1 & Hcase)|[(Hno & Hrun & Hall)|(Hno & Hrun & Hwhy)]].
  - left. destruct (heap_of_state k t m' ds' ar' A1 Ht Hn (tk_rep _ _ _ _ _ _ _ _ _ _ _ Htk)) as (t' & Hh' & Ho' & Hp' & Hu').
    exists b, (heap_state o k m' ds' ar'), t', A1. split; [exact Hrun|].
    destruct (taken_in_use o pf m1 ds1 ar1 A1 i b m' ds' ar' Hr1 Hi Htk) as [Hfr1 Hus1].
    assert ((A1 = A \/ (class_empty k t size /\ exists a i, A !! a = None /\ class_of size i /\ A1 = <[a := i]> A)) /\ forall x, in_use ds1 A1 x <-> in_use ds A x) as [Hsub Hsame].
    { destruct Hcase as [(-> & -> & ->)|(a & Hna & -> & Hfr & _ & ->)]; [by split; [left|]|].
      split; [right; split; [by exists i, ds|by exists a, i]|]. apply (add_in_use o pf (view k) ds (arenas k)); try done. by apply (arena_page _ _ _ _ _ _ a i Hr1), lookup_insert_eq. }
    constructor; [done|by rewrite Hp'| | | |done|done].
    + unfold used. fold o. rewrite Hds. intros (? & [= <-] & H). apply Hfr1. by apply Hsame.
    + intros x. assert (used k t A x <-> in_use ds A x) as ->.
      { unfold used. fold o. rewrite Hds. split; [by intros (? & [= <-] & ?)|by exists ds]. }
      rewrite <- Hsame, <- Hus1. apply Hu'.
    + destruct (tk_block _ _ _ _ _ _ _ _ _ _ _ Htk) as (a & Ha & Hb). exists a, i. split; [done|]. split; [done|]. split; [done|].
      replace (view (heap_state o k m' ds' ar')) with m' by (symmetry; by apply (heap_state_view o k t)). split; [apply Htk|].
      intros a' i' x Ha' Hx Hne. destruct (arena_page _ _ _ _ _ _ _ _ Hr1 Ha) as [Hpa _], (arena_page _ _ _ _ _ _ _ _ Hr1 Ha') as [Hpa' Hi'].
      apply (blocks_disjoint a i b a' i' x Hpa Hpa' Hi Hi' Hb Hx); [|done]. intros ->. congruence.
  - right; left. rewrite Hrun, Hself2. split; [done|]. split; [by exists i, ds|exact Hall].
  - right; right. rewrite Hrun. split; [done|]. split; [by exists i, ds|exact Hwhy].
Qed.

(** ** sys_free *)

Lemma filter_ext_in {A} (P Q : A -> Prop) `{!forall x, Decision (P x)} `{!forall x, Decision (Q x)} (l : list A) :
  (forall x, x ∈ l -> P x <-> Q x) -> filter P l = filter Q l.
Proof.
  induction l as [|x l IH]; intros Hpq; [done|]. rewrite !filter_cons. pose proof (Hpq x (list_elem_of_here x l)) as Hx.
  rewrite IH by (intros y Hy; apply Hpq; by apply list_elem_of_further). repeat case_decide; tauto.
Qed.

(** An arena with as many free blocks as it has blocks is free. *)
Lemma all_free o pf m ds ar A a i :
  heap_rep o pf m ds ar A -> A !! a = Some i -> Z.of_nat (length (free_in_arena ds i a)) = bcount i ->
  forall b, b ∈ blocks a i -> b ∈ free_of ds i.
Proof.
  intros Hr Ha Hl b Hb. destruct (arena_free _ _ _ _ _ _ _ _ Hr Ha) as (Hnd & Hin & _). destruct (arena_page _ _ _ _ _ _ _ _ Hr Ha) as [_ Hi].
  apply (Hin b). assert (free_in_arena ds i a ⊆+ blocks a i) as Hsub.
  { apply NoDup_submseteq; [done|]. intros x Hx. by apply Hin in Hx as [_ ?]. }
  rewrite (submseteq_length_Permutation _ _ Hsub); [done|]. pose proof (blocks_length a i Hi). lia.
Qed.

(** The block put back into its free list. *)
Lemma heap_rep_give o pf m ds ar A a i b f :
  heap_rep o pf m ds ar A -> A !! a = Some i -> b ∈ blocks a i -> b ∉ free_of ds i -> translate m a = Some f ->
  let c := Z.of_nat (length (free_in_arena ds i a)) + 1 in
  let ds1 := set_free ds i (free_of ds i ++ [b]) in
  let ar1 := <[f := Arena (Some (o, i)) c false]> ar in
  heap_rep o pf m ds1 ar1 A /\ (forall x, in_use ds1 A x <-> in_use ds A x /\ x <> b)
  /\ Z.of_nat (length (free_in_arena ds1 i a)) = c.
Proof.
  intros Hr Ha Hb Hnb Hf c ds1 ar1. destruct (arena_page _ _ _ _ _ _ _ _ Hr Ha) as [Hpa Hi]. pose proof (hp_descs _ _ _ _ _ _ Hr) as Hd.
  pose proof (block2arena_block a i b Hpa Hi Hb) as Hba.
  assert (free_of ds1 i = free_of ds i ++ [b]) as Hfo by (unfold ds1; by rewrite free_of_set, decide_True by (done || lia)).
  assert (filter (fun x => block2arena x = a) (free_of ds i ++ [b]) = free_in_arena ds i a ++ [b]) as Hfi
    by (rewrite filter_app; f_equal; by rewrite filter_cons_True).
  assert (Z.of_nat (length (filter (fun x => block2arena x = a) (free_of ds i ++ [b]))) = c) as Hlen
    by (rewrite Hfi, length_app; cbn [length]; unfold c; lia).
  split; [|split; [|unfold free_in_arena; by rewrite Hfo]].
  - unfold ar1. rewrite <- Hlen. apply heap_rep_change; [done|done|done| | |].
    + apply NoDup_app. split; [by apply Hr|]. split; [|apply NoDup_singleton]. intros x Hx Hx2. apply list_elem_of_singleton in Hx2. by subst x.
    + intros x. rewrite elem_of_app, list_elem_of_singleton. intros [Hx| ->]; [by apply Hr|by exists a].
    + intros a' Hne. unfold free_in_arena. rewrite filter_app, (filter_cons_False _ b) by congruence. by rewrite app_nil_r.
  - intros x. split.
    + intros (a' & i' & Ha' & Hx & Hn). destruct (arena_page _ _ _ _ _ _ _ _ Hr Ha') as [_ Hi'].
      unfold ds1 in Hn. rewrite free_of_set in Hn by (done || lia). case_decide as E; [subst i'|].
      * rewrite elem_of_app, list_elem_of_singleton in Hn. split; [exists a', i|]; naive_solver.
      * split; [by exists a', i'|]. intros ->. destruct (block_arena _ _ _ _ _ _ _ _ _ _ _ Hr Ha Ha' Hb Hx). done.
    + intros [(a' & i' & Ha' & Hx & Hn) Hne]. exists a', i'. split; [done|]. split; [done|].
      destruct (arena_page _ _ _ _ _ _ _ _ Hr Ha') as [_ Hi']. unfold ds1. rewrite free_of_set by (done || lia). case_decide as E; [subst i'|done].
      rewrite elem_of_app, list_elem_of_singleton. naive_solver.
Qed.

Lemma freed_kva pf m m' r : freed pf 1 m m' r -> vaddr_start (kernel_vaddr m') = vaddr_start (kernel_vaddr m).
Proof.
  intros Hf. destruct pf.
  - destruct (fr_bits _ _ _ _ _ Hf) as (Hs & _). exact Hs.
  - pose proof (fr_other_va _ _ _ _ _ Hf PF_KERNEL ltac:(done)) as He. cbn [va_of] in He. by rewrite He.
Qed.

(** The page of an arena without blocks in use goes back. *)
Lemma drop_arena_run o pf k t m ds ar A a i :
  tasks k !! running k = Some t -> (o = 0 \/ o = running k) -> heap_rep o pf m ds ar A -> A !! a = Some i ->
  (forall b, b ∈ blocks a i -> b ∈ free_of ds i) ->
  exists m' ds', (_ ← uncarve (Z.to_nat (bcount i)) (o, i) a 0; in_mem (mfree_page pf a 1)) (heap_state o k m ds ar) = Ret tt (heap_state o k m' ds' ar)
    /\ heap_rep o pf m' ds' ar (delete a A) /\ (forall x, in_use ds' (delete a A) x <-> in_use ds A x) /\ translate m' a = None.
Proof.
  intros Ht Ho Hr Ha Hall. destruct (arena_page _ _ _ _ _ _ _ _ Hr Ha) as [Hpa Hi]. pose proof (hp_descs _ _ _ _ _ _ Hr) as Hd.
  pose proof (bcount_range i Hi) as (Hbc & _). pose proof (hp_heap _ _ _ _ _ _ Hr) as Hh.
  destruct (hp_arena _ _ _ _ _ _ Hr a i Ha) as (_ & (r & Hpp) & _). destruct (free_page_spec pf m a r Hh Hpp) as (m' & Hm' & Hfr).
  set (l := filter (fun b => block2arena b <> a) (free_of ds i)). exists m', (set_free ds i l).
  assert (filter (fun b => b ∉ blocks a i) (free_of ds i) = l) as Hl.
  { apply filter_ext_in. intros x Hx. destruct (hp_free _ _ _ _ _ _ Hr i x Hi Hx) as (a' & Ha' & Hb').
    destruct (arena_page _ _ _ _ _ _ _ _ Hr Ha') as [Hpa' _]. split.
    - intros Hn Hba. apply Hn. rewrite (block2arena_block a' i x Hpa' Hi Hb') in Hba. by subst a'.
    - intros Hba Hin. apply Hba. by apply (block2arena_block a i). }
  assert (uncarve (Z.to_nat (bcount i)) (o, i) a 0 (heap_state o k m ds ar) = Ret tt (heap_state o k m (set_free ds i l) ar)) as Hun.
  { rewrite (uncarve_run o k t Ht Ho (Z.to_nat (bcount i)) a i 0 m ds ar Hd Hi Hpa); [|lia|lia|].
    - rewrite Z2Nat.id by lia. fold (blocks a i). by rewrite Hl.
    - intros j Hj. apply Hall, elem_of_blocks. exists j. split; [lia|done]. }
  split; [prun Hun; by apply (heap_in_mem o k t Ht)|]. split; [|split].
  - apply (heap_rep_remove o pf m); [done|done|apply Hfr|by apply (freed_kva pf m m' r)|]. intros a' i' Hne Ha'. destruct (hp_arena _ _ _ _ _ _ Hr a' i' Ha') as (_ & (r' & Hpp') & _).
    pose proof (pool_page_page _ _ _ _ Hh Hpp') as Hpa'. split; [exists r'|by apply (freed_others pf m m' r a a' Hfr Hpp Hpa')].
    apply (pool_page_freed pf m m' r a a' r' Hh Hfr Hpp Hpp'). intros ->. destruct Hpp as (_ & -> & _), Hpp' as (_ & -> & _). done.
  - intros x. split; intros (a' & i' & Ha' & Hx & Hn).
    + destruct (decide (a' = a)) as [->|Hne]; [by rewrite lookup_delete_eq in Ha'|]. rewrite lookup_delete_ne in Ha' by congruence.
      exists a', i'. split; [done|]. split; [done|]. destruct (arena_page _ _ _ _ _ _ _ _ Hr Ha') as [Hpa' Hi'].
      rewrite free_of_set in Hn by (done || lia). case_decide as E; [subst i'|done]. intros Hin. apply Hn. unfold l. rewrite list_elem_of_filter.
      split; [|done]. by rewrite (block2arena_block a' i x).
    + destruct (decide (a' = a)) as [->|Hne]; [assert (i' = i) as -> by congruence; by destruct (Hn (Hall x Hx))|].
      exists a', i'. rewrite lookup_delete_ne by congruence. split; [done|]. split; [done|]. destruct (arena_page _ _ _ _ _ _ _ _ Hr Ha') as [_ Hi'].
      rewrite free_of_set by (done || lia). case_decide as E; [subst i'|done]. unfold l. rewrite list_elem_of_filter. naive_solver.
  - by apply (freed_gone pf m m' r a).
Qed.

(** What [sys_free] of a block in use leaves: the block's page goes back when no
    other of its blocks is in use. *)
Record gave_block (k : kernel) (t : task_struct) (A : gmap Z Z) (b : Z) (k' : kernel) (t' : task_struct) (A' : gmap Z Z) : Prop := {
  vb_heap : heap_of k' t' A';
  vb_lock : lock_free k' (pool_lock (pool_flag t'));
  vb_used : forall x, used k' t' A' x <-> used k t A x /\ x <> b;
  vb_arena : exists a i, A !! a = Some i /\ b ∈ blocks a i
    /\ ((A' = A /\ exists x, x ∈ blocks a i /\ x <> b /\ used k t A x)
        \/ (A' = delete a A /\ translate (view k') a = None /\ forall x, x ∈ blocks a i -> used k t A x -> x = b));
  vb_task : running k' = running k /\ owner_of k' t' = owner_of k t /\ pool_flag t' = pool_flag t
}.

(** A block that is not free keeps the arena from being complete. *)
Lemma not_all_free o pf m ds ar A a i :
  heap_rep o pf m ds ar A -> A !! a = Some i -> Z.of_nat (length (free_in_arena ds i a)) <> bcount i ->
  exists b, b ∈ blocks a i /\ b ∉ free_of ds i.
Proof.
  intros Hr Ha Hl. destruct (arena_free _ _ _ _ _ _ _ _ Hr Ha) as (Hnd & Hin & Hle). destruct (arena_page _ _ _ _ _ _ _ _ Hr Ha) as [_ Hi].
  destruct (decide (Forall (fun b => b ∈ free_of ds i) (blocks a i))) as [Hall|Hn].
  - exfalso. apply Hl. rewrite Forall_forall in Hall. pose proof (NoDup_blocks a i ltac:(lia)) as Hndb.
    assert (blocks a i ⊆+ free_in_arena ds i a) as Hsub.
    { apply NoDup_submseteq; [done|]. intros b Hb. apply Hin. split; [by apply Hall|done]. }
    apply submseteq_length in Hsub. pose proof (blocks_length a i Hi). lia.
  - apply not_Forall_Exists in Hn; [|apply _]. apply Exists_exists in Hn as (b & Hb & Hnb). by exists b.
Qed.

Lemma kernel_block_high o m ds ar A a i b :
  heap_rep o PF_KERNEL m ds ar A -> A !! a = Some i -> b ∈ blocks a i -> K_HEAP_START <= b.
Proof.
  intros Hr Ha Hb. pose proof (hp_start _ _ _ _ _ _ Hr). destruct (hp_arena _ _ _ _ _ _ Hr a i Ha) as (Hi & (r & (Hrr & Hv & _)) & _). pose proof (block_range a i b Hi Hb).
  cbn [va_of] in *. unfold va_page in Hv. lia.
Qed.

Lemma sys_free_run f k t A b :
  heap_of k t A -> lock_free k (pool_lock (pool_flag t)) -> used k t A b ->
  exists k' t' A', sys_free (S f) b k = Ret tt k' /\ gave_block k t A b k' t' A'.
Proof.
  intros (Ht & Hn & ds & Hds & Hr) Hlk (ds0 & Hds0 & Hu). rewrite Hds in Hds0. injection Hds0 as <-.
  set (o := owner_of k t) in *. set (pf := pool_flag t) in *.
  assert (o = 0 \/ o = running k) as Ho by (unfold o, owner_of; destruct (pgdir t =? 0); [by left|by right]).
  destruct Hu as (a & i & Ha & Hb & Hnb). destruct (arena_page _ _ _ _ _ _ _ _ Hr Ha) as [Hpa Hi]. pose proof (hp_descs _ _ _ _ _ _ Hr) as Hd.
  destruct (hp_arena _ _ _ _ _ _ Hr a i Ha) as (_ & (r & Hpp) & fr & Hf & Harf). destruct (arena_free _ _ _ _ _ _ _ _ Hr Ha) as (_ & _ & Hcl).
  destruct (heap_rep_give o pf (view k) ds (arenas k) A a i b fr Hr Ha Hb Hnb Hf) as (Hr1 & Hu1 & Hc1).
  set (c := Z.of_nat (length (free_in_arena ds i a)) + 1) in *. set (ds1 := set_free ds i (free_of ds i ++ [b])) in *. set (ar1 := <[fr := _]> (arenas k)) in *.
  pose proof (bcount_range i Hi) as (Hbc & _). set (kh := held (pool_lock pf) k).
  assert (tasks kh !! running kh = Some t) as Hth by done.
  assert (heap_state o kh (view k) ds (arenas k) = kh) as Hself by exact (heap_state_self o kh t Hth Ho ds Hds).
  assert (forall x, used k t A x <-> in_use ds A x) as Hus.
  { intros x. unfold used. fold o. rewrite Hds. split; [by intros (? & [= <-] & ?)|by exists ds]. }
  assert (exists m' ds' A', (if c =? bcount i then _ ← uncarve (Z.to_nat (bcount i)) (o, i) a 0; in_mem (mfree_page pf a 1) else mret tt) (heap_state o kh (view k) ds1 ar1)
            = Ret tt (heap_state o kh m' ds' ar1) /\ heap_rep o pf m' ds' ar1 A' /\ (forall x, in_use ds' A' x <-> in_use ds A x /\ x <> b)
            /\ ((A' = A /\ exists x, x ∈ blocks a i /\ x <> b /\ used k t A x)
                \/ (A' = delete a A /\ translate m' a = None /\ forall x, x ∈ blocks a i -> used k t A x -> x = b)))
    as (m' & ds' & A' & Hlast & Hr' & Hu' & Hcase).
  { destruct (c =? bcount i) eqn:Ec.
    - apply Z.eqb_eq in Ec. rewrite Ec in Hc1. pose proof (all_free _ _ _ _ _ _ _ _ Hr1 Ha Hc1) as Hall.
      destruct (drop_arena_run o pf kh t (view k) ds1 ar1 A a i Hth Ho Hr1 Ha Hall) as (m' & ds' & Hrun & Hr2 & Hu2 & Hno).
      exists m', ds', (delete a A). split; [exact Hrun|]. split; [done|]. split; [intros x; by rewrite Hu2, Hu1|]. right. split; [done|]. split; [done|].
      intros x Hx Hux. destruct (decide (x = b)) as [|Hne]; [done|]. exfalso. assert (in_use ds1 A x) as (a' & i' & Ha' & Hx' & Hnx) by (apply Hu1; split; [by apply Hus|done]).
      destruct (block_arena _ _ _ _ _ _ _ _ _ _ _ Hr1 Ha Ha' Hx Hx') as [<- <-]. by apply Hnx, Hall.
    - apply Z.eqb_neq in Ec. rewrite <- Hc1 in Ec. destruct (not_all_free _ _ _ _ _ _ _ _ Hr1 Ha Ec) as (x & Hx & Hnx).
      exists (view k), ds1, A. split; [done|]. split; [done|]. split; [done|]. left. split; [done|].
      assert (in_use ds1 A x) as [H1 H2]%Hu1 by (by exists a, i). exists x. split; [done|]. split; [done|]. by apply Hus. }
  destruct (heap_of_state k t m' ds' ar1 A' Ht Hn Hr') as (t' & Hh' & Ho' & Hp' & Huse'). fold o in Hh', Ho', Huse'.
  exists (heap_state o k m' ds' ar1), t', A'. split.
  - pose proof (block_range a i b Hi Hb) as Hrg. pose proof (page_range a Hpa) as Hpr.
    assert ((if pgdir t =? 0 then assert (K_HEAP_START <=? b) else mret tt) k = Ret tt k) as Hguard.
    { destruct (pgdir t =? 0) eqn:Ep; [|done]. assert (pf = PF_KERNEL) as Epf by (unfold pf, pool_flag; by rewrite Ep). rewrite Epf in Hr.
      pose proof (kernel_block_high _ _ _ _ _ _ _ _ Hr Ha Hb). by replace (K_HEAP_START <=? b) with true by lia. }
    unfold sys_free. passert; [|lia]. pget. unfold task. prun (run_load tasks k _ t Ht). prun Hguard. fold (pool_flag t). fold pf.
    prun (acquire_run f k (pool_lock pf) Hlk Hn). fold kh. rewrite (block2arena_block a i b Hpa Hi Hb), <- Hself.
    prun (heap_get_arena o kh (view k) ds (arenas k) a fr _ Hf Harf). cbn [desc large cnt].
    set (body := get_desc (o, i) ≫= _).
    assert (body (heap_state o kh (view k) ds (arenas k)) = Ret tt (heap_state o kh m' ds' ar1)) as Hbody.
    { unfold body. prun (get_desc_rep o kh t Hth Ho (view k) ds (arenas k) i Hd Hi). cbn [free_list block_size blocks_per_arena].
      prun (set_desc_rep o kh t Hth Ho (view k) ds (arenas k) i (seq_append (free_of ds i) b) Hd Hi).
      assert (u32 (Z.of_nat (length (free_in_arena ds i a)) + 1) = c) as -> by (rewrite u32_id by lia; done).
      prun (heap_set_arena o kh (view k) ds1 (arenas k) a fr (Arena (Some (o, i)) c false) Hf). exact Hlast. }
    prun Hbody. by apply (heap_release o k (pool_lock pf)).
  - constructor; [done|by rewrite Hp'| | |done].
    + intros x. rewrite Hus, <- Hu'. apply Huse'.
    + exists a, i. split; [done|]. split; [done|]. replace (view (heap_state o k m' ds' ar1)) with m' by (symmetry; by apply (heap_state_view o k t)). done.
Qed.

(** ** Properties *)

(** The descriptors [block_desc_init] makes are those of an empty heap. *)
Lemma block_desc_init_ok : descs_ok block_desc_init /\ forall i, 0 <= i < 7 -> free_of block_desc_init i = [].
Proof.
  split; [split; [done|]|].
  - intros i d Hi Hd. assert (i < 7) as Hi7 by (apply lookup_lt_Some in Hd; change (length block_desc_init) with 7%nat in Hd; lia).
    revert d Hd. revert i Hi Hi7.
    assert (forall i, 0 <= i < 7 -> forall d, block_desc_init !! Z.to_nat i = Some d -> block_size d = bsize i /\ blocks_per_arena d = bcount i) as H
      by (apply (class_cases (fun i => forall d, block_desc_init !! Z.to_nat i = Some d -> block_size d = bsize i /\ blocks_per_arena d = bcount i)); (intros d [= <-]; split; vm_compute; reflexivity)).
    intros i H0 H7. apply H. lia.
  - apply (class_cases (fun i => free_of block_desc_init i = [])); vm_compute; reflexivity.
Qed.

Lemma heap_empty o pf m ar : heap_ok m -> K_HEAP_START <= vaddr_start (kernel_vaddr m) -> heap_rep o pf m block_desc_init ar ∅.
Proof.
  intros Hh Hk. destruct block_desc_init_ok as [Hd Hf]. constructor; try done.
  - intros i Hi. rewrite Hf by done. apply NoDup_nil_2.
  - intros i b Hi. rewrite Hf by done. intros Hb. by apply not_elem_of_nil in Hb.
Qed.

(** The main thread with an empty kernel heap. *)
Definition demo_heap : kernel :=
  set_k_block_descs block_desc_init
    (set_tasks (<[0xc009e000 := set_userprog_vaddr (cur_vaddr demo_mem) (demo_task TASK_RUNNING 31 3)]> (tasks demo_kernel))
      (set_locks (<[kernel_pool_lock := Lock 0 0]> ∅) (set_semas (<[lock_sema kernel_pool_lock := Semaphore 1 []]> ∅) demo_kernel))).

Definition demo_heap_task : task_struct := set_userprog_vaddr (cur_vaddr demo_mem) (demo_task TASK_RUNNING 31 3).

Lemma demo_heap_of : heap_of demo_heap demo_heap_task ∅.
Proof.
  split; [done|]. split; [done|]. exists block_desc_init. split; [done|].
  assert (view demo_heap = demo_mem) as -> by (vm_compute; reflexivity). apply heap_empty; [apply demo_heap_ok|done].
Qed.

Lemma demo_malloc : match sys_malloc 1 100 demo_heap with Ret b _ => negb (b =? 0) | _ => false end = true.
Proof. vm_compute. reflexivity. Qed.

Lemma demo_heap_lock : lock_free demo_heap (pool_lock (pool_flag demo_heap_task)).
Proof. vm_compute. split; reflexivity. Qed.

Lemma demo_heap_size : 100 < pool_size (pool_of (pool_flag demo_heap_task) (kmem demo_heap)).
Proof. vm_compute. reflexivity. Qed.

Lemma demo_malloc_not_null : sys_malloc 1 100 demo_heap <> Ret 0 demo_heap.
Proof. intros H. pose proof demo_malloc as Hb. rewrite H in Hb. discriminate Hb. Qed.

Lemma demo_malloc_no_panic : sys_malloc 1 100 demo_heap <> Err EPanic.
Proof. intros H. pose proof demo_malloc as Hb. rewrite H in Hb. discriminate Hb. Qed.

(** C13: [sys_malloc] of up to 1024 bytes returns a block of the smallest class
    that is large enough.  The block was not in use, and the blocks in use
    afterwards are those of before and this one; it lies in an arena of the heap
    behind the header, overlaps no other block of the heap and reads zero.  The
    arenas stay the same unless that class had no free block; then one page became
    a new arena.  Only when the class has no free block can the call do anything
    else: it returns NULL and changes nothing, and then every page of the virtual
    pool is in use; or it stops the kernel in the page allocator, which refused a
    page ([no_page]). *)
Theorem sys_malloc_block (f : nat) (k : kernel) (t : task_struct) (A : gmap Z Z) (size : Z) :
  heap_of k t A -> lock_free k (pool_lock (pool_flag t)) -> 0 < size <= 1024 -> size < pool_size (pool_of (pool_flag t) (kmem k)) ->
  (exists b k' t' A', sys_malloc (S f) size k = Ret b k' /\ got_block k t A size b k' t' A')
  \/ (sys_malloc (S f) size k = Ret 0 k /\ class_empty k t size
      /\ forall s, 0 <= s <= va_bits (va_of (pool_flag t) (view k)) -> va_used (va_of (pool_flag t) (view k)) s = true)
  \/ (sys_malloc (S f) size k = Err EPanic /\ class_empty k t size /\ no_page (pool_flag t) (view k)).
Proof. apply sys_malloc_small_run. Qed.

Lemma sys_malloc_block_witness :
  exists b k' t' A', sys_malloc 1 100 demo_heap = Ret b k' /\ got_block demo_heap demo_heap_task ∅ 100 b k' t' A'.
Proof.
  destruct (sys_malloc_block 0 demo_heap demo_heap_task ∅ 100 demo_heap_of demo_heap_lock ltac:(lia) demo_heap_size) as [H|[[H _]|[H _]]];
    [exact H|destruct (demo_malloc_not_null H)|destruct (demo_malloc_no_panic H)].
Defined.

(** C14: [sys_free] of a block in use makes exactly that block free.  When another
    block of its arena is still in use the arena stays; otherwise the arena is
    dissolved and its page unmapped. *)
Theorem sys_free_block (f : nat) (k : kernel) (t : task_struct) (A : gmap Z Z) (b : Z) :
  heap_of k t A -> lock_free k (pool_lock (pool_flag t)) -> used k t A b ->
  exists k' t' A', sys_free (S f) b k = Ret tt k' /\ gave_block k t A b k' t' A'.
Proof. apply sys_free_run. Qed.

(** Freeing the block just allocated leaves no block in use. *)
Lemma sys_free_block_witness :
  exists b k t A, sys_malloc 1 100 demo_heap = Ret b k /\ exists k' t' A', sys_free 1 b k = Ret tt k' /\ gave_block k t A b k' t' A'
    /\ forall x, used k' t' A' x <-> used demo_heap demo_heap_task ∅ x.
Proof.
  destruct (sys_malloc_small_run 0 demo_heap demo_heap_task ∅ 100 demo_heap_of demo_heap_lock ltac:(lia) demo_heap_size)
    as [(b & k & t & A & Hm & [Hh Hl Hnu Hu _ _ _])|[[H _]|[H _]]]; [|destruct (demo_malloc_not_null H)|destruct (demo_malloc_no_panic H)].
  exists b, k, t, A. split; [exact Hm|]. destruct (sys_free_block 0 k t A b Hh Hl) as (k' & t' & A' & Hfree & Hg); [apply Hu; by right|].
  exists k', t', A'. split; [exact Hfree|]. split; [exact Hg|]. intros x. rewrite (vb_used _ _ _ _ _ _ _ Hg), Hu.
  split; [intros [[Hx| ->] Hne]; [exact Hx|destruct (Hne eq_refl)]|].
  intros Hx. split; [left; exact Hx|]. intros ->. exact (Hnu Hx).
Defined.
