(* ===== verification/CString.v ===== *)
(** * CString: lib/string.c

    Byte memory with pointers as addresses, so that overlapping and aliased
    arguments are what they are in C.  A byte is a [Z] in [0, 256); reading it
    through a [char*] gives a signed value ([i8]).  Loops that end at a NUL byte
    take fuel: the theorems show that one step more than the string is long
    suffices. *)
From S2P Require Import Prelude.

(** ** Memory *)

Notation cmem := (gmap Z Z).

Definition ld (p : Z) : st cmem Z := fun m =>
  match m !! p with Some v => Ok (v, m) | None => Bad EFault end.

Definition sto (p v : Z) : st cmem unit := fun m =>
  match m !! p with Some _ => Ok (tt, <[p := u8 v]> m) | None => Bad EFault end.

(** [assert] of lib/user/assert.h. *)
Definition not_null (p : Z) : st cmem unit := sassert (negb (p =? 0)).

(** ** Operations *)

Fixpoint memset_loop (size : nat) (dst value : Z) : st cmem unit :=
  match size with
  | O => mret tt
  | S n => _ ← sto dst value; memset_loop n (dst + 1) value
  end.

Definition memset (dst value size : Z) : st cmem unit :=
  _ ← not_null dst; memset_loop (Z.to_nat size) dst value.

Fixpoint memcpy_loop (size : nat) (dst src : Z) : st cmem unit :=
  match size with
  | O => mret tt
  | S n => v ← ld src; _ ← sto dst v; memcpy_loop n (dst + 1) (src + 1)
  end.

Definition memcpy (dst src size : Z) : st cmem unit :=
  _ ← sassert (negb (dst =? 0) && negb (src =? 0)); memcpy_loop (Z.to_nat size) dst src.

Fixpoint memcmp_loop (size : nat) (a b : Z) : st cmem Z :=
  match size with
  | O => mret 0
  | S n =>
    x ← ld a; y ← ld b;
    if negb (i8 x =? i8 y) then mret (if i8 y <? i8 x then 1 else -1)
    else memcmp_loop n (a + 1) (b + 1)
  end.

Definition memcmp (a b size : Z) : st cmem Z :=
  _ ← sassert (negb (a =? 0) || negb (b =? 0)); memcmp_loop (Z.to_nat size) a b.

(** The loop of [strcpy]: copy bytes up to and including the NUL byte. *)
Fixpoint copy_loop (fuel : nat) (dst src : Z) : st cmem unit :=
  match fuel with
  | O => sres (Bad EFuel)
  | S f =>
    v ← ld src; _ ← sto dst v;
    if v =? 0 then mret tt else copy_loop f (dst + 1) (src + 1)
  end.

Definition strcpy (fuel : nat) (dst src : Z) : st cmem Z :=
  _ ← sassert (negb (dst =? 0) && negb (src =? 0));
  _ ← copy_loop fuel dst src;
  mret dst.

(** The loop of [strlen]: the address behind the NUL byte. *)
Fixpoint skip_loop (fuel : nat) (p : Z) : st cmem Z :=
  match fuel with
  | O => sres (Bad EFuel)
  | S f => v ← ld p; if v =? 0 then mret (p + 1) else skip_loop f (p + 1)
  end.

Definition strlen (fuel : nat) (str : Z) : st cmem Z :=
  _ ← not_null str;
  p ← skip_loop fuel str;
  mret (u32 (p - str - 1)).

Fixpoint strcmp_loop (fuel : nat) (a b : Z) : st cmem Z :=
  match fuel with
  | O => sres (Bad EFuel)
  | S f =>
    x ← ld a; y ← ld b;
    if negb (i8 x =? 0) && (i8 x =? i8 y) then strcmp_loop f (a + 1) (b + 1)
    else mret (if i8 x <? i8 y then -1 else if i8 y <? i8 x then 1 else 0)
  end.

Definition strcmp (fuel : nat) (a b : Z) : st cmem Z :=
  _ ← sassert (negb (a =? 0) && negb (b =? 0)); strcmp_loop fuel a b.

(** The character is compared as an [int] with the unsigned [ch]. *)
Fixpoint strchr_loop (fuel : nat) (str ch : Z) : st cmem Z :=
  match fuel with
  | O => sres (Bad EFuel)
  | S f =>
    v ← ld str;
    if v =? 0 then mret 0 else if i8 v =? ch then mret str else strchr_loop f (str + 1) ch
  end.

Definition strchr (fuel : nat) (str ch : Z) : st cmem Z :=
  _ ← not_null str; strchr_loop fuel str ch.

Fixpoint strrchr_loop (fuel : nat) (str ch last_char : Z) : st cmem Z :=
  match fuel with
  | O => sres (Bad EFuel)
  | S f =>
    v ← ld str;
    if v =? 0 then mret last_char
    else strrchr_loop f (str + 1) ch (if i8 v =? ch then str else last_char)
  end.

Definition strrchr (fuel : nat) (str ch : Z) : st cmem Z :=
  _ ← not_null str; strrchr_loop fuel str ch 0.

Definition strcat (fuel : nat) (dst src : Z) : st cmem Z :=
  _ ← sassert (negb (dst =? 0) && negb (src =? 0));
  str ← skip_loop fuel dst;
  _ ← copy_loop fuel (str - 1) src;
  mret dst.

Fixpoint strchrs_loop (fuel : nat) (p ch ch_cnt : Z) : st cmem Z :=
  match fuel with
  | O => sres (Bad EFuel)
  | S f =>
    v ← ld p;
    if v =? 0 then mret ch_cnt
    else strchrs_loop f (p + 1) ch (if i8 v =? ch then u32 (ch_cnt + 1) else ch_cnt)
  end.

Definition strchrs (fuel : nat) (str ch : Z) : st cmem Z :=
  _ ← not_null str; strchrs_loop fuel str ch 0.

(** ** Strings in memory *)

(** The bytes [s] at address [p]. *)
Fixpoint bytes_at (m : cmem) (p : Z) (s : list Z) : Prop :=
  match s with [] => True | c :: s' => m !! p = Some c /\ bytes_at m (p + 1) s' end.

Definition byte (c : Z) : Prop := 0 <= c < 256.

(** A character of a string: a byte that is not NUL. *)
Definition chr (c : Z) : Prop := 0 < c < 256.

(** The characters of a literal; a backslash and an n stand for a newline. *)
Fixpoint chars (s : string) : list Z :=
  match s with
  | EmptyString => []
  | String c s' =>
    match s' with
    | String d s2 =>
      if bool_decide (c = Ascii.ascii_of_nat 92) && bool_decide (d = Ascii.ascii_of_nat 110)
      then 10 :: chars s2 else Z.of_nat (Ascii.nat_of_ascii c) :: chars s'
    | EmptyString => [Z.of_nat (Ascii.nat_of_ascii c)]
    end
  end.

Lemma text_chr u : forallb (fun c => (0 <? c) && (c <? 256)) u = true -> Forall chr u.
Proof.
  intros H. rewrite forallb_forall in H. apply Forall_forall. intros c Hc. apply list_elem_of_In in Hc.
  apply H in Hc. unfold chr. lia.
Qed.

(** The NUL-terminated string [s] at [p]. *)
Definition string_at (m : cmem) (p : Z) (s : list Z) : Prop :=
  Forall chr s /\ bytes_at m p (s ++ [0]).

Lemma string_cons m p c s :
  string_at m p (c :: s) <-> chr c /\ m !! p = Some c /\ string_at m (p + 1) s.
Proof. unfold string_at. cbn [app bytes_at]. rewrite Forall_cons. tauto. Qed.

Lemma string_nil m p : string_at m p [] <-> m !! p = Some 0.
Proof. unfold string_at. simpl. split; [tauto|]. intros H. by split. Qed.

(** Addresses outside [p, p + n) are the same in both memories. *)
Definition same_outside (m m' : cmem) (p n : Z) : Prop :=
  forall a, ~ (p <= a < p + n) -> m' !! a = m !! a.

Lemma bytes_at_outside m m' p n q s :
  same_outside m m' p n -> q + Z.of_nat (length s) <= p \/ p + n <= q ->
  bytes_at m q s -> bytes_at m' q s.
Proof.
  intros Hs. revert q. induction s as [|c s IH]; intros q Hd; [done|]. cbn [length bytes_at] in *.
  intros [Hc Hr]. split; [rewrite Hs; [done|lia]|]. apply IH; [lia|done].
Qed.

Lemma string_outside m m' p n q s :
  same_outside m m' p n -> q + Z.of_nat (length s) < p \/ p + n <= q ->
  string_at m q s -> string_at m' q s.
Proof.
  intros Hs Hd [Hc Hb]. split; [done|]. eapply (bytes_at_outside m m' p n); [done| |done].
  rewrite length_app. cbn [length]. lia.
Qed.

(** Writable cells: [n] mapped bytes from [p]. *)
Definition room (m : cmem) (p n : Z) : Prop := forall a, p <= a < p + n -> is_Some (m !! a).

Lemma run_ld m p v : m !! p = Some v -> ld p m = Ok (v, m).
Proof. intros H. unfold ld. by rewrite H. Qed.

Lemma run_sto m p v : is_Some (m !! p) -> sto p v m = Ok (tt, <[p := u8 v]> m).
Proof. intros [x H]. unfold sto. by rewrite H. Qed.

Lemma room_insert m p n a v : room m p n -> room (<[a := v]> m) p n.
Proof. intros H b Hb. rewrite lookup_insert. case_decide; [by eexists|by apply H]. Qed.

Lemma i8_eq x y : byte x -> byte y -> (i8 x =? i8 y) = (x =? y).
Proof. unfold byte, i8. intros. destruct (Z.eqb_spec x y); [subst; apply Z.eqb_refl|apply Z.eqb_neq; lia]. Qed.

(** ** Filling and copying *)

Lemma memset_loop_spec n m p v :
  room m p (Z.of_nat n) ->
  exists m', memset_loop n p v m = Ok (tt, m') /\ bytes_at m' p (replicate n (u8 v))
    /\ same_outside m m' p (Z.of_nat n).
Proof.
  revert m p. induction n as [|n IH]; intros m p Hr; [by exists m|]. cbn [memset_loop replicate bytes_at].
  assert (is_Some (m !! p)) as Hp by (apply Hr; lia). run (run_sto m p v Hp).
  destruct (IH (<[p := u8 v]> m) (p + 1)) as (m' & Hm & Hb & Hs).
  { apply room_insert. intros a Ha. apply Hr. lia. }
  exists m'. split; [done|]. split; [split; [|done]|].
  - rewrite Hs by lia. by rewrite lookup_insert, decide_True.
  - intros a Ha. rewrite Hs by lia. by rewrite lookup_insert_ne by lia.
Qed.

(** Copying forwards is right when the destination does not lie behind the
    beginning of the source. *)
Lemma memcpy_loop_spec n m dst src s :
  length s = n -> bytes_at m src s -> Forall byte s -> room m dst (Z.of_nat n) ->
  dst <= src \/ src + Z.of_nat n <= dst ->
  exists m', memcpy_loop n dst src m = Ok (tt, m') /\ bytes_at m' dst s
    /\ same_outside m m' dst (Z.of_nat n).
Proof.
  revert m dst src s. induction n as [|n IH]; intros m dst src s Hl Hb Hs Hr Hd.
  { destruct s; [|done]. by exists m. }
  destruct s as [|c s]; [done|]. injection Hl as Hl. destruct Hb as [Hc Hb]. apply Forall_cons in Hs as [Hcb Hs].
  cbn [memcpy_loop]. run (run_ld m src c Hc). assert (is_Some (m !! dst)) as Hp by (apply Hr; lia).
  run (run_sto m dst c Hp). rewrite u8_id by done. set (m1 := <[dst := c]> m).
  assert (same_outside m m1 dst 1) as Ho1.
  { intros a Ha. subst m1. by rewrite lookup_insert_ne by lia. }
  destruct (IH m1 (dst + 1) (src + 1) s) as (m' & Hm & Hb' & Ho); try done.
  - eapply (bytes_at_outside m m1 dst 1); [done| |done]. lia.
  - apply room_insert. intros a Ha. apply Hr. lia.
  - lia.
  - exists m'. split; [done|]. split; [split; [|done]|].
    + rewrite Ho by lia. subst m1. by rewrite lookup_insert, decide_True.
    + intros a Ha. rewrite Ho by lia. apply Ho1. lia.
Qed.

Lemma chr_byte c : chr c -> byte c.
Proof. unfold chr, byte. lia. Qed.

Lemma copy_loop_spec f m dst src s :
  (length s < f)%nat -> string_at m src s -> room m dst (Z.of_nat (length s) + 1) ->
  dst + Z.of_nat (length s) < src \/ src + Z.of_nat (length s) < dst ->
  exists m', copy_loop f dst src m = Ok (tt, m') /\ string_at m' dst s
    /\ same_outside m m' dst (Z.of_nat (length s) + 1).
Proof.
  revert m dst src s. induction f as [|f IH]; intros m dst src s Hf Hs Hr Hd; [lia|].
  assert (is_Some (m !! dst)) as Hp by (apply Hr; lia). cbn [copy_loop].
  destruct s as [|c s].
  - apply string_nil in Hs. run (run_ld m src 0 Hs). run (run_sto m dst 0 Hp).
    exists (<[dst := 0]> m). split; [done|]. split; [apply string_nil; by rewrite lookup_insert, decide_True|].
    intros a Ha. cbn [length] in Ha. by rewrite lookup_insert_ne by lia.
  - apply string_cons in Hs as (Hc & Hm & Hs). cbn [length] in *.
    run (run_ld m src c Hm). run (run_sto m dst c Hp). rewrite u8_id by (by apply chr_byte).
    replace (c =? 0) with false by (unfold chr in Hc; lia). set (m1 := <[dst := c]> m).
    assert (same_outside m m1 dst 1) as Ho1.
    { intros a Ha. subst m1. by rewrite lookup_insert_ne by lia. }
    destruct (IH m1 (dst + 1) (src + 1) s) as (m' & Hcp & Hst & Ho).
    + lia.
    + eapply (string_outside m m1 dst 1); [done| |done]. lia.
    + apply room_insert. intros a Ha. apply Hr. lia.
    + lia.
    + exists m'. split; [done|]. split.
      * apply string_cons. split; [done|]. split; [|done]. rewrite Ho by lia.
        subst m1. by rewrite lookup_insert, decide_True.
      * intros a Ha. rewrite Ho by lia. apply Ho1. lia.
Qed.

(** ** Scanning *)

Lemma skip_loop_spec f m p s :
  (length s < f)%nat -> string_at m p s ->
  skip_loop f p m = Ok (p + Z.of_nat (length s) + 1, m).
Proof.
  revert p s. induction f as [|f IH]; intros p s Hf Hs; [lia|]. cbn [skip_loop]. destruct s as [|c s].
  - apply string_nil in Hs. run (run_ld m p 0 Hs). cbn [length]. by rewrite Z.add_0_r.
  - apply string_cons in Hs as (Hc & Hm & Hs). run (run_ld m p c Hm).
    replace (c =? 0) with false by (unfold chr in Hc; lia).
    rewrite (IH (p + 1) s) by (done || cbn [length] in Hf; lia). f_equal. f_equal. cbn [length]. lia.
Qed.

Lemma strlen_spec f m p s :
  p <> 0 -> (length s < f)%nat -> string_at m p s -> Z.of_nat (length s) < 2 ^ 32 ->
  strlen f p m = Ok (Z.of_nat (length s), m).
Proof.
  intros Hp Hf Hs Hl. unfold strlen.
  assert (not_null p m = Ok (tt, m)) as Hn by (unfold not_null; by rewrite (proj2 (Z.eqb_neq p 0) Hp)).
  run Hn. run (skip_loop_spec f m p s Hf Hs). unfold mret, st_ret. do 2 f_equal. unwrap. lia.
Qed.

(** Comparing strings by their first difference, characters being signed. *)
Fixpoint lex (a b : list Z) : Z :=
  match a, b with
  | [], [] => 0
  | [], y :: _ => if 0 <? i8 y then -1 else 1
  | x :: _, [] => if i8 x <? 0 then -1 else 1
  | x :: a', y :: b' => if x =? y then lex a' b' else if i8 x <? i8 y then -1 else 1
  end.

Lemma i8_zero x : byte x -> (i8 x =? 0) = (x =? 0).
Proof. unfold byte, i8. intros. destruct (Z.eqb_spec x 0); [by subst|apply Z.eqb_neq; lia]. Qed.

Lemma strcmp_loop_spec f m a b s u :
  (length s < f)%nat -> string_at m a s -> string_at m b u ->
  strcmp_loop f a b m = Ok (lex s u, m).
Proof.
  revert a b s u. induction f as [|f IH]; intros a b s u Hf Hs Hu; [lia|]. cbn [strcmp_loop].
  destruct s as [|x s].
  - apply string_nil in Hs. run (run_ld m a 0 Hs). destruct u as [|y u].
    + apply string_nil in Hu. by run (run_ld m b 0 Hu).
    + apply string_cons in Hu as (Hy & Hm & _). run (run_ld m b y Hm).
      change (negb (i8 0 =? 0)) with false. cbn [andb lex]. change (i8 0) with 0.
      destruct (0 <? i8 y) eqn:E; [done|]. replace (i8 y <? 0) with true; [done|].
      unfold i8, chr in *. lia.
  - apply string_cons in Hs as (Hx & Hmx & Hs). run (run_ld m a x Hmx).
    rewrite i8_zero by (by apply chr_byte). replace (x =? 0) with false by (unfold chr in Hx; lia).
    destruct u as [|y u].
    + apply string_nil in Hu. run (run_ld m b 0 Hu). cbn [negb andb lex]. change (i8 0) with 0.
      rewrite i8_zero by (by apply chr_byte). replace (x =? 0) with false by (unfold chr in Hx; lia).
      destruct (i8 x <? 0) eqn:E; [done|]. replace (0 <? i8 x) with true; [done|]. unfold i8, chr in *. lia.
    + apply string_cons in Hu as (Hy & Hmy & Hu). run (run_ld m b y Hmy). cbn [negb andb lex].
      rewrite i8_eq by (by apply chr_byte). destruct (Z.eqb_spec x y) as [->|Hne].
      * apply IH; [cbn [length] in Hf; lia|done|done].
      * destruct (i8 x <? i8 y) eqn:E; [done|]. replace (i8 y <? i8 x) with true; [done|].
        unfold i8, chr in *. lia.
Qed.

Lemma lex_refl s : lex s s = 0.
Proof. induction s as [|x s IH]; [done|]. simpl. by rewrite Z.eqb_refl. Qed.

Lemma lex_eq s u : Forall chr s -> Forall chr u -> lex s u = 0 -> s = u.
Proof.
  intros Hs. revert u. induction Hs as [|x s Hx Hs IH]; intros u Hu; destruct Hu as [|y u Hy Hu]; cbn [lex]; try done.
  - by destruct (0 <? i8 y).
  - by destruct (i8 x <? 0).
  - destruct (Z.eqb_spec x y) as [->|]; [|by destruct (i8 x <? i8 y)]. intros H. f_equal. by apply IH.
Qed.

(** The last occurrence of a character, and the number of occurrences. *)
Fixpoint last_index (ch : Z) (s : list Z) (i last : Z) : Z :=
  match s with [] => last | c :: s' => last_index ch s' (i + 1) (if c =? ch then i else last) end.

Definition occurrences (ch : Z) (s : list Z) : Z := Z.of_nat (length (filter (fun c => c = ch) s)).

(** An ASCII character is the same signed and unsigned. *)
Lemma i8_ascii c ch : chr c -> 0 < ch < 128 -> (i8 c =? ch) = (c =? ch).
Proof. unfold chr, i8. intros. destruct (Z.eqb_spec c ch); [apply Z.eqb_eq|apply Z.eqb_neq]; lia. Qed.

Lemma strrchr_loop_spec f m p s ch last :
  (length s < f)%nat -> string_at m p s -> 0 < ch < 128 ->
  strrchr_loop f p ch last m = Ok (last_index ch s p last, m).
Proof.
  intros Hf Hs Hch. revert p s last Hf Hs. induction f as [|f IH]; intros p s last Hf Hs; [lia|].
  cbn [strrchr_loop]. destruct s as [|c s].
  - apply string_nil in Hs. by run (run_ld m p 0 Hs).
  - apply string_cons in Hs as (Hc & Hm & Hs). run (run_ld m p c Hm).
    replace (c =? 0) with false by (unfold chr in Hc; lia). rewrite i8_ascii by done.
    cbn [last_index]. apply IH; [cbn [length] in Hf; lia|done].
Qed.

Lemma strchrs_loop_spec f m p s ch n :
  (length s < f)%nat -> string_at m p s -> 0 < ch < 128 -> 0 <= n -> n + Z.of_nat (length s) < 2 ^ 32 ->
  strchrs_loop f p ch n m = Ok (n + occurrences ch s, m).
Proof.
  intros Hf Hs Hch. revert p s n Hf Hs. induction f as [|f IH]; intros p s n Hf Hs Hn Hb; [lia|].
  cbn [strchrs_loop]. destruct s as [|c s].
  - apply string_nil in Hs. run (run_ld m p 0 Hs). unfold occurrences. cbn. by rewrite Z.add_0_r.
  - apply string_cons in Hs as (Hc & Hm & Hs). run (run_ld m p c Hm).
    replace (c =? 0) with false by (unfold chr in Hc; lia). rewrite i8_ascii by done. cbn [length] in *.
    unfold occurrences. destruct (Z.eqb_spec c ch) as [->|Hne].
    + rewrite (IH (p + 1) s) by (done || (unwrap; lia)). rewrite filter_cons_True by done.
      unwrap. unfold occurrences. cbn [length]. do 2 f_equal. lia.
    + rewrite (IH (p + 1) s) by (done || lia). by rewrite filter_cons_False.
Qed.

(** ** Rules for callers *)

Lemma strcmp_spec f m a b s u :
  a <> 0 -> b <> 0 -> (length s < f)%nat -> string_at m a s -> string_at m b u ->
  strcmp f a b m = Ok (lex s u, m).
Proof.
  intros Ha Hb Hf Hs Hu. unfold strcmp.
  assert (sassert (negb (a =? 0) && negb (b =? 0)) m = Ok (tt, m)) as Hn
    by (by rewrite (proj2 (Z.eqb_neq _ _) Ha), (proj2 (Z.eqb_neq _ _) Hb)).
  run Hn. by apply strcmp_loop_spec.
Qed.

(** [strcmp] as a test for equality. *)
Lemma strcmp_test f m a b s u :
  a <> 0 -> b <> 0 -> (length s < f)%nat -> string_at m a s -> string_at m b u ->
  exists d, strcmp f a b m = Ok (d, m) /\ (d =? 0) = bool_decide (s = u).
Proof.
  intros Ha Hb Hf Hs Hu. exists (lex s u). split; [by apply strcmp_spec|]. case_bool_decide as He.
  - subst u. by rewrite lex_refl.
  - apply Z.eqb_neq. intros H. apply He, lex_eq; [apply Hs|apply Hu|done].
Qed.

Lemma not_null_run (p : Z) (m : cmem) : p <> 0 -> not_null p m = Ok (tt, m).
Proof. intros H. unfold not_null. by rewrite (proj2 (Z.eqb_neq _ _) H). Qed.

Lemma strrchr_spec f m p s ch :
  p <> 0 -> (length s < f)%nat -> string_at m p s -> 0 < ch < 128 ->
  strrchr f p ch m = Ok (last_index ch s p 0, m).
Proof. intros Hp Hf Hs Hch. unfold strrchr. run (not_null_run p m Hp). by apply strrchr_loop_spec. Qed.

Lemma last_index_last ch u v i last :
  ch ∉ v -> last_index ch (u ++ ch :: v) i last = i + Z.of_nat (length u).
Proof.
  intros Hv. revert i last. induction u as [|c u IH]; intros i last; cbn [app last_index length].
  - rewrite Z.eqb_refl, Z.add_0_r. assert (forall j, last_index ch v j i = i) as Hj; [|apply Hj].
    revert Hv. induction v as [|c v IH]; intros Hv j; [done|]. cbn [last_index].
    apply not_elem_of_cons in Hv as [Hne Hv]. rewrite (proj2 (Z.eqb_neq c ch)) by done. by apply IH.
  - rewrite IH. lia.
Qed.

Lemma bytes_room m p s : bytes_at m p s -> room m p (Z.of_nat (length s)).
Proof.
  revert p. induction s as [|c s IH]; intros p; cbn [bytes_at length]; [intros _ a Ha; lia|].
  intros [Hc Hs] a Ha. destruct (decide (a = p)) as [->|]; [by eexists|]. apply (IH (p + 1) Hs). lia.
Qed.

Lemma string_room m p s : string_at m p s -> room m p (Z.of_nat (length s) + 1).
Proof.
  intros [_ Hb]. apply bytes_room in Hb. rewrite length_app in Hb. cbn [length] in Hb.
  intros a Ha. apply Hb. lia.
Qed.

(** Cells stay mapped when the range that was written is mapped afterwards. *)
Lemma room_outside m m' p n q k :
  same_outside m m' p n -> room m' p n -> room m q k -> room m' q k.
Proof.
  intros Ho Hp Hq a Ha. destruct (decide (p <= a < p + n)) as [H|H]; [by apply Hp|].
  rewrite Ho by done. by apply Hq.
Qed.

(** Cutting a string short. *)
Lemma string_cut m p u v :
  string_at m p (u ++ v) -> string_at (<[p + Z.of_nat (length u) := 0]> m) p u.
Proof.
  revert p. induction u as [|x u IH]; intros p; cbn [app length].
  - intros _. apply string_nil. by rewrite Z.add_0_r, lookup_insert, decide_True.
  - intros H. apply string_cons in H as (Hc & Hm & Hs). apply string_cons. split; [done|].
    split; [by rewrite lookup_insert_ne by lia|]. specialize (IH _ Hs).
    by replace (p + Z.of_nat (S (length u))) with (p + 1 + Z.of_nat (length u)) by lia.
Qed.

Lemma strcat_spec (f : nat) (m : cmem) (dst src : Z) (s u : list Z) :
  dst <> 0 -> src <> 0 -> (length s < f)%nat -> (length u < f)%nat ->
  string_at m dst s -> string_at m src u ->
  room m (dst + Z.of_nat (length s)) (Z.of_nat (length u) + 1) ->
  dst + Z.of_nat (length s) + Z.of_nat (length u) < src \/ src + Z.of_nat (length u) < dst ->
  exists m', strcat f dst src m = Ok (dst, m') /\ string_at m' dst (s ++ u) /\ string_at m' src u
    /\ same_outside m m' (dst + Z.of_nat (length s)) (Z.of_nat (length u) + 1).
Proof.
  intros Hd Hsr Hfs Hfu Hs Hu Hr Hov. set (e := dst + Z.of_nat (length s)) in *.
  destruct (copy_loop_spec f m e src u Hfu Hu Hr) as (m' & Hc & Hs1 & Ho); [lia|].
  exists m'. split_and!; [| | |done].
  - unfold strcat.
    assert (sassert (negb (dst =? 0) && negb (src =? 0)) m = Ok (tt, m)) as Hn
      by (by rewrite (proj2 (Z.eqb_neq _ _) Hd), (proj2 (Z.eqb_neq _ _) Hsr)).
    run Hn. run (skip_loop_spec f m dst s Hfs Hs). fold e. replace (e + 1 - 1) with e by lia. by run Hc.
  - clear -Hs Hs1 Ho. subst e. revert dst Hs Hs1 Ho. induction s as [|c s IH]; intros dst Hs Hs1 Ho.
    + cbn [length] in *. by replace (dst + Z.of_nat 0) with dst in * by lia.
    + apply string_cons in Hs as (Hc & Hm & Hs). cbn [app]. apply string_cons. cbn [length] in *.
      split; [done|]. split; [rewrite Ho by lia; done|].
      replace (dst + Z.of_nat (S (length s))) with (dst + 1 + Z.of_nat (length s)) in * by lia. by apply IH.
  - eapply (string_outside m m' e); [done|lia|done].
Qed.

(** ** Properties *)

(** A memory with the given bytes at the given addresses. *)
Fixpoint put_bytes (p : Z) (s : list Z) (m : cmem) : cmem :=
  match s with [] => m | c :: s' => <[p := c]> (put_bytes (p + 1) s' m) end.

(** "abc" at 100, "de" at 200, room behind both. *)
Definition demo_bytes : cmem :=
  put_bytes 100 ([97; 98; 99; 0] ++ replicate 8 7) (put_bytes 200 ([100; 101; 0] ++ replicate 8 7) ∅).

Lemma demo_abc : string_at demo_bytes 100 [97; 98; 99].
Proof. split; [repeat constructor; lia|]. vm_compute. done. Qed.

Lemma demo_de : string_at demo_bytes 200 [100; 101].
Proof. split; [repeat constructor; lia|]. vm_compute. done. Qed.

Lemma demo_room p n :
  Forall (fun a => bool_decide (is_Some (demo_bytes !! a)) = true) (seqZ p n) -> room demo_bytes p n.
Proof.
  intros H a Ha. rewrite Forall_forall in H. apply (bool_decide_eq_true_1 _), H, elem_of_seqZ. lia.
Qed.

(** [strcpy] copies the string and its NUL byte, writes nothing else and
    returns the destination; afterwards both strings have the same length and
    [strcmp] finds them equal. *)
Theorem strcpy_copies (f : nat) (m : cmem) (dst src : Z) (s : list Z) :
  dst <> 0 -> src <> 0 -> (length s < f)%nat -> Z.of_nat (length s) < 2 ^ 32 ->
  string_at m src s -> room m dst (Z.of_nat (length s) + 1) ->
  dst + Z.of_nat (length s) < src \/ src + Z.of_nat (length s) < dst ->
  exists m', strcpy f dst src m = Ok (dst, m') /\ string_at m' dst s /\ string_at m' src s
    /\ same_outside m m' dst (Z.of_nat (length s) + 1)
    /\ strlen f dst m' = Ok (Z.of_nat (length s), m') /\ strcmp f dst src m' = Ok (0, m').
Proof.
  intros Hd Hsr Hf Hl Hs Hr Hov. destruct (copy_loop_spec f m dst src s Hf Hs Hr Hov) as (m' & Hc & Hs1 & Ho).
  assert (string_at m' src s) as Hs2 by (eapply (string_outside m m' dst); [done|lia|done]).
  assert (forall mm : cmem, sassert (negb (dst =? 0) && negb (src =? 0)) mm = Ok (tt, mm)) as Hn.
  { intros mm. by rewrite (proj2 (Z.eqb_neq _ _) Hd), (proj2 (Z.eqb_neq _ _) Hsr). }
  exists m'. split_and!; try done.
  - unfold strcpy. run (Hn m). by run Hc.
  - by apply strlen_spec.
  - unfold strcmp. run (Hn m'). rewrite (strcmp_loop_spec f m' dst src s s) by done. by rewrite lex_refl.
Qed.

Lemma strcpy_copies_witness :
  exists m', strcpy 9 203 100 demo_bytes = Ok (203, m') /\ string_at m' 203 [97; 98; 99].
Proof.
  destruct (strcpy_copies 9 demo_bytes 203 100 [97; 98; 99]) as (m' & H & Hs & _).
  - lia.
  - lia.
  - simpl; lia.
  - reflexivity.
  - apply demo_abc.
  - apply demo_room. apply (bool_decide_unpack _). vm_compute. done.
  - simpl; lia.
  - exists m'. split; [exact H|exact Hs].
Defined.

(** [strcat] puts the second string behind the first, in place of its NUL
    byte, and writes nothing else. *)
Theorem strcat_appends (f : nat) (m : cmem) (dst src : Z) (s u : list Z) :
  dst <> 0 -> src <> 0 -> (length s < f)%nat -> (length u < f)%nat ->
  string_at m dst s -> string_at m src u ->
  room m (dst + Z.of_nat (length s)) (Z.of_nat (length u) + 1) ->
  dst + Z.of_nat (length s) + Z.of_nat (length u) < src \/ src + Z.of_nat (length u) < dst ->
  exists m', strcat f dst src m = Ok (dst, m') /\ string_at m' dst (s ++ u) /\ string_at m' src u
    /\ same_outside m m' (dst + Z.of_nat (length s)) (Z.of_nat (length u) + 1).
Proof. apply strcat_spec. Qed.

Lemma strcat_appends_witness :
  exists m', strcat 9 100 200 demo_bytes = Ok (100, m') /\ string_at m' 100 [97; 98; 99; 100; 101].
Proof.
  destruct (strcat_appends 9 demo_bytes 100 200 [97; 98; 99] [100; 101]) as (m' & H & Hs & _).
  - lia.
  - lia.
  - simpl; lia.
  - simpl; lia.
  - apply demo_abc.
  - apply demo_de.
  - apply demo_room. apply (bool_decide_unpack _). vm_compute. done.
  - simpl; lia.
  - exists m'. split; [exact H|exact Hs].
Defined.

(** [strcmp] compares by the first difference, characters being signed, and
    returns 0 exactly for equal strings; [strlen], [strchrs] and [strrchr]
    return the length, the number of occurrences of an ASCII character and the
    address of its last one (NULL if there is none). *)
Theorem string_scans (f : nat) (m : cmem) (a b ch : Z) (s u : list Z) :
  a <> 0 -> b <> 0 -> (length s < f)%nat -> Z.of_nat (length s) < 2 ^ 32 -> 0 < ch < 128 ->
  string_at m a s -> string_at m b u ->
  strcmp f a b m = Ok (lex s u, m) /\ (lex s u = 0 <-> s = u)
  /\ strlen f a m = Ok (Z.of_nat (length s), m)
  /\ strchrs f a ch m = Ok (occurrences ch s, m)
  /\ strrchr f a ch m = Ok (last_index ch s a 0, m).
Proof.
  intros Ha Hb Hf Hl Hch Hs Hu.
  assert (not_null a m = Ok (tt, m)) as Hn by (unfold not_null; by rewrite (proj2 (Z.eqb_neq _ _) Ha)).
  split_and!.
  - by apply strcmp_spec.
  - split; [apply lex_eq; [apply Hs|apply Hu]|]. intros ->. apply lex_refl.
  - by apply strlen_spec.
  - unfold strchrs. run Hn. rewrite (strchrs_loop_spec f m a s ch 0) by (done || lia). done.
  - by apply strrchr_spec.
Qed.

Lemma string_scans_witness :
  strcmp 9 100 200 demo_bytes = Ok (-1, demo_bytes) /\ strchrs 9 100 98 demo_bytes = Ok (1, demo_bytes).
Proof.
  destruct (string_scans 9 demo_bytes 100 200 98 [97; 98; 99] [100; 101]) as (H1 & _ & _ & H2 & _).
  - lia.
  - lia.
  - simpl; lia.
  - reflexivity.
  - lia.
  - apply demo_abc.
  - apply demo_de.
  - split; [exact H1|exact H2].
Defined.
