(* ===== verification/Stdio.v ===== *)
(** * Stdio: lib/stdio.c

    [itoa] and [vsprintf] over the byte memory of CString.  The arguments behind
    a [va_list] are the list of the 32-bit words on the stack. *)
From S2P Require Import Prelude CString.

(** ** Operations *)

Definition digit_char (m : Z) : Z := if m <? 10 then m + 48 else m - 10 + 65.

(** The address of the next free byte is passed and returned; each call writes
    its digit after the recursive call has written the higher ones. *)
Fixpoint itoa (fuel : nat) (value buf_ptr base : Z) : st cmem Z :=
  match fuel with
  | O => sres (Bad EFuel)
  | S f =>
    let m := value mod base in
    let i := value / base in
    buf_ptr ← (if negb (i =? 0) then itoa f i buf_ptr base else mret buf_ptr : st cmem Z);
    _ ← sto buf_ptr (digit_char m);
    mret (buf_ptr + 1)
  end.

Definition va_arg (ap : list Z) : st cmem (Z * list Z) :=
  match ap with [] => sres (Bad EFault) | a :: ap' => mret (a, ap') end.

(** The loop of [vsprintf]: [index_ptr] is the address of [index_char]; the
    result is the final [buf_ptr].  [n] is the fuel of the string functions. *)
Fixpoint vsprintf_loop (fuel n : nat) (buf_ptr index_ptr index_char : Z) (ap : list Z) : st cmem Z :=
  match fuel with
  | O => sres (Bad EFuel)
  | S f =>
    if index_char =? 0 then mret buf_ptr
    else if negb (index_char =? 37) then
      _ ← sto buf_ptr index_char;
      c ← ld (index_ptr + 1);
      vsprintf_loop f n (buf_ptr + 1) (index_ptr + 1) c ap
    else
      index_char ← ld (index_ptr + 1);
      let index_ptr := index_ptr + 1 in
      if index_char =? 115 then
        '(arg_str, ap) ← va_arg ap;
        _ ← strcpy n buf_ptr arg_str;
        len ← strlen n arg_str;
        c ← ld (index_ptr + 1);
        vsprintf_loop f n (buf_ptr + len) (index_ptr + 1) c ap
      else if index_char =? 99 then
        '(arg, ap) ← va_arg ap;
        _ ← sto buf_ptr (u8 arg);
        c ← ld (index_ptr + 1);
        vsprintf_loop f n (buf_ptr + 1) (index_ptr + 1) c ap
      else if index_char =? 100 then
        '(arg, ap) ← va_arg ap;
        let arg_int := i32 arg in
        '(buf_ptr, arg_int) ← (if arg_int <? 0 then
                                 _ ← sto buf_ptr 45; mret (buf_ptr + 1, i32 (0 - arg_int))
                               else mret (buf_ptr, arg_int) : st cmem (Z * Z));
        buf_ptr ← itoa 33 (u32 arg_int) buf_ptr 10;
        c ← ld (index_ptr + 1);
        vsprintf_loop f n buf_ptr (index_ptr + 1) c ap
      else if index_char =? 120 then
        '(arg, ap) ← va_arg ap;
        buf_ptr ← itoa 33 (u32 (i32 arg)) buf_ptr 16;
        c ← ld (index_ptr + 1);
        vsprintf_loop f n buf_ptr (index_ptr + 1) c ap
      else vsprintf_loop f n buf_ptr index_ptr index_char ap
  end.

Definition vsprintf (fuel n : nat) (str format : Z) (ap : list Z) : st cmem Z :=
  index_char ← ld format;
  _ ← vsprintf_loop fuel n str format index_char ap;
  strlen n str.

Definition sprintf (fuel n : nat) (buf format : Z) (args : list Z) : st cmem Z :=
  vsprintf fuel n buf format args.

(** ** Numerals *)

(** The digits of a number, most significant first. *)
Fixpoint digits (fuel : nat) (base value : Z) : list Z :=
  match fuel with
  | O => []
  | S f =>
    (if negb (value / base =? 0) then digits f base (value / base) else [])
      ++ [digit_char (value mod base)]
  end.

(** The value of a digit character and of a numeral. *)
Definition digit_value (c : Z) : Z := if c <? 65 then c - 48 else c - 65 + 10.

Definition numeral (base : Z) (ds : list Z) : Z := fold_left (fun acc c => acc * base + digit_value c) ds 0.

Lemma digit_roundtrip m : 0 <= m < 16 -> digit_value (digit_char m) = m.
Proof.
  unfold digit_value, digit_char. intros. destruct (Z.ltb_spec m 10).
  - destruct (Z.ltb_spec (m + 48) 65); lia.
  - destruct (Z.ltb_spec (m - 10 + 65) 65); lia.
Qed.

Lemma digit_chr m : 0 <= m < 16 -> chr (digit_char m).
Proof. unfold chr, digit_char. intros. destruct (m <? 10); lia. Qed.

(** Each division takes at least one bit. *)
Lemma div_shrinks f base v : 2 <= base -> 0 <= v < 2 ^ Z.of_nat (S f) -> 0 <= v / base < 2 ^ Z.of_nat f.
Proof.
  intros Hb Hv. rewrite Nat2Z.inj_succ, Z.pow_succ_r in Hv by lia. split.
  - apply Z.div_pos; lia.
  - apply Z.div_lt_upper_bound; [lia|]. nia.
Qed.

Lemma digits_numeral f base v :
  2 <= base <= 16 -> 0 <= v < 2 ^ Z.of_nat f -> numeral base (digits (S f) base v) = v.
Proof.
  intros Hb. revert v. induction f as [|f IH]; intros v Hv.
  - assert (v = 0) as -> by (simpl in Hv; lia). cbn [digits]. rewrite Z.div_0_l, Z.mod_0_l by lia. done.
  - assert (0 <= v mod base < base) as Hm by (apply Z.mod_pos_bound; lia).
    pose proof (div_shrinks f base v ltac:(lia) Hv) as Hd.
    change (digits (S (S f)) base v) with
      ((if negb (v / base =? 0) then digits (S f) base (v / base) else []) ++ [digit_char (v mod base)]).
    unfold numeral. rewrite fold_left_app. cbn [fold_left]. rewrite digit_roundtrip by lia.
    destruct (Z.eqb_spec (v / base) 0) as [H0|H0]; cbn [negb].
    + cbn [fold_left]. pose proof (Z.div_mod v base). lia.
    + fold (numeral base (digits (S f) base (v / base))). rewrite IH by done.
      pose proof (Z.div_mod v base). lia.
Qed.

Lemma digits_chr f base v : 2 <= base <= 16 -> Forall chr (digits f base v).
Proof.
  intros Hb. revert v. induction f as [|f IH]; intros v; [done|]. cbn [digits]. apply Forall_app. split.
  - by destruct (negb (v / base =? 0)).
  - constructor; [|done]. apply digit_chr. pose proof (Z.mod_pos_bound v base). lia.
Qed.

Lemma digits_fuel f g base v :
  2 <= base -> 0 <= v < 2 ^ Z.of_nat f -> (f <= g)%nat -> digits (S g) base v = digits (S f) base v.
Proof.
  intros Hb. revert g v. induction f as [|f IH]; intros g v Hv Hg.
  - assert (v = 0) as -> by (simpl in Hv; lia). cbn [digits]. rewrite Z.div_0_l by lia. done.
  - destruct g as [|g]; [lia|]. cbn [digits]. destruct (negb (v / base =? 0)); [|done]. f_equal.
    apply (IH g (v / base)); [by apply div_shrinks|lia].
Qed.

(** A number has no more digits than bits. *)
Lemma digits_length f base v : (length (digits f base v) <= f)%nat.
Proof.
  revert v. induction f as [|f IH]; intros v; [done|]. cbn [digits]. rewrite length_app. cbn [length].
  destruct (negb (v / base =? 0)); [specialize (IH (v / base)); lia|simpl; lia].
Qed.

(** ** itoa *)

Lemma bytes_at_app m p s u :
  bytes_at m p (s ++ u) <-> bytes_at m p s /\ bytes_at m (p + Z.of_nat (length s)) u.
Proof.
  revert p. induction s as [|c s IH]; intros p; cbn [app bytes_at length].
  - rewrite Z.add_0_r. tauto.
  - rewrite IH. replace (p + 1 + Z.of_nat (length s)) with (p + Z.of_nat (S (length s))) by lia. tauto.
Qed.

Lemma itoa_spec f m v p base :
  2 <= base <= 16 -> 0 <= v < 2 ^ Z.of_nat f ->
  let ds := digits (S f) base v in
  room m p (Z.of_nat (length ds)) ->
  exists m', itoa (S f) v p base m = Ok (p + Z.of_nat (length ds), m')
    /\ bytes_at m' p ds /\ same_outside m m' p (Z.of_nat (length ds)).
Proof.
  intros Hb. revert m v. induction f as [|f IH]; intros m v Hv ds Hr.
  - assert (v = 0) as -> by (simpl in Hv; lia). subst ds. revert Hr. cbn [digits itoa].
    rewrite Z.div_0_l, Z.mod_0_l by lia. change (0 =? 0) with true.
    cbn [negb app length]. intros Hr.
    assert (is_Some (m !! p)) as Hp by (apply Hr; lia).
    assert ((mret p : st cmem Z) m = Ok (p, m)) as Hm by done. run Hm.
    run (run_sto m p (digit_char 0) Hp). eexists. split; [done|]. split.
    + cbn [bytes_at]. by rewrite lookup_insert, decide_True.
    + intros a Ha. by rewrite lookup_insert_ne by lia.
  - assert (0 <= v mod base < base) as Hm by (apply Z.mod_pos_bound; lia).
    pose proof (digit_chr (v mod base) ltac:(lia)) as Hdc.
    set (hi := if negb (v / base =? 0) then digits (S f) base (v / base) else []).
    assert (ds = hi ++ [digit_char (v mod base)]) as Hds by done.
    assert (Z.of_nat (length ds) = Z.of_nat (length hi) + 1) as Hlen by (rewrite Hds, length_app; simpl; lia).
    assert (exists m1, (if negb (v / base =? 0) then itoa (S f) (v / base) p base else mret p : st cmem Z) m
                = Ok (p + Z.of_nat (length hi), m1)
              /\ bytes_at m1 p hi /\ same_outside m m1 p (Z.of_nat (length hi))) as (m1 & Hrec & Hb1 & Ho1).
    { subst hi. destruct (Z.eqb_spec (v / base) 0) as [H0|H0]; cbn [negb] in *.
      - exists m. rewrite Z.add_0_r. done.
      - apply IH; [apply div_shrinks; [lia|done]|]. intros a Ha. apply Hr. lia. }
    assert (is_Some (m1 !! (p + Z.of_nat (length hi)))) as Hp.
    { rewrite Ho1 by lia. apply Hr. lia. }
    exists (<[p + Z.of_nat (length hi) := digit_char (v mod base)]> m1).
    set (f1 := S f) in *. change (itoa (S f1) v p base) with
      (buf_ptr ← (if negb (v / base =? 0) then itoa f1 (v / base) p base else mret p : st cmem Z);
       _ ← sto buf_ptr (digit_char (v mod base)); mret (buf_ptr + 1) : st cmem Z).
    run Hrec. run (run_sto m1 (p + Z.of_nat (length hi)) (digit_char (v mod base)) Hp).
    rewrite u8_id by (by apply chr_byte). split; [|split].
    + unfold mret, st_ret. do 2 f_equal. lia.
    + rewrite Hds. apply bytes_at_app. split.
      * eapply (bytes_at_outside m1 _ (p + Z.of_nat (length hi)) 1); [|lia|done].
        intros a Ha. by rewrite lookup_insert_ne by lia.
      * cbn [bytes_at]. by rewrite lookup_insert, decide_True.
    + intros a Ha. rewrite lookup_insert_ne by lia. apply Ho1. lia.
Qed.

(** ** The meaning of a format *)

Inductive arg : Type := AInt (v : Z) | AStr (s : list Z).

Definition signed_numeral (v : Z) : list Z :=
  if i32 v <? 0 then 45 :: digits 33 10 (u32 (- i32 v)) else digits 33 10 (i32 v).

(** The text [format] stands for: a '%' before any character but s, c, d and x is
    dropped, and a '%' at the end too. *)
Fixpoint expand (format : list Z) (args : list arg) : option (list Z) :=
  match format with
  | [] => Some []
  | c :: fmt =>
    if negb (c =? 37) then (cons c) <$> expand fmt args
    else
      match fmt with
      | [] => Some []
      | d :: fmt' =>
        if d =? 115 then
          match args with AStr s :: args' => (app s) <$> expand fmt' args' | _ => None end
        else if d =? 99 then
          match args with AInt v :: args' => (cons (u8 v)) <$> expand fmt' args' | _ => None end
        else if d =? 100 then
          match args with
          | AInt v :: args' => (app (signed_numeral v)) <$> expand fmt' args' | _ => None end
        else if d =? 120 then
          match args with
          | AInt v :: args' => (app (digits 33 16 (u32 v))) <$> expand fmt' args' | _ => None end
        else expand fmt args
      end
  end.

(** [s] at [p] does not touch the buffer [lo, hi). *)
Definition clear_of (lo hi p : Z) (s : list Z) : Prop := p + Z.of_nat (length s) < lo \/ hi <= p.

(** The stack word [w] passes the argument [a]. *)
Definition arg_at (n : nat) (m : cmem) (lo hi w : Z) (a : arg) : Prop :=
  match a with
  | AInt v => w = v
  | AStr s => w <> 0 /\ string_at m w s /\ clear_of lo hi w s /\ (length s < n)%nat
              /\ Z.of_nat (length s) < 2 ^ 32
  end.

(** Only the buffer has changed. *)
Definition only_buffer (m m' : cmem) (lo hi : Z) : Prop :=
  forall a, ~ (lo <= a < hi) -> m' !! a = m !! a.

Lemma clear_string m m' lo hi p s :
  only_buffer m m' lo hi -> clear_of lo hi p s -> string_at m p s -> string_at m' p s.
Proof.
  intros Ho Hc. apply (string_outside m m' lo (hi - lo)); [|unfold clear_of in Hc; lia].
  intros a Ha. apply Ho. lia.
Qed.

Lemma args_keep n m m' lo hi ap args :
  only_buffer m m' lo hi -> Forall2 (arg_at n m lo hi) ap args -> Forall2 (arg_at n m' lo hi) ap args.
Proof.
  intros Ho Ha. eapply Forall2_impl; [exact Ha|]. intros w [v|s]; simpl; [done|].
  intros (H1 & H2 & H3 & H4). split_and!; try done; try apply H4. by apply (clear_string m m' lo hi).
Qed.

(** What the loop has to establish for the text [out] from [buf] on. *)
Definition written (m m' : cmem) (buf : Z) (out : list Z) : Prop :=
  bytes_at m' buf out /\ same_outside m m' buf (Z.of_nat (length out) + 1)
  /\ m' !! (buf + Z.of_nat (length out)) = Some 0
  /\ forall a, is_Some (m !! a) -> is_Some (m' !! a).

Lemma glue m m1 m' buf piece rest :
  bytes_at m1 buf piece -> same_outside m m1 buf (Z.of_nat (length piece) + 1) ->
  (forall a, is_Some (m !! a) -> is_Some (m1 !! a)) ->
  written m1 m' (buf + Z.of_nat (length piece)) rest -> written m m' buf (piece ++ rest).
Proof.
  intros Hb Ho Hr (Hb' & Ho' & Hz & Hr'). rewrite <- Z.add_assoc, <- Nat2Z.inj_add, <- length_app in Hz.
  split_and!; [| |done|auto].
  - apply bytes_at_app. split; [|done].
    eapply (bytes_at_outside m1 m'); [exact Ho'| |exact Hb]. lia.
  - intros a Ha. rewrite length_app in Ha. rewrite Ho', Ho by lia. done.
Qed.

(** Writing one character. *)
Lemma put_piece m buf c :
  is_Some (m !! buf) -> byte c ->
  let m1 := <[buf := c]> m in
  sto buf c m = Ok (tt, m1) /\ bytes_at m1 buf [c] /\ same_outside m m1 buf 1
  /\ forall a, is_Some (m !! a) -> is_Some (m1 !! a).
Proof.
  intros Hp Hc m1. split; [rewrite run_sto by done; by rewrite u8_id|]. subst m1. split_and!.
  - cbn [bytes_at]. by rewrite lookup_insert, decide_True.
  - intros a Ha. by rewrite lookup_insert_ne by lia.
  - intros a Ha. rewrite lookup_insert. case_decide; [by eexists|done].
Qed.

(** Cells stay mapped when only bytes of a mapped range change. *)
Lemma keeps_mapped m m1 p n s :
  same_outside m m1 p n -> bytes_at m1 p s -> n = Z.of_nat (length s) ->
  forall a, is_Some (m !! a) -> is_Some (m1 !! a).
Proof.
  intros Ho Hb -> a Ha. destruct (decide (p <= a < p + Z.of_nat (length s))) as [Hin|]; [|by rewrite Ho].
  clear Ho Ha. revert p Hb Hin. induction s as [|c s IH]; intros p Hb Hin; cbn [length bytes_at] in *; [lia|].
  destruct Hb as [Hc Hb]. destruct (decide (a = p)) as [->|]; [by eexists|]. apply (IH (p + 1)); [done|lia].
Qed.

Lemma u32_i32 x : u32 (i32 x) = u32 x.
Proof. unfold u32, i32. rewrite Zminus_mod_idemp_l. f_equal. lia. Qed.

Lemma sub_room m lo hi p n : room m lo (hi - lo) -> lo <= p -> p + n <= hi -> room m p n.
Proof. intros Hr Hl Hh a Ha. apply Hr. lia. Qed.

Lemma within_buffer m m1 p n lo hi :
  same_outside m m1 p n -> lo <= p -> p + n <= hi -> only_buffer m m1 lo hi.
Proof. intros Ho Hl Hh a Ha. apply Ho. lia. Qed.

(** The digits of an [itoa] call as a piece of output. *)
Lemma itoa_piece m v p base :
  2 <= base <= 16 -> 0 <= v < 2 ^ 32 ->
  room m p (Z.of_nat (length (digits 33 base v))) ->
  exists m1, itoa 33 v p base m = Ok (p + Z.of_nat (length (digits 33 base v)), m1)
    /\ bytes_at m1 p (digits 33 base v)
    /\ same_outside m m1 p (Z.of_nat (length (digits 33 base v)))
    /\ forall a, is_Some (m !! a) -> is_Some (m1 !! a).
Proof.
  intros Hb Hv Hr. destruct (itoa_spec 32 m v p base Hb Hv Hr) as (m1 & H1 & H2 & H3).
  exists m1. split_and!; try done. by eapply keeps_mapped.
Qed.

(** A string argument as a piece of output: its NUL byte lands behind it. *)
Lemma strcpy_piece n m buf w s :
  buf <> 0 -> w <> 0 -> (length s < n)%nat -> string_at m w s -> room m buf (Z.of_nat (length s) + 1) ->
  buf + Z.of_nat (length s) < w \/ w + Z.of_nat (length s) < buf ->
  exists m1, strcpy n buf w m = Ok (buf, m1) /\ bytes_at m1 buf s
    /\ m1 !! (buf + Z.of_nat (length s)) = Some 0
    /\ same_outside m m1 buf (Z.of_nat (length s) + 1)
    /\ forall a, is_Some (m !! a) -> is_Some (m1 !! a).
Proof.
  intros Hb Hw Hn Hs Hr Hov. destruct (copy_loop_spec n m buf w s Hn Hs Hr Hov) as (m1 & Hc & [Hch Hs1] & Ho).
  assert (forall a, is_Some (m !! a) -> is_Some (m1 !! a)) as Hk.
  { eapply (keeps_mapped m m1 buf _ (s ++ [0])); [done|done|]. rewrite length_app. simpl. lia. }
  apply bytes_at_app in Hs1 as [Hs1 [Hz _]]. exists m1. split_and!; try done. unfold strcpy.
  assert (sassert (negb (buf =? 0) && negb (w =? 0)) m = Ok (tt, m)) as Hnn
    by (by rewrite (proj2 (Z.eqb_neq _ _) Hb), (proj2 (Z.eqb_neq _ _) Hw)).
  run Hnn. by run Hc.
Qed.

Definition first (s : list Z) : Z := match s with [] => 0 | c :: _ => c end.

Lemma ld_first m p s : string_at m p s -> ld p m = Ok (first s, m).
Proof.
  destruct s as [|c s]; [intros H%string_nil|intros (_ & H & _)%string_cons]; by apply run_ld.
Qed.

Lemma string_next m p c s : string_at m p (c :: s) -> string_at m (p + 1) s.
Proof. intros (_ & _ & H)%string_cons. done. Qed.

Lemma clear_next lo hi p c s : clear_of lo hi p (c :: s) -> clear_of lo hi (p + 1) s.
Proof. unfold clear_of. cbn [length]. lia. Qed.

(** The state of the loop: [fmt] and the arguments are left to process, [out] is
    the text they stand for, and there is room for it. *)
Record ready (n : nat) (lo hi : Z) (m : cmem) (buf idx : Z) (fmt : list Z) (ap : list Z)
    (args : list arg) (out : list Z) : Prop := {
  rd_lo : 0 < lo <= buf;
  rd_hi : buf + Z.of_nat (length out) + 1 <= hi;
  rd_fmt : string_at m idx fmt;
  rd_clear : clear_of lo hi idx fmt;
  rd_args : Forall2 (arg_at n m lo hi) ap args;
  rd_room : room m lo (hi - lo);
  rd_end : m !! (buf + Z.of_nat (length out)) = Some 0
}.

Lemma ready_next n lo hi m m1 buf idx idx' fmt fmt' ap ap' args args' piece rest :
  ready n lo hi m buf idx fmt ap args (piece ++ rest) ->
  same_outside m m1 buf (Z.of_nat (length piece) + 1) ->
  (forall a, is_Some (m !! a) -> is_Some (m1 !! a)) ->
  m1 !! (buf + Z.of_nat (length piece) + Z.of_nat (length rest)) = Some 0 ->
  string_at m idx' fmt' -> clear_of lo hi idx' fmt' -> Forall2 (arg_at n m lo hi) ap' args' ->
  ready n lo hi m1 (buf + Z.of_nat (length piece)) idx' fmt' ap' args' rest.
Proof.
  intros [Hl Hh _ _ _ Hr _] Ho Hk Hz Hs Hc Ha. rewrite length_app in Hh.
  assert (only_buffer m m1 lo hi) as Hob by (eapply within_buffer; [done|lia|lia]).
  constructor; try done; try lia.
  - by apply (clear_string m m1 lo hi).
  - by apply (args_keep n m m1).
  - intros a Hain. by apply Hk, Hr.
Qed.

(** The end of the text is not touched by a piece without NUL byte. *)
Lemma end_kept n lo hi m m1 buf idx fmt ap args piece rest :
  ready n lo hi m buf idx fmt ap args (piece ++ rest) ->
  same_outside m m1 buf (Z.of_nat (length piece)) ->
  same_outside m m1 buf (Z.of_nat (length piece) + 1)
  /\ m1 !! (buf + Z.of_nat (length piece) + Z.of_nat (length rest)) = Some 0.
Proof.
  intros [_ _ _ _ _ _ Hz] Ho. split; [intros a Ha; apply Ho; lia|].
  rewrite Ho by lia. rewrite length_app in Hz. by rewrite <- Z.add_assoc, <- Nat2Z.inj_add.
Qed.

(** What the rest of the loop does, as the hypothesis of its steps. *)
Definition loop_ok (f n : nat) : Prop := forall lo hi m buf idx fmt ap args out,
  (length fmt < f)%nat -> expand fmt args = Some out -> ready n lo hi m buf idx fmt ap args out ->
  exists m', vsprintf_loop f n buf idx (first fmt) ap m = Ok (buf + Z.of_nat (length out), m')
    /\ written m m' buf out.

(** A piece was written; the rest follows. *)
Lemma continue_loop f n lo hi m m1 buf idx idx' fmt fmt' ap ap' args args' piece rest :
  loop_ok f n -> (length fmt' < f)%nat -> expand fmt' args' = Some rest ->
  ready n lo hi m buf idx fmt ap args (piece ++ rest) ->
  bytes_at m1 buf piece ->
  same_outside m m1 buf (Z.of_nat (length piece) + 1) ->
  (forall a, is_Some (m !! a) -> is_Some (m1 !! a)) ->
  m1 !! (buf + Z.of_nat (length piece) + Z.of_nat (length rest)) = Some 0 ->
  string_at m idx' fmt' -> clear_of lo hi idx' fmt' -> Forall2 (arg_at n m lo hi) ap' args' ->
  exists m', (c ← ld idx'; vsprintf_loop f n (buf + Z.of_nat (length piece)) idx' c ap') m1
      = Ok (buf + Z.of_nat (length (piece ++ rest)), m')
    /\ written m m' buf (piece ++ rest).
Proof.
  intros Hloop Hf He Hr Hb Ho Hk Hz Hs Hc Ha.
  pose proof (ready_next n lo hi m m1 buf idx idx' fmt fmt' ap ap' args args' piece rest Hr Ho Hk Hz Hs Hc Ha) as Hr1.
  destruct (Hloop lo hi m1 _ idx' fmt' ap' args' rest Hf He Hr1) as (m' & Hrun & Hw).
  exists m'. run (ld_first m1 idx' fmt' (rd_fmt _ _ _ _ _ _ _ _ _ _ Hr1)). split.
  - rewrite Hrun. f_equal. f_equal. rewrite length_app. lia.
  - by apply (glue m m1 m').
Qed.

Lemma forall2_cons_arg n m lo hi ap a args :
  Forall2 (arg_at n m lo hi) ap (a :: args) ->
  exists w ap', ap = w :: ap' /\ arg_at n m lo hi w a /\ Forall2 (arg_at n m lo hi) ap' args.
Proof. intros H. inversion H; subst. by eexists _, _. Qed.

Lemma ready_cell n lo hi m buf idx fmt ap args c out :
  ready n lo hi m buf idx fmt ap args (c :: out) -> is_Some (m !! buf).
Proof. intros [Hl Hh _ _ _ Hr _]. cbn [length] in Hh. apply Hr. lia. Qed.

(** The conversions, after the format character has been read. *)
Section conversions.
Context (f n : nat) (lo hi : Z) (m : cmem) (buf idx0 idx : Z) (fmt fmt' : list Z) (ap : list Z) (args : list arg).
Context (Hloop : loop_ok f n) (Hf : (length fmt' < f)%nat).
Context (Hs : string_at m (idx + 1) fmt') (Hc : clear_of lo hi (idx + 1) fmt').

Lemma conv_str s args' rest :
  args = AStr s :: args' -> expand fmt' args' = Some rest -> Forall chr s ->
  ready n lo hi m buf idx0 fmt ap args (s ++ rest) ->
  exists m', ('(arg_str, ap) ← va_arg ap; _ ← strcpy n buf arg_str; len ← strlen n arg_str;
              c ← ld (idx + 1); vsprintf_loop f n (buf + len) (idx + 1) c ap) m
      = Ok (buf + Z.of_nat (length (s ++ rest)), m') /\ written m m' buf (s ++ rest).
Proof.
  intros -> He Hch Hr. destruct (forall2_cons_arg _ _ _ _ _ _ _ (rd_args _ _ _ _ _ _ _ _ _ _ Hr))
    as (w & ap' & Hap & (Hw & Hws & Hwc & Hwn & Hwl) & Ha). subst ap.
  pose proof Hr as [Hl Hh _ _ _ Hro Hend]. rewrite length_app in Hh, Hend.
  assert (va_arg (w :: ap') m = Ok ((w, ap'), m)) as Hva by done. run Hva.
  destruct (strcpy_piece n m buf w s) as (m1 & Hcp & Hb & Hz & Ho & Hk); try done; try lia.
  { apply (sub_room m lo hi); [done|lia|lia]. }
  { unfold clear_of in Hwc. lia. }
  run Hcp. assert (string_at m1 w s) as Hws1.
  { apply (clear_string m m1 lo hi); [|done|done]. eapply within_buffer; [exact Ho|lia|lia]. }
  run (strlen_spec n m1 w s Hw Hwn Hws1 Hwl).
  apply (continue_loop f n lo hi m m1 buf idx0 (idx + 1) fmt fmt' (w :: ap') ap' (AStr s :: args') args' s rest); try done.
  destruct rest as [|r rest]; [by rewrite Z.add_0_r|]. cbn [length] in *.
  rewrite Ho by lia. rewrite <- Hend. f_equal. lia.
Qed.

Lemma conv_chr v args' rest :
  args = AInt v :: args' -> expand fmt' args' = Some rest ->
  ready n lo hi m buf idx0 fmt ap args (u8 v :: rest) ->
  exists m', ('(arg, ap) ← va_arg ap; _ ← sto buf (u8 arg);
              c ← ld (idx + 1); vsprintf_loop f n (buf + 1) (idx + 1) c ap) m
      = Ok (buf + Z.of_nat (length (u8 v :: rest)), m') /\ written m m' buf (u8 v :: rest).
Proof.
  intros -> He Hr. destruct (forall2_cons_arg _ _ _ _ _ _ _ (rd_args _ _ _ _ _ _ _ _ _ _ Hr))
    as (w & ap' & Hap & Hw & Ha). simpl in Hw. subst ap w.
  assert (va_arg (v :: ap') m = Ok ((v, ap'), m)) as Hva by done. run Hva.
  destruct (put_piece m buf (u8 v)) as (Hsto & Hb & Ho & Hk); [by eapply ready_cell|apply u8_range|].
  run Hsto. destruct (end_kept n lo hi m _ buf idx0 fmt (v :: ap') (AInt v :: args') [u8 v] rest Hr Ho) as [Ho1 Hz].
  by apply (continue_loop f n lo hi m _ buf idx0 (idx + 1) fmt fmt' (v :: ap') ap' (AInt v :: args') args' [u8 v] rest).
Qed.

(** A number, behind a sign that may have been written. *)
Lemma conv_num v base args' rest :
  2 <= base <= 16 -> 0 <= v < 2 ^ 32 -> expand fmt' args' = Some rest ->
  ready n lo hi m buf idx0 fmt ap args (digits 33 base v ++ rest) ->
  forall ap', Forall2 (arg_at n m lo hi) ap' args' ->
  exists m', (buf_ptr ← itoa 33 v buf base; c ← ld (idx + 1); vsprintf_loop f n buf_ptr (idx + 1) c ap') m
      = Ok (buf + Z.of_nat (length (digits 33 base v ++ rest)), m')
    /\ written m m' buf (digits 33 base v ++ rest).
Proof.
  intros Hb Hv He Hr ap' Ha. pose proof Hr as [Hl Hh _ _ _ Hro _]. rewrite length_app in Hh.
  destruct (itoa_piece m v buf base Hb Hv) as (m1 & Hit & Hby & Ho & Hk).
  { apply (sub_room m lo hi); [done|lia|lia]. }
  run Hit. destruct (end_kept n lo hi m m1 buf idx0 fmt ap args (digits 33 base v) rest Hr Ho) as [Ho1 Hz].
  by apply (continue_loop f n lo hi m m1 buf idx0 (idx + 1) fmt fmt' ap ap' args args' (digits 33 base v) rest).
Qed.

End conversions.

Lemma conv_dec f n lo hi m buf idx fmt fmt' ap v args' rest :
  loop_ok f n -> (length fmt' < f)%nat ->
  string_at m (idx + 1) fmt' -> clear_of lo hi (idx + 1) fmt' -> expand fmt' args' = Some rest ->
  ready n lo hi m buf idx fmt ap (AInt v :: args') (signed_numeral v ++ rest) ->
  exists m', ('(arg, ap) ← va_arg ap;
              let arg_int := i32 arg in
              '(buf_ptr, arg_int) ← (if arg_int <? 0 then
                                       _ ← sto buf 45; mret (buf + 1, i32 (0 - arg_int))
                                     else mret (buf, arg_int) : st cmem (Z * Z));
              buf_ptr ← itoa 33 (u32 arg_int) buf_ptr 10;
              c ← ld (idx + 1); vsprintf_loop f n buf_ptr (idx + 1) c ap) m
      = Ok (buf + Z.of_nat (length (signed_numeral v ++ rest)), m')
    /\ written m m' buf (signed_numeral v ++ rest).
Proof.
  intros Hloop Hf Hs Hc He Hr. destruct (forall2_cons_arg _ _ _ _ _ _ _ (rd_args _ _ _ _ _ _ _ _ _ _ Hr))
    as (w & ap' & Hap & Hw & Ha). simpl in Hw. subst ap w.
  assert (va_arg (v :: ap') m = Ok ((v, ap'), m)) as Hva by done. run Hva. cbv zeta.
  unfold signed_numeral in *. destruct (Z.ltb_spec (i32 v) 0) as [Hneg|Hpos].
  - set (ds := digits 33 10 (u32 (- i32 v))) in *.
    destruct (put_piece m buf 45) as (Hsto & Hb & Ho & Hk); [by eapply ready_cell|unfold byte; lia|].
    set (m1 := <[buf := 45]> m) in *.
    assert ((_ ← sto buf 45; mret (buf + 1, i32 (0 - i32 v)) : st cmem (Z * Z)) m
              = Ok ((buf + 1, i32 (0 - i32 v)), m1)) as Hsgn by (by run Hsto).
    run Hsgn. rewrite u32_i32. replace (0 - i32 v) with (- i32 v) by lia.
    change ((45 :: ds) ++ rest) with ([45] ++ (ds ++ rest)) in *.
    destruct (end_kept n lo hi m m1 buf idx fmt (v :: ap') (AInt v :: args') [45] (ds ++ rest) Hr Ho) as [Ho1 Hz].
    assert (only_buffer m m1 lo hi) as Hob.
    { pose proof Hr as [Hl Hh _ _ _ _ _]. cbn [app length] in Hh. eapply within_buffer; [exact Ho|lia|lia]. }
    pose proof (ready_next n lo hi m m1 buf idx (idx + 1) fmt fmt' (v :: ap') ap' (AInt v :: args') args'
      [45] (ds ++ rest) Hr Ho1 Hk Hz Hs Hc Ha) as Hr1.
    destruct (conv_num f n lo hi m1 (buf + 1) (idx + 1) idx fmt' fmt' ap' args' Hloop Hf) with (v := u32 (- i32 v))
      (base := 10) (args' := args') (rest := rest) (ap' := ap') as (m' & Hrun & Hw); try done.
    + by apply (clear_string m m1 lo hi).
    + apply u32_range.
    + by apply (args_keep n m m1).
    + exists m'. split; [|by apply (glue m m1 m')].
      rewrite Hrun. do 2 f_equal. fold ds. cbn [app length]. lia.
  - assert (u32 (i32 v) = i32 v) as Hu.
    { apply u32_id. unfold i32 in *. lia. }
    assert ((mret (buf, i32 v) : st cmem (Z * Z)) m = Ok ((buf, i32 v), m)) as Hm by done. run Hm. rewrite Hu.
    apply (conv_num f n lo hi m buf idx idx fmt fmt' (v :: ap') (AInt v :: args') Hloop Hf Hs Hc (i32 v) 10 args' rest);
      try done. unfold i32 in *. lia.
Qed.

Lemma vsprintf_loop_spec f n : loop_ok f n.
Proof.
  induction f as [|f IH]; intros lo hi m buf idx fmt ap args out Hf He Hr; [lia|].
  destruct fmt as [|c fmt].
  { injection He as <-. exists m. cbn [vsprintf_loop first length] in *. rewrite Z.add_0_r. split; [done|].
    pose proof (rd_end _ _ _ _ _ _ _ _ _ _ Hr) as Hz. done. }
  pose proof (rd_fmt _ _ _ _ _ _ _ _ _ _ Hr) as Hs. pose proof (rd_clear _ _ _ _ _ _ _ _ _ _ Hr) as Hcl.
  pose proof (rd_args _ _ _ _ _ _ _ _ _ _ Hr) as Ha.
  pose proof (string_next _ _ _ _ Hs) as Hs1. apply clear_next in Hcl as Hcl1.
  apply string_cons in Hs as (Hch & _ & _). cbn [vsprintf_loop first length] in *.
  replace (c =? 0) with false by (unfold chr in Hch; lia). cbn [expand] in He.
  destruct (Z.eqb_spec c 37) as [->|Hne]; cbn [negb] in *.
  2: { destruct (expand fmt args) as [rest|] eqn:Hx; [|done]. injection He as <-.
       destruct (put_piece m buf c) as (Hsto & Hb & Ho & Hk); [by eapply ready_cell|by apply chr_byte|].
       run Hsto. destruct (end_kept n lo hi m _ buf idx (c :: fmt) ap args [c] rest Hr Ho) as [Ho1 Hz].
       apply (continue_loop f n lo hi m _ buf idx (idx + 1) (c :: fmt) fmt ap ap args args [c] rest); try done; lia. }
  run (ld_first m (idx + 1) fmt Hs1). destruct fmt as [|d fmt'].
  { injection He as <-. cbn [first length] in *. exists m. destruct f as [|f]; [lia|].
    change (vsprintf_loop (S f) n buf (idx + 1) 0 ap) with (mret buf : st cmem Z).
    rewrite Z.add_0_r. split; [done|]. pose proof (rd_end _ _ _ _ _ _ _ _ _ _ Hr) as Hz. done. }
  cbn [first] in *. pose proof (string_next _ _ _ _ Hs1) as Hs2. apply clear_next in Hcl1 as Hcl2.
  assert (forall ap' args' out', ready n lo hi m buf idx (37 :: d :: fmt') ap' args' out' ->
            ready n lo hi m buf (idx + 1) (d :: fmt') ap' args' out') as Hsh.
  { intros ap' args' out' [? ? ? ? ? ? ?]. by constructor. }
  apply string_cons in Hs1 as Hd. destruct Hd as (Hdc & _ & _). cbn [length] in *.
  destruct (d =? 115).
  { destruct args as [|[v|s] args']; try done. destruct (expand fmt' args') as [rest|] eqn:Hx; [|done].
    injection He as <-. apply (conv_str f n lo hi m buf (idx + 1) (idx + 1) (d :: fmt') fmt' ap (AStr s :: args') IH) with (args' := args');
      try done; [lia| |by apply Hsh].
    destruct (forall2_cons_arg _ _ _ _ _ _ _ Ha) as (w & ap' & _ & (_ & [Hc _] & _) & _). done. }
  destruct (d =? 99).
  { destruct args as [|[v|s] args']; try done. destruct (expand fmt' args') as [rest|] eqn:Hx; [|done].
    injection He as <-. apply (conv_chr f n lo hi m buf (idx + 1) (idx + 1) (d :: fmt') fmt' ap (AInt v :: args') IH) with (args' := args');
      try done; [lia|by apply Hsh]. }
  destruct (d =? 100).
  { destruct args as [|[v|s] args']; try done. destruct (expand fmt' args') as [rest|] eqn:Hx; [|done].
    apply (inj Some) in He. subst out. apply (conv_dec f n lo hi m buf (idx + 1) (d :: fmt') fmt' ap v args' rest IH);
      try done; [lia|by apply Hsh]. }
  destruct (d =? 120).
  { destruct args as [|[v|s] args']; try done. destruct (expand fmt' args') as [rest|] eqn:Hx; [|done].
    apply (inj Some) in He. subst out. destruct (forall2_cons_arg _ _ _ _ _ _ _ Ha) as (w & ap' & -> & Hw & Ha').
    simpl in Hw. subst w. assert (va_arg (v :: ap') m = Ok ((v, ap'), m)) as Hva by done. run Hva. rewrite u32_i32.
    apply (conv_num f n lo hi m buf (idx + 1) (idx + 1) (d :: fmt') fmt' (v :: ap') (AInt v :: args') IH) with (args' := args');
      try done; [lia|apply u32_range|by apply Hsh]. }
  apply (IH lo hi m buf (idx + 1) (d :: fmt') ap args out); [cbn [length]; lia|done|by apply Hsh].
Qed.

(** ** Properties *)

(** [itoa] writes a numeral of its argument (read back in the base, the
    digits give the number again) and nothing else, and leaves the pointer
    behind it; 33 nested calls suffice for every 32-bit number in bases 2 to
    16. *)
Theorem itoa_roundtrip (m : cmem) (v p base : Z) :
  2 <= base <= 16 -> 0 <= v < 2 ^ 32 -> room m p 33 ->
  exists ds m', itoa 33 v p base m = Ok (p + Z.of_nat (length ds), m')
    /\ bytes_at m' p ds /\ numeral base ds = v /\ Forall chr ds
    /\ same_outside m m' p (Z.of_nat (length ds)).
Proof.
  intros Hb Hv Hr. pose proof (digits_length 33 base v) as Hl.
  destruct (itoa_piece m v p base Hb Hv) as (m' & H1 & H2 & H3 & _).
  { intros a Ha. apply Hr. lia. }
  exists (digits 33 base v), m'. split_and!; try done.
  - by apply (digits_numeral 32).
  - by apply digits_chr.
Qed.

Lemma itoa_roundtrip_witness :
  exists ds m', itoa 33 255 300 16 (put_bytes 300 (replicate 40 0) ∅) = Ok (300 + Z.of_nat (length ds), m')
    /\ numeral 16 ds = 255.
Proof.
  destruct (itoa_roundtrip (put_bytes 300 (replicate 40 0) ∅) 255 300 16) as (ds & m' & H1 & _ & H2 & _).
  - lia.
  - lia.
  - intros a Ha.
    assert (Forall (fun a => is_Some (put_bytes 300 (replicate 40 0) ∅ !! a)) (seqZ 300 33)) as H
      by (apply (bool_decide_unpack _); vm_compute; done).
    rewrite Forall_forall in H. apply H, elem_of_seqZ. lia.
  - exists ds, m'. split; [exact H1|exact H2].
Defined.

(** C38: [vsprintf] writes the text its format and arguments stand for and
    returns its length, if the buffer has a NUL byte behind the text (the
    function writes none, except after %s).  The format and the string
    arguments lie outside the buffer and keep their value. *)
Theorem vsprintf_formats (f n : nat) (lo hi : Z) (m : cmem) (format : Z) (fmt : list Z)
    (ap : list Z) (args : list arg) (out : list Z) :
  (length fmt < f)%nat -> (length out < n)%nat -> Z.of_nat (length out) < 2 ^ 32 ->
  expand fmt args = Some out -> Forall chr out ->
  ready n lo hi m lo format fmt ap args out ->
  exists m', vsprintf f n lo format ap m = Ok (Z.of_nat (length out), m')
    /\ string_at m' lo out /\ same_outside m m' lo (Z.of_nat (length out) + 1).
Proof.
  intros Hf Hn Hl He Hc Hr. destruct (vsprintf_loop_spec f n lo hi m lo format fmt ap args out Hf He Hr)
    as (m' & Hrun & Hb & Ho & Hz & _).
  assert (string_at m' lo out) as Hs.
  { split; [done|]. apply bytes_at_app. split; [done|]. by cbn [bytes_at]. }
  exists m'. split; [|done]. unfold vsprintf. run (ld_first m format fmt (rd_fmt _ _ _ _ _ _ _ _ _ _ Hr)).
  run Hrun. apply strlen_spec; try done. pose proof (rd_lo _ _ _ _ _ _ _ _ _ _ Hr). lia.
Qed.

(** "%s=%d" at 100, "ab" at 200, a cleared buffer at 300. *)
Definition demo_format : cmem :=
  put_bytes 100 [37; 115; 61; 37; 100; 0] (put_bytes 200 [97; 98; 0] (put_bytes 300 (replicate 20 0) ∅)).

Lemma vsprintf_formats_witness :
  exists m', vsprintf 9 9 300 100 [200; 2 ^ 32 - 5] demo_format = Ok (5, m')
    /\ string_at m' 300 [97; 98; 61; 45; 53].
Proof.
  destruct (vsprintf_formats 9 9 300 320 demo_format 100 [37; 115; 61; 37; 100]
      [200; 2 ^ 32 - 5] [AStr [97; 98]; AInt (2 ^ 32 - 5)] [97; 98; 61; 45; 53]) as (m' & H & Hs & _).
  - simpl; lia.
  - simpl; lia.
  - reflexivity.
  - vm_compute. reflexivity.
  - repeat constructor; lia.
  - constructor.
    + lia.
    + simpl; lia.
    + split; [repeat constructor; lia|vm_compute; repeat split; reflexivity].
    + left. simpl; lia.
    + repeat constructor; try (simpl; lia); try (vm_compute; repeat split; reflexivity).
    + intros a Ha.
      assert (Forall (fun a => is_Some (demo_format !! a)) (seqZ 300 20)) as H
        by (apply (bool_decide_unpack _); vm_compute; done).
      rewrite Forall_forall in H. apply H, elem_of_seqZ. lia.
    + vm_compute. reflexivity.
  - exists m'. split; [exact H|exact Hs].
Defined.
