(* ===== verification/Console.v ===== *)
(** * Console: device/console.c and lib/kernel/stdio-kernel.c

    Output to the screen under a lock.  What is put on the screen is the result
    of a call; Screen has how it is drawn. *)
From S2P Require Import Prelude Bitmap Interrupt DList Paging Pages Kernel Sched Sync CString Stdio.

(** ** Definitions *)

(** The address of [console_lock]: the variables of console.o in build/kernel.map. *)
Definition console_lock : Z := 0xc0016624.

Definition console_init : proc kernel unit := lock_init console_lock.

Definition console_acquire (fuel : nat) : proc kernel unit := lock_acquire fuel console_lock.

Definition console_release : proc kernel unit := lock_release console_lock.

(** The three operations that print have the same shape; [text] is what
    [put_str], [put_char] or [put_int] puts on the screen. *)
Definition console_put (fuel : nat) (text : list Z) : proc kernel (list Z) :=
  _ ← console_acquire fuel;
  _ ← console_release;
  mret text.

Definition console_put_str (fuel : nat) (str : list Z) : proc kernel (list Z) := console_put fuel str.

Definition console_put_char (fuel : nat) (char_asci : Z) : proc kernel (list Z) := console_put fuel [u8 char_asci].

(** [put_int] prints hexadecimal digits. *)
Definition console_put_int (fuel : nat) (num : Z) : proc kernel (list Z) := console_put fuel (digits 33 16 (u32 num)).

(** ** printk, lib/kernel/stdio-kernel.c *)

(** The text at an address, up to its NUL. *)
Fixpoint text_at (n : nat) (p : Z) : st cmem (list Z) :=
  match n with
  | O => sres (Bad EFuel)
  | S n' => c ← ld p; if c =? 0 then mret [] else r ← text_at n' (p + 1); mret (c :: r)
  end.

(** [buf] is the address of the local array, [m] the memory; the result is what
    is put on the screen, and the memory. *)
Definition printk (fuel n : nat) (buf format : Z) (args : list Z) (m : cmem) : proc kernel (list Z * cmem) :=
  x ← lift ((_ ← memset_loop 1024 buf 0; _ ← vsprintf n n buf format args; text_at n buf) m);
  text ← console_put_str fuel x.1;
  mret (text, x.2).
