(* ===== verification/Paths.v ===== *)
(** * Paths: path names, from fs/fs.c and shell/buildin_cmd.c

    The functions work on the bytes of CString.  The reference they are compared
    with is the list of components of a path: the non-empty parts between its
    slashes. *)
From S2P Require Import Prelude CString.

(** ** Operations *)

Definition MAX_FILE_NAME_LEN : Z := 16.

Definition MAX_PATH_LEN : Z := 512.

(** The loop that skips slashes: the pointer is advanced before it is read. *)
Fixpoint skip_slashes (fuel : nat) (pathname : Z) : st cmem Z :=
  match fuel with
  | O => sres (Bad EFuel)
  | S f => c ← ld (pathname + 1); if c =? 47 then skip_slashes f (pathname + 1) else mret (pathname + 1)
  end.

(** The loop that copies up to the next slash or the end. *)
Fixpoint copy_name (fuel : nat) (pathname name_store : Z) : st cmem Z :=
  match fuel with
  | O => sres (Bad EFuel)
  | S f =>
    c ← ld pathname;
    if negb (c =? 47) && negb (c =? 0)
    then _ ← sto name_store c; copy_name f (pathname + 1) (name_store + 1)
    else mret pathname
  end.

Definition path_parse (fuel : nat) (pathname name_store : Z) : st cmem Z :=
  c ← ld pathname;
  pathname ← (if c =? 47 then skip_slashes fuel pathname else mret pathname);
  pathname ← copy_name fuel pathname name_store;
  c ← ld pathname;
  mret (if c =? 0 then 0 else pathname).

(** The loop of [path_depth_cnt]; [name] is the address of the local array. *)
Fixpoint depth_loop (n fuel : nat) (p name depth : Z) : st cmem Z :=
  match n with
  | O => sres (Bad EFuel)
  | S n' =>
    c ← ld name;
    if c =? 0 then mret depth
    else
      let depth := u32 (depth + 1) in
      _ ← memset name 0 MAX_FILE_NAME_LEN;
      p ← (if negb (p =? 0) then path_parse fuel p name else mret p);
      depth_loop n' fuel p name depth
  end.

(** The array is not initialised: its first byte is what the memory holds. *)
Definition path_depth_cnt (n fuel : nat) (pathname name : Z) : st cmem Z :=
  _ ← not_null pathname;
  p ← path_parse fuel pathname name;
  depth ← depth_loop n fuel p name 0;
  mret (i32 depth).

(** The addresses of the string literals "..", "." and "/". *)
Record literals : Type := Literals {
  lit_dotdot : Z;
  lit_dot : Z;
  lit_slash : Z
}.

(** The body of the loop of [wash_path] before the next name is parsed. *)
Definition wash_name (fuel : nat) (l : literals) (new_abs_path name : Z) : st cmem unit :=
  d ← strcmp fuel (lit_dotdot l) name;
  if d =? 0 then
    slash_ptr ← strrchr fuel new_abs_path 47;
    if negb (slash_ptr =? new_abs_path) then sto slash_ptr 0 else sto (slash_ptr + 1) 0
  else
    d ← strcmp fuel (lit_dot l) name;
    if negb (d =? 0) then
      e ← strcmp fuel new_abs_path (lit_slash l);
      _ ← (if negb (e =? 0) then strcat fuel new_abs_path (lit_slash l) else mret 0);
      _ ← strcat fuel new_abs_path name;
      mret tt
    else mret tt.

Fixpoint wash_loop (n fuel : nat) (l : literals) (sub_path new_abs_path name : Z) : st cmem unit :=
  match n with
  | O => sres (Bad EFuel)
  | S n' =>
    c ← ld name;
    if c =? 0 then mret tt
    else
      _ ← wash_name fuel l new_abs_path name;
      _ ← memset name 0 MAX_FILE_NAME_LEN;
      sub_path ← (if negb (sub_path =? 0) then path_parse fuel sub_path name else mret sub_path);
      wash_loop n' fuel l sub_path new_abs_path name
  end.

(** [name] is the local array, initialised with zeros. *)
Definition wash_path (n fuel : nat) (l : literals) (old_abs_path new_abs_path name : Z) : st cmem unit :=
  c ← ld old_abs_path;
  _ ← sassert (c =? 47);
  _ ← memset_loop (Z.to_nat MAX_FILE_NAME_LEN) name 0;
  sub_path ← path_parse fuel old_abs_path name;
  c ← ld name;
  if c =? 0 then
    _ ← sto new_abs_path 47;
    sto (new_abs_path + 1) 0
  else
    _ ← sto new_abs_path 0;
    _ ← strcat fuel new_abs_path (lit_slash l);
    wash_loop n fuel l sub_path new_abs_path name.

(** [make_clear_abs_path]; [abs_path] is the local array and [getcwd] the system
    call on it (the file system keeps the working directory). *)
Definition make_clear_abs_path (n fuel : nat) (l : literals) (getcwd : Z -> Z -> st cmem Z)
    (path final_path abs_path name : Z) : st cmem unit :=
  _ ← memset_loop (Z.to_nat MAX_PATH_LEN) abs_path 0;
  c ← ld path;
  _ ← (if negb (c =? 47) then
         _ ← memset abs_path 0 MAX_PATH_LEN;
         r ← getcwd abs_path MAX_PATH_LEN;
         if negb (r =? 0) then
           a ← ld abs_path;
           b ← (if a =? 47 then b ← ld (abs_path + 1); mret (b =? 0) else mret false);
           if negb b then strcat fuel abs_path (lit_slash l) else mret 0
         else mret 0
       else mret 0);
  _ ← strcat fuel abs_path path;
  wash_path n fuel l abs_path final_path name.

(** ** Paths as lists of components *)

(** The parts between the separators [t], the empty ones included. *)
Fixpoint split_on (t : Z) (s : list Z) : list (list Z) :=
  match s with
  | [] => [[]]
  | c :: s' =>
    if c =? t then [] :: split_on t s'
    else match split_on t s' with [] => [[c]] | x :: r => (c :: x) :: r end
  end.

Definition words (t : Z) (s : list Z) : list (list Z) := filter (fun c => c <> []) (split_on t s).

Definition components (s : list Z) : list (list Z) := words 47 s.

(** The path with the given components. *)
Definition render (cs : list (list Z)) : list Z :=
  match cs with [] => [47] | _ => concat (map (cons 47) cs) end.

Definition resolve_step (acc : list (list Z)) (c : list Z) : list (list Z) :=
  if bool_decide (c = [46; 46]) then removelast acc
  else if bool_decide (c = [46]) then acc
  else acc ++ [c].

(** Removing "." and "..", the latter with the component before it. *)
Definition resolve (cs : list (list Z)) : list (list Z) := fold_left resolve_step cs [].

(** A text up to the end of its first part: [n] separators, the part [c], and
    the rest [r], which begins with a separator. *)
Record parsed_on (t : Z) (s : list Z) (n : nat) (c r : list Z) : Prop := {
  pa_eq : s = replicate n t ++ c ++ r;
  pa_name : t ∉ c;
  pa_rest : r = [] \/ exists r', r = t :: r';
  pa_end : c = [] -> r = []
}.
#[global] Arguments pa_end {t s n c r} _ _.

Notation parsed := (parsed_on 47).

Lemma split_nonempty t s : split_on t s <> [].
Proof. destruct s as [|c s]; [done|]. simpl. case_match; [done|]. by case_match. Qed.

Lemma split_name t c r :
  t ∉ c -> r = [] \/ (exists r', r = t :: r') ->
  split_on t (c ++ r) = c :: match r with [] => [] | _ :: r' => split_on t r' end.
Proof.
  intros Hc Hr. induction c as [|x c IH]; cbn [app split_on].
  - destruct Hr as [->|[r' ->]]; cbn [split_on]; [done|]. by rewrite Z.eqb_refl.
  - apply not_elem_of_cons in Hc as [Hx Hc]. rewrite (proj2 (Z.eqb_neq x t)) by done. by rewrite IH.
Qed.

Lemma words_sep t s : words t (t :: s) = words t s.
Proof. unfold words. cbn [split_on]. rewrite Z.eqb_refl. by rewrite filter_cons_False by auto. Qed.

Lemma words_parsed t s n c r :
  parsed_on t s n c r -> words t s = (if bool_decide (c = []) then [] else [c]) ++ words t r.
Proof.
  intros [-> Hc Hr He]. induction n as [|n IH]; cbn [replicate app]; [|by rewrite words_sep].
  assert (words t (c ++ r) = filter (fun c => c <> []) (c :: match r with [] => [] | _ :: r' => split_on t r' end)) as ->
    by (unfold words; by rewrite split_name).
  assert (filter (fun c => c <> []) (match r with [] => [] | _ :: r' => split_on t r' end) = words t r) as Hcr.
  { destruct Hr as [->|[r' ->]]; [done|]. by rewrite words_sep. }
  case_bool_decide.
  - rewrite filter_cons_False by auto. by rewrite Hcr.
  - rewrite filter_cons_True by done. by rewrite Hcr.
Qed.

Lemma parsed_exists t s : exists n c r, parsed_on t s n c r.
Proof.
  induction s as [|x s (n & c & r & [-> Hc Hr He])].
  - exists 0%nat, [], []. split; auto. set_solver.
  - destruct (decide (x = t)) as [->|Hx].
    + exists (S n), c, r. by split.
    + destruct n as [|n].
      * exists 0%nat, (x :: c), r. split; auto; [set_solver|done].
      * exists 0%nat, [x], (replicate (S n) t ++ c ++ r). split; [done|set_solver| |done]. right. by eexists.
Qed.

Lemma components_slash s : components (47 :: s) = components s.
Proof. apply words_sep. Qed.

Lemma components_parsed s n c r :
  parsed s n c r -> components s = (if bool_decide (c = []) then [] else [c]) ++ components r.
Proof. apply words_parsed. Qed.

(** A path that begins with a slash is at least as long as its components, each
    with a slash in front. *)
Definition width (cs : list (list Z)) : nat := length (concat (map (cons 47) cs)).

Lemma width_app a b : width (a ++ b) = (width a + width b)%nat.
Proof. unfold width. by rewrite map_app, concat_app, length_app. Qed.

Lemma width_one c : width [c] = S (length c).
Proof. unfold width. simpl. by rewrite app_nil_r. Qed.

Lemma render_length cs : (length (render cs) <= S (width cs))%nat /\ (1 <= length (render cs))%nat.
Proof. destruct cs as [|c cs]; [by cbn; lia|]. unfold width, render. cbn. lia. Qed.

Lemma width_components s : (width (components s) <= S (length s))%nat
  /\ (forall s', s = 47 :: s' -> (width (components s) <= length s)%nat).
Proof.
  assert (forall s, width (components s) <= S (length s))%nat as H.
  { clear s. intros s. remember (length s) as n eqn:Hn. revert s Hn.
    induction n as [n IH] using lt_wf_ind. intros s Hn.
    destruct (parsed_exists 47 s) as (k & c & r & Hp). rewrite (components_parsed s k c r Hp).
    destruct Hp as [Hs Hc Hr He]. rewrite width_app.
    assert (length s = k + length c + length r)%nat as Hl by (rewrite Hs, !length_app, length_replicate; lia).
    destruct Hr as [->|[r' ->]].
    - change (components []) with (@nil (list Z)). change (width []) with 0%nat.
      case_bool_decide; [change (width []) with 0%nat|rewrite width_one]; cbn [length] in *; lia.
    - rewrite components_slash. case_bool_decide as Hb; [by specialize (He Hb)|]. rewrite width_one. cbn [length] in *.
      specialize (IH (length r') ltac:(lia) r' eq_refl). lia. }
  split; [apply H|]. intros s' ->. rewrite components_slash. cbn [length]. apply H.
Qed.

Lemma width_count cs : (length cs <= width cs)%nat.
Proof. induction cs as [|c cs IH]; [done|]. change (c :: cs) with ([c] ++ cs). rewrite width_app, width_one, length_app. simpl. lia. Qed.

Lemma components_bound s : (length (components s) <= S (length s))%nat.
Proof. destruct (width_components s) as [H _]. pose proof (width_count (components s)). lia. Qed.

(** ** Parsing one component *)

Definition apart (p n q k : Z) : Prop := p + n <= q \/ q + k <= p.

Lemma skip_slashes_spec f m p n s :
  (n < f)%nat -> string_at m (p + 1) (replicate n 47 ++ s) -> (forall s', s <> 47 :: s') ->
  skip_slashes f p m = Ok (p + 1 + Z.of_nat n, m).
Proof.
  revert p n. induction f as [|f IH]; intros p n Hf Hs Hn; [lia|]. cbn [skip_slashes]. destruct n as [|n].
  - cbn [replicate app] in Hs.
    assert (exists c, m !! (p + 1) = Some c /\ (c =? 47) = false) as (c & Hm & Hc).
    { destruct s as [|c s]; [exists 0; split; [by apply string_nil in Hs|done]|].
      apply string_cons in Hs as (_ & Hm & _). exists c. split; [done|]. apply Z.eqb_neq. intros ->. by apply (Hn s). }
    run (run_ld m (p + 1) c Hm). rewrite Hc. unfold mret, st_ret. do 2 f_equal. lia.
  - cbn [replicate app] in Hs. apply string_cons in Hs as (_ & Hm & Hs). run (run_ld m (p + 1) 47 Hm).
    change (47 =? 47) with true. cbv iota. rewrite (IH (p + 1) n) by (done || lia). do 2 f_equal. lia.
Qed.

Lemma string_drop m p u v : string_at m p (u ++ v) -> string_at m (p + Z.of_nat (length u)) v.
Proof.
  revert p. induction u as [|c u IH]; intros p Hs; cbn [app length] in *.
  - by rewrite Z.add_0_r.
  - apply string_cons in Hs as (_ & _ & Hs). specialize (IH _ Hs).
    by replace (p + Z.of_nat (S (length u))) with (p + 1 + Z.of_nat (length u)) by lia.
Qed.

Lemma copy_name_spec f m p name c r :
  (length c < f)%nat -> string_at m p (c ++ r) -> 47 ∉ c -> r = [] \/ (exists r', r = 47 :: r') ->
  room m name (Z.of_nat (length c)) -> apart p (Z.of_nat (length (c ++ r)) + 1) name (Z.of_nat (length c)) ->
  exists m', copy_name f p name m = Ok (p + Z.of_nat (length c), m')
    /\ bytes_at m' name c /\ same_outside m m' name (Z.of_nat (length c)).
Proof.
  unfold apart. revert m p name c. induction f as [|f IH]; intros m p name c Hf Hs Hc Hr Hm Ha; [lia|]. cbn [copy_name].
  destruct c as [|x c]; cbn [app length] in *.
  - exists m. rewrite Z.add_0_r. split; [|done]. destruct Hr as [->|[r' ->]].
    + apply string_nil in Hs. by run (run_ld m p 0 Hs).
    + apply string_cons in Hs as (_ & Hx & _). by run (run_ld m p 47 Hx).
  - apply string_cons in Hs as (Hx & Hmx & Hs). run (run_ld m p x Hmx).
    apply not_elem_of_cons in Hc as [Hne Hc]. rewrite (proj2 (Z.eqb_neq x 47)) by done.
    replace (x =? 0) with false by (unfold chr in Hx; lia). cbn [negb andb].
    assert (is_Some (m !! name)) as Hn by (apply Hm; lia). run (run_sto m name x Hn).
    rewrite u8_id by (by apply chr_byte). set (m1 := <[name := x]> m).
    assert (same_outside m m1 name 1) as Ho1 by (intros a Hna; subst m1; by rewrite lookup_insert_ne by lia).
    destruct (IH m1 (p + 1) (name + 1) c) as (m' & Hrun & Hb & Ho).
    + lia.
    + eapply (string_outside m m1 name 1); [done| |done]. rewrite length_app in *. lia.
    + done.
    + done.
    + apply room_insert. intros a Hna. apply Hm. lia.
    + lia.
    + exists m'. split; [rewrite Hrun; do 2 f_equal; lia|]. split; [split; [|done]|].
      * rewrite Ho by lia. subst m1. by rewrite lookup_insert, decide_True.
      * intros a Hna. rewrite Ho by lia. apply Ho1. lia.
Qed.

(** [path_parse] stores the first component and returns where the rest begins,
    NULL when there is none. *)
Lemma path_parse_spec f m p name s n c r :
  (length s < f)%nat -> string_at m p s -> parsed s n c r ->
  room m name (Z.of_nat (length c)) -> apart p (Z.of_nat (length s) + 1) name (Z.of_nat (length c)) ->
  exists m', path_parse f p name m = Ok (if bool_decide (r = []) then 0 else p + Z.of_nat (n + length c), m')
    /\ bytes_at m' name c /\ same_outside m m' name (Z.of_nat (length c)) /\ string_at m' p s.
Proof.
  intros Hf Hs [Heq Hc Hr He] Hm Ha. unfold path_parse, apart in *.
  assert (exists x, m !! p = Some x /\ (if x =? 47 then skip_slashes f p else mret p) m = Ok (p + Z.of_nat n, m)) as (x & Hx & Hskip).
  { destruct n as [|n].
    - cbn [replicate app] in Heq. destruct s as [|x s].
      + exists 0. split; [by apply string_nil in Hs|]. by rewrite Z.add_0_r.
      + apply string_cons in Hs as (_ & Hx & _). exists x. split; [done|]. rewrite (proj2 (Z.eqb_neq x 47)); [by rewrite Z.add_0_r|].
        intros ->. destruct c as [|y c].
        * specialize (He eq_refl). by subst r.
        * simplify_eq/=. set_solver.
    - rewrite Heq in Hs. cbn [replicate app] in Hs. apply string_cons in Hs as (_ & Hx & Hs). exists 47. split; [done|].
      change (47 =? 47) with true. cbv iota. rewrite (skip_slashes_spec f m p n (c ++ r)).
      + do 2 f_equal. lia.
      + apply (f_equal length) in Heq. rewrite !length_app, length_replicate in Heq. lia.
      + done.
      + intros s' Hs'. destruct c as [|y c]; [specialize (He eq_refl); by subst r|]. simplify_eq/=. set_solver. }
  run (run_ld m p x Hx). run Hskip.
  assert (length s = n + length c + length r)%nat as Hl by (rewrite Heq, !length_app, length_replicate; lia).
  assert (string_at m (p + Z.of_nat n) (c ++ r)) as Hs2.
  { rewrite Heq in Hs. apply string_drop in Hs. by rewrite length_replicate in Hs. }
  destruct (copy_name_spec f m (p + Z.of_nat n) name c r) as (m' & Hrun & Hb & Ho); try done.
  { lia. } { unfold apart. rewrite length_app. lia. }
  run Hrun. assert (string_at m' p s) as Hs' by (eapply (string_outside m m' name); [done|lia|done]).
  exists m'. split; [|by split].
  assert (string_at m' (p + Z.of_nat n + Z.of_nat (length c)) r) as Hr'.
  { apply string_drop. eapply (string_outside m m' name); [done| |done]. rewrite length_app. lia. }
  destruct Hr as [->|[r' ->]].
  - apply string_nil in Hr'. by run (run_ld _ _ _ Hr').
  - apply string_cons in Hr' as (_ & Hm' & _). run (run_ld _ _ _ Hm'). rewrite bool_decide_false by done.
    change (47 =? 0) with false. cbv iota. unfold mret, st_ret. do 2 f_equal. lia.
Qed.

(** ** Walking along a path *)

(** The path that remains to be parsed; NULL stands for the empty one. *)
Definition rest_at (m : cmem) (p : Z) (r : list Z) : Prop :=
  (r = [] /\ p = 0) \/ (p <> 0 /\ string_at m p r).

Definition next_name (fuel : nat) (p name : Z) : st cmem Z :=
  _ ← memset name 0 MAX_FILE_NAME_LEN;
  if negb (p =? 0) then path_parse fuel p name else mret p.

Definition short (cs : list (list Z)) : Prop := Forall (fun c => Z.of_nat (length c) < MAX_FILE_NAME_LEN) cs.

(** Zeros behind a name that was copied end it. *)
Lemma name_string m m' name c :
  bytes_at m name (replicate 16 0) -> bytes_at m' name c -> Forall chr c ->
  same_outside m m' name (Z.of_nat (length c)) -> Z.of_nat (length c) < 16 -> string_at m' name c.
Proof.
  intros Hz Hb Hc Ho Hl. split; [done|].
  assert (forall k : nat, (k < 16)%nat -> m !! (name + Z.of_nat k) = Some 0) as Hzk.
  { clear -Hz. intros k. generalize dependent name. generalize 16%nat as n. intros n. revert k.
    induction n as [|n IH]; intros k name Hz Hk; [lia|]. destruct Hz as [H0 Hz]. destruct k as [|k].
    - by rewrite Z.add_0_r.
    - replace (name + Z.of_nat (S k)) with (name + 1 + Z.of_nat k) by lia. by apply IH; [|lia]. }
  assert (m' !! (name + Z.of_nat (length c)) = Some 0) as H0 by (rewrite Ho by lia; apply Hzk; lia).
  clear -Hb H0. revert name Hb H0. induction c as [|x c IH]; intros name Hb H0; cbn [app bytes_at length] in *.
  - by rewrite Z.add_0_r in H0.
  - destruct Hb as [Hx Hb]. split; [done|]. apply IH; [done|].
    by replace (name + 1 + Z.of_nat (length c)) with (name + Z.of_nat (S (length c))) by lia.
Qed.

Lemma parsed_chr s n c r : parsed s n c r -> Forall chr s -> Forall chr c.
Proof. intros [-> _ _ _] H. apply Forall_app in H as [_ H]. by apply Forall_app in H as [H _]. Qed.

Lemma parsed_short s n c r : parsed s n c r -> short (components s) -> Z.of_nat (length c) < 16 /\ short (components r).
Proof.
  intros Hp Hs. unfold short in *. rewrite (components_parsed s n c r Hp) in Hs. apply Forall_app in Hs as [H1 H2].
  split; [|done]. case_bool_decide as Hb; [subst c; simpl; lia|]. by apply Forall_cons_1 in H1 as [H1 _].
Qed.

Lemma next_name_spec f m p name r :
  (length r < f)%nat -> rest_at m p r -> short (components r) -> name <> 0 -> 0 < p \/ p = 0 ->
  room m name 16 -> (p <> 0 -> apart p (Z.of_nat (length r) + 1) name 16) ->
  exists m' p' n c r', next_name f p name m = Ok (p', m') /\ parsed r n c r'
    /\ string_at m' name c /\ rest_at m' p' r' /\ same_outside m m' name 16 /\ room m' name 16
    /\ (p' = 0 \/ p' = p + Z.of_nat (length r) - Z.of_nat (length r')).
Proof.
  intros Hf Hr Hsh Hn Hpos Hm Ha. unfold next_name, memset.
  destruct (memset_loop_spec 16 m name 0 Hm) as (m1 & Hset & Hz & Ho1).
  assert ((_ ← not_null name; memset_loop (Z.to_nat MAX_FILE_NAME_LEN) name 0) m = Ok (tt, m1)) as Hms
    by (by run (not_null_run name m Hn)).
  run Hms. change (u8 0) with 0 in Hz. change (Z.of_nat 16) with 16 in Ho1.
  assert (room m1 name 16) as Hm1 by (apply bytes_room in Hz; by rewrite length_replicate in Hz).
  destruct Hr as [[-> ->]|[Hp Hs]].
  - exists m1, 0, 0%nat, [], []. split; [done|]. split; [split; auto; set_solver|]. split; [|split; [by left|by auto]].
    apply string_nil. by destruct Hz.
  - rewrite (proj2 (Z.eqb_neq p 0) Hp). cbn [negb]. specialize (Ha Hp). unfold apart in Ha.
    destruct (parsed_exists 47 r) as (n & c & r' & Hpr). destruct (parsed_short r n c r' Hpr Hsh) as [Hc _].
    assert (string_at m1 p r) as Hs1 by (eapply (string_outside m m1 name 16); [done|lia|done]).
    destruct (path_parse_spec f m1 p name r n c r' Hf Hs1 Hpr) as (m2 & Hrun & Hb & Ho2 & Hs2).
    { intros a Hna. apply Hm1. lia. } { unfold apart. lia. }
    assert (length r = n + length c + length r')%nat as Hl.
    { destruct Hpr as [-> _ _ _]. rewrite !length_app, length_replicate. lia. }
    exists m2, (if bool_decide (r' = []) then 0 else p + Z.of_nat (n + length c)), n, c, r'.
    split; [done|]. split; [done|]. split_and!.
    + eapply (name_string m1); [done|done| |done|lia]. eapply parsed_chr; [done|apply Hs].
    + unfold rest_at. case_bool_decide; [by left|]. right. split; [lia|].
      destruct Hpr as [Heq _ _ _]. rewrite Heq, app_assoc in Hs2. apply string_drop in Hs2.
      by rewrite length_app, length_replicate in Hs2.
    + intros a Hna. rewrite Ho2 by lia. by apply Ho1.
    + eapply room_outside; [exact Ho2| |done]. by apply bytes_room.
    + case_bool_decide; [by left|]. right. lia.
Qed.

Lemma next_name_bind {B} f p name (k : Z -> st cmem B) m p' m' :
  next_name f p name m = Ok (p', m') ->
  (_ ← memset name 0 MAX_FILE_NAME_LEN; p ← (if negb (p =? 0) then path_parse f p name else mret p); k p) m = k p' m'.
Proof.
  unfold next_name, mbind, st_bind. destruct (memset _ _ _ m) as [[[] m1]|]; [|done].
  by intros ->.
Qed.

(** The first byte of a name tells whether there is one. *)
Lemma name_test m name c : string_at m name c -> exists x, m !! name = Some x /\ (x =? 0) = bool_decide (c = []).
Proof.
  intros Hs. destruct c as [|x c].
  - exists 0. split; [by apply string_nil in Hs|done].
  - apply string_cons in Hs as (Hx & Hm & _). exists x. split; [done|]. rewrite bool_decide_false by done.
    unfold chr in Hx. lia.
Qed.

(** [r'] is what is left of the path [r] at [p]. *)
Lemma walk_apart (p p' : Z) (r r' : list Z) name :
  (p' = 0 \/ p' = p + Z.of_nat (length r) - Z.of_nat (length r')) -> (length r' <= length r)%nat -> 0 < p ->
  apart p (Z.of_nat (length r) + 1) name 16 -> (p' <> 0 -> apart p' (Z.of_nat (length r') + 1) name 16) /\ (0 < p' \/ p' = 0).
Proof. unfold apart. intros [-> | ->] Hl Hp Ha; split; lia. Qed.

Lemma parsed_rest s n c r : parsed s n c r -> (length r <= length s)%nat.
Proof. intros [-> _ _ _]. rewrite !length_app. lia. Qed.

Lemma depth_loop_spec f n : forall m p name c r depth,
  (length ((if bool_decide (c = []) then [] else [c]) ++ components r) < n)%nat -> (length r < f)%nat ->
  rest_at m p r -> (exists x, m !! name = Some x /\ (x =? 0) = bool_decide (c = [])) -> (c = [] -> r = []) ->
  short (components r) -> name <> 0 -> 0 < p \/ p = 0 -> room m name 16 ->
  (p <> 0 -> apart p (Z.of_nat (length r) + 1) name 16) ->
  0 <= depth -> depth + Z.of_nat (length ((if bool_decide (c = []) then [] else [c]) ++ components r)) < 2 ^ 31 ->
  exists m', depth_loop n f p name depth m
      = Ok (depth + Z.of_nat (length ((if bool_decide (c = []) then [] else [c]) ++ components r)), m')
    /\ same_outside m m' name 16.
Proof.
  induction n as [|n IH]; intros m p name c r depth Hn Hf Hr (x & Hx & Hxz) Hcr Hsh Hname Hp Hm Ha Hd Hb; [lia|].
  cbn [depth_loop]. run (run_ld m name x Hx). rewrite Hxz.
  case_bool_decide as Hc.
  { exists m. rewrite (Hcr Hc). split; [|done]. change (length ([] ++ components [])) with 0%nat. by rewrite Z.add_0_r. }
  destruct (next_name_spec f m p name r) as (m1 & p1 & k & c1 & r1 & Hrun & Hpr & Hs1 & Hr1 & Ho1 & Hm1 & Hp1); try done.
  cbv zeta. rewrite (next_name_bind _ _ _ _ _ _ _ Hrun). rewrite (components_parsed r k c1 r1 Hpr) in Hn, Hb |- *.
  pose proof (parsed_rest _ _ _ _ Hpr) as Hlen. destruct (parsed_short _ _ _ _ Hpr Hsh) as [_ Hsh1].
  assert ((p1 <> 0 -> apart p1 (Z.of_nat (length r1) + 1) name 16) /\ (0 < p1 \/ p1 = 0)) as [Ha1 Hpos1].
  { destruct Hp as [Hp| ->]; [apply (walk_apart p p1 r r1); auto with lia; apply Ha; lia|].
    destruct Hr as [[-> _]|[? _]]; [|done]. destruct r1; [|simpl in Hlen; lia]. simpl in Hp1. split; lia. }
  cbn [app length] in Hn, Hb.
  destruct (IH m1 p1 name c1 r1 (u32 (depth + 1))) as (m2 & Hloop & Ho2); try done.
  - lia.
  - lia.
  - by apply name_test.
  - apply Hpr.
  - unwrap. lia.
  - unwrap. lia.
  - exists m2. split.
    + rewrite Hloop. do 2 f_equal. unwrap. cbn [app length]. lia.
    + intros a Hna. rewrite Ho2 by done. by apply Ho1.
Qed.

(** ** Removing dots *)

Definition prefix_of (acc : list (list Z)) : list Z := concat (map (cons 47) acc).

Lemma render_snoc acc c : render (acc ++ [c]) = prefix_of acc ++ 47 :: c.
Proof.
  unfold render, prefix_of. destruct (acc ++ [c]) eqn:E; [by destruct acc|]. rewrite <- E.
  rewrite map_app, concat_app. simpl. by rewrite app_nil_r.
Qed.

Lemma render_prefix acc : acc <> [] -> render acc = prefix_of acc.
Proof. by destruct acc. Qed.

Lemma resolve_width acc c : (width (resolve_step acc c) <= width acc + width [c])%nat.
Proof.
  unfold resolve_step. repeat case_bool_decide; [|lia|by rewrite width_app].
  destruct acc as [|x acc] using rev_ind; [cbn [removelast]; lia|].
  rewrite removelast_last, width_app. lia.
Qed.

Section Wash.
Context (l : literals) (new N name : Z).

Record wash_layout : Prop := {
  wl_new : new <> 0;
  wl_name : name <> 0;
  wl_lits : lit_dotdot l <> 0 /\ lit_dot l <> 0 /\ lit_slash l <> 0;
  wl_dotdot : apart (lit_dotdot l) 3 new N /\ apart (lit_dotdot l) 3 name 16;
  wl_dot : apart (lit_dot l) 2 new N /\ apart (lit_dot l) 2 name 16;
  wl_slash : apart (lit_slash l) 2 new N /\ apart (lit_slash l) 2 name 16;
  wl_apart : apart name 16 new N
}.

(** The literals are in memory and the new path has the components [acc]. *)
Record washing (m : cmem) (acc : list (list Z)) : Prop := {
  wa_dotdot : string_at m (lit_dotdot l) [46; 46];
  wa_dot : string_at m (lit_dot l) [46];
  wa_slash : string_at m (lit_slash l) [47];
  wa_new : string_at m new (render acc);
  wa_room : room m new N;
  wa_names : Forall (fun c => c <> [] /\ 47 ∉ c) acc
}.

Hypothesis HL : wash_layout.

(** Writing the new path keeps the literals; so does writing the name. *)
Lemma washing_new m m' acc acc' :
  washing m acc -> same_outside m m' new N -> room m' new N -> string_at m' new (render acc') ->
  Forall (fun c => c <> [] /\ 47 ∉ c) acc' -> washing m' acc'.
Proof.
  intros [H1 H2 H3 H4 H5 H6] Ho Hr Hs Hn. destruct HL as [? ? ? [Ha1 _] [Ha2 _] [Ha3 _] ?].
  unfold apart in *. split; [..|done|done|done]; eapply (string_outside m m' new N); try done; simpl; lia.
Qed.

Lemma washing_name m m' acc :
  washing m acc -> same_outside m m' name 16 -> room m' name 16 -> (length (render acc) < Z.to_nat N)%nat -> washing m' acc.
Proof.
  intros [H1 H2 H3 H4 H5 H6] Ho Hr Hl. destruct HL as [? ? ? [_ Ha1] [_ Ha2] [_ Ha3] Ha].
  unfold apart in *. split; [..|done]; try (eapply (string_outside m m' name 16); try done; simpl; lia).
  by eapply room_outside.
Qed.

Lemma wash_up f m acc :
  washing m acc -> (length (render acc) < f)%nat -> Z.of_nat (length (render acc)) < N ->
  exists m', (slash_ptr ← strrchr f new 47; if negb (slash_ptr =? new) then sto slash_ptr 0 else sto (slash_ptr + 1) 0) m
      = Ok (tt, m') /\ washing m' (removelast acc) /\ same_outside m m' new N.
Proof.
  intros Hw Hf HN. pose proof (wl_new HL) as Hnz. pose proof Hw as [_ _ _ Hs Hr Hn].
  rewrite (sbind_Ok _ _ _ _ _ (strrchr_spec f m new _ 47 Hnz Hf Hs ltac:(lia))).
  assert (exists u v, render acc = u ++ v /\ render (removelast acc) = u
    /\ (if negb (last_index 47 (render acc) new 0 =? new) then sto (last_index 47 (render acc) new 0) 0
        else sto (last_index 47 (render acc) new 0 + 1) 0) = sto (new + Z.of_nat (length u)) 0) as (u & v & Hu & Hu' & ->).
  { destruct acc as [|c acc _] using rev_ind.
    - exists [47], []. split; [done|]. split; [done|]. cbn. change (47 =? 47) with true. cbv iota. by rewrite Z.eqb_refl.
    - apply Forall_app in Hn as [Hn Hc]. apply Forall_cons_1 in Hc as [[_ Hc] _].
      rewrite removelast_last, render_snoc, last_index_last by done. destruct acc as [|d acc].
      + exists [47], c. split; [done|]. split; [done|]. cbn. rewrite Z.add_0_r, Z.eqb_refl. done.
      + exists (prefix_of (d :: acc)), (47 :: c). split; [done|]. split; [done|].
        rewrite (proj2 (Z.eqb_neq _ _)); [done|]. unfold prefix_of. cbn. lia. }
  assert (length u <= length (render acc))%nat as Hle by (rewrite Hu, length_app; lia).
  assert (is_Some (m !! (new + Z.of_nat (length u)))) as Hm by (apply Hr; lia).
  rewrite (run_sto m _ 0 Hm). change (u8 0) with 0. eexists. split; [done|].
  assert (same_outside m (<[new + Z.of_nat (length u) := 0]> m) new N) as Ho.
  { intros a Ha. by rewrite lookup_insert_ne by lia. }
  split; [|done]. eapply washing_new; [done|done|by apply room_insert| |].
  - rewrite Hu'. rewrite Hu in Hs. by apply (string_cut m new u v).
  - destruct acc as [|c acc _] using rev_ind; [done|]. rewrite removelast_last. by apply Forall_app in Hn as [Hn _].
Qed.
(** [strcat] onto the new path. *)
Lemma strcat_new f m acc src u s :
  washing m acc -> string_at m new s -> string_at m src u -> src <> 0 ->
  Z.of_nat (length s + length u) < N -> (Z.to_nat N <= f)%nat ->
  apart src (Z.of_nat (length u) + 1) new N ->
  exists m', strcat f new src m = Ok (new, m') /\ string_at m' new (s ++ u) /\ string_at m' src u
    /\ same_outside m m' new N /\ room m' new N.
Proof.
  intros Hw Hs Hu Hsrc Hl Hf Ha. unfold apart in Ha. pose proof (wa_room _ _ Hw) as Hr.
  destruct (strcat_spec f m new src s u) as (m' & Hrun & Hs' & Hu' & Ho); try done; try lia.
  { apply (wl_new HL). } { intros a Hna. apply Hr. lia. }
  assert (same_outside m m' new N) as Ho' by (intros a Hna; apply Ho; lia).
  exists m'. split_and!; try done. eapply room_outside; [exact Ho| |done].
  apply string_room in Hs'. intros a Hna. apply Hs'. rewrite length_app. lia.
Qed.

Lemma wash_add f m acc c :
  washing m acc -> string_at m name c -> c <> [] -> 47 ∉ c -> Z.of_nat (length c) < 16 ->
  Z.of_nat (width acc + length c) + 2 <= N -> (Z.to_nat N <= f)%nat ->
  exists m', (e ← strcmp f new (lit_slash l);
              _ ← (if negb (e =? 0) then strcat f new (lit_slash l) else mret 0);
              _ ← strcat f new name; mret tt) m = Ok (tt, m')
    /\ washing m' (acc ++ [c]) /\ same_outside m m' new N.
Proof.
  intros Hw Hc Hne Hsl H16 HN Hf. pose proof Hw as [_ _ Hlit Hs Hr Hn].
  pose proof HL as [Hnz Hnamez (_ & _ & Hlz) _ _ [Hla _] Ha].
  destruct (render_length acc) as [Hlen _].
  destruct (strcmp_test f m new (lit_slash l) (render acc) [47]) as (e & He & Hez); try done; [lia|].
  run He. rewrite Hez.
  assert (exists m1 s1, (if negb (bool_decide (render acc = [47])) then strcat f new (lit_slash l) else mret 0) m
      = Ok (s1, m1) /\ string_at m1 new (prefix_of acc ++ [47]) /\ same_outside m m1 new N /\ room m1 new N)
    as (m1 & s1 & Hrun1 & Hs1 & Ho1 & Hr1).
  { destruct acc as [|d acc].
    - rewrite bool_decide_true by done. exists m, 0. by split_and!.
    - apply Forall_cons_1 in Hn as [[Hd _] _]. rewrite bool_decide_false by (destruct d; done).
      cbn [negb]. rewrite render_prefix in * by done.
      destruct (strcat_new f m (d :: acc) (lit_slash l) [47] (prefix_of (d :: acc)) Hw) as (m1 & ? & ? & _ & ? & ?); try done.
      { change (width (d :: acc)) with (length (prefix_of (d :: acc))) in HN. cbn [length]. lia. }
      by exists m1, new. }
  run Hrun1. unfold apart in *.
  assert (string_at m1 name c) as Hc1 by (eapply (string_outside m m1 new N); [done|lia|done]).
  assert (same_outside m m1 new N) as Ho1' by done.
  assert (room m1 new N) as Hr1' by done.
  destruct (strcat_spec f m1 new name (prefix_of acc ++ [47]) c) as (m2 & Hrun2 & Hs2 & _ & Ho2); try done.
  - rewrite length_app. change (length (prefix_of acc)) with (width acc). cbn [length]. lia.
  - lia.
  - rewrite length_app. change (length (prefix_of acc)) with (width acc). cbn [length]. intros a Hna. apply Hr1. lia.
  - rewrite length_app. change (length (prefix_of acc)) with (width acc). cbn [length]. lia.
  - run Hrun2. exists m2. rewrite length_app in Ho2. change (length (prefix_of acc)) with (width acc) in Ho2.
    cbn [length] in Ho2. rewrite <- app_assoc in Hs2. change ([47] ++ c) with (47 :: c) in Hs2.
    assert (same_outside m m2 new N) as Ho.
    { intros a Hna. rewrite Ho2 by lia. by apply Ho1. }
    split; [done|]. split; [|done]. eapply washing_new; [done|done| | |].
    + eapply room_outside; [exact Ho2| |done]. apply string_room in Hs2. intros a Hna. apply Hs2.
      rewrite length_app. change (length (prefix_of acc)) with (width acc). cbn [length]. lia.
    + by rewrite render_snoc.
    + apply Forall_app. split; [done|]. by apply Forall_singleton.
Qed.

Lemma wash_name_spec f m acc c :
  washing m acc -> string_at m name c -> c <> [] -> 47 ∉ c -> Z.of_nat (length c) < 16 ->
  Z.of_nat (width acc + length c) + 2 <= N -> (Z.to_nat N <= f)%nat ->
  exists m', wash_name f l new name m = Ok (tt, m') /\ washing m' (resolve_step acc c) /\ same_outside m m' new N.
Proof.
  intros Hw Hc Hne Hsl H16 HN Hf. pose proof Hw as [Hdd Hd _ Hs _ _].
  pose proof HL as [_ Hnamez (Hddz & Hdz & _) _ _ _ _]. destruct (render_length acc) as [Hlen _].
  assert (c <> [] -> 0 < Z.of_nat (length c)) as Hc0 by (destruct c; [done|cbn [length]; lia]). specialize (Hc0 Hne).
  unfold wash_name, resolve_step.
  destruct (strcmp_test f m (lit_dotdot l) name [46; 46] c) as (x & Hx & Hxz); try done; [simpl; lia|].
  run Hx. rewrite Hxz, (bool_decide_ext (c = [46; 46]) ([46; 46] = c) (conj (@eq_sym _ _ _) (@eq_sym _ _ _))). case_bool_decide as H2.
  { apply wash_up; [done|lia|lia]. }
  destruct (strcmp_test f m (lit_dot l) name [46] c) as (y & Hy & Hyz); try done; [simpl; lia|].
  run Hy. rewrite Hyz, (bool_decide_ext (c = [46]) ([46] = c) (conj (@eq_sym _ _ _) (@eq_sym _ _ _))). case_bool_decide as H1; cbn [negb].
  { by exists m. }
  by apply wash_add.
Qed.
Definition opt_name (c : list Z) : list (list Z) := if bool_decide (c = []) then [] else [c].

(** Nothing but the new path and the name is written. *)
Definition writes_only (m m' : cmem) : Prop :=
  forall a, ~ (new <= a < new + N) -> ~ (name <= a < name + 16) -> m' !! a = m !! a.

(** The loop, on a path of which [r] is left at [p]. *)
Lemma wash_loop_spec f n : forall m p c r acc,
  washing m acc -> string_at m name c -> room m name 16 -> rest_at m p r -> 0 < p \/ p = 0 ->
  (c = [] -> r = []) -> 47 ∉ c -> Z.of_nat (length c) < 16 -> short (components r) ->
  (p <> 0 -> apart p (Z.of_nat (length r) + 1) name 16 /\ apart p (Z.of_nat (length r) + 1) new N) ->
  (length (opt_name c ++ components r) < n)%nat -> (length r < f)%nat -> (Z.to_nat N <= f)%nat ->
  Z.of_nat (width acc + width (opt_name c ++ components r)) + 2 <= N ->
  exists m', wash_loop n f l p new name m = Ok (tt, m')
    /\ washing m' (fold_left resolve_step (opt_name c ++ components r) acc) /\ writes_only m m'.
Proof.
  induction n as [|n IH]; intros m p c r acc Hw Hc Hroom Hr Hp Hcr Hsl H16 Hsh Ha Hn Hfr Hf HN; [lia|].
  cbn [wash_loop]. destruct (name_test m name c Hc) as (x & Hx & Hxz). run (run_ld m name x Hx). rewrite Hxz.
  unfold opt_name in *. case_bool_decide as Hnil.
  { exists m. rewrite (Hcr Hnil). by split_and!. }
  cbn [app length] in Hn.  rewrite width_app, width_one in HN.
  destruct (wash_name_spec f m acc c Hw Hc Hnil Hsl H16) as (m1 & Hrun1 & Hw1 & Ho1); [lia|done|]. run Hrun1.
  assert (string_at m1 name c /\ room m1 name 16) as [Hc1 Hroom1].
  { pose proof (wl_apart HL) as Hap. unfold apart in Hap. split; [eapply (string_outside m m1 new N); [done|lia|done]|].
    eapply room_outside; [exact Ho1|apply Hw1|done]. }
  assert (rest_at m1 p r) as Hr1.
  { destruct Hr as [?|[Hpz Hs]]; [by left|]. right. split; [done|]. destruct (Ha Hpz) as [_ Hap]. unfold apart in Hap.
    eapply (string_outside m m1 new N); [done|lia|done]. }
  destruct (next_name_spec f m1 p name r) as (m2 & p2 & k & c2 & r2 & Hrun2 & Hpr & Hc2 & Hr2 & Ho2 & Hroom2 & Hp2);
    try done; [apply (wl_name HL)|intros Hpz; by apply Ha|].
  rewrite (next_name_bind _ _ _ _ _ _ _ Hrun2). rewrite (components_parsed r k c2 r2 Hpr) in Hn, HN |- *.
  pose proof (parsed_rest _ _ _ _ Hpr) as Hlen. destruct (parsed_short _ _ _ _ Hpr Hsh) as [H16' Hsh2].
  pose proof (resolve_width acc c) as Hrw. rewrite width_one in Hrw.
  destruct (render_length (resolve_step acc c)) as [Hrl _].
  assert (washing m2 (resolve_step acc c)) as Hw2 by (eapply washing_name; try done; lia).
  destruct (IH m2 p2 c2 r2 (resolve_step acc c)) as (m3 & Hrun3 & Hw3 & Ho3); try done.
  - destruct Hp as [Hp| ->]; [apply (walk_apart p p2 r r2 name); auto with lia; apply Ha; lia|].
    destruct Hr as [[-> _]|[? _]]; [|done]. destruct r2; [|simpl in Hlen; lia]. simpl in Hp2. lia.
  - apply Hpr.
  - apply Hpr.
  - intros Hp2z. destruct Hp as [Hp| ->].
    + destruct (Ha ltac:(lia)) as [Ha1 Ha2]. unfold apart in *. lia.
    + destruct Hr as [[-> _]|[? _]]; [|done]. destruct r2; [|simpl in Hlen; lia]. simpl in Hp2. lia.
  - unfold opt_name. lia.
  - lia.
  - unfold opt_name. lia.
  - exists m3. split; [done|]. split; [exact Hw3|]. intros a Hna Hnb. rewrite Ho3 by done. rewrite Ho2 by done. by apply Ho1.
Qed.
(** The buffers and literals before the call. *)
Record wash_memory (m : cmem) : Prop := {
  wm_dotdot : string_at m (lit_dotdot l) [46; 46];
  wm_dot : string_at m (lit_dot l) [46];
  wm_slash : string_at m (lit_slash l) [47];
  wm_new : room m new N;
  wm_name : room m name 16
}.

(** [name] zeroed and the first component parsed, as at the start of the loop. *)
Lemma first_name_bind {B} f p (k : Z -> st cmem B) m p' m' :
  name <> 0 -> p <> 0 -> next_name f p name m = Ok (p', m') ->
  (_ ← memset_loop (Z.to_nat MAX_FILE_NAME_LEN) name 0; p ← path_parse f p name; k p) m = k p' m'.
Proof.
  intros Hn Hp. unfold next_name, memset. rewrite (proj2 (Z.eqb_neq p 0) Hp). cbn [negb].
  unfold mbind, st_bind. rewrite not_null_run by done.
  destruct (memset_loop _ _ _ m) as [[[] m1]|]; [|done]. by intros ->.
Qed.

(** The new path becomes "/". *)
Lemma wash_root m :
  room m new N -> 2 <= N ->
  exists m', (_ ← sto new 47; sto (new + 1) 0) m = Ok (tt, m') /\ string_at m' new [47] /\ same_outside m m' new N.
Proof.
  intros Hr HN. assert (is_Some (m !! new)) as H0 by (apply Hr; lia). run (run_sto m new 47 H0).
  assert (is_Some (<[new := u8 47]> m !! (new + 1))) as H1 by (rewrite lookup_insert_ne by lia; apply Hr; lia).
  rewrite (run_sto _ _ 0 H1). eexists. split; [done|]. split.
  - apply string_cons. split; [unfold chr; lia|]. split; [by rewrite lookup_insert_ne, lookup_insert, decide_True by lia|].
    apply string_nil. by rewrite lookup_insert, decide_True.
  - intros a Ha. by rewrite !lookup_insert_ne by lia.
Qed.

Lemma wash_begin f m :
  wash_memory m -> 2 <= N -> (0 < f)%nat -> (1 < f)%nat ->
  exists m', (_ ← sto new 0; strcat f new (lit_slash l)) m = Ok (new, m') /\ washing m' [] /\ same_outside m m' new N.
Proof.
  intros [Hdd Hd Hsl Hrn Hrname] HN Hf0 Hf. assert (is_Some (m !! new)) as H0 by (apply Hrn; lia).
  run (run_sto m new 0 H0). change (u8 0) with 0. set (m1 := <[new := 0]> m).
  assert (same_outside m m1 new N) as Ho1 by (intros a Ha; subst m1; by rewrite lookup_insert_ne by lia).
  assert (room m1 new N) as Hr1 by (by apply room_insert).
  pose proof HL as [Hnewz _ (_ & _ & Hlz) [Hdd1 _] [Hd1 _] [Hsl1 _] _]. unfold apart in *.
  assert (forall q x, q + Z.of_nat (length x) < new \/ new + N <= q -> string_at m q x -> string_at m1 q x) as Hkeep
    by (intros; by eapply (string_outside m m1 new N)).
  destruct (strcat_spec f m1 new (lit_slash l) [] [47]) as (m2 & Hrun & Hs2 & Hl2 & Ho2); try done.
  - apply string_nil. subst m1. by rewrite lookup_insert, decide_True.
  - apply Hkeep; [simpl; lia|done].
  - intros a Ha. apply Hr1. simpl in Ha. lia.
  - simpl. lia.
  - exists m2. split; [done|]. simpl in Ho2.
    assert (same_outside m m2 new N) as Ho by (intros a Ha; rewrite Ho2 by lia; by apply Ho1).
    split; [|done]. split; [..|done].
    + eapply (string_outside m m2 new N); [done|simpl; lia|done].
    + eapply (string_outside m m2 new N); [done|simpl; lia|done].
    + done.
    + exact Hs2.
    + eapply room_outside; [exact Ho2| |exact Hr1]. apply string_room in Hs2. simpl in Hs2.
      intros a Ha. apply Hs2. lia.
Qed.

Lemma wash_path_spec f n m old s :
  wash_memory m -> string_at m old (47 :: s) -> 0 < old ->
  apart old (Z.of_nat (length s) + 2) name 16 -> apart old (Z.of_nat (length s) + 2) new N ->
  short (components s) -> (length (components s) < n)%nat -> (Z.to_nat N <= f)%nat -> Z.of_nat (length s) + 3 <= N ->
  exists m', wash_path n f l old new name m = Ok (tt, m')
    /\ string_at m' new (render (resolve (components s))) /\ writes_only m m'.
Proof.
  intros Hwm Hs Hold Ha1 Ha2 Hsh Hn Hf HN. unfold wash_path. pose proof Hwm as [Hdd Hd Hsl Hrn Hrname].
  pose proof Hs as Hs0. apply string_cons in Hs0 as (_ & Hm0 & _). run (run_ld m old 47 Hm0).
  assert (sassert (47 =? 47) m = Ok (tt, m)) as Has by done. run Has. clear Has.
  pose proof HL as [Hnewz Hnamez Hlz [Hdd1 Hdd2] [Hd1 Hd2] [Hsl1 Hsl2] Ha]. rewrite <- components_slash in *.
  destruct (next_name_spec f m old name (47 :: s)) as (m1 & p & k & c & r & Hrun & Hp & Hc & Hr & Ho & Hroom & Hp');
    try done; [cbn [length]; lia|right; split; [lia|done]|by left| |].
  { intros _. unfold apart in *. cbn [length]. lia. }
  rewrite (first_name_bind f old _ m p m1 Hnamez ltac:(lia) Hrun).
  destruct (parsed_short _ _ _ _ Hp Hsh) as [Hc16 Hshr]. pose proof (parsed_rest _ _ _ _ Hp) as Hlen.
  assert (wash_memory m1) as Hwm1.
  { unfold apart in *. split; try (eapply (string_outside m m1 name 16); try done; simpl; lia); [|done].
    by eapply room_outside. }
  destruct (name_test m1 name c Hc) as (x & Hx & Hxz). run (run_ld m1 name x Hx). rewrite Hxz.
  destruct (width_components (47 :: s)) as [_ Hwid]. specialize (Hwid s eq_refl).
  rewrite (components_parsed _ _ _ _ Hp) in Hn, Hwid |- *. cbn [length] in *. case_bool_decide as Hnil.
  - destruct (wash_root m1) as (m2 & Hrun2 & Hs2 & Ho2); [apply Hwm1|lia|]. exists m2. split; [done|].
    rewrite (pa_end Hp Hnil). split; [done|]. intros a Hna Hnb. rewrite Ho2 by done. by apply Ho.
  - destruct (wash_begin f m1) as (m2 & Hrun2 & Hw2 & Ho2); [done|lia..|].
    rewrite <- (sbind_assoc (sto new 0)). run Hrun2.
    clear Hdd1 Hdd2 Hd1 Hd2 Hsl1 Hsl2 Hlz. assert (opt_name c = [c]) as Hopt by (unfold opt_name; by rewrite bool_decide_false).
    destruct (wash_loop_spec f n m2 p c r []) as (m3 & Hrun3 & Hw3 & Ho3); try done; try lia; unfold apart in *.
    + eapply (string_outside m1 m2 new N); [done|lia|done].
    + eapply room_outside; [exact Ho2|apply Hw2|done].
    + destruct Hr as [?|[Hpz Hsr]]; [by left|]. right. split; [done|]. clear Ha Ha1.
      eapply (string_outside m1 m2 new N); [done|lia|done].
    + apply Hp.
    + lia.
    + by rewrite Hopt.
    + rewrite Hopt. change (width []) with 0%nat. lia.
    + exists m3. split; [done|]. rewrite Hopt in Hw3. split; [apply Hw3|].
      intros a Hna Hnb. rewrite Ho3 by done. rewrite Ho2 by done. by apply Ho.
Qed.
End Wash.

(** ** Absolute paths *)

Lemma split_join a b : split_on 47 (a ++ 47 :: b) = split_on 47 a ++ split_on 47 b.
Proof.
  induction a as [|c a IH]; [done|]. cbn [app split_on]. rewrite IH. case_match; [done|].
  destruct (split_on 47 a) eqn:E; [by apply split_nonempty in E|done].
Qed.

Lemma components_join a b : components (a ++ 47 :: b) = components a ++ components b.
Proof. unfold components, words. by rewrite split_join, filter_app. Qed.

Definition plain (c : list Z) : Prop := c <> [46] /\ c <> [46; 46].

Lemma resolve_plain cs : Forall plain (resolve cs).
Proof.
  unfold resolve. assert (forall acc, Forall plain acc -> Forall plain (fold_left resolve_step cs acc)) as H; [|by apply H].
  induction cs as [|c cs IH]; intros acc Ha; [done|]. cbn [fold_left]. apply IH. unfold resolve_step.
  repeat case_bool_decide; [|done|].
  - destruct acc as [|x acc _] using rev_ind; [done|]. rewrite removelast_last. by apply Forall_app in Ha as [Ha _].
  - apply Forall_app. split; [done|]. by apply Forall_singleton.
Qed.

Section Clear.
Context (l : literals) (path final abs name : Z) (s : list Z).

(** The buffers, the path and the literals, all apart from the local array. *)
Record clear_pre (m : cmem) : Prop := {
  cp_layout : wash_layout l final MAX_PATH_LEN name;
  cp_mem : wash_memory l final MAX_PATH_LEN name m;
  cp_abs : 0 < abs /\ room m abs MAX_PATH_LEN;
  cp_bufs : apart abs MAX_PATH_LEN name 16 /\ apart abs MAX_PATH_LEN final MAX_PATH_LEN;
  cp_lits : apart (lit_dotdot l) 3 abs MAX_PATH_LEN /\ apart (lit_dot l) 2 abs MAX_PATH_LEN
    /\ apart (lit_slash l) 2 abs MAX_PATH_LEN;
  cp_path : path <> 0 /\ string_at m path s /\ apart path (Z.of_nat (length s) + 1) abs MAX_PATH_LEN
}.

(** The system call fills the buffer with the working directory, an absolute
    path. *)
Definition getcwd_ok (getcwd : Z -> Z -> st cmem Z) (cwd : list Z) : Prop :=
  (exists c, cwd = 47 :: c)
  /\ forall m, room m abs MAX_PATH_LEN ->
     exists m', getcwd abs MAX_PATH_LEN m = Ok (abs, m') /\ string_at m' abs cwd
       /\ same_outside m m' abs MAX_PATH_LEN /\ room m' abs MAX_PATH_LEN.

(** Writing the local array keeps the rest. *)
Lemma clear_abs m m' :
  clear_pre m -> same_outside m m' abs MAX_PATH_LEN -> room m' abs MAX_PATH_LEN -> clear_pre m'.
Proof.
  intros [HL [H1 H2 H3 H4 H5] [Hz Hr] [Ha1 Ha2] (Hl1 & Hl2 & Hl3) (Hp & Hs & Ha3)] Ho Hr'.
  split; [done| |done|done|done|].
  - unfold apart in Hl1, Hl2, Hl3. split.
    + clear Hl2 Hl3. eapply (string_outside m m' abs); [done|simpl; lia|done].
    + clear Hl1 Hl3. eapply (string_outside m m' abs); [done|simpl; lia|done].
    + clear Hl1 Hl2. eapply (string_outside m m' abs); [done|simpl; lia|done].
    + by eapply room_outside.
    + by eapply room_outside.
  - split; [done|]. split; [|done]. unfold apart in Ha3. eapply (string_outside m m' abs); [done|lia|done].
Qed.

Lemma abs_strcat f m src u t :
  clear_pre m -> string_at m abs t -> src <> 0 -> string_at m src u -> apart src (Z.of_nat (length u) + 1) abs MAX_PATH_LEN ->
  Z.of_nat (length t + length u) < MAX_PATH_LEN -> (Z.to_nat MAX_PATH_LEN <= f)%nat ->
  exists m', strcat f abs src m = Ok (abs, m') /\ clear_pre m' /\ string_at m' abs (t ++ u)
    /\ same_outside m m' abs MAX_PATH_LEN.
Proof.
  intros Hpre Ht Hsrc Hu Ha Hl Hf. destruct (cp_abs _ Hpre) as [Hz Hr]. unfold apart in Ha.
  destruct (strcat_spec f m abs src t u) as (m' & Hrun & Ht' & _ & Ho); try done; try lia.
  { intros a Hna. apply Hr. lia. }
  assert (same_outside m m' abs MAX_PATH_LEN) as Ho' by (intros a Hna; apply Ho; lia).
  exists m'. split; [done|]. split; [|done]. apply (clear_abs m m' Hpre Ho').
  eapply room_outside; [exact Ho| |exact Hr]. apply string_room in Ht'. intros a Hna. apply Ht'. rewrite length_app. lia.
Qed.

Lemma abs_clear m v :
  clear_pre m -> v = 0 ->
  exists m', memset_loop (Z.to_nat MAX_PATH_LEN) abs v m = Ok (tt, m') /\ clear_pre m' /\ string_at m' abs []
    /\ same_outside m m' abs MAX_PATH_LEN.
Proof.
  intros Hpre ->. destruct (cp_abs _ Hpre) as [Hz Hr].
  destruct (memset_loop_spec (Z.to_nat MAX_PATH_LEN) m abs 0) as (m' & Hrun & Hb & Ho).
  { by rewrite Z2Nat.id by done. }
  rewrite Z2Nat.id in Ho by done. exists m'. split; [done|].
  pose proof (bytes_room _ _ _ Hb) as Hr'. rewrite length_replicate, Z2Nat.id in Hr' by done.
  split; [by apply (clear_abs m)|]. split; [|done]. apply string_nil. by destruct Hb.
Qed.
Definition absolute (t : list Z) : bool := match t with c :: _ => c =? 47 | [] => false end.

Definition base_path (cwd : list Z) : list Z :=
  if absolute s then [] else if bool_decide (cwd = [47]) then cwd else cwd ++ [47].

Lemma base_components cwd :
  components (base_path cwd ++ s) = (if absolute s then [] else components cwd) ++ components s.
Proof.
  unfold base_path. destruct (absolute s); [done|]. case_bool_decide as Hr.
  - subst cwd. change ([47] ++ s) with (47 :: s). by rewrite components_slash.
  - rewrite <- app_assoc. apply components_join.
Qed.

Lemma base_absolute cwd : (exists c, cwd = 47 :: c) -> exists t, base_path cwd ++ s = 47 :: t.
Proof.
  intros [c ->]. unfold base_path. destruct (absolute s) eqn:E.
  - destruct s as [|x t]; [done|]. apply Z.eqb_eq in E as ->. by eexists.
  - case_bool_decide; by eexists.
Qed.

(** The statements before the last two. *)
Definition fetch_base (f : nat) (getcwd : Z -> Z -> st cmem Z) (c : Z) : st cmem Z :=
  if negb (c =? 47) then
    _ ← memset abs 0 MAX_PATH_LEN;
    r ← getcwd abs MAX_PATH_LEN;
    if negb (r =? 0) then
      a ← ld abs;
      b ← (if a =? 47 then b ← ld (abs + 1); mret (b =? 0) else mret false);
      if negb b then strcat f abs (lit_slash l) else mret 0
    else mret 0
  else mret 0.

Lemma fetch_base_spec f getcwd cwd m c :
  clear_pre m -> string_at m abs [] -> (c =? 47) = absolute s -> (absolute s = false -> getcwd_ok getcwd cwd) ->
  Z.of_nat (length (base_path cwd)) < MAX_PATH_LEN -> (Z.to_nat MAX_PATH_LEN <= f)%nat ->
  exists r m', fetch_base f getcwd c m = Ok (r, m') /\ clear_pre m' /\ string_at m' abs (base_path cwd)
    /\ same_outside m m' abs MAX_PATH_LEN.
Proof.
  intros Hpre Hs Hc Hcwd Hl Hf. unfold fetch_base, base_path in *. rewrite Hc. destruct (absolute s); cbn [negb].
  { by exists 0, m. }
  destruct (Hcwd eq_refl) as [[t ->] Hget]. destruct (abs_clear m 0 Hpre eq_refl) as (m1 & Hrun1 & Hpre1 & _ & Ho1).
  destruct (cp_abs _ Hpre1) as [Hz Hr1].
  assert (memset abs 0 MAX_PATH_LEN m = Ok (tt, m1)) as Hms by (unfold memset; by run (not_null_run abs m ltac:(lia))).
  run Hms. destruct (Hget m1 Hr1) as (m2 & Hrun2 & Hs2 & Ho2 & Hr2). run Hrun2.
  rewrite (proj2 (Z.eqb_neq abs 0)) by lia. cbn [negb].
  pose proof (clear_abs m1 m2 Hpre1 Ho2 Hr2) as Hpre2.
  pose proof Hs2 as Hs2'. apply string_cons in Hs2' as (_ & Ha & Ht). run (run_ld m2 abs 47 Ha).
  change (47 =? 47) with true. cbv iota. destruct (name_test m2 (abs + 1) t Ht) as (x & Hx & Hxz).
  assert ((b ← ld (abs + 1); mret (b =? 0)) m2 = Ok (bool_decide (t = []), m2)) as Hb
    by (run (run_ld m2 _ x Hx); by rewrite Hxz).
  run Hb. rewrite (bool_decide_ext (47 :: t = [47]) (t = [])) in * by (split; congruence).
  assert (same_outside m m2 abs MAX_PATH_LEN) as Ho12 by (intros a Hna; rewrite Ho2 by done; by apply Ho1).
  case_bool_decide as Hroot; cbn [negb].
  - exists 0, m2. by split_and!.
  - destruct (cp_lits _ Hpre2) as (_ & _ & Hla). rewrite length_app in Hl. cbn [length] in Hl.
    pose proof (cp_layout _ Hpre2) as [_ _ (_ & _ & Hlz) _ _ _ _].
    destruct (abs_strcat f m2 (lit_slash l) [47] (47 :: t) Hpre2 Hs2 Hlz) as (m3 & Hrun3 & Hpre3 & Hs3 & Ho3); try done.
    + apply (cp_mem _ Hpre2).
    + exists abs, m3. split_and!; try done. intros a Hna. rewrite Ho3 by done. by apply Ho12.
Qed.

Lemma make_clear_spec f n getcwd cwd m :
  clear_pre m -> (exists c, cwd = 47 :: c) -> (absolute s = false -> getcwd_ok getcwd cwd) ->
  short (components (base_path cwd ++ s)) -> (length (components (base_path cwd ++ s)) < n)%nat ->
  Z.of_nat (length (base_path cwd ++ s)) + 2 <= MAX_PATH_LEN -> (Z.to_nat MAX_PATH_LEN <= f)%nat ->
  exists m', make_clear_abs_path n f l getcwd path final abs name m = Ok (tt, m')
    /\ string_at m' final (render (resolve (components (base_path cwd ++ s))))
    /\ forall a, ~ (abs <= a < abs + MAX_PATH_LEN) -> ~ (final <= a < final + MAX_PATH_LEN) -> ~ (name <= a < name + 16) ->
         m' !! a = m !! a.
Proof.
  intros Hpre Hcwd Hget Hsh Hn Hl Hf. unfold make_clear_abs_path.
  destruct (abs_clear m 0 Hpre eq_refl) as (m1 & Hrun1 & Hpre1 & Hs1 & Ho1). run Hrun1.
  destruct (cp_path _ Hpre1) as (Hpz & Hps & Hpa).
  assert (exists c, m1 !! path = Some c /\ (c =? 47) = absolute s) as (c & Hc & Hca).
  { destruct s as [|x t]; [exists 0; split; [by apply string_nil in Hps|done]|].
    apply string_cons in Hps as (_ & Hx & _). by exists x. }
  run (run_ld m1 path c Hc). rewrite length_app in Hl.
  destruct (fetch_base_spec f getcwd cwd m1 c Hpre1 Hs1 Hca Hget) as (r & m2 & Hrun2 & Hpre2 & Hs2 & Ho2); [lia|done|].
  unfold fetch_base in Hrun2. run Hrun2. clear Hpz Hps Hpa. destruct (cp_path _ Hpre2) as (Hpz & Hps & Hpa).
  destruct (abs_strcat f m2 path s (base_path cwd) Hpre2 Hs2 Hpz Hps Hpa) as (m3 & Hrun3 & Hpre3 & Hs3 & Ho3); [lia|done|].
  run Hrun3. destruct (base_absolute cwd Hcwd) as [t Ht]. rewrite Ht in *. rewrite components_slash in *.
  destruct Hpre3 as [HL Hm [Hz _] [Ha1 Ha2] _ _].
  apply (f_equal length) in Ht. rewrite length_app in Ht. cbn [length] in Ht.
  destruct (wash_path_spec l final MAX_PATH_LEN name HL f n m3 abs t Hm Hs3 Hz) as (m4 & Hrun4 & Hs4 & Ho4); try done.
  - unfold apart in *. clear Ha2. lia.
  - unfold apart in *. clear Ha1. lia.
  - lia.
  - exists m4. split; [done|]. split; [done|]. intros a Hna Hnb Hnc. rewrite Ho4 by done. rewrite Ho3 by done.
    rewrite Ho2 by done. by apply Ho1.
Qed.
End Clear.

(** ** Properties *)

(** [path_depth_cnt] of a path with at least one component is the number
    of its components, if each is shorter than the array for one name.  For a
    path without components the result is 0 only if the byte that the array
    happens to start with is 0. *)
Theorem path_depth_counts (f n : nat) (m : cmem) (p name : Z) (s : list Z) :
  0 < p -> name <> 0 -> string_at m p s -> room m name 16 -> apart p (Z.of_nat (length s) + 1) name 16 ->
  short (components s) -> Z.of_nat (length s) < 2 ^ 30 -> (length s < f)%nat -> (length (components s) < n)%nat ->
  components s <> [] \/ m !! name = Some 0 ->
  exists m', path_depth_cnt n f p name m = Ok (Z.of_nat (length (components s)), m') /\ same_outside m m' name 16.
Proof.
  intros Hp Hname Hs Hroom Ha Hsh Hl Hf Hn Hinit. unfold path_depth_cnt. run (not_null_run p m ltac:(lia)).
  destruct (parsed_exists 47 s) as (k & c & r & Hpr). destruct (parsed_short _ _ _ _ Hpr Hsh) as [Hc Hshr].
  unfold apart in Ha. destruct (path_parse_spec f m p name s k c r Hf Hs Hpr) as (m1 & Hrun & Hb & Ho & Hs1).
  { intros a Hna. apply Hroom. lia. } { unfold apart. lia. }
  run Hrun. set (p1 := if bool_decide (r = []) then 0 else _).
  assert (p1 = 0 \/ p1 = p + Z.of_nat (k + length c)) as Hp1 by (subst p1; case_bool_decide; auto).
  assert (length s = k + length c + length r)%nat as Hlen.
  { destruct Hpr as [-> _ _ _]. rewrite !length_app, length_replicate. lia. }
  rewrite (components_parsed _ _ _ _ Hpr) in *.
  assert (rest_at m1 p1 r) as Hr1.
  { subst p1. unfold rest_at. case_bool_decide; [by left|]. right. split; [lia|].
    destruct Hpr as [Heq _ _ _]. rewrite Heq, app_assoc in Hs1. apply string_drop in Hs1.
    by rewrite length_app, length_replicate in Hs1. }
  assert (Z.of_nat (length ((if bool_decide (c = []) then [] else [c]) ++ components r)) < 2 ^ 31) as Hcb.
  { rewrite <- (components_parsed _ _ _ _ Hpr). pose proof (components_bound s). lia. }
  assert (exists x, m1 !! name = Some x /\ (x =? 0) = bool_decide (c = [])) as Htest.
  { destruct c as [|x c].
    - rewrite (pa_end Hpr eq_refl) in Hinit. destruct Hinit as [Hi|Hi]; [done|]. exists 0. by rewrite Ho by (simpl; lia).
    - pose proof (parsed_chr _ _ _ _ Hpr (proj1 Hs)) as Hchr. apply Forall_cons_1 in Hchr as [Hx _]. destruct Hb as [Hb _].
      exists x. split; [done|]. rewrite bool_decide_false by done. unfold chr in Hx. lia. }
  destruct (depth_loop_spec f n m1 p1 name c r 0) as (m2 & Hloop & Ho2); try done; try lia.
  - apply Hpr.
  - eapply room_outside; [exact Ho|by apply bytes_room|done].
  - unfold apart. destruct Hp1; lia.
  - run Hloop. exists m2. split; [|intros a Hna; rewrite Ho2 by done; apply Ho; lia].
    rewrite Z.add_0_l. by rewrite i32_id by lia.
Qed.

(** The byte memory of the examples: literals, "/a/../b/./c" at 100, and room. *)
Definition demo_paths : cmem :=
  put_bytes 10 [46; 46; 0] (put_bytes 20 [46; 0] (put_bytes 30 [47; 0]
    (put_bytes 100 [97; 47; 46; 46; 47; 98; 47; 46; 47; 47; 99; 0]
      (put_bytes 200 (replicate 16 0) (put_bytes 1000 (replicate 512 0) (put_bytes 2000 (replicate 512 0) ∅)))))).

Definition demo_lits : literals := Literals 10 20 30.

Definition demo_path : list Z := [97; 47; 46; 46; 47; 98; 47; 46; 47; 47; 99].

Definition room_check (m : cmem) (p n : Z) : bool :=
  forallb (fun a => bool_decide (is_Some (m !! a))) (seqZ p n).

Lemma room_by_check m p n : room_check m p n = true -> room m p n.
Proof.
  intros H a Ha. unfold room_check in H. rewrite forallb_forall in H. apply (bool_decide_eq_true_1 _), H.
  apply list_elem_of_In, elem_of_seqZ. lia.
Qed.

Lemma demo_path_at : string_at demo_paths 100 demo_path.
Proof. split; [repeat constructor; lia|]. vm_compute. by split_and!. Qed.

Lemma path_depth_counts_witness :
  exists m', path_depth_cnt 20 20 100 200 demo_paths = Ok (5, m') /\ same_outside demo_paths m' 200 16.
Proof.
  apply (path_depth_counts 20 20 demo_paths 100 200 demo_path).
  - lia.
  - lia.
  - apply demo_path_at.
  - apply room_by_check. vm_compute. reflexivity.
  - left. vm_compute. discriminate.
  - repeat constructor.
  - reflexivity.
  - vm_compute. lia.
  - vm_compute. lia.
  - left. discriminate.
Defined.

(** [make_clear_abs_path] stores the absolute path without "." and "..":
    the components of the argument, behind those of the working directory if it
    is relative, each ".." removed with the component before it. *)
Theorem clear_path_resolves (l : literals) (path final abs name : Z) (s cwd : list Z) (f n : nat)
    (getcwd : Z -> Z -> st cmem Z) (m : cmem) :
  clear_pre l path final abs name s m ->
  (exists c, cwd = 47 :: c) -> (absolute s = false -> getcwd_ok abs getcwd cwd) ->
  short (components (base_path s cwd ++ s)) -> (length (components (base_path s cwd ++ s)) < n)%nat ->
  Z.of_nat (length (base_path s cwd ++ s)) + 2 <= MAX_PATH_LEN -> (Z.to_nat MAX_PATH_LEN <= f)%nat ->
  let cs := resolve ((if absolute s then [] else components cwd) ++ components s) in
  exists m', make_clear_abs_path n f l getcwd path final abs name m = Ok (tt, m')
    /\ string_at m' final (render cs) /\ Forall plain cs.
Proof.
  intros Hpre Hcwd Hget Hsh Hn Hl Hf. rewrite <- base_components.
  destruct (make_clear_spec l path final abs name s f n getcwd cwd m Hpre Hcwd Hget Hsh Hn Hl Hf) as (m' & Hrun & Hs & _).
  exists m'. split; [done|]. split; [done|]. apply resolve_plain.
Qed.

(** A working directory "/d". *)
Definition demo_getcwd (buf size : Z) : st cmem Z :=
  _ ← sto buf 47; _ ← sto (buf + 1) 100; _ ← sto (buf + 2) 0; mret buf.

Lemma demo_getcwd_ok : getcwd_ok 1000 demo_getcwd [47; 100].
Proof.
  split; [by eexists|]. intros m Hr. unfold demo_getcwd.
  assert (is_Some (m !! 1000)) as H0 by (apply Hr; done). run (run_sto m 1000 47 H0).
  assert (is_Some (<[1000 := u8 47]> m !! 1001)) as H1 by (rewrite lookup_insert_ne by done; apply Hr; done).
  run (run_sto _ 1001 100 H1).
  assert (is_Some (<[1001 := u8 100]> (<[1000 := u8 47]> m) !! 1002)) as H2 by (rewrite !lookup_insert_ne by done; apply Hr; done).
  run (run_sto _ 1002 0 H2). eexists. split; [done|]. split_and!.
  - split; [repeat constructor; lia|]. cbn [app bytes_at]. by rewrite !lookup_insert.
  - intros a Ha. unfold MAX_PATH_LEN in Ha. by rewrite !lookup_insert_ne by lia.
  - by repeat apply room_insert.
Qed.

Lemma demo_clear : clear_pre demo_lits 100 2000 1000 200 demo_path demo_paths.
Proof.
  assert (forall p n, room_check demo_paths p n = true -> room demo_paths p n) as Hroom by (intros; by apply room_by_check).
  assert (forall p t, Forall chr t -> bytes_at demo_paths p (t ++ [0]) -> string_at demo_paths p t) as Hstr by done.
  split.
  - unfold MAX_PATH_LEN, demo_lits. split; simpl; unfold apart; lia.
  - split; [apply Hstr; [repeat constructor; lia|vm_compute; by split_and!]..| |]; apply Hroom; by vm_compute.
  - split; [lia|]. apply Hroom. by vm_compute.
  - unfold apart, MAX_PATH_LEN. lia.
  - unfold apart, MAX_PATH_LEN, demo_lits. simpl. lia.
  - split; [lia|]. split; [apply demo_path_at|]. left. by vm_compute.
Qed.

Lemma clear_path_resolves_witness :
  exists m', make_clear_abs_path 20 512 demo_lits demo_getcwd 100 2000 1000 200 demo_paths = Ok (tt, m')
    /\ string_at m' 2000 [47; 100; 47; 98; 47; 99].
Proof.
  destruct (clear_path_resolves demo_lits 100 2000 1000 200 demo_path [47; 100] 512 20 demo_getcwd demo_paths)
    as (m' & Hrun & Hs & _).
  - apply demo_clear.
  - exists [100]. reflexivity.
  - intros _. apply demo_getcwd_ok.
  - repeat constructor.
  - vm_compute. lia.
  - vm_compute. discriminate.
  - apply Nat.le_refl.
  - exists m'. split; [exact Hrun|exact Hs].
Defined.
