(* ===== verification/Shell.v ===== *)
(** * Shell: the command line of shell/shell.c

    [readline] edits a line in the buffer [cmd_line] from the characters of the
    keyboard (a list: what the successive [read] calls deliver), and [cmd_parse]
    cuts it into words in place.  The loop that runs commands, and [readline] with
    its output, are in CommandLine. *)
From S2P Require Import Prelude CString Paths.

(** ** Operations *)

Definition MAX_ARG_NR : Z := 16.

(** ctrl+u: the loop that clears backwards to the beginning of the buffer. *)
Fixpoint kill_loop (fuel : nat) (buf pos : Z) : st cmem Z :=
  match fuel with
  | O => sres (Bad EFuel)
  | S f => if buf =? pos then mret pos else _ ← sto pos 0; kill_loop f buf (pos - 1)
  end.

(** The loop of [readline]; the result is the input that is left.  Without input
    the call waits.  Output to the screen is not modelled; [cmd_line] is the
    global the backspace case looks at. *)
Fixpoint readline_loop (input : list Z) (cmd_line buf pos count : Z) : st cmem (list Z) :=
  match input with
  | [] => sres (Bad EFuel)
  | c :: input' =>
    _ ← sto pos c;
    if pos - buf <? count then
      c ← ld pos;
      if (c =? 10) || (c =? 13) then
        _ ← sto pos 0; mret input'
      else if c =? 8 then
        c0 ← ld cmd_line;
        readline_loop input' cmd_line buf (if negb (c0 =? 8) then pos - 1 else pos) count
      else if c =? 11 then
        _ ← sto pos 0; readline_loop input' cmd_line buf pos count
      else if c =? 20 then
        pos ← kill_loop (S (Z.to_nat (pos - buf))) buf pos;
        readline_loop input' cmd_line buf pos count
      else readline_loop input' cmd_line buf (pos + 1) count
    else mret input'
  end.

Definition readline (input : list Z) (cmd_line buf count : Z) : st cmem (list Z) :=
  _ ← sassert (negb (buf =? 0) && (0 <? count));
  readline_loop input cmd_line buf buf count.

(** The loop that skips separators. *)
Fixpoint skip_tokens (fuel : nat) (next token : Z) : st cmem Z :=
  match fuel with
  | O => sres (Bad EFuel)
  | S f => c ← ld next; if i8 c =? token then skip_tokens f (next + 1) token else mret next
  end.

(** The inner loop: to the end of the word. *)
Fixpoint skip_word (fuel : nat) (next token : Z) : st cmem Z :=
  match fuel with
  | O => sres (Bad EFuel)
  | S f =>
    c ← ld next;
    if negb (c =? 0) && negb (i8 c =? token) then skip_word f (next + 1) token else mret next
  end.

(** The outer loop; the result is [argc] and the array.  The array has
    [MAX_ARG_NR] elements, and writing behind them is a fault. *)
Fixpoint parse_loop (n fuel : nat) (next : Z) (argv : list Z) (argc token : Z) : st cmem (Z * list Z) :=
  match n with
  | O => sres (Bad EFuel)
  | S n' =>
    c ← ld next;
    if c =? 0 then mret (argc, argv)
    else
      next ← skip_tokens fuel next token;
      c ← ld next;
      if c =? 0 then mret (argc, argv)
      else
        argv ← sres (wr argv argc next);
        next ← skip_word fuel next token;
        c ← ld next;
        next ← (if negb (c =? 0) then _ ← sto next 0; mret (next + 1) else mret next);
        if MAX_ARG_NR <? argc then mret (-1, argv)
        else parse_loop n' fuel next argv (argc + 1) token
  end.

(** [cmd_parse] with the array [argv] set to NULL first. *)
Definition cmd_parse (n fuel : nat) (cmd_str token : Z) : st cmem (Z * list Z) :=
  _ ← not_null cmd_str;
  parse_loop n fuel cmd_str (replicate (Z.to_nat MAX_ARG_NR) 0) 0 token.

(** ** Editing a line *)

(** What the characters typed up to the end of the line make of it. *)
Definition edit (line : list Z) (c : Z) : list Z :=
  if c =? 8 then removelast line
  else if c =? 11 then line
  else if c =? 20 then []
  else line ++ [c].

Definition ends_line (c : Z) : bool := (c =? 10) || (c =? 13).

(** The bytes typed, none of which ends the line, with the line staying shorter
    than the buffer all the time. *)
Definition typing_ok (count : Z) (line cs : list Z) : Prop :=
  Forall (fun c => chr c /\ ends_line c = false) cs
  /\ forall k, Z.of_nat (length (fold_left edit (take k cs) line)) < count.

Lemma sto_read (m : cmem) (p c : Z) : is_Some (m !! p) -> byte c -> (<[p := u8 c]> m) !! p = Some c.
Proof. intros _ Hc. rewrite u8_id by done. by rewrite lookup_insert, decide_True. Qed.

(** A line in the buffer: its characters, none of them a backspace, and room. *)
Record line_at (m : cmem) (buf count : Z) (line : list Z) : Prop := {
  la_bytes : bytes_at m buf line;
  la_chars : Forall (fun c => chr c /\ c <> 8) line;
  la_room : room m buf count
}.

Lemma bytes_insert m p s a v :
  bytes_at m p s -> p + Z.of_nat (length s) <= a -> bytes_at (<[a := v]> m) p s.
Proof.
  revert p. induction s as [|c s IH]; intros p; cbn [bytes_at length]; [done|]. intros [Hc Hs] Ha.
  split; [by rewrite lookup_insert_ne by lia|]. apply IH; [done|lia].
Qed.

Lemma bytes_snoc m p s c :
  bytes_at m p s -> m !! (p + Z.of_nat (length s)) = Some c -> bytes_at m p (s ++ [c]).
Proof.
  revert p. induction s as [|x s IH]; intros p; cbn [app bytes_at length].
  - rewrite Z.add_0_r. by intros _.
  - intros [Hx Hs] Hc. split; [done|]. apply IH; [done|].
    by replace (p + 1 + Z.of_nat (length s)) with (p + Z.of_nat (S (length s))) by lia.
Qed.

Lemma bytes_prefix m p u v : bytes_at m p (u ++ v) -> bytes_at m p u.
Proof. revert p. induction u as [|c u IH]; intros p; cbn [app bytes_at]; [done|]. intros [? ?]. split; [done|by apply IH]. Qed.

(** The cells behind the line are free to be written. *)
Lemma line_store m buf count line v :
  line_at m buf count line -> line_at (<[buf + Z.of_nat (length line) := v]> m) buf count line.
Proof. intros [Hb Hc Hr]. split; [by apply bytes_insert|done|by apply room_insert]. Qed.

Lemma kill_loop_spec f m buf count n :
  (n < f)%nat -> room m buf count -> Z.of_nat n < count ->
  exists m', kill_loop f buf (buf + Z.of_nat n) m = Ok (buf, m') /\ room m' buf count
    /\ same_outside m m' buf count.
Proof.
  revert m n. induction f as [|f IH]; intros m n Hf Hr Hn; [lia|]. cbn [kill_loop]. destruct n as [|n].
  - rewrite Z.add_0_r, Z.eqb_refl. by exists m.
  - rewrite (proj2 (Z.eqb_neq buf _)) by lia.
    assert (is_Some (m !! (buf + Z.of_nat (S n)))) as Hs by (apply Hr; lia). run (run_sto m _ 0 Hs).
    replace (buf + Z.of_nat (S n) - 1) with (buf + Z.of_nat n) by lia.
    destruct (IH (<[buf + Z.of_nat (S n) := u8 0]> m) n) as (m' & Hrun & Hr' & Ho); [lia|by apply room_insert|lia|].
    exists m'. split; [done|]. split; [done|]. intros a Ha. rewrite Ho by done. by rewrite lookup_insert_ne by lia.
Qed.

Lemma line_head m buf count c line : line_at m buf count (c :: line) -> m !! buf = Some c /\ (c =? 8) = false.
Proof. intros [[Hb _] Hc _]. apply Forall_cons_1 in Hc as [[_ Hc] _]. split; [done|]. by apply Z.eqb_neq. Qed.

(** One character typed. *)
Lemma readline_step m buf count line c input :
  line_at m buf count line -> Z.of_nat (length line) < count -> chr c -> ends_line c = false ->
  exists m', readline_loop (c :: input) buf buf (buf + Z.of_nat (length line)) count m
      = readline_loop input buf buf (buf + Z.of_nat (length (edit line c))) count m'
    /\ line_at m' buf count (edit line c) /\ same_outside m m' buf count.
Proof.
  intros Hl Hn Hc He. cbn [readline_loop]. set (pos := buf + Z.of_nat (length line)).
  assert (is_Some (m !! pos)) as Hp by (apply (la_room _ _ _ _ Hl); subst pos; lia).
  run (run_sto m pos c Hp). replace (pos - buf <? count) with true by (subst pos; lia). cbv iota.
  set (m1 := <[pos := u8 c]> m). assert (m1 !! pos = Some c) as Hm1 by (apply sto_read; [done|by apply chr_byte]).
  assert (line_at m1 buf count line) as Hl1 by (by apply line_store).
  assert (same_outside m m1 buf count) as Ho1 by (intros a Ha; subst m1 pos; by rewrite lookup_insert_ne by lia).
  run (run_ld m1 pos c Hm1). unfold ends_line in He. rewrite He. unfold edit. destruct (c =? 8) eqn:E8.
  { apply Z.eqb_eq in E8. subst c. exists m1. destruct line as [|x line _] using rev_ind.
    - assert (pos = buf) as Hpb by (subst pos; simpl; lia). rewrite Hpb in *. run (run_ld m1 buf 8 Hm1).
      change (negb (8 =? 8)) with false. cbv iota. cbn [removelast length]. rewrite Z.add_0_r. by split_and!.
    - assert (exists y, m1 !! buf = Some y /\ (y =? 8) = false) as (y & Hy & Hyz).
      { destruct (line ++ [x]) as [|y l] eqn:E; [by destruct line|]. exists y. eapply line_head. exact Hl1. }
      run (run_ld m1 buf y Hy). rewrite Hyz. cbn [negb]. rewrite removelast_last.
      replace (pos - 1) with (buf + Z.of_nat (length line)) by (subst pos; rewrite length_app; simpl; lia).
      split; [done|]. split; [|done]. destruct Hl1 as [Hb Hch Hr]. split; [by apply bytes_prefix in Hb| |done].
      by apply Forall_app in Hch as [Hch _]. }
  destruct (c =? 11) eqn:E11.
  { assert (is_Some (m1 !! pos)) as Hp1 by (by eexists). run (run_sto m1 pos 0 Hp1).
    exists (<[pos := u8 0]> m1). split; [done|]. split; [by apply line_store|].
    intros a Ha. subst pos. rewrite lookup_insert_ne by lia. by apply Ho1. }
  destruct (c =? 20) eqn:E20.
  { destruct (kill_loop_spec (S (Z.to_nat (pos - buf))) m1 buf count (length line)) as (m2 & Hrun & Hr2 & Ho2).
    - subst pos. lia.
    - apply Hl1.
    - done.
    - fold pos in Hrun. run Hrun. exists m2. cbn [length]. rewrite Z.add_0_r. split; [done|]. split; [by split|].
      intros a Ha. rewrite Ho2 by done. by apply Ho1. }
  exists m1. rewrite length_app. cbn [length]. split; [by rewrite Nat2Z.inj_add, Z.add_assoc|]. split; [|done].
  destruct Hl1 as [Hb Hch Hr]. split; [|by apply Forall_app; split; [|apply Forall_singleton; split; [|apply Z.eqb_neq]]|done].
  by apply bytes_snoc.
Qed.

Lemma readline_typed cs : forall m buf count line input,
  line_at m buf count line -> typing_ok count line cs ->
  exists m', readline_loop (cs ++ input) buf buf (buf + Z.of_nat (length line)) count m
      = readline_loop input buf buf (buf + Z.of_nat (length (fold_left edit cs line))) count m'
    /\ line_at m' buf count (fold_left edit cs line) /\ same_outside m m' buf count.
Proof.
  induction cs as [|c cs IH]; intros m buf count line input Hl [Hch Hk].
  - by exists m.
  - apply Forall_cons_1 in Hch as [[Hc He] Hch].
    destruct (readline_step m buf count line c (cs ++ input) Hl (Hk 0%nat) Hc He) as (m1 & Hrun & Hl1 & Ho1).
    destruct (IH m1 buf count (edit line c) input Hl1) as (m2 & Hrun2 & Hl2 & Ho2).
    { split; [done|]. intros k. apply (Hk (S k)). }
    exists m2. cbn [app]. rewrite Hrun, Hrun2. split; [done|]. split; [done|].
    intros a Ha. rewrite Ho2 by done. by apply Ho1.
Qed.

Lemma readline_spec m buf count cs e input :
  buf <> 0 -> room m buf count -> typing_ok count [] cs -> ends_line e = true ->
  exists m', readline (cs ++ e :: input) buf buf count m = Ok (input, m')
    /\ string_at m' buf (fold_left edit cs []) /\ same_outside m m' buf count.
Proof.
  intros Hz Hr Hty He. unfold readline. destruct Hty as [Hch Hk]. pose proof (Hk 0%nat) as Hk0. cbn in Hk0.
  assert (sassert (negb (buf =? 0) && (0 <? count)) m = Ok (tt, m)) as Ha.
  { rewrite (proj2 (Z.eqb_neq _ _) Hz). by replace (0 <? count) with true by lia. }
  run Ha. destruct (readline_typed cs m buf count [] (e :: input)) as (m1 & Hrun & Hl & Ho); [by split|by split|].
  cbn [length] in Hrun. rewrite Z.add_0_r in Hrun. rewrite Hrun. cbn [readline_loop].
  specialize (Hk (length cs)). rewrite take_ge in Hk by done. set (line := fold_left edit cs []) in *.
  set (pos := buf + Z.of_nat (length line)).
  assert (is_Some (m1 !! pos)) as Hp by (apply (la_room _ _ _ _ Hl); subst pos; lia).
  run (run_sto m1 pos e Hp). replace (pos - buf <? count) with true by (subst pos; lia). cbv iota.
  assert (byte e) as Hb by (unfold ends_line in He; unfold byte; lia).
  run (run_ld _ pos e (sto_read m1 pos e Hp Hb)). unfold ends_line in He. rewrite He.
  assert (is_Some (<[pos := u8 e]> m1 !! pos)) as Hp1 by (rewrite sto_read by done; by eexists).
  run (run_sto _ pos 0 Hp1). eexists. split; [done|]. change (u8 0) with 0. split.
  - destruct Hl as [Hbl Hcl _]. split; [eapply Forall_impl; [done|]; by intros x [? _]|].
    apply bytes_snoc; [by apply bytes_insert; [apply bytes_insert|]|]. fold pos. by rewrite lookup_insert, decide_True.
  - intros a Hna. subst pos. rewrite !lookup_insert_ne by lia. by apply Ho.
Qed.

(** ** Cutting a line into words *)

Section Parse.
Context (t : Z) (Ht : 0 < t < 128).

Lemma skip_tokens_spec f m p k s :
  (k < f)%nat -> string_at m p (replicate k t ++ s) -> (forall s', s <> t :: s') ->
  skip_tokens f p t m = Ok (p + Z.of_nat k, m).
Proof.
  revert p k. induction f as [|f IH]; intros p k Hf Hs Hn; [lia|]. cbn [skip_tokens]. destruct k as [|k]; cbn [replicate app] in Hs.
  - rewrite Z.add_0_r. destruct s as [|c s].
    + apply string_nil in Hs. run (run_ld m p 0 Hs). change (i8 0) with 0. by rewrite (proj2 (Z.eqb_neq 0 t)) by lia.
    + apply string_cons in Hs as (Hc & Hm & _). run (run_ld m p c Hm). rewrite i8_ascii by done.
      rewrite (proj2 (Z.eqb_neq c t)); [done|]. intros ->. by apply (Hn s).
  - apply string_cons in Hs as (Hc & Hm & Hs). run (run_ld m p t Hm). rewrite i8_ascii, Z.eqb_refl by done.
    rewrite (IH (p + 1) k) by (done || lia). do 2 f_equal. lia.
Qed.

Lemma skip_word_spec f m p w r :
  (length w < f)%nat -> string_at m p (w ++ r) -> t ∉ w -> r = [] \/ (exists r', r = t :: r') ->
  skip_word f p t m = Ok (p + Z.of_nat (length w), m).
Proof.
  revert p w. induction f as [|f IH]; intros p w Hf Hs Hw Hr; [lia|]. cbn [skip_word].
  destruct w as [|c w]; cbn [app length] in *.
  - rewrite Z.add_0_r. destruct Hr as [->|[r' ->]].
    + apply string_nil in Hs. by run (run_ld m p 0 Hs).
    + apply string_cons in Hs as (Hc & Hm & _). run (run_ld m p t Hm). rewrite i8_ascii, Z.eqb_refl by done.
      by rewrite andb_false_r.
  - apply string_cons in Hs as (Hc & Hm & Hs). apply not_elem_of_cons in Hw as [Hne Hw].
    run (run_ld m p c Hm). rewrite i8_ascii by done. rewrite (proj2 (Z.eqb_neq c t)) by done.
    replace (c =? 0) with false by (unfold chr in Hc; lia). cbn [negb andb].
    rewrite (IH (p + 1) w) by (done || lia). do 2 f_equal. lia.
Qed.

(** What one turn of the outer loop leaves: the word at [q], ended by a NUL
    byte, and the rest of the line. *)
Record cut (m m' : cmem) (p : Z) (s w : list Z) (q next' : Z) (s' : list Z) : Prop := {
  cu_word : string_at m' q w;
  cu_rest : string_at m' next' s';
  cu_words : words t s = w :: words t s';
  cu_order : q + Z.of_nat (length w) <= next';
  cu_in : p <= q /\ next' + Z.of_nat (length s') <= p + Z.of_nat (length s);
  cu_gap : s' <> [] -> q + Z.of_nat (length w) < next';
  cu_outside : same_outside m m' p (Z.of_nat (length s) + 1)
}.

Lemma words_nil : words t [] = [].
Proof. done. Qed.

(** A line without words ends the loop. *)
Lemma parse_done n f m p s argv argc :
  string_at m p s -> words t s = [] -> (length s < f)%nat ->
  parse_loop (S n) f p argv argc t m = Ok ((argc, argv), m).
Proof.
  intros Hs Hw Hf. cbn [parse_loop]. destruct (name_test m p s Hs) as (x & Hx & Hxz). run (run_ld m p x Hx). rewrite Hxz.
  case_bool_decide as Hnil; [done|]. destruct (parsed_exists t s) as (k & c & r & Hp).
  rewrite (words_parsed t s k c r Hp) in Hw. destruct (decide (c = [])) as [Hc|Hc].
  - destruct Hp as [Heq _ _ He]. specialize (He Hc). subst c r. rewrite !app_nil_r in Heq. rewrite Heq in Hs.
    rewrite <- (app_nil_r (replicate k t)) in Hs. run (skip_tokens_spec f m p k [] ltac:(rewrite Heq, length_replicate in Hf; lia) Hs ltac:(done)).
    apply string_drop in Hs. rewrite length_replicate in Hs. apply string_nil in Hs. by run (run_ld _ _ _ Hs).
  - by rewrite bool_decide_false in Hw by done.
Qed.

(** The word loop from the place where a word was found at [q]. *)
Definition take_word (n f : nat) (q : Z) (argv : list Z) (argc : Z) : st cmem (Z * list Z) :=
  argv ← sres (wr argv argc q);
  next ← skip_word f q t;
  c ← ld next;
  next ← (if negb (c =? 0) then _ ← sto next 0; mret (next + 1) else mret next);
  if MAX_ARG_NR <? argc then mret (-1, argv)
  else parse_loop n f next argv (argc + 1) t.

Lemma parse_reach n f m p s argv argc w ws :
  string_at m p s -> words t s = w :: ws -> (length s < f)%nat ->
  exists k r, parsed_on t s k w r /\ w <> [] /\ string_at m (p + Z.of_nat k) (w ++ r)
    /\ parse_loop (S n) f p argv argc t m = take_word n f (p + Z.of_nat k) argv argc m.
Proof.
  intros Hs Hw Hf. cbn [parse_loop]. destruct (name_test m p s Hs) as (x & Hx & Hxz). run (run_ld m p x Hx). rewrite Hxz.
  rewrite bool_decide_false by (intros ->; done).
  destruct (parsed_exists t s) as (k & c & r & Hp). rewrite (words_parsed t s k c r Hp) in Hw.
  destruct (decide (c = [])) as [Hc|Hc]; [rewrite bool_decide_true in Hw by done; by rewrite (pa_end Hp Hc) in Hw|].
  rewrite bool_decide_false in Hw by done. simpl in Hw. injection Hw as -> Hws. exists k, r. pose proof Hp as [Heq Hcn Hr He].
  assert (length s = k + length w + length r)%nat as Hl by (rewrite Heq, !length_app, length_replicate; lia).
  rewrite Heq in Hs. run (skip_tokens_spec f m p k (w ++ r) ltac:(lia) Hs ltac:(intros s' Hs'; destruct w; simplify_eq/=; set_solver)).
  apply string_drop in Hs. rewrite length_replicate in Hs. split; [done|]. split; [done|]. split; [done|].
  destruct w as [|y w]; [done|]. apply string_cons in Hs as (Hy & Hmy & _). run (run_ld m _ y Hmy).
  by replace (y =? 0) with false by (unfold chr in Hy; lia).
Qed.

(** A line with a word takes the loop to the line behind it. *)
Lemma parse_word n f m p s argv argc w ws :
  string_at m p s -> words t s = w :: ws -> (length s < f)%nat -> length argv = 16%nat -> 0 <= argc < 16 ->
  exists m' q p' s', parse_loop (S n) f p argv argc t m = parse_loop n f p' (<[Z.to_nat argc := q]> argv) (argc + 1) t m'
    /\ cut m m' p s w q p' s'.
Proof.
  intros Hs Hw Hf Hlen Hargc. destruct (parse_reach n f m p s argv argc w ws Hs Hw Hf) as (k & r & Hp & Hne & Hs1 & ->).
  pose proof Hp as [Heq Hcn Hr He].
  assert (length s = k + length w + length r)%nat as Hl by (rewrite Heq, !length_app, length_replicate; lia).
  unfold take_word. set (q := p + Z.of_nat k) in *.
  assert (sres (wr argv argc q) m = Ok (<[Z.to_nat argc := q]> argv, m)) as Hwr by (rewrite wr_in by lia; done). run Hwr.
  run (skip_word_spec f m q w r ltac:(lia) Hs1 Hcn Hr).
  pose proof Hs1 as Hs2. apply string_drop in Hs2. set (e := q + Z.of_nat (length w)) in *.
  replace (MAX_ARG_NR <? argc) with false by (unfold MAX_ARG_NR; lia).
  assert (forall s', words t s' = words t r -> words t s = w :: words t s') as Hwords.
  { intros s' ->. rewrite (words_parsed t s k w r Hp). by rewrite bool_decide_false. }
  destruct Hr as [->|[r' ->]].
  - exists m, q, e, []. apply string_nil in Hs2 as Hm0. run (run_ld m e 0 Hm0). split; [done|]. rewrite app_nil_r in Hs1.
    split; [done|done|by apply Hwords|subst e; lia|subst q e; cbn [length] in *; lia|done|done].
  - apply string_cons in Hs2 as (_ & Hme & Hs2). run (run_ld m e t Hme). replace (t =? 0) with false by lia. cbn [negb].
    assert (is_Some (m !! e)) as Hie by (by eexists).
    assert ((_ ← sto e 0; mret (e + 1)) m = Ok (e + 1, <[e := 0]> m)) as Hst by (by run (run_sto m e 0 Hie)). run Hst.
    exists (<[e := 0]> m), q, (e + 1), r'. split; [done|].
    split; [by apply (string_cut m q w (t :: r'))| |apply Hwords; by rewrite words_sep|lia|
            subst q e; cbn [length] in *; lia|subst e; lia|].
    + eapply (string_outside m _ e 1); [|right; lia|done]. intros a Ha. by rewrite lookup_insert_ne by lia.
    + intros a Ha. rewrite lookup_insert_ne; [done|]. subst q e. cbn [length] in *. lia.
Qed.

(** The array after the words at [ptrs] were stored from index [argc] on. *)
Definition stored (argv : list Z) (argc : Z) (ptrs : list Z) : list Z :=
  take (Z.to_nat argc) argv ++ ptrs ++ drop (Z.to_nat argc + length ptrs) argv.

Lemma stored_cons argv argc q ptrs :
  0 <= argc < Z.of_nat (length argv) ->
  stored (<[Z.to_nat argc := q]> argv) (argc + 1) ptrs = stored argv argc (q :: ptrs).
Proof.
  intros Ha. unfold stored. replace (Z.to_nat (argc + 1)) with (S (Z.to_nat argc)) by lia.
  rewrite (take_S_r _ _ q) by (apply list_lookup_insert_eq; lia). rewrite take_insert_ge by lia.
  rewrite <- app_assoc. cbn [app length]. rewrite drop_insert_lt by lia.
  by replace (S (Z.to_nat argc) + length ptrs)%nat with (Z.to_nat argc + S (length ptrs))%nat by lia.
Qed.

Lemma parse_loop_spec ws : forall n f m p s argv argc,
  string_at m p s -> words t s = ws -> (length s < f)%nat -> length argv = 16%nat ->
  0 <= argc -> argc + Z.of_nat (length ws) <= 16 -> (length ws < n)%nat ->
  exists m' ptrs, parse_loop n f p argv argc t m = Ok ((argc + Z.of_nat (length ws), stored argv argc ptrs), m')
    /\ Forall2 (string_at m') ptrs ws /\ same_outside m m' p (Z.of_nat (length s) + 1) /\ (ws = [] -> m' = m).
Proof.
  induction ws as [|w ws IH]; intros n f m p s argv argc Hs Hw Hf Hlen Ha Hle Hn; (destruct n as [|n]; [cbn [length] in Hn; lia|]).
  - exists m, []. rewrite (parse_done n f m p s) by done. cbn [length]. rewrite Z.add_0_r. unfold stored.
    rewrite app_nil_l, Nat.add_0_r, take_drop. by split_and!.
  - cbn [length] in *. destruct (parse_word n f m p s argv argc w ws) as (m1 & q & p1 & s1 & Hrun & [Hcw Hcr Hcws Hco [Hci1 Hci2] Hcg Hcout]); try done; [lia|].
    rewrite Hcws in Hw. injection Hw as Hw.
    destruct (IH n f m1 p1 s1 (<[Z.to_nat argc := q]> argv) (argc + 1)) as (m2 & ptrs & Hrun2 & Hall & Ho2 & Hnil); try done; try lia.
    { by rewrite length_insert. }
    exists m2, (q :: ptrs). split; [|split; [constructor; [|done]|split; [|done]]].
    + rewrite Hrun, Hrun2, stored_cons by lia. do 3 f_equal. lia.
    + destruct (decide (s1 = [])) as [->|Hne]; [rewrite (Hnil ltac:(by rewrite <- Hw)); done|]. specialize (Hcg Hne).
      eapply (string_outside m1 m2 p1); [exact Ho2|lia|done].
    + intros a Hna. rewrite Ho2 by lia. by apply Hcout.
Qed.

(** More words than the array has elements: the write behind it. *)
Lemma parse_loop_over ws : forall n f m p s argv argc,
  string_at m p s -> words t s = ws -> (length s < f)%nat -> length argv = 16%nat ->
  0 <= argc <= 16 -> 16 < argc + Z.of_nat (length ws) -> (length ws < n)%nat ->
  parse_loop n f p argv argc t m = Bad EFault.
Proof.
  induction ws as [|w ws IH]; intros n f m p s argv argc Hs Hw Hf Hlen Ha Hle Hn; (destruct n as [|n]; [cbn [length] in Hn; lia|]).
  - cbn [length] in Hle. lia.
  - cbn [length] in *. destruct (decide (argc = 16)) as [->|Hne].
    + destruct (parse_reach n f m p s argv 16 w ws Hs Hw Hf) as (k & r & _ & _ & _ & ->). unfold take_word.
      apply sbind_Bad. unfold wr. by rewrite Hlen, bool_decide_false by lia.
    + destruct (parse_word n f m p s argv argc w ws) as (m1 & q & p1 & s1 & -> & [_ Hcr Hcws Hco [Hci1 Hci2] _ _]); try done; [lia|].
      rewrite Hcws in Hw. injection Hw as Hw. apply (IH n f m1 p1 s1); try done; try lia. by rewrite length_insert.
Qed.
End Parse.

(** ** Properties *)

(** The line [readline] leaves in the buffer, NUL-terminated, is what was
    typed before the return key: a backspace takes back the last character,
    control-u all of them, control-l nothing; the input behind the return key
    is left.  The line must stay shorter than the buffer. *)
Theorem readline_edits (m : cmem) (buf count : Z) (cs : list Z) (e : Z) (input : list Z) :
  buf <> 0 -> room m buf count -> typing_ok count [] cs -> ends_line e = true ->
  exists m', readline (cs ++ e :: input) buf buf count m = Ok (input, m')
    /\ string_at m' buf (fold_left edit cs []) /\ same_outside m m' buf count.
Proof. apply readline_spec. Qed.

Definition demo_line : cmem := put_bytes 100 (replicate 16 0) ∅.

(** "lx", backspace, "s", return. *)
Lemma readline_edits_witness :
  exists m', readline [108; 120; 8; 115; 13; 65] 100 100 16 demo_line = Ok ([65], m') /\ string_at m' 100 [108; 115].
Proof.
  destruct (readline_edits demo_line 100 16 [108; 120; 8; 115] 13 [65]) as (m' & Hrun & Hs & _).
  - lia.
  - apply room_by_check. vm_compute. reflexivity.
  - split; [repeat constructor|]. intros [|[|[|[|[|k]]]]]; vm_compute; reflexivity.
  - reflexivity.
  - exists m'. split; [exact Hrun|exact Hs].
Defined.

(** [cmd_parse] returns the number of words of the line and stores in
    [argv] a pointer to each, NUL-terminated in place, and NULL behind them,
    when there are at most 16; it changes nothing outside the line.  With more
    than 16 words it writes behind the array: the test against MAX_ARG_NR comes
    after the store and admits one index too many. *)
Theorem cmd_parse_words (n f : nat) (m : cmem) (p t : Z) (s : list Z) :
  p <> 0 -> 0 < t < 128 -> string_at m p s -> (length s < f)%nat -> (length (words t s) < n)%nat ->
  (Z.of_nat (length (words t s)) <= MAX_ARG_NR ->
    exists m' ptrs, cmd_parse n f p t m
        = Ok ((Z.of_nat (length (words t s)), ptrs ++ replicate (16 - length ptrs) 0), m')
      /\ Forall2 (string_at m') ptrs (words t s) /\ same_outside m m' p (Z.of_nat (length s) + 1))
  /\ (MAX_ARG_NR < Z.of_nat (length (words t s)) -> cmd_parse n f p t m = Bad EFault).
Proof.
  intros Hp Ht Hs Hf Hn. unfold cmd_parse, MAX_ARG_NR. split; intros Hle; run (not_null_run p m Hp).
  - destruct (parse_loop_spec t Ht (words t s) n f m p s (replicate 16 0) 0) as (m' & ptrs & Hrun & Hall & Ho & _); try done.
    exists m', ptrs. split; [|done]. change (Z.to_nat 16) with 16%nat. rewrite Hrun, Z.add_0_l. unfold stored.
    change (Z.to_nat 0) with 0%nat. rewrite take_0, app_nil_l, Nat.add_0_l, drop_replicate. done.
  - apply (parse_loop_over t Ht (words t s)) with (s := s); try done.
Qed.

Definition demo_command : cmem := put_bytes 100 [32; 108; 115; 32; 32; 45; 108; 0] ∅.

(** " ls  -l" *)
Lemma cmd_parse_words_witness :
  exists m' ptrs, cmd_parse 3 8 100 32 demo_command = Ok ((2, ptrs ++ replicate (16 - length ptrs) 0), m')
    /\ Forall2 (string_at m') ptrs [[108; 115]; [45; 108]].
Proof.
  destruct (cmd_parse_words 3 8 demo_command 100 32 [32; 108; 115; 32; 32; 45; 108]) as [Hok _].
  - lia.
  - lia.
  - split; [repeat constructor|vm_compute; by split_and!].
  - simpl. lia.
  - vm_compute. lia.
  - destruct Hok as (m' & ptrs & Hrun & Hall & _); [vm_compute; discriminate|].
    exists m', ptrs. split; [exact Hrun|exact Hall].
Defined.
