(* ===== verification/Disk.v ===== *)
(** * Disk: sectors, and the on-disk structures of fs/inode.h, fs/dir.h and
    fs/super_block.h

    A disk is a map from sector numbers to 512 bytes; a sector that was never
    written holds zeros.  The structures are arrays of little-endian words.
    [ide_read] and [ide_write] are given here by what they do to sectors; IdeSpec
    shows that the driver of device/ide.c does this to one sector. *)
From S2P Require Import Prelude Bitmap CString.

(** ** Sectors *)

Definition SECTOR_SIZE : Z := 512.

Definition BLOCK_SIZE : Z := SECTOR_SIZE.

(** The largest sector number the driver accepts. *)
Definition max_lba : Z := 80 * 1024 * 1024 / 512 - 1.

Notation sectors := (gmap Z (list Z)).

Definition zeros (n : Z) : list Z := replicate (Z.to_nat n) 0.

Definition sector (d : sectors) (lba : Z) : list Z := default (zeros 512) (d !! lba).

(** Sectors hold 512 bytes. *)
Definition disk_ok (d : sectors) : Prop :=
  forall lba, length (sector d lba) = 512%nat /\ Forall byte (sector d lba).

(** [n] consecutive sectors. *)
Fixpoint read_secs (n : nat) (lba : Z) (d : sectors) : list Z :=
  match n with O => [] | S n' => sector d lba ++ read_secs n' (lba + 1) d end.

Fixpoint write_secs (n : nat) (lba : Z) (bs : list Z) (d : sectors) : sectors :=
  match n with O => d | S n' => write_secs n' (lba + 1) (drop 512 bs) (<[lba := take 512 bs]> d) end.

(** Putting [x] at offset [off] of a buffer: [memcpy] into a larger object. *)
Definition splice (l : list Z) (off : Z) (x : list Z) : list Z :=
  take (Z.to_nat off) l ++ x ++ drop (Z.to_nat off + length x) l.

Definition slice (l : list Z) (off n : Z) : list Z := take (Z.to_nat n) (drop (Z.to_nat off) l).

(** ** Words *)

Definition le32 (x : Z) : list Z := [x mod 256; x / 256 mod 256; x / 2 ^ 16 mod 256; x / 2 ^ 24 mod 256].

Definition of_le32 (b : list Z) : Z :=
  match b with [b0; b1; b2; b3] => b0 + 256 * b1 + 2 ^ 16 * b2 + 2 ^ 24 * b3 | _ => 0 end.

(** Word [i] of a sequence of bytes. *)
Definition word_at (b : list Z) (i : Z) : Z := of_le32 (slice b (4 * i) 4).

Definition enc_words (ws : list Z) : list Z := concat (map le32 ws).

Definition dec_words (n : nat) (b : list Z) : list Z := map (word_at b) (seqZ 0 (Z.of_nat n)).

(** ** Structures *)

(** struct inode; the list node [inode_tag] is not kept, the list of open
    inodes is a sequence of addresses. *)
Record inode : Type := Inode {
  i_no : Z;
  i_size : Z;
  i_open_cnts : Z;
  write_deny : bool;
  i_sectors : list Z
}.

Definition set_i_size (x : Z) (i : inode) : inode := Inode (i_no i) x (i_open_cnts i) (write_deny i) (i_sectors i).
Definition set_i_open_cnts (x : Z) (i : inode) : inode := Inode (i_no i) (i_size i) x (write_deny i) (i_sectors i).
Definition set_write_deny (x : bool) (i : inode) : inode := Inode (i_no i) (i_size i) (i_open_cnts i) x (i_sectors i).
Definition set_i_sectors (x : list Z) (i : inode) : inode := Inode (i_no i) (i_size i) (i_open_cnts i) (write_deny i) x.

(** [sizeof(struct inode)]: four words, the array of 13 and the list node. *)
Definition inode_size : Z := 76.

Definition enc_inode (i : inode) : list Z :=
  enc_words ([i_no i; i_size i; i_open_cnts i; Z.b2z (write_deny i)] ++ i_sectors i ++ [0; 0]).

Definition dec_inode (b : list Z) : inode :=
  Inode (word_at b 0) (word_at b 1) (word_at b 2) (negb (word_at b 3 =? 0)) (map (word_at b) (seqZ 4 13)).

Inductive file_types : Type := FT_UNKNOWN | FT_REGULAR | FT_DIRECTORY.

#[export] Instance file_types_eq_dec : EqDecision file_types.
Proof. solve_decision. Defined.

Definition ft_code (t : file_types) : Z :=
  match t with FT_UNKNOWN => 0 | FT_REGULAR => 1 | FT_DIRECTORY => 2 end.

(** struct dir_entry; [filename] is the array of 16 bytes, [f_type] the word. *)
Record dir_entry : Type := DirEntry {
  filename : list Z;
  de_i_no : Z;
  f_type : Z
}.

(** [sizeof(struct dir_entry)] *)
Definition dir_entry_bytes : Z := 24.

Definition enc_entry (e : dir_entry) : list Z := filename e ++ enc_words [de_i_no e; f_type e].

Definition dec_entry (b : list Z) : dir_entry := DirEntry (slice b 0 16) (word_at b 4) (word_at b 5).

(** Entry [k] of a sector. *)
Definition entry_at (b : list Z) (k : Z) : dir_entry := dec_entry (slice b (24 * k) 24).

(** The string in an array of bytes: up to the first NUL byte. *)
Fixpoint c_string (b : list Z) : list Z :=
  match b with [] => [] | c :: r => if c =? 0 then [] else c :: c_string r end.

(** struct super_block *)
Record super_block : Type := SuperBlock {
  magic : Z;
  sb_sec_cnt : Z;
  inode_cnt : Z;
  part_lba_base : Z;
  block_bitmap_lba : Z;
  block_bitmap_sects : Z;
  inode_bitmap_lba : Z;
  inode_bitmap_sects : Z;
  inode_table_lba : Z;
  inode_table_sects : Z;
  data_start_lba : Z;
  root_inode_no : Z;
  dir_entry_size : Z
}.

Definition enc_super (b : super_block) : list Z :=
  enc_words [magic b; sb_sec_cnt b; inode_cnt b; part_lba_base b; block_bitmap_lba b; block_bitmap_sects b;
             inode_bitmap_lba b; inode_bitmap_sects b; inode_table_lba b; inode_table_sects b;
             data_start_lba b; root_inode_no b; dir_entry_size b] ++ zeros 460.

Definition dec_super (b : list Z) : super_block :=
  SuperBlock (word_at b 0) (word_at b 1) (word_at b 2) (word_at b 3) (word_at b 4) (word_at b 5) (word_at b 6)
    (word_at b 7) (word_at b 8) (word_at b 9) (word_at b 10) (word_at b 11) (word_at b 12).

(** ** Words round trip *)

Definition is_u32 (x : Z) : Prop := 0 <= x < 2 ^ 32.

Lemma le32_length x : length (le32 x) = 4%nat.
Proof. done. Qed.

Lemma of_le32_le32 x : is_u32 x -> of_le32 (le32 x) = x.
Proof. unfold is_u32, of_le32, le32. intros. lia. Qed.

Lemma le32_bytes x : Forall byte (le32 x).
Proof. unfold le32, byte. repeat constructor; lia. Qed.

Lemma enc_words_length ws : length (enc_words ws) = (4 * length ws)%nat.
Proof. induction ws as [|w ws IH]; [done|]. change (enc_words (w :: ws)) with (le32 w ++ enc_words ws). rewrite length_app, IH. simpl. lia. Qed.

Lemma enc_words_app a b : enc_words (a ++ b) = enc_words a ++ enc_words b.
Proof. unfold enc_words. by rewrite map_app, concat_app. Qed.

Lemma enc_words_bytes ws : Forall byte (enc_words ws).
Proof. induction ws as [|w ws IH]; [constructor|]. apply Forall_app. split; [apply le32_bytes|done]. Qed.

(** The word [i] of encoded words, with anything behind them. *)
Lemma word_at_enc ws i w r : ws !! i = Some w -> is_u32 w -> word_at (enc_words ws ++ r) (Z.of_nat i) = w.
Proof.
  intros Hi Hw. unfold word_at, slice. replace (Z.to_nat (4 * Z.of_nat i)) with (4 * i)%nat by lia.
  rewrite <- (take_drop_middle _ _ _ Hi) at 1. rewrite enc_words_app.
  assert (length (take i ws) = i) as Hl by (apply length_take_le; apply lookup_lt_Some in Hi; lia).
  rewrite <- app_assoc, drop_app_length' by (by rewrite enc_words_length, Hl).
  change (Z.to_nat 4) with 4%nat. cbn [enc_words map concat]. rewrite <- app_assoc. rewrite take_app_length' by done.
  by apply of_le32_le32.
Qed.

Lemma dec_enc_words ws r : Forall is_u32 ws -> dec_words (length ws) (enc_words ws ++ r) = ws.
Proof.
  intros Hall. unfold dec_words. apply list_eq. intros i. rewrite list_lookup_fmap.
  destruct (decide (i < length ws)%nat) as [Hi|Hi].
  - rewrite lookup_seqZ_lt by lia. destruct (lookup_lt_is_Some_2 ws i Hi) as [w Hw]. rewrite Hw. simpl. f_equal.
    rewrite Z.add_0_l. apply word_at_enc; [done|]. by eapply Forall_lookup_1.
  - rewrite lookup_seqZ_ge by lia. rewrite lookup_ge_None_2 by lia. done.
Qed.

(** ** The disk as a sequence of bytes *)

(** Byte [k] of the disk, and [n] bytes from byte [k]. *)
Definition dbyte (d : sectors) (k : Z) : Z := default 0 (sector d (k / 512) !! Z.to_nat (k mod 512)).

Definition dbytes (d : sectors) (k n : Z) : list Z := map (fun i => dbyte d (k + i)) (seqZ 0 n).

Lemma dbytes_length d k n : 0 <= n -> Z.of_nat (length (dbytes d k n)) = n.
Proof. intros. unfold dbytes. rewrite length_map, length_seqZ. lia. Qed.

Lemma dbytes_lookup d k n i :
  0 <= Z.of_nat i < n -> dbytes d k n !! i = Some (dbyte d (k + Z.of_nat i)).
Proof.
  intros Hi. unfold dbytes. rewrite list_lookup_fmap, lookup_seqZ_lt by lia. simpl. by rewrite Z.add_0_l.
Qed.

Lemma dbytes_lookup_None d k n i : n <= Z.of_nat i -> dbytes d k n !! i = None.
Proof. intros Hi. unfold dbytes. rewrite list_lookup_fmap, lookup_seqZ_ge by lia. done. Qed.

(** Two pieces of disk with the same bytes. *)
Lemma dbytes_ext d d' k k' n :
  (forall i, 0 <= i < n -> dbyte d (k + i) = dbyte d' (k' + i)) -> dbytes d k n = dbytes d' k' n.
Proof.
  intros H. apply list_eq. intros i. destruct (decide (Z.of_nat i < n)).
  - rewrite !dbytes_lookup by lia. f_equal. apply H. lia.
  - by rewrite !dbytes_lookup_None by lia.
Qed.

Lemma dbytes_app d k a b : 0 <= a -> 0 <= b -> dbytes d k (a + b) = dbytes d k a ++ dbytes d (k + a) b.
Proof.
  intros Ha Hb. pose proof (dbytes_length d k a Ha) as Hl. apply list_eq. intros i.
  destruct (decide (Z.of_nat i < a)).
  - rewrite lookup_app_l by lia. rewrite !dbytes_lookup by lia. done.
  - rewrite lookup_app_r by lia. destruct (decide (Z.of_nat i < a + b)).
    + rewrite !dbytes_lookup by lia. do 2 f_equal. lia.
    + rewrite !dbytes_lookup_None by lia. done.
Qed.

Lemma slice_dbytes d k n off m :
  0 <= off -> 0 <= m -> off + m <= n -> slice (dbytes d k n) off m = dbytes d (k + off) m.
Proof.
  intros. unfold slice. apply list_eq. intros i. destruct (decide (Z.of_nat i < m)).
  - rewrite lookup_take_lt by lia. rewrite lookup_drop, !dbytes_lookup by lia. do 2 f_equal. lia.
  - rewrite lookup_take_ge by lia. by rewrite dbytes_lookup_None by lia.
Qed.

Lemma sector_bytes d lba : disk_ok d -> sector d lba = dbytes d (512 * lba) 512.
Proof.
  intros Hd. destruct (Hd lba) as [Hl _]. apply list_eq. intros i. destruct (decide (Z.of_nat i < 512)).
  - rewrite dbytes_lookup by lia. unfold dbyte.
    replace ((512 * lba + Z.of_nat i) / 512) with lba by lia.
    replace (Z.to_nat ((512 * lba + Z.of_nat i) mod 512)) with i by lia.
    destruct (lookup_lt_is_Some_2 (sector d lba) i) as [v ->]; [lia|done].
  - rewrite dbytes_lookup_None by lia. apply lookup_ge_None_2. lia.
Qed.

Lemma read_secs_bytes n lba d :
  disk_ok d -> read_secs n lba d = dbytes d (512 * lba) (512 * Z.of_nat n).
Proof.
  intros Hd. revert lba. induction n as [|n IH]; intros lba; [done|]. cbn [read_secs].
  rewrite IH, sector_bytes by done.
  replace (512 * Z.of_nat (S n)) with (512 + 512 * Z.of_nat n) by lia.
  rewrite dbytes_app by lia. do 2 f_equal. lia.
Qed.

Lemma sector_insert_eq d lba b : sector (<[lba := b]> d) lba = b.
Proof. unfold sector. by rewrite lookup_insert_eq. Qed.

Lemma sector_insert_ne d lba lba' b : lba <> lba' -> sector (<[lba := b]> d) lba' = sector d lba'.
Proof. intros. unfold sector. by rewrite lookup_insert_ne. Qed.

(** Sectors outside the written ones keep their content. *)
Lemma write_secs_other n lba bs d lba' :
  ~ lba <= lba' < lba + Z.of_nat n -> sector (write_secs n lba bs d) lba' = sector d lba'.
Proof.
  revert lba bs d. induction n as [|n IH]; intros lba bs d Ho; [done|]. cbn [write_secs].
  rewrite IH by lia. apply sector_insert_ne. lia.
Qed.

Lemma write_secs_in n lba bs d lba' :
  lba <= lba' < lba + Z.of_nat n ->
  sector (write_secs n lba bs d) lba' = take 512 (drop (Z.to_nat (512 * (lba' - lba))) bs).
Proof.
  revert lba bs d. induction n as [|n IH]; intros lba bs d Ho; [lia|]. cbn [write_secs].
  destruct (decide (lba' = lba)) as [->|].
  - rewrite write_secs_other by lia. rewrite sector_insert_eq, Z.sub_diag. done.
  - rewrite IH by lia. rewrite drop_drop. do 2 f_equal. lia.
Qed.

Lemma write_secs_ok n lba bs d :
  disk_ok d -> (512 * n <= length bs)%nat -> Forall byte bs -> disk_ok (write_secs n lba bs d).
Proof.
  intros Hd Hl Hb lba'. destruct (decide (lba <= lba' < lba + Z.of_nat n)) as [Hi|Hi].
  - rewrite write_secs_in by done. split.
    + rewrite length_take, length_drop. lia.
    + apply Forall_take, Forall_drop, Hb.
  - rewrite write_secs_other by done. apply Hd.
Qed.

(** Bytes after a write. *)
Lemma dbyte_write n lba bs d k :
  (512 * n <= length bs)%nat ->
  dbyte (write_secs n lba bs d) k =
    if bool_decide (512 * lba <= k < 512 * (lba + Z.of_nat n)) then default 0 (bs !! Z.to_nat (k - 512 * lba))
    else dbyte d k.
Proof.
  intros Hl. unfold dbyte. case_bool_decide as Hk.
  - rewrite write_secs_in by lia. rewrite lookup_take_lt by lia. rewrite lookup_drop. do 2 f_equal. lia.
  - rewrite write_secs_other by lia. done.
Qed.

Lemma splice_length l off x :
  0 <= off -> off + Z.of_nat (length x) <= Z.of_nat (length l) -> length (splice l off x) = length l.
Proof. intros. unfold splice. rewrite !length_app, length_take, length_drop. lia. Qed.

Lemma splice_bytes l off x : Forall byte l -> Forall byte x -> Forall byte (splice l off x).
Proof. intros. unfold splice. rewrite !Forall_app. eauto using Forall_take, Forall_drop. Qed.

Lemma splice_lookup l off x k :
  0 <= off -> off + Z.of_nat (length x) <= Z.of_nat (length l) ->
  splice l off x !! k =
    if bool_decide (off <= Z.of_nat k < off + Z.of_nat (length x)) then x !! (k - Z.to_nat off)%nat else l !! k.
Proof.
  intros Ho Hl. unfold splice.
  assert (length (take (Z.to_nat off) l) = Z.to_nat off) as Ht by (rewrite length_take; lia).
  destruct (decide (Z.of_nat k < off)).
  - rewrite bool_decide_false by lia. rewrite lookup_app_l by lia. by rewrite lookup_take_lt by lia.
  - rewrite lookup_app_r by lia. rewrite Ht. case_bool_decide.
    + by rewrite lookup_app_l by lia.
    + rewrite lookup_app_r by lia. rewrite lookup_drop. f_equal. lia.
Qed.

(** Changing a piece of one or more sectors changes just these bytes. *)
Lemma dbyte_patch n lba off x d k :
  disk_ok d -> 0 <= off -> off + Z.of_nat (length x) <= 512 * Z.of_nat n ->
  dbyte (write_secs n lba (splice (read_secs n lba d) off x) d) k =
    if bool_decide (512 * lba + off <= k < 512 * lba + off + Z.of_nat (length x))
    then default 0 (x !! Z.to_nat (k - (512 * lba + off))) else dbyte d k.
Proof.
  intros Hd Ho Hx.
  assert (Z.of_nat (length (read_secs n lba d)) = 512 * Z.of_nat n) as Hl.
  { rewrite read_secs_bytes by done. apply dbytes_length. lia. }
  rewrite dbyte_write by (rewrite splice_length; lia).
  case_bool_decide as Hk.
  - rewrite splice_lookup by lia.
    destruct (decide (512 * lba + off <= k < 512 * lba + off + Z.of_nat (length x))).
    + rewrite !bool_decide_true by lia. do 2 f_equal. lia.
    + rewrite !bool_decide_false by lia. rewrite read_secs_bytes by done. rewrite dbytes_lookup by lia.
      simpl. f_equal. lia.
  - rewrite bool_decide_false by lia. done.
Qed.

Lemma patch_ok n lba off x d :
  disk_ok d -> 0 <= off -> off + Z.of_nat (length x) <= 512 * Z.of_nat n -> Forall byte x ->
  disk_ok (write_secs n lba (splice (read_secs n lba d) off x) d).
Proof.
  intros Hd Ho Hx Hb.
  assert (Z.of_nat (length (read_secs n lba d)) = 512 * Z.of_nat n) as Hl.
  { rewrite read_secs_bytes by done. apply dbytes_length. lia. }
  apply write_secs_ok; [done|rewrite splice_length; lia|]. apply splice_bytes; [|done].
  clear Hl Hx. revert lba. induction n as [|n IH]; intros lba; [constructor|]. cbn [read_secs].
  apply Forall_app. split; [apply Hd|apply IH].
Qed.

(** ** Structures round trip *)

(** An inode as the code keeps it: 13 block addresses, 32-bit members. *)
Record inode_ok (i : inode) : Prop := {
  io_no : is_u32 (i_no i);
  io_size : is_u32 (i_size i);
  io_cnts : is_u32 (i_open_cnts i);
  io_sectors : length (i_sectors i) = 13%nat;
  io_lbas : Forall is_u32 (i_sectors i)
}.

Lemma enc_inode_length i : length (i_sectors i) = 13%nat -> length (enc_inode i) = 76%nat.
Proof. intros H. unfold enc_inode. rewrite enc_words_length, !length_app, H. done. Qed.

Lemma dec_enc_inode i : inode_ok i -> dec_inode (enc_inode i) = i.
Proof.
  intros [Hn Hs Hc Hl Hb]. destruct i as [no size cnts deny secs]. unfold enc_inode. cbn [i_no i_size i_open_cnts write_deny i_sectors] in *.
  set (ws := [no; size; cnts; Z.b2z deny] ++ secs ++ [0; 0]).
  assert (Forall is_u32 ws) as Hws.
  { unfold ws. rewrite !Forall_app. split_and!; [|done|]; unfold is_u32; repeat constructor; try (destruct deny; simpl); unfold is_u32 in *; lia. }
  assert (forall (k : nat) w, ws !! k = Some w -> word_at (enc_words ws) (Z.of_nat k) = w) as Hw.
  { intros k w Hk. rewrite <- (app_nil_r (enc_words ws)). apply word_at_enc; [done|]. by eapply Forall_lookup_1. }
  unfold dec_inode.
  rewrite (Hw 0%nat no eq_refl : word_at _ 0 = _), (Hw 1%nat size eq_refl : word_at _ 1 = _),
    (Hw 2%nat cnts eq_refl : word_at _ 2 = _), (Hw 3%nat (Z.b2z deny) eq_refl : word_at _ 3 = _).
  f_equal; [by destruct deny|].
  apply list_eq. intros k. rewrite list_lookup_fmap. destruct (decide (k < 13)%nat).
  - rewrite lookup_seqZ_lt by lia. destruct (lookup_lt_is_Some_2 secs k) as [w Hk]; [lia|]. rewrite Hk. simpl. f_equal.
    replace (4 + Z.of_nat k) with (Z.of_nat (4 + k)) by lia. apply Hw. unfold ws.
    rewrite lookup_app_r by (simpl; lia). rewrite lookup_app_l by (simpl; lia). rewrite <- Hk. f_equal. simpl. lia.
  - rewrite lookup_seqZ_ge by lia. rewrite lookup_ge_None_2 by lia. done.
Qed.

(** Words read from bytes are 32-bit words. *)
Lemma word_at_u32 b k : Forall byte b -> is_u32 (word_at b k).
Proof.
  intros Hb. unfold word_at, of_le32, is_u32. set (l := slice b (4 * k) 4).
  assert (Forall byte l) as Hl by by apply Forall_take, Forall_drop.
  destruct l as [|b0 [|b1 [|b2 [|b3 [|? ?]]]]]; try lia. unfold byte in *. inversion_clear Hl as [|? ? H0 Hl1].
  inversion_clear Hl1 as [|? ? H1 Hl2]. inversion_clear Hl2 as [|? ? H2 Hl3]. inversion_clear Hl3 as [|? ? H3 _]. lia.
Qed.

Lemma dec_words_u32 n b : Forall byte b -> Forall is_u32 (dec_words n b).
Proof. intros Hb. unfold dec_words. apply Forall_fmap, Forall_forall. intros k _. by apply word_at_u32. Qed.

Lemma dec_words_length n b : length (dec_words n b) = n.
Proof. unfold dec_words. rewrite length_map, length_seqZ. lia. Qed.

Lemma zeros_length n : length (zeros n) = Z.to_nat n.
Proof. apply length_replicate. Qed.

(** A sector of words. *)
Lemma sector_of_words d lba ws :
  length ws = 128%nat -> Forall is_u32 ws -> dec_words 128 (sector (write_secs 1 lba (enc_words ws) d) lba) = ws.
Proof.
  intros Hl Hu. rewrite write_secs_in by lia. rewrite Z.sub_diag. change (Z.to_nat (512 * 0)) with 0%nat.
  rewrite drop_0, take_ge by (rewrite enc_words_length; lia).
  rewrite <- (app_nil_r (enc_words ws)), <- Hl. by apply dec_enc_words.
Qed.
