(* ===== verification/Screen.v ===== *)
(** * Screen: lib/kernel/print.S

    The video memory and the cursor of the controller, and the routines that
    draw on them.  The reference is a terminal of 25 lines of 80 characters. *)
From S2P Require Import Prelude CString Stdio Disk.

(** ** Definitions *)

(** The video segment of 0x8000 bytes, two for each place: the character and its
    attribute; [cursor] is the 16-bit number in the registers 0x0e and 0x0f of
    the controller. *)
Record screen : Type := Screen { video : list Z; cursor : Z }.

Definition VIDEO_BYTES : Z := 0x8000.

Definition set_cursor (cursor_pos : Z) : st screen unit := fun s => Ok (tt, Screen (video s) (u16 cursor_pos)).

(** [mov byte \[gs:off\], v]: outside the segment it is a protection fault. *)
Definition poke (off v : Z) : st screen unit :=
  s ← sget;
  bs ← sres (wr (video s) off (u8 v));
  sput (Screen bs (cursor s)).

(** [n] places from byte [off] on are blank. *)
Definition blank (off : Z) (n : nat) (v : list Z) : list Z := splice v off (concat (replicate n [0x20; 0x07])).

(** [rep movsd] copies upwards, each place before it is overwritten. *)
Definition roll_screen : st screen unit :=
  s ← sget;
  let v := splice (video s) 0 (slice (video s) 160 3840) in
  _ ← sput (Screen (blank 3840 80 v) (cursor s));
  set_cursor 1920.

(** From the label [.is_line_feed] on; the comparison is signed. *)
Definition line_feed (bx : Z) : st screen unit :=
  let bx := u16 (u16 (bx - bx mod 80) + 80) in
  if i16 bx <? 2000 then set_cursor bx else roll_screen.

Definition put_char (c : Z) : st screen unit :=
  s ← sget;
  let bx := cursor s in
  let cl := u8 c in
  if (cl =? 0xd) || (cl =? 0xa) then line_feed bx
  else if cl =? 8 then
    let bx := u16 (Z.shiftl (u16 (bx - 1)) 1) in
    _ ← poke bx 0x20;
    let bx := u16 (bx + 1) in
    _ ← poke bx 0x07;
    set_cursor (Z.shiftr bx 1)
  else
    let bx := u16 (Z.shiftl bx 1) in
    _ ← poke bx cl;
    let bx := u16 (bx + 1) in
    _ ← poke bx 0x07;
    let bx := u16 (Z.shiftr bx 1 + 1) in
    if i16 bx <? 2000 then set_cursor bx else line_feed bx.

(** The text up to its NUL. *)
Fixpoint put_str (message : list Z) : st screen unit :=
  match message with
  | [] => mret tt
  | c :: r => if c =? 0 then mret tt else _ ← put_char c; put_str r
  end.

(** The eight digits in [put_int_buffer]. *)
Fixpoint int_digits (n : nat) (eax : Z) : list Z :=
  match n with O => [] | S n' => int_digits n' (Z.shiftr eax 4) ++ [digit_char (Z.land eax 15)] end.

Fixpoint skip_zeros (ds : list Z) : list Z :=
  match ds with d :: r => if d =? 48 then skip_zeros r else ds | [] => [] end.

(** What [put_int] prints. *)
Definition int_text (num : Z) : list Z :=
  match skip_zeros (int_digits 8 (u32 num)) with [] => [48] | ds => ds end.

Definition put_int (num : Z) : st screen unit := put_str (int_text num).

Definition cls_screen : st screen unit :=
  s ← sget;
  _ ← sput (Screen (blank 0 2000 (video s)) (cursor s));
  set_cursor 0.

(** ** The terminal *)

(** What is on the 2000 places, and the place of the next character. *)
Record term : Type := Term { cells : list Z; pos : Z }.

Definition next_line (t : term) : term :=
  let p := (pos t / 80 + 1) * 80 in
  if p <? 2000 then Term (cells t) p else Term (drop 80 (cells t) ++ replicate 80 32) 1920.

(** [None]: a backspace where nothing is before. *)
Definition type_char (t : term) (c : Z) : option term :=
  if (c =? 13) || (c =? 10) then Some (next_line t)
  else if c =? 8 then if pos t =? 0 then None else Some (Term (<[Z.to_nat (pos t - 1) := 32]> (cells t)) (pos t - 1))
  else
    let t' := Term (<[Z.to_nat (pos t) := c]> (cells t)) (pos t + 1) in
    Some (if pos t' <? 2000 then t' else next_line t').

Fixpoint type_text (t : term) (text : list Z) : option term :=
  match text with [] => Some t | c :: r => match type_char t c with Some t' => type_text t' r | None => None end end.

(** The memory [v] has the characters [cs]. *)
Record drawn (v cs : list Z) : Prop := {
  dr_video : Z.of_nat (length v) = VIDEO_BYTES;
  dr_cells : length cs = 2000%nat;
  dr_char : forall i, (i < 2000)%nat -> v !! (2 * i)%nat = cs !! i
}.

(** The screen [s] shows the terminal [t]. *)
Definition shows (s : screen) (t : term) : Prop :=
  drawn (video s) (cells t) /\ cursor s = pos t /\ 0 <= pos t < 2000.

(** ** Bytes and places *)

Lemma poke_run off v s :
  0 <= off < Z.of_nat (length (video s)) -> 0 <= v < 256 -> poke off v s = Ok (tt, Screen (<[Z.to_nat off := v]> (video s)) (cursor s)).
Proof. intros Ho Hv. unfold poke. run (eq_refl : sget s = Ok (s, s)). rewrite wr_in, u8_id by lia. done. Qed.

Lemma drawn_char v cs p c : drawn v cs -> 0 <= p < 2000 -> drawn (<[Z.to_nat (2 * p) := c]> v) (<[Z.to_nat p := c]> cs).
Proof.
  intros [Hv Hc Hl] Hp. unfold VIDEO_BYTES in Hv. split; [by rewrite length_insert|by rewrite length_insert|]. intros i Hi.
  destruct (decide (i = Z.to_nat p)) as [->|Hne].
  - replace (2 * Z.to_nat p)%nat with (Z.to_nat (2 * p)) by lia. by rewrite !list_lookup_insert_eq by lia.
  - rewrite !list_lookup_insert_ne by lia. by apply Hl.
Qed.

Lemma drawn_attribute v cs p a : drawn v cs -> 0 <= p < 2000 -> drawn (<[Z.to_nat (2 * p + 1) := a]> v) cs.
Proof.
  intros [Hv Hc Hl] Hp. split; [by rewrite length_insert|done|]. intros i Hi. rewrite list_lookup_insert_ne by lia. by apply Hl.
Qed.

(** A place is written: its character, then its attribute. *)
Lemma draw_run s cs p c b :
  drawn (video s) cs -> 0 <= p < 2000 -> 0 <= c < 256 -> b = u16 (2 * p) ->
  exists s', (_ ← poke b c; poke (u16 (b + 1)) 0x07) s = Ok (tt, s') /\ drawn (video s') (<[Z.to_nat p := c]> cs) /\ cursor s' = cursor s.
Proof.
  intros Hd Hp Hc ->. pose proof (dr_video _ _ Hd) as Hv. unfold VIDEO_BYTES in Hv. rewrite !u16_id by (rewrite ?u16_id; lia).
  run (poke_run (2 * p) c s ltac:(lia) Hc). eexists. split; [apply poke_run; [cbn [video]; rewrite length_insert; lia|lia]|].
  split; [|done]. by apply drawn_attribute; [apply drawn_char|].
Qed.

Lemma pairs_length n : length (concat (replicate n [0x20; 0x07])) = (2 * n)%nat.
Proof. induction n as [|n IH]; [done|]. cbn [replicate concat]. rewrite length_app, IH. cbn [length]. lia. Qed.

Lemma pairs_char n k : (k < n)%nat -> concat (replicate n [0x20; 0x07]) !! (2 * k)%nat = Some 32.
Proof.
  revert k. induction n as [|n IH]; intros k Hk; [lia|]. destruct k as [|k]; [done|].
  replace (2 * S k)%nat with (S (S (2 * k))) by lia. apply IH. lia.
Qed.

Lemma blank_length off n v :
  0 <= off -> off + 2 * Z.of_nat n <= Z.of_nat (length v) -> length (blank off n v) = length v.
Proof. intros Ho Hn. apply splice_length; [done|]. rewrite pairs_length. lia. Qed.

Lemma blank_char q n v i :
  2 * Z.of_nat (q + n) <= Z.of_nat (length v) ->
  blank (2 * Z.of_nat q) n v !! (2 * i)%nat = if bool_decide (q <= i < q + n)%nat then Some 32 else v !! (2 * i)%nat.
Proof.
  intros Hl. unfold blank. rewrite splice_lookup by (rewrite ?pairs_length; lia). rewrite pairs_length. case_bool_decide as H1.
  - rewrite bool_decide_true by lia. replace (2 * i - Z.to_nat (2 * Z.of_nat q))%nat with (2 * (i - q))%nat by lia. apply pairs_char. lia.
  - by rewrite bool_decide_false by lia.
Qed.

Lemma rolled v cs :
  drawn v cs -> drawn (blank 3840 80 (splice v 0 (slice v 160 3840))) (drop 80 cs ++ replicate 80 32).
Proof.
  intros [Hv Hc Hl]. unfold VIDEO_BYTES in Hv.
  assert (length (slice v 160 3840) = 3840%nat) as Hs by (unfold slice; rewrite length_take, length_drop; lia).
  assert (length (splice v 0 (slice v 160 3840)) = length v) as Hsp by (apply splice_length; lia).
  split; [rewrite blank_length by lia; unfold VIDEO_BYTES; lia|rewrite length_app, length_drop, length_replicate; lia|]. intros i Hi.
  change 3840 with (2 * Z.of_nat 1920) at 1. rewrite blank_char by lia. case_bool_decide as H.
  - rewrite lookup_app_r by (rewrite length_drop; lia). rewrite length_drop, lookup_replicate_2 by lia. done.
  - rewrite lookup_app_l by (rewrite length_drop; lia). rewrite splice_lookup by lia. rewrite bool_decide_true by lia.
    change (Z.to_nat 0) with 0%nat. rewrite Nat.sub_0_r. unfold slice. rewrite lookup_take_lt by lia. rewrite !lookup_drop.
    rewrite <- (Hl (80 + i)%nat) by lia. f_equal. lia.
Qed.

(** ** Characters and texts *)

Lemma line_feed_run s cs p :
  drawn (video s) cs -> 0 <= p <= 2000 -> exists s', line_feed p s = Ok (tt, s') /\ shows s' (next_line (Term cs p)).
Proof.
  intros Hd Hp. unfold line_feed, next_line. cbv zeta. cbn [cells pos]. rewrite (u16_id (p - p mod 80)) by lia.
  rewrite u16_id by lia. rewrite i16_id by lia. replace (p - p mod 80 + 80) with ((p / 80 + 1) * 80) by lia.
  destruct ((p / 80 + 1) * 80 <? 2000) eqn:E.
  - eexists. split; [done|]. unfold shows. cbn [video cursor cells pos]. rewrite u16_id by lia. split; [done|lia].
  - exists (Screen (blank 3840 80 (splice (video s) 0 (slice (video s) 160 3840))) (u16 1920)). split; [reflexivity|]. unfold shows. cbn [video cursor cells pos]. split; [by apply rolled|]. split; [done|lia].
Qed.

Lemma put_char_run s t c :
  shows s t -> 0 <= c < 256 ->
  match type_char t c with
  | Some t' => exists s', put_char c s = Ok (tt, s') /\ shows s' t'
  | None => put_char c s = Bad EFault
  end.
Proof.
  intros (Hd & Hc & Hp) Hr. destruct t as [cs p]. cbn [cells pos] in *. unfold put_char. run (eq_refl : sget s = Ok (s, s)).
  rewrite Hc, u8_id by lia. unfold type_char. cbn [cells pos]. destruct ((c =? 13) || (c =? 10)) eqn:E1.
  { apply line_feed_run; [done|lia]. }
  destruct (c =? 8) eqn:E2.
  - destruct (p =? 0) eqn:E3.
    + assert (p = 0) as -> by lia. change (u16 (Z.shiftl (u16 (0 - 1)) 1)) with 65534. apply sbind_Bad.
      unfold poke. run (eq_refl : sget s = Ok (s, s)). unfold wr. pose proof (dr_video _ _ Hd) as Hv. unfold VIDEO_BYTES in Hv.
      by rewrite bool_decide_false by lia.
    + rewrite (u16_id (p - 1)), Z.shiftl_mul_pow2 by lia. destruct (draw_run s cs (p - 1) 32 _ Hd ltac:(lia) ltac:(lia) eq_refl) as (s' & Hrun & Hd' & Hc').
      replace ((p - 1) * 2 ^ 1) with (2 * (p - 1)) by lia. rewrite <- sbind_assoc. run Hrun.
      eexists. split; [done|]. unfold shows. cbn [video cursor cells pos]. split; [done|]. rewrite (u16_id (2 * (p - 1))) by lia.
      rewrite (u16_id (2 * (p - 1) + 1)), Z.shiftr_div_pow2 by lia. rewrite u16_id by lia. lia.
  - rewrite Z.shiftl_mul_pow2 by lia. destruct (draw_run s cs p c _ Hd ltac:(lia) Hr eq_refl) as (s' & Hrun & Hd' & Hc').
    replace (p * 2 ^ 1) with (2 * p) by lia. rewrite <- sbind_assoc. run Hrun.
    rewrite (u16_id (2 * p)) by lia. rewrite (u16_id (2 * p + 1)), Z.shiftr_div_pow2 by lia.
    replace ((2 * p + 1) / 2 ^ 1 + 1) with (p + 1) by lia. rewrite u16_id by lia. rewrite i16_id by lia.
    destruct (p + 1 <? 2000) eqn:E3; [|by apply line_feed_run; [|lia]].
    eexists. split; [done|]. unfold shows. cbn [video cursor cells pos]. rewrite u16_id by lia. split; [done|lia].
Qed.

Lemma put_str_run s t text :
  shows s t -> Forall chr text ->
  match type_text t text with
  | Some t' => exists s', put_str text s = Ok (tt, s') /\ shows s' t'
  | None => put_str text s = Bad EFault
  end.
Proof.
  intros Hs Hc. revert s t Hs. induction Hc as [|c r Hc Hr IH]; intros s t Hs; [by exists s|]. unfold chr in Hc.
  cbn [put_str type_text]. replace (c =? 0) with false by lia. pose proof (put_char_run s t c Hs ltac:(lia)) as H.
  destruct (type_char t c) as [t'|]; [|by apply sbind_Bad]. destruct H as (s' & Hrun & Hs'). run Hrun. by apply IH.
Qed.

(** ** Texts on the screen *)

(** A character that is put where the cursor is. *)
Definition glyph (c : Z) : Prop := c <> 8 /\ c <> 10 /\ c <> 13.

Lemma type_text_app t a b :
  type_text t (a ++ b) = match type_text t a with Some t' => type_text t' b | None => None end.
Proof. revert t. induction a as [|c a IH]; intros t; [done|]. cbn [app type_text]. by destruct (type_char t c). Qed.

Lemma splice_nil l p : splice l p [] = l.
Proof. unfold splice. cbn [length app]. by rewrite Nat.add_0_r, take_drop. Qed.

Lemma splice_cons l p c r :
  0 <= p < Z.of_nat (length l) -> splice (<[Z.to_nat p := c]> l) (p + 1) r = splice l p (c :: r).
Proof.
  intros Hp. unfold splice. replace (Z.to_nat (p + 1)) with (S (Z.to_nat p)) by lia.
  rewrite (take_S_r _ _ c) by (apply list_lookup_insert_eq; lia). rewrite take_insert_ge by lia. rewrite drop_insert_lt by lia.
  rewrite <- app_assoc. cbn [app length]. do 4 f_equal. lia.
Qed.

(** A text without line ends that fits is written over what was there. *)
Lemma type_glyphs cs p text :
  Forall glyph text -> length cs = 2000%nat -> 0 <= p -> p + Z.of_nat (length text) < 2000 ->
  type_text (Term cs p) text = Some (Term (splice cs p text) (p + Z.of_nat (length text))).
Proof.
  intros Hg. revert cs p. induction Hg as [|c r [H8 [H10 H13]] Hr IH]; intros cs p Hl Hp Hn.
  { cbn [type_text length]. by rewrite splice_nil, Z.add_0_r. }
  cbn [type_text]. unfold type_char. replace (c =? 13) with false by lia. replace (c =? 10) with false by lia.
  replace (c =? 8) with false by lia. cbn [orb cells pos]. cbn [length] in Hn. replace (p + 1 <? 2000) with true by lia.
  rewrite IH by (rewrite ?length_insert; lia). rewrite splice_cons by lia. cbn [length]. do 2 f_equal. lia.
Qed.

(** Without a backspace nothing can go wrong. *)
Lemma type_text_total t text : 8 ∉ text -> exists t', type_text t text = Some t'.
Proof.
  revert t. induction text as [|c r IH]; intros t H; [by exists t|]. apply not_elem_of_cons in H as [Hc Hr]. cbn [type_text].
  unfold type_char. replace (c =? 8) with false by lia. destruct ((c =? 13) || (c =? 10)); by apply IH.
Qed.

(** ** Numbers *)

Lemma skip_zeros_snoc ds d :
  skip_zeros (ds ++ [d]) = match skip_zeros ds with [] => if d =? 48 then [] else [d] | r => r ++ [d] end.
Proof.
  induction ds as [|x ds IH]; [done|]. cbn [app skip_zeros]. destruct (x =? 48); [done|]. done.
Qed.

Lemma digit_zero m : 0 <= m < 16 -> (digit_char m =? 48) = (m =? 0).
Proof. intros H. unfold digit_char. destruct (m <? 10) eqn:E; lia. Qed.

Lemma int_digits_eq n v :
  0 <= v < 2 ^ (4 * Z.of_nat n) -> skip_zeros (int_digits n v) = if v =? 0 then [] else digits (S (4 * n)) 16 v.
Proof.
  revert v. induction n as [|n IH]; intros v Hv.
  { assert (v = 0) as -> by lia. done. }
  assert (2 ^ (4 * Z.of_nat (S n)) = 16 * 2 ^ (4 * Z.of_nat n)) as Hpow.
  { replace (4 * Z.of_nat (S n)) with (4 + 4 * Z.of_nat n) by lia. by rewrite Z.pow_add_r by lia. }
  cbn [int_digits]. rewrite skip_zeros_snoc, Z.shiftr_div_pow2 by lia. change (2 ^ 4) with 16. change 15 with (Z.ones 4).
  rewrite Z.land_ones by lia. change (2 ^ 4) with 16. rewrite IH by lia. rewrite digit_zero by lia.
  assert (digits (S (4 * S n)) 16 v = (if negb (v / 16 =? 0) then digits (4 * S n) 16 (v / 16) else []) ++ [digit_char (v mod 16)]) as -> by done.
  destruct (v / 16 =? 0) eqn:E; cbn [negb app].
  - destruct (v =? 0) eqn:E0; [by replace (v mod 16 =? 0) with true by lia|by replace (v mod 16 =? 0) with false by lia].
  - replace (v =? 0) with false by lia.
    assert (digits (4 * S n) 16 (v / 16) = digits (S (4 * n)) 16 (v / 16)) as ->.
    { replace (4 * S n)%nat with (S (4 * n + 3)) by lia. apply digits_fuel; [lia| |lia].
      rewrite Nat2Z.inj_mul. change (Z.of_nat 4) with 4. lia. }
    cbn [digits]. destruct (negb (v / 16 / 16 =? 0)); [|done]. by destruct (digits (4 * n) 16 (v / 16 / 16)).
Qed.

(** [put_int] prints the hexadecimal numeral. *)
Lemma int_text_eq num : int_text num = digits 33 16 (u32 num).
Proof.
  unfold int_text. assert (0 <= u32 num < 2 ^ 32) as Hr by (unfold u32; lia).
  rewrite (int_digits_eq 8) by (change (4 * Z.of_nat 8) with 32; lia). destruct (u32 num =? 0) eqn:E.
  - by assert (u32 num = 0) as -> by lia.
  - change (S (4 * 8)) with 33%nat. cbn [digits]. by destruct (if negb _ then _ else _).
Qed.
