(* ===== verification/Exceptions.v ===== *)
(** * Exceptions: what happens when nothing handles an interrupt

    [exception_init], [general_intr_handler] and [idt_init] of
    kernel/interrupt.c and [panic_spin] of kernel/debug.c, on the screen of
    print.S. *)
From S2P Require Import Prelude Interrupt CString Stdio Disk Screen.

(** ** Definitions *)

(** How a handler ends: [while(1)] is [Hangs]. *)
Inductive handled : Type := Returns | Hangs.

Definition exception_names : list (list Z) :=
  chars <$> [ "#DE Divide Error"; "#DB Debug Exception"; "NMI Interrupt"; "#BP Breakpoint Exception"; "#OF Overflow Exception";
    "#BR BOUND Range Exceeded Exception"; "#UD Invalid Opcode Exception"; "#NM Device Not Available Exception";
    "#DF Double Fault Exception"; "Coprocessor Segment Overrun"; "#TS Invalid TSS Exception"; "#NP Segment Not Present";
    "#SS Stack Fault Exception"; "#GP General Protection Exception"; "#PF Page-Fault Exception"; "unknown";
    "#MF x87 FPU Floating-Point Error"; "#AC Alignment Check Exception"; "#MC Machine-Check Exception";
    "#XF SIMD Floating-Point Exception" ]%string.

(** [exception_init]: [idt_table] and [intr_name]; [handler] is the address of
    [general_intr_handler]. *)
Definition exception_init (handler : Z) : list Z * list (list Z) :=
  (replicate (Z.to_nat IDT_DESC_CNT) handler,
   exception_names ++ replicate (Z.to_nat IDT_DESC_CNT - length exception_names) (chars "unknown")).

Fixpoint put_spaces (n : nat) : st screen unit :=
  match n with O => mret tt | S n' => _ ← put_char 32; put_spaces n' end.

(** [cr2] is the address whose access failed. *)
Definition general_intr_handler (intr_name : list (list Z)) (cr2 vec_nr : Z) : st screen handled :=
  let vec_nr := u8 vec_nr in
  if (vec_nr =? 0x27) || (vec_nr =? 0x2f) then mret Returns
  else
    _ ← set_cursor 0;
    _ ← put_spaces 320;
    _ ← set_cursor 0;
    _ ← put_str (chars "!!!!!!!      excetion message begin  !!!!!!!!\n");
    _ ← set_cursor 88;
    name ← sres (rd intr_name vec_nr);
    _ ← put_str name;
    _ ← (if vec_nr =? 14 then _ ← put_str (chars "\npage fault addr is "); put_int cr2 else mret tt);
    _ ← put_str (chars "\n!!!!!!!      excetion message end    !!!!!!!!\n");
    mret Hangs.

(** The 6 bytes [lidt] loads: the size and the address of [idt]. *)
Definition idt_operand (idt : Z) : Z := Z.lor (u32 (8 * IDT_DESC_CNT - 1)) (Z.shiftl (u32 idt) 16).

(** What [idt_init] sets up: the tables, the bytes sent to the controllers (port
    and byte) and the operand of [lidt]. *)
Record interrupts : Type := Interrupts {
  idt : list gate_desc;
  idt_table : list Z;
  intr_name : list (list Z);
  pic_ports : list (Z * Z);
  lidt_operand : Z
}.

Definition idt_init (intr_entry_table : list Z) (syscall_handler handler idt_at : Z) : st screen interrupts :=
  _ ← put_str (chars "idt_init start\n");
  idt ← sres (idt_desc_init intr_entry_table syscall_handler);
  _ ← put_str (chars "   idt_desc_init done\n");
  let tables := exception_init handler in
  _ ← put_str (chars "   pic_init done\n");
  _ ← put_str (chars "idt_init done\n");
  mret (Interrupts idt tables.1 tables.2 pic_init (idt_operand idt_at)).

(** The result is the EFLAGS register of the processor in the final loop. *)
Definition panic_spin (eflags : Z) (filename : list Z) (line : Z) (func condition : list Z) : st screen Z :=
  let eflags := (intr_disable eflags).2 in
  _ ← put_str (chars "\n\n\n!!!!! error !!!!!\n");
  _ ← put_str (chars "filename:"); _ ← put_str filename; _ ← put_str (chars "\n");
  _ ← put_str (chars "line:0x"); _ ← put_int line; _ ← put_str (chars "\n");
  _ ← put_str (chars "function:"); _ ← put_str func; _ ← put_str (chars "\n");
  _ ← put_str (chars "condition:"); _ ← put_str condition; _ ← put_str (chars "\n");
  mret eflags.

(** ** The report of an exception *)

Definition name_of (vec : Z) : list Z := default [] ((exception_init 0).2 !! Z.to_nat vec).

Definition begin_text : list Z := chars "!!!!!!!      excetion message begin  !!!!!!!!".

Definition end_text : list Z := chars "!!!!!!!      excetion message end    !!!!!!!!".

Definition address_text (cr2 : Z) : list Z := chars "page fault addr is " ++ digits 33 16 (u32 cr2).

(** The four lines at the top; a page fault has a line for the address. *)
Definition report (vec cr2 : Z) (cs : list Z) : list Z :=
  let cs := splice cs 0 (replicate 320 32) in
  let cs := splice cs 0 begin_text in
  let cs := splice cs 88 (name_of vec) in
  let cs := if vec =? 14 then splice cs 160 (address_text cr2) else cs in
  splice cs (if vec =? 14 then 240 else 160) end_text.

Lemma put_spaces_run n s t :
  shows s t -> match type_text t (replicate n 32) with
               | Some t' => exists s', put_spaces n s = Ok (tt, s') /\ shows s' t'
               | None => put_spaces n s = Bad EFault
               end.
Proof.
  revert s t. induction n as [|n IH]; intros s t Hs; [by exists s|]. cbn [replicate put_spaces type_text].
  pose proof (put_char_run s t 32 Hs ltac:(lia)) as H. destruct (type_char t 32) as [t'|]; [|by apply sbind_Bad].
  destruct H as (s' & Hrun & Hs'). run Hrun. by apply IH.
Qed.

Definition glyphb (c : Z) : bool := (0 <? c) && (c <? 256) && negb (c =? 8) && negb (c =? 10) && negb (c =? 13).

Lemma glyphs_by_check text : forallb glyphb text = true -> Forall chr text /\ Forall glyph text.
Proof.
  intros H. rewrite forallb_forall in H.
  assert (forall c, c ∈ text -> chr c /\ glyph c) as Hc.
  { intros c Hc. apply list_elem_of_In, H in Hc. unfold glyphb in Hc. unfold chr, glyph. lia. }
  split; apply Forall_forall; intros c Hin; by apply (Hc c Hin).
Qed.

Lemma move_run s cs p q : shows s (Term cs p) -> 0 <= q < 2000 -> exists s', set_cursor q s = Ok (tt, s') /\ shows s' (Term cs q).
Proof.
  intros (Hd & _ & _) Hq. eexists. split; [done|]. unfold shows. cbn [video cursor cells pos] in *. rewrite u16_id by lia. split; [done|lia].
Qed.

(** Texts with line ends at the terminal. *)
Lemma type_newline cs p r : 0 <= p < 1920 -> type_text (Term cs p) (10 :: r) = type_text (Term cs ((p / 80 + 1) * 80)) r.
Proof.
  intros Hp. cbn [type_text]. change (type_char (Term cs p) 10) with (Some (next_line (Term cs p))). cbv beta iota.
  unfold next_line. cbn [cells pos]. by replace ((p / 80 + 1) * 80 <? 2000) with true by lia.
Qed.

Lemma type_line cs p text :
  Forall glyph text -> length cs = 2000%nat -> 0 <= p -> p + Z.of_nat (length text) < 1920 ->
  type_text (Term cs p) (text ++ [10]) = Some (Term (splice cs p text) (((p + Z.of_nat (length text)) / 80 + 1) * 80)).
Proof. intros Hg Hl Hp Hn. rewrite type_text_app, type_glyphs by (done || lia). by rewrite type_newline by lia. Qed.

Lemma put_str_app a b s : Forall chr a -> (_ ← put_str a; put_str b) s = put_str (a ++ b) s.
Proof.
  intros Ha. revert s. induction Ha as [|c r Hc Hr IH]; intros s; [done|]. unfold chr in Hc. cbn [app put_str].
  replace (c =? 0) with false by lia. rewrite sbind_assoc. unfold mbind, st_bind. destruct (put_char c s) as [[[] s1]|e]; [|done]. apply IH.
Qed.

(** A text that a terminal can show. *)
Lemma shown s t text t' :
  shows s t -> Forall chr text -> type_text t text = Some t' -> exists s', put_str text s = Ok (tt, s') /\ shows s' t'.
Proof. intros Hs Hc Ht. pose proof (put_str_run s t text Hs Hc) as H. by rewrite Ht in H. Qed.

Lemma splice_size l p x : 0 <= p -> p + Z.of_nat (length x) <= 2000 -> length l = 2000%nat -> length (splice l p x) = 2000%nat.
Proof. intros H1 H2 H3. rewrite splice_length; lia. Qed.

Lemma splice_keeps l p x : 0 <= p -> p + Z.of_nat (length x) <= 320 -> length l = 2000%nat -> drop 320 (splice l p x) = drop 320 l.
Proof.
  intros H1 H2 H3. apply list_eq. intros k. rewrite !lookup_drop, splice_lookup by lia. by rewrite bool_decide_false by lia.
Qed.

Lemma names_ok vec : 0 <= vec < IDT_DESC_CNT ->
  rd (exception_init 0).2 vec = Ok (name_of vec) /\ Forall chr (name_of vec) /\ Forall glyph (name_of vec) /\ (length (name_of vec) < 72)%nat.
Proof.
  intros Hv.
  assert (forallb (fun v => forallb glyphb (name_of v) && bool_decide (length (name_of v) < 72)%nat) (seqZ 0 129) = true) as Hc by (vm_compute; reflexivity).
  rewrite forallb_forall in Hc. specialize (Hc vec). unfold IDT_DESC_CNT in Hv.
  destruct (proj1 (andb_true_iff _ _) (Hc ltac:(apply list_elem_of_In, elem_of_seqZ; lia))) as [Hg Hl].
  apply glyphs_by_check in Hg as [Hg1 Hg2]. apply (bool_decide_eq_true_1 _) in Hl. split; [|done].
  unfold rd, name_of. rewrite bool_decide_true by lia. destruct ((exception_init 0).2 !! Z.to_nat vec) as [n|] eqn:E; [done|].
  apply lookup_ge_None in E. assert (length (exception_init 0).2 = 129%nat) as Hn by (vm_compute; reflexivity). lia.
Qed.

Lemma page_fault_text cr2 :
  let text := address_text cr2 in
  Forall chr text /\ Forall glyph text /\ (1 <= length text)%nat /\ Z.of_nat (length text) < 80.
Proof.
  cbv zeta. unfold address_text. assert (Forall (fun d => chr d /\ glyph d) (digits 33 16 (u32 cr2))) as Hd.
  { generalize 33%nat, (u32 cr2). intros f. induction f as [|f IH]; intros v; [done|]. cbn [digits]. apply Forall_app. split.
    - by destruct (negb (v / 16 =? 0)).
    - apply Forall_singleton. assert (0 <= v mod 16 < 16) as Hm by lia. unfold digit_char, chr, glyph. destruct (v mod 16 <? 10) eqn:E; lia. }
  destruct (glyphs_by_check (chars "page fault addr is ") ltac:(by vm_compute)) as [H1 H2].
  rewrite !Forall_app. split_and!; try done; try (eapply Forall_impl; [exact Hd|by intros ? [? ?]]).
  - rewrite length_app. change (length (chars "page fault addr is ")) with 19%nat. lia.
  - rewrite length_app. change (length (chars "page fault addr is ")) with 19%nat.
    pose proof (digits_length 33 16 (u32 cr2)). lia.
Qed.

(** A line of text below line [q]. *)
Lemma line_run s cs q q0 str :
  shows s (Term cs (80 * q0)) -> 0 <= q <= q0 -> q0 < 23 -> forallb glyphb str = true -> (length str < 80)%nat ->
  exists s' cs', put_str (str ++ [10]) s = Ok (tt, s') /\ shows s' (Term cs' (80 * (q0 + 1)))
    /\ take (Z.to_nat (80 * q)) cs' = take (Z.to_nat (80 * q)) cs.
Proof.
  intros Hs H1 H2 [Hc Hg]%glyphs_by_check Hl. pose proof (dr_cells _ _ (proj1 Hs)) as Hlen. cbn [cells] in Hlen.
  destruct (shown s _ (str ++ [10]) (Term (splice cs (80 * q0) str) (80 * (q0 + 1))) Hs) as (s' & Hrun & Hs').
  - apply Forall_app. split; [exact Hc|]. apply Forall_singleton. unfold chr. lia.
  - rewrite type_line by (done || lia). do 2 f_equal. lia.
  - exists s', (splice cs (80 * q0) str). split; [exact Hrun|]. split; [exact Hs'|]. apply list_eq. intros k.
    destruct (decide (k < Z.to_nat (80 * q))%nat) as [Hk|Hk]; [|rewrite !lookup_ge_None_2; [done|rewrite length_take; lia|rewrite length_take; lia]].
    rewrite !lookup_take_lt by lia. rewrite splice_lookup by lia. by rewrite bool_decide_false by lia.
Qed.

(** The tables of [idt_init], and its four lines on the screen. *)
Lemma idt_init_run s cs q entries sys handler at_ g :
  shows s (Term cs (80 * q)) -> 0 <= q < 20 -> idt_desc_init entries sys = Ok g ->
  exists s' cs', idt_init entries sys handler at_ s =
      Ok (Interrupts g (exception_init handler).1 (exception_init handler).2 pic_init (idt_operand at_), s')
    /\ shows s' (Term cs' (80 * (q + 4))) /\ take (Z.to_nat (80 * q)) cs' = take (Z.to_nat (80 * q)) cs.
Proof.
  intros Hs Hq Hg.
  destruct (line_run s cs q q (chars "idt_init start") Hs) as (s1 & c1 & Hr1 & Hs1 & Ht1); [lia|lia|by vm_compute|vm_compute; lia|].
  destruct (line_run s1 c1 q (q + 1) (chars "   idt_desc_init done") Hs1) as (s2 & c2 & Hr2 & Hs2 & Ht2); [lia|lia|by vm_compute|vm_compute; lia|].
  destruct (line_run s2 c2 q (q + 1 + 1) (chars "   pic_init done") Hs2) as (s3 & c3 & Hr3 & Hs3 & Ht3); [lia|lia|by vm_compute|vm_compute; lia|].
  destruct (line_run s3 c3 q (q + 1 + 1 + 1) (chars "idt_init done") Hs3) as (s4 & c4 & Hr4 & Hs4 & Ht4); [lia|lia|by vm_compute|vm_compute; lia|].
  exists s4, c4. replace (q + 4) with (q + 1 + 1 + 1 + 1) by lia. split; [|split; [exact Hs4|congruence]]. unfold idt_init.
  run Hr1. rewrite Hg. run (eq_refl : sres (Ok g) s1 = Ok (g, s1)). run Hr2. cbv beta iota zeta. run Hr3. by run Hr4.
Qed.

(** The end of the report, from the line [q / 80] on. *)
Lemma report_end s cs q :
  shows s (Term cs q) -> 80 <= q < 320 ->
  exists s', put_str (10 :: end_text ++ [10]) s = Ok (tt, s')
    /\ shows s' (Term (splice cs ((q / 80 + 1) * 80) end_text) ((q / 80 + 2) * 80)).
Proof.
  intros Hs Hq. destruct (glyphs_by_check end_text ltac:(by vm_compute)) as [Hc Hg]. pose proof (dr_cells _ _ (proj1 Hs)) as Hl. cbn [cells] in Hl.
  assert (length end_text = 45%nat) as He by (vm_compute; reflexivity).
  apply (shown s _ _ _ Hs).
  - apply Forall_cons_2; [unfold chr; lia|]. apply Forall_app. split; [done|]. apply Forall_singleton. unfold chr. lia.
  - rewrite type_newline by lia. rewrite type_line by (done || lia). do 2 f_equal. lia.
Qed.

(** The line of a page fault. *)
Lemma report_address s cs q cr2 :
  shows s (Term cs q) -> 80 <= q < 160 ->
  exists s' q', (_ ← put_str (chars "\npage fault addr is "); put_int cr2) s = Ok (tt, s')
    /\ shows s' (Term (splice cs 160 (address_text cr2)) q') /\ 160 <= q' < 240.
Proof.
  intros Hs Hq. destruct (page_fault_text cr2) as (Hac & Hag & Ha1 & Ha2). pose proof (dr_cells _ _ (proj1 Hs)) as Hl. cbn [cells] in Hl.
  destruct (shown s _ (10 :: address_text cr2) (Term (splice cs 160 (address_text cr2)) (160 + Z.of_nat (length (address_text cr2)))) Hs) as (s3 & Hr3 & Hs3).
  - apply Forall_cons_2; [unfold chr; lia|exact Hac].
  - rewrite type_newline by lia. replace ((q / 80 + 1) * 80) with 160 by lia. apply type_glyphs; [exact Hag|exact Hl|lia|lia].
  - exists s3, (160 + Z.of_nat (length (address_text cr2))). split; [|split; [exact Hs3|lia]].
    unfold put_int. rewrite put_str_app by (apply text_chr; vm_compute; reflexivity). by rewrite int_text_eq.
Qed.

(** The first lines: the message and the name. *)
Lemma report_begin s cs p :
  shows s (Term cs p) ->
  exists s', (forall B (k : st screen B), (_ ← set_cursor 0; _ ← put_spaces 320; _ ← set_cursor 0;
                 _ ← put_str (begin_text ++ [10]); _ ← set_cursor 88; k) s = k s')
    /\ shows s' (Term (splice (splice cs 0 (replicate 320 32)) 0 begin_text) 88).
Proof.
  intros Hs. pose proof (dr_cells _ _ (proj1 Hs)) as Hl. cbn [cells] in Hl.
  destruct (move_run s cs p 0 Hs ltac:(lia)) as (s1 & Hr1 & Hs1).
  pose proof (put_spaces_run 320 s1 _ Hs1) as H2. rewrite type_glyphs in H2; [|apply Forall_replicate; unfold glyph; lia|exact Hl|lia|rewrite length_replicate; lia].
  destruct H2 as (s2 & Hr2 & Hs2). destruct (move_run s2 _ _ 0 Hs2 ltac:(lia)) as (s3 & Hr3 & Hs3).
  destruct (glyphs_by_check begin_text ltac:(by vm_compute)) as [Hc Hg]. assert (length begin_text = 45%nat) as Hb by (vm_compute; reflexivity).
  destruct (shown s3 _ (begin_text ++ [10]) (Term (splice (splice cs 0 (replicate 320 32)) 0 begin_text) 80) Hs3) as (s4 & Hr4 & Hs4).
  - apply Forall_app. split; [done|]. apply Forall_singleton. unfold chr. lia.
  - rewrite type_line; [by rewrite Hb|exact Hg| |lia|lia]. apply splice_size; [lia|rewrite length_replicate; lia|exact Hl].
  - destruct (move_run s4 _ _ 88 Hs4 ltac:(lia)) as (s5 & Hr5 & Hs5). exists s5. split; [|exact Hs5]. intros B k.
    run Hr1. run Hr2. run Hr3. run Hr4. by run Hr5.
Qed.

(** C39: An interrupt that no handler is registered for is reported: the handler
    clears the top four lines of the screen and writes on them the name of the
    exception at column 8 of the second line and, for a page fault, the address
    in hexadecimal, whatever was on the screen and wherever its cursor was, and
    does not return; the lines below are kept.  The two spurious interrupts of
    the controllers return with nothing changed. *)
Theorem exception_report (s : screen) (cs : list Z) (p vec cr2 : Z) :
  shows s (Term cs p) -> 0 <= vec < IDT_DESC_CNT ->
  if (vec =? 0x27) || (vec =? 0x2f) then general_intr_handler (exception_init 0).2 cr2 vec s = Ok (Returns, s)
  else exists s', general_intr_handler (exception_init 0).2 cr2 vec s = Ok (Hangs, s')
         /\ shows s' (Term (report vec cr2 cs) (if vec =? 14 then 320 else 240))
         /\ drop 320 (report vec cr2 cs) = drop 320 cs.
Proof.
  intros Hs Hv. unfold general_intr_handler. unfold IDT_DESC_CNT in Hv. rewrite (u8_id vec) by lia.
  destruct ((vec =? 0x27) || (vec =? 0x2f)); [done|].
  destruct (names_ok vec Hv) as (Hn & Hnc & Hng & Hnl). pose proof (dr_cells _ _ (proj1 Hs)) as Hl. cbn [cells] in Hl.
  destruct (report_begin s cs p Hs) as (s1 & Hr1 & Hs1). set (c1 := splice (splice cs 0 (replicate 320 32)) 0 begin_text) in *.
  assert (length begin_text = 45%nat /\ length end_text = 45%nat) as [Hlb Hle] by (by vm_compute).
  assert (length (splice cs 0 (replicate 320 32)) = 2000%nat) as Hl0 by (apply splice_size; [lia|rewrite length_replicate; lia|exact Hl]).
  assert (length c1 = 2000%nat) as Hl1 by (apply splice_size; [lia|lia|exact Hl0]).
  assert (drop 320 c1 = drop 320 cs) as Hd1.
  { unfold c1. rewrite splice_keeps by (lia || exact Hl0). apply splice_keeps; [lia|rewrite length_replicate; lia|exact Hl]. }
  set (c2 := splice c1 88 (name_of vec)). assert (length c2 = 2000%nat) as Hl2 by (apply splice_size; [lia|lia|exact Hl1]).
  assert (drop 320 c2 = drop 320 cs) as Hd2 by (rewrite <- Hd1; apply splice_keeps; [lia|lia|exact Hl1]).
  destruct (shown s1 _ (name_of vec) (Term c2 (88 + Z.of_nat (length (name_of vec)))) Hs1 Hnc) as (s2 & Hr2 & Hs2).
  { apply type_glyphs; [exact Hng|exact Hl1|lia|lia]. }
  assert (chars "!!!!!!!      excetion message begin  !!!!!!!!\n" = begin_text ++ [10]) as -> by (vm_compute; reflexivity).
  assert (chars "\n!!!!!!!      excetion message end    !!!!!!!!\n" = 10 :: end_text ++ [10]) as -> by (vm_compute; reflexivity).
  rewrite Hr1, Hn. run (eq_refl : sres (Ok (name_of vec)) s1 = Ok (name_of vec, s1)). run Hr2. unfold report. cbv zeta.
  change (splice (splice cs 0 (replicate 320 32)) 0 begin_text) with c1. fold c2. destruct (vec =? 14) eqn:E14.
  - pose proof (page_fault_text cr2) as (_ & _ & _ & Ha2). destruct (report_address s2 c2 _ cr2 Hs2 ltac:(lia)) as (s3 & q3 & Hrun & Hs3 & Hq3).
    set (c3 := splice c2 160 (address_text cr2)) in *. assert (length c3 = 2000%nat) as Hl3 by (apply splice_size; [lia|lia|exact Hl2]).
    run Hrun. destruct (report_end s3 _ _ Hs3 ltac:(lia)) as (s4 & Hr4 & Hs4). run Hr4. exists s4. split; [done|].
    replace ((q3 / 80 + 1) * 80) with 240 in Hs4 by lia. replace ((q3 / 80 + 2) * 80) with 320 in Hs4 by lia. split; [exact Hs4|].
    rewrite splice_keeps by (lia || exact Hl3). rewrite <- Hd2. apply splice_keeps; [lia|lia|exact Hl2].
  - run (eq_refl : (mret tt : st screen unit) s2 = Ok (tt, s2)). destruct (report_end s2 _ _ Hs2 ltac:(lia)) as (s4 & Hr4 & Hs4). run Hr4. exists s4. split; [done|].
    replace (((88 + Z.of_nat (length (name_of vec))) / 80 + 1) * 80) with 160 in Hs4 by lia.
    replace (((88 + Z.of_nat (length (name_of vec))) / 80 + 2) * 80) with 240 in Hs4 by lia. split; [exact Hs4|].
    rewrite splice_keeps by (lia || exact Hl2). exact Hd2.
Qed.

(** A screen of NUL characters. *)
Definition demo_screen : screen := Screen (replicate (Z.to_nat VIDEO_BYTES) 0) 0.

Lemma demo_shows : shows demo_screen (Term (replicate 2000 0) 0).
Proof.
  split; [|done]. split; [by vm_compute|cbn [cells]; by rewrite length_replicate|]. intros i Hi.
  cbn [video cells demo_screen]. by rewrite !lookup_replicate_2 by (unfold VIDEO_BYTES; lia).
Qed.

Lemma exception_report_witness :
  exists s', general_intr_handler (exception_init 0).2 0xbffff000 14 demo_screen = Ok (Hangs, s')
    /\ shows s' (Term (report 14 0xbffff000 (replicate 2000 0)) 320).
Proof.
  destruct (exception_report demo_screen (replicate 2000 0) 0 14 0xbffff000 demo_shows) as (s' & Hr & Hs & _);
    [unfold IDT_DESC_CNT; lia|exists s'; exact (conj Hr Hs)].
Defined.
