(* ===== verification/Ide.v ===== *)
(** * Ide: the disk driver, device/ide.c

    The driver runs on the kernel's state, its own variables and the disk
    controllers.  A controller is hardware: its ports are the parameters of the
    class [Ports], and what the driver relies on (the ATA registers, commands and
    data transfers) is the class [Ata] of IdeSpec.  A buffer that is read into is
    the list of the bytes that are stored behind each other from its address;
    messages to the screen are left out, apart from the strings they show. *)
From S2P Require Import Prelude Bitmap CString Interrupt DList Paging Pages Memory Kernel View Sched Sync Heap Resume Timer Stdio Disk.

(** ** State *)

(** struct partition, as far as the scan fills it in. *)
Record partition : Type := Partition {
  p_start_lba : Z;
  p_sec_cnt : Z;
  my_disk : Z * Z;
  p_name : list Z
}.

(** struct disk: [my_channel] is an index into [channels]; a disk is designated
    by its channel and its number there. *)
Record ata_disk : Type := AtaDisk {
  d_name : list Z;
  my_channel : Z;
  dev_no : Z;
  prim_parts : list partition;
  logic_parts : list partition
}.

Record ide_channel : Type := IdeChannel {
  ch_name : list Z;
  port_base : Z;
  irq_no : Z;
  expecting_intr : bool;
  devices : list ata_disk
}.

(** The variables of ide.c and the table of interrupt handlers. *)
Record ide_state : Type := IdeState {
  channel_cnt : Z;
  channels : list ide_channel;
  ext_lba_base : Z;
  p_no : Z;
  l_no : Z;
  partition_list : list partition;
  idt_table : list Z
}.

Record io (C : Type) : Type := Io { io_kernel : kernel; io_ide : ide_state; io_ctl : C }.
Arguments Io {C} io_kernel io_ide io_ctl.
Arguments io_kernel {C} i.
Arguments io_ide {C} i.
Arguments io_ctl {C} i.

#[export] Instance io_part {C} : Part (io C) kernel :=
  {| part := io_kernel; with_part := fun k s => Io k (io_ide s) (io_ctl s) |}.

#[export] Instance io_part_laws {C} : PartLaws (io C) kernel.
Proof. split; [done|by intros []|done]. Qed.

(** The ports of the controllers, lib/kernel/io.h: [outsw] and [insw] move two
    bytes per word. *)
Class Ports (C : Type) := {
  outb : Z -> Z -> C -> C;
  inb : Z -> C -> Z * C;
  outsw : Z -> list Z -> C -> C;
  insw : Z -> Z -> C -> list Z * C
}.

(** The address of [channels] in build/kernel.map, [channels\[ch\].lock] and [.disk_done]: the struct has 64 bytes, 8 for the
    name and 4 for the numbers before the lock, and two disks behind. *)
Definition DISK_SIZE : Z := 784.

Definition CHANNELS : Z := 0xc0017be0.

Definition channel_addr (ch : Z) : Z := CHANNELS + ch * (64 + 2 * DISK_SIZE).

Definition ch_lock (ch : Z) : Z := channel_addr ch + 12.

Definition disk_done (ch : Z) : Z := channel_addr ch + 44.

(** ** The registers of a channel *)

Definition reg_data (c : ide_channel) : Z := port_base c + 0.

Definition reg_sect_cnt (c : ide_channel) : Z := port_base c + 2.

Definition reg_lba_l (c : ide_channel) : Z := port_base c + 3.

Definition reg_lba_m (c : ide_channel) : Z := port_base c + 4.

Definition reg_lba_h (c : ide_channel) : Z := port_base c + 5.

Definition reg_dev (c : ide_channel) : Z := port_base c + 6.

Definition reg_status (c : ide_channel) : Z := port_base c + 7.

Definition reg_cmd (c : ide_channel) : Z := reg_status c.

Definition BIT_STAT_BSY : Z := 0x80.

Definition BIT_STAT_DRQ : Z := 0x8.

Definition BIT_DEV_MBS : Z := 0xa0.

Definition BIT_DEV_LBA : Z := 0x40.

Definition BIT_DEV_DEV : Z := 0x10.

Definition CMD_IDENTIFY : Z := 0xec.

Definition CMD_READ_SECTOR : Z := 0x20.

Definition CMD_WRITE_SECTOR : Z := 0x30.

(** ** Field updates *)

Definition set_channels (x : list ide_channel) (s : ide_state) : ide_state :=
  IdeState (channel_cnt s) x (ext_lba_base s) (p_no s) (l_no s) (partition_list s) (idt_table s).

Definition set_ext_lba_base (x : Z) (s : ide_state) : ide_state :=
  IdeState (channel_cnt s) (channels s) x (p_no s) (l_no s) (partition_list s) (idt_table s).

Definition set_numbers (p l : Z) (s : ide_state) : ide_state :=
  IdeState (channel_cnt s) (channels s) (ext_lba_base s) p l (partition_list s) (idt_table s).

Definition set_partition_list (x : list partition) (s : ide_state) : ide_state :=
  IdeState (channel_cnt s) (channels s) (ext_lba_base s) (p_no s) (l_no s) x (idt_table s).

Definition set_idt_table (x : list Z) (s : ide_state) : ide_state :=
  IdeState (channel_cnt s) (channels s) (ext_lba_base s) (p_no s) (l_no s) (partition_list s) x.

Definition set_channel_cnt (x : Z) (s : ide_state) : ide_state :=
  IdeState x (channels s) (ext_lba_base s) (p_no s) (l_no s) (partition_list s) (idt_table s).

Definition set_expecting (b : bool) (c : ide_channel) : ide_channel :=
  IdeChannel (ch_name c) (port_base c) (irq_no c) b (devices c).

Definition set_devices (x : list ata_disk) (c : ide_channel) : ide_channel :=
  IdeChannel (ch_name c) (port_base c) (irq_no c) (expecting_intr c) x.

Definition set_parts (prim logic : list partition) (d : ata_disk) : ata_disk :=
  AtaDisk (d_name d) (my_channel d) (dev_no d) prim logic.

Section Driver.
Context {C : Type} `{Ports C}.

Notation act := (proc (io C)).

(** ** Accesses *)

Definition upd_ide (f : ide_state -> ide_state) : act unit := modify (fun s => Io (io_kernel s) (f (io_ide s)) (io_ctl s)).

Definition channel_at (ch : Z) : act ide_channel := s ← get; lift (rd (channels (io_ide s)) ch).

Definition upd_channel (ch : Z) (f : ide_channel -> ide_channel) : act unit :=
  s ← get;
  c ← channel_at ch;
  cs ← lift (wr (channels (io_ide s)) ch (f c));
  upd_ide (set_channels cs).

Definition disk_at (hd : Z * Z) : act ata_disk := c ← channel_at hd.1; lift (rd (devices c) hd.2).

Definition upd_disk (hd : Z * Z) (f : ata_disk -> ata_disk) : act unit :=
  c ← channel_at hd.1;
  d ← lift (rd (devices c) hd.2);
  ds ← lift (wr (devices c) hd.2 (f d));
  upd_channel hd.1 (set_devices ds).

Definition out_byte (port v : Z) : act unit := modify (fun s => Io (io_kernel s) (io_ide s) (outb port (u8 v) (io_ctl s))).

Definition in_byte (port : Z) : act Z := fun s =>
  Ret (inb port (io_ctl s)).1 (Io (io_kernel s) (io_ide s) (inb port (io_ctl s)).2).

Definition in_words (port n : Z) : act (list Z) := fun s =>
  Ret (insw port n (io_ctl s)).1 (Io (io_kernel s) (io_ide s) (insw port n (io_ctl s)).2).

Definition out_words (port : Z) (bs : list Z) : act unit :=
  modify (fun s => Io (io_kernel s) (io_ide s) (outsw port bs (io_ctl s))).

(** ** Commands *)

(** The device register: [BIT_DEV_MBS | BIT_DEV_LBA], with [BIT_DEV_DEV] for the
    second disk. *)
Definition dev_bits (d : ata_disk) : Z :=
  let reg_device := Z.lor BIT_DEV_MBS BIT_DEV_LBA in
  if dev_no d =? 1 then Z.lor reg_device BIT_DEV_DEV else reg_device.

Definition select_disk (hd : Z * Z) : act unit :=
  d ← disk_at hd;
  c ← channel_at (my_channel d);
  out_byte (reg_dev c) (dev_bits d).

Definition select_sector (hd : Z * Z) (lba sec_cnt : Z) : act unit :=
  _ ← assert (lba <=? max_lba);
  d ← disk_at hd;
  channel ← channel_at (my_channel d);
  _ ← out_byte (reg_sect_cnt channel) sec_cnt;
  _ ← out_byte (reg_lba_l channel) lba;
  _ ← out_byte (reg_lba_m channel) (Z.shiftr lba 8);
  _ ← out_byte (reg_lba_h channel) (Z.shiftr lba 16);
  out_byte (reg_dev channel) (Z.lor (dev_bits d) (Z.shiftr lba 24)).

Definition cmd_out (ch cmd : Z) : act unit :=
  _ ← upd_channel ch (set_expecting true);
  channel ← channel_at ch;
  out_byte (reg_cmd channel) cmd.

(** The number of bytes for a sector count of 8 bits; 0 stands for 256. *)
Definition size_in_byte (sec_cnt : Z) : Z := if sec_cnt =? 0 then 256 * 512 else sec_cnt * 512.

Definition read_from_sector (hd : Z * Z) (sec_cnt : Z) : act (list Z) :=
  d ← disk_at hd;
  c ← channel_at (my_channel d);
  in_words (reg_data c) (size_in_byte sec_cnt / 2).

(** [bs] are the bytes from [buf] on. *)
Definition write2sector (hd : Z * Z) (bs : list Z) (sec_cnt : Z) : act unit :=
  d ← disk_at hd;
  c ← channel_at (my_channel d);
  if Z.of_nat (length bs) <? size_in_byte sec_cnt then fail EFault
  else out_words (reg_data c) (take (Z.to_nat (size_in_byte sec_cnt)) bs).

(** The loop of [busy_wait]; [left] is [time_limit] after the decrement, and
    [lf] the fuel for sleeping. *)
Fixpoint busy_loop (left lf : nat) (ch : Z) : act bool :=
  match left with
  | O => mret false
  | S left' =>
    c ← channel_at ch;
    v ← in_byte (reg_status c);
    if Z.land v BIT_STAT_BSY =? 0 then
      v ← in_byte (reg_status c);
      mret (negb (Z.land v BIT_STAT_DRQ =? 0))
    else
      _ ← zoom (mtime_sleep lf 10);
      busy_loop left' lf ch
  end.

(** [time_limit -= 10 >= 0] subtracts the value of the comparison, which is 1. *)
Definition busy_wait (lf : nat) (hd : Z * Z) : act bool :=
  d ← disk_at hd;
  let time_limit := u16 (30 * 1000) in
  busy_loop (Z.to_nat (u16 (time_limit - Z.b2z (0 <=? 10)))) lf (my_channel d).

(** ** Reading and writing *)

(** How many sectors the next command moves. *)
Definition secs_op (sec_cnt secs_done : Z) : Z :=
  if u32 (secs_done + 256) <=? sec_cnt then 256 else u32 (sec_cnt - secs_done).

(** One round of the loop of [ide_read]: the bytes read and their sectors. *)
Definition read_round (lf : nat) (hd : Z * Z) (lba sec_cnt secs_done : Z) : act (list Z) :=
  let op := secs_op sec_cnt secs_done in
  _ ← select_sector hd (u32 (lba + secs_done)) (u8 op);
  d ← disk_at hd;
  _ ← cmd_out (my_channel d) CMD_READ_SECTOR;
  _ ← zoom (sema_down lf (disk_done (my_channel d)));
  ok ← busy_wait lf hd;
  if negb ok then fail EPanic else read_from_sector hd (u8 op).

Fixpoint read_rounds (n lf : nat) (hd : Z * Z) (lba sec_cnt secs_done : Z) : act (list Z) :=
  if secs_done <? sec_cnt then
    match n with
    | O => fail EFuel
    | S n' =>
      bs ← read_round lf hd lba sec_cnt secs_done;
      rest ← read_rounds n' lf hd lba sec_cnt (u32 (secs_done + secs_op sec_cnt secs_done));
      mret (bs ++ rest)
    end
  else mret [].

Definition ide_read (n lf : nat) (hd : Z * Z) (lba sec_cnt : Z) : act (list Z) :=
  _ ← assert (lba <=? max_lba);
  _ ← assert (0 <? sec_cnt);
  d ← disk_at hd;
  _ ← zoom (lock_acquire lf (ch_lock (my_channel d)));
  _ ← select_disk hd;
  bs ← read_rounds n lf hd lba sec_cnt 0;
  _ ← zoom (lock_release (ch_lock (my_channel d)));
  mret bs.

(** One round of [ide_write]; [buf] are the bytes at the buffer. *)
Definition write_round (lf : nat) (hd : Z * Z) (lba : Z) (buf : list Z) (sec_cnt secs_done : Z) : act unit :=
  let op := secs_op sec_cnt secs_done in
  _ ← select_sector hd (u32 (lba + secs_done)) (u8 op);
  d ← disk_at hd;
  _ ← cmd_out (my_channel d) CMD_WRITE_SECTOR;
  ok ← busy_wait lf hd;
  if negb ok then fail EPanic
  else
    _ ← write2sector hd (drop (Z.to_nat (secs_done * 512)) buf) (u8 op);
    zoom (sema_down lf (disk_done (my_channel d))).

Fixpoint write_rounds (n lf : nat) (hd : Z * Z) (lba : Z) (buf : list Z) (sec_cnt secs_done : Z) : act unit :=
  if secs_done <? sec_cnt then
    match n with
    | O => fail EFuel
    | S n' =>
      _ ← write_round lf hd lba buf sec_cnt secs_done;
      write_rounds n' lf hd lba buf sec_cnt (u32 (secs_done + secs_op sec_cnt secs_done))
    end
  else mret tt.

Definition ide_write (n lf : nat) (hd : Z * Z) (lba : Z) (buf : list Z) (sec_cnt : Z) : act unit :=
  _ ← assert (lba <=? max_lba);
  _ ← assert (0 <? sec_cnt);
  d ← disk_at hd;
  _ ← zoom (lock_acquire lf (ch_lock (my_channel d)));
  _ ← select_disk hd;
  _ ← write_rounds n lf hd lba buf sec_cnt 0;
  zoom (lock_release (ch_lock (my_channel d))).

(** ** The interrupt *)

Definition intr_hd_handler (irq : Z) : act unit :=
  _ ← assert ((irq =? 0x2e) || (irq =? 0x2f));
  let ch_no := u8 (irq - 0x2e) in
  channel ← channel_at ch_no;
  _ ← assert (irq_no channel =? irq);
  if expecting_intr channel then
    _ ← upd_channel ch_no (set_expecting false);
    _ ← zoom (sema_up (disk_done ch_no));
    _ ← in_byte (reg_status channel);
    mret tt
  else mret tt.

(** ** Disks and partitions *)

(** Two bytes at a time, swapped; then the NUL byte. *)
Fixpoint swap_pairs (l : list Z) : list Z :=
  match l with a :: b :: r => b :: a :: swap_pairs r | _ => [] end.

Definition swap_pairs_bytes (dst : list Z) (len : Z) : list Z := swap_pairs (take (Z.to_nat len) dst) ++ [0].

(** The three items [identify_disk] shows: serial number, model and sectors. *)
Definition identify_disk (lf : nat) (hd : Z * Z) : act (list Z * list Z * Z) :=
  _ ← select_disk hd;
  d ← disk_at hd;
  _ ← cmd_out (my_channel d) CMD_IDENTIFY;
  _ ← zoom (sema_down lf (disk_done (my_channel d)));
  ok ← busy_wait lf hd;
  if negb ok then fail EPanic
  else
    id_info ← read_from_sector hd 1;
    let sn := swap_pairs_bytes (drop 20 id_info) 20 in
    let md := swap_pairs_bytes (drop 54 id_info) 40 in
    mret (sn, md, of_le32 (slice id_info 120 4)).

(** struct partition_table_entry: the 16 bytes of entry [i] of a boot sector. *)
Definition table_entry (bs : list Z) (i : Z) : list Z := slice bs (446 + 16 * i) 16.

Definition fs_type (e : list Z) : Z := default 0 (e !! 4%nat).

Definition start_of (e : list Z) : Z := word_at e 2.

Definition count_of (e : list Z) : Z := word_at e 3.

(** [sprintf(name, "%s%d", hd->name, n)] *)
Definition part_name (hd_name : list Z) (n : Z) : list Z := hd_name ++ digits 32 10 n.

(** A partition of the first table, [p_no] counts them. *)
Definition add_prim (hd : Z * Z) (ext_lba : Z) (e : list Z) : act unit :=
  s ← get;
  d ← disk_at hd;
  let n := p_no (io_ide s) in
  let p := Partition (u32 (ext_lba + start_of e)) (count_of e) hd (part_name (d_name d) (n + 1)) in
  ps ← lift (wr (prim_parts d) n p);
  _ ← upd_disk hd (set_parts ps (logic_parts d));
  _ ← upd_ide (fun i => set_partition_list (partition_list i ++ [p]) i);
  _ ← upd_ide (fun i => set_numbers (u8 (n + 1)) (l_no i) i);
  assert (u8 (n + 1) <? 4).

(** A logical partition; the result says that there are eight. *)
Definition add_logic (hd : Z * Z) (ext_lba : Z) (e : list Z) : act bool :=
  s ← get;
  d ← disk_at hd;
  let n := l_no (io_ide s) in
  let p := Partition (u32 (ext_lba + start_of e)) (count_of e) hd (part_name (d_name d) (n + 5)) in
  ps ← lift (wr (logic_parts d) n p);
  _ ← upd_disk hd (set_parts (prim_parts d) ps);
  _ ← upd_ide (fun i => set_partition_list (partition_list i ++ [p]) i);
  _ ← upd_ide (fun i => set_numbers (p_no i) (u8 (n + 1)) i);
  mret (8 <=? u8 (n + 1)).

(** The loop over the entries of a table; [scan] is the recursive call.  The
    result says that the function returned from inside the loop. *)
Fixpoint scan_entries (scan : Z -> act unit) (hd : Z * Z) (ext_lba : Z) (es : list (list Z)) : act bool :=
  match es with
  | [] => mret false
  | e :: es' =>
    if fs_type e =? 0x5 then
      s ← get;
      _ ← (if negb (ext_lba_base (io_ide s) =? 0) then scan (u32 (start_of e + ext_lba_base (io_ide s)))
           else _ ← upd_ide (set_ext_lba_base (i32 (start_of e))); scan (start_of e));
      scan_entries scan hd ext_lba es'
    else if negb (fs_type e =? 0) then
      if ext_lba =? 0 then _ ← add_prim hd ext_lba e; scan_entries scan hd ext_lba es'
      else full ← add_logic hd ext_lba e; if full : bool then mret true else scan_entries scan hd ext_lba es'
    else scan_entries scan hd ext_lba es'
  end.

(** [depth] bounds the chain of extended partitions.  The boot sector is read to
    the memory at [bs], which is not tested for NULL. *)
Fixpoint partition_scan (depth n lf : nat) (hd : Z * Z) (ext_lba : Z) : act unit :=
  match depth with
  | O => fail EFuel
  | S depth' =>
    bs ← zoom (sys_malloc lf 512);
    table ← ide_read n lf hd ext_lba 1;
    _ ← (if bs =? 0 then fail EFault else mret tt);
    returned ← scan_entries (partition_scan depth' n lf hd) hd ext_lba (map (table_entry table) [0; 1; 2; 3]);
    if returned : bool then mret tt else zoom (sys_free lf bs)
  end.

(** ** Initialisation *)

(** One disk of a channel. *)
Definition init_device (depth n lf : nat) (channel_no dev : Z) : act unit :=
  _ ← upd_disk (channel_no, dev) (fun d =>
    AtaDisk [115; 100; i8 (97 + channel_no * 2 + dev)] channel_no dev (prim_parts d) (logic_parts d));
  _ ← identify_disk lf (channel_no, dev);
  _ ← (if negb (dev =? 0) then partition_scan depth n lf (channel_no, dev) 0 else mret tt);
  upd_ide (set_numbers 0 0).

(** One channel; [handler] is the address of [intr_hd_handler]. *)
Definition init_channel (depth n lf : nat) (handler channel_no : Z) : act unit :=
  _ ← upd_channel channel_no (fun c =>
    let nm := [105; 100; 101] ++ digits 32 10 channel_no in
    if channel_no =? 0 then IdeChannel nm 0x1f0 (0x20 + 14) false (devices c)
    else if channel_no =? 1 then IdeChannel nm 0x170 (0x20 + 15) false (devices c)
    else IdeChannel nm (port_base c) (irq_no c) false (devices c));
  _ ← zoom (lock_init (ch_lock channel_no));
  _ ← zoom (sema_init (disk_done channel_no) 0);
  c ← channel_at channel_no;
  s ← get;
  t ← lift (register_handler (idt_table (io_ide s)) (irq_no c) handler);
  _ ← upd_ide (set_idt_table t);
  _ ← init_device depth n lf channel_no 0;
  init_device depth n lf channel_no 1.

Fixpoint init_channels (cnt depth n lf : nat) (handler channel_no : Z) : act unit :=
  match cnt with
  | O => mret tt
  | S cnt' => _ ← init_channel depth n lf handler channel_no; init_channels cnt' depth n lf handler (channel_no + 1)
  end.

(** [hd_cnt] is the byte the BIOS left at address 0x475. *)
Definition ide_init (depth n lf : nat) (handler hd_cnt : Z) : act unit :=
  _ ← assert (0 <? hd_cnt);
  _ ← upd_ide (set_partition_list []);
  let cnt := u8 (DIV_ROUND_UP hd_cnt 2) in
  _ ← upd_ide (set_channel_cnt cnt);
  init_channels (Z.to_nat cnt) depth n lf handler 0.
End Driver.
