(* ===== verification/Fsys.v ===== *)
(** * Fsys: the state of the mounted file system and its basic accesses

    What the functions of fs/ read and change: the disk, the mounted partition
    [cur_part] (struct partition of device/ide.h), the inodes and directories
    in memory by address, the open-inode list of the partition, the global
    [file_table], and the two fields of the running task the file system uses.

    [sys_malloc] is seen from outside here: [allocs] lists what the next calls
    return (0 is NULL; nothing left is NULL too), so that the theorems speak of
    every outcome of the allocator.  A buffer that a function allocates, fills
    and frees is a local list of bytes; a buffer that a caller passes is given
    by its size.  The code switches [pgdir] to NULL around some allocations to
    place the object in kernel memory, disables interrupts around counters and
    prints messages: one task runs here, so these have no effect on the state. *)
From S2P Require Import Prelude Bitmap CString Disk.

(** ** State *)

(** struct file; [fd_inode] is the address of an inode, 0 for NULL. *)
Record file : Type := File {
  fd_pos : Z;
  fd_flag : Z;
  fd_inode : Z
}.

(** struct dir; [d_inode] is the member [inode], an address. *)
Record dir : Type := Dir {
  d_inode : Z;
  dir_pos : Z;
  dir_buf : list Z
}.

Record fsys : Type := Fsys {
  disk : sectors;
  start_lba : Z;
  sec_cnt : Z;
  sb : super_block;
  block_bitmap : bitmap;
  inode_bitmap : bitmap;
  inodes : gmap Z inode;
  open_inodes : list Z;
  file_table : list file;
  dirs : gmap Z dir;
  fd_table : list Z;
  cwd_inode_nr : Z;
  allocs : list Z
}.

Definition set_disk (x : sectors) (s : fsys) : fsys :=
  Fsys x (start_lba s) (sec_cnt s) (sb s) (block_bitmap s) (inode_bitmap s) (inodes s) (open_inodes s)
    (file_table s) (dirs s) (fd_table s) (cwd_inode_nr s) (allocs s).
Definition set_sb (x : super_block) (s : fsys) : fsys :=
  Fsys (disk s) (start_lba s) (sec_cnt s) x (block_bitmap s) (inode_bitmap s) (inodes s) (open_inodes s)
    (file_table s) (dirs s) (fd_table s) (cwd_inode_nr s) (allocs s).
Definition set_block_bitmap (x : bitmap) (s : fsys) : fsys :=
  Fsys (disk s) (start_lba s) (sec_cnt s) (sb s) x (inode_bitmap s) (inodes s) (open_inodes s)
    (file_table s) (dirs s) (fd_table s) (cwd_inode_nr s) (allocs s).
Definition set_inode_bitmap (x : bitmap) (s : fsys) : fsys :=
  Fsys (disk s) (start_lba s) (sec_cnt s) (sb s) (block_bitmap s) x (inodes s) (open_inodes s)
    (file_table s) (dirs s) (fd_table s) (cwd_inode_nr s) (allocs s).
Definition set_inodes (x : gmap Z inode) (s : fsys) : fsys :=
  Fsys (disk s) (start_lba s) (sec_cnt s) (sb s) (block_bitmap s) (inode_bitmap s) x (open_inodes s)
    (file_table s) (dirs s) (fd_table s) (cwd_inode_nr s) (allocs s).
Definition set_open_inodes (x : list Z) (s : fsys) : fsys :=
  Fsys (disk s) (start_lba s) (sec_cnt s) (sb s) (block_bitmap s) (inode_bitmap s) (inodes s) x
    (file_table s) (dirs s) (fd_table s) (cwd_inode_nr s) (allocs s).
Definition set_file_table (x : list file) (s : fsys) : fsys :=
  Fsys (disk s) (start_lba s) (sec_cnt s) (sb s) (block_bitmap s) (inode_bitmap s) (inodes s) (open_inodes s)
    x (dirs s) (fd_table s) (cwd_inode_nr s) (allocs s).
Definition set_dirs (x : gmap Z dir) (s : fsys) : fsys :=
  Fsys (disk s) (start_lba s) (sec_cnt s) (sb s) (block_bitmap s) (inode_bitmap s) (inodes s) (open_inodes s)
    (file_table s) x (fd_table s) (cwd_inode_nr s) (allocs s).
Definition set_fd_table (x : list Z) (s : fsys) : fsys :=
  Fsys (disk s) (start_lba s) (sec_cnt s) (sb s) (block_bitmap s) (inode_bitmap s) (inodes s) (open_inodes s)
    (file_table s) (dirs s) x (cwd_inode_nr s) (allocs s).
Definition set_cwd (x : Z) (s : fsys) : fsys :=
  Fsys (disk s) (start_lba s) (sec_cnt s) (sb s) (block_bitmap s) (inode_bitmap s) (inodes s) (open_inodes s)
    (file_table s) (dirs s) (fd_table s) x (allocs s).
Definition set_allocs (x : list Z) (s : fsys) : fsys :=
  Fsys (disk s) (start_lba s) (sec_cnt s) (sb s) (block_bitmap s) (inode_bitmap s) (inodes s) (open_inodes s)
    (file_table s) (dirs s) (fd_table s) (cwd_inode_nr s) x.

(** ** Basic accesses *)

Definition gets {A} (f : fsys -> A) : st fsys A := fun s => Ok (f s, s).

Definition upd (f : fsys -> fsys) : st fsys unit := fun s => Ok (tt, f s).

(** [sys_malloc(size)] *)
Definition malloc (size : Z) : st fsys Z := fun s =>
  match allocs s with [] => Ok (0, s) | a :: r => Ok (a, set_allocs r s) end.

(** The inode a pointer designates. *)
Definition inode_at (p : Z) : st fsys inode := fun s =>
  match inodes s !! p with Some i => Ok (i, s) | None => Bad EFault end.

Definition upd_inode (p : Z) (f : inode -> inode) : st fsys unit := fun s =>
  match inodes s !! p with Some i => Ok (tt, set_inodes (<[p := f i]> (inodes s)) s) | None => Bad EFault end.

Definition dir_at (p : Z) : st fsys dir := fun s =>
  match dirs s !! p with Some i => Ok (i, s) | None => Bad EFault end.

Definition upd_dir (p : Z) (f : dir -> dir) : st fsys unit := fun s =>
  match dirs s !! p with Some i => Ok (tt, set_dirs (<[p := f i]> (dirs s)) s) | None => Bad EFault end.

(** [file_table\[fd\]] *)
Definition file_at (fd : Z) : st fsys file := t ← gets file_table; sres (rd t fd).

Definition put_file (fd : Z) (f : file) : st fsys unit :=
  t ← gets file_table; t' ← sres (wr t fd f); upd (set_file_table t').

(** Access outside an object of the model. *)
Definition sfault {A} : st fsys A := sres (Bad EFault).

(** [ide_read(hd, lba, buf, sec_cnt)] into a buffer of [cap] bytes: the bytes
    read; [ide_write(hd, lba, buf, sec_cnt)] from the bytes [bs] at [buf].  The
    two assertions are those of device/ide.c. *)
Definition ide_read (cap lba n : Z) : st fsys (list Z) :=
  _ ← sassert (lba <=? max_lba);
  _ ← sassert (0 <? n);
  if cap <? 512 * n then sfault
  else d ← gets disk; mret (read_secs (Z.to_nat n) lba d).

Definition ide_write (lba : Z) (bs : list Z) (n : Z) : st fsys unit :=
  _ ← sassert (lba <=? max_lba);
  _ ← sassert (0 <? n);
  if Z.of_nat (length bs) <? 512 * n then sfault
  else d ← gets disk; upd (set_disk (write_secs (Z.to_nat n) lba bs d)).

(** ** Block and inode bitmaps: fs/file.c *)

Inductive bitmap_type : Type := INODE_BITMAP | BLOCK_BITMAP.

(** Both allocators return -1 when [bitmap_scan] does; they never see -1, since
    [bitmap_scan] panics first (Bitmap). *)
Definition inode_bitmap_alloc : st fsys Z :=
  b ← gets inode_bitmap;
  bit_idx ← sres (bitmap_scan b 1);
  if bit_idx =? -1 then mret (-1)
  else
    b' ← sres (bitmap_set b bit_idx 1);
    _ ← upd (set_inode_bitmap b');
    mret bit_idx.

Definition block_bitmap_alloc : st fsys Z :=
  b ← gets block_bitmap;
  bit_idx ← sres (bitmap_scan b 1);
  if bit_idx =? -1 then mret (-1)
  else
    b' ← sres (bitmap_set b bit_idx 1);
    _ ← upd (set_block_bitmap b');
    p ← gets sb;
    mret (i32 (data_start_lba p + bit_idx)).

(** Writes the 512 bytes of the bitmap that hold bit [bit_idx]. *)
Definition bitmap_sync (bit_idx : Z) (btmp_type : bitmap_type) : st fsys unit :=
  let off_sec := bit_idx / 4096 in
  let off_size := u32 (off_sec * BLOCK_SIZE) in
  p ← gets sb;
  match btmp_type with
  | INODE_BITMAP =>
    b ← gets inode_bitmap;
    ide_write (u32 (inode_bitmap_lba p + off_sec)) (drop (Z.to_nat off_size) (bits b)) 1
  | BLOCK_BITMAP =>
    b ← gets block_bitmap;
    ide_write (u32 (block_bitmap_lba p + off_sec)) (drop (Z.to_nat off_size) (bits b)) 1
  end.

(** Marking a block of the data area free, with its sync: the sequence of
    [inode_release] and [delete_dir_entry]. *)
Definition free_block (block_bitmap_idx : Z) : st fsys unit :=
  b ← gets block_bitmap;
  b' ← sres (bitmap_set b block_bitmap_idx 0);
  _ ← upd (set_block_bitmap b');
  bitmap_sync block_bitmap_idx BLOCK_BITMAP.

(** ** The mounted volume *)

(** The regions of a mounted partition follow each other and lie on the disk;
    the bitmaps in memory cover the sectors the super block gives them.  Every
    block the block bitmap offers is a sector the driver accepts. *)
Record volume_ok (s : fsys) : Prop := {
  vo_disk : disk_ok (disk s);
  vo_start : 0 <= start_lba s;
  vo_bbm : start_lba s + 2 <= block_bitmap_lba (sb s);
  vo_ibm : block_bitmap_lba (sb s) + block_bitmap_sects (sb s) <= inode_bitmap_lba (sb s);
  vo_tbl : inode_bitmap_lba (sb s) + 1 <= inode_table_lba (sb s);
  vo_data : inode_table_lba (sb s) + 608 <= data_start_lba (sb s);
  vo_end : data_start_lba (sb s) < start_lba s + sec_cnt s <= max_lba + 1;
  vo_bb : bitmap_ok (block_bitmap s);
  vo_bb_len : btmp_bytes_len (block_bitmap s) = 512 * block_bitmap_sects (sb s);
  vo_ib : bitmap_ok (inode_bitmap s);
  vo_ib_len : btmp_bytes_len (inode_bitmap s) = 512;
  vo_clear : forall i, 0 <= i < bm_bits (block_bitmap s) -> bm_bit (block_bitmap s) i = false ->
                       data_start_lba (sb s) + i <= max_lba;
  vo_entry : dir_entry_size (sb s) = dir_entry_bytes
}.

(** The order of the regions as inequalities between numbers. *)
Lemma volume_order s :
  volume_ok s ->
  2 <= block_bitmap_lba (sb s) /\ 0 <= block_bitmap_sects (sb s)
  /\ block_bitmap_lba (sb s) + block_bitmap_sects (sb s) <= inode_bitmap_lba (sb s)
  /\ inode_bitmap_lba (sb s) < inode_table_lba (sb s)
  /\ inode_table_lba (sb s) + 608 <= data_start_lba (sb s)
  /\ data_start_lba (sb s) < start_lba s + sec_cnt s <= 163840
  /\ bm_bits (block_bitmap s) = 4096 * block_bitmap_sects (sb s)
  /\ bm_bits (inode_bitmap s) = 4096
  /\ 512 * block_bitmap_sects (sb s) < Z.of_nat (length (bits (block_bitmap s)))
  /\ 512 < Z.of_nat (length (bits (inode_bitmap s))).
Proof.
  intros [?????? Hend Hb Hbl Hi Hil _ _]. pose proof (bo_len _ Hb). pose proof (bo_len _ Hi).
  unfold max_lba, bm_bits in *. change (80 * 1024 * 1024 / 512 - 1 + 1) with 163840 in Hend. lia.
Qed.

Lemma max_lba_eq : max_lba = 163839.
Proof. done. Qed.

(** ** Single steps *)

Lemma gets_run {A} (f : fsys -> A) s : gets f s = Ok (f s, s).
Proof. done. Qed.

Lemma sassert_true {S} (c : bool) (s : S) : c = true -> sassert c s = Ok (tt, s).
Proof. intros ->. done. Qed.

Lemma inode_at_run p i s : inodes s !! p = Some i -> inode_at p s = Ok (i, s).
Proof. unfold inode_at. by intros ->. Qed.

Lemma upd_inode_run p i f s :
  inodes s !! p = Some i -> upd_inode p f s = Ok (tt, set_inodes (<[p := f i]> (inodes s)) s).
Proof. unfold upd_inode. by intros ->. Qed.

Lemma malloc_run size a r s : allocs s = a :: r -> malloc size s = Ok (a, set_allocs r s).
Proof. unfold malloc. by intros ->. Qed.

Lemma ide_read_run cap lba n s :
  lba <= max_lba -> 0 < n -> 512 * n <= cap -> ide_read cap lba n s = Ok (read_secs (Z.to_nat n) lba (disk s), s).
Proof.
  intros. unfold ide_read. run (sassert_true (lba <=? max_lba) s ltac:(lia)).
  run (sassert_true (0 <? n) s ltac:(lia)). by replace (cap <? 512 * n) with false by lia.
Qed.

Lemma ide_read_one cap lba s : lba <= max_lba -> 512 <= cap -> ide_read cap lba 1 s = Ok (sector (disk s) lba, s).
Proof.
  intros. rewrite ide_read_run by lia. change (Z.to_nat 1) with 1%nat. cbn [read_secs]. by rewrite app_nil_r.
Qed.

Lemma ide_read_small cap lba n s :
  lba <= max_lba -> 0 < n -> cap < 512 * n -> ide_read cap lba n s = Bad EFault.
Proof.
  intros. unfold ide_read. run (sassert_true (lba <=? max_lba) s ltac:(lia)).
  run (sassert_true (0 <? n) s ltac:(lia)). by replace (cap <? 512 * n) with true by lia.
Qed.

Lemma ide_write_run lba bs n s :
  lba <= max_lba -> 0 < n -> 512 * n <= Z.of_nat (length bs) ->
  ide_write lba bs n s = Ok (tt, set_disk (write_secs (Z.to_nat n) lba bs (disk s)) s).
Proof.
  intros. unfold ide_write. run (sassert_true (lba <=? max_lba) s ltac:(lia)).
  run (sassert_true (0 <? n) s ltac:(lia)). by replace (Z.of_nat (length bs) <? 512 * n) with false by lia.
Qed.

(** ** The bitmaps on the volume *)

(** Changing the disk keeps a volume well formed if sectors keep their size. *)
Lemma volume_set_disk s d : volume_ok s -> disk_ok d -> volume_ok (set_disk d s).
Proof. intros [] Hd. by constructor. Qed.

Lemma bytes_forall l : Forall (fun v => 0 <= v < 256) l -> Forall byte l.
Proof. done. Qed.

(** Taking the lowest free block.  Nothing but the bitmap changes. *)
Lemma block_alloc_run s :
  volume_ok s -> (exists i, 0 <= i < bm_bits (block_bitmap s) /\ bm_bit (block_bitmap s) i = false) ->
  exists i b, block_bitmap_alloc s = Ok (data_start_lba (sb s) + i, set_block_bitmap b s)
    /\ volume_ok (set_block_bitmap b s)
    /\ 0 <= i < bm_bits (block_bitmap s) /\ bm_bit (block_bitmap s) i = false
    /\ btmp_bytes_len b = btmp_bytes_len (block_bitmap s)
    /\ (forall j, 0 <= j -> bm_bit b j = bm_bit (block_bitmap s) j || bool_decide (j = i)).
Proof.
  intros Hv (k & Hk & Hck). pose proof (volume_order s Hv) as Ho.
  destruct (take_bit_spec (block_bitmap s)) as [(i & b & Hsc & Hst & _ & Hi & Hc & Hb & Hl & Hl2 & Hbits)|(_ & _ & Hall)];
    [apply Hv| |rewrite Hall in Hck by done; done].
  exists i, b. pose proof (vo_clear s Hv i Hi Hc) as Hcl. rewrite max_lba_eq in Hcl.
  split.
  { unfold block_bitmap_alloc. run (gets_run block_bitmap s). rewrite Hsc. cbn [sres].
    rewrite (sbind_Ok _ _ s i s) by done. replace (i =? -1) with false by lia. rewrite Hst.
    rewrite (sbind_Ok _ _ s b s) by done.
    rewrite (sbind_Ok _ _ s tt (set_block_bitmap b s)) by done.
    run (gets_run sb (set_block_bitmap b s)). rewrite i32_id; [done|]. cbn. lia. }
  split_and!; try done; try lia. destruct Hv. constructor; cbn; try done; try lia.
  intros j Hj Hcj. rewrite Hbits in Hcj by lia. apply orb_false_iff in Hcj as [Hcj _].
  unfold bm_bits in *. rewrite Hl in Hj. by apply vo_clear0.
Qed.

(** Writing the sector of a bitmap back changes that sector only. *)
Lemma block_sync_run s i :
  volume_ok s -> 0 <= i < bm_bits (block_bitmap s) ->
  exists d, bitmap_sync i BLOCK_BITMAP s = Ok (tt, set_disk d s) /\ disk_ok d
    /\ (forall lba, ~ block_bitmap_lba (sb s) <= lba < inode_bitmap_lba (sb s) -> sector d lba = sector (disk s) lba).
Proof.
  intros Hv Hi. pose proof (volume_order s Hv) as Ho.
  assert (0 <= i / 4096 < block_bitmap_sects (sb s)) by lia.
  eexists. split.
  { unfold bitmap_sync. run (gets_run sb s). run (gets_run block_bitmap s).
    unfold BLOCK_SIZE, SECTOR_SIZE. unwrap. apply ide_write_run; [rewrite max_lba_eq; lia|lia|]. rewrite length_drop. lia. }
  split.
  - apply write_secs_ok; [apply Hv|rewrite length_drop; lia|]. apply Forall_drop, bytes_forall, Hv.
  - intros lba Hl. apply write_secs_other. lia.
Qed.

Lemma inode_bits_sync_run s i :
  volume_ok s -> 0 <= i < 4096 ->
  exists d, bitmap_sync i INODE_BITMAP s = Ok (tt, set_disk d s) /\ disk_ok d
    /\ (forall lba, lba <> inode_bitmap_lba (sb s) -> sector d lba = sector (disk s) lba).
Proof.
  intros Hv Hi. pose proof (volume_order s Hv) as Ho.
  assert (i / 4096 = 0) as Hq by lia.
  eexists. split.
  { unfold bitmap_sync. run (gets_run sb s). run (gets_run inode_bitmap s).
    unfold BLOCK_SIZE, SECTOR_SIZE. unwrap. apply ide_write_run; [rewrite max_lba_eq; lia|lia|]. rewrite length_drop. lia. }
  split.
  - apply write_secs_ok; [apply Hv|rewrite length_drop; lia|]. apply Forall_drop, bytes_forall, Hv.
  - intros lba Hl. apply write_secs_other. lia.
Qed.

(** Freeing a block: its bit is cleared, in memory and on the disk. *)
Lemma free_block_run s i :
  volume_ok s -> 0 <= i < bm_bits (block_bitmap s) -> data_start_lba (sb s) + i <= max_lba ->
  exists b d, free_block i s = Ok (tt, set_disk d (set_block_bitmap b s))
    /\ volume_ok (set_disk d (set_block_bitmap b s))
    /\ btmp_bytes_len b = btmp_bytes_len (block_bitmap s)
    /\ (forall j, 0 <= j -> bm_bit b j = bm_bit (block_bitmap s) j && negb (bool_decide (j = i)))
    /\ (forall lba, ~ block_bitmap_lba (sb s) <= lba < inode_bitmap_lba (sb s) -> sector d lba = sector (disk s) lba).
Proof.
  intros Hv Hi Hm. pose proof (volume_order s Hv) as Ho.
  destruct (set_bit (block_bitmap s) i 0) as (b & Hs & Hb & Hl & Hl2 & Hbits); [apply Hv|lia|by left|].
  assert (volume_ok (set_block_bitmap b s)) as Hv1.
  { destruct Hv. constructor; cbn; try done; try lia. intros j Hj Hc. rewrite Hbits in Hc by lia.
    destruct (decide (j = i)) as [->|]; [done|]. unfold bm_bits in *. rewrite Hl in Hj. by apply vo_clear0. }
  destruct (block_sync_run (set_block_bitmap b s) i) as (d & Hd & Hdo & Hsec); [done|cbn; unfold bm_bits in *; lia|].
  exists b, d. split_and!; [|by apply volume_set_disk|done| |done].
  - unfold free_block. run (gets_run block_bitmap s). rewrite Hs. rewrite (sbind_Ok _ _ s b s) by done.
    rewrite (sbind_Ok _ _ s tt (set_block_bitmap b s)) by done. done.
  - intros j Hj. rewrite Hbits by done. destruct (decide (j = i)).
    + subst. by rewrite bool_decide_true, andb_false_r.
    + by rewrite bool_decide_false, andb_true_r.
Qed.

(** ** A small volume *)

(** An empty volume of 1000 sectors: bitmaps in sectors 2 and 3, the inode table
    in 4 to 611, data from 612. *)
Definition demo_sb : super_block := SuperBlock 0x19590318 1000 4096 0 2 1 3 1 4 608 612 0 24.

Definition demo_fs : fsys :=
  Fsys ∅ 0 1000 demo_sb (Bitmap 512 (1 :: zeros 512)) (Bitmap 512 (1 :: zeros 512)) ∅ []
    (replicate 32 (File 0 0 0)) ∅ ([0; 1; 2] ++ replicate 5 (-1)) 0 [4096; 8192; 12288; 16384; 20480; 24576].

Lemma empty_disk_ok : disk_ok ∅.
Proof. intros lba. unfold sector. rewrite lookup_empty. split; [done|]. apply Forall_replicate. unfold byte. lia. Qed.

Lemma demo_fs_ok : volume_ok demo_fs.
Proof.
  constructor; cbn [disk start_lba sec_cnt sb block_bitmap inode_bitmap demo_fs]; try done; try (cbn; rewrite ?max_lba_eq; lia).
  - apply empty_disk_ok.
  - constructor; [by vm_compute|done|]. constructor; [lia|]. apply Forall_replicate. lia.
  - constructor; [by vm_compute|done|]. constructor; [lia|]. apply Forall_replicate. lia.
  - intros i Hi _. unfold bm_bits in Hi. cbn in *. rewrite max_lba_eq. lia.
Qed.
