(* ===== verification/IdeSpec.v ===== *)
(** * IdeSpec: what the disk driver does to the sectors of a disk

    [Ata] states what a controller with ATA drives promises: data moves one
    sector at a time, with an interrupt for each.  Under it [ide_read] and
    [ide_write] of the driver, called for one sector, do what the same operations
    of Fsys do to sectors, across the task switches in which they wait for the
    disk, and the interrupt handler brings the waiting task back.  For more
    sectors in one call nothing is shown: the driver moves the sectors of a
    command behind each other and waits once, for the first of them. *)
From S2P Require Import Prelude Bitmap CString Interrupt DList Paging Pages Memory Kernel View Sched Sync Heap Resume Timer Stdio Disk Ide Fsys.

(** ** The controller *)

(** A command as the registers hold it: a sector count of 0 stands for 256. *)
Record command : Type := Command { c_dev : Z; c_lba : Z; c_cnt : Z }.

Definition command_of (r : Z -> Z) : command :=
  Command (Z.b2z (Z.testbit (r 6) 4)) (r 3 + 2 ^ 8 * r 4 + 2 ^ 16 * r 5 + 2 ^ 24 * (r 6 mod 16)) (if r 2 =? 0 then 256 else r 2).

(** The command for the sectors behind the first. *)
Definition next_sector (q : command) : command := Command (c_dev q) (c_lba q + 1) (c_cnt q - 1).

(** Where a controller is with a command, in the PIO protocol of ATA.  Data moves
    one sector at a time: the drive works on a sector of a read command, hands it
    over, and works on the next; of a write command it takes a sector and works
    on it.  Before the first sector of a write command it may need time to get
    ready, here at most [n] times the 10 milliseconds for which the driver sleeps
    between two looks. *)
Inductive ata_phase : Type :=
| AtRest
| Fetching (q : command)
| DataIn (q : command) (bs : list Z)
| Preparing (q : command) (n : nat)
| DataOut (q : command)
| Storing (q : command) (bs : list Z).

(** What follows a sector: the next one, [p], or the end of the command. *)
Definition after_sector (q : command) (p : command -> ata_phase) : ata_phase :=
  if c_cnt q =? 1 then AtRest else p (next_sector q).

(** BSY is set while the drive works; BSY is clear and DRQ set when a sector can
    move. *)
Definition busy_bits (p : ata_phase) (v : Z) : Prop :=
  match p with
  | AtRest => True
  | Fetching _ | Preparing _ _ | Storing _ _ => Z.land v 0x80 <> 0
  | DataIn _ _ | DataOut _ => Z.land v 0x80 = 0 /\ Z.land v 8 <> 0
  end.

(** READ SECTORS (0x20) and WRITE SECTORS (0x30).  The registers 2 to 6 hold what
    is written to them while no command runs, and the commands take their
    parameters from them; bit 6 of register 6 selects numbering by sectors.
    [work] is the drive's work on one sector up to its interrupt: of a read
    command there is an interrupt before each sector is taken, of a write command
    after each sector is given.  A sector is moved by 256 words through the data
    register; what happens with more words at a time is not promised.  Reading
    the status register shows the phase; a drive that is preparing may be found
    ready.  A drive gets ready within the 30 seconds of the driver, and does not
    fail. *)
Class Ata (C : Type) `{Ports C} (base : Z) := {
  phase : C -> ata_phase;
  regs : C -> Z -> Z;
  drive : C -> Z -> sectors;
  work : C -> C;
  ata_reg c r v : phase c = AtRest -> 2 <= r <= 6 -> 0 <= v < 256 ->
    phase (outb (base + r) v c) = AtRest /\ (forall n, drive (outb (base + r) v c) n = drive c n)
    /\ forall r', regs (outb (base + r) v c) r' = if decide (r = r') then v else regs c r';
  ata_read c : phase c = AtRest -> Z.testbit (regs c 6) 6 = true ->
    phase (outb (base + 7) 0x20 c) = Fetching (command_of (regs c)) /\ forall n, drive (outb (base + 7) 0x20 c) n = drive c n;
  ata_write c : phase c = AtRest -> Z.testbit (regs c 6) 6 = true ->
    (exists n, Z.of_nat n < 29998 /\ phase (outb (base + 7) 0x30 c) = Preparing (command_of (regs c)) n)
    /\ forall n, drive (outb (base + 7) 0x30 c) n = drive c n;
  ata_fetch c q : phase c = Fetching q ->
    phase (work c) = DataIn q (sector (drive c (c_dev q)) (c_lba q)) /\ forall n, drive (work c) n = drive c n;
  ata_store c q bs : phase c = Storing q bs ->
    phase (work c) = after_sector q DataOut
    /\ forall n, drive (work c) n = if decide (n = c_dev q) then write_secs 1 (c_lba q) bs (drive c n) else drive c n;
  ata_status c : (forall n, drive (inb (base + 7) c).2 n = drive c n)
    /\ (phase (inb (base + 7) c).2 = phase c
       \/ exists q n, phase c = Preparing q n /\ phase (inb (base + 7) c).2 = DataOut q);
  ata_bits c : busy_bits (phase (inb (base + 7) c).2) (inb (base + 7) c).1;
  ata_in c q bs : phase c = DataIn q bs ->
    (insw base 256 c).1 = bs /\ phase (insw base 256 c).2 = after_sector q Fetching
    /\ forall i, drive (insw base 256 c).2 i = drive c i;
  ata_out c q bs : phase c = DataOut q -> Z.of_nat (length bs) = 512 ->
    phase (outsw base bs c) = Storing q bs /\ forall i, drive (outsw base bs c) i = drive c i
}.

(** ** One sector *)

(** Only the bytes of the sector are looked at. *)
Lemma write_secs_take lba bs d : write_secs 1 lba (take 512 bs) d = write_secs 1 lba bs d.
Proof. cbn [write_secs]. by rewrite take_take. Qed.

Section Spec.
Context {C : Type} {HP : Ports C} {base : Z} {HA : Ata C base}.

(** ** The state of the driver *)

(** The disk [hd] hangs on the controller. *)
Definition wired (hd : Z * Z) (i : ide_state) : Prop :=
  0 <= hd.1 < 2 /\ (hd.2 = 0 \/ hd.2 = 1)
  /\ exists c d, rd (channels i) hd.1 = Ok c /\ rd (devices c) hd.2 = Ok d
     /\ port_base c = base /\ irq_no c = 0x2e + hd.1 /\ my_channel d = hd.1 /\ dev_no d = hd.2.

(** The flag of the channel changed. *)
Definition flagged (ch : Z) (b : bool) (i : ide_state) : ide_state :=
  set_channels (alter (set_expecting b) (Z.to_nat ch) (channels i)) i.

(** The task [t] runs, and nothing waits for the disk. *)
Record calm (t ch : Z) (k : kernel) : Prop := {
  cm_sched : sched_ok k;
  cm_run : running k = t;
  cm_idle : t <> idle_thread k;
  cm_done : semas k !! disk_done ch = Some (Semaphore 0 [])
}.

(** The tasks in a queue are blocked, and the idle thread is none of them. *)
Definition all_blocked (ws : list Z) (k : kernel) : Prop :=
  NoDup ws /\ forall w, w ∈ ws -> w <> idle_thread k /\ exists tw, tasks k !! w = Some tw /\ blocked (status tw).

(** [t] has the lock of the channel; others may wait for it. *)
Definition lock_mine (t ch : Z) (k : kernel) : Prop :=
  locks k !! ch_lock ch = Some (Lock t 1)
  /\ exists ws, semas k !! lock_sema (ch_lock ch) = Some (Semaphore 0 ws) /\ all_blocked ws k.

(** Nobody has it. *)
Definition lock_open (ch : Z) (k : kernel) : Prop :=
  locks k !! ch_lock ch = Some (Lock 0 0)
  /\ exists ws, semas k !! lock_sema (ch_lock ch) = Some (Semaphore 1 ws) /\ all_blocked ws k.

(** How a task that waits for the disk is resumed: the controller has done its
    work and raised the interrupt, whose handler has left the semaphore at 1. *)
Record disk_wake (t ch : Z) (s s' : io C) : Prop := {
  dw_sched : sched_ok (io_kernel s');
  dw_run : running (io_kernel s') = t;
  dw_idle : t <> idle_thread (io_kernel s');
  dw_off : intr_get_status (eflags (io_kernel s')) = INTR_OFF;
  dw_done : semas (io_kernel s') !! disk_done ch = Some (Semaphore 1 []);
  dw_lock : lock_mine t ch (io_kernel s');
  dw_ide : io_ide s' = flagged ch false (io_ide s);
  dw_ctl : io_ctl s' = (inb (base + 7) (work (io_ctl s))).2
}.

(** How a task that sleeps between two looks at the drive is resumed: ticks have
    passed, and a drive that is preparing has come closer to being ready. *)
Record nap (t ch : Z) (s s' : io C) : Prop := {
  np_sched : sched_ok (io_kernel s');
  np_run : running (io_kernel s') = t;
  np_ready : exists q, q ∈ thread_ready_list (io_kernel s');
  np_idle : t <> idle_thread (io_kernel s');
  np_off : intr_get_status (eflags (io_kernel s')) = INTR_OFF;
  np_ticks : exists d, 1 <= d < 2 ^ 31 /\ ticks_total (io_kernel s') = u32 (ticks_total (io_kernel s) + d);
  np_done : semas (io_kernel s') !! disk_done ch = Some (Semaphore 0 []);
  np_lock : lock_mine t ch (io_kernel s');
  np_ide : io_ide s' = io_ide s;
  np_drive : forall n, drive (io_ctl s') n = drive (io_ctl s) n;
  np_phase : match phase (io_ctl s) with
    | Preparing q n => phase (io_ctl s') = DataOut q \/ exists n', (n' < n)%nat /\ phase (io_ctl s') = Preparing q n'
    | p => phase (io_ctl s') = p
    end
}.

(** A task that is blocked waits for the interrupt, one that is ready sleeps. *)
Definition io_wake (t ch : Z) (s s' : io C) : Prop :=
  match st_of (io_kernel s) t with
  | Some TASK_BLOCKED => disk_wake t ch s s'
  | Some TASK_READY => nap t ch s s'
  | _ => False
  end.

(** Between two commands. *)
Record between (t : Z) (hd : Z * Z) (D : Z -> sectors) (s : io C) : Prop := {
  bt_calm : calm t hd.1 (io_kernel s);
  bt_lock : lock_mine t hd.1 (io_kernel s);
  bt_wired : wired hd (io_ide s);
  bt_rest : phase (io_ctl s) = AtRest;
  bt_drive : forall n, drive (io_ctl s) n = D n
}.

(** Before and after a call: nobody has the lock, the controller is at rest. *)
Record ready (t : Z) (hd : Z * Z) (D : Z -> sectors) (s : io C) : Prop := {
  ry_calm : calm t hd.1 (io_kernel s);
  ry_lock : lock_open hd.1 (io_kernel s);
  ry_wired : wired hd (io_ide s);
  ry_rest : phase (io_ctl s) = AtRest;
  ry_drive : forall n, drive (io_ctl s) n = D n
}.

(** ** Accesses *)

Lemma zoom_io {A} (m : proc kernel A) a k k' i (x : C) : m k = Ret a k' -> zoom m (Io k i x) = Ret a (Io k' i x).
Proof. intros Hm. exact (zoom_Ret m (Io k i x) a k' Hm). Qed.

Lemma zoom_io_switch {A} (m : proc kernel A) (s : io C) k' r :
  m (io_kernel s) = Switch k' r -> zoom m s = Switch (Io k' (io_ide s) (io_ctl s)) (zoom r).
Proof. intros Hm. exact (zoom_Switch m s k' r Hm). Qed.

Lemma run_iget (s : io C) : get s = Ret s s.
Proof. done. Qed.

Lemma channel_at_run ch c (s : io C) : rd (channels (io_ide s)) ch = Ok c -> channel_at ch s = Ret c s.
Proof. intros Hc. unfold channel_at. rewrite (bind_Ret _ _ _ _ _ (run_iget s)). unfold lift. by rewrite Hc. Qed.

Lemma disk_at_run hd c d (s : io C) :
  rd (channels (io_ide s)) hd.1 = Ok c -> rd (devices c) hd.2 = Ok d -> disk_at hd s = Ret d s.
Proof. intros Hc Hd. unfold disk_at. rewrite (bind_Ret _ _ _ _ _ (channel_at_run hd.1 c s Hc)). unfold lift. by rewrite Hd. Qed.

Lemma set_expecting_run ch b c (s : io C) :
  rd (channels (io_ide s)) ch = Ok c ->
  upd_channel ch (set_expecting b) s = Ret tt (Io (io_kernel s) (flagged ch b (io_ide s)) (io_ctl s)).
Proof.
  intros Hc. unfold upd_channel. rewrite (bind_Ret _ _ _ _ _ (run_iget s)), (bind_Ret _ _ _ _ _ (channel_at_run ch c s Hc)).
  apply rd_Ok in Hc as [H0 Hc]. pose proof (lookup_lt_Some _ _ _ Hc).
  rewrite wr_in by lia. rewrite (bind_Ret (lift (Ok _)) _ s _ s eq_refl). unfold upd_ide, modify, flagged. do 4 f_equal.
  apply list_eq. intros j. destruct (decide (j = Z.to_nat ch)) as [->|].
  - by rewrite list_lookup_insert_eq, list_lookup_alter_eq, Hc by done.
  - by rewrite list_lookup_insert_ne, list_lookup_alter_ne by done.
Qed.

Lemma wired_flagged hd b i : wired hd i -> wired hd (flagged hd.1 b i).
Proof.
  intros (Hch & Hdev & c & d & [H0 Hc]%rd_Ok & Hd & Hb & Hi & Hm & Hn). split; [done|]. split; [done|].
  exists (set_expecting b c), d. split; [|done]. apply rd_Ok. split; [done|]. cbn. by rewrite list_lookup_alter_eq, Hc.
Qed.

(** The driver's reads of its tables. *)
Lemma wired_disk hd (s : io C) :
  wired hd (io_ide s) -> exists c d, disk_at hd s = Ret d s /\ channel_at (my_channel d) s = Ret c s
    /\ channel_at hd.1 s = Ret c s /\ my_channel d = hd.1 /\ dev_no d = hd.2 /\ port_base c = base
    /\ rd (channels (io_ide s)) hd.1 = Ok c.
Proof.
  intros (_ & _ & c & d & Hc & Hd & Hb & _ & Hm & Hn). exists c, d. split; [by eapply disk_at_run|].
  rewrite Hm. by split_and!; try apply channel_at_run.
Qed.

Definition with_ctl (x : C) (s : io C) : io C := Io (io_kernel s) (io_ide s) x.

Lemma out_byte_run port v (s : io C) : out_byte port v s = Ret tt (with_ctl (outb port (u8 v) (io_ctl s)) s).
Proof. done. Qed.

Lemma in_byte_run port (s : io C) : in_byte port s = Ret (inb port (io_ctl s)).1 (with_ctl (inb port (io_ctl s)).2 s).
Proof. done. Qed.

(** ** Commands *)

(** The controller after bytes were written to registers. *)
Record regs_set (c c' : C) (f : Z -> Z) : Prop := {
  rs_rest : phase c' = AtRest;
  rs_drive : forall n, drive c' n = drive c n;
  rs_regs : forall r, regs c' r = f r
}.

Lemma regs_set_refl c : phase c = AtRest -> regs_set c c (regs c).
Proof. by constructor. Qed.

Lemma regs_set_out c c' f r v p :
  regs_set c c' f -> p = base + r -> 2 <= r <= 6 -> 0 <= v < 256 ->
  regs_set c (outb p v c') (fun r' => if decide (r = r') then v else f r').
Proof.
  intros [Hr Hd Hf] -> Hrr Hv. destruct (ata_reg c' r v Hr Hrr Hv) as (H1 & H2 & H3). constructor; [done| |].
  - intros n. by rewrite H2.
  - intros r'. rewrite H3. case_decide; [done|apply Hf].
Qed.

Lemma dev_bits_range d : dev_no d = 0 \/ dev_no d = 1 -> 0 <= dev_bits d < 256 /\ dev_bits d = 0xe0 + 16 * dev_no d.
Proof. unfold dev_bits. intros [->| ->]; vm_compute; (split; [split; [discriminate|reflexivity]|reflexivity]). Qed.

Lemma select_disk_run hd (s : io C) :
  wired hd (io_ide s) -> phase (io_ctl s) = AtRest ->
  exists x, select_disk hd s = Ret tt (with_ctl x s) /\ phase x = AtRest /\ forall n, drive x n = drive (io_ctl s) n.
Proof.
  intros Hw Hp. destruct (wired_disk hd s Hw) as (c & d & Hd & Hc & _ & _ & Hn & Hb & _).
  destruct (dev_bits_range d) as [Hr _]; [rewrite Hn; apply Hw|].
  eexists. split; [unfold select_disk; rewrite (bind_Ret _ _ _ _ _ Hd), (bind_Ret _ _ _ _ _ Hc); apply out_byte_run|].
  rewrite u8_id by lia. unfold reg_dev. rewrite Hb. destruct (ata_reg (io_ctl s) 6 (dev_bits d) Hp) as (H1 & H2 & _); [lia|lia|].
  by split.
Qed.

(** The registers hold the sector number and the count. *)
Lemma select_sector_run hd lba n (s : io C) :
  wired hd (io_ide s) -> phase (io_ctl s) = AtRest -> 0 <= lba <= max_lba -> 0 <= n < 256 ->
  exists x, select_sector hd lba n s = Ret tt (with_ctl x s) /\ phase x = AtRest
    /\ (forall i, drive x i = drive (io_ctl s) i) /\ Z.testbit (regs x 6) 6 = true
    /\ command_of (regs x) = Command hd.2 lba (if n =? 0 then 256 else n).
Proof.
  intros Hw Hp Hl Hn. destruct (wired_disk hd s Hw) as (c & d & Hd & Hc & _ & _ & Hdn & Hb & _).
  rewrite max_lba_eq in Hl. destruct (dev_bits_range d) as [Hr Hbits]; [rewrite Hdn; apply Hw|].
  assert (Z.lor (dev_bits d) (Z.shiftr lba 24) = dev_bits d) as Hlor.
  { rewrite Z.shiftr_div_pow2, Z.div_small by lia. apply Z.lor_0_r. }
  pose proof (regs_set_refl (io_ctl s) Hp) as H0.
  pose proof (regs_set_out _ _ _ 2 (u8 n) (reg_sect_cnt c) H0 ltac:(unfold reg_sect_cnt; lia) ltac:(lia) ltac:(unfold u8; lia)) as H1.
  pose proof (regs_set_out _ _ _ 3 (u8 lba) (reg_lba_l c) H1 ltac:(unfold reg_lba_l; lia) ltac:(lia) ltac:(unfold u8; lia)) as H2.
  pose proof (regs_set_out _ _ _ 4 (u8 (Z.shiftr lba 8)) (reg_lba_m c) H2 ltac:(unfold reg_lba_m; lia) ltac:(lia) ltac:(unfold u8; lia)) as H3.
  pose proof (regs_set_out _ _ _ 5 (u8 (Z.shiftr lba 16)) (reg_lba_h c) H3 ltac:(unfold reg_lba_h; lia) ltac:(lia) ltac:(unfold u8; lia)) as H4.
  pose proof (regs_set_out _ _ _ 6 (u8 (dev_bits d)) (reg_dev c) H4 ltac:(unfold reg_dev; lia) ltac:(lia) ltac:(unfold u8; lia)) as [Hx1 Hx2 Hx3].
  set (x := outb (reg_dev c) _ _) in Hx1, Hx2, Hx3. exists x. split.
  { unfold select_sector. rewrite (bind_Ret (assert (lba <=? max_lba)) _ s tt s) by (unfold assert; by replace (lba <=? max_lba) with true by (rewrite max_lba_eq; lia)).
    rewrite (bind_Ret _ _ _ _ _ Hd), (bind_Ret _ _ _ _ _ Hc), Hlor.
    do 4 rewrite (bind_Ret _ _ _ _ _ (out_byte_run _ _ _)). exact eq_refl. }
  split; [exact Hx1|]. split; [exact Hx2|].
  pose proof (Hx3 2 : _ = u8 n) as R2. pose proof (Hx3 3 : _ = u8 lba) as R3. pose proof (Hx3 4 : _ = u8 (Z.shiftr lba 8)) as R4.
  pose proof (Hx3 5 : _ = u8 (Z.shiftr lba 16)) as R5. pose proof (Hx3 6 : _ = u8 (dev_bits d)) as R6.
  rewrite Z.shiftr_div_pow2 in R4, R5 by lia. rewrite u8_id in R2, R6 by lia. rewrite Hbits, Hdn in R6.
  unfold command_of. rewrite R2, R3, R4, R5, R6. unfold u8.
  assert (Z.testbit (0xe0 + 16 * hd.2) 6 = true /\ Z.b2z (Z.testbit (0xe0 + 16 * hd.2) 4) = hd.2 /\ (0xe0 + 16 * hd.2) mod 16 = 0) as (-> & -> & ->)
    by (destruct Hw as (_ & [->| ->] & _); done).
  split; [done|]. f_equal. lia.
Qed.

Lemma cmd_out_run hd cmd (s : io C) :
  wired hd (io_ide s) -> 0 <= cmd < 256 ->
  cmd_out hd.1 cmd s = Ret tt (Io (io_kernel s) (flagged hd.1 true (io_ide s)) (outb (base + 7) cmd (io_ctl s))).
Proof.
  intros Hw Hc. destruct (wired_disk hd s Hw) as (c & _ & _ & _ & _ & _ & _ & _ & Hrd).
  pose proof (wired_flagged hd true _ Hw) as Hw'. unfold cmd_out.
  rewrite (bind_Ret _ _ _ _ _ (set_expecting_run hd.1 true c s Hrd)). set (s1 := Io _ _ _).
  destruct (wired_disk hd s1 Hw') as (c' & d' & _ & _ & Hc' & _ & _ & Hb' & _).
  rewrite (bind_Ret _ _ _ _ _ Hc'), out_byte_run, u8_id by done. unfold reg_cmd, reg_status. by rewrite Hb'.
Qed.

(** ** Waiting for the interrupt *)

Lemma calm_flags t ch k e : calm t ch k -> calm t ch (set_eflags e k).
Proof. intros []. constructor; try done. by apply set_eflags_ok. Qed.

Lemma disk_done_lock ch ch' : 0 <= ch < 2 -> 0 <= ch' < 2 -> disk_done ch <> lock_sema (ch_lock ch').
Proof. intros H1 H2. assert (ch = 0 \/ ch = 1) as [->| ->] by lia; assert (ch' = 0 \/ ch' = 1) as [->| ->] by lia; done. Qed.

Lemma lock_mine_sema t ch k s : 0 <= ch < 2 -> lock_mine t ch k -> lock_mine t ch (with_sema k (disk_done ch) s).
Proof.
  intros Hch (Hl & ws & Hs & Hws). split; [done|]. exists ws. split; [|done]. cbn.
  rewrite lookup_insert_ne by (by apply disk_done_lock). done.
Qed.

(** A task that waits for a semaphore is blocked. *)
Lemma waiting_blocked k e p ws tk nxt rest k' :
  tasks k !! running k = Some tk -> running k <> nxt ->
  scheduled (waiting (set_eflags e k) p ws tk) (set_status TASK_BLOCKED tk) nxt rest k' -> st_of k' (running k) = Some TASK_BLOCKED.
Proof.
  intros Htk Hne Hsd. rewrite (sd_status _ _ _ _ _ Hsd), !decide_False by (congruence || (intros [_ H]; discriminate H)).
  unfold st_of. cbn. by rewrite lookup_insert_eq.
Qed.

(** [sema_down] on [disk_done] comes back with the controller's work done. *)
Lemma wait_disk (W : io C -> io C -> Prop) (t : Z) (hd : Z * Z) f (s : io C) :
  (forall s s', st_of (io_kernel s) t = Some TASK_BLOCKED -> W s s' -> disk_wake t hd.1 s s') ->
  calm t hd.1 (io_kernel s) -> wired hd (io_ide s) ->
  settles W
    (fun _ s' => calm t hd.1 (io_kernel s') /\ lock_mine t hd.1 (io_kernel s') /\ io_ide s' = flagged hd.1 false (io_ide s)
       /\ io_ctl s' = (inb (base + 7) (work (io_ctl s))).2)
    (zoom (sema_down (S (S f)) (disk_done hd.1)) s).
Proof.
  intros HW [Hok Hrun Hid Hd] Hw. destruct Hw as [Hch _]. destruct (sp_cur _ (proj1 Hok)) as [tk Htk].
  destruct (sema_down_waits (S f) (io_kernel s) (disk_done hd.1) [] tk Hok) as (nxt & rest & k' & Hdn & Hsd & Haway);
    [congruence|done|done|apply not_elem_of_nil|].
  pose proof (waiting_blocked _ _ _ _ _ _ _ _ Htk Haway Hsd) as Hst. rewrite Hrun in Hst.
  rewrite (zoom_Switch _ s k' _ Hdn). constructor. intros s' Hs'. apply HW in Hs'; [|exact Hst].
  destruct Hs' as [Hok' Hrun' Hid' Hoff Hd' Hl Hide Hctl].
  rewrite (zoom_Ret _ s' tt (set_eflags _ (with_sema (io_kernel s') (disk_done hd.1) (Semaphore 0 [])))
    (down_tail_takes f (io_kernel s') _ [] _ Hoff Hd')).
  constructor. cbn [io_kernel io_ide io_ctl with_part io_part]. split; [|split; [|done]].
  - apply calm_flags. constructor; [by apply with_sema_ok|done|done|]. cbn. by rewrite lookup_insert_eq.
  - by apply lock_mine_sema.
Qed.

(** ** Polling *)

(** A phase in which a sector can move. *)
Definition moves (p : ata_phase) : bool := match p with DataIn _ _ | DataOut _ => true | _ => false end.

Lemma moves_bits p v : moves p = true -> busy_bits p v -> (Z.land v 0x80 =? 0) = true /\ (Z.land v 8 =? 0) = false.
Proof. destruct p; try done; intros _ [-> H]; (split; [done|by apply Z.eqb_neq]). Qed.

(** Reading the status of a drive that is not preparing. *)
Lemma status_same c : (forall q n, phase c <> Preparing q n) -> phase (inb (base + 7) c).2 = phase c /\ forall n, drive (inb (base + 7) c).2 n = drive c n.
Proof. intros Hp. destruct (ata_status c) as [Hd [Hs|(q & n & H & _)]]; [by split|by destruct (Hp q n)]. Qed.

(** A controller found ready for data. *)
Lemma look_ready left lf hd (s : io C) :
  wired hd (io_ide s) -> moves (phase (inb (base + 7) (io_ctl s)).2) = true ->
  exists x, busy_loop (S left) lf hd.1 s = Ret true (with_ctl x s)
    /\ phase x = phase (inb (base + 7) (io_ctl s)).2 /\ forall n, drive x n = drive (io_ctl s) n.
Proof.
  intros Hw Hm. destruct (wired_disk hd s Hw) as (c & d & _ & _ & Hc & _ & _ & Hb & _).
  set (x1 := (inb (base + 7) (io_ctl s)).2) in *. set (x2 := (inb (base + 7) x1).2).
  destruct (ata_status (io_ctl s)) as [Hd1 _]. fold x1 in Hd1.
  destruct (status_same x1) as [Hp2 Hd2]; [intros q n E; by rewrite E in Hm|].
  destruct (moves_bits _ _ Hm (ata_bits (io_ctl s))) as [B1 _].
  destruct (moves_bits (phase x2) (inb (base + 7) x1).1) as [_ B2]; [by unfold x2; rewrite Hp2|apply ata_bits|].
  exists x2. split.
  - cbn [busy_loop]. rewrite (bind_Ret _ _ _ _ _ Hc), (bind_Ret _ _ _ _ _ (in_byte_run _ s)). unfold reg_status, BIT_STAT_BSY, BIT_STAT_DRQ. rewrite Hb, B1.
    rewrite (bind_Ret _ _ _ _ _ (in_byte_run _ _)). cbn [io_ctl with_ctl]. fold x1. by rewrite B2.
  - split; [exact Hp2|]. intros n. exact (eq_trans (Hd2 n) (Hd1 n)).
Qed.

Lemma busy_wait_loop lf hd (s : io C) : wired hd (io_ide s) -> busy_wait lf hd s = busy_loop (S (Z.to_nat 29998)) lf hd.1 s.
Proof.
  intros Hw. destruct (wired_disk hd s Hw) as (c & d & Hd & _ & _ & Hm & _). unfold busy_wait. rewrite (bind_Ret _ _ _ _ _ Hd), Hm.
  by change (Z.to_nat (u16 _)) with (S (Z.to_nat 29998)).
Qed.

(** The sleep between two looks. *)
Lemma nap_run t (hd : Z * Z) lf (s : io C) :
  calm t hd.1 (io_kernel s) -> (exists q, q ∈ thread_ready_list (io_kernel s)) ->
  exists s1 r, zoom (mtime_sleep (S lf) 10) s = Switch s1 r /\ io_ide s1 = io_ide s /\ io_ctl s1 = io_ctl s
    /\ st_of (io_kernel s1) t = Some TASK_READY
    /\ forall s', nap t hd.1 s1 s' -> exists e, r s' = Ret tt (Io (set_eflags e (io_kernel s')) (io_ide s') (io_ctl s')).
Proof.
  intros [Hok Hrun Hid Hd] [q Hq]. destruct (yield_leaves (io_kernel s) q Hok Hq) as (k' & st & Hy & Htk & Hst). rewrite Hrun in Hst.
  assert (mtime_sleep (S lf) 10 (io_kernel s) = Switch k' (fun k => outcome_bind (fun _ => ticks_to_sleep_loop lf (ticks_total (io_kernel s)) 1) (k_intr_set_status st k))) as Hm.
  { unfold mtime_sleep. change (DIV_ROUND_UP 10 mil_seconds_per_intr) with 1. passert; [|done]. unfold ticks_to_sleep. pget.
    cbn [ticks_to_sleep_loop]. pget. rewrite Z.sub_diag. change (u32 0 <? 1) with true. cbv iota. exact (bind_Switch _ _ _ _ _ Hy). }
  exists (Io k' (io_ide s) (io_ctl s)). eexists. split; [exact (zoom_io_switch _ s k' _ Hm)|]. split; [done|]. split; [done|]. split; [exact Hst|].
  intros s' Hn. destruct (np_ticks _ _ _ _ Hn) as (d & Hdr & Htd). cbn [io_kernel] in Htd. eexists.
  assert (u32 (ticks_total (io_kernel s') - ticks_total (io_kernel s)) <? 1 = false) as Hdone.
  { rewrite Htd, Htk, u32_sub_add by lia. lia. }
  refine (zoom_Ret _ s' tt (set_eflags (intr_set_status st (eflags (io_kernel s'))).2 (io_kernel s')) _).
  cbn [outcome_bind k_intr_set_status io_kernel part io_part].
  destruct lf as [|lf]; cbn [ticks_to_sleep_loop]; pget; cbn [ticks_total set_eflags]; by rewrite Hdone.
Qed.

(** The loop of [busy_wait] on a drive that prepares for data. *)
Lemma busy_prepares t (hd : Z * Z) q lf left (s : io C) n :
  calm t hd.1 (io_kernel s) -> lock_mine t hd.1 (io_kernel s) -> wired hd (io_ide s) -> (exists p, p ∈ thread_ready_list (io_kernel s)) ->
  (phase (io_ctl s) = Preparing q n /\ (S n < left)%nat) \/ (phase (io_ctl s) = DataOut q /\ (0 < left)%nat) ->
  settles (io_wake t hd.1)
    (fun ok s' => ok = true /\ calm t hd.1 (io_kernel s') /\ lock_mine t hd.1 (io_kernel s') /\ io_ide s' = io_ide s
       /\ phase (io_ctl s') = DataOut q /\ forall i, drive (io_ctl s') i = drive (io_ctl s) i)
    (busy_loop left (S lf) hd.1 s).
Proof.
  revert s n. induction left as [|left IH]; intros s n Hcm Hlk Hw Hq Hp; [lia|].
  destruct (decide (moves (phase (inb (base + 7) (io_ctl s)).2) = true)) as [Hm|Hm].
  - destruct (look_ready left (S lf) hd s Hw Hm) as (x & Hrun & Hx & Hdx). rewrite Hrun. constructor. split; [done|]. split; [done|]. split; [done|].
    split; [done|]. split; [|exact Hdx]. cbn [io_ctl with_ctl]. rewrite Hx. destruct (ata_status (io_ctl s)) as [_ [E|(q' & n' & E & E')]].
    + rewrite E in Hm |- *. destruct Hp as [[Hp _]|[Hp _]]; [by rewrite Hp in Hm|done].
    + destruct Hp as [[Hp _]|[Hp _]]; [|congruence]. rewrite E'. congruence.
  - destruct (ata_status (io_ctl s)) as [Hd1 Hs1]. set (x1 := (inb (base + 7) (io_ctl s)).2) in *.
    assert (phase x1 = Preparing q n /\ (S n < S left)%nat) as [Hp1 Hn].
    { destruct Hp as [[Hp Hn]|[Hp _]], Hs1 as [E|(q' & n' & E & E')]; try (by rewrite E' in Hm); try congruence.
      - split; [congruence|lia].
      - exfalso. apply Hm. by rewrite E, Hp. }
    destruct (wired_disk hd s Hw) as (c & d & _ & _ & Hc & _ & _ & Hb & _). pose proof (ata_bits (io_ctl s)) as Hbits. fold x1 in Hbits.
    rewrite Hp1 in Hbits. cbn [busy_bits] in Hbits. cbn [busy_loop]. rewrite (bind_Ret _ _ _ _ _ Hc), (bind_Ret _ _ _ _ _ (in_byte_run _ s)).
    unfold reg_status, BIT_STAT_BSY. rewrite Hb, (proj2 (Z.eqb_neq _ _) Hbits). fold x1. set (s1 := with_ctl x1 s).
    destruct (nap_run t hd lf s1 Hcm Hq) as (s2 & r & Hnap & Hide & Hctl & Hst & Hr). rewrite (bind_Switch _ _ _ _ _ Hnap). constructor.
    intros s' Hwk. unfold io_wake in Hwk. rewrite Hst in Hwk. destruct (Hr s' Hwk) as [e ->]. cbn [outcome_bind].
    destruct Hwk as [W1 W2 W3 W4 _ _ W7 W8 W9 W10 W11]. rewrite Hctl in W10, W11. change (io_ctl s1) with x1 in W10, W11. rewrite Hp1 in W11.
    change (io_ide s1) with (io_ide s) in Hide. rewrite Hide in W9. set (s3 := Io (set_eflags e (io_kernel s')) (io_ide s') (io_ctl s')).
    assert (calm t hd.1 (io_kernel s3)) as Hcm3 by (apply calm_flags; by constructor).
    assert (wired hd (io_ide s3)) as Hw3 by (cbn; by rewrite W9).
    assert (forall i, drive (io_ctl s3) i = drive (io_ctl s) i) as Hd3 by (intros i; exact (eq_trans (W10 i) (Hd1 i))).
    destruct W11 as [Hp3|(n' & Hn' & Hp3)].
    + eapply settles_mono; [apply (IH s3 0%nat); try done; right; split; [done|lia]|]. intros ok s4 (-> & H2 & H3 & H4 & H5 & H6).
      split_and!; try done; [cbn in H4; congruence|]. intros i. by rewrite H6, Hd3.
    + eapply settles_mono; [apply (IH s3 n'); try done; left; split; [done|lia]|]. intros ok s4 (-> & H2 & H3 & H4 & H5 & H6).
      split_and!; try done; [cbn in H4; congruence|]. intros i. by rewrite H6, Hd3.
Qed.

(** ** Rounds *)

(** Register writes, the command and the sector selection at the start of a
    round for one sector. *)
Lemma issue t hd D lba cmd (s : io C) :
  between t hd D s -> 0 <= lba <= max_lba -> cmd = 0x20 \/ cmd = 0x30 ->
  exists x0 x, select_sector hd lba 1 s = Ret tt (with_ctl x0 s)
    /\ cmd_out hd.1 cmd (with_ctl x0 s) = Ret tt (Io (io_kernel s) (flagged hd.1 true (io_ide s)) x)
    /\ (if cmd =? 0x20 then phase x = Fetching (Command hd.2 lba 1)
        else exists n, Z.of_nat n < 29998 /\ phase x = Preparing (Command hd.2 lba 1) n)
    /\ forall n, drive x n = D n.
Proof.
  intros [Hcm Hlk Hw Hr HD] Hl Hcmd.
  destruct (select_sector_run hd lba 1 s Hw Hr Hl ltac:(lia)) as (x & Hsel & Hpx & Hdx & H6 & Hcm1). change (if 1 =? 0 then 256 else 1) with 1 in Hcm1.
  assert (forall n, drive x n = D n) as HDx by (intros n; by rewrite Hdx).
  exists x, (outb (base + 7) cmd x). split; [exact Hsel|].
  split; [rewrite (cmd_out_run hd cmd (with_ctl x s)); [done|done|lia]|].
  destruct Hcmd as [->| ->].
  - destruct (ata_read x Hpx H6) as [H1 H2]. cbn. rewrite H1, Hcm1. split; [done|]. intros n. by rewrite H2.
  - destruct (ata_write x Hpx H6) as [(n & Hn & H1) H2]. cbn. rewrite Hcm1 in H1. split; [by exists n|]. intros i. by rewrite H2.
Qed.

(** Performing the first action, whose outcome is known. *)
Ltac istep E := rewrite (bind_Ret _ _ _ _ _ E).

(** Reading a table in a state that is wired. *)
Ltac idisk hd s Hw := let c := fresh "c" in let d := fresh "d" in let Hd := fresh "Hd" in let Hc := fresh "Hc" in
  let Hm := fresh "Hm" in let Hb := fresh "Hb" in
  destruct (wired_disk hd s Hw) as (c & d & Hd & Hc & _ & Hm & _ & Hb & _); istep Hd.

(** Taking the sector. *)
Lemma take_data hd q bs (s : io C) :
  wired hd (io_ide s) -> phase (io_ctl s) = DataIn q bs ->
  exists x, read_from_sector hd 1 s = Ret bs (with_ctl x s) /\ phase x = after_sector q Fetching /\ forall n, drive x n = drive (io_ctl s) n.
Proof.
  intros Hw Hp. unfold read_from_sector. idisk hd s Hw. istep Hc. change (size_in_byte 1 / 2) with 256.
  unfold in_words, reg_data. rewrite Hb, Z.add_0_r. destruct (ata_in (io_ctl s) q bs Hp) as (H1 & H2 & H3). rewrite H1. eexists. split; [done|]. by split.
Qed.

Lemma read_round_run t hd D f lba (s : io C) :
  between t hd D s -> 0 <= lba <= max_lba ->
  settles (disk_wake t hd.1) (fun bs s' => bs = sector (D hd.2) lba /\ between t hd D s') (read_round (S (S f)) hd lba 1 0 s).
Proof.
  intros Hbt Hl. unfold read_round. change (secs_op 1 0) with 1. change (u8 1) with 1.
  rewrite Z.add_0_r, (u32_id lba) by (rewrite max_lba_eq in Hl; lia).
  destruct (issue t hd D lba 0x20 s Hbt Hl) as (x0 & x & Hsel & Hcmd & Hp & Hdx); [by left|].
  change (0x20 =? 0x20) with true in Hp. cbv iota in Hp.
  pose proof Hbt as [Hcm Hlk Hw _ _]. istep Hsel. idisk hd (with_ctl x0 s) Hw. rewrite Hm. istep Hcmd.
  pose proof (wired_flagged hd true _ Hw) as Hw1. set (s1 := Io _ _ x).
  eapply settles_bind; [apply (wait_disk (disk_wake t hd.1) t hd f s1 ltac:(done) Hcm Hw1)|].
  intros [] s2 (Hcm2 & Hlk2 & Hi2 & Hx2). cbn [io_ide io_ctl s1] in Hi2, Hx2.
  assert (wired hd (io_ide s2)) as Hw2 by (rewrite Hi2; by apply wired_flagged).
  destruct (ata_fetch x _ Hp) as [Hp2 Hd2]. cbn [c_lba c_dev] in Hp2. rewrite Hdx in Hp2.
  destruct (status_same (work x)) as [Hp3 Hd3]; [intros q n E; congruence|]. rewrite <- Hx2, Hp2 in Hp3. rewrite <- Hx2 in Hd3.
  destruct (status_same (io_ctl s2)) as [Hp4 _]; [intros q n E; congruence|].
  destruct (look_ready (Z.to_nat 29998) (S (S f)) hd s2 Hw2) as (x3 & Hbw & Hp5 & Hd5); [by rewrite Hp4, Hp3|].
  rewrite <- (busy_wait_loop (S (S f)) hd s2 Hw2) in Hbw. istep Hbw. cbn [negb]. set (s3 := with_ctl x3 s2).
  destruct (take_data hd (Command hd.2 lba 1) (sector (D hd.2) lba) s3 Hw2) as (x4 & Hrd & Hp6 & Hd6); [cbn; congruence|].
  rewrite Hrd. constructor. split; [done|]. constructor; try done. intros n. cbn. rewrite Hd6. cbn. by rewrite Hd5, Hd3, Hd2, Hdx.
Qed.

(** The drives after the sectors of one were changed. *)
Definition put_drive (D : Z -> sectors) (dev : Z) (d : sectors) (n : Z) : sectors := if decide (n = dev) then d else D n.

(** Handing the sector over. *)
Lemma give_data hd q bs (s : io C) :
  wired hd (io_ide s) -> phase (io_ctl s) = DataOut q -> 512 <= Z.of_nat (length bs) ->
  exists x, write2sector hd bs 1 s = Ret tt (with_ctl x s) /\ phase x = Storing q (take 512 bs) /\ forall n, drive x n = drive (io_ctl s) n.
Proof.
  intros Hw Hp Hl. unfold write2sector. idisk hd s Hw. istep Hc. change (size_in_byte 1) with 512.
  replace (Z.of_nat (length bs) <? 512) with false by lia. unfold reg_data. rewrite Hb, Z.add_0_r. change (Z.to_nat 512) with 512%nat.
  destruct (ata_out (io_ctl s) q (take 512 bs) Hp) as (H1 & H2); [rewrite length_take; lia|]. eexists. split; [reflexivity|]. by split.
Qed.

Lemma disk_wake_io t ch (s s' : io C) : st_of (io_kernel s) t = Some TASK_BLOCKED -> io_wake t ch s s' -> disk_wake t ch s s'.
Proof. intros Hst. unfold io_wake. by rewrite Hst. Qed.

Lemma write_round_run t hd D f lba buf (s : io C) :
  between t hd D s -> (exists q, q ∈ thread_ready_list (io_kernel s)) -> 0 <= lba <= max_lba -> 512 <= Z.of_nat (length buf) ->
  settles (io_wake t hd.1)
    (fun _ s' => between t hd (put_drive D hd.2 (write_secs 1 lba buf (D hd.2))) s') (write_round (S (S f)) hd lba buf 1 0 s).
Proof.
  intros Hbt Hq Hl Hbuf. unfold write_round. change (secs_op 1 0) with 1. change (u8 1) with 1. change (Z.to_nat (0 * 512)) with 0%nat.
  rewrite Z.add_0_r, (u32_id lba), drop_0 by (rewrite max_lba_eq in Hl; lia).
  destruct (issue t hd D lba 0x30 s Hbt Hl) as (x0 & x & Hsel & Hcmd & Hp & Hdx); [by right|].
  change (0x30 =? 0x20) with false in Hp. cbv iota in Hp. destruct Hp as (n & Hn & Hp).
  pose proof Hbt as [Hcm Hlk Hw _ _]. istep Hsel. idisk hd (with_ctl x0 s) Hw. rewrite Hm. istep Hcmd.
  pose proof (wired_flagged hd true _ Hw) as Hw1. set (s1 := Io _ _ x).
  eapply settles_bind.
  { rewrite (busy_wait_loop (S (S f)) hd s1 Hw1).
    apply (busy_prepares t hd (Command hd.2 lba 1) (S f) (S (Z.to_nat 29998)) s1 n Hcm Hlk Hw1 Hq). left. split; [exact Hp|lia]. }
  intros ok s2 (-> & Hcm2 & Hlk2 & Hi2 & Hp2 & Hd2). cbn [negb]. assert (wired hd (io_ide s2)) as Hw2 by (by rewrite Hi2).
  destruct (give_data hd (Command hd.2 lba 1) buf s2 Hw2 Hp2 Hbuf) as (x3 & Hwr & Hp3 & Hd3).
  istep Hwr. set (s3 := with_ctl x3 s2).
  eapply settles_mono; [apply (wait_disk (io_wake t hd.1) t hd f s3 (disk_wake_io t hd.1) Hcm2 Hw2)|].
  intros [] s4 (Hcm4 & Hlk4 & Hi4 & Hx4). cbn [io_ide io_ctl s3 with_ctl] in Hi4, Hx4.
  destruct (ata_store x3 _ _ Hp3) as [Hp4 Hd4]. cbn [c_dev c_lba] in Hd4. change (phase (work x3) = AtRest) in Hp4.
  destruct (status_same (work x3)) as [Hp5 Hd5]; [intros q m E; congruence|]. rewrite <- Hx4 in Hp5, Hd5.
  constructor; [done|done|rewrite Hi4; by apply wired_flagged|congruence|].
  intros i. rewrite Hd5, Hd4, Hd3, Hd2. change (io_ctl s1) with x. rewrite Hdx. unfold put_drive.
  case_decide; [subst i|done]. by rewrite write_secs_take.
Qed.

(** ** The lock around a transfer *)

Lemma take_channel t ch f k :
  0 <= ch < 2 -> calm t ch k -> lock_open ch k ->
  exists k', lock_acquire (S f) (ch_lock ch) k = Ret tt k' /\ calm t ch k' /\ lock_mine t ch k'
    /\ thread_ready_list k' = thread_ready_list k.
Proof.
  intros Hch [Hok Hrun Hid Hd] (Hl & ws & Hs & Hb).
  assert (0 <> running k) as Hne.
  { intros He. destruct (sp_cur _ (proj1 Hok)) as [tk Htk]. rewrite <- He in Htk. pose proof (sp_null _ (proj1 Hok)). congruence. }
  eexists. split; [by apply (lock_acquire_free f k _ 0 ws)|]. split; [|split; [|done]].
  - constructor; [by apply set_locks_ok, with_sema_ok|done|done|]. cbn.
    rewrite lookup_insert_ne; [done|]. intros He. by apply (disk_done_lock ch ch Hch Hch).
  - split; [cbn; by rewrite lookup_insert_eq, Hrun|]. exists ws. split; [cbn; by rewrite lookup_insert_eq|done].
Qed.

Lemma give_channel t ch k :
  0 <= ch < 2 -> calm t ch k -> lock_mine t ch k ->
  exists k', lock_release (ch_lock ch) k = Ret tt k' /\ calm t ch k' /\ lock_open ch k'.
Proof.
  intros Hch [Hok Hrun Hid Hd] (Hl & ws & Hs & Hnd & Hb). rewrite <- Hrun in Hl. rewrite (lock_release_last k _ Hl).
  set (k0 := with_lock k _ _). assert (sched_ok k0) as Hok0 by by apply set_locks_ok.
  pose proof (disk_done_lock ch ch Hch Hch) as Hne.
  destruct ws as [|w ws].
  - eexists. split; [by apply sema_up_none|]. split.
    + constructor; [by apply with_sema_ok|done|done|]. cbn. by rewrite lookup_insert_ne.
    + split; [cbn; by rewrite lookup_insert_eq|]. exists []. split; [cbn; by rewrite lookup_insert_eq|done].
  - destruct (Hb w (list_elem_of_here _ _)) as (Hwi & tw & Htw & Hbw).
    destruct (sema_up_wakes k0 (lock_sema (ch_lock ch)) w ws tw Hs Hok0 Htw Hbw) as [Hup Hok1].
    eexists. split; [exact Hup|]. apply NoDup_cons in Hnd as [Hw Hnd]. split.
    + constructor; [by apply with_sema_ok|done|done|]. cbn. by rewrite lookup_insert_ne.
    + split; [cbn; by rewrite lookup_insert_eq|]. exists ws. split; [cbn; by rewrite lookup_insert_eq|]. split; [done|].
      intros v Hv. destruct (Hb v) as (Hvi & tv & Htv & Hbv); [by right|]. split; [done|]. exists tv. split; [|done]. cbn.
      rewrite lookup_insert_ne; [done|]. by intros ->.
Qed.

Lemma rest_phase t hd D (s : io C) k x :
  ready t hd D s -> calm t hd.1 k -> lock_mine t hd.1 k -> phase x = AtRest -> (forall n, drive x n = D n) ->
  between t hd D (Io k (io_ide s) x).
Proof. intros [] Hc Hm Hp HD. by constructor. Qed.

(** The beginning and the end of both calls. *)
Lemma begin_transfer t hd D f (s : io C) :
  ready t hd D s ->
  exists d s1 s2, disk_at hd s = Ret d s /\ my_channel d = hd.1 /\ zoom (lock_acquire (S f) (ch_lock hd.1)) s = Ret tt s1
    /\ select_disk hd s1 = Ret tt s2 /\ between t hd D s2 /\ thread_ready_list (io_kernel s2) = thread_ready_list (io_kernel s).
Proof.
  intros Hr. pose proof Hr as [Hcm Hlk Hw Hp HD]. destruct (wired_disk hd s Hw) as (c & d & Hd & _ & _ & Hm & _).
  destruct (take_channel t hd.1 f (io_kernel s)) as (k' & Ha & Hcm' & Hlk' & Hrl); [apply Hw|done|done|].
  set (s1 := Io k' (io_ide s) (io_ctl s)). destruct (select_disk_run hd s1 Hw Hp) as (x & Hsel & Hpx & Hdx).
  exists d, s1, (with_ctl x s1). split; [done|]. split; [done|]. split; [exact (zoom_Ret _ s tt k' Ha)|].
  split; [exact Hsel|]. split; [|exact Hrl]. apply (rest_phase t hd D s); try done. intros n. by rewrite Hdx.
Qed.

Lemma end_transfer t hd D (s : io C) :
  between t hd D s -> exists s', zoom (lock_release (ch_lock hd.1)) s = Ret tt s' /\ ready t hd D s'.
Proof.
  intros [Hcm Hlk Hw Hp HD]. destruct (give_channel t hd.1 (io_kernel s)) as (k' & Hrel & Hcm' & Hlk'); [apply Hw|done|done|].
  exists (Io k' (io_ide s) (io_ctl s)). split; [exact (zoom_Ret _ s tt k' Hrel)|]. by constructor.
Qed.

(** One sector is read. *)
Lemma ide_read_run_ata t hd D f n lba (s : io C) :
  ready t hd D s -> 0 <= lba <= max_lba ->
  settles (disk_wake t hd.1) (fun bs s' => bs = sector (D hd.2) lba /\ ready t hd D s') (Ide.ide_read (S n) (S (S f)) hd lba 1 s).
Proof.
  intros Hr Hl. destruct (begin_transfer t hd D (S f) s Hr) as (d & s1 & s2 & Hd & Hm & Ha & Hsel & Hbt & _).
  unfold Ide.ide_read. rewrite (bind_Ret (assert (lba <=? max_lba)) _ s tt s) by (unfold assert; by replace (lba <=? max_lba) with true by lia).
  rewrite (bind_Ret (assert (0 <? 1)) _ s tt s) by done. istep Hd. rewrite Hm. istep Ha. istep Hsel.
  eapply (settles_bind _ (fun bs s' => bs = sector (D hd.2) lba /\ between t hd D s')).
  - cbn [read_rounds]. change (0 <? 1) with true. cbv iota. eapply settles_bind; [by apply (read_round_run t hd D f lba s2)|].
    intros bs s3 [-> Hbt3]. change (u32 (0 + secs_op 1 0)) with 1.
    assert (read_rounds n (S (S f)) hd lba 1 1 s3 = Ret [] s3) as Hend by (by destruct n). istep Hend. constructor. by rewrite app_nil_r.
  - intros bs s3 [-> Hbt3]. destruct (end_transfer t hd D s3 Hbt3) as (s4 & Hrel & Hr4). istep Hrel. by constructor.
Qed.

(** One sector is written. *)
Lemma ide_write_run_ata t hd D f n lba buf (s : io C) :
  ready t hd D s -> (exists q, q ∈ thread_ready_list (io_kernel s)) -> 0 <= lba <= max_lba -> 512 <= Z.of_nat (length buf) ->
  settles (io_wake t hd.1) (fun _ s' => ready t hd (put_drive D hd.2 (write_secs 1 lba buf (D hd.2))) s')
    (Ide.ide_write (S n) (S (S f)) hd lba buf 1 s).
Proof.
  intros Hr Hq Hl Hbuf. destruct (begin_transfer t hd D (S f) s Hr) as (d & s1 & s2 & Hd & Hm & Ha & Hsel & Hbt & Hrl).
  unfold Ide.ide_write. rewrite (bind_Ret (assert (lba <=? max_lba)) _ s tt s) by (unfold assert; by replace (lba <=? max_lba) with true by lia).
  rewrite (bind_Ret (assert (0 <? 1)) _ s tt s) by done. istep Hd. rewrite Hm. istep Ha. istep Hsel.
  set (D' := put_drive D hd.2 (write_secs 1 lba buf (D hd.2))). eapply (settles_bind _ (fun _ s' => between t hd D' s')).
  - cbn [write_rounds]. change (0 <? 1) with true. cbv iota.
    eapply settles_bind; [apply (write_round_run t hd D f lba buf s2); try done; by rewrite Hrl|].
    intros [] s3 Hbt3. change (u32 (0 + secs_op 1 0)) with 1.
    assert (write_rounds n (S (S f)) hd lba buf 1 1 s3 = Ret tt s3) as Hend by (by destruct n). rewrite Hend. by constructor.
  - intros [] s3 Hbt3. destruct (end_transfer t hd D' s3 Hbt3) as (s4 & Hrel & Hr4). rewrite Hrel. by constructor.
Qed.

(** ** The interrupt *)

Lemma status_blocked k w : (exists tw, tasks k !! w = Some tw /\ blocked (status tw)) <-> (exists st, st_of k w = Some st /\ blocked st).
Proof.
  unfold st_of. split.
  - intros (tw & -> & Hb). by exists (status tw).
  - intros (st & Hst & Hb). apply fmap_Some in Hst as (tw & -> & ->). by exists tw.
Qed.

(** Scheduling leaves a queue of blocked tasks alone. *)
Lemma blocked_scheduled ws k t nxt rest k' :
  sched_pre k -> tasks k !! running k = Some t -> scheduled k t nxt rest k' -> all_blocked ws k -> all_blocked ws k'.
Proof.
  intros Hp Ht Hs [Hnd Hb]. split; [done|]. intros w Hw. destruct (Hb w Hw) as [Hi Hbw]. rewrite (sf_idle _ _ (sd_frame _ _ _ _ _ Hs)).
  split; [done|]. apply status_blocked. apply status_blocked in Hbw as (st & Hst & Hbw). exists st. split; [|done].
  assert (st <> TASK_READY /\ st <> TASK_RUNNING) as [H1 H2] by (destruct Hbw as [->|[->| ->]]; done).
  rewrite (sd_status _ _ _ _ _ Hs). rewrite !decide_False; [done| |].
  - intros [<- Hr]. unfold st_of in Hst. rewrite Ht in Hst. cbn in Hst. congruence.
  - intros <-. pose proof (sd_queue _ _ _ _ _ Hs) as Hq. unfold queue_of in Hq.
    assert (nxt ∈ (if bool_decide (status t = TASK_RUNNING) then thread_ready_list k ++ [running k] else thread_ready_list k) \/ nxt = idle_thread k)
      as [Hin|]; [|  |done].
    { destruct (if bool_decide _ then _ else _); [right; congruence|left; injection Hq as <- _; apply list_elem_of_here]. }
    revert Hin. case_bool_decide as Hr; rewrite ?elem_of_app, ?list_elem_of_singleton.
    + intros [Hin|Heq]; [apply (sp_ready _ Hp) in Hin; congruence|]. rewrite Heq in Hst. unfold st_of in Hst. rewrite Ht in Hst. cbn in Hst. congruence.
    + intros Hin. apply (sp_ready _ Hp) in Hin. congruence.
Qed.

Lemma two_channels x : 0 <= x < 2 -> x = 0 \/ x = 1.
Proof. lia. Qed.

(** The handler of a channel that expects its interrupt. *)
Lemma handler_run hd c (s : io C) k' :
  wired hd (io_ide s) -> rd (channels (io_ide s)) hd.1 = Ok c -> expecting_intr c = true ->
  sema_up (disk_done hd.1) (io_kernel s) = Ret tt k' ->
  intr_hd_handler (0x2e + hd.1) s = Ret tt (Io k' (flagged hd.1 false (io_ide s)) (inb (base + 7) (io_ctl s)).2).
Proof.
  intros Hw Hc He Hup. pose proof Hw as (Hch & _ & c' & d & Hc' & _ & Hb & Hi & _). assert (c' = c) as -> by congruence.
  unfold intr_hd_handler. rewrite (bind_Ret (assert _) _ s tt s) by (by destruct (two_channels _ Hch) as [->| ->]).
  replace (u8 (0x2e + hd.1 - 0x2e)) with hd.1 by (rewrite u8_id by lia; lia). istep (channel_at_run hd.1 c s Hc).
  rewrite (bind_Ret (assert _) _ s tt s) by (unfold assert; by rewrite Hi, Z.eqb_refl). rewrite He.
  istep (set_expecting_run hd.1 false c s Hc). set (s1 := Io _ _ _). istep (zoom_io _ tt _ k' (flagged hd.1 false (io_ide s)) (io_ctl s) Hup).
  unfold reg_status. rewrite Hb. reflexivity.
Qed.

(** The task [t] sleeps until the disk has done its work; [k] is the kernel when
    it goes to sleep. *)
Record asleep (t ch : Z) (k k1 : kernel) : Prop := {
  as_sched : sched_ok k1;
  as_away : running k1 <> t;
  as_task : exists t1, tasks k1 !! t = Some t1 /\ blocked (status t1);
  as_idle : idle_thread k1 = idle_thread k;
  as_off : intr_get_status (eflags k1) = INTR_OFF;
  as_done : semas k1 !! disk_done ch = Some (Semaphore 0 [t]);
  as_locks : locks k1 = locks k;
  as_queue : exists ws, semas k1 !! lock_sema (ch_lock ch) = Some (Semaphore 0 ws) /\ all_blocked ws k1 /\ t ∉ ws
}.

(** A running task is in no queue. *)
Lemma running_not_queued k ws : sched_ok k -> all_blocked ws k -> running k ∉ ws.
Proof.
  intros [_ Hst] [_ Hb] Hin. destruct (Hb _ Hin) as (_ & tw & Htw & Hbw). unfold st_of in Hst. rewrite Htw in Hst.
  destruct Hbw as [E|[E|E]]; cbn in Hst; congruence.
Qed.

Lemma sleeps_run t ch f k :
  0 <= ch < 2 -> calm t ch k -> lock_mine t ch k ->
  exists k1 rest, sema_down (S f) (disk_done ch) k = Switch k1 rest /\ asleep t ch k k1.
Proof.
  intros Hch [Hok Hrun Hid Hd] (Hl & ws & Hs & Hws). destruct (sp_cur _ (proj1 Hok)) as [tk Htk].
  pose proof (disk_done_lock ch ch Hch Hch) as Hne. pose proof (running_not_queued k ws Hok Hws) as Hnin.
  destruct (sema_down_waits f k (disk_done ch) [] tk Hok) as (nxt & rest & k1 & Hdn & Hsd & Haway);
    [congruence|done|done|apply not_elem_of_nil|]. set (k0 := waiting _ _ _ _) in Hsd. rewrite Hrun in Haway, Hnin.
  assert (sched_pre k0) as Hpre0 by (apply blocking_pre; [apply with_sema_ok, set_eflags_ok, Hok|exact Htk|left; reflexivity]).
  assert (tasks k0 !! running k0 = Some (set_status TASK_BLOCKED tk)) as Ht0 by (cbn; by rewrite lookup_insert_eq).
  pose proof (sd_frame _ _ _ _ _ Hsd) as Hf. exists k1. eexists. split; [exact Hdn|]. constructor.
  - apply Hsd.
  - rewrite (sd_running _ _ _ _ _ Hsd). congruence.
  - assert (st_of k1 t = Some TASK_BLOCKED) as Hst.
    { rewrite (sd_status _ _ _ _ _ Hsd), !decide_False by (congruence || (intros [_ H]; discriminate H)).
      unfold st_of. rewrite <- Hrun. change (running k) with (running k0). by rewrite Ht0. }
    unfold st_of in Hst. apply fmap_Some in Hst as (t1 & Ht1 & Hb1). exists t1. split; [done|]. by left.
  - by rewrite (sf_idle _ _ Hf).
  - rewrite (sf_eflags _ _ Hf). apply disable_off.
  - rewrite (sf_semas _ _ Hf). cbn. by rewrite lookup_insert_eq, Hrun.
  - by rewrite (sf_locks _ _ Hf).
  - exists ws. split; [rewrite (sf_semas _ _ Hf); cbn; by rewrite lookup_insert_ne|]. split; [|done].
    apply (blocked_scheduled ws k0 _ nxt rest k1 Hpre0 Ht0 Hsd). destruct Hws as [Hnd Hws]. split; [done|]. intros w Hin.
    destruct (Hws w Hin) as (Hi & tw & Htw & Hb). split; [done|]. exists tw. split; [|done]. cbn. rewrite lookup_insert_ne; [done|congruence].
Qed.

(** The semaphore goes up, and the next turn is the task's. *)
Lemma wakes_run t ch k k1 :
  0 <= ch < 2 -> t <> idle_thread k -> locks k !! ch_lock ch = Some (Lock t 1) -> asleep t ch k k1 ->
  exists k2 k3 rest, sema_up (disk_done ch) k1 = Ret tt k2 /\ schedule k2 = Switch k3 rest
    /\ sched_ok k3 /\ running k3 = t /\ idle_thread k3 = idle_thread k /\ intr_get_status (eflags k3) = INTR_OFF
    /\ semas k3 !! disk_done ch = Some (Semaphore 1 []) /\ lock_mine t ch k3.
Proof.
  intros Hch Hid Hl [Hok1 Haway (t1 & Ht1 & Hb1) Hi1 Hoff Hd1 Hl1 (ws & Hs & Hws1 & Htws)]. pose proof (disk_done_lock ch ch Hch Hch) as Hne.
  destruct (sema_up_wakes k1 (disk_done ch) t [] t1 Hd1 Hok1 Ht1 Hb1) as [Hup Hok2].
  set (k2 := with_sema (unblocked k1 t t1) (disk_done ch) (Semaphore 1 [])) in *. assert (sched_ok k2) as Hok2' by (by apply with_sema_ok).
  destruct (sp_cur _ (proj1 Hok2')) as [t2 Ht2].
  destruct (schedule_spec k2 t2 (proj1 Hok2') Hoff Ht2) as (nxt2 & rest2 & k3 & Hsch & Hsd2).
  pose proof (sd_queue _ _ _ _ _ Hsd2) as Hq. unfold queue_of in Hq.
  assert (status t2 = TASK_RUNNING) as Hr2 by (destruct Hok2' as [_ H]; unfold st_of in H; rewrite Ht2 in H; by injection H).
  rewrite Hr2 in Hq. cbn in Hq. injection Hq as <- _. pose proof (sd_frame _ _ _ _ _ Hsd2) as Hf2.
  exists k2, k3. eexists. split; [exact Hup|]. split.
  { rewrite Hsch. unfold resumes. change (running k2) with (running k1). by rewrite (proj2 (Z.eqb_neq (running k1) t)) by done. }
  split; [apply Hsd2|]. split; [apply Hsd2|]. split; [by rewrite (sf_idle _ _ Hf2)|]. split; [by rewrite (sf_eflags _ _ Hf2)|].
  split; [rewrite (sf_semas _ _ Hf2); cbn; by rewrite lookup_insert_eq|].
  split; [rewrite (sf_locks _ _ Hf2); change (locks k2) with (locks k1); by rewrite Hl1|]. exists ws.
  split; [rewrite (sf_semas _ _ Hf2); cbn; by rewrite lookup_insert_ne|].
  apply (blocked_scheduled ws k2 t2 t rest2 k3); [apply Hok2'|done|done|]. destruct Hws1 as [Hnd Hb]. split; [done|]. intros w Hin.
  destruct (Hb w Hin) as (Hi & tw & Htw & Hbw). split; [done|]. exists tw. split; [|done]. cbn. rewrite lookup_insert_ne; [done|by intros <-].
Qed.

(** C19: the interrupt of the disk brings the task back that waits for it.  When
    the task has issued a command and sleeps in [sema_down], the handler that
    runs as soon as the controller has done its work makes it ready in front of
    all others, so the next call of [schedule] resumes it, in a state as the
    driver needs it. *)
Theorem disk_interrupt_wakes (t : Z) (hd : Z * Z) (f : nat) (s : io C) (c : ide_channel) :
  calm t hd.1 (io_kernel s) -> lock_mine t hd.1 (io_kernel s) -> wired hd (io_ide s) ->
  rd (channels (io_ide s)) hd.1 = Ok c -> expecting_intr c = true ->
  exists s1 rest s2 s3 rest', zoom (sema_down (S f) (disk_done hd.1)) s = Switch s1 rest
    /\ intr_hd_handler (0x2e + hd.1) (with_ctl (work (io_ctl s1)) s1) = Ret tt s2
    /\ zoom schedule s2 = Switch s3 rest' /\ disk_wake t hd.1 s1 s3.
Proof.
  intros Hcm Hlk Hw Hc He. pose proof Hw as [Hch _]. destruct (sleeps_run t hd.1 f _ Hch Hcm Hlk) as (k1 & rest & Hdn & Has).
  destruct (wakes_run t hd.1 _ k1 Hch (cm_idle _ _ _ Hcm) (proj1 Hlk) Has) as (k2 & k3 & rest3 & Hup & Hsch & Hok & Hrun & Hid & Hoff & Hd & Hl).
  set (s1 := Io k1 (io_ide s) (io_ctl s)). pose proof (handler_run hd c (with_ctl (work (io_ctl s)) s1) k2 Hw Hc He Hup) as Hh.
  set (s2 := Io k2 _ _) in Hh. exists s1. eexists. exists s2, (Io k3 (io_ide s2) (io_ctl s2)). eexists.
  split; [exact (zoom_io_switch _ s k1 _ Hdn)|]. split; [exact Hh|]. split; [exact (zoom_io_switch schedule s2 k3 _ Hsch)|].
  constructor; cbn [io_kernel io_ide io_ctl s1 s2 with_ctl]; try done. rewrite Hid. apply Hcm.
Qed.
End Spec.

(** ** A controller that keeps the promises *)

Record sim : Type := Sim { sm_phase : ata_phase; sm_regs : Z -> Z; sm_drive : Z -> sectors }.

(** The controller with its ports from 0x1f0 on. *)
Definition sim_base : Z := 0x1f0.

Definition sim_outb (p v : Z) (c : sim) : sim :=
  let r := p - sim_base in
  if bool_decide (2 <= r <= 6) then Sim (sm_phase c) (fun r' => if decide (r = r') then v else sm_regs c r') (sm_drive c)
  else if r =? 7 then
    match sm_phase c with
    | AtRest =>
      if v =? 0x20 then Sim (Fetching (command_of (sm_regs c))) (sm_regs c) (sm_drive c)
      else if v =? 0x30 then Sim (Preparing (command_of (sm_regs c)) 1) (sm_regs c) (sm_drive c) else c
    | _ => c
    end
  else c.

Definition sim_status (p : ata_phase) : Z :=
  match p with AtRest => 0x50 | DataIn _ _ | DataOut _ => 0x58 | Fetching _ | Preparing _ _ | Storing _ _ => 0x80 end.

(** More words than a sector has are lost: they read as ones. *)
Definition sim_insw (n : Z) (c : sim) : list Z * sim :=
  match sm_phase c with
  | DataIn q bs => (bs ++ replicate (Z.to_nat (2 * (n - 256))) 255, Sim (after_sector q Fetching) (sm_regs c) (sm_drive c))
  | _ => (replicate (Z.to_nat (2 * n)) 255, c)
  end.

Definition sim_outsw (bs : list Z) (c : sim) : sim :=
  match sm_phase c with DataOut q => Sim (Storing q (take 512 bs)) (sm_regs c) (sm_drive c) | _ => c end.

#[export] Instance sim_ports : Ports sim :=
  {| outb := sim_outb; inb := fun _ c => (sim_status (sm_phase c), c); outsw := fun _ => sim_outsw; insw := fun _ => sim_insw |}.

Definition sim_work (c : sim) : sim :=
  match sm_phase c with
  | Fetching q => Sim (DataIn q (sector (sm_drive c (c_dev q)) (c_lba q))) (sm_regs c) (sm_drive c)
  | Storing q bs => Sim (after_sector q DataOut) (sm_regs c) (fun n =>
      if decide (n = c_dev q) then write_secs 1 (c_lba q) bs (sm_drive c n) else sm_drive c n)
  | _ => c
  end.

#[export] Instance sim_ata : Ata sim sim_base.
Proof.
  refine {| phase := sm_phase; regs := sm_regs; drive := sm_drive; work := sim_work |}.
  - intros c r v Hp Hr Hv. cbn [outb sim_ports]. unfold sim_outb. replace (sim_base + r - sim_base) with r by lia. by rewrite bool_decide_true.
  - intros c Hp _. cbn [outb sim_ports]. unfold sim_outb. change (bool_decide _) with false. cbn. by rewrite Hp.
  - intros c Hp _. cbn [outb sim_ports]. unfold sim_outb. change (bool_decide _) with false. cbn. rewrite Hp. split; [|done]. exists 1%nat. split; [lia|done].
  - intros c q Hp. unfold sim_work. by rewrite Hp.
  - intros c q bs Hp. unfold sim_work. by rewrite Hp.
  - intros c. split; [done|by left].
  - intros c. cbn. by destruct (sm_phase c).
  - intros c q bs Hp. cbn. unfold sim_insw. rewrite Hp. cbn. by rewrite app_nil_r.
  - intros c q bs Hp Hl. cbn. unfold sim_outsw. rewrite Hp. cbn. by rewrite take_ge by lia.
Defined.

(** The main thread, and two disks on the first channel. *)
Definition demo_disk (dev : Z) : ata_disk := AtaDisk [115; 100; 97 + dev] 0 dev [] [].

Definition demo_channel : ide_channel := IdeChannel [105; 100; 101; 48] sim_base 0x2e false [demo_disk 0; demo_disk 1].

Definition demo_disk_kernel : kernel :=
  set_locks (<[ch_lock 0 := Lock 0 0]> ∅)
    (set_semas (<[disk_done 0 := Semaphore 0 []]> (<[lock_sema (ch_lock 0) := Semaphore 1 []]> ∅)) demo_kernel).

Definition demo_io (D : Z -> sectors) : io sim :=
  Io demo_disk_kernel (IdeState 1 [demo_channel] 0 0 0 [] []) (Sim AtRest (fun _ => 0) D).

Lemma demo_ready D hd : hd.1 = 0 -> hd.2 = 0 \/ hd.2 = 1 -> ready 0xc009e000 hd D (demo_io D).
Proof.
  destruct hd as [ch dev]. cbn. intros -> Hdev. constructor; cbn [fst snd].
  - constructor; [|done|done|done]. split; [destruct demo_kernel_ok as [[] _]; by constructor|apply demo_kernel_ok].
  - split; [done|]. exists []. split; [done|]. split; [constructor|]. intros w Hw. by apply not_elem_of_nil in Hw.
  - split; [done|]. split; [done|]. exists demo_channel, (demo_disk dev). by destruct Hdev as [->| ->].
  - done.
  - done.
Qed.

(** ** Properties *)

(** C17: [ide_read] of one sector refines the [ide_read] of the file system's
    model, on a controller with the PIO protocol of ATA.  When nobody uses the
    channel, a request for one sector that the model answers with some bytes
    comes to its end in the driver with these bytes, on whichever task switch it
    waits for the interrupt; the disks are unchanged and the channel is free
    again. *)
Theorem driver_reads `{HA : Ata C base} (t : Z) (hd : Z * Z) (D : Z -> sectors) (f n : nat) (cap lba : Z)
    (s : io C) (fs fs' : fsys) (bs : list Z) :
  ready t hd D s -> D hd.2 = disk fs -> 0 <= lba -> Fsys.ide_read cap lba 1 fs = Ok (bs, fs') ->
  settles (disk_wake t hd.1) (fun bs' s' => bs' = bs /\ fs' = fs /\ ready t hd D s') (Ide.ide_read (S n) (S (S f)) hd lba 1 s).
Proof.
  intros Hr Hfs Hl Hrd. unfold Fsys.ide_read in Hrd.
  destruct (Z.leb_spec lba max_lba) as [Hmax|]; [|done]. rewrite (sbind_Ok _ _ fs tt fs) in Hrd by done.
  rewrite (sbind_Ok _ _ fs tt fs) in Hrd by done. destruct (cap <? 512 * 1); [done|]. injection Hrd as <- <-. rewrite <- Hfs.
  eapply settles_mono; [by apply (ide_read_run_ata t hd D f n lba s)|]. intros bs' s' [-> Hr']. split; [|done].
  change (Z.to_nat 1) with 1%nat. cbn [read_secs]. by rewrite app_nil_r.
Qed.

Lemma driver_reads_witness :
  settles (disk_wake 0xc009e000 0) (fun bs s' => bs = zeros 512 /\ ready 0xc009e000 (0, 1) (fun _ => ∅) s')
    (Ide.ide_read 1 2 (0, 1) 5 1 (demo_io (fun _ => ∅))).
Proof.
  eapply settles_mono; [apply (driver_reads 0xc009e000 (0, 1) (fun _ => ∅) 0 0 1024 5 _ demo_fs demo_fs (zeros 512))|].
  - apply demo_ready; [reflexivity|right; reflexivity].
  - reflexivity.
  - lia.
  - vm_compute. reflexivity.
  - intros bs s' (-> & _ & Hr). split; [reflexivity|exact Hr].
Defined.

(** C18: [ide_write] of one sector refines the [ide_write] of the file system's
    model, on a controller with the PIO protocol of ATA, also when the drive is
    busy at first and the driver sleeps between its looks: the call comes to its
    end, the disk holds what the model's disk holds, the other disk is unchanged
    and the channel is free again.  Another task is ready, to which the driver
    can give the processor while it sleeps. *)
Theorem driver_writes `{HA : Ata C base} (t : Z) (hd : Z * Z) (D : Z -> sectors) (f n : nat) (lba : Z)
    (buf : list Z) (s : io C) (fs fs' : fsys) :
  ready t hd D s -> (exists q, q ∈ thread_ready_list (io_kernel s)) -> D hd.2 = disk fs -> 0 <= lba ->
  Fsys.ide_write lba buf 1 fs = Ok (tt, fs') ->
  settles (io_wake t hd.1) (fun _ s' => ready t hd (put_drive D hd.2 (disk fs')) s') (Ide.ide_write (S n) (S (S f)) hd lba buf 1 s).
Proof.
  intros Hr Hq Hfs Hl Hwr. unfold Fsys.ide_write in Hwr.
  destruct (Z.leb_spec lba max_lba) as [Hmax|]; [|done]. rewrite (sbind_Ok _ _ fs tt fs) in Hwr by done.
  rewrite (sbind_Ok _ _ fs tt fs) in Hwr by done.
  destruct (Z.ltb_spec (Z.of_nat (length buf)) (512 * 1)); [done|]. injection Hwr as <-. cbn [disk set_disk]. rewrite <- Hfs.
  apply (ide_write_run_ata t hd D f n lba buf s); done || lia.
Qed.

Lemma driver_writes_witness :
  exists fs', Fsys.ide_write 7 (replicate 512 65) 1 demo_fs = Ok (tt, fs')
    /\ settles (io_wake 0xc009e000 0) (fun _ s' => ready 0xc009e000 (0, 0) (put_drive (fun _ => ∅) 0 (disk fs')) s')
         (Ide.ide_write 1 2 (0, 0) 7 (replicate 512 65) 1 (demo_io (fun _ => ∅))).
Proof.
  eexists. split; [vm_compute; reflexivity|].
  apply (driver_writes 0xc009e000 (0, 0) (fun _ => ∅) 0 0 7 _ _ demo_fs).
  - apply demo_ready; [reflexivity|left; reflexivity].
  - exists 0xc0101000. apply list_elem_of_here.
  - reflexivity.
  - lia.
  - vm_compute. reflexivity.
Defined.

(** The main thread has issued a command to read a sector and has the lock. *)
Definition demo_waiting : io sim :=
  Io (set_locks (<[ch_lock 0 := Lock 0xc009e000 1]> ∅)
       (set_semas (<[disk_done 0 := Semaphore 0 []]> (<[lock_sema (ch_lock 0) := Semaphore 0 []]> ∅)) demo_kernel))
    (IdeState 1 [set_expecting true demo_channel] 0 0 0 [] []) (Sim (Fetching (Command 1 5 1)) (fun _ => 0) (fun _ => ∅)).

Lemma disk_interrupt_wakes_witness :
  exists s1 rest s2 s3 rest', zoom (sema_down 1 (disk_done 0)) demo_waiting = Switch s1 rest
    /\ intr_hd_handler 0x2e (with_ctl (work (io_ctl s1)) s1) = Ret tt s2
    /\ zoom schedule s2 = Switch s3 rest' /\ disk_wake 0xc009e000 0 s1 s3.
Proof.
  apply (disk_interrupt_wakes 0xc009e000 (0, 0) 0 demo_waiting (set_expecting true demo_channel)).
  - constructor; [|reflexivity|discriminate|reflexivity]. split; [destruct demo_kernel_ok as [[] _]; constructor; assumption|apply demo_kernel_ok].
  - split; [reflexivity|]. exists []. split; [reflexivity|]. split; [constructor|]. intros w Hw. by apply not_elem_of_nil in Hw.
  - split; [cbn; lia|]. split; [left; reflexivity|]. exists (set_expecting true demo_channel), (demo_disk 0). repeat split; reflexivity.
  - reflexivity.
  - reflexivity.
Defined.
