(* ===== verification/Inode.v ===== *)
(** * Inode: fs/inode.c

    Where an inode is on the disk, how it is written, read through the list of
    open inodes, closed, released and initialised.  The theorems look at the
    disk as one sequence of bytes, in which the inode table is an array of
    76-byte cells that may straddle sectors. *)
From S2P Require Import Prelude Bitmap CString Disk Fsys.

(** ** Operations *)

Record inode_position : Type := InodePosition {
  two_sec : bool;
  sec_lba : Z;
  off_size : Z
}.

Definition inode_locate (inode_no : Z) : st fsys inode_position :=
  _ ← sassert (inode_no <? 4096);
  p ← gets sb;
  let off := u32 (inode_no * inode_size) in
  let off_sec := off / 512 in
  let off_size_in_sec := off mod 512 in
  let left_in_sec := 512 - off_size_in_sec in
  mret (InodePosition (left_in_sec <? inode_size) (u32 (inode_table_lba p + off_sec)) off_size_in_sec).

(** Read, change and write back the one or two sectors of an inode, in a buffer
    of [cap] bytes: the common end of [inode_sync] and [inode_delete]. *)
Definition patch_inode (pos : inode_position) (cap : Z) (x : list Z) : st fsys unit :=
  let n := if two_sec pos then 2 else 1 in
  buf ← ide_read cap (sec_lba pos) n;
  ide_write (sec_lba pos) (splice buf (off_size pos) x) n.

(** [cap] is the size of the buffer [io_buf] designates.  The number is
    truncated to [uint8_t]. *)
Definition inode_sync (i : inode) (cap : Z) : st fsys unit :=
  let inode_no := u8 (i_no i) in
  pos ← inode_locate inode_no;
  s ← sget;
  _ ← sassert (sec_lba pos <=? u32 (start_lba s + sec_cnt s));
  let pure_inode := set_write_deny false (set_i_open_cnts 0 i) in
  patch_inode pos cap (enc_inode pure_inode).

(** The walk through the open inodes. *)
Fixpoint find_open (l : list Z) (inode_no : Z) : st fsys (option Z) :=
  match l with
  | [] => mret None
  | p :: r => i ← inode_at p; if i_no i =? inode_no then mret (Some p) else find_open r inode_no
  end.

Definition inode_open (inode_no : Z) : st fsys Z :=
  l ← gets open_inodes;
  f ← find_open l inode_no;
  match f with
  | Some p => _ ← upd_inode p (fun i => set_i_open_cnts (u32 (i_open_cnts i + 1)) i); mret p
  | None =>
    pos ← inode_locate inode_no;
    inode_found ← malloc inode_size;
    let n := if two_sec pos then 2 else 1 in
    inode_buf ← malloc (512 * n);
    buf ← (if inode_buf =? 0 then sfault else ide_read (512 * n) (sec_lba pos) n);
    _ ← sassert (negb (inode_found =? 0));
    let i := dec_inode (slice buf (off_size pos) inode_size) in
    _ ← upd (fun s => set_open_inodes (inode_found :: open_inodes s)
                        (set_inodes (<[inode_found := set_i_open_cnts 1 i]> (inodes s)) s));
    mret inode_found
  end.

(** [list_remove] of a node that is on no list follows stale pointers. *)
Definition inode_close (p : Z) : st fsys unit :=
  _ ← upd_inode p (fun i => set_i_open_cnts (u32 (i_open_cnts i - 1)) i);
  i ← inode_at p;
  if i_open_cnts i =? 0 then
    l ← gets open_inodes;
    if bool_decide (p ∈ l) then
      upd (fun s => set_open_inodes (filter (fun q => q <> p) l) (set_inodes (delete p (inodes s)) s))
    else sfault
  else mret tt.

Definition inode_delete (inode_no cap : Z) : st fsys unit :=
  _ ← sassert (inode_no <? 4096);
  pos ← inode_locate inode_no;
  s ← sget;
  _ ← sassert (sec_lba pos <=? u32 (start_lba s + sec_cnt s));
  patch_inode pos cap (zeros inode_size).

(** The blocks of an inode: the 12 direct ones, then the 128 words of the
    indirect table, zeros when there is none. *)
Definition collect_blocks (i : inode) : st fsys (list Z) :=
  ind ← sres (rd (i_sectors i) 12);
  tbl ← (if ind =? 0 then mret (zeros 128) else b ← ide_read 512 ind 1; mret (dec_words 128 b));
  mret (take 12 (i_sectors i) ++ tbl).

(** The loop of [inode_release] over the collected block addresses. *)
Fixpoint release_blocks (blocks : list Z) : st fsys unit :=
  match blocks with
  | [] => mret tt
  | b :: r =>
    _ ← (if b =? 0 then mret tt
         else p ← gets sb;
              let block_bitmap_idx := u32 (b - data_start_lba p) in
              _ ← sassert (0 <? block_bitmap_idx);
              free_block block_bitmap_idx);
    release_blocks r
  end.

Definition inode_release (inode_no : Z) : st fsys unit :=
  inode_to_del ← inode_open inode_no;
  i ← inode_at inode_to_del;
  _ ← sassert (i_no i =? inode_no);
  all_blocks ← collect_blocks i;
  ind ← sres (rd (i_sectors i) 12);
  _ ← (if ind =? 0 then mret tt
       else p ← gets sb;
            let block_bitmap_idx := u32 (ind - data_start_lba p) in
            _ ← sassert (0 <? block_bitmap_idx);
            free_block block_bitmap_idx);
  _ ← release_blocks all_blocks;
  b ← gets inode_bitmap;
  b' ← sres (bitmap_set b inode_no 0);
  _ ← upd (set_inode_bitmap b');
  _ ← bitmap_sync inode_no INODE_BITMAP;
  io_buf ← malloc 1024;
  _ ← (if io_buf =? 0 then sfault else inode_delete inode_no 1024);
  inode_close inode_to_del.

Definition inode_init (inode_no : Z) : inode := Inode inode_no 0 0 false (zeros 13).

(** ** The inode table as an array *)

(** The byte of the disk where inode [no] starts, and the inode found there. *)
Definition cell (p : super_block) (no : Z) : Z := 512 * inode_table_lba p + inode_size * no.

Definition disk_inode (d : sectors) (p : super_block) (no : Z) : inode :=
  dec_inode (dbytes d (cell p no) inode_size).

(** The inode lies in two sectors. *)
Definition straddles (no : Z) : bool := 436 <? (76 * no) mod 512.

(** An inode as it is written: nobody has it open. *)
Definition pure (i : inode) : inode := set_write_deny false (set_i_open_cnts 0 i).

Lemma locate_run s no :
  volume_ok s -> 0 <= no < 4096 ->
  exists pos, inode_locate no s = Ok (pos, s) /\ two_sec pos = straddles no
    /\ 0 <= off_size pos /\ 512 * sec_lba pos + off_size pos = cell (sb s) no
    /\ off_size pos + inode_size <= 512 * (if two_sec pos then 2 else 1)
    /\ inode_table_lba (sb s) <= sec_lba pos
    /\ sec_lba pos + (if two_sec pos then 2 else 1) <= inode_table_lba (sb s) + 608.
Proof.
  intros Hv Hno. pose proof (volume_order s Hv) as Ho.
  eexists. split.
  { unfold inode_locate. run (sassert_true (no <? 4096) s ltac:(lia)). run (gets_run sb s). done. }
  unfold straddles, cell, inode_size. cbn [two_sec sec_lba off_size]. unwrap. rewrite (Z.mul_comm no 76).
  split_and!; try lia; destruct (512 - (76 * no) mod 512 <? 76) eqn:E; lia.
Qed.

(** The size of buffer [patch_inode] needs. *)
Definition room_for (no cap : Z) : Prop := (if straddles no then 1024 else 512) <= cap.

(** Changing one cell of the table: these 76 bytes and no others. *)
Lemma patch_run s no cap x :
  volume_ok s -> 0 <= no < 4096 -> room_for no cap -> length x = 76%nat -> Forall byte x ->
  exists pos d, inode_locate no s = Ok (pos, s) /\ sec_lba pos <= u32 (start_lba s + sec_cnt s)
    /\ patch_inode pos cap x s = Ok (tt, set_disk d s) /\ disk_ok d
    /\ dbytes d (cell (sb s) no) 76 = x
    /\ (forall k, ~ cell (sb s) no <= k < cell (sb s) no + 76 -> dbyte d k = dbyte (disk s) k).
Proof.
  intros Hv Hno Hcap Hx Hb. pose proof (volume_order s Hv) as Ho. pose proof (vo_start s Hv).
  destruct (locate_run s no Hv Hno) as (pos & Hl & Ht & Hoff & Hcell & Hfit & Hlo & Hhi).
  unfold room_for in Hcap. rewrite <- Ht in Hcap. unfold inode_size in Hfit.
  set (n := if two_sec pos then 2%nat else 1%nat).
  assert ((if two_sec pos then 2 else 1) = Z.of_nat n) as Hn by (unfold n; by destruct (two_sec pos)).
  assert (512 * Z.of_nat n <= cap /\ 0 < Z.of_nat n) as [Hc0 Hn0] by (destruct (two_sec pos); lia).
  rewrite Hn in Hfit, Hhi.
  assert (Z.of_nat (length (read_secs n (sec_lba pos) (disk s))) = 512 * Z.of_nat n) as Hrl.
  { rewrite read_secs_bytes by apply Hv. apply dbytes_length. lia. }
  exists pos. eexists. split_and!; [done|unwrap; lia| | | |].
  - unfold patch_inode. rewrite Hn.
    run (ide_read_run cap (sec_lba pos) (Z.of_nat n) s ltac:(rewrite max_lba_eq; lia) Hn0 Hc0).
    rewrite Nat2Z.id. rewrite ide_write_run; [|rewrite max_lba_eq; lia|lia|rewrite splice_length; lia].
    rewrite Nat2Z.id. done.
  - apply patch_ok; [apply Hv|lia|lia|done].
  - apply list_eq. intros k. destruct (decide (Z.of_nat k < 76)).
    + rewrite dbytes_lookup by lia. rewrite dbyte_patch; [|apply Hv|lia|lia].
      rewrite bool_decide_true by lia. replace (Z.to_nat _) with k by lia.
      destruct (lookup_lt_is_Some_2 x k) as [v ->]; [lia|done].
    + rewrite dbytes_lookup_None by lia. rewrite lookup_ge_None_2 by lia. done.
  - intros k Hk. rewrite dbyte_patch; [|apply Hv|lia|lia]. rewrite bool_decide_false by lia. done.
Qed.

(** Cells do not overlap. *)
Lemma cell_other d d' p no no' :
  no' <> no -> (forall k, ~ cell p no <= k < cell p no + 76 -> dbyte d' k = dbyte d k) ->
  disk_inode d' p no' = disk_inode d p no'.
Proof.
  intros Hne Hk. unfold disk_inode. f_equal. apply dbytes_ext. intros i Hi. apply Hk.
  unfold cell, inode_size in *. lia.
Qed.

(** Sectors outside the table are untouched by a change of a cell. *)
Lemma cell_sector d d' p no lba :
  disk_ok d -> disk_ok d' -> 0 <= no < 4096 ->
  ~ inode_table_lba p <= lba < inode_table_lba p + 608 ->
  (forall k, ~ cell p no <= k < cell p no + 76 -> dbyte d' k = dbyte d k) -> sector d' lba = sector d lba.
Proof.
  intros Hd Hd' Hno Hl Hk. rewrite !sector_bytes by done. apply dbytes_ext. intros i Hi. apply Hk.
  unfold cell, inode_size. lia.
Qed.

(** [inode_sync], whatever the number of the inode. *)
Lemma sync_run s i cap :
  volume_ok s -> inode_ok i -> room_for (u8 (i_no i)) cap ->
  exists d, inode_sync i cap s = Ok (tt, set_disk d s) /\ disk_ok d
    /\ disk_inode d (sb s) (u8 (i_no i)) = pure i
    /\ (forall k, ~ cell (sb s) (u8 (i_no i)) <= k < cell (sb s) (u8 (i_no i)) + 76 -> dbyte d k = dbyte (disk s) k).
Proof.
  intros Hv Hi Hcap. pose proof (u8_range (i_no i)) as Hr.
  assert (inode_ok (pure i)) as Hp by (destruct Hi; constructor; cbn; try done; unfold is_u32; lia).
  destruct (patch_run s (u8 (i_no i)) cap (enc_inode (pure i))) as (pos & d & Hl & Hs & Hp2 & Hd & Hc & Hk);
    [done|lia|done|apply enc_inode_length, Hp|apply enc_words_bytes|].
  exists d. split_and!; [|done| |done].
  - unfold inode_sync. run Hl. rewrite (sbind_Ok _ _ s s s) by done.
    run (sassert_true (sec_lba pos <=? u32 (start_lba s + sec_cnt s)) s ltac:(lia)). done.
  - unfold disk_inode, inode_size. rewrite Hc. by apply dec_enc_inode.
Qed.

(** The same for an inode whose number fits a byte. *)
Lemma sync_run_small s i cap :
  volume_ok s -> inode_ok i -> i_no i < 256 -> room_for (i_no i) cap ->
  exists d, inode_sync i cap s = Ok (tt, set_disk d s) /\ disk_ok d
    /\ disk_inode d (sb s) (i_no i) = pure i
    /\ (forall no, no <> i_no i -> disk_inode d (sb s) no = disk_inode (disk s) (sb s) no)
    /\ (forall lba, ~ inode_table_lba (sb s) <= lba < inode_table_lba (sb s) + 608 ->
                    sector d lba = sector (disk s) lba).
Proof.
  intros Hv Hi Hn Hcap. pose proof (io_no _ Hi) as [Hn0 _].
  assert (u8 (i_no i) = i_no i) as Hu by (apply u8_id; lia).
  destruct (sync_run s i cap Hv Hi ltac:(by rewrite Hu)) as (d & Hs & Hd & Hc & Hk). rewrite Hu in *.
  exists d. split_and!; [done|done|done| |].
  - intros no Hne. by eapply cell_other.
  - intros lba Hl. eapply cell_sector; try done; [apply Hv|lia].
Qed.

(** ** The open inodes *)

(** The list of open inodes: distinct addresses of inodes with distinct
    numbers, each counted at least once. *)
Record open_ok (s : fsys) : Prop := {
  oo_nodup : NoDup (open_inodes s);
  oo_inode : forall p, p ∈ open_inodes s -> exists i, inodes s !! p = Some i /\ 1 <= i_open_cnts i < 2 ^ 32;
  oo_unique : forall p q i j, p ∈ open_inodes s -> q ∈ open_inodes s -> inodes s !! p = Some i ->
                inodes s !! q = Some j -> i_no i = i_no j -> p = q
}.

(** Inode [no] is open at address [p]. *)
Definition is_open (s : fsys) (no p : Z) (i : inode) : Prop :=
  p ∈ open_inodes s /\ inodes s !! p = Some i /\ i_no i = no.

Lemma find_open_spec s l no :
  (forall p, p ∈ l -> exists i, inodes s !! p = Some i) ->
  (exists p i, find_open l no s = Ok (Some p, s) /\ p ∈ l /\ inodes s !! p = Some i /\ i_no i = no)
  \/ (find_open l no s = Ok (None, s) /\ forall p i, p ∈ l -> inodes s !! p = Some i -> i_no i <> no).
Proof.
  induction l as [|p l IH]; intros Hall.
  - right. split; [done|]. set_solver.
  - destruct (Hall p) as [i Hi]; [set_solver|]. cbn [find_open]. run (inode_at_run p i s Hi).
    destruct (i_no i =? no) eqn:E.
    + left. exists p, i. split_and!; [done|set_solver|done|lia].
    + destruct IH as [(q & j & Hq & Hin & Hj & Hno)|[Hn Hne]]; [intros; apply Hall; set_solver| |].
      * left. exists q, j. split_and!; [done|set_solver|done|done].
      * right. split; [done|]. intros q j [->|Hq]%elem_of_cons Hj; [|by eapply Hne]. simplify_eq. lia.
Qed.

(** The number is open, or it is not. *)
Lemma open_or_not s no :
  open_ok s ->
  (exists p i, find_open (open_inodes s) no s = Ok (Some p, s) /\ is_open s no p i)
  \/ (find_open (open_inodes s) no s = Ok (None, s) /\ forall p i, ~ is_open s no p i).
Proof.
  intros Ho. destruct (find_open_spec s (open_inodes s) no) as [(p & i & Hf & Hp)|[Hf Hn]].
  - intros p Hp. destruct (oo_inode s Ho p Hp) as (i & Hi & _). eauto.
  - left. exists p, i. split; [done|]. destruct Hp as (?&?&?). by split_and!.
  - right. split; [done|]. intros p i (Hp & Hi & Hno). by eapply Hn.
Qed.

(** Opening an inode that is open already: one more user of the same object. *)
Lemma open_again s no p i :
  open_ok s -> is_open s no p i -> i_open_cnts i + 1 < 2 ^ 32 ->
  let s' := set_inodes (<[p := set_i_open_cnts (i_open_cnts i + 1) i]> (inodes s)) s in
  inode_open no s = Ok (p, s') /\ open_ok s'.
Proof.
  intros Ho (Hp & Hi & Hno) Hc s'. destruct (oo_inode s Ho p Hp) as (i' & Hi' & Hcnt).
  rewrite Hi in Hi'. injection Hi' as <-. split.
  - unfold inode_open. run (gets_run open_inodes s).
    destruct (open_or_not s no Ho) as [(q & j & Hf & Hq & Hj & Hjn)|[_ Hn]]; [|exfalso; by eapply Hn].
    run Hf. assert (q = p) as -> by (eapply (oo_unique s Ho q p j i); congruence || done).
    rewrite (sbind_Ok _ _ _ _ _ (upd_inode_run p i _ s Hi)). unwrap. done.
  - assert (forall q j, inodes s' !! q = Some j -> exists j0, inodes s !! q = Some j0 /\ i_no j0 = i_no j) as Hold.
    { intros q j. cbn. destruct (decide (p = q)) as [<-|].
      - rewrite lookup_insert_eq. intros [= <-]. eauto.
      - rewrite lookup_insert_ne by done. eauto. }
    constructor; cbn [open_inodes inodes set_inodes s'].
    + apply Ho.
    + intros q Hq. destruct (decide (p = q)) as [<-|].
      * rewrite lookup_insert_eq. eexists. split; [done|]. cbn. lia.
      * rewrite lookup_insert_ne by done. by apply Ho.
    + intros q r j k Hq Hr Hj Hk Heq. destruct (Hold q j Hj) as (j0 & ? & ?). destruct (Hold r k Hk) as (k0 & ? & ?).
      apply (oo_unique s Ho q r j0 k0); congruence || done.
Qed.

(** What the allocator returns for a new inode and its buffer. *)
Definition fresh (s : fsys) (p : Z) (r : list Z) : Prop :=
  exists b, allocs s = p :: b :: r /\ p <> 0 /\ b <> 0 /\ inodes s !! p = None.

(** The state after inode [no] was read from the disk to address [p]. *)
Definition opened (s : fsys) (no p : Z) (r : list Z) : fsys :=
  set_open_inodes (p :: open_inodes s)
    (set_inodes (<[p := set_i_open_cnts 1 (disk_inode (disk s) (sb s) no)]> (inodes s)) (set_allocs r s)).

Lemma open_new_run s no p r :
  volume_ok s -> open_ok s -> 0 <= no < 4096 -> (forall q i, ~ is_open s no q i) -> fresh s p r ->
  inode_open no s = Ok (p, opened s no p r).
Proof.
  intros Hv Ho Hno Hn (b & Ha & Hp & Hb & Hf).
  unfold inode_open. run (gets_run open_inodes s).
  destruct (open_or_not s no Ho) as [(q & j & _ & Hq)|[Hfo _]]; [by apply Hn in Hq|]. run Hfo.
  destruct (locate_run s no Hv Hno) as (pos & Hl & Ht & Hoff & Hcell & Hfit & Hlo & Hhi). run Hl.
  pose proof (volume_order s Hv) as Hor.
  set (n := if two_sec pos then 2 else 1) in *. assert (0 < n) as Hn0 by (unfold n; case_match; lia).
  rewrite (sbind_Ok _ _ _ _ _ (malloc_run inode_size p (b :: r) s Ha)).
  rewrite (sbind_Ok _ _ _ _ _ (malloc_run (512 * n) b r (set_allocs (b :: r) s) eq_refl)).
  replace (b =? 0) with false by lia.
  rewrite (sbind_Ok _ _ _ _ _ (ide_read_run (512 * n) (sec_lba pos) n (set_allocs r (set_allocs (b :: r) s))
    ltac:(rewrite max_lba_eq; lia) Hn0 ltac:(lia))).
  rewrite (sbind_Ok _ _ _ tt (set_allocs r (set_allocs (b :: r) s)))
    by (apply sassert_true; by replace (p =? 0) with false by lia).
  unfold opened, disk_inode. rewrite <- Hcell. cbn [disk set_allocs]. rewrite read_secs_bytes by apply Hv.
  rewrite slice_dbytes by (unfold inode_size in *; lia). done.
Qed.

Lemma opened_ok s no p r :
  open_ok s -> (forall q i, ~ is_open s no q i) -> fresh s p r -> i_no (disk_inode (disk s) (sb s) no) = no ->
  open_ok (opened s no p r).
Proof.
  intros Ho Hn (b & _ & _ & _ & Hf) Hi.
  assert (forall q, q ∈ open_inodes s -> q <> p) as Hne.
  { intros q Hq ->. destruct (oo_inode s Ho p Hq) as (i & Hc & _). congruence. }
  constructor; cbn [open_inodes inodes set_inodes set_open_inodes set_allocs opened].
  - constructor; [|apply Ho]. intros Hp. by apply Hne in Hp.
  - intros q [->|Hq]%elem_of_cons.
    + rewrite lookup_insert_eq. eexists. split; [done|]. cbn. lia.
    + rewrite lookup_insert_ne by (symmetry; by apply Hne). by apply Ho.
  - intros q q' i j [->|Hq]%elem_of_cons [->|Hq']%elem_of_cons; [done| | |].
    + rewrite lookup_insert_eq, lookup_insert_ne by (symmetry; by apply Hne).
      intros [= <-] Hj Heq. cbn [i_no set_i_open_cnts] in Heq. exfalso. apply (Hn q' j). split_and!; congruence || done.
    + rewrite lookup_insert_eq, lookup_insert_ne by (symmetry; by apply Hne).
      intros Hj [= <-] Heq. cbn [i_no set_i_open_cnts] in Heq. exfalso. apply (Hn q i). split_and!; congruence || done.
    + rewrite !lookup_insert_ne by (symmetry; by apply Hne). apply Ho; done.
Qed.

(** Closing: the last user removes the inode, any other is counted down. *)
Lemma close_last_run s p i :
  inodes s !! p = Some i -> p ∈ open_inodes s -> i_open_cnts i = 1 ->
  inode_close p s = Ok (tt, set_open_inodes (filter (fun q => q <> p) (open_inodes s))
                              (set_inodes (delete p (inodes s)) s)).
Proof.
  intros Hi Hp Hc. unfold inode_close. rewrite (sbind_Ok _ _ _ _ _ (upd_inode_run p i _ s Hi)). rewrite Hc.
  set (s1 := set_inodes _ s).
  rewrite (sbind_Ok _ _ _ (set_i_open_cnts (u32 (1 - 1)) i) s1)
    by (apply inode_at_run; cbn; by rewrite lookup_insert_eq).
  cbn [i_open_cnts set_i_open_cnts]. change (u32 (1 - 1) =? 0) with true. cbv iota.
  run (gets_run open_inodes s1). rewrite bool_decide_true by done. unfold upd. do 2 f_equal.
  cbn. by rewrite delete_insert_eq.
Qed.

Lemma close_more_run s p i :
  inodes s !! p = Some i -> 1 < i_open_cnts i < 2 ^ 32 ->
  inode_close p s = Ok (tt, set_inodes (<[p := set_i_open_cnts (i_open_cnts i - 1) i]> (inodes s)) s).
Proof.
  intros Hi Hc. unfold inode_close. rewrite (sbind_Ok _ _ _ _ _ (upd_inode_run p i _ s Hi)). unwrap.
  set (s1 := set_inodes _ s).
  rewrite (sbind_Ok _ _ _ (set_i_open_cnts (i_open_cnts i - 1) i) s1)
    by (apply inode_at_run; cbn; by rewrite lookup_insert_eq).
  cbn [i_open_cnts set_i_open_cnts]. by replace (i_open_cnts i - 1 =? 0) with false by lia.
Qed.

Lemma set_cnts_back i c : set_i_open_cnts (i_open_cnts i) (set_i_open_cnts c i) = i.
Proof. by destruct i. Qed.

Lemma filter_fresh (p : Z) l : p ∉ l -> filter (fun q => q <> p) (p :: l) = l.
Proof. intros Hp. rewrite filter_cons_False by naive_solver. apply filter_all. intros x Hx ->. done. Qed.

(** Opening and closing again: only the allocator has moved on. *)
Lemma open_close_run s no p r :
  volume_ok s -> open_ok s -> 0 <= no < 4096 -> fresh s p r ->
  (forall q i, is_open s no q i -> i_open_cnts i + 1 < 2 ^ 32) ->
  exists q s1 r', inode_open no s = Ok (q, s1) /\ inode_close q s1 = Ok (tt, set_allocs r' s).
Proof.
  intros Hv Ho Hno Hf Hc. destruct (open_or_not s no Ho) as [(q & i & _ & Hq)|[_ Hn]].
  - destruct (open_again s no q i Ho Hq) as [Hr _]; [by eapply Hc|]. destruct Hq as (Hq & Hi & Hno').
    destruct (oo_inode s Ho q Hq) as (i' & Hi' & Hcnt). rewrite Hi in Hi'. injection Hi' as <-.
    eexists q, _, (allocs s). split; [done|].
    rewrite (close_more_run _ q (set_i_open_cnts (i_open_cnts i + 1) i)).
    + cbn [i_open_cnts set_i_open_cnts]. replace (i_open_cnts i + 1 - 1) with (i_open_cnts i) by lia.
      do 2 f_equal. cbn [inodes set_inodes]. rewrite insert_insert_eq.
      rewrite set_cnts_back, insert_id by done. by destruct s.
    + cbn. by rewrite lookup_insert_eq.
    + assert (i_open_cnts i + 1 < 2 ^ 32) by (eapply Hc; by split_and!). cbn. lia.
  - destruct Hf as (b & Ha & Hp & Hb & Hf).
    assert (fresh s p r) as Hfr by (exists b; by split_and!).
    exists p, (opened s no p r), r. split; [by apply open_new_run|].
    assert (p ∉ open_inodes s) as Hnp.
    { intros Hin. destruct (oo_inode s Ho p Hin) as (i & Hi & _). congruence. }
    erewrite close_last_run; [|cbn; by rewrite lookup_insert_eq|cbn; set_solver|done].
    do 2 f_equal. cbn [open_inodes inodes set_inodes set_open_inodes set_allocs opened].
    rewrite filter_fresh by done. rewrite delete_insert_id by done. by destruct s.
Qed.

(** ** Releasing *)

(** The address of the indirect table (0: none) and the 140 block addresses. *)
Definition indirect (i : inode) : Z := default 0 (i_sectors i !! 12%nat).

Definition inode_blocks (d : sectors) (i : inode) : list Z :=
  take 12 (i_sectors i) ++ (if indirect i =? 0 then zeros 128 else dec_words 128 (sector d (indirect i))).

(** An address the inode may hold: none, or a block of the data area that has a
    bit, other than the first block, which the root directory has. *)
Definition block_addr (s : fsys) (b : Z) : Prop :=
  b = 0 \/ (data_start_lba (sb s) < b <= max_lba /\ b - data_start_lba (sb s) < bm_bits (block_bitmap s)).

Lemma collect_run s i :
  length (i_sectors i) = 13%nat -> indirect i <= max_lba ->
  collect_blocks i s = Ok (inode_blocks (disk s) i, s) /\ rd (i_sectors i) 12 = Ok (indirect i).
Proof.
  intros Hl Hi.
  assert (rd (i_sectors i) 12 = Ok (indirect i)) as Hr.
  { apply rd_Ok. split; [lia|]. unfold indirect. change (Z.to_nat 12) with 12%nat.
    destruct (lookup_lt_is_Some_2 (i_sectors i) 12) as [v ->]; [lia|done]. }
  split; [|done]. unfold collect_blocks, inode_blocks. rewrite Hr. rewrite (sbind_Ok _ _ s (indirect i) s) by done.
  destruct (indirect i =? 0) eqn:E; [done|].
  unfold mbind at 1, st_bind. by rewrite (sbind_Ok _ _ _ _ _ (ide_read_one 512 (indirect i) s Hi ltac:(lia))).
Qed.

(** Clearing the bits of a list of addresses. *)
Lemma release_blocks_run s l :
  volume_ok s -> Forall (block_addr s) l ->
  exists b d, release_blocks l s = Ok (tt, set_disk d (set_block_bitmap b s))
    /\ volume_ok (set_disk d (set_block_bitmap b s))
    /\ btmp_bytes_len b = btmp_bytes_len (block_bitmap s)
    /\ (forall j, 0 <= j -> bm_bit b j = bm_bit (block_bitmap s) j && negb (bool_decide (data_start_lba (sb s) + j ∈ l)))
    /\ (forall lba, ~ block_bitmap_lba (sb s) <= lba < inode_bitmap_lba (sb s) -> sector d lba = sector (disk s) lba).
Proof.
  revert s. induction l as [|a l IH]; intros s Hv Hl.
  { exists (block_bitmap s), (disk s). assert (set_disk (disk s) (set_block_bitmap (block_bitmap s) s) = s) as Hs by by destruct s.
    rewrite Hs. split_and!; try done. intros j Hj. rewrite bool_decide_false by set_solver. by rewrite andb_true_r. }
  apply Forall_cons in Hl as [Ha Hl]. pose proof (volume_order s Hv) as Ho. cbn [release_blocks].
  destruct (decide (a = 0)) as [->|Hz].
  - change (0 =? 0) with true. rewrite (sbind_Ok _ _ s tt s) by done.
    destruct (IH s Hv Hl) as (b & d & Hr & Hv' & Hlen & Hbits & Hsec). exists b, d. split_and!; try done.
    intros j Hj. rewrite Hbits by done. do 2 f_equal. apply bool_decide_ext. rewrite elem_of_cons. split; [by right|].
    intros [|]; [lia|done].
  - destruct Ha as [?|[Hb1 Hb2]]; [done|]. replace (a =? 0) with false by lia.
    destruct (free_block_run s (a - data_start_lba (sb s))) as (b & d & Hr & Hv' & Hlen & Hbits & Hsec); [done|lia|lia|].
    assert (block_addr (set_disk d (set_block_bitmap b s)) = block_addr s) as Hba.
    { unfold block_addr, bm_bits. cbn. by rewrite Hlen. }
    destruct (IH (set_disk d (set_block_bitmap b s)) Hv') as (b2 & d2 & Hr2 & Hv2 & Hlen2 & Hbits2 & Hsec2); [by rewrite Hba|].
    exists b2, d2. split_and!.
    + rewrite (sbind_Ok _ _ s tt (set_disk d (set_block_bitmap b s))); [done|].
      run (gets_run sb s). rewrite max_lba_eq in Hb1. unwrap.
      run (sassert_true (0 <? a - data_start_lba (sb s)) s ltac:(lia)). done.
    + done.
    + rewrite Hlen2. done.
    + intros j Hj. rewrite Hbits2, Hbits by done. cbn. rewrite <- andb_assoc. f_equal. rewrite <- negb_orb. f_equal.
      rewrite <- bool_decide_or. apply bool_decide_ext. rewrite elem_of_cons. intuition lia.
    + intros lba Hlba. rewrite Hsec2 by done. by apply Hsec.
Qed.

(** What [inode_release] leaves. *)
Lemma release_run s no p r c :
  volume_ok s -> open_ok s -> 0 <= no < 4096 -> (forall q i, ~ is_open s no q i) -> fresh s p (c :: r) -> c <> 0 ->
  let i := disk_inode (disk s) (sb s) no in
  i_no i = no -> Forall (block_addr s) (indirect i :: inode_blocks (disk s) i) ->
  exists s', inode_release no s = Ok (tt, s') /\ volume_ok s'
    /\ inodes s' = inodes s /\ open_inodes s' = open_inodes s /\ sb s' = sb s
    /\ (forall j, 0 <= j -> bm_bit (block_bitmap s') j =
          bm_bit (block_bitmap s) j && negb (bool_decide (data_start_lba (sb s) + j ∈ indirect i :: inode_blocks (disk s) i)))
    /\ (forall j, 0 <= j -> bm_bit (inode_bitmap s') j = bm_bit (inode_bitmap s) j && negb (bool_decide (j = no)))
    /\ dbytes (disk s') (cell (sb s) no) 76 = zeros 76
    /\ (forall no', no' <> no -> 0 <= no' < 4096 -> disk_inode (disk s') (sb s) no' = disk_inode (disk s) (sb s) no')
    /\ (forall lba, data_start_lba (sb s) <= lba -> sector (disk s') lba = sector (disk s) lba).
Proof.
  intros Hv Ho Hno Hn Hf Hc i Hi Hall. pose proof (volume_order s Hv) as Hor.
  pose proof (open_new_run s no p (c :: r) Hv Ho Hno Hn Hf) as Hopen.
  destruct Hf as (b0 & Ha & Hp & Hb0 & Hf).
  set (s1 := opened s no p (c :: r)).
  assert (volume_ok s1) as Hv1 by (destruct Hv; by constructor).
  assert (inodes s1 !! p = Some (set_i_open_cnts 1 i)) as Hp1 by (cbn; by rewrite lookup_insert_eq).
  assert (length (i_sectors i) = 13%nat) as Hlen13 by done.
  assert (indirect i <= max_lba) as Hind.
  { apply Forall_cons in Hall as [[->|[? _]] _]; [rewrite max_lba_eq; lia|lia]. }
  destruct (collect_run s1 (set_i_open_cnts 1 i)) as [Hcol Hrd]; [done|done|].
  (* the indirect table and the blocks *)
  destruct (release_blocks_run s1 (indirect i :: inode_blocks (disk s) i) Hv1) as (b & d & Hr & Hv2 & Hlen & Hbits & Hsec); [done|].
  set (s2 := set_disk d (set_block_bitmap b s1)) in *.
  (* the inode bit *)
  destruct (set_bit (inode_bitmap s2) no 0) as (ib & Hib & Hibo & Hibl & _ & Hibb); [apply Hv2|cbn; lia|by left|].
  set (s3 := set_inode_bitmap ib s2).
  assert (volume_ok s3) as Hv3 by (destruct Hv2; constructor; try done; cbn in *; lia).
  destruct (inode_bits_sync_run s3 no Hv3 Hno) as (d4 & Hr4 & Hd4 & Hsec4).
  set (s4 := set_disk d4 s3). assert (volume_ok s4) as Hv4 by by apply volume_set_disk.
  set (s5 := set_allocs r s4). assert (volume_ok s5) as Hv5 by (destruct Hv4; by constructor).
  destruct (patch_run s5 no 1024 (zeros 76)) as (pos & d6 & Hl & Hle & Hpatch & Hd6 & Hz & Hk);
    [done|done|unfold room_for; case_match; lia|done|apply Forall_replicate; unfold byte; lia|].
  set (s6 := set_disk d6 s5). assert (volume_ok s6) as Hv6 by by apply volume_set_disk.
  assert (p ∉ open_inodes s) as Hnp.
  { intros Hin. destruct (oo_inode s Ho p Hin) as (j & Hj & _). congruence. }
  exists (set_open_inodes (filter (fun q => q <> p) (open_inodes s6)) (set_inodes (delete p (inodes s6)) s6)). split.
  { unfold inode_release. run Hopen. run (inode_at_run p _ s1 Hp1).
    run (sassert_true (i_no (set_i_open_cnts 1 i) =? no) s1 ltac:(cbn -[i]; lia)). run Hcol.
    rewrite Hrd. rewrite (sbind_Ok _ _ s1 (indirect i) s1) by done.
    cbn [release_blocks] in Hr. unfold mbind in Hr at 1. unfold st_bind in Hr at 1.
    unfold mbind at 1. unfold st_bind at 1.
    match type of Hr with match ?m with _ => _ end = _ => destruct m as [[u s1']|] eqn:Em; [|done] end.
    cbv beta in *. change (inode_blocks (disk s1) (set_i_open_cnts 1 i)) with (inode_blocks (disk s) i). run Hr.
    run (gets_run inode_bitmap s2). rewrite Hib. rewrite (sbind_Ok _ _ s2 ib s2) by done.
    rewrite (sbind_Ok _ _ s2 tt s3) by done. run Hr4.
    rewrite (sbind_Ok _ _ s4 c s5) by done. replace (c =? 0) with false by lia.
    rewrite (sbind_Ok _ _ s5 tt s6).
    2: { unfold inode_delete. run (sassert_true (no <? 4096) s5 ltac:(lia)). run Hl.
         rewrite (sbind_Ok _ _ s5 s5 s5) by done.
         run (sassert_true (sec_lba pos <=? u32 (start_lba s5 + sec_cnt s5)) s5 ltac:(lia)). done. }
    apply (close_last_run s6 p (set_i_open_cnts 1 i)); [done|cbn; set_solver|done]. }
  split_and!; try done.
  - destruct Hv6. by constructor.
  - cbn. by rewrite delete_insert_id.
  - cbn [open_inodes set_open_inodes]. by apply filter_fresh.
  - intros j Hj. cbn [inode_bitmap set_open_inodes set_inodes set_disk s6 s5 s4 s3 set_allocs set_inode_bitmap].
    rewrite Hibb by done. cbn. destruct (decide (j = no)).
    + by rewrite bool_decide_true, andb_false_r.
    + by rewrite bool_decide_false, andb_true_r.
  - intros no' Hne Hr'. cbn [disk set_open_inodes set_inodes s6 set_disk].
    rewrite (cell_other (disk s5) d6 (sb s) no no') by done.
    unfold disk_inode. f_equal. apply dbytes_ext. intros k Hk'. unfold dbyte. f_equal. f_equal.
    unfold cell, inode_size. cbn [disk s5 s4 set_allocs set_disk].
    rewrite Hsec4 by (cbn; lia). cbn [disk s3 set_inode_bitmap s2 set_disk]. rewrite Hsec by (cbn; lia). done.
  - intros lba Hlba. cbn [disk set_open_inodes set_inodes s6 set_disk].
    rewrite (cell_sector (disk s5) d6 (sb s) no lba); [|apply Hv5|done|done|lia|done].
    cbn [disk s5 s4 set_allocs set_disk].
    rewrite Hsec4 by (cbn; lia). cbn [disk s3 set_inode_bitmap s2 set_disk]. rewrite Hsec by (cbn; lia). done.
Qed.

(** ** Properties *)

Lemma demo_open_ok : open_ok demo_fs.
Proof. constructor; cbn; [constructor|set_solver|set_solver]. Qed.

(** An inode for the examples. *)
Definition demo_inode (no : Z) : inode := Inode no 100 3 true (613 :: zeros 12).

Lemma demo_inode_ok no : is_u32 no -> inode_ok (demo_inode no).
Proof. intros. constructor; cbn; try done; repeat constructor; done. Qed.

(** C21: Writing an inode to the disk and opening it gives it back, with one user
    and no writer, if its number is below 256 and it is not open; every other
    inode of the table and every sector outside the table are unchanged, and the
    volume and the list of open inodes stay well formed. *)
Theorem inode_sync_open (s : fsys) (i : inode) (cap p : Z) (r : list Z) :
  volume_ok s -> open_ok s -> inode_ok i -> i_no i < 256 -> room_for (i_no i) cap ->
  (forall q j, ~ is_open s (i_no i) q j) -> fresh s p r ->
  exists s1 s2, inode_sync i cap s = Ok (tt, s1) /\ inode_open (i_no i) s1 = Ok (p, s2)
    /\ inodes s2 !! p = Some (set_i_open_cnts 1 (pure i)) /\ volume_ok s2 /\ open_ok s2
    /\ (forall no, no <> i_no i -> disk_inode (disk s2) (sb s) no = disk_inode (disk s) (sb s) no)
    /\ (forall lba, ~ inode_table_lba (sb s) <= lba < inode_table_lba (sb s) + 608 ->
                    sector (disk s2) lba = sector (disk s) lba).
Proof.
  intros Hv Ho Hi Hn Hcap Hno Hf. pose proof (io_no _ Hi) as [Hn0 _].
  destruct (sync_run_small s i cap Hv Hi Hn Hcap) as (d & Hs & Hd & Hc & Hother & Hsec).
  set (s1 := set_disk d s).
  assert (volume_ok s1) as Hv1 by by apply volume_set_disk.
  assert (open_ok s1) as Ho1 by (destruct Ho; by constructor).
  exists s1, (opened s1 (i_no i) p r). split_and!; try done.
  - by apply open_new_run; [..|lia|done|].
  - cbn [inodes opened set_open_inodes set_inodes]. rewrite lookup_insert_eq. cbn [disk s1 set_disk sb]. by rewrite Hc.
  - destruct Hv1. by constructor.
  - apply opened_ok; try done. cbn [disk s1 set_disk sb]. by rewrite Hc.
Qed.

Lemma inode_sync_open_witness :
  exists s1 s2, inode_sync (demo_inode 6) 1024 demo_fs = Ok (tt, s1) /\ inode_open 6 s1 = Ok (4096, s2)
    /\ inodes s2 !! 4096 = Some (set_i_open_cnts 1 (pure (demo_inode 6))) /\ volume_ok s2 /\ open_ok s2
    /\ (forall no, no <> 6 -> disk_inode (disk s2) demo_sb no = disk_inode ∅ demo_sb no)
    /\ (forall lba, ~ 4 <= lba < 4 + 608 -> sector (disk s2) lba = sector ∅ lba).
Proof.
  apply (inode_sync_open demo_fs (demo_inode 6) 1024 4096 [12288; 16384; 20480; 24576]).
  - apply demo_fs_ok.
  - apply demo_open_ok.
  - by apply demo_inode_ok.
  - done.
  - done.
  - intros q j [Hq _]. by apply elem_of_nil in Hq.
  - exists 8192. by split_and!.
Defined.

(** An inode whose number is 256 or more is written over another inode: the
    cell of the number modulo 256 receives it, and its own cell is unchanged. *)
Theorem inode_sync_wrong_cell (s : fsys) (i : inode) (cap : Z) :
  volume_ok s -> inode_ok i -> 256 <= i_no i < 4096 -> room_for (i_no i mod 256) cap ->
  exists s', inode_sync i cap s = Ok (tt, s')
    /\ disk_inode (disk s') (sb s) (i_no i mod 256) = pure i
    /\ i_no (disk_inode (disk s') (sb s) (i_no i mod 256)) <> i_no i mod 256
    /\ disk_inode (disk s') (sb s) (i_no i) = disk_inode (disk s) (sb s) (i_no i).
Proof.
  intros Hv Hi Hn Hcap. change (i_no i mod 256) with (u8 (i_no i)) in *.
  destruct (sync_run s i cap Hv Hi Hcap) as (d & Hs & Hd & Hc & Hk). pose proof (u8_range (i_no i)).
  exists (set_disk d s). cbn [disk set_disk]. rewrite Hc. split_and!; try done; [cbn; lia|].
  eapply cell_other; [|done]. lia.
Qed.

Lemma inode_sync_wrong_cell_witness :
  exists s', inode_sync (demo_inode 300) 1024 demo_fs = Ok (tt, s')
    /\ disk_inode (disk s') demo_sb (300 mod 256) = pure (demo_inode 300)
    /\ i_no (disk_inode (disk s') demo_sb (300 mod 256)) <> 300 mod 256
    /\ disk_inode (disk s') demo_sb 300 = disk_inode ∅ demo_sb 300.
Proof.
  apply (inode_sync_wrong_cell demo_fs (demo_inode 300) 1024).
  - apply demo_fs_ok.
  - by apply demo_inode_ok.
  - done.
  - done.
Defined.

(** C20: [inode_open] keeps one object per inode number: an inode that is open is
    shared and counted once more, any other is read from the disk with one user;
    the list of open inodes stays well formed, and [inode_close] on the result
    restores the state (the allocator apart). *)
Theorem inode_open_shares (s : fsys) (no p : Z) (r : list Z) :
  volume_ok s -> open_ok s -> 0 <= no < 4096 -> fresh s p r ->
  i_no (disk_inode (disk s) (sb s) no) = no ->
  (forall q i, is_open s no q i -> i_open_cnts i + 1 < 2 ^ 32) ->
  exists q i' s' r', inode_open no s = Ok (q, s') /\ open_ok s' /\ is_open s' no q i'
    /\ (forall q0 i0, is_open s no q0 i0 -> q = q0 /\ i' = set_i_open_cnts (i_open_cnts i0 + 1) i0)
    /\ ((forall q0 i0, ~ is_open s no q0 i0) -> i' = set_i_open_cnts 1 (disk_inode (disk s) (sb s) no))
    /\ inode_close q s' = Ok (tt, set_allocs r' s).
Proof.
  intros Hv Ho Hno Hf Hd Hc. destruct (open_close_run s no p r) as (q & s1 & r' & Hopen & Hclose); try done.
  destruct (open_or_not s no Ho) as [(q0 & i0 & _ & Hq)|[_ Hn]].
  - destruct (open_again s no q0 i0 Ho Hq) as [Hr Hok]; [by eapply Hc|]. rewrite Hr in Hopen.
    injection Hopen as <- <-. exists q0, (set_i_open_cnts (i_open_cnts i0 + 1) i0). eexists _, r'.
    split; [done|]. split; [done|]. destruct Hq as (Hq1 & Hq2 & Hq3). split_and!; [|..|done].
    + split_and!; [done|cbn; by rewrite lookup_insert_eq|done].
    + intros q i (Hi1 & Hi2 & Hi3). assert (q0 = q) as <- by (eapply (oo_unique s Ho q0 q i0 i); congruence || done).
      split; [done|]. by simplify_eq.
    + intros Hn. exfalso. apply (Hn q0 i0). by split_and!.
  - rewrite (open_new_run s no p r) in Hopen by done. injection Hopen as <- <-.
    exists p, (set_i_open_cnts 1 (disk_inode (disk s) (sb s) no)). eexists _, r'.
    split; [by apply open_new_run|]. split; [by apply opened_ok|]. split_and!; [| |done|done].
    + split_and!; [cbn; set_solver|cbn [inodes opened set_open_inodes set_inodes]; by rewrite lookup_insert_eq|done].
    + intros q i Hi. by apply Hn in Hi.
Qed.

Lemma inode_open_shares_witness :
  exists q i' s' r', inode_open 0 demo_fs = Ok (q, s') /\ open_ok s' /\ is_open s' 0 q i'
    /\ (forall q0 i0, is_open demo_fs 0 q0 i0 -> q = q0 /\ i' = set_i_open_cnts (i_open_cnts i0 + 1) i0)
    /\ ((forall q0 i0, ~ is_open demo_fs 0 q0 i0) -> i' = set_i_open_cnts 1 (disk_inode ∅ demo_sb 0))
    /\ inode_close q s' = Ok (tt, set_allocs r' demo_fs).
Proof.
  apply (inode_open_shares demo_fs 0 4096 [12288; 16384; 20480; 24576]).
  - apply demo_fs_ok.
  - apply demo_open_ok.
  - done.
  - exists 8192. by split_and!.
  - vm_compute. reflexivity.
  - intros q j [Hq _]. by apply elem_of_nil in Hq.
Defined.

(** C26: [inode_release] gives back everything an inode holds: in the block bitmap
    exactly the bits of its blocks and of its indirect table are cleared, in the
    inode bitmap exactly its own bit; its cell of the table is zeroed, the other
    cells and the data area are unchanged, and nothing stays open. *)
Theorem inode_release_frees (s : fsys) (no p c : Z) (r : list Z) :
  volume_ok s -> open_ok s -> 0 <= no < 4096 -> (forall q i, ~ is_open s no q i) -> fresh s p (c :: r) -> c <> 0 ->
  i_no (disk_inode (disk s) (sb s) no) = no ->
  Forall (block_addr s) (indirect (disk_inode (disk s) (sb s) no)
                           :: inode_blocks (disk s) (disk_inode (disk s) (sb s) no)) ->
  exists s', inode_release no s = Ok (tt, s') /\ volume_ok s'
    /\ inodes s' = inodes s /\ open_inodes s' = open_inodes s /\ sb s' = sb s
    /\ (forall j, 0 <= j -> bm_bit (block_bitmap s') j =
          bm_bit (block_bitmap s) j
          && negb (bool_decide (data_start_lba (sb s) + j ∈ indirect (disk_inode (disk s) (sb s) no)
                                  :: inode_blocks (disk s) (disk_inode (disk s) (sb s) no))))
    /\ (forall j, 0 <= j -> bm_bit (inode_bitmap s') j = bm_bit (inode_bitmap s) j && negb (bool_decide (j = no)))
    /\ dbytes (disk s') (cell (sb s) no) 76 = zeros 76
    /\ (forall no', no' <> no -> 0 <= no' < 4096 -> disk_inode (disk s') (sb s) no' = disk_inode (disk s) (sb s) no')
    /\ (forall lba, data_start_lba (sb s) <= lba -> sector (disk s') lba = sector (disk s) lba).
Proof. intros. by eapply release_run. Qed.

(** Inode 0 of the small volume, with blocks 1 and 2 of the data area. *)
Definition demo_used : fsys :=
  set_disk (<[4 := enc_inode (Inode 0 600 0 false (613 :: 614 :: zeros 11)) ++ zeros 436]> ∅) demo_fs.

Lemma demo_used_ok : volume_ok demo_used.
Proof.
  apply volume_set_disk; [apply demo_fs_ok|]. intros lba. destruct (decide (4 = lba)) as [<-|].
  - rewrite sector_insert_eq. split; [done|]. apply Forall_app. split; [apply enc_words_bytes|].
    apply Forall_replicate. unfold byte. lia.
  - rewrite sector_insert_ne by done. apply empty_disk_ok.
Qed.

Lemma inode_release_frees_witness :
  exists s', inode_release 0 demo_used = Ok (tt, s') /\ bm_bit (block_bitmap s') 1 = false.
Proof.
  destruct (inode_release_frees demo_used 0 4096 12288 [16384; 20480; 24576])
    as (s' & Hr & _ & _ & _ & _ & Hb & _).
  - apply demo_used_ok.
  - constructor; cbn; [constructor|set_solver|set_solver].
  - done.
  - intros q j [Hq _]. by apply elem_of_nil in Hq.
  - exists 8192. by split_and!.
  - done.
  - vm_compute. reflexivity.
  - assert (indirect (disk_inode (disk demo_used) (sb demo_used) 0) = 0) as E1 by (vm_compute; reflexivity).
    assert (inode_blocks (disk demo_used) (disk_inode (disk demo_used) (sb demo_used) 0) = 613 :: 614 :: zeros 138) as E2
      by (vm_compute; reflexivity).
    rewrite E1, E2. constructor; [by left|]. constructor; [right; cbn; rewrite max_lba_eq; unfold bm_bits; cbn; lia|].
    constructor; [right; cbn; rewrite max_lba_eq; unfold bm_bits; cbn; lia|]. apply Forall_replicate. by left.
  - exists s'. split; [done|]. rewrite Hb by done. vm_compute. reflexivity.
Defined.
