(* ===== verification/Dir.v ===== *)
(** * Dir: fs/dir.c

    A directory is an inode whose blocks hold entries of 24 bytes, 21 to a
    sector; an entry of type FT_UNKNOWN is free.  Names are the bytes of a C
    string without its NUL.  [dir_entry_size] of the super block is read where
    the code reads it; copies of an entry are copies of its 24 bytes, which is
    the size every formatted volume records. *)
From S2P Require Import Prelude Bitmap CString Disk Fsys Inode.

(** ** Operations *)

(** The address of the static [root_dir]. *)
Definition root_dir : Z := 0xc0010000.

Definition open_root_dir : st fsys unit :=
  p ← gets sb;
  i ← inode_open (root_inode_no p);
  upd (fun s => set_dirs (<[root_dir := Dir i 0 (zeros 512)]> (dirs s)) s).

(** [sizeof(struct dir)] is 520; the allocator clears what it returns. *)
Definition dir_open (inode_no : Z) : st fsys Z :=
  pdir ← malloc 520;
  i ← inode_open inode_no;
  if pdir =? 0 then sfault
  else
    _ ← upd (fun s => set_dirs (<[pdir := Dir i 0 (zeros 512)]> (dirs s)) s);
    mret pdir.

(** The inode of a directory. *)
Definition dir_inode (dir : Z) : st fsys inode := d ← dir_at dir; inode_at (d_inode d).

(** The name of entry [k] of a sector, as [strcmp] reads it: it goes on behind
    an array of 16 bytes without NUL. *)
Definition entry_name (buf : list Z) (k : Z) : list Z := c_string (drop (Z.to_nat (24 * k)) buf).

(** [SECTOR_SIZE / dir_entry_size] *)
Definition entries_per_sec : st fsys Z :=
  p ← gets sb;
  if dir_entry_size p =? 0 then sfault else mret (SECTOR_SIZE / dir_entry_size p).

(** The first entry among [n] from [k] on whose name is [name]. *)
Fixpoint find_entry (n : nat) (buf name : list Z) (k : Z) : option Z :=
  match n with
  | O => None
  | S n' => if bool_decide (entry_name buf k = name) then Some k else find_entry n' buf name (k + 1)
  end.

(** The loop over the blocks; [buf] is the address of the sector buffer. *)
Fixpoint search_blocks (blocks : list Z) (buf dir_entry_cnt : Z) (name : list Z) : st fsys (option dir_entry) :=
  match blocks with
  | [] => mret None
  | b :: r =>
    if b =? 0 then search_blocks r buf dir_entry_cnt name
    else if buf =? 0 then sfault
    else
      sec ← ide_read 512 b 1;
      match find_entry (Z.to_nat dir_entry_cnt) sec name 0 with
      | Some k => mret (Some (entry_at sec k))
      | None => search_blocks r buf dir_entry_cnt name
      end
  end.

Definition search_dir_entry (pdir : Z) (name : list Z) : st fsys (option dir_entry) :=
  all_blocks ← malloc (48 + 512);
  if all_blocks =? 0 then mret None
  else
    i ← dir_inode pdir;
    blocks ← collect_blocks i;
    buf ← malloc SECTOR_SIZE;
    dir_entry_cnt ← entries_per_sec;
    search_blocks blocks buf dir_entry_cnt name.

Definition dir_close (dir : Z) : st fsys unit :=
  if dir =? root_dir then mret tt
  else
    d ← dir_at dir;
    _ ← inode_close (d_inode d);
    upd (fun s => set_dirs (delete dir (dirs s)) s).

(** The entry was cleared by the caller. *)
Definition create_dir_entry (name : list Z) (inode_no file_type : Z) : st fsys dir_entry :=
  _ ← sassert (Z.of_nat (length name) <=? 16);
  mret (DirEntry (name ++ zeros (16 - Z.of_nat (length name))) inode_no file_type).

(** [inode->i_sectors\[idx\] = v] *)
Definition set_sector (p idx v : Z) : st fsys unit :=
  i ← inode_at p;
  l ← sres (wr (i_sectors i) idx v);
  upd_inode p (set_i_sectors l).

(** The index of a block in the block bitmap. *)
Definition bitmap_idx (block_lba : Z) : st fsys Z :=
  p ← gets sb; mret (u32 (block_lba - data_start_lba p)).

(** The first free entry among [n] from [k] on. *)
Fixpoint find_free (n : nat) (buf : list Z) (k : Z) : option Z :=
  match n with
  | O => None
  | S n' => if f_type (entry_at buf k) =? ft_code FT_UNKNOWN then Some k else find_free n' buf (k + 1)
  end.

(** [sync_dir_entry] allocates block [block_idx] of the directory: the new
    [all_blocks], or nothing when the disk is full. *)
Definition new_dir_block (p block_idx : Z) (all_blocks : list Z) : st fsys (option (list Z)) :=
  block_lba ← block_bitmap_alloc;
  if block_lba =? -1 then mret None
  else
    idx ← bitmap_idx block_lba;
    _ ← sassert (negb (i32 idx =? -1));
    _ ← bitmap_sync idx BLOCK_BITMAP;
    if block_idx <? 12 then
      all' ← sres (wr all_blocks block_idx (u32 block_lba));
      _ ← set_sector p block_idx (u32 block_lba);
      mret (Some all')
    else if block_idx =? 12 then
      _ ← set_sector p 12 (u32 block_lba);
      block_lba2 ← block_bitmap_alloc;
      if block_lba2 =? -1 then
        idx2 ← bitmap_idx block_lba;
        b ← gets block_bitmap;
        b' ← sres (bitmap_set b idx2 0);
        _ ← upd (set_block_bitmap b');
        _ ← set_sector p 12 0;
        mret None
      else
        idx2 ← bitmap_idx block_lba2;
        _ ← sassert (negb (i32 idx2 =? -1));
        _ ← bitmap_sync idx2 BLOCK_BITMAP;
        all' ← sres (wr all_blocks 12 (u32 block_lba2));
        _ ← ide_write (u32 block_lba) (enc_words (drop 12 all')) 1;
        mret (Some all')
    else
      all' ← sres (wr all_blocks block_idx (u32 block_lba));
      i ← inode_at p;
      ind ← sres (rd (i_sectors i) 12);
      _ ← ide_write ind (enc_words (drop 12 all')) 1;
      mret (Some all').

(** [dir_inode->i_size += dir_entry_size] *)
Definition grow_dir (p : Z) : st fsys unit :=
  q ← gets sb; upd_inode p (fun i => set_i_size (u32 (i_size i + dir_entry_size q)) i).

(** The loop of [sync_dir_entry] from block [block_idx] on, [n] blocks left. *)
Fixpoint sync_blocks (n : nat) (p block_idx per_sec : Z) (all_blocks : list Z) (e : dir_entry) : st fsys bool :=
  match n with
  | O => mret false
  | S n' =>
    a ← sres (rd all_blocks block_idx);
    if a =? 0 then
      r ← new_dir_block p block_idx all_blocks;
      match r with
      | None => mret false
      | Some all' =>
        lba ← sres (rd all' block_idx);
        _ ← ide_write lba (enc_entry e ++ zeros 488) 1;
        _ ← grow_dir p;
        mret true
      end
    else
      sec ← ide_read 512 a 1;
      match find_free (Z.to_nat per_sec) sec 0 with
      | Some k =>
        _ ← ide_write a (splice sec (24 * k) (enc_entry e)) 1;
        _ ← grow_dir p;
        mret true
      | None => sync_blocks n' p (block_idx + 1) per_sec all_blocks e
      end
  end.

(** The indirect table is not read: blocks 12 to 139 count as free. *)
Definition sync_dir_entry (parent_dir : Z) (e : dir_entry) : st fsys bool :=
  d ← dir_at parent_dir;
  i ← inode_at (d_inode d);
  per_sec ← entries_per_sec;
  q ← gets sb;
  _ ← sassert (i_size i mod dir_entry_size q =? 0);
  sync_blocks 140 (d_inode d) 0 per_sec (take 12 (i_sectors i) ++ zeros 128) e.

(** What [delete_dir_entry] learns of a sector: the number of entries other than
    "." and "..", whether "." is there, and the entry of inode [inode_no]. *)
Record scanned : Type := Scanned {
  dir_entry_cnt : Z;
  is_dir_first_block : bool;
  dir_entry_found : option Z
}.

Definition dot : list Z := [46].
Definition dotdot : list Z := [46; 46].

Fixpoint scan_entries (n : nat) (buf : list Z) (k inode_no : Z) (a : scanned) : res scanned :=
  match n with
  | O => mret a
  | S n' =>
    let e := entry_at buf k in
    let name := entry_name buf k in
    a' ← (if f_type e =? 0 then mret a
          else if bool_decide (name = dot) then mret (Scanned (dir_entry_cnt a) true (dir_entry_found a))
          else if bool_decide (name = dotdot) then mret a
          else if de_i_no e =? inode_no then
            _ ← ASSERT (bool_decide (dir_entry_found a = None));
            mret (Scanned (u8 (dir_entry_cnt a + 1)) (is_dir_first_block a) (Some k))
          else mret (Scanned (u8 (dir_entry_cnt a + 1)) (is_dir_first_block a) (dir_entry_found a)));
    scan_entries n' buf (k + 1) inode_no a'
  end.

(** The count of the indirect blocks: the index is not advanced. *)
Fixpoint count_indirect (fuel : nat) (all_blocks : list Z) (indirect_block_idx indirect_blocks : Z) : res Z :=
  match fuel with
  | O => Bad EFuel
  | S f =>
    if indirect_block_idx <? 140 then
      v ← rd all_blocks indirect_block_idx;
      count_indirect f all_blocks indirect_block_idx (if v =? 0 then indirect_blocks else u32 (indirect_blocks + 1))
    else mret indirect_blocks
  end.

(** Giving back a block whose only entry is deleted. *)
Definition drop_dir_block (fuel : nat) (p block_idx : Z) (all_blocks : list Z) : st fsys unit :=
  a ← sres (rd all_blocks block_idx);
  idx ← bitmap_idx a;
  _ ← free_block idx;
  if block_idx <? 12 then set_sector p block_idx 0
  else
    indirect_blocks ← sres (count_indirect fuel all_blocks 12 0);
    _ ← sassert (1 <=? indirect_blocks);
    i ← inode_at p;
    ind ← sres (rd (i_sectors i) 12);
    if 1 <? indirect_blocks then
      all' ← sres (wr all_blocks block_idx 0);
      ide_write ind (enc_words (drop 12 all')) 1
    else
      idx2 ← bitmap_idx ind;
      _ ← free_block idx2;
      set_sector p 12 0.

(** The loop of [delete_dir_entry] from block [block_idx] on; [cap] is the size
    of the caller's buffer. *)
Fixpoint delete_blocks (fuel n : nat) (p block_idx per_sec inode_no cap : Z) (all_blocks : list Z) : st fsys bool :=
  match n with
  | O => mret false
  | S n' =>
    a ← sres (rd all_blocks block_idx);
    if a =? 0 then delete_blocks fuel n' p (block_idx + 1) per_sec inode_no cap all_blocks
    else
      sec ← ide_read cap a 1;
      r ← sres (scan_entries (Z.to_nat per_sec) sec 0 inode_no (Scanned 0 false None));
      match dir_entry_found r with
      | None => delete_blocks fuel n' p (block_idx + 1) per_sec inode_no cap all_blocks
      | Some k =>
        _ ← sassert (1 <=? dir_entry_cnt r);
        _ ← (if (dir_entry_cnt r =? 1) && negb (is_dir_first_block r) then drop_dir_block fuel p block_idx all_blocks
             else ide_write a (splice sec (24 * k) (zeros dir_entry_bytes)) 1);
        i ← inode_at p;
        q ← gets sb;
        _ ← sassert (dir_entry_size q <=? i_size i);
        _ ← upd_inode p (set_i_size (i_size i - dir_entry_size q));
        i' ← inode_at p;
        if cap <? 1024 then sfault
        else _ ← inode_sync i' cap; mret true
      end
  end.

Definition delete_dir_entry (fuel : nat) (pdir inode_no cap : Z) : st fsys bool :=
  d ← dir_at pdir;
  i ← inode_at (d_inode d);
  all_blocks ← collect_blocks i;
  per_sec ← entries_per_sec;
  delete_blocks fuel 140 (d_inode d) 0 per_sec inode_no cap all_blocks.

(** The inner loop of [dir_read]: the entry to return, or the position reached
    at the end of the sector. *)
Fixpoint read_entries (n : nat) (buf : list Z) (k dir_entry_size cur_dir_entry_pos dir_pos : Z) : res (Z + Z) :=
  match n with
  | O => mret (inr cur_dir_entry_pos)
  | S n' =>
    if f_type (entry_at buf k) =? 0 then read_entries n' buf (k + 1) dir_entry_size cur_dir_entry_pos dir_pos
    else if cur_dir_entry_pos <? dir_pos then
      read_entries n' buf (k + 1) dir_entry_size (u32 (cur_dir_entry_pos + dir_entry_size)) dir_pos
    else
      _ ← ASSERT (cur_dir_entry_pos =? dir_pos);
      mret (inl k)
  end.

(** The result is the number of the entry in [dir_buf] that is returned. *)
Fixpoint read_blocks (blocks : list Z) (dir per_sec cur_dir_entry_pos : Z) : st fsys (option Z) :=
  match blocks with
  | [] => mret None
  | b :: r =>
    d ← dir_at dir;
    i ← inode_at (d_inode d);
    if i_size i <=? dir_pos d then mret None
    else if b =? 0 then read_blocks r dir per_sec cur_dir_entry_pos
    else
      sec ← ide_read 512 b 1;
      _ ← upd_dir dir (fun d => Dir (d_inode d) (dir_pos d) sec);
      q ← gets sb;
      x ← sres (read_entries (Z.to_nat per_sec) sec 0 (dir_entry_size q) cur_dir_entry_pos (dir_pos d));
      match x with
      | inl k =>
        _ ← upd_dir dir (fun d => Dir (d_inode d) (u32 (dir_pos d + dir_entry_size q)) (dir_buf d));
        mret (Some k)
      | inr cur => read_blocks r dir per_sec cur
      end
  end.

Definition dir_read (dir : Z) : st fsys (option Z) :=
  i ← dir_inode dir;
  blocks ← collect_blocks i;
  ind ← sres (rd (i_sectors i) 12);
  per_sec ← entries_per_sec;
  read_blocks (if ind =? 0 then take 12 blocks else blocks) dir per_sec 0.

Definition dir_is_empty (dir : Z) : st fsys bool :=
  i ← dir_inode dir; q ← gets sb; mret (i_size i =? u32 (dir_entry_size q * 2)).

(** The loop over [i_sectors] in [dir_remove]. *)
Definition only_first_block (i : inode) : bool := forallb (fun x => x =? 0) (drop 1 (i_sectors i)).

Definition dir_remove (fuel : nat) (parent_dir child_dir : Z) : st fsys Z :=
  i ← dir_inode child_dir;
  _ ← sassert (only_first_block i);
  io_buf ← malloc (SECTOR_SIZE * 2);
  if io_buf =? 0 then mret (-1)
  else
    _ ← delete_dir_entry fuel parent_dir (i_no i) 1024;
    _ ← inode_release (i_no i);
    mret 0.
