(* ===== verification/File.v ===== *)
(** * File: fs/file.c

    File descriptors and the content of files.  A file has [i_size / 512 + 1]
    blocks as soon as something was written to it, 12 of them direct, the others
    in one indirect table.  [content] is the abstract view: the sequence of its
    bytes; writing appends to it and reading returns a piece of it. *)
From S2P Require Import Prelude Bitmap CString Disk Fsys Inode Dir.

(** ** Descriptors *)

Definition MAX_FILE_OPEN : Z := 32.
Definition MAX_FILES_OPEN_PER_PROC : Z := 8.

Definition O_RDONLY : Z := 0.
Definition O_WRONLY : Z := 1.
Definition O_RDWR : Z := 2.
Definition O_CREAT : Z := 4.

Fixpoint free_slot_loop (n : nat) (fd_idx : Z) : st fsys Z :=
  match n with
  | O => mret fd_idx
  | S n' => f ← file_at fd_idx; if fd_inode f =? 0 then mret fd_idx else free_slot_loop n' (fd_idx + 1)
  end.

Definition get_free_slot_in_global : st fsys Z :=
  fd_idx ← free_slot_loop 29 3;
  if fd_idx =? MAX_FILE_OPEN then mret (-1) else mret fd_idx.

Fixpoint install_loop (n : nat) (local_fd_idx globa_fd_idx : Z) : st fsys Z :=
  match n with
  | O => mret local_fd_idx
  | S n' =>
    t ← gets fd_table;
    v ← sres (rd t local_fd_idx);
    if v =? -1 then
      t' ← sres (wr t local_fd_idx globa_fd_idx);
      _ ← upd (set_fd_table t');
      mret local_fd_idx
    else install_loop n' (local_fd_idx + 1) globa_fd_idx
  end.

Definition pcb_fd_install (globa_fd_idx : Z) : st fsys Z :=
  local_fd_idx ← install_loop 5 3 globa_fd_idx;
  if local_fd_idx =? MAX_FILES_OPEN_PER_PROC then mret (-1) else mret local_fd_idx.

(** ** Creating, opening, closing *)

(** The rollback of [file_create] from step [rollback_step]. *)
Definition create_rollback (rollback_step inode_no new_file_inode fd_idx : Z) : st fsys Z :=
  _ ← (if rollback_step =? 3 then put_file fd_idx (File 0 0 0) else mret tt);
  _ ← (if 2 <=? rollback_step then upd (fun s => set_inodes (delete new_file_inode (inodes s)) s) else mret tt);
  b ← gets inode_bitmap;
  b' ← sres (bitmap_set b inode_no 0);
  _ ← upd (set_inode_bitmap b');
  mret (-1).

Definition file_create (parent_dir : Z) (name : list Z) (flag : Z) : st fsys Z :=
  io_buf ← malloc 1024;
  if io_buf =? 0 then mret (-1)
  else
    inode_no ← inode_bitmap_alloc;
    if inode_no =? -1 then mret (-1)
    else
      new_file_inode ← malloc inode_size;
      if new_file_inode =? 0 then create_rollback 1 inode_no 0 0
      else
        _ ← upd (fun s => set_inodes (<[new_file_inode := inode_init inode_no]> (inodes s)) s);
        fd_idx ← get_free_slot_in_global;
        if fd_idx =? -1 then create_rollback 2 inode_no new_file_inode 0
        else
          _ ← put_file fd_idx (File 0 flag new_file_inode);
          _ ← upd_inode new_file_inode (set_write_deny false);
          new_dir_entry ← create_dir_entry name inode_no (ft_code FT_REGULAR);
          ok ← sync_dir_entry parent_dir new_dir_entry;
          if negb ok then create_rollback 3 inode_no new_file_inode fd_idx
          else
            pi ← dir_inode parent_dir;
            _ ← inode_sync pi 1024;
            ni ← inode_at new_file_inode;
            _ ← inode_sync ni 1024;
            _ ← bitmap_sync inode_no INODE_BITMAP;
            _ ← upd (fun s => set_open_inodes (new_file_inode :: open_inodes s) s);
            _ ← upd_inode new_file_inode (set_i_open_cnts 1);
            pcb_fd_install fd_idx.

Definition file_open (inode_no flag : Z) : st fsys Z :=
  fd_idx ← get_free_slot_in_global;
  if fd_idx =? -1 then mret (-1)
  else
    p ← inode_open inode_no;
    _ ← put_file fd_idx (File 0 flag p);
    if (flag =? O_WRONLY) || (flag =? O_RDWR) then
      i ← inode_at p;
      if negb (write_deny i) then
        _ ← upd_inode p (set_write_deny true);
        pcb_fd_install fd_idx
      else mret (-1)
    else pcb_fd_install fd_idx.

(** [file] is the entry [fd] of [file_table]. *)
Definition file_close (fd : Z) : st fsys Z :=
  f ← file_at fd;
  _ ← upd_inode (fd_inode f) (set_write_deny false);
  _ ← inode_close (fd_inode f);
  _ ← put_file fd (File (fd_pos f) (fd_flag f) 0);
  mret 0.

(** ** Writing *)

(** [block_lba]'s bit to the disk. *)
Definition sync_block (block_lba : Z) : st fsys unit := idx ← bitmap_idx block_lba; bitmap_sync idx BLOCK_BITMAP.

(** The allocation of [n] blocks from number [block_idx] on, in the three loops
    of [file_write]: the first of them only meets direct blocks, the third only
    indirect ones, the second both. *)
Fixpoint grow (n : nat) (p block_idx : Z) (all_blocks : list Z) : st fsys (option (list Z)) :=
  match n with
  | O => mret (Some all_blocks)
  | S n' =>
    block_lba ← block_bitmap_alloc;
    if block_lba =? -1 then mret None
    else
      _ ← (if block_idx <? 12 then
             i ← inode_at p;
             old ← sres (rd (i_sectors i) block_idx);
             _ ← sassert (old =? 0);
             set_sector p block_idx (u32 block_lba)
           else mret tt);
      all' ← sres (wr all_blocks block_idx (u32 block_lba));
      _ ← sync_block block_lba;
      grow n' p (block_idx + 1) all'
  end.

(** [all_blocks + 12] read from the indirect table, which must exist. *)
Definition read_indirect (p : Z) : st fsys (Z * list Z) :=
  i ← inode_at p;
  ind ← sres (rd (i_sectors i) 12);
  _ ← sassert (negb (ind =? 0));
  t ← ide_read 512 ind 1;
  mret (ind, zeros 12 ++ dec_words 128 t).

(** The block that has room left goes to [all_blocks]. *)
Definition last_block (p has_used : Z) : st fsys (list Z) :=
  i ← inode_at p;
  b ← sres (rd (i_sectors i) (has_used - 1));
  sres (wr (zeros 140) (has_used - 1) b).

(** Collecting and allocating the blocks [file_write] needs; nothing when the
    disk is full.  The loops run while the index, from [file_has_used_blocks] on,
    is below [file_will_use_blocks]: not at all when that is not larger, which the
    unsigned [add_blocks] does not tell. *)
Definition write_blocks (p file_has_used_blocks file_will_use_blocks : Z) : st fsys (option (list Z)) :=
  let add_blocks := u32 (file_will_use_blocks - file_has_used_blocks) in
  if add_blocks =? 0 then
    if file_has_used_blocks <=? 12 then all ← last_block p file_has_used_blocks; mret (Some all)
    else t ← read_indirect p; mret (Some t.2)
  else if file_will_use_blocks <=? 12 then
    all ← last_block p file_has_used_blocks;
    b ← sres (rd all (file_has_used_blocks - 1));
    _ ← sassert (negb (b =? 0));
    grow (Z.to_nat (file_will_use_blocks - file_has_used_blocks)) p file_has_used_blocks all
  else if file_has_used_blocks <=? 12 then
    all ← last_block p file_has_used_blocks;
    block_lba ← block_bitmap_alloc;
    if block_lba =? -1 then mret None
    else
      i ← inode_at p;
      old ← sres (rd (i_sectors i) 12);
      _ ← sassert (old =? 0);
      _ ← set_sector p 12 (u32 block_lba);
      r ← grow (Z.to_nat (file_will_use_blocks - file_has_used_blocks)) p file_has_used_blocks all;
      match r with
      | None => mret None
      | Some all' => _ ← ide_write (u32 block_lba) (enc_words (drop 12 all')) 1; mret (Some all')
      end
  else
    t ← read_indirect p;
    r ← grow (Z.to_nat (file_will_use_blocks - file_has_used_blocks)) p file_has_used_blocks t.2;
    match r with
    | None => mret None
    | Some all' => _ ← ide_write t.1 (enc_words (drop 12 all')) 1; mret (Some all')
    end.

(** [file->fd_pos] and [inode->i_size] grow by [chunk]. *)
Definition advance (fd p chunk : Z) : st fsys unit :=
  _ ← upd_inode p (fun i => set_i_size (u32 (i_size i + chunk)) i);
  f ← file_at fd;
  put_file fd (File (u32 (fd_pos f + chunk)) (fd_flag f) (fd_inode f)).

(** The loop that writes the data; the fuel is one step for each byte. *)
Fixpoint write_loop (fuel : nat) (fd p : Z) (all_blocks src : list Z) (first_write_block : bool)
    (bytes_written size_left count : Z) : st fsys Z :=
  match fuel with
  | O => sres (Bad EFuel)
  | S f =>
    if bytes_written <? count then
      i ← inode_at p;
      let sec_idx := i_size i / BLOCK_SIZE in
      sec_lba ← sres (rd all_blocks sec_idx);
      let sec_off_bytes := i_size i mod BLOCK_SIZE in
      let sec_left_bytes := BLOCK_SIZE - sec_off_bytes in
      let chunk_size := if size_left <? sec_left_bytes then size_left else sec_left_bytes in
      io_buf ← (if first_write_block then ide_read 512 sec_lba 1 else mret (zeros 512));
      let data := slice src bytes_written chunk_size in
      if negb (Z.of_nat (length data) =? chunk_size) then sfault
      else
        _ ← ide_write sec_lba (splice io_buf sec_off_bytes data) 1;
        _ ← advance fd p chunk_size;
        write_loop f fd p all_blocks src false (u32 (bytes_written + chunk_size)) (u32 (size_left - chunk_size)) count
    else mret bytes_written
  end.

(** The first block of a file that has none; false when the disk is full. *)
Definition first_block (p : Z) : st fsys bool :=
  i ← inode_at p;
  b ← sres (rd (i_sectors i) 0);
  if negb (b =? 0) then mret true
  else
    block_lba ← block_bitmap_alloc;
    if block_lba =? -1 then mret false
    else
      _ ← set_sector p 0 (u32 block_lba);
      idx ← bitmap_idx block_lba;
      _ ← sassert (negb (idx =? 0));
      _ ← bitmap_sync idx BLOCK_BITMAP;
      mret true.

(** [buf] holds the bytes at the caller's pointer. *)
Definition file_write (fd : Z) (buf : list Z) (count : Z) : st fsys Z :=
  f ← file_at fd;
  let p := fd_inode f in
  i ← inode_at p;
  if BLOCK_SIZE * 140 <? u32 (i_size i + count) then mret (-1)
  else
    io_buf ← malloc BLOCK_SIZE;
    if io_buf =? 0 then mret (-1)
    else
      all_blocks ← malloc (BLOCK_SIZE + 48);
      if all_blocks =? 0 then mret (-1)
      else
        ok ← first_block p;
        if negb ok then mret (-1)
        else
          let file_has_used_blocks := i_size i / BLOCK_SIZE + 1 in
          let file_will_use_blocks := u32 (i_size i + count) / BLOCK_SIZE + 1 in
          _ ← sassert (file_will_use_blocks <=? 140);
          r ← write_blocks p file_has_used_blocks file_will_use_blocks;
          match r with
          | None => mret (-1)
          | Some all =>
            _ ← put_file fd (File (u32 (i_size i - 1)) (fd_flag f) p);
            bytes_written ← write_loop (S (Z.to_nat count)) fd p all buf true 0 count count;
            i' ← inode_at p;
            _ ← inode_sync i' BLOCK_SIZE;
            mret (i32 bytes_written)
          end.

(** ** Reading *)

(** Direct blocks [block_idx] to [last] into [all_blocks]. *)
Fixpoint copy_direct (n : nat) (i : inode) (block_idx : Z) (all_blocks : list Z) : res (list Z) :=
  match n with
  | O => mret all_blocks
  | S n' =>
    b ← rd (i_sectors i) block_idx;
    all' ← wr all_blocks block_idx b;
    copy_direct n' i (block_idx + 1) all'
  end.

(** [all_blocks + 12] from the indirect table, over what is there already. *)
Definition over_indirect (i : inode) (all_blocks : list Z) : st fsys (list Z) :=
  ind ← sres (rd (i_sectors i) 12);
  t ← ide_read 512 ind 1;
  mret (take 12 all_blocks ++ dec_words 128 t).

Definition has_indirect (i : inode) : st fsys unit :=
  ind ← sres (rd (i_sectors i) 12); sassert (negb (ind =? 0)).

(** The block addresses [file_read] needs. *)
Definition collect_read (i : inode) (start_idx end_idx : Z) : st fsys (list Z) :=
  let read_blocks := u32 (start_idx - end_idx) in
  if read_blocks =? 0 then
    _ ← sassert (end_idx =? start_idx);
    if end_idx <? 12 then sres (copy_direct 1 i end_idx (zeros 140))
    else over_indirect i (zeros 140)
  else if end_idx <? 12 then sres (copy_direct (Z.to_nat (end_idx - start_idx + 1)) i start_idx (zeros 140))
  else if start_idx <? 12 then
    all ← sres (copy_direct (Z.to_nat (12 - start_idx)) i start_idx (zeros 140));
    _ ← has_indirect i;
    over_indirect i all
  else
    _ ← has_indirect i;
    over_indirect i (zeros 140).

(** The loop that reads the data: the bytes put into the caller's buffer. *)
Fixpoint read_loop (fuel : nat) (fd io_buf : Z) (all_blocks : list Z) (bytes_read size_left size : Z)
    : st fsys (list Z) :=
  match fuel with
  | O => sres (Bad EFuel)
  | S fl =>
    if bytes_read <? size then
      f ← file_at fd;
      let sec_idx := fd_pos f / BLOCK_SIZE in
      sec_lba ← sres (rd all_blocks sec_idx);
      let sec_off_bytes := fd_pos f mod BLOCK_SIZE in
      let sec_left_bytes := BLOCK_SIZE - sec_off_bytes in
      let chunk_size := if size_left <? sec_left_bytes then size_left else sec_left_bytes in
      _ ← sassert (negb (io_buf =? 0));
      sec ← ide_read 512 sec_lba 1;
      _ ← put_file fd (File (u32 (fd_pos f + chunk_size)) (fd_flag f) (fd_inode f));
      rest ← read_loop fl fd io_buf all_blocks (u32 (bytes_read + chunk_size)) (u32 (size_left - chunk_size)) size;
      mret (slice sec sec_off_bytes chunk_size ++ rest)
    else mret []
  end.

(** The return value and the bytes put into the caller's buffer.  When the
    buffer for a sector cannot be allocated the code goes on with NULL. *)
Definition file_read (fd count : Z) : st fsys (Z * list Z) :=
  f ← file_at fd;
  i ← inode_at (fd_inode f);
  let past_end := i_size i <? u32 (fd_pos f + count) in
  let size := if past_end then u32 (i_size i - fd_pos f) else count in
  if past_end && (size =? 0) then mret (-1, [])
  else
    io_buf ← malloc BLOCK_SIZE;
    all_blocks ← malloc (BLOCK_SIZE + 48);
    if all_blocks =? 0 then mret (-1, [])
    else
      let block_read_start_idx := fd_pos f / BLOCK_SIZE in
      let block_read_end_idx := u32 (fd_pos f + size) / BLOCK_SIZE in
      _ ← sassert ((block_read_start_idx <? 139) && (block_read_end_idx <? 139));
      all ← collect_read i block_read_start_idx block_read_end_idx;
      data ← read_loop (S (Z.to_nat size)) fd io_buf all 0 size size;
      mret (i32 size, data).

(** ** The content of a file *)

(** Byte [k] of a file whose blocks are [bl], and its first [n] bytes. *)
Definition fbyte (d : sectors) (bl : list Z) (k : Z) : Z :=
  dbyte d (512 * default 0 (bl !! Z.to_nat (k / 512)) + k mod 512).

Definition content (d : sectors) (bl : list Z) (n : Z) : list Z := map (fbyte d bl) (seqZ 0 n).

Lemma content_length d bl n : 0 <= n -> Z.of_nat (length (content d bl n)) = n.
Proof. intros. unfold content. rewrite length_map, length_seqZ. lia. Qed.

Lemma content_lookup d bl n i : Z.of_nat i < n -> content d bl n !! i = Some (fbyte d bl (Z.of_nat i)).
Proof. intros. unfold content. rewrite list_lookup_fmap, lookup_seqZ_lt by lia. simpl. by rewrite Z.add_0_l. Qed.

Lemma content_lookup_None d bl n i : n <= Z.of_nat i -> content d bl n !! i = None.
Proof. intros. unfold content. by rewrite list_lookup_fmap, lookup_seqZ_ge by lia. Qed.

(** A longer file starts with the shorter one if the bytes agree. *)
Lemma content_append d d' bl bl' z n (src : list Z) :
  0 <= z -> 0 <= n <= Z.of_nat (length src) ->
  (forall k, 0 <= k < z -> fbyte d' bl' k = fbyte d bl k) ->
  (forall k, z <= k < z + n -> src !! Z.to_nat (k - z) = Some (fbyte d' bl' k)) ->
  content d' bl' (z + n) = content d bl z ++ take (Z.to_nat n) src.
Proof.
  intros Hz Hn Hold Hnew. pose proof (content_length d bl z Hz) as Hl. apply list_eq. intros i.
  destruct (decide (Z.of_nat i < z)).
  - rewrite lookup_app_l by lia. rewrite !content_lookup by lia. f_equal. apply Hold. lia.
  - rewrite lookup_app_r by lia. destruct (decide (Z.of_nat i < z + n)).
    + rewrite content_lookup by lia. rewrite lookup_take_lt by lia. rewrite <- Hnew by lia. f_equal. lia.
    + rewrite content_lookup_None by lia. rewrite lookup_take_ge by lia. done.
Qed.

Lemma rd_lookup {A} (l : list A) k v : 0 <= k -> l !! Z.to_nat k = Some v -> rd l k = Ok v.
Proof. intros. by apply rd_Ok. Qed.

Lemma sres_run {S A} (a : A) (s : S) : sres (Ok a) s = Ok (a, s).
Proof. done. Qed.

Lemma file_at_run fd f s : 0 <= fd -> file_table s !! Z.to_nat fd = Some f -> file_at fd s = Ok (f, s).
Proof. intros. unfold file_at. run (gets_run file_table s). by rewrite (rd_lookup _ _ f). Qed.

Lemma put_file_run fd f f' s :
  0 <= fd -> file_table s !! Z.to_nat fd = Some f ->
  put_file fd f' s = Ok (tt, set_file_table (<[Z.to_nat fd := f']> (file_table s)) s).
Proof.
  intros H0 Hf. apply lookup_lt_Some in Hf. unfold put_file. run (gets_run file_table s). rewrite wr_in by lia. done.
Qed.

Lemma splice_one_sector (b off : Z) (x : list Z) (io d : _) k :
  length io = 512%nat -> 0 <= off -> off + Z.of_nat (length x) <= 512 -> 0 <= k < 512 ->
  dbyte (write_secs 1 b (splice io off x) d) (512 * b + k) =
    default 0 (if bool_decide (off <= k < off + Z.of_nat (length x)) then x !! Z.to_nat (k - off) else io !! Z.to_nat k).
Proof.
  intros Hio Ho Hx Hk. rewrite dbyte_write by (rewrite splice_length; lia). rewrite bool_decide_true by lia.
  rewrite splice_lookup by lia. f_equal. case_bool_decide; case_bool_decide; try lia; f_equal; lia.
Qed.

(** What the two data loops keep of the blocks: distinct sectors of the data
    area that the driver accepts. *)
Definition data_blocks (s : fsys) (bl : list Z) : Prop :=
  NoDup bl /\ Forall (fun b => data_start_lba (sb s) <= b <= max_lba) bl.

(** One turn of the write loop, as a change of the disk. *)
Lemma write_chunk d bl z (io data : list Z) b :
  disk_ok d -> NoDup bl -> bl !! Z.to_nat (z / 512) = Some b -> 0 <= z ->
  (io = sector d b \/ (length io = 512%nat /\ z mod 512 = 0)) ->
  z mod 512 + Z.of_nat (length data) <= 512 ->
  let d' := write_secs 1 b (splice io (z mod 512) data) d in
  (forall k, 0 <= k < z -> (k / 512 < Z.of_nat (length bl)) -> fbyte d' bl k = fbyte d bl k)
  /\ (forall k, z <= k < z + Z.of_nat (length data) -> data !! Z.to_nat (k - z) = Some (fbyte d' bl k)).
Proof.
  intros Hd Hnd Hb Hz Hio Hfit d'.
  assert (length io = 512%nat) as Hl by (destruct Hio as [->|[? _]]; [apply Hd|done]).
  split.
  - intros k Hk Hlen. unfold fbyte. destruct (lookup_lt_is_Some_2 bl (Z.to_nat (k / 512))) as [b' Hb']; [lia|].
    rewrite Hb'. simpl. destruct (decide (k / 512 = z / 512)) as [Heq|Hne].
    + rewrite Heq, Hb in Hb'. injection Hb' as <-. unfold d'. rewrite splice_one_sector by lia.
      rewrite bool_decide_false by lia. destruct Hio as [->|[_ Hm]]; [|lia].
      rewrite sector_bytes by done. rewrite dbytes_lookup by lia. simpl. f_equal. lia.
    + assert (b <> b') as Hbb. { intros <-. apply Hne. pose proof (NoDup_lookup _ _ _ _ Hnd Hb Hb'). lia. }
      unfold d'. rewrite dbyte_write by (rewrite splice_length; lia). rewrite bool_decide_false by lia. done.
  - intros k Hk. assert (k / 512 = z / 512) as Heq by lia. unfold fbyte. rewrite Heq, Hb. simpl.
    unfold d'. rewrite splice_one_sector by lia. rewrite bool_decide_true by lia.
    replace (Z.to_nat (k mod 512 - z mod 512)) with (Z.to_nat (k - z)) by lia.
    destruct (lookup_lt_is_Some_2 data (Z.to_nat (k - z))) as [v ->]; [lia|done].
Qed.

(** The state in which the data loop of [file_write] leaves [s]. *)
Definition written (s : fsys) (d : sectors) (fd : Z) (f : file) (i : inode) (n : Z) : fsys :=
  set_disk d (set_file_table (<[Z.to_nat fd := File (u32 (fd_pos f + n)) (fd_flag f) (fd_inode f)]> (file_table s))
    (set_inodes (<[fd_inode f := set_i_size (i_size i + n) i]> (inodes s)) s)).

Lemma u32_add_assoc a b c : u32 (u32 (a + b) + c) = u32 (a + (b + c)).
Proof. unfold u32. rewrite Zplus_mod_idemp_l. f_equal. lia. Qed.

Lemma advance_run s fd f i n :
  0 <= fd -> file_table s !! Z.to_nat fd = Some f -> inodes s !! fd_inode f = Some i ->
  0 <= i_size i -> 0 <= n -> i_size i + n < 2 ^ 32 ->
  advance fd (fd_inode f) n s = Ok (tt, written s (disk s) fd f i n).
Proof.
  intros Hfd Hf Hi Hz Hn Hlt. unfold advance.
  rewrite (sbind_Ok _ _ _ _ _ (upd_inode_run (fd_inode f) i _ s Hi)). unwrap.
  set (s1 := set_inodes _ s). run (file_at_run fd f s1 Hfd Hf). by rewrite (put_file_run fd f) by done.
Qed.

Lemma written_none s fd f i :
  file_table s !! Z.to_nat fd = Some f -> inodes s !! fd_inode f = Some i -> is_u32 (fd_pos f) ->
  written s (disk s) fd f i 0 = s.
Proof.
  intros Hf Hi Hp. unfold written. rewrite !Z.add_0_r, u32_id by done.
  replace (set_i_size (i_size i) i) with i by by destruct i. rewrite insert_id by done.
  replace (File (fd_pos f) (fd_flag f) (fd_inode f)) with f by by destruct f. rewrite list_insert_id by done.
  by destruct s.
Qed.

Lemma written_twice s d d' fd f i n m :
  0 <= fd -> file_table s !! Z.to_nat fd = Some f ->
  written (written s d fd f i n) d' fd (File (u32 (fd_pos f + n)) (fd_flag f) (fd_inode f)) (set_i_size (i_size i + n) i) m
  = written s d' fd f i (n + m).
Proof.
  intros Hfd Hf. unfold written. cbn [fd_pos fd_flag fd_inode i_size set_i_size].
  rewrite u32_add_assoc.
  replace (set_i_size (i_size i + n + m) (set_i_size (i_size i + n) i)) with (set_i_size (i_size i + (n + m)) i)
    by (unfold set_i_size; cbn; f_equal; lia).
  cbn [file_table inodes set_disk set_file_table set_inodes].
  rewrite list_insert_insert_eq, insert_insert_eq. done.
Qed.

Lemma slice_length (l : list Z) off n :
  0 <= off -> 0 <= n -> off + n <= Z.of_nat (length l) -> Z.of_nat (length (slice l off n)) = n.
Proof. intros. unfold slice. rewrite length_take, length_drop. lia. Qed.

Lemma slice_lookup (l : list Z) off n k :
  0 <= off -> (Z.of_nat k < n) -> slice l off n !! k = l !! (Z.to_nat off + k)%nat.
Proof. intros. unfold slice. rewrite lookup_take_lt by lia. by rewrite lookup_drop. Qed.

Lemma slice_bytes (l : list Z) off n : Forall byte l -> Forall byte (slice l off n).
Proof. intros. by apply Forall_take, Forall_drop. Qed.

Lemma write_loop_run fuel : forall s fd f i all bl src (first : bool) w count,
  volume_ok s -> 0 <= fd -> file_table s !! Z.to_nat fd = Some f -> inodes s !! fd_inode f = Some i ->
  is_u32 (fd_pos f) -> data_blocks s bl -> 0 <= w <= count -> count <= Z.of_nat (length src) -> Forall byte src ->
  0 <= i_size i -> i_size i + (count - w) < 512 * Z.of_nat (length bl) -> Z.of_nat (length bl) <= 140 -> count < 2 ^ 31 ->
  (forall k, i_size i / 512 <= k < Z.of_nat (length bl) -> all !! Z.to_nat k = bl !! Z.to_nat k) ->
  first = true \/ i_size i mod 512 = 0 \/ w = count -> count - w < Z.of_nat fuel ->
  exists d, write_loop fuel fd (fd_inode f) all src first w (count - w) count s
              = Ok (count, written s d fd f i (count - w))
    /\ disk_ok d
    /\ (forall lba, lba ∉ bl -> sector d lba = sector (disk s) lba)
    /\ (forall k, 0 <= k < i_size i -> fbyte d bl k = fbyte (disk s) bl k)
    /\ (forall k, i_size i <= k < i_size i + (count - w) ->
          src !! Z.to_nat (w + (k - i_size i)) = Some (fbyte d bl k)).
Proof.
  induction fuel as [|fuel IH]; intros s fd f i all bl src first w count Hv Hfd Hf Hi Hpos Hbl Hw Hsrc Hby Hz Hfit H140 Hc Hall Hfirst Hfuel; [lia|].
  cbn [write_loop]. destruct (decide (w = count)) as [->|Hne].
  { replace (count <? count) with false by lia. exists (disk s). rewrite Z.sub_diag, written_none by done.
    split_and!; try done; [apply Hv|lia]. }
  replace (w <? count) with true by lia. run (inode_at_run _ _ _ Hi).
  unfold BLOCK_SIZE, SECTOR_SIZE in *.
  destruct Hbl as [Hnd Hrange].
  destruct (lookup_lt_is_Some_2 bl (Z.to_nat (i_size i / 512))) as [b Hb]; [lia|].
  assert (rd all (i_size i / 512) = Ok b) as Hrd by (apply rd_lookup; [lia|]; rewrite Hall by lia; done).
  rewrite Hrd. run (sres_run b s). pose proof (Forall_lookup_1 _ _ _ _ Hrange Hb) as Hbr. cbn beta in Hbr.
  set (z := i_size i) in *.
  set (chunk := if count - w <? 512 - z mod 512 then count - w else 512 - z mod 512).
  assert (0 < chunk <= count - w /\ z mod 512 + chunk <= 512 /\ (chunk = count - w \/ (z + chunk) mod 512 = 0)) as (Hch & Hch2 & Hch3).
  { unfold chunk. case_match; lia. }
  clearbody chunk.
  set (io := if first then sector (disk s) b else zeros 512).
  assert (length io = 512%nat) as Hio by (unfold io; case_match; [apply Hv|done]).
  assert (Forall byte io) as Hiob by (unfold io; case_match; [apply Hv|apply Forall_replicate; unfold byte; lia]).
  rewrite (sbind_Ok _ _ s io s).
  2: { unfold io. destruct first; [|done]. by rewrite ide_read_one by lia. }
  set (data := slice src w chunk).
  assert (Z.of_nat (length data) = chunk) as Hdl by (apply slice_length; lia).
  replace (negb (Z.of_nat (length data) =? chunk)) with false by lia.
  rewrite (sbind_Ok _ _ _ _ _ (ide_write_run b (splice io (z mod 512) data) 1 s ltac:(lia) ltac:(lia)
    ltac:(rewrite splice_length; lia))). change (Z.to_nat 1) with 1%nat.
  set (d1 := write_secs 1 b (splice io (z mod 512) data) (disk s)).
  assert (disk_ok d1) as Hd1.
  { apply write_secs_ok; [apply Hv|rewrite splice_length; lia|]. apply splice_bytes; [done|by apply slice_bytes]. }
  destruct (write_chunk (disk s) bl z io data b) as [Hold Hnew]; [apply Hv|done|done|done| |lia|].
  { unfold io. destruct first; [by left|right]. split; [done|]. naive_solver lia. }
  fold d1 in Hold, Hnew.
  rewrite (sbind_Ok _ _ _ _ _ (advance_run (set_disk d1 s) fd f i chunk Hfd Hf Hi Hz ltac:(lia) ltac:(lia))).
  change (disk (set_disk d1 s)) with d1. change (written (set_disk d1 s) d1 fd f i chunk) with (written s d1 fd f i chunk).
  unwrap.
  assert (volume_ok (written s d1 fd f i chunk)) as Hv1 by (destruct Hv; by constructor).
  edestruct (IH (written s d1 fd f i chunk) fd (File (u32 (fd_pos f + chunk)) (fd_flag f) (fd_inode f))
    (set_i_size (z + chunk) i) all bl src false (w + chunk) count) as (d & Hr & Hdo & Hsec & Hold2 & Hnew2);
    [done|done| | |apply u32_range|by split|lia|done|done|cbn; lia|cbn; lia|done|done| | |lia|].
  { cbn. apply list_lookup_insert_eq. by eapply lookup_lt_Some. }
  { cbn. by rewrite lookup_insert_eq. }
  { cbn [i_size set_i_size]. intros k Hk. apply Hall. lia. }
  { cbn [i_size set_i_size]. right. destruct Hch3; [right; lia|by left]. }
  cbn [i_size set_i_size fd_inode] in *. change (disk (written s d1 fd f i chunk)) with d1 in *.
  exists d. replace (count - w - chunk) with (count - (w + chunk)) by lia. split_and!.
  - rewrite Hr. unfold z. rewrite (written_twice s d1 d fd f i) by done. do 3 f_equal. lia.
  - done.
  - intros lba Hlba. rewrite Hsec by done. apply write_secs_other. intros Heq. apply Hlba.
    replace lba with b by lia. by eapply list_elem_of_lookup_2.
  - intros k Hk. rewrite Hold2 by lia. apply Hold; lia.
  - intros k Hk. destruct (decide (k < z + chunk)).
    + rewrite Hold2 by lia. rewrite <- (Hnew k) by lia. unfold data. rewrite slice_lookup by lia. f_equal. lia.
    + rewrite <- Hnew2 by lia. f_equal. lia.
Qed.

(** ** Allocating blocks *)

(** At least [n] clear bits. *)
Definition free_bits (b : bitmap) (n : nat) : Prop :=
  exists l, length l = n /\ NoDup l /\ Forall (fun i => 0 <= i < bm_bits b /\ bm_bit b i = false) l.

(** A block that can be allocated. *)
Definition free_addr (s : fsys) (a : Z) : Prop :=
  data_start_lba (sb s) <= a <= max_lba /\ a - data_start_lba (sb s) < bm_bits (block_bitmap s)
  /\ bm_bit (block_bitmap s) (a - data_start_lba (sb s)) = false.

Lemma free_bits_weaken b n m : free_bits b n -> (m <= n)%nat -> free_bits b m.
Proof.
  intros (l & Hl & Hnd & Hall) Hle. exists (take m l). split_and!; [rewrite length_take; lia| |by apply Forall_take].
  rewrite <- (take_drop m l) in Hnd. by apply NoDup_app in Hnd as [? _].
Qed.

(** One allocation, its bit set and as many free bits less one. *)
Lemma alloc_free s n :
  volume_ok s -> free_bits (block_bitmap s) (S n) ->
  exists a b, block_bitmap_alloc s = Ok (a, set_block_bitmap b s) /\ volume_ok (set_block_bitmap b s)
    /\ free_addr s a /\ btmp_bytes_len b = btmp_bytes_len (block_bitmap s) /\ free_bits b n
    /\ (forall j, 0 <= j -> bm_bit b j = bm_bit (block_bitmap s) j || bool_decide (data_start_lba (sb s) + j = a)).
Proof.
  intros Hv (l & Hl & Hnd & Hall). destruct l as [|x l]; [done|].
  destruct (block_alloc_run s Hv) as (i & b & Hr & Hv' & Hi & Hc & Hlen & Hbits).
  { exists x. apply Forall_cons in Hall as [? _]. done. }
  exists (data_start_lba (sb s) + i), b. pose proof (vo_clear s Hv i Hi Hc).
  split_and!; try done.
  - split_and!; try lia. by replace (data_start_lba (sb s) + i - data_start_lba (sb s)) with i by lia.
  - assert (exists l', length l' = n /\ NoDup l' /\ i ∉ l' /\ Forall (fun i => 0 <= i < bm_bits (block_bitmap s) /\ bm_bit (block_bitmap s) i = false) l')
      as (l' & Hl' & Hnd' & Hni & Hall').
    { destruct (decide (i ∈ l)) as [Hin|Hin].
      - apply list_elem_of_split in Hin as (l1 & l2 & ->). exists (x :: l1 ++ l2).
        rewrite !NoDup_cons, NoDup_app, NoDup_cons in Hnd. rewrite !Forall_cons, Forall_app, Forall_cons in Hall.
        rewrite length_cons, length_app, length_cons in Hl. split_and!.
        + rewrite length_cons, length_app. lia.
        + apply NoDup_cons. split; [set_solver|]. apply NoDup_app. set_solver.
        + set_solver.
        + rewrite Forall_cons, Forall_app. naive_solver.
      - exists l. apply NoDup_cons in Hnd as [_ Hnd]. apply Forall_cons in Hall as [_ Hall].
        split_and!; try done. rewrite length_cons in Hl. lia. }
    exists l'. split_and!; try done. rewrite Forall_forall in Hall' |- *. intros j Hj.
    destruct (Hall' j Hj) as [Hj1 Hj2]. unfold bm_bits in *. rewrite Hlen. split; [done|].
    rewrite Hbits by lia. rewrite Hj2. apply bool_decide_eq_false. intros ->. done.
  - intros j Hj. rewrite Hbits by done. f_equal. apply bool_decide_ext. lia.
Qed.

(** The state after blocks were allocated: disk, bitmap and block addresses. *)
Definition grown (s : fsys) (d : sectors) (b : bitmap) (p : Z) (i : inode) (secs : list Z) : fsys :=
  set_disk d (set_block_bitmap b (set_inodes (<[p := set_i_sectors secs i]> (inodes s)) s)).

Lemma set_sector_run s p i idx v :
  inodes s !! p = Some i -> 0 <= idx < Z.of_nat (length (i_sectors i)) ->
  set_sector p idx v s
    = Ok (tt, set_inodes (<[p := set_i_sectors (<[Z.to_nat idx := v]> (i_sectors i)) i]> (inodes s)) s).
Proof.
  intros Hi Hx. unfold set_sector. run (inode_at_run p i s Hi). rewrite wr_in by done.
  rewrite (sbind_Ok _ _ s (<[Z.to_nat idx := v]> (i_sectors i)) s) by done. by rewrite (upd_inode_run p i).
Qed.

Lemma free_addr_range s a : volume_ok s -> free_addr s a -> 0 < a <= 163839 /\ u32 a = a /\ (a =? -1) = false
  /\ bitmap_idx a s = Ok (a - data_start_lba (sb s), s).
Proof.
  intros Hv ([H1 H2] & H3 & H4). pose proof (volume_order s Hv). rewrite max_lba_eq in H2. split_and!; [lia|lia|by apply u32_id; lia|lia|].
  unfold bitmap_idx. run (gets_run sb s). by rewrite u32_id by lia.
Qed.

(** The change one allocation makes to a list of block numbers, if any. *)
Definition put_block (idx : nat) (a : Z) (secs : list Z) : list Z := if decide (idx < 12)%nat then <[idx := a]> secs else secs.

Definition put_blocks (idx : nat) (news : list Z) (secs : list Z) : list Z := list_inserts idx (take (12 - idx) news) secs.

Lemma put_blocks_cons idx a news secs :
  put_blocks idx (a :: news) secs = put_blocks (S idx) news (put_block idx a secs).
Proof.
  unfold put_blocks, put_block. case_decide.
  - replace (12 - idx)%nat with (S (12 - S idx)) by lia. cbn [take].
    change (a :: take (12 - S idx) news) with ([a] ++ take (12 - S idx) news). by rewrite list_inserts_app_l.
  - replace (12 - idx)%nat with 0%nat by lia. replace (12 - S idx)%nat with 0%nat by lia. done.
Qed.

Lemma put_block_length idx a secs : length (put_block idx a secs) = length secs.
Proof. unfold put_block. case_decide; [apply length_insert|done]. Qed.

(** The conditional store of one turn of [grow]. *)
Lemma grow_store s p i idx a :
  inodes s !! p = Some i -> length (i_sectors i) = 13%nat -> 0 <= idx ->
  (idx < 12 -> i_sectors i !! Z.to_nat idx = Some 0) ->
  (if idx <? 12 then
     i ← inode_at p; old ← sres (rd (i_sectors i) idx); _ ← sassert (old =? 0); set_sector p idx a
   else mret tt) s
  = Ok (tt, set_inodes (<[p := set_i_sectors (put_block (Z.to_nat idx) a (i_sectors i)) i]> (inodes s)) s).
Proof.
  intros Hi Hl Hx Hz. unfold put_block. destruct (idx <? 12) eqn:E.
  - run (inode_at_run p i s Hi). rewrite (rd_lookup _ _ 0) by (done || apply Hz; lia). run (sres_run 0 s).
    rewrite (sbind_Ok _ _ s tt s) by done. rewrite decide_True by lia. rewrite (set_sector_run s p i) by (done || lia). done.
  - rewrite decide_False by lia. replace (set_i_sectors (i_sectors i) i) with i by by destruct i.
    rewrite insert_id by done. by destruct s.
Qed.

Lemma grow_run n : forall s p i idx all,
  volume_ok s -> inodes s !! p = Some i -> length (i_sectors i) = 13%nat -> length all = 140%nat ->
  0 <= idx -> idx + Z.of_nat n <= 140 ->
  (forall k, idx <= Z.of_nat k < 12 -> i_sectors i !! k = Some 0) -> free_bits (block_bitmap s) n ->
  exists news d b, let s' := grown s d b p i (put_blocks (Z.to_nat idx) news (i_sectors i)) in
    grow n p idx all s = Ok (Some (list_inserts (Z.to_nat idx) news all), s')
    /\ length news = n /\ volume_ok s' /\ NoDup news /\ Forall (free_addr s) news
    /\ btmp_bytes_len b = btmp_bytes_len (block_bitmap s)
    /\ (forall j, 0 <= j -> bm_bit b j = bm_bit (block_bitmap s) j || bool_decide (data_start_lba (sb s) + j ∈ news))
    /\ (forall lba, inode_bitmap_lba (sb s) <= lba -> sector d lba = sector (disk s) lba).
Proof.
  induction n as [|n IH]; intros s p i idx all Hv Hi Hl Hall Hx Hfit Hz Hfree.
  { exists [], (disk s), (block_bitmap s). assert (grown s (disk s) (block_bitmap s) p i (put_blocks (Z.to_nat idx) [] (i_sectors i)) = s) as Hs.
    { unfold grown, put_blocks. rewrite take_nil. cbn [list_inserts].
      replace (set_i_sectors (i_sectors i) i) with i by by destruct i. rewrite insert_id by done. by destruct s. }
    cbv zeta. rewrite Hs. split_and!; try done; [constructor|]. intros j Hj. rewrite bool_decide_false by set_solver. by rewrite orb_false_r. }
  destruct (alloc_free s n Hv Hfree) as (a & b1 & Hr & Hv1 & Ha & Hlen1 & Hfree1 & Hbits1).
  destruct (free_addr_range s a Hv Ha) as (Har & Hu & Hm1 & Hidx).
  cbn [grow]. run Hr. rewrite Hm1, Hu.
  set (i1 := set_i_sectors (put_block (Z.to_nat idx) a (i_sectors i)) i).
  set (s2 := set_inodes (<[p := i1]> (inodes s)) (set_block_bitmap b1 s)).
  rewrite (sbind_Ok _ _ _ _ _ (grow_store (set_block_bitmap b1 s) p i idx a Hi Hl Hx ltac:(intros; apply Hz; lia))).
  rewrite wr_in by lia. rewrite (sbind_Ok _ _ s2 (<[Z.to_nat idx := a]> all) s2) by done.
  assert (volume_ok s2) as Hv2 by (destruct Hv1; by constructor).
  destruct (block_sync_run s2 (a - data_start_lba (sb s))) as (d3 & Hr3 & Hd3 & Hsec3); [done| |].
  { destruct Ha as (? & ? & ?). cbn. unfold bm_bits in *. rewrite Hlen1. lia. }
  rewrite (sbind_Ok _ _ s2 tt (set_disk d3 s2)).
  2: { unfold sync_block. rewrite (sbind_Ok _ _ s2 (a - data_start_lba (sb s)) s2); [done|].
       unfold bitmap_idx. run (gets_run sb s2). cbn. destruct Ha as ([? ?] & ? & ?).
       pose proof (volume_order s Hv). by rewrite u32_id by lia. }
  pose proof (volume_order s Hv) as Ho.
  destruct (IH (set_disk d3 s2) p i1 (idx + 1) (<[Z.to_nat idx := a]> all)) as (news & d & b & Hr4 & Hn & Hv4 & Hnd & Hfa & Hlen & Hbits & Hsec).
  { by apply volume_set_disk. }
  { cbn. by rewrite lookup_insert_eq. }
  { cbn. by rewrite put_block_length. }
  { by rewrite length_insert. }
  { lia. }
  { lia. }
  { intros k Hk. cbn. unfold put_block. case_decide; [rewrite list_lookup_insert_ne by lia|]; apply Hz; lia. }
  { done. }
  replace (Z.to_nat (idx + 1)) with (S (Z.to_nat idx)) in Hr4, Hv4 by lia.
  assert (grown (set_disk d3 s2) d b p i1 (put_blocks (S (Z.to_nat idx)) news (i_sectors i1))
          = grown s d b p i (put_blocks (Z.to_nat idx) (a :: news) (i_sectors i))) as Hg.
  { rewrite put_blocks_cons. unfold grown. cbn. by rewrite insert_insert_eq. }
  rewrite Hg in Hr4, Hv4.
  assert (a ∉ news) as Hni.
  { intros Hin. rewrite Forall_forall in Hfa. destruct (Hfa a Hin) as (H1 & H2 & H3). cbn in H1, H2, H3.
    destruct Ha as ([? ?] & ? & ?). rewrite Hbits1 in H3 by lia. rewrite bool_decide_true in H3 by lia. by rewrite orb_true_r in H3. }
  exists (a :: news), d, b. split_and!.
  - rewrite Hr4. do 3 f_equal. change (a :: news) with ([a] ++ news). by rewrite list_inserts_app_l.
  - cbn. by rewrite Hn.
  - done.
  - by apply NoDup_cons.
  - apply Forall_cons. split; [done|]. eapply Forall_impl; [exact Hfa|]. intros x (H1 & H2 & H3). cbn in H1, H2, H3.
    unfold bm_bits in *. rewrite Hlen1 in H2. rewrite Hbits1 in H3 by lia. apply orb_false_iff in H3 as [H3 _]. unfold free_addr, bm_bits. split_and!; done || lia.
  - by rewrite Hlen.
  - intros j Hj. rewrite Hbits by done. cbn [block_bitmap set_disk s2 set_inodes set_block_bitmap sb]. rewrite Hbits1 by done.
    rewrite <- orb_assoc. f_equal. rewrite <- bool_decide_or. apply bool_decide_ext. by rewrite elem_of_cons.
  - intros lba Hlba. rewrite Hsec by done. cbn [disk set_disk]. rewrite Hsec3; [done|]. cbn. lia.
Qed.

(** ** The blocks of a file *)

(** A block in use: in the data area behind the root directory, its bit set. *)
Definition used_addr (s : fsys) (a : Z) : Prop :=
  data_start_lba (sb s) < a <= max_lba /\ a - data_start_lba (sb s) < bm_bits (block_bitmap s)
  /\ bm_bit (block_bitmap s) (a - data_start_lba (sb s)) = true.

(** The block of the indirect table, if there is one. *)
Definition table (i : inode) : list Z := if indirect i =? 0 then [] else [indirect i].

(** The first [n] blocks of an inode are there and no others: they and the
    indirect table are distinct blocks in use, the table exists when more than
    12 blocks do, and the direct addresses not used are 0. *)
Record blocks_ok (s : fsys) (i : inode) (n : nat) : Prop := {
  bk_inode : inode_ok i;
  bk_n : (1 <= n <= 140)%nat;
  bk_used : Forall (used_addr s) (take n (inode_blocks (disk s) i) ++ table i);
  bk_nodup : NoDup (take n (inode_blocks (disk s) i) ++ table i);
  bk_rest : forall k, (n <= k < 12)%nat -> i_sectors i !! k = Some 0;
  bk_table : indirect i = 0 <-> (n <= 12)%nat
}.

Lemma ins_lookup (l k : list Z) i j :
  list_inserts i k l !! j = if decide ((i <= j < i + length k)%nat /\ (j < length l)%nat) then k !! (j - i)%nat else l !! j.
Proof.
  destruct (decide (j < i)%nat); [rewrite list_lookup_inserts_lt by done; by rewrite decide_False by lia|].
  destruct (decide (i + length k <= j)%nat); [rewrite list_lookup_inserts_ge by done; by rewrite decide_False by lia|].
  destruct (decide (j < length l)%nat).
  - rewrite decide_True by lia. by apply list_lookup_inserts; lia.
  - rewrite decide_False by lia. rewrite !lookup_ge_None_2; [done|lia|rewrite length_inserts; lia].
Qed.

Lemma take_inserts (l k : list Z) n :
  (n + length k <= length l)%nat -> take (n + length k) (list_inserts n k l) = take n l ++ k.
Proof.
  intros Hl. apply list_eq. intros j. destruct (decide (j < n + length k)%nat).
  - rewrite lookup_take_lt by done. rewrite ins_lookup. destruct (decide (j < n)%nat).
    + rewrite decide_False by lia. rewrite lookup_app_l by (rewrite length_take; lia). by rewrite lookup_take_lt.
    + rewrite decide_True by lia. rewrite lookup_app_r by (rewrite length_take; lia). rewrite length_take. f_equal. lia.
  - rewrite lookup_take_ge by lia. rewrite lookup_ge_None_2; [done|]. rewrite length_app, length_take. lia.
Qed.

Lemma take_inserts_before (l k : list Z) n : take n (list_inserts n k l) = take n l.
Proof.
  apply list_eq. intros j. destruct (decide (j < n)%nat).
  - rewrite !lookup_take_lt by done. rewrite ins_lookup. by rewrite decide_False by lia.
  - by rewrite !lookup_take_ge by lia.
Qed.

Lemma put_blocks_lookup n news secs k :
  put_blocks n news secs !! k = if decide (k < 12)%nat then list_inserts n news secs !! k else secs !! k.
Proof.
  unfold put_blocks. rewrite !ins_lookup, length_take. repeat case_decide; try done; try lia.
  by rewrite lookup_take_lt by lia.
Qed.

Lemma put_blocks_length n news secs : length (put_blocks n news secs) = length secs.
Proof. apply length_inserts. Qed.

Lemma inode_blocks_length d i : length (i_sectors i) = 13%nat -> length (inode_blocks d i) = 140%nat.
Proof.
  intros H. unfold inode_blocks. rewrite length_app, length_take, H. case_match; [done|].
  unfold dec_words. by rewrite length_map, length_seqZ.
Qed.

Lemma inode_blocks_direct d i k : length (i_sectors i) = 13%nat -> (k < 12)%nat -> inode_blocks d i !! k = i_sectors i !! k.
Proof. intros H Hk. unfold inode_blocks. rewrite lookup_app_l by (rewrite length_take; lia). by rewrite lookup_take_lt. Qed.

Lemma free_not_used s a : free_addr s a -> used_addr s a -> False.
Proof. intros (_ & _ & H1) (_ & _ & H2). congruence. Qed.

(** More blocks: [news], and maybe a table [t]. *)
Lemma blocks_grow s s' i i' n news t :
  blocks_ok s i n -> inode_ok i' -> (n + length news <= 140)%nat ->
  inode_blocks (disk s') i' = list_inserts n news (inode_blocks (disk s) i) ->
  table i' = table i ++ t -> NoDup (news ++ t) -> Forall (free_addr s) (news ++ t) ->
  (forall a, used_addr s a \/ a ∈ news ++ t -> used_addr s' a) ->
  (forall k, (n + length news <= k < 12)%nat -> i_sectors i' !! k = Some 0) ->
  (indirect i' = 0 <-> (n + length news <= 12)%nat) ->
  blocks_ok s' i' (n + length news).
Proof.
  intros [Hi Hn Hu Hnd Hr Ht] Hi' Hlen HB Htab Hndn Hfree Hused Hrest Hind.
  rewrite Forall_forall in Hu, Hfree.
  assert (forall a, a ∈ take n (inode_blocks (disk s) i) ++ table i -> a ∈ news ++ t -> False) as Hdis.
  { intros a H1 H2. eapply free_not_used; [by apply Hfree|by apply Hu]. }
  assert (take (n + length news) (inode_blocks (disk s') i') = take n (inode_blocks (disk s) i) ++ news) as HT.
  { rewrite HB. apply take_inserts. rewrite inode_blocks_length by apply Hi. lia. }
  constructor; try done; try lia.
  - rewrite HT, Htab. rewrite Forall_forall. intros a Ha. apply Hused. revert Ha. rewrite !elem_of_app.
    intros [[?|?]|[?|?]]; [left; apply Hu|right|left; apply Hu|right]; rewrite ?elem_of_app; tauto.
  - rewrite HT, Htab.
    apply NoDup_app in Hnd as (Hnd1 & Hnd2 & Hnd3). apply NoDup_app in Hndn as (Hn1 & Hn2 & Hn3).
    assert (forall a, a ∈ take n (inode_blocks (disk s) i) -> a ∈ news ++ t -> False) as HdA.
    { intros a H1. apply Hdis. rewrite elem_of_app. by left. }
    assert (forall a, a ∈ table i -> a ∈ news ++ t -> False) as HdB.
    { intros a H1. apply Hdis. rewrite elem_of_app. by right. }
    assert (forall a, a ∈ news -> a ∈ news ++ t) as HnA by (intros; rewrite elem_of_app; tauto).
    assert (forall a, a ∈ t -> a ∈ news ++ t) as HnB by (intros; rewrite elem_of_app; tauto).
    repeat (rewrite NoDup_app || split); try done.
    + intros a H1 H2. eauto.
    + intros a H1 H2. apply elem_of_app in H1. apply elem_of_app in H2. naive_solver.
    + intros a H1 H2. eauto.
Qed.

(** The bit of the root directory's block is set. *)
Definition root_taken (s : fsys) : Prop := bm_bit (block_bitmap s) 0 = true.

(** [s'] has the bits of [s] and those of the blocks [l], which were free. *)
Definition bits_added (s s' : fsys) (l : list Z) : Prop :=
  sb s' = sb s /\ btmp_bytes_len (block_bitmap s') = btmp_bytes_len (block_bitmap s)
  /\ (forall j, 0 <= j -> bm_bit (block_bitmap s') j
                  = bm_bit (block_bitmap s) j || bool_decide (data_start_lba (sb s) + j ∈ l)).

Lemma bits_added_used s s' l a :
  bits_added s s' l -> root_taken s -> Forall (free_addr s) l -> used_addr s a \/ a ∈ l -> used_addr s' a.
Proof.
  intros (Hsb & Hlen & Hbits) Hroot Hfree Ha. unfold used_addr, bm_bits. rewrite Hsb, Hlen.
  destruct Ha as [(H1 & H2 & H3)|Ha].
  - split_and!; try done; try lia. rewrite Hbits by lia. by rewrite H3.
  - rewrite Forall_forall in Hfree. destruct (Hfree a Ha) as (H1 & H2 & H3).
    assert (a <> data_start_lba (sb s)) by (intros ->; rewrite Z.sub_diag in H3; unfold root_taken in Hroot; congruence).
    split_and!; try done; try lia. rewrite Hbits by lia. rewrite bool_decide_true; [by rewrite orb_true_r|].
    by replace (data_start_lba (sb s) + (a - data_start_lba (sb s))) with a by lia.
Qed.

Lemma bits_added_root s s' l : bits_added s s' l -> root_taken s -> root_taken s'.
Proof. intros (_ & _ & Hb) Hr. unfold root_taken in *. rewrite Hb by lia. by rewrite Hr. Qed.

(** What [write_blocks] achieves, from [n] to [will] blocks. *)
Definition blocks_added (s : fsys) (p : Z) (i : inode) (n will : nat) (r : res (option (list Z) * fsys)) : Prop :=
  exists all d b secs, let i' := set_i_sectors secs i in let s' := grown s d b p i secs in
    r = Ok (Some all, s') /\ volume_ok s' /\ root_taken s' /\ blocks_ok s' i' will
    /\ (forall k, (n - 1 <= k < will)%nat -> all !! k = inode_blocks d i' !! k)
    /\ take n (inode_blocks d i') = take n (inode_blocks (disk s) i)
    /\ (forall a, inode_bitmap_lba (sb s) <= a -> ~ free_addr s a -> a ∉ table i -> sector d a = sector (disk s) a)
    /\ (forall a, used_addr s a -> used_addr s' a)
    /\ (forall a, used_addr s a -> a ∈ take will (inode_blocks d i') ++ table i' ->
          a ∈ take n (inode_blocks (disk s) i) ++ table i).

(** Blocks in use before are not among the new ones. *)
Lemma old_blocks s (B B' tb tb' news t : list Z) n a :
  B' = list_inserts n news B -> (n + length news <= length B)%nat -> tb' = tb ++ t -> Forall (free_addr s) (news ++ t) ->
  used_addr s a -> a ∈ take (n + length news) B' ++ tb' -> a ∈ take n B ++ tb.
Proof.
  intros -> Hl -> Hf Hu. rewrite take_inserts by done. rewrite Forall_forall in Hf.
  assert (a ∉ news ++ t) as Hn by (intros Hin; by eapply free_not_used; [apply Hf|]).
  rewrite !elem_of_app in *. tauto.
Qed.

Lemma grown_same s p i : inodes s !! p = Some i -> grown s (disk s) (block_bitmap s) p i (i_sectors i) = s.
Proof.
  intros Hi. unfold grown. replace (set_i_sectors (i_sectors i) i) with i by by destruct i.
  rewrite insert_id by done. by destruct s.
Qed.

Lemma last_block_run s p i n b :
  inodes s !! p = Some i -> 1 <= n <= 12 -> i_sectors i !! Z.to_nat (n - 1) = Some b ->
  last_block p n s = Ok (<[Z.to_nat (n - 1) := b]> (zeros 140), s).
Proof.
  intros Hi Hn Hb. unfold last_block. run (inode_at_run p i s Hi). rewrite (rd_lookup _ _ b) by (done || lia).
  run (sres_run b s). rewrite wr_in; [done|]. unfold zeros. rewrite length_replicate. lia.
Qed.

Lemma indirect_rd i : length (i_sectors i) = 13%nat -> rd (i_sectors i) 12 = Ok (indirect i).
Proof.
  intros Hl. apply rd_lookup; [lia|]. unfold indirect. change (Z.to_nat 12) with 12%nat.
  destruct (lookup_lt_is_Some_2 (i_sectors i) 12) as [v ->]; [lia|done].
Qed.

Lemma read_indirect_run s p i :
  inodes s !! p = Some i -> length (i_sectors i) = 13%nat -> 0 < indirect i <= max_lba ->
  read_indirect p s = Ok ((indirect i, zeros 12 ++ dec_words 128 (sector (disk s) (indirect i))), s).
Proof.
  intros Hi Hl Hind. unfold read_indirect. run (inode_at_run p i s Hi). rewrite indirect_rd by done.
  run (sres_run (indirect i) s). run (sassert_true (negb (indirect i =? 0)) s ltac:(lia)).
  by rewrite (sbind_Ok _ _ _ _ _ (ide_read_one 512 (indirect i) s ltac:(lia) ltac:(lia))).
Qed.

(** Blocks of a file are sectors the driver accepts, behind the other regions. *)
Lemma used_range s a : volume_ok s -> used_addr s a -> 0 < a <= 163839 /\ a <= max_lba
  /\ inode_table_lba (sb s) + 608 <= data_start_lba (sb s) /\ data_start_lba (sb s) < a.
Proof. intros Hv ([H1 H2] & _). pose proof (volume_order s Hv). rewrite max_lba_eq in *. lia. Qed.

Lemma blocks_used_at s i n k :
  blocks_ok s i n -> (k < n)%nat -> exists b, inode_blocks (disk s) i !! k = Some b /\ used_addr s b.
Proof.
  intros Hb Hk. destruct (lookup_lt_is_Some_2 (inode_blocks (disk s) i) k) as [b Hl].
  { rewrite inode_blocks_length by apply Hb. pose proof (bk_n _ _ _ Hb). lia. }
  exists b. split; [done|]. pose proof (bk_used _ _ _ Hb) as Hu. apply Forall_app in Hu as [Hu _].
  eapply Forall_lookup_1; [exact Hu|]. by rewrite lookup_take_lt.
Qed.

Lemma table_used s i n : blocks_ok s i n -> (12 < n)%nat -> used_addr s (indirect i) /\ table i = [indirect i].
Proof.
  intros Hb Hn. pose proof (bk_table _ _ _ Hb) as Ht. assert (indirect i <> 0) as Hz by (intros H; apply Ht in H; lia).
  assert (table i = [indirect i]) as Htab by (unfold table; by replace (indirect i =? 0) with false by lia).
  split; [|done]. pose proof (bk_used _ _ _ Hb) as Hu. apply Forall_app in Hu as [_ Hu]. rewrite Htab in Hu.
  by apply Forall_cons in Hu as [Hu _].
Qed.

(** No block to add. *)
Lemma write_blocks_none s p i n :
  volume_ok s -> root_taken s -> inodes s !! p = Some i -> blocks_ok s i n ->
  blocks_added s p i n n (write_blocks p (Z.of_nat n) (Z.of_nat n) s).
Proof.
  intros Hv Hroot Hi Hb. pose proof (bk_n _ _ _ Hb) as Hn. pose proof (io_sectors _ (bk_inode _ _ _ Hb)) as Hl.
  assert (set_i_sectors (i_sectors i) i = i) as Hsi by by destruct i.
  unfold write_blocks. rewrite Z.sub_diag. change (u32 0 =? 0) with true. cbv iota.
  destruct (decide (n <= 12)%nat) as [H12|H12].
  - replace (Z.of_nat n <=? 12) with true by lia.
    destruct (blocks_used_at s i n (n - 1)) as (b & Hbl & _); [done|lia|].
    rewrite inode_blocks_direct in Hbl by (done || lia).
    rewrite (sbind_Ok _ _ _ _ _ (last_block_run s p i (Z.of_nat n) b Hi ltac:(lia) ltac:(rewrite <- Hbl; f_equal; lia))).
    exists (<[Z.to_nat (Z.of_nat n - 1) := b]> (zeros 140)), (disk s), (block_bitmap s), (i_sectors i).
    cbv zeta. rewrite grown_same, Hsi by done. split_and!; try done.
    intros k Hk. replace k with (n - 1)%nat by lia. rewrite inode_blocks_direct, Hbl by (done || lia).
    replace (Z.to_nat (Z.of_nat n - 1)) with (n - 1)%nat by lia. apply list_lookup_insert_eq. unfold zeros. rewrite length_replicate. lia.
  - replace (Z.of_nat n <=? 12) with false by lia.
    destruct (table_used s i n Hb ltac:(lia)) as [Hu _]. destruct (used_range s _ Hv Hu) as (? & ? & _).
    rewrite (sbind_Ok _ _ _ _ _ (read_indirect_run s p i Hi Hl ltac:(lia))).
    exists (zeros 12 ++ dec_words 128 (sector (disk s) (indirect i))), (disk s), (block_bitmap s), (i_sectors i).
    cbv zeta. rewrite grown_same, Hsi by done. split_and!; try done.
    intros k Hk. unfold inode_blocks. replace (indirect i =? 0) with false by lia.
    assert (length (take 12 (i_sectors i)) = 12%nat) as Ht by (rewrite length_take; lia).
    assert (length (zeros 12) = 12%nat) as Hz by done.
    rewrite !lookup_app_r by lia. by rewrite Ht, Hz.
Qed.

(** Direct addresses and table after new blocks were put into both. *)
Lemma blocks_put secs news n (T X : list Z) :
  length secs = 13%nat -> length X = 12%nat ->
  take 12 (put_blocks n news secs) ++ drop 12 (list_inserts n news (X ++ T)) = list_inserts n news (take 12 secs ++ T).
Proof.
  intros Hs HX. assert (length (take 12 (put_blocks n news secs)) = 12%nat) as Hp by (rewrite length_take, put_blocks_length; lia).
  assert (length (take 12 secs) = 12%nat) as Hts by (rewrite length_take; lia).
  apply list_eq. intros k. rewrite ins_lookup, length_app, Hts. destruct (decide (k < 12)%nat).
  - rewrite lookup_app_l by lia. rewrite lookup_take_lt by lia. rewrite put_blocks_lookup, decide_True by lia. rewrite ins_lookup.
    rewrite lookup_app_l by lia. rewrite lookup_take_lt by lia. repeat case_decide; done || lia.
  - rewrite lookup_app_r by lia. rewrite Hp, lookup_drop. replace (12 + (k - 12))%nat with k by lia.
    rewrite ins_lookup, length_app, HX. rewrite !lookup_app_r by lia. by rewrite HX, Hts.
Qed.

Lemma Forall_inserts (P : Z -> Prop) news l n : Forall P l -> Forall P news -> Forall P (list_inserts n news l).
Proof.
  intros Hl Hn. apply Forall_lookup_2. intros k x. rewrite ins_lookup. case_decide; intros Hx.
  - exact (Forall_lookup_1 _ _ _ _ Hn Hx).
  - exact (Forall_lookup_1 _ _ _ _ Hl Hx).
Qed.

Lemma free_addr_u32 s l : volume_ok s -> Forall (free_addr s) l -> Forall is_u32 l.
Proof. intros Hv Hl. eapply Forall_impl; [exact Hl|]. intros a Ha. destruct (free_addr_range s a Hv Ha) as (? & _). unfold is_u32. lia. Qed.

Lemma put_blocks_inode_ok i n news secs :
  inode_ok i -> length secs = 13%nat -> Forall is_u32 secs -> Forall is_u32 news ->
  inode_ok (set_i_sectors (put_blocks n news secs) i).
Proof.
  intros [] Hl Hs Hn. constructor; cbn; try done.
  - by rewrite put_blocks_length.
  - apply Forall_inserts; [done|by apply Forall_take].
Qed.

(** The table's address is not changed by direct blocks. *)
Lemma indirect_put i n news secs : indirect (set_i_sectors (put_blocks n news secs) i) = default 0 (secs !! 12%nat).
Proof. unfold indirect. cbn [i_sectors set_i_sectors]. rewrite put_blocks_lookup. by rewrite decide_False by lia. Qed.

(** 12 direct blocks are enough. *)
Lemma write_blocks_direct s p i n will :
  volume_ok s -> root_taken s -> inodes s !! p = Some i -> blocks_ok s i n ->
  (n < will <= 12)%nat -> free_bits (block_bitmap s) (will - n) ->
  blocks_added s p i n will (write_blocks p (Z.of_nat n) (Z.of_nat will) s).
Proof.
  intros Hv Hroot Hi Hb Hw Hfree. pose proof (bk_n _ _ _ Hb) as Hn. pose proof (bk_inode _ _ _ Hb) as Hio.
  pose proof (io_sectors _ Hio) as Hl. pose proof (volume_order s Hv) as Ho.
  unfold write_blocks. rewrite u32_id by lia. replace (Z.of_nat will - Z.of_nat n =? 0) with false by lia.
  replace (Z.of_nat will <=? 12) with true by lia.
  destruct (blocks_used_at s i n (n - 1)) as (b0 & Hbl & Hu0); [done|lia|].
  destruct (used_range s b0 Hv Hu0) as (Hb0 & _).
  rewrite inode_blocks_direct in Hbl by (done || lia).
  rewrite (sbind_Ok _ _ _ _ _ (last_block_run s p i (Z.of_nat n) b0 Hi ltac:(lia) ltac:(rewrite <- Hbl; f_equal; lia))).
  set (all0 := <[Z.to_nat (Z.of_nat n - 1) := b0]> (zeros 140)).
  assert (all0 = <[(n - 1)%nat := b0]> (zeros 12) ++ zeros 128) as Hall0.
  { unfold all0. change (zeros 140) with (zeros 12 ++ zeros 128). rewrite insert_app_l by (rewrite zeros_length; lia).
    do 2 f_equal. lia. }
  assert (length all0 = 140%nat) as Hal by (unfold all0; by rewrite length_insert, zeros_length).
  assert (rd all0 (Z.of_nat n - 1) = Ok b0) as Hrd.
  { apply rd_lookup; [lia|]. apply list_lookup_insert_eq. rewrite zeros_length. lia. }
  rewrite Hrd. run (sres_run b0 s). run (sassert_true (negb (b0 =? 0)) s ltac:(lia)).
  replace (Z.to_nat (Z.of_nat will - Z.of_nat n)) with (will - n)%nat by lia.
  destruct (grow_run (will - n) s p i (Z.of_nat n) all0) as (news & d & b & Hr & Hln & Hv' & Hnd & Hfa & Hlen & Hbits & Hsec);
    [done|done|done|done|lia|lia|intros; apply (bk_rest _ _ _ Hb); lia|done|].
  rewrite Nat2Z.id in *. set (secs := put_blocks n news (i_sectors i)) in *.
  assert (bits_added s (grown s d b p i secs) news) as Hadd by done.
  assert (indirect (set_i_sectors secs i) = indirect i) as Hind by apply indirect_put.
  assert (indirect i = 0) as Hz by (apply (bk_table _ _ _ Hb); lia).
  assert (inode_blocks d (set_i_sectors secs i) = list_inserts n news (inode_blocks (disk s) i)) as HB.
  { unfold inode_blocks. rewrite Hind, Hz. change (0 =? 0) with true. cbn [i_sectors set_i_sectors].
    rewrite <- (blocks_put (i_sectors i) news n (zeros 128) (zeros 12)) by done. f_equal.
    apply list_eq. intros k. rewrite lookup_drop, ins_lookup. rewrite decide_False by lia.
    rewrite lookup_app_r by (rewrite zeros_length; lia). f_equal. rewrite zeros_length. lia. }
  exists (list_inserts n news all0), d, b, secs. cbv zeta. split_and!; [done|done| | | | | | |].
  - by eapply bits_added_root.
  - replace will with (n + length news)%nat by lia.
    eapply (blocks_grow s _ i _ n news []); rewrite ?app_nil_r; try done; try lia.
    + apply put_blocks_inode_ok; try done; [apply Hio|]. by apply (free_addr_u32 s).
    + unfold table. by rewrite Hind.
    + intros a Ha. by eapply bits_added_used.
    + intros k Hk. unfold secs. cbn [i_sectors set_i_sectors]. rewrite put_blocks_lookup, decide_True by lia.
      rewrite ins_lookup, decide_False by lia. apply (bk_rest _ _ _ Hb). lia.
  - intros k Hk. rewrite HB, !ins_lookup. rewrite inode_blocks_length by done.
    rewrite Hal. case_decide; [done|].
    assert (k = n - 1)%nat as -> by lia. rewrite inode_blocks_direct by (done || lia). rewrite Hbl.
    unfold all0. replace (Z.to_nat (Z.of_nat n - 1)) with (n - 1)%nat by lia. apply list_lookup_insert_eq. rewrite zeros_length. lia.
  - rewrite HB. apply take_inserts_before.
  - intros a Ha _ _. by apply Hsec.
  - intros a Ha. apply (bits_added_used s _ news); [done..|by left].
  - intros a Ha. replace will with (n + length news)%nat by lia.
    apply (old_blocks s _ _ _ _ news []); rewrite ?app_nil_r; try done; [rewrite inode_blocks_length by done; lia|].
    unfold table. by rewrite Hind.
Qed.

(** Writing the table at [t]: the blocks of the inode are then those of
    [all_blocks], direct ones apart. *)
Lemma table_written d t all news n secs X T i :
  length secs = 13%nat -> length X = 12%nat -> length T = 128%nat -> Forall is_u32 T -> Forall is_u32 news ->
  Forall is_u32 X -> all = X ++ T -> default 0 (secs !! 12%nat) = t -> t <> 0 ->
  inode_blocks (write_secs 1 t (enc_words (drop 12 (list_inserts n news all))) d) (set_i_sectors (put_blocks n news secs) i)
  = list_inserts n news (take 12 secs ++ T).
Proof.
  intros Hs HX HT HTu Hnu HXu -> Ht Ht0. unfold inode_blocks. rewrite indirect_put, Ht.
  replace (t =? 0) with false by lia. rewrite sector_of_words.
  - by apply blocks_put.
  - rewrite length_drop, length_inserts, length_app. lia.
  - apply Forall_drop, Forall_inserts; [|done]. by apply Forall_app.
Qed.

(** The new blocks all go to the table. *)
Lemma write_blocks_indirect s p i n will :
  volume_ok s -> root_taken s -> inodes s !! p = Some i -> blocks_ok s i n ->
  (12 < n < will)%nat -> (will <= 140)%nat -> free_bits (block_bitmap s) (will - n) ->
  blocks_added s p i n will (write_blocks p (Z.of_nat n) (Z.of_nat will) s).
Proof.
  intros Hv Hroot Hi Hb Hw H140 Hfree. pose proof (bk_inode _ _ _ Hb) as Hio.
  pose proof (io_sectors _ Hio) as Hl. pose proof (volume_order s Hv) as Ho.
  destruct (table_used s i n Hb ltac:(lia)) as [Hu Htab]. destruct (used_range s _ Hv Hu) as (Hir & Him & _).
  unfold write_blocks. rewrite u32_id by lia. replace (Z.of_nat will - Z.of_nat n =? 0) with false by lia.
  replace (Z.of_nat will <=? 12) with false by lia. replace (Z.of_nat n <=? 12) with false by lia.
  rewrite (sbind_Ok _ _ _ _ _ (read_indirect_run s p i Hi Hl ltac:(lia))).
  set (T := dec_words 128 (sector (disk s) (indirect i))).
  assert (length T = 128%nat) as HT by apply dec_words_length.
  assert (Forall is_u32 T) as HTu by apply dec_words_u32, Hv.
  replace (Z.to_nat (Z.of_nat will - Z.of_nat n)) with (will - n)%nat by lia. cbn [fst snd].
  destruct (grow_run (will - n) s p i (Z.of_nat n) (zeros 12 ++ T)) as (news & d & b & Hr & Hln & Hv' & Hnd & Hfa & Hlen & Hbits & Hsec);
    [done|done|done|by rewrite length_app, HT|lia|lia|lia|done|].
  run Hr. rewrite Nat2Z.id in *. set (secs := put_blocks n news (i_sectors i)) in *.
  set (all := list_inserts n news (zeros 12 ++ T)).
  pose proof (free_addr_u32 s news Hv Hfa) as Hnu.
  assert (length all = 140%nat) as Hal by (unfold all; by rewrite length_inserts, length_app, HT).
  rewrite (sbind_Ok _ _ _ _ _ (ide_write_run (indirect i) (enc_words (drop 12 all)) 1 _ ltac:(lia) ltac:(lia)
     ltac:(rewrite enc_words_length, length_drop; lia))).
  cbn [disk grown set_disk]. change (Z.to_nat 1) with 1%nat.
  set (d2 := write_secs 1 (indirect i) (enc_words (drop 12 all)) d).
  assert (disk_ok d2) as Hd2.
  { apply write_secs_ok; [apply Hv'|rewrite enc_words_length, length_drop; lia|apply enc_words_bytes]. }
  assert (inode_blocks d2 (set_i_sectors secs i) = list_inserts n news (inode_blocks (disk s) i)) as HB.
  { unfold inode_blocks at 2. replace (indirect i =? 0) with false by lia.
    apply (table_written d (indirect i) _ news n (i_sectors i) (zeros 12) T i); try done; [|lia].
    apply Forall_replicate. done. }
  assert (indirect (set_i_sectors secs i) = indirect i) as Hind by apply indirect_put.
  exists all, d2, b, secs. cbv zeta. split_and!; [done| | | | | | | |].
  - apply (volume_set_disk _ d2 Hv' Hd2).
  - by apply (bits_added_root s _ news).
  - replace will with (n + length news)%nat by lia.
    eapply (blocks_grow s _ i _ n news []); rewrite ?app_nil_r; try done; try lia.
    + apply put_blocks_inode_ok; try done. apply Hio.
    + unfold table. by rewrite Hind.
    + intros a Ha. by apply (bits_added_used s _ news).
  - intros k Hk. rewrite HB. unfold all. rewrite !ins_lookup. rewrite length_app, zeros_length, HT, inode_blocks_length by done.
    change (Z.to_nat 12 + 128)%nat with 140%nat. case_decide; [done|].
    unfold inode_blocks. replace (indirect i =? 0) with false by lia.
    assert (length (take 12 (i_sectors i)) = 12%nat) as Ht by (rewrite length_take; lia).
    assert (length (zeros 12) = 12%nat) as Hz by done.
    rewrite !lookup_app_r by lia. by rewrite Ht, Hz.
  - rewrite HB. apply take_inserts_before.
  - intros a Ha _ Hta. rewrite Htab in Hta. assert (a <> indirect i) by (intros ->; apply Hta; set_solver).
    unfold d2. rewrite write_secs_other by lia. by apply Hsec.
  - intros a Ha. apply (bits_added_used s _ news); [done..|by left].
  - intros a Ha. replace will with (n + length news)%nat by lia.
    apply (old_blocks s _ _ _ _ news []); rewrite ?app_nil_r; try done; [rewrite inode_blocks_length by done; lia|].
    unfold table. by rewrite Hind.
Qed.

(** The table is created: it takes a block of its own. *)
Lemma write_blocks_table s p i n will :
  volume_ok s -> root_taken s -> inodes s !! p = Some i -> blocks_ok s i n ->
  (n <= 12 < will)%nat -> (will <= 140)%nat -> free_bits (block_bitmap s) (S (will - n)) ->
  blocks_added s p i n will (write_blocks p (Z.of_nat n) (Z.of_nat will) s).
Proof.
  intros Hv Hroot Hi Hb Hw H140 Hfree. pose proof (bk_n _ _ _ Hb) as Hn. pose proof (bk_inode _ _ _ Hb) as Hio.
  pose proof (io_sectors _ Hio) as Hl. pose proof (volume_order s Hv) as Ho.
  assert (indirect i = 0) as Hz by (apply (bk_table _ _ _ Hb); lia).
  unfold write_blocks. rewrite u32_id by lia. replace (Z.of_nat will - Z.of_nat n =? 0) with false by lia.
  replace (Z.of_nat will <=? 12) with false by lia. replace (Z.of_nat n <=? 12) with true by lia.
  destruct (blocks_used_at s i n (n - 1)) as (b0 & Hbl & Hu0); [done|lia|].
  destruct (used_range s b0 Hv Hu0) as (Hb0 & _).
  rewrite inode_blocks_direct in Hbl by (done || lia).
  rewrite (sbind_Ok _ _ _ _ _ (last_block_run s p i (Z.of_nat n) b0 Hi ltac:(lia) ltac:(rewrite <- Hbl; f_equal; lia))).
  replace (Z.to_nat (Z.of_nat n - 1)) with (n - 1)%nat by lia.
  set (X := <[(n - 1)%nat := b0]> (zeros 12)). set (all0 := <[(n - 1)%nat := b0]> (zeros 140)).
  assert (length X = 12%nat) as HX by (unfold X; by rewrite length_insert, zeros_length).
  assert (all0 = X ++ zeros 128) as Hall0.
  { unfold all0. change (zeros 140) with (zeros 12 ++ zeros 128). by rewrite insert_app_l by (rewrite zeros_length; lia). }
  assert (length all0 = 140%nat) as Hal by (unfold all0; by rewrite length_insert, zeros_length).
  (* the block of the table *)
  destruct (alloc_free s _ Hv Hfree) as (t & b1 & Hr1 & Hv1 & Ht & Hlen1 & Hfree1 & Hbits1).
  destruct (free_addr_range s t Hv Ht) as (Htr & Htu & Htm & _). run Hr1. rewrite Htm, Htu.
  set (sb1 := set_block_bitmap b1 s). run (inode_at_run p i sb1 Hi). rewrite indirect_rd, Hz by done.
  run (sres_run 0 sb1). rewrite (sbind_Ok _ _ sb1 tt sb1) by done.
  rewrite (sbind_Ok _ _ _ _ _ (set_sector_run sb1 p i 12 t Hi ltac:(lia))). change (Z.to_nat 12) with 12%nat.
  set (secs1 := <[12%nat := t]> (i_sectors i)). set (i1 := set_i_sectors secs1 i).
  set (s1 := set_inodes (<[p := i1]> (inodes sb1)) sb1).
  assert (volume_ok s1) as Hvs1 by (destruct Hv1; by constructor).
  assert (length secs1 = 13%nat) as Hls1 by (unfold secs1; by rewrite length_insert).
  replace (Z.to_nat (Z.of_nat will - Z.of_nat n)) with (will - n)%nat by lia.
  destruct (grow_run (will - n) s1 p i1 (Z.of_nat n) all0) as (news & d & b & Hr & Hln & Hv' & Hnd & Hfa & Hlen & Hbits & Hsec);
    [done|cbn; by rewrite lookup_insert_eq|done|done|lia|lia| |done|].
  { intros k Hk. cbn. unfold secs1. rewrite list_lookup_insert_ne by lia. apply (bk_rest _ _ _ Hb). lia. }
  rewrite Nat2Z.id in *. cbn [i_sectors i1 set_i_sectors] in Hr, Hv'. set (secs := put_blocks n news secs1) in *.
  assert (grown s1 d b p i1 secs = grown s d b p i secs) as Hg by (unfold grown; cbn; by rewrite insert_insert_eq).
  rewrite Hg in Hr, Hv'. run Hr. set (all := list_inserts n news all0).
  assert (Forall (free_addr s) news /\ t ∉ news) as [Hfn Htn].
  { rewrite Forall_forall in Hfa. rewrite Forall_forall. split.
    - intros x Hx. destruct (Hfa x Hx) as (H1 & H2 & H3). cbn in H1, H2, H3. rewrite Hbits1 in H3 by lia.
      apply orb_false_iff in H3 as [H3 _]. unfold free_addr, bm_bits in *. rewrite Hlen1 in H2. done.
    - intros Hx. destruct (Hfa t Hx) as (H1 & H2 & H3). cbn in H1, H2, H3. rewrite Hbits1 in H3 by lia.
      rewrite bool_decide_true in H3 by lia. by rewrite orb_true_r in H3. }
  pose proof (free_addr_u32 s news Hv Hfn) as Hnu.
  rewrite (sbind_Ok _ _ _ _ _ (ide_write_run t (enc_words (drop 12 all)) 1 _ ltac:(rewrite max_lba_eq; lia) ltac:(lia)
     ltac:(unfold all; rewrite enc_words_length, length_drop, length_inserts; lia))).
  cbn [disk grown set_disk]. change (Z.to_nat 1) with 1%nat.
  set (d2 := write_secs 1 t (enc_words (drop 12 all)) d).
  assert (disk_ok d2) as Hd2.
  { apply write_secs_ok; [apply Hv'|unfold all; rewrite enc_words_length, length_drop, length_inserts; lia|apply enc_words_bytes]. }
  assert (secs1 !! 12%nat = Some t) as Hs12 by (apply list_lookup_insert_eq; lia).
  assert (inode_blocks d2 (set_i_sectors secs i) = list_inserts n news (inode_blocks (disk s) i)) as HB.
  { unfold inode_blocks at 2. rewrite Hz. change (0 =? 0) with true. cbv iota.
    replace (take 12 (i_sectors i)) with (take 12 secs1) by (unfold secs1; by rewrite take_insert_ge).
    apply (table_written d t all0 news n secs1 X (zeros 128) i); try done; [..|by rewrite Hs12|lia].
    - by apply Forall_replicate.
    - unfold X. apply Forall_insert; [by apply Forall_replicate|unfold is_u32; lia]. }
  assert (indirect (set_i_sectors secs i) = t) as Hind by (unfold secs; rewrite indirect_put; by rewrite Hs12).
  assert (bits_added s (grown s d2 b p i secs) (news ++ [t])) as Hadd.
  { split_and!; [done|cbn; rewrite Hlen; done|]. intros j Hj. cbn [block_bitmap grown set_disk set_block_bitmap set_inodes].
    rewrite Hbits by done. cbn [block_bitmap s1 sb1 set_inodes set_block_bitmap sb]. rewrite Hbits1 by done.
    rewrite <- orb_assoc. f_equal. rewrite <- bool_decide_or. apply bool_decide_ext. rewrite elem_of_app, list_elem_of_singleton. naive_solver. }
  assert (Forall (free_addr s) (news ++ [t])) as Hfall by (apply Forall_app; split; [done|by constructor]).
  exists all, d2, b, secs. cbv zeta. split_and!; [done|apply (volume_set_disk _ d2 Hv' Hd2)|by apply (bits_added_root s _ (news ++ [t]))| | | | | |].
  - replace will with (n + length news)%nat by lia.
    eapply (blocks_grow s _ i _ n news [t]); try done; try lia.
    + apply put_blocks_inode_ok; try done. unfold secs1. apply Forall_insert; [apply Hio|unfold is_u32; lia].
    + unfold table. rewrite Hind, Hz. by replace (t =? 0) with false by lia.
    + apply NoDup_app. split_and!; [done| |apply NoDup_singleton]. intros x Hx ->%list_elem_of_singleton. done.
    + intros a Ha. by apply (bits_added_used s _ (news ++ [t])).
  - intros k Hk. rewrite HB. unfold all. rewrite !ins_lookup. rewrite Hal, inode_blocks_length by done. case_decide; [done|].
    assert (k = n - 1)%nat as -> by lia. rewrite inode_blocks_direct by (done || lia). rewrite Hbl.
    unfold all0. apply list_lookup_insert_eq. rewrite zeros_length. lia.
  - rewrite HB. apply take_inserts_before.
  - intros a Ha Hna _. assert (a <> t) as Hat by by intros ->.
    unfold d2. rewrite write_secs_other by lia. by apply Hsec.
  - intros a Ha. apply (bits_added_used s _ (news ++ [t])); [done..|by left].
  - intros a Ha. replace will with (n + length news)%nat by lia.
    apply (old_blocks s _ _ _ _ news [t]); try done; [rewrite inode_blocks_length by done; lia|].
    unfold table. rewrite Hind, Hz. by replace (t =? 0) with false by lia.
Qed.

(** [write_blocks] in every situation. *)
Lemma write_blocks_run s p i n will :
  volume_ok s -> root_taken s -> inodes s !! p = Some i -> blocks_ok s i n ->
  (n <= will <= 140)%nat -> free_bits (block_bitmap s) (S (will - n)) ->
  blocks_added s p i n will (write_blocks p (Z.of_nat n) (Z.of_nat will) s).
Proof.
  intros. assert (free_bits (block_bitmap s) (will - n)) by (eapply free_bits_weaken; [done|lia]).
  destruct (decide (n = will)) as [<-|]; [by apply write_blocks_none|].
  destruct (decide (will <= 12)%nat); [apply write_blocks_direct; done || lia|].
  destruct (decide (n <= 12)%nat); [apply write_blocks_table; done || lia|apply write_blocks_indirect; done || lia].
Qed.

(** ** file_write *)

(** The content of a file in memory. *)
Definition fcontent (d : sectors) (i : inode) : list Z := content d (inode_blocks d i) (i_size i).

(** A file: nothing was written yet, or it has the blocks its size needs. *)
Definition file_ok (s : fsys) (i : inode) : Prop :=
  inode_ok i /\ i_size i < 71680
  /\ ((i_size i = 0 /\ i_sectors i = zeros 13) \/ blocks_ok s i (Z.to_nat (i_size i / 512 + 1))).

(** The sectors that belong to a file. *)
Definition owned (s : fsys) (i : inode) (a : Z) : Prop :=
  a ∈ take (Z.to_nat (i_size i / 512 + 1)) (inode_blocks (disk s) i) ++ table i.

Lemma fbyte_take d bl n k : (Z.to_nat (k / 512) < n)%nat -> fbyte d (take n bl) k = fbyte d bl k.
Proof. intros. unfold fbyte. by rewrite lookup_take_lt. Qed.

(** Files with the same blocks and the same sectors have the same content. *)
Lemma fcontent_same d d' i i' n :
  i_size i' = i_size i -> i_size i / 512 < Z.of_nat n -> 0 <= i_size i -> disk_ok d -> disk_ok d' ->
  take n (inode_blocks d' i') = take n (inode_blocks d i) ->
  (forall a, a ∈ take n (inode_blocks d i) -> sector d' a = sector d a) ->
  length (inode_blocks d i) = 140%nat -> (n <= 140)%nat ->
  fcontent d' i' = fcontent d i.
Proof.
  intros Hz Hn H0 Hd Hd' HB Hsec Hlen H140. unfold fcontent. rewrite Hz. apply list_eq. intros k.
  destruct (decide (Z.of_nat k < i_size i)); [|by rewrite !content_lookup_None by lia].
  rewrite !content_lookup by lia. f_equal.
  rewrite <- (fbyte_take d' _ n), <- (fbyte_take d _ n) by lia. rewrite HB. unfold fbyte.
  destruct (lookup_lt_is_Some_2 (take n (inode_blocks d i)) (Z.to_nat (Z.of_nat k / 512))) as [b Hb]; [rewrite length_take; lia|].
  rewrite Hb. simpl. unfold dbyte. replace ((512 * b + Z.of_nat k mod 512) / 512) with b by lia.
  rewrite Hsec; [done|]. by eapply list_elem_of_lookup_2.
Qed.

(** The first block. *)
Lemma first_block_run s p i m :
  volume_ok s -> root_taken s -> inodes s !! p = Some i -> file_ok s i -> free_bits (block_bitmap s) (S m) ->
  exists d b secs, let i' := set_i_sectors secs i in let s' := grown s d b p i secs in
    first_block p s = Ok (true, s') /\ volume_ok s' /\ root_taken s'
    /\ blocks_ok s' i' (Z.to_nat (i_size i / 512 + 1)) /\ free_bits b m
    /\ fcontent d i' = fcontent (disk s) i
    /\ (forall a, used_addr s a -> used_addr s' a)
    /\ (forall a, inode_bitmap_lba (sb s) <= a -> sector d a = sector (disk s) a)
    /\ (forall a, a ∈ take (Z.to_nat (i_size i / 512 + 1)) (inode_blocks d i') ++ table i' -> used_addr s a -> owned s i a).
Proof.
  intros Hv Hroot Hi (Hio & Hsz & Hcase) Hfree. pose proof (io_sectors _ Hio) as Hl. pose proof (io_size _ Hio) as [Hs0 _].
  pose proof (volume_order s Hv) as Ho.
  destruct Hcase as [[Hz Hsec]|Hb].
  - destruct (alloc_free s m Hv Hfree) as (a & b & Hr & Hv1 & Ha & Hlen & Hfree1 & Hbits).
    destruct (free_addr_range s a Hv Ha) as (Har & Hau & Ham & _).
    set (sb1 := set_block_bitmap b s).
    set (secs := <[0%nat := a]> (i_sectors i)). set (s1 := set_inodes (<[p := set_i_sectors secs i]> (inodes sb1)) sb1).
    assert (volume_ok s1) as Hvs1 by (destruct Hv1; by constructor).
    assert (bits_added s s1 [a]) as Hadd.
    { split_and!; [done|done|]. intros j Hj. cbn. rewrite Hbits by done. f_equal. apply bool_decide_ext. by rewrite list_elem_of_singleton. }
    assert (Forall (free_addr s) [a]) as Hfa by by constructor.
    pose proof (fun x => bits_added_used s s1 [a] x Hadd Hroot Hfa) as Hus.
    destruct (Hus a) as (Hua & _); [right; set_solver|]. cbn in Hua.
    destruct (block_sync_run s1 (a - data_start_lba (sb s))) as (d & Hr2 & Hd & Hsec2); [done| |].
    { destruct Ha as (? & ? & ?). cbn. unfold bm_bits in *. rewrite Hlen. lia. }
    assert (indirect (set_i_sectors secs i) = 0) as Hind by (unfold indirect; cbn; unfold secs; by rewrite Hsec).
    assert (inode_blocks d (set_i_sectors secs i) = a :: zeros 139) as HB.
    { unfold inode_blocks. rewrite Hind. cbn [i_sectors set_i_sectors]. unfold secs. by rewrite Hsec. }
    exists d, b, secs. cbv zeta. rewrite Hz. change (Z.to_nat (0 / 512 + 1)) with 1%nat. split_and!.
    + unfold first_block. run (inode_at_run p i s Hi). rewrite Hsec at 1. cbn [rd]. 
      rewrite (sbind_Ok _ _ s 0 s) by done. change (negb (0 =? 0)) with false. cbv iota. run Hr. rewrite Ham, Hau.
      rewrite (sbind_Ok _ _ _ _ _ (set_sector_run sb1 p i 0 a Hi ltac:(lia))). change (Z.to_nat 0) with 0%nat.
      rewrite (sbind_Ok _ _ s1 (a - data_start_lba (sb s)) s1).
      2: { unfold bitmap_idx. run (gets_run sb s1). cbn. by rewrite u32_id by lia. }
      run (sassert_true (negb (a - data_start_lba (sb s) =? 0)) s1 ltac:(lia)). by run Hr2.
    + apply (volume_set_disk s1 d Hvs1 Hd).
    + by apply (bits_added_root s _ [a]).
    + constructor; try lia.
      * destruct Hio. constructor; cbn; try done; unfold secs; [by rewrite length_insert|].
        apply Forall_insert; [done|unfold is_u32; lia].
      * cbn [disk grown set_disk]. rewrite HB. unfold table. rewrite Hind. constructor; [|constructor]. apply (Hus a). set_solver.
      * cbn [disk grown set_disk]. rewrite HB. unfold table. rewrite Hind. apply NoDup_singleton.
      * intros k Hk. cbn [i_sectors set_i_sectors]. unfold secs. rewrite list_lookup_insert_ne by lia. rewrite Hsec.
        apply lookup_replicate. lia.
    + done.
    + unfold fcontent. cbn [i_size set_i_sectors]. by rewrite Hz.
    + intros x Hx. apply Hus. by left.
    + intros x Hx. apply Hsec2. cbn. lia.
    + intros x. rewrite HB. unfold table. rewrite Hind. change (0 =? 0) with true. cbv iota.
      intros ->%list_elem_of_singleton Hx. exfalso. by eapply free_not_used.
  - exists (disk s), (block_bitmap s), (i_sectors i). cbv zeta.
    assert (set_i_sectors (i_sectors i) i = i) as -> by by destruct i. rewrite grown_same by done. split_and!; try done.
    + unfold first_block. run (inode_at_run p i s Hi).
      destruct (blocks_used_at s i _ 0 Hb ltac:(lia)) as (b0 & Hb0 & Hu0). destruct (used_range s b0 Hv Hu0) as (? & _).
      rewrite inode_blocks_direct in Hb0 by (done || lia). rewrite (rd_lookup _ _ b0) by done. run (sres_run b0 s).
      by replace (b0 =? 0) with false by lia.
    + eapply free_bits_weaken; [done|lia].
Qed.
