(* ===== verification/FileSpec.v ===== *)
(** * FileSpec: what file_write and file_read do to the content of a file

    The abstract file is a sequence of bytes ([fcontent]); [file_write] appends
    to it and [file_read] returns the piece from the file position on.  Blocks of
    other files and other inodes are not touched. *)
From S2P Require Import Prelude Bitmap CString Disk Fsys Inode Dir File.

(** ** Frames *)

(** The invariants look at the disk, the super block and the bitmaps only. *)
Lemma blocks_ok_ext s s' i n :
  disk s' = disk s -> sb s' = sb s -> block_bitmap s' = block_bitmap s -> blocks_ok s i n -> blocks_ok s' i n.
Proof.
  intros Hd Hs Hb [H1 H2 H3 H4 H5 H6]. constructor; try done; rewrite Hd; try done.
  eapply Forall_impl; [exact H3|]. intros a. unfold used_addr. by rewrite Hs, Hb.
Qed.

Lemma file_ok_ext s s' i :
  disk s' = disk s -> sb s' = sb s -> block_bitmap s' = block_bitmap s -> file_ok s i -> file_ok s' i.
Proof. intros Hd Hs Hb (H1 & H2 & [H3|H3]); split_and!; try done; [by left|right]. by eapply blocks_ok_ext. Qed.

(** The blocks of an inode do not change with sectors other than its table. *)
Lemma inode_blocks_same d d' i i' :
  i_sectors i' = i_sectors i -> (indirect i <> 0 -> sector d' (indirect i) = sector d (indirect i)) ->
  inode_blocks d' i' = inode_blocks d i.
Proof.
  intros Hs Ht. unfold inode_blocks, indirect in *. rewrite Hs. destruct (default 0 (i_sectors i !! 12%nat) =? 0) eqn:E; [done|].
  rewrite Ht by lia. done.
Qed.

(** The same blocks, on a disk that agrees on the table, with another size. *)
Lemma blocks_ok_disk s s' i n z :
  blocks_ok s i n -> sb s' = sb s -> block_bitmap s' = block_bitmap s -> is_u32 z ->
  (indirect i <> 0 -> sector (disk s') (indirect i) = sector (disk s) (indirect i)) ->
  blocks_ok s' (set_i_size z i) n.
Proof.
  intros [H1 H2 H3 H4 H5 H6] Hs Hb Hz Hsec.
  assert (inode_blocks (disk s') (set_i_size z i) = inode_blocks (disk s) i) as HB by by apply inode_blocks_same.
  constructor; try done; rewrite ?HB; try done.
  - destruct H1. by constructor.
  - eapply Forall_impl; [exact H3|]. intros a. unfold used_addr. by rewrite Hs, Hb.
Qed.

Lemma owned_data s i n :
  blocks_ok s i n -> data_blocks s (take n (inode_blocks (disk s) i)).
Proof.
  intros Hb. pose proof (bk_nodup _ _ _ Hb) as Hnd. apply NoDup_app in Hnd as (Hnd & _). split; [done|].
  pose proof (bk_used _ _ _ Hb) as Hu. apply Forall_app in Hu as [Hu _]. eapply Forall_impl; [exact Hu|].
  intros a ([? ?] & _). cbn. lia.
Qed.

Lemma table_not_block s i n : blocks_ok s i n -> indirect i <> 0 -> indirect i ∉ take n (inode_blocks (disk s) i).
Proof.
  intros Hb Hz Hin. pose proof (bk_nodup _ _ _ Hb) as Hnd. apply NoDup_app in Hnd as (_ & Hnd & _).
  apply (Hnd _ Hin). unfold table. replace (indirect i =? 0) with false by lia. set_solver.
Qed.

(** ** file_write *)

(** The last part of [file_write]: the data loop and the inode. *)
Lemma write_data_run s fd f i n buf count all :
  volume_ok s -> 0 <= fd -> file_table s !! Z.to_nat fd = Some f -> inodes s !! fd_inode f = Some i ->
  blocks_ok s i n -> i_size i / 512 < Z.of_nat n -> i_size i + count < 512 * Z.of_nat n ->
  0 <= count <= Z.of_nat (length buf) -> Forall byte buf ->
  i_size i + count < 71680 -> i_no i < 256 -> straddles (i_no i) = false ->
  (forall k, (Z.to_nat (i_size i / 512) <= k < n)%nat -> all !! k = inode_blocks (disk s) i !! k) ->
  is_u32 (fd_pos f) ->
  exists s' d, let i' := set_i_size (i_size i + count) i in
    (w ← write_loop (S (Z.to_nat count)) fd (fd_inode f) all buf true 0 count count;
     j ← inode_at (fd_inode f); _ ← inode_sync j BLOCK_SIZE; mret (i32 w)) s = Ok (count, s')
    /\ s' = written s d fd f i count /\ volume_ok s' /\ blocks_ok s' i' n
    /\ content d (inode_blocks d i') (i_size i') = content (disk s) (inode_blocks (disk s) i) (i_size i) ++ take (Z.to_nat count) buf
    /\ disk_inode d (sb s) (i_no i) = pure i'
    /\ (forall no, 0 <= no < 4096 -> no <> i_no i -> disk_inode d (sb s) no = disk_inode (disk s) (sb s) no)
    /\ (forall a, data_start_lba (sb s) <= a -> a ∉ take n (inode_blocks (disk s) i) -> sector d a = sector (disk s) a).
Proof.
  intros Hv Hfd Hf Hi Hb Hn Hfit Hc Hby Hmax Hno Hstr Hall Hpos. pose proof (bk_inode _ _ _ Hb) as Hio.
  pose proof (io_size _ Hio) as [Hz _]. pose proof (bk_n _ _ _ Hb) as Hn140. pose proof (volume_order s Hv) as Ho.
  set (bl := take n (inode_blocks (disk s) i)).
  pose proof (inode_blocks_length (disk s) i (io_sectors _ Hio)) as Hlen.
  assert (length bl = n) as Hlb by (unfold bl; rewrite length_take; lia).
  destruct (write_loop_run (S (Z.to_nat count)) s fd f i all bl buf true 0 count) as (d1 & Hr & Hd1 & Hother & Hold & Hnew);
    [done|done|done|done|done|by apply owned_data|lia|lia|done|done|lia|lia|lia| |by left|lia|].
  { intros k Hk. rewrite Hall by lia. unfold bl. rewrite lookup_take_lt by lia. done. }
  rewrite Z.sub_0_r in *. set (i' := set_i_size (i_size i + count) i).
  set (s1 := written s d1 fd f i count) in *.
  assert (volume_ok s1) as Hv1 by (destruct Hv; by constructor).
  assert (inode_ok i') as Hio' by (destruct Hio; constructor; cbn; try done; unfold is_u32; lia).
  destruct (sync_run_small s1 i' 512) as (d2 & Hs & Hd2 & Hcell & Hcells & Hsec); [done|done|done|unfold room_for; cbn; by rewrite Hstr|].
  assert (forall a, data_start_lba (sb s) <= a -> sector d2 a = sector d1 a) as Hsec2.
  { intros a Ha. rewrite Hsec by (cbn; lia). done. }
  assert (data_blocks s bl) as [_ Hrange] by by apply owned_data.
  assert (indirect i <> 0 -> sector d2 (indirect i) = sector (disk s) (indirect i)) as Htab.
  { intros Hzi. pose proof (bk_table _ _ _ Hb) as Hbt. assert (12 < n)%nat by (apply not_iff_compat in Hbt; apply Nat.nle_gt; tauto).
    destruct (table_used s i n Hb) as [Hu _]; [done|]. destruct (used_range s _ Hv Hu) as (_ & _ & ? & ?).
    rewrite Hsec2 by lia. apply Hother. by apply table_not_block. }
  assert (inode_blocks d2 i' = inode_blocks (disk s) i) as HB by by apply inode_blocks_same.
  exists (written s d2 fd f i count), d2. cbv zeta. split_and!; try done.
  - run Hr. rewrite (sbind_Ok _ _ s1 i' s1); [run Hs; rewrite i32_id by lia; done|]. apply inode_at_run. cbn. by rewrite lookup_insert_eq.
  - apply (volume_set_disk s1 d2 Hv1 Hd2).
  - apply (blocks_ok_disk s); try done. unfold is_u32. lia.
  - rewrite HB. apply content_append; [done|lia| |].
    + intros k Hk. rewrite <- (fbyte_take d2 _ n), <- (fbyte_take (disk s) _ n) by lia. fold bl.
      rewrite <- Hold by lia. unfold fbyte. destruct (lookup_lt_is_Some_2 bl (Z.to_nat (k / 512))) as [b Hbk]; [lia|].
      rewrite Hbk. simpl. unfold dbyte. replace ((512 * b + k mod 512) / 512) with b by lia.
      pose proof (Forall_lookup_1 _ _ _ _ Hrange Hbk). cbn in *. rewrite Hsec2 by lia. done.
    + intros k Hk. rewrite <- (fbyte_take d2 _ n) by lia. fold bl.
      replace (k - i_size i) with (0 + (k - i_size i)) by lia. rewrite Hnew by lia. f_equal.
      unfold fbyte. destruct (lookup_lt_is_Some_2 bl (Z.to_nat (k / 512))) as [b Hbk]; [lia|].
      rewrite Hbk. simpl. unfold dbyte. replace ((512 * b + k mod 512) / 512) with b by lia.
      pose proof (Forall_lookup_1 _ _ _ _ Hrange Hbk). cbn in *. rewrite Hsec2 by lia. done.
  - intros no Hr0 Hne. rewrite Hcells by done. unfold disk_inode. f_equal. apply dbytes_ext. intros k Hk.
    unfold dbyte. do 2 f_equal. cbn [disk s1 written set_disk]. apply Hother. intros Hin.
    rewrite Forall_forall in Hrange. specialize (Hrange _ Hin). cbn in Hrange. unfold cell, inode_size in *. lia.
  - intros a Ha Hna. rewrite Hsec2 by done. by apply Hother.
Qed.

(** The allocation part of [file_write]: what is left is the data loop on a
    state [s3] in which the file has all the blocks it needs and the content it
    had. *)
Lemma file_write_prepared s fd f i buf count a1 a2 r :
  volume_ok s -> root_taken s -> 0 <= fd -> file_table s !! Z.to_nat fd = Some f -> inodes s !! fd_inode f = Some i ->
  file_ok s i -> allocs s = a1 :: a2 :: r -> a1 <> 0 -> a2 <> 0 -> 0 <= count -> i_size i + count < 71680 ->
  free_bits (block_bitmap s) (Z.to_nat (count / 512 + 3)) ->
  exists all s3 i2 f3, let p := fd_inode f in let will := Z.to_nat ((i_size i + count) / 512 + 1) in
    file_write fd buf count s
      = (w ← write_loop (S (Z.to_nat count)) fd p all buf true 0 count count;
         j ← inode_at p; _ ← inode_sync j BLOCK_SIZE; mret (i32 w)) s3
    /\ volume_ok s3 /\ root_taken s3 /\ sb s3 = sb s
    /\ file_table s3 !! Z.to_nat fd = Some f3 /\ fd_inode f3 = p /\ is_u32 (fd_pos f3)
    /\ inodes s3 !! p = Some i2 /\ blocks_ok s3 i2 will /\ i_no i2 = i_no i /\ i_size i2 = i_size i
    /\ (forall k, (Z.to_nat (i_size i / 512) <= k < will)%nat -> all !! k = inode_blocks (disk s3) i2 !! k)
    /\ fcontent (disk s3) i2 = fcontent (disk s) i
    /\ (forall a, inode_table_lba (sb s) <= a < inode_table_lba (sb s) + 608 -> sector (disk s3) a = sector (disk s) a)
    /\ (forall a, used_addr s a -> ~ owned s i a ->
          sector (disk s3) a = sector (disk s) a /\ a ∉ take will (inode_blocks (disk s3) i2))
    /\ (forall q, q <> p -> inodes s3 !! q = inodes s !! q)
    /\ (forall k, k <> Z.to_nat fd -> file_table s3 !! k = file_table s !! k).
Proof.
  intros Hv Hroot Hfd Hf Hi Hfok Hal Ha1 Ha2 Hc Hmax Hfree.
  pose proof Hfok as (Hio & _ & _). pose proof (io_size _ Hio) as [Hz _]. pose proof (volume_order s Hv) as Ho.
  set (p := fd_inode f). set (n := Z.to_nat (i_size i / 512 + 1)). set (will := Z.to_nat ((i_size i + count) / 512 + 1)).
  set (s0 := set_allocs r s). assert (volume_ok s0) as Hv0 by (destruct Hv; by constructor).
  destruct (first_block_run s0 p i (S (will - n))) as (d1 & b1 & secs1 & Hr1 & Hv1 & Hroot1 & Hb1 & Hfree1 & Hcont1 & Hus1 & Hsec1 & Hown1);
    [done|done|done|by apply (file_ok_ext s)|eapply free_bits_weaken; [done|lia]|].
  fold n in Hb1, Hown1. set (i1 := set_i_sectors secs1 i) in *. set (s1 := grown s0 d1 b1 p i secs1) in *.
  destruct (write_blocks_run s1 p i1 n will) as (all & d2 & b2 & secs2 & Hr2 & Hv2 & Hroot2 & Hb2 & Hall & Htake & Hsec2 & Hus2 & Hold2);
    [done|done|cbn; by rewrite lookup_insert_eq|done|lia|done|].
  set (i2 := set_i_sectors secs2 i1) in *. set (s2 := grown s1 d2 b2 p i1 secs2) in *.
  set (f3 := File (u32 (i_size i - 1)) (fd_flag f) p).
  set (s3 := set_file_table (<[Z.to_nat fd := f3]> (file_table s2)) s2).
  assert (forall a, used_addr s1 a -> ~ free_addr s1 a) as Hnf by (intros a H1 H2; by eapply free_not_used).
  assert (forall a, a ∈ take n (inode_blocks d1 i1) ++ table i1 -> used_addr s1 a) as Hu1.
  { pose proof (bk_used _ _ _ Hb1) as Hu. rewrite Forall_forall in Hu. done. }
  exists all, s3, i2, f3. cbv zeta. split_and!; try done.
  - unfold file_write. run (file_at_run fd f s Hfd Hf). cbv zeta. run (inode_at_run _ _ _ Hi).
    unfold BLOCK_SIZE, SECTOR_SIZE. rewrite (u32_id (i_size i + count)) by lia.
    replace (512 * 140 <? i_size i + count) with false by lia.
    rewrite (sbind_Ok _ _ _ _ _ (malloc_run 512 a1 (a2 :: r) s Hal)). replace (a1 =? 0) with false by lia.
    rewrite (sbind_Ok _ _ _ _ _ (malloc_run (512 + 48) a2 r (set_allocs (a2 :: r) s) eq_refl)). replace (a2 =? 0) with false by lia.
    fold p. change (set_allocs r (set_allocs (a2 :: r) s)) with s0. run Hr1. change (negb true) with false. cbv iota.
    run (sassert_true ((i_size i + count) / 512 + 1 <=? 140) s1 ltac:(lia)).
    replace (i_size i / 512 + 1) with (Z.of_nat n) by lia. replace ((i_size i + count) / 512 + 1) with (Z.of_nat will) by lia.
    run Hr2. by rewrite (sbind_Ok _ _ _ _ _ (put_file_run fd f f3 s2 Hfd Hf)).
  - destruct Hv2. by constructor.
  - apply list_lookup_insert_eq. by eapply lookup_lt_Some.
  - apply u32_range.
  - cbn. by rewrite lookup_insert_eq.
  - by apply (blocks_ok_ext s2).
  - intros k Hk. apply Hall. lia.
  - transitivity (fcontent d1 i1); [|exact Hcont1].
    apply (fcontent_same d1 d2 i1 i2 n); try done; [cbn; lia|apply Hv1|apply Hv2| |apply inode_blocks_length, Hb1|lia].
    intros a Ha. assert (used_addr s1 a) as Hu by (apply Hu1; rewrite elem_of_app; by left).
    apply Hsec2; [|by apply Hnf|].
    + destruct (used_range s1 a Hv1 Hu) as (? & ? & ? & ?). cbn in *. lia.
    + pose proof (bk_nodup _ _ _ Hb1) as Hnd. apply NoDup_app in Hnd as (_ & Hnd & _). by apply Hnd.
  - intros a Ha. cbn [disk s3 s2 grown set_disk set_file_table]. rewrite Hsec2; [apply Hsec1; cbn; lia|cbn; lia| |].
    + intros ([Hfa _] & _). cbn in Hfa. lia.
    + intros Hin. destruct (Hu1 a) as ([? _] & _); [rewrite elem_of_app; by right|]. cbn in *. lia.
  - intros a Hu Hno'. destruct (used_range s a Hv Hu) as (? & ? & ? & ?). cbn [disk s3 s2 grown set_disk set_file_table].
    assert (a ∉ take n (inode_blocks d1 i1) ++ table i1) as Hna1 by (intros Hin; apply Hno'; by apply Hown1). split.
    + rewrite elem_of_app in Hna1. rewrite Hsec2; [apply Hsec1; cbn; lia|cbn; lia|apply Hnf; by apply Hus1|tauto].
    + intros Hin. apply Hna1, Hold2; [by apply Hus1|]. rewrite elem_of_app. by left.
  - intros q Hq. cbn. by rewrite !lookup_insert_ne by done.
  - intros k Hk. cbn. by rewrite list_lookup_insert_ne by done.
Qed.

(** What a successful write of the [count] bytes of [buf] achieves. *)
Definition appended (s s' : fsys) (fd : Z) (f : file) (i : inode) (buf : list Z) (count : Z) : Prop :=
  exists i', inodes s' !! fd_inode f = Some i' /\ file_ok s' i' /\ i_no i' = i_no i /\ i_size i' = i_size i + count
    /\ fcontent (disk s') i' = fcontent (disk s) i ++ take (Z.to_nat count) buf
    /\ disk_inode (disk s') (sb s) (i_no i) = pure i'
    /\ volume_ok s' /\ root_taken s' /\ sb s' = sb s
    /\ (forall no, 0 <= no < 4096 -> no <> i_no i -> disk_inode (disk s') (sb s) no = disk_inode (disk s) (sb s) no)
    /\ (forall a, used_addr s a -> ~ owned s i a -> sector (disk s') a = sector (disk s) a)
    /\ (forall q, q <> fd_inode f -> inodes s' !! q = inodes s !! q)
    /\ (forall k, k <> Z.to_nat fd -> file_table s' !! k = file_table s !! k).

Lemma file_write_run s fd f i buf count a1 a2 r :
  volume_ok s -> root_taken s -> 0 <= fd -> file_table s !! Z.to_nat fd = Some f -> inodes s !! fd_inode f = Some i ->
  file_ok s i -> i_no i < 256 -> straddles (i_no i) = false ->
  allocs s = a1 :: a2 :: r -> a1 <> 0 -> a2 <> 0 ->
  0 <= count <= Z.of_nat (length buf) -> Forall byte buf -> i_size i + count < 71680 ->
  free_bits (block_bitmap s) (Z.to_nat (count / 512 + 3)) ->
  exists s', file_write fd buf count s = Ok (count, s') /\ appended s s' fd f i buf count.
Proof.
  intros Hv Hroot Hfd Hf Hi Hfok Hno Hstr Hal Ha1 Ha2 Hc Hby Hmax Hfree.
  pose proof (volume_order s Hv) as Ho. pose proof Hfok as (Hio & _ & _). pose proof (io_size _ Hio) as [Hz _].
  destruct (file_write_prepared s fd f i buf count a1 a2 r) as (all & s3 & i2 & f3 & Hr & Hv3 & Hroot3 & Hsb & Hf3 & Hp & Hpos
    & Hi2 & Hb2 & Hino & Hisz & Hall & Hcont & Htab & Hframe & Hfi & Hft); try done; [lia|].
  destruct (write_data_run s3 fd f3 i2 (Z.to_nat ((i_size i + count) / 512 + 1)) buf count all)
    as (s4 & d4 & Hr4 & Hs4 & Hv4 & Hb4 & Hcont4 & Hcell4 & Hcells4 & Hsec4);
    rewrite ?Hino, ?Hisz, ?Hp; try done; try lia.
  set (i4 := set_i_size (i_size i2 + count) i2) in *.
  exists s4. split; [rewrite Hr, <- Hp; exact Hr4|]. assert (disk s4 = d4) as Hds4 by by rewrite Hs4.
  rewrite Hsb, Hino in *. exists i4. rewrite Hds4. split_and!; try done.
  - rewrite Hs4. cbn. rewrite Hp. by rewrite lookup_insert_eq.
  - split_and!; [apply Hb4|cbn; lia|]. right. cbn [i_size i4 set_i_size]. by rewrite Hisz.
  - cbn. lia.
  - unfold fcontent. rewrite Hcont4. f_equal. exact Hcont.
  - rewrite Hs4. done.
  - rewrite Hs4. done.
  - intros no Hn0 Hne. rewrite Hcells4 by done. unfold disk_inode. f_equal. apply dbytes_ext. intros k Hk.
    unfold dbyte, cell, inode_size in *. do 2 f_equal. apply Htab. lia.
  - intros a Hu Hno'. destruct (used_range s a Hv Hu) as (? & ? & ? & ?). destruct (Hframe a Hu Hno') as [<- Hna].
    apply Hsec4; [lia|done].
  - intros q Hq. rewrite Hs4. cbn. rewrite Hp, lookup_insert_ne by done. by apply Hfi.
  - intros k Hk. rewrite Hs4. cbn. rewrite list_lookup_insert_ne by done. by apply Hft.
Qed.

(** ** file_read *)

(** The [n] bytes of a file from byte [k] on. *)
Definition piece (d : sectors) (bl : list Z) (k n : Z) : list Z := map (fbyte d bl) (seqZ k n).

Lemma piece_app d bl k a b : 0 <= a -> 0 <= b -> piece d bl k (a + b) = piece d bl k a ++ piece d bl (k + a) b.
Proof. intros. unfold piece. by rewrite seqZ_app, map_app by lia. Qed.

Lemma piece_content d bl k n z : 0 <= k -> 0 <= n -> k + n <= z -> slice (content d bl z) k n = piece d bl k n.
Proof.
  intros. unfold slice, piece. apply list_eq. intros j. destruct (decide (Z.of_nat j < n)).
  - rewrite lookup_take_lt by lia. rewrite lookup_drop, content_lookup by lia.
    rewrite list_lookup_fmap, lookup_seqZ_lt by lia. simpl. do 2 f_equal. lia.
  - rewrite lookup_take_ge by lia. by rewrite list_lookup_fmap, lookup_seqZ_ge by lia.
Qed.

(** A piece within one block is a slice of its sector. *)
Lemma piece_sector d bl k n b :
  disk_ok d -> 0 <= k -> 0 <= n -> k mod 512 + n <= 512 -> bl !! Z.to_nat (k / 512) = Some b ->
  slice (sector d b) (k mod 512) n = piece d bl k n.
Proof.
  intros Hd Hk Hn Hfit Hb. rewrite sector_bytes by done. rewrite slice_dbytes by lia. unfold piece, dbytes.
  apply list_eq. intros j. destruct (decide (Z.of_nat j < n)).
  - rewrite !list_lookup_fmap, !lookup_seqZ_lt by lia. simpl. f_equal. unfold fbyte.
    replace ((k + Z.of_nat j) / 512) with (k / 512) by lia. rewrite Hb. simpl. f_equal. lia.
  - by rewrite !list_lookup_fmap, !lookup_seqZ_ge by lia.
Qed.

Definition moved (s : fsys) (fd : Z) (f : file) (n : Z) : fsys :=
  set_file_table (<[Z.to_nat fd := File (fd_pos f + n) (fd_flag f) (fd_inode f)]> (file_table s)) s.

Lemma read_loop_run fuel : forall s fd f io all bl w size,
  volume_ok s -> 0 <= fd -> file_table s !! Z.to_nat fd = Some f -> io <> 0 ->
  0 <= w <= size -> size < 2 ^ 31 -> 0 <= fd_pos f -> fd_pos f + (size - w) < 71680 ->
  (forall k, fd_pos f / 512 <= k -> 512 * k < fd_pos f + (size - w) ->
     exists b, all !! Z.to_nat k = Some b /\ bl !! Z.to_nat k = Some b /\ b <= max_lba) ->
  size - w < Z.of_nat fuel ->
  read_loop fuel fd io all w (size - w) size s = Ok (piece (disk s) bl (fd_pos f) (size - w), moved s fd f (size - w)).
Proof.
  induction fuel as [|fuel IH]; intros s fd f io all bl w size Hv Hfd Hf Hio Hw Hsz Hpos Hmax Hall Hfuel; [lia|].
  cbn [read_loop]. destruct (decide (w = size)) as [->|Hne].
  { rewrite Z.sub_diag. replace (size <? size) with false by lia. unfold piece. change (seqZ (fd_pos f) 0) with (@nil Z).
    unfold moved. rewrite Z.add_0_r. replace (File (fd_pos f) (fd_flag f) (fd_inode f)) with f by by destruct f.
    rewrite list_insert_id by done. by destruct s. }
  replace (w <? size) with true by lia. run (file_at_run fd f s Hfd Hf). unfold BLOCK_SIZE, SECTOR_SIZE in *.
  destruct (Hall (fd_pos f / 512)) as (b & Hb & Hbl & Hbm); [lia|lia|].
  rewrite (rd_lookup _ _ b) by (done || lia). run (sres_run b s).
  set (chunk := if size - w <? 512 - fd_pos f mod 512 then size - w else 512 - fd_pos f mod 512).
  assert (0 < chunk <= size - w /\ fd_pos f mod 512 + chunk <= 512) as (Hch & Hch2) by (unfold chunk; case_match; lia).
  clearbody chunk. run (sassert_true (negb (io =? 0)) s ltac:(lia)).
  run (ide_read_one 512 b s Hbm ltac:(lia)).
  rewrite (sbind_Ok _ _ _ _ _ (put_file_run fd f _ s Hfd Hf)). unwrap.
  set (f1 := File (fd_pos f + chunk) (fd_flag f) (fd_inode f)).
  assert (file_table (moved s fd f chunk) !! Z.to_nat fd = Some f1) as Hf1 by (apply list_lookup_insert_eq; by eapply lookup_lt_Some).
  replace (size - w - chunk) with (size - (w + chunk)) by lia.
  rewrite (sbind_Ok _ _ _ _ _ (IH (moved s fd f chunk) fd f1 io all bl (w + chunk) size ltac:(destruct Hv; by constructor)
    Hfd Hf1 Hio ltac:(lia) Hsz ltac:(cbn; lia) ltac:(cbn; lia) ltac:(cbn; intros; apply Hall; lia) ltac:(lia))).
  unfold mret, st_ret. do 2 f_equal.
  - rewrite (piece_sector _ bl _ _ b) by (done || lia || apply Hv). cbn [fd_pos f1]. change (disk (moved s fd f chunk)) with (disk s).
    rewrite <- piece_app by lia. f_equal. lia.
  - unfold moved. cbn [file_table set_file_table fd_pos fd_flag fd_inode f1]. rewrite list_insert_insert_eq.
    by replace (fd_pos f + chunk + (size - (w + chunk))) with (fd_pos f + (size - w)) by lia.
Qed.

Lemma copy_direct_run n : forall i idx all,
  length (i_sectors i) = 13%nat -> length all = 140%nat -> 0 <= idx -> idx + Z.of_nat n <= 12 ->
  exists all', copy_direct n i idx all = Ok all' /\ length all' = 140%nat
    /\ (forall k, idx <= Z.of_nat k < idx + Z.of_nat n -> all' !! k = i_sectors i !! k)
    /\ (forall k, ~ idx <= Z.of_nat k < idx + Z.of_nat n -> all' !! k = all !! k).
Proof.
  induction n as [|n IH]; intros i idx all Hl Ha Hx Hfit.
  { exists all. split_and!; try done; intros; lia. }
  cbn [copy_direct]. destruct (rd_in (i_sectors i) idx) as [b Hb]; [lia|]. rewrite Hb, bind_Ok, wr_in, bind_Ok by lia.
  destruct (IH i (idx + 1) (<[Z.to_nat idx := b]> all)) as (all' & Hr & Hl' & Hin & Hout); [done|by rewrite length_insert|lia|lia|].
  exists all'. apply rd_Ok in Hb as [_ Hb]. split_and!; try done.
  - intros k Hk. destruct (decide (Z.of_nat k = idx)); [|apply Hin; lia]. rewrite Hout by lia.
    replace k with (Z.to_nat idx) by lia. rewrite Hb. apply list_lookup_insert_eq. lia.
  - intros k Hk. rewrite Hout by lia. apply list_lookup_insert_ne. lia.
Qed.

Lemma over_indirect_run s i all :
  length (i_sectors i) = 13%nat -> 0 < indirect i <= max_lba -> length all = 140%nat ->
  exists all', over_indirect i all s = Ok (all', s)
    /\ (forall k, (k < 12)%nat -> all' !! k = all !! k)
    /\ (forall k, (12 <= k)%nat -> all' !! k = inode_blocks (disk s) i !! k).
Proof.
  intros Hl Hi Ha. eexists. split.
  { unfold over_indirect. rewrite indirect_rd by done. run (sres_run (indirect i) s).
    by run (ide_read_one 512 (indirect i) s ltac:(lia) ltac:(lia)). }
  assert (length (take 12 all) = 12%nat) as Ht by (rewrite length_take; lia).
  assert (length (take 12 (i_sectors i)) = 12%nat) as Ht2 by (rewrite length_take; lia).
  split; intros k Hk.
  - rewrite lookup_app_l by lia. by rewrite lookup_take_lt.
  - unfold inode_blocks. replace (indirect i =? 0) with false by lia. rewrite !lookup_app_r by lia. by rewrite Ht, Ht2.
Qed.

Lemma collect_read_run s i n a b :
  volume_ok s -> blocks_ok s i n -> 0 <= a <= b -> b < Z.of_nat n ->
  exists all, collect_read i a b s = Ok (all, s)
    /\ (forall k, a <= Z.of_nat k <= b -> all !! k = inode_blocks (disk s) i !! k).
Proof.
  intros Hv Hb Hab Hbn. pose proof (io_sectors _ (bk_inode _ _ _ Hb)) as Hl. pose proof (bk_n _ _ _ Hb).
  pose proof (fun k => inode_blocks_direct (disk s) i k Hl) as Hdir.
  assert (12 <= b -> 0 < indirect i <= max_lba) as Hind.
  { intros. destruct (table_used s i n Hb) as [Hu _]; [lia|]. destruct (used_range s _ Hv Hu) as (? & ? & _). lia. }
  assert (12 <= b -> has_indirect i s = Ok (tt, s)) as Hhas.
  { intros Hb12. specialize (Hind Hb12). unfold has_indirect. rewrite indirect_rd by done. run (sres_run (indirect i) s).
    apply sassert_true. lia. }
  unfold collect_read. destruct (decide (a = b)) as [->|Hne].
  - rewrite Z.sub_diag. change (u32 0 =? 0) with true. cbv iota. run (sassert_true (b =? b) s (Z.eqb_refl b)).
    destruct (decide (b < 12)).
    + replace (b <? 12) with true by lia.
      destruct (copy_direct_run 1 i b (zeros 140)) as (all & Hr & _ & Hin & _); [done|done|lia|lia|].
      rewrite Hr. exists all. split; [done|]. intros k Hk. rewrite Hin by lia. symmetry. apply Hdir. lia.
    + replace (b <? 12) with false by lia. destruct (over_indirect_run s i (zeros 140)) as (all & Hr & _ & Hin); [done|apply Hind; lia|done|].
      exists all. split; [done|]. intros k Hk. apply Hin. lia.
  - assert (u32 (a - b) =? 0 = false) as ->. { unfold u32. lia. }
    destruct (decide (b < 12)).
    + replace (b <? 12) with true by lia.
      destruct (copy_direct_run (Z.to_nat (b - a + 1)) i a (zeros 140)) as (all & Hr & _ & Hin & _); [done|done|lia|lia|].
      rewrite Hr. exists all. split; [done|]. intros k Hk. rewrite Hin by lia. symmetry. apply Hdir. lia.
    + replace (b <? 12) with false by lia. destruct (decide (a < 12)).
      * replace (a <? 12) with true by lia.
        destruct (copy_direct_run (Z.to_nat (12 - a)) i a (zeros 140)) as (all0 & Hr0 & Hl0 & Hin0 & _); [done|done|lia|lia|].
        rewrite Hr0. run (sres_run all0 s). run (Hhas ltac:(lia)).
        destruct (over_indirect_run s i all0) as (all & Hr & Hlow & Hin); [done|apply Hind; lia|done|].
        exists all. split; [done|]. intros k Hk. destruct (decide (k < 12)%nat); [|apply Hin; lia].
        rewrite Hlow, Hin0 by lia. symmetry. by apply Hdir.
      * replace (a <? 12) with false by lia. run (Hhas ltac:(lia)).
        destruct (over_indirect_run s i (zeros 140)) as (all & Hr & _ & Hin); [done|apply Hind; lia|done|].
        exists all. split; [done|]. intros k Hk. apply Hin. lia.
Qed.

(** At the end of the file. *)
Lemma file_read_eof s fd f i count :
  0 <= fd -> file_table s !! Z.to_nat fd = Some f -> inodes s !! fd_inode f = Some i ->
  fd_pos f = i_size i -> 0 <= i_size i -> 0 < count -> i_size i + count < 2 ^ 32 ->
  file_read fd count s = Ok ((-1, []), s).
Proof.
  intros Hfd Hf Hi Hp Hz Hc Hm. unfold file_read. run (file_at_run fd f s Hfd Hf). run (inode_at_run _ _ _ Hi).
  rewrite Hp. unwrap. replace (i_size i <? i_size i + count) with true by lia. rewrite Z.sub_diag. done.
Qed.

Lemma file_read_run s fd f i count a1 a2 r :
  volume_ok s -> 0 <= fd -> file_table s !! Z.to_nat fd = Some f -> inodes s !! fd_inode f = Some i -> file_ok s i ->
  allocs s = a1 :: a2 :: r -> a1 <> 0 -> a2 <> 0 ->
  0 <= fd_pos f < i_size i -> 0 < count -> fd_pos f + count < 2 ^ 32 ->
  let m := Z.min count (i_size i - fd_pos f) in (fd_pos f + m) / 512 < 139 ->
  file_read fd count s = Ok ((m, slice (fcontent (disk s) i) (fd_pos f) m), moved (set_allocs r s) fd f m).
Proof.
  intros Hv Hfd Hf Hi Hfok Hal Ha1 Ha2 Hp Hc Hm m H139. destruct Hfok as (Hio & Hsz & [[Hz _]|Hb]); [lia|].
  unfold file_read. run (file_at_run fd f s Hfd Hf). run (inode_at_run _ _ _ Hi). cbv zeta.
  assert ((if i_size i <? u32 (fd_pos f + count) then u32 (i_size i - fd_pos f) else count) = m) as Hsize.
  { unwrap. destruct (i_size i <? fd_pos f + count) eqn:E; unfold m; lia. }
  rewrite Hsize. replace (m =? 0) with false by lia. rewrite andb_false_r.
  rewrite (sbind_Ok _ _ _ _ _ (malloc_run BLOCK_SIZE a1 (a2 :: r) s Hal)).
  rewrite (sbind_Ok _ _ _ _ _ (malloc_run (BLOCK_SIZE + 48) a2 r (set_allocs (a2 :: r) s) eq_refl)). replace (a2 =? 0) with false by lia.
  change (set_allocs r (set_allocs (a2 :: r) s)) with (set_allocs r s). set (s0 := set_allocs r s).
  assert (volume_ok s0) as Hv0 by (destruct Hv; by constructor).
  unfold BLOCK_SIZE, SECTOR_SIZE. rewrite (u32_id (fd_pos f + m)) by lia.
  run (sassert_true ((fd_pos f / 512 <? 139) && ((fd_pos f + m) / 512 <? 139)) s0 ltac:(lia)).
  pose proof (blocks_ok_ext s s0 i _ eq_refl eq_refl eq_refl Hb) as Hb0.
  destruct (collect_read_run s0 i _ (fd_pos f / 512) ((fd_pos f + m) / 512) Hv0 Hb0) as (all & Hr & Hall); [lia|lia|]. run Hr.
  pose proof (read_loop_run (S (Z.to_nat m)) s0 fd f a1 all (inode_blocks (disk s) i) 0 m Hv0 Hfd Hf Ha1) as Hl.
  rewrite Z.sub_0_r in Hl. rewrite (sbind_Ok _ _ _ _ _ (Hl ltac:(lia) ltac:(lia) ltac:(lia) ltac:(lia) ltac:(
    intros k Hk1 Hk2; destruct (blocks_used_at s0 i _ (Z.to_nat k) Hb0 ltac:(lia)) as (b & Hbk & Hu); exists b;
    destruct (used_range s0 b Hv0 Hu) as (_ & ? & _); split_and!; [rewrite Hall by lia; done|done|done]) ltac:(lia))).
  unfold mret, st_ret. rewrite i32_id by lia. unfold fcontent. by rewrite piece_content by lia.
Qed.

(** ** A buffer that is too small *)

(** [inode_sync] of an inode that lies in two sectors needs 1024 bytes. *)
Lemma sync_overrun s i cap :
  volume_ok s -> 0 <= i_no i < 256 -> straddles (i_no i) = true -> cap < 1024 -> inode_sync i cap s = Bad EFault.
Proof.
  intros Hv Hno Hs Hcap. pose proof (volume_order s Hv) as Ho. pose proof (vo_start s Hv).
  unfold inode_sync. rewrite u8_id by lia.
  destruct (locate_run s (i_no i) Hv ltac:(lia)) as (pos & Hl & Ht & _ & _ & _ & Hlo & Hhi). run Hl.
  rewrite Hs in Ht. rewrite Ht in Hhi. rewrite (sbind_Ok _ _ s s s) by done.
  rewrite (sbind_Ok _ _ s tt s) by (apply sassert_true; rewrite u32_id by lia; lia).
  unfold patch_inode. rewrite Ht. apply sbind_Bad. apply ide_read_small; [rewrite max_lba_eq; lia|lia|lia].
Qed.

(** [file_write] up to the point where it writes the inode. *)
Lemma file_write_until_sync s fd f i buf count a1 a2 r :
  volume_ok s -> root_taken s -> 0 <= fd -> file_table s !! Z.to_nat fd = Some f -> inodes s !! fd_inode f = Some i ->
  file_ok s i -> allocs s = a1 :: a2 :: r -> a1 <> 0 -> a2 <> 0 ->
  0 <= count <= Z.of_nat (length buf) -> Forall byte buf -> i_size i + count < 71680 ->
  free_bits (block_bitmap s) (Z.to_nat (count / 512 + 3)) ->
  exists i' s', file_write fd buf count s = (_ ← inode_sync i' BLOCK_SIZE; mret (i32 count)) s'
    /\ volume_ok s' /\ i_no i' = i_no i.
Proof.
  intros Hv Hroot Hfd Hf Hi Hfok Hal Ha1 Ha2 Hc Hby Hmax Hfree. pose proof Hfok as (Hio & _ & _). pose proof (io_size _ Hio) as [Hz _].
  destruct (file_write_prepared s fd f i buf count a1 a2 r) as (all & s3 & i2 & f3 & Hr & Hv3 & Hroot3 & Hsb & Hf3 & Hp & Hpos
    & Hi2 & Hb2 & Hino & Hisz & Hall & _); try done; [lia|].
  set (will := Z.to_nat ((i_size i + count) / 512 + 1)) in *. rewrite <- Hp in Hi2.
  assert (length (take will (inode_blocks (disk s3) i2)) = will) as Hlen
    by (rewrite length_take, inode_blocks_length by apply Hb2; lia).
  destruct (write_loop_run (S (Z.to_nat count)) s3 fd f3 i2 all (take will (inode_blocks (disk s3) i2)) buf true 0 count) as (d & Hl & Hd & _);
    rewrite ?Hlen, ?Hisz; try done; try lia; [by apply owned_data| |].
  { intros k Hk. rewrite Hall by lia. by rewrite lookup_take_lt by lia. }
  rewrite Z.sub_0_r in Hl. set (s4 := written s3 d fd f3 i2 count) in *.
  exists (set_i_size (i_size i2 + count) i2), s4. split_and!; [|destruct Hv3; by constructor|done].
  rewrite Hr, <- Hp. run Hl. rewrite (sbind_Ok _ _ s4 (set_i_size (i_size i2 + count) i2) s4); [done|].
  apply inode_at_run. cbn. by rewrite lookup_insert_eq.
Qed.

(** ** Properties *)

(** A volume with one open file: inode [no], 600 bytes in blocks 613 and 614,
    open at descriptor 3, position 510. *)
Definition demo_file (no : Z) : fsys :=
  Fsys (<[614 := replicate 512 66]> (<[613 := replicate 512 65]> ∅)) 0 1000 demo_sb
    (Bitmap 512 (7 :: zeros 512)) (Bitmap 512 (3 :: zeros 512))
    {[4096 := Inode no 600 1 true (613 :: 614 :: zeros 11)]} [4096]
    (replicate 3 (File 0 0 0) ++ [File 510 2 4096] ++ replicate 28 (File 0 0 0))
    ∅ ([0; 1; 2; 3] ++ replicate 4 (-1)) 0 [8192; 12288; 16384; 20480; 24576].

Lemma demo_file_volume no : volume_ok (demo_file no).
Proof.
  constructor; cbn [disk start_lba sec_cnt sb block_bitmap inode_bitmap demo_file]; try done; try (cbn; rewrite ?max_lba_eq; lia).
  - intros lba. destruct (decide (614 = lba)) as [<-|]; [|destruct (decide (613 = lba)) as [<-|]].
    + rewrite sector_insert_eq. split; [done|]. apply Forall_replicate. unfold byte. lia.
    + rewrite sector_insert_ne, sector_insert_eq by done. split; [done|]. apply Forall_replicate. unfold byte. lia.
    + rewrite !sector_insert_ne by done. apply empty_disk_ok.
  - constructor; [by vm_compute|done|]. constructor; [lia|]. apply Forall_replicate. lia.
  - constructor; [by vm_compute|done|]. constructor; [lia|]. apply Forall_replicate. lia.
  - intros i Hi _. unfold bm_bits in Hi. cbn in *. rewrite max_lba_eq. lia.
Qed.

Lemma demo_file_ok no : is_u32 no -> file_ok (demo_file no) (Inode no 600 1 true (613 :: 614 :: zeros 11)).
Proof.
  intros Hno. assert (inode_ok (Inode no 600 1 true (613 :: 614 :: zeros 11))) as Hio.
  { constructor; cbn; try done. repeat constructor; done. }
  split_and!; [done|cbn; lia|]. right. change (Z.to_nat _) with 2%nat. constructor; [done|lia| | | |].
  - change (take 2 _ ++ table _) with [613; 614]. repeat constructor; unfold used_addr, bm_bits; cbn; rewrite ?max_lba_eq; try lia; by vm_compute.
  - change (take 2 _ ++ table _) with [613; 614]. repeat constructor; set_solver.
  - intros k Hk. cbn. destruct k as [|[|k]]; [lia|lia|]. cbn. apply (lookup_replicate_2 11). lia.
  - split; [lia|done].
Qed.

Lemma demo_file_free no : free_bits (block_bitmap (demo_file no)) 3.
Proof.
  exists [3; 4; 5]. split_and!; [done|repeat constructor; set_solver|].
  repeat constructor; unfold bm_bits; cbn; try lia; by vm_compute.
Qed.

(** C4: [file_write] refines appending: if the file is well formed, the volume has
    enough free blocks, its two buffers are allocated, the new size is below
    71680, and the inode has a number below 256 and lies in one sector (of a
    larger number the code writes another inode's cell), it returns the number of bytes, the content of the file is the old
    content followed by the bytes written, the inode on the disk agrees with the
    one in memory, the file stays well formed with all blocks it needs, and no
    other inode, no other open file and no block that belongs to something else
    changes. *)
Theorem file_write_appends (s : fsys) (fd : Z) (f : file) (i : inode) (buf : list Z) (count a1 a2 : Z) (r : list Z) :
  volume_ok s -> root_taken s -> 0 <= fd -> file_table s !! Z.to_nat fd = Some f -> inodes s !! fd_inode f = Some i ->
  file_ok s i -> i_no i < 256 -> straddles (i_no i) = false ->
  allocs s = a1 :: a2 :: r -> a1 <> 0 -> a2 <> 0 ->
  0 <= count <= Z.of_nat (length buf) -> Forall byte buf -> i_size i + count < 71680 ->
  free_bits (block_bitmap s) (Z.to_nat (count / 512 + 3)) ->
  exists s', file_write fd buf count s = Ok (count, s') /\ appended s s' fd f i buf count.
Proof. apply file_write_run. Qed.

Lemma file_write_appends_witness :
  exists s', file_write 3 [1; 2; 3; 4; 5] 5 (demo_file 1) = Ok (5, s')
    /\ appended (demo_file 1) s' 3 (File 510 2 4096) (Inode 1 600 1 true (613 :: 614 :: zeros 11)) [1; 2; 3; 4; 5] 5.
Proof.
  apply (file_write_appends (demo_file 1) 3 (File 510 2 4096) (Inode 1 600 1 true (613 :: 614 :: zeros 11)) [1; 2; 3; 4; 5] 5
    8192 12288 [16384; 20480; 24576]); try done.
  - apply demo_file_volume.
  - apply demo_file_ok. done.
  - unfold byte. repeat constructor; lia.
  - apply demo_file_free.
Defined.

(** C5: [file_read] returns the piece of the content that starts at the file
    position: as many bytes as asked for, or what is left before the end, and it
    moves the position behind them; at the end of the file it returns -1.  The
    last block it looks at must be one of the first 139. *)
Theorem file_read_returns_content (s : fsys) (fd : Z) (f : file) (i : inode) (count a1 a2 : Z) (r : list Z) :
  volume_ok s -> 0 <= fd -> file_table s !! Z.to_nat fd = Some f -> inodes s !! fd_inode f = Some i -> file_ok s i ->
  allocs s = a1 :: a2 :: r -> a1 <> 0 -> a2 <> 0 ->
  0 <= fd_pos f <= i_size i -> 0 < count -> fd_pos f + count < 2 ^ 32 ->
  (fd_pos f + Z.min count (i_size i - fd_pos f)) / 512 < 139 ->
  file_read fd count s =
    if decide (fd_pos f = i_size i) then Ok ((-1, []), s)
    else let m := Z.min count (i_size i - fd_pos f) in
         Ok ((m, slice (fcontent (disk s) i) (fd_pos f) m), moved (set_allocs r s) fd f m).
Proof.
  intros Hv Hfd Hf Hi Hfok Hal Ha1 Ha2 Hp Hc Hm H139. destruct (decide (fd_pos f = i_size i)) as [E|E].
  - apply (file_read_eof s fd f i); try done; lia.
  - apply (file_read_run s fd f i count a1 a2 r); done || lia.
Qed.

Lemma file_read_returns_content_witness :
  file_read 3 4 (demo_file 1) = Ok ((4, [65; 65; 66; 66]), moved (set_allocs [16384; 20480; 24576] (demo_file 1)) 3 (File 510 2 4096) 4).
Proof.
  pose proof (file_read_returns_content (demo_file 1) 3 (File 510 2 4096) (Inode 1 600 1 true (613 :: 614 :: zeros 11)) 4
    8192 12288 [16384; 20480; 24576] (demo_file_volume 1)) as H.
  rewrite H; [vm_compute; reflexivity|..]; try done. by apply demo_file_ok.
Defined.

(** Writing to a file whose inode lies in two sectors runs over the sector
    buffer: [file_write] passes a buffer of 512 bytes to [inode_sync], which reads
    1024 bytes into it. *)
Theorem file_write_overruns_buffer (s : fsys) (fd : Z) (f : file) (i : inode) (buf : list Z) (count a1 a2 : Z) (r : list Z) :
  volume_ok s -> root_taken s -> 0 <= fd -> file_table s !! Z.to_nat fd = Some f -> inodes s !! fd_inode f = Some i ->
  file_ok s i -> allocs s = a1 :: a2 :: r -> a1 <> 0 -> a2 <> 0 ->
  0 <= count <= Z.of_nat (length buf) -> Forall byte buf -> i_size i + count < 71680 ->
  free_bits (block_bitmap s) (Z.to_nat (count / 512 + 3)) ->
  i_no i < 256 -> straddles (i_no i) = true -> file_write fd buf count s = Bad EFault.
Proof.
  intros Hv Hroot Hfd Hf Hi Hfok Hal Ha1 Ha2 Hc Hby Hmax Hfree Hno Hstr. pose proof Hfok as (Hio & _ & _).
  destruct (file_write_until_sync s fd f i buf count a1 a2 r) as (i' & s' & -> & Hv' & Hi'); try done.
  apply sbind_Bad, sync_overrun; rewrite ?Hi'; try done. pose proof (io_no _ Hio) as [? _]. lia.
Qed.

Lemma file_write_overruns_buffer_witness : file_write 3 [1; 2; 3; 4; 5] 5 (demo_file 6) = Bad EFault.
Proof.
  apply (file_write_overruns_buffer (demo_file 6) 3 (File 510 2 4096) (Inode 6 600 1 true (613 :: 614 :: zeros 11)) [1; 2; 3; 4; 5] 5
    8192 12288 [16384; 20480; 24576]); try done.
  - apply demo_file_volume.
  - apply demo_file_ok. done.
  - unfold byte. repeat constructor; lia.
  - apply demo_file_free.
Defined.
