(* ===== verification/DirSpec.v ===== *)
(** * DirSpec: a directory as a finite map from names to entries

    [dir_find] is what a lookup by name means on the blocks of a directory.
    [search_dir_entry] computes it, and [sync_dir_entry] changes it at the new
    name only. *)
From S2P Require Import Prelude Bitmap CString Disk Fsys Inode Dir File.

(** ** Names *)

(** A name that fits the 16 bytes with its NUL. *)
Definition name_ok (name : list Z) : Prop :=
  name <> [] /\ 0 ∉ name /\ Z.of_nat (length name) < 16 /\ Forall byte name.

Lemma c_string_app name r : 0 ∉ name -> c_string (name ++ 0 :: r) = name.
Proof.
  induction name as [|c name IH]; intros Hn; [done|]. cbn. replace (c =? 0) with false by (symmetry; apply Z.eqb_neq; set_solver).
  f_equal. apply IH. set_solver.
Qed.

(** A NUL among the first bytes decides the string. *)
Lemma c_string_prefix a b b' : 0 ∈ a -> c_string (a ++ b) = c_string (a ++ b').
Proof.
  induction a as [|c a IH]; intros Ha; [set_solver|]. cbn. destruct (c =? 0) eqn:E; [done|]. f_equal. apply IH.
  apply elem_of_cons in Ha as [<-|]; [lia|done].
Qed.

(** Entry [k] of a sector has a NUL in its name. *)
Definition terminated (buf : list Z) (k : Z) : Prop := 0 ∈ slice buf (24 * k) 16.

#[export] Instance terminated_dec buf k : Decision (terminated buf k).
Proof. unfold terminated. apply _. Defined.

Lemma entry_name_slice buf k : terminated buf k -> entry_name buf k = c_string (slice buf (24 * k) 16).
Proof.
  unfold terminated, entry_name, slice. intros Ht. rewrite <- (take_drop (Z.to_nat 16) (drop (Z.to_nat (24 * k)) buf)) at 1.
  rewrite (c_string_prefix _ _ []) by done. by rewrite app_nil_r.
Qed.

(** ** Entries of a sector *)

Lemma entry_at_eq buf k : 0 <= k -> 24 * k + 24 <= Z.of_nat (length buf) ->
  entry_at buf k = DirEntry (slice buf (24 * k) 16) (word_at (slice buf (24 * k) 24) 4) (word_at (slice buf (24 * k) 24) 5).
Proof.
  intros. unfold entry_at, dec_entry. f_equal. unfold slice.
  change (Z.to_nat 0) with 0%nat. by rewrite drop_0, take_take.
Qed.

Lemma enc_entry_length e : length (filename e) = 16%nat -> length (enc_entry e) = 24%nat.
Proof. intros H. unfold enc_entry. rewrite length_app, H, enc_words_length. done. Qed.

(** A stored entry is read back. *)
Definition entry_ok (e : dir_entry) : Prop :=
  length (filename e) = 16%nat /\ Forall byte (filename e) /\ is_u32 (de_i_no e) /\ is_u32 (f_type e).

Lemma dec_enc_entry e : entry_ok e -> dec_entry (enc_entry e) = e.
Proof.
  intros (Hl & _ & H1 & H2). destruct e as [fn no ty]. cbn [filename de_i_no f_type] in *. unfold dec_entry, enc_entry. cbn [filename de_i_no f_type].
  f_equal.
  - unfold slice. change (Z.to_nat 0) with 0%nat. change (Z.to_nat 16) with 16%nat. rewrite drop_0. by rewrite take_app_length'.
  - unfold word_at, slice. change (Z.to_nat (4 * 4)) with 16%nat. rewrite drop_app_length' by done.
    pose proof (word_at_enc [no; ty] 0 no [] eq_refl H1) as Hw. rewrite app_nil_r in Hw. exact Hw.
  - unfold word_at, slice. change (Z.to_nat (4 * 5)) with 20%nat. replace 20%nat with (16 + 4)%nat by done. rewrite <- drop_drop, drop_app_length' by done.
    pose proof (word_at_enc [no; ty] 1 ty [] eq_refl H2) as Hw. rewrite app_nil_r in Hw. exact Hw.
Qed.

(** Slices of a sector in which entry [j] was replaced. *)
Lemma slice_splice_other (l x : list Z) (o p n : Z) :
  0 <= o -> 0 <= p -> 0 <= n -> o + Z.of_nat (length x) <= Z.of_nat (length l) ->
  p + n <= o \/ o + Z.of_nat (length x) <= p -> slice (splice l o x) p n = slice l p n.
Proof.
  intros Ho Hp Hn Hl Hd. unfold slice. apply list_eq. intros k. destruct (decide (Z.of_nat k < n)).
  - rewrite !lookup_take_lt by lia. rewrite !lookup_drop. rewrite splice_lookup by lia. by rewrite bool_decide_false by lia.
  - by rewrite !lookup_take_ge by lia.
Qed.

Lemma slice_splice_same (l x : list Z) (o : Z) :
  0 <= o -> o + Z.of_nat (length x) <= Z.of_nat (length l) -> slice (splice l o x) o (Z.of_nat (length x)) = x.
Proof.
  intros Ho Hl. unfold slice. apply list_eq. intros k. destruct (decide (k < length x)%nat).
  - rewrite lookup_take_lt by lia. rewrite lookup_drop, splice_lookup by lia. rewrite bool_decide_true by lia. f_equal. lia.
  - rewrite lookup_take_ge by lia. by rewrite lookup_ge_None_2 by lia.
Qed.

(** ** Lookup *)

(** Lookup in a sector and in a list of blocks, 0 meaning no block. *)
Definition find_in (sec name : list Z) : option dir_entry := entry_at sec <$> find_entry 21 sec name 0.

Fixpoint dir_find (d : sectors) (blocks : list Z) (name : list Z) : option dir_entry :=
  match blocks with
  | [] => None
  | b :: r =>
    if b =? 0 then dir_find d r name
    else match find_in (sector d b) name with Some e => Some e | None => dir_find d r name end
  end.

Lemma search_blocks_run s blocks buf name :
  buf <> 0 -> Forall (fun b => b <= max_lba) blocks ->
  search_blocks blocks buf 21 name s = Ok (dir_find (disk s) blocks name, s).
Proof.
  intros Hb Hall. induction blocks as [|b r IH]; [done|]. apply Forall_cons in Hall as [Hb1 Hall].
  cbn [search_blocks dir_find]. destruct (b =? 0) eqn:E; [by apply IH|]. replace (buf =? 0) with false by lia.
  run (ide_read_one 512 b s Hb1 ltac:(lia)). unfold find_in. change (Z.to_nat 21) with 21%nat.
  destruct (find_entry 21 (sector (disk s) b) name 0); [done|]. by apply IH.
Qed.

Lemma find_entry_spec n buf name k :
  match find_entry n buf name k with
  | Some j => k <= j < k + Z.of_nat n /\ entry_name buf j = name /\ forall j', k <= j' < j -> entry_name buf j' <> name
  | None => forall j', k <= j' < k + Z.of_nat n -> entry_name buf j' <> name
  end.
Proof.
  revert k. induction n as [|n IH]; intros k; cbn [find_entry]; [lia|]. case_bool_decide as E.
  - split_and!; [lia|lia|done|lia].
  - specialize (IH (k + 1)). destruct (find_entry n buf name (k + 1)) as [j|].
    + destruct IH as (H1 & H2 & H3). split_and!; [lia|lia|done|]. intros j' Hj'.
      destruct (decide (j' = k)) as [->|]; [done|]. apply H3. lia.
    + intros j' Hj'. destruct (decide (j' = k)) as [->|]; [done|]. apply IH. lia.
Qed.

Lemma find_free_spec n buf k :
  match find_free n buf k with
  | Some j => k <= j < k + Z.of_nat n /\ f_type (entry_at buf j) = 0
  | None => forall j', k <= j' < k + Z.of_nat n -> f_type (entry_at buf j') <> 0
  end.
Proof.
  revert k. induction n as [|n IH]; intros k; cbn [find_free]; [lia|]. change (ft_code FT_UNKNOWN) with 0.
  destruct (f_type (entry_at buf k) =? 0) eqn:E; [lia|].
  specialize (IH (k + 1)). destruct (find_free n buf (k + 1)) as [j|]; [lia|].
  intros j' Hj'. destruct (decide (j' = k)) as [->|]; [lia|]. apply IH. lia.
Qed.

(** Two sectors in which the lookup of a name finds the same slot. *)
Lemma find_entry_ext buf buf' name n k :
  (forall j, k <= j < k + Z.of_nat n -> (entry_name buf' j = name <-> entry_name buf j = name)) ->
  find_entry n buf' name k = find_entry n buf name k.
Proof.
  revert k. induction n as [|n IH]; intros k H; [done|]. cbn [find_entry].
  assert (bool_decide (entry_name buf' k = name) = bool_decide (entry_name buf k = name)) as -> by (apply bool_decide_ext, H; lia).
  case_bool_decide; [done|]. apply IH. intros j Hj. apply H. lia.
Qed.

(** ** Putting an entry into a sector *)

(** A sector of a directory: names end with NUL, free entries have no name. *)
Definition sec_ok (sec : list Z) : Prop :=
  length sec = 512%nat /\ Forall byte sec
  /\ forall j, 0 <= j < 21 -> terminated sec j /\ (f_type (entry_at sec j) = 0 -> entry_name sec j = []).

(** The entry of a new file. *)
Definition named (e : dir_entry) (name : list Z) : Prop :=
  entry_ok e /\ filename e = name ++ zeros (16 - Z.of_nat (length name)) /\ f_type e <> 0 /\ name_ok name.

Lemma named_string e name : named e name -> c_string (filename e) = name /\ 0 ∈ filename e.
Proof.
  intros (_ & Hf & _ & (_ & H0 & Hl & _)). rewrite Hf.
  replace (zeros (16 - Z.of_nat (length name))) with (0 :: zeros (15 - Z.of_nat (length name))).
  - split; [by apply c_string_app|set_solver].
  - unfold zeros. replace (Z.to_nat (16 - Z.of_nat (length name))) with (S (Z.to_nat (15 - Z.of_nat (length name)))) by lia. done.
Qed.

(** Slot [j] of the sector after entry [e] was put there. *)
Lemma put_entry_at sec e j :
  length sec = 512%nat -> entry_ok e -> 0 <= j < 21 -> entry_at (splice sec (24 * j) (enc_entry e)) j = e.
Proof.
  intros Hl He Hj. unfold entry_at. pose proof (enc_entry_length e ltac:(apply He)) as Hle.
  replace 24 with (Z.of_nat (length (enc_entry e))) at 3 by lia. rewrite slice_splice_same by lia. by apply dec_enc_entry.
Qed.

Lemma put_name_at sec e name j :
  length sec = 512%nat -> named e name -> 0 <= j < 21 ->
  terminated (splice sec (24 * j) (enc_entry e)) j /\ entry_name (splice sec (24 * j) (enc_entry e)) j = name.
Proof.
  intros Hl Hn Hj. pose proof Hn as (He & _). pose proof (enc_entry_length e ltac:(apply He)) as Hle.
  destruct (named_string e name Hn) as [Hs H0].
  assert (slice (splice sec (24 * j) (enc_entry e)) (24 * j) 16 = filename e) as Hf.
  { pose proof (put_entry_at sec e j Hl He Hj) as Hp. rewrite entry_at_eq in Hp by (rewrite ?splice_length; lia).
    by apply (f_equal filename) in Hp. }
  assert (terminated (splice sec (24 * j) (enc_entry e)) j) as Ht by (unfold terminated; by rewrite Hf).
  split; [done|]. by rewrite entry_name_slice, Hf.
Qed.

Lemma put_other sec e j j' :
  length sec = 512%nat -> entry_ok e -> 0 <= j < 21 -> 0 <= j' < 21 -> j' <> j -> terminated sec j' ->
  let sec' := splice sec (24 * j) (enc_entry e) in
  entry_at sec' j' = entry_at sec j' /\ terminated sec' j' /\ entry_name sec' j' = entry_name sec j'.
Proof.
  intros Hl He Hj Hj' Hne Ht sec'. pose proof (enc_entry_length e ltac:(apply He)) as Hle.
  assert (slice sec' (24 * j') 16 = slice sec (24 * j') 16) as H16 by (apply slice_splice_other; lia).
  assert (terminated sec' j') as Ht' by (unfold terminated; by rewrite H16).
  split_and!; [|done|by rewrite !entry_name_slice, H16].
  unfold entry_at. f_equal. apply slice_splice_other; lia.
Qed.

Lemma put_sec_ok sec e name j :
  sec_ok sec -> named e name -> 0 <= j < 21 -> sec_ok (splice sec (24 * j) (enc_entry e)).
Proof.
  intros (Hl & Hb & Hs) Hn Hj. pose proof Hn as (He & _ & Hty & _). pose proof (enc_entry_length e ltac:(apply He)) as Hle. split_and!.
  - rewrite splice_length; lia.
  - apply splice_bytes; [done|]. apply Forall_app. split; [apply He|apply enc_words_bytes].
  - intros j' Hj'. destruct (decide (j' = j)) as [->|Hne].
    + destruct (put_name_at sec e name j Hl Hn Hj) as [Ht _]. split; [done|]. by rewrite put_entry_at.
    + destruct (Hs j' Hj') as [Ht Hz]. destruct (put_other sec e j j') as (H1 & H2 & H3); try done. by rewrite H1, H3.
Qed.

(** Lookups of other names are unchanged, the new name is found. *)
Lemma put_find_other sec e name j q :
  sec_ok sec -> named e name -> 0 <= j < 21 -> f_type (entry_at sec j) = 0 -> q <> name -> q <> [] ->
  find_in (splice sec (24 * j) (enc_entry e)) q = find_in sec q.
Proof.
  intros (Hl & Hb & Hs) Hn Hj Hfree Hq Hq0. pose proof Hn as (He & _). unfold find_in.
  rewrite (find_entry_ext sec).
  - pose proof (find_entry_spec 21 sec q 0) as Hf. destruct (find_entry 21 sec q 0) as [k|]; [|done]. destruct Hf as (Hk & Hkq & _).
    simpl. f_equal. destruct (decide (k = j)) as [->|Hne].
    + destruct (Hs j Hj) as [_ Hz]. rewrite Hz in Hkq by done. congruence.
    + destruct (Hs k) as [Ht _]; [lia|]. destruct (put_other sec e j k) as (-> & _); try done; lia.
  - intros k Hk. destruct (decide (k = j)) as [->|Hne].
    + destruct (put_name_at sec e name j Hl Hn Hj) as [_ ->]. destruct (Hs j Hj) as [_ Hz]. rewrite Hz by done. naive_solver.
    + destruct (Hs k) as [Ht _]; [lia|]. destruct (put_other sec e j k) as (_ & _ & ->); try done; lia.
Qed.

Lemma put_find_new sec e name j :
  sec_ok sec -> named e name -> 0 <= j < 21 -> find_in sec name = None ->
  find_in (splice sec (24 * j) (enc_entry e)) name = Some e.
Proof.
  intros (Hl & Hb & Hs) Hn Hj Hnone. pose proof Hn as (He & _). unfold find_in in *.
  destruct (put_name_at sec e name j Hl Hn Hj) as [_ Hname].
  pose proof (find_entry_spec 21 sec name 0) as Hold. destruct (find_entry 21 sec name 0); [done|].
  pose proof (find_entry_spec 21 (splice sec (24 * j) (enc_entry e)) name 0) as Hf.
  destruct (find_entry 21 (splice sec (24 * j) (enc_entry e)) name 0) as [k|].
  - destruct Hf as (Hk & Hkn & _). simpl. f_equal. destruct (decide (k = j)) as [->|Hne]; [by apply put_entry_at|].
    exfalso. destruct (Hs k) as [Ht _]; [lia|]. destruct (put_other sec e j k) as (_ & _ & Hx); try done; try lia.
    apply (Hold k); [lia|]. congruence.
  - exfalso. apply (Hf j); [lia|done].
Qed.

(** ** Directories *)

Lemma dir_find_app d l1 l2 q :
  dir_find d (l1 ++ l2) q = match dir_find d l1 q with Some e => Some e | None => dir_find d l2 q end.
Proof.
  induction l1 as [|b l IH]; [done|]. cbn [app dir_find]. destruct (b =? 0); [done|]. by destruct (find_in (sector d b) q).
Qed.

Lemma dir_find_same d d' l q : (forall b, b ∈ l -> b <> 0 -> sector d' b = sector d b) -> dir_find d' l q = dir_find d l q.
Proof.
  induction l as [|b l IH]; intros H; [done|]. cbn [dir_find]. rewrite IH by (intros; apply H; set_solver).
  destruct (b =? 0) eqn:E; [done|]. rewrite H; [done|set_solver|lia].
Qed.

(** One block of a directory changes from [a] to [a']: what a lookup finds. *)
Lemma dir_find_update d d' l1 l2 a a' (name : list Z) e q :
  (forall b, b ∈ l1 ++ l2 -> b <> 0 -> sector d' b = sector d b) -> a' <> 0 ->
  dir_find d (l1 ++ a :: l2) name = None ->
  (q = name -> find_in (sector d' a') q = Some e) ->
  (q <> name -> find_in (sector d' a') q = if a =? 0 then None else find_in (sector d a) q) ->
  dir_find d' (l1 ++ a' :: l2) q = if decide (q = name) then Some e else dir_find d (l1 ++ a :: l2) q.
Proof.
  intros Hs Ha' Hnone Hnew Hother. rewrite dir_find_app in Hnone.
  destruct (dir_find d l1 name) eqn:E1; [done|]. rewrite !dir_find_app.
  rewrite (dir_find_same d d' l1) by (intros b Hb; apply Hs; set_solver). cbn [dir_find]. replace (a' =? 0) with false by lia.
  rewrite (dir_find_same d d' l2) by (intros b Hb; apply Hs; set_solver).
  destruct (decide (q = name)) as [->|Hq].
  - by rewrite E1, Hnew.
  - rewrite Hother by done. destruct (dir_find d l1 q); [done|]. by destruct (a =? 0).
Qed.

(** A block of a directory: in the data area, its bit set, entries well formed. *)
Definition dir_block (s : fsys) (b : Z) : Prop :=
  data_start_lba (sb s) <= b <= max_lba /\ b - data_start_lba (sb s) < bm_bits (block_bitmap s)
  /\ bm_bit (block_bitmap s) (b - data_start_lba (sb s)) = true /\ sec_ok (sector (disk s) b).

(** A directory without indirect blocks. *)
Record dir_ok (s : fsys) (i : inode) : Prop := {
  do_inode : inode_ok i;
  do_direct : indirect i = 0;
  do_blocks : forall k b, (k < 12)%nat -> i_sectors i !! k = Some b -> b <> 0 -> dir_block s b;
  do_distinct : forall k k' b, (k < 12)%nat -> (k' < 12)%nat -> i_sectors i !! k = Some b -> i_sectors i !! k' = Some b ->
                  b <> 0 -> k = k';
  do_size : i_size i mod 24 = 0
}.

(** Block [k] can take an entry, or can be allocated; the blocks before are full. *)
Definition has_room (s : fsys) (i : inode) (k : nat) : Prop :=
  exists b, i_sectors i !! k = Some b /\ (b = 0 \/ find_free 21 (sector (disk s) b) 0 <> None).

Lemma dir_all i d : indirect i = 0 -> take 12 (i_sectors i) ++ zeros 128 = inode_blocks d i.
Proof. intros H. unfold inode_blocks. by rewrite H. Qed.

(** The walk to the first block with room. *)
Lemma sync_blocks_skip s p i e k :
  volume_ok s -> dir_ok s i -> (k < 12)%nat -> (forall j, (j < k)%nat -> ~ has_room s i j) ->
  forall n idx, (idx + n = k)%nat ->
  sync_blocks (140 - idx) p (Z.of_nat idx) 21 (inode_blocks (disk s) i) e s
  = sync_blocks (140 - k) p (Z.of_nat k) 21 (inode_blocks (disk s) i) e s.
Proof.
  intros Hv Hd Hk Hfull n. pose proof (io_sectors _ (do_inode _ _ Hd)) as Hl.
  induction n as [|n IH]; intros idx Hidx; [replace idx with k by lia; done|].
  destruct (lookup_lt_is_Some_2 (i_sectors i) idx) as [b Hb]; [lia|].
  assert (b <> 0 /\ find_free 21 (sector (disk s) b) 0 = None) as [Hz Hff].
  { split; [intros ->|apply dec_stable; intros Hn]; apply (Hfull idx); try lia; exists b || exists 0; split; naive_solver. }
  destruct (do_blocks _ _ Hd idx b ltac:(lia) Hb Hz) as ([_ Hm] & _).
  rewrite <- (IH (S idx)) by lia. replace (140 - idx)%nat with (S (140 - S idx)) by lia. cbn [sync_blocks].
  rewrite (rd_lookup _ _ b); [|lia|rewrite Nat2Z.id; rewrite inode_blocks_direct; done || lia].
  run (sres_run b s). replace (b =? 0) with false by lia. run (ide_read_one 512 b s Hm ltac:(lia)).
  change (Z.to_nat 21) with 21%nat. rewrite Hff. by replace (Z.of_nat idx + 1) with (Z.of_nat (S idx)) by lia.
Qed.

(** Zeros are an empty sector of a directory. *)
Lemma zero_sec_ok : sec_ok (zeros 512).
Proof.
  assert (forallb (fun j => bool_decide (terminated (zeros 512) j /\ entry_name (zeros 512) j = [])) (seqZ 0 21) = true) as H.
  { vm_compute. reflexivity. }
  split_and!; [done|apply Forall_replicate; unfold byte; lia|]. intros j Hj.
  rewrite forallb_forall in H. specialize (H j). rewrite bool_decide_eq_true in H.
  destruct H as [H1 H2]; [|by split]. apply list_elem_of_In, elem_of_seqZ. lia.
Qed.

Lemma zero_find q : q <> [] -> find_in (zeros 512) q = None.
Proof.
  intros Hq. unfold find_in. pose proof (find_entry_spec 21 (zeros 512) q 0) as Hf.
  destruct (find_entry 21 (zeros 512) q 0) as [j|]; [|done]. destruct Hf as (Hj & Hn & _). exfalso. apply Hq. rewrite <- Hn.
  destruct zero_sec_ok as (_ & _ & Hz). apply Hz; [lia|].
  assert (forallb (fun j => f_type (entry_at (zeros 512) j) =? 0) (seqZ 0 21) = true) as H by (vm_compute; reflexivity).
  rewrite forallb_forall in H. apply Z.eqb_eq, H, list_elem_of_In, elem_of_seqZ. lia.
Qed.

Lemma zero_splice e : length (enc_entry e) = 24%nat -> enc_entry e ++ zeros 488 = splice (zeros 512) (24 * 0) (enc_entry e).
Proof. intros H. unfold splice. rewrite H. done. Qed.

(** What adding entry [e] under [name] to the directory at [p] achieves. *)
Definition entry_added (s s' : fsys) (p : Z) (i : inode) (e : dir_entry) (name : list Z) : Prop :=
  exists i', inodes s' = <[p := i']> (inodes s) /\ i_no i' = i_no i /\ i_size i' = i_size i + 24
    /\ volume_ok s' /\ dir_ok s' i' /\ sb s' = sb s /\ dirs s' = dirs s /\ allocs s' = allocs s
    /\ (forall q, q <> [] -> dir_find (disk s') (inode_blocks (disk s') i') q =
          if decide (q = name) then Some e else dir_find (disk s) (inode_blocks (disk s) i) q)
    /\ (forall a, inode_bitmap_lba (sb s) <= a -> (forall k, i_sectors i' !! k = Some a -> (12 <= k)%nat) ->
          sector (disk s') a = sector (disk s) a).

Lemma grow_dir_run s p i :
  volume_ok s -> inodes s !! p = Some i -> 0 <= i_size i -> i_size i + 24 < 2 ^ 32 ->
  grow_dir p s = Ok (tt, set_inodes (<[p := set_i_size (i_size i + 24) i]> (inodes s)) s).
Proof.
  intros Hv Hi H0 Hs. unfold grow_dir. run (gets_run sb s). rewrite (upd_inode_run p i _ s Hi).
  rewrite (vo_entry s Hv). unfold dir_entry_bytes. by unwrap.
Qed.

(** The entry goes to a free slot of block [k]. *)
Lemma sync_slot s p i e name k a n :
  volume_ok s -> dir_ok s i -> inodes s !! p = Some i -> i_size i + 24 < 2 ^ 32 -> named e name ->
  (k < 12)%nat -> i_sectors i !! k = Some a -> a <> 0 -> find_free 21 (sector (disk s) a) 0 <> None ->
  dir_find (disk s) (inode_blocks (disk s) i) name = None ->
  exists s', sync_blocks (S n) p (Z.of_nat k) 21 (inode_blocks (disk s) i) e s = Ok (true, s')
    /\ entry_added s s' p i e name.
Proof.
  intros Hv Hd Hi Hsz Hn Hk Ha Hz Hff Hnone. pose proof (do_inode _ _ Hd) as Hio. pose proof (io_sectors _ Hio) as Hl.
  pose proof (io_size _ Hio) as [Hz0 _]. pose proof (volume_order s Hv) as Ho.
  destruct (do_blocks _ _ Hd k a Hk Ha Hz) as ([Hlo Hm] & Hbit & Hset & Hsec). pose proof Hsec as (Hsl & Hsb & _).
  pose proof Hn as (He & _ & Hty & (Hne & _)). pose proof (enc_entry_length e ltac:(apply He)) as Hle.
  pose proof (find_free_spec 21 (sector (disk s) a) 0) as Hspec. destruct (find_free 21 (sector (disk s) a) 0) as [j|] eqn:Ej; [|done].
  destruct Hspec as [Hj Hfree]. set (sec := sector (disk s) a) in *.
  set (d := write_secs 1 a (splice sec (24 * j) (enc_entry e)) (disk s)).
  assert (sector d a = splice sec (24 * j) (enc_entry e)) as Hda.
  { unfold d. rewrite write_secs_in by lia. rewrite Z.sub_diag. change (Z.to_nat (512 * 0)) with 0%nat.
    rewrite drop_0. apply take_ge. rewrite splice_length; lia. }
  assert (forall b, b <> a -> sector d b = sector (disk s) b) as Hdo by (intros b Hb; apply write_secs_other; lia).
  assert (disk_ok d) as Hdk.
  { apply write_secs_ok; [apply Hv|rewrite splice_length; lia|]. by apply (put_sec_ok sec e name j). }
  set (i' := set_i_size (i_size i + 24) i).
  set (s1 := set_disk d s). assert (volume_ok s1) as Hv1 by by apply volume_set_disk.
  exists (set_inodes (<[p := i']> (inodes s1)) s1). split.
  { cbn [sync_blocks]. rewrite (rd_lookup _ _ a); [|lia|rewrite Nat2Z.id, inode_blocks_direct; done || lia].
    run (sres_run a s). replace (a =? 0) with false by lia. run (ide_read_one 512 a s Hm ltac:(lia)). fold sec.
    change (Z.to_nat 21) with 21%nat. rewrite Ej.
    rewrite (sbind_Ok _ _ _ _ _ (ide_write_run a (splice sec (24 * j) (enc_entry e)) 1 s Hm ltac:(lia) ltac:(rewrite splice_length; lia))).
    change (set_disk (write_secs (Z.to_nat 1) a (splice sec (24 * j) (enc_entry e)) (disk s)) s) with s1.
    by rewrite (sbind_Ok _ _ _ _ _ (grow_dir_run s1 p i Hv1 Hi Hz0 Hsz)). }
  assert (inode_blocks d i' = inode_blocks (disk s) i) as HB by (unfold inode_blocks; change (indirect i') with (indirect i); by rewrite (do_direct _ _ Hd)).
  exists i'. split_and!; try done.
  - destruct Hv1. by constructor.
  - constructor.
    + destruct Hio. constructor; cbn; try done. unfold is_u32. lia.
    + apply (do_direct _ _ Hd).
    + intros k' b Hk' Hb Hbz. destruct (do_blocks _ _ Hd k' b Hk' Hb Hbz) as (H1 & H2 & H3 & H4).
      refine (conj H1 (conj H2 (conj H3 _))). change (sec_ok (sector d b)). destruct (decide (b = a)) as [Hba|Hba].
      * rewrite Hba, Hda. by apply (put_sec_ok sec e name j).
      * by rewrite Hdo by done.
    + apply (do_distinct _ _ Hd).
    + cbn. pose proof (do_size _ _ Hd). lia.
  - intros q Hq. cbn [disk set_inodes s1 set_disk]. rewrite HB.
    assert (inode_blocks (disk s) i !! k = Some a) as Hka by (rewrite inode_blocks_direct; done || lia).
    rewrite <- (take_drop_middle _ _ _ Hka). apply dir_find_update; [|done|by rewrite take_drop_middle| |].
    + intros b Hb Hbz. apply Hdo. intros ->.
      assert (exists k', k' <> k /\ inode_blocks (disk s) i !! k' = Some a) as (k' & Hkk & Hk').
      { apply elem_of_app in Hb as [[x Hx]%list_elem_of_lookup_1|[x Hx]%list_elem_of_lookup_1].
        - apply lookup_take_Some in Hx as [Hx ?]. exists x. split; [lia|done].
        - rewrite lookup_drop in Hx. exists (S k + x)%nat. split; [lia|done]. }
      destruct (decide (k' < 12)%nat).
      * rewrite inode_blocks_direct in Hk' by done. apply Hkk. by apply (do_distinct _ _ Hd k' k a).
      * unfold inode_blocks in Hk'. rewrite (do_direct _ _ Hd) in Hk'. change (0 =? 0) with true in Hk'. cbv iota in Hk'.
        rewrite lookup_app_r in Hk' by (rewrite length_take; lia). apply lookup_replicate in Hk' as [? _]. lia.
    + intros ->. rewrite Hda. apply put_find_new; [done|done|lia|].
      rewrite <- (take_drop_middle _ _ _ Hka), dir_find_app in Hnone. destruct (dir_find (disk s) (take k _) name); [done|].
      cbn [dir_find] in Hnone. replace (a =? 0) with false in Hnone by lia.
      fold sec in Hnone. by destruct (find_in sec name).
    + intros Hqn. replace (a =? 0) with false by lia. rewrite Hda. by apply (put_find_other sec e name j).
  - intros b Hb Hbk. apply Hdo. intros ->. apply Hbk in Ha. lia.
Qed.

(** A direct block is allocated. *)
Lemma new_dir_block_run s p i k all :
  volume_ok s -> inodes s !! p = Some i -> length (i_sectors i) = 13%nat -> (k < 12)%nat -> length all = 140%nat ->
  free_bits (block_bitmap s) 1 ->
  exists a d b, let s' := grown s d b p i (<[k := a]> (i_sectors i)) in
    new_dir_block p (Z.of_nat k) all s = Ok (Some (<[k := a]> all), s') /\ volume_ok s' /\ free_addr s a
    /\ btmp_bytes_len b = btmp_bytes_len (block_bitmap s)
    /\ (forall j, 0 <= j -> bm_bit b j = bm_bit (block_bitmap s) j || bool_decide (data_start_lba (sb s) + j = a))
    /\ (forall lba, inode_bitmap_lba (sb s) <= lba -> sector d lba = sector (disk s) lba).
Proof.
  intros Hv Hi Hl Hk Hall Hfree. pose proof (volume_order s Hv) as Ho.
  destruct (alloc_free s 0 Hv Hfree) as (a & b & Hr & Hv1 & Ha & Hlen & _ & Hbits).
  destruct (free_addr_range s a Hv Ha) as (Har & Hau & Ham & _). pose proof Ha as ([Ha1 Ha2] & Ha3 & _). rewrite max_lba_eq in Ha2.
  set (sb1 := set_block_bitmap b s).
  destruct (block_sync_run sb1 (a - data_start_lba (sb s)) Hv1) as (d & Hr2 & Hd & Hsec).
  { cbn. unfold bm_bits in *. rewrite Hlen. lia. }
  exists a, d, b. cbv zeta. split_and!; try done.
  - unfold new_dir_block. run Hr. rewrite Ham, Hau.
    rewrite (sbind_Ok _ _ sb1 (a - data_start_lba (sb s)) sb1).
    2: { unfold bitmap_idx. run (gets_run sb sb1). cbn. by rewrite u32_id by lia. }
    rewrite (sbind_Ok _ _ sb1 tt sb1) by (apply sassert_true; rewrite i32_id by lia; lia). run Hr2.
    replace (Z.of_nat k <? 12) with true by lia. rewrite wr_in by lia. rewrite Nat2Z.id.
    rewrite (sbind_Ok _ _ (set_disk d sb1) (<[k := a]> all) (set_disk d sb1)) by done.
    rewrite (sbind_Ok _ _ _ _ _ (set_sector_run (set_disk d sb1) p i (Z.of_nat k) a Hi ltac:(lia))). by rewrite Nat2Z.id.
  - destruct Hv1. by constructor.
  - intros lba Hlba. apply Hsec. cbn. lia.
Qed.

(** Block [a] becomes the direct block [k] of the directory. *)
Lemma new_block_dir_ok s s' i i' k a :
  dir_ok s i -> (k < 12)%nat -> i_sectors i' = <[k := a]> (i_sectors i) -> inode_ok i' -> i_size i' mod 24 = 0 -> dir_block s' a ->
  (forall b, dir_block s b -> b <> a /\ dir_block s' b) -> dir_ok s' i'.
Proof.
  intros Hd Hk Hsec Hio Hz Ha Hother. pose proof (io_sectors _ (do_inode _ _ Hd)) as Hl. constructor; [done| | | |done].
  - unfold indirect. rewrite Hsec, list_lookup_insert_ne by lia. apply (do_direct _ _ Hd).
  - intros k' b Hk' Hb Hb0. rewrite Hsec in Hb. destruct (decide (k' = k)) as [->|Hne].
    + rewrite list_lookup_insert_eq in Hb by lia. by injection Hb as <-.
    + rewrite list_lookup_insert_ne in Hb by done. apply Hother. by apply (do_blocks _ _ Hd k').
  - intros k1 k2 b H1 H2 Hb1 Hb2 Hb0. rewrite Hsec in Hb1, Hb2.
    assert (forall k', (k' < 12)%nat -> k' <> k -> i_sectors i !! k' = Some b -> b <> a) as Hno.
    { intros k' Hk' _ Hx. apply Hother. by apply (do_blocks _ _ Hd k'). }
    destruct (decide (k1 = k)) as [->|E1], (decide (k2 = k)) as [->|E2]; try done.
    + rewrite list_lookup_insert_eq in Hb1 by lia. rewrite list_lookup_insert_ne in Hb2 by done. injection Hb1 as <-. by apply Hno in Hb2.
    + rewrite list_lookup_insert_ne in Hb1 by done. rewrite list_lookup_insert_eq in Hb2 by lia. injection Hb2 as <-. by apply Hno in Hb1.
    + rewrite list_lookup_insert_ne in Hb1, Hb2 by done. by apply (do_distinct _ _ Hd k1 k2 b).
Qed.

(** What is found when the new block holds the entry [e]. *)
Lemma new_block_find s d i k a e name q :
  dir_ok s i -> (k < 12)%nat -> i_sectors i !! k = Some 0 -> a <> 0 -> named e name -> q <> [] ->
  dir_find (disk s) (inode_blocks (disk s) i) name = None ->
  sector d a = splice (zeros 512) (24 * 0) (enc_entry e) ->
  (forall b, dir_block s b -> sector d b = sector (disk s) b) ->
  dir_find d (<[k := a]> (inode_blocks (disk s) i)) q = if decide (q = name) then Some e else dir_find (disk s) (inode_blocks (disk s) i) q.
Proof.
  intros Hd Hk Hk0 Ha Hn Hq Hnone Hda Hdo. pose proof (io_sectors _ (do_inode _ _ Hd)) as Hl. pose proof (inode_blocks_length (disk s) i Hl) as Hbl.
  assert (inode_blocks (disk s) i !! k = Some 0) as Hka by (rewrite inode_blocks_direct; done || lia).
  rewrite insert_take_drop by lia.
  replace (dir_find (disk s) (inode_blocks (disk s) i) q) with
    (dir_find (disk s) (take k (inode_blocks (disk s) i) ++ 0 :: drop (S k) (inode_blocks (disk s) i)) q) by by rewrite take_drop_middle.
  apply (dir_find_update (disk s) d _ _ 0); [|lia|by rewrite take_drop_middle| |].
  - intros b0 Hb Hbz.
    assert (exists k', (k' < 12)%nat /\ i_sectors i !! k' = Some b0) as (k' & Hk' & Hx).
    { assert (b0 ∈ inode_blocks (disk s) i) as Hin.
      { rewrite <- (take_drop_middle _ _ _ Hka). rewrite elem_of_app, elem_of_cons. apply elem_of_app in Hb. tauto. }
      unfold inode_blocks in Hin. rewrite (do_direct _ _ Hd) in Hin. change (0 =? 0) with true in Hin. cbv iota in Hin.
      apply elem_of_app in Hin as [[x Hx]%list_elem_of_lookup_1|Hr0%elem_of_replicate_inv]; [|done].
      apply lookup_take_Some in Hx as [Hx ?]. eauto. }
    apply Hdo. by apply (do_blocks _ _ Hd k').
  - intros ->. rewrite Hda. apply (put_find_new (zeros 512) e name 0); [apply zero_sec_ok|done|lia|by apply zero_find].
  - intros Hqn. change (0 =? 0) with true. cbv iota. rewrite Hda, <- (zero_find q Hq).
    apply (put_find_other (zeros 512) e name 0); try done. apply zero_sec_ok.
Qed.

(** The entry is the first of a new block [k]. *)
Lemma sync_new s p i e name k n :
  volume_ok s -> dir_ok s i -> inodes s !! p = Some i -> i_size i + 24 < 2 ^ 32 -> named e name ->
  (k < 12)%nat -> i_sectors i !! k = Some 0 -> free_bits (block_bitmap s) 1 ->
  dir_find (disk s) (inode_blocks (disk s) i) name = None ->
  exists s', sync_blocks (S n) p (Z.of_nat k) 21 (inode_blocks (disk s) i) e s = Ok (true, s')
    /\ entry_added s s' p i e name.
Proof.
  intros Hv Hd Hi Hsz Hn Hk Hk0 Hfree Hnone. pose proof (do_inode _ _ Hd) as Hio. pose proof (io_sectors _ Hio) as Hl.
  pose proof (io_size _ Hio) as [Hz0 _]. pose proof (volume_order s Hv) as Ho.
  pose proof Hn as (He & _ & Hty & (Hne & _)). pose proof (enc_entry_length e ltac:(apply He)) as Hle.
  pose proof (inode_blocks_length (disk s) i Hl) as Hbl.
  destruct (new_dir_block_run s p i k (inode_blocks (disk s) i)) as (a & d & b & Hr & Hv1 & Ha & Hlen & Hbits & Hsec); try done.
  destruct (free_addr_range s a Hv Ha) as (Har & _). pose proof Ha as ([Ha1 Ha2] & Ha3 & Hclear).
  set (secs := <[k := a]> (i_sectors i)) in *. set (s1 := grown s d b p i secs) in *.
  set (sec := splice (zeros 512) (24 * 0) (enc_entry e)).
  assert (sec_ok sec) as Hsok by (apply (put_sec_ok _ e name); [apply zero_sec_ok|done|lia]).
  assert (length sec = 512%nat) as Hsl by apply Hsok.
  set (d2 := write_secs 1 a sec d).
  assert (sector d2 a = sec) as Hda.
  { unfold d2. rewrite write_secs_in by lia. rewrite Z.sub_diag. change (Z.to_nat (512 * 0)) with 0%nat. rewrite drop_0. apply take_ge. lia. }
  assert (forall x, inode_bitmap_lba (sb s) <= x -> x <> a -> sector d2 x = sector (disk s) x) as Hdo.
  { intros x Hx Hxa. unfold d2. rewrite write_secs_other by lia. by apply Hsec. }
  assert (disk_ok d2) as Hd2 by (apply write_secs_ok; [apply Hv1|lia|apply Hsok]).
  set (s2 := set_disk d2 s1). assert (volume_ok s2) as Hv2 by by apply volume_set_disk.
  set (i1 := set_i_sectors secs i). set (i' := set_i_size (i_size i + 24) i1).
  assert (forall b0, dir_block s b0 -> b0 <> a /\ inode_bitmap_lba (sb s) <= b0) as Hused.
  { intros b0 ([? _] & _ & Hset & _). split; [intros ->; congruence|lia]. }
  exists (set_inodes (<[p := i']> (inodes s2)) s2). split.
  { cbn [sync_blocks]. rewrite (rd_lookup _ _ 0); [|lia|rewrite Nat2Z.id, inode_blocks_direct; done || lia].
    run (sres_run 0 s). change (0 =? 0) with true. cbv iota. run Hr.
    rewrite (rd_lookup _ _ a); [|lia|rewrite Nat2Z.id; apply list_lookup_insert_eq; lia]. run (sres_run a s1).
    rewrite (zero_splice e Hle). fold sec.
    rewrite (sbind_Ok _ _ _ _ _ (ide_write_run a sec 1 s1 ltac:(lia) ltac:(lia) ltac:(lia))).
    change (set_disk (write_secs (Z.to_nat 1) a sec (disk s1)) s1) with s2.
    by rewrite (sbind_Ok _ _ _ _ _ (grow_dir_run s2 p i1 Hv2 ltac:(cbn; by rewrite lookup_insert_eq) Hz0 Hsz)). }
  assert (inode_blocks d2 i' = <[k := a]> (inode_blocks (disk s) i)) as HB.
  { unfold inode_blocks. assert (indirect i' = 0) as ->.
    { unfold indirect. cbn [i_sectors i' set_i_size i1 set_i_sectors]. unfold secs. rewrite list_lookup_insert_ne by lia. apply (do_direct _ _ Hd). }
    rewrite (do_direct _ _ Hd). cbn [i_sectors i' set_i_size i1 set_i_sectors]. unfold secs.
    rewrite insert_app_l by (rewrite length_take; lia). f_equal. apply take_insert_lt. lia. }
  exists i'. split_and!; try done.
  - cbn. by rewrite insert_insert_eq.
  - destruct Hv2. by constructor.
  - apply (new_block_dir_ok s _ i i' k a Hd Hk eq_refl).
    + destruct Hio. constructor; cbn; try done; [unfold is_u32; lia|unfold secs; by rewrite length_insert|].
      unfold secs. apply Forall_insert; [done|unfold is_u32; lia].
    + cbn. pose proof (do_size _ _ Hd). lia.
    + refine (conj (conj Ha1 Ha2) (conj _ (conj _ _))); cbn [sb block_bitmap set_inodes s2 s1 set_disk grown set_block_bitmap disk].
      * unfold bm_bits. rewrite Hlen. exact Ha3.
      * rewrite Hbits by lia. rewrite bool_decide_true by lia. by rewrite orb_true_r.
      * by rewrite Hda.
    + intros b0 Hblk. destruct (Hused b0 Hblk). split; [done|]. destruct Hblk as (H1 & H2 & H3 & H4).
      refine (conj H1 (conj _ (conj _ _))); cbn [sb block_bitmap set_inodes s2 s1 set_disk grown set_block_bitmap disk].
      * unfold bm_bits. by rewrite Hlen.
      * rewrite Hbits by lia. by rewrite H3.
      * by rewrite Hdo.
  - intros q Hq. change (disk (set_inodes (<[p := i']> (inodes s2)) s2)) with d2. rewrite HB.
    apply new_block_find; try done; [lia|]. intros b0 Hblk. destruct (Hused b0 Hblk). by apply Hdo.
  - intros x Hx Hxk. change (disk (set_inodes (<[p := i']> (inodes s2)) s2)) with d2. apply Hdo; [done|]. intros ->.
    assert (12 <= k)%nat; [|lia]. apply Hxk. cbn. apply list_lookup_insert_eq. lia.
Qed.

(** ** Properties *)

(** [sync_dir_entry] on a directory with room in its direct blocks. *)
Lemma sync_dir_entry_run s dp p i e name k :
  volume_ok s -> dirs s !! dp = Some p -> inodes s !! d_inode p = Some i -> dir_ok s i -> i_size i + 24 < 2 ^ 32 ->
  named e name -> free_bits (block_bitmap s) 1 -> (k < 12)%nat -> has_room s i k ->
  dir_find (disk s) (inode_blocks (disk s) i) name = None ->
  exists s', sync_dir_entry dp e s = Ok (true, s') /\ entry_added s s' (d_inode p) i e name.
Proof.
  intros Hv Hp Hi Hd Hsz Hn Hfree Hk Hroom Hnone.
  assert (exists k, (k < 12)%nat /\ has_room s i k /\ forall j, (j < k)%nat -> ~ has_room s i j) as (k0 & Hk0 & Hr0 & Hmin).
  { assert (forall j, Decision (has_room s i j)) as Hdec.
    { intros j. unfold has_room. destruct (i_sectors i !! j) as [b|]; [|right; by intros (b & ? & _)].
      destruct (decide (b = 0 \/ find_free 21 (sector (disk s) b) 0 <> None)) as [H|H]; [left; by exists b|right].
      intros (b' & Hb' & Hx). injection Hb' as <-. done. }
    clear Hnone. induction k as [k IH] using lt_wf_ind.
    destruct (decide (Exists (has_room s i) (seq 0 k))) as [He|He].
    - apply Exists_exists in He as (j & Hj & Hrj). apply elem_of_seq in Hj. apply (IH j); [lia|lia|done].
    - exists k. split_and!; try done. intros j Hj Hrj. apply He. apply Exists_exists. exists j. split; [apply elem_of_seq; lia|done]. }
  assert (exists s', sync_blocks 140 (d_inode p) 0 21 (inode_blocks (disk s) i) e s = Ok (true, s')
    /\ entry_added s s' (d_inode p) i e name) as (s' & Hr & Hadd).
  { pose proof (sync_blocks_skip s (d_inode p) i e k0 Hv Hd Hk0 Hmin k0 0 eq_refl) as Hskip.
    change (140 - 0)%nat with 140%nat in Hskip. change (Z.of_nat 0) with 0 in Hskip. rewrite Hskip.
    replace (140 - k0)%nat with (S (139 - k0)) by lia. destruct Hr0 as (b & Hb & Hbr). destruct (decide (b = 0)) as [->|Hz].
    - by apply sync_new.
    - apply (sync_slot s (d_inode p) i e name k0 b); try done. destruct Hbr; [lia|done]. }
  exists s'. split; [|done]. unfold sync_dir_entry, dir_at. unfold mbind at 1, st_bind at 1. rewrite Hp.
  run (inode_at_run _ _ _ Hi). unfold entries_per_sec. rewrite (sbind_Ok _ _ s 21 s).
  2: { run (gets_run sb s). by rewrite (vo_entry s Hv). }
  run (gets_run sb s). rewrite (vo_entry s Hv). rewrite (sbind_Ok _ _ s tt s).
  2: { apply sassert_true. unfold dir_entry_bytes. pose proof (do_size _ _ Hd). lia. }
  by rewrite (dir_all i (disk s)) by apply Hd.
Qed.

Lemma search_dir_entry_run s dp p i a1 a2 r name :
  volume_ok s -> dirs s !! dp = Some p -> inodes s !! d_inode p = Some i -> dir_ok s i ->
  allocs s = a1 :: a2 :: r -> a1 <> 0 -> a2 <> 0 ->
  search_dir_entry dp name s = Ok (dir_find (disk s) (inode_blocks (disk s) i) name, set_allocs r s).
Proof.
  intros Hv Hp Hi Hd Hal Ha1 Ha2. pose proof (io_sectors _ (do_inode _ _ Hd)) as Hl. unfold search_dir_entry.
  rewrite (sbind_Ok _ _ _ _ _ (malloc_run (48 + 512) a1 (a2 :: r) s Hal)). replace (a1 =? 0) with false by lia.
  set (s1 := set_allocs (a2 :: r) s). rewrite (sbind_Ok _ _ s1 i s1).
  2: { unfold dir_inode, dir_at. unfold mbind, st_bind. change (dirs s1) with (dirs s). rewrite Hp. by apply inode_at_run. }
  destruct (collect_run s1 i Hl) as [Hc _]; [rewrite (do_direct _ _ Hd), max_lba_eq; lia|]. run Hc.
  rewrite (sbind_Ok _ _ _ _ _ (malloc_run SECTOR_SIZE a2 r s1 eq_refl)). change (set_allocs r s1) with (set_allocs r s).
  rewrite (sbind_Ok _ _ _ 21 (set_allocs r s)).
  2: { unfold entries_per_sec. run (gets_run sb (set_allocs r s)). cbn [sb set_allocs]. by rewrite (vo_entry s Hv). }
  rewrite (search_blocks_run (set_allocs r s)); [done|done|]. unfold inode_blocks. rewrite (do_direct _ _ Hd). change (0 =? 0) with true. cbv iota.
  apply Forall_app. split.
  - apply Forall_lookup_2. intros k b Hb. apply lookup_take_Some in Hb as [Hb Hk].
    destruct (decide (b = 0)) as [->|Hz]; [rewrite max_lba_eq; lia|]. by destruct (do_blocks _ _ Hd k b Hk Hb Hz) as ([_ ?] & _).
  - apply Forall_replicate. rewrite max_lba_eq. lia.
Qed.

(** A root directory with the entries "." and "..", inode 0 at address 4096. *)
Definition demo_entries : list Z :=
  enc_entry (DirEntry (dot ++ zeros 15) 0 2) ++ enc_entry (DirEntry (dotdot ++ zeros 14) 0 2) ++ zeros 464.

Definition demo_root : inode := Inode 0 48 1 false (612 :: zeros 12).

Definition demo_dir : fsys :=
  Fsys {[612 := demo_entries]} 0 1000 demo_sb (Bitmap 512 (1 :: zeros 512)) (Bitmap 512 (1 :: zeros 512))
    {[4096 := demo_root]} [4096] (replicate 32 (File 0 0 0)) {[root_dir := Dir 4096 0 (zeros 512)]}
    ([0; 1; 2] ++ replicate 5 (-1)) 0 [8192; 12288; 16384; 20480].

(** The name "ab" and its entry. *)
Definition demo_name : list Z := [97; 98].

Definition demo_entry : dir_entry := DirEntry (demo_name ++ zeros 14) 1 1.

(** [disk_ok] as a test. *)
Definition sectors_check (d : sectors) : bool :=
  forallb (fun l => bool_decide (length l = 512%nat) && forallb (fun v => (0 <=? v) && (v <? 256)) l) (map_to_list d).*2.

Lemma sectors_by_check d lba : sectors_check d = true -> length (sector d lba) = 512%nat /\ Forall byte (sector d lba).
Proof.
  intros Hc. unfold sectors_check in Hc. unfold sector. destruct (d !! lba) as [l|] eqn:Hl.
  - rewrite forallb_forall in Hc. assert (In l (map_to_list d).*2) as Hin.
    { apply list_elem_of_In, list_elem_of_fmap. exists (lba, l). split; [done|]. by apply elem_of_map_to_list. }
    apply Hc in Hin. apply andb_true_iff in Hin as [H1 H2]. apply (bool_decide_eq_true_1 _) in H1. split; [done|].
    rewrite forallb_forall in H2. apply Forall_forall. intros v Hv. apply list_elem_of_In, H2 in Hv. unfold byte. lia.
  - split; [done|]. apply Forall_replicate. unfold byte. lia.
Qed.

(** [sec_ok] as a test. *)
Definition sec_check (sec : list Z) : bool :=
  bool_decide (length sec = 512%nat) && forallb (fun v => (0 <=? v) && (v <? 256)) sec
  && forallb (fun j => bool_decide (terminated sec j) && (bool_decide (entry_name sec j = []) || negb (f_type (entry_at sec j) =? 0)))
       (seqZ 0 21).

Lemma sec_by_check sec : sec_check sec = true -> sec_ok sec.
Proof.
  intros [[Hl Hb]%andb_true_iff H]%andb_true_iff. apply (bool_decide_eq_true_1 _) in Hl. split_and!; [done| |].
  - rewrite forallb_forall in Hb. apply Forall_forall. intros v Hv. apply list_elem_of_In, Hb in Hv. unfold byte. lia.
  - intros j Hj. rewrite forallb_forall in H. specialize (H j). rewrite andb_true_iff, orb_true_iff, !bool_decide_eq_true in H.
    destruct H as [H1 H2]; [apply list_elem_of_In, elem_of_seqZ; lia|]. split; [done|]. intros Hz.
    destruct H2 as [H2|H2]; [done|lia].
Qed.

Lemma demo_entries_ok : sec_ok demo_entries.
Proof. apply sec_by_check. vm_compute. reflexivity. Qed.

(** A directory of one block. *)
Lemma dir_one_ok s i b :
  inode_ok i -> i_sectors i = b :: zeros 12 -> dir_block s b -> i_size i mod 24 = 0 -> dir_ok s i.
Proof.
  intros Hi Hs Hb Hz.
  assert (forall k c, i_sectors i !! k = Some c -> c <> 0 -> k = 0%nat /\ c = b) as Hk.
  { intros k c H Hc. rewrite Hs in H. destruct k as [|k]; [by injection H as <-|]. change (zeros 12 !! k = Some c) in H.
    by apply lookup_replicate in H as [? _]. }
  constructor; [done| | |  |done].
  - unfold indirect. by rewrite Hs.
  - intros k c _ H Hc. by destruct (Hk k c H Hc) as [_ ->].
  - intros k k' c _ _ H H' Hc. destruct (Hk k c H Hc) as [-> _]. by destruct (Hk k' c H' Hc) as [-> _].
Qed.

Lemma demo_dir_volume : volume_ok demo_dir.
Proof.
  pose proof demo_fs_ok as []. constructor; try done. intros lba. destruct (decide (612 = lba)) as [<-|].
  - unfold sector. cbn [disk demo_dir]. rewrite lookup_singleton_eq. split; [done|]. apply demo_entries_ok.
  - unfold sector. cbn [disk demo_dir]. rewrite lookup_singleton_ne by done. apply (empty_disk_ok lba).
Qed.

Lemma demo_dir_ok : dir_ok demo_dir demo_root.
Proof.
  apply (dir_one_ok _ _ 612); [|done| |done].
  - constructor; cbn; try done. repeat constructor; done.
  - refine (conj _ (conj _ (conj _ demo_entries_ok))); [cbn; rewrite max_lba_eq; lia|unfold bm_bits; cbn; lia|by vm_compute].
Qed.

Lemma demo_entry_named : named demo_entry demo_name.
Proof.
  refine (conj _ (conj eq_refl (conj _ _))).
  - refine (conj eq_refl (conj _ (conj _ _))); [|by vm_compute|by vm_compute].
    apply Forall_app. split; [repeat constructor; unfold byte; lia|apply Forall_replicate; unfold byte; lia].
  - done.
  - refine (conj _ (conj _ (conj _ _))); [done| |done|repeat constructor; unfold byte; lia].
    unfold demo_name. rewrite !not_elem_of_cons. split_and!; [lia|lia|apply not_elem_of_nil].
Qed.

(** C6: Directories are finite maps: putting an entry under a new name with
    [sync_dir_entry] succeeds while a direct block has a free slot or can be
    allocated, and afterwards [search_dir_entry] finds that entry under the name,
    and under every other name what it found before; the inode's size grows by
    one entry, no block outside the directory changes, and the directory stays
    well formed. *)
Theorem dir_insert_lookup (s : fsys) (dp a1 a2 : Z) (r : list Z) (p : dir) (i : inode) (e : dir_entry) (name : list Z) (k : nat) :
  volume_ok s -> dirs s !! dp = Some p -> inodes s !! d_inode p = Some i -> dir_ok s i -> i_size i + 24 < 2 ^ 32 ->
  named e name -> free_bits (block_bitmap s) 1 -> (k < 12)%nat -> has_room s i k ->
  allocs s = a1 :: a2 :: r -> a1 <> 0 -> a2 <> 0 ->
  dir_find (disk s) (inode_blocks (disk s) i) name = None ->
  exists s', sync_dir_entry dp e s = Ok (true, s') /\ entry_added s s' (d_inode p) i e name
    /\ search_dir_entry dp name s' = Ok (Some e, set_allocs r s')
    /\ forall q x, q <> name -> q <> [] -> search_dir_entry dp q s = Ok (x, set_allocs r s) ->
         search_dir_entry dp q s' = Ok (x, set_allocs r s').
Proof.
  intros Hv Hp Hi Hd Hsz Hn Hfree Hk Hroom Hal Ha1 Ha2 Hnone.
  destruct (sync_dir_entry_run s dp p i e name k) as (s' & Hr & Hadd); try done. exists s'. split; [done|]. split; [done|].
  destruct Hadd as (i' & Hin & _ & _ & Hv' & Hd' & Hsb & Hdirs & Hallocs & Hfind & _).
  assert (inodes s' !! d_inode p = Some i') as Hi' by (rewrite Hin; apply lookup_insert_eq).
  pose proof (search_dir_entry_run s' dp p i' a1 a2 r name Hv' ltac:(congruence) Hi' Hd' ltac:(congruence) Ha1 Ha2) as H1.
  rewrite Hfind in H1 by apply Hn. rewrite decide_True in H1 by done. split; [done|].
  intros q x Hq Hq0 Hx. rewrite (search_dir_entry_run s dp p i a1 a2 r q) in Hx by done. injection Hx as <-.
  rewrite (search_dir_entry_run s' dp p i' a1 a2 r q) by congruence. rewrite Hfind by done. by rewrite decide_False by done.
Qed.

Lemma dir_insert_lookup_witness :
  exists s', sync_dir_entry root_dir demo_entry demo_dir = Ok (true, s')
    /\ search_dir_entry root_dir demo_name s' = Ok (Some demo_entry, set_allocs [16384; 20480] s').
Proof.
  destruct (dir_insert_lookup demo_dir root_dir 8192 12288 [16384; 20480] (Dir 4096 0 (zeros 512)) demo_root demo_entry demo_name 0)
    as (s' & H1 & _ & H2 & _).
  - apply demo_dir_volume.
  - done.
  - done.
  - apply demo_dir_ok.
  - done.
  - apply demo_entry_named.
  - exists [1]. split_and!; [done|apply NoDup_singleton|]. constructor; [|constructor]. split; [done|by vm_compute].
  - lia.
  - exists 612. split; [done|]. right. vm_compute. done.
  - done.
  - done.
  - done.
  - vm_compute. reflexivity.
  - by exists s'.
Defined.

(** The loop that counts the indirect blocks does not advance its index. *)
Lemma count_indirect_fuel (fuel : nat) (all_blocks : list Z) (n : Z) :
  length all_blocks = 140%nat -> count_indirect fuel all_blocks 12 n = Bad EFuel.
Proof.
  intros Hl. revert n. induction fuel as [|f IH]; intros n; [done|]. cbn [count_indirect]. change (12 <? 140) with true. cbv iota.
  destruct (rd_in all_blocks 12) as [v ->]; [lia|]. rewrite bind_Ok. apply IH.
Qed.

