(* ===== verification/DeleteSpec.v ===== *)
(** * DeleteSpec: taking an entry out of a directory

    [delete_dir_entry] of fs/dir.c on the direct blocks: the entry of an inode is
    cleared, or its block is given back when no other entry is in it. *)
From S2P Require Import Prelude Bitmap CString Disk Fsys Inode Dir File FileSpec DirSpec.

(** ** The entries of a sector *)

(** Slot [k] is in use, and not by "." or "..". *)
Definition other (sec : list Z) (k : Z) : bool :=
  negb (f_type (entry_at sec k) =? 0) && negb (bool_decide (entry_name sec k = dot)) && negb (bool_decide (entry_name sec k = dotdot)).

Definition has_dot (sec : list Z) (k : Z) : bool := negb (f_type (entry_at sec k) =? 0) && bool_decide (entry_name sec k = dot).

Definition hit (sec : list Z) (no k : Z) : bool := other sec k && (de_i_no (entry_at sec k) =? no).

Fixpoint first_hit (n : nat) (sec : list Z) (no k : Z) : option Z :=
  match n with O => None | S n' => if hit sec no k then Some k else first_hit n' sec no (k + 1) end.

Definition count (sec : list Z) (ks : list Z) : Z := Z.of_nat (length (List.filter (other sec) ks)).

Lemma first_hit_spec n sec no k :
  match first_hit n sec no k with
  | Some j => k <= j < k + Z.of_nat n /\ hit sec no j = true
  | None => forall j, k <= j < k + Z.of_nat n -> hit sec no j = false
  end.
Proof.
  revert k. induction n as [|n IH]; intros k; cbn [first_hit]; [lia|]. destruct (hit sec no k) eqn:E; [by split; [lia|]|].
  specialize (IH (k + 1)). destruct (first_hit n sec no (k + 1)) as [j|]; [split; [lia|apply IH]|].
  intros j Hj. destruct (decide (j = k)) as [->|]; [done|]. apply IH. lia.
Qed.

(** [scan_entries] on a sector in which at most one entry has the number. *)
Lemma scan_run n sec k no a :
  0 <= dir_entry_cnt a -> dir_entry_cnt a + Z.of_nat n < 256 ->
  (forall j j', k <= j < k + Z.of_nat n -> k <= j' < k + Z.of_nat n -> hit sec no j = true -> hit sec no j' = true -> j = j') ->
  (dir_entry_found a <> None -> forall j, k <= j < k + Z.of_nat n -> hit sec no j = false) ->
  scan_entries n sec k no a =
    Ok (Scanned (dir_entry_cnt a + count sec (seqZ k (Z.of_nat n))) (is_dir_first_block a || existsb (has_dot sec) (seqZ k (Z.of_nat n)))
          (match first_hit n sec no k with Some j => Some j | None => dir_entry_found a end)).
Proof.
  revert k a. induction n as [|n IH]; intros k a H0 H256 Huniq Hfound.
  { cbn. rewrite Z.add_0_r, orb_false_r. by destruct a. }
  rewrite seqZ_cons by lia. replace (Z.pred (Z.of_nat (S n))) with (Z.of_nat n) by lia. replace (Z.succ k) with (k + 1) by lia.
  cbn [scan_entries first_hit existsb]. unfold count. cbn [List.filter].
  assert (forall j, k + 1 <= j < k + 1 + Z.of_nat n -> k <= j < k + Z.of_nat (S n)) as Hr by lia.
  assert (forall c b f, c = dir_entry_cnt a \/ c = dir_entry_cnt a + 1 -> (f <> None -> forall j, k + 1 <= j < k + 1 + Z.of_nat n -> hit sec no j = false) ->
    scan_entries n sec (k + 1) no (Scanned c b f) =
    Ok (Scanned (c + count sec (seqZ (k + 1) (Z.of_nat n))) (b || existsb (has_dot sec) (seqZ (k + 1) (Z.of_nat n)))
          (match first_hit n sec no (k + 1) with Some j => Some j | None => f end))) as Hnext.
  { intros c b f Hc Hf. apply IH; cbn [dir_entry_cnt dir_entry_found]; [lia|lia| |exact Hf]. intros j j' Hj Hj'. apply Huniq; by apply Hr. }
  assert (dir_entry_found a <> None -> forall j, k + 1 <= j < k + 1 + Z.of_nat n -> hit sec no j = false) as Hf1 by (intros Hf j Hj; apply Hfound; auto).
  assert (a = Scanned (dir_entry_cnt a) (is_dir_first_block a) (dir_entry_found a)) as Ha by by destruct a.
  assert (u8 (dir_entry_cnt a + 1) = dir_entry_cnt a + 1) as Hu by (apply u8_id; lia).
  assert (hit sec no k = true -> dir_entry_found a = None /\ forall j, k + 1 <= j < k + 1 + Z.of_nat n -> hit sec no j = false) as Hhit.
  { intros Hk. split.
    - destruct (dir_entry_found a) as [x|] eqn:Ef; [|done]. rewrite (Hfound ltac:(done) k ltac:(lia)) in Hk. done.
    - intros j Hj. destruct (hit sec no j) eqn:Ej; [|done]. specialize (Huniq k j ltac:(lia) ltac:(lia) Hk Ej). lia. }
  destruct (f_type (entry_at sec k) =? 0) eqn:Et.
  { assert (other sec k = false /\ has_dot sec k = false) as [Eo Ed] by (unfold other, has_dot; by rewrite Et).
    assert (hit sec no k = false) as Eh by (unfold hit; by rewrite Eo). rewrite Eo, Ed, Eh, bind_Ok, Ha. by rewrite Hnext by (auto || exact Hf1). }
  destruct (decide (entry_name sec k = dot)) as [Edot|Edot].
  { assert (other sec k = false /\ has_dot sec k = true) as [Eo Ed] by (unfold other, has_dot; by rewrite Et, Edot).
    assert (hit sec no k = false) as Eh by (unfold hit; by rewrite Eo). rewrite Eo, Ed, Eh, bool_decide_true, bind_Ok by done.
    rewrite Hnext by (auto || exact Hf1). cbn [dir_entry_cnt is_dir_first_block dir_entry_found orb]. by rewrite orb_true_r. }
  assert (has_dot sec k = false) as Ed by (unfold has_dot; by rewrite bool_decide_false, andb_false_r by done).
  rewrite Ed, bool_decide_false by done. destruct (decide (entry_name sec k = dotdot)) as [Edd|Edd].
  { assert (other sec k = false) as Eo by (unfold other; by rewrite Edd, andb_false_r).
    assert (hit sec no k = false) as Eh by (unfold hit; by rewrite Eo). rewrite Eo, Eh, bool_decide_true, bind_Ok, Ha by done.
    by rewrite Hnext by (auto || exact Hf1). }
  assert (other sec k = true) as Eo by (unfold other; by rewrite Et, !bool_decide_false by done).
  assert (hit sec no k = (de_i_no (entry_at sec k) =? no)) as Eh by (unfold hit; by rewrite Eo).
  rewrite Eo, Eh, bool_decide_false by done. cbn [orb length]. destruct (de_i_no (entry_at sec k) =? no) eqn:En.
  - destruct (Hhit Eh) as [Hnone Hrest]. rewrite Hnone, bool_decide_true by done. cbn [ASSERT]. rewrite !bind_Ok, Hu.
    rewrite Hnext; [|by right|by intros _]. cbn [dir_entry_cnt is_dir_first_block].
    pose proof (first_hit_spec n sec no (k + 1)) as Hfs. destruct (first_hit n sec no (k + 1)) as [j|].
    + destruct Hfs as [Hj Hjh]. by rewrite Hrest in Hjh.
    + unfold count. do 2 f_equal. lia.
  - rewrite bind_Ok, Hu. rewrite Hnext; [|by right|exact Hf1]. unfold count. do 2 f_equal. lia.
Qed.

(** ** A cleared slot *)

Definition no_entry : dir_entry := DirEntry (zeros 16) 0 0.

Lemma no_entry_ok : entry_ok no_entry.
Proof. split; [done|]. split; [apply Forall_replicate; unfold byte; lia|by split]. Qed.

Lemma clear_slot sec j :
  sec_ok sec -> 0 <= j < 21 ->
  let sec' := splice sec (24 * j) (zeros dir_entry_bytes) in
  sec_ok sec' /\ f_type (entry_at sec' j) = 0 /\ entry_name sec' j = []
  /\ forall j', 0 <= j' < 21 -> j' <> j -> entry_at sec' j' = entry_at sec j' /\ entry_name sec' j' = entry_name sec j'.
Proof.
  intros (Hl & Hb & Hs) Hj. change (zeros dir_entry_bytes) with (enc_entry no_entry). cbv zeta. set (sec' := splice sec (24 * j) (enc_entry no_entry)).
  assert (length (enc_entry no_entry) = 24%nat) as Hle by done.
  pose proof (put_entry_at sec no_entry j Hl no_entry_ok Hj) as Hat. fold sec' in Hat.
  assert (length sec' = 512%nat) as Hl' by (unfold sec'; rewrite splice_length; lia).
  assert (slice sec' (24 * j) 16 = zeros 16) as H16.
  { rewrite entry_at_eq in Hat by lia. by apply (f_equal filename) in Hat. }
  assert (terminated sec' j) as Ht by (unfold terminated; rewrite H16; apply list_elem_of_In; by left).
  assert (entry_name sec' j = []) as Hn by (by rewrite entry_name_slice, H16).
  assert (forall j', 0 <= j' < 21 -> j' <> j -> entry_at sec' j' = entry_at sec j' /\ terminated sec' j' /\ entry_name sec' j' = entry_name sec j') as Ho.
  { intros j' Hj' Hne. destruct (Hs j' Hj') as [Ht' _]. by apply (put_other sec no_entry j j' Hl no_entry_ok). }
  split; [|split; [by rewrite Hat|split; [exact Hn|]]].
  - split; [exact Hl'|]. split.
    + apply splice_bytes; [exact Hb|]. apply Forall_app. split; [apply no_entry_ok|apply enc_words_bytes].
    + intros j' Hj'. destruct (decide (j' = j)) as [->|Hne]; [by split|]. destruct (Ho j' Hj' Hne) as (-> & H2 & ->).
      split; [exact H2|]. by apply (Hs j' Hj').
  - intros j' Hj' Hne. by destruct (Ho j' Hj' Hne) as (? & _ & ?).
Qed.

Lemma clear_find sec j name q :
  sec_ok sec -> 0 <= j < 21 -> entry_name sec j = name -> q <> [] ->
  (forall j', 0 <= j' < 21 -> entry_name sec j' = name -> j' = j) ->
  find_in (splice sec (24 * j) (zeros dir_entry_bytes)) q = if decide (q = name) then None else find_in sec q.
Proof.
  intros Hs Hj Hn Hq Hu. destruct (clear_slot sec j Hs Hj) as (_ & _ & Hnj & Ho). set (sec' := splice _ _ _) in *. unfold find_in.
  destruct (decide (q = name)) as [->|Hne].
  - pose proof (find_entry_spec 21 sec' name 0) as Hf. destruct (find_entry 21 sec' name 0) as [k|]; [|done].
    destruct Hf as (Hk & Hkn & _). destruct (decide (k = j)) as [->|Hkj]; [congruence|].
    destruct (Ho k ltac:(lia) Hkj) as [_ E]. rewrite E in Hkn. by apply Hu in Hkn; [|lia].
  - rewrite (find_entry_ext sec).
    + pose proof (find_entry_spec 21 sec q 0) as Hf. destruct (find_entry 21 sec q 0) as [k|]; [|done].
      destruct Hf as (Hk & Hkn & _). destruct (decide (k = j)) as [->|Hkj]; [congruence|]. cbn. f_equal. by apply Ho; [lia|].
    + intros k Hk. destruct (decide (k = j)) as [->|Hkj]; [rewrite Hnj; split; congruence|]. by destruct (Ho k ltac:(lia) Hkj) as [_ ->].
Qed.

(** One block of a directory changes from [a] to [a'], 0 for no block. *)
Lemma dir_find_remove d d' l1 l2 a a' (name : list Z) q :
  (forall b, b ∈ l1 ++ l2 -> b <> 0 -> sector d' b = sector d b /\ find_in (sector d b) name = None) -> a <> 0 ->
  (if a' =? 0 then None else find_in (sector d' a') q) = (if decide (q = name) then None else find_in (sector d a) q) ->
  dir_find d' (l1 ++ a' :: l2) q = if decide (q = name) then None else dir_find d (l1 ++ a :: l2) q.
Proof.
  intros Hs Ha Heq.
  assert (forall l, (forall b, b ∈ l -> b ∈ l1 ++ l2) -> dir_find d' l q = dir_find d l q /\ (q = name -> dir_find d l q = None)) as Hl.
  { induction l as [|b l IH]; intros Hin; [done|]. destruct IH as [IH1 IH2]; [intros; apply Hin; set_solver|]. cbn [dir_find].
    rewrite IH1. destruct (b =? 0) eqn:Eb; [done|]. destruct (Hs b (Hin b ltac:(set_solver)) ltac:(lia)) as [-> Hnone].
    split; [done|]. intros ->. rewrite Hnone. by apply IH2. }
  destruct (Hl l1) as [H1 H1n]; [set_solver|]. destruct (Hl l2) as [H2 H2n]; [set_solver|].
  rewrite !dir_find_app. cbn [dir_find]. rewrite H1, H2. replace (a =? 0) with false by lia.
  assert ((if a' =? 0 then dir_find d l2 q else match find_in (sector d' a') q with Some e => Some e | None => dir_find d l2 q end)
    = match (if a' =? 0 then None else find_in (sector d' a') q) with Some e => Some e | None => dir_find d l2 q end) as -> by by destruct (a' =? 0).
  rewrite Heq. destruct (decide (q = name)) as [->|Hne]; [|done]. by rewrite H1n, H2n.
Qed.

(** A sector whose only entry that counts is in slot [j], without ".": the other
    slots are free, when ".." is never without ".". *)
Lemma count_hit sec j ks : j ∈ ks -> other sec j = true -> 1 <= count sec ks.
Proof.
  intros Hj Ho. unfold count. assert (In j (List.filter (other sec) ks)) as Hin by (apply filter_In; split; [by apply list_elem_of_In|done]).
  destruct (List.filter (other sec) ks); [done|]. cbn [length]. lia.
Qed.

Lemma count_one sec j j' ks :
  count sec ks = 1 -> NoDup ks -> j ∈ ks -> j' ∈ ks -> other sec j = true -> other sec j' = true -> j = j'.
Proof.
  intros Hc Hn Hj Hj' Ho Ho'. unfold count in Hc.
  assert (In j (List.filter (other sec) ks)) as H1 by (apply filter_In; split; [by apply list_elem_of_In|done]).
  assert (In j' (List.filter (other sec) ks)) as H2 by (apply filter_In; split; [by apply list_elem_of_In|done]).
  destruct (List.filter (other sec) ks) as [|x [|y l]]; [done| |cbn [length] in Hc; lia].
  destruct H1 as [<-|[]], H2 as [<-|[]]. done.
Qed.

(** ** Directories *)

(** Slot [j] of block [b], the direct block number [k] of the directory [i]. *)
Definition slot (i : inode) (k : nat) (b j : Z) : Prop := (k < 12)%nat /\ i_sectors i !! k = Some b /\ b <> 0 /\ 0 <= j < 21.

(** Names and links are unique, and ".." lies in the block of ".". *)
Record tidy (d : sectors) (i : inode) : Prop := {
  ti_names : forall k b j k' b' j', slot i k b j -> slot i k' b' j' -> entry_name (sector d b) j <> [] ->
               entry_name (sector d b) j = entry_name (sector d b') j' -> k = k' /\ j = j';
  ti_links : forall no k b j k' b' j', slot i k b j -> slot i k' b' j' -> hit (sector d b) no j = true -> hit (sector d b') no j' = true ->
               k = k' /\ j = j';
  ti_dots : forall k b j, slot i k b j -> entry_name (sector d b) j = dotdot -> exists j', 0 <= j' < 21 /\ has_dot (sector d b) j' = true
}.

(** The slot that holds an entry: what a lookup finds. *)
Lemma dir_find_slot s i name e :
  dir_ok s i -> name <> [] -> dir_find (disk s) (inode_blocks (disk s) i) name = Some e ->
  exists k b j, slot i k b j /\ entry_name (sector (disk s) b) j = name /\ entry_at (sector (disk s) b) j = e.
Proof.
  intros Hd Hn. unfold inode_blocks. rewrite (do_direct _ _ Hd). change (0 =? 0) with true. cbv iota.
  assert (forall m, (m <= 12)%nat -> forall l, (forall x b, l !! x = Some b -> b <> 0 -> i_sectors i !! (m + x)%nat = Some b /\ (m + x < 12)%nat) ->
    dir_find (disk s) l name = Some e -> exists k b j, slot i k b j /\ entry_name (sector (disk s) b) j = name /\ entry_at (sector (disk s) b) j = e) as H.
  { intros m Hm l. revert m Hm. induction l as [|b l IH]; intros m Hm Hl Hf; [done|]. cbn [dir_find] in Hf.
    assert (dir_find (disk s) l name = Some e -> exists k b j, slot i k b j /\ entry_name (sector (disk s) b) j = name /\ entry_at (sector (disk s) b) j = e) as Hnext.
    { intros Hl2. destruct (decide (m = 12)%nat) as [->|Hm12].
      - exfalso. assert (forall l, (forall b, b ∈ l -> b = 0) -> dir_find (disk s) l name = None) as Hz.
        { intros l0. induction l0 as [|x l0 IH0]; intros Hz; [done|]. cbn [dir_find]. rewrite (Hz x) by set_solver. apply IH0. set_solver. }
        rewrite Hz in Hl2; [done|]. intros x (y & Hy)%list_elem_of_lookup_1. destruct (decide (x = 0)) as [|Hx]; [done|].
        destruct (Hl (S y) x Hy Hx) as [_ ?]. lia.
      - apply (IH (S m)); [lia| |done]. intros x c Hc Hc0. replace (S m + x)%nat with (m + S x)%nat by lia. by apply Hl. }
    destruct (b =? 0) eqn:Eb; [by apply Hnext|]. unfold find_in in Hf. pose proof (find_entry_spec 21 (sector (disk s) b) name 0) as Hfe.
    destruct (find_entry 21 (sector (disk s) b) name 0) as [j|]; [|by apply Hnext].
    injection Hf as <-. destruct (Hl 0%nat b eq_refl ltac:(lia)) as [Hk Hk12]. exists (m + 0)%nat, b, j. destruct Hfe as (Hj & Hjn & _).
    split; [|by split]. split; [lia|]. split; [done|]. split; lia. }
  intros Hf. apply (H 0%nat ltac:(lia) (take 12 (i_sectors i) ++ zeros 128)); [|done]. intros x b Hb Hb0.
  apply lookup_app_Some in Hb as [Hb|[_ Hb]]; [|by apply lookup_replicate in Hb as [? _]]. by apply lookup_take_Some in Hb.
Qed.

(** What taking the entry [name] out of the directory at [p] achieves. *)
Definition entry_removed (s s' : fsys) (p : Z) (i : inode) (name : list Z) : Prop :=
  exists i', inodes s' = <[p := i']> (inodes s) /\ i_no i' = i_no i /\ i_size i' = i_size i - 24
    /\ volume_ok s' /\ dir_ok s' i' /\ tidy (disk s') i' /\ sb s' = sb s /\ dirs s' = dirs s /\ allocs s' = allocs s
    /\ disk_inode (disk s') (sb s) (i_no i) = pure i'
    /\ (forall q, q <> [] -> dir_find (disk s') (inode_blocks (disk s') i') q =
          if decide (q = name) then None else dir_find (disk s) (inode_blocks (disk s) i) q)
    /\ (forall lba, data_start_lba (sb s) <= lba -> (forall k, i_sectors i !! k = Some lba -> (12 <= k)%nat) ->
          sector (disk s') lba = sector (disk s) lba).

Section Delete.
Context (s : fsys) (p : Z) (i : inode) (fuel : nat) (cap no : Z) (k : nat) (a j : Z) (name : list Z).
Context (Hv : volume_ok s) (Hd : dir_ok s i) (Hi : inodes s !! p = Some i) (Ht : tidy (disk s) i).
Context (Hslot : slot i k a j) (Hhit : hit (sector (disk s) a) no j = true).
Context (Hname : entry_name (sector (disk s) a) j = name) (Hne : name <> []).
Context (Hcap : 1024 <= cap) (Hno : i_no i < 256) (Hsize : 24 <= i_size i).

Notation d0 := (disk s).
Notation sec := (sector (disk s) a).

Lemma blocks_lookup x : (x < 12)%nat -> inode_blocks d0 i !! x = i_sectors i !! x.
Proof. apply inode_blocks_direct, (io_sectors _ (do_inode _ _ Hd)). Qed.

(** The walk to the block of the entry. *)
Lemma delete_skip n idx :
  (idx + n = k)%nat ->
  delete_blocks fuel (140 - idx) p (Z.of_nat idx) 21 no cap (inode_blocks d0 i) s
  = delete_blocks fuel (140 - k) p (Z.of_nat k) 21 no cap (inode_blocks d0 i) s.
Proof.
  destruct Hslot as (Hk & Ha & Ha0 & Hj). pose proof (io_sectors _ (do_inode _ _ Hd)) as Hl.
  revert idx. induction n as [|n IH]; intros idx Hidx; [replace idx with k by lia; done|].
  destruct (lookup_lt_is_Some_2 (i_sectors i) idx) as [b Hb]; [lia|]. rewrite <- (IH (S idx)) by lia.
  replace (140 - idx)%nat with (S (140 - S idx)) by lia. cbn [delete_blocks].
  rewrite (rd_lookup _ _ b); [|lia|rewrite Nat2Z.id, blocks_lookup; [done|lia]]. run (sres_run b s).
  replace (Z.of_nat idx + 1) with (Z.of_nat (S idx)) by lia. destruct (b =? 0) eqn:Eb; [done|].
  destruct (do_blocks _ _ Hd idx b ltac:(lia) Hb ltac:(lia)) as ([_ Hm] & _). run (ide_read_one cap b s Hm ltac:(lia)).
  assert (forall x, 0 <= x < 21 -> hit (sector d0 b) no x = false) as Hnohit.
  { intros x Hx. destruct (hit (sector d0 b) no x) eqn:E; [|done].
    destruct (ti_links _ _ Ht no idx b x k a j) as [? _]; [split_and!; (done || lia)|done|done|done|lia]. }
  change (Z.to_nat 21) with 21%nat. rewrite scan_run; cbn [dir_entry_cnt dir_entry_found is_dir_first_block]; [|lia|lia| |done].
  - run (sres_run (Scanned (0 + count (sector d0 b) (seqZ 0 (Z.of_nat 21))) (false || existsb (has_dot (sector d0 b)) (seqZ 0 (Z.of_nat 21)))
      (match first_hit 21 (sector d0 b) no 0 with Some j0 => Some j0 | None => None end)) s).
    pose proof (first_hit_spec 21 (sector d0 b) no 0) as Hf. cbn [dir_entry_found]. destruct (first_hit 21 (sector d0 b) no 0) as [x|]; [|done].
    destruct Hf as [Hx Hxh]. by rewrite Hnohit in Hxh by lia.
  - intros x x' Hx Hx' Hh. by rewrite Hnohit in Hh by lia.
Qed.

(** The entry is gone: its slot is cleared ([a' = a]) or its block is given back
    ([a' = 0]). *)
Record dropped (s1 : fsys) (i1 : inode) (a' : Z) : Prop := {
  dp_state : exists d b, s1 = set_inodes (<[p := i1]> (inodes s)) (set_disk d (set_block_bitmap b s));
  dp_inode : i1 = set_i_sectors (<[k := a']> (i_sectors i)) i;
  dp_block : a' = a \/ a' = 0;
  dp_volume : volume_ok s1;
  dp_other : forall lba, inode_bitmap_lba (sb s) <= lba -> lba <> a -> sector (disk s1) lba = sector d0 lba;
  dp_len : bm_bits (block_bitmap s1) = bm_bits (block_bitmap s);
  dp_bits : forall x, 0 <= x -> a' = a \/ x <> a - data_start_lba (sb s) -> bm_bit (block_bitmap s1) x = bm_bit (block_bitmap s) x;
  dp_sec : a' = a -> sec_ok (sector (disk s1) a) /\ f_type (entry_at (sector (disk s1) a) j) = 0 /\ entry_name (sector (disk s1) a) j = []
             /\ forall x, 0 <= x < 21 -> x <> j -> entry_at (sector (disk s1) a) x = entry_at sec x /\ entry_name (sector (disk s1) a) x = entry_name sec x;
  dp_find : forall q, q <> [] -> (if a' =? 0 then None else find_in (sector (disk s1) a') q) = (if decide (q = name) then None else find_in sec q)
}.

Lemma block_facts : dir_block s a /\ sec_ok sec /\ a <= max_lba /\ data_start_lba (sb s) <= a /\ 0 <= j < 21 /\ a <> 0.
Proof.
  destruct Hslot as (Hk & Ha & Ha0 & Hj). pose proof (do_blocks _ _ Hd k a Hk Ha Ha0) as Hb. pose proof Hb as ([H1 H2] & _ & _ & H3). exact (conj Hb (conj H3 (conj H2 (conj H1 (conj Hj Ha0))))).
Qed.

Lemma name_unique x : 0 <= x < 21 -> entry_name sec x = name -> x = j.
Proof.
  intros Hx Hn. destruct Hslot as (Hk & Ha & Ha0 & Hj).
  destruct (ti_names _ _ Ht k a x k a j) as [_ ?]; [exact (conj Hk (conj Ha (conj Ha0 Hx)))|exact Hslot|congruence|congruence|done].
Qed.

Lemma clear_run :
  exists s1, ide_write a (splice sec (24 * j) (zeros dir_entry_bytes)) 1 s = Ok (tt, s1) /\ dropped s1 i a.
Proof.
  destruct block_facts as (Hb & Hs & Hm & Hlo & Hj & Ha0). pose proof (volume_order s Hv) as Hvo. destruct Hslot as (Hk & Ha & _).
  destruct (clear_slot sec j Hs Hj) as (Hs' & Hty & Hnm & Ho). set (sec' := splice sec (24 * j) (zeros dir_entry_bytes)) in *.
  assert (length sec' = 512%nat) as Hl' by apply Hs'. set (d := write_secs 1 a sec' d0).
  assert (sector d a = sec') as Hda.
  { unfold d. rewrite write_secs_in by lia. rewrite Z.sub_diag. change (Z.to_nat (512 * 0)) with 0%nat. rewrite drop_0. apply take_ge. lia. }
  exists (set_disk d s). split; [by rewrite ide_write_run by lia|].
  assert (disk_ok d) as Hdk by (apply write_secs_ok; [apply Hv|lia|apply Hs']).
  constructor; cbn [disk set_disk block_bitmap]; rewrite ?Hda.
  - exists d, (block_bitmap s). rewrite insert_id by done. by destruct s.
  - rewrite list_insert_id by done. by destruct i.
  - by left.
  - by apply volume_set_disk.
  - intros lba _ Hne'. apply write_secs_other. lia.
  - done.
  - done.
  - done.
  - intros q Hq. replace (a =? 0) with false by lia. by apply clear_find; [|  | |  |apply name_unique].
Qed.

(** The block holds nothing else. *)
Lemma only_entry q :
  count sec (seqZ 0 21) = 1 -> existsb (has_dot sec) (seqZ 0 21) = false -> q <> [] -> q <> name -> find_in sec q = None.
Proof.
  intros Hc Hdot Hq Hqn. destruct block_facts as (_ & (_ & _ & Hs) & _ & _ & Hj & _).
  assert (forall x, 0 <= x < 21 -> has_dot sec x = false) as Hnd.
  { intros x Hx. destruct (has_dot sec x) eqn:E; [|done]. assert (existsb (has_dot sec) (seqZ 0 21) = true) as Hex; [|congruence].
    apply existsb_exists. exists x. split; [apply list_elem_of_In, elem_of_seqZ; lia|done]. }
  unfold find_in. pose proof (find_entry_spec 21 sec q 0) as Hf. destruct (find_entry 21 sec q 0) as [x|]; [|done].
  destruct Hf as (Hx & Hxn & _). exfalso. destruct (Hs x ltac:(lia)) as [_ Hfree]. specialize (Hnd x ltac:(lia)) as Hndx.
  destruct (f_type (entry_at sec x) =? 0) eqn:Et; [apply Hq; rewrite <- Hxn; apply Hfree; lia|].
  destruct (decide (entry_name sec x = dot)) as [E|E]; [unfold has_dot in Hndx; by rewrite Et, E in Hndx|].
  destruct (decide (entry_name sec x = dotdot)) as [E2|E2].
  - destruct Hslot as (Hk & Ha & Ha0 & _). destruct (ti_dots _ _ Ht k a x) as (y & Hy & Hyd); [split_and!; (done || lia)|done|]. by rewrite Hnd in Hyd.
  - assert (other sec x = true) as Hox by (unfold other; by rewrite Et, !bool_decide_false by done).
    assert (other sec j = true) as Hoj by (unfold hit in Hhit; by apply andb_true_iff in Hhit as [? _]).
    assert (j = x) as <-; [|congruence]. apply (count_one sec j x (seqZ 0 21) Hc); [apply NoDup_seqZ|apply elem_of_seqZ; lia|apply elem_of_seqZ; lia|done|done].
Qed.

Lemma drop_run :
  count sec (seqZ 0 21) = 1 -> existsb (has_dot sec) (seqZ 0 21) = false ->
  exists s1, drop_dir_block fuel p (Z.of_nat k) (inode_blocks d0 i) s = Ok (tt, s1) /\ dropped s1 (set_i_sectors (<[k := 0]> (i_sectors i)) i) 0.
Proof.
  intros Hc Hdot. destruct block_facts as (Hb & Hs & Hm & Hlo & Hj & Ha0). pose proof (volume_order s Hv) as Hvo. destruct Hslot as (Hk & Ha & _).
  destruct Hb as (_ & Hbit & Hset & _). rewrite max_lba_eq in Hm. pose proof (io_sectors _ (do_inode _ _ Hd)) as Hl.
  destruct (free_block_run s (a - data_start_lba (sb s)) Hv ltac:(lia) ltac:(rewrite max_lba_eq; lia)) as (b & d & Hf & Hv1 & Hlen & Hbits & Hsec).
  set (s1 := set_disk d (set_block_bitmap b s)) in *.
  exists (set_inodes (<[p := set_i_sectors (<[k := 0]> (i_sectors i)) i]> (inodes s1)) s1). split.
  { unfold drop_dir_block. rewrite (rd_lookup _ _ a); [|lia|rewrite Nat2Z.id, blocks_lookup; done]. run (sres_run a s).
    assert (bitmap_idx a s = Ok (a - data_start_lba (sb s), s)) as Hidx.
    { unfold bitmap_idx. run (gets_run sb s). by rewrite u32_id by lia. }
    run Hidx. run Hf. replace (Z.of_nat k <? 12) with true by lia.
    rewrite (set_sector_run s1 p i (Z.of_nat k) 0 Hi ltac:(lia)). by rewrite Nat2Z.id. }
  constructor; cbn [disk set_inodes block_bitmap].
  - by exists d, b.
  - done.
  - by right.
  - by destruct Hv1.
  - intros lba Hlba _. apply Hsec. lia.
  - unfold bm_bits. change (block_bitmap s1) with b. by rewrite Hlen.
  - intros x Hx [Hxa|Hxa]; [lia|]. change (block_bitmap s1) with b. rewrite Hbits by done. rewrite bool_decide_false by done. by rewrite andb_true_r.
  - lia.
  - intros q Hq. change (0 =? 0) with true. cbv iota. destruct (decide (q = name)) as [|Hqn]; [done|]. by rewrite only_entry.
Qed.

(** The inode with the new size is written to the disk. *)
Definition shrink : st fsys bool :=
  i ← inode_at p;
  q ← gets sb;
  _ ← sassert (dir_entry_size q <=? i_size i);
  _ ← upd_inode p (set_i_size (i_size i - dir_entry_size q));
  i' ← inode_at p;
  if cap <? 1024 then sfault
  else _ ← inode_sync i' cap; mret true.

Section Dropped.
Context (s1 : fsys) (i1 : inode) (a' : Z) (Hdr : dropped s1 i1 a').

Lemma dropped_inode :
  inodes s1 !! p = Some i1 /\ i_no i1 = i_no i /\ i_size i1 = i_size i /\ i_open_cnts i1 = i_open_cnts i /\ i_sectors i1 = <[k := a']> (i_sectors i)
  /\ inode_ok i1 /\ sb s1 = sb s /\ inodes s1 = <[p := i1]> (inodes s) /\ dirs s1 = dirs s /\ allocs s1 = allocs s.
Proof.
  destruct (dp_state _ _ _ Hdr) as (d & b & ->). pose proof (dp_inode _ _ _ Hdr) as ->. destruct Hslot as (Hk & Ha & _).
  split; [apply lookup_insert_eq|]. do 4 (split; [done|]). split; [|done]. destruct (do_inode _ _ Hd) as [H1 H2 H3 H4 H5].
  constructor; [done|done|done|cbn; by rewrite length_insert|]. cbn. apply Forall_insert; [done|].
  destruct (dp_block _ _ _ Hdr) as [->| ->]; [by eapply (Forall_lookup_1 _ _ _ _ H5)|unfold is_u32; lia].
Qed.

(** Slots of the directory afterwards are slots of before, with what they held
    unless they are the slot that was cleared. *)
Lemma slot_back i' d' k' b x :
  i_sectors i' = <[k := a']> (i_sectors i) -> (forall lba, data_start_lba (sb s) <= lba -> sector d' lba = sector (disk s1) lba) ->
  slot i' k' b x ->
  slot i k' b x /\ (k' = k -> b = a /\ a' = a) /\ (k' <> k -> b <> a)
  /\ (k' = k -> x = j -> f_type (entry_at (sector d' b) x) = 0 /\ entry_name (sector d' b) x = [])
  /\ (k' <> k \/ x <> j -> entry_at (sector d' b) x = entry_at (sector d0 b) x /\ entry_name (sector d' b) x = entry_name (sector d0 b) x).
Proof.
  intros Hsec Hd' (Hk' & Hb & Hb0 & Hx). destruct Hslot as (Hk & Ha & Ha0 & Hj). rewrite Hsec in Hb.
  pose proof (volume_order s Hv) as Hvo. pose proof (io_sectors _ (do_inode _ _ Hd)) as Hl. destruct (decide (k' = k)) as [->|Hne'].
  - rewrite list_lookup_insert_eq in Hb by lia. injection Hb as <-. destruct (dp_block _ _ _ Hdr) as [->|E]; [|done].
    destruct block_facts as (_ & _ & _ & Hlo & _). destruct (dp_sec _ _ _ Hdr eq_refl) as (_ & Hty & Hnm & Ho). rewrite (Hd' a Hlo).
    split; [by split_and!; (done || lia)|]. split; [done|]. split; [done|]. split; [by intros _ ->|]. intros [?|Hxj]; [done|]. by apply Ho.
  - rewrite list_lookup_insert_ne in Hb by done. assert (b <> a) as Hba by (intros ->; apply Hne'; by apply (do_distinct _ _ Hd k' k a)).
    destruct (do_blocks _ _ Hd k' b Hk' Hb Hb0) as ([Hlo _] & _). rewrite (Hd' b Hlo), (dp_other _ _ _ Hdr) by lia.
    split; [by split_and!; (done || lia)|]. split; [done|]. split; [done|]. split; [done|]. done.
Qed.

Section Written.
Context (d' : sectors).
Let i' : inode := set_i_size (i_size i1 - 24) i1.
Context (Hdk : disk_ok d') (Hdata : forall lba, data_start_lba (sb s) <= lba -> sector d' lba = sector (disk s1) lba).

Lemma removed_sectors : i_sectors i' = <[k := a']> (i_sectors i).
Proof. by destruct dropped_inode as (_ & _ & _ & _ & ? & _). Qed.

Lemma removed_slot k' b x :
  slot i' k' b x ->
  slot i k' b x /\ (k' = k -> b = a /\ a' = a) /\ (k' <> k -> b <> a)
  /\ (k' = k -> x = j -> f_type (entry_at (sector d' b) x) = 0 /\ entry_name (sector d' b) x = [])
  /\ (k' <> k \/ x <> j -> entry_at (sector d' b) x = entry_at (sector d0 b) x /\ entry_name (sector d' b) x = entry_name (sector d0 b) x).
Proof. apply slot_back; [apply removed_sectors|apply Hdata]. Qed.

(** A slot in use is one of before, unchanged. *)
Lemma live_slot k' b x :
  slot i' k' b x -> f_type (entry_at (sector d' b) x) <> 0 \/ entry_name (sector d' b) x <> [] ->
  slot i k' b x /\ (k' <> k \/ x <> j) /\ entry_at (sector d' b) x = entry_at (sector d0 b) x
  /\ entry_name (sector d' b) x = entry_name (sector d0 b) x.
Proof.
  intros Hs Hl. destruct (removed_slot k' b x Hs) as (Hs0 & _ & _ & Hgone & Hsame). split; [done|].
  assert (k' <> k \/ x <> j) as Hor.
  { destruct (decide (k' = k)) as [Ek|]; [|by left]. destruct (decide (x = j)) as [Ex|]; [|by right]. destruct (Hgone Ek Ex). tauto. }
  split; [done|]. by apply Hsame.
Qed.

Lemma hit_live sc x : hit sc no x = true \/ has_dot sc x = true \/ (exists n, hit sc n x = true) -> f_type (entry_at sc x) <> 0.
Proof.
  unfold hit, other, has_dot. intros H E. rewrite E in H. cbn in H. destruct H as [H|[H|[n H]]]; done.
Qed.

Lemma hit_same sc sc' n x : entry_at sc' x = entry_at sc x -> entry_name sc' x = entry_name sc x -> hit sc' n x = hit sc n x /\ has_dot sc' x = has_dot sc x.
Proof. intros E1 E2. unfold hit, other, has_dot. by rewrite E1, E2. Qed.

Lemma removed_tidy : tidy d' i'.
Proof.
  constructor.
  - intros k1 b1 x1 k2 b2 x2 H1 H2 Hn He. destruct (live_slot _ _ _ H1 ltac:(by right)) as (H1' & _ & _ & E1).
    destruct (live_slot _ _ _ H2 ltac:(right; congruence)) as (H2' & _ & _ & E2).
    apply (ti_names _ _ Ht k1 b1 x1 k2 b2 x2 H1' H2'); congruence.
  - intros n k1 b1 x1 k2 b2 x2 H1 H2 Hh1 Hh2.
    destruct (live_slot _ _ _ H1 ltac:(left; apply hit_live; eauto)) as (H1' & _ & E1 & E1').
    destruct (live_slot _ _ _ H2 ltac:(left; apply hit_live; eauto)) as (H2' & _ & E2 & E2').
    destruct (hit_same _ _ n _ E1 E1') as [F1 _]. destruct (hit_same _ _ n _ E2 E2') as [F2 _].
    apply (ti_links _ _ Ht n k1 b1 x1 k2 b2 x2 H1' H2'); congruence.
  - intros k1 b1 x1 H1 Hdd. destruct (live_slot _ _ _ H1 ltac:(right; by rewrite Hdd)) as (H1' & _ & _ & E1).
    destruct (ti_dots _ _ Ht k1 b1 x1 H1' ltac:(congruence)) as (y & Hy & Hyd). exists y. split; [done|].
    assert (slot i' k1 b1 y) as Hsy by (destruct H1 as (? & ? & ? & _); by split_and!; (done || lia)).
    destruct (removed_slot k1 b1 y Hsy) as (_ & Hka & _ & _ & Hsame).
    destruct (decide (k1 = k /\ y = j)) as [[-> ->]|Hno2].
    + exfalso. destruct (Hka eq_refl) as [-> _]. unfold hit, other in Hhit. unfold has_dot in Hyd.
      apply andb_true_iff in Hyd as [_ Hyd]. apply (bool_decide_eq_true_1 _) in Hyd. rewrite (bool_decide_true (entry_name sec j = dot)) in Hhit by done.
      by rewrite andb_false_r in Hhit.
    + destruct Hsame as [F1 F2]; [destruct (decide (k1 = k)); [right|left]; naive_solver|]. by destruct (hit_same _ _ 0 _ F1 F2) as [_ ->].
Qed.

Lemma removed_dir_ok s' :
  disk s' = d' -> sb s' = sb s -> block_bitmap s' = block_bitmap s1 -> dir_ok s' i'.
Proof.
  intros E1 E2 E3. destruct dropped_inode as (_ & Hn & Hsz & Hcn & Hsec & Hio & _). pose proof removed_sectors as Hs'.
  destruct Hslot as (Hk & Ha & Ha0 & Hj). pose proof (io_sectors _ (do_inode _ _ Hd)) as Hl. constructor.
  - destruct Hio as [G1 G2 G3 G4 G5]. constructor; [done| |done|done|done]. cbn. rewrite Hsz. destruct (io_size _ (do_inode _ _ Hd)). unfold is_u32. lia.
  - unfold indirect. rewrite Hs', list_lookup_insert_ne by lia. apply (do_direct _ _ Hd).
  - intros k' b Hk' Hb Hb0. assert (slot i' k' b 0) as Hs0 by (by split_and!; (done || lia)).
    destruct (removed_slot k' b 0 Hs0) as ((_ & Hbo & _) & Hka & Hkna & _ & _).
    destruct (do_blocks _ _ Hd k' b Hk' Hbo Hb0) as ([Hlo Hm] & Hbit & Hset & Hsok).
    unfold dir_block. rewrite E1, E2, E3, (dp_len _ _ _ Hdr). split; [done|]. split; [done|]. split.
    + rewrite (dp_bits _ _ _ Hdr); [done|lia|]. destruct (decide (k' = k)) as [E|E]; [left; by apply Hka|right]. specialize (Hkna E). lia.
    + rewrite Hdata by done. destruct (decide (k' = k)) as [E|E].
      * destruct (Hka E) as [-> Ea]. by apply (dp_sec _ _ _ Hdr).
      * pose proof (volume_order s Hv). rewrite (dp_other _ _ _ Hdr); [done|lia|by apply Hkna].
  - intros k1 k2 b Hk1 Hk2 Hb1 Hb2 Hb0.
    destruct (removed_slot k1 b 0 ltac:(by split_and!; (done || lia))) as ((_ & G1 & _) & _).
    destruct (removed_slot k2 b 0 ltac:(by split_and!; (done || lia))) as ((_ & G2 & _) & _). by apply (do_distinct _ _ Hd k1 k2 b).
  - cbn. rewrite Hsz. pose proof (do_size _ _ Hd). lia.
Qed.

Lemma removed_find q :
  q <> [] -> dir_find d' (inode_blocks d' i') q = if decide (q = name) then None else dir_find d0 (inode_blocks d0 i) q.
Proof.
  intros Hq. destruct Hslot as (Hk & Ha & Ha0 & Hj). pose proof (io_sectors _ (do_inode _ _ Hd)) as Hl. pose proof (volume_order s Hv) as Hvo.
  assert (inode_blocks d' i' = <[k := a']> (inode_blocks d0 i)) as HB.
  { unfold inode_blocks, indirect. rewrite removed_sectors, list_lookup_insert_ne by lia. fold (indirect i). rewrite (do_direct _ _ Hd).
    change (0 =? 0) with true. cbv iota. rewrite insert_app_l by (rewrite length_take; lia). f_equal. apply take_insert_lt. lia. }
  assert (inode_blocks d0 i !! k = Some a) as Hka by (by rewrite blocks_lookup).
  pose proof (inode_blocks_length d0 i Hl) as Hbl.
  rewrite HB, insert_take_drop by lia.
  replace (dir_find d0 (inode_blocks d0 i) q) with (dir_find d0 (take k (inode_blocks d0 i) ++ a :: drop (S k) (inode_blocks d0 i)) q)
    by by rewrite take_drop_middle.
  apply dir_find_remove; [|done|].
  - intros b Hb Hb0.
    assert (exists k', k' <> k /\ (k' < 12)%nat /\ i_sectors i !! k' = Some b) as (k' & Hkk & Hk' & Hbk).
    { assert (exists k', k' <> k /\ inode_blocks d0 i !! k' = Some b) as (k' & Hkk & Hk').
      { apply elem_of_app in Hb as [[x Hx]%list_elem_of_lookup_1|[x Hx]%list_elem_of_lookup_1].
        - apply lookup_take_Some in Hx as [Hx ?]. exists x. split; [lia|done].
        - rewrite lookup_drop in Hx. exists (S k + x)%nat. split; [lia|done]. }
      exists k'. split; [done|]. destruct (decide (k' < 12)%nat) as [H12|H12]; [by rewrite blocks_lookup in Hk'|].
      unfold inode_blocks in Hk'. rewrite (do_direct _ _ Hd) in Hk'. change (0 =? 0) with true in Hk'. cbv iota in Hk'.
      rewrite lookup_app_r in Hk' by (rewrite length_take; lia). apply lookup_replicate in Hk' as [? _]. lia. }
    assert (b <> a) as Hba by (intros ->; apply Hkk; by apply (do_distinct _ _ Hd k' k a)).
    destruct (do_blocks _ _ Hd k' b Hk' Hbk Hb0) as ([Hlo _] & _). split.
    + rewrite Hdata by done. apply (dp_other _ _ _ Hdr); [lia|done].
    + unfold find_in. pose proof (find_entry_spec 21 (sector d0 b) name 0) as Hf. destruct (find_entry 21 (sector d0 b) name 0) as [x|]; [|done].
      destruct Hf as (Hx & Hxn & _). exfalso. apply Hkk.
      destruct (ti_names _ _ Ht k' b x k a j) as [? _]; [split_and!; (done || lia)|exact Hslot|congruence|congruence|done].
  - rewrite <- (dp_find _ _ _ Hdr q Hq). destruct (a' =? 0) eqn:Ea; [done|]. destruct (dp_block _ _ _ Hdr) as [->|E]; [|lia].
    destruct block_facts as (_ & _ & _ & Hlo & _). by rewrite Hdata.
Qed.
End Written.

(** The rest of [delete_dir_entry]. *)
Lemma shrink_run : exists s', shrink s1 = Ok (true, s') /\ entry_removed s s' p i name.
Proof.
  destruct dropped_inode as (Hi1 & Hn & Hsz & Hcn & Hsec & Hio & Hsb & Hins & Hdirs & Hal). pose proof (dp_volume _ _ _ Hdr) as Hv1.
  set (i' := set_i_size (i_size i1 - 24) i1). set (s2 := set_inodes (<[p := i']> (inodes s1)) s1).
  assert (volume_ok s2) as Hv2 by (by destruct Hv1).
  assert (inode_ok i') as Hio'.
  { destruct Hio as [G1 G2 G3 G4 G5]. constructor; [done| |done|done|done]. cbn. rewrite Hsz. destruct (io_size _ (do_inode _ _ Hd)). unfold is_u32. lia. }
  destruct (sync_run_small s2 i' cap Hv2 Hio') as (d' & Hsync & Hdk & Hdi & _ & Hout); [cbn; lia|unfold room_for; destruct (straddles _); lia|].
  pose proof (volume_order s Hv) as Hvo. change (sb s2) with (sb s1) in *. rewrite Hsb in Hout, Hdi. change (disk s2) with (disk s1) in Hout.
  assert (forall lba, data_start_lba (sb s) <= lba -> sector d' lba = sector (disk s1) lba) as Hdata by (intros lba Hlba; apply Hout; lia).
  exists (set_disk d' s2). split.
  - unfold shrink. run (inode_at_run p i1 s1 Hi1). run (gets_run sb s1). rewrite Hsb, (vo_entry s Hv). unfold dir_entry_bytes.
    run (sassert_true (24 <=? i_size i1) s1 ltac:(lia)). run (upd_inode_run p i1 (set_i_size (i_size i1 - 24)) s1 Hi1). fold i' s2.
    assert (inodes s2 !! p = Some i') as Hi2 by (apply lookup_insert_eq). run (inode_at_run p i' s2 Hi2).
    replace (cap <? 1024) with false by lia. by run Hsync.
  - exists i'. split; [cbn [inodes set_disk s2 set_inodes]; by rewrite Hins, insert_insert_eq|]. split; [done|]. split; [cbn; by rewrite Hsz|].
    split; [by apply volume_set_disk|]. split; [by apply (removed_dir_ok d' Hdata)|]. split; [by apply (removed_tidy d' Hdata)|].
    split; [done|]. split; [done|]. split; [done|]. split; [by rewrite <- Hn|]. split; [intros q Hq; by apply (removed_find d' Hdata)|].
    intros lba Hlba Hnot. cbn [disk set_disk]. rewrite Hdata by done. apply (dp_other _ _ _ Hdr); [lia|]. intros ->.
    destruct Hslot as (Hk & Ha & _). specialize (Hnot k Ha). lia.
Qed.
End Dropped.

Lemma hit_found : first_hit 21 sec no 0 = Some j.
Proof.
  destruct Hslot as (Hk & Ha & Ha0 & Hj). pose proof (first_hit_spec 21 sec no 0) as Hf. destruct (first_hit 21 sec no 0) as [x|].
  - destruct Hf as [Hx Hxh]. f_equal.
    destruct (ti_links _ _ Ht no k a x k a j) as [_ ?]; [split_and!; (done || lia)|exact Hslot|exact Hxh|exact Hhit|done].
  - by rewrite Hf in Hhit by lia.
Qed.

Lemma delete_block_run n :
  exists s', delete_blocks fuel (S n) p (Z.of_nat k) 21 no cap (inode_blocks d0 i) s = Ok (true, s') /\ entry_removed s s' p i name.
Proof.
  destruct block_facts as (_ & _ & Hm & _ & Hj & Ha0). pose proof Hslot as (Hk & Ha & _).
  assert (forall s1 i1 a', dropped s1 i1 a' -> exists s', shrink s1 = Ok (true, s') /\ entry_removed s s' p i name) as Hrest
    by (intros; by eapply shrink_run).
  set (r := Scanned (0 + count sec (seqZ 0 (Z.of_nat 21))) (false || existsb (has_dot sec) (seqZ 0 (Z.of_nat 21))) (Some j)).
  assert (scan_entries (Z.to_nat 21) sec 0 no (Scanned 0 false None) = Ok r) as Hscan.
  { change (Z.to_nat 21) with 21%nat. rewrite scan_run; cbn [dir_entry_cnt dir_entry_found is_dir_first_block]; [by rewrite hit_found|lia|lia| |done].
    intros x x' Hx Hx' Hh Hh'. destruct (ti_links _ _ Ht no k a x k a x') as [_ ?]; [split_and!; (done || lia)|split_and!; (done || lia)|exact Hh|exact Hh'|done]. }
  assert (1 <= count sec (seqZ 0 21)) as Hcnt.
  { apply (count_hit sec j); [apply elem_of_seqZ; lia|]. unfold hit in Hhit. by apply andb_true_iff in Hhit as [? _]. }
  assert (exists s1 i1 a', (if (dir_entry_cnt r =? 1) && negb (is_dir_first_block r) then drop_dir_block fuel p (Z.of_nat k) (inode_blocks d0 i)
     else ide_write a (splice sec (24 * j) (zeros dir_entry_bytes)) 1) s = Ok (tt, s1) /\ dropped s1 i1 a') as (s1 & i1 & a' & Hrun & Hdr).
  { unfold r. cbn [dir_entry_cnt is_dir_first_block orb]. change (Z.of_nat 21) with 21. rewrite Z.add_0_l.
    destruct ((count sec (seqZ 0 21) =? 1) && negb (existsb (has_dot sec) (seqZ 0 21))) eqn:E.
    - apply andb_true_iff in E as [E1 E2%negb_true_iff]. destruct (drop_run ltac:(lia) E2) as (s1 & H1 & H2). by exists s1, (set_i_sectors (<[k := 0]> (i_sectors i)) i), 0.
    - destruct clear_run as (s1 & H1 & H2). by exists s1, i, a. }
  destruct (Hrest s1 i1 a' Hdr) as (s' & Hsh & Hrem). exists s'. split; [|exact Hrem].
  cbn [delete_blocks]. rewrite (rd_lookup _ _ a); [|lia|by rewrite Nat2Z.id, blocks_lookup]. run (sres_run a s). replace (a =? 0) with false by lia.
  run (ide_read_one cap a s Hm ltac:(lia)). rewrite Hscan. run (sres_run r s). change (dir_entry_found r) with (Some j). cbv iota.
  run (sassert_true (1 <=? dir_entry_cnt r) s ltac:(unfold r; cbn [dir_entry_cnt]; change (Z.of_nat 21) with 21; lia)). run Hrun. exact Hsh.
Qed.
End Delete.

Lemma delete_entry_run s dp p i fuel cap no k a j :
  volume_ok s -> dirs s !! dp = Some p -> inodes s !! d_inode p = Some i -> dir_ok s i -> tidy (disk s) i ->
  slot i k a j -> hit (sector (disk s) a) no j = true -> entry_name (sector (disk s) a) j <> [] ->
  1024 <= cap -> i_no i < 256 -> 24 <= i_size i ->
  exists s', delete_dir_entry fuel dp no cap s = Ok (true, s') /\ entry_removed s s' (d_inode p) i (entry_name (sector (disk s) a) j).
Proof.
  intros Hv Hp Hi Hd Ht Hs Hh Hn Hcap Hno Hsz. pose proof (io_sectors _ (do_inode _ _ Hd)) as Hl. pose proof Hs as (Hk & _).
  destruct (delete_block_run s (d_inode p) i fuel cap no k a j _ Hv Hd Hi Ht Hs Hh eq_refl Hn Hcap Hno Hsz (139 - k)) as (s' & Hrun & Hrem).
  exists s'. split; [|exact Hrem]. unfold delete_dir_entry, dir_at. unfold mbind at 1, st_bind at 1. rewrite Hp. run (inode_at_run _ _ _ Hi).
  destruct (collect_run s i Hl) as [Hc _]; [rewrite (do_direct _ _ Hd), max_lba_eq; lia|]. run Hc.
  rewrite (sbind_Ok _ _ s 21 s).
  2: { unfold entries_per_sec. run (gets_run sb s). by rewrite (vo_entry s Hv). }
  pose proof (delete_skip s (d_inode p) i fuel cap no k a j Hd Ht Hs Hh Hcap k 0 eq_refl) as Hskip.
  change (140 - 0)%nat with 140%nat in Hskip. change (Z.of_nat 0) with 0 in Hskip. rewrite Hskip.
  replace (140 - k)%nat with (S (139 - k)) by lia. exact Hrun.
Qed.

(** ** An entry alone in an indirect block *)

(** A block of a directory, if it is there, does not have the number. *)
Definition not_in (d : sectors) (no b : Z) : Prop := b = 0 \/ (b <= max_lba /\ first_hit 21 (sector d b) no 0 = None).

(** The number [no] is at slot [j] of block [k] of the directory, an indirect
    one at address [a], in which no other slot is in use. *)
Record alone (s : fsys) (i : inode) (no : Z) (k : nat) (a j : Z) : Prop := {
  al_inode : length (i_sectors i) = 13%nat /\ indirect i <= max_lba;
  al_range : (12 <= k < 140)%nat;
  al_before : Forall (not_in (disk s) no) (take k (inode_blocks (disk s) i));
  al_block : inode_blocks (disk s) i !! k = Some a /\ used_addr s a;
  al_hit : first_hit 21 (sector (disk s) a) no 0 = Some j;
  al_alone : List.filter (other (sector (disk s) a)) (seqZ 0 21) = [j];
  al_dots : existsb (has_dot (sector (disk s) a)) (seqZ 0 21) = false
}.

Lemma scan_once sec no (a : scanned) :
  dir_entry_cnt a = 0 -> dir_entry_found a = None ->
  (forall j j', 0 <= j < 21 -> 0 <= j' < 21 -> hit sec no j = true -> hit sec no j' = true -> j = j') ->
  scan_entries (Z.to_nat 21) sec 0 no a =
    Ok (Scanned (count sec (seqZ 0 21)) (is_dir_first_block a || existsb (has_dot sec) (seqZ 0 21)) (first_hit 21 sec no 0)).
Proof.
  intros H0 Hf Hu. change (Z.to_nat 21) with 21%nat. rewrite scan_run; [|lia|lia|exact Hu|by rewrite Hf].
  rewrite H0, Hf, Z.add_0_l. change (Z.of_nat 21) with 21. by destruct (first_hit 21 sec no 0).
Qed.

Section Alone.
Context (s : fsys) (i : inode) (fuel : nat) (no cap : Z) (k : nat) (a j : Z).
Context (Hv : volume_ok s) (Hal : alone s i no k a j) (Hcap : 512 <= cap).

Notation blocks := (inode_blocks (disk s) i).

Lemma alone_length : length blocks = 140%nat.
Proof.
  destruct (al_inode _ _ _ _ _ _ Hal) as [Hl _]. unfold inode_blocks. rewrite length_app, length_take, Hl.
  destruct (indirect i =? 0); [done|]. by rewrite dec_words_length.
Qed.

Lemma alone_skip p n idx :
  (idx + n = k)%nat ->
  delete_blocks fuel (140 - idx) p (Z.of_nat idx) 21 no cap blocks s = delete_blocks fuel (140 - k) p (Z.of_nat k) 21 no cap blocks s.
Proof.
  pose proof alone_length as Hl. pose proof (al_range _ _ _ _ _ _ Hal) as Hk.
  revert idx. induction n as [|n IH]; intros idx Hidx; [by replace idx with k by lia|].
  destruct (lookup_lt_is_Some_2 blocks idx) as [b Hb]; [lia|]. rewrite <- (IH (S idx)) by lia.
  replace (140 - idx)%nat with (S (140 - S idx)) by lia. cbn [delete_blocks].
  rewrite (rd_lookup _ _ b); [|lia|by rewrite Nat2Z.id]. run (sres_run b s).
  replace (Z.of_nat idx + 1) with (Z.of_nat (S idx)) by lia. destruct (b =? 0) eqn:Eb; [done|].
  destruct (Forall_lookup_1 _ _ idx b (al_before _ _ _ _ _ _ Hal)) as [?|[Hm Hno]]; [by rewrite lookup_take_lt by lia|lia|].
  run (ide_read_one cap b s Hm ltac:(lia)). pose proof (first_hit_spec 21 (sector (disk s) b) no 0) as Hf. rewrite Hno in Hf.
  rewrite scan_once by (done || (intros x x' Hx Hx' Hh; by rewrite Hf in Hh by lia)).
  run (sres_run (Scanned (count (sector (disk s) b) (seqZ 0 21)) (false || existsb (has_dot (sector (disk s) b)) (seqZ 0 21))
    (first_hit 21 (sector (disk s) b) no 0)) s). cbn [dir_entry_found]. by rewrite Hno.
Qed.

Lemma alone_hits x : 0 <= x < 21 -> hit (sector (disk s) a) no x = true -> x = j.
Proof.
  intros Hx Hh. apply andb_true_iff in Hh as [Ho _].
  assert (In x (List.filter (other (sector (disk s) a)) (seqZ 0 21))) as Hin.
  { apply filter_In. split; [|done]. apply list_elem_of_In, elem_of_seqZ. lia. }
  rewrite (al_alone _ _ _ _ _ _ Hal) in Hin. by destruct Hin as [->|[]].
Qed.

Lemma alone_drops p : drop_dir_block fuel p (Z.of_nat k) blocks s = Bad EFuel.
Proof.
  pose proof (al_range _ _ _ _ _ _ Hal) as Hk. destruct (al_block _ _ _ _ _ _ Hal) as [Ha Hu].
  destruct Hu as ([Hlo Hhi] & Hbits & _). pose proof (volume_order s Hv) as Ho. rewrite max_lba_eq in Hhi.
  unfold drop_dir_block. rewrite (rd_lookup _ _ a); [|lia|by rewrite Nat2Z.id]. run (sres_run a s).
  assert (bitmap_idx a s = Ok (a - data_start_lba (sb s), s)) as Hidx.
  { unfold bitmap_idx. run (gets_run sb s). by rewrite u32_id by lia. }
  run Hidx. destruct (free_block_run s (a - data_start_lba (sb s)) Hv ltac:(lia) ltac:(rewrite max_lba_eq; lia)) as (b & d & Hf & _).
  run Hf. replace (Z.of_nat k <? 12) with false by lia. apply sbind_Bad. unfold sres.
  by rewrite count_indirect_fuel by apply alone_length.
Qed.

Lemma alone_diverges dp p p' :
  dirs s !! dp = Some p' -> d_inode p' = p -> inodes s !! p = Some i -> delete_dir_entry fuel dp no cap s = Bad EFuel.
Proof.
  intros Hp <- Hi. pose proof (al_range _ _ _ _ _ _ Hal) as Hk. destruct (al_inode _ _ _ _ _ _ Hal) as [Hl Hind].
  destruct (al_block _ _ _ _ _ _ Hal) as [Ha Hu]. unfold delete_dir_entry, dir_at. unfold mbind at 1, st_bind at 1. rewrite Hp.
  run (inode_at_run _ _ _ Hi). destruct (collect_run s i Hl Hind) as [Hc _]. run Hc.
  rewrite (sbind_Ok _ _ s 21 s).
  2: { unfold entries_per_sec. run (gets_run sb s). by rewrite (vo_entry s Hv). }
  pose proof (alone_skip (d_inode p') k 0 eq_refl) as Hskip. change (140 - 0)%nat with 140%nat in Hskip. change (Z.of_nat 0) with 0 in Hskip.
  rewrite Hskip. replace (140 - k)%nat with (S (139 - k)) by lia. cbn [delete_blocks].
  rewrite (rd_lookup _ _ a); [|lia|by rewrite Nat2Z.id]. run (sres_run a s).
  destruct (used_range s a Hv Hu) as (? & ? & ? & ?). replace (a =? 0) with false by (pose proof (volume_order s Hv); lia).
  run (ide_read_one cap a s ltac:(lia) ltac:(lia)).
  rewrite scan_once by (done || (intros x x' Hx Hx' Hh Hh'; by rewrite (alone_hits x), (alone_hits x') by done)).
  set (r := Scanned _ _ _). run (sres_run r s). unfold r. cbn [dir_entry_found dir_entry_cnt is_dir_first_block].
  rewrite (al_hit _ _ _ _ _ _ Hal), (al_dots _ _ _ _ _ _ Hal). unfold count. rewrite (al_alone _ _ _ _ _ _ Hal). cbn [length].
  run (sassert_true (1 <=? Z.of_nat 1) s ltac:(done)). change ((Z.of_nat 1 =? 1) && negb (false || false)) with true. cbv iota.
  apply sbind_Bad, alone_drops.
Qed.
End Alone.

(** ** On a directory of three entries *)

(** [tidy] of a directory of one block, as a test on its sector. *)
Definition apart (sec : list Z) (j j' : Z) : bool :=
  (j =? j') || (bool_decide (entry_name sec j = []) || negb (bool_decide (entry_name sec j = entry_name sec j')))
    && negb (other sec j && other sec j' && (de_i_no (entry_at sec j) =? de_i_no (entry_at sec j'))).

Definition tidy_check (sec : list Z) : bool :=
  forallb (fun j => forallb (apart sec j) (seqZ 0 21)) (seqZ 0 21)
  && forallb (fun j => negb (bool_decide (entry_name sec j = dotdot)) || existsb (has_dot sec) (seqZ 0 21)) (seqZ 0 21).

Lemma forallb_slots (f : Z -> bool) j : forallb f (seqZ 0 21) = true -> 0 <= j < 21 -> f j = true.
Proof. rewrite forallb_forall. intros H Hj. apply H, list_elem_of_In, elem_of_seqZ. lia. Qed.

Lemma tidy_one d i b : i_sectors i = b :: zeros 12 -> tidy_check (sector d b) = true -> tidy d i.
Proof.
  intros Hs [Hall Hdots]%andb_true_iff.
  assert (forall k c j, slot i k c j -> k = 0%nat /\ c = b /\ 0 <= j < 21) as Hk.
  { intros k c j (_ & H & Hc0 & Hj). rewrite Hs in H. destruct k as [|k]; [by injection H as <-|]. change (zeros 12 !! k = Some c) in H.
    by apply lookup_replicate in H as [? _]. }
  assert (forall j j', 0 <= j < 21 -> 0 <= j' < 21 -> j <> j' ->
    (bool_decide (entry_name (sector d b) j = []) || negb (bool_decide (entry_name (sector d b) j = entry_name (sector d b) j'))) = true
    /\ (other (sector d b) j && other (sector d b) j' && (de_i_no (entry_at (sector d b) j) =? de_i_no (entry_at (sector d b) j'))) = false) as Hpair.
  { intros j j' Hj Hj' Hne. pose proof (forallb_slots _ j' (forallb_slots _ j Hall Hj) Hj') as H. unfold apart in H. replace (j =? j') with false in H by lia.
    cbn [orb] in H. apply andb_true_iff in H as [H1 H2]. split; [exact H1|by apply negb_true_iff]. }
  constructor.
  - intros k c j k' c' j' H H' Hn He. destruct (Hk _ _ _ H) as (-> & -> & Hj), (Hk _ _ _ H') as (-> & -> & Hj').
    split; [done|]. destruct (decide (j = j')) as [|Hne]; [done|]. destruct (Hpair j j' Hj Hj' Hne) as [Hp _].
    by rewrite bool_decide_false, bool_decide_true in Hp by done.
  - intros no k c j k' c' j' H H' Hh Hh'. destruct (Hk _ _ _ H) as (-> & -> & Hj), (Hk _ _ _ H') as (-> & -> & Hj').
    split; [done|]. destruct (decide (j = j')) as [|Hne]; [done|]. destruct (Hpair j j' Hj Hj' Hne) as [_ Hp].
    apply andb_true_iff in Hh as [Ho En], Hh' as [Ho' En']. rewrite Ho, Ho' in Hp. cbn [andb] in Hp. lia.
  - intros k c j H He. destruct (Hk _ _ _ H) as (-> & -> & Hj). pose proof (forallb_slots _ j Hdots Hj) as H2. cbv beta in H2.
    rewrite bool_decide_true in H2 by done. cbn [negb orb] in H2. apply existsb_exists in H2 as (x & Hx & Hd).
    exists x. split; [|done]. apply list_elem_of_In, elem_of_seqZ in Hx. lia.
Qed.

(** The directory of DirSpec with "ab" in it. *)
Definition demo_three : list Z := splice demo_entries 48 (enc_entry demo_entry).

Definition demo_three_root : inode := Inode 0 72 1 false (612 :: zeros 12).

Definition demo_three_dir : fsys := set_inodes {[4096 := demo_three_root]} (set_disk {[612 := demo_three]} demo_dir).

Lemma demo_three_ok : sec_ok demo_three.
Proof. apply sec_by_check. vm_compute. reflexivity. Qed.

Lemma demo_three_sector : sector (disk demo_three_dir) 612 = demo_three.
Proof. unfold sector. cbn [disk demo_three_dir set_inodes set_disk]. by rewrite lookup_singleton_eq. Qed.

Lemma demo_three_volume : volume_ok demo_three_dir.
Proof.
  pose proof demo_fs_ok as []. constructor; try done. intros lba. destruct (decide (612 = lba)) as [<-|].
  - rewrite demo_three_sector. split; [done|]. apply demo_three_ok.
  - unfold sector. cbn [disk demo_three_dir set_inodes set_disk]. rewrite lookup_singleton_ne by done. apply (empty_disk_ok lba).
Qed.

Lemma demo_three_dir_ok : dir_ok demo_three_dir demo_three_root.
Proof.
  apply (dir_one_ok _ _ 612); [|done| |done].
  - constructor; cbn; try done. repeat constructor; done.
  - refine (conj _ (conj _ (conj _ _))); [cbn; rewrite max_lba_eq; lia|unfold bm_bits; cbn; lia|by vm_compute|].
    rewrite demo_three_sector. exact demo_three_ok.
Qed.

(** ** The theorem *)

(** C7: Deleting from a directory removes exactly one name.  In a directory with
    direct blocks whose names and links are unique, whose inode has a number below
    256 (of a larger number the code writes another inode's cell), and with a
    buffer of at least 1024 bytes, [delete_dir_entry] with the
    inode number found under a name other than "." and ".." succeeds; afterwards
    that name is not found, every other name is found as before, the directory
    is well formed and one entry smaller, its inode is on the disk, and no data
    block outside the directory has changed.  A block whose last entry it was is
    given back unless it has ".". *)
Theorem dir_delete_lookup (s : fsys) (dp : Z) (p : dir) (i : inode) (fuel : nat) (cap : Z) (name : list Z) (e : dir_entry) :
  volume_ok s -> dirs s !! dp = Some p -> inodes s !! d_inode p = Some i -> dir_ok s i -> tidy (disk s) i ->
  dir_find (disk s) (inode_blocks (disk s) i) name = Some e -> f_type e <> 0 -> name <> [] -> name <> dot -> name <> dotdot ->
  1024 <= cap -> i_no i < 256 -> 24 <= i_size i ->
  exists s', delete_dir_entry fuel dp (de_i_no e) cap s = Ok (true, s') /\ entry_removed s s' (d_inode p) i name.
Proof.
  intros Hv Hp Hi Hd Ht Hf Hty Hn Hdot Hdd Hcap Hno Hsz.
  destruct (dir_find_slot s i name e Hd Hn Hf) as (k & a & j & Hs & Hname & He). rewrite <- Hname.
  apply (delete_entry_run s dp p i fuel cap (de_i_no e) k a j); try done; [|congruence].
  unfold hit, other. rewrite He, Hname, Z.eqb_refl, !bool_decide_false by done. by rewrite (proj2 (Z.eqb_neq _ _) Hty).
Qed.

Lemma dir_delete_lookup_witness :
  exists s', delete_dir_entry 1 root_dir 1 1024 demo_three_dir = Ok (true, s')
    /\ entry_removed demo_three_dir s' 4096 demo_three_root demo_name.
Proof.
  apply (dir_delete_lookup demo_three_dir root_dir (Dir 4096 0 (zeros 512)) demo_three_root 1 1024 demo_name demo_entry).
  - exact demo_three_volume.
  - done.
  - done.
  - exact demo_three_dir_ok.
  - apply (tidy_one _ _ 612); [done|]. rewrite demo_three_sector. vm_compute. reflexivity.
  - vm_compute. reflexivity.
  - done.
  - done.
  - done.
  - done.
  - done.
  - done.
  - done.
Defined.

(** C40: [delete_dir_entry] never returns when the entry to delete is the only
    one in an indirect block.  It has to give back that block, and the loop that
    counts the indirect blocks does not advance its index: whatever number of
    steps it is given, the call is still in that loop. *)
Theorem delete_indirect_diverges (s : fsys) (dp : Z) (p : dir) (i : inode) (fuel : nat) (no cap : Z) (k : nat) (a j : Z) :
  volume_ok s -> dirs s !! dp = Some p -> inodes s !! d_inode p = Some i -> alone s i no k a j -> 512 <= cap ->
  delete_dir_entry fuel dp no cap s = Bad EFuel.
Proof. intros Hv Hp Hi Ha Hcap. by apply (alone_diverges s i fuel no cap k a j Hv Ha Hcap dp (d_inode p) p). Qed.

(** A root directory with "." and ".." in block 612 and "ab" in the first
    indirect block, 614. *)
Definition demo_far_root : inode := Inode 0 72 1 false (612 :: zeros 11 ++ [613]).

Definition demo_far_dir : fsys :=
  set_inodes {[4096 := demo_far_root]} (set_block_bitmap (Bitmap 512 (7 :: zeros 512))
    (set_disk (<[614 := enc_entry demo_entry ++ zeros 488]> (<[613 := enc_words (614 :: zeros 127)]> {[612 := demo_entries]})) demo_dir)).

Lemma demo_far_volume : volume_ok demo_far_dir.
Proof.
  pose proof demo_fs_ok as []. constructor; try done.
  - intros lba. apply sectors_by_check. by vm_compute.
  - constructor; [by vm_compute|done|]. constructor; [lia|]. apply Forall_replicate. lia.
  - intros x Hx _. unfold bm_bits in Hx. cbn in *. rewrite max_lba_eq. lia.
Qed.

Lemma delete_indirect_diverges_witness : delete_dir_entry 1000 root_dir 1 1024 demo_far_dir = Bad EFuel.
Proof.
  apply (delete_indirect_diverges demo_far_dir root_dir (Dir 4096 0 (zeros 512)) demo_far_root 1000 1 1024 12 614 0).
  - apply demo_far_volume.
  - reflexivity.
  - reflexivity.
  - constructor.
    + split; [reflexivity|vm_compute; discriminate].
    + lia.
    + apply Forall_cons_2; [right; split; [vm_compute; discriminate|vm_compute; reflexivity]|].
      repeat (apply Forall_cons_2; [left; reflexivity|]). apply Forall_nil_2.
    + split; [vm_compute; reflexivity|]. split; [rewrite max_lba_eq; cbn; lia|]. split; vm_compute; reflexivity.
    + vm_compute. reflexivity.
    + vm_compute. reflexivity.
    + vm_compute. reflexivity.
  - lia.
Defined.
