(* ===== verification/Fs.v ===== *)
(** * Fs: fs/fs.c

    The system calls on files and directories, formatting and mounting.  Path
    names are the bytes of C strings; they are taken apart with the components
    of Paths, where the byte-level [path_parse] and [path_depth_cnt] are shown to
    compute them.  A component of 16 bytes or more does not fit the array the
    code parses it into.  What a call hands to the console, the keyboard or a
    pipe is part of its result. *)
From S2P Require Import Prelude Bitmap CString Paths Disk Fsys Inode Dir File.

(** ** Formatting and mounting *)

Definition MAX_FILES_PER_PART : Z := 4096.
Definition BITS_PER_SECTOR : Z := 4096.

(** The layout [partition_format] computes: the number of blocks that have a bit
    in the bitmap, and the super block. *)
Definition free_sects (part_sec_cnt : Z) : Z :=
  let inode_bitmap_sects := DIV_ROUND_UP MAX_FILES_PER_PART BITS_PER_SECTOR in
  let inode_table_sects := DIV_ROUND_UP (inode_size * MAX_FILES_PER_PART) SECTOR_SIZE in
  let used_sects := 1 + 1 + inode_bitmap_sects + inode_table_sects in
  u32 (part_sec_cnt - used_sects).

Definition block_bitmap_bit_len (part_sec_cnt : Z) : Z :=
  u32 (free_sects part_sec_cnt - DIV_ROUND_UP (free_sects part_sec_cnt) BITS_PER_SECTOR).

Definition format_sb (start part_sec_cnt : Z) : super_block :=
  let inode_bitmap_sects := DIV_ROUND_UP MAX_FILES_PER_PART BITS_PER_SECTOR in
  let inode_table_sects := DIV_ROUND_UP (inode_size * MAX_FILES_PER_PART) SECTOR_SIZE in
  let block_bitmap_sects := DIV_ROUND_UP (block_bitmap_bit_len part_sec_cnt) BITS_PER_SECTOR in
  let block_bitmap_lba := u32 (start + 2) in
  let inode_bitmap_lba := u32 (block_bitmap_lba + block_bitmap_sects) in
  let inode_table_lba := u32 (inode_bitmap_lba + inode_bitmap_sects) in
  let data_start_lba := u32 (inode_table_lba + inode_table_sects) in
  SuperBlock 0x19590318 part_sec_cnt MAX_FILES_PER_PART start block_bitmap_lba block_bitmap_sects
    inode_bitmap_lba inode_bitmap_sects inode_table_lba inode_table_sects data_start_lba 0 dir_entry_bytes.

(** The loop [while (bit_idx <= block_bitmap_last_bit)] on one byte. *)
Fixpoint clear_low (n : nat) (byte bit_idx : Z) : Z :=
  match n with
  | O => byte
  | S n' => clear_low n' (u8 (Z.land byte (Z.lnot (Z.shiftl 1 bit_idx)))) (bit_idx + 1)
  end.

(** The block bitmap in a buffer of zeros. *)
Definition format_bitmap (bit_len : Z) (buf : list Z) : res (list Z) :=
  b0 ← rd buf 0;
  buf ← wr buf 0 (Z.lor b0 1);
  let last_byte := bit_len / 8 in
  let last_bit := u8 (bit_len mod 8) in
  let last_size := SECTOR_SIZE - last_byte mod SECTOR_SIZE in
  if Z.of_nat (length buf) <? last_byte + last_size then Bad EFault
  else
    let buf := splice buf last_byte (replicate (Z.to_nat last_size) 255) in
    b ← rd buf last_byte;
    wr buf last_byte (clear_low (Z.to_nat (last_bit + 1)) b 0).

(** An entry with a literal name. *)
Definition entry_of (name : list Z) (i_no : Z) : dir_entry :=
  DirEntry (name ++ zeros (16 - Z.of_nat (length name))) i_no (ft_code FT_DIRECTORY).

(** [partition_format] of the partition with the state's [start_lba] and
    [sec_cnt].  The buffer is zeroed by the allocator and by [memset]. *)
Definition partition_format : st fsys unit :=
  s ← sget;
  let p := format_sb (start_lba s) (sec_cnt s) in
  _ ← ide_write (u32 (start_lba s + 1)) (enc_super p) 1;
  let m := if inode_bitmap_sects p <=? block_bitmap_sects p then block_bitmap_sects p else inode_bitmap_sects p in
  let buf_size := u32 ((if inode_table_sects p <=? m then m else inode_table_sects p) * SECTOR_SIZE) in
  buf ← malloc buf_size;
  if buf =? 0 then sfault
  else
    bm ← sres (format_bitmap (block_bitmap_bit_len (sec_cnt s)) (zeros buf_size));
    _ ← ide_write (block_bitmap_lba p) bm (block_bitmap_sects p);
    _ ← ide_write (inode_bitmap_lba p) (splice (zeros buf_size) 0 [1]) (inode_bitmap_sects p);
    let root := Inode 0 (u32 (dir_entry_size p * 2)) 0 false (data_start_lba p :: zeros 12) in
    _ ← ide_write (inode_table_lba p) (splice (zeros buf_size) 0 (enc_inode root)) (inode_table_sects p);
    ide_write (data_start_lba p)
      (splice (zeros buf_size) 0 (enc_entry (entry_of dot 0) ++ enc_entry (entry_of dotdot 0))) 1.

(** A bitmap read into memory; [behind] is the byte behind it, which
    [bitmap_scan] looks at when the bitmap is full. *)
Definition read_bitmap (lba sects behind : Z) : st fsys bitmap :=
  a ← malloc (u32 (sects * SECTOR_SIZE));
  _ ← sassert (negb (a =? 0));
  b ← ide_read (u32 (sects * SECTOR_SIZE)) lba sects;
  mret (Bitmap (u32 (sects * SECTOR_SIZE)) (b ++ [behind])).

Definition mount_partition (part_name name : list Z) (behind : Z) : st fsys bool :=
  if bool_decide (part_name = name) then
    sb_buf ← malloc SECTOR_SIZE;
    p ← malloc 512;
    _ ← sassert (negb (p =? 0));
    _ ← sassert (negb (sb_buf =? 0));
    s ← sget;
    b ← ide_read SECTOR_SIZE (u32 (start_lba s + 1)) 1;
    let q := dec_super b in
    _ ← upd (set_sb q);
    bb ← read_bitmap (block_bitmap_lba q) (block_bitmap_sects q) behind;
    _ ← upd (set_block_bitmap bb);
    ib ← read_bitmap (inode_bitmap_lba q) (inode_bitmap_sects q) behind;
    _ ← upd (set_inode_bitmap ib);
    _ ← upd (set_open_inodes []);
    mret true
  else mret false.

(** One partition in [filesys_init]: format it unless it has the magic number. *)
Definition check_partition : st fsys unit :=
  s ← sget;
  if sec_cnt s =? 0 then mret tt
  else
    b ← ide_read SECTOR_SIZE (u32 (start_lba s + 1)) 1;
    if magic (dec_super b) =? 0x19590318 then mret tt else partition_format.

(** ** Searching *)

Record path_search_record : Type := PathSearchRecord {
  searched_path : list Z;
  parent_dir : Z;
  file_type : file_types
}.

(** [path_parse] on the text that is left: the first component and the rest. *)
Fixpoint drop_slashes (s : list Z) : list Z :=
  match s with c :: r => if c =? 47 then drop_slashes r else s | [] => [] end.

Fixpoint until_slash (s : list Z) : list Z * list Z :=
  match s with
  | [] => ([], [])
  | c :: r => if c =? 47 then ([], s) else let '(a, b) := until_slash r in (c :: a, b)
  end.

(** The rest is NULL ([None]) at the end of the path. *)
Definition parse_name (sub_path : list Z) : st fsys (list Z * option (list Z)) :=
  let '(name, rest) := until_slash (drop_slashes sub_path) in
  if MAX_FILE_NAME_LEN <=? Z.of_nat (length name) then sfault
  else mret (name, match rest with [] => None | _ => Some rest end).

(** [path_depth_cnt]: reads an array it has not set when there is no component. *)
Definition path_depth (path : list Z) : st fsys Z :=
  let cs := components path in
  if bool_decide (cs = []) || existsb (fun c => MAX_FILE_NAME_LEN <? Z.of_nat (length c)) cs then sfault
  else mret (Z.of_nat (length cs)).

Definition slash : list Z := [47].

(** The loop of [search_file]; [dir_e] is the entry found last, if any. *)
Fixpoint search_loop (fuel : nat) (sub_path : option (list Z)) (name searched : list Z) (parent parent_inode_no : Z)
    (dir_e : option Z) : st fsys (Z * path_search_record) :=
  match fuel with
  | O => sres (Bad EFuel)
  | S f =>
    if bool_decide (name = []) then
      _ ← dir_close parent;
      parent' ← dir_open parent_inode_no;
      match dir_e with
      | None => sfault
      | Some no => mret (i32 no, PathSearchRecord searched parent' FT_DIRECTORY)
      end
    else
      _ ← sassert (Z.of_nat (length searched) <? 512);
      let searched := searched ++ slash ++ name in
      r ← search_dir_entry parent name;
      match r with
      | None => mret (-1, PathSearchRecord searched parent FT_UNKNOWN)
      | Some e =>
        x ← (match sub_path with Some sub => parse_name sub | None => mret ([], None) end);
        if f_type e =? ft_code FT_DIRECTORY then
          pi ← dir_inode parent;
          _ ← dir_close parent;
          parent' ← dir_open (de_i_no e);
          search_loop f x.2 x.1 searched parent' (i_no pi) (Some (de_i_no e))
        else if f_type e =? ft_code FT_REGULAR then mret (i32 (de_i_no e), PathSearchRecord searched parent FT_REGULAR)
        else search_loop f x.2 x.1 searched parent parent_inode_no (Some (de_i_no e))
      end
  end.

Definition is_root (pathname : list Z) : bool :=
  bool_decide (pathname = slash) || bool_decide (pathname = slash ++ dot) || bool_decide (pathname = slash ++ dotdot).

Definition search_file (pathname : list Z) : st fsys (Z * path_search_record) :=
  if is_root pathname then mret (0, PathSearchRecord [] root_dir FT_DIRECTORY)
  else
    let path_len := Z.of_nat (length pathname) in
    _ ← sassert (match pathname with c :: _ => c =? 47 | [] => false end && (1 <? path_len) && (path_len <? MAX_PATH_LEN));
    x ← parse_name pathname;
    search_loop (S (length pathname)) x.2 x.1 [] root_dir 0 None.

(** ** Files *)

(** [strrchr(s, '/') + 1] of a string that has a slash. *)
Definition after_last_slash (s : list Z) : list Z := default [] (last (split_on 47 s)).

Definition sys_open (pathname : list Z) (flags : Z) : st fsys Z :=
  match last pathname with
  | None => sfault
  | Some c =>
    if c =? 47 then mret (-1)
    else
      _ ← sassert (flags <=? 7);
      pathname_depth ← path_depth pathname;
      x ← search_file pathname;
      let inode_no := x.1 in
      let rec := x.2 in
      let found := negb (inode_no =? -1) in
      if bool_decide (file_type rec = FT_DIRECTORY) then _ ← dir_close (parent_dir rec); mret (-1)
      else
        path_searched_depth ← path_depth (searched_path rec);
        if negb (pathname_depth =? path_searched_depth) then _ ← dir_close (parent_dir rec); mret (-1)
        else if negb found && (Z.land flags O_CREAT =? 0) then _ ← dir_close (parent_dir rec); mret (-1)
        else if found && negb (Z.land flags O_CREAT =? 0) then _ ← dir_close (parent_dir rec); mret (-1)
        else if negb (Z.land flags O_CREAT =? 0) then
          fd ← file_create (parent_dir rec) (after_last_slash pathname) flags;
          _ ← dir_close (parent_dir rec);
          mret fd
        else file_open inode_no flags
  end.

Definition fd_local2global (local_fd : Z) : st fsys Z :=
  t ← gets fd_table;
  global_fd ← sres (rd t local_fd);
  _ ← sassert ((0 <=? global_fd) && (global_fd <? MAX_FILE_OPEN));
  mret global_fd.

(** is_pipe of shell/pipe.c *)
Definition PIPE_FLAG : Z := 0xFFFF.

Definition is_pipe (local_fd : Z) : st fsys bool :=
  global_fd ← fd_local2global local_fd;
  f ← file_at global_fd;
  mret (fd_flag f =? PIPE_FLAG).

(** The page of a pipe goes back to the memory manager when its last descriptor
    is closed. *)
Definition sys_close (fd : Z) : st fsys Z :=
  if 2 <? fd then
    global_fd ← fd_local2global fd;
    pipe ← is_pipe fd;
    ret ← (if (pipe : bool) then
             f ← file_at global_fd;
             let n := u32 (fd_pos f - 1) in
             _ ← put_file global_fd (File n (fd_flag f) (if n =? 0 then 0 else fd_inode f));
             mret 0
           else file_close global_fd);
    t ← gets fd_table;
    t' ← sres (wr t fd (-1));
    _ ← upd (set_fd_table t');
    mret ret
  else mret (-1).

(** What a write or a read does outside the file system. *)
Inductive io_result : Type :=
| Done (ret : Z) (data : list Z)
| Console (str : list Z) (ret : Z)
| Keyboard (count : Z)
| Pipe (fd count : Z).

(** Output goes through the array [tmp_buf] of 1024 bytes, zero at first.  More
    bytes than that are written behind it, and without a NUL in it the printing
    reads on behind it; what either does depends on what lies there. *)
Definition sys_write (fd : Z) (buf : list Z) (count : Z) : st fsys io_result :=
  if fd <? 0 then mret (Done (-1) [])
  else if fd =? 1 then
    pipe ← is_pipe fd;
    if (pipe : bool) then mret (Pipe fd count)
    else if 1024 <? count then sfault
    else
      let tmp_buf := splice (zeros 1024) 0 (slice buf 0 count) in
      if bool_decide (0 ∈ tmp_buf) then mret (Console (c_string tmp_buf) (i32 count)) else sfault
  else
    pipe ← is_pipe fd;
    if (pipe : bool) then mret (Pipe fd count)
    else
      _fd ← fd_local2global fd;
      f ← file_at _fd;
      if negb (Z.land (fd_flag f) O_WRONLY =? 0) || negb (Z.land (fd_flag f) O_RDWR =? 0) then
        n ← file_write _fd buf count;
        mret (Done n [])
      else mret (Done (-1) []).

Definition sys_read (fd count : Z) : st fsys io_result :=
  if (fd <? 0) || (fd =? 1) || (fd =? 2) then mret (Done (-1) [])
  else if fd =? 0 then
    pipe ← is_pipe fd;
    mret (if (pipe : bool) then Pipe fd count else Keyboard count)
  else
    pipe ← is_pipe fd;
    if (pipe : bool) then mret (Pipe fd count)
    else
      global_fd ← fd_local2global fd;
      x ← file_read global_fd count;
      mret (Done x.1 x.2).

Definition SEEK_SET : Z := 1.
Definition SEEK_CUR : Z := 2.
Definition SEEK_END : Z := 3.

Definition sys_lseek (fd offset whence : Z) : st fsys Z :=
  if fd <? 0 then mret (-1)
  else
    _ ← sassert ((0 <? whence) && (whence <? 4));
    _fd ← fd_local2global fd;
    pf ← file_at _fd;
    i ← inode_at (fd_inode pf);
    let file_size := i32 (i_size i) in
    let new_pos :=
      if whence =? SEEK_SET then offset
      else if whence =? SEEK_CUR then i32 (i32 (fd_pos pf) + offset)
      else i32 (file_size + offset) in
    if (new_pos <? 0) || (i32 (file_size - 1) <? new_pos) then mret (-1)
    else
      _ ← put_file _fd (File (u32 new_pos) (fd_flag pf) (fd_inode pf));
      mret new_pos.

(** The first descriptor whose inode is [inode_no], or 32. *)
Fixpoint file_in_use (n : nat) (file_idx inode_no : Z) : st fsys Z :=
  match n with
  | O => mret file_idx
  | S n' =>
    f ← file_at file_idx;
    if fd_inode f =? 0 then file_in_use n' (file_idx + 1) inode_no
    else
      i ← inode_at (fd_inode f);
      if u32 inode_no =? i_no i then mret file_idx else file_in_use n' (file_idx + 1) inode_no
  end.

Definition sys_unlink (fuel : nat) (pathname : list Z) : st fsys Z :=
  _ ← sassert (Z.of_nat (length pathname) <? MAX_PATH_LEN);
  x ← search_file pathname;
  let inode_no := x.1 in
  let rec := x.2 in
  _ ← sassert (negb (inode_no =? 0));
  if inode_no =? -1 then _ ← dir_close (parent_dir rec); mret (-1)
  else if bool_decide (file_type rec = FT_DIRECTORY) then _ ← dir_close (parent_dir rec); mret (-1)
  else
    file_idx ← file_in_use 32 0 inode_no;
    if file_idx <? MAX_FILE_OPEN then _ ← dir_close (parent_dir rec); mret (-1)
    else
      io_buf ← malloc (SECTOR_SIZE + SECTOR_SIZE);
      if io_buf =? 0 then _ ← dir_close (parent_dir rec); mret (-1)
      else
        _ ← delete_dir_entry fuel (parent_dir rec) (u32 inode_no) 1024;
        _ ← inode_release (u32 inode_no);
        _ ← dir_close (parent_dir rec);
        mret 0.

(** ** Directories *)

(** The rollback of [sys_mkdir] from step [rollback_step]. *)
Definition mkdir_rollback (rollback_step inode_no parent : Z) : st fsys Z :=
  _ ← (if rollback_step =? 2 then
         b ← gets inode_bitmap; b' ← sres (bitmap_set b inode_no 0); upd (set_inode_bitmap b')
       else mret tt);
  _ ← dir_close parent;
  mret (-1).

Definition sys_mkdir (pathname : list Z) : st fsys Z :=
  io_buf ← malloc (SECTOR_SIZE * 2);
  if io_buf =? 0 then mret (-1)
  else
    x ← search_file pathname;
    let rec := x.2 in
    let parent := parent_dir rec in
    if negb (x.1 =? -1) then mkdir_rollback 1 0 parent
    else
      pathname_depth ← path_depth pathname;
      path_searched_depth ← path_depth (searched_path rec);
      if negb (pathname_depth =? path_searched_depth) then mkdir_rollback 1 0 parent
      else
        let dirname := after_last_slash (searched_path rec) in
        inode_no ← inode_bitmap_alloc;
        if inode_no =? -1 then mkdir_rollback 1 0 parent
        else
          block_lba ← block_bitmap_alloc;
          if block_lba =? -1 then mkdir_rollback 2 inode_no parent
          else
            idx ← bitmap_idx block_lba;
            _ ← sassert (negb (idx =? 0));
            _ ← bitmap_sync idx BLOCK_BITMAP;
            pi ← dir_inode parent;
            _ ← ide_write (u32 block_lba)
                  (splice (zeros 1024) 0 (enc_entry (entry_of dot inode_no) ++ enc_entry (entry_of dotdot (i_no pi)))) 1;
            q ← gets sb;
            let new_dir_inode :=
              set_i_size (u32 (2 * dir_entry_size q)) (set_i_sectors (u32 block_lba :: zeros 12) (inode_init inode_no)) in
            e ← create_dir_entry dirname inode_no (ft_code FT_DIRECTORY);
            ok ← sync_dir_entry parent e;
            if negb ok then mkdir_rollback 2 inode_no parent
            else
              pi' ← dir_inode parent;
              _ ← inode_sync pi' 1024;
              _ ← inode_sync new_dir_inode 1024;
              _ ← bitmap_sync inode_no INODE_BITMAP;
              _ ← dir_close parent;
              mret 0.

(** The test of the second character compares the first: only "/" is the root
    here.  The result is an address, 0 for NULL. *)
Definition sys_opendir (name : list Z) : st fsys Z :=
  _ ← sassert (Z.of_nat (length name) <? MAX_PATH_LEN);
  if bool_decide (name = slash) then mret root_dir
  else
    x ← search_file name;
    ret ← (if x.1 =? -1 then mret 0
           else match file_type x.2 with
                | FT_DIRECTORY => dir_open (u32 x.1)
                | _ => mret 0
                end);
    _ ← dir_close (parent_dir x.2);
    mret ret.

Definition sys_closedir (dir : Z) : st fsys Z :=
  if dir =? 0 then mret (-1) else _ ← dir_close dir; mret 0.

Definition sys_readdir (dir : Z) : st fsys (option Z) :=
  _ ← sassert (negb (dir =? 0)); dir_read dir.

Definition sys_rewinddir (dir : Z) : st fsys unit := upd_dir dir (fun d => Dir (d_inode d) 0 (dir_buf d)).

Definition sys_rmdir (fuel : nat) (pathname : list Z) : st fsys Z :=
  x ← search_file pathname;
  let inode_no := x.1 in
  _ ← sassert (negb (inode_no =? 0));
  retval ← (if inode_no =? -1 then mret (-1)
            else match file_type x.2 with
                 | FT_REGULAR => mret (-1)
                 | _ =>
                   dir ← dir_open (u32 inode_no);
                   empty ← dir_is_empty dir;
                   r ← (if (empty : bool) then
                          r ← dir_remove fuel (parent_dir x.2) dir;
                          mret (if r =? 0 then 0 else -1)
                        else mret (-1));
                   _ ← dir_close dir;
                   mret r
                 end);
  _ ← dir_close (parent_dir x.2);
  mret retval.

(** [io_buf] holds one sector. *)
Definition get_parent_dir_inode_nr (child_inode_nr : Z) : st fsys Z :=
  p ← inode_open child_inode_nr;
  i ← inode_at p;
  block_lba ← sres (rd (i_sectors i) 0);
  q ← gets sb;
  _ ← sassert (data_start_lba q <=? block_lba);
  _ ← inode_close p;
  sec ← ide_read 512 block_lba 1;
  let e := entry_at sec 1 in
  _ ← sassert ((de_i_no e <? 4096) && (f_type e =? ft_code FT_DIRECTORY));
  mret (de_i_no e).

(** The first entry of [n] from [k] on that has inode number [no]. *)
Fixpoint find_number (n : nat) (buf : list Z) (no k : Z) : option Z :=
  match n with
  | O => None
  | S n' => if de_i_no (entry_at buf k) =? no then Some k else find_number n' buf no (k + 1)
  end.

Fixpoint child_name_blocks (blocks : list Z) (per_sec c_inode_nr : Z) : st fsys (option (list Z)) :=
  match blocks with
  | [] => mret None
  | b :: r =>
    if b =? 0 then child_name_blocks r per_sec c_inode_nr
    else
      sec ← ide_read 512 b 1;
      match find_number (Z.to_nat per_sec) sec c_inode_nr 0 with
      | Some k => mret (Some (entry_name sec k))
      | None => child_name_blocks r per_sec c_inode_nr
      end
  end.

(** The name that is appended to [path], or nothing (-1). *)
Definition get_child_dir_name (p_inode_nr c_inode_nr : Z) : st fsys (option (list Z)) :=
  p ← inode_open p_inode_nr;
  i ← inode_at p;
  blocks ← collect_blocks i;
  _ ← inode_close p;
  per_sec ← entries_per_sec;
  child_name_blocks blocks per_sec c_inode_nr.

(** The walk to the root: the names, the innermost first, each behind a slash,
    in the array of 512 bytes. *)
Fixpoint cwd_loop (fuel : nat) (child_inode_nr : Z) (full_path_reverse : list Z) : st fsys (option (list Z)) :=
  if child_inode_nr =? 0 then mret (Some full_path_reverse)
  else
    match fuel with
    | O => sres (Bad EFuel)
    | S f =>
      parent_inode_nr ← get_parent_dir_inode_nr child_inode_nr;
      name ← get_child_dir_name parent_inode_nr child_inode_nr;
      match name with
      | None => mret None
      | Some c =>
        let path := full_path_reverse ++ slash ++ c in
        if MAX_PATH_LEN <=? Z.of_nat (length path) then sfault else cwd_loop f parent_inode_nr path
      end
    end.

(** The loop that copies from the last slash on, until no slash is left. *)
Fixpoint unreverse (fuel : nat) (path buf : list Z) : res (list Z) :=
  match fuel with
  | O => Bad EFuel
  | S f =>
    if bool_decide (47 ∈ path) then
      let c := after_last_slash path in
      unreverse f (take (length path - length c - 1) path) (buf ++ slash ++ c)
    else mret buf
  end.

(** Whether the call succeeds (NULL is returned otherwise), and the bytes it stores
    in the caller's buffer of [size] bytes. *)
Definition sys_getcwd (fuel : nat) (size : Z) : st fsys (bool * list Z) :=
  io_buf ← malloc SECTOR_SIZE;
  if io_buf =? 0 then mret (false, [])
  else
    child_inode_nr ← gets cwd_inode_nr;
    _ ← sassert ((0 <=? child_inode_nr) && (child_inode_nr <? 4096));
    if child_inode_nr =? 0 then mret (true, slash ++ [0])
    else
      r ← cwd_loop fuel child_inode_nr [];
      match r with
      | None => mret (false, zeros size)
      | Some path =>
        _ ← sassert (Z.of_nat (length path) <=? size);
        if Z.of_nat (length path) =? size then sfault
        else res ← sres (unreverse (S (length path)) path []); mret (true, splice (zeros size) 0 res)
      end.

Definition sys_chdir (path : list Z) : st fsys Z :=
  x ← search_file path;
  ret ← (if x.1 =? -1 then mret (-1)
         else if bool_decide (file_type x.2 = FT_DIRECTORY) then _ ← upd (set_cwd x.1); mret 0
         else mret (-1));
  _ ← dir_close (parent_dir x.2);
  mret ret.

Record stat : Type := Stat {
  st_ino : Z;
  st_size : Z;
  st_filetype : file_types
}.

(** [buf] is filled when the call succeeds. *)
Definition sys_stat (path : list Z) : st fsys (Z * option stat) :=
  if is_root path then
    i ← dir_inode root_dir;
    mret (0, Some (Stat 0 (i_size i) FT_DIRECTORY))
  else
    x ← search_file path;
    r ← (if x.1 =? -1 then mret (-1, None)
         else
           p ← inode_open (u32 x.1);
           i ← inode_at p;
           _ ← inode_close p;
           mret (0, Some (Stat (u32 x.1) (i_size i) (file_type x.2))));
    _ ← dir_close (parent_dir x.2);
    mret r.

(** The end of [filesys_init]: mount the default partition "sdb1", open its root
    directory, and free every slot of the file table. *)
Definition mount_default (name : list Z) (behind : Z) : st fsys unit :=
  _ ← mount_partition [115; 100; 98; 49] name behind;
  _ ← open_root_dir;
  upd (fun s => set_file_table (map (fun f => File (fd_pos f) (fd_flag f) 0) (file_table s)) s).
