(* ===== verification/FsSpec.v ===== *)
(** * FsSpec: formatting, mounting, and the position of a file

    A partition that was formatted and mounted is a well-formed volume with the
    root directory in its first block; [sys_lseek] keeps positions inside the
    file. *)
From S2P Require Import Prelude Bitmap CString Disk Fsys Inode Dir File FileSpec DirSpec Fs.

(** ** Reading what was written *)

Lemma read_secs_ext n lba d d' :
  (forall x, lba <= x < lba + Z.of_nat n -> sector d' x = sector d x) -> read_secs n lba d' = read_secs n lba d.
Proof.
  revert lba. induction n as [|n IH]; intros lba H; [done|]. cbn [read_secs]. rewrite H by lia. f_equal. apply IH. intros x Hx. apply H. lia.
Qed.

Lemma read_write_same n lba bs d :
  (512 * n <= length bs)%nat -> read_secs n lba (write_secs n lba bs d) = take (512 * n) bs.
Proof.
  revert lba bs d. induction n as [|n IH]; intros lba bs d Hl; [by rewrite Nat.mul_0_r|]. cbn [read_secs write_secs].
  rewrite write_secs_other by lia. rewrite sector_insert_eq, IH by (rewrite length_drop; lia).
  replace (512 * S n)%nat with (512 + 512 * n)%nat by lia. by rewrite <- take_take_drop.
Qed.

Lemma read_write_other n m lba lba' bs d :
  lba + Z.of_nat n <= lba' \/ lba' + Z.of_nat m <= lba -> read_secs m lba' (write_secs n lba bs d) = read_secs m lba' d.
Proof. intros H. apply read_secs_ext. intros x Hx. apply write_secs_other. lia. Qed.

(** ** The super block *)

Definition sb_ok (p : super_block) : Prop :=
  is_u32 (magic p) /\ is_u32 (sb_sec_cnt p) /\ is_u32 (inode_cnt p) /\ is_u32 (part_lba_base p)
  /\ is_u32 (block_bitmap_lba p) /\ is_u32 (block_bitmap_sects p) /\ is_u32 (inode_bitmap_lba p)
  /\ is_u32 (inode_bitmap_sects p) /\ is_u32 (inode_table_lba p) /\ is_u32 (inode_table_sects p)
  /\ is_u32 (data_start_lba p) /\ is_u32 (root_inode_no p) /\ is_u32 (dir_entry_size p).

Lemma dec_enc_super p r : sb_ok p -> dec_super (enc_super p ++ r) = p.
Proof.
  intros (H1 & H2 & H3 & H4 & H5 & H6 & H7 & H8 & H9 & H10 & H11 & H12 & H13). unfold enc_super. rewrite <- app_assoc.
  set (ws := [magic p; _; _; _; _; _; _; _; _; _; _; _; _]). set (x := zeros 460 ++ r). unfold dec_super.
  assert (forall (k : nat) w, ws !! k = Some w -> is_u32 w -> word_at (enc_words ws ++ x) (Z.of_nat k) = w) as Hw
    by (intros; by apply word_at_enc).
  rewrite (Hw 0%nat _ eq_refl H1 : word_at _ 0 = _), (Hw 1%nat _ eq_refl H2 : word_at _ 1 = _),
    (Hw 2%nat _ eq_refl H3 : word_at _ 2 = _), (Hw 3%nat _ eq_refl H4 : word_at _ 3 = _),
    (Hw 4%nat _ eq_refl H5 : word_at _ 4 = _), (Hw 5%nat _ eq_refl H6 : word_at _ 5 = _),
    (Hw 6%nat _ eq_refl H7 : word_at _ 6 = _), (Hw 7%nat _ eq_refl H8 : word_at _ 7 = _),
    (Hw 8%nat _ eq_refl H9 : word_at _ 8 = _), (Hw 9%nat _ eq_refl H10 : word_at _ 9 = _),
    (Hw 10%nat _ eq_refl H11 : word_at _ 10 = _), (Hw 11%nat _ eq_refl H12 : word_at _ 11 = _),
    (Hw 12%nat _ eq_refl H13 : word_at _ 12 = _).
  by destruct p.
Qed.

Lemma enc_super_length p : length (enc_super p) = 512%nat.
Proof. done. Qed.

(** ** The layout *)

(** A partition large enough for the tables and eight blocks, on the disk. *)
Definition part_ok (st n : Z) : Prop := 0 <= st /\ 620 <= n /\ st + n <= max_lba.

(** The sizes, with [len] the number of bits and [B] the sectors they take. *)
Lemma layout_sizes st n :
  part_ok st n ->
  let len := block_bitmap_bit_len n in let B := block_bitmap_sects (format_sb st n) in
  free_sects n = n - 611 /\ 8 <= len /\ len + B + 611 <= n /\ len <= 4096 * B /\ 4096 * (B - 1) < len /\ 1 <= B
  /\ n - 611 - (len + 1) < B + 1
  /\ format_sb st n = SuperBlock 0x19590318 n 4096 st (st + 2) B (st + 2 + B) 1 (st + 3 + B) 608 (st + 611 + B) 0 24.
Proof.
  intros (H0 & Hn & Hm). rewrite max_lba_eq in Hm. cbv zeta.
  assert (free_sects n = n - 611) as Hf.
  { unfold free_sects. change (1 + 1 + DIV_ROUND_UP MAX_FILES_PER_PART BITS_PER_SECTOR + DIV_ROUND_UP (inode_size * MAX_FILES_PER_PART) SECTOR_SIZE) with 611.
    apply u32_id. lia. }
  unfold format_sb. cbn [block_bitmap_sects].
  change (DIV_ROUND_UP MAX_FILES_PER_PART BITS_PER_SECTOR) with 1.
  change (DIV_ROUND_UP (inode_size * MAX_FILES_PER_PART) SECTOR_SIZE) with 608.
  unfold block_bitmap_bit_len, DIV_ROUND_UP, BITS_PER_SECTOR, dir_entry_bytes, MAX_FILES_PER_PART. rewrite Hf.
  rewrite (u32_id (n - 611 + 4096 - 1)) by lia.
  rewrite (u32_id (n - 611 - (n - 611 + 4096 - 1) / 4096)) by lia.
  set (len := n - 611 - (n - 611 + 4096 - 1) / 4096). assert (8 <= len /\ len <= n - 612) as [Hl1 Hl2] by (unfold len; lia).
  rewrite (u32_id (len + 4096 - 1)) by lia. set (B := (len + 4096 - 1) / 4096).
  assert (1 <= B <= n) as HB by (unfold B; lia).
  unwrap. split_and!; try lia; try (unfold B, len; lia).
  f_equal; lia.
Qed.

(** ** The block bitmap *)

Lemma clear_low_bits m t :
  1 <= m <= 8 -> 0 <= t < 8 -> Z.testbit (clear_low (Z.to_nat m) 255 0) t = (m <=? t).
Proof.
  intros Hm Ht.
  assert (forallb (fun m => forallb (fun t => Bool.eqb (Z.testbit (clear_low (Z.to_nat m) 255 0) t) (m <=? t)) (seqZ 0 8)) (seqZ 1 8) = true) as H
    by (vm_compute; reflexivity).
  rewrite forallb_forall in H. specialize (H m). rewrite forallb_forall in H.
  apply eqb_prop, H; apply list_elem_of_In, elem_of_seqZ; lia.
Qed.

Lemma clear_low_byte m : 1 <= m <= 8 -> byte (clear_low (Z.to_nat m) 255 0).
Proof.
  intros Hm. assert (forallb (fun m => let v := clear_low (Z.to_nat m) 255 0 in (0 <=? v) && (v <? 256)) (seqZ 1 8) = true) as H
    by (vm_compute; reflexivity).
  rewrite forallb_forall in H. specialize (H m). unfold byte. cbv zeta in H.
  apply andb_true_iff in H as [H1 H2]; [lia|]. apply list_elem_of_In, elem_of_seqZ. lia.
Qed.

(** The bytes of the formatted bitmap. *)
Lemma format_bitmap_run len N :
  8 <= len -> len + 4096 <= 8 * N ->
  exists L, format_bitmap len (zeros N) = Ok L /\ Z.of_nat (length L) = N /\ Forall byte L
    /\ (forall j, 0 <= j < 8 * (512 * (len / 4096 + 1)) -> exists v, L !! Z.to_nat (j / 8) = Some v
          /\ Z.testbit v (j mod 8) = (j =? 0) || (len <? j)).
Proof.
  intros Hlen HN. set (lb := len / 8). set (sz := 512 - lb mod 512). set (m := len mod 8 + 1).
  assert (Z.of_nat (length (zeros N)) = N) as HzN by (rewrite zeros_length; lia).
  unfold format_bitmap. fold lb. unfold SECTOR_SIZE. fold sz. rewrite (u8_id (len mod 8)) by lia. fold m.
  rewrite (rd_lookup _ _ 0) by (lia || (apply lookup_replicate; lia)). rewrite bind_Ok. change (Z.lor 0 1) with 1.
  rewrite wr_in by lia. rewrite bind_Ok. change (Z.to_nat 0) with 0%nat. set (L0 := <[0%nat := 1]> (zeros N)).
  assert (Z.of_nat (length L0) = N) as HL0 by (unfold L0; rewrite length_insert; lia).
  replace (Z.of_nat (length L0) <? lb + sz) with false by lia.
  set (L1 := splice L0 lb (replicate (Z.to_nat sz) 255)).
  assert (length L1 = length L0) as HL1 by (apply splice_length; rewrite ?length_replicate; lia).
  assert (forall k, L1 !! k = if bool_decide (lb <= Z.of_nat k < lb + sz) then Some 255 else L0 !! k) as HL1k.
  { intros k. unfold L1. rewrite splice_lookup by (rewrite ?length_replicate; lia). rewrite length_replicate, Z2Nat.id by lia.
    case_bool_decide; [|done]. apply lookup_replicate. lia. }
  rewrite (rd_lookup _ _ 255) by (lia || (rewrite HL1k; by rewrite bool_decide_true by lia)). rewrite bind_Ok.
  rewrite wr_in by lia. set (v := clear_low (Z.to_nat m) 255 0).
  exists (<[Z.to_nat lb := v]> L1). split_and!; [done|rewrite length_insert; lia| |].
  - apply Forall_insert; [|apply clear_low_byte; lia]. apply splice_bytes; [|apply Forall_replicate; unfold byte; lia].
    apply Forall_insert; [apply Forall_replicate; unfold byte; lia|unfold byte; lia].
  - intros j Hj. destruct (decide (j / 8 = lb)) as [E|E].
    + rewrite E. exists v. split; [apply list_lookup_insert_eq; lia|]. unfold v. rewrite clear_low_bits by lia.
      replace (j =? 0) with false by lia. unfold m. cbn [orb]. lia.
    + rewrite list_lookup_insert_ne by lia. rewrite HL1k. case_bool_decide as Hin.
      * exists 255. split; [done|]. rewrite byte_full_bit by lia. replace (len <? j) with true by lia. by rewrite orb_true_r.
      * destruct (decide (j / 8 = 0)) as [E0|E0].
        -- rewrite E0. exists 1. split; [apply list_lookup_insert_eq; lia|].
           replace (len <? j) with false by lia. rewrite orb_false_r. rewrite Z.mod_small by lia.
           destruct (decide (j = 0)) as [->|]; [done|]. replace (j =? 0) with false by lia.
           assert (j = 1 \/ j = 2 \/ j = 3 \/ j = 4 \/ j = 5 \/ j = 6 \/ j = 7) as Hc by lia. repeat (destruct Hc as [->|Hc]; [done|]). by rewrite Hc.
        -- exists 0. unfold L0. rewrite list_lookup_insert_ne by lia. split; [apply lookup_replicate; lia|].
           rewrite Z.bits_0. replace (j =? 0) with false by lia. cbn [orb]. lia.
Qed.

(** ** Formatting and mounting *)

Lemma splice_zeros N (x : list Z) : Z.of_nat (length x) <= N -> splice (zeros N) 0 x = x ++ zeros (N - Z.of_nat (length x)).
Proof.
  intros H. unfold splice, zeros. change (Z.to_nat 0) with 0%nat. rewrite take_0, app_nil_l, drop_replicate. do 2 f_equal. lia.
Qed.

(** The disk after formatting, with the bitmap [L]. *)
Definition formatted (d : sectors) (st n B : Z) (L : list Z) : sectors :=
  let N := 311296 in
  write_secs 1 (st + 611 + B) (splice (zeros N) 0 (enc_entry (entry_of dot 0) ++ enc_entry (entry_of dotdot 0)))
   (write_secs 608 (st + 3 + B) (splice (zeros N) 0 (enc_inode (Inode 0 48 0 false (st + 611 + B :: zeros 12))))
    (write_secs 1 (st + 2 + B) (splice (zeros N) 0 [1])
     (write_secs (Z.to_nat B) (st + 2) L
      (write_secs 1 (st + 1) (enc_super (format_sb st n)) d)))).

Lemma partition_format_run s a r :
  part_ok (start_lba s) (sec_cnt s) -> allocs s = a :: r -> a <> 0 ->
  exists L, let B := block_bitmap_sects (format_sb (start_lba s) (sec_cnt s)) in
    format_bitmap (block_bitmap_bit_len (sec_cnt s)) (zeros 311296) = Ok L /\ length L = Z.to_nat 311296
    /\ partition_format s = Ok (tt, set_disk (formatted (disk s) (start_lba s) (sec_cnt s) B L) (set_allocs r s)).
Proof.
  intros Hp Ha Ha0. set (st := start_lba s). set (n := sec_cnt s).
  destruct (layout_sizes st n Hp) as (Hf & Hlen & Hfit & HB1 & HB2 & HB3 & _ & Hsb).
  destruct Hp as (H0 & Hn & Hm). rewrite max_lba_eq in Hm. fold st n in H0, Hn, Hm.
  set (B := block_bitmap_sects (format_sb st n)) in *.
  destruct (format_bitmap_run (block_bitmap_bit_len n) 311296 Hlen ltac:(lia)) as (L & HL & HLl & _ & _).
  exists L. cbv zeta. split; [done|]. split; [lia|].
  unfold partition_format. rewrite (sbind_Ok _ _ s s s) by done. cbv zeta. fold st n. fold B. rewrite Hsb.
  cbn [inode_bitmap_sects block_bitmap_sects inode_table_sects block_bitmap_lba inode_bitmap_lba inode_table_lba data_start_lba dir_entry_size].
  rewrite (u32_id (st + 1)) by lia.
  rewrite (sbind_Ok _ _ _ _ _ (ide_write_run (st + 1) _ 1 s ltac:(rewrite max_lba_eq; lia) ltac:(lia) ltac:(by rewrite enc_super_length))).
  replace (1 <=? B) with true by lia. replace (608 <=? B) with false by lia. change (u32 (608 * SECTOR_SIZE)) with 311296.
  set (s1 := set_disk _ s). rewrite (sbind_Ok _ _ _ _ _ (malloc_run 311296 a r s1 Ha)). replace (a =? 0) with false by lia.
  set (s2 := set_allocs r s1). rewrite HL. run (sres_run L s2).
  assert (forall x, Z.of_nat (length x) <= 311296 -> length (splice (zeros 311296) 0 x) = Z.to_nat 311296) as Hspl.
  { intros x Hx. rewrite splice_length by (rewrite ?zeros_length; lia). apply zeros_length. }
  rewrite (sbind_Ok _ _ _ _ _ (ide_write_run (st + 2) L B s2 ltac:(rewrite max_lba_eq; lia) ltac:(lia) ltac:(lia))).
  rewrite (sbind_Ok _ _ _ _ _ (ide_write_run (st + 2 + B) (splice (zeros 311296) 0 [1]) 1 _ ltac:(rewrite max_lba_eq; lia) ltac:(lia)
     ltac:(rewrite Hspl by (cbn; lia); lia))).
  change (u32 (24 * 2)) with 48.
  rewrite (sbind_Ok _ _ _ _ _ (ide_write_run (st + 3 + B) (splice (zeros 311296) 0 (enc_inode (Inode 0 48 0 false (st + 611 + B :: zeros 12)))) 608 _ ltac:(rewrite max_lba_eq; lia) ltac:(lia)
     ltac:(rewrite Hspl by (rewrite enc_inode_length by done; lia); lia))).
  rewrite ide_write_run; [|rewrite max_lba_eq; lia|lia|].
  2: { rewrite Hspl; [lia|]. rewrite length_app, !enc_entry_length by done. lia. }
  unfold formatted. rewrite Hsb. reflexivity.
Qed.

Lemma write_first n lba x N d :
  (0 < n)%nat -> (length x <= 512)%nat -> 512 * Z.of_nat n <= N ->
  sector (write_secs n lba (splice (zeros N) 0 x) d) lba = x ++ zeros (512 - Z.of_nat (length x)).
Proof.
  intros Hn Hx HN. rewrite write_secs_in by lia. rewrite Z.sub_diag, splice_zeros by lia. change (Z.to_nat (512 * 0)) with 0%nat.
  rewrite drop_0, take_app_ge by lia. f_equal. unfold zeros. rewrite take_replicate. f_equal. lia.
Qed.

Lemma write_zeros_ok n lba x N d :
  disk_ok d -> Z.of_nat (length x) <= N -> 512 * Z.of_nat n <= N -> Forall byte x ->
  disk_ok (write_secs n lba (splice (zeros N) 0 x) d).
Proof.
  intros Hd Hx HN Hb. apply write_secs_ok; [done|rewrite splice_length, zeros_length by (rewrite ?zeros_length; lia); lia|].
  apply splice_bytes; [apply Forall_replicate; unfold byte; lia|done].
Qed.

(** The root directory's inode as it is formatted. *)
Definition root_inode (data : Z) : inode := Inode 0 48 0 false (data :: zeros 12).

Lemma formatted_reads d st n B L :
  0 <= B -> Z.of_nat (length L) = 311296 -> 512 * B <= 311296 ->
  let F := formatted d st n B L in
  sector F (st + 1) = enc_super (format_sb st n)
  /\ read_secs (Z.to_nat B) (st + 2) F = take (512 * Z.to_nat B) L
  /\ sector F (st + 2 + B) = 1 :: zeros 511
  /\ sector F (st + 3 + B) = enc_inode (root_inode (st + 611 + B)) ++ zeros 436
  /\ sector F (st + 611 + B) = demo_entries
  /\ (disk_ok d -> Forall byte L -> disk_ok F).
Proof.
  intros HB HL HBN F. unfold F, formatted. split_and!.
  - rewrite !write_secs_other by lia. rewrite write_secs_in by lia. rewrite Z.sub_diag. change (Z.to_nat (512 * 0)) with 0%nat.
    rewrite drop_0. by apply take_ge.
  - rewrite !read_write_other by lia. apply read_write_same. lia.
  - rewrite !(write_secs_other _ _ _ _ (st + 2 + B)) by lia. by rewrite write_first by (cbn; lia).
  - rewrite (write_secs_other _ _ _ _ (st + 3 + B)) by lia. rewrite write_first; [|lia|rewrite enc_inode_length by done; lia|lia].
    by rewrite enc_inode_length by done.
  - rewrite write_first; [|lia|rewrite length_app, !enc_entry_length by done; lia|lia].
    rewrite length_app, !enc_entry_length by done. unfold demo_entries. by rewrite <- app_assoc.
  - intros Hd Hb. apply write_zeros_ok; [|rewrite length_app, !enc_entry_length by done; lia|lia|].
    2: { rewrite Forall_app. unfold enc_entry. rewrite !Forall_app. split_and!; try apply enc_words_bytes; repeat constructor; unfold byte; lia. }
    apply write_zeros_ok; [|rewrite enc_inode_length by done; lia|lia|apply enc_words_bytes].
    apply write_zeros_ok; [|cbn; lia|lia|repeat constructor; unfold byte; lia].
    apply write_secs_ok; [|lia|done]. apply write_secs_ok; [done|by rewrite enc_super_length|].
    unfold enc_super. rewrite Forall_app. split; [apply enc_words_bytes|apply Forall_replicate; unfold byte; lia].
Qed.

(** Mounting reads the super block and the bitmaps. *)
Lemma mount_run s name behind p a1 a2 a3 a4 r :
  sector (disk s) (start_lba s + 1) = enc_super p -> sb_ok p -> 0 <= start_lba s < 2 ^ 31 -> start_lba s + 1 <= max_lba ->
  allocs s = a1 :: a2 :: a3 :: a4 :: r -> a1 <> 0 -> a2 <> 0 -> a3 <> 0 -> a4 <> 0 ->
  block_bitmap_lba p <= max_lba -> 0 < block_bitmap_sects p < 2 ^ 20 ->
  inode_bitmap_lba p <= max_lba -> 0 < inode_bitmap_sects p < 2 ^ 20 ->
  mount_partition name name behind s = Ok (true,
    Fsys (disk s) (start_lba s) (sec_cnt s) p
      (Bitmap (512 * block_bitmap_sects p) (read_secs (Z.to_nat (block_bitmap_sects p)) (block_bitmap_lba p) (disk s) ++ [behind]))
      (Bitmap (512 * inode_bitmap_sects p) (read_secs (Z.to_nat (inode_bitmap_sects p)) (inode_bitmap_lba p) (disk s) ++ [behind]))
      (inodes s) [] (file_table s) (dirs s) (fd_table s) (cwd_inode_nr s) r).
Proof.
  intros Hsec Hp Hst Hst2 Ha H1 H2 H3 H4 Hb1 Hb2 Hi1 Hi2. unfold mount_partition. rewrite bool_decide_true by done.
  rewrite (sbind_Ok _ _ _ _ _ (malloc_run SECTOR_SIZE a1 (a2 :: a3 :: a4 :: r) s Ha)).
  rewrite (sbind_Ok _ _ _ _ _ (malloc_run 512 a2 (a3 :: a4 :: r) (set_allocs (a2 :: a3 :: a4 :: r) s) eq_refl)).
  set (s1 := set_allocs (a3 :: a4 :: r) _).
  run (sassert_true (negb (a2 =? 0)) s1 ltac:(lia)). run (sassert_true (negb (a1 =? 0)) s1 ltac:(lia)).
  rewrite (sbind_Ok _ _ s1 s1 s1) by done. change (start_lba s1) with (start_lba s). rewrite (u32_id (start_lba s + 1)) by lia.
  run (ide_read_one SECTOR_SIZE (start_lba s + 1) s1 Hst2 ltac:(unfold SECTOR_SIZE; lia)). change (disk s1) with (disk s). rewrite Hsec.
  assert (dec_super (enc_super p) = p) as Hdec by (rewrite <- (app_nil_r (enc_super p)); by apply dec_enc_super).
  rewrite Hdec. set (s2 := set_sb p s1). rewrite (sbind_Ok _ _ s1 tt s2) by done.
  assert (forall lba sects a r' s', allocs s' = a :: r' -> a <> 0 -> lba <= max_lba -> 0 < sects < 2 ^ 20 ->
    read_bitmap lba sects behind s' = Ok (Bitmap (512 * sects) (read_secs (Z.to_nat sects) lba (disk s') ++ [behind]), set_allocs r' s')) as Hrb.
  { intros lba sects a r' s' Hal Hnz Hl Hs. unfold read_bitmap, SECTOR_SIZE. rewrite (u32_id (sects * 512)) by lia. rewrite (Z.mul_comm sects).
    rewrite (sbind_Ok _ _ _ _ _ (malloc_run (512 * sects) a r' s' Hal)). run (sassert_true (negb (a =? 0)) (set_allocs r' s') ltac:(lia)).
    run (ide_read_run (512 * sects) lba sects (set_allocs r' s') Hl ltac:(lia) ltac:(lia)). done. }
  rewrite (sbind_Ok _ _ _ _ _ (Hrb (block_bitmap_lba p) (block_bitmap_sects p) a3 (a4 :: r) s2 eq_refl H3 Hb1 Hb2)).
  set (s3 := set_allocs (a4 :: r) s2). set (bb := Bitmap _ _). set (s4 := set_block_bitmap bb s3). rewrite (sbind_Ok _ _ s3 tt s4) by done.
  rewrite (sbind_Ok _ _ _ _ _ (Hrb (inode_bitmap_lba p) (inode_bitmap_sects p) a4 r s4 eq_refl H4 Hi1 Hi2)). reflexivity.
Qed.

(** A bitmap of [n] sectors read from the bytes [L]. *)
Lemma read_bitmap_ok B L behind :
  0 < B < 2 ^ 16 -> 512 * B <= Z.of_nat (length L) -> Forall byte L -> byte behind ->
  let b := Bitmap (512 * B) (take (512 * Z.to_nat B) L ++ [behind]) in
  bitmap_ok b /\ forall j v, 0 <= j < bm_bits b -> L !! Z.to_nat (j / 8) = Some v -> bm_bit b j = Z.testbit v (j mod 8).
Proof.
  intros HB HL Hb Hbe b. unfold bm_bits. split.
  - constructor; unfold bm_bits; cbn [btmp_bytes_len bits b]; [rewrite length_app, length_take; cbn; lia|lia|].
    apply Forall_app. split; [by apply Forall_take|by constructor].
  - intros j v Hj Hv. unfold bm_bit. cbn [bits b btmp_bytes_len] in *.
    rewrite lookup_app_l by (rewrite length_take; lia). rewrite lookup_take_lt by lia. by rewrite Hv.
Qed.

Lemma byte_one j : 0 <= j < 8 -> Z.testbit 1 j = (j =? 0).
Proof.
  intros Hj. assert (j = 0 \/ j = 1 \/ j = 2 \/ j = 3 \/ j = 4 \/ j = 5 \/ j = 6 \/ j = 7) as Hc by lia.
  repeat (destruct Hc as [->|Hc]; [done|]). by rewrite Hc.
Qed.

(** The volume a formatted partition is, with [len] blocks. *)
Definition formatted_volume (s : fsys) (len : Z) : Prop :=
  volume_ok s /\ open_inodes s = []
  /\ (forall j, 0 <= j < bm_bits (block_bitmap s) -> bm_bit (block_bitmap s) j = (j =? 0) || (len <? j))
  /\ (forall j, 0 <= j < 4096 -> bm_bit (inode_bitmap s) j = (j =? 0))
  /\ disk_inode (disk s) (sb s) 0 = root_inode (data_start_lba (sb s))
  /\ dir_ok s (root_inode (data_start_lba (sb s)))
  /\ sector (disk s) (data_start_lba (sb s)) = demo_entries.

Lemma root_dir_ok s data :
  data = data_start_lba (sb s) -> 0 < data <= max_lba -> 0 < bm_bits (block_bitmap s) -> bm_bit (block_bitmap s) 0 = true ->
  sector (disk s) data = demo_entries -> dir_ok s (root_inode data).
Proof.
  intros Hd Hr Hb H0 Hs. rewrite max_lba_eq in Hr. constructor; try done.
  - constructor; cbn; try done. constructor; [unfold is_u32; lia|]. by apply Forall_replicate.
  - intros k b Hk Hbk Hz. destruct k as [|k].
    + injection Hbk as <-. unfold dir_block. rewrite <- Hd, Z.sub_diag, Hs, max_lba_eq.
      refine (conj _ (conj _ (conj _ _))); [lia|done|done|apply demo_entries_ok].
    + cbn in Hbk. change (zeros 12 !! k = Some b) in Hbk. apply lookup_replicate in Hbk as [? _]. congruence.
  - intros k k' b Hk Hk' Hb1 Hb2 Hz. destruct k as [|k], k' as [|k']; try done; cbn in Hb1, Hb2; exfalso; apply Hz.
    + change (zeros 12 !! k' = Some b) in Hb2. by apply lookup_replicate in Hb2 as [? _].
    + change (zeros 12 !! k = Some b) in Hb1. by apply lookup_replicate in Hb1 as [? _].
    + change (zeros 12 !! k = Some b) in Hb1. by apply lookup_replicate in Hb1 as [? _].
Qed.

(** What is read back from a formatted disk is a formatted volume. *)
Lemma formatted_volume_intro F st n B len L behind ins ft ds fds cw r :
  0 <= st -> 620 <= n -> st + n <= max_lba -> 8 <= len -> len + B + 611 <= n -> len <= 4096 * B -> 4096 * (B - 1) < len -> 1 <= B ->
  Z.of_nat (length L) = 311296 -> Forall byte L -> byte behind -> disk_ok F ->
  (forall j, 0 <= j < 4096 * B -> exists v, L !! Z.to_nat (j / 8) = Some v /\ Z.testbit v (j mod 8) = (j =? 0) || (len <? j)) ->
  sector F (st + 3 + B) = enc_inode (root_inode (st + 611 + B)) ++ zeros 436 ->
  sector F (st + 611 + B) = demo_entries ->
  formatted_volume
    (Fsys F st n (SuperBlock 0x19590318 n 4096 st (st + 2) B (st + 2 + B) 1 (st + 3 + B) 608 (st + 611 + B) 0 24)
       (Bitmap (512 * B) (take (512 * Z.to_nat B) L ++ [behind])) (Bitmap 512 (take 512 (1 :: zeros 511) ++ [behind]))
       ins [] ft ds fds cw r) len.
Proof.
  intros Hst Hn Hm Hlen Hfit HB1 HB2 HB3 HLl HLb Hbe HF HLbits R4 R5. pose proof max_lba_eq as Hmx. rewrite Hmx in Hm.
  destruct (read_bitmap_ok B L behind) as [Hbb Hbits]; [lia|lia|done|done|].
  destruct (read_bitmap_ok 1 (1 :: zeros 511) behind) as [Hib Hibits]; [lia|done| |done|].
  { constructor; [unfold byte; lia|]. apply Forall_replicate. unfold byte. lia. }
  assert (forall j, 0 <= j < 4096 * B -> bm_bit (Bitmap (512 * B) (take (512 * Z.to_nat B) L ++ [behind])) j = (j =? 0) || (len <? j)) as Hbit.
  { intros j Hj. destruct (HLbits j Hj) as (v & Hv & Ht). rewrite (Hbits j v); [exact Ht| |exact Hv]. unfold bm_bits. cbn [btmp_bytes_len]. lia. }
  change (512 * 1) with 512 in Hib, Hibits. change (512 * Z.to_nat 1)%nat with 512%nat in Hib, Hibits.
  set (b1 := Bitmap (512 * B) _) in *. set (b2 := Bitmap 512 _) in *.
  assert (bm_bits b1 = 4096 * B) as Hn1 by (unfold bm_bits, b1; cbn [btmp_bytes_len]; lia).
  assert (forall j, 0 <= j < 4096 -> bm_bit b2 j = (j =? 0)) as Hbit2.
  { intros j Hj. destruct (decide (j / 8 = 0)) as [E|E].
    - rewrite (Hibits j 1); [|change (0 <= j < 512 * 8); lia|by rewrite E]. rewrite byte_one by lia. lia.
    - rewrite (Hibits j 0); [rewrite Z.bits_0; lia|change (0 <= j < 512 * 8); lia|].
      replace (Z.to_nat (j / 8)) with (S (Z.to_nat (j / 8 - 1))) by lia. apply (lookup_replicate_2 511 0). lia. }
  assert (btmp_bytes_len b1 = 512 * B) as Hl1 by reflexivity. assert (btmp_bytes_len b2 = 512) as Hl2 by reflexivity.
  clear Hbits HLbits HLb. clearbody b1 b2.
  refine (conj _ (conj eq_refl (conj _ (conj Hbit2 (conj _ (conj _ R5)))))).
  - constructor; cbn [disk start_lba sec_cnt sb block_bitmap inode_bitmap block_bitmap_lba block_bitmap_sects inode_bitmap_lba inode_table_lba
      data_start_lba dir_entry_size]; rewrite ?Hmx; try assumption; try lia; [|reflexivity].
    intros j Hj Hc. rewrite Hn1 in Hj. rewrite Hbit in Hc by lia. destruct (len <? j) eqn:E; [by rewrite orb_true_r in Hc|]. lia.
  - cbn [block_bitmap]. rewrite Hn1. exact Hbit.
  - unfold disk_inode, cell. cbn [inode_table_lba disk sb data_start_lba]. rewrite Z.mul_0_r, Z.add_0_r.
    pose proof (slice_dbytes F (512 * (st + 3 + B)) 512 0 76 ltac:(lia) ltac:(lia) ltac:(lia)) as Hsl. rewrite Z.add_0_r in Hsl.
    change inode_size with 76. rewrite <- Hsl, <- sector_bytes, R4 by done. unfold slice. change (Z.to_nat 0) with 0%nat. rewrite drop_0.
    rewrite take_app_length' by done. apply dec_enc_inode. constructor; cbn; try done.
    constructor; [unfold is_u32; lia|]. by apply Forall_replicate.
  - apply root_dir_ok; cbn [sb block_bitmap data_start_lba disk]; [reflexivity|rewrite Hmx; lia|rewrite Hn1; lia|by rewrite Hbit by lia|exact R5].
Qed.

Lemma format_mount_run s name behind a0 a1 a2 a3 a4 r :
  disk_ok (disk s) -> part_ok (start_lba s) (sec_cnt s) -> byte behind ->
  allocs s = a0 :: a1 :: a2 :: a3 :: a4 :: r -> a0 <> 0 -> a1 <> 0 -> a2 <> 0 -> a3 <> 0 -> a4 <> 0 ->
  exists s1 s2, partition_format s = Ok (tt, s1) /\ mount_partition name name behind s1 = Ok (true, s2)
    /\ sb s2 = format_sb (start_lba s) (sec_cnt s) /\ formatted_volume s2 (block_bitmap_bit_len (sec_cnt s))
    /\ (start_lba s1 = start_lba s /\ sec_cnt s1 = sec_cnt s)
    /\ (inodes s2 = inodes s /\ allocs s2 = r /\ file_table s2 = file_table s).
Proof.
  intros Hd Hp Hbe Ha H0 H1 H2 H3 H4. set (st := start_lba s). set (n := sec_cnt s).
  destruct (partition_format_run s a0 (a1 :: a2 :: a3 :: a4 :: r) Hp Ha H0) as (L & HL & HLl & Hr). fold st n in HL, Hr.
  destruct (layout_sizes st n Hp) as (Hf & Hlen & Hfit & HB1 & HB2 & HB3 & Hslack & Hsb).
  destruct Hp as (Hst & Hn & Hm). rewrite max_lba_eq in Hm. fold st n in Hst, Hn, Hm.
  set (B := block_bitmap_sects (format_sb st n)) in *. set (len := block_bitmap_bit_len n) in *.
  destruct (format_bitmap_run len 311296 Hlen ltac:(lia)) as (L' & HL' & _ & HLb & HLbits).
  rewrite HL in HL'. injection HL' as <-.
  destruct (formatted_reads (disk s) st n B L) as (R1 & R2 & R3 & R4 & R5 & R6); [lia|lia|lia|].
  set (F := formatted (disk s) st n B L) in *. specialize (R6 Hd HLb).
  set (s1 := set_disk F (set_allocs (a1 :: a2 :: a3 :: a4 :: r) s)) in *.
  assert (sb_ok (format_sb st n)) as Hsbok.
  { rewrite Hsb. unfold sb_ok, is_u32. cbn [magic sb_sec_cnt inode_cnt part_lba_base block_bitmap_lba block_bitmap_sects inode_bitmap_lba
      inode_bitmap_sects inode_table_lba inode_table_sects data_start_lba root_inode_no dir_entry_size].
    change (2 ^ 32) with 4294967296. clearbody B. split_and!; lia. }
  pose proof (mount_run s1 name behind (format_sb st n) a1 a2 a3 a4 r R1 Hsbok ltac:(cbn; lia) ltac:(cbn; rewrite max_lba_eq; lia) eq_refl
    H1 H2 H3 H4) as Hmount.
  rewrite Hsb in Hmount. cbn [block_bitmap_lba block_bitmap_sects inode_bitmap_lba inode_bitmap_sects] in Hmount.
  specialize (Hmount ltac:(rewrite max_lba_eq; lia) ltac:(lia) ltac:(rewrite max_lba_eq; lia) ltac:(lia)).
  change (disk s1) with F in Hmount. rewrite R2 in Hmount. change (Z.to_nat 1) with 1%nat in Hmount. cbn [read_secs] in Hmount. rewrite R3 in Hmount.
  eexists s1, _. split; [exact Hr|]. split; [exact Hmount|]. split; [by rewrite Hsb|].
  split; [|split; [split; reflexivity|split; [reflexivity|split; reflexivity]]].
  apply formatted_volume_intro; try assumption; try lia. intros j Hj. apply HLbits. lia.
Qed.

(** The state a freshly booted kernel formats: the demonstration volume's
    partition with nothing on it. *)
Lemma demo_part_ok : part_ok (start_lba demo_fs) (sec_cnt demo_fs).
Proof. unfold part_ok. rewrite max_lba_eq. cbn. lia. Qed.

(** C22: a partition of at least 620 sectors that fits on the disk, formatted and
    then mounted by its own name, is a well-formed volume: no inode is open,
    inode 0 is the root directory, its first block is the first data block and
    holds the entries "." and "..", inode 0 is the only inode in use, and of the
    block bitmap exactly block 0 and the bits above [len] are in use, where [len]
    is the number of data blocks (so bit [len], one behind the last block, is
    left free by [partition_format]). *)
Theorem format_mount (s : fsys) (name : list Z) (behind a0 a1 a2 a3 a4 : Z) (r : list Z) :
  disk_ok (disk s) -> part_ok (start_lba s) (sec_cnt s) -> byte behind ->
  allocs s = a0 :: a1 :: a2 :: a3 :: a4 :: r -> a0 <> 0 -> a1 <> 0 -> a2 <> 0 -> a3 <> 0 -> a4 <> 0 ->
  exists s1 s2, partition_format s = Ok (tt, s1) /\ mount_partition name name behind s1 = Ok (true, s2)
    /\ sb s2 = format_sb (start_lba s) (sec_cnt s) /\ formatted_volume s2 (block_bitmap_bit_len (sec_cnt s)).
Proof.
  intros. destruct (format_mount_run s name behind a0 a1 a2 a3 a4 r) as (s1 & s2 & H8 & H9 & H10 & H11 & _); try done. by exists s1, s2.
Qed.

Lemma format_mount_witness :
  exists s1 s2, partition_format demo_fs = Ok (tt, s1) /\ mount_partition [115] [115] 0 s1 = Ok (true, s2)
    /\ sb s2 = format_sb 0 1000 /\ formatted_volume s2 (block_bitmap_bit_len 1000).
Proof.
  apply (format_mount demo_fs [115] 0 4096 8192 12288 16384 20480 [24576]); first [apply empty_disk_ok|apply demo_part_ok|done].
Defined.

(** ** The position of a file *)

(** The position [whence] and [offset] name. *)
Definition seek_target (f : file) (i : inode) (offset whence : Z) : Z :=
  if whence =? SEEK_SET then offset else if whence =? SEEK_CUR then fd_pos f + offset else i_size i + offset.

(** [sys_lseek] on an open file with numbers below 2^31 moves the position
    to the place [whence] and [offset] name when it lies inside the file, and
    otherwise returns -1 and changes nothing: a position never reaches the end of
    the file, where an append would start. *)
Theorem lseek_bounds (s : fsys) (fd g offset whence : Z) (f : file) (i : inode) :
  0 <= fd -> 1 <= whence <= 3 -> fd_table s !! Z.to_nat fd = Some g -> 0 <= g < 32 ->
  file_table s !! Z.to_nat g = Some f -> inodes s !! fd_inode f = Some i ->
  0 <= fd_pos f < 2 ^ 31 -> 0 <= i_size i < 2 ^ 31 -> - 2 ^ 31 <= seek_target f i offset whence < 2 ^ 31 ->
  sys_lseek fd offset whence s =
    let t := seek_target f i offset whence in
    if (0 <=? t) && (t <? i_size i)
    then Ok (t, set_file_table (<[Z.to_nat g := File t (fd_flag f) (fd_inode f)]> (file_table s)) s)
    else Ok (-1, s).
Proof.
  intros Hfd Hw Hg Hg32 Hf Hi Hp Hsz Ht. unfold sys_lseek. replace (fd <? 0) with false by lia.
  run (sassert_true ((0 <? whence) && (whence <? 4)) s ltac:(lia)).
  assert (fd_local2global fd s = Ok (g, s)) as Hl.
  { unfold fd_local2global. rewrite (sbind_Ok _ _ s _ s) by done. rewrite (rd_lookup _ _ g) by (lia || done). run (sres_run g s).
    run (sassert_true ((0 <=? g) && (g <? MAX_FILE_OPEN)) s ltac:(unfold MAX_FILE_OPEN; lia)). done. }
  rewrite (sbind_Ok _ _ s g s Hl). rewrite (sbind_Ok _ _ _ _ _ (file_at_run g f s ltac:(lia) Hf)).
  rewrite (sbind_Ok _ _ _ _ _ (inode_at_run _ i s Hi)). cbv zeta. unfold seek_target in *.
  rewrite (i32_id (i_size i)), (i32_id (fd_pos f)), (i32_id (i_size i - 1)) by lia.
  set (t := if whence =? SEEK_SET then _ else if whence =? SEEK_CUR then fd_pos f + offset else _) in *.
  assert ((if whence =? SEEK_SET then offset else if whence =? SEEK_CUR then i32 (fd_pos f + offset) else i32 (i_size i + offset)) = t) as ->.
  { subst t. destruct (whence =? SEEK_SET); [done|]. destruct (whence =? SEEK_CUR); by rewrite i32_id. }
  clearbody t. destruct ((0 <=? t) && (t <? i_size i)) eqn:E.
  - replace ((t <? 0) || (i_size i - 1 <? t)) with false by lia.
    run (put_file_run g f (File (u32 t) (fd_flag f) (fd_inode f)) s ltac:(lia) Hf). by rewrite (u32_id t) by lia.
  - by replace ((t <? 0) || (i_size i - 1 <? t)) with true by lia.
Qed.

Lemma lseek_bounds_witness :
  sys_lseek 3 (-90) 2 (demo_file 1)
  = Ok (420, set_file_table (<[3%nat := File 420 2 4096]> (file_table (demo_file 1))) (demo_file 1)).
Proof.
  exact (lseek_bounds (demo_file 1) 3 3 (-90) 2 (File 510 2 4096) (Inode 1 600 1 true (613 :: 614 :: zeros 11))
    ltac:(lia) ltac:(lia) eq_refl ltac:(lia) eq_refl eq_refl ltac:(cbn; lia) ltac:(cbn; lia) ltac:(vm_compute; done)).
Defined.
