(* ===== verification/Volumes.v ===== *)
(** * Volumes: filesys_init

    The search of fs/fs.c for partitions to format, and the mounting of the
    default one, over all the disks the driver has found.  Fs has what is done
    with one partition. *)
From S2P Require Import Prelude Bitmap CString Paging Kernel Disk Ide Fsys Inode Dir File FileSpec DirSpec Fs FsSpec.

(** ** Definitions *)

(** The sectors of every disk, by channel and number, and the state of the file
    system; [disk] of the latter is the disk in use. *)
Record volumes : Type := Volumes { vs_disks : gmap (Z * Z) sectors; vs_fs : fsys }.

Definition disk_of (v : volumes) (hd : Z * Z) : sectors := default ∅ (vs_disks v !! hd).

(** The file system's code on a partition of the disk [hd]. *)
Definition use_part (d : sectors) (st n : Z) (s : fsys) : fsys :=
  Fsys d st n (sb s) (block_bitmap s) (inode_bitmap s) (inodes s) (open_inodes s) (file_table s) (dirs s) (fd_table s) (cwd_inode_nr s) (allocs s).

Definition on_part {A} (hd : Z * Z) (p : partition) (c : st fsys A) : st volumes A := fun v =>
  match c (use_part (disk_of v hd) (p_start_lba p) (p_sec_cnt p) (vs_fs v)) with
  | Ok (a, s) => Ok (a, Volumes (<[hd := disk s]> (vs_disks v)) s)
  | Bad e => Bad e
  end.

Definition on_vfs {A} (c : st fsys A) : st volumes A := fun v =>
  match c (vs_fs v) with Ok (a, s) => Ok (a, Volumes (vs_disks v) s) | Bad e => Bad e end.

(** [while (part_idx < 12)]: [part] is what is left of the array it points into. *)
Fixpoint part_loop (fuel : nat) (hd : Z * Z) (d : ata_disk) (part : list partition) (part_idx : Z) : st volumes Z :=
  match fuel with
  | O => sres (Bad EFuel)
  | S f =>
    if part_idx <? 12 then
      let part := if part_idx =? 4 then logic_parts d else part in
      match part with
      | [] => sres (Bad EFault)
      | p :: r =>
        _ ← (if negb (p_sec_cnt p =? 0) then on_part hd p check_partition else mret tt);
        part_loop f hd d r (u8 (part_idx + 1))
      end
    else mret part_idx
  end.

(** [while (dev_no < 2)]: disk 0 of a channel is left out. *)
Fixpoint dev_loop (n : nat) (channel_no : Z) (c : ide_channel) (dev_no part_idx : Z) : st volumes Z :=
  match n with
  | O => mret part_idx
  | S n' =>
    if dev_no =? 0 then dev_loop n' channel_no c 1 part_idx
    else
      d ← sres (rd (devices c) dev_no);
      part_idx ← part_loop 13 (channel_no, dev_no) d (prim_parts d) part_idx;
      dev_loop n' channel_no c (dev_no + 1) part_idx
  end.

(** [while (channel_no < channel_cnt)]; [part_idx] goes on from one disk to the
    next. *)
Fixpoint channel_loop (cnt : nat) (chs : list ide_channel) (channel_no part_idx : Z) : st volumes unit :=
  match cnt with
  | O => mret tt
  | S cnt' =>
    c ← sres (rd chs channel_no);
    part_idx ← dev_loop 2 channel_no c 0 part_idx;
    channel_loop cnt' chs (channel_no + 1) part_idx
  end.

Definition default_part : list Z := [115; 100; 98; 49].

(** The first partition [mount_partition] answers true for becomes [cur_part]. *)
Fixpoint mount_first (ps : list partition) (behind : Z) : st volumes bool :=
  match ps with
  | [] => mret false
  | p :: r =>
    if bool_decide (p_name p = default_part) then on_part (my_disk p) p (mount_partition (p_name p) default_part behind)
    else mount_first r behind
  end.

(** Without a partition of that name [open_root_dir] follows a null pointer. *)
Definition filesys_init (i : ide_state) (behind : Z) : st volumes unit :=
  sb_buf ← on_vfs (malloc SECTOR_SIZE);
  _ ← sassert (negb (sb_buf =? 0));
  _ ← channel_loop (Z.to_nat (channel_cnt i)) (channels i) 0 0;
  mounted ← mount_first (partition_list i) behind;
  if mounted : bool then
    on_vfs (_ ← open_root_dir; upd (fun s => set_file_table (map (fun f => File (fd_pos f) (fd_flag f) 0) (file_table s)) s))
  else sres (Bad EFault).

(** ** The loops *)

Definition unused (p : partition) : Prop := p_sec_cnt p = 0.

(** The arrays of a disk, as the driver leaves them. *)
Definition tables (d : ata_disk) : Prop := length (prim_parts d) = 4%nat /\ length (logic_parts d) = 8%nat.

(** After twelve partitions the index stays, and no other disk is looked at. *)
Lemma dev_loop_done ch c d v : rd (devices c) 1 = Ok d -> dev_loop 2 ch c 0 12 v = Ok (12, v).
Proof. intros Hd. cbn [dev_loop]. change (0 =? 0) with true. change (1 =? 0) with false. cbv iota. rewrite Hd. done. Qed.

Lemma channel_loop_done cnt chs ch v :
  (forall k, 0 <= k < Z.of_nat cnt -> exists c d, rd chs (ch + k) = Ok c /\ rd (devices c) 1 = Ok d) -> channel_loop cnt chs ch 12 v = Ok (tt, v).
Proof.
  revert ch. induction cnt as [|cnt IH]; intros ch H; [done|]. cbn [channel_loop].
  destruct (H 0 ltac:(lia)) as (c & d & Hc & Hd). rewrite Z.add_0_r in Hc. rewrite Hc.
  run (eq_refl : sres (Ok c) v = Ok (c, v)). run (dev_loop_done ch c d v Hd). apply IH.
  intros k Hk. replace (ch + 1 + k) with (ch + (k + 1)) by lia. apply H. lia.
Qed.

(** Partitions that do not exist are passed over. *)
Lemma unused_run n hd d ps k v :
  Forall unused ps -> 0 <= k -> k + Z.of_nat (length ps) <= 12 -> (k + Z.of_nat (length ps) <= 4 \/ 4 < k) ->
  part_loop (length ps + n) hd d ps k v = part_loop n hd d [] (k + Z.of_nat (length ps)) v.
Proof.
  intros Hu. revert k. induction Hu as [|p r Hp Hr IH]; intros k H0 H12 H4; [by rewrite Z.add_0_r|]. cbn [length] in *.
  cbn [Nat.add part_loop]. replace (k <? 12) with true by lia. replace (k =? 4) with false by lia. rewrite Hp. change (negb (0 =? 0)) with false. cbv iota.
  rewrite u8_id by lia. run (eq_refl : (mret tt : st volumes unit) v = Ok (tt, v)). rewrite IH by lia. f_equal. lia.
Qed.

Lemma use_part_same s : use_part (disk s) (start_lba s) (sec_cnt s) s = s.
Proof. by destruct s. Qed.

Lemma on_part_run {A} hd p (c : st fsys A) v a s :
  c (use_part (disk_of v hd) (p_start_lba p) (p_sec_cnt p) (vs_fs v)) = Ok (a, s) ->
  on_part hd p c v = Ok (a, Volumes (<[hd := disk s]> (vs_disks v)) s).
Proof. intros H. unfold on_part. by rewrite H. Qed.

Lemma on_vfs_run {A} (c : st fsys A) v a s : c (vs_fs v) = Ok (a, s) -> on_vfs c v = Ok (a, Volumes (vs_disks v) s).
Proof. intros H. unfold on_vfs. by rewrite H. Qed.

Lemma part_step n hd d p r k v v' :
  0 <= k < 12 -> k <> 4 -> p_sec_cnt p <> 0 -> on_part hd p check_partition v = Ok (tt, v') ->
  part_loop (S n) hd d (p :: r) k v = part_loop n hd d r (k + 1) v'.
Proof.
  intros Hk H4 Hn Hrun. cbn [part_loop]. replace (k <? 12) with true by lia. replace (k =? 4) with false by lia.
  rewrite (proj2 (Z.eqb_neq _ _) Hn). cbn [negb]. run Hrun. by rewrite u8_id by lia.
Qed.

Lemma logic_step n hd d q qs v : logic_parts d = q :: qs -> unused q -> part_loop (S n) hd d [] 4 v = part_loop n hd d qs 5 v.
Proof.
  intros Hl Hq. cbn [part_loop]. change (4 <? 12) with true. change (4 =? 4) with true. cbv iota. rewrite Hl, Hq.
  change (negb (0 =? 0)) with false. cbv iota. by run (eq_refl : (mret tt : st volumes unit) v = Ok (tt, v)).
Qed.

(** One existing partition, the first of its disk. *)
Lemma part_loop_first hd d p ps v v' :
  tables d -> prim_parts d = p :: ps -> p_sec_cnt p <> 0 -> Forall unused ps -> Forall unused (logic_parts d) ->
  on_part hd p check_partition v = Ok (tt, v') -> part_loop 13 hd d (prim_parts d) 0 v = Ok (12, v').
Proof.
  intros [Hlp Hll] Hp Hn Hu Hl Hrun. rewrite Hp in Hlp |- *. cbn [length] in Hlp.
  rewrite (part_step 12 hd d p ps 0 v v') by (done || lia). assert (length ps = 3%nat) as H3 by lia.
  pose proof (unused_run 9 hd d ps 1 v' Hu) as H. rewrite H3 in H. etransitivity; [apply H; lia|].
  destruct (logic_parts d) as [|q qs] eqn:El; [done|]. apply Forall_cons_1 in Hl as [Hq Hqs]. cbn [length] in Hll.
  etransitivity; [exact (logic_step 8 hd d q qs v' El Hq)|]. assert (length qs = 7%nat) as H7 by lia.
  pose proof (unused_run 1 hd d qs 5 v' Hqs) as H'. rewrite H7 in H'. etransitivity; [apply H'; lia|]. done.
Qed.

(** The checking of all disks when the first disk 1 has one partition, the first
    of its table. *)
Lemma channels_run i c chs d p ps v v' :
  channels i = c :: chs -> channel_cnt i = Z.of_nat (length (channels i)) ->
  (forall c', c' ∈ chs -> exists d', rd (devices c') 1 = Ok d') ->
  rd (devices c) 1 = Ok d -> tables d -> prim_parts d = p :: ps -> p_sec_cnt p <> 0 -> Forall unused ps -> Forall unused (logic_parts d) ->
  on_part (0, 1) p check_partition v = Ok (tt, v') ->
  channel_loop (Z.to_nat (channel_cnt i)) (channels i) 0 0 v = Ok (tt, v').
Proof.
  intros Hc Hcnt Hother Hd Ht Hp Hn Hu Hl Hrun. rewrite Hcnt, Nat2Z.id, Hc. cbn [length channel_loop].
  run (eq_refl : sres (rd (c :: chs) 0) v = Ok (c, v)).
  assert (dev_loop 2 0 c 0 0 v = Ok (12, v')) as Hdev.
  { cbn [dev_loop]. change (0 =? 0) with true. change (1 =? 0) with false. cbv iota. rewrite Hd.
    run (eq_refl : sres (Ok d) v = Ok (d, v)). by run (part_loop_first (0, 1) d p ps v v' Ht Hp Hn Hu Hl Hrun). }
  run Hdev. apply channel_loop_done. intros k Hk.
  destruct (lookup_lt_is_Some_2 chs (Z.to_nat k)) as [c' Hc']; [lia|]. destruct (Hother c') as [d' Hd']; [by eapply list_elem_of_lookup_2|].
  exists c', d'. split; [|done]. unfold rd. rewrite bool_decide_true by lia.
  replace (Z.to_nat (0 + 1 + k)) with (S (Z.to_nat k)) by lia. change ((c :: chs) !! S (Z.to_nat k)) with (chs !! Z.to_nat k). by rewrite Hc'.
Qed.

(** The first disk 1 is formatted and its partition mounted. *)
Section Boot.
Context (i : ide_state) (behind : Z) (v : volumes) (c : ide_channel) (chs : list ide_channel) (d : ata_disk) (p : partition)
  (ps qs : list partition) (a a0 a1 a2 a3 a4 a5 a6 : Z) (r : list Z).

(** The tables of the driver: one partition on disk 1 of channel 0, named
    [default_part], and whatever other channels there are. *)
Record one_partition : Prop := {
  op_channels : channels i = c :: chs;
  op_cnt : channel_cnt i = Z.of_nat (length (channels i));
  op_others : forall c', c' ∈ chs -> exists d', rd (devices c') 1 = Ok d';
  op_disk : rd (devices c) 1 = Ok d;
  op_tables : tables d;
  op_prim : prim_parts d = p :: ps;
  op_unused : Forall unused ps /\ Forall unused (logic_parts d);
  op_list : partition_list i = p :: qs;
  op_name : p_name p = default_part /\ my_disk p = (0, 1)
}.

(** The disk has no file system, and memory is there. *)
Record unformatted : Prop := {
  uf_disk : disk_ok (disk_of v (0, 1));
  uf_part : part_ok (p_start_lba p) (p_sec_cnt p);
  uf_magic : magic (dec_super (sector (disk_of v (0, 1)) (p_start_lba p + 1))) <> 0x19590318;
  uf_allocs : allocs (vs_fs v) = a :: a0 :: a1 :: a2 :: a3 :: a4 :: a5 :: a6 :: r;
  uf_memory : Forall (fun x => x <> 0) [a; a0; a1; a2; a3; a4; a5; a6] /\ inodes (vs_fs v) !! a5 = None;
  uf_behind : byte behind
}.

Lemma boot_run :
  one_partition -> unformatted ->
  exists v', filesys_init i behind v = Ok (tt, v')
    /\ volume_ok (vs_fs v') /\ sb (vs_fs v') = format_sb (p_start_lba p) (p_sec_cnt p)
    /\ dirs (vs_fs v') !! root_dir = Some (Dir a5 0 (zeros 512))
    /\ is_open (vs_fs v') 0 a5 (set_i_open_cnts 1 (root_inode (data_start_lba (sb (vs_fs v')))))
    /\ dir_ok (vs_fs v') (root_inode (data_start_lba (sb (vs_fs v'))))
    /\ sector (disk (vs_fs v')) (data_start_lba (sb (vs_fs v'))) = demo_entries
    /\ Forall (fun f => fd_inode f = 0) (file_table (vs_fs v'))
    /\ disk_of v' (0, 1) = disk (vs_fs v')
    /\ (forall hd, hd <> (0, 1) -> disk_of v' hd = disk_of v hd).
Proof.
  intros [Hch Hcnt Hoth Hd Ht Hprim [Hu Hul] Hlist [Hname Hmy]] [Hdok Hpart Hmag Hal [Hnz Hfree] Hbe].
  rewrite !Forall_cons in Hnz. destruct Hnz as (Ha & Ha0 & Ha1 & Ha2 & Ha3 & Ha4 & Ha5 & Ha6 & _).
  unfold filesys_init. pose proof (malloc_run SECTOR_SIZE a _ (vs_fs v) Hal) as Hm.
  run (on_vfs_run (malloc SECTOR_SIZE) v a _ Hm). set (v1 := Volumes (vs_disks v) _). run (sassert_true (negb (a =? 0)) v1 ltac:(lia)).
  set (s0 := use_part (disk_of v1 (0, 1)) (p_start_lba p) (p_sec_cnt p) (vs_fs v1)).
  destruct (format_mount_run s0 default_part behind a0 a1 a2 a3 a4 (a5 :: a6 :: r)) as (s1 & s2 & Hf & Hmt & Hsb & Hfv & [Hst Hsc] & Hin & Hal2 & Hft);
    [exact Hdok|exact Hpart|exact Hbe|reflexivity|done|done|done|done|done|].
  destruct Hpart as (Hp0 & Hp1 & Hp2). rewrite max_lba_eq in Hp2.
  assert (check_partition s0 = Ok (tt, s1)) as Hcheck.
  { unfold check_partition. run (eq_refl : sget s0 = Ok (s0, s0)). change (sec_cnt s0) with (p_sec_cnt p). change (start_lba s0) with (p_start_lba p).
    replace (p_sec_cnt p =? 0) with false by lia. rewrite u32_id by lia.
    run (ide_read_one SECTOR_SIZE (p_start_lba p + 1) s0 ltac:(rewrite max_lba_eq; lia) ltac:(unfold SECTOR_SIZE; lia)).
    change (disk s0) with (disk_of v (0, 1)). by rewrite (proj2 (Z.eqb_neq _ _) Hmag). }
  set (v2 := Volumes (<[(0, 1) := disk s1]> (vs_disks v1)) s1).
  run (channels_run i c chs d p ps v1 v2 Hch Hcnt Hoth Hd Ht Hprim ltac:(lia) Hu Hul (on_part_run (0, 1) p check_partition v1 tt s1 Hcheck)).
  assert (disk_of v2 (0, 1) = disk s1) as Hd2 by (unfold disk_of, v2; cbn [vs_disks]; by rewrite lookup_insert_eq).
  set (v3 := Volumes (<[(0, 1) := disk s2]> (vs_disks v2)) s2).
  assert (mount_first (partition_list i) behind v2 = Ok (true, v3)) as Hmf.
  { rewrite Hlist. cbn [mount_first]. rewrite bool_decide_true by done. rewrite Hmy, Hname. apply on_part_run. rewrite Hd2.
    change (p_start_lba p) with (start_lba s0). change (p_sec_cnt p) with (sec_cnt s0). rewrite <- Hst, <- Hsc.
    change (vs_fs v2) with s1. by rewrite use_part_same. }
  run Hmf. destruct Hfv as (Hv & Hno & _ & _ & Hroot & Hdir & Hsec).
  assert (open_ok s2) as Ho.
  { constructor; rewrite Hno; [constructor|..]; [by intros q Hq%not_elem_of_nil|by intros q q' x y Hq%not_elem_of_nil]. }
  assert (inode_open 0 s2 = Ok (a5, opened s2 0 a5 r)) as Hopen.
  { apply open_new_run; [exact Hv|exact Ho|lia| |].
    - intros q x (Hq & _). rewrite Hno in Hq. by apply not_elem_of_nil in Hq.
    - exists a6. split; [exact Hal2|]. split; [exact Ha5|]. split; [exact Ha6|]. by rewrite Hin. }
  set (s3 := opened s2 0 a5 r) in *.
  set (s4 := set_file_table (map (fun f => File (fd_pos f) (fd_flag f) 0) (file_table s3)) (set_dirs (<[root_dir := Dir a5 0 (zeros 512)]> (dirs s3)) s3)).
  exists (Volumes (vs_disks v3) s4). split.
  { apply on_vfs_run. change (vs_fs v3) with s2. unfold open_root_dir.
    rewrite sbind_assoc. run (gets_run sb s2). change (sb s2) with (sb s2). rewrite Hsb at 1. rewrite sbind_assoc.
    run (Hopen : inode_open (root_inode_no (format_sb (start_lba s0) (sec_cnt s0))) s2 = _). reflexivity. }
  cbn [vs_fs]. split; [by destruct Hv|]. split; [exact Hsb|]. split; [apply lookup_insert_eq|]. split.
  { split; [by apply list_elem_of_here|]. split; [|done]. change (inodes s4) with (inodes s3). unfold s3, opened. cbn [inodes set_inodes set_open_inodes].
    rewrite lookup_insert_eq. change (sb s4) with (sb s2). by rewrite Hroot. }
  split; [destruct Hdir as [H1 H2 H3 H4 H5]; by split|]. split; [exact Hsec|]. split.
  { apply Forall_forall. intros f (g & -> & _)%list_elem_of_fmap. done. }
  split; [unfold disk_of, v3; cbn [vs_disks]; by rewrite lookup_insert_eq|].
  intros hd Hhd. unfold disk_of, v3, v2, v1. cbn [vs_disks]. by rewrite !lookup_insert_ne by congruence.
Qed.
End Boot.

(** ** The theorem *)

(** C24: [filesys_init] boots the file system.  When disk 1 of the first channel
    has one partition named sdb1 of at least 620 sectors and no super block with
    the magic number, the search formats it, mounts it and opens its root: the
    result is a well-formed volume laid out by [format_sb], inode 0 open once
    with the entries "." and "..", and no file open.  Every other disk is as it
    was: the index of the partition is not reset, so the partitions of other
    disks are neither looked at nor formatted. *)
Theorem filesys_init_boots (i : ide_state) (behind : Z) (v : volumes) (c : ide_channel) (chs : list ide_channel) (d : ata_disk)
    (p : partition) (ps qs : list partition) (a a0 a1 a2 a3 a4 a5 a6 : Z) (r : list Z) :
  one_partition i c chs d p ps qs -> unformatted behind v p a a0 a1 a2 a3 a4 a5 a6 r ->
  exists v', filesys_init i behind v = Ok (tt, v')
    /\ volume_ok (vs_fs v') /\ sb (vs_fs v') = format_sb (p_start_lba p) (p_sec_cnt p)
    /\ dirs (vs_fs v') !! root_dir = Some (Dir a5 0 (zeros 512))
    /\ is_open (vs_fs v') 0 a5 (set_i_open_cnts 1 (root_inode (data_start_lba (sb (vs_fs v')))))
    /\ dir_ok (vs_fs v') (root_inode (data_start_lba (sb (vs_fs v'))))
    /\ sector (disk (vs_fs v')) (data_start_lba (sb (vs_fs v'))) = demo_entries
    /\ Forall (fun f => fd_inode f = 0) (file_table (vs_fs v'))
    /\ disk_of v' (0, 1) = disk (vs_fs v')
    /\ (forall hd, hd <> (0, 1) -> disk_of v' hd = disk_of v hd).
Proof. apply boot_run. Qed.

Definition no_part : partition := Partition 0 0 (0, 0) [].

Definition demo_part (hd : Z * Z) (nm : list Z) : partition := Partition 63 1000 hd nm.

Definition demo_ata (ch dev : Z) (ps : list partition) : ata_disk := AtaDisk [115; 100] ch dev (ps ++ replicate 3 no_part) (replicate 8 no_part).

(** Two channels, each with a partition on its second disk. *)
Definition demo_channels : list ide_channel :=
  (fun ch => IdeChannel [] 0x1f0 0x2e false
     [demo_ata ch 0 [no_part]; demo_ata ch 1 [demo_part (ch, 1) (if ch =? 0 then default_part else [115; 100; 100; 49])]]) <$> [0; 1].

Definition demo_tables : ide_state :=
  IdeState 2 demo_channels 0 0 0 [demo_part (0, 1) default_part; demo_part (1, 1) [115; 100; 100; 49]] [].

Definition demo_volumes : volumes := Volumes ∅ (set_allocs [4096; 8192; 12288; 16384; 20480; 24576; 28672; 32768] demo_fs).

Lemma filesys_init_boots_witness :
  exists v', filesys_init demo_tables 0 demo_volumes = Ok (tt, v') /\ volume_ok (vs_fs v') /\ disk_of v' (1, 1) = ∅.
Proof.
  destruct (filesys_init_boots demo_tables 0 demo_volumes (default (IdeChannel [] 0 0 false []) (demo_channels !! 0%nat)) (drop 1 demo_channels)
    (demo_ata 0 1 [demo_part (0, 1) default_part]) (demo_part (0, 1) default_part) (replicate 3 no_part)
    [demo_part (1, 1) [115; 100; 100; 49]] 4096 8192 12288 16384 20480 24576 28672 32768 [])
    as (v' & H1 & H2 & _ & _ & _ & _ & _ & _ & _ & H3).
  - constructor; try done; [|by repeat constructor]. intros c' ->%list_elem_of_singleton. by eexists.
  - constructor; [apply empty_disk_ok|unfold part_ok; rewrite max_lba_eq; cbn; lia|by vm_compute|done|split; [by repeat constructor|done]|unfold byte; lia].
  - exists v'. split; [exact H1|]. split; [exact H2|]. by apply (H3 (1, 1)).
Defined.
