(* ===== verification/World.v ===== *)
(** * World: the kernel and the file system together

    System calls that concern tasks and files run on the two states at once.
    Kernel code runs on its part of the world ([zoom] of Resume).  Code of the
    file system runs with the descriptor table and the working directory of the
    running task, which [in_fs] loads from the pcb and stores back.  Transfers
    between memory and disk are one step here; IdeSpec shows that the driver
    implements such a step for one sector. *)
From S2P Require Import Prelude Bitmap Interrupt DList Paging Pages Memory Kernel View Sched Resume Sync Ioqueue Disk Fsys Inode File Fs.

Record world : Type := World {
  w_kernel : kernel;
  w_fs : fsys
}.

#[export] Instance world_kernel : Part world kernel := {| part := w_kernel; with_part := fun k w => World k (w_fs w) |}.

#[export] Instance world_kernel_laws : PartLaws world kernel.
Proof. split; [done|by intros []|done]. Qed.

(** The file system as a task sees it. *)
Definition fs_view (t : task_struct) (s : fsys) : fsys := set_fd_table (Kernel.fd_table t) (set_cwd (Kernel.cwd_inode_nr t) s).

(** The task with its part of a file system. *)
Definition pcb_files (t : task_struct) (s : fsys) : task_struct :=
  Kernel.set_cwd_inode_nr (cwd_inode_nr s) (Kernel.set_fd_table (fd_table s) t).

Definition in_fs {A} (m : st fsys A) : proc world A := fun w =>
  let k := w_kernel w in
  match tasks k !! running k with
  | None => Err EFault
  | Some t =>
    match m (fs_view t (w_fs w)) with
    | Bad e => Err e
    | Ok (a, s) => Ret a (World (set_tasks (<[running k := pcb_files t s]> (tasks k)) k) s)
    end
  end.

(** ** Running code of the file system *)

(** The task and the file system agree on the task's part. *)
Definition loaded (w : world) (t : task_struct) : Prop :=
  tasks (w_kernel w) !! running (w_kernel w) = Some t /\ fs_view t (w_fs w) = w_fs w.

Lemma fs_view_files t s : fs_view (pcb_files t s) s = s.
Proof. by destruct s. Qed.

Lemma in_fs_run {A} (m : st fsys A) w t a s :
  tasks (w_kernel w) !! running (w_kernel w) = Some t -> m (fs_view t (w_fs w)) = Ok (a, s) ->
  in_fs m w = Ret a (World (set_tasks (<[running (w_kernel w) := pcb_files t s]> (tasks (w_kernel w))) (w_kernel w)) s).
Proof. intros Ht Hm. unfold in_fs. by rewrite Ht, Hm. Qed.

Lemma in_fs_bad {A} (m : st fsys A) w t e :
  tasks (w_kernel w) !! running (w_kernel w) = Some t -> m (fs_view t (w_fs w)) = Bad e -> in_fs m w = Err e.
Proof. intros Ht Hm. unfold in_fs. by rewrite Ht, Hm. Qed.

(** Code that only reads. *)
Lemma in_fs_read {A} (m : st fsys A) w t a :
  loaded w t -> m (w_fs w) = Ok (a, w_fs w) -> in_fs m w = Ret a w.
Proof.
  intros [Ht Hv] Hm. rewrite (in_fs_run m w t a (w_fs w)) by (by rewrite ?Hv).
  destruct w as [k s]. cbn in *. f_equal. f_equal. unfold set_tasks. rewrite insert_id; [by destruct k|].
  rewrite Ht. f_equal. rewrite <- Hv. unfold pcb_files. by destruct t.
Qed.

(** Code that does not change the task's part. *)
Lemma in_fs_step {A} (m : st fsys A) w t a s :
  loaded w t -> m (w_fs w) = Ok (a, s) -> fs_view t s = s -> in_fs m w = Ret a (World (w_kernel w) s).
Proof.
  intros [Ht Hv] Hm Hs. rewrite (in_fs_run m w t a s) by (by rewrite ?Hv).
  destruct w as [k s0]. cbn in *. f_equal. f_equal. unfold set_tasks. rewrite insert_id; [by destruct k|].
  rewrite Ht. f_equal. rewrite <- Hs. unfold pcb_files. by destruct t.
Qed.

(** ** The scheduler's state *)

(** A pcb that changes neither its state nor its page directory. *)
Lemma sched_ok_pcb k p t t' :
  sched_ok k -> tasks k !! p = Some t -> status t' = status t -> pgdir t' = pgdir t ->
  sched_ok (set_tasks (<[p := t']> (tasks k)) k).
Proof.
  intros [[Hnd Hr Hone Hc Hid Hnull (D & Hcr & Hd)] Hrun] Ht Hs Hpg. set (k' := set_tasks _ k).
  assert (forall q, st_of k' q = st_of k q) as Hst.
  { intros q. unfold st_of, k'. cbn. rewrite lookup_insert. case_decide as E; [|done]. rewrite <- E, Ht. cbn. by rewrite Hs. }
  assert (forall y, is_Some (tasks k' !! y) -> is_Some (tasks k !! y)) as Hin.
  { intros y. unfold k'. cbn. rewrite lookup_insert. case_decide as E; [|done]. rewrite <- E. by eexists. }
  split; [|by rewrite Hst]. constructor; try (setoid_rewrite Hst); try done.
  - unfold k'. cbn. rewrite lookup_insert. case_decide; [by eexists|done].
  - unfold k'. cbn. rewrite lookup_insert_ne; [done|]. intros ->. congruence.
  - exists D. split; [done|]. intros x tx Hx.
    assert (exists ty, tasks k !! x = Some ty /\ pgdir tx = pgdir ty) as (ty & Hty & ->).
    { unfold k' in Hx. cbn in Hx. rewrite lookup_insert in Hx. case_decide as E; [|by exists tx]. exists t. split; congruence. }
    destruct (Hd x ty Hty) as [H0 H1]. split; [done|]. intros Hn. destruct (H1 Hn) as [Hb Hy]. split; [done|].
    intros y Hy'. apply Hy. by apply Hin.
Qed.
