(* ===== verification/Pipe.v ===== *)
(** * Pipe: pipes of shell/pipe.c, and reading and writing descriptors

    A pipe is a slot of the file table whose flag is [PIPE_FLAG]: its inode
    pointer is the page of a ring buffer (Ioqueue), its position counts the open
    descriptors.  The system calls [sys_read] and [sys_write] of fs/fs.c choose
    between files (Fs), pipes and the keyboard here. *)
From S2P Require Import Prelude Bitmap Interrupt DList Paging Pages Memory Kernel View Sched Resume Sync Ioqueue Heap Thread Process Console Disk Fsys Inode File Fs World.

(** ** Definitions *)

(** The page from [get_kernel_pages], read as a cleared [struct ioqueue]. *)
Definition place_ioqueue (page : Z) : proc kernel unit :=
  if page =? 0 then mret tt else store_ioq page (Ioqueue 0 0 (replicate (Z.to_nat bufsize) 0) 0 0).

(** [sys_pipe] with the two descriptors it stores.  Slot -1 of the file table and
    a struct ioqueue at address 0 do not exist. *)
Definition sys_pipe (fuel : nat) : proc world (Z * option (Z * Z)) :=
  global_fd ← in_fs get_free_slot_in_global;
  page ← zoom (get_kernel_pages fuel 1);
  _ ← in_fs (f ← file_at global_fd; put_file global_fd (File (fd_pos f) (fd_flag f) page));
  _ ← zoom (_ ← place_ioqueue page; ioqueue_init page);
  if page =? 0 then mret (-1, None)
  else
    _ ← in_fs (f ← file_at global_fd; put_file global_fd (File 2 PIPE_FLAG (fd_inode f)));
    pipefd0 ← in_fs (pcb_fd_install global_fd);
    pipefd1 ← in_fs (pcb_fd_install global_fd);
    mret (0, Some (pipefd0, pipefd1)).

(** [n] rounds of [ioq_getchar]. *)
Fixpoint read_chars (fuel n : nat) (ioq : Z) : proc kernel (list Z) :=
  match n with
  | O => mret []
  | S n' => c ← ioq_getchar fuel ioq; r ← read_chars fuel n' ioq; mret (c :: r)
  end.

(** The queue of the pipe behind a descriptor. *)
Definition pipe_queue (fd : Z) : proc world Z :=
  in_fs (global_fd ← fd_local2global fd; f ← file_at global_fd; mret (fd_inode f)).

Definition pipe_read (fuel : nat) (fd count : Z) : proc world (list Z) :=
  ioq ← pipe_queue fd;
  q ← zoom (ioq_at ioq);
  let ioq_len := ioq_length q in
  let size := if count <? ioq_len then count else ioq_len in
  zoom (read_chars fuel (Z.to_nat size) ioq).

(** Writing the [n] bytes of [buf] from [i] on. *)
Fixpoint write_chars (fuel n : nat) (ioq : Z) (buf : list Z) (i : Z) : proc kernel unit :=
  match n with
  | O => mret tt
  | S n' => c ← lift (rd buf i); _ ← ioq_putchar fuel ioq c; write_chars fuel n' ioq buf (i + 1)
  end.

Definition pipe_write (fuel : nat) (fd : Z) (buf : list Z) (count : Z) : proc world Z :=
  ioq ← pipe_queue fd;
  q ← zoom (ioq_at ioq);
  let ioq_left := u32 (bufsize - ioq_length q) in
  let size := if count <? ioq_left then count else ioq_left in
  _ ← zoom (write_chars fuel (Z.to_nat size) ioq buf 0);
  mret size.

(** [sys_write] of fs/fs.c; text for the screen goes through the console. *)
Definition sys_write (fuel : nat) (fd : Z) (buf : list Z) (count : Z) : proc world io_result :=
  r ← in_fs (Fs.sys_write fd buf count);
  match r with
  | Pipe fd n => size ← pipe_write fuel fd buf n; mret (Done size [])
  | Console str n => text ← zoom (console_put_str fuel str); mret (Console text n)
  | _ => mret r
  end.

(** [sys_read] of fs/fs.c, with the bytes it stores at [buf]. *)
Definition sys_read (fuel : nat) (kbd_buf fd count : Z) : proc world (Z * list Z) :=
  r ← in_fs (Fs.sys_read fd count);
  match r with
  | Pipe fd n => cs ← pipe_read fuel fd n; mret (i32 (Z.of_nat (length cs)), cs)
  | Keyboard n => cs ← zoom (read_chars fuel (Z.to_nat n) kbd_buf);
                  mret (if n =? 0 then -1 else i32 n, cs)
  | Done n cs => mret (n, cs)
  | Console _ n => mret (n, [])
  end.

(** [sys_close]: the page of a pipe is freed with its last descriptor. *)
Definition sys_close (fd : Z) : proc world Z :=
  if 2 <? fd then
    global_fd ← in_fs (fd_local2global fd);
    pipe ← in_fs (is_pipe fd);
    f ← in_fs (file_at global_fd);
    _ ← (if pipe && (u32 (fd_pos f - 1) =? 0) then zoom (in_mem (mfree_page PF_KERNEL (fd_inode f) 1)) else mret tt);
    in_fs (Fs.sys_close fd)
  else mret (-1).

(** ** Reading and writing a queue *)

(** [p] is a queue that holds [cs] and has no waiting producer. *)
Record queue_at (k : kernel) (p : Z) (q : ioqueue) (cs : list Z) : Prop := {
  qa_ok : sched_ok k;
  qa_off : intr_get_status (eflags k) = INTR_OFF;
  qa_queue : ioqueues k !! p = Some q;
  qa_rep : ioq_rep q cs;
  qa_producer : producer q = 0;
  qa_consumer : waiter_ok k (consumer q)
}.

Lemma woken_zero k : sched_ok k -> woken k 0 = k.
Proof. intros [Hp _]. unfold woken. by rewrite (sp_null _ Hp). Qed.

Lemma read_chars_run f p cs1 : forall k q cs2, queue_at k p q (cs1 ++ cs2) ->
  exists q', read_chars (S f) (length cs1) p k = Ret cs1 (with_ioq k p q') /\ queue_at (with_ioq k p q') p q' cs2.
Proof.
  induction cs1 as [|c cs1 IH]; intros k q cs2 Hqa; pose proof Hqa as [Hok Hoff Hq Hr Hp Hc].
  { exists q. assert (with_ioq k p q = k) as ->; [|done]. unfold with_ioq, set_ioqueues. rewrite insert_id by done. by destruct k. }
  destruct (getchar_spec f k p q c (cs1 ++ cs2) Hok Hoff Hq Hr) as (q1 & Hg & Hr1 & Hp1 & Hc1); [by left|].
  rewrite Hp, woken_zero in Hg by done.
  assert (queue_at (with_ioq k p q1) p q1 (cs1 ++ cs2)) as Hq1.
  { constructor; [by apply with_ioq_ok|done|apply ioq_get_set|done|done|by rewrite Hc1]. }
  destruct (IH _ _ _ Hq1) as (q2 & Hrd & Hq2). exists q2. rewrite with_ioq_twice in Hrd, Hq2. split; [|done].
  cbn [read_chars length]. prun Hg. by prun Hrd.
Qed.

(** The running task stays as it is. *)
Record same_runner (k k' : kernel) : Prop := {
  sr_running : running k' = running k;
  sr_task : forall t, tasks k !! running k = Some t -> tasks k' !! running k = Some t;
  sr_idle : idle_thread k' = idle_thread k;
  sr_locks : locks k' = locks k;
  sr_semas : semas k' = semas k;
  sr_mem : kmem k' = kmem k
}.

Lemma woken_same k w t : sched_ok k -> waiter_ok k w -> tasks k !! running k = Some t -> same_runner k (woken k w).
Proof.
  intros Hok Hw Ht. assert (woken k w = k \/ exists t', tasks k !! w = Some t' /\ blocked (status t') /\ woken k w = unblocked k w t')
    as [He|(t' & Ht' & Hb & He)].
  - destruct Hw as [->|(t' & Ht' & Hb)]; [left; by apply woken_zero|]. unfold woken. rewrite Ht'. case_match; [by left|right; by exists t'].
  - rewrite He. done.
  - rewrite He. constructor; try done. intros t0 Ht0. unfold unblocked. cbn. rewrite lookup_insert_ne; [done|]. intros ->.
    assert (t' = t0) as -> by congruence. destruct Hok as [_ Hr]. unfold st_of in Hr. rewrite Ht0 in Hr. simpl in Hr. injection Hr as Hr.
    rewrite Hr in Hb. by destruct Hb as [?|[?|?]].
Qed.

#[export] Instance same_runner_preorder : PreOrder same_runner.
Proof.
  split; [done|]. intros k1 k2 k3 [R1 T1 I1 L1 S1 M1] [R2 T2 I2 L2 S2 M2]. constructor; try congruence.
  intros t Ht. rewrite <- R1. apply T2. rewrite R1. by apply T1.
Qed.

Lemma write_chars_run f p data : forall k q cs buf i t, queue_at k p q cs -> tasks k !! running k = Some t ->
  Z.of_nat (length cs + length data) < bufsize -> (forall j c, data !! j = Some c -> rd buf (i + Z.of_nat j) = Ok c) ->
  exists k' q', write_chars (S f) (length data) p buf i k = Ret tt k' /\ queue_at k' p q' (cs ++ data) /\ same_runner k k'.
Proof.
  induction data as [|c data IH]; intros k q cs buf i t Hqa Ht Hn Hb; pose proof Hqa as [Hok Hoff Hq Hr Hp Hc].
  { exists k, q. rewrite app_nil_r. done. }
  cbn [length] in Hn. destruct (putchar_spec f k p q c cs Hok Hoff Hq Hr ltac:(lia) Hc) as (q1 & Hput & Hr1 & Hc1 & Hp1).
  set (k1 := with_ioq _ p q1) in *. assert (same_runner k k1) as Hs1 by (transitivity (woken k (consumer q)); [exact (woken_same k _ t Hok Hc Ht)|done]).
  assert (queue_at k1 p q1 (cs ++ [c])) as Hq1.
  { constructor; [by apply with_ioq_ok, woken_ok| |apply ioq_get_set|done|congruence|by left].
    unfold k1, woken. cbn. destruct (tasks k !! consumer q); [|done]. by case_match. }
  destruct (IH k1 q1 (cs ++ [c]) buf (i + 1) t Hq1) as (k' & q' & Hw & Hq' & Hs2).
  { rewrite (sr_running _ _ Hs1). exact (sr_task _ _ Hs1 t Ht). }
  { rewrite length_app. cbn. lia. }
  { intros j x Hj. rewrite <- (Hb (S j) x Hj). f_equal. lia. }
  exists k', q'. rewrite <- app_assoc in Hq'. split; [|split; [exact Hq'|by transitivity k1]].
  cbn [write_chars length]. assert (lift (rd buf i) k = Ret c k) as Hl.
  { pose proof (Hb 0%nat c eq_refl) as He. rewrite Z.add_0_r in He. unfold lift. by rewrite He. }
  prun Hl. prun Hput. exact Hw.
Qed.

(** ** Descriptors of a pipe *)

(** Descriptor [fd] of the running task is an end of the pipe with queue [p]. *)
Definition pipe_end (s : fsys) (fd p : Z) : Prop :=
  exists g f, rd (fd_table s) fd = Ok g /\ 0 <= g < MAX_FILE_OPEN /\ rd (file_table s) g = Ok f
    /\ fd_flag f = PIPE_FLAG /\ fd_inode f = p.

Lemma pipe_end_global s fd p : pipe_end s fd p -> exists g f, fd_local2global fd s = Ok (g, s)
  /\ file_at g s = Ok (f, s) /\ fd_flag f = PIPE_FLAG /\ fd_inode f = p.
Proof.
  intros (g & f & Hg & Hr & Hf & Hfl & Hp). exists g, f. split; [|split; [|done]].
  - unfold fd_local2global. assert (gets fd_table s = Ok (fd_table s, s)) as H1 by done. run H1.
    assert (sres (rd (fd_table s) fd) s = Ok (g, s)) as H2 by (by rewrite Hg). run H2.
    assert (sassert ((0 <=? g) && (g <? MAX_FILE_OPEN)) s = Ok (tt, s)) as H3.
    { rewrite (proj2 (Z.leb_le 0 g)), (proj2 (Z.ltb_lt g MAX_FILE_OPEN)) by lia. done. }
    by run H3.
  - unfold file_at. assert (gets file_table s = Ok (file_table s, s)) as H1 by done. run H1. by rewrite Hf.
Qed.

Lemma pipe_end_is_pipe s fd p : pipe_end s fd p -> is_pipe fd s = Ok (true, s).
Proof.
  intros He. destruct (pipe_end_global s fd p He) as (g & f & Hg & Hf & Hfl & _). unfold is_pipe. run Hg. run Hf. by rewrite Hfl.
Qed.

Lemma pipe_queue_run w t fd p : loaded w t -> pipe_end (w_fs w) fd p -> pipe_queue fd w = Ret p w.
Proof.
  intros Hl He. destruct (pipe_end_global _ fd p He) as (g & f & Hg & Hf & _ & Hp). apply (in_fs_read _ w t p Hl).
  run Hg. run Hf. by rewrite Hp.
Qed.

Lemma fs_write_pipe s fd p buf count : pipe_end s fd p -> 1 <= fd -> Fs.sys_write fd buf count s = Ok (Pipe fd count, s).
Proof.
  intros He Hfd. pose proof (pipe_end_is_pipe s fd p He) as Hp. unfold Fs.sys_write. rewrite (proj2 (Z.ltb_ge fd 0)) by lia.
  case_match; by run Hp.
Qed.

Lemma fs_read_pipe s fd p count : pipe_end s fd p -> fd = 0 \/ 3 <= fd -> Fs.sys_read fd count s = Ok (Pipe fd count, s).
Proof.
  intros He Hfd. pose proof (pipe_end_is_pipe s fd p He) as Hp. unfold Fs.sys_read. destruct Hfd as [->|Hfd]; [|].
  { change ((0 <? 0) || (0 =? 1) || (0 =? 2)) with false. change (0 =? 0) with true. cbv iota. by run Hp. }
  rewrite (proj2 (Z.ltb_ge fd 0)), (proj2 (Z.eqb_neq fd 1)), (proj2 (Z.eqb_neq fd 2)), (proj2 (Z.eqb_neq fd 0)) by lia.
  cbn [orb]. cbv iota. by run Hp.
Qed.

(** ** Transfers *)

Lemma pipe_write_run f w t fd p q cs data :
  loaded w t -> pipe_end (w_fs w) fd p -> queue_at (w_kernel w) p q cs -> Z.of_nat (length cs + length data) < bufsize ->
  exists k' q', pipe_write (S f) fd data (Z.of_nat (length data)) w = Ret (Z.of_nat (length data)) (World k' (w_fs w))
    /\ queue_at k' p q' (cs ++ data) /\ same_runner (w_kernel w) k'.
Proof.
  intros Hl He Hqa Hn. destruct (write_chars_run f p data _ q cs data 0 t Hqa (proj1 Hl) Hn) as (k' & q' & Hw & Hq' & Hs).
  { intros j c Hj. rewrite Z.add_0_l. apply rd_Ok. by split; [lia|rewrite Nat2Z.id]. }
  exists k', q'. split; [|done]. unfold pipe_write. prun (pipe_queue_run w t fd p Hl He).
  prun (zoom_read (ioq_at p) w q (run_ioq _ p q (qa_queue _ _ _ _ Hqa))). rewrite (rep_length q cs (qa_rep _ _ _ _ Hqa)).
  unfold bufsize in Hn. rewrite u32_id by (unfold bufsize; lia). rewrite (proj2 (Z.ltb_lt _ _)) by (unfold bufsize; lia).
  rewrite Nat2Z.id. by prun (zoom_Ret (write_chars (S f) (length data) p data 0) w tt k' Hw).
Qed.

Lemma pipe_read_run f w t fd p q cs count :
  loaded w t -> pipe_end (w_fs w) fd p -> queue_at (w_kernel w) p q cs -> 0 <= count ->
  exists q', pipe_read (S f) fd count w = Ret (take (Z.to_nat count) cs) (World (with_ioq (w_kernel w) p q') (w_fs w))
    /\ queue_at (with_ioq (w_kernel w) p q') p q' (drop (Z.to_nat count) cs).
Proof.
  intros Hl He Hqa Hn. unfold pipe_read. prun (pipe_queue_run w t fd p Hl He).
  prun (zoom_read (ioq_at p) w q (run_ioq _ p q (qa_queue _ _ _ _ Hqa))). rewrite (rep_length q cs (qa_rep _ _ _ _ Hqa)). cbv zeta.
  assert (Z.to_nat (if count <? Z.of_nat (length cs) then count else Z.of_nat (length cs)) = length (take (Z.to_nat count) cs)) as ->.
  { rewrite length_take. destruct (Z.ltb_spec count (Z.of_nat (length cs))); lia. }
  rewrite <- (take_drop (Z.to_nat count) cs) in Hqa. destruct (read_chars_run f p _ _ q _ Hqa) as (q' & Hr & Hq').
  exists q'. split; [|exact Hq']. exact (zoom_Ret (read_chars (S f) _ p) w _ _ Hr).
Qed.

(** The first bytes are written, then the others. *)
Lemma write_chars_app f p buf n m : forall i k k', write_chars f n p buf i k = Ret tt k' ->
  write_chars f (n + m) p buf i k = write_chars f m p buf (i + Z.of_nat n) k'.
Proof.
  induction n as [|n IH]; intros i k k' Hw; [injection Hw as <-; by rewrite Z.add_0_r|]. cbn [Nat.add write_chars] in Hw |- *.
  apply bind_Ret_inv in Hw as (c & k1 & H1 & Hw). apply bind_Ret_inv in Hw as ([] & k2 & H2 & Hw).
  prun H1. prun H2. rewrite (IH _ _ _ Hw). f_equal. lia.
Qed.

(** ** Properties *)

(** A task with the two ends of an empty pipe. *)
Definition demo_pipe_task : task_struct := Kernel.set_fd_table [0; 1; 2; 3; 3; -1; -1; -1] (demo_task TASK_RUNNING 31 3).

Definition demo_pipe : world :=
  World (set_tasks (<[0xc009e000 := demo_pipe_task]> (tasks demo_io)) demo_io)
    (fs_view demo_pipe_task (set_file_table (<[3%nat := File 2 PIPE_FLAG 0x3000]> (file_table demo_fs)) demo_fs)).

Lemma demo_pipe_loaded : loaded demo_pipe demo_pipe_task.
Proof. split; reflexivity. Qed.

Lemma demo_pipe_end fd : fd = 3 \/ fd = 4 -> pipe_end (w_fs demo_pipe) fd 0x3000.
Proof.
  intros Hfd. exists 3, (File 2 PIPE_FLAG 0x3000). split; [destruct Hfd; subst fd; reflexivity|].
  split; [unfold MAX_FILE_OPEN; lia|]. split; [reflexivity|]. split; reflexivity.
Qed.

Lemma demo_pipe_sched : sched_ok (w_kernel demo_pipe).
Proof. apply (sched_ok_pcb demo_io 0xc009e000 (demo_task TASK_RUNNING 31 3)); [apply demo_io_ok|reflexivity|reflexivity|reflexivity]. Qed.

Lemma demo_pipe_queue : queue_at (w_kernel demo_pipe) 0x3000 demo_queue [].
Proof.
  constructor; [apply demo_pipe_sched|reflexivity|reflexivity|apply demo_queue_rep|reflexivity|left; reflexivity].
Qed.

(** C35: bytes written to one end of a pipe come out of the other, in order.
    While the pipe has room for the bytes, [sys_write] writes all of them and
    returns their number; a later [sys_read] of [count] bytes returns the first
    [count] of the bytes the pipe holds, or all of them, and leaves the others.  Neither call gives up the processor. *)
Theorem pipe_is_fifo (f : nat) (w : world) (t : task_struct) (wfd rfd p kbd count : Z) (q : ioqueue) (cs data : list Z) :
  loaded w t -> pipe_end (w_fs w) wfd p -> pipe_end (w_fs w) rfd p -> 1 <= wfd -> rfd = 0 \/ 3 <= rfd ->
  queue_at (w_kernel w) p q cs -> Z.of_nat (length cs + length data) < bufsize -> 0 <= count ->
  exists w1 q1, sys_write (S f) wfd data (Z.of_nat (length data)) w = Ret (Done (Z.of_nat (length data)) []) w1
    /\ queue_at (w_kernel w1) p q1 (cs ++ data)
    /\ exists w2 q2, sys_read (S f) kbd rfd count w1
          = Ret (Z.of_nat (length (take (Z.to_nat count) (cs ++ data))), take (Z.to_nat count) (cs ++ data)) w2
        /\ queue_at (w_kernel w2) p q2 (drop (Z.to_nat count) (cs ++ data)).
Proof.
  intros Hl Hw Hr Hwfd Hrfd Hqa Hn Hc. destruct (pipe_write_run f w t wfd p q cs data Hl Hw Hqa Hn) as (k' & q1 & Hrun & Hq1 & Hs).
  set (w1 := World k' (w_fs w)) in *. assert (loaded w1 t) as Hl1.
  { split; [|apply Hl]. cbn. rewrite (sr_running _ _ Hs). apply (sr_task _ _ Hs), Hl. }
  destruct (pipe_read_run f w1 t rfd p q1 (cs ++ data) count Hl1 Hr Hq1 Hc) as (q2 & Hrd & Hq2).
  exists w1, q1. split; [|split; [exact Hq1|]].
  - unfold sys_write. prun (in_fs_read _ w t _ Hl (fs_write_pipe (w_fs w) wfd p data (Z.of_nat (length data)) Hw Hwfd)). by prun Hrun.
  - exists (World (with_ioq k' p q2) (w_fs w)), q2. split; [|exact Hq2]. unfold sys_read.
    prun (in_fs_read _ w1 t _ Hl1 (fs_read_pipe _ rfd p count Hr Hrfd)). prun Hrd. rewrite i32_id; [done|].
    rewrite length_take, length_app. unfold bufsize in Hn. lia.
Qed.

Lemma pipe_is_fifo_witness :
  exists w1 q1, sys_write 1 4 [104; 105; 33] 3 demo_pipe = Ret (Done 3 []) w1 /\ queue_at (w_kernel w1) 0x3000 q1 [104; 105; 33]
    /\ exists w2 q2, sys_read 1 0 3 2 w1 = Ret (2, [104; 105]) w2 /\ queue_at (w_kernel w2) 0x3000 q2 [33].
Proof.
  refine (pipe_is_fifo 0 demo_pipe demo_pipe_task 4 3 0x3000 0 2 demo_queue [] [104; 105; 33] _ _ _ _ _ _ _ _).
  - apply demo_pipe_loaded.
  - apply demo_pipe_end. right; reflexivity.
  - apply demo_pipe_end. left; reflexivity.
  - lia.
  - right; lia.
  - apply demo_pipe_queue.
  - reflexivity.
  - lia.
Defined.

(** Pipe_write computes the free space as the size of the buffer less the
    bytes in it, but the buffer holds one byte less than its size.  A write of
    more bytes than fit fills the pipe and then leaves the processor in the
    middle of the call, although the size is chosen to avoid that. *)
Theorem pipe_write_blocks (f : nat) (w : world) (t : task_struct) (fd p : Z) (q : ioqueue) (cs data : list Z) (c : Z) (more : list Z) :
  loaded w t -> pipe_end (w_fs w) fd p -> 1 <= fd -> queue_at (w_kernel w) p q cs ->
  running (w_kernel w) <> idle_thread (w_kernel w) ->
  locks (w_kernel w) !! p = Some (Lock 0 0) -> semas (w_kernel w) !! lock_sema p = Some (Semaphore 1 []) ->
  Z.of_nat (length cs + length data) = bufsize - 1 -> Z.of_nat (length (data ++ c :: more)) < 2 ^ 32 ->
  exists w1 rest q1, sys_write (S (S f)) fd (data ++ c :: more) (Z.of_nat (length (data ++ c :: more))) w = Switch w1 rest
    /\ running (w_kernel w1) <> running (w_kernel w)
    /\ ioqueues (w_kernel w1) !! p = Some q1 /\ ioq_rep q1 (cs ++ data) /\ producer q1 = running (w_kernel w).
Proof.
  intros Hl He Hfd Hqa Hid Hlk Hsm Hn Hlong. set (buf := data ++ c :: more).
  destruct (write_chars_run (S f) p data _ q cs buf 0 t Hqa (proj1 Hl) ltac:(lia)) as (k1 & q1 & Hw & Hq1 & [Hr1 Ht1 Hi1 Hl1 Hs1]).
  { intros j x Hj. rewrite Z.add_0_l. apply rd_Ok. split; [lia|]. rewrite Nat2Z.id. unfold buf. by apply lookup_app_l_Some. }
  destruct Hq1 as [Hok1 Hoff1 Hio1 Hrep1 Hp1 _]. specialize (Ht1 t (proj1 Hl)).
  destruct (putchar_waits f k1 p q1 c (cs ++ data) t Hok1 Hoff1) as (nxt & tail & rest & k2 & Hput & Hsd & Hne);
    [by rewrite Hr1|congruence|done|done|rewrite length_app; lia|done|congruence|congruence|].
  destruct Hsd as [_ _ Hf2 Hr2 _ _ _].
  assert (ioqueues k2 !! p = Some (put_waiter PRODUCER (running k1) q1)) as Hq2.
  { rewrite (sf_ioq _ _ Hf2). cbn. by rewrite lookup_insert_eq. }
  assert (write_chars (S (S f)) (length data + 1) p buf 0 (w_kernel w)
          = Switch k2 (fun s => outcome_bind (fun _ => write_chars (S (S f)) 0 p buf (0 + Z.of_nat (length data) + 1)) (tail s))) as Hrun.
  { rewrite (write_chars_app _ _ _ _ _ _ _ _ Hw). cbn [write_chars]. assert (lift (rd buf (0 + Z.of_nat (length data))) k1 = Ret c k1) as Hc.
    { assert (rd buf (0 + Z.of_nat (length data)) = Ok c) as ->; [|done]. apply rd_Ok. split; [lia|].
      rewrite Z.add_0_l, Nat2Z.id. unfold buf. by rewrite lookup_app_r, Nat.sub_diag by lia. }
    prun Hc. exact (bind_Switch _ _ _ _ _ Hput). }
  unfold sys_write. exists (World k2 (w_fs w)). eexists. exists (put_waiter PRODUCER (running k1) q1). split; [|split; [|split; [exact Hq2|split; [by destruct Hrep1|exact Hr1]]]].
  - prun (in_fs_read _ w t _ Hl (fs_write_pipe (w_fs w) fd p buf (Z.of_nat (length buf)) He Hfd)).
    apply bind_Switch. unfold pipe_write. prun (pipe_queue_run w t fd p Hl He).
    prun (zoom_read (ioq_at p) w q (run_ioq _ p q (qa_queue _ _ _ _ Hqa))). rewrite (rep_length q cs (qa_rep _ _ _ _ Hqa)).
    assert (u32 (bufsize - Z.of_nat (length cs)) = Z.of_nat (length data + 1)) as -> by (unfold bufsize in *; rewrite u32_id; lia).
    assert ((if Z.of_nat (length buf) <? Z.of_nat (length data + 1) then Z.of_nat (length buf) else Z.of_nat (length data + 1))
      = Z.of_nat (length data + 1)) as -> by (unfold buf; rewrite length_app; cbn [length]; destruct (Z.ltb_spec (Z.of_nat (length data + S (length more))) (Z.of_nat (length data + 1))); lia).
    rewrite Nat2Z.id. apply bind_Switch. exact (zoom_Switch _ w k2 _ Hrun).
  - cbn. congruence.
Qed.

Lemma pipe_write_blocks_witness :
  exists w1 rest q1, sys_write 2 4 (replicate 2047 65 ++ [66]) 2048 demo_pipe = Switch w1 rest
    /\ running (w_kernel w1) <> 0xc009e000
    /\ ioqueues (w_kernel w1) !! 0x3000 = Some q1 /\ ioq_rep q1 (replicate 2047 65) /\ producer q1 = 0xc009e000.
Proof.
  refine (pipe_write_blocks 0 demo_pipe demo_pipe_task 4 0x3000 demo_queue [] (replicate 2047 65) 66 [] _ _ _ _ _ _ _ _ _).
  - apply demo_pipe_loaded.
  - apply demo_pipe_end. right; reflexivity.
  - lia.
  - apply demo_pipe_queue.
  - intros H. discriminate H.
  - reflexivity.
  - reflexivity.
  - reflexivity.
  - reflexivity.
Defined.
