(* ===== verification/Fork.v ===== *)
(** * Fork: copying a process, userprog/fork.c

    The child gets a copy of the pcb and its page, a page directory with the
    kernel's half of the parent's, and a copy of every page of the parent's
    address space, made through a page of the kernel while the two directories
    are loaded in turn. *)
From S2P Require Import Prelude Bitmap Interrupt DList Paging Pages Memory Kernel View Sched Resume Sync Heap Thread Process Disk Fsys Inode File Fs World.

(** ** Definitions *)

(** [memcpy(dst, src, PG_SIZE)] between pages.  The header of an arena lies in
    the words of its page and is copied with them. *)
Definition copy_page (dst src : Z) : proc kernel unit :=
  _ ← in_mem (copy_words 1024 dst src);
  s ← arena_frame src;
  d ← arena_frame dst;
  modify (fun k => set_arenas (partial_alter (fun _ => arenas k !! s) d (arenas k)) k).

(** The result is -1 when there are no pages for the bitmap of addresses, else
    0.  The copy of the bitmap is a copy of its value. *)
Definition copy_pcb_vaddrbitmap_stack0 (fuel : nat) (child_thread parent_thread : Z) : proc kernel Z :=
  p ← task parent_thread;
  _ ← in_mem (copy_words 1024 child_thread parent_thread);
  _ ← modify (fun k => set_tasks (<[child_thread := p]> (tasks k)) k);
  pid ← fork_pid fuel;
  _ ← update_task child_thread (fun t =>
        set_parent_pid (Kernel.pid p) (set_ticks (priority t) (set_status TASK_READY (set_elapsed_ticks 0 (set_pid pid t)))));
  _ ← update_task child_thread (set_u_block_desc block_desc_init);
  vaddr_btmp ← get_kernel_pages fuel user_bitmap_pages;
  if vaddr_btmp =? 0 then mret (-1)
  else
    _ ← update_task child_thread (set_vaddr_bits vaddr_btmp);
    mret 0.

(** Copying the page at [prog_vaddr] through the page [buf_page]; the result of
    the allocation is not looked at. *)
Definition copy_user_page (fuel : nat) (child_thread parent_thread buf_page prog_vaddr : Z) : proc kernel unit :=
  _ ← copy_page buf_page prog_vaddr;
  _ ← page_dir_activate child_thread;
  _ ← get_a_page_without_opvaddrbitmap fuel PF_USER prog_vaddr;
  _ ← copy_page prog_vaddr buf_page;
  page_dir_activate parent_thread.

(** The bits of byte [idx_byte] from [idx_bit] on. *)
Fixpoint copy_bits (fuel n : nat) (child_thread parent_thread buf_page idx_byte idx_bit : Z) : proc kernel unit :=
  match n with
  | O => mret tt
  | S n' =>
    p ← task parent_thread;
    let va := userprog_vaddr p in
    byte ← lift (rd (bits (vaddr_bitmap va)) idx_byte);
    _ ← (if negb (Z.land (Z.shiftl BITMAP_MASK idx_bit) byte =? 0) then
           let prog_vaddr := u32 ((idx_byte * 8 + idx_bit) * PG_SIZE + vaddr_start va) in
           copy_user_page fuel child_thread parent_thread buf_page prog_vaddr
         else mret tt);
    copy_bits fuel n' child_thread parent_thread buf_page idx_byte (idx_bit + 1)
  end.

Fixpoint copy_bytes (fuel n : nat) (child_thread parent_thread buf_page idx_byte : Z) : proc kernel unit :=
  match n with
  | O => mret tt
  | S n' =>
    p ← task parent_thread;
    byte ← lift (rd (bits (vaddr_bitmap (userprog_vaddr p))) idx_byte);
    _ ← (if negb (byte =? 0) then copy_bits fuel 8 child_thread parent_thread buf_page idx_byte 0 else mret tt);
    copy_bytes fuel n' child_thread parent_thread buf_page (idx_byte + 1)
  end.

Definition copy_body_stack3 (fuel : nat) (child_thread parent_thread buf_page : Z) : proc kernel unit :=
  p ← task parent_thread;
  copy_bytes fuel (Z.to_nat (btmp_bytes_len (vaddr_bitmap (userprog_vaddr p)))) child_thread parent_thread buf_page 0.

(** [intr_exit] is an address of code. *)
Definition build_child_stack (intr_exit child_thread : Z) : proc kernel Z :=
  let intr_0_stack := u32 (child_thread + PG_SIZE - intr_stack_size) in
  _ ← store_word (u32 (intr_0_stack + 8 * 4)) 0;
  _ ← store_word (u32 (intr_0_stack - 4)) intr_exit;
  _ ← store_word (u32 (intr_0_stack - 8)) 0;
  _ ← store_word (u32 (intr_0_stack - 12)) 0;
  _ ← store_word (u32 (intr_0_stack - 16)) 0;
  _ ← store_word (u32 (intr_0_stack - 20)) 0;
  _ ← update_task child_thread (set_self_kstack (u32 (intr_0_stack - 20)));
  mret 0.

(** The descriptors from [local_fd] on: [is_pipe] asks the table of the running
    task. *)
Fixpoint open_cnts_loop (n : nat) (thread local_fd : Z) : proc world unit :=
  match n with
  | O => mret tt
  | S n' =>
    t ← zoom (task thread);
    global_fd ← lift (rd (Kernel.fd_table t) local_fd);
    _ ← assert (global_fd <? MAX_FILE_OPEN);
    _ ← (if negb (global_fd =? -1) then
           pipe ← in_fs (is_pipe local_fd);
           f ← in_fs (file_at global_fd);
           if (pipe : bool) then in_fs (put_file global_fd (File (u32 (fd_pos f + 1)) (fd_flag f) (fd_inode f)))
           else in_fs (upd_inode (fd_inode f) (fun i => set_i_open_cnts (u32 (i_open_cnts i + 1)) i))
         else mret tt);
    open_cnts_loop n' thread (local_fd + 1)
  end.

Definition update_inode_open_cnts (thread : Z) : proc world unit := open_cnts_loop 5 thread 3.

Definition copy_process (fuel : nat) (intr_exit child_thread parent_thread : Z) : proc world Z :=
  buf_page ← zoom (get_kernel_pages fuel 1);
  if buf_page =? 0 then mret (-1)
  else
    r ← zoom (copy_pcb_vaddrbitmap_stack0 fuel child_thread parent_thread);
    if r =? -1 then mret (-1)
    else
      dir ← zoom (create_page_dir fuel);
      _ ← zoom (update_task child_thread (set_pgdir dir));
      if dir =? 0 then mret (-1)
      else
        _ ← zoom (copy_body_stack3 fuel child_thread parent_thread buf_page);
        _ ← zoom (build_child_stack intr_exit child_thread);
        _ ← update_inode_open_cnts child_thread;
        _ ← zoom (in_mem (mfree_page PF_KERNEL buf_page 1));
        mret 0.

(** [sys_fork] in the parent; the child returns 0 from it when it runs. *)
Definition sys_fork (fuel : nat) (intr_exit : Z) : proc world Z :=
  w ← get;
  let parent_thread := running (w_kernel w) in
  child_thread ← zoom (get_kernel_pages fuel 1);
  if child_thread =? 0 then mret (-1)
  else
    w ← get;
    p ← zoom (task parent_thread);
    _ ← assert (bool_decide (intr_get_status (eflags (w_kernel w)) = INTR_OFF) && negb (pgdir p =? 0));
    r ← copy_process fuel intr_exit child_thread parent_thread;
    if r =? -1 then mret (-1)
    else
      _ ← zoom (enlist_ready child_thread);
      _ ← zoom (enlist_all child_thread);
      c ← zoom (task child_thread);
      mret (Kernel.pid c).
