(* ===== verification/ForkSpec.v ===== *)
(** * ForkSpec: what fork does to the address spaces

    [forked] relates the address space of a process to the one that is being
    made for its child: the kernel's half is shared, everything below belongs to
    one of them only.  Copying a page keeps this relation, leaves the parent's
    pages alone and gives the child a page of its own with the same words. *)
From S2P Require Import Prelude Bitmap Interrupt DList Paging Pages Memory Kernel View Sched Resume Sync Heap Thread Wait Process Disk Fsys Inode File Fs World Fork.

(** ** Two address spaces *)

(** Frame [g] is no table and no page of the address space [m]. *)
Definition apart (m : mem) (g : Z) : Prop := ~ table_frame m g /\ forall w, page w -> translate m w <> Some g.

(** [c] is the page directory of the child, which the kernel sees at [vc]. *)
Record forked (m : mem) (c vc : Z) : Prop := {
  fk_parent : heap_ok m;
  fk_child : heap_ok (with_cr3 m c);
  fk_low : K_HEAP_START <= vaddr_start (kernel_vaddr m);
  fk_dir : page vc /\ vaddr_start (kernel_vaddr m) <= vc /\ translate m vc = Some c /\ c <> cr3 m;
  fk_kernel : forall i, 768 <= i < 1023 -> dir_entry_at (with_cr3 m c) i = dir_entry_at m i;
  fk_tables : forall i, 0 <= i < 768 -> present (dir_entry_at (with_cr3 m c) i) = true ->
    apart m (frame (dir_entry_at (with_cr3 m c) i));
  fk_frames : forall w g, page w -> w < 0xc0000000 -> translate (with_cr3 m c) w = Some g -> apart m g
}.

Lemma shared_pde m c a :
  (forall i, 768 <= i < 1023 -> dir_entry_at (with_cr3 m c) i = dir_entry_at m i) -> 0xc0000000 <= a < window ->
  pde_of (with_cr3 m c) a = pde_of m a.
Proof. intros Hk Ha. unfold window in Ha. rewrite !pde_of_dir. apply Hk. rewrite PDE_IDX_eq by lia. lia. Qed.

(** The kernel's addresses mean the same in both. *)
Lemma shared_translate m c a :
  (forall i, 768 <= i < 1023 -> dir_entry_at (with_cr3 m c) i = dir_entry_at m i) -> 0xc0000000 <= a < window ->
  translate (with_cr3 m c) a = translate m a.
Proof.
  intros Hk Ha. pose proof (shared_pde m c a Hk Ha) as He. unfold translate.
  assert (pte_of (with_cr3 m c) a = pte_of m a) as -> by (unfold pte_of; by rewrite He). by rewrite He.
Qed.

Lemma fork_translate m c vc a : forked m c vc -> 0xc0000000 <= a < window -> translate (with_cr3 m c) a = translate m a.
Proof. intros Hf. apply shared_translate, (fk_kernel _ _ _ Hf). Qed.

Lemma apart_beside m m' g : beside m m' -> apart m g -> apart m' g.
Proof.
  intros Hb [Ht Hp]. split; [by rewrite (beside_table m m')|]. intros w Hw. rewrite (beside_page m m') by done. by apply Hp.
Qed.

(** The directory of the child is not a table of the parent, and no page of the
    child below the kernel's addresses. *)
Lemma child_dir_apart m c vc : forked m c vc -> ~ table_frame m c.
Proof.
  intros [Hh _ _ (Hp & _ & Ht & Hn) _ _ _] Hx. apply Hn. by apply (so_mapped _ (ho_space _ Hh) vc c Hp Ht).
Qed.

(** A kernel page other than the one of the child's directory is no table. *)
Lemma kernel_page_no_table m c vc b fb :
  forked m c vc -> page b -> 0xc0000000 <= b -> b <> vc -> translate m b = Some fb -> fb <> cr3 m ->
  ~ table_frame m fb /\ ~ table_frame (with_cr3 m c) fb /\ fb <> c.
Proof.
  intros Hk Hb Hlo Hne Hf Hcr. pose proof Hk as [Hh Hc _ (Hp & _ & Ht & _) _ _ _]. pose proof (page_range b Hb) as Hr.
  assert (fb <> c) as Hfc by (intros ->; apply Hne; by apply (so_inj _ (ho_space _ Hh) b vc c)).
  split; [|split; [|done]].
  - intros Hx. apply Hcr. by apply (so_mapped _ (ho_space _ Hh) b fb Hb Hf).
  - intros Hx. apply Hfc. rewrite <- (fork_translate m c vc b Hk) in Hf by lia.
    by apply (so_mapped _ (ho_space _ Hc) b fb Hb Hf).
Qed.

(** Writing to a frame that is no table of either. *)
Lemma forked_write m m' c vc :
  forked m c vc -> same_tables m m' -> same_tables (with_cr3 m c) (with_cr3 m' c) -> forked m' c vc.
Proof.
  intros Hk Hs Hsc. pose proof Hk as [Hh Hc Hlow (Hp & Hlo & Ht & Hn) Hker Htab Hfr].
  pose proof (same_beside m m' (ho_space _ Hh) Hs) as Hb. constructor.
  - by apply (heap_ok_same m).
  - by apply (heap_ok_same (with_cr3 m c)).
  - by rewrite (sm_kva _ _ Hs).
  - rewrite (sm_kva _ _ Hs), (sm_cr3 _ _ Hs), (same_page m m') by done. done.
  - intros i Hi. rewrite (same_dir m m'), (same_dir _ _ i Hsc) by (done || lia). by apply Hker.
  - intros i Hi. rewrite (same_dir _ _ i Hsc) by lia. intros Hpr. apply (apart_beside m m'); [done|]. by apply Htab.
  - intros w g Hw Hwl. rewrite (same_page _ _ w Hsc) by done. intros Hg. apply (apart_beside m m'); [done|]. by apply (Hfr w).
Qed.

(** ** A page for the child *)

(** The table that maps [v] in the child after the mapping was added. *)
Lemma child_table m c vc m1 m2 v pa :
  forked m c vc -> page v -> v < 0xc0000000 -> took PF_USER (with_cr3 m c) m1 pa -> page_mapped m1 m2 v pa ->
  apart m (frame (pde_of m2 v)) /\ frame (pde_of m2 v) <> c /\ forall w, page w -> translate (with_cr3 m c) w <> Some (frame (pde_of m2 v)).
Proof.
  intros Hk Hv Hlt [[p ->] _ _ _ Hok1] Hpm. pose proof Hk as [Hh Hc _ _ _ Htab _].
  pose proof (page_pde v Hv) as Hd. assert (PDE_IDX v < 768) as Hd8 by (pose proof (page_range v Hv); unfold window in *; rewrite PDE_IDX_eq by lia; lia).
  assert (present (pde_of m2 v) = true) as Hpr.
  { pose proof (pm_maps _ _ _ _ Hpm) as Hm. unfold translate in Hm. destruct (present (pde_of m2 v)); done. }
  pose proof (pm_ok _ _ _ _ Hpm) as Hok2. pose proof (so_pt _ Hok2) as Hpt2. pose proof (pm_cr3 _ _ _ _ Hpm) as Hcr. cbn in Hcr.
  rewrite pde_of_dir in Hpr |- *. destruct (md_dir _ _ _ _ (pm_raw _ _ _ _ Hpm)) as [[_ Hdir]|(k & Hk1 & Hk2 & Htk & Hdir)].
  - rewrite Hdir in Hpr |- * by lia. change (dir_entry_at _ (PDE_IDX v)) with (dir_entry_at (with_cr3 m c) (PDE_IDX v)) in Hpr |- *.
    assert (frame (dir_entry_at (with_cr3 m c) (PDE_IDX v)) <> c) as Hne by (apply (pt_tables _ (so_pt _ (ho_space _ Hc)) (PDE_IDX v)); [lia|done]).
    split; [apply Htab; [lia|done]|]. split; [done|]. intros w Hw Ht. apply Hne.
    apply (so_mapped _ (ho_space _ Hc) w _ Hw Ht). right. exists (PDE_IDX v). split; [lia|done].
  - rewrite Hdir, decide_True, entry_frame by (done || lia || (apply pool_frame_aligned; [apply Hok1|done])).
    cbn [kernel_pool with_pool with_user_pool with_cr3] in *. set (F := pool_frame (kernel_pool m) k).
    assert (free_frame m F) as HF by (exists PF_KERNEL, k; done). assert (free_frame (with_cr3 m c) F) as HFc by exact HF.
    split; [split; [by apply (so_fresh _ (ho_space _ Hh))|]|split].
    + intros w Hw Ht. by destruct (so_mapped _ (ho_space _ Hh) w F Hw Ht).
    + intros HFe. apply (so_fresh _ (ho_space _ Hc) F HFc). left. done.
    + intros w Hw Ht. by destruct (so_mapped _ (ho_space _ Hc) w F Hw Ht).
Qed.

(** The words that adding the mapping leaves as they are. *)
Lemma child_page_words m c vc m1 m2 v pa g i :
  forked m c vc -> page v -> v < 0xc0000000 -> took PF_USER (with_cr3 m c) m1 pa -> page_mapped m1 m2 v pa ->
  aligned g -> 0 <= i < 1024 -> g <> c -> g <> frame (pde_of m2 v) -> word (phys m2) (g + 4 * i) = word (phys m) (g + 4 * i).
Proof.
  intros Hk Hv Hlt [[p ->] _ _ _ _] Hpm Hg Hi Hc Ht. by rewrite (md_keep _ _ _ _ (pm_raw _ _ _ _ Hpm)).
Qed.

Lemma child_page_beside m c vc m1 m2 v pa :
  forked m c vc -> page v -> v < 0xc0000000 -> took PF_USER (with_cr3 m c) m1 pa -> page_mapped m1 m2 v pa ->
  beside m (with_cr3 m2 (cr3 m)).
Proof.
  intros Hk Hv Hlt Htk Hpm. pose proof (ho_space _ (fk_parent _ _ _ Hk)) as Hs.
  destruct (child_table m c vc m1 m2 v pa Hk Hv Hlt Htk Hpm) as ((Hnt & _) & _ & _). pose proof (child_dir_apart m c vc Hk) as Hnc.
  assert (shrinks (kernel_pool m) (kernel_pool m2) /\ shrinks (user_pool m) (user_pool m2)) as [Hsk Hsu]
    by exact (round_shrinks PF_USER (with_cr3 m c) m1 m2 v pa Htk Hpm).
  pose proof Htk as [[p ->] _ _ _ _]. pose proof (pm_ok _ _ _ _ Hpm) as Hok.
  constructor; cbn [cr3 with_cr3 phys kernel_pool user_pool kernel_vaddr cur_vaddr]; [done|apply (pm_kvaddr _ _ _ _ Hpm)|apply (pm_uvaddr _ _ _ _ Hpm)| | |].
  - intros g i Hg Hi. apply (child_page_words m c vc _ m2 v pa g i Hk Hv Hlt Htk Hpm); [by apply (table_frame_aligned m)|done| |].
    + by intros ->.
    + by intros ->.
  - split; [done|apply (so_pool m2 PF_KERNEL Hok)].
  - split; [done|apply (so_pool m2 PF_USER Hok)].
Qed.

Lemma child_page_heap m c vc m1 m2 v pa j :
  forked m c vc -> page v -> v = va_page (cur_vaddr m) j -> va_used (cur_vaddr m) j = true -> 0 <= j <= va_bits (cur_vaddr m) ->
  took PF_USER (with_cr3 m c) m1 pa -> page_mapped m1 m2 v pa -> heap_ok m2.
Proof.
  intros Hk Hv Hvj Hu Hj Htk Hpm. pose proof (fk_child _ _ _ Hk) as Hc. pose proof (fk_parent _ _ _ Hk) as Hh.
  assert (shrinks (kernel_pool m) (kernel_pool m2)) as [Hst _] by apply (round_shrinks PF_USER (with_cr3 m c) m1 m2 v pa Htk Hpm).
  destruct Htk as [[p ->] _ _ _ _]. pose proof (pm_kvaddr _ _ _ _ Hpm) as Hkv. pose proof (pm_uvaddr _ _ _ _ Hpm) as Huv.
  cbn [kernel_vaddr cur_vaddr with_pool with_user_pool with_cr3] in Hkv, Huv.
  assert (forall pf, va_of pf m2 = va_of pf m) as Hvas by (intros []; done).
  constructor; [apply (pm_ok _ _ _ _ Hpm)|rewrite Hst; apply Hh|intros pf; rewrite Hvas; apply Hh| |rewrite Huv, Hkv; apply Hh].
  intros pf i Hi Hf. rewrite Hvas in Hi, Hf |- *.
  pose proof (va_page_ok _ i (ho_va _ Hh pf) Hi) as Hp. rewrite (pm_others _ _ _ _ Hpm) by (done || (intros He; destruct pf;
    [pose proof (va_apart m j i Hh Hj ltac:(lia)) as Hap; cbn [va_of] in He; lia|
     cbn [va_of] in *; assert (i = j) as -> by (unfold va_page in *; lia); congruence])).
  exact (ho_free _ Hc pf i Hi Hf).
Qed.

(** [m'] is [m] with page [v] added to the child, at frame [pa]. *)
Record child_got (m m' : mem) (c vc v pa : Z) : Prop := {
  cg_forked : forked m' c vc;
  cg_beside : beside m m';
  cg_maps : translate (with_cr3 m' c) v = Some pa;
  cg_others : forall w, page w -> w <> v -> translate (with_cr3 m' c) w = translate (with_cr3 m c) w;
  cg_apart : apart m pa;
  cg_new : forall w, page w -> translate (with_cr3 m c) w <> Some pa;
  cg_words : forall w g i, page w -> 0 <= i < 1024 ->
    w <> vc /\ translate m w = Some g \/ w < 0xc0000000 /\ translate (with_cr3 m c) w = Some g ->
    word (phys m') (g + 4 * i) = word (phys m) (g + 4 * i)
}.

Lemma child_page_got m c vc m1 m2 v pa j :
  forked m c vc -> page v -> v < 0xc0000000 ->
  v = va_page (cur_vaddr m) j -> va_used (cur_vaddr m) j = true -> 0 <= j <= va_bits (cur_vaddr m) ->
  took PF_USER (with_cr3 m c) m1 pa -> page_mapped m1 m2 v pa -> child_got m (with_cr3 m2 (cr3 m)) c vc v pa.
Proof.
  intros Hk Hv Hlt Hvj Hu Hj Htk Hpm. pose proof Hk as [Hh Hc Hlow (Hpc & Hvc & Htc & Hcr) Hker Htab Hfr].
  pose proof (child_page_beside m c vc m1 m2 v pa Hk Hv Hlt Htk Hpm) as Hb.
  pose proof (child_page_heap m c vc m1 m2 v pa j Hk Hv Hvj Hu Hj Htk Hpm) as Hh2.
  destruct (child_table m c vc m1 m2 v pa Hk Hv Hlt Htk Hpm) as (Hat & Htnc & Htm).
  assert (cr3 m2 = c) as Hc2 by (rewrite (pm_cr3 _ _ _ _ Hpm); destruct Htk as [[p ->] _ _ _ _]; done).
  set (m' := with_cr3 m2 (cr3 m)) in *. assert (with_cr3 m' c = m2) as Hm2 by (rewrite <- Hc2; by destruct m2).
  assert (free_frame m pa) as Hfree by exact (ex_intro _ PF_USER (tk_was_free _ _ _ _ Htk)).
  assert (apart m pa) as Hpa.
  { split; [by apply (so_fresh _ (ho_space _ Hh))|]. intros w Hw Ht. by destruct (so_mapped _ (ho_space _ Hh) w pa Hw Ht). }
  assert (forall w, page w -> w <> v -> translate m2 w = translate (with_cr3 m c) w) as Hoth.
  { intros w Hw Hne. rewrite (pm_others _ _ _ _ Hpm) by done. by destruct Htk as [[p ->] _ _ _ _]. }
  pose proof (page_range v Hv) as Hvr. unfold window in Hvr.
  assert (forall i, 0 <= i < 1024 -> i <> PDE_IDX v -> dir_entry_at m2 i = dir_entry_at (with_cr3 m c) i) as Hdir.
  { intros i Hi Hne. destruct Htk as [[p ->] _ _ _ _].
    destruct (md_dir _ _ _ _ (pm_raw _ _ _ _ Hpm)) as [[_ Hd]|(k & _ & _ & _ & Hd)]; rewrite Hd by done; [done|by rewrite decide_False]. }
  assert (PDE_IDX v < 768) as Hd8 by (rewrite PDE_IDX_eq by lia; lia).
  constructor; rewrite ?Hm2; try done.
  - constructor; rewrite ?Hm2; try done.
    + by apply (heap_ok_beside m).
    + by rewrite (bs_kva _ _ Hb).
    + rewrite (bs_kva _ _ Hb), (beside_page m m') by done. done.
    + intros i Hi. rewrite Hdir, (beside_dir m m') by (done || lia). by apply Hker.
    + intros i Hi Hpr. apply (apart_beside m m'); [done|]. destruct (decide (i = PDE_IDX v)) as [->|Hne].
      * by rewrite pde_of_dir in Hat.
      * rewrite Hdir in Hpr |- * by lia. by apply Htab.
    + intros w g Hw Hwl Hg. apply (apart_beside m m'); [done|]. destruct (decide (w = v)) as [->|Hne].
      * assert (g = pa) as -> by (rewrite (pm_maps _ _ _ _ Hpm) in Hg; congruence). done.
      * rewrite Hoth in Hg by done. by apply (Hfr w).
  - by apply (pm_maps _ _ _ _ Hpm).
  - intros w Hw Ht. destruct (so_mapped _ (ho_space _ Hc) w pa Hw Ht) as [Hn _]. by apply Hn.
  - intros w g i Hw Hi Hg. apply (child_page_words m c vc m1 m2 v pa g i Hk Hv Hlt Htk Hpm); [|done| |].
    + destruct Hg as [[_ Ht]|[_ Ht]]; [exact (page_frame_aligned m w g Hw Ht)|exact (page_frame_aligned (with_cr3 m c) w g Hw Ht)].
    + intros ->. destruct Hg as [[Hne Ht]|[Hwl Ht]]; [apply Hne; by apply (so_inj _ (ho_space _ Hh) w vc c)|].
      destruct (Hfr w c Hw Hwl Ht) as [_ Hn]. by apply (Hn vc).
    + intros ->. destruct Hg as [[_ Ht]|[_ Ht]]; [by apply (proj2 Hat w)|by apply (Htm w)].
Qed.

(** ** Copying *)

(** Writing one frame that is no table. *)
Lemma same_tables_frame m ph h :
  space_ok m -> ~ table_frame m h -> aligned h ->
  (forall a, (forall j, 0 <= j < 1024 -> a <> h + 4 * j) -> word ph a = word (phys m) a) -> same_tables m (with_phys m ph).
Proof.
  intros Hs Hn Ha Hout. constructor; try done. intros g i Hg Hi. cbn [phys with_phys]. apply Hout. intros j Hj He.
  destruct (frames_apart g h i j (table_frame_aligned m g Hs Hg) Ha Hi Hj He) as [-> _]. done.
Qed.

(** A page of words copied to the page [b], from the page [v]. *)
Lemma copy_page_words m b fb v f :
  heap_ok m -> page b -> translate m b = Some fb -> fb <> cr3 m -> page v -> translate m v = Some f -> b <> v ->
  exists ph, copy_words 1024 b v m = Ok (tt, with_phys m ph)
    /\ (forall j, 0 <= j < 1024 -> word ph (fb + 4 * j) = word (phys m) (f + 4 * j))
    /\ (forall a, (forall j, 0 <= j < 1024 -> a <> fb + 4 * j) -> word ph a = word (phys m) a).
Proof.
  intros Hh Hb Hfb Hcr Hv Hf Hne. pose proof (page_range v Hv) as Hr. unfold window in Hr. pose proof Hv as [_ Hal].
  destruct (copy_words_run 1024 b fb v f 0 m Hh Hb Hfb Hcr) as (ph & Hrun & _ & Hw & Hout).
  - intros ->. apply Hne. by apply (so_inj _ (ho_space _ Hh) b v f).
  - exact (page_frame_aligned m v f Hv Hf).
  - lia.
  - lia.
  - intros j Hj. split; [lia|]. by rewrite translate_offset, Hf by (done || lia).
  - exists ph. rewrite !Z.mul_0_r, !Z.add_0_r in Hrun. split; [exact Hrun|]. split; [exact Hw|exact Hout].
Qed.

(** The words of other frames. *)
Lemma other_frame_words m ph h g i :
  aligned h -> aligned g -> g <> h -> 0 <= i < 1024 ->
  (forall a, (forall j, 0 <= j < 1024 -> a <> h + 4 * j) -> word ph a = word (phys m) a) -> word ph (g + 4 * i) = word (phys m) (g + 4 * i).
Proof. intros Hh Hg Hne Hi Hout. apply Hout. intros j Hj He. by destruct (frames_apart g h i j Hg Hh Hi Hj He) as [? _]. Qed.

(** Page [b] is a buffer of the kernel, at frame [fb]. *)
Record buffer (m : mem) (vc b fb : Z) : Prop := {
  bf_page : page b;
  bf_kernel : 0xc0000000 <= b;
  bf_other : b <> vc;
  bf_maps : translate m b = Some fb;
  bf_dir : fb <> cr3 m
}.

Lemma buffer_beside m m' vc b fb : buffer m vc b fb -> beside m m' -> buffer m' vc b fb.
Proof. intros [Hp Hk Ho Hm Hd] Hb. constructor; try done; [by rewrite (beside_page m m')|by rewrite (bs_cr3 _ _ Hb)]. Qed.

Lemma copy_to_buffer m c vc b fb v f :
  forked m c vc -> buffer m vc b fb -> page v -> v < 0xc0000000 -> translate m v = Some f ->
  exists ph, let m' := with_phys m ph in copy_words 1024 b v m = Ok (tt, m') /\ forked m' c vc /\ same_tables m m'
    /\ (forall j, 0 <= j < 1024 -> word (phys m') (fb + 4 * j) = word (phys m) (f + 4 * j))
    /\ (forall w, page w -> translate (with_cr3 m' c) w = translate (with_cr3 m c) w)
    /\ (forall g i, aligned g -> g <> fb -> 0 <= i < 1024 -> word (phys m') (g + 4 * i) = word (phys m) (g + 4 * i)).
Proof.
  intros Hk [Hb Hlo Hne Hfb Hcr] Hv Hlt Hf. pose proof Hk as [Hh Hc _ _ _ _ _].
  destruct (copy_page_words m b fb v f Hh Hb Hfb Hcr Hv Hf ltac:(lia)) as (ph & Hrun & Hw & Hout).
  destruct (kernel_page_no_table m c vc b fb Hk Hb Hlo Hne Hfb Hcr) as (Hn1 & Hn2 & _).
  pose proof (page_frame_aligned m b fb Hb Hfb) as Ha.
  pose proof (same_tables_frame m ph fb (ho_space _ Hh) Hn1 Ha Hout) as Hs.
  pose proof (same_tables_frame (with_cr3 m c) ph fb (ho_space _ Hc) Hn2 Ha Hout) as Hsc.
  exists ph. cbv zeta. split; [exact Hrun|]. split; [by apply (forked_write m)|]. split; [done|]. split; [exact Hw|]. split.
  - intros w Hw'. exact (same_page _ _ w Hsc Hw').
  - intros g i Hg Hgn Hi. by apply (other_frame_words m ph fb).
Qed.

Lemma copy_from_buffer m c vc b fb v pa :
  forked m c vc -> buffer m vc b fb -> page v -> v < 0xc0000000 -> translate (with_cr3 m c) v = Some pa ->
  exists ph, let m' := with_phys m ph in copy_words 1024 v b (with_cr3 m c) = Ok (tt, with_cr3 m' c) /\ forked m' c vc /\ same_tables m m'
    /\ (forall j, 0 <= j < 1024 -> word (phys m') (pa + 4 * j) = word (phys m) (fb + 4 * j))
    /\ (forall w, page w -> translate (with_cr3 m' c) w = translate (with_cr3 m c) w)
    /\ (forall g i, aligned g -> g <> pa -> 0 <= i < 1024 -> word (phys m') (g + 4 * i) = word (phys m) (g + 4 * i)).
Proof.
  intros Hk [Hb Hlo Hne Hfb Hcr] Hv Hlt Hf. pose proof Hk as [Hh Hc Hlow _ _ _ Hfr]. pose proof (page_range b Hb) as Hbr.
  unfold K_HEAP_START in Hlow. pose proof (low_page_frame (with_cr3 m c) v pa Hc Hv ltac:(cbn; lia) Hf) as Hpc.
  assert (translate (with_cr3 m c) b = Some fb) as Hfbc by (rewrite (fork_translate m c vc b Hk) by lia; done).
  destruct (copy_page_words (with_cr3 m c) v pa b fb Hc Hv Hf Hpc Hb Hfbc ltac:(lia)) as (ph & Hrun & Hw & Hout).
  pose proof (page_frame_aligned _ v pa Hv Hf) as Ha. destruct (Hfr v pa Hv Hlt Hf) as [Hn1 _].
  assert (~ table_frame (with_cr3 m c) pa) as Hn2 by (intros Ht; apply Hpc; by apply (so_mapped _ (ho_space _ Hc) v pa Hv Hf)).
  pose proof (same_tables_frame m ph pa (ho_space _ Hh) Hn1 Ha Hout) as Hs.
  pose proof (same_tables_frame (with_cr3 m c) ph pa (ho_space _ Hc) Hn2 Ha Hout) as Hsc.
  exists ph. cbv zeta. split; [exact Hrun|]. split; [by apply (forked_write m)|]. split; [done|]. split; [exact Hw|]. split.
  - intros w Hw'. exact (same_page _ _ w Hsc Hw').
  - intros g i Hg Hgn Hi. by apply (other_frame_words m ph pa).
Qed.

(** ** The kernel's state during the copy *)

(** [k] with memory [m] and arena headers [A]. *)
Definition at_mem (k : kernel) (m : mem) (A : gmap Z arena) : kernel := set_arenas A (with_view m k).

Lemma at_mem_same k t : tasks k !! running k = Some t -> at_mem k (view k) (arenas k) = k.
Proof. intros Ht. unfold at_mem. rewrite (with_view_same k t Ht). by destruct k. Qed.

Section AtMem.
Context (k : kernel) (t : task_struct).
Hypothesis Ht : tasks k !! running k = Some t.

Lemma at_mem_view m A : cur_vaddr m = userprog_vaddr t -> view (at_mem k m A) = m.
Proof. intros Hv. exact (view_with_view m k t Ht Hv). Qed.

Lemma at_mem_run {A} (c : st mem A) a m m' ar :
  cur_vaddr m = userprog_vaddr t -> c m = Ok (a, m') -> cur_vaddr m' = userprog_vaddr t ->
  in_mem c (at_mem k m ar) = Ret a (at_mem k m' ar).
Proof.
  intros Hv Hc Hv'. rewrite <- (at_mem_view m ar Hv) in Hc. exact (in_mem_run c (at_mem k m ar) t a m' Ht Hc Hv').
Qed.

Lemma at_mem_bad {A} (c : st mem A) e m ar :
  cur_vaddr m = userprog_vaddr t -> c m = Bad e -> in_mem c (at_mem k m ar) = Err e.
Proof. intros Hv Hc. rewrite <- (at_mem_view m ar Hv) in Hc. exact (in_mem_bad c (at_mem k m ar) t e Ht Hc). Qed.

Lemma at_mem_frame m ar v f : translate m v = Some f -> arena_frame v (at_mem k m ar) = Ret f (at_mem k m ar).
Proof.
  intros Hf. unfold arena_frame, at_mem. assert (translate (kmem (with_view m k)) v = translate m v) as Heq by done.
  change (kmem (set_arenas ar (with_view m k))) with (kmem (with_view m k)). by rewrite Heq, Hf.
Qed.

Lemma copy_page_run m m' ar dst src fd fs :
  cur_vaddr m = userprog_vaddr t -> copy_words 1024 dst src m = Ok (tt, m') -> cur_vaddr m' = userprog_vaddr t ->
  translate m' src = Some fs -> translate m' dst = Some fd ->
  copy_page dst src (at_mem k m ar) = Ret tt (at_mem k m' (partial_alter (fun _ => ar !! fs) fd ar)).
Proof.
  intros Hv Hc Hv' Hs Hd. unfold copy_page. prun (at_mem_run _ tt m m' ar Hv Hc Hv').
  prun (at_mem_frame m' ar src fs Hs). by prun (at_mem_frame m' ar dst fd Hd).
Qed.

Lemma activate_run m ar p tp d :
  cur_vaddr m = userprog_vaddr t -> tasks k !! p = Some tp -> page (pgdir tp) -> translate m (pgdir tp) = Some d -> self_map m ->
  page_dir_activate p (at_mem k m ar) = Ret tt (at_mem k (with_cr3 m d) ar).
Proof.
  intros Hv Hp Hpg Hd Hs. pose proof (page_range _ Hpg) as Hr. unfold window in Hr. destruct Hpg as [[Hlo _] _].
  unfold page_dir_activate, task. assert (tasks (at_mem k m ar) !! p = Some tp) as Hp' by done. prun (run_load tasks (at_mem k m ar) p tp Hp').
  rewrite (proj2 (Z.eqb_neq (pgdir tp) 0)) by lia. cbn [negb].
  by prun (at_mem_run _ d m m ar Hv (addr_v2p_spec m (pgdir tp) d Hs ltac:(lia) Hd) Hv).
Qed.

Lemma at_mem_lock f m ar p :
  lock_free k p -> running k <> 0 ->
  lock_acquire (S f) p (at_mem k m ar) = Ret tt (at_mem (held p k) m ar)
  /\ lock_release p (at_mem (held p k) m ar) = Ret tt (at_mem k m ar).
Proof.
  intros Hl Hr. split; [exact (acquire_run f (at_mem k m ar) p Hl Hr)|].
  by rewrite (unlock_run (at_mem k m ar) (at_mem (held p k) m ar) p Hl eq_refl eq_refl eq_refl).
Qed.
End AtMem.

Lemma attach_run f k t m ar v :
  tasks k !! running k = Some t -> cur_vaddr m = userprog_vaddr t -> lock_free k user_pool_lock -> running k <> 0 ->
  space_ok m -> page v -> translate m v = None ->
  (exists pa m1 m2, get_a_page_without_opvaddrbitmap (S f) PF_USER v (at_mem k m ar) = Ret v (at_mem k m2 ar)
     /\ took PF_USER m m1 pa /\ page_mapped m1 m2 v pa)
  \/ get_a_page_without_opvaddrbitmap (S f) PF_USER v (at_mem k m ar) = Err EPanic.
Proof.
  intros Ht Hv Hl Hr Hs Hp Hn. destruct (at_mem_lock k f m ar user_pool_lock Hl Hr) as [Hacq _].
  assert (tasks (held user_pool_lock k) !! running (held user_pool_lock k) = Some t) as Hth by done.
  unfold get_a_page_without_opvaddrbitmap, attach_page. cbn [pool_lock].
  destruct (map_one PF_USER m v Hs Hp Hn) as [(pa & m1 & m2 & Hpal & Hadd & Hf & Htk & Hpm)|[[Hbad|(pa & m1 & Hpal & Hf & Hbad)] _]].
  - left. exists pa, m1, m2. split; [|done]. prun Hacq.
    assert (cur_vaddr m1 = userprog_vaddr t) as Hv1 by (destruct Htk as [[p ->] _ _ _ _]; done).
    prun (at_mem_run _ t Hth _ pa m m1 ar Hv Hpal Hv1). rewrite (proj2 (Z.eqb_neq pa 0) Hf).
    prun (at_mem_run _ t Hth _ tt m1 m2 ar Hv1 Hadd (eq_trans (pm_uvaddr _ _ _ _ Hpm) Hv1)).
    by prun (proj2 (at_mem_lock k f m2 ar user_pool_lock Hl Hr)).
  - right. prun Hacq. by rewrite (bind_Err _ _ _ _ (at_mem_bad _ t Hth _ EPanic m ar Hv Hbad)).
  - right. prun Hacq. assert (cur_vaddr m1 = userprog_vaddr t) as Hv1.
    { destruct (palloc_from_spec PF_USER m Hs) as [(g & m' & Hpal' & [[p ->] _ _ _ _])|[Hbad' _]]; [|congruence].
      rewrite Hpal in Hpal'. injection Hpal' as -> ->. done. }
    prun (at_mem_run _ t Hth _ pa m m1 ar Hv Hpal Hv1). rewrite (proj2 (Z.eqb_neq pa 0) Hf).
    by rewrite (bind_Err _ _ _ _ (at_mem_bad _ t Hth _ EPanic m1 ar Hv1 Hbad)).
Qed.

(** ** Copying one page *)

(** The page directory of the parent, as the kernel sees it. *)
Definition own_dir (m : mem) (vp : Z) : Prop := page vp /\ 0xc0000000 <= vp /\ translate m vp = Some (cr3 m).

Lemma own_dir_beside m m' vp : beside m m' -> own_dir m vp -> own_dir m' vp.
Proof. intros Hb (Hp & Hk & Ht). split; [done|]. split; [done|]. by rewrite (beside_page m m'), (bs_cr3 _ _ Hb). Qed.

(** The frame of a page below the kernel's addresses, of the parent or the child. *)
Definition user_frame (m : mem) (c g : Z) : Prop :=
  exists w, page w /\ w < 0xc0000000 /\ (translate m w = Some g \/ translate (with_cr3 m c) w = Some g).

(** The child has got a copy of the page [v] of the parent. *)
Record page_copied (m m' : mem) (ar ar' : gmap Z arena) (c vc v : Z) : Prop := {
  pc_forked : forked m' c vc;
  pc_beside : beside m m';
  pc_page : exists f g, translate m v = Some f /\ translate (with_cr3 m' c) v = Some g
    /\ (forall i, 0 <= i < 1024 -> word (phys m') (g + 4 * i) = word (phys m) (f + 4 * i)) /\ ar' !! g = ar !! f;
  pc_others : forall w, page w -> w <> v -> translate (with_cr3 m' c) w = translate (with_cr3 m c) w;
  pc_words : forall g i, user_frame m c g -> 0 <= i < 1024 -> word (phys m') (g + 4 * i) = word (phys m) (g + 4 * i);
  pc_arenas : forall g, user_frame m c g -> ar' !! g = ar !! g
}.

Lemma user_frame_aligned m c g : user_frame m c g -> aligned g.
Proof. intros (w & Hw & _ & [Ht|Ht]); [exact (page_frame_aligned m w g Hw Ht)|exact (page_frame_aligned _ w g Hw Ht)]. Qed.

Lemma user_frame_buffer m c vc b fb g : forked m c vc -> buffer m vc b fb -> user_frame m c g -> g <> fb.
Proof.
  intros Hk [Hb Hlo _ Hf _] (w & Hw & Hlt & [Ht|Ht]) ->.
  - assert (w = b) by (by apply (so_inj _ (ho_space _ (fk_parent _ _ _ Hk)) w b fb)). lia.
  - by apply (proj2 (fk_frames _ _ _ Hk w fb Hw Hlt Ht) b).
Qed.

(** The three changes of memory together. *)
Lemma page_copied_intro m ph1 m2 ph3 ar c vc b fb v f pa :
  forked m c vc -> buffer m vc b fb -> page v -> v < 0xc0000000 -> translate m v = Some f ->
  let m1 := with_phys m ph1 in let m3 := with_phys m2 ph3 in
  same_tables m m1 -> (forall w, page w -> translate (with_cr3 m1 c) w = translate (with_cr3 m c) w) ->
  (forall j, 0 <= j < 1024 -> word ph1 (fb + 4 * j) = word (phys m) (f + 4 * j)) ->
  (forall g i, aligned g -> g <> fb -> 0 <= i < 1024 -> word ph1 (g + 4 * i) = word (phys m) (g + 4 * i)) ->
  child_got m1 m2 c vc v pa ->
  forked m3 c vc -> same_tables m2 m3 -> (forall w, page w -> translate (with_cr3 m3 c) w = translate (with_cr3 m2 c) w) ->
  (forall j, 0 <= j < 1024 -> word ph3 (pa + 4 * j) = word (phys m2) (fb + 4 * j)) ->
  (forall g i, aligned g -> g <> pa -> 0 <= i < 1024 -> word ph3 (g + 4 * i) = word (phys m2) (g + 4 * i)) ->
  let ar1 := partial_alter (fun _ => ar !! f) fb ar in
  page_copied m m3 ar (partial_alter (fun _ => ar1 !! fb) pa ar1) c vc v.
Proof.
  intros Hk Hb Hv Hlt Hf m1 m3 Hs1 Hc1 Hw1 Ho1 [Hk2 Hb2 Hm2 Hoth2 Hap Hnew Hw2] Hk3 Hs3 Hc3 Hw3 Ho3 ar1. pose proof Hb as [Hbp Hbk Hbo Hbf Hbd].
  assert (space_ok m) as Hsp by apply Hk. assert (space_ok m2) as Hsp2 by apply Hk2.
  assert (translate m1 b = Some fb) as Hbf1 by (by rewrite (same_page m m1)).
  assert (pa <> fb) as Hpf by (intros ->; exact (proj2 Hap b Hbp Hbf1)).
  assert (forall g, user_frame m c g -> g <> fb /\ g <> pa) as Hne.
  { intros g Hu. split; [by apply (user_frame_buffer m c vc b)|]. destruct Hu as (w & Hw & _ & [Ht|Ht]); intros ->.
    - apply (proj2 Hap w Hw). by rewrite (same_page m m1).
    - apply (Hnew w Hw). by rewrite Hc1. }
  constructor; [done| | | | |].
  - transitivity m1; [by apply same_beside|]. transitivity m2; [done|]. by apply same_beside.
  - exists f, pa. split; [done|]. split; [by rewrite Hc3|]. split.
    + intros i Hi. cbn [m3 phys with_phys]. rewrite Hw3 by done. rewrite (Hw2 b fb i Hbp Hi); [by apply Hw1|by left].
    + rewrite lookup_partial_alter_eq. unfold ar1. by rewrite lookup_partial_alter_eq.
  - intros w Hw Hwv. by rewrite Hc3, Hoth2, Hc1.
  - intros g i Hu Hi. destruct (Hne g Hu) as [H1 H2]. pose proof (user_frame_aligned m c g Hu) as Ha. cbn [m3 phys with_phys].
    rewrite Ho3 by done. destruct Hu as (w & Hw & Hwl & Hg).
    rewrite (Hw2 w g i Hw Hi); [by apply Ho1|]. rewrite (same_page m m1), Hc1 by done. destruct Hg as [Hg|Hg]; [left|by right].
    split; [|done]. pose proof (fk_dir _ _ _ Hk) as (_ & Hlo & _ & _). pose proof (fk_low _ _ _ Hk). unfold K_HEAP_START in *. lia.
  - intros g Hu. destruct (Hne g Hu) as [H1 H2]. unfold ar1. by rewrite !lookup_partial_alter_ne by done.
Qed.

Lemma copy_user_page_run f k t cp tc c b fb v j m ar :
  tasks k !! running k = Some t -> tasks k !! cp = Some tc -> cur_vaddr m = userprog_vaddr t ->
  lock_free k user_pool_lock -> running k <> 0 ->
  forked m c (pgdir tc) -> own_dir m (pgdir t) -> buffer m (pgdir tc) b fb ->
  page v -> v < 0xc0000000 -> v = va_page (cur_vaddr m) j -> va_used (cur_vaddr m) j = true -> 0 <= j <= va_bits (cur_vaddr m) ->
  is_Some (translate m v) -> translate (with_cr3 m c) v = None ->
  (exists m' ar', copy_user_page (S f) cp (running k) b v (at_mem k m ar) = Ret tt (at_mem k m' ar')
     /\ page_copied m m' ar ar' c (pgdir tc) v)
  \/ copy_user_page (S f) cp (running k) b v (at_mem k m ar) = Err EPanic.
Proof.
  intros Ht Htc Hcv Hl Hr Hk Hown Hb Hv Hlt Hvj Hu Hj [fv Hfv] Hnone. set (vc := pgdir tc) in *.
  destruct (copy_to_buffer m c vc b fb v fv Hk Hb Hv Hlt Hfv) as (ph1 & Hrun1 & Hk1 & Hs1 & Hw1 & Hc1 & Ho1).
  set (m1 := with_phys m ph1) in *. assert (space_ok m) as Hsp by apply Hk. pose proof (same_beside m m1 Hsp Hs1) as Hb1.
  pose proof (buffer_beside m m1 vc b fb Hb Hb1) as Hbf1. set (ar1 := partial_alter (fun _ => ar !! fv) fb ar).
  assert (copy_page b v (at_mem k m ar) = Ret tt (at_mem k m1 ar1)) as R1.
  { apply (copy_page_run k t Ht m m1 ar b v fb fv Hcv Hrun1 Hcv); [by rewrite (same_page m m1)|apply Hbf1]. }
  destruct (fk_dir _ _ _ Hk1) as (Hpc & Hvc & Htc1 & _).
  pose proof (activate_run k t Ht m1 ar1 cp tc c Hcv Htc Hpc Htc1 (pt_self _ (so_pt _ (ho_space _ (fk_parent _ _ _ Hk1))))) as R2.
  assert (translate (with_cr3 m1 c) v = None) as Hn1 by (by rewrite Hc1).
  destruct (attach_run f k t (with_cr3 m1 c) ar1 v Ht Hcv Hl Hr (ho_space _ (fk_child _ _ _ Hk1)) Hv Hn1)
    as [(pa & mx & m2 & R3 & Htk & Hpm)|R3].
  2: { right. unfold copy_user_page. prun R1. prun R2. by rewrite (bind_Err _ _ _ _ R3). }
  left. pose proof (child_page_got m1 c vc mx m2 v pa j Hk1 Hv Hlt Hvj Hu Hj Htk Hpm) as Hgot.
  assert (cr3 m2 = c) as Hc2 by (rewrite (pm_cr3 _ _ _ _ Hpm); destruct Htk as [[p ->] _ _ _ _]; done).
  set (mb := with_cr3 m2 (cr3 m1)) in *. assert (with_cr3 mb c = m2) as Hmb by (rewrite <- Hc2; by destruct m2).
  pose proof (cg_beside _ _ _ _ _ _ Hgot) as Hb2. pose proof (buffer_beside m1 mb vc b fb Hbf1 Hb2) as Hbf2.
  pose proof (cg_forked _ _ _ _ _ _ Hgot) as Hk2. pose proof (cg_maps _ _ _ _ _ _ Hgot) as Hm2.
  destruct (copy_from_buffer mb c vc b fb v pa Hk2 Hbf2 Hv Hlt Hm2) as (ph3 & Hrun3 & Hk3 & Hs3 & Hw3 & Hc3 & Ho3).
  rewrite Hmb in Hrun3. set (m3 := with_phys mb ph3) in *.
  assert (cur_vaddr m2 = userprog_vaddr t) as Hcv2 by exact (eq_trans (bs_uva _ _ Hb2) Hcv).
  pose proof (page_range b (bf_page _ _ _ _ Hb)) as Hbr. pose proof (bf_kernel _ _ _ _ Hb) as Hbk.
  assert (beside m m3) as Hb3 by (transitivity m1; [done|]; transitivity mb; [done|]; apply same_beside; [apply Hk2|done]).
  assert (copy_page v b (at_mem k m2 ar1) = Ret tt (at_mem k (with_cr3 m3 c) (partial_alter (fun _ => ar1 !! fb) pa ar1))) as R4.
  { apply (copy_page_run k t Ht m2 (with_cr3 m3 c) ar1 v b pa fb Hcv2 Hrun3 Hcv2).
    - rewrite (fork_translate m3 c vc b Hk3) by lia. rewrite (beside_page m m3) by (done || apply Hb). apply Hb.
    - by rewrite Hc3. }
  exists m3, (partial_alter (fun _ => ar1 !! fb) pa ar1). split.
  - unfold copy_user_page. prun R1. prun R2. prun R3. prun R4.
    destruct (own_dir_beside m m3 _ Hb3 Hown) as (Hpo & Hpk & Hto). pose proof (page_range _ Hpo) as Hpr.
    rewrite <- (fork_translate m3 c vc (pgdir t) Hk3) in Hto by lia.
    rewrite (activate_run k t Ht (with_cr3 m3 c) _ (running k) t (cr3 m3) Hcv2 Ht Hpo Hto (pt_self _ (so_pt _ (ho_space _ (fk_child _ _ _ Hk3))))).
    done.
  - exact (page_copied_intro m ph1 mb ph3 ar c vc b fb v fv pa Hk Hb Hv Hlt Hfv Hs1 Hc1 Hw1 Ho1 Hgot Hk3 Hs3 Hc3 Hw3 Ho3).
Qed.

(** ** Copying all pages *)

(** The first [n] addresses of the parent's pool are done: [m0] and [ar0] are the
    memory and the arenas at the beginning. *)
Record copying (m0 m : mem) (ar0 ar : gmap Z arena) (c vc n : Z) : Prop := {
  cp_forked : forked m c vc;
  cp_beside : beside m0 m;
  cp_done : forall j, 0 <= j < n -> va_used (cur_vaddr m0) j = true ->
    exists f g, translate m0 (va_page (cur_vaddr m0) j) = Some f /\ translate (with_cr3 m c) (va_page (cur_vaddr m0) j) = Some g
      /\ (forall i, 0 <= i < 1024 -> word (phys m) (g + 4 * i) = word (phys m0) (f + 4 * i)) /\ ar !! g = ar0 !! f;
  cp_rest : forall w, page w -> w < 0xc0000000 ->
    (forall j, 0 <= j < n -> va_used (cur_vaddr m0) j = true -> w <> va_page (cur_vaddr m0) j) -> translate (with_cr3 m c) w = None;
  cp_words : forall w g i, page w -> w < 0xc0000000 -> translate m0 w = Some g -> 0 <= i < 1024 ->
    word (phys m) (g + 4 * i) = word (phys m0) (g + 4 * i) /\ ar !! g = ar0 !! g
}.

Lemma copying_start m ar c vc :
  forked m c vc -> (forall w, 0 <= w < 0xc0000000 -> translate (with_cr3 m c) w = None) -> copying m m ar ar c vc 0.
Proof.
  intros Hk Hn. constructor; [done|by apply same_beside; [apply Hk|]|lia| |done].
  intros w Hw Hlt _. apply Hn. pose proof (page_range w Hw). lia.
Qed.

Lemma copying_skip m0 m ar0 ar c vc n :
  copying m0 m ar0 ar c vc n -> va_used (cur_vaddr m0) n = false -> copying m0 m ar0 ar c vc (n + 1).
Proof.
  intros [Hk Hb Hd Hr Hw] Hu. constructor; try done.
  - intros j Hj Hju. apply Hd; [|done]. assert (j <> n) by congruence. lia.
  - intros w Hw' Hlt Hn. apply Hr; [done|done|]. intros j Hj. apply Hn. lia.
Qed.

Lemma copying_page m0 m m' ar0 ar ar' c vc n :
  0 <= n -> copying m0 m ar0 ar c vc n -> va_used (cur_vaddr m0) n = true ->
  (forall j, 0 <= j <= n -> page (va_page (cur_vaddr m0) j) /\ va_page (cur_vaddr m0) j < 0xc0000000) ->
  page_copied m m' ar ar' c vc (va_page (cur_vaddr m0) n) -> copying m0 m' ar0 ar' c vc (n + 1).
Proof.
  intros Hn0 [Hk Hb Hd Hr Hw] Hu Hpg [Hk' Hb' (f & g & Hf & Hg & Hwd & Har) Hoth Hwords Harenas]. set (va := cur_vaddr m0) in *.
  assert (forall w g, page w -> translate m0 w = Some g -> w < 0xc0000000 -> user_frame m c g) as Hparent.
  { intros w h Hw' Hh Hlt. exists w. split; [done|]. split; [done|]. left. by rewrite (beside_page m0 m). }
  destruct (Hpg n ltac:(lia)) as [Hpn Hln]. rewrite (beside_page m0 m) in Hf by done. constructor.
  - done.
  - by transitivity m.
  - intros j Hj Hju. destruct (decide (j = n)) as [->|Hne].
    + exists f, g. split; [done|]. split; [done|]. split.
      * intros i Hi. rewrite Hwd by done. by apply (Hw (va_page va n) f).
      * rewrite Har. by apply (Hw (va_page va n) f 0).
    + destruct (Hd j ltac:(lia) Hju) as (f' & g' & Hf' & Hg' & Hwd' & Har'). exists f', g'. destruct (Hpg j ltac:(lia)) as [Hpj Hlj].
      assert (user_frame m c g') as Hug by (exists (va_page va j); split; [done|]; split; [done|by right]).
      split; [done|]. split; [rewrite Hoth; [done|done|unfold va, va_page; lia]|]. split.
      * intros i Hi. rewrite Hwords by done. by apply Hwd'.
      * by rewrite Harenas.
  - intros w Hw' Hlt Hn. rewrite Hoth; [|done|apply Hn; [lia|done]]. apply Hr; [done|done|]. intros j Hj. apply Hn. lia.
  - intros w h i Hw' Hlt Hh Hi. destruct (Hw w h i Hw' Hlt Hh Hi) as [H1 H2]. pose proof (Hparent w h Hw' Hh Hlt) as Hu'.
    rewrite Hwords, Harenas by done. done.
Qed.

Section Loops.
Context (f : nat) (k : kernel) (t : task_struct) (cp : Z) (tc : task_struct) (c b fb : Z) (m0 : mem) (ar0 : gmap Z arena).
Let va := userprog_vaddr t.
Hypothesis Ht : tasks k !! running k = Some t.
Hypothesis Htc : tasks k !! cp = Some tc.
Hypothesis Hcv : cur_vaddr m0 = va.
Hypothesis Hl : lock_free k user_pool_lock.
Hypothesis Hr : running k <> 0.
Hypothesis Hown : own_dir m0 (pgdir t).
Hypothesis Hbuf : buffer m0 (pgdir tc) b fb.
Hypothesis Hva : va_ok va.
Hypothesis Hlow : va_page va (va_bits va) <= 0xc0000000.
Hypothesis Hmapped : forall j, 0 <= j < va_bits va -> va_used va j = true -> is_Some (translate m0 (va_page va j)).

(** What a part of the loop does: it copies up to address [n], or stops the
    kernel. *)
Definition copies (r : outcome kernel unit) (n : Z) : Prop :=
  (exists m ar, r = Ret tt (at_mem k m ar) /\ copying m0 m ar0 ar c (pgdir tc) n) \/ r = Err EPanic.

Lemma pool_page_low j : 0 <= j < va_bits va -> page (va_page va j) /\ va_page va j < 0xc0000000.
Proof. intros Hj. split; [apply va_page_ok; [done|lia]|]. unfold va_page in *. lia. Qed.

Lemma copy_page_at m ar n :
  copying m0 m ar0 ar c (pgdir tc) n -> 0 <= n < va_bits va -> va_used va n = true ->
  copies (copy_user_page (S f) cp (running k) b (va_page va n) (at_mem k m ar)) (n + 1).
Proof.
  intros Hc Hn Hu. pose proof Hc as [Hk Hb _ Hrest _]. destruct (pool_page_low n Hn) as [Hp Hlt].
  assert (cur_vaddr m = va) as Hcm by exact (eq_trans (bs_uva _ _ Hb) Hcv).
  destruct (copy_user_page_run f k t cp tc c b fb (va_page va n) n m ar Ht Htc Hcm Hl Hr Hk
    (own_dir_beside _ _ _ Hb Hown) (buffer_beside _ _ _ _ _ Hbuf Hb) Hp Hlt) as [(m' & ar' & Hrun & Hpc)|Hrun].
  - by rewrite Hcm.
  - by rewrite Hcm.
  - rewrite Hcm. lia.
  - rewrite (beside_page m0 m) by done. by apply Hmapped.
  - apply Hrest; [done|done|]. rewrite Hcv. intros j Hj _. unfold va_page. lia.
  - left. exists m', ar'. split; [done|]. rewrite <- Hcv in Hpc. apply (copying_page m0 m m' ar0 ar ar' c _ n); try done; [lia|by rewrite Hcv|].
    rewrite Hcv. intros j Hj. apply pool_page_low. lia.
  - by right.
Qed.

Lemma task_at m ar : task (running k) (at_mem k m ar) = Ret t (at_mem k m ar).
Proof. exact (run_load tasks (at_mem k m ar) (running k) t Ht). Qed.

Lemma byte_at j : 0 <= j < va_bits va -> exists v, rd (bits (vaddr_bitmap va)) (j / 8) = Ok v /\ 0 <= v < 256 /\ va_used va j = Z.testbit v (j mod 8).
Proof.
  intros Hj. apply (bm_cell _ j (vo_bitmap _ Hva)). pose proof (bo_len _ (vo_bitmap _ Hva)). unfold va_bits, bm_bits in Hj. lia.
Qed.

Lemma copy_bits_run n ib : forall bit m ar,
  copying m0 m ar0 ar c (pgdir tc) (8 * ib + bit) -> 0 <= bit -> bit + Z.of_nat n = 8 -> 0 <= ib -> 8 * ib + 8 <= va_bits va ->
  copies (copy_bits (S f) n cp (running k) b ib bit (at_mem k m ar)) (8 * ib + 8).
Proof.
  induction n as [|n IH]; intros bit m ar Hc H0 Hn Hib Hmax.
  { left. exists m, ar. split; [done|]. by replace (8 * ib + 8) with (8 * ib + bit) by lia. }
  change (copy_bits (S f) (S n) cp (running k) b ib bit) with (p ← task (running k);
    let va := userprog_vaddr p in
    byte ← lift (rd (bits (vaddr_bitmap va)) ib);
    _ ← (if negb (Z.land (Z.shiftl BITMAP_MASK bit) byte =? 0) then
           let prog_vaddr := u32 ((ib * 8 + bit) * PG_SIZE + vaddr_start va) in
           copy_user_page (S f) cp (running k) b prog_vaddr
         else mret tt);
    copy_bits (S f) n cp (running k) b ib (bit + 1)).
  prun (task_at m ar). fold va. cbv zeta. destruct (byte_at (8 * ib + bit) ltac:(lia)) as (v & Hv & _ & Hbit).
  replace ((8 * ib + bit) / 8) with ib in Hv by lia. replace ((8 * ib + bit) mod 8) with bit in Hbit by lia.
  assert (lift (rd (bits (vaddr_bitmap va)) ib) (at_mem k m ar) = Ret v (at_mem k m ar)) as Hrd by (by rewrite Hv). prun Hrd.
  unfold BITMAP_MASK. rewrite (Z.land_comm _ v), land_mask_zero, negb_involutive, <- Hbit by lia.
  destruct (va_used va (8 * ib + bit)) eqn:Hu.
  - pose proof (pool_page_low (8 * ib + bit) ltac:(lia)) as [Hp Hlt]. pose proof (page_range _ Hp) as Hrg.
    assert (u32 ((ib * 8 + bit) * PG_SIZE + vaddr_start va) = va_page va (8 * ib + bit)) as ->.
    { unfold va_page, PG_SIZE in *. rewrite u32_id by lia. lia. }
    destruct (copy_page_at m ar _ Hc ltac:(lia) Hu) as [(m' & ar' & Hrun & Hc')|Hrun].
    + prun Hrun. apply IH; [|lia|lia|lia|lia]. by replace (8 * ib + (bit + 1)) with (8 * ib + bit + 1) by lia.
    + right. by rewrite (bind_Err _ _ _ _ Hrun).
  - pret. apply IH; [|lia|lia|lia|lia]. replace (8 * ib + (bit + 1)) with (8 * ib + bit + 1) by lia.
    apply copying_skip; [done|by rewrite Hcv].
Qed.

Lemma copying_zero_byte m ar ib : copying m0 m ar0 ar c (pgdir tc) (8 * ib) -> (forall i, 0 <= i < 8 -> va_used va (8 * ib + i) = false) ->
  copying m0 m ar0 ar c (pgdir tc) (8 * (ib + 1)).
Proof.
  intros Hc Hz. assert (forall n, 0 <= n <= 8 -> copying m0 m ar0 ar c (pgdir tc) (8 * ib + n)) as H.
  { intros n [Hn0 Hn]. revert Hn. apply (natlike_ind (fun n => n <= 8 -> copying m0 m ar0 ar c (pgdir tc) (8 * ib + n))); [| |done].
    - intros _. by rewrite Z.add_0_r.
    - intros x Hx IH Hle. unfold Z.succ. rewrite Z.add_assoc. apply copying_skip; [apply IH; lia|]. rewrite Hcv. apply Hz. lia. }
  replace (8 * (ib + 1)) with (8 * ib + 8) by lia. apply H. lia.
Qed.

Lemma copy_bytes_run n : forall ib m ar,
  copying m0 m ar0 ar c (pgdir tc) (8 * ib) -> 0 <= ib -> 8 * (ib + Z.of_nat n) = va_bits va ->
  copies (copy_bytes (S f) n cp (running k) b ib (at_mem k m ar)) (va_bits va).
Proof.
  induction n as [|n IH]; intros ib m ar Hc Hib Hn.
  { left. exists m, ar. split; [done|]. by replace (va_bits va) with (8 * ib) by lia. }
  cbn [copy_bytes]. prun (task_at m ar). fold va. destruct (byte_at (8 * ib) ltac:(lia)) as (v & Hv & Hvr & _).
  replace (8 * ib / 8) with ib in Hv by lia.
  assert (lift (rd (bits (vaddr_bitmap va)) ib) (at_mem k m ar) = Ret v (at_mem k m ar)) as Hrd by (by rewrite Hv). prun Hrd.
  destruct (Z.eqb_spec v 0) as [->|Hne]; cbn [negb].
  - pret. apply IH; [|lia|lia]. apply copying_zero_byte; [done|]. intros i Hi. destruct (byte_at (8 * ib + i) ltac:(lia)) as (v & Hv' & _ & ->).
    replace ((8 * ib + i) / 8) with ib in Hv' by lia. assert (v = 0) as -> by congruence. apply Z.bits_0.
  - destruct (copy_bits_run 8 ib 0 m ar) as [(m' & ar' & Hrun & Hc')|Hrun]; try lia; [by rewrite Z.add_0_r| |].
    + prun Hrun. apply IH; [|lia|lia]. by replace (8 * (ib + 1)) with (8 * ib + 8) by lia.
    + right. by rewrite (bind_Err _ _ _ _ Hrun).
Qed.
End Loops.

(** ** The directory of a new process *)

(** A directory as [create_page_dir] makes it starts the relation. *)
Lemma process_dir_forked m c vc :
  heap_ok m -> process_dir m c -> page vc -> vaddr_start (kernel_vaddr m) <= vc -> translate m vc = Some c -> c <> cr3 m ->
  K_HEAP_START <= vaddr_start (kernel_vaddr m) -> va_page (cur_vaddr m) (va_bits (cur_vaddr m)) <= 0xc0000000 ->
  forked m c vc /\ forall w, 0 <= w < 0xc0000000 -> translate (with_cr3 m c) w = None.
Proof.
  intros Hh Hd Hp Hvc Ht Hcr Hlow Hend. split; [|exact (pd_user _ _ Hd)].
  pose proof (process_heap m vc c (cur_vaddr m) Hh (conj Hp Hvc) (conj Ht Hcr) Hd Hlow (ho_va _ Hh PF_USER) Hend) as Hc.
  assert (forall i, 0 <= i < 1023 -> dir_entry_at (with_cr3 m c) i = if decide (i < 768) then 0 else dir_entry_at m i) as He
    by exact (pd_entries _ _ Hd).
  constructor; try done.
  - intros i Hi. by rewrite He, decide_False by lia.
  - intros i Hi. by rewrite He, decide_True by lia.
  - intros w g Hw Hlt Hg. rewrite (pd_user _ _ Hd) in Hg by (pose proof (page_range w Hw); lia). done.
Qed.

(** ** A process that forks *)

Definition grab (pf : pool_flags) (m : mem) : mem := match malloc_page pf 1 m with Ok (_, m') => m' | Bad _ => m end.

Definition grabs (pf : pool_flags) (m : mem) (a : Z) : bool :=
  match malloc_page pf 1 m with Ok (v, _) => v =? a | Bad _ => false end.

Lemma grab_ok pf m a : heap_ok m -> grabs pf m a = true -> a <> 0 -> allocated pf 1 m (grab pf m) a.
Proof.
  intros Hh Hg Ha. unfold grab, grabs in *. destruct (malloc_page_spec pf 1 m Hh ltac:(lia)) as [(v & m' & Hm & _ & Hal)|[[Hm _]|[Hm _]]];
    rewrite Hm in Hg |- *; [|apply Z.eqb_eq in Hg; congruence|done]. apply Z.eqb_eq in Hg. by subst v.
Qed.

(** The process of Wait runs; its directory is in the kernel's page 0xc0100000. *)
Definition demo_space : mem := with_cur_vaddr (with_cr3 demo_proc_mem 0x200000) (cur_vaddr demo_mem).

(** It has one page; the kernel has taken a page for the copy and one for the
    directory of the child. *)
Definition demo_pages : mem := grab PF_KERNEL (grab PF_KERNEL (grab PF_USER demo_space)).

Definition demo_forking : mem := match fill_dir 0xc0103000 demo_pages with Ok (_, m) => m | Bad _ => demo_pages end.

Lemma check_words (p : Z -> bool) n : forallb p (seqZ 0 n) = true -> forall j, 0 <= j < n -> p j = true.
Proof. intros H%Is_true_true j Hj. apply forallb_True in H. rewrite Forall_forall in H. specialize (H j). apply Is_true_true. apply H, elem_of_seqZ. lia. Qed.

Lemma demo_space_dir : process_dir demo_proc_mem 0x200000.
Proof.
  apply process_dir_intro; [split; [lia|reflexivity]|vm_compute; reflexivity|].
  assert (forallb (fun i => word (phys demo_proc_mem) (0x200000 + 4 * i) =? (if i <? 768 then 0 else dir_entry_at demo_proc_mem i)) (seqZ 0 1023) = true)
    as Hc by (vm_compute; reflexivity).
  intros i Hi. pose proof (check_words _ _ Hc i Hi) as H. cbn beta in H. apply Z.eqb_eq in H. rewrite H.
  destruct (Z.ltb_spec i 768); [by rewrite decide_True|by rewrite decide_False by lia].
Qed.

Lemma demo_space_ok : heap_ok demo_space.
Proof.
  apply (process_heap demo_proc_mem 0xc0100000 0x200000).
  - exact demo_proc_mem_ok.
  - split; [split; [unfold window; lia|reflexivity]|vm_compute; discriminate].
  - split; [vm_compute; reflexivity|vm_compute; discriminate].
  - exact demo_space_dir.
  - vm_compute. discriminate.
  - exact (ho_va _ demo_heap_ok PF_USER).
  - vm_compute. discriminate.
Qed.

Lemma demo_pages_ok :
  heap_ok demo_pages /\ allocated PF_KERNEL 1 (grab PF_KERNEL (grab PF_USER demo_space)) demo_pages 0xc0103000.
Proof.
  pose proof (grab_ok PF_USER demo_space 0x8048000 demo_space_ok ltac:(vm_compute; reflexivity) ltac:(lia)) as H1.
  pose proof (grab_ok PF_KERNEL _ 0xc0102000 (al_ok _ _ _ _ _ H1) ltac:(vm_compute; reflexivity) ltac:(lia)) as H2.
  pose proof (grab_ok PF_KERNEL _ 0xc0103000 (al_ok _ _ _ _ _ H2) ltac:(vm_compute; reflexivity) ltac:(lia)) as H3.
  split; [exact (al_ok _ _ _ _ _ H3)|exact H3].
Qed.

Lemma demo_page v : (0x400000 <=? v) && (v <? window) && (v mod 4096 =? 0) = true -> page v.
Proof. rewrite !andb_true_iff, Z.leb_le, Z.ltb_lt, Z.eqb_eq. intros [[? ?] ?]. split; [lia|done]. Qed.

Lemma demo_forking_ok : heap_ok demo_forking /\ process_dir demo_forking 0x204000.
Proof.
  destruct demo_pages_ok as [Hh _]. assert (page 0xc0103000) as Hp by (apply demo_page; reflexivity).
  assert (translate demo_pages 0xc0103000 = Some 0x204000) as Ht by (vm_compute; reflexivity).
  assert (0x204000 <> cr3 demo_pages) as Hcr by (vm_compute; discriminate).
  assert (aligned 0x204000) as Ha by (split; [lia|reflexivity]).
  assert (forallb (fun j => word (phys demo_pages) (0x204000 + 4 * j) =? 0) (seqZ 0 1024) = true) as Hz by (vm_compute; reflexivity).
  destruct (fill_dir_run demo_pages 0xc0103000 0x204000 Hh Hp Ht Hcr Ha) as (m' & Hf & Hs & Hd).
  { intros j Hj. apply Z.eqb_eq. exact (check_words _ _ Hz j Hj). }
  unfold demo_forking. rewrite Hf. split; [exact (heap_ok_same _ _ Hh Hs)|exact Hd].
Qed.

Definition demo_fork_task : task_struct := set_pgdir 0xc0100000 (set_userprog_vaddr (cur_vaddr demo_forking) (demo_task TASK_RUNNING 31 3)).

Definition demo_fork_child : task_struct := set_pgdir 0xc0103000 (demo_task TASK_READY 31 31).

Definition demo_fork : kernel :=
  set_locks (<[user_pool_lock := Lock 0 0]> ∅) (set_semas (<[lock_sema user_pool_lock := Semaphore 1 []]> ∅)
    (set_kmem demo_forking (set_tasks (<[0xc009e000 := demo_fork_task]> {[0xc0101000 := demo_fork_child]}) demo_kernel))).

Lemma demo_fork_view : view demo_fork = demo_forking.
Proof.
  assert (forall m, with_cur_vaddr m (cur_vaddr m) = m) as H by (by intros []). exact (H demo_forking).
Qed.

Lemma demo_fork_lock : lock_free demo_fork user_pool_lock.
Proof. split; reflexivity. Qed.

Lemma demo_fork_mapped j :
  0 <= j < va_bits (userprog_vaddr demo_fork_task) -> va_used (userprog_vaddr demo_fork_task) j = true ->
  is_Some (translate demo_forking (va_page (userprog_vaddr demo_fork_task) j)).
Proof.
  assert (va_bits (userprog_vaddr demo_fork_task) = 16) as -> by (vm_compute; reflexivity).
  assert (forallb (fun j => negb (va_used (userprog_vaddr demo_fork_task) j)
    || bool_decide (is_Some (translate demo_forking (va_page (userprog_vaddr demo_fork_task) j)))) (seqZ 0 16) = true) as Hc by (vm_compute; reflexivity).
  intros Hj Hu. pose proof (check_words _ _ Hc j Hj) as H. cbn beta in H. rewrite Hu in H. exact (bool_decide_eq_true_1 _ H).
Qed.

Lemma demo_fork_runs : match copy_body_stack3 1 0xc0101000 0xc009e000 0xc0102000 demo_fork with Ret _ _ => true | _ => false end = true.
Proof. vm_compute. reflexivity. Qed.

(** ** Properties *)

(** C12: fork gives the child a copy of the parent's memory.  When the child has
    a new page directory, [copy_body_stack3] maps every page that the parent's
    pool marks as used into the child, at a frame of its own that holds the same
    words and the same arena header; the child maps no other page below the
    kernel's addresses.  No frame of the child is a page or a table of the
    parent ([forked]), the parent's pages are mapped as before and their words
    have not changed, and both address spaces satisfy the invariant of the
    allocator.  When frames run out the kernel stops. *)
Theorem fork_copies_memory (f : nat) (k : kernel) (t : task_struct) (cp : Z) (tc : task_struct) (c b fb : Z) :
  tasks k !! running k = Some t -> tasks k !! cp = Some tc -> lock_free k user_pool_lock -> running k <> 0 ->
  heap_ok (view k) -> own_dir (view k) (pgdir t) -> buffer (view k) (pgdir tc) b fb ->
  page (pgdir tc) -> translate (view k) (pgdir tc) = Some c -> c <> cr3 (view k) -> process_dir (view k) c ->
  K_HEAP_START <= vaddr_start (kernel_vaddr (view k)) <= pgdir tc ->
  let va := userprog_vaddr t in
  va_page va (va_bits va) <= 0xc0000000 ->
  (forall j, 0 <= j < va_bits va -> va_used va j = true -> is_Some (translate (view k) (va_page va j))) ->
  (exists m ar, copy_body_stack3 (S f) cp (running k) b k = Ret tt (at_mem k m ar) /\ forked m c (pgdir tc)
     /\ (forall j, 0 <= j < va_bits va -> va_used va j = true -> exists fr g,
           translate (view k) (va_page va j) = Some fr /\ translate (with_cr3 m c) (va_page va j) = Some g
           /\ (forall i, 0 <= i < 1024 -> word (phys m) (g + 4 * i) = word (phys (view k)) (fr + 4 * i)) /\ ar !! g = arenas k !! fr)
     /\ (forall w, page w -> w < 0xc0000000 -> (forall j, 0 <= j < va_bits va -> va_used va j = true -> w <> va_page va j) ->
           translate (with_cr3 m c) w = None)
     /\ (forall w, page w -> translate m w = translate (view k) w)
     /\ (forall w g i, page w -> w < 0xc0000000 -> translate (view k) w = Some g -> 0 <= i < 1024 ->
           word (phys m) (g + 4 * i) = word (phys (view k)) (g + 4 * i)))
  \/ copy_body_stack3 (S f) cp (running k) b k = Err EPanic.
Proof.
  intros Ht Htc Hl Hr Hh Hown Hb Hpc Hc Hcr Hd [Hlow Hvc] va Hend Hmap. pose proof (cur_vaddr_view k t Ht) as Hcv. fold va in Hcv.
  assert (va_ok va) as Hva by (rewrite <- Hcv; exact (ho_va _ Hh PF_USER)).
  destruct (process_dir_forked (view k) c (pgdir tc) Hh Hd Hpc Hvc Hc Hcr Hlow ltac:(by rewrite Hcv)) as [Hk Hn].
  pose proof (copying_start (view k) (arenas k) c (pgdir tc) Hk Hn) as Hstart.
  unfold copy_body_stack3, task. prun (run_load tasks k (running k) t Ht). fold va. pose proof (bo_len _ (vo_bitmap _ Hva)) as Hlen.
  destruct (copy_bytes_run f k t cp tc c b fb (view k) (arenas k) Ht Htc Hcv Hl Hr Hown Hb Hva Hend Hmap
    (Z.to_nat (btmp_bytes_len (vaddr_bitmap va))) 0 (view k) (arenas k)) as [(m & ar & Hrun & [Hk' Hb' Hdone Hrest Hw])|Hrun]; [done|lia| | |].
  - unfold va_bits, bm_bits. fold va. lia.
  - left. exists m, ar. rewrite (at_mem_same k t Ht) in Hrun. rewrite Hcv in Hdone, Hrest. do 4 (split; [done|]). split.
    + intros w Hp. by apply beside_page.
    + intros w g i Hp Hlt Hg Hi. by apply (Hw w g i).
  - right. by rewrite (at_mem_same k t Ht) in Hrun.
Qed.

Lemma fork_copies_memory_witness :
  exists m ar g, copy_body_stack3 1 0xc0101000 0xc009e000 0xc0102000 demo_fork = Ret tt (at_mem demo_fork m ar)
    /\ forked m 0x204000 0xc0103000 /\ translate (with_cr3 m 0x204000) 0x8048000 = Some g.
Proof.
  pose proof demo_fork_runs as Hrun. pose proof demo_fork_view as Hv. destruct demo_forking_ok as [Hh Hd].
  destruct (fork_copies_memory 0 demo_fork demo_fork_task 0xc0101000 demo_fork_child 0x204000 0xc0102000 0x203000)
    as [(m & ar & H & Hk & Hj & _)|H]; rewrite ?Hv.
  - reflexivity.
  - reflexivity.
  - exact demo_fork_lock.
  - intros H. discriminate H.
  - exact Hh.
  - split; [apply demo_page; reflexivity|]. split; [vm_compute; discriminate|vm_compute; reflexivity].
  - constructor; [apply demo_page; reflexivity|lia|intros H; discriminate H|vm_compute; reflexivity|vm_compute; discriminate].
  - apply demo_page; reflexivity.
  - vm_compute; reflexivity.
  - vm_compute; discriminate.
  - exact Hd.
  - split; [vm_compute; discriminate|vm_compute; discriminate].
  - vm_compute; discriminate.
  - exact demo_fork_mapped.
  - destruct (Hj 0) as (fr & g & _ & Hg & _); [vm_compute; split; [discriminate|reflexivity]|vm_compute; reflexivity|].
    exists m, ar, g. split; [exact H|]. split; [exact Hk|exact Hg].
  - change (running demo_fork) with 0xc009e000 in H. rewrite H in Hrun. discriminate Hrun.
Defined.
