(* ===== verification/Exec.v ===== *)
(** * Exec: replacing the program of a process, userprog/exec.c

    [sys_execv] reads an ELF file into the address space of the running process
    and makes the stack frame from which the new program starts.  Bytes of
    memory are parts of the words of Paging.  The path and the arguments are
    read from memory, where the caller has put them. *)
From S2P Require Import Prelude Bitmap Interrupt DList Paging Pages Memory Kernel View Sched Resume Sync Heap Thread Process Disk Fsys Inode File Fs World Pipe.

(** ** Bytes of memory *)

(** Byte [i] of a word, and the word with another byte there. *)
Definition word_byte (w i : Z) : Z := w / 256 ^ i mod 256.

Definition put_byte (w i x : Z) : Z := w + (x - word_byte w i) * 256 ^ i.

Definition load8 (a : Z) : st mem Z := w ← load32 (4 * (a / 4)); mret (word_byte w (a mod 4)).

Definition store8 (a x : Z) : st mem unit :=
  w ← load32 (4 * (a / 4)); store32 (4 * (a / 4)) (put_byte w (a mod 4) x).

Fixpoint store_bytes (a : Z) (bs : list Z) : st mem unit :=
  match bs with [] => mret tt | b :: r => _ ← store8 a b; store_bytes (u32 (a + 1)) r end.

Fixpoint load_bytes (n : nat) (a : Z) : st mem (list Z) :=
  match n with O => mret [] | S n' => b ← load8 a; r ← load_bytes n' (u32 (a + 1)); mret (b :: r) end.

(** The string at [a]. *)
Fixpoint load_string (fuel : nat) (a : Z) : st mem (list Z) :=
  match fuel with
  | O => fun _ => Bad EFuel
  | S f => b ← load8 a; if b =? 0 then mret [] else r ← load_string f (u32 (a + 1)); mret (b :: r)
  end.

(** ** ELF headers *)

Definition of_le16 (b : list Z) : Z := default 0 (b !! 0%nat) + 256 * default 0 (b !! 1%nat).

Record Elf32_Ehdr : Type := ElfHeader {
  e_ident : list Z;
  e_type : Z;
  e_machine : Z;
  e_version : Z;
  e_entry : Z;
  e_phoff : Z;
  e_shoff : Z;
  e_flags : Z;
  e_ehsize : Z;
  e_phentsize : Z;
  e_phnum : Z;
  e_shentsize : Z;
  e_shnum : Z;
  e_shstrndx : Z
}.

Record Elf32_Phdr : Type := ProgHeader {
  p_type : Z;
  p_offset : Z;
  p_vaddr : Z;
  p_paddr : Z;
  p_filesz : Z;
  p_memsz : Z;
  p_flags : Z;
  p_align : Z
}.

(** The sizes of the two structs. *)
Definition ehdr_size : Z := 52.

Definition phdr_size : Z := 32.

(** The bytes of a file in the fields of the structs. *)
Definition dec_ehdr (b : list Z) : Elf32_Ehdr :=
  let half o := of_le16 (slice b o 2) in
  let word o := of_le32 (slice b o 4) in
  ElfHeader (slice b 0 16) (half 16) (half 18) (word 20) (word 24) (word 28) (word 32) (word 36)
    (half 40) (half 42) (half 44) (half 46) (half 48) (half 50).

Definition dec_phdr (b : list Z) : Elf32_Phdr :=
  let word o := of_le32 (slice b o 4) in
  ProgHeader (word 0) (word 4) (word 8) (word 12) (word 16) (word 20) (word 24) (word 28).

Inductive segment_type : Type := PT_NULL | PT_LOAD | PT_DYNAMIC | PT_INTERP | PT_NOTE | PT_SHLIB | PT_PHDR.

Definition segment_code (t : segment_type) : Z :=
  match t with PT_NULL => 0 | PT_LOAD => 1 | PT_DYNAMIC => 2 | PT_INTERP => 3 | PT_NOTE => 4 | PT_SHLIB => 5 | PT_PHDR => 6 end.

(** The checks of [load] on the header. *)
Definition elf_ok (h : Elf32_Ehdr) : bool :=
  bool_decide (take 7 (e_ident h) = [127; 69; 76; 70; 1; 1; 1]) && (e_type h =? 2) && (e_machine h =? 3)
  && (e_version h =? 1) && (e_phnum h <=? 1024) && (e_phentsize h =? phdr_size).

(** ** Loading *)

(** The pages of a segment: the first and their number. *)
Definition first_page (vaddr : Z) : Z := Z.land vaddr 0xfffff000.

Definition occupied_pages (filesz vaddr : Z) : Z :=
  let size_in_first_page := PG_SIZE - Z.land vaddr 0x00000fff in
  if size_in_first_page <? filesz then u32 (DIV_ROUND_UP (u32 (filesz - size_in_first_page)) PG_SIZE + 1) else 1.

(** No page is mapped at an address: the test of the loop. *)
Definition unmapped (vaddr_page : Z) : st mem bool :=
  pde ← load32 (pde_ptr vaddr_page);
  if present pde then pte ← load32 (pte_ptr vaddr_page); mret (negb (present pte)) else mret true.

(** The loop over the pages, [n] of them from [vaddr_page] on. *)
Fixpoint map_segment (fuel n : nat) (vaddr_page : Z) : proc kernel bool :=
  match n with
  | O => mret true
  | S n' =>
    missing ← in_mem (unmapped vaddr_page);
    p ← (if (missing : bool) then get_a_page fuel PF_USER vaddr_page else mret vaddr_page);
    if (missing : bool) && (p =? 0) then mret false else map_segment fuel n' (u32 (vaddr_page + PG_SIZE))
  end.

(** The results of [sys_lseek] and [sys_read] are not looked at; [sys_read]
    asserts that its buffer is not NULL. *)
Definition segment_load (fuel : nat) (fd offset filesz vaddr : Z) : proc world bool :=
  ok ← zoom (map_segment fuel (Z.to_nat (occupied_pages filesz vaddr)) (first_page vaddr));
  if (ok : bool) then
    _ ← in_fs (sys_lseek fd (i32 offset) SEEK_SET);
    _ ← assert (negb (vaddr =? 0));
    r ← sys_read fuel 0 fd filesz;
    _ ← zoom (in_mem (store_bytes vaddr r.2));
    mret true
  else mret false.

(** The loop over the program headers; [false] stops the loading. *)
Fixpoint load_segments (fuel n : nat) (fd prog_header_offset : Z) : proc world bool :=
  match n with
  | O => mret true
  | S n' =>
    _ ← in_fs (sys_lseek fd (i32 prog_header_offset) SEEK_SET);
    r ← sys_read fuel 0 fd phdr_size;
    if negb (u32 r.1 =? phdr_size) then mret false
    else
      let h := dec_phdr r.2 in
      ok ← (if segment_code PT_LOAD =? p_type h then segment_load fuel fd (p_offset h) (p_filesz h) (p_vaddr h) else mret true);
      if (ok : bool) then load_segments fuel n' fd (u32 (prog_header_offset + phdr_size)) else mret false
  end.

(** What [load] does with the open file. *)
Definition load_image (fuel : nat) (fd : Z) : proc world Z :=
  r ← sys_read fuel 0 fd ehdr_size;
  if negb (u32 r.1 =? ehdr_size) then mret (-1)
  else
    let h := dec_ehdr r.2 in
    if negb (elf_ok h) then mret (-1)
    else
      ok ← load_segments fuel (Z.to_nat (e_phnum h)) fd (e_phoff h);
      mret (if (ok : bool) then i32 (e_entry h) else -1).

Definition load (fuel : nat) (pathname : list Z) : proc world Z :=
  fd ← in_fs (sys_open pathname O_RDONLY);
  if fd =? -1 then mret (-1)
  else
    ret ← load_image fuel fd;
    _ ← sys_close fd;
    mret ret.

(** ** Starting the program *)

(** The number of words before the first that is 0. *)
Fixpoint count_args (fuel : nat) (argv argc : Z) : st mem Z :=
  match fuel with
  | O => fun _ => Bad EFuel
  | S f => w ← load32 (u32 (argv + 4 * argc)); if w =? 0 then mret argc else count_args f argv (u32 (argc + 1))
  end.

(** A call that returns, or that goes to [intr_exit] with the stack pointer at
    an address. *)
Inductive exec_result : Type :=
| Returned (ret : Z)
| Entered (intr_0_stack : Z).

Definition sys_execv (fuel : nat) (path argv : Z) : proc world exec_result :=
  argc ← zoom (in_mem (count_args fuel argv 0));
  pathname ← zoom (in_mem (load_string fuel path));
  entry_point ← load fuel pathname;
  if entry_point =? -1 then mret (Returned (-1))
  else
    w ← get;
    let cur := running (w_kernel w) in
    nm ← zoom (in_mem (load_bytes (Z.to_nat TASK_NAME_LEN) path));
    _ ← zoom (update_task cur (set_name nm));
    let intr_0_stack := u32 (cur + PG_SIZE - intr_stack_size) in
    _ ← zoom (store_word (u32 (intr_0_stack + 5 * 4)) (u32 argv));
    _ ← zoom (store_word (u32 (intr_0_stack + 7 * 4)) argc);
    _ ← zoom (store_word (u32 (intr_0_stack + 14 * 4)) (u32 entry_point));
    _ ← zoom (store_word (u32 (intr_0_stack + 17 * 4)) 0xc0000000);
    mret (Entered intr_0_stack).
