(* ===== verification/ExecSpec.v ===== *)
(** * ExecSpec: loading a segment

    Stores of bytes change one byte of memory.  The loop of [segment_load] maps
    every page of the segment and keeps the pages that were mapped, so that the
    bytes of the file arrive at the segment's addresses. *)
From S2P Require Import Prelude Bitmap Interrupt DList Paging Pages Memory Kernel View Sched Resume Sync Heap Thread Process Disk Fsys Inode File FileSpec Fs FsSpec World Pipe ForkSpec Exec.

(** ** Bytes of words *)

Lemma word_byte_pow w i x : 0 <= i -> word_byte (w + x * 256 ^ i) i = (word_byte w i + x) mod 256.
Proof.
  intros Hi. unfold word_byte. rewrite Z.div_add by lia. rewrite Z.add_mod by lia. symmetry. by rewrite Z.add_mod_idemp_r by lia.
Qed.

Lemma put_byte_eq w i x : 0 <= i -> 0 <= x < 256 -> word_byte (put_byte w i x) i = x.
Proof.
  intros Hi Hx. unfold put_byte. rewrite word_byte_pow by done. replace (word_byte w i + (x - word_byte w i)) with x by lia.
  by apply Z.mod_small.
Qed.

(** Bytes below and above the one that changes. *)
Lemma word_byte_high w d i j : 0 <= i < j -> word_byte (w + d * 256 ^ j) i = word_byte w i.
Proof.
  intros Hij. unfold word_byte. replace (256 ^ j) with (256 ^ (j - i - 1) * 256 * 256 ^ i).
  - replace (d * (256 ^ (j - i - 1) * 256 * 256 ^ i)) with (d * 256 ^ (j - i - 1) * 256 * 256 ^ i) by lia.
    rewrite Z.div_add by lia. apply Z.mod_add. lia.
  - rewrite <- (Z.pow_1_r 256) at 2. rewrite <- !Z.pow_add_r by lia. f_equal. lia.
Qed.

Lemma put_byte_low w i x : 0 <= i -> 0 <= x < 256 -> put_byte w i x / 256 ^ (i + 1) = w / 256 ^ (i + 1).
Proof.
  intros Hi Hx. rewrite Z.pow_add_r, Z.pow_1_r by lia. rewrite <- !Z.div_div by lia. unfold put_byte. rewrite Z.div_add by lia.
  unfold word_byte. set (q := w / 256 ^ i). lia.
Qed.

Lemma word_byte_above w i j : 0 <= i < j -> word_byte w j = w / 256 ^ (i + 1) / 256 ^ (j - i - 1) mod 256.
Proof. intros H. unfold word_byte. rewrite Z.div_div, <- Z.pow_add_r by lia. do 2 f_equal. f_equal. lia. Qed.

Lemma put_byte_ne w i j x : 0 <= i -> 0 <= j -> i <> j -> 0 <= x < 256 -> word_byte (put_byte w i x) j = word_byte w j.
Proof.
  intros Hi Hj Hne Hx. destruct (decide (j < i)); [by apply word_byte_high|].
  rewrite !(word_byte_above _ i j) by lia. by rewrite put_byte_low.
Qed.

(** ** Bytes of memory *)

(** The byte at an address, if its page is mapped. *)
Definition peek (m : mem) (a : Z) : option Z :=
  pa ← translate m (4 * (a / 4)); Some (word_byte (word (phys m) pa) (a mod 4)).

Lemma peek_load m a x : peek m a = Some x -> load8 a m = Ok (x, m).
Proof.
  unfold peek. destruct (translate m (4 * (a / 4))) as [pa|] eqn:Ht; [|done]. intros [= <-].
  assert (load32 (4 * (a / 4)) m = Ok (word (phys m) pa, m)) as Hl by (unfold load32; by rewrite Ht). unfold load8. by run Hl.
Qed.

Lemma peek_page m p f off : page p -> translate m p = Some f -> 0 <= off < 4096 ->
  peek m (p + off) = Some (word_byte (word (phys m) (f + 4 * (off / 4))) (off mod 4)).
Proof.
  intros Hp Hf Ho. pose proof Hp as [_ Ha]. unfold peek.
  replace (4 * ((p + off) / 4)) with (p + 4 * (off / 4)) by lia. rewrite translate_offset, Hf by (done || lia). cbn.
  do 2 f_equal. lia.
Qed.

(** The stored byte changes and no other. *)
Lemma store8_run m p f off x :
  heap_ok m -> page p -> translate m p = Some f -> f <> cr3 m -> 0 <= off < 4096 -> 0 <= x < 256 ->
  exists ph, store8 (p + off) x m = Ok (tt, with_phys m ph) /\ same_tables m (with_phys m ph) /\ peek (with_phys m ph) (p + off) = Some x
    /\ forall q g o, page q -> translate m q = Some g -> 0 <= o < 4096 -> q + o <> p + off ->
         peek (with_phys m ph) (q + o) = peek m (q + o).
Proof.
  intros Hh Hp Hf Hcr Ho Hx. pose proof Hp as [_ Ha]. set (w := word (phys m) (f + 4 * (off / 4))).
  destruct (store_page_run m p (4 * (off / 4)) f (put_byte w (off mod 4) x) Hh Hp Hf Hcr ltac:(lia)) as [Hst Hs].
  set (m' := with_phys m _) in *. exists (<[f + 4 * (off / 4) := put_byte w (off mod 4) x]> (phys m)). fold m'.
  split; [|split; [done|split]].
  - unfold store8. replace (4 * ((p + off) / 4)) with (p + 4 * (off / 4)) by lia.
    assert (load32 (p + 4 * (off / 4)) m = Ok (w, m)) as Hl by (unfold load32; by rewrite translate_offset, Hf by (done || lia)).
    run Hl. replace ((p + off) mod 4) with (off mod 4) by lia. exact Hst.
  - rewrite (peek_page m' p f off) by (by rewrite ?(same_page m m')). cbn [m' phys with_phys].
    rewrite word_insert, decide_True by done. by rewrite put_byte_eq by lia.
  - intros q g o Hq Hg Hoo Hne. rewrite (peek_page m' q g o), (peek_page m q g o) by (by rewrite ?(same_page m m')).
    cbn [m' phys with_phys]. f_equal. rewrite word_insert. case_decide as He; [|done].
    destruct (frames_apart f g (off / 4) (o / 4) (page_frame_aligned m p f Hp Hf) (page_frame_aligned m q g Hq Hg)) as [-> Hd]; [lia|lia|done|].
    assert (p = q) as <- by (by apply (so_inj _ (ho_space _ Hh) p q g)). unfold w. rewrite Hd. apply put_byte_ne; lia.
Qed.

(** Addresses whose page is mapped. *)
Definition readable (m : mem) (a : Z) : Prop :=
  exists p f, page p /\ p <= a < p + 4096 /\ translate m p = Some f.

Lemma mapped_readable m a : mapped_addr m a -> readable m a.
Proof. intros (p & f & Hp & Ha & Hf & _). by exists p, f. Qed.

Lemma readable_same m m' a : same_tables m m' -> readable m a -> readable m' a.
Proof. intros Hs (p & f & Hp & Ha & Hf). exists p, f. by rewrite (same_page m m'). Qed.

Lemma store_byte_run m a x :
  heap_ok m -> mapped_addr m a -> 0 <= x < 256 ->
  exists ph, store8 a x m = Ok (tt, with_phys m ph) /\ same_tables m (with_phys m ph) /\ peek (with_phys m ph) a = Some x
    /\ forall b, readable m b -> b <> a -> peek (with_phys m ph) b = peek m b.
Proof.
  intros Hh (p & f & Hp & Ha & Hf & Hcr) Hx. destruct (store8_run m p f (a - p) x Hh Hp Hf Hcr ltac:(lia) Hx) as (ph & Hst & Hs & Hpk & Ho).
  replace (p + (a - p)) with a in Hst, Hpk, Ho by lia. exists ph. do 3 (split; [done|]). intros b (q & g & Hq & Hb & Hg) Hne.
  specialize (Ho q g (b - q) Hq Hg ltac:(lia)). replace (q + (b - q)) with b in Ho by lia. by apply Ho.
Qed.

Lemma store_bytes_run bs : forall a m,
  heap_ok m -> (forall i, 0 <= i < Z.of_nat (length bs) -> mapped_addr m (a + i)) -> Forall is_byte bs ->
  exists ph, let m' := with_phys m ph in store_bytes a bs m = Ok (tt, m') /\ same_tables m m'
    /\ (forall (i : nat) x, bs !! i = Some x -> peek m' (a + Z.of_nat i) = Some x)
    /\ (forall b, readable m b -> ~ (a <= b < a + Z.of_nat (length bs)) -> peek m' b = peek m b).
Proof.
  induction bs as [|x bs IH]; intros a m Hh Hm Hb.
  { exists (phys m). replace (with_phys m (phys m)) with m by (by destruct m). done. }
  apply Forall_cons in Hb as [Hx Hb]. cbn [length] in Hm. pose proof (Hm 0 ltac:(lia)) as H0. rewrite Z.add_0_r in H0.
  destruct (store_byte_run m a x Hh H0 Hx) as (ph1 & Hst & Hs1 & Hpk & Ho1). set (m1 := with_phys m ph1) in *.
  assert (forall i, 0 <= i < Z.of_nat (length bs) -> mapped_addr m1 (a + 1 + i)) as Hm1.
  { intros i Hi. apply (mapped_addr_same m); [done|]. replace (a + 1 + i) with (a + (1 + i)) by lia. apply Hm. lia. }
  destruct (IH (a + 1) m1 (heap_ok_same _ _ Hh Hs1) Hm1 Hb) as (ph & Hrun & Hs & Hin & Hout). exists ph. cbv zeta in *. cbn [store_bytes].
  assert (with_phys m1 ph = with_phys m ph) as He by done. rewrite He in *. split; [|split; [by transitivity m1|split]].
  - run Hst. pose proof (mapped_addr_range m a H0). destruct bs as [|y bs]; [exact Hrun|].
    pose proof (mapped_addr_range m1 _ (Hm1 0 ltac:(cbn; lia))). rewrite u32_id by lia. exact Hrun.
  - intros [|i] y Hy.
    + injection Hy as <-. rewrite Z.add_0_r, Hout; [done| |lia]. apply (readable_same m); [done|]. by apply mapped_readable.
    + replace (a + Z.of_nat (S i)) with (a + 1 + Z.of_nat i) by lia. by apply Hin.
  - intros b Hr Hn. cbn [length] in Hn. rewrite Hout; [apply Ho1; [done|lia]|by apply (readable_same m)|lia].
Qed.

(** ** Pages *)

Lemma unmapped_run m v : space_ok m -> page v -> unmapped v m = Ok (bool_decide (translate m v = None), m).
Proof.
  intros Hs Hv. pose proof (pt_self _ (so_pt _ Hs)) as Hself. pose proof (page_range v Hv) as Hr. unfold window in Hr.
  unfold unmapped. run (load32_pde m v Hself ltac:(lia)). unfold translate. destruct (present (pde_of m v)) eqn:Hp; [|done].
  run (load32_pte m v Hself ltac:(lia) Hp). by destruct (present (pte_of m v)).
Qed.

(** [m'] is [m] with pages of the running process mapped, the new ones among
    the [n] pages from [v] on. *)
Record mapped_more (n : Z) (m m' : mem) (v : Z) : Prop := {
  mm_ok : heap_ok m';
  mm_kept : forall w f, page w -> translate m w = Some f -> translate m' w = Some f;
  mm_others : forall w, page w -> ~ (v <= w < v + 4096 * n) -> translate m' w = translate m w;
  mm_words : forall w f i, page w -> translate m w = Some f -> f <> cr3 m -> 0 <= i < 1024 ->
    word (phys m') (f + 4 * i) = word (phys m) (f + 4 * i);
  mm_start : vaddr_start (cur_vaddr m') = vaddr_start (cur_vaddr m) /\ va_bits (cur_vaddr m') = va_bits (cur_vaddr m);
  mm_kernel : kernel_vaddr m' = kernel_vaddr m;
  mm_cr3 : cr3 m' = cr3 m
}.

Lemma mapped_more_refl n m v : heap_ok m -> mapped_more n m m v.
Proof. intros Hh. by constructor. Qed.

Lemma mapped_more_trans n m1 m2 m3 v :
  0 <= n -> mapped_more 1 m1 m2 v -> mapped_more n m2 m3 (v + 4096) -> mapped_more (n + 1) m1 m3 v.
Proof.
  intros Hn [_ K1 O1 W1 [S1 B1] V1 C1] [H2 K2 O2 W2 [S2 B2] V2 C2]. constructor; try congruence.
  - intros w f Hw Hf. by apply K2, K1.
  - intros w Hw Hout. rewrite O2, O1 by (done || lia). done.
  - intros w f i Hw Hf Hc Hi. rewrite (W2 w f i), (W1 w f i) by (rewrite ?C1; auto). done.
  - split; congruence.
Qed.

(** Setting the bit of a page and mapping it. *)
Lemma claim_page m j b m1 m2 pa :
  heap_ok m -> 0 <= j < va_bits (cur_vaddr m) -> let va := cur_vaddr m in let v := va_page va j in
  translate m v = None -> bitmap_ok b -> btmp_bytes_len b = btmp_bytes_len (vaddr_bitmap va) ->
  (forall i, 0 <= i -> bm_bit b i = if decide (i = j) then true else bm_bit (vaddr_bitmap va) i) ->
  took PF_USER (with_cur_vaddr m (VirtualAddr b (vaddr_start va))) m1 pa -> page_mapped m1 m2 v pa ->
  mapped_more 1 m m2 v.
Proof.
  intros Hh Hj va v Hn Hb Hlen Hbits Htk Hpm. pose proof (ho_va _ Hh PF_USER) as Hva. cbn [va_of] in Hva. fold va in Hva, Hj.
  assert (page v) as Hv by (apply va_page_ok; [done|lia]). set (mc := with_cur_vaddr m _) in *.
  pose proof (round_shrinks PF_USER mc m1 m2 v pa Htk Hpm) as [[Hst _] _]. pose proof (tk_was_free _ _ _ _ Htk) as Hfree.
  destruct Htk as [[p ->] _ _ _ _]. pose proof Hpm as [Hmaps Hoth Hok _ _ Hcr _ Hkv Huv Hraw].
  cbn [kernel_vaddr cur_vaddr cr3 with_pool with_user_pool with_cur_vaddr mc] in Hcr, Hkv, Huv.
  assert (forall w, page w -> w <> v -> translate m2 w = translate m w) as Ho by (intros w Hw Hne; by rewrite Hoth).
  assert (va_sets va (cur_vaddr m2) j 1 true) as Hsets.
  { rewrite Huv. split; [done|]. split; [unfold va_bits, bm_bits; cbn; by rewrite Hlen|]. intros i Hi. unfold va_used. cbn. rewrite Hbits by done.
    repeat case_decide; (done || lia). }
  constructor; try done.
  - apply (heap_ok_after PF_USER 1 true m m2 j); try done; try lia.
    + intros [|]; cbn [va_of]; [rewrite Hkv; apply (ho_va _ Hh PF_KERNEL)|]. rewrite Huv. destruct Hva as [Hvb Hs He].
      constructor; [done|done|]. destruct Hsets as (Hs1 & Hb1 & _). rewrite Huv in Hs1, Hb1. unfold va_page in *. by rewrite Hb1.
    + cbn [va_of]. fold va. lia.
    + intros [|]; done.
    + intros w Hw Hout. apply Ho; [done|]. intros ->. apply Hout. cbn [va_of]. fold va. fold v. lia.
  - intros w f Hw Hf. rewrite Ho; [done|done|]. intros ->. congruence.
  - intros w Hw Hout. apply Ho; [done|]. intros ->. lia.
  - intros w f i Hw Hf Hc Hi. assert (w <> v) as Hne by (intros ->; congruence).
    rewrite (md_keep _ _ _ _ Hraw f i (page_frame_aligned m w f Hw Hf) Hi); [done|done|]. intros He.
    assert (translate m2 w = Some f) as Hf2 by (by rewrite Ho). apply Hc. rewrite <- Hcr.
    apply (so_mapped _ Hok w f Hw Hf2). right. exists (PDE_IDX v). rewrite He, pde_of_dir.
    pose proof (page_pde v Hv). split; [lia|]. split; [|done]. rewrite <- pde_of_dir. unfold translate in Hmaps. by destruct (present (pde_of m2 v)).
  - destruct Hsets as (Hs1 & Hb1 & _). done.
Qed.

(** ** The loop over the pages *)

Lemma put_view_id k t : tasks k !! running k = Some t -> put_view (view k) k = k.
Proof.
  intros Ht. rewrite (put_view_same (view k) k t Ht (cur_vaddr_view k t Ht)). exact (with_view_same k t Ht).
Qed.

Lemma locked_put f k p m :
  lock_free k p -> running k <> 0 ->
  lock_acquire (S f) p k = Ret tt (held p k) /\ lock_release p (put_view m (held p k)) = Ret tt (put_view m k).
Proof.
  intros Hl Hr. split; [by apply acquire_run|].
  by rewrite (unlock_run k (put_view m (held p k)) p Hl eq_refl eq_refl eq_refl).
Qed.

Lemma claim_user_run m j :
  heap_ok m -> 0 <= j < va_bits (cur_vaddr m) -> let va := cur_vaddr m in
  exists b, claim_user (va_page va j) m = Ok (tt, with_cur_vaddr m (VirtualAddr b (vaddr_start va)))
    /\ bitmap_ok b /\ btmp_bytes_len b = btmp_bytes_len (vaddr_bitmap va)
    /\ forall i, 0 <= i -> bm_bit b i = if decide (i = j) then true else bm_bit (vaddr_bitmap va) i.
Proof.
  intros Hh Hj va. fold va in Hj. pose proof (ho_va _ Hh PF_USER) as Hva. cbn [va_of] in Hva. fold va in Hva.
  pose proof (va_page_ok va j Hva ltac:(lia)) as Hp. pose proof (page_range _ Hp) as Hr. destruct Hva as [Hb [Hs1 Hs2] He].
  unfold window in *. pose proof (bo_len _ Hb) as Hlen. unfold va_bits, bm_bits in Hj, He.
  destruct (set_bit (vaddr_bitmap va) j 1 Hb) as (b & Hset & Hb' & Hl & _ & Hbits); [lia|by right|].
  exists b. split; [|done]. unfold claim_user. fold va.
  assert (i32 (u32 (va_page va j - vaddr_start va) / PG_SIZE) = j) as ->.
  { unfold va_page, PG_SIZE in *. replace (vaddr_start va + 4096 * j - vaddr_start va) with (4096 * j) by lia. rewrite u32_id by lia.
    rewrite i32_id by lia. lia. }
  rewrite bind_ASSERT, (proj2 (Z.leb_le 0 j)) by lia. by rewrite Hset.
Qed.

(** One call of [get_a_page]; when frames run out the kernel stops. *)
Lemma get_page_run f k t j :
  tasks k !! running k = Some t -> pgdir t <> 0 -> lock_free k user_pool_lock -> running k <> 0 -> heap_ok (view k) ->
  let m := view k in let v := va_page (cur_vaddr m) j in
  0 <= j < va_bits (cur_vaddr m) -> translate m v = None ->
  (exists m', get_a_page (S f) PF_USER v k = Ret v (put_view m' k) /\ mapped_more 1 m m' v /\ is_Some (translate m' v))
  \/ get_a_page (S f) PF_USER v k = Err EPanic.
Proof.
  intros Ht Hpg Hl Hr Hh m v Hj Hn. set (kh := held user_pool_lock k). assert (tasks kh !! running kh = Some t) as Hth by done.
  destruct (claim_user_run m j Hh Hj) as (b & Hclaim & Hb & Hlen & Hbits). set (mc := with_cur_vaddr m _) in *.
  assert (page v) as Hv by (apply va_page_ok; [exact (ho_va _ Hh PF_USER)|lia]).
  assert (space_ok mc) as Hsc by (apply (space_ok_va PF_USER m); [apply Hh|done]).
  assert (get_a_page (S f) PF_USER v k = attach_page PF_USER v (put_view mc kh)) as Hrun.
  { unfold get_a_page. cbn [pool_lock]. prun (proj1 (locked_put f k user_pool_lock m Hl Hr)). fold kh. pget.
    unfold task. prun (run_load tasks kh _ t Hth). rewrite (proj2 (Z.eqb_neq (pgdir t) 0) Hpg).
    by prun (in_mem_put (claim_user v) kh t tt mc Hth Hclaim). }
  rewrite Hrun. unfold attach_page. cbn [pool_lock]. pose proof (task_put mc kh t Hth) as Htc. pose proof (view_put mc kh t Hth) as Hvc.
  assert (forall A (c : st mem A) a m1, c mc = Ok (a, m1) -> in_mem c (put_view mc kh) = Ret a (put_view m1 kh)) as Hgo.
  { intros A c a m1 Hc. rewrite <- Hvc in Hc. rewrite (in_mem_put c _ _ a m1 Htc Hc). by rewrite put_view_twice. }
  destruct (map_one PF_USER mc v Hsc Hv Hn) as [(pa & m1 & m2 & Hpal & Hadd & Hf & Htk & Hpm)|[[Hbad|(pa & m1 & Hpal & Hf & Hbad)] _]].
  - left. exists m2. split; [|split].
    + prun (Hgo _ _ _ _ Hpal). rewrite (proj2 (Z.eqb_neq pa 0) Hf).
      pose proof (task_put m1 kh t Hth) as Ht1. pose proof Hadd as Hadd'. rewrite <- (view_put m1 kh t Hth) in Hadd'.
      prun (in_mem_put _ _ _ tt m2 Ht1 Hadd'). rewrite put_view_twice. by prun (proj2 (locked_put f k user_pool_lock m2 Hl Hr)).
    + by apply (claim_page m j b m1 m2 pa).
    + rewrite (pm_maps _ _ _ _ Hpm). by eexists.
  - right. rewrite <- Hvc in Hbad. by rewrite (bind_Err _ _ _ _ (in_mem_bad _ _ _ EPanic Htc Hbad)).
  - right. prun (Hgo _ _ _ _ Hpal). rewrite (proj2 (Z.eqb_neq pa 0) Hf).
    pose proof (task_put m1 kh t Hth) as Ht1. rewrite <- (view_put m1 kh t Hth) in Hbad. by rewrite (bind_Err _ _ _ _ (in_mem_bad _ _ _ EPanic Ht1 Hbad)).
Qed.

(** One round of the loop. *)
Lemma map_round f n k t j :
  tasks k !! running k = Some t -> pgdir t <> 0 -> lock_free k user_pool_lock -> running k <> 0 -> heap_ok (view k) ->
  let m := view k in let v := va_page (cur_vaddr m) j in
  0 <= j < va_bits (cur_vaddr m) ->
  (exists m1, map_segment (S f) (S n) v k = map_segment (S f) n (u32 (v + PG_SIZE)) (put_view m1 k)
     /\ mapped_more 1 m m1 v /\ is_Some (translate m1 v))
  \/ map_segment (S f) (S n) v k = Err EPanic.
Proof.
  intros Ht Hpg Hl Hr Hh m v Hj. assert (page v) as Hv by (apply va_page_ok; [exact (ho_va _ Hh PF_USER)|lia]).
  pose proof Hv as [[Hv0 _] _]. pose proof (unmapped_run m v (ho_space _ Hh) Hv) as Hu. pose proof (cur_vaddr_view k t Ht) as Hcv.
  change (map_segment (S f) (S n) v) with (missing ← in_mem (unmapped v);
    p ← (if (missing : bool) then get_a_page (S f) PF_USER v else mret v);
    if (missing : bool) && (p =? 0) then mret false else map_segment (S f) n (u32 (v + PG_SIZE))).
  assert (in_mem (unmapped v) k = Ret (bool_decide (translate m v = None)) k) as Hum.
  { rewrite (in_mem_run (unmapped v) k t _ m Ht Hu Hcv). f_equal. exact (with_view_same k t Ht). }
  prun Hum.
  destruct (translate m v) as [fr|] eqn:Htr.
  - left. exists m. rewrite bool_decide_false by done. pret. pose proof (put_view_id k t Ht) as Hid. fold m in Hid. split; [by rewrite Hid|]. split; [by apply mapped_more_refl|by eexists].
  - rewrite bool_decide_true by done. destruct (get_page_run f k t j Ht Hpg Hl Hr Hh Hj Htr) as [(m' & Hg & Hm & Hs)|Hg].
    + left. exists m'. split; [|done]. pose proof (proj2 (Z.eqb_neq v 0) ltac:(lia)) as Hz. prun Hg. fold m v. rewrite Hz. done.
    + right. by rewrite (bind_Err _ _ _ _ Hg).
Qed.

(** All pages of a segment in the pool of the process. *)
Lemma map_segment_run f n : forall k t j,
  tasks k !! running k = Some t -> pgdir t <> 0 -> lock_free k user_pool_lock -> running k <> 0 -> heap_ok (view k) ->
  let m := view k in let v := va_page (cur_vaddr m) j in
  0 <= j -> j + Z.of_nat n <= va_bits (cur_vaddr m) ->
  (exists m', map_segment (S f) n v k = Ret true (put_view m' k) /\ mapped_more (Z.of_nat n) m m' v
     /\ forall i, 0 <= i < Z.of_nat n -> is_Some (translate m' (v + 4096 * i)))
  \/ map_segment (S f) n v k = Err EPanic.
Proof.
  induction n as [|n IH]; intros k t j Ht Hpg Hl Hr Hh m v Hj Hn.
  { left. exists m. split; [|split; [by apply mapped_more_refl|lia]]. cbn [map_segment]. unfold m. by rewrite (put_view_id k t Ht). }
  pose proof (ho_va _ Hh PF_USER) as Hva. cbn [va_of] in Hva. fold m in Hva.
  assert (page v) as Hv by (apply va_page_ok; [done|lia]). pose proof (page_range v Hv) as Hvr. unfold window in Hvr. pose proof Hv as [[Hv0 _] _].
  assert (0 <= j < va_bits (cur_vaddr (view k))) as Hj' by (fold m; lia).
  destruct (map_round f n k t j Ht Hpg Hl Hr Hh Hj') as [(m1 & Hstep & Hm1 & Hs1)|Hbad]; [|by right].
  fold m in Hstep, Hm1. fold v in Hstep, Hm1, Hs1. pose proof (task_put m1 k t Ht) as Ht1. pose proof (view_put m1 k t Ht) as Hv1.
  pose proof (mm_start _ _ _ _ Hm1) as [Hst Hbi]. assert (u32 (v + PG_SIZE) = va_page (cur_vaddr (view (put_view m1 k))) (j + 1)) as Hnext.
  { rewrite Hv1. unfold PG_SIZE. rewrite u32_id by lia. unfold va_page. rewrite Hst. unfold v, va_page. lia. }
  assert (heap_ok (view (put_view m1 k))) as Hh1 by (rewrite Hv1; apply Hm1).
  assert (j + 1 + Z.of_nat n <= va_bits (cur_vaddr (view (put_view m1 k)))) as Hn1 by (rewrite Hv1, Hbi; fold m; lia).
  destruct (IH (put_view m1 k) (set_userprog_vaddr (cur_vaddr m1) t) (j + 1) Ht1 Hpg Hl Hr Hh1 ltac:(lia) Hn1)
    as [(m2 & Hrun & Hm2 & Hs2)|Hbad]; rewrite <- Hnext in *; rewrite Hstep; [|by right].
  left. exists m2. rewrite Hv1 in *. rewrite put_view_twice in Hrun. split; [exact Hrun|]. unfold PG_SIZE in *. rewrite u32_id in * by lia.
  split.
  - rewrite Nat2Z.inj_succ. unfold Z.succ. apply (mapped_more_trans _ m m1); [lia|done|done].
  - intros i Hi. destruct (decide (i = 0)) as [->|].
    + rewrite Z.mul_0_r, Z.add_0_r. destruct Hs1 as [fr Hfr]. rewrite (mm_kept _ _ _ _ Hm2 v fr Hv Hfr). by eexists.
    + replace (v + 4096 * i) with (v + 4096 + 4096 * (i - 1)) by lia. apply Hs2. lia.
Qed.

(** ** A segment *)

Lemma first_page_eq v : 0 <= v < 2 ^ 32 -> first_page v = v - v mod 4096.
Proof. intros Hv. unfold first_page. fold (frame v). rewrite frame_eq by done. lia. Qed.

(** The pages are those that hold the bytes of the segment, and one if it is
    empty. *)
Lemma occupied_pages_eq filesz v :
  0 <= v -> 0 <= filesz -> v + filesz < 2 ^ 32 ->
  occupied_pages filesz v = Z.max 1 ((v mod 4096 + filesz + 4095) / 4096).
Proof.
  intros Hv Hf Hs. unfold occupied_pages, DIV_ROUND_UP, PG_SIZE. rewrite (offset_eq v).
  destruct (Z.ltb_spec (4096 - v mod 4096) filesz); [|lia].
  rewrite !(u32_id (filesz - _)), (u32_id (_ - _ + _ - 1)) by lia. rewrite u32_id by lia. lia.
Qed.

(** Mapping more pages leaves the bytes of the mapped ones. *)
Lemma mapped_more_peek n m m' v p f off :
  heap_ok m -> mapped_more n m m' v -> page p -> translate m p = Some f -> f <> cr3 m -> 0 <= off < 4096 ->
  peek m' (p + off) = peek m (p + off).
Proof.
  intros Hh Hm Hp Hf Hcr Ho. rewrite (peek_page m p f off), (peek_page m' p f off) by (done || by apply (mm_kept _ _ _ _ Hm)).
  f_equal. f_equal. apply (mm_words _ _ _ _ Hm p f); (done || lia).
Qed.

(** The segment [filesz] bytes from [vaddr] lies in the pool of the process. *)
Definition segment_fits (va : virtual_addr) (filesz vaddr : Z) : Prop :=
  vaddr_start va <= vaddr < va_page va (va_bits va) /\ 0 <= filesz /\ vaddr + filesz <= va_page va (va_bits va).

(** The pages of a segment are pages of the pool. *)
Lemma segment_pages va filesz vaddr :
  va_ok va -> segment_fits va filesz vaddr ->
  let n := occupied_pages filesz vaddr in let j := (vaddr - vaddr_start va) / 4096 in
  first_page vaddr = va_page va j /\ 0 <= j /\ 1 <= n /\ j + n <= va_bits va
  /\ va_page va j <= vaddr /\ vaddr + filesz <= va_page va j + 4096 * n.
Proof.
  intros [Hb [Hs1 Hs2] He] ((Hv1 & Hv2) & Hf & Hend) n j. unfold window, va_page in *.
  assert (n = Z.max 1 ((vaddr mod 4096 + filesz + 4095) / 4096)) as Hn by (apply occupied_pages_eq; lia).
  rewrite first_page_eq by lia. clearbody n. subst n. unfold j. lia.
Qed.

(** The address space after loading [data] at [vaddr]. *)
Record segment_loaded (m m' : mem) (filesz vaddr : Z) (data : list Z) : Prop := {
  sl_ok : heap_ok m';
  sl_mapped : forall a, vaddr <= a < vaddr + filesz -> mapped_addr m' a;
  sl_bytes : forall (i : nat) x, data !! i = Some x -> load8 (vaddr + Z.of_nat i) m' = Ok (x, m');
  sl_others : forall a, readable m a -> a < vaddr_start (kernel_vaddr m) ->
    ~ (vaddr <= a < vaddr + Z.of_nat (length data)) -> peek m' a = peek m a;
  sl_pages : forall w, page w -> ~ (first_page vaddr <= w < vaddr + Z.max 1 filesz) -> translate m' w = translate m w
}.

Lemma segment_store m m1 filesz vaddr data :
  heap_ok m -> segment_fits (cur_vaddr m) filesz vaddr -> Z.of_nat (length data) <= filesz -> Forall is_byte data ->
  let n := occupied_pages filesz vaddr in let v := first_page vaddr in
  mapped_more n m m1 v -> (forall i, 0 <= i < n -> is_Some (translate m1 (v + 4096 * i))) ->
  exists ph, store_bytes vaddr data m1 = Ok (tt, with_phys m1 ph) /\ segment_loaded m (with_phys m1 ph) filesz vaddr data.
Proof.
  intros Hh Hfit Hlen Hbytes n v Hm Hmap. pose proof (ho_va _ Hh PF_USER) as Hva. cbn [va_of] in Hva.
  destruct (segment_pages _ filesz vaddr Hva Hfit) as (Hfirst & Hj & Hn1 & Hjn & Hlo & Hhi). fold v n in Hfirst, Hn1, Hjn, Hlo, Hhi.
  set (j := (vaddr - _) / 4096) in *. rewrite <- Hfirst in Hlo, Hhi. pose proof (mm_ok _ _ _ _ Hm) as Hh1.
  assert (forall a, vaddr <= a < vaddr + filesz -> mapped_addr m1 a) as Hseg.
  { intros a Ha. set (i := (a - v) / 4096). destruct (Hmap i ltac:(lia)) as [fr Hfr].
    assert (v + 4096 * i = va_page (cur_vaddr m) (j + i)) as Hpi by (rewrite Hfirst; unfold va_page; lia).
    assert (page (v + 4096 * i)) as Hp by (rewrite Hpi; apply va_page_ok; [done|lia]).
    exists (v + 4096 * i), fr. split; [done|]. split; [lia|]. split; [done|]. apply (low_page_frame m1 (v + 4096 * i)); try done.
    rewrite (mm_kernel _ _ _ _ Hm), Hpi. pose proof (ho_apart _ Hh). unfold va_page in *. lia. }
  destruct (store_bytes_run data vaddr m1 Hh1) as (ph & Hrun & Hs & Hin & Hout); [intros i Hi; apply Hseg; lia|done|].
  set (m2 := with_phys m1 ph) in *. exists ph. fold m2. split; [exact Hrun|]. constructor.
  - by apply (heap_ok_same m1).
  - intros a Ha. apply (mapped_addr_same m1); [done|]. by apply Hseg.
  - intros i x Hx. apply peek_load. by apply Hin.
  - intros a (p & f & Hp & Ha & Hf) Hk Hno.
    assert (p < vaddr_start (kernel_vaddr m)) as Hpl by lia. pose proof (low_page_frame m p f Hh Hp Hpl Hf) as Hcr.
    rewrite Hout; [|exists p, f; split; [done|]; split; [done|]; by apply (mm_kept _ _ _ _ Hm)|done].
    replace a with (p + (a - p)) by lia. apply (mapped_more_peek n m m1 v p f); (done || lia).
  - intros w Hw Hno. rewrite (same_page m1 m2) by done. apply (mm_others _ _ _ _ Hm); [done|]. intros Hin'. apply Hno.
    split; [exact (proj1 Hin')|]. pose proof Hw as [_ Hwa]. pose proof Hva as [_ [Hs0 _] Hve].
    destruct Hfit as ((Hv1 & Hv2) & Hf & Hend). unfold va_page, window in *.
    assert (v = vaddr - vaddr mod 4096) as Hvv by (apply first_page_eq; lia).
    assert (n = Z.max 1 ((vaddr mod 4096 + filesz + 4095) / 4096)) as Hnn by (apply occupied_pages_eq; lia).
    clearbody v n. lia.
Qed.

Lemma loaded_put w t m s :
  tasks (w_kernel w) !! running (w_kernel w) = Some t -> fs_view t s = s ->
  loaded (World (put_view m (w_kernel w)) s) (set_userprog_vaddr (cur_vaddr m) t).
Proof. intros Ht Hs. split; [exact (task_put m (w_kernel w) t Ht)|exact Hs]. Qed.

(** [segment_load] over a file system that seeks and reads. *)
Lemma segment_load_run f w t fd offset filesz vaddr r n data s1 s2 :
  loaded w t -> pgdir t <> 0 -> lock_free (w_kernel w) user_pool_lock -> running (w_kernel w) <> 0 -> heap_ok (view (w_kernel w)) ->
  segment_fits (userprog_vaddr t) filesz vaddr ->
  sys_lseek fd (i32 offset) SEEK_SET (w_fs w) = Ok (r, s1) -> Fs.sys_read fd filesz s1 = Ok (Done n data, s2) ->
  fs_view t s1 = s1 -> fs_view t s2 = s2 -> Z.of_nat (length data) <= filesz -> Forall is_byte data ->
  (exists m, segment_load (S f) fd offset filesz vaddr w = Ret true (World (put_view m (w_kernel w)) s2)
     /\ segment_loaded (view (w_kernel w)) m filesz vaddr data)
  \/ segment_load (S f) fd offset filesz vaddr w = Err EPanic.
Proof.
  intros [Ht Hv] Hpg Hl Hr Hh Hfit Hseek Hread Hs1 Hs2 Hlen Hb. set (k := w_kernel w) in *.
  pose proof (cur_vaddr_view k t Ht) as Hcv. rewrite <- Hcv in Hfit. pose proof (ho_va _ Hh PF_USER) as Hva. cbn [va_of] in Hva.
  destruct (segment_pages _ filesz vaddr Hva Hfit) as (Hfirst & Hj & Hn1 & Hjn & _). set (cnt := occupied_pages filesz vaddr) in *.
  assert (vaddr <> 0) as Hv0 by (destruct Hva as [_ [? _] _]; destruct Hfit as [? _]; lia).
  destruct (map_segment_run f (Z.to_nat cnt) k t _ Ht Hpg Hl Hr Hh Hj ltac:(lia)) as [(m1 & Hrun & Hm & Hmap)|Hbad];
    rewrite <- Hfirst in *; rewrite ?(Z2Nat.id cnt) in * by lia.
  2: { right. pose proof (zoom_Err (map_segment (S f) (Z.to_nat cnt) (first_page vaddr)) w EPanic Hbad) as Hz.
       unfold segment_load. fold cnt. by rewrite (bind_Err _ _ _ _ Hz). }
  destruct (segment_store (view k) m1 filesz vaddr data Hh Hfit Hlen Hb Hm Hmap) as (ph & Hst & Hload).
  left. exists (with_phys m1 ph). split; [|exact Hload]. unfold segment_load. fold cnt. set (k1 := put_view m1 k).
  pose proof (zoom_Ret (map_segment (S f) (Z.to_nat cnt) (first_page vaddr)) w true _ Hrun) as Hz. prun Hz.
  prun (in_fs_step _ (World k1 (w_fs w)) _ r s1 (loaded_put w t m1 _ Ht Hv) Hseek Hs1). cbn [w_kernel].
  rewrite (proj2 (Z.eqb_neq vaddr 0) Hv0). cbn [negb].
  pose proof (in_fs_step _ (World k1 s1) _ _ s2 (loaded_put w t m1 _ Ht Hs1) Hread Hs2) as Hrd.
  assert (sys_read (S f) 0 fd filesz (World k1 s1) = Ret (n, data) (World k1 s2)) as Hsr by (unfold sys_read; by prun Hrd).
  assert (assert true (World k1 s1) = Ret tt (World k1 s1)) as Has by done. prun Has. prun Hsr. cbn [snd].
  assert (store_bytes vaddr data (view k1) = Ok (tt, with_phys m1 ph)) as Hst' by (unfold k1; by rewrite (view_put m1 k t Ht)).
  pose proof (in_mem_put _ _ _ tt _ (task_put m1 k t Ht) Hst') as Hsm. rewrite put_view_twice in Hsm.
  pose proof (zoom_Ret (in_mem (store_bytes vaddr data)) (World k1 s2) tt _ Hsm) as Hz2. by prun Hz2.
Qed.

(** ** Segments of files *)

(** Descriptor [fd] is slot [g] of the file table, a file with inode [i]. *)
Record open_file (s : fsys) (fd g : Z) (f : file) (i : inode) : Prop := {
  of_volume : volume_ok s;
  of_fd : 3 <= fd /\ fd_table s !! Z.to_nat fd = Some g;
  of_slot : 0 <= g < 32 /\ file_table s !! Z.to_nat g = Some f;
  of_file : fd_flag f <> PIPE_FLAG /\ 0 <= fd_pos f < 2 ^ 31;
  of_inode : inodes s !! fd_inode f = Some i /\ file_ok s i /\ i_size i < 139 * 512
}.

Lemma dbyte_range d k : disk_ok d -> is_byte (dbyte d k).
Proof.
  intros Hd. unfold dbyte. destruct (sector d (k / 512) !! Z.to_nat (k mod 512)) as [x|] eqn:Hx; [|unfold is_byte; cbn; lia].
  destruct (Hd (k / 512)) as [_ Hb]. rewrite Forall_forall in Hb. apply Hb. by apply list_elem_of_lookup_2 in Hx.
Qed.

Lemma fcontent_bytes s i : volume_ok s -> Forall is_byte (fcontent (disk s) i).
Proof.
  intros Hv. apply Forall_forall. intros x (k & -> & _)%list_elem_of_fmap. apply dbyte_range, (vo_disk s Hv).
Qed.

(** The file is read from [offset] on. *)
Lemma read_at_run s fd g f i offset count a1 a2 r :
  open_file s fd g f i -> allocs s = a1 :: a2 :: r -> a1 <> 0 -> a2 <> 0 ->
  0 <= offset < i_size i -> 0 < count -> offset + count < 2 ^ 31 ->
  let n := Z.min count (i_size i - offset) in
  exists s1 s2, sys_lseek fd (i32 offset) SEEK_SET s = Ok (offset, s1)
    /\ Fs.sys_read fd count s1 = Ok (Done n (slice (fcontent (disk s) i) offset n), s2)
    /\ fd_table s2 = fd_table s /\ cwd_inode_nr s2 = cwd_inode_nr s /\ disk s2 = disk s
    /\ fd_table s1 = fd_table s /\ cwd_inode_nr s1 = cwd_inode_nr s.
Proof.
  intros [Hv [Hfd Hg] [Hg32 Hf] [Hk Hp] (Hi & Hok & H139)] Hal Ha1 Ha2 Ho Hc Hs n. pose proof Hok as (Hio & Hsz & _).
  set (f1 := File offset (fd_flag f) (fd_inode f)). set (s1 := set_file_table (<[Z.to_nat g := f1]> (file_table s)) s).
  exists s1, (moved (set_allocs r s1) g f1 n). split; [|split; [|done]].
  - rewrite i32_id by lia. assert (seek_target f i offset SEEK_SET = offset) as Ht by done.
    rewrite (lseek_bounds s fd g offset SEEK_SET f i); rewrite ?Ht; try done; try (unfold SEEK_SET; lia). cbv zeta.
    by replace ((0 <=? offset) && (offset <? i_size i)) with true by lia.
  - unfold Fs.sys_read. replace ((fd <? 0) || (fd =? 1) || (fd =? 2)) with false by lia. replace (fd =? 0) with false by lia.
    assert (fd_local2global fd s1 = Ok (g, s1)) as Hl.
    { unfold fd_local2global. rewrite (sbind_Ok _ _ s1 _ s1 eq_refl). change (fd_table s1) with (fd_table s). rewrite (rd_lookup _ _ g) by (lia || done).
      run (sres_run g s1). by run (sassert_true ((0 <=? g) && (g <? MAX_FILE_OPEN)) s1 ltac:(unfold MAX_FILE_OPEN; lia)). }
    assert (file_table s1 !! Z.to_nat g = Some f1) as Hf1 by (apply list_lookup_insert_eq; by apply lookup_lt_is_Some_1; eexists).
    assert (is_pipe fd s1 = Ok (false, s1)) as Hnp.
    { unfold is_pipe. run Hl. run (file_at_run g f1 s1 ltac:(lia) Hf1). cbn. by rewrite (proj2 (Z.eqb_neq _ _) Hk). }
    run Hnp. run Hl.
    assert (volume_ok s1) as Hv1 by (destruct Hv; by constructor).
    assert (file_ok s1 i) as Hok1.
    { split; [done|]. split; [done|]. destruct Hok as (_ & _ & [?|Hb]); [by left|right]. exact (blocks_ok_ext s s1 i _ eq_refl eq_refl eq_refl Hb). }
    pose proof (file_read_run s1 g f1 i count a1 a2 r Hv1 ltac:(lia) Hf1 Hi Hok1 Hal Ha1 Ha2) as Hrd. cbn [fd_pos f1] in Hrd.
    rewrite (sbind_Ok _ _ _ _ _ (Hrd ltac:(lia) Hc ltac:(lia) ltac:(lia))). done.
Qed.

(** ** Properties *)

(** C11: Segment_load puts a segment of a program where its header says.  For a
    segment inside the process's pool of addresses and an open file that reaches
    beyond [offset], [segment_load] returns true (or the kernel stops for lack of
    frames): every address of the segment is mapped, byte [offset + i] of the
    file is at address [vaddr + i] as far as the file and [filesz] reach, every
    other byte that the process could read is what it was, no page outside the
    segment is mapped or unmapped, and the invariant of the allocator holds.
    Pages that were mapped before are used again. *)
Theorem segment_load_places (fuel : nat) (w : world) (t : task_struct) (fd g offset filesz vaddr a1 a2 : Z) (r : list Z) (f : file) (i : inode) :
  loaded w t -> pgdir t <> 0 -> lock_free (w_kernel w) user_pool_lock -> running (w_kernel w) <> 0 -> heap_ok (view (w_kernel w)) ->
  segment_fits (userprog_vaddr t) filesz vaddr -> 0 < filesz ->
  open_file (w_fs w) fd g f i -> allocs (w_fs w) = a1 :: a2 :: r -> a1 <> 0 -> a2 <> 0 ->
  0 <= offset < i_size i -> offset + filesz < 2 ^ 31 ->
  let data := slice (fcontent (disk (w_fs w)) i) offset (Z.min filesz (i_size i - offset)) in
  (exists m s, segment_load (S fuel) fd offset filesz vaddr w = Ret true (World (put_view m (w_kernel w)) s)
     /\ segment_loaded (view (w_kernel w)) m filesz vaddr data /\ disk s = disk (w_fs w))
  \/ segment_load (S fuel) fd offset filesz vaddr w = Err EPanic.
Proof.
  intros Hl Hpg Hlk Hr Hh Hfit Hz Hof Hal Ha1 Ha2 Ho Hs data.
  destruct (read_at_run (w_fs w) fd g f i offset filesz a1 a2 r Hof Hal Ha1 Ha2 Ho Hz Hs) as (s1 & s2 & Hseek & Hread & Ht2 & Hc2 & Hd2 & Ht1 & Hc1).
  assert (forall s, fd_table s = fd_table (w_fs w) -> cwd_inode_nr s = cwd_inode_nr (w_fs w) -> fs_view t s = s) as Hview.
  { intros s Ht Hc. destruct Hl as [_ Hv]. unfold fs_view in *. destruct s, (w_fs w). cbn in *. injection Hv as Hv1 Hv2.
    unfold set_fd_table, set_cwd. cbn. congruence. }
  destruct (segment_load_run fuel w t fd offset filesz vaddr _ _ data s1 s2 Hl Hpg Hlk Hr Hh Hfit Hseek Hread) as [(m & Hrun & Hm)|Hbad];
    [by apply Hview|by apply Hview| | |left; by exists m, s2|by right].
  - unfold data, slice. rewrite length_take. lia.
  - apply slice_bytes. apply fcontent_bytes, Hof.
Qed.

(** The process of ForkSpec with a file open at descriptor 3; one page of the
    segment is mapped, the other is not. *)
Definition demo_exec_task : task_struct := Kernel.set_fd_table ([0; 1; 2; 3] ++ replicate 4 (-1)) demo_fork_task.

Definition demo_exec_kernel : kernel := set_tasks (<[0xc009e000 := demo_exec_task]> (tasks demo_fork)) demo_fork.

Definition demo_exec : world := World demo_exec_kernel (demo_file 1).

Lemma demo_exec_view : view (w_kernel demo_exec) = demo_forking.
Proof.
  assert (forall m, with_cur_vaddr m (cur_vaddr m) = m) as H by (by intros []). exact (H demo_forking).
Qed.

Lemma demo_exec_fits : segment_fits (userprog_vaddr demo_exec_task) 8 0x8048ffc.
Proof. vm_compute. repeat split; discriminate. Qed.

Lemma demo_exec_file : open_file (demo_file 1) 3 3 (File 510 2 4096) (Inode 1 600 1 true (613 :: 614 :: zeros 11)).
Proof.
  constructor; [apply demo_file_volume|split; [lia|done]|split; [lia|done]|split; [done|cbn; lia]|].
  split; [done|]. split; [by apply demo_file_ok|cbn; lia].
Qed.

Lemma demo_exec_runs : match segment_load 1 3 508 8 0x8048ffc demo_exec with Ret _ _ => true | _ => false end = true.
Proof. vm_compute. reflexivity. Qed.

Lemma segment_load_places_witness :
  exists m s, segment_load 1 3 508 8 0x8048ffc demo_exec = Ret true (World (put_view m demo_exec_kernel) s)
    /\ load8 0x8048fff m = Ok (65, m) /\ load8 0x8049000 m = Ok (66, m) /\ heap_ok m.
Proof.
  pose proof demo_exec_runs as Hrun.
  destruct (segment_load_places 0 demo_exec demo_exec_task 3 3 508 8 0x8048ffc 8192 12288 [16384; 20480; 24576] (File 510 2 4096)
    (Inode 1 600 1 true (613 :: 614 :: zeros 11))) as [(m & s & H & [Hok _ Hb _ _] & _)|H].
  - split; reflexivity.
  - intros E. discriminate E.
  - split; reflexivity.
  - intros E. discriminate E.
  - rewrite demo_exec_view. apply demo_forking_ok.
  - exact demo_exec_fits.
  - lia.
  - exact demo_exec_file.
  - reflexivity.
  - discriminate.
  - discriminate.
  - cbn. lia.
  - lia.
  - exists m, s. split; [exact H|]. split; [|split; [|exact Hok]].
    + exact (Hb 3%nat 65 ltac:(vm_compute; reflexivity)).
    + exact (Hb 4%nat 66 ltac:(vm_compute; reflexivity)).
  - rewrite H in Hrun. discriminate Hrun.
Defined.
