(* ===== verification/Program.v ===== *)
(** * Program: programs that run on the kernel

    A program of the shell or of command/ is a function on its byte memory
    whose result is an interaction tree: its events are the calls of
    lib/user/syscall.c, with the strings and buffers the kernel reads and
    fills.  A handler says what the calls do; [run] executes a tree against it
    with fuel, and [runs] is the relation that it ends. *)
From S2P Require Import Prelude CString Stdio Disk Fsys Inode Dir File Fs.
From ITree Require Import ITree Eq.Shallow.

(** ** System calls as events

    An answer is the return value, with the bytes the call stores.  [C_stuck] is
    the end of a program by an access outside its memory or by [user_spin]. *)
Inductive callE : Type -> Type :=
| C_getpid : callE Z
| C_write (fd : Z) (buf : list Z) : callE Z
| C_malloc (size : Z) : callE Z
| C_free (ptr : Z) : callE unit
| C_fork : callE Z
| C_read (fd count : Z) : callE (Z * list Z)
| C_putchar (char_asci : Z) : callE unit
| C_clear : callE unit
| C_getcwd (size : Z) : callE (bool * list Z)
| C_open (pathname : list Z) (flag : Z) : callE Z
| C_close (fd : Z) : callE Z
| C_unlink (pathname : list Z) : callE Z
| C_mkdir (pathname : list Z) : callE Z
| C_opendir (name : list Z) : callE Z
| C_closedir (dir : Z) : callE Z
| C_rmdir (pathname : list Z) : callE Z
| C_readdir (dir : Z) : callE (Z * list Z)
| C_rewinddir (dir : Z) : callE unit
| C_stat (path : list Z) : callE (Z * option stat)
| C_chdir (path : list Z) : callE Z
| C_ps : callE unit
| C_execv (pathname : list Z) (argv : list (list Z)) : callE Z
| C_exit (status : Z) : callE unit
| C_wait : callE (Z * option Z)
| C_pipe : callE (Z * option (Z * Z))
| C_stuck (e : error) : callE Empty_set.

(** ** Programs *)

Definition prog (A : Type) : Type := cmem -> itree callE (A * cmem).

#[export] Instance prog_ret : MRet prog := fun A a m => ITreeDefinition.Ret (a, m).

#[export] Instance prog_bind : MBind prog := fun A B f p m =>
  ITree.bind (p m) (fun r => f r.1 r.2).

Definition call {X} (e : callE X) : prog X := fun m =>
  ITreeDefinition.Vis e (fun x => ITreeDefinition.Ret (x, m)).

Definition stuck {A} (e : error) : prog A := fun m =>
  ITreeDefinition.Vis (C_stuck e) (fun x => match x : Empty_set with end).

(** Code that makes no call. *)
Definition local {A} (c : st cmem A) : prog A := fun m =>
  match c m with Ok r => ITreeDefinition.Ret r | Bad e => stuck e m end.

(** A loop whose body goes on with [inl] and ends with [inr]. *)
Definition while {A B} (body : A -> prog (A + B)) (a : A) : prog B := fun m =>
  ITree.iter (fun c : A * cmem =>
    ITree.map (fun r : (A + B) * cmem =>
      match r.1 with inl a' => inl (a', r.2) | inr b => inr (b, r.2) end) (body c.1 c.2)) (a, m).

(** ** What the kernel reads and writes in the memory of a program *)

Fixpoint bytes_from (n : nat) (p : Z) : st cmem (list Z) :=
  match n with
  | O => mret []
  | S n' => c ← ld p; r ← bytes_from n' (p + 1); mret (c :: r)
  end.

(** The string at an address. *)
Fixpoint string_from (fuel : nat) (p : Z) : st cmem (list Z) :=
  match fuel with
  | O => sres (Bad EFuel)
  | S f => c ← ld p; if c =? 0 then mret [] else r ← string_from f (p + 1); mret (c :: r)
  end.

(** The strings of an array of pointers up to the NULL pointer. *)
Fixpoint strings_from (fuel : nat) (argv : list Z) : st cmem (list (list Z)) :=
  match argv with
  | [] => sres (Bad EFault)
  | p :: argv' =>
    if p =? 0 then mret []
    else s ← string_from fuel p; r ← strings_from fuel argv'; mret (s :: r)
  end.

Fixpoint fill (p : Z) (bs : list Z) : st cmem unit :=
  match bs with
  | [] => mret tt
  | b :: bs' => _ ← sto p b; fill (p + 1) bs'
  end.

(** ** The calls with their arguments in memory *)

Section Calls.
(** The fuel of the string functions. *)
Context (fuel : nat).

Definition write (fd buf count : Z) : prog Z :=
  bs ← local (bytes_from (Z.to_nat count) buf); call (C_write fd bs).

Definition read (fd buf count : Z) : prog Z :=
  r ← call (C_read fd count); _ ← local (fill buf r.2); mret r.1.

Definition getcwd (buf size : Z) : prog Z :=
  r ← call (C_getcwd size); _ ← local (fill buf r.2); mret (if r.1 : bool then buf else 0).

Definition with_string {X} (e : list Z -> callE X) (p : Z) : prog X :=
  s ← local (string_from fuel p); call (e s).

Definition open (pathname flag : Z) : prog Z := with_string (fun s => C_open s flag) pathname.

Definition unlink : Z -> prog Z := with_string C_unlink.

Definition mkdir : Z -> prog Z := with_string C_mkdir.

Definition opendir : Z -> prog Z := with_string C_opendir.

Definition rmdir : Z -> prog Z := with_string C_rmdir.

Definition chdir : Z -> prog Z := with_string C_chdir.

Definition stat_of : Z -> prog (Z * option stat) := with_string C_stat.

(** The entry that [readdir] points to is in the memory of the kernel, which
    the program reads: its bytes are there after the call. *)
Definition readdir (dir : Z) : prog Z := fun m =>
  ITreeDefinition.Vis (C_readdir dir) (fun r => ITreeDefinition.Ret (r.1, put_bytes r.1 r.2 m)).

Definition execv (pathname : Z) (argv : list Z) : prog Z :=
  s ← local (string_from fuel pathname);
  ss ← local (strings_from fuel argv);
  call (C_execv s ss).

(** A process that has called [exit] does not run on. *)
Definition exit {A} (status : Z) : prog A :=
  _ ← call (C_exit status); stuck EPanic.

(** ** Formatted output

    [buf] is the address of the local array of 1024 bytes. *)
Definition printf (buf format : Z) (args : list Z) : prog Z :=
  _ ← local (memset_loop 1024 buf 0);
  _ ← local (vsprintf fuel fuel buf format args);
  len ← local (strlen fuel buf);
  write 1 buf len.
End Calls.

(** ** Running a program *)

Section Run.
(** What a call does in the state of the kernel; without a value it does not
    return. *)
Context {S : Type} (h : forall X, callE X -> st S (option X)).

(** How a program ends: with a value, by a call that does not return, or in an
    error. *)
Inductive stop : Type :=
| Gone
| Crashed (e : error).

Inductive ending (A : Type) : Type :=
| Returned (a : A)
| Stopped (o : stop).
Arguments Returned {A} a.
Arguments Stopped {A} o.

Fixpoint run_tree {A} (fuel : nat) (t : itree callE A) : st S (ending A) :=
  match fuel with
  | O => sres (Bad EFuel)
  | Datatypes.S f =>
    match observe t with
    | RetF a => mret (Returned a)
    | TauF u => run_tree f u
    | VisF e k => fun s =>
      match h _ e s with
      | Ok (Some x, s1) => run_tree f (k x) s1
      | Ok (None, s1) => Ok (Stopped Gone, s1)
      | Bad e => Ok (Stopped (Crashed e), s)
      end
    end
  end.

Inductive runs {A} : itree callE A -> S -> ending A -> S -> Prop :=
| runs_ret t s a : observe t = RetF a -> runs t s (Returned a) s
| runs_tau t u s r s' : observe t = TauF u -> runs u s r s' -> runs t s r s'
| runs_call t X (e : callE X) k s x s1 r s' :
    observe t = VisF e k -> h X e s = Ok (Some x, s1) -> runs (k x) s1 r s' -> runs t s r s'
| runs_gone t X (e : callE X) k s s1 :
    observe t = VisF e k -> h X e s = Ok (None, s1) -> runs t s (Stopped Gone) s1
| runs_crash t X (e : callE X) k s err :
    observe t = VisF e k -> h X e s = Bad err -> runs t s (Stopped (Crashed err)) s.

Lemma run_tree_runs {A} fuel (t : itree callE A) s r s' : run_tree fuel t s = Ok (r, s') -> runs t s r s'.
Proof.
  revert t s. induction fuel as [|f IH]; intros t s; cbn [run_tree]; [done|].
  destruct (observe t) as [a|u|X e k] eqn:Ho.
  - intros [= <- <-]. by apply runs_ret.
  - intros Hr. apply (runs_tau _ u); [done|by apply IH].
  - destruct (h X e s) as [[[x|] s1]|err] eqn:Hh.
    + intros Hr. eapply runs_call; [done|exact Hh|by apply IH].
    + intros [= <- <-]. by eapply runs_gone.
    + intros [= <- <-]. by eapply runs_crash.
Qed.

(** Only the first node of a tree counts. *)
Lemma runs_observe {A} (t u : itree callE A) s r s' : observe t = observe u -> runs t s r s' -> runs u s r s'.
Proof.
  intros Heq Ht. revert Heq.
  destruct Ht as [t1 s1 a Ho|t1 v s1 q s2 Ho Hr|t1 X e ke s1 x s2 q s3 Ho Hh Hr|t1 X e ke s1 s2 Ho Hh|t1 X e ke s1 err Ho Hh];
    intros Heq; rewrite Heq in Ho.
  - by apply runs_ret.
  - by eapply runs_tau.
  - by eapply runs_call.
  - by eapply runs_gone.
  - by eapply runs_crash.
Qed.

Lemma runs_bind {A B} (t : itree callE A) (k : A -> itree callE B) s a s1 r s' :
  runs t s (Returned a) s1 -> runs (k a) s1 r s' -> runs (ITree.bind t k) s r s'.
Proof.
  intros Ht Hk. remember (Returned a) as q eqn:Hq. revert Hq.
  induction Ht as [t s b Ho|t u s q s2 Ho _ IH|t X e ke s x s2 q s3 Ho Hh _ IH| |]; intros Hq; [| | |done|done].
  - injection Hq as ->. eapply runs_observe; [|exact Hk]. by rewrite observe_bind, Ho.
  - apply (runs_tau _ (ITree.bind u k)); [|by apply IH]. by rewrite observe_bind, Ho.
  - eapply (runs_call _ X e (fun x => ITree.bind (ke x) k)); [|exact Hh|by apply IH]. by rewrite observe_bind, Ho.
Qed.

(** A sequence whose first part stops. *)
Lemma runs_bind_stop {A B} (t : itree callE A) (k : A -> itree callE B) s o s' :
  runs t s (Stopped o) s' -> runs (ITree.bind t k) s (Stopped o) s'.
Proof.
  intros Ht. remember (Stopped o) as q eqn:Hq. revert o Hq.
  induction Ht as [|t u s q s2 Ho _ IH|t X e ke s x s2 q s3 Ho Hh _ IH|t X e ke s s2 Ho Hh|t X e ke s err Ho Hh];
    intros o Hq; [done|..].
  - apply (runs_tau _ (ITree.bind u k)); [|by apply IH]. by rewrite observe_bind, Ho.
  - eapply (runs_call _ X e (fun x => ITree.bind (ke x) k)); [|exact Hh|by apply IH]. by rewrite observe_bind, Ho.
  - injection Hq as <-. eapply (runs_gone _ X e (fun x => ITree.bind (ke x) k)); [|exact Hh]. by rewrite observe_bind, Ho.
  - injection Hq as <-. eapply (runs_crash _ X e (fun x => ITree.bind (ke x) k)); [|exact Hh]. by rewrite observe_bind, Ho.
Qed.

(** ** Running a program from a memory *)

Definition does {A} (p : prog A) (m : cmem) (s : S) (a : A) (m' : cmem) (s' : S) : Prop :=
  runs (p m) s (Returned (a, m')) s'.

Lemma does_ret {A} (a : A) m s : does (mret a) m s a m s.
Proof. by apply runs_ret. Qed.

Lemma does_bind {A B} (p : prog A) (f : A -> prog B) m s a m1 s1 b m2 s2 :
  does p m s a m1 s1 -> does (f a) m1 s1 b m2 s2 -> does (p ≫= f) m s b m2 s2.
Proof. intros Hp Hf. by eapply runs_bind. Qed.

Lemma does_local {A} (c : st cmem A) m s a m' : c m = Ok (a, m') -> does (local c) m s a m' s.
Proof. intros Hc. unfold does, local. rewrite Hc. by apply runs_ret. Qed.

Lemma does_call {X} (e : callE X) m s x s' : h X e s = Ok (Some x, s') -> does (call e) m s x m s'.
Proof. intros Hh. eapply runs_call; [done|exact Hh|by apply runs_ret]. Qed.

(** The loop goes on, or ends. *)
Lemma does_while_next {A B} (body : A -> prog (A + B)) a m s a' m1 s1 b m2 s2 :
  does (body a) m s (inl a') m1 s1 -> does (while body a') m1 s1 b m2 s2 -> does (while body a) m s b m2 s2.
Proof.
  intros Hb Hw. unfold does, while at 1. eapply runs_observe; [symmetry; apply observing_observe, unfold_aloop_|].
  apply (runs_bind _ _ _ (inl (a', m1)) s1); [|eapply runs_tau; [done|exact Hw]].
  eapply runs_bind; [exact Hb|]. by apply runs_ret.
Qed.

Lemma does_while_end {A B} (body : A -> prog (A + B)) a m s b m1 s1 :
  does (body a) m s (inr b) m1 s1 -> does (while body a) m s b m1 s1.
Proof.
  intros Hb. unfold does, while. eapply runs_observe; [symmetry; apply observing_observe, unfold_aloop_|].
  apply (runs_bind _ _ _ (inr (b, m1)) s1); [|by apply runs_ret]. eapply runs_bind; [exact Hb|]. by apply runs_ret.
Qed.

(** A program that stops in the middle. *)
Definition stops {A} (p : prog A) (m : cmem) (s : S) (o : stop) (s' : S) : Prop := runs (p m) s (Stopped o) s'.

Lemma stops_first {A B} (p : prog A) (f : A -> prog B) m s o s' : stops p m s o s' -> stops (p ≫= f) m s o s'.
Proof. apply runs_bind_stop. Qed.

Lemma stops_next {A B} (p : prog A) (f : A -> prog B) m s a m1 s1 o s' :
  does p m s a m1 s1 -> stops (f a) m1 s1 o s' -> stops (p ≫= f) m s o s'.
Proof. intros Hp Hf. by eapply runs_bind. Qed.

Lemma stops_call {X} (e : callE X) m s err : h X e s = Bad err -> stops (call e) m s (Crashed err) s.
Proof. intros Hh. by eapply runs_crash. Qed.

Lemma stops_local {A} (c : st cmem A) m s e :
  c m = Bad e -> h _ (C_stuck e) s = Bad e -> stops (local c) m s (Crashed e) s.
Proof. intros Hc Hh. unfold stops, local. rewrite Hc. by eapply runs_crash. Qed.

Lemma stops_while_first {A B} (body : A -> prog (A + B)) a m s o s' :
  stops (body a) m s o s' -> stops (while body a) m s o s'.
Proof.
  intros Hb. unfold stops, while. eapply runs_observe; [symmetry; apply observing_observe, unfold_aloop_|].
  apply runs_bind_stop. by apply runs_bind_stop.
Qed.

Lemma stops_while_next {A B} (body : A -> prog (A + B)) a m s a' m1 s1 o s2 :
  does (body a) m s (inl a') m1 s1 -> stops (while body a') m1 s1 o s2 -> stops (while body a) m s o s2.
Proof.
  intros Hb Hw. unfold stops, while at 1. eapply runs_observe; [symmetry; apply observing_observe, unfold_aloop_|].
  apply (runs_bind _ _ _ (inl (a', m1)) s1); [|eapply runs_tau; [done|exact Hw]].
  eapply runs_bind; [exact Hb|]. by apply runs_ret.
Qed.
End Run.
Arguments Returned {A} a.
Arguments Stopped {A} o.
