(* ===== verification/Builtin.v ===== *)
(** * Builtin: the commands of shell/buildin_cmd.c

    They are programs of Program.v over the global buffer [final_path] and their
    local arrays, whose addresses a record names. *)
From S2P Require Import Prelude CString Stdio Paths Disk Fsys Inode Dir File Fs Program.

(** ** Where a program has its data

    [literal] is the address of a string literal. *)
Record memory_map : Type := MemoryMap {
  mm_fuel : nat;
  literal : list Z -> Z;
  cmd_line : Z;
  final_path : Z;
  cwd_cache : Z;
  local_abs_path : Z;
  local_name : Z;
  local_sub_pathname : Z;
  local_buf : Z
}.

Section Builtin.
Context (M : memory_map).

(** A literal, and [printf] with a literal format. *)
Definition lit (s : string) : Z := literal M (chars s).

Definition say (format : string) (args : list Z) : prog Z := printf (mm_fuel M) (local_buf M) (lit format) args.

Definition path_literals : literals := Literals (lit "..") (lit ".") (lit "/").

(** [strcmp] with a literal. *)
Definition is_not (s : string) (p : Z) : prog bool :=
  d ← local (strcmp (mm_fuel M) (lit s) p); mret (negb (d =? 0)).

(** ** Paths *)

(** The statement under the first test: the working directory and a slash. *)
Definition fetch_cwd : prog unit :=
  let abs_path := local_abs_path M in
  _ ← local (memset abs_path 0 MAX_PATH_LEN);
  r ← getcwd abs_path MAX_PATH_LEN;
  if negb (r =? 0) then
    a ← local (ld abs_path);
    b ← (if a =? 47 then b ← local (ld (abs_path + 1)); mret (b =? 0) else mret false);
    if negb b then _ ← local (strcat (mm_fuel M) abs_path (lit "/")); mret tt else mret tt
  else mret tt.

Definition make_clear_abs_path (path final : Z) : prog unit :=
  let abs_path := local_abs_path M in
  _ ← local (memset_loop (Z.to_nat MAX_PATH_LEN) abs_path 0);
  c ← local (ld path);
  _ ← (if negb (c =? 47) then fetch_cwd else mret tt);
  _ ← local (strcat (mm_fuel M) abs_path path);
  local (wash_path (mm_fuel M) (mm_fuel M) path_literals abs_path final (local_name M)).

(** ** The commands *)

Definition buildin_pwd (argc : Z) : prog unit :=
  if negb (argc =? 1) then
    _ ← say "pwd: no argument support!\n" []; mret tt
  else
    r ← getcwd (final_path M) MAX_PATH_LEN;
    if negb (r =? 0) then _ ← say "%s\n" [final_path M]; mret tt
    else _ ← say "pwd: get current work directory failed.\n" []; mret tt.

(** The element [i] of an array of pointers. *)
Definition arg_of (argv : list Z) (i : Z) : prog Z := local (sres (rd argv i)).

Definition buildin_cd (argc : Z) (argv : list Z) : prog Z :=
  if 2 <? argc then
    _ ← say "cd: only support 1 argument!\n" []; mret 0
  else
    _ ← (if argc =? 1 then
           _ ← local (sto (final_path M) 47); local (sto (final_path M + 1) 0)
         else
           a ← arg_of argv 1; make_clear_abs_path a (final_path M));
    r ← chdir (mm_fuel M) (final_path M);
    if r =? -1 then
      _ ← say "cd: no such directory %s\n" [final_path M]; mret 0
    else mret (final_path M).

(** The loop over the arguments, with [n] of them left; None is a return. *)
Fixpoint ls_args (n : nat) (argv : list Z) (arg_idx pathname : Z) (long_info : bool) (arg_path_nr : Z)
    : prog (option (Z * bool)) :=
  match n with
  | O => mret (Some (pathname, long_info))
  | S n' =>
    a ← arg_of argv arg_idx;
    c ← local (ld a);
    if c =? 45 then
      d ← is_not "-l" a;
      if negb d then ls_args n' argv (arg_idx + 1) pathname true arg_path_nr
      else
        d ← is_not "-h" a;
        if negb d then
          _ ← say "usage: -l list all infomation about the file.\n-h for help\nlist all files in the current dirctory if no option\n" [];
          mret None
        else
          _ ← say "ls: invalid option %s\nTry `ls -h' for more information.\n" [a]; mret None
    else if arg_path_nr =? 0 then ls_args n' argv (arg_idx + 1) a long_info 1
    else _ ← say "ls: only support one path\n" []; mret None
  end.

(** A word of struct dir_entry: [i_no] and [f_type] follow the 16 bytes of
    [filename]. *)
Definition ld_word (p : Z) : st cmem Z :=
  a ← ld p; b ← ld (p + 1); c ← ld (p + 2); d ← ld (p + 3); mret (a + 256 * b + 65536 * c + 16777216 * d).

(** The body of the loop of "ls -l". *)
Definition ls_long_entry (dir pathname_len : Z) : prog (unit + bool) :=
  dir_e ← readdir dir;
  if dir_e =? 0 then mret (inr true)
  else
    let sub_pathname := local_sub_pathname M in
    t ← local (ld_word (dir_e + 20));
    let ftype := if t =? ft_code FT_REGULAR then 45 else 100 in
    _ ← local (sto (sub_pathname + pathname_len) 0);
    _ ← local (strcat (mm_fuel M) sub_pathname dir_e);
    r ← stat_of (mm_fuel M) sub_pathname;
    if r.1 =? -1 then
      _ ← say "ls: cannot access %s: No such file or directory\n" [dir_e]; mret (inr false)
    else
      i ← local (ld_word (dir_e + 16));
      _ ← say "%c  %d  %d  %s\n" [ftype; i; default 0 (st_size <$> r.2); dir_e]; mret (inl tt).

Definition ls_entry (dir : Z) : prog (unit + unit) :=
  dir_e ← readdir dir;
  if dir_e =? 0 then mret (inr tt)
  else _ ← say "%s " [dir_e]; mret (inl tt).

(** The block for a directory: [sub_pathname] is the path with a slash. *)
Definition ls_directory (pathname : Z) (file_stat : stat) (long_info : bool) : prog unit :=
  let sub_pathname := local_sub_pathname M in
  dir ← opendir (mm_fuel M) pathname;
  _ ← local (memset_loop (Z.to_nat MAX_PATH_LEN) sub_pathname 0);
  pathname_len ← local (strlen (mm_fuel M) pathname);
  let last_char_idx := u32 (pathname_len - 1) in
  _ ← local (memcpy sub_pathname pathname pathname_len);
  c ← local (ld (sub_pathname + last_char_idx));
  pathname_len ← (if negb (c =? 47) then
                    _ ← local (sto (sub_pathname + pathname_len) 47); mret (u32 (pathname_len + 1))
                  else mret pathname_len);
  _ ← call (C_rewinddir dir);
  if long_info then
    _ ← say "total: %d\n" [st_size file_stat];
    b ← while (fun _ => ls_long_entry dir pathname_len) tt;
    if b : bool then _ ← call (C_closedir dir); mret tt else mret tt
  else
    _ ← while (fun _ => ls_entry dir) tt;
    _ ← say "\n" [];
    _ ← call (C_closedir dir); mret tt.

Definition buildin_ls (argc : Z) (argv : list Z) : prog unit :=
  r ← ls_args (Z.to_nat (argc - 1)) argv 1 0 false 0;
  match r with
  | None => mret tt
  | Some (pathname, long_info) =>
    p ← (if pathname =? 0 then
           r ← getcwd (final_path M) MAX_PATH_LEN;
           if negb (r =? 0) then mret (final_path M)
           else _ ← say "ls: getcwd for default path failed\n" []; mret 0
         else
           _ ← make_clear_abs_path pathname (final_path M); mret (final_path M));
    if p =? 0 then mret tt
    else
      r ← stat_of (mm_fuel M) p;
      if r.1 =? -1 then
        _ ← say "ls: cannot access %s: No such file or directory\n" [p]; mret tt
      else
        let file_stat := default (Stat 0 0 FT_UNKNOWN) r.2 in
        if bool_decide (st_filetype file_stat = FT_DIRECTORY) then ls_directory p file_stat long_info
        else if long_info then
          _ ← say "-  %d  %d  %s\n" [st_ino file_stat; st_size file_stat; p]; mret tt
        else _ ← say "%s\n" [p]; mret tt
  end.

Definition buildin_ps (argc : Z) : prog unit :=
  if negb (argc =? 1) then _ ← say "ps: no argument support!\n" []; mret tt
  else call C_ps.

Definition buildin_clear (argc : Z) : prog unit :=
  if negb (argc =? 1) then _ ← say "clear: no argument support!\n" []; mret tt
  else call C_clear.

Definition buildin_mkdir (argc : Z) (argv : list Z) : prog Z :=
  if negb (argc =? 2) then
    _ ← say "mkdir: only support 1 argument!\n" []; mret (-1)
  else
    a ← arg_of argv 1;
    _ ← make_clear_abs_path a (final_path M);
    d ← is_not "/" (final_path M);
    if d : bool then
      r ← mkdir (mm_fuel M) (final_path M);
      if r =? 0 then mret 0
      else _ ← say "mkdir: create directory %s failed.\n" [a]; mret (-1)
    else mret (-1).

Definition buildin_rmdir (argc : Z) (argv : list Z) : prog Z :=
  if negb (argc =? 2) then
    _ ← say "rmdir: only support 1 argument!\n" []; mret (-1)
  else
    a ← arg_of argv 1;
    _ ← make_clear_abs_path a (final_path M);
    d ← is_not "/" (final_path M);
    if d : bool then
      r ← rmdir (mm_fuel M) (final_path M);
      if r =? 0 then mret 0
      else _ ← say "rmdir: remove %s failed.\n" [a]; mret (-1)
    else mret (-1).

Definition buildin_rm (argc : Z) (argv : list Z) : prog Z :=
  if negb (argc =? 2) then
    _ ← say "rm: only support 1 argument!\n" []; mret (-1)
  else
    a ← arg_of argv 1;
    _ ← make_clear_abs_path a (final_path M);
    d ← is_not "/" (final_path M);
    if d : bool then
      r ← unlink (mm_fuel M) (final_path M);
      if r =? 0 then mret 0
      else _ ← say "rm: delete %s failed.\n" [a]; mret (-1)
    else mret (-1).

End Builtin.
