(* ===== verification/CommandLine.v ===== *)
(** * CommandLine: the loop of shell/shell.c

    [my_shell] reads a line, cuts it into words with [cmd_parse] of Shell.v and
    runs a command of Builtin.v or another program in a child process.  It never
    returns: it is an infinite interaction tree. *)
From S2P Require Import Prelude CString Stdio Paths Shell Disk Fsys Inode Dir File Fs Program Builtin.

Section CommandLine.
Context (M : memory_map).

Definition print_prompt : prog unit :=
  _ ← say M "[rabbit@localhost %s]$ " [cwd_cache M]; mret tt.

(** ctrl+u with its output: the loop backwards to the beginning. *)
Definition kill_line (buf : Z) : Z -> prog Z := while (fun pos =>
  if buf =? pos then mret (inr pos)
  else
    _ ← call (C_putchar 8);
    _ ← local (sto pos 0);
    mret (inl (pos - 1))).

(** One turn of the loop of [readline] from the position [pos]. *)
Definition readline_turn (buf count pos : Z) : prog (Z + bool) :=
  r ← read 0 pos 1;
  if negb (r =? -1) && (pos - buf <? count) then
    c ← local (ld pos);
    if (c =? 10) || (c =? 13) then
      _ ← local (sto pos 0);
      _ ← call (C_putchar 10);
      mret (inr true)
    else if c =? 8 then
      c0 ← local (ld (cmd_line M));
      if negb (c0 =? 8) then _ ← call (C_putchar 8); mret (inl (pos - 1))
      else mret (inl pos)
    else if c =? 11 then
      _ ← local (sto pos 0);
      _ ← call C_clear;
      _ ← print_prompt;
      _ ← say M "%s" [buf];
      mret (inl pos)
    else if c =? 20 then
      pos ← kill_line buf pos; mret (inl pos)
    else
      _ ← call (C_putchar c);
      mret (inl (pos + 1))
  else mret (inr false).

Definition readline (buf count : Z) : prog unit :=
  _ ← local (sassert (negb (buf =? 0) && (0 <? count)));
  ended ← while (readline_turn buf count) buf;
  if ended : bool then mret tt
  else _ ← say M "readline: can`t find enter_key in the cmd_line, max num of char is 128\n" []; mret tt.

(** The child: it becomes the program named, or goes on as a shell when [execv]
    fails. *)
Definition run_program (argv : list Z) : prog (list Z) :=
  a ← arg_of argv 0;
  _ ← make_clear_abs_path M a (final_path M);
  argv ← local (sres (wr argv 0 (final_path M)));
  r ← stat_of (mm_fuel M) (final_path M);
  if r.1 =? -1 then
    _ ← say M "my_shell: cannot access %s: No such file or directory\n" [final_path M];
    exit (-1)
  else
    _ ← execv (mm_fuel M) (final_path M) argv; mret argv.

(** The parent: it waits for the child. *)
Definition await_child : prog unit :=
  r ← call C_wait;
  if r.1 =? -1 then stuck EPanic
  else _ ← say M "child_pid %d, it's status: %d\n" [r.1; default 0 r.2]; mret tt.

Definition external_command (argv : list Z) : prog (list Z) :=
  pid ← call C_fork;
  if negb (pid =? 0) then _ ← await_child; mret argv
  else run_program argv.

(** "cd" updates the copy of the working directory. *)
Definition change_directory (argc : Z) (argv : list Z) : prog unit :=
  r ← buildin_cd M argc argv;
  if negb (r =? 0) then
    _ ← local (memset (cwd_cache M) 0 MAX_PATH_LEN);
    _ ← local (strcpy (mm_fuel M) (cwd_cache M) (final_path M));
    mret tt
  else mret tt.

Inductive builtin : Type := Ls | Cd | Pwd | Ps | Clear | Mkdir | Rmdir | Rm.

Definition builtin_name (b : builtin) : string :=
  match b with
  | Ls => "ls" | Cd => "cd" | Pwd => "pwd" | Ps => "ps"
  | Clear => "clear" | Mkdir => "mkdir" | Rmdir => "rmdir" | Rm => "rm"
  end.

(** The order of the tests. *)
Definition builtins : list builtin := [Ls; Cd; Pwd; Ps; Clear; Mkdir; Rmdir; Rm].

Definition run_builtin (b : builtin) (argc : Z) (argv : list Z) : prog unit :=
  match b with
  | Ls => buildin_ls M argc argv
  | Cd => change_directory argc argv
  | Pwd => buildin_pwd M argc
  | Ps => buildin_ps M argc
  | Clear => buildin_clear M argc
  | Mkdir => _ ← buildin_mkdir M argc argv; mret tt
  | Rmdir => _ ← buildin_rmdir M argc argv; mret tt
  | Rm => _ ← buildin_rm M argc argv; mret tt
  end.

(** The chain of comparisons of [argv[0]] with the names. *)
Fixpoint find_builtin (bs : list builtin) (a : Z) : prog (option builtin) :=
  match bs with
  | [] => mret None
  | b :: bs' =>
    d ← is_not M (builtin_name b) a;
    if d : bool then find_builtin bs' a else mret (Some b)
  end.

Definition run_command (argc : Z) (argv : list Z) : prog (list Z) :=
  a ← arg_of argv 0;
  b ← find_builtin builtins a;
  match b with
  | Some b => _ ← run_builtin b argc argv; mret argv
  | None => external_command argv
  end.

(** A line that was read; [argv] is the global array, cleared at the end. *)
Definition handle_line (argv : list Z) : prog (list Z + Empty_set) :=
  c ← local (ld (cmd_line M));
  if c =? 0 then mret (inl argv)
  else
    r ← local (cmd_parse (mm_fuel M) (mm_fuel M) (cmd_line M) 32);
    if r.1 =? -1 then
      _ ← say M "num of arguments exceed %d\n" [MAX_ARG_NR]; mret (inl r.2)
    else
      _ ← run_command r.1 r.2;
      mret (inl (replicate (Z.to_nat MAX_ARG_NR) 0)).

(** One turn of the loop. *)
Definition shell_turn (argv : list Z) : prog (list Z + Empty_set) :=
  _ ← print_prompt;
  _ ← local (memset (final_path M) 0 MAX_PATH_LEN);
  _ ← local (memset (cmd_line M) 0 MAX_PATH_LEN);
  _ ← readline (cmd_line M) MAX_PATH_LEN;
  handle_line argv.

Definition my_shell : prog Empty_set :=
  _ ← local (sto (cwd_cache M) 47);
  while shell_turn (replicate (Z.to_nat MAX_ARG_NR) 0).

(** The first process, kernel/main.c: the parent stays in [while(1)], the child
    is the shell, which does not come back to the [panic] behind it. *)
Definition init : prog Empty_set :=
  ret_pid ← call C_fork;
  if negb (ret_pid =? 0) then while (fun _ => mret (inl tt)) tt else my_shell.
End CommandLine.
