(* ===== verification/Command.v ===== *)
(** * Command: the programs of command/

    cat.c, prog_arg.c and prog_pipe.c with the start code of start.S.  The local
    arrays and the argument strings are in the byte memory; [argv] is the array
    of the addresses of the strings. *)
From ITree Require Import ITree.
From S2P Require Import Prelude CString Stdio Paths Disk Fsys Inode Dir File Fs Program Builtin.

(** [malloc] gives cleared memory. *)
Definition malloc (size : Z) : prog Z := fun m =>
  Vis (C_malloc size) (fun p =>
    ITreeDefinition.Ret (p, if p =? 0 then m else put_bytes p (replicate (Z.to_nat size) 0) m)).

(** [while(1);] *)
Definition spin {A} : prog A := fun _ => ITree.spin.

Section Command.
Context (M : memory_map).

(** The loop of cat: one block is read and written. *)
Definition cat_turn (fd buf buf_size : Z) : prog (unit + unit) :=
  read_bytes ← read fd buf buf_size;
  if read_bytes =? -1 then mret (inr tt)
  else _ ← write 1 buf read_bytes; mret (inl tt).

(** The path that cat opens, in the array of 512 bytes. *)
Definition cat_path (a abs_path : Z) : prog unit :=
  c ← local (ld a);
  if negb (c =? 47) then
    _ ← getcwd abs_path 512;
    _ ← local (strcat (mm_fuel M) abs_path (lit M "/"));
    _ ← local (strcat (mm_fuel M) abs_path a); mret tt
  else _ ← local (strcpy (mm_fuel M) abs_path a); mret tt.

(** [main] of cat.c; [local_abs_path] is its array, also the 512 bytes for the
    keyboard. *)
Definition cat (argc : Z) (argv : list Z) : prog Z :=
  let abs_path := local_abs_path M in
  _ ← (if 2 <? argc then _ ← say M "cat: argument error\n" []; exit (-2) else mret tt);
  _ ← (if argc =? 1 then
         _ ← local (memset_loop 512 abs_path 0);
         _ ← read 0 abs_path 512;
         _ ← say M "%s" [abs_path];
         exit 0
       else mret tt);
  let buf_size := 1024 in
  _ ← local (memset_loop 512 abs_path 0);
  buf ← malloc buf_size;
  if buf =? 0 then _ ← say M "cat: malloc memory failed\n" []; mret (-1)
  else
    a ← arg_of argv 1;
    _ ← cat_path a abs_path;
    fd ← open (mm_fuel M) abs_path O_RDONLY;
    if fd =? -1 then _ ← say M "cat: open: open %s failed\n" [a]; mret (-1)
    else
      _ ← while (fun _ => cat_turn fd buf buf_size) tt;
      _ ← call (C_free buf);
      _ ← call (C_close fd);
      mret 66.

(** The loop of prog_arg over the arguments, with [n] of them left. *)
Fixpoint print_args (n : nat) (argv : list Z) (arg_idx : Z) : prog unit :=
  match n with
  | O => mret tt
  | S n' =>
    a ← arg_of argv arg_idx;
    _ ← say M "argv[%d] is %s\n" [arg_idx; a];
    print_args n' argv (arg_idx + 1)
  end.

(** [main] of prog_arg.c.  The loop that counts down 900000 has no effect. *)
Definition prog_arg (argc : Z) (argv : list Z) : prog Z :=
  let abs_path := local_abs_path M in
  _ ← print_args (Z.to_nat argc) argv 0;
  pid ← call C_fork;
  _ ← (if negb (pid =? 0) then
         p ← call C_getpid;
         _ ← say M "\n      I`m father prog, my pid:%d, I will show process list\n" [p];
         call C_ps
       else
         _ ← local (memset_loop 512 abs_path 0);
         p ← call C_getpid;
         a ← arg_of argv 1;
         _ ← say M "\n      I`m child prog, my pid:%d, I will exec %s right now\n" [p; a];
         c ← local (ld a);
         if negb (c =? 47) then
           _ ← getcwd abs_path 512;
           _ ← local (strcat (mm_fuel M) abs_path (lit M "/"));
           _ ← local (strcat (mm_fuel M) abs_path a);
           _ ← execv (mm_fuel M) abs_path argv; mret tt
         else _ ← execv (mm_fuel M) a argv; mret tt);
  spin.

(** The conversion %s between quotation marks. *)
Definition quoted : list Z := [34; 37; 115; 34].

(** [main] of prog_pipe.c; the child reads into [local_abs_path]. *)
Definition prog_pipe : prog Z :=
  let buf := local_abs_path M in
  r ← call C_pipe;
  let fd := default (-1, 0) r.2 in
  pid ← call C_fork;
  if negb (pid =? 0) then
    _ ← call (C_close fd.1);
    _ ← write fd.2 (lit M "Hi, my son, I love you!") 24;
    p ← call C_getpid;
    _ ← say M "\nI`m father, my pid is %d\n" [p];
    mret 8
  else
    _ ← call (C_close fd.2);
    _ ← local (memset_loop 32 buf 0);
    _ ← read fd.1 buf 24;
    p ← call C_getpid;
    _ ← say M "\nI`m child, my pid is %d\n" [p];
    _ ← printf (mm_fuel M) (local_buf M) (literal M (chars "I`m child, my father said to me: " ++ quoted ++ [10])) [buf];
    mret 9.

(** [_start]: [main] is called, and nothing follows the call in the file. *)
Definition start (main : prog Z) : prog Empty_set :=
  _ ← main; stuck EFault.
End Command.
