(* ===== verification/ProgramSpec.v ===== *)
(** * ProgramSpec: what programs do to their memory

    The bytes that are mapped stay mapped; a program changes only its buffers;
    [printf] writes the text its format stands for to the screen; the path
    functions with the system call in their middle do what Paths.v says. *)
From S2P Require Import Prelude CString Stdio Paths Disk Fsys Inode Dir File Fs Program Builtin.

(** ** Mapped bytes stay mapped *)

Definition kept (m m' : cmem) : Prop := forall a, is_Some (m !! a) -> is_Some (m' !! a).

Definition keeps {A} (c : st cmem A) : Prop := forall m a m', c m = Ok (a, m') -> kept m m'.

Lemma kept_refl m : kept m m.
Proof. by intros a. Qed.
#[local] Hint Resolve kept_refl : core.

Lemma kept_trans m1 m2 m3 : kept m1 m2 -> kept m2 m3 -> kept m1 m3.
Proof. intros H1 H2 a Ha. by apply H2, H1. Qed.

Lemma keeps_ret {A} (a : A) : keeps (mret a).
Proof. by intros m b m' [= _ <-]. Qed.

Lemma keeps_bind {A B} (c : st cmem A) (f : A -> st cmem B) : keeps c -> (forall a, keeps (f a)) -> keeps (c ≫= f).
Proof.
  intros Hc Hf m b m' Hr. destruct (c m) as [[a m1]|e] eqn:Hm.
  - rewrite (sbind_Ok _ _ _ _ _ Hm) in Hr. eapply kept_trans; [by eapply Hc|by eapply Hf].
  - by rewrite (sbind_Bad _ _ _ _ Hm) in Hr.
Qed.

Lemma keeps_ld p : keeps (ld p).
Proof. intros m a m'. unfold ld. by destruct (m !! p); [intros [= _ <-]|]. Qed.

Lemma keeps_sto p v : keeps (sto p v).
Proof.
  intros m a m'. unfold sto. destruct (m !! p); [|done]. intros [= _ <-] b Hb.
  rewrite lookup_insert. case_decide; [by eexists|done].
Qed.

Lemma keeps_sres {A} (r : res A) : keeps (sres r).
Proof. intros m a m'. unfold sres. destruct r; [intros [= _ <-]; done|done]. Qed.

Create HintDb keeps.
#[export] Hint Resolve keeps_ret keeps_bind keeps_ld keeps_sto keeps_sres : keeps.

(** Statements in sequence, with tests between them. *)
Ltac keeps := repeat first
  [ progress intros
  | match goal with |- keeps (if ?b then _ else _) => destruct b end
  | match goal with |- keeps (let '(_, _) := ?x in _) => destruct x end
  | apply keeps_bind
  | by eauto with keeps ].

Lemma keeps_memset_loop n p v : keeps (memset_loop n p v).
Proof. revert p. induction n as [|n IH]; intros p; cbn [memset_loop]; keeps. Qed.

Lemma keeps_copy_loop n p q : keeps (copy_loop n p q).
Proof. revert p q. induction n as [|n IH]; intros p q; cbn [copy_loop]; keeps. Qed.

Lemma keeps_skip_loop n p : keeps (skip_loop n p).
Proof. revert p. induction n as [|n IH]; intros p; cbn [skip_loop]; keeps. Qed.

Lemma keeps_strcmp_loop n p q : keeps (strcmp_loop n p q).
Proof. revert p q. induction n as [|n IH]; intros p q; cbn [strcmp_loop]; keeps. Qed.

Lemma keeps_strrchr_loop n p c l : keeps (strrchr_loop n p c l).
Proof. revert p l. induction n as [|n IH]; intros p l; cbn [strrchr_loop]; keeps. Qed.
#[export] Hint Resolve keeps_memset_loop keeps_copy_loop keeps_skip_loop keeps_strcmp_loop keeps_strrchr_loop : keeps.

Lemma keeps_strcat n p q : keeps (strcat n p q).
Proof. unfold strcat, sassert. keeps. Qed.

Lemma keeps_strcmp n p q : keeps (strcmp n p q).
Proof. unfold strcmp, sassert. keeps. Qed.

Lemma keeps_strrchr n p c : keeps (strrchr n p c).
Proof. unfold strrchr, not_null, sassert. keeps. Qed.

Lemma keeps_memset p v n : keeps (memset p v n).
Proof. unfold memset, not_null, sassert. keeps. Qed.

Lemma keeps_strlen n p : keeps (strlen n p).
Proof. unfold strlen, not_null, sassert. keeps. Qed.

Lemma keeps_strcpy n p q : keeps (strcpy n p q).
Proof. unfold strcpy, sassert. keeps. Qed.
#[export] Hint Resolve keeps_strcat keeps_strcmp keeps_strrchr keeps_memset keeps_strlen keeps_strcpy : keeps.

Lemma keeps_fill p bs : keeps (fill p bs).
Proof. revert p. induction bs as [|b bs IH]; intros p; cbn [fill]; keeps. Qed.

Lemma keeps_skip_slashes n p : keeps (skip_slashes n p).
Proof. revert p. induction n as [|n IH]; intros p; cbn [skip_slashes]; keeps. Qed.

Lemma keeps_copy_name n p q : keeps (copy_name n p q).
Proof. revert p q. induction n as [|n IH]; intros p q; cbn [copy_name]; keeps. Qed.
#[export] Hint Resolve keeps_fill keeps_skip_slashes keeps_copy_name : keeps.

Lemma keeps_path_parse n p q : keeps (path_parse n p q).
Proof. unfold path_parse. keeps. Qed.
#[export] Hint Resolve keeps_path_parse : keeps.

Lemma keeps_wash_name n l p q : keeps (wash_name n l p q).
Proof. unfold wash_name. keeps. Qed.
#[export] Hint Resolve keeps_wash_name : keeps.

Lemma keeps_wash_loop n f l p q r : keeps (wash_loop n f l p q r).
Proof. revert p. induction n as [|n IH]; intros p; cbn [wash_loop]; keeps. Qed.
#[export] Hint Resolve keeps_wash_loop : keeps.

Lemma keeps_wash_path n f l p q r : keeps (wash_path n f l p q r).
Proof. unfold wash_path, sassert. keeps. Qed.
#[export] Hint Resolve keeps_wash_path : keeps.

Lemma keeps_make_clear n f l g p q r s : (forall a b, keeps (g a b)) -> keeps (Paths.make_clear_abs_path n f l g p q r s).
Proof. intros Hg. unfold Paths.make_clear_abs_path. keeps. Qed.

Lemma keeps_itoa n v p b : keeps (itoa n v p b).
Proof. revert v p. induction n as [|n IH]; intros v p; cbn [itoa]; keeps. Qed.

Lemma keeps_va_arg ap : keeps (va_arg ap).
Proof. unfold va_arg. destruct ap; keeps. Qed.
#[export] Hint Resolve keeps_itoa keeps_va_arg : keeps.

Lemma keeps_vsprintf_loop n f p q c ap : keeps (vsprintf_loop n f p q c ap).
Proof. revert p q c ap. induction n as [|n IH]; intros p q c ap; cbn [vsprintf_loop]; keeps. Qed.
#[export] Hint Resolve keeps_vsprintf_loop : keeps.

Lemma keeps_vsprintf n f p q ap : keeps (vsprintf n f p q ap).
Proof. unfold vsprintf. keeps. Qed.

(** ** Buffers *)

(** The string or buffer of [n] bytes at [p] touches none of the areas. *)
Definition clear_of_all (p n : Z) (l : list (Z * Z)) : Prop := Forall (fun x => apart p n x.1 x.2) l.

Lemma clear_one p n a k : clear_of_all p n [(a, k)] <-> apart p n a k.
Proof. unfold clear_of_all. by rewrite Forall_singleton. Qed.

(** Only bytes of the areas have changed, and nothing was unmapped. *)
Record only (m m' : cmem) (l : list (Z * Z)) : Prop := {
  on_same : forall a, Forall (fun x => ~ (x.1 <= a < x.1 + x.2)) l -> m' !! a = m !! a;
  on_kept : kept m m'
}.

Lemma only_refl m l : only m m l.
Proof. by split. Qed.

Lemma only_trans m1 m2 m3 l : only m1 m2 l -> only m2 m3 l -> only m1 m3 l.
Proof.
  intros [H1 K1] [H2 K2]. split; [|by eapply kept_trans]. intros a Ha. by rewrite H2, H1.
Qed.

Lemma only_incl m m' l l' : only m m' l -> l ⊆ l' -> only m m' l'.
Proof.
  intros [Ho Hk] Hl. split; [|done]. intros a Ha. apply Ho. rewrite Forall_forall in *. intros x Hx. by apply Ha, Hl.
Qed.

Lemma only_outside m m' p n : same_outside m m' p n -> kept m m' -> only m m' [(p, n)].
Proof. intros Ho Hk. split; [|done]. intros a Ha. apply Forall_cons_1 in Ha as [Ha _]. by apply Ho. Qed.

Lemma only_room m m' l p n : only m m' l -> room m p n -> room m' p n.
Proof. intros [_ Hk] Hr a Ha. by apply Hk, Hr. Qed.

Lemma only_bytes m m' l p s :
  only m m' l -> clear_of_all p (Z.of_nat (length s)) l -> bytes_at m p s -> bytes_at m' p s.
Proof.
  intros [Ho _] Hc. assert (forall a, p <= a < p + Z.of_nat (length s) -> m' !! a = m !! a) as H.
  { intros a Ha. apply Ho. eapply Forall_impl; [exact Hc|]. intros x. unfold apart. lia. }
  clear Ho Hc. revert p H. induction s as [|c s IH]; intros p H; [done|]. cbn [bytes_at length] in *.
  intros [Hm Hs]. split; [rewrite H by lia; done|]. apply IH; [|done]. intros a Ha. apply H. lia.
Qed.

Lemma only_string m m' l p s :
  only m m' l -> clear_of_all p (Z.of_nat (length s) + 1) l -> string_at m p s -> string_at m' p s.
Proof.
  intros Ho Hc [Hch Hb]. split; [done|]. eapply only_bytes; [exact Ho| |done]. rewrite length_app. cbn [length].
  by replace (Z.of_nat (length s + 1)) with (Z.of_nat (length s) + 1) by lia.
Qed.

Lemma memset_loop_same n p v m m' : memset_loop n p v m = Ok (tt, m') -> same_outside m m' p (Z.of_nat n).
Proof.
  revert p m. induction n as [|n IH]; intros p m; cbn [memset_loop]; [by intros [= <-]|]. intros H a Ha.
  unfold mbind, st_bind, sto in H. destruct (m !! p); [|done]. rewrite (IH _ _ H) by lia. by rewrite lookup_insert_ne by lia.
Qed.

(** ** The data of a program *)

Section Memory.
Context (M : memory_map) (texts : list string).

Definition areas : list (Z * Z) :=
  [(cmd_line M, MAX_PATH_LEN); (final_path M, MAX_PATH_LEN); (cwd_cache M, MAX_PATH_LEN); (local_abs_path M, MAX_PATH_LEN);
   (local_name M, 16); (local_sub_pathname M, MAX_PATH_LEN); (local_buf M, 1024)].

(** The buffers are mapped and do not overlap, and the literals of the texts are
    in memory beside them. *)
Record data_layout : Prop := {
  dl_fuel : (1024 <= mm_fuel M)%nat;
  dl_areas : Forall (fun x => 0 < x.1) areas;
  dl_apart : forall i j x y, areas !! i = Some x -> areas !! j = Some y -> i <> j -> apart x.1 x.2 y.1 y.2;
  dl_texts : Forall (fun t => 0 < lit M t /\ clear_of_all (lit M t) (Z.of_nat (length (chars t)) + 1) areas) texts
}.

Record data_at (m : cmem) : Prop := {
  da_rooms : Forall (fun x => room m x.1 x.2) areas;
  da_texts : Forall (fun t => string_at m (lit M t) (chars t)) texts
}.

Hypothesis HL : data_layout.

Lemma data_only m m' l : data_at m -> only m m' l -> l ⊆ areas -> data_at m'.
Proof.
  intros [Hr Ht] Ho Hl. apply (only_incl _ _ _ areas) in Ho; [|done]. split.
  - eapply Forall_impl; [exact Hr|]. intros x Hx. by eapply only_room.
  - rewrite Forall_forall in *. intros t Hin. eapply only_string; [exact Ho| |by apply Ht].
    pose proof (dl_texts HL) as Htx. rewrite Forall_forall in Htx. by apply Htx.
Qed.

Lemma area_room m x : data_at m -> x ∈ areas -> room m x.1 x.2.
Proof. intros [Hr _] Hx. rewrite Forall_forall in Hr. by apply Hr. Qed.

Lemma text_at m t : data_at m -> t ∈ texts ->
  string_at m (lit M t) (chars t) /\ 0 < lit M t /\ clear_of_all (lit M t) (Z.of_nat (length (chars t)) + 1) areas.
Proof.
  intros [_ Ht] Hin. pose proof (dl_texts HL) as Htx. rewrite Forall_forall in Ht, Htx. split; [by apply Ht|by apply Htx].
Qed.

(** ** printf *)

Section Printf.
Context {S : Type} (h : forall X, callE X -> st S (option X)).

Lemma bytes_from_run m p s : bytes_at m p s -> bytes_from (length s) p m = Ok (s, m).
Proof.
  revert p. induction s as [|c s IH]; intros p; cbn [bytes_at length bytes_from]; [done|]. intros [Hc Hs].
  run (run_ld m p c Hc). by run (IH (p + 1) Hs).
Qed.

(** An argument of [printf] in a memory: a number, or a string outside the
    buffer. *)
Definition print_arg (m : cmem) (w : Z) (a : arg) : Prop :=
  match a with
  | AInt v => w = v
  | AStr s => w <> 0 /\ string_at m w s /\ clear_of_all w (Z.of_nat (length s) + 1) [(local_buf M, 1024)]
      /\ Z.of_nat (length s) < 1024
  end.

Lemma say_run t ws args out m s r s' :
  data_at m -> t ∈ texts -> Forall2 (print_arg m) ws args -> expand (chars t) args = Some out -> Forall chr out ->
  Z.of_nat (length out) < 1024 -> (length (chars t) < 1024)%nat -> h _ (C_write 1 out) s = Ok (Some r, s') ->
  exists m', does h (say M t ws) m s r m' s' /\ only m m' [(local_buf M, 1024)].
Proof.
  intros Hd Ht Ha He Hch Hl Hlt Hh. pose proof (dl_fuel HL) as Hf. set (b := local_buf M) in *.
  assert ((b, 1024) ∈ areas) as Hin by (unfold areas; set_solver).
  pose proof (area_room m _ Hd Hin) as Hr. cbn [fst snd] in Hr.
  assert (0 < b) as Hb by (pose proof (dl_areas HL) as Hp; rewrite Forall_forall in Hp; by apply (Hp _ Hin)).
  destruct (memset_loop_spec 1024 m b 0) as (m1 & Hrun1 & Hb1 & Ho1); [done|].
  pose proof (only_outside _ _ _ _ Ho1 (keeps_memset_loop _ _ _ _ _ _ Hrun1)) as Hon1. change (Z.of_nat 1024) with 1024 in Hon1.
  destruct (text_at m t Hd Ht) as (Hts & Htz & Htc).
  assert (clear_of_all (lit M t) (Z.of_nat (length (chars t)) + 1) [(b, 1024)]) as Htb.
  { apply Forall_singleton. unfold clear_of_all in Htc. rewrite Forall_forall in Htc. by apply Htc. }
  assert (ready (mm_fuel M) b (b + 1024) m1 b (lit M t) (chars t) ws args out) as Hready.
  { split; [lia|lia|by eapply only_string| | | |].
    - apply clear_one in Htb. unfold apart, clear_of in *. lia.
    - eapply Forall2_impl; [exact Ha|]. intros w [v|u]; cbn [print_arg arg_at]; [done|].
      intros (Hw & Hs & Hc & Hu). split; [done|]. split; [by eapply only_string|]. apply clear_one in Hc.
      unfold apart, clear_of in *. lia.
    - replace (b + 1024 - b) with 1024 by lia. by eapply only_room.
    - assert (bytes_at m1 b (replicate (length out) 0 ++ 0 :: replicate (1023 - length out) 0)) as Hz.
      { change (0 :: replicate (1023 - length out) 0) with (replicate (1 + (1023 - length out)) 0).
        rewrite <- replicate_add. by replace (length out + (1 + (1023 - length out)))%nat with 1024%nat by lia. }
      apply bytes_at_app in Hz as [_ Hz]. rewrite length_replicate in Hz. by destruct Hz. }
  destruct (vsprintf_loop_spec (mm_fuel M) (mm_fuel M) b (b + 1024) m1 b (lit M t) (chars t) ws args out)
    as (m2 & Hrun2 & Hb2 & Ho2 & Hz2 & Hk2); [lia|done|done|].
  assert (string_at m2 b out) as Hs2 by (split; [done|]; apply bytes_at_app; split; [done|]; by cbn [bytes_at]).
  assert (strlen (mm_fuel M) b m2 = Ok (Z.of_nat (length out), m2)) as Hlen by (apply strlen_spec; try done; lia).
  exists m2. split.
  - unfold say, printf. fold b. eapply does_bind; [apply does_local, Hrun1|]. eapply does_bind.
    { apply does_local. unfold vsprintf. run (ld_first m1 _ _ (rd_fmt _ _ _ _ _ _ _ _ _ _ Hready)). run Hrun2. exact Hlen. }
    eapply does_bind; [apply does_local, Hlen|]. unfold write. eapply does_bind.
    { apply does_local. rewrite Nat2Z.id. apply bytes_from_run, Hb2. }
    by apply does_call.
  - eapply only_trans; [exact Hon1|]. apply only_outside; [|exact Hk2]. intros a Hna. apply Ho2. lia.
Qed.

(** ** Absolute paths with the system call in the middle *)

Lemma sbind_inv {A B} (c : st cmem A) (f : A -> st cmem B) m r :
  (c ≫= f) m = Ok r -> exists a m1, c m = Ok (a, m1) /\ f a m1 = Ok r.
Proof.
  intros H. destruct (c m) as [[a m1]|e] eqn:Hc; [|by rewrite (sbind_Bad _ _ _ _ Hc) in H].
  rewrite (sbind_Ok _ _ _ _ _ Hc) in H. by exists a, m1.
Qed.

(** The system call as a function on memory, when its answer is known. *)
Definition answered (x : bool * list Z) (buf size : Z) : st cmem Z :=
  _ ← fill buf x.2; mret (if x.1 : bool then buf else 0).

(** The kernel is asked for the working directory when the path is relative. *)
Definition cwd_asked (relative : bool) (x : bool * list Z) (s s' : S) : Prop :=
  if relative then h _ (C_getcwd MAX_PATH_LEN) s = Ok (Some x, s') else s' = s.

Lemma fetch_cwd_does x m s s' c r m' :
  Paths.fetch_base (path_literals M) (local_abs_path M) (mm_fuel M) (answered x) c m = Ok (r, m') ->
  cwd_asked (negb (c =? 47)) x s s' ->
  does h (if negb (c =? 47) then fetch_cwd M else mret tt) m s tt m' s'.
Proof.
  unfold Paths.fetch_base, fetch_cwd. destruct (c =? 47); cbn [negb cwd_asked].
  { intros [= _ <-] ->. by apply does_ret. }
  intros H Hh. apply sbind_inv in H as ([] & m1 & H1 & H). eapply does_bind; [by apply does_local|].
  apply sbind_inv in H as (w & m2 & H2 & H). apply sbind_inv in H2 as ([] & m3 & H2 & H3).
  injection H3 as <- <-. eapply does_bind.
  { unfold getcwd. eapply does_bind; [by apply does_call|]. eapply does_bind; [by apply does_local|]. by apply does_ret. }
  destruct (negb _); [|injection H as _ <-; by apply does_ret].
  apply sbind_inv in H as (a & m4 & H4 & H). eapply does_bind; [by apply does_local|].
  apply sbind_inv in H as (b & m5 & H5 & H). apply (does_bind _ _ _ _ _ b m5 s').
  - destruct (a =? 47); [|injection H5 as <- <-; by apply does_ret].
    apply sbind_inv in H5 as (d & m6 & H6 & H5). injection H5 as <- <-.
    eapply does_bind; [by apply does_local|by apply does_ret].
  - destruct (negb b); [|injection H as _ <-; by apply does_ret].
    eapply does_bind; [by apply does_local|by apply does_ret].
Qed.

Lemma make_clear_does x path final m s s' c m' :
  Paths.make_clear_abs_path (mm_fuel M) (mm_fuel M) (path_literals M) (answered x) path final (local_abs_path M) (local_name M) m
    = Ok (tt, m') ->
  m !! path = Some c -> apart path 1 (local_abs_path M) MAX_PATH_LEN -> cwd_asked (negb (c =? 47)) x s s' ->
  does h (make_clear_abs_path M path final) m s tt m' s'.
Proof.
  unfold Paths.make_clear_abs_path, make_clear_abs_path. intros H Hc Ha Hh.
  apply sbind_inv in H as ([] & m1 & H1 & H). eapply does_bind; [by apply does_local|].
  apply sbind_inv in H as (d & m2 & H2 & H). eapply does_bind; [by apply does_local|].
  assert (d = c) as ->.
  { unfold ld in H2. destruct (m1 !! path) as [e|] eqn:He; [|done]. injection H2 as <- <-.
    pose proof (memset_loop_same (Z.to_nat MAX_PATH_LEN) (local_abs_path M) 0 m m1 H1) as Hs.
    rewrite (Hs path) in He; [by simplify_eq|]. unfold apart in Ha. change (Z.of_nat (Z.to_nat MAX_PATH_LEN)) with MAX_PATH_LEN. lia. }
  apply sbind_inv in H as (r & m3 & H3 & H). eapply does_bind; [by eapply fetch_cwd_does|].
  apply sbind_inv in H as (q & m4 & H4 & H). eapply does_bind; [by apply does_local|]. by apply does_local.
Qed.
End Printf.
End Memory.
