(* ===== verification/BuiltinSpec.v ===== *)
(** * BuiltinSpec: the commands of the shell refine calls on absolute paths

    A path argument reaches the kernel as the absolute path without "." and
    ".." that Paths.v defines; "cd" keeps the shell's copy of the working
    directory equal to the path the kernel accepted. *)
From S2P Require Import Prelude CString Stdio Paths Disk Fsys Inode Dir File Fs Program Builtin CommandLine ProgramSpec.

(** ** Paths *)

(** The path that an argument [s] stands for in the working directory [cwd]. *)
Definition meant (cwd s : list Z) : list (list Z) :=
  resolve ((if absolute s then [] else components cwd) ++ components s).

(** What [make_clear_abs_path] can take: components shorter than the array for
    one, and a path that fits the buffers. *)
Record path_fits (cwd s : list Z) : Prop := {
  pf_cwd : exists c, cwd = 47 :: c;
  pf_chr : Forall chr cwd;
  pf_short : short (components (base_path s cwd ++ s));
  pf_length : Z.of_nat (length (base_path s cwd ++ s)) + 2 <= MAX_PATH_LEN
}.

(** The kernel's answer holds the working directory, NUL-terminated, and fits
    the buffer. *)
Definition cwd_answer (cwd : list Z) (x : bool * list Z) : Prop :=
  x.1 = true /\ (exists junk, x.2 = cwd ++ 0 :: junk) /\ Z.of_nat (length x.2) <= MAX_PATH_LEN.

(** The path is a non-empty text that is "/" exactly for the root, and fits. *)
Lemma meant_names cwd s : Forall (fun c => c <> []) (meant cwd s).
Proof.
  assert (forall t, Forall (fun c : list Z => c <> []) (components t)) as Hc.
  { intros t. apply Forall_forall. intros c Hin. unfold components, words in Hin. by apply list_elem_of_filter in Hin as [Hin _]. }
  unfold meant, resolve. assert (Forall (fun c : list Z => c <> []) ((if absolute s then [] else components cwd) ++ components s)) as Hall.
  { apply Forall_app. split; [by destruct (absolute s)|apply Hc]. }
  revert Hall. generalize ((if absolute s then [] else components cwd) ++ components s). intros cs.
  assert (Forall (fun c : list Z => c <> []) (@nil (list Z))) as Hnil by done. revert Hnil. generalize (@nil (list Z)).
  induction cs as [|c cs IH]; intros acc Ha Hcs; [done|]. apply Forall_cons_1 in Hcs as [Hc1 Hcs]. cbn [fold_left].
  apply IH; [|done]. unfold resolve_step. repeat case_bool_decide; [|done|].
  - destruct acc as [|x acc _] using rev_ind; [done|]. rewrite removelast_last. by apply Forall_app in Ha as [Ha _].
  - apply Forall_app. split; [done|]. by apply Forall_singleton.
Qed.

Lemma render_root cs : Forall (fun c => c <> []) cs -> render cs = [47] <-> cs = [].
Proof.
  intros Hc. split; [|by intros ->]. destruct cs as [|c cs]; [done|]. apply Forall_cons_1 in Hc as [Hc _].
  destruct c as [|x c]; [done|]. unfold render. cbn. discriminate.
Qed.

Lemma width_resolve cs acc : (width (fold_left resolve_step cs acc) <= width acc + width cs)%nat.
Proof.
  revert acc. induction cs as [|c cs IH]; intros acc; cbn [fold_left]; [lia|]. pose proof (IH (resolve_step acc c)).
  pose proof (resolve_width acc c). change (c :: cs) with ([c] ++ cs). rewrite (width_app [c]). lia.
Qed.

Lemma meant_length cwd s : path_fits cwd s -> (length (render (meant cwd s)) < 512)%nat.
Proof.
  intros [_ _ _ Hl]. unfold MAX_PATH_LEN in Hl.
  assert (length (render (meant cwd s)) <= Nat.max 1 (width (meant cwd s)))%nat as Hr by (by destruct (meant cwd s)).
  unfold meant in *. rewrite <- base_components in *. pose proof (width_resolve (components (base_path s cwd ++ s)) []) as Hw.
  fold (resolve (components (base_path s cwd ++ s))) in Hw. change (width []) with 0%nat in Hw.
  destruct (width_components (base_path s cwd ++ s)) as [Hc _]. lia.
Qed.

Lemma fill_run m p bs : room m p (Z.of_nat (length bs)) ->
  exists m', fill p bs m = Ok (tt, m') /\ bytes_at m' p (u8 <$> bs) /\ same_outside m m' p (Z.of_nat (length bs)).
Proof.
  revert m p. induction bs as [|b bs IH]; intros m p Hr; [by exists m|]. cbn [fill fmap list_fmap bytes_at length] in *.
  assert (is_Some (m !! p)) as Hp by (apply Hr; lia). run (run_sto m p b Hp).
  destruct (IH (<[p := u8 b]> m) (p + 1)) as (m' & Hrun & Hb & Ho).
  { apply room_insert. intros a Ha. apply Hr. lia. }
  exists m'. split; [exact Hrun|]. split; [split; [|exact Hb]|].
  - rewrite Ho by lia. by rewrite lookup_insert, decide_True.
  - intros a Ha. rewrite Ho by lia. by rewrite lookup_insert_ne by lia.
Qed.

Lemma u8_chars s : Forall chr s -> u8 <$> s = s.
Proof.
  induction 1 as [|c s Hc _ IH]; [done|]. cbn [fmap list_fmap]. rewrite u8_id by (unfold chr in Hc; lia). by f_equal.
Qed.

Lemma answered_ok abs cwd x : abs <> 0 -> Forall chr cwd -> (exists c, cwd = 47 :: c) -> cwd_answer cwd x ->
  getcwd_ok abs (answered x) cwd.
Proof.
  intros Hz Hch Hc (Hx & [junk Hj] & Hl). split; [done|]. intros m Hr. unfold answered. rewrite Hx.
  destruct (fill_run m abs x.2) as (m' & Hrun & Hb & Ho); [intros a Ha; apply Hr; lia|].
  exists m'. run Hrun. assert (same_outside m m' abs MAX_PATH_LEN) as Ho' by (intros a Ha; apply Ho; lia).
  split; [done|]. split; [|split; [done|]].
  - split; [done|]. rewrite Hj, fmap_app, u8_chars in Hb by done. cbn [fmap list_fmap] in Hb.
    apply bytes_at_app in Hb as [Hb1 Hb2]. apply bytes_at_app. split; [done|]. destruct Hb2 as [Hb2 _]. by split.
  - intros a Ha. destruct (decide (abs <= a < abs + Z.of_nat (length x.2))) as [Hin|Hout].
    + apply bytes_room in Hb. rewrite length_fmap in Hb. by apply Hb.
    + rewrite Ho by done. by apply Hr.
Qed.

Lemma string_from_run f m p u : (length u < f)%nat -> string_at m p u -> string_from f p m = Ok (u, m).
Proof.
  revert f p. induction u as [|c u IH]; intros [|f] p Hl Hs; cbn [length] in *; try lia; cbn [string_from].
  - apply string_nil in Hs. by run (run_ld m p 0 Hs).
  - apply string_cons in Hs as (Hc & Hm & Hs). run (run_ld m p c Hm).
    replace (c =? 0) with false by (unfold chr in Hc; lia). by run (IH f (p + 1) ltac:(lia) Hs).
Qed.

Section Commands.
Context (M : memory_map) (texts : list string) (HL : data_layout M texts).
Context (Hdd : ".."%string ∈ texts) (Hdot : "."%string ∈ texts) (Hslash : "/"%string ∈ texts).
Context {S : Type} (h : forall X, callE X -> st S (option X)).

(** The areas that the path functions write. *)
Definition path_areas : list (Z * Z) :=
  [(final_path M, MAX_PATH_LEN); (local_abs_path M, MAX_PATH_LEN); (local_name M, 16)].

Lemma areas_apart i j x y :
  areas M !! i = Some x -> areas M !! j = Some y -> i <> j -> apart x.1 x.2 y.1 y.2.
Proof. apply (dl_apart _ _ HL). Qed.

Lemma literal_apart t x : t ∈ texts -> x ∈ areas M -> apart (lit M t) (Z.of_nat (length (chars t)) + 1) x.1 x.2.
Proof.
  intros Ht Hx. pose proof (dl_texts _ _ HL) as H. rewrite Forall_forall in H. destruct (H t Ht) as [_ Hc].
  unfold clear_of_all in Hc. rewrite Forall_forall in Hc. by apply Hc.
Qed.

(** The layout that the lemmas of Paths.v ask for. *)
Lemma wash_layout_ok : wash_layout (path_literals M) (final_path M) MAX_PATH_LEN (local_name M).
Proof.
  assert (forall x, x ∈ areas M -> 0 < x.1) as Hpos by (pose proof (dl_areas _ _ HL) as H; by rewrite Forall_forall in H).
  pose proof (dl_texts _ _ HL) as Htx. rewrite Forall_forall in Htx.
  assert (forall t, t ∈ texts -> 0 < lit M t) as Hlp by (intros t Ht; by apply Htx).
  assert ((final_path M, MAX_PATH_LEN) ∈ areas M /\ (local_name M, 16) ∈ areas M) as [Hf Hn] by (unfold areas; set_solver).
  pose proof (Hpos _ Hf). pose proof (Hpos _ Hn). cbn [fst] in *.
  split; cbn [path_literals lit_dotdot lit_dot lit_slash].
  - lia.
  - lia.
  - pose proof (Hlp _ Hdd). pose proof (Hlp _ Hdot). pose proof (Hlp _ Hslash). lia.
  - split; [apply (literal_apart _ _ Hdd Hf)|apply (literal_apart _ _ Hdd Hn)].
  - split; [apply (literal_apart _ _ Hdot Hf)|apply (literal_apart _ _ Hdot Hn)].
  - split; [apply (literal_apart _ _ Hslash Hf)|apply (literal_apart _ _ Hslash Hn)].
  - apply (areas_apart 4 1 (local_name M, 16) (final_path M, MAX_PATH_LEN)); done.
Qed.

Lemma clear_pre_ok m a u :
  data_at M texts m -> a <> 0 -> string_at m a u -> clear_of_all a (Z.of_nat (length u) + 1) path_areas ->
  clear_pre (path_literals M) a (final_path M) (local_abs_path M) (local_name M) u m.
Proof.
  intros Hd Ha Hs Hc.
  assert (forall t, t ∈ texts -> string_at m (lit M t) (chars t)) as Htxt by (intros t Ht; by destruct (text_at M texts HL m t Hd Ht)).
  assert ((local_abs_path M, MAX_PATH_LEN) ∈ areas M) as Habs by (unfold areas; set_solver).
  split; cbn [path_literals lit_dotdot lit_dot lit_slash].
  - apply wash_layout_ok.
  - split; cbn [path_literals lit_dotdot lit_dot lit_slash].
    + by apply (Htxt ".."%string).
    + by apply (Htxt "."%string).
    + by apply (Htxt "/"%string).
    + apply (area_room _ _ _ (final_path M, MAX_PATH_LEN) Hd). unfold areas. set_solver.
    + apply (area_room _ _ _ (local_name M, 16) Hd). unfold areas. set_solver.
  - split; [|by apply (area_room _ _ _ _ Hd Habs)].
    pose proof (dl_areas _ _ HL) as Hp. rewrite Forall_forall in Hp. by apply (Hp _ Habs).
  - split; [by apply (areas_apart 3 4 (local_abs_path M, MAX_PATH_LEN) (local_name M, 16))|].
    by apply (areas_apart 3 1 (local_abs_path M, MAX_PATH_LEN) (final_path M, MAX_PATH_LEN)).
  - split_and!; [apply (literal_apart _ _ Hdd Habs)
                |apply (literal_apart _ _ Hdot Habs)
                |apply (literal_apart _ _ Hslash Habs)].
  - split; [done|]. split; [done|]. unfold clear_of_all in Hc. rewrite Forall_forall in Hc.
    apply (Hc (local_abs_path M, MAX_PATH_LEN)). unfold path_areas. set_solver.
Qed.

Lemma make_clear_run m s s' a u cwd x :
  data_at M texts m -> a <> 0 -> string_at m a u -> clear_of_all a (Z.of_nat (length u) + 1) path_areas ->
  path_fits cwd u -> cwd_answer cwd x -> cwd_asked h (negb (absolute u)) x s s' ->
  exists m', does h (make_clear_abs_path M a (final_path M)) m s tt m' s'
    /\ string_at m' (final_path M) (render (meant cwd u)) /\ only m m' path_areas.
Proof.
  intros Hd Ha Hs Hc [Hcwd Hch Hsh Hlen] Hx Hh. pose proof (clear_pre_ok m a u Hd Ha Hs Hc) as Hpre.
  pose proof (dl_fuel _ _ HL) as Hf. destruct (cp_abs _ _ _ _ _ _ _ Hpre) as [Hz _].
  pose proof (components_bound (base_path u cwd ++ u)) as Hcb. unfold MAX_PATH_LEN in Hlen.
  destruct (make_clear_spec _ _ _ _ _ _ (mm_fuel M) (mm_fuel M) (answered x) cwd m Hpre Hcwd) as (m' & Hrun & Hs' & Ho);
    [intros _; apply answered_ok; try done; lia|done|lia|unfold MAX_PATH_LEN; lia|unfold MAX_PATH_LEN; lia|].
  exists m'. rewrite base_components in Hs'. fold (meant cwd u) in Hs'. split; [|split; [exact Hs'|split]].
  - assert (exists c, m !! a = Some c /\ (c =? 47) = absolute u) as (c & Hca & Hcu).
    { destruct u as [|y t]; [exists 0; split; [by apply string_nil in Hs|done]|].
      apply string_cons in Hs as (_ & Hy & _). by exists y. }
    eapply make_clear_does; [exact Hrun|exact Hca| |by rewrite Hcu].
    unfold clear_of_all in Hc. rewrite Forall_forall in Hc.
    specialize (Hc (local_abs_path M, MAX_PATH_LEN) ltac:(unfold path_areas; set_solver)). cbn [fst snd] in Hc.
    unfold apart in *. lia.
  - intros b Hb. unfold path_areas in Hb. rewrite !Forall_cons in Hb. destruct Hb as (H1 & H2 & H3 & _). by apply Ho.
  - eapply keeps_make_clear; [|exact Hrun]. intros p q. unfold answered. keeps.
Qed.

(** The comparison with a literal. *)
Lemma is_not_run t m s p u :
  data_at M texts m -> t ∈ texts -> (length (chars t) < 1024)%nat -> p <> 0 -> string_at m p u ->
  does h (is_not M t p) m s (negb (bool_decide (chars t = u))) m s.
Proof.
  intros Hd Ht Hl Hp Hu. destruct (text_at M texts HL m t Hd Ht) as (Hts & Htz & _). pose proof (dl_fuel _ _ HL) as Hf.
  destruct (strcmp_test (mm_fuel M) m (lit M t) p (chars t) u) as (d & Hrun & Hdz); try done; [lia|lia|].
  unfold is_not. eapply does_bind; [apply does_local, Hrun|]. rewrite Hdz. apply does_ret.
Qed.

(** A call whose argument is a string. *)
Lemma with_string_run {X} (e : list Z -> callE X) m s p u x s' :
  (length u < mm_fuel M)%nat -> string_at m p u -> h _ (e u) s = Ok (Some x, s') ->
  does h (with_string (mm_fuel M) e p) m s x m s'.
Proof.
  intros Hl Hu Hh. unfold with_string. eapply does_bind; [apply does_local, string_from_run; [exact Hl|exact Hu]|].
  by apply does_call.
Qed.

(** ** mkdir, rmdir and rm *)

(** The lengths of literals. *)
Ltac eval_lengths := repeat match goal with
  | |- context [length (chars ?t)] => let n := eval vm_compute in (length (chars t)) in replace (length (chars t)) with n by (vm_compute; reflexivity)
  end.

Inductive path_command : Type := P_mkdir | P_rmdir | P_rm.

Definition path_prog (c : path_command) : Z -> list Z -> prog Z :=
  match c with P_mkdir => buildin_mkdir M | P_rmdir => buildin_rmdir M | P_rm => buildin_rm M end.

Definition path_call (c : path_command) : list Z -> callE Z :=
  match c with P_mkdir => C_mkdir | P_rmdir => C_rmdir | P_rm => C_unlink end.

Definition path_format (c : path_command) : string :=
  match c with
  | P_mkdir => "mkdir: create directory %s failed.\n"
  | P_rmdir => "rmdir: remove %s failed.\n"
  | P_rm => "rm: delete %s failed.\n"
  end.

(** The message for the argument [u]. *)
Definition path_message (c : path_command) (u : list Z) : list Z :=
  match c with
  | P_mkdir => chars "mkdir: create directory " ++ u ++ chars " failed.\n"
  | P_rmdir => chars "rmdir: remove " ++ u ++ chars " failed.\n"
  | P_rm => chars "rm: delete " ++ u ++ chars " failed.\n"
  end.

Definition path_body (c : path_command) (a : Z) : prog Z :=
  _ ← make_clear_abs_path M a (final_path M);
  d ← is_not M "/" (final_path M);
  if d : bool then
    r ← with_string (mm_fuel M) (path_call c) (final_path M);
    if r =? 0 then mret 0 else _ ← say M (path_format c) [a]; mret (-1)
  else mret (-1).

Lemma path_prog_body c argv a m s : argv !! 1%nat = Some a ->
  forall r m' s', does h (path_body c a) m s r m' s' -> does h (path_prog c 2 argv) m s r m' s'.
Proof.
  intros Ha r m' s' Hb. assert (does h (arg_of argv 1) m s a m s) as Harg.
  { apply does_local. unfold rd. rewrite bool_decide_true by lia. change (Z.to_nat 1) with 1%nat. by rewrite Ha. }
  destruct c; eapply (does_bind h _ _ _ _ a); try exact Harg; exact Hb.
Qed.

Lemma message_run c m s a u n s' :
  data_at M texts m -> path_format c ∈ texts -> a <> 0 -> string_at m a u ->
  clear_of_all a (Z.of_nat (length u) + 1) [(local_buf M, 1024)] -> Z.of_nat (length u) < 512 ->
  h _ (C_write 1 (path_message c u)) s = Ok (Some n, s') ->
  exists m', does h (say M (path_format c) [a]) m s n m' s' /\ only m m' [(local_buf M, 1024)].
Proof.
  intros Hd Ht Ha Hu Hc Hl Hh.
  assert (Forall2 (print_arg M m) [a] [AStr u]) as Hargs by (constructor; [split_and!; try done; lia|constructor]).
  assert (expand (chars (path_format c)) [AStr u] = Some (path_message c u)) as He by (by destruct c).
  eapply (say_run M texts HL h); [done|done|exact Hargs|exact He| | | |exact Hh].
  - destruct Hu as [Hu _]. destruct c; cbn [path_message]; rewrite !Forall_app;
      (split; [by apply text_chr; vm_compute|]); (split; [done|by apply text_chr; vm_compute]).
  - destruct c; cbn [path_message]; rewrite !length_app; eval_lengths; lia.
  - destruct c; cbn [path_format]; eval_lengths; lia.
Qed.

(** The argument of a command: a string outside the buffers that the command
    writes, with a path that fits them. *)
Record path_arg (m : cmem) (a : Z) (u cwd : list Z) : Prop := {
  ag_data : data_at M texts m;
  ag_null : a <> 0;
  ag_text : string_at m a u;
  ag_clear : clear_of_all a (Z.of_nat (length u) + 1) ((local_buf M, 1024) :: path_areas);
  ag_fits : path_fits cwd u
}.

Lemma path_areas_in : path_areas ⊆ areas M.
Proof. unfold path_areas, areas. set_solver. Qed.

Lemma arg_length m a u cwd : path_arg m a u cwd -> Z.of_nat (length u) < 512.
Proof. intros [_ _ _ _ [_ _ _ Hl]]. rewrite length_app in Hl. unfold MAX_PATH_LEN in Hl. lia. Qed.

(** After the path was made: the argument is still there. *)
Lemma cleared_run m s s1 a u cwd x :
  path_arg m a u cwd -> cwd_answer cwd x -> cwd_asked h (negb (absolute u)) x s s1 ->
  exists m1, does h (make_clear_abs_path M a (final_path M)) m s tt m1 s1 /\ data_at M texts m1
    /\ string_at m1 (final_path M) (render (meant cwd u)) /\ string_at m1 a u /\ only m m1 path_areas.
Proof.
  intros [Hd Hz Hu Hc Hfit] Hx Hs. apply Forall_cons_1 in Hc as [_ Hc].
  destruct (make_clear_run m s s1 a u cwd x Hd Hz Hu Hc Hfit Hx Hs) as (m1 & Hrun & Hf & Ho). exists m1.
  split; [done|]. split; [eapply data_only; [exact HL|done|done|apply path_areas_in]|]. split; [done|].
  split; [by eapply only_string|done].
Qed.

Lemma final_not_null : final_path M <> 0.
Proof.
  pose proof (dl_areas _ _ HL) as Hp. rewrite Forall_forall in Hp.
  specialize (Hp (final_path M, MAX_PATH_LEN) ltac:(unfold areas; set_solver)). cbn [fst] in Hp. lia.
Qed.

(** The path, the test for the root, and the call. *)
Lemma path_body_call c m s s1 a u cwd x r s2 :
  path_arg m a u cwd -> cwd_answer cwd x -> cwd_asked h (negb (absolute u)) x s s1 -> meant cwd u <> [] ->
  h _ (path_call c (render (meant cwd u))) s1 = Ok (Some r, s2) ->
  exists m1, data_at M texts m1 /\ string_at m1 a u
    /\ forall v m' s', does h (if r =? 0 then mret 0 else _ ← say M (path_format c) [a]; mret (-1)) m1 s2 v m' s' ->
       does h (path_body c a) m s v m' s'.
Proof.
  intros Ha Hx Hs Hm Hh. destruct (cleared_run m s s1 a u cwd x Ha Hx Hs) as (m1 & Hrun & Hd1 & Hf & Hu1 & _).
  exists m1. split; [done|]. split; [done|]. intros v m' s' Hrest. unfold path_body.
  eapply does_bind; [exact Hrun|]. eapply does_bind.
  { apply (is_not_run "/" m1 s1 (final_path M) (render (meant cwd u)) Hd1 Hslash); [vm_compute; lia|apply final_not_null|done]. }
  change (chars "/") with [47]. rewrite bool_decide_false.
  2: { intros He. symmetry in He. apply render_root in He; [done|]. apply meant_names. }
  cbn [negb]. eapply does_bind; [|exact Hrest]. eapply with_string_run; [|done|done].
  pose proof (meant_length cwd u (ag_fits _ _ _ _ Ha)). pose proof (dl_fuel _ _ HL). lia.
Qed.

Lemma path_body_root c m s s1 a u cwd x :
  path_arg m a u cwd -> cwd_answer cwd x -> cwd_asked h (negb (absolute u)) x s s1 -> meant cwd u = [] ->
  exists m', does h (path_body c a) m s (-1) m' s1.
Proof.
  intros Ha Hx Hs Hm. destruct (cleared_run m s s1 a u cwd x Ha Hx Hs) as (m1 & Hrun & Hd1 & Hf & _).
  exists m1. unfold path_body. eapply does_bind; [exact Hrun|]. rewrite Hm in Hf. eapply does_bind.
  { apply (is_not_run "/" m1 s1 (final_path M) (render []) Hd1 Hslash); [vm_compute; lia|apply final_not_null|exact Hf]. }
  change (chars "/") with (render []). rewrite bool_decide_true by done. apply does_ret.
Qed.

(** ** cd *)

Lemma cwd_cache_ok : cwd_cache M <> 0 /\ apart (cwd_cache M) MAX_PATH_LEN (final_path M) MAX_PATH_LEN.
Proof.
  split; [|by apply (areas_apart 2 1 (cwd_cache M, MAX_PATH_LEN) (final_path M, MAX_PATH_LEN))].
  pose proof (dl_areas _ _ HL) as Hp. rewrite Forall_forall in Hp.
  specialize (Hp (cwd_cache M, MAX_PATH_LEN) ltac:(unfold areas; set_solver)). cbn [fst] in Hp. lia.
Qed.

(** The accepted path is copied to the cache. *)
Lemma cache_run m s p :
  data_at M texts m -> string_at m (final_path M) p -> (length p < 512)%nat ->
  exists m', does h (_ ← local (memset (cwd_cache M) 0 MAX_PATH_LEN);
                    _ ← local (strcpy (mm_fuel M) (cwd_cache M) (final_path M)); mret tt) m s tt m' s
    /\ string_at m' (cwd_cache M) p /\ string_at m' (final_path M) p.
Proof.
  intros Hd Hp Hl. pose proof (dl_fuel _ _ HL) as Hf. destruct cwd_cache_ok as [Hz Ha]. pose proof final_not_null as Hfz.
  pose proof (area_room M texts m (cwd_cache M, MAX_PATH_LEN) Hd ltac:(unfold areas; set_solver)) as Hr. cbn [fst snd] in Hr.
  destruct (memset_loop_spec (Z.to_nat MAX_PATH_LEN) m (cwd_cache M) 0) as (m1 & Hrun1 & Hb & Ho1); [exact Hr|].
  assert (memset (cwd_cache M) 0 MAX_PATH_LEN m = Ok (tt, m1)) as Hms by (unfold memset; by run (not_null_run (cwd_cache M) m Hz)).
  assert (string_at m1 (final_path M) p) as Hp1.
  { eapply (string_outside m m1); [exact Ho1| |done]. unfold apart, MAX_PATH_LEN in *. lia. }
  apply bytes_room in Hb. rewrite length_replicate in Hb. change (Z.of_nat (Z.to_nat MAX_PATH_LEN)) with 512 in Hb.
  destruct (copy_loop_spec (mm_fuel M) m1 (cwd_cache M) (final_path M) p) as (m2 & Hrun2 & Hs2 & Ho2);
    [lia|done|intros b Hb'; apply Hb; lia|unfold apart, MAX_PATH_LEN in *; lia|].
  exists m2. split; [|split; [done|]].
  - eapply does_bind; [apply does_local, Hms|]. eapply does_bind; [|apply does_ret]. apply (does_local _ _ _ _ (cwd_cache M)).
    unfold strcpy. assert (sassert (negb (cwd_cache M =? 0) && negb (final_path M =? 0)) m1 = Ok (tt, m1)) as Has
      by (by rewrite (proj2 (Z.eqb_neq _ _) Hz), (proj2 (Z.eqb_neq _ _) Hfz)).
    run Has. by run Hrun2.
  - eapply (string_outside m1 m2); [exact Ho2| |done]. unfold apart, MAX_PATH_LEN in *. lia.
Qed.

Definition cd_message (p : list Z) : list Z := chars "cd: no such directory " ++ p ++ [10].

(** The call of "cd" with one argument, up to the answer of the kernel. *)
Lemma cd_call m s s1 a u cwd x argv r s2 :
  path_arg m a u cwd -> cwd_answer cwd x -> cwd_asked h (negb (absolute u)) x s s1 -> argv !! 1%nat = Some a ->
  h _ (C_chdir (render (meant cwd u))) s1 = Ok (Some r, s2) ->
  exists m1, data_at M texts m1 /\ string_at m1 (final_path M) (render (meant cwd u)) /\ only m m1 path_areas
    /\ forall v m' s', does h (if r =? -1 then _ ← say M "cd: no such directory %s\n" [final_path M]; mret 0
                         else mret (final_path M)) m1 s2 v m' s' ->
       does h (buildin_cd M 2 argv) m s v m' s'.
Proof.
  intros Ha Hx Hs Hargv Hh. destruct (cleared_run m s s1 a u cwd x Ha Hx Hs) as (m1 & Hrun & Hd1 & Hf & _ & Ho).
  exists m1. split; [done|]. split; [done|]. split; [done|]. intros v m' s' Hrest. unfold buildin_cd.
  change (2 <? 2) with false. change (2 =? 1) with false. cbv iota. eapply does_bind.
  { eapply (does_bind h _ _ _ _ a); [|exact Hrun]. apply does_local. unfold rd. rewrite bool_decide_true by lia.
    change (Z.to_nat 1) with 1%nat. by rewrite Hargv. }
  eapply does_bind; [|exact Hrest]. eapply with_string_run; [|done|done].
  pose proof (meant_length cwd u (ag_fits _ _ _ _ Ha)). pose proof (dl_fuel _ _ HL). lia.
Qed.

Lemma cd_say_run m s p n s' :
  data_at M texts m -> "cd: no such directory %s\n"%string ∈ texts -> string_at m (final_path M) p -> (length p < 512)%nat ->
  h _ (C_write 1 (cd_message p)) s = Ok (Some n, s') ->
  exists m', does h (say M "cd: no such directory %s\n" [final_path M]) m s n m' s' /\ only m m' [(local_buf M, 1024)].
Proof.
  intros Hd Ht Hp Hl Hh. assert (apart (final_path M) MAX_PATH_LEN (local_buf M) 1024) as Ha
    by (by apply (areas_apart 1 6 (final_path M, MAX_PATH_LEN) (local_buf M, 1024))).
  assert (Forall2 (print_arg M m) [final_path M] [AStr p]) as Hargs.
  { constructor; [|constructor]. pose proof final_not_null. unfold apart, MAX_PATH_LEN in Ha. split_and!; try done; [|lia].
    apply clear_one. unfold apart. lia. }
  assert (expand (chars "cd: no such directory %s\n") [AStr p] = Some (cd_message p)) as He by done.
  eapply (say_run M texts HL h); [done|done|exact Hargs|exact He| | | |exact Hh].
  - unfold cd_message. rewrite !Forall_app. split; [by apply text_chr; vm_compute|]. split; [apply Hp|].
    by apply text_chr; vm_compute.
  - unfold cd_message. rewrite !length_app. eval_lengths. cbn [length]. lia.
  - vm_compute. lia.
Qed.

(** C32: Mkdir, rmdir and rm make one call, on the absolute path their argument
    means: its components behind those of the working directory when it is
    relative, without "." and "..".  The result is 0 exactly when the kernel
    answers 0; any other answer is reported on the screen with the argument as it
    was typed.  For the root directory there is no call at all.  This holds for
    an argument that fits the buffers ([path_fits]): put behind the working
    directory when it is relative, it has components of fewer than 16 characters
    and at most 510 characters in all; the code checks neither limit. *)
Theorem path_command_resolves (c : path_command) (m : cmem) (s s1 : S) (a : Z) (u cwd : list Z) (x : bool * list Z)
    (argv : list Z) :
  path_arg m a u cwd -> path_format c ∈ texts -> argv !! 1%nat = Some a ->
  cwd_answer cwd x -> cwd_asked h (negb (absolute u)) x s s1 ->
  (meant cwd u = [] -> exists m', does h (path_prog c 2 argv) m s (-1) m' s1)
  /\ (meant cwd u <> [] -> forall r s2, h _ (path_call c (render (meant cwd u))) s1 = Ok (Some r, s2) ->
       (r = 0 -> exists m', does h (path_prog c 2 argv) m s 0 m' s2)
       /\ (r <> 0 -> forall n s3, h _ (C_write 1 (path_message c u)) s2 = Ok (Some n, s3) ->
             exists m', does h (path_prog c 2 argv) m s (-1) m' s3)).
Proof.
  intros Ha Ht Hargv Hx Hs. split.
  - intros Hm. destruct (path_body_root c m s s1 a u cwd x Ha Hx Hs Hm) as (m' & Hrun). exists m'.
    by eapply path_prog_body.
  - intros Hm r s2 Hh. destruct (path_body_call c m s s1 a u cwd x r s2 Ha Hx Hs Hm Hh) as (m1 & Hd1 & Hu1 & Hrun). split.
    + intros ->. exists m1. eapply path_prog_body; [done|]. apply Hrun, does_ret.
    + intros Hr n s3 Hw. rewrite (proj2 (Z.eqb_neq r 0)) in Hrun by done. pose proof (ag_clear _ _ _ _ Ha) as Hc.
      apply Forall_cons_1 in Hc as [Hc _]. apply (proj2 (clear_one _ _ _ _)) in Hc.
      destruct (message_run c m1 s2 a u n s3 Hd1 Ht (ag_null _ _ _ _ Ha) Hu1 Hc) as (m2 & Hsay & _);
        [by eapply arg_length|done|].
      exists m2. eapply path_prog_body; [done|]. apply Hrun. eapply does_bind; [exact Hsay|apply does_ret].
Qed.

(** C33: The prompt follows the kernel.  "cd" asks the kernel to change to the
    absolute path its argument means; when the kernel accepts, the shell's copy
    of the working directory is that path, and when it refuses, the copy stays
    and the path is reported.  As for the other commands, the argument has to fit
    the buffers ([path_fits]): put behind the working directory when it is
    relative, it has components of fewer than 16 characters and at most 510
    characters in all. *)
Theorem cd_follows_kernel (m : cmem) (s s1 : S) (a : Z) (u cwd : list Z) (x : bool * list Z) (argv : list Z) (r : Z) (s2 : S) :
  path_arg m a u cwd -> "cd: no such directory %s\n"%string ∈ texts -> argv !! 1%nat = Some a ->
  cwd_answer cwd x -> cwd_asked h (negb (absolute u)) x s s1 ->
  h _ (C_chdir (render (meant cwd u))) s1 = Ok (Some r, s2) ->
  (r <> -1 -> exists m', does h (change_directory M 2 argv) m s tt m' s2
     /\ string_at m' (cwd_cache M) (render (meant cwd u)))
  /\ (r = -1 -> forall v n s3, string_at m (cwd_cache M) v -> (length v < 512)%nat ->
       h _ (C_write 1 (cd_message (render (meant cwd u)))) s2 = Ok (Some n, s3) ->
       exists m', does h (change_directory M 2 argv) m s tt m' s3 /\ string_at m' (cwd_cache M) v).
Proof.
  intros Ha Ht Hargv Hx Hs Hh. pose proof (meant_length cwd u (ag_fits _ _ _ _ Ha)) as Hl.
  destruct (cd_call m s s1 a u cwd x argv r s2 Ha Hx Hs Hargv Hh) as (m1 & Hd1 & Hf & Ho & Hrun).
  split; intros Hr.
  - rewrite (proj2 (Z.eqb_neq r (-1))) in Hrun by done.
    destruct (cache_run m1 s2 _ Hd1 Hf Hl) as (m2 & Hcache & Hs2 & _). exists m2. split; [|done].
    unfold change_directory. eapply does_bind; [apply Hrun, does_ret|].
    rewrite (proj2 (Z.eqb_neq _ _) final_not_null). exact Hcache.
  - subst r. intros v n s3 Hv Hlv Hw. destruct (cd_say_run m1 s2 _ n s3 Hd1 Ht Hf Hl Hw) as (m2 & Hsay & Ho2).
    exists m2. split.
    + unfold change_directory. eapply does_bind; [apply Hrun; eapply does_bind; [exact Hsay|apply does_ret]|]. apply does_ret.
    + assert (only m m2 ((local_buf M, 1024) :: path_areas)) as Ho12.
      { eapply only_trans; [eapply only_incl; [exact Ho|set_solver]|eapply only_incl; [exact Ho2|set_solver]]. }
      eapply only_string; [exact Ho12| |exact Hv].
      assert (forall j y, areas M !! j = Some y -> 2%nat <> j -> apart (cwd_cache M) (Z.of_nat (length v) + 1) y.1 y.2) as Hap.
      { intros j y Hy Hj. pose proof (areas_apart 2 j (cwd_cache M, MAX_PATH_LEN) y eq_refl Hy Hj) as Hz.
        unfold apart, MAX_PATH_LEN in *. cbn [fst snd] in *. lia. }
      apply Forall_cons_2; [by apply (Hap 6%nat)|]. apply Forall_cons_2; [by apply (Hap 1%nat)|].
      apply Forall_cons_2; [by apply (Hap 3%nat)|]. apply Forall_cons_2; [by apply (Hap 4%nat)|done].
Qed.
End Commands.

(** ** A small kernel *)

(** The directories there are, the working directory and the screen. *)
Record tiny : Type := Tiny {
  t_dirs : list (list Z);
  t_cwd : list Z;
  t_screen : list Z
}.

Definition tiny_kernel (X : Type) (e : callE X) : st tiny (option X) :=
  match e in callE X return st tiny (option X) with
  | C_write _ buf => fun s => Ok (Some (Z.of_nat (length buf)), Tiny (t_dirs s) (t_cwd s) (t_screen s ++ buf))
  | C_getcwd _ => fun s => Ok (Some (true, t_cwd s ++ [0]), s)
  | C_chdir p => fun s =>
      if bool_decide (p ∈ t_dirs s) then Ok (Some 0, Tiny (t_dirs s) p (t_screen s)) else Ok (Some (-1), s)
  | C_clear => fun s => Ok (Some tt, Tiny (t_dirs s) (t_cwd s) [])
  | C_mkdir p => fun s =>
      if bool_decide (p ∈ t_dirs s) then Ok (Some (-1), s) else Ok (Some 0, Tiny (p :: t_dirs s) (t_cwd s) (t_screen s))
  | _ => sres (Bad EPanic)
  end.

Definition demo_texts : list string :=
  [".."; "."; "/"; "mkdir: create directory %s failed.\n"; "cd: no such directory %s\n"]%string.

(** The literals lie at 10100, 10200 and so on. *)
Definition demo_literal (t : list Z) : Z :=
  match list_find (fun s => chars s = t) demo_texts with
  | Some (i, _) => 10000 + 100 * (Z.of_nat i + 1)
  | None => 0
  end.

Definition demo_map : memory_map := MemoryMap 1024 demo_literal 1000 2000 3000 4000 5000 6000 8000.

(** "../b" at 500, the working directory "/d" in the cache, and "/d" and "/" are
    directories. *)
Definition demo_memory : cmem :=
  put_bytes 10100 (chars ".." ++ [0]) (put_bytes 10200 (chars "." ++ [0]) (put_bytes 10300 (chars "/" ++ [0])
    (put_bytes 10400 (chars "mkdir: create directory %s failed.\n" ++ [0])
      (put_bytes 10500 (chars "cd: no such directory %s\n" ++ [0])
        (put_bytes 500 (chars "../b" ++ [0]) (put_bytes 1000 (replicate 512 0) (put_bytes 2000 (replicate 512 0)
          (put_bytes 3000 (chars "/d" ++ replicate 510 0) (put_bytes 4000 (replicate 512 0) (put_bytes 5000 (replicate 16 0)
            (put_bytes 6000 (replicate 512 0) (put_bytes 8000 (replicate 1024 0) ∅)))))))))))).

Definition demo_tiny : tiny := Tiny [[47]; [47; 100]] [47; 100] [].

(** The layout and the data of a concrete program, checked by evaluation. *)
Definition layout_check (M : memory_map) (texts : list string) : bool :=
  Nat.leb 1024 (mm_fuel M) && forallb (fun x => 0 <? x.1) (areas M)
  && forallb (fun i => forallb (fun j => bool_decide (i = j) ||
       match areas M !! i, areas M !! j with
       | Some x, Some y => (x.1 + x.2 <=? y.1) || (y.1 + y.2 <=? x.1)
       | _, _ => true
       end) (seq 0 7)) (seq 0 7)
  && forallb (fun t => (0 <? lit M t) && forallb (fun x => x.1 + x.2 <=? lit M t) (areas M)) texts.

Lemma layout_by_check M texts : layout_check M texts = true -> data_layout M texts.
Proof.
  unfold layout_check. rewrite !andb_true_iff. intros [[[Hf Ha] Hp] Ht]. split.
  - by apply Nat.leb_le.
  - rewrite forallb_forall in Ha. apply Forall_forall. intros x Hx. apply list_elem_of_In, Ha in Hx. lia.
  - intros i j x y Hi Hj Hne. rewrite forallb_forall in Hp. pose proof (lookup_lt_Some _ _ _ Hi) as Hli.
    pose proof (lookup_lt_Some _ _ _ Hj) as Hlj. change (length (areas M)) with 7%nat in *.
    specialize (Hp i ltac:(apply in_seq; lia)). rewrite forallb_forall in Hp. specialize (Hp j ltac:(apply in_seq; lia)).
    rewrite Hi, Hj, bool_decide_false in Hp by done. unfold apart. cbn [orb] in Hp. lia.
  - rewrite forallb_forall in Ht. apply Forall_forall. intros t Hin. apply list_elem_of_In, Ht, andb_true_iff in Hin as [Hpos Hx].
    split; [lia|]. rewrite forallb_forall in Hx. apply Forall_forall. intros x Hin. apply list_elem_of_In, Hx in Hin. unfold apart. lia.
Qed.

Definition string_checkb (m : cmem) (p : Z) (u : list Z) : bool :=
  forallb (fun c => (0 <? c) && (c <? 256)) u
  && forallb (fun i => bool_decide (m !! (p + Z.of_nat i) = (u ++ [0]) !! i)) (seq 0 (S (length u))).

Lemma string_check m p u : string_checkb m p u = true -> string_at m p u.
Proof.
  unfold string_checkb. rewrite andb_true_iff. intros [Hc Hb]. split; [by apply text_chr|]. rewrite forallb_forall in Hb.
  assert (forall i : nat, Nat.lt i (length (u ++ [0])) -> m !! (p + Z.of_nat i) = (u ++ [0]) !! i) as H.
  { intros i Hi. rewrite length_app in Hi. cbn [length] in Hi. specialize (Hb i ltac:(apply in_seq; lia)).
    by apply (bool_decide_eq_true_1 _) in Hb. }
  clear Hc Hb. revert p H. generalize (u ++ [0]). clear u. intros u. induction u as [|c u IH]; intros p H; [done|].
  cbn [bytes_at]. split; [by rewrite <- (Z.add_0_r p); apply (H 0%nat); cbn [length]; lia|]. apply IH. intros i Hi.
  etransitivity; [|exact (H (S i) ltac:(cbn [length]; lia))]. f_equal. lia.
Qed.

Lemma data_by_check M texts m :
  forallb (fun x => room_check m x.1 x.2) (areas M) && forallb (fun t => string_checkb m (lit M t) (chars t)) texts = true ->
  data_at M texts m.
Proof.
  rewrite andb_true_iff, !forallb_forall. intros [Hr Ht]. split; apply Forall_forall; intros x Hx; apply list_elem_of_In in Hx.
  - by apply room_by_check, Hr.
  - by apply string_check, Ht.
Qed.

Lemma demo_layout : data_layout demo_map demo_texts.
Proof. apply layout_by_check. by vm_compute. Qed.

Lemma demo_data : data_at demo_map demo_texts demo_memory.
Proof. apply data_by_check. by vm_compute. Qed.

Lemma demo_arg : path_arg demo_map demo_texts demo_memory 500 (chars "../b") (chars "/d").
Proof.
  split.
  - apply demo_data.
  - done.
  - by apply string_check; vm_compute.
  - repeat (apply Forall_cons_2; [left; by vm_compute|]). apply Forall_nil_2.
  - split; [by exists [100]|repeat constructor|repeat constructor|by vm_compute].
Qed.

(** "mkdir ../b" in "/d" makes "/b". *)
Lemma path_command_resolves_witness :
  exists m', does tiny_kernel (buildin_mkdir demo_map 2 [0; 500]) demo_memory demo_tiny 0 m'
    (Tiny [[47; 98]; [47]; [47; 100]] [47; 100] []).
Proof.
  destruct (path_command_resolves demo_map demo_texts demo_layout ltac:(set_solver) ltac:(set_solver) ltac:(set_solver)
    tiny_kernel P_mkdir demo_memory demo_tiny demo_tiny 500 (chars "../b") (chars "/d") (true, chars "/d" ++ [0]) [0; 500])
    as [_ H].
  - apply demo_arg.
  - set_solver.
  - reflexivity.
  - split; [reflexivity|]. split; [exists []; reflexivity|vm_compute; discriminate].
  - reflexivity.
  - destruct (H ltac:(vm_compute; discriminate) 0 (Tiny [[47; 98]; [47]; [47; 100]] [47; 100] []) ltac:(reflexivity)) as [H0 _].
    exact (H0 eq_refl).
Defined.

(** "cd ../b" in "/d" without "/b": the copy stays "/d". *)
Lemma cd_follows_kernel_witness :
  exists m', does tiny_kernel (change_directory demo_map 2 [0; 500]) demo_memory demo_tiny tt m'
    (Tiny [[47]; [47; 100]] [47; 100] (cd_message [47; 98])) /\ string_at m' 3000 [47; 100].
Proof.
  destruct (cd_follows_kernel demo_map demo_texts demo_layout ltac:(set_solver) ltac:(set_solver) ltac:(set_solver)
    tiny_kernel demo_memory demo_tiny demo_tiny 500 (chars "../b") (chars "/d") (true, chars "/d" ++ [0]) [0; 500] (-1) demo_tiny)
    as [_ H].
  - apply demo_arg.
  - set_solver.
  - reflexivity.
  - split; [reflexivity|]. split; [exists []; reflexivity|vm_compute; discriminate].
  - reflexivity.
  - reflexivity.
  - apply (H eq_refl [47; 100] (Z.of_nat (length (cd_message [47; 98])))).
    + by apply string_check; vm_compute.
    + vm_compute. lia.
    + reflexivity.
Defined.
