(* ===== verification/Machine.v ===== *)
(** * Machine: the calls of programs answered by the file system

    The handler of Program.v that the file system of Fs.v, a screen and a
    keyboard give: programs of the shell run against the model of the disk. *)
From S2P Require Import Prelude CString Stdio Paths Bitmap Disk Fsys Inode Dir File Fs Program.

(** The free blocks that malloc will return, and the keys that were typed. *)
Record machine : Type := Machine {
  mc_fs : fsys;
  mc_screen : list Z;
  mc_heap : list Z;
  mc_keys : list Z
}.

Definition set_mc_fs (s : fsys) (w : machine) : machine := Machine s (mc_screen w) (mc_heap w) (mc_keys w).

Definition show (bs : list Z) (w : machine) : machine := Machine (mc_fs w) (mc_screen w ++ bs) (mc_heap w) (mc_keys w).

Definition on_fs {A} (c : st fsys A) : st machine A := fun w =>
  match c (mc_fs w) with Ok (a, s) => Ok (a, set_mc_fs s w) | Bad e => Bad e end.

Definition returns {A} (c : st machine A) : st machine (option A) := a ← c; mret (Some a).

Definition display (bs : list Z) : st machine unit := fun w => Ok (tt, show bs w).

(** The keys come out in the order in which they were typed. *)
Definition keys_read (n : Z) : st machine (Z * list Z) := fun w =>
  if bool_decide (Z.of_nat (length (mc_keys w)) < n) then Bad EFuel
  else Ok ((if n =? 0 then -1 else i32 n, take (Z.to_nat n) (mc_keys w)),
           Machine (mc_fs w) (mc_screen w) (mc_heap w) (drop (Z.to_nat n) (mc_keys w))).

(** [sys_write]: text goes to the screen, bytes into files. *)
Definition write_call (fd : Z) (buf : list Z) : st machine Z :=
  r ← on_fs (sys_write fd buf (Z.of_nat (length buf)));
  match r with
  | Console str n => _ ← display str; mret n
  | Done n _ => mret n
  | _ => sres (Bad EPanic)
  end.

(** [sys_read]: a task that waits for keys that do not come does not run on. *)
Definition read_call (fd count : Z) : st machine (Z * list Z) :=
  r ← on_fs (sys_read fd count);
  match r with
  | Keyboard n => keys_read n
  | Done n bs => mret (n, bs)
  | _ => sres (Bad EPanic)
  end.

Definition malloc_call : st machine Z := fun w =>
  match mc_heap w with
  | a :: r => Ok (a, Machine (mc_fs w) (mc_screen w) r (mc_keys w))
  | [] => Ok (0, w)
  end.

(** The bytes of the entry that [readdir] points to. *)
Definition readdir_call (dir : Z) : st fsys (Z * list Z) :=
  r ← sys_readdir dir;
  match r with
  | None => mret (0, [])
  | Some k => d ← dir_at dir; mret (dir + 8 + 24 * k, slice (dir_buf d) (24 * k) 24)
  end.

Definition machine_calls (fuel : nat) (X : Type) (e : callE X) : st machine (option X) :=
  match e in callE X return st machine (option X) with
  | C_write fd buf => returns (write_call fd buf)
  | C_malloc _ => returns malloc_call
  | C_free _ => returns (mret tt)
  | C_read fd count => returns (read_call fd count)
  | C_putchar c => returns (display [u8 c])
  | C_clear => fun w => Ok (Some tt, Machine (mc_fs w) [] (mc_heap w) (mc_keys w))
  | C_getcwd size => returns (on_fs (sys_getcwd fuel size))
  | C_open pathname flag => returns (on_fs (sys_open pathname flag))
  | C_close fd => returns (on_fs (sys_close fd))
  | C_unlink pathname => returns (on_fs (sys_unlink fuel pathname))
  | C_mkdir pathname => returns (on_fs (sys_mkdir pathname))
  | C_opendir name => returns (on_fs (sys_opendir name))
  | C_closedir dir => returns (on_fs (sys_closedir dir))
  | C_rmdir pathname => returns (on_fs (sys_rmdir fuel pathname))
  | C_readdir dir => returns (on_fs (readdir_call dir))
  | C_rewinddir dir => returns (on_fs (sys_rewinddir dir))
  | C_stat path => returns (on_fs (sys_stat path))
  | C_chdir path => returns (on_fs (sys_chdir path))
  | C_exit _ => sres (Ok None)
  | C_stuck e => sres (Bad e)
  | _ => sres (Bad EPanic)
  end.

Lemma on_fs_run {A} (c : st fsys A) w a s : c (mc_fs w) = Ok (a, s) -> on_fs c w = Ok (a, set_mc_fs s w).
Proof. intros H. unfold on_fs. by rewrite H. Qed.

Lemma returns_run {A} (c : st machine A) w a w' : c w = Ok (a, w') -> returns c w = Ok (Some a, w').
Proof. intros H. unfold returns. by run H. Qed.

(** ** A machine that has booted *)

(** The partition of demo_fs is formatted, mounted as in [filesys_init], and the
    standard descriptors are those of a process. *)
Definition demo_boot : st fsys unit :=
  _ ← partition_format;
  _ ← mount_default [115; 100; 98; 49] 0;
  upd (set_fd_table ([0; 1; 2] ++ replicate 5 (-1))).

Definition demo_blocks : list Z := (fun i => 0xc1000000 + 4096 * i) <$> seqZ 0 300.

Definition state_after {A S} (r : res (A * S)) (s : S) : S := match r with Ok (_, s') => s' | Bad _ => s end.

Definition booted : fsys := state_after (demo_boot (set_allocs demo_blocks demo_fs)) demo_fs.

Definition typed (keys : list Z) : machine := Machine booted [] [0x8048000] keys.

(** A volume with one file "f" of 600 bytes in the blocks 613 and 614. *)
Definition demo_file_inode : inode := Inode 1 600 0 false (613 :: 614 :: zeros 11).

Definition demo_root_inode : inode := Inode 0 72 0 false (612 :: zeros 12).

Definition demo_volume_disk : sectors :=
  <[4 := enc_inode demo_root_inode ++ enc_inode demo_file_inode ++ zeros 360]>
  (<[612 := enc_entry (DirEntry (46 :: zeros 15) 0 2) ++ enc_entry (DirEntry (46 :: 46 :: zeros 14) 0 2)
            ++ enc_entry (DirEntry (102 :: zeros 15) 1 1) ++ zeros 440]>
  (<[614 := replicate 512 66]> (<[613 := replicate 512 65]> ∅))).

Definition demo_volume : fsys :=
  Fsys demo_volume_disk 0 1000 demo_sb (Bitmap 512 (7 :: zeros 512)) (Bitmap 512 (3 :: zeros 512))
    {[4096 := Inode 0 72 1 false (612 :: zeros 12)]} [4096] (replicate 32 (File 0 0 0)) {[root_dir := Dir 4096 0 (zeros 512)]}
    ([0; 1; 2] ++ replicate 5 (-1)) 0 demo_blocks.
