(* ===== verification/CommandSpec.v ===== *)
(** * CommandSpec: cat on the file system

    cat copies a file to the screen in blocks of 1024 bytes; on the file system of
    Fs.v a block is printed as a string, through an array of [sys_write] that a
    full block fills. *)
From S2P Require Import Prelude CString Stdio Paths Bitmap Disk Fsys Inode Dir File FileSpec DirSpec Fs ExecSpec Program Builtin Command ProgramSpec BuiltinSpec Machine.

(** ** The loop of cat *)

Section Cat.
Context {S : Type} (h : forall X, callE X -> st S (option X)).

(** The kernel gives the blocks of the file and takes them for the screen. *)
Inductive gives (fd : Z) : list (list Z) -> S -> S -> Prop :=
| gives_nil s : gives fd [] s s
| gives_block b bl s s1 k s2 s' :
    h _ (C_read fd 1024) s = Ok (Some (Z.of_nat (length b), b), s1) -> Z.of_nat (length b) <= 1024 -> Forall byte b ->
    h _ (C_write 1 b) s1 = Ok (Some k, s2) -> gives fd bl s2 s' -> gives fd (b :: bl) s s'.

Lemma u8_bytes b : Forall byte b -> u8 <$> b = b.
Proof. induction 1 as [|c b Hc _ IH]; [done|]. cbn [fmap list_fmap]. rewrite u8_id by apply Hc. by f_equal. Qed.

(** One block comes into the buffer. *)
Lemma read_does fd buf m s b r s1 :
  room m buf 1024 -> Z.of_nat (length b) <= 1024 -> Forall byte b -> h _ (C_read fd 1024) s = Ok (Some (r, b), s1) ->
  exists m1, does h (read fd buf 1024) m s r m1 s1 /\ bytes_at m1 buf b /\ room m1 buf 1024
    /\ only m m1 [(buf, 1024)].
Proof.
  intros Hr Hl Hb Hh. destruct (fill_run m buf b) as (m1 & Hrun & Hbt & Ho); [intros a Ha; apply Hr; lia|].
  rewrite u8_bytes in Hbt by done. pose proof (keeps_fill _ _ _ _ _ Hrun) as Hk. exists m1. split; [|split; [done|split]].
  - unfold read. eapply does_bind; [by apply does_call|]. eapply does_bind; [by apply does_local|]. apply does_ret.
  - intros a Ha. by apply Hk, Hr.
  - apply only_outside; [|done]. intros a Ha. apply Ho. lia.
Qed.

(** A turn of the loop on a block. *)
Lemma cat_turn_block fd buf m s b s1 k s2 :
  room m buf 1024 -> Z.of_nat (length b) <= 1024 -> Forall byte b ->
  h _ (C_read fd 1024) s = Ok (Some (Z.of_nat (length b), b), s1) -> h _ (C_write 1 b) s1 = Ok (Some k, s2) ->
  exists m1, does h (cat_turn fd buf 1024) m s (inl tt) m1 s2 /\ room m1 buf 1024.
Proof.
  intros Hr Hl Hb Hrd Hw. destruct (read_does fd buf m s b (Z.of_nat (length b)) s1 Hr) as (m1 & Hd & Hbt & Hr1 & _); [done..|].
  exists m1. split; [|done]. unfold cat_turn. eapply does_bind; [exact Hd|]. rewrite (proj2 (Z.eqb_neq (Z.of_nat (length b)) (-1))) by lia.
  eapply does_bind; [|apply does_ret]. unfold write. eapply does_bind; [apply does_local; rewrite Nat2Z.id; by apply bytes_from_run|].
  by apply does_call.
Qed.

(** The end of the file comes after the blocks. *)
Lemma cat_loop_run fd buf bl m s s1 s' :
  gives fd bl s s1 -> h _ (C_read fd 1024) s1 = Ok (Some (-1, []), s') -> room m buf 1024 ->
  exists m', does h (while (fun _ => cat_turn fd buf 1024) tt) m s tt m' s'.
Proof.
  intros Hg Hend. revert m. induction Hg as [s|b bl s s1 k s2 s3 Hrd Hl Hb Hw _ IH]; intros m Hr.
  - destruct (read_does fd buf m s [] (-1) s' Hr) as (m1 & Hd & _); [done|done|done|]. exists m1.
    apply does_while_end. unfold cat_turn. eapply does_bind; [exact Hd|]. apply does_ret.
  - destruct (cat_turn_block fd buf m s b s1 k s2) as (m1 & Ht & Hr1); [done..|]. destruct (IH Hend m1 Hr1) as (m' & Hd).
    exists m'. by eapply does_while_next.
Qed.

(** A block behind others that the kernel cannot take. *)
Lemma cat_loop_stops fd buf bl m s s1 b s2 e :
  gives fd bl s s1 -> Z.of_nat (length b) <= 1024 -> Forall byte b ->
  h _ (C_read fd 1024) s1 = Ok (Some (Z.of_nat (length b), b), s2) -> h _ (C_write 1 b) s2 = Bad e -> room m buf 1024 ->
  stops h (while (fun _ => cat_turn fd buf 1024) tt) m s (Crashed e) s2.
Proof.
  intros Hg Hl Hb Hrd Hw. revert m. induction Hg as [s|b' bl s s1 k s3 s4 Hrd' Hl' Hb' Hw' _ IH]; intros m Hr.
  - destruct (read_does fd buf m s b (Z.of_nat (length b)) s2 Hr) as (m1 & Hd & Hbt & Hr1 & _); [done..|].
    apply stops_while_first. unfold cat_turn. eapply stops_next; [exact Hd|].
    rewrite (proj2 (Z.eqb_neq (Z.of_nat (length b)) (-1))) by lia. apply stops_first. unfold write.
    eapply stops_next; [apply does_local; rewrite Nat2Z.id; by apply bytes_from_run|]. by apply stops_call.
  - destruct (cat_turn_block fd buf m s b' s1 k s3) as (m1 & Ht & Hr1); [done..|].
    eapply stops_while_next; [exact Ht|]. by apply IH.
Qed.

(** ** cat with one argument *)

Context (M : memory_map).

(** The argument is an absolute path beside the array, and malloc gives a block
    at [p]. *)
Record cat_memory (m : cmem) (a p : Z) (u : list Z) : Prop := {
  ct_fuel : (1024 <= mm_fuel M)%nat;
  ct_array : 0 < local_abs_path M /\ room m (local_abs_path M) 512;
  ct_null : a <> 0;
  ct_text : string_at m a u;
  ct_absolute : absolute u = true;
  ct_length : Z.of_nat (length u) < 512;
  ct_apart : apart a (Z.of_nat (length u) + 1) (local_abs_path M) 512;
  ct_block : p <> 0 /\ apart p 1024 (local_abs_path M) 512 /\ apart p 1024 a (Z.of_nat (length u) + 1)
}.

Lemma put_bytes_lookup p bs m b :
  (put_bytes p bs m : cmem) !! b = (if bool_decide (p <= b < p + Z.of_nat (length bs)) then bs !! Z.to_nat (b - p) else m !! b).
Proof.
  revert p. induction bs as [|c bs IH]; intros p; cbn [put_bytes length].
  - by rewrite bool_decide_false by lia.
  - rewrite lookup_insert. case_decide as Hb.
    + subst b. rewrite bool_decide_true by lia. by rewrite Z.sub_diag.
    + rewrite IH. destruct (decide (p + 1 <= b < p + 1 + Z.of_nat (length bs))) as [Hin|Hout].
      * rewrite !bool_decide_true by lia. replace (Z.to_nat (b - p)) with (Datatypes.S (Z.to_nat (b - (p + 1)))) by lia. done.
      * by rewrite !bool_decide_false by lia.
Qed.

(** The statements before the loop. *)
Lemma cat_prologue m s s1 s2 a p u fd argv :
  cat_memory m a p u -> argv !! 1%nat = Some a -> h _ (C_malloc 1024) s = Ok (Some p, s1) ->
  h _ (C_open u O_RDONLY) s1 = Ok (Some fd, s2) -> fd <> -1 ->
  exists m', room m' p 1024 /\ forall r s', runs h ((_ ← while (fun _ => cat_turn fd p 1024) tt;
        _ ← call (C_free p); _ ← call (C_close fd); mret 66 : prog Z) m') s2 r s' -> runs h (cat M 2 argv m) s r s'.
Proof.
  intros [Hf [Hz Hr] Ha Hu Habs Hl Hap (Hp & Hp1 & Hp2)] Hargv Hm Ho Hfd.
  destruct (memset_loop_spec 512 m (local_abs_path M) 0) as (m1 & Hrun1 & Hb1 & Ho1); [exact Hr|].
  set (m2 := put_bytes p (replicate 1024 0) m1).
  assert (forall b, ~ (p <= b < p + 1024) -> m2 !! b = m1 !! b) as Hm2.
  { intros b Hb. unfold m2. by rewrite put_bytes_lookup, length_replicate, bool_decide_false by lia. }
  assert (room m2 p 1024) as Hr2.
  { intros b Hb. unfold m2. rewrite put_bytes_lookup, length_replicate, bool_decide_true by lia.
    apply lookup_lt_is_Some_2. rewrite length_replicate. lia. }
  assert (string_at m2 a u) as Hu2.
  { eapply (string_outside m1 m2 p 1024); [exact Hm2|unfold apart in *; clear Hap Hp1; lia|].
    eapply (string_outside m m1); [exact Ho1|unfold apart in *; clear Hp1 Hp2; lia|exact Hu]. }
  assert (room m2 (local_abs_path M) 512) as Hra.
  { intros b Hb. rewrite Hm2 by (unfold apart in *; clear Hap Hp2; lia). apply bytes_room in Hb1. rewrite length_replicate in Hb1. by apply Hb1. }
  destruct (copy_loop_spec (mm_fuel M) m2 (local_abs_path M) a u) as (m3 & Hrun3 & Hs3 & Ho3);
    [lia|done|intros b Hb; apply Hra; lia|unfold apart in *; clear Hp1 Hp2; lia|].
  exists m3. split.
  { intros b Hb. rewrite Ho3 by (unfold apart in *; clear Hap Hp2; lia). by apply Hr2. }
  intros r s' Hrest. unfold cat. change (2 <? 2) with false. change (2 =? 1) with false. cbv zeta iota.
  eapply runs_bind; [apply (does_ret h tt)|]. cbn [fst snd]. eapply runs_bind; [apply (does_ret h tt)|]. cbn [fst snd].
  eapply runs_bind; [apply (does_local h _ _ s _ _ Hrun1)|]. cbn [fst snd].
  eapply runs_bind; [eapply runs_call; [done|exact Hm|apply runs_ret; reflexivity]|]. cbn [fst snd].
  rewrite (proj2 (Z.eqb_neq p 0)) by done. change (Z.to_nat 1024) with 1024%nat. fold m2.
  eapply runs_bind; [apply (does_local h _ _ s1 a m2); unfold rd; rewrite bool_decide_true by lia; change (Z.to_nat 1) with 1%nat; by rewrite Hargv|].
  cbn [fst snd]. eapply runs_bind.
  { unfold cat_path. destruct u as [|c u]; [done|]. apply Z.eqb_eq in Habs as ->. apply string_cons in Hu2 as (_ & Hc & _).
    eapply (does_bind h); [apply does_local, run_ld, Hc|]. change (negb (47 =? 47)) with false. cbv iota.
    eapply (does_bind h); [|apply does_ret]. apply (does_local h _ _ _ (local_abs_path M)). unfold strcpy.
    assert (sassert (negb (local_abs_path M =? 0) && negb (a =? 0)) m2 = Ok (tt, m2)) as Has
      by (by rewrite (proj2 (Z.eqb_neq _ _) Ha), (proj2 (Z.eqb_neq (local_abs_path M) 0)) by lia).
    run Has. by run Hrun3. }
  cbn [fst snd]. eapply runs_bind; [apply (with_string_run M h (fun t => C_open t O_RDONLY) _ _ _ u fd s2); [lia|exact Hs3|exact Ho]|].
  cbn [fst snd]. rewrite (proj2 (Z.eqb_neq fd (-1))) by done. exact Hrest.
Qed.
End Cat.

(** ** cat on the file system *)

Lemma local2global_run s fd g :
  0 <= fd -> fd_table s !! Z.to_nat fd = Some g -> 0 <= g < 32 -> fd_local2global fd s = Ok (g, s).
Proof.
  intros Hfd Hg Hg32. unfold fd_local2global. rewrite (sbind_Ok _ _ s (fd_table s) s eq_refl).
  rewrite (rd_lookup _ _ g) by (lia || done). run (sres_run g s).
  by run (sassert_true ((0 <=? g) && (g <? MAX_FILE_OPEN)) s ltac:(unfold MAX_FILE_OPEN; lia)).
Qed.

Lemma not_pipe_run s fd g f :
  0 <= fd -> fd_table s !! Z.to_nat fd = Some g -> 0 <= g < 32 -> file_table s !! Z.to_nat g = Some f ->
  fd_flag f <> PIPE_FLAG -> is_pipe fd s = Ok (false, s).
Proof.
  intros Hfd Hg Hg32 Hf Hk. unfold is_pipe. run (local2global_run s fd g Hfd Hg Hg32).
  run (file_at_run g f s ltac:(lia) Hf). by rewrite (proj2 (Z.eqb_neq _ _) Hk).
Qed.

(** A file open for reading, and a standard output that is the screen. *)
Record reading (s : fsys) (fd g : Z) (f : file) (i : inode) : Prop := {
  rg_open : open_file s fd g f i;
  rg_range : fd_pos f <= i_size i;
  rg_screen : exists g1 f1, fd_table s !! 1%nat = Some g1 /\ 0 <= g1 < 32 /\ g1 <> g
    /\ file_table s !! Z.to_nat g1 = Some f1 /\ fd_flag f1 <> PIPE_FLAG
}.

(** The allocator's answers for [n] reads: two buffers for each. *)
Fixpoint buffers (n : nat) (l r : list Z) : Prop :=
  match n with
  | O => l = r
  | Datatypes.S n' => exists a1 a2 l', l = a1 :: a2 :: l' /\ a1 <> 0 /\ a2 <> 0 /\ buffers n' l' r
  end.

(** The state after [n] bytes were read, with [r] left to allocate. *)
Definition after_read (s : fsys) (g : Z) (f : file) (r : list Z) (n : Z) : fsys := moved (set_allocs r s) g f n.

Definition advanced (f : file) (n : Z) : file := File (fd_pos f + n) (fd_flag f) (fd_inode f).

Lemma after_read_0 s g f : file_table s !! Z.to_nat g = Some f -> after_read s g f (allocs s) 0 = s.
Proof.
  intros Hf. unfold after_read, moved. rewrite Z.add_0_r, list_insert_id by (destruct f; exact Hf). by destruct s.
Qed.

Lemma after_read_twice s g f r1 n r m :
  after_read (after_read s g f r1 n) g (advanced f n) r m = after_read s g f r (n + m).
Proof.
  unfold after_read, moved, advanced. cbn [set_file_table set_allocs file_table fd_pos fd_flag fd_inode]. rewrite list_insert_insert_eq.
  by rewrite Z.add_assoc.
Qed.

Lemma reading_after s fd g f i r n :
  reading s fd g f i -> 0 <= n <= i_size i - fd_pos f -> reading (after_read s g f r n) fd g (advanced f n) i.
Proof.
  intros [[Hv [Hfd Hg] [Hg32 Hf] [Hk Hp] (Hi & Hok & H139)] Hle (g1 & f1 & Hg1 & Hr & Hne & Hf1 & Hk1)] Hn. split.
  - constructor; [by destruct Hv|done| |split; [done|cbn; lia]|split; [done|]; split; [by apply (file_ok_ext s)|done]].
    split; [done|]. apply list_lookup_insert_eq. by apply lookup_lt_is_Some_1; eexists.
  - cbn. lia.
  - exists g1, f1. split; [done|]. split; [done|]. split; [done|]. split; [|done].
    unfold after_read, moved. cbn [file_table set_file_table set_allocs]. by rewrite list_lookup_insert_ne by lia.
Qed.

(** The bytes of the file. *)
Definition file_bytes (s : fsys) (i : inode) (p n : Z) : list Z := slice (fcontent (disk s) i) p n.

Lemma file_bytes_ok s i p n : volume_ok s -> inode_ok i -> 0 <= p -> 0 <= n -> p + n <= i_size i ->
  Forall byte (file_bytes s i p n) /\ Z.of_nat (length (file_bytes s i p n)) = n.
Proof.
  intros Hv Hio Hp Hn Hle. unfold file_bytes, slice. split.
  - apply Forall_take, Forall_drop. eapply Forall_impl; [apply fcontent_bytes, Hv|]. done.
  - rewrite length_take, length_drop. unfold fcontent. pose proof (content_length (disk s) (inode_blocks (disk s) i) (i_size i)). lia.
Qed.

Lemma drop_slice (l : list Z) p n :
  0 <= p -> 0 <= n -> drop 1024 (slice l p n) = slice l (p + Z.min 1024 n) (n - Z.min 1024 n).
Proof.
  intros Hp Hn. unfold slice. change (@drop Z) with (@skipn Z). change (@take Z) with (@firstn Z). rewrite skipn_firstn_comm, skipn_skipn.
  destruct (Z.leb_spec 1024 n).
  - f_equal; [lia|]. f_equal. lia.
  - by replace (Z.to_nat n - 1024)%nat with 0%nat by lia; replace (Z.to_nat (n - Z.min 1024 n)) with 0%nat by lia.
Qed.

(** A read before the end, and one at the end. *)
Lemma read_run s fd g f i a1 a2 r :
  reading s fd g f i -> allocs s = a1 :: a2 :: r -> a1 <> 0 -> a2 <> 0 -> fd_pos f < i_size i ->
  let n := Z.min 1024 (i_size i - fd_pos f) in
  sys_read fd 1024 s = Ok (Done n (file_bytes s i (fd_pos f) n), after_read s g f r n).
Proof.
  intros [[Hv [Hfd Hg] [Hg32 Hf] [Hk Hp] (Hi & Hok & H139)] _ _] Hal Ha1 Ha2 Hs n.
  unfold sys_read. replace ((fd <? 0) || (fd =? 1) || (fd =? 2)) with false by lia. replace (fd =? 0) with false by lia.
  run (not_pipe_run s fd g f ltac:(lia) Hg Hg32 Hf Hk). run (local2global_run s fd g ltac:(lia) Hg Hg32).
  pose proof (file_read_run s g f i 1024 a1 a2 r Hv ltac:(lia) Hf Hi Hok Hal Ha1 Ha2) as Hrd.
  rewrite (sbind_Ok _ _ _ _ _ (Hrd ltac:(lia) ltac:(lia) ltac:(lia) ltac:(lia))). done.
Qed.

Lemma last_read_run s fd g f i :
  reading s fd g f i -> fd_pos f = i_size i -> sys_read fd 1024 s = Ok (Done (-1) [], s).
Proof.
  intros [[Hv [Hfd Hg] [Hg32 Hf] [Hk Hp] (Hi & Hok & H139)] _ _] Hs.
  unfold sys_read. replace ((fd <? 0) || (fd =? 1) || (fd =? 2)) with false by lia. replace (fd =? 0) with false by lia.
  run (not_pipe_run s fd g f ltac:(lia) Hg Hg32 Hf Hk). run (local2global_run s fd g ltac:(lia) Hg Hg32).
  rewrite (sbind_Ok _ _ _ _ _ (file_read_eof s g f i 1024 ltac:(lia) Hf Hi Hs ltac:(lia) ltac:(lia) ltac:(lia))). done.
Qed.

(** A block that [sys_write] can print: shorter than its array, or with a NUL. *)
Definition printable (b : list Z) : Prop := Z.of_nat (length b) < 1024 \/ 0 ∈ b.

Lemma c_string_zeros b n : c_string (b ++ zeros n) = c_string b.
Proof.
  induction b as [|c b IH]; cbn [app c_string].
  - unfold zeros. by destruct (Z.to_nat n).
  - by destruct (c =? 0); [|rewrite IH].
Qed.

Lemma screen_write_run s fd g f i buf :
  reading s fd g f i -> Z.of_nat (length buf) <= 1024 ->
  (printable buf -> sys_write 1 buf (Z.of_nat (length buf)) s = Ok (Console (c_string buf) (i32 (Z.of_nat (length buf))), s))
  /\ (~ printable buf -> sys_write 1 buf (Z.of_nat (length buf)) s = Bad EFault).
Proof.
  intros [_ _ (g1 & f1 & Hg1 & Hr & Hne & Hf1 & Hk)] Hl. unfold sys_write. change (1 <? 0) with false. change (1 =? 1) with true. cbv iota.
  rewrite (sbind_Ok _ _ _ _ _ (not_pipe_run s 1 g1 f1 ltac:(lia) Hg1 Hr Hf1 Hk)). replace (1024 <? Z.of_nat (length buf)) with false by lia.
  assert (slice buf 0 (Z.of_nat (length buf)) = buf) as ->.
  { unfold slice. change (Z.to_nat 0) with 0%nat. rewrite drop_0, Nat2Z.id. by apply take_ge. }
  assert (splice (zeros 1024) 0 buf = buf ++ zeros (1024 - Z.of_nat (length buf))) as ->.
  { unfold splice, zeros. change (Z.to_nat 0) with 0%nat. rewrite take_0, drop_replicate. cbn [app Nat.add]. do 2 f_equal. lia. }
  rewrite c_string_zeros. unfold printable. split; intros Hb.
  - rewrite bool_decide_true; [done|]. apply elem_of_app. destruct Hb as [Hb|Hb]; [right|by left].
    apply elem_of_replicate. split; [done|lia].
  - rewrite bool_decide_false; [done|]. rewrite elem_of_app. intros [H|H]; [tauto|]. apply elem_of_replicate in H as [_ H]. lia.
Qed.

(** The first [n] blocks of 1024 bytes. *)
Fixpoint pieces (n : nat) (l : list Z) : list (list Z) :=
  match n with O => [] | Datatypes.S n' => take 1024 l :: pieces n' (drop 1024 l) end.

(** What is printed of them: each up to its first NUL. *)
Definition printed (bl : list (list Z)) : list Z := concat (c_string <$> bl).

Lemma pieces_lookup n j l b : pieces n l !! j = Some b -> (j < n)%nat /\ b = take 1024 (drop (1024 * j) l).
Proof.
  revert n l. induction j as [|j IH]; intros [|n] l H; try done; cbn [pieces lookup list_lookup] in H.
  - injection H as <-. rewrite drop_0. split; [lia|done].
  - apply IH in H as [Hj ->]. split; [lia|]. rewrite drop_drop. do 2 f_equal. lia.
Qed.

Lemma buffers_split n j l r : (j < n)%nat -> buffers n l r ->
  exists a1 a2 l', buffers j l (a1 :: a2 :: l') /\ a1 <> 0 /\ a2 <> 0.
Proof.
  revert n l. induction j as [|j IH]; intros [|n] l Hj Hb; try lia; destruct Hb as (a1 & a2 & l' & -> & H1 & H2 & Hb).
  - by exists a1, a2, l'.
  - destruct (IH n l' ltac:(lia) Hb) as (b1 & b2 & l2 & Hb2 & H3 & H4). exists b1, b2, l2. split; [|done]. by exists a1, a2, l'.
Qed.

Section OnFiles.
Context (fuel : nat) (fd g : Z) (i : inode) (heap keys : list Z).

Notation at_screen s sc := (Machine s sc heap keys).

Lemma read_answer s s' sc n bs :
  sys_read fd 1024 s = Ok (Done n bs, s') -> machine_calls fuel _ (C_read fd 1024) (at_screen s sc) = Ok (Some (n, bs), at_screen s' sc).
Proof.
  intros H. unfold machine_calls. apply returns_run. unfold read_call. by rewrite (sbind_Ok _ _ _ _ _ (on_fs_run _ (at_screen s sc) _ _ H)).
Qed.

(** One block of a file. *)
Lemma piece_read s f sc a1 a2 r :
  reading s fd g f i -> allocs s = a1 :: a2 :: r -> a1 <> 0 -> a2 <> 0 -> fd_pos f < i_size i ->
  let n := Z.min 1024 (i_size i - fd_pos f) in let b := file_bytes s i (fd_pos f) n in
  machine_calls fuel _ (C_read fd 1024) (at_screen s sc) = Ok (Some (Z.of_nat (length b), b), at_screen (after_read s g f r n) sc)
  /\ Z.of_nat (length b) = n /\ Forall byte b /\ reading (after_read s g f r n) fd g (advanced f n) i.
Proof.
  intros Hr Hal Ha1 Ha2 Hlt n b. pose proof (rg_open _ _ _ _ _ Hr) as [Hv _ _ [_ Hp] (_ & (Hio & _) & _)].
  destruct (file_bytes_ok s i (fd_pos f) n Hv Hio ltac:(lia) ltac:(lia) ltac:(lia)) as [Hb Hl]. fold b in Hb, Hl.
  split; [rewrite Hl; apply read_answer; by apply read_run with a1 a2|]. split; [done|]. split; [done|]. apply reading_after; [done|lia].
Qed.

Lemma piece_written s f sc b :
  reading s fd g f i -> Z.of_nat (length b) <= 1024 ->
  (printable b -> exists k, machine_calls fuel _ (C_write 1 b) (at_screen s sc) = Ok (Some k, at_screen s (sc ++ c_string b)))
  /\ (~ printable b -> machine_calls fuel _ (C_write 1 b) (at_screen s sc) = Bad EFault).
Proof.
  intros Hr Hl. destruct (screen_write_run s fd g f i b Hr Hl) as [H1 H2]. split; intros Hb.
  - eexists. unfold machine_calls. apply returns_run. unfold write_call.
    rewrite (sbind_Ok _ _ _ _ _ (on_fs_run _ (at_screen s sc) _ _ (H1 Hb))). reflexivity.
  - unfold machine_calls, returns. apply sbind_Bad. unfold write_call. apply sbind_Bad. unfold on_fs. cbn [mc_fs]. by rewrite (H2 Hb).
Qed.

(** [n] blocks of a file from its position on. *)
Lemma pieces_given n : forall s f sc l r,
  reading s fd g f i -> buffers n (allocs s) r -> l = file_bytes s i (fd_pos f) (i_size i - fd_pos f) ->
  1024 * (Z.of_nat n - 1) < i_size i - fd_pos f -> Forall printable (pieces n l) ->
  let m := Z.min (1024 * Z.of_nat n) (i_size i - fd_pos f) in
  gives (machine_calls fuel) fd (pieces n l) (at_screen s sc) (at_screen (after_read s g f r m) (sc ++ printed (pieces n l)))
  /\ reading (after_read s g f r m) fd g (advanced f m) i /\ allocs (after_read s g f r m) = r.
Proof.
  induction n as [|n IH]; intros s f sc l r Hr Hbuf Hl Hn Hp; cbv zeta.
  - cbn [buffers] in Hbuf. subst r. pose proof (rg_range _ _ _ _ _ Hr). replace (Z.min (1024 * Z.of_nat 0) (i_size i - fd_pos f)) with 0 by lia.
    destruct (of_slot _ _ _ _ _ (rg_open _ _ _ _ _ Hr)) as [_ Hf]. rewrite after_read_0 by done. unfold printed. cbn [pieces fmap list_fmap concat].
    rewrite app_nil_r. split; [constructor|]. split; [|done]. unfold advanced. rewrite Z.add_0_r. by destruct f.
  - destruct Hbuf as (a1 & a2 & l1 & Hal & Ha1 & Ha2 & Hbuf). set (k := Z.min 1024 (i_size i - fd_pos f)).
    destruct (piece_read s f sc a1 a2 l1 Hr Hal Ha1 Ha2 ltac:(lia)) as (Hrd & Hlen & Hby & Hr1). fold k in Hrd, Hlen, Hby, Hr1.
    pose proof (rg_open _ _ _ _ _ Hr) as [_ _ _ [_ Hpos] _].
    assert (file_bytes s i (fd_pos f) k = take 1024 l) as Hb.
    { subst l. unfold file_bytes, slice. rewrite take_take. f_equal. lia. }
    set (s1 := after_read s g f l1 k) in *. set (sc1 := sc ++ c_string (take 1024 l)).
    assert (drop 1024 l = file_bytes s1 i (fd_pos f + k) (i_size i - (fd_pos f + k))) as Hl1.
    { subst l. unfold file_bytes. change (disk s1) with (disk s). rewrite drop_slice by lia. f_equal; lia. }
    cbn [pieces] in Hp. apply Forall_cons in Hp as [Hp1 Hp]. rewrite Hb in Hrd, Hlen, Hby.
    destruct (proj1 (piece_written s1 (advanced f k) sc (take 1024 l) Hr1 ltac:(lia)) Hp1) as (ret & Hw). fold sc1 in Hw.
    destruct (IH s1 (advanced f k) sc1 (drop 1024 l) r Hr1 Hbuf Hl1 ltac:(cbn [advanced fd_pos]; lia) Hp) as (Hg & Hr2 & Ha).
    set (m1 := Z.min (1024 * Z.of_nat n) (i_size i - fd_pos (advanced f k))) in *.
    assert (Z.min (1024 * Z.of_nat (Datatypes.S n)) (i_size i - fd_pos f) = k + m1) as ->.
    { unfold m1. cbn [advanced fd_pos]. lia. }
    unfold s1 in Hg, Hr2, Ha. rewrite after_read_twice in Hg, Hr2, Ha. fold s1 in Hg.
    assert (advanced (advanced f k) m1 = advanced f (k + m1)) as Hadv by (unfold advanced; cbn [fd_pos fd_flag fd_inode]; by rewrite Z.add_assoc).
    rewrite Hadv in Hr2. split; [|by split]. cbn [pieces]. eapply gives_block; [exact Hrd|lia|exact Hby|exact Hw|].
    unfold printed. cbn [fmap list_fmap concat]. rewrite app_assoc. exact Hg.
Qed.

(** A file open at its start. *)
Lemma whole_bytes s : i_size i < 139 * 512 -> 0 <= i_size i -> fcontent (disk s) i = file_bytes s i 0 (i_size i).
Proof.
  intros Hs H0. unfold file_bytes, slice. change (Z.to_nat 0) with 0%nat. rewrite drop_0. symmetry. apply take_ge.
  unfold fcontent. pose proof (content_length (disk s) (inode_blocks (disk s) i) (i_size i) H0). lia.
Qed.

Lemma file_given s f sc r :
  reading s fd g f i -> fd_pos f = 0 ->
  let n := Z.to_nat ((i_size i + 1023) / 1024) in let cs := fcontent (disk s) i in
  buffers n (allocs s) r -> Forall printable (pieces n cs) ->
  gives (machine_calls fuel) fd (pieces n cs) (at_screen s sc) (at_screen (after_read s g f r (i_size i)) (sc ++ printed (pieces n cs)))
  /\ machine_calls fuel _ (C_read fd 1024) (at_screen (after_read s g f r (i_size i)) (sc ++ printed (pieces n cs)))
     = Ok (Some (-1, []), at_screen (after_read s g f r (i_size i)) (sc ++ printed (pieces n cs))).
Proof.
  intros Hr H0 n cs Hbuf Hp. pose proof (rg_range _ _ _ _ _ Hr) as Hle. rewrite H0 in Hle.
  pose proof (rg_open _ _ _ _ _ Hr) as [_ _ _ _ (_ & _ & H139)].
  assert (cs = file_bytes s i (fd_pos f) (i_size i - fd_pos f)) as Hcs by (rewrite H0, Z.sub_0_r; by apply whole_bytes).
  destruct (pieces_given n s f sc cs r Hr Hbuf Hcs ltac:(lia) Hp) as (Hg & Hr2 & _).
  replace (Z.min (1024 * Z.of_nat n) (i_size i - fd_pos f)) with (i_size i) in Hg, Hr2 by lia. split; [exact Hg|].
  apply read_answer, (last_read_run _ fd g _ i Hr2). cbn. lia.
Qed.

(** A block that cannot be printed. *)
Lemma file_overruns s f sc r j b :
  reading s fd g f i -> fd_pos f = 0 ->
  let n := Z.to_nat ((i_size i + 1023) / 1024) in let cs := fcontent (disk s) i in
  buffers n (allocs s) r -> pieces n cs !! j = Some b -> Forall printable (pieces j cs) -> ~ printable b ->
  exists s1 s2, gives (machine_calls fuel) fd (pieces j cs) (at_screen s sc) (at_screen s1 (sc ++ printed (pieces j cs)))
    /\ Z.of_nat (length b) <= 1024 /\ Forall byte b
    /\ machine_calls fuel _ (C_read fd 1024) (at_screen s1 (sc ++ printed (pieces j cs)))
       = Ok (Some (Z.of_nat (length b), b), at_screen s2 (sc ++ printed (pieces j cs)))
    /\ machine_calls fuel _ (C_write 1 b) (at_screen s2 (sc ++ printed (pieces j cs))) = Bad EFault.
Proof.
  intros Hr H0 n cs Hbuf Hj Hp Hb. pose proof (rg_range _ _ _ _ _ Hr) as Hle. rewrite H0 in Hle.
  pose proof (rg_open _ _ _ _ _ Hr) as [_ _ _ _ (_ & _ & H139)].
  assert (cs = file_bytes s i (fd_pos f) (i_size i - fd_pos f)) as Hcs by (rewrite H0, Z.sub_0_r; by apply whole_bytes).
  destruct (pieces_lookup _ _ _ _ Hj) as [Hjn Hbe]. destruct (buffers_split _ _ _ _ Hjn Hbuf) as (a1 & a2 & l & Hbj & Ha1 & Ha2).
  destruct (pieces_given j s f sc cs _ Hr Hbj Hcs ltac:(lia) Hp) as (Hg & Hr1 & Hal).
  replace (Z.min (1024 * Z.of_nat j) (i_size i - fd_pos f)) with (1024 * Z.of_nat j) in Hg, Hr1, Hal by lia.
  set (s1 := after_read s g f _ _) in *. set (f1 := advanced f _) in *. set (sc1 := sc ++ printed (pieces j cs)) in *.
  destruct (piece_read s1 f1 sc1 a1 a2 l Hr1 Hal Ha1 Ha2) as (Hrd & Hlen & Hby & Hr2); [cbn; lia|].
  set (k := Z.min 1024 (i_size i - fd_pos f1)) in *.
  assert (file_bytes s1 i (fd_pos f1) k = b) as Hbb.
  { subst b. rewrite Hcs. unfold file_bytes, slice. change (disk s1) with (disk s). rewrite H0, Z.sub_0_r. change (Z.to_nat 0) with 0%nat. rewrite drop_0.
    change (@drop Z) with (@skipn Z). change (@take Z) with (@firstn Z). rewrite skipn_firstn_comm, firstn_firstn. f_equal; [|f_equal].
    - unfold k, f1. cbn [advanced fd_pos]. lia.
    - unfold f1. cbn [advanced fd_pos]. lia. }
  rewrite Hbb in *. eexists. eexists. split; [exact Hg|]. split; [lia|]. split; [exact Hby|]. split; [exact Hrd|].
  by apply (piece_written _ _ sc1 b Hr2); [lia|].
Qed.
End OnFiles.

(** ** A file on a small volume *)

(** The volume of [demo_volume] with a file "f" of [n] bytes in its own blocks
    from 613 on. *)
Definition sized_blocks (n : Z) : list Z := seqZ 613 (n / 512 + 1) ++ zeros (12 - n / 512).

Definition sized_bits (n : Z) : bitmap := Bitmap 512 (2 ^ (n / 512 + 2) - 1 :: zeros 512).

Definition sized_disk (n : Z) : sectors :=
  <[4 := enc_inode demo_root_inode ++ enc_inode (Inode 1 n 0 false (sized_blocks n)) ++ zeros 360]> demo_volume_disk.

Definition sized_volume (n : Z) : fsys := set_block_bitmap (sized_bits n) (set_disk (sized_disk n) demo_volume).

Definition sized_inode (n : Z) : inode := Inode 1 n 1 false (sized_blocks n).

Definition sized_opened (n : Z) : fsys :=
  Fsys (sized_disk n) 0 1000 demo_sb (sized_bits n) (Bitmap 512 (3 :: zeros 512))
    (<[0xc1002000 := sized_inode n]> {[4096 := Inode 0 72 1 false (612 :: zeros 12)]}) [0xc1002000; 4096]
    (replicate 3 (File 0 0 0) ++ [File 0 0 0xc1002000] ++ replicate 28 (File 0 0 0)) {[root_dir := Dir 4096 0 (zeros 512)]}
    ([0; 1; 2; 3] ++ replicate 4 (-1)) 0 (drop 4 demo_blocks).

Lemma sized_open_run_600 : sys_open (chars "/f") O_RDONLY (sized_volume 600) = Ok (3, sized_opened 600).
Proof. vm_compute. reflexivity. Qed.

Lemma sized_open_run_1024 : sys_open (chars "/f") O_RDONLY (sized_volume 1024) = Ok (3, sized_opened 1024).
Proof. vm_compute. reflexivity. Qed.

(** The rest of a small volume and of its file is computed. *)
Ltac sized_volume_by_check :=
  constructor; try done;
  [ intros lba; apply sectors_by_check; by vm_compute
  | constructor; [by vm_compute|done|constructor; [by vm_compute|apply Forall_replicate; lia]]
  | constructor; [by vm_compute|done|constructor; [by vm_compute|apply Forall_replicate; lia]]
  | intros i Hi _; unfold bm_bits in Hi; cbn in *; rewrite max_lba_eq; lia ].

Lemma sized_opened_600 : volume_ok (sized_opened 600).
Proof. sized_volume_by_check. Qed.

Lemma sized_opened_1024 : volume_ok (sized_opened 1024).
Proof. sized_volume_by_check. Qed.

Definition used_check (s : fsys) (a : Z) : bool :=
  (data_start_lba (sb s) <? a) && (a <=? max_lba) && (a - data_start_lba (sb s) <? bm_bits (block_bitmap s))
  && bm_bit (block_bitmap s) (a - data_start_lba (sb s)).

Lemma sized_file_ok n :
  forallb (used_check (sized_opened n)) (seqZ 613 (n / 512 + 1)) = true -> 0 <= n < 12 * 512 - 512 -> file_ok (sized_opened n) (sized_inode n).
Proof.
  intros Hu Hn. set (k := Z.to_nat (n / 512 + 1)).
  assert (length (sized_blocks n) = 13%nat) as Hl by (unfold sized_blocks, zeros; rewrite length_app, length_seqZ, length_replicate; lia).
  assert (forall j, (k <= j < 13)%nat -> sized_blocks n !! j = Some 0) as Hz.
  { intros j Hj. unfold sized_blocks. rewrite lookup_app_r by (rewrite length_seqZ; lia). rewrite length_seqZ. apply lookup_replicate_2. lia. }
  assert (inode_ok (sized_inode n)) as Hio.
  { split; unfold is_u32; cbn [sized_inode i_no i_size i_open_cnts i_sectors]; try done; [lia|]. unfold sized_blocks. apply Forall_app. split.
    - apply Forall_seqZ. unfold is_u32. lia.
    - apply Forall_replicate. done. }
  assert (indirect (sized_inode n) = 0) as Hi by (unfold indirect; cbn [sized_inode i_sectors]; by rewrite Hz by lia).
  assert (take k (inode_blocks (sized_disk n) (sized_inode n)) ++ table (sized_inode n) = seqZ 613 (n / 512 + 1)) as Hb.
  { unfold table, inode_blocks. rewrite Hi, Z.eqb_refl, app_nil_r. cbn [sized_inode i_sectors].
    rewrite take_app_le by (rewrite length_take; lia). rewrite take_take. replace (k `min` 12)%nat with k by lia.
    unfold sized_blocks. rewrite take_app_le by (rewrite length_seqZ; lia). apply take_ge. rewrite length_seqZ. lia. }
  split; [done|]. split; [cbn; lia|]. right. change (Z.to_nat _) with k. constructor; [done|lia| | | |].
  - cbn [disk sized_opened]. rewrite Hb. apply Forall_forall. intros a Ha. rewrite forallb_forall in Hu.
    apply list_elem_of_In, Hu in Ha. unfold used_check in Ha.
    apply andb_true_iff in Ha as [Ha H4]. apply andb_true_iff in Ha as [Ha H3]. apply andb_true_iff in Ha as [H1 H2].
    split; [lia|]. split; [lia|exact H4].
  - cbn [disk sized_opened]. rewrite Hb. apply NoDup_seqZ.
  - intros j Hj. apply Hz. lia.
  - rewrite Hi. lia.
Qed.

Lemma sized_reading n :
  volume_ok (sized_opened n) -> forallb (used_check (sized_opened n)) (seqZ 613 (n / 512 + 1)) = true -> 0 <= n < 12 * 512 - 512 ->
  reading (sized_opened n) 3 3 (File 0 0 0xc1002000) (sized_inode n).
Proof.
  intros Hv Hu Hn. split.
  - split; try done. split; [done|]. split; [by apply sized_file_ok|cbn; lia].
  - cbn. lia.
  - exists 1, (File 0 0 0). by split_and!.
Qed.

Lemma sized_reading_600 : reading (sized_opened 600) 3 3 (File 0 0 0xc1002000) (sized_inode 600).
Proof. apply sized_reading; [apply sized_opened_600|by vm_compute|lia]. Qed.

Lemma sized_reading_1024 : reading (sized_opened 1024) 3 3 (File 0 0 0xc1002000) (sized_inode 1024).
Proof. apply sized_reading; [apply sized_opened_1024|by vm_compute|lia]. Qed.

(** ** Properties *)

(** C31: Cat, given the absolute path of a file of up to 71167 bytes that it can
    open, copies the file to the screen: it reads the file in blocks of 1024
    bytes, prints each block as a string, that is up to its first NUL byte, closes
    the file and returns 66.  This is so when every block is shorter than 1024
    bytes or has a NUL in it, and the kernel has the two buffers that each read
    allocates.  A full block without a NUL fills the array of [sys_write], and the
    printing reads on behind that array ([EFault] in the model), after the blocks
    before it were printed. *)
Theorem cat_prints_file (fuel : nat) (M : memory_map) (m : cmem) (w : machine) (a p : Z) (u : list Z) (argv : list Z)
    (fd : Z) (s : fsys) (g : Z) (f : file) (i : inode) (r heap : list Z) :
  cat_memory M m a p u -> argv !! 1%nat = Some a -> mc_heap w = p :: heap ->
  sys_open u O_RDONLY (mc_fs w) = Ok (fd, s) -> reading s fd g f i -> fd_pos f = 0 ->
  let n := Z.to_nat ((i_size i + 1023) / 1024) in let cs := fcontent (disk s) i in
  buffers n (allocs s) r ->
  (Forall printable (pieces n cs) -> forall k s', sys_close fd (after_read s g f r (i_size i)) = Ok (k, s') ->
     exists m', does (machine_calls fuel) (cat M 2 argv) m w 66 m'
       (Machine s' (mc_screen w ++ printed (pieces n cs)) heap (mc_keys w)))
  /\ (forall j b, pieces n cs !! j = Some b -> Forall printable (pieces j cs) -> ~ printable b ->
       exists w', stops (machine_calls fuel) (cat M 2 argv) m w (Crashed EFault) w'
         /\ mc_screen w' = mc_screen w ++ printed (pieces j cs)).
Proof.
  intros Hm Hargv Hheap Hopen Hread H0 n cs Hbuf. pose proof (of_fd _ _ _ _ _ (rg_open _ _ _ _ _ Hread)) as [Hfd _].
  set (w1 := Machine (mc_fs w) (mc_screen w) heap (mc_keys w)). set (w2 := Machine s (mc_screen w) heap (mc_keys w)).
  assert (machine_calls fuel _ (C_malloc 1024) w = Ok (Some p, w1)) as Hmal
    by (unfold machine_calls; apply returns_run; unfold malloc_call; by rewrite Hheap).
  assert (machine_calls fuel _ (C_open u O_RDONLY) w1 = Ok (Some fd, w2)) as Ho
    by (unfold machine_calls; apply returns_run; by apply (on_fs_run _ w1)).
  destruct (cat_prologue (machine_calls fuel) M m w w1 w2 a p u fd argv Hm Hargv Hmal Ho ltac:(lia)) as (m1 & Hr1 & Hrest). split.
  - intros Hp k s' Hclose. destruct (file_given fuel fd g i heap (mc_keys w) s f (mc_screen w) r Hread H0 Hbuf Hp) as [Hg Hend].
    destruct (cat_loop_run _ fd p _ m1 _ _ _ Hg Hend Hr1) as (m2 & Hloop).
    exists m2. apply Hrest. eapply (does_bind (machine_calls fuel)); [exact Hloop|].
    eapply (does_bind (machine_calls fuel)); [apply does_call; reflexivity|].
    eapply (does_bind (machine_calls fuel)); [|apply does_ret]. apply does_call. unfold machine_calls. apply returns_run.
    by apply (on_fs_run _ (Machine _ _ _ _)).
  - intros j b Hj Hp Hb. destruct (file_overruns fuel fd g i heap (mc_keys w) s f (mc_screen w) r j b Hread H0 Hbuf Hj Hp Hb)
      as (s1 & s2 & Hg & Hl & Hby & Hrd & Hwr).
    eexists. split; [apply Hrest; apply (stops_first (machine_calls fuel)); by eapply cat_loop_stops|done].
Qed.

(** A memory with "/f" at 500, the array of cat at 4000. *)
Definition demo_cat_memory : cmem := put_bytes 500 [47; 102; 0] (put_bytes 4000 (replicate 512 0) ∅).

Lemma demo_cat_ok : cat_memory demo_map demo_cat_memory 500 0x8048000 (chars "/f").
Proof.
  split; try done.
  - split; [done|]. apply room_by_check. by vm_compute.
  - by apply string_check; vm_compute.
  - left. by vm_compute.
  - split; [done|]. split; right; by vm_compute.
Qed.

(** "cat /f" prints a file of 600 bytes up to its first NUL; of a file of 1024
    bytes without a NUL it prints nothing and reads on behind the array. *)
Lemma cat_prints_file_witness :
  (exists k s' m',
    does (machine_calls 64) (cat demo_map 2 [0; 500]) demo_cat_memory (Machine (sized_volume 600) [] [0x8048000] []) 66 m'
      (Machine s' (printed (pieces 1 (fcontent (disk (sized_opened 600)) (sized_inode 600)))) [] [])
    /\ sys_close 3 (after_read (sized_opened 600) 3 (File 0 0 0xc1002000) (drop 6 demo_blocks) 600) = Ok (k, s'))
  /\ exists w', stops (machine_calls 64) (cat demo_map 2 [0; 500]) demo_cat_memory (Machine (sized_volume 1024) [] [0x8048000] [])
      (Crashed EFault) w' /\ mc_screen w' = [].
Proof.
  split.
  - destruct (cat_prints_file 64 demo_map demo_cat_memory (Machine (sized_volume 600) [] [0x8048000] []) 500 0x8048000 (chars "/f") [0; 500]
      3 (sized_opened 600) 3 (File 0 0 0xc1002000) (sized_inode 600) (drop 6 demo_blocks) []) as [H _].
    + apply demo_cat_ok.
    + reflexivity.
    + reflexivity.
    + apply sized_open_run_600.
    + apply sized_reading_600.
    + reflexivity.
    + exists 0xc1004000, 0xc1005000, (drop 6 demo_blocks). split; [reflexivity|]. split; [discriminate|]. split; [discriminate|reflexivity].
    + destruct (sys_close 3 (after_read (sized_opened 600) 3 (File 0 0 0xc1002000) (drop 6 demo_blocks) 600)) as [[k s']|e] eqn:Hc.
      * exists k, s'. assert (Forall printable (pieces 1 (fcontent (disk (sized_opened 600)) (sized_inode 600)))) as Hp.
        { constructor; [left; vm_compute; reflexivity|constructor]. }
        destruct (H Hp k s' Hc) as [m' Hm]. exists m'. split; [exact Hm|reflexivity].
      * exfalso. revert Hc. vm_compute. discriminate.
  - destruct (cat_prints_file 64 demo_map demo_cat_memory (Machine (sized_volume 1024) [] [0x8048000] []) 500 0x8048000 (chars "/f") [0; 500]
      3 (sized_opened 1024) 3 (File 0 0 0xc1002000) (sized_inode 1024) (drop 6 demo_blocks) []) as [_ H].
    + apply demo_cat_ok.
    + reflexivity.
    + reflexivity.
    + apply sized_open_run_1024.
    + apply sized_reading_1024.
    + reflexivity.
    + exists 0xc1004000, 0xc1005000, (drop 6 demo_blocks). split; [reflexivity|]. split; [discriminate|]. split; [discriminate|reflexivity].
    + apply (H 0%nat (fcontent (disk (sized_opened 1024)) (sized_inode 1024))); [vm_compute; reflexivity|constructor|].
      intros [Hl|Hl]; [revert Hl; vm_compute; discriminate|].
      revert Hl. apply (bool_decide_unpack _). vm_compute. reflexivity.
Defined.
