(* ===== verification/ShellSpec.v ===== *)
(** * ShellSpec: what the command line does with a line

    The first word of a line selects the command, the others are its arguments;
    a line of blanks stops the shell. *)
From S2P Require Import Prelude CString Stdio Paths Shell Disk Fsys Inode Dir File Fs Program Builtin CommandLine ProgramSpec BuiltinSpec.

Lemma keeps_skip_tokens n p t : keeps (skip_tokens n p t).
Proof. revert p. induction n as [|n IH]; intros p; cbn [skip_tokens]; keeps. Qed.

Lemma keeps_skip_word n p t : keeps (skip_word n p t).
Proof. revert p. induction n as [|n IH]; intros p; cbn [skip_word]; keeps. Qed.
#[export] Hint Resolve keeps_skip_tokens keeps_skip_word : keeps.

Lemma keeps_parse_loop n f p argv argc t : keeps (parse_loop n f p argv argc t).
Proof. revert p argv argc. induction n as [|n IH]; intros p argv argc; cbn [parse_loop]; keeps. Qed.
#[export] Hint Resolve keeps_parse_loop : keeps.

Lemma keeps_cmd_parse n f p t : keeps (cmd_parse n f p t).
Proof. unfold cmd_parse, not_null, sassert. keeps. Qed.

Section Dispatch.
Context (M : memory_map) (texts : list string) (HL : data_layout M texts).
Context (Hnames : Forall (fun b => builtin_name b ∈ texts) builtins).
Context {S : Type} (h : forall X, callE X -> st S (option X)).

(** The built-in command of a name. *)
Definition named_builtin (w : list Z) : option builtin :=
  snd <$> list_find (fun b => chars (builtin_name b) = w) builtins.

Lemma find_builtin_run bs m s a w :
  data_at M texts m -> a <> 0 -> string_at m a w -> Forall (fun b => builtin_name b ∈ texts) bs ->
  does h (find_builtin M bs a) m s (snd <$> list_find (fun b => chars (builtin_name b) = w) bs) m s.
Proof.
  intros Hd Ha Hw. induction 1 as [|b bs Hb _ IH]; [apply does_ret|]. cbn [find_builtin list_find].
  eapply does_bind; [apply (is_not_run M texts HL h (builtin_name b) m s a w Hd Hb); [destruct b; vm_compute; lia|done|done]|].
  case_bool_decide as Hc; [rewrite decide_True by done|rewrite decide_False by done]; cbn [negb]; [apply does_ret|].
  cbn [fmap option_fmap option_map snd]. assert (forall o : option (nat * builtin), snd <$> (prod_map Datatypes.S id <$> o) = snd <$> o) as Ho
    by (by intros [[]|]).
  rewrite Ho. exact IH.
Qed.

(** The words of a line, as [cmd_parse] leaves them. *)
Lemma parse_line_run m line :
  data_at M texts m -> string_at m (cmd_line M) line -> (length line < 512)%nat -> (length (words 32 line) <= 16)%nat ->
  exists m' ptrs, cmd_parse (mm_fuel M) (mm_fuel M) (cmd_line M) 32 m
      = Ok ((Z.of_nat (length (words 32 line)), ptrs ++ replicate (16 - length ptrs) 0), m')
    /\ Forall2 (string_at m') ptrs (words 32 line) /\ data_at M texts m' /\ m' !! 0 = m !! 0.
Proof.
  intros Hd Hs Hl Hw. pose proof (dl_fuel _ _ HL) as Hf.
  assert ((cmd_line M, MAX_PATH_LEN) ∈ areas M) as Hin by (unfold areas; set_solver).
  assert (cmd_line M <> 0) as Hz by (pose proof (dl_areas _ _ HL) as Hp; rewrite Forall_forall in Hp; specialize (Hp _ Hin); cbn in Hp; lia).
  destruct (parse_loop_spec 32 ltac:(lia) (words 32 line) (mm_fuel M) (mm_fuel M) m (cmd_line M) line (replicate 16 0) 0)
    as (m' & ptrs & Hrun & Hall & Ho & _); try done; try lia.
  exists m', ptrs. assert (cmd_parse (mm_fuel M) (mm_fuel M) (cmd_line M) 32 m
      = Ok ((Z.of_nat (length (words 32 line)), ptrs ++ replicate (16 - length ptrs) 0), m')) as Hcp.
  { unfold cmd_parse. run (not_null_run (cmd_line M) m Hz). change (Z.to_nat MAX_ARG_NR) with 16%nat. rewrite Hrun, Z.add_0_l.
    unfold stored. change (Z.to_nat 0) with 0%nat. by rewrite take_0, app_nil_l, Nat.add_0_l, drop_replicate. }
  split; [done|]. split; [done|].
  assert (0 < cmd_line M) as Hpos by (pose proof (dl_areas _ _ HL) as Hp; rewrite Forall_forall in Hp; exact (Hp _ Hin)).
  split; [|apply Ho; lia]. eapply (data_only M texts HL m m' [(cmd_line M, MAX_PATH_LEN)]); [done| |set_solver].
  apply only_outside; [|by eapply keeps_cmd_parse]. intros a Ha. apply Ho. unfold MAX_PATH_LEN in Ha. lia.
Qed.


(** The line is not empty. *)
Lemma line_head_run m line s : string_at m (cmd_line M) line -> line <> [] ->
  exists c, does h (local (ld (cmd_line M))) m s c m s /\ (c =? 0) = false.
Proof.
  intros Hs Hl. destruct (name_test m (cmd_line M) line Hs) as (c & Hc & Hz). exists c.
  split; [by apply does_local, run_ld|]. by rewrite Hz, bool_decide_false.
Qed.

(** [strcmp] with NULL fails its assertion. *)
Lemma null_command_stops m s argv argc : argv !! 0%nat = Some 0 -> h _ (C_stuck EPanic) s = Bad EPanic ->
  stops h (run_command M argc argv) m s (Crashed EPanic) s.
Proof.
  intros Ha Hh. unfold run_command. eapply stops_next.
  { apply (does_local h _ m s 0 m). unfold rd. rewrite bool_decide_true by lia. change (Z.to_nat 0) with 0%nat. by rewrite Ha. }
  apply stops_first. unfold builtins. cbn [find_builtin]. apply stops_first. unfold is_not. apply stops_first.
  apply stops_local; [|done]. unfold strcmp. apply sbind_Bad. change (0 =? 0) with true. cbn [negb]. by rewrite andb_false_r.
Qed.

(** C30: The command line runs what a line of at most 16 words and fewer than 512
    characters says (a longer list of words is written behind the array of
    arguments, which this does not cover).  The line is cut at its blanks;
    the first word selects a built-in command, whose arguments are pointers to
    the words, or else a program that a child process runs; then the array of
    arguments is cleared.  A line of nothing but blanks stops the shell for good:
    there is no first word, and the comparison with NULL fails an assertion. *)
Theorem shell_runs_line (m : cmem) (s : S) (line : list Z) (argv0 : list Z) :
  data_at M texts m -> m !! 0 = None -> string_at m (cmd_line M) line -> (length line < 512)%nat ->
  line <> [] -> (length (words 32 line) <= 16)%nat ->
  (words 32 line = [] -> h _ (C_stuck EPanic) s = Bad EPanic -> stops h (handle_line M argv0) m s (Crashed EPanic) s)
  /\ (forall w ws, words 32 line = w :: ws -> exists m1 ptrs,
        let argc := Z.of_nat (length (w :: ws)) in
        let argv := ptrs ++ replicate (16 - length ptrs) 0 in
        Forall2 (string_at m1) ptrs (w :: ws) /\ data_at M texts m1
        /\ forall m2 s2,
          match named_builtin w with
          | Some b => does h (run_builtin M b argc argv) m1 s tt m2 s2
          | None => exists argv', does h (external_command M argv) m1 s argv' m2 s2
          end -> does h (handle_line M argv0) m s (inl (replicate 16 0)) m2 s2).
Proof.
  intros Hd H0 Hs Hl Hne Hw. destruct (line_head_run m line s Hs Hne) as (c & Hld & Hc).
  destruct (parse_line_run m line Hd Hs Hl Hw) as (m1 & ptrs & Hrun & Hall & Hd1 & H01). split.
  - intros Hnil Hh. rewrite Hnil in Hrun, Hall. apply Forall2_nil_inv_r in Hall as ->. unfold handle_line.
    eapply stops_next; [exact Hld|]. rewrite Hc. eapply stops_next; [apply does_local, Hrun|].
    apply stops_first. by apply null_command_stops.
  - intros w ws Hws. rewrite Hws in *. exists m1, ptrs. cbv zeta. split; [done|]. split; [done|]. intros m2 s2 Hcmd.
    destruct (Forall2_cons_inv_r _ _ _ _ Hall) as (a & ptrs' & Ha & _ & ->).
    assert (a <> 0) as Haz.
    { intros ->. rewrite H0 in H01. destruct Ha as [_ Hb]. destruct w; destruct Hb as [Hb _]; congruence. }
    unfold handle_line. eapply does_bind; [exact Hld|]. rewrite Hc. eapply does_bind; [apply does_local, Hrun|].
    cbn [fst snd]. rewrite (proj2 (Z.eqb_neq _ (-1))) by lia. change (Z.to_nat MAX_ARG_NR) with 16%nat.
    assert (exists argv', does h (run_command M (Z.of_nat (length (w :: ws))) ((a :: ptrs') ++ replicate (16 - length (a :: ptrs')) 0)) m1 s argv' m2 s2)
      as [argv' Hrc].
    { unfold run_command. destruct (named_builtin w) as [b|] eqn:Hb.
      - eexists. eapply does_bind; [by apply (does_local h _ m1 s a m1)|].
        eapply does_bind; [apply (find_builtin_run builtins m1 s a w Hd1 Haz Ha Hnames)|]. fold (named_builtin w). rewrite Hb.
        eapply does_bind; [exact Hcmd|apply does_ret].
      - destruct Hcmd as [argv' Hcmd]. exists argv'. eapply does_bind; [by apply (does_local h _ m1 s a m1)|].
        eapply does_bind; [apply (find_builtin_run builtins m1 s a w Hd1 Haz Ha Hnames)|]. fold (named_builtin w). by rewrite Hb. }
    eapply does_bind; [exact Hrc|apply does_ret].
Qed.
End Dispatch.

(** ** A shell in memory *)

Definition shell_texts : list string :=
  [".."; "."; "/"; "ls"; "cd"; "pwd"; "ps"; "clear"; "mkdir"; "rmdir"; "rm"; "[rabbit@localhost %s]$ "; "%s\n"; "%s "; "\n"; "%s";
   "-l"; "-h"; "total: %d\n"; "%c  %d  %d  %s\n"; "cd: no such directory %s\n"]%string.

Definition shell_literal (t : list Z) : Z :=
  match list_find (fun s => chars s = t) shell_texts with
  | Some (i, _) => 10000 + 100 * (Z.of_nat i + 1)
  | None => 0
  end.

Definition shell_map : memory_map := MemoryMap 1024 shell_literal 1000 2000 3000 4000 5000 6000 8000.

(** The buffers are cleared but for the line. *)
Definition shell_memory (line : list Z) : cmem :=
  put_bytes 1000 (line ++ replicate (512 - length line) 0) (put_bytes 2000 (replicate 512 0) (put_bytes 3000 (replicate 512 0)
    (put_bytes 4000 (replicate 512 0) (put_bytes 5000 (replicate 16 0) (put_bytes 6000 (replicate 512 0)
      (put_bytes 8000 (replicate 1024 0)
        (foldr (fun t m => put_bytes (shell_literal (chars t)) (chars t ++ [0]) m) ∅ shell_texts))))))).

Lemma shell_layout : data_layout shell_map shell_texts.
Proof. apply layout_by_check. by vm_compute. Qed.

(** A line of three blanks, and the line "  clear". *)
Lemma shell_runs_line_witness :
  stops tiny_kernel (handle_line shell_map []) (shell_memory [32; 32; 32]) demo_tiny (Crashed EPanic) demo_tiny
  /\ exists m', does tiny_kernel (handle_line shell_map []) (shell_memory (chars "  clear")) (Tiny [] [47] [65; 66])
       (inl (replicate 16 0)) m' (Tiny [] [47] []).
Proof.
  split.
  - destruct (shell_runs_line shell_map shell_texts shell_layout ltac:(apply (bool_decide_unpack _); vm_compute; reflexivity)
      tiny_kernel (shell_memory [32; 32; 32]) demo_tiny [32; 32; 32] []) as [H _].
    + apply data_by_check. by vm_compute.
    + by vm_compute.
    + by apply string_check; vm_compute.
    + vm_compute. lia.
    + discriminate.
    + vm_compute. lia.
    + apply H; reflexivity.
  - destruct (shell_runs_line shell_map shell_texts shell_layout ltac:(apply (bool_decide_unpack _); vm_compute; reflexivity)
      tiny_kernel (shell_memory (chars "  clear")) (Tiny [] [47] [65; 66]) (chars "  clear") []) as [_ H].
    + apply data_by_check. by vm_compute.
    + by vm_compute.
    + by apply string_check; vm_compute.
    + vm_compute. lia.
    + discriminate.
    + vm_compute. lia.
    + destruct (H (chars "clear") [] ltac:(reflexivity)) as (m1 & ptrs & _ & _ & Hrun). exists m1. apply Hrun.
      apply does_call. reflexivity.
Defined.
