(* ===== verification/PathSpec.v ===== *)
(** * PathSpec: search_file follows the tree of directories on the disk

    The reference is a walk over inode numbers that reads only the disk.  The
    function of fs/fs.c opens and closes directories on its way; it ends with one
    directory open, and closing that one gives the state before the search. *)
From S2P Require Import Prelude CString Paths Bitmap Disk Fsys Inode Dir File FileSpec DirSpec Fs Program Builtin CommandLine Command ProgramSpec BuiltinSpec Machine CommandSpec.

(** ** The walk *)

(** The blocks of the inode with a number, as the disk has it. *)
Definition blocks_of (d : sectors) (p : super_block) (no : Z) : list Z := inode_blocks d (disk_inode d p no).

(** Where a search ends: the inode number or -1, the path searched, the directory
    that stays open, and what was found. *)
Record walked : Type := Walked {
  wk_no : Z;
  wk_path : list Z;
  wk_dir : Z;
  wk_type : file_types
}.

(** From directory [cur], reached from [parent]; a regular file ends the walk
    even when names are left. *)
Fixpoint walk (d : sectors) (p : super_block) (cur parent : Z) (searched : list Z) (names : list (list Z)) {struct names} : walked :=
  match names with
  | [] => Walked cur searched parent FT_DIRECTORY
  | name :: names' =>
    let searched := searched ++ slash ++ name in
    match dir_find d (blocks_of d p cur) name with
    | None => Walked (-1) searched cur FT_UNKNOWN
    | Some e =>
      if f_type e =? ft_code FT_DIRECTORY then walk d p (de_i_no e) cur searched names'
      else Walked (de_i_no e) searched cur FT_REGULAR
    end
  end.

(** ** What the search needs *)

(** [D] holds of the numbers of the directories.  The copies of directories in
    memory have the blocks of those on the disk; every entry names a directory
    or a regular file. *)
Record tree_ok (s : fsys) (D : Z -> Prop) : Prop := {
  to_volume : volume_ok s;
  to_open : open_ok s;
  to_root : D 0 /\ exists p i, dirs s !! root_dir = Some p /\ is_open s 0 (d_inode p) i;
  to_dir : forall no, D no -> 0 <= no < 4096 /\ i_no (disk_inode (disk s) (sb s) no) = no
             /\ dir_ok s (disk_inode (disk s) (sb s) no);
  to_copy : forall no p i, D no -> is_open s no p i ->
              dir_ok s i /\ inode_blocks (disk s) i = blocks_of (disk s) (sb s) no /\ i_open_cnts i + 1 < 2 ^ 32;
  to_entry : forall no name e, D no -> name <> [] -> dir_find (disk s) (blocks_of (disk s) (sb s) no) name = Some e ->
               (f_type e = ft_code FT_DIRECTORY /\ D (de_i_no e))
               \/ (f_type e = ft_code FT_REGULAR /\ 0 <= de_i_no e < 2 ^ 31)
}.

(** What the allocator returns next: addresses not in use. *)
Record supply (s : fsys) (r : list Z) (n : nat) : Prop := {
  su_enough : (n <= length r)%nat;
  su_nodup : NoDup r;
  su_free : Forall (fun a => a <> 0 /\ a <> root_dir /\ dirs s !! a = None /\ inodes s !! a = None) r
}.

Lemma supply_cons s a r n : supply s (a :: r) (S n) ->
  a <> 0 /\ a <> root_dir /\ dirs s !! a = None /\ inodes s !! a = None /\ a ∉ r /\ supply s r n.
Proof.
  intros [He Hn Hf]. apply NoDup_cons in Hn as [Ha Hn]. apply Forall_cons_1 in Hf as [(H1 & H2 & H3 & H4) Hf].
  cbn [length] in He. split_and!; try done. split; [lia|done|done].
Qed.

Lemma supply_some s r n : supply s r (S n) -> exists a r', r = a :: r'.
Proof. intros [He _ _]. destruct r as [|a r]; [cbn in He; lia|]. by exists a, r. Qed.

Lemma supply_le s r n k : supply s r n -> (k <= n)%nat -> supply s r k.
Proof. intros [He Hn Hf] Hk. split; [lia|done|done]. Qed.

(** Directory [no] is open at [P], and closing it leads back to [s0]. *)
Record held (s0 : fsys) (P no : Z) (s : fsys) : Prop := {
  hd_dir : exists p i, dirs s !! P = Some p /\ inodes s !! d_inode p = Some i /\ i_no i = no
             /\ dir_ok s i /\ inode_blocks (disk s) i = blocks_of (disk s0) (sb s0) no;
  hd_disk : disk s = disk s0 /\ volume_ok s;
  hd_close : forall r, dir_close P (set_allocs r s) = Ok (tt, set_allocs r s0)
}.

Lemma dir_ok_allocs s i r : dir_ok s i -> dir_ok (set_allocs r s) i.
Proof. intros [H1 H2 H3 H4 H5]. by split. Qed.

Lemma dir_ok_cnts s s' c i :
  dir_ok s i -> is_u32 c -> sb s' = sb s -> disk s' = disk s -> block_bitmap s' = block_bitmap s -> dir_ok s' (set_i_open_cnts c i).
Proof.
  intros [[H1 H2 H3 H4 H5] Hd Hb Hk Hs] Hc E1 E2 E3. split; [by split|done| |done|done].
  intros k b Hlt Hl H0. unfold dir_block. rewrite E1, E2, E3. by apply (Hb k b).
Qed.

Lemma held_allocs s0 P no s r : held s0 P no s -> held s0 P no (set_allocs r s).
Proof.
  intros [(p & i & Hp & Hi & Hn & Hd & Hb) [Hdisk Hv] Hc]. split.
  - exists p, i. split_and!; try done. by apply dir_ok_allocs.
  - split; [done|]. by destruct Hv.
  - intros r'. specialize (Hc r'). by destruct s.
Qed.

Lemma set_allocs_twice r r' s : set_allocs r (set_allocs r' s) = set_allocs r s.
Proof. by destruct s. Qed.

Section Search.
Context (s0 : fsys) (D : Z -> Prop) (HT : tree_ok s0 D).

Lemma allocs_open r no p i : is_open (set_allocs r s0) no p i <-> is_open s0 no p i.
Proof. done. Qed.

Lemma root_held r : held s0 root_dir 0 (set_allocs r s0).
Proof.
  destruct (to_root _ _ HT) as (HD & p & i & Hp & Hi). destruct (to_copy _ _ HT 0 _ i HD Hi) as (Hd & Hb & _).
  destruct Hi as (_ & Hi & Hn). split.
  - exists p, i. split_and!; try done. by apply dir_ok_allocs.
  - split; [done|]. by destruct (to_volume _ _ HT).
  - intros r'. unfold dir_close. change (root_dir =? root_dir) with true. by rewrite set_allocs_twice.
Qed.

(** The state with a directory opened over an inode that is there. *)
Lemma dir_close_again P q i r :
  P <> root_dir -> dirs s0 !! P = None -> inodes s0 !! q = Some i -> 1 <= i_open_cnts i -> i_open_cnts i + 1 < 2 ^ 32 ->
  dir_close P (set_dirs (<[P := Dir q 0 (zeros 512)]> (dirs s0)) (set_inodes (<[q := set_i_open_cnts (i_open_cnts i + 1) i]> (inodes s0)) (set_allocs r s0)))
    = Ok (tt, set_allocs r s0).
Proof.
  intros HP Hd Hi H1 H2. unfold dir_close. rewrite (proj2 (Z.eqb_neq _ _) HP).
  set (s := set_dirs _ _). assert (dir_at P s = Ok (Dir q 0 (zeros 512), s)) as Hat.
  { unfold dir_at, s. cbn [dirs set_dirs]. by rewrite lookup_insert_eq. }
  run Hat. cbn [d_inode].
  run (close_more_run s q (set_i_open_cnts (i_open_cnts i + 1) i) ltac:(cbn; by rewrite lookup_insert_eq) ltac:(cbn; lia)).
  unfold upd. do 2 f_equal. subst s. cbn [i_open_cnts set_i_open_cnts inodes dirs set_inodes set_dirs].
  rewrite insert_insert_eq. replace (i_open_cnts i + 1 - 1) with (i_open_cnts i) by lia.
  rewrite set_cnts_back, (insert_id (inodes s0)), delete_insert_id by done. by destruct s0.
Qed.

Lemma dir_close_new P q i r :
  P <> root_dir -> dirs s0 !! P = None -> inodes s0 !! q = None -> q ∉ open_inodes s0 -> i_open_cnts i = 1 ->
  dir_close P (set_dirs (<[P := Dir q 0 (zeros 512)]> (dirs s0))
      (set_open_inodes (q :: open_inodes s0) (set_inodes (<[q := i]> (inodes s0)) (set_allocs r s0))))
    = Ok (tt, set_allocs r s0).
Proof.
  intros HP Hd Hi Hq H1. unfold dir_close. rewrite (proj2 (Z.eqb_neq _ _) HP).
  set (s := set_dirs _ _). assert (dir_at P s = Ok (Dir q 0 (zeros 512), s)) as Hat.
  { unfold dir_at, s. cbn [dirs set_dirs]. by rewrite lookup_insert_eq. }
  run Hat. cbn [d_inode].
  run (close_last_run s q i ltac:(cbn; by rewrite lookup_insert_eq) ltac:(cbn; set_solver) H1).
  unfold upd. do 2 f_equal. subst s. cbn [open_inodes inodes dirs set_inodes set_dirs set_open_inodes].
  rewrite filter_fresh, delete_insert_id, delete_insert_id by done. by destruct s0.
Qed.

Lemma dir_open_held no r n :
  D no -> supply s0 r (3 + n) ->
  exists P s r', dir_open no (set_allocs r s0) = Ok (P, s) /\ held s0 P no s /\ allocs s = r' /\ supply s0 r' n.
Proof.
  intros HD Hs. destruct (supply_some _ _ _ Hs) as (P & r1 & ->).
  destruct (supply_cons _ _ _ _ Hs) as (HP0 & HPr & HPd & HPi & HPn & Hs1). pose proof (to_open _ _ HT) as Ho.
  destruct (to_dir _ _ HT no HD) as (Hno & Hnoi & Hdok). pose proof (to_volume _ _ HT) as Hv.
  unfold dir_open. rewrite (sbind_Ok _ _ _ _ _ (malloc_run 520 P r1 (set_allocs (P :: r1) s0) eq_refl)). rewrite set_allocs_twice.
  set (s1 := set_allocs r1 s0). assert (open_ok s1) as Ho1 by (by destruct Ho).
  assert (volume_ok s1) as Hv1 by (by destruct Hv).
  destruct (open_or_not s1 no Ho1) as [(q & i & _ & Hq)|[_ Hn]].
  - destruct (to_copy _ _ HT no q i HD Hq) as (Hdi & Hbi & Hci).
    destruct (open_again s1 no q i Ho1 Hq Hci) as [Hrun _]. run Hrun. replace (P =? 0) with false by lia.
    destruct Hq as (Hq & Hi & Hin). destruct (oo_inode s0 Ho q Hq) as (i' & Hi' & Hcnt). change (inodes s1) with (inodes s0) in *.
    rewrite Hi in Hi'. injection Hi' as <-.
    eexists P, _, r1. split; [done|]. split; [|split; [done|by eapply supply_le; [exact Hs1|lia]]]. split.
    + exists (Dir q 0 (zeros 512)), (set_i_open_cnts (i_open_cnts i + 1) i).
      cbn [dirs inodes set_dirs set_inodes d_inode]. rewrite !lookup_insert_eq. split_and!; try done.
      apply (dir_ok_cnts s0); try done. unfold is_u32. lia.
    + split; [done|]. by destruct Hv1.
    + intros r'. rewrite <- (dir_close_again P q i r') by (done || lia). by destruct s0.
  - destruct (supply_some _ _ _ Hs1) as (q & r2 & ->). destruct (supply_cons _ _ _ _ Hs1) as (Hq0 & _ & _ & Hqi & Hqn & Hs2).
    destruct (supply_some _ _ _ Hs2) as (b & r3 & ->). destruct (supply_cons _ _ _ _ Hs2) as (Hb0 & _ & _ & _ & _ & Hs3).
    assert (fresh s1 q r3) as Hfr by (by exists b).
    run (open_new_run s1 no q r3 Hv1 Ho1 Hno Hn Hfr). replace (P =? 0) with false by lia.
    assert (q ∉ open_inodes s0) as Hnq.
    { intros Hin. destruct (oo_inode s0 Ho q Hin) as (j & Hj & _). congruence. }
    eexists P, _, r3. split; [done|]. split; [|split; [done|done]]. split.
    + exists (Dir q 0 (zeros 512)), (set_i_open_cnts 1 (disk_inode (disk s0) (sb s0) no)).
      unfold opened. cbn [dirs inodes set_dirs set_inodes set_open_inodes set_allocs d_inode]. rewrite !lookup_insert_eq.
      split_and!; try done. by apply (dir_ok_cnts s0).
    + split; [done|]. by destruct Hv1.
    + intros r'. rewrite <- (dir_close_new P q (set_i_open_cnts 1 (disk_inode (disk s0) (sb s0) no)) r') by done. by destruct s0.
Qed.

(** What [search_loop] has parsed: the first of the names, and a text whose
    components are the others. *)
Definition pending (sub_path : option (list Z)) (name : list Z) (names : list (list Z)) : Prop :=
  match names with
  | [] => name = []
  | n :: ns => name = n /\ n <> [] /\ match sub_path with None => ns = [] | Some t => components t = ns /\ short ns end
  end.

Lemma drop_slashes_parsed t n c r : parsed t n c r -> until_slash (drop_slashes t) = (c, r).
Proof.
  intros [-> Hc Hr He]. induction n as [|n IH]; [|done]. cbn [replicate app].
  assert (until_slash (c ++ r) = (c, r)) as Hu.
  { clear He. induction c as [|x c IH]; cbn [app until_slash].
    - destruct Hr as [->|[r' ->]]; done.
    - apply not_elem_of_cons in Hc as [Hx Hc]. replace (x =? 47) with false by lia. by rewrite IH. }
  destruct c as [|x c]; [rewrite (He eq_refl); done|]. cbn [app drop_slashes].
  apply not_elem_of_cons in Hc as [Hx _]. by replace (x =? 47) with false by lia.
Qed.

Lemma parse_pending t (s : fsys) :
  short (components t) -> exists x, parse_name t s = Ok (x, s) /\ pending x.2 x.1 (components t).
Proof.
  intros Hs. destruct (parsed_exists 47 t) as (n & c & r & Hp). destruct (parsed_short _ _ _ _ Hp Hs) as [H16 Hr].
  unfold parse_name. rewrite (drop_slashes_parsed t n c r Hp). unfold MAX_FILE_NAME_LEN. replace (16 <=? Z.of_nat (length c)) with false by lia.
  eexists. split; [done|]. cbn [fst snd]. rewrite (components_parsed _ _ _ _ Hp). case_bool_decide as Hc.
  - subst c. by rewrite (pa_end Hp eq_refl).
  - cbn [app pending]. split_and!; [done|done|]. by destruct r.
Qed.

Lemma next_pending sub name n ns (s : fsys) :
  pending sub name (n :: ns) ->
  exists x, (match sub with Some sub => parse_name sub | None => mret ([], None) end) s = Ok (x, s) /\ pending x.2 x.1 ns.
Proof.
  intros (_ & _ & H). destruct sub as [t|]; [|subst ns; by eexists ([], None)].
  destruct H as [<- Hs]. by apply parse_pending.
Qed.

(** Where [search_file] ends, and what is open then. *)
Definition ends (s : fsys) (w : walked) (r : res (Z * path_search_record * fsys)) : Prop :=
  exists P s', r = Ok ((wk_no w, PathSearchRecord (wk_path w) P (wk_type w)), s') /\ held s P (wk_dir w) s'.

Lemma search_end f sub searched P cur par s :
  held s0 P cur s -> D cur -> D par -> supply s0 (allocs s) 3 ->
  ends s0 (Walked cur searched par FT_DIRECTORY) (search_loop (S f) sub [] searched P par (Some cur) s).
Proof.
  intros Hh HD HDp Hs. cbn [search_loop]. rewrite bool_decide_true by done. pose proof (hd_close _ _ _ _ Hh (allocs s)) as Hc.
  replace (set_allocs (allocs s) s) with s in Hc by (by destruct s). run Hc. destruct (dir_open_held par (allocs s) 0 HDp Hs) as (Q & s' & r' & Hrun & Hq & _ & _).
  run Hrun. destruct (to_dir _ _ HT cur HD) as (Hno & _). unfold mret, st_ret. exists Q, s'. cbn [wk_no wk_path wk_type wk_dir].
  by rewrite i32_id by lia.
Qed.

Lemma search_loop_walks f names : forall sub name searched P cur par s last,
  (length names < f)%nat -> pending sub name names -> held s0 P cur s -> D cur -> D par ->
  supply s0 (allocs s) (5 * length names + 3) -> (length searched + width names < 512)%nat -> (names = [] -> last = Some cur) ->
  ends s0 (walk (disk s0) (sb s0) cur par searched names) (search_loop f sub name searched P par last s).
Proof.
  revert names. induction f as [|f IH]; intros names sub name searched P cur par s last Hf Hp Hh HD HDp Hs Hl Hla; [lia|].
  destruct names as [|n ns].
  { cbn [pending] in Hp. subst name. rewrite (Hla eq_refl). by apply search_end. }
  destruct (supply_some s0 (allocs s) (5 * length ns + 7)) as (a1 & r1 & E1); [by eapply supply_le; [exact Hs|cbn [length]; lia]|].
  rewrite E1 in Hs. cbn [length] in Hs. replace (5 * S (length ns) + 3)%nat with (S (S (5 * length ns + 6)))%nat in Hs by lia.
  destruct (supply_cons _ _ _ _ Hs) as (Ha1 & _ & _ & _ & _ & Hs1). destruct (supply_some _ _ _ Hs1) as (a2 & r2 & ->).
  destruct (supply_cons _ _ _ _ Hs1) as (Ha2 & _ & _ & _ & _ & Hs2).
  destruct (hd_dir _ _ _ _ Hh) as (pd & i & Hpd & Hi & Hno & Hdi & Hbi). destruct (hd_disk _ _ _ _ Hh) as [Hdk Hv].
  pose proof (search_dir_entry_run s P pd i a1 a2 r2 n Hv Hpd Hi Hdi E1 Ha1 Ha2) as Hfind. rewrite Hbi, Hdk in Hfind.
  pose proof (next_pending sub name n ns (set_allocs r2 s) Hp) as (x & Hx & Hpx). destruct Hp as (-> & Hn & _).
  change (n :: ns) with ([n] ++ ns) in Hl. rewrite width_app, width_one in Hl. cbn [search_loop walk].
  rewrite bool_decide_false by done. run (sassert_true (Z.of_nat (length searched) <? 512) s ltac:(lia)). run Hfind.
  pose proof (held_allocs _ _ _ _ r2 Hh) as Hh2. set (t := set_allocs r2 s) in *.
  destruct (dir_find (disk s0) (blocks_of (disk s0) (sb s0) cur) n) as [e|] eqn:Ee; [|by exists P, t].
  run Hx. destruct (to_entry _ _ HT cur n e HD Hn Ee) as [(Hty & HDe)|(Hty & Hrng)]; rewrite Hty.
  - change (ft_code FT_DIRECTORY =? ft_code FT_DIRECTORY) with true. cbv iota.
    assert (dir_inode P t = Ok (i, t)) as Hdn.
    { unfold dir_inode, dir_at, mbind, st_bind. change (dirs t) with (dirs s). rewrite Hpd. by apply inode_at_run. }
    run Hdn. run (hd_close _ _ _ _ Hh r2).
    destruct (dir_open_held (de_i_no e) r2 (5 * length ns + 3) HDe) as (Q & s' & r' & Hrun & Hq & Hr' & Hs').
    { eapply supply_le; [exact Hs2|lia]. }
    run Hrun. rewrite Hno. apply IH; try done; [cbn [length] in Hf; lia|by rewrite Hr'|rewrite !length_app; change (length slash) with 1%nat; lia].
  - change (ft_code FT_REGULAR =? ft_code FT_DIRECTORY) with false. change (ft_code FT_REGULAR =? ft_code FT_REGULAR) with true.
    exists P, t. cbn [wk_no wk_path wk_type wk_dir]. by rewrite i32_id by lia.
Qed.

Lemma search_walks pathname :
  (exists v, pathname = 47 :: v) -> is_root pathname = false -> components pathname <> [] -> short (components pathname) ->
  (length pathname < 512)%nat -> supply s0 (allocs s0) (5 * length (components pathname) + 3) ->
  ends s0 (walk (disk s0) (sb s0) 0 0 [] (components pathname)) (search_file pathname s0).
Proof.
  intros [v ->] Hr Hc Hs Hl Hal. unfold search_file. rewrite Hr. destruct (to_root _ _ HT) as (HD & _).
  assert (v <> []) as Hv by (by intros ->). destruct (width_components (47 :: v)) as [_ Hw]. specialize (Hw v eq_refl).
  pose proof (width_count (components (47 :: v))) as Hwc.
  assert ((47 =? 47) && (1 <? Z.of_nat (length (47 :: v))) && (Z.of_nat (length (47 :: v)) <? MAX_PATH_LEN) = true) as Ha.
  { unfold MAX_PATH_LEN. destruct v; [done|]. cbn [length] in Hl |- *. rewrite !andb_true_iff, !Z.ltb_lt. split_and!; [done|lia|lia]. }
  run (sassert_true _ s0 Ha).
  destruct (parse_pending (47 :: v) s0 Hs) as (x & Hx & Hp). run Hx.
  apply search_loop_walks; try done; [lia| |cbn [length] in *; lia].
  replace s0 with (set_allocs (allocs s0) s0) at 2 by (by destruct s0). apply root_held.
Qed.
End Search.

(** ** The theorem *)

(** C23: [search_file] follows the tree of directories.  On a path from the root
    that has components, each short, it gives the number of the inode that the
    walk over the disk reaches (or -1), the path it has searched and the type it
    has found; the directory of the last entry is open at [parent_dir], the disk
    is unchanged, and closing that directory gives the state before the search,
    apart from the addresses the allocator has handed out: of the directories
    opened on the way none stays open. *)
Theorem search_file_walks (s : fsys) (D : Z -> Prop) (pathname : list Z) :
  tree_ok s D -> (exists v, pathname = 47 :: v) -> is_root pathname = false -> components pathname <> [] ->
  short (components pathname) -> (length pathname < 512)%nat -> supply s (allocs s) (5 * length (components pathname) + 3) ->
  let w := walk (disk s) (sb s) 0 0 [] (components pathname) in
  exists P s', search_file pathname s = Ok ((wk_no w, PathSearchRecord (wk_path w) P (wk_type w)), s')
    /\ (exists p i, dirs s' !! P = Some p /\ inodes s' !! d_inode p = Some i /\ i_no i = wk_dir w)
    /\ disk s' = disk s
    /\ forall r, dir_close P (set_allocs r s') = Ok (tt, set_allocs r s).
Proof.
  intros HT Hp Hr Hc Hs Hl Hal. destruct (search_walks s D HT pathname Hp Hr Hc Hs Hl Hal) as (P & s' & Hrun & [(p & i & H) [Hd _] Hcl]).
  exists P, s'. split; [done|]. split; [|done]. exists p, i. by destruct H as (? & ? & ? & _).
Qed.

Lemma dir_find_entry d blocks name e :
  dir_find d blocks name = Some e ->
  exists b k, b ∈ blocks /\ b <> 0 /\ 0 <= k < 21 /\ entry_name (sector d b) k = name /\ e = entry_at (sector d b) k.
Proof.
  induction blocks as [|b r IH]; [done|]. cbn [dir_find]. destruct (b =? 0) eqn:E.
  - intros H. destruct (IH H) as (b' & k & Hb & ?). exists b', k. split; [set_solver|done].
  - unfold find_in. pose proof (find_entry_spec 21 (sector d b) name 0) as Hf. destruct (find_entry 21 (sector d b) name 0) as [k|].
    + intros [= <-]. destruct Hf as (Hk & Hn & _). exists b, k. split_and!; [set_solver|lia|lia|lia|done|done].
    + intros H. destruct (IH H) as (b' & k & Hb & ?). exists b', k. split; [set_solver|done].
Qed.

(** ** On the volume of Machine *)

Definition demo_walk_path : list Z := [47; 46; 47; 102].

Lemma demo_volume_ok : volume_ok demo_volume.
Proof.
  pose proof (demo_file_volume 1) as []. constructor; try done. intros lba. apply sectors_by_check. by vm_compute.
Qed.

Lemma demo_volume_root c : is_u32 c -> dir_ok demo_volume (Inode 0 72 c false (612 :: zeros 12)).
Proof.
  intros Hc. apply (dir_one_ok _ _ 612); [|done| |done].
  - constructor; try done. repeat constructor; done.
  - refine (conj _ (conj _ (conj _ _))); [cbn; rewrite max_lba_eq; lia|unfold bm_bits; cbn; lia|by vm_compute|].
    apply sec_by_check. vm_compute. reflexivity.
Qed.

(** Every name in the root directory is that of a directory 0 or of file 1. *)
Lemma demo_volume_entries name e :
  name <> [] -> dir_find (disk demo_volume) (blocks_of (disk demo_volume) (sb demo_volume) 0) name = Some e ->
  (f_type e = ft_code FT_DIRECTORY /\ de_i_no e = 0) \/ (f_type e = ft_code FT_REGULAR /\ de_i_no e = 1).
Proof.
  intros Hn H. destruct (dir_find_entry _ _ _ _ H) as (b & k & Hb & Hb0 & Hk & Hname & ->). clear H.
  assert (blocks_of (disk demo_volume) (sb demo_volume) 0 = 612 :: zeros 139) as Eb by (vm_compute; reflexivity).
  rewrite Eb in Hb. apply elem_of_cons in Hb as [->|Hb]; [|by apply elem_of_replicate in Hb as [? _]].
  assert (forallb (fun k => let sec := sector (disk demo_volume) 612 in let e := entry_at sec k in
    bool_decide (entry_name sec k = []) || (f_type e =? ft_code FT_DIRECTORY) && (de_i_no e =? 0)
    || (f_type e =? ft_code FT_REGULAR) && (de_i_no e =? 1)) (seqZ 0 21) = true) as Hc by (vm_compute; reflexivity).
  rewrite forallb_forall in Hc. specialize (Hc k). cbv zeta in Hc. rewrite Hname, bool_decide_false in Hc by done.
  specialize (Hc ltac:(apply list_elem_of_In, elem_of_seqZ; lia)). cbn [orb] in Hc.
  apply orb_true_iff in Hc as [[H1 H2]%andb_true_iff|[H1 H2]%andb_true_iff]; [left|right]; lia.
Qed.

Lemma demo_tree : tree_ok demo_volume (fun no => no = 0).
Proof.
  assert (disk_inode (disk demo_volume) (sb demo_volume) 0 = Inode 0 72 0 false (612 :: zeros 12)) as Ei by (vm_compute; reflexivity).
  assert (forall no p i, is_open demo_volume no p i -> no = 0 /\ i = Inode 0 72 1 false (612 :: zeros 12)) as Hop.
  { intros no p i (Hp & Hi & Hno). apply list_elem_of_singleton in Hp as ->. vm_compute in Hi. injection Hi as <-. by subst no. }
  constructor.
  - apply demo_volume_ok.
  - constructor; cbn [open_inodes inodes demo_volume].
    + apply NoDup_singleton.
    + intros p ->%list_elem_of_singleton. eexists. split; [reflexivity|cbn; lia].
    + by intros p q i j ->%list_elem_of_singleton ->%list_elem_of_singleton.
  - split; [done|]. eexists _, _. split; [reflexivity|]. split; [by apply list_elem_of_singleton|]. by split.
  - intros no ->. rewrite Ei. split; [lia|]. split; [done|]. by apply demo_volume_root.
  - intros no p i -> H. destruct (Hop _ _ _ H) as [_ ->]. split; [by apply demo_volume_root|]. split; [vm_compute; reflexivity|cbn; lia].
  - intros no name e -> Hn He. destruct (demo_volume_entries name e Hn He) as [[H1 H2]|[H1 H2]]; [by left|right]. split; [done|lia].
Qed.

Lemma search_file_walks_witness :
  exists s', search_file demo_walk_path demo_volume = Ok ((1, PathSearchRecord demo_walk_path 0xc1002000 FT_REGULAR), s')
    /\ forall r, dir_close 0xc1002000 (set_allocs r s') = Ok (tt, set_allocs r demo_volume).
Proof.
  assert (walk (disk demo_volume) (sb demo_volume) 0 0 [] (components demo_walk_path) = Walked 1 demo_walk_path 0 FT_REGULAR) as Hw
    by (vm_compute; reflexivity).
  destruct (search_file_walks demo_volume (fun no => no = 0) demo_walk_path) as (P & s' & Hrun & _ & _ & Hc).
  - apply demo_tree.
  - by eexists.
  - reflexivity.
  - by vm_compute.
  - vm_compute. repeat constructor.
  - cbn. lia.
  - split; [apply Nat.leb_le; vm_compute; reflexivity| |].
    + apply NoDup_fmap_2; [intros x y; lia|apply NoDup_seqZ].
    + apply Forall_forall. intros a (k & -> & Hk%elem_of_seqZ)%list_elem_of_fmap. split_and!; [lia|unfold root_dir; lia| |];
        apply lookup_singleton_ne; unfold root_dir; lia.
  - rewrite Hw in Hrun. cbn [wk_no wk_path wk_type] in Hrun. assert (P = 0xc1002000) as ->; [|exists s'; exact (conj Hrun Hc)].
    assert ((fun r => match r with Ok (x, _) => parent_dir x.2 | Bad _ => 0 end) (search_file demo_walk_path demo_volume) = 0xc1002000) as H
      by (vm_compute; reflexivity).
    rewrite Hrun in H. exact H.
Defined.
