(* ===== verification/Session.v ===== *)
(** * Session: the shell, the file system and the disk together

    The shell of CommandLine.v runs on the machine of Machine.v: a partition is
    formatted and mounted, commands are typed, and the screen shows what a user
    sees. *)
From S2P Require Import Prelude CString Stdio Paths Bitmap Disk Fsys Inode Dir File Fs Program Builtin CommandLine ProgramSpec BuiltinSpec Machine ShellSpec.

(** What is on the screen when the shell waits for more keys. *)
Definition session (rounds : nat) (keys : list Z) : list Z :=
  mc_screen (state_after (run_tree (machine_calls 64) rounds (my_shell shell_map (shell_memory [])) (typed keys)) (typed [])).

(** Directories are made, listed, left and removed; a path that does not exist is
    refused and the prompt stays. *)
Example session_transcript :
  session 50000 (chars "mkdir d\ncd d\nmkdir e\nls -l\ncd ../x\ncd ..\nrmdir d/e\nrmdir d\nls\n")
  = chars "[rabbit@localhost /]$ mkdir d\n"
    ++ chars "[rabbit@localhost /]$ cd d\n"
    ++ chars "[rabbit@localhost /d]$ mkdir e\n"
    ++ chars "[rabbit@localhost /d]$ ls -l\ntotal: 72\nd  1  72  .\nd  0  72  ..\nd  2  48  e\n"
    ++ chars "[rabbit@localhost /d]$ cd ../x\ncd: no such directory /x\n"
    ++ chars "[rabbit@localhost /d]$ cd ..\n"
    ++ chars "[rabbit@localhost /]$ rmdir d/e\n"
    ++ chars "[rabbit@localhost /]$ rmdir d\n"
    ++ chars "[rabbit@localhost /]$ ls\n. .. \n"
    ++ chars "[rabbit@localhost /]$ ".
Proof. vm_compute. reflexivity. Qed.
