(* ===== verification/Ps.v ===== *)
(** * Ps: the list of tasks, [sys_ps] of thread/thread.c

    The text is made in the array [out_pad] with the functions of CString and
    Stdio.  Literals, the array and the task's name lie in one byte memory. *)
From S2P Require Import Prelude Bitmap Interrupt DList Paging Pages Kernel Sched Resume CString Stdio Disk Fsys File Fs World Pipe.

(** ** Definitions *)

(** The addresses of the literals "%s", "%d", "%x", newline, of a word, of
    [name] and of [out_pad]. *)
Definition fmt_s : Z := 100.
Definition fmt_d : Z := 110.
Definition fmt_x : Z := 120.
Definition newline : Z := 130.
Definition word_lit : Z := 140.
Definition name_ptr : Z := 200.
Definition out_pad : Z := 300.

(** The memory.  Behind the name the pcb has the bytes [priority] and [ticks];
    a string that is longer fails the test of its length. *)
Definition ps_mem (word name : list Z) (priority ticks : Z) : cmem :=
  put_bytes fmt_s [37; 115; 0] (put_bytes fmt_d [37; 100; 0] (put_bytes fmt_x [37; 120; 0]
    (put_bytes newline [10; 0] (put_bytes word_lit (word ++ [0])
      (put_bytes name_ptr (name ++ [priority; ticks; 0]) (put_bytes out_pad (replicate 16 0) ∅)))))).

(** [format] with the values that [ptr] points to, read as an [int16_t] and as a
    [uint32_t]. *)
Inductive pad_format : Type :=
| Pad_s (ptr : Z)
| Pad_d (v16 v32 : Z)
| Pad_x (v32 : Z).

(** The loop that fills up with spaces. *)
Fixpoint pad_loop (n : nat) (buf out_pad_0idx buf_len : Z) : st cmem unit :=
  match n with
  | O => mret tt
  | S n' =>
    if out_pad_0idx <? buf_len then
      _ ← sto (buf + out_pad_0idx) 32; pad_loop n' buf (u8 (out_pad_0idx + 1)) buf_len
    else mret tt
  end.

Fixpoint get_bytes (n : nat) (p : Z) : st cmem (list Z) :=
  match n with O => mret [] | S n' => c ← ld p; r ← get_bytes n' (p + 1); mret (c :: r) end.

(** The bytes that go to [sys_write].  The case for ['d'] goes on with the one
    for ['x']. *)
Definition pad_print (buf buf_len : Z) (format : pad_format) : st cmem (list Z) :=
  _ ← memset buf 0 buf_len;
  n ← match format with
      | Pad_s ptr => sprintf 40 40 buf fmt_s [ptr]
      | Pad_d v16 v32 => _ ← sprintf 40 40 buf fmt_d [u32 v16]; sprintf 40 40 buf fmt_x [v32]
      | Pad_x v32 => sprintf 40 40 buf fmt_x [v32]
      end;
  _ ← pad_loop (Z.to_nat buf_len) buf (u8 n) buf_len;
  get_bytes (Z.to_nat (buf_len - 1)) buf.

Definition status_name (s : task_status) : list Z :=
  match s with
  | TASK_RUNNING => [82; 85; 78; 78; 73; 78; 71]
  | TASK_READY => [82; 69; 65; 68; 89]
  | TASK_BLOCKED => [66; 76; 79; 67; 75; 69; 68]
  | TASK_WAITING => [87; 65; 73; 84; 73; 78; 71]
  | TASK_HANGING => [72; 65; 78; 71; 73; 78; 71]
  | TASK_DIED => [68; 73; 69; 68]
  end.

Definition null_name : list Z := [78; 85; 76; 76].

(** The words at [pid] and [parent_pid]: two bytes of padding follow the first;
    [exit_status] and a byte of padding follow the second. *)
Definition pid_word (t : task_struct) : Z := u16 (pid t).

Definition parent_word (t : task_struct) : Z := u16 (parent_pid t) + 65536 * u8 (exit_status t).

(** Code on the memory of a line with the word [w]. *)
Definition on_line {A} (w : list Z) (t : task_struct) (m : st cmem A) : res A :=
  '(a, _) ← m (ps_mem w (name t) (priority t) (ticks t)); Ok a.

(** The name and a newline. *)
Definition name_line : st cmem (list Z) :=
  _ ← memset out_pad 0 16;
  n ← strlen 40 name_ptr;
  _ ← sassert (n <? 17);
  n ← strlen 40 name_ptr;
  _ ← memcpy out_pad name_ptr n;
  _ ← strcat 40 out_pad newline;
  n ← strlen 40 out_pad;
  get_bytes (Z.to_nat n) out_pad.

(** What [elem2thread_info] writes for a task, piece by piece. *)
Definition elem2thread_info (t : task_struct) : res (list (list Z)) :=
  a ← on_line [] t (pad_print out_pad 16 (Pad_d (pid t) (pid_word t)));
  b ← (if parent_pid t =? -1 then on_line null_name t (pad_print out_pad 16 (Pad_s word_lit))
       else on_line [] t (pad_print out_pad 16 (Pad_d (parent_pid t) (parent_word t))));
  c ← on_line (status_name (status t)) t (pad_print out_pad 16 (Pad_s word_lit));
  d ← on_line [] t (pad_print out_pad 16 (Pad_x (elapsed_ticks t)));
  e ← on_line [] t name_line;
  Ok [a; b; c; d; e].

(** enum std_fd of fs/file.h. *)
Definition stdin_no : Z := 0.
Definition stdout_no : Z := 1.
Definition stderr_no : Z := 2.

(** Writing pieces of text to the screen; the text that gets there. *)
Fixpoint write_all (fuel : nat) (pieces : list (list Z)) : proc world (list Z) :=
  match pieces with
  | [] => mret []
  | p :: r =>
    x ← sys_write fuel stdout_no p (Z.of_nat (length p));
    y ← write_all fuel r;
    mret (match x with Console s _ => s ++ y | _ => y end)
  end.

(** "PID            PPID           STAT           TICKS          COMMAND\n" *)
Definition ps_title : list Z :=
  [80; 73; 68] ++ replicate 12 32 ++ [80; 80; 73; 68] ++ replicate 11 32 ++ [83; 84; 65; 84] ++ replicate 11 32
  ++ [84; 73; 67; 75; 83] ++ replicate 10 32 ++ [67; 79; 77; 77; 65; 78; 68; 10].

Fixpoint ps_list (fuel : nat) (l : list Z) : proc world (list Z) :=
  match l with
  | [] => mret []
  | p :: r =>
    t ← zoom (task p);
    pieces ← lift (elem2thread_info t);
    x ← write_all fuel pieces;
    y ← ps_list fuel r;
    mret (x ++ y)
  end.

(** [sys_ps]; the result is the text on the screen. *)
Definition sys_ps (fuel : nat) : proc world (list Z) :=
  x ← write_all fuel [ps_title];
  w ← get;
  y ← ps_list fuel (thread_all_list (w_kernel w));
  mret (x ++ y).

(** ** Columns *)

(** A column of a number that is printed in both notations. *)
Definition overlaid (p : Z) : list Z :=
  let x := digits 33 16 p in
  let d := digits 33 10 p in
  let s := x ++ drop (length x) d in
  s ++ replicate (15 - length s) 32.

(** The columns pid and ppid for every pid the kernel gives out. *)
Lemma pid_columns : forallb (fun p =>
  match pad_print out_pad 16 (Pad_d p p) (ps_mem [] (replicate 16 0) 31 31) with
  | Ok (s, _) => bool_decide (s = overlaid p)
  | Bad _ => false
  end) (seqZ 1 1024) = true.
Proof. vm_compute. reflexivity. Qed.
