(* ===== verification/Exit.v ===== *)
(** * Exit: how a process ends, the rest of userprog/wait_exit.c

    The parts of [sys_exit] that concern pcbs and memory are in Wait; here the
    files of the process are closed and the parts are put together. *)
From S2P Require Import Prelude Bitmap Interrupt DList Paging Pages Memory Kernel View Sched Resume Sync Heap Thread Wait Disk Fsys Inode File Fs World Pipe.

(** ** Definitions *)

(** A descriptor of the process that ends.  The reference count of a pipe goes
    down once; its page is freed with the last end. *)
Definition release_fd (local_fd : Z) : proc world unit :=
  pipe ← in_fs (is_pipe local_fd);
  if (pipe : bool) then
    global_fd ← in_fs (fd_local2global local_fd);
    f ← in_fs (file_at global_fd);
    let n := u32 (fd_pos f - 1) in
    _ ← in_fs (put_file global_fd (File n (fd_flag f) (fd_inode f)));
    if n =? 0 then
      _ ← zoom (in_mem (mfree_page PF_KERNEL (fd_inode f) 1));
      in_fs (put_file global_fd (File n (fd_flag f) 0))
    else mret tt
  else _ ← sys_close local_fd; mret tt.

(** The last part of [release_prog_resource]: the descriptors from [local_fd]
    on. *)
Fixpoint release_files (n : nat) (release_thread local_fd : Z) : proc world unit :=
  match n with
  | O => mret tt
  | S n' =>
    t ← zoom (task release_thread);
    fd ← lift (rd (Kernel.fd_table t) local_fd);
    _ ← (if negb (fd =? -1) then release_fd local_fd else mret tt);
    release_files n' release_thread (local_fd + 1)
  end.

Definition release_prog_resource (release_thread : Z) : proc world unit :=
  _ ← zoom (release_memory release_thread);
  release_files 5 release_thread 3.

Definition sys_exit (status : Z) : proc world unit :=
  w ← get;
  let child_thread := running (w_kernel w) in
  _ ← zoom (exit_begin status);
  _ ← release_prog_resource child_thread;
  zoom exit_end.
