(* ===== verification/Syscall.v ===== *)
(** * Syscall: the system call table and the library calls

    lib/user/syscall.h and syscall.c, userprog/syscall-init.c and the handler of
    interrupt 0x80 in kernel/kernel.S.  A library call loads the registers, the
    handler pushes three of them and calls through the table, and the kernel
    function runs with its arguments; strings and buffers are in the memory of
    the process. *)
From S2P Require Import Prelude Bitmap Interrupt DList Paging Pages Memory Kernel View Sched Resume Sync Ioqueue Heap Thread Wait Process Console Disk Fsys Inode Dir File Fs World Pipe Fork Exec Exit Ps.

(** ** Numbers, functions and registers *)

Inductive SYSCALL_NR : Type :=
| SYS_GETPID
| SYS_WRITE
| SYS_MALLOC
| SYS_FREE
| SYS_FORK
| SYS_READ
| SYS_PUTCHAR
| SYS_CLEAR
| SYS_GETCWD
| SYS_OPEN
| SYS_CLOSE
| SYS_LSEEK
| SYS_UNLINK
| SYS_MKDIR
| SYS_OPENDIR
| SYS_CLOSEDIR
| SYS_CHDIR
| SYS_RMDIR
| SYS_READDIR
| SYS_REWINDDIR
| SYS_STAT
| SYS_PS
| SYS_EXECV
| SYS_EXIT
| SYS_WAIT
| SYS_PIPE.

Definition nr (n : SYSCALL_NR) : Z :=
  match n with
  | SYS_GETPID => 0
  | SYS_WRITE => 1
  | SYS_MALLOC => 2
  | SYS_FREE => 3
  | SYS_FORK => 4
  | SYS_READ => 5
  | SYS_PUTCHAR => 6
  | SYS_CLEAR => 7
  | SYS_GETCWD => 8
  | SYS_OPEN => 9
  | SYS_CLOSE => 10
  | SYS_LSEEK => 11
  | SYS_UNLINK => 12
  | SYS_MKDIR => 13
  | SYS_OPENDIR => 14
  | SYS_CLOSEDIR => 15
  | SYS_CHDIR => 16
  | SYS_RMDIR => 17
  | SYS_READDIR => 18
  | SYS_REWINDDIR => 19
  | SYS_STAT => 20
  | SYS_PS => 21
  | SYS_EXECV => 22
  | SYS_EXIT => 23
  | SYS_WAIT => 24
  | SYS_PIPE => 25
  end.

(** The kernel functions whose addresses are in the table. *)
Inductive kernel_function : Type :=
| F_sys_getpid
| F_sys_write
| F_sys_malloc
| F_sys_free
| F_sys_fork
| F_sys_read
| F_sys_putchar
| F_cls_screen
| F_sys_getcwd
| F_sys_open
| F_sys_close
| F_sys_lseek
| F_sys_unlink
| F_sys_mkdir
| F_sys_opendir
| F_sys_closedir
| F_sys_chdir
| F_sys_rmdir
| F_sys_readdir
| F_sys_rewinddir
| F_sys_stat
| F_sys_ps
| F_sys_execv
| F_sys_exit
| F_sys_wait
| F_sys_pipe.

Definition syscall_nr : Z := 32.

(** [syscall_table]; a cell that was not set holds the address 0. *)
Definition syscall_init : res (list (option kernel_function)) :=
  let t := replicate (Z.to_nat syscall_nr) None in
  t ← wr t (nr SYS_GETPID) (Some F_sys_getpid);
  t ← wr t (nr SYS_WRITE) (Some F_sys_write);
  t ← wr t (nr SYS_MALLOC) (Some F_sys_malloc);
  t ← wr t (nr SYS_FREE) (Some F_sys_free);
  t ← wr t (nr SYS_FORK) (Some F_sys_fork);
  t ← wr t (nr SYS_READ) (Some F_sys_read);
  t ← wr t (nr SYS_PUTCHAR) (Some F_sys_putchar);
  t ← wr t (nr SYS_CLEAR) (Some F_cls_screen);
  t ← wr t (nr SYS_GETCWD) (Some F_sys_getcwd);
  t ← wr t (nr SYS_OPEN) (Some F_sys_open);
  t ← wr t (nr SYS_CLOSE) (Some F_sys_close);
  t ← wr t (nr SYS_LSEEK) (Some F_sys_lseek);
  t ← wr t (nr SYS_UNLINK) (Some F_sys_unlink);
  t ← wr t (nr SYS_MKDIR) (Some F_sys_mkdir);
  t ← wr t (nr SYS_OPENDIR) (Some F_sys_opendir);
  t ← wr t (nr SYS_CLOSEDIR) (Some F_sys_closedir);
  t ← wr t (nr SYS_CHDIR) (Some F_sys_chdir);
  t ← wr t (nr SYS_RMDIR) (Some F_sys_rmdir);
  t ← wr t (nr SYS_READDIR) (Some F_sys_readdir);
  t ← wr t (nr SYS_REWINDDIR) (Some F_sys_rewinddir);
  t ← wr t (nr SYS_STAT) (Some F_sys_stat);
  t ← wr t (nr SYS_PS) (Some F_sys_ps);
  t ← wr t (nr SYS_EXECV) (Some F_sys_execv);
  t ← wr t (nr SYS_EXIT) (Some F_sys_exit);
  t ← wr t (nr SYS_WAIT) (Some F_sys_wait);
  t ← wr t (nr SYS_PIPE) (Some F_sys_pipe);
  mret t.

Record registers : Type := Registers {
  eax : Z;
  ebx : Z;
  ecx : Z;
  edx : Z
}.

(** The macros load the registers that have an operand; the others are what the
    process had in them. *)
Section Stubs.
Context (r : registers).

Definition _syscall0 (n : SYSCALL_NR) : registers := Registers (nr n) (ebx r) (ecx r) (edx r).

Definition _syscall1 (n : SYSCALL_NR) (arg1 : Z) : registers := Registers (nr n) (u32 arg1) (ecx r) (edx r).

Definition _syscall2 (n : SYSCALL_NR) (arg1 arg2 : Z) : registers := Registers (nr n) (u32 arg1) (u32 arg2) (edx r).

Definition _syscall3 (n : SYSCALL_NR) (arg1 arg2 arg3 : Z) : registers := Registers (nr n) (u32 arg1) (u32 arg2) (u32 arg3).
End Stubs.

(** The library functions with their arguments. *)
Inductive user_call : Type :=
| U_getpid
| U_write (fd buf count : Z)
| U_malloc (size : Z)
| U_free (ptr : Z)
| U_fork
| U_read (fd buf count : Z)
| U_putchar (char_asci : Z)
| U_clear
| U_getcwd (buf size : Z)
| U_open (pathname flag : Z)
| U_close (fd : Z)
| U_lseek (fd offset whence : Z)
| U_unlink (pathname : Z)
| U_mkdir (pathname : Z)
| U_opendir (name : Z)
| U_closedir (dir : Z)
| U_rmdir (pathname : Z)
| U_readdir (dir : Z)
| U_rewinddir (dir : Z)
| U_stat (path buf : Z)
| U_chdir (path : Z)
| U_ps
| U_execv (pathname argv : Z)
| U_exit (status : Z)
| U_wait (status : Z)
| U_pipe (pipefd : Z).

(** The registers at the interrupt. *)
Definition stub (r : registers) (c : user_call) : registers :=
  let _syscall0 := _syscall0 r in
  let _syscall1 := _syscall1 r in
  let _syscall2 := _syscall2 r in
  match c with
  | U_getpid => _syscall0 SYS_GETPID
  | U_write fd buf count => _syscall3 SYS_WRITE fd buf count
  | U_malloc size => _syscall1 SYS_MALLOC size
  | U_free ptr => _syscall1 SYS_FREE ptr
  | U_fork => _syscall0 SYS_FORK
  | U_read fd buf count => _syscall3 SYS_READ fd buf count
  | U_putchar char_asci => _syscall1 SYS_PUTCHAR char_asci
  | U_clear => _syscall0 SYS_CLEAR
  | U_getcwd buf size => _syscall2 SYS_GETCWD buf size
  | U_open pathname flag => _syscall2 SYS_OPEN pathname (u8 flag)
  | U_close fd => _syscall1 SYS_CLOSE fd
  | U_lseek fd offset whence => _syscall3 SYS_LSEEK fd offset (u8 whence)
  | U_unlink pathname => _syscall1 SYS_UNLINK pathname
  | U_mkdir pathname => _syscall1 SYS_MKDIR pathname
  | U_opendir name => _syscall1 SYS_OPENDIR name
  | U_closedir dir => _syscall1 SYS_CLOSEDIR dir
  | U_rmdir pathname => _syscall1 SYS_RMDIR pathname
  | U_readdir dir => _syscall1 SYS_READDIR dir
  | U_rewinddir dir => _syscall1 SYS_REWINDDIR dir
  | U_stat path buf => _syscall2 SYS_STAT path buf
  | U_chdir path => _syscall1 SYS_CHDIR path
  | U_ps => _syscall0 SYS_PS
  | U_execv pathname argv => _syscall2 SYS_EXECV pathname argv
  | U_exit status => _syscall1 SYS_EXIT status
  | U_wait status => _syscall1 SYS_WAIT status
  | U_pipe pipefd => _syscall1 SYS_PIPE pipefd
  end.

(** ** Running a kernel function *)

(** What a system call does to the process: a value in [eax], and text on the
    screen.  [NoReturn] is the jump of [sys_execv] to [intr_exit] with another
    stack frame. *)
Inductive outcome_of_call : Type :=
| Value (ret : Z) (screen : list Z)
| Cleared
| NoReturn (intr_0_stack : Z).

Section Handler.
(** The fuel of loops, the address [intr_exit] and the queue of the keyboard. *)
Context (fuel : nat) (intr_exit kbd_buf : Z).

Definition value (ret : Z) : proc world outcome_of_call := mret (Value (u32 ret) []).

(** The string at an address of the process. *)
Definition string_arg (a : Z) : proc world (list Z) := zoom (in_mem (load_string fuel a)).

(** The bytes from an address on as far as they are mapped, at most [n]. *)
Fixpoint load_prefix (n : nat) (a : Z) : st mem (list Z) := fun m =>
  match n with
  | O => Ok ([], m)
  | S n' =>
    match load8 a m with
    | Bad _ => Ok ([], m)
    | Ok (b, _) => r ← load_prefix n' (u32 (a + 1)) m; Ok (b :: r.1, m)
    end
  end.

(** A buffer that is read as far as the call needs it. *)
Definition buffer_arg (a n : Z) : proc world (list Z) := zoom (in_mem (load_prefix (Z.to_nat n) a)).

(** Bytes stored at an address. *)
Definition give (a : Z) (bs : list Z) : proc world unit := zoom (in_mem (store_bytes a bs)).

Definition sys_getpid : proc world Z := w ← get; t ← zoom (task (running (w_kernel w))); mret (pid t).

(** A file system call whose argument is a path. *)
Definition with_path (path : Z) (f : list Z -> st fsys Z) : proc world outcome_of_call :=
  s ← string_arg path; r ← in_fs (f s); value r.

Definition call_write (fd buf count : Z) : proc world outcome_of_call :=
  bs ← buffer_arg buf count;
  r ← sys_write fuel fd bs count;
  match r with
  | Console s n => if Z.of_nat (length bs) <? count then fail EFault else mret (Value (u32 n) s)
  | Done n _ => value n
  | _ => fail EFault
  end.

Definition call_read (fd buf count : Z) : proc world outcome_of_call :=
  _ ← assert (negb (buf =? 0));
  r ← sys_read fuel kbd_buf fd count;
  _ ← give buf r.2;
  value r.1.

Definition call_getcwd (buf size : Z) : proc world outcome_of_call :=
  _ ← assert (negb (buf =? 0));
  r ← in_fs (sys_getcwd fuel size);
  _ ← give buf r.2;
  value (if r.1 : bool then buf else 0).

(** struct stat has three words. *)
Definition call_stat (path buf : Z) : proc world outcome_of_call :=
  s ← string_arg path;
  r ← in_fs (sys_stat s);
  _ ← (match r.2 with
       | Some x => give buf (le32 (st_ino x) ++ le32 (st_size x) ++ le32 (ft_code (st_filetype x)))
       | None => mret tt
       end);
  value r.1.

Definition call_wait (status : Z) : proc world outcome_of_call :=
  r ← zoom (sys_wait fuel fuel);
  _ ← (match r.2 with Some x => zoom (store_word status (u32 x)) | None => mret tt end);
  value r.1.

Definition call_pipe (pipefd : Z) : proc world outcome_of_call :=
  r ← sys_pipe fuel;
  _ ← (match r.2 with
       | Some (a, b) => _ ← zoom (store_word pipefd (u32 a)); zoom (store_word (u32 (pipefd + 4)) (u32 b))
       | None => mret tt
       end);
  value r.1.

(** The address of an entry of [dir_buf] in struct dir. *)
Definition call_readdir (dir : Z) : proc world outcome_of_call :=
  r ← in_fs (sys_readdir dir);
  value (match r with Some k => dir + 8 + 24 * k | None => 0 end).

Definition call_execv (path argv : Z) : proc world outcome_of_call :=
  r ← sys_execv fuel path argv;
  match r with Returned n => value n | Entered p => mret (NoReturn p) end.

(** The function at the address of the table, with the three words on the stack
    as its arguments. *)
Definition run_function (f : kernel_function) (a b c : Z) : proc world outcome_of_call :=
  match f with
  | F_sys_getpid => r ← sys_getpid; value r
  | F_sys_write => call_write (i32 a) b c
  | F_sys_malloc => r ← zoom (sys_malloc fuel a); value r
  | F_sys_free => _ ← zoom (sys_free fuel a); value 0
  | F_sys_fork => r ← sys_fork fuel intr_exit; value r
  | F_sys_read => call_read (i32 a) b c
  | F_sys_putchar => s ← zoom (console_put_char fuel a); mret (Value 0 s)
  | F_cls_screen => mret Cleared
  | F_sys_getcwd => call_getcwd a b
  | F_sys_open => with_path a (fun s => sys_open s (u8 b))
  | F_sys_close => r ← sys_close (i32 a); value r
  | F_sys_lseek => r ← in_fs (sys_lseek (i32 a) (i32 b) (u8 c)); value r
  | F_sys_unlink => with_path a (sys_unlink fuel)
  | F_sys_mkdir => with_path a sys_mkdir
  | F_sys_opendir => with_path a sys_opendir
  | F_sys_closedir => r ← in_fs (sys_closedir a); value r
  | F_sys_chdir => with_path a sys_chdir
  | F_sys_rmdir => with_path a (sys_rmdir fuel)
  | F_sys_readdir => call_readdir a
  | F_sys_rewinddir => _ ← in_fs (sys_rewinddir a); value 0
  | F_sys_stat => call_stat a b
  | F_sys_ps => s ← sys_ps fuel; mret (Value 0 s)
  | F_sys_execv => call_execv a b
  | F_sys_exit => _ ← sys_exit (i32 a); value 0
  | F_sys_wait => call_wait a
  | F_sys_pipe => call_pipe a
  end.

(** The handler: [call [syscall_table + eax*4]] with ebx, ecx and edx on the
    stack.  Nothing bounds [eax], the product has 32 bits; a cell that was not set
    is a call of address 0, and behind the table there is other data. *)
Definition syscall_handler (r : registers) : proc world outcome_of_call :=
  t ← lift syscall_init;
  f ← lift (rd t (u32 (eax r * 4) / 4));
  match f with
  | Some f => run_function f (ebx r) (ecx r) (edx r)
  | None => fail EFault
  end.
End Handler.

(** ** The call behind the registers *)

(** The kernel function of a library function, by name. *)
Definition target (c : user_call) : kernel_function :=
  match c with
  | U_getpid => F_sys_getpid | U_write _ _ _ => F_sys_write | U_malloc _ => F_sys_malloc | U_free _ => F_sys_free
  | U_fork => F_sys_fork | U_read _ _ _ => F_sys_read | U_putchar _ => F_sys_putchar | U_clear => F_cls_screen
  | U_getcwd _ _ => F_sys_getcwd | U_open _ _ => F_sys_open | U_close _ => F_sys_close | U_lseek _ _ _ => F_sys_lseek
  | U_unlink _ => F_sys_unlink | U_mkdir _ => F_sys_mkdir | U_opendir _ => F_sys_opendir | U_closedir _ => F_sys_closedir
  | U_rmdir _ => F_sys_rmdir | U_readdir _ => F_sys_readdir | U_rewinddir _ => F_sys_rewinddir | U_stat _ _ => F_sys_stat
  | U_chdir _ => F_sys_chdir | U_ps => F_sys_ps | U_execv _ _ => F_sys_execv | U_exit _ => F_sys_exit
  | U_wait _ => F_sys_wait | U_pipe _ => F_sys_pipe
  end.

(** The arguments, as 32-bit words. *)
Definition operands (c : user_call) : list Z :=
  match c with
  | U_getpid | U_fork | U_clear | U_ps => []
  | U_malloc a | U_free a | U_putchar a | U_close a | U_unlink a | U_mkdir a | U_opendir a | U_closedir a
  | U_rmdir a | U_readdir a | U_rewinddir a | U_chdir a | U_exit a | U_wait a | U_pipe a => [u32 a]
  | U_getcwd a b | U_stat a b | U_execv a b => [u32 a; u32 b]
  | U_open a b => [u32 a; u32 (u8 b)]
  | U_lseek a b c => [u32 a; u32 b; u32 (u8 c)]
  | U_write a b c | U_read a b c => [u32 a; u32 b; u32 c]
  end.

(** The interrupt reaches the function with the operands of the call; what the
    process had in the other registers is in the other places. *)
Lemma stub_runs fuel intr_exit kbd_buf r c w :
  let arg i d := default d (operands c !! i) in
  syscall_handler fuel intr_exit kbd_buf (stub r c) w =
    run_function fuel intr_exit kbd_buf (target c) (arg 0%nat (ebx r)) (arg 1%nat (ecx r)) (arg 2%nat (edx r)) w.
Proof. destruct c; reflexivity. Qed.
