(* ===== verification/SyscallSpec.v ===== *)
(** * SyscallSpec: system calls between the memory of a process and the kernel

    A library call runs the kernel function of its name on its arguments (Syscall).  Bytes
    written to a pipe are taken from the memory of the process, bytes read from
    it are stored there. *)
From S2P Require Import Prelude Bitmap Interrupt DList Paging Pages Memory Kernel View Sched Resume Sync Ioqueue Heap Thread Wait Process Disk Fsys Inode Dir File FileSpec Fs FsSpec World Pipe Fork ForkSpec Exec ExecSpec Exit Ps Syscall.

(** ** Buffers of the process *)

(** The memory [m] holds the bytes [bs] at [a]. *)
Definition holds (m : mem) (a : Z) (bs : list Z) : Prop :=
  0 <= a /\ a + Z.of_nat (length bs) < 2 ^ 32 /\ forall (i : nat) x, bs !! i = Some x -> peek m (a + Z.of_nat i) = Some x.

Lemma load_prefix_run bs : forall a m, holds m a bs -> load_prefix (length bs) a m = Ok (bs, m).
Proof.
  induction bs as [|x bs IH]; intros a m (Ha & He & Hb); [done|]. cbn [length] in He. cbn [load_prefix length].
  pose proof (Hb 0%nat x eq_refl) as H0. rewrite Z.add_0_r in H0. rewrite (peek_load m a x H0).
  rewrite u32_id, IH by lia || (split; [lia|split; [lia|]]; intros i y Hy; replace (a + 1 + Z.of_nat i) with (a + Z.of_nat (S i)) by lia; by apply Hb).
  done.
Qed.

(** Reading a buffer leaves the world as it was. *)
Lemma buffer_run w t a bs :
  tasks (w_kernel w) !! running (w_kernel w) = Some t -> holds (view (w_kernel w)) a bs ->
  buffer_arg a (Z.of_nat (length bs)) w = Ret bs w.
Proof.
  intros Ht Hb. unfold buffer_arg. rewrite Nat2Z.id. apply zoom_read. change (part w) with (w_kernel w). set (k := w_kernel w) in *.
  rewrite (in_mem_run (load_prefix (length bs) a) k t bs (view k) Ht (load_prefix_run bs a _ Hb) (cur_vaddr_view k t Ht)).
  f_equal. exact (with_view_same k t Ht).
Qed.

(** Storing bytes at mapped addresses. *)
Lemma give_run w t a bs :
  tasks (w_kernel w) !! running (w_kernel w) = Some t -> heap_ok (view (w_kernel w)) ->
  0 <= a -> a + Z.of_nat (length bs) < 2 ^ 32 ->
  (forall i, 0 <= i < Z.of_nat (length bs) -> mapped_addr (view (w_kernel w)) (a + i)) -> Forall is_byte bs ->
  exists k, give a bs w = Ret tt (World k (w_fs w)) /\ holds (view k) a bs.
Proof.
  intros Ht Hh Ha He Hm Hb. set (k := w_kernel w) in *. destruct (store_bytes_run bs a (view k) Hh Hm Hb) as (ph & Hst & _ & Hin & _).
  exists (put_view (with_phys (view k) ph) k). split.
  - unfold give. exact (zoom_Ret (in_mem (store_bytes a bs)) w tt _ (in_mem_put (store_bytes a bs) k t tt _ Ht Hst)).
  - rewrite (view_put _ k t Ht). split; [done|]. split; [done|]. exact Hin.
Qed.

(** ** Properties *)

Lemma value_run ret w : value ret w = Ret (Value (u32 ret) []) w.
Proof. done. Qed.

(** C34: Bytes get from the memory of a process through a pipe into its memory.
    When the pipe is empty and has room for them, the calls [write] and [read]
    return their number and the bytes that were at [src] are at [dst]. *)
Theorem pipe_carries_memory (f : nat) (intr_exit kbd_buf : Z) (r1 r2 : registers) (w : world) (t : task_struct)
    (wfd rfd p src dst : Z) (q : ioqueue) (data : list Z) :
  loaded w t -> pipe_end (w_fs w) wfd p -> pipe_end (w_fs w) rfd p -> 1 <= wfd < 2 ^ 31 -> rfd = 0 \/ 3 <= rfd < 2 ^ 31 ->
  queue_at (w_kernel w) p q [] -> Z.of_nat (length data) < bufsize -> heap_ok (view (w_kernel w)) ->
  holds (view (w_kernel w)) src data -> Forall is_byte data ->
  0 < dst -> dst + Z.of_nat (length data) < 2 ^ 32 ->
  (forall i, 0 <= i < Z.of_nat (length data) -> mapped_addr (view (w_kernel w)) (dst + i)) ->
  let n := Z.of_nat (length data) in
  exists w1 w2, syscall_handler (S f) intr_exit kbd_buf (stub r1 (U_write wfd src n)) w = Ret (Value n []) w1
    /\ syscall_handler (S f) intr_exit kbd_buf (stub r2 (U_read rfd dst n)) w1 = Ret (Value n []) w2
    /\ holds (view (w_kernel w2)) dst data.
Proof.
  intros Hl Hwe Hre Hwfd Hrfd Hqa Hn Hh Hsrc Hby Hd0 Hd Hm n. assert (0 <= n < bufsize /\ Z.to_nat n = length data) as [Hn0 Hnn] by (unfold n; lia). pose proof Hsrc as (Hs0 & Hs1 & _).
  destruct (pipe_write_run f w t wfd p q [] data Hl Hwe Hqa Hn) as (k1 & q1 & Hwr & Hq1 & Hsame). fold n in Hwr. cbn [app] in Hq1.
  set (w1 := World k1 (w_fs w)) in *. destruct Hsame as [Hrun1 Htk1 _ _ _ Hmem1].
  assert (tasks k1 !! running k1 = Some t) as Ht1 by (rewrite Hrun1; apply Htk1, Hl).
  assert (view k1 = view (w_kernel w)) as Hv1 by (unfold view; rewrite Ht1, (proj1 Hl), Hmem1; done).
  destruct (pipe_read_run f w1 t rfd p q1 data n (conj Ht1 (proj2 Hl)) Hre Hq1 ltac:(lia)) as (q2 & Hrd & _).
  rewrite Hnn, take_ge in Hrd by done. set (w2 := World (with_ioq (w_kernel w1) p q2) (w_fs w1)) in *.
  assert (view (w_kernel w2) = view (w_kernel w)) as Hv2 by exact Hv1.
  destruct (give_run w2 t dst data Ht1) as (k3 & Hg & Hout); rewrite ?Hv2; [done|lia|done|done|done|].
  exists w1, (World k3 (w_fs w2)). unfold bufsize in Hn0. split; [|split; [|exact Hout]].
  - rewrite stub_runs. cbn [operands target run_function lookup list_lookup default from_option id]. rewrite !u32_id, i32_id by lia. unfold call_write.
    prun (buffer_run w t src data (proj1 Hl) Hsrc).
    assert (sys_write (S f) wfd data n w = Ret (Done n []) w1) as Hsw.
    { unfold sys_write. prun (in_fs_read _ w t _ Hl (fs_write_pipe (w_fs w) wfd p data n Hwe ltac:(lia))). by prun Hwr. }
    prun Hsw. rewrite value_run. by rewrite u32_id by lia.
  - rewrite stub_runs. cbn [operands target run_function lookup list_lookup default from_option id]. rewrite !u32_id, i32_id by lia. unfold call_read.
    rewrite (proj2 (Z.eqb_neq dst 0)) by lia. cbn [negb]. assert (assert true w1 = Ret tt w1) as Has by done. prun Has.
    assert (sys_read (S f) kbd_buf rfd n w1 = Ret (n, data) w2) as Hsr.
    { unfold sys_read. prun (in_fs_read _ w1 t _ (conj Ht1 (proj2 Hl)) (fs_read_pipe _ rfd p n Hre ltac:(lia))). prun Hrd. by rewrite i32_id by lia. }
    prun Hsr. cbn [snd fst]. prun Hg. rewrite value_run. by rewrite u32_id by lia.
Qed.

(** A task with a page of memory that begins with "hi", and the two ends of an
    empty pipe. *)
Definition demo_call_mem : mem :=
  match store_bytes 0x8048000 [104; 105] (grab PF_USER demo_mem) with Ok (_, m) => m | Bad _ => demo_mem end.

Definition call_task (m : mem) : task_struct :=
  Kernel.set_fd_table [0; 1; 2; 3; 3; -1; -1; -1] (set_userprog_vaddr (cur_vaddr m) (demo_task TASK_RUNNING 31 3)).

Definition call_kernel (m : mem) : kernel :=
  with_ioq (set_kmem m (set_tasks (<[0xc009e000 := call_task m]> (tasks demo_kernel)) demo_kernel)) 0x3000 demo_queue.

Definition call_world (m : mem) : world :=
  World (call_kernel m) (fs_view (call_task m) (set_file_table (<[3%nat := File 2 PIPE_FLAG 0x3000]> (file_table demo_fs)) demo_fs)).

Lemma call_view m : view (w_kernel (call_world m)) = m.
Proof. by destruct m. Qed.

Lemma call_sched m : cr3 m = 0x100000 -> sched_ok (w_kernel (call_world m)).
Proof.
  intros Hc. apply with_ioq_ok. destruct demo_kernel_ok as [[H1 H2 H3 H4 H5 H6 H7] H8].
  apply (sched_ok_pcb (set_kmem m demo_kernel) 0xc009e000 (demo_task TASK_RUNNING 31 3)); [|done|done|done].
  split; [|done]. constructor; try done. exists (fun _ => 0x100000). split; [done|]. intros x t Ht. apply demo_kernel_tasks in Ht.
  destruct Ht as [[-> ->]|[[-> ->]|[-> ->]]]; done.
Qed.

Definition demo_call : world := call_world demo_call_mem.

Lemma demo_call_end fd : fd = 3 \/ fd = 4 -> pipe_end (w_fs demo_call) fd 0x3000.
Proof.
  intros Hfd. exists 3, (File 2 PIPE_FLAG 0x3000). split; [destruct Hfd; subst fd; reflexivity|].
  split; [unfold MAX_FILE_OPEN; lia|]. split; [reflexivity|]. split; reflexivity.
Qed.

Definition demo_call_page : mem := grab PF_USER demo_mem.

Lemma demo_page_frame : grabs PF_USER demo_mem 0x8048000 = true
  /\ translate demo_call_page 0x8048000 = Some 0x210000 /\ cr3 demo_call_page = 0x100000.
Proof. split; [|split]; vm_compute; reflexivity. Qed.

Lemma demo_page_mapped a : 0x8048000 <= a < 0x8049000 -> mapped_addr demo_call_page a.
Proof.
  intros Ha. destruct demo_page_frame as (_ & Ht & Hc). exists 0x8048000, 0x210000.
  split; [apply demo_page; reflexivity|]. split; [lia|]. split; [exact Ht|]. rewrite Hc. discriminate.
Qed.

Lemma demo_call_stored : heap_ok demo_call_mem /\ same_tables demo_call_page demo_call_mem.
Proof.
  assert (heap_ok demo_call_page) as Hh.
  { exact (al_ok _ _ _ _ _ (grab_ok PF_USER demo_mem 0x8048000 demo_heap_ok (proj1 demo_page_frame) ltac:(lia))). }
  destruct (store_bytes_run [104; 105] 0x8048000 demo_call_page Hh) as (ph & Hst & Hs & _).
  { cbn [length]. intros i Hi. apply demo_page_mapped. lia. }
  { repeat constructor; discriminate. }
  unfold demo_call_mem. fold demo_call_page. rewrite Hst. split; [exact (heap_ok_same _ _ Hh Hs)|exact Hs].
Qed.

Lemma demo_call_mapped a : 0x8048000 <= a < 0x8049000 -> mapped_addr demo_call_mem a.
Proof. intros Ha. apply (mapped_addr_same _ _ _ (proj2 demo_call_stored)). by apply demo_page_mapped. Qed.

Lemma demo_call_queue : queue_at (w_kernel demo_call) 0x3000 demo_queue [].
Proof.
  constructor; [|reflexivity|reflexivity|exact demo_queue_rep|reflexivity|left; reflexivity].
  apply call_sched. destruct demo_call_stored as [_ Hs]. rewrite (sm_cr3 _ _ Hs). vm_compute. reflexivity.
Qed.

Lemma demo_call_holds : holds demo_call_mem 0x8048000 [104; 105].
Proof.
  split; [lia|]. split; [cbn; lia|]. intros [|[|i]] x Hx; [| |done]; injection Hx as <-; vm_compute; reflexivity.
Qed.

Lemma pipe_carries_memory_witness :
  exists w1 w2, syscall_handler 1 0 0 (stub (Registers 0 0 0 0) (U_write 4 0x8048000 2)) demo_call = Ret (Value 2 []) w1
    /\ syscall_handler 1 0 0 (stub (Registers 2 4 0 0) (U_read 3 0x8048010 2)) w1 = Ret (Value 2 []) w2
    /\ holds (view (w_kernel w2)) 0x8048010 [104; 105].
Proof.
  refine (pipe_carries_memory 0 0 0 (Registers 0 0 0 0) (Registers 2 4 0 0) demo_call (call_task demo_call_mem) 4 3 0x3000
    0x8048000 0x8048010 demo_queue [104; 105] _ _ _ _ _ _ _ _ _ _ _ _ _).
  - split; reflexivity.
  - apply demo_call_end. right; reflexivity.
  - apply demo_call_end. left; reflexivity.
  - lia.
  - right; lia.
  - exact demo_call_queue.
  - reflexivity.
  - unfold demo_call. rewrite call_view. apply demo_call_stored.
  - unfold demo_call. rewrite call_view. exact demo_call_holds.
  - repeat constructor; discriminate.
  - lia.
  - cbn. lia.
  - intros i Hi. cbn in Hi. unfold demo_call. rewrite call_view. apply demo_call_mapped. lia.
Defined.
